(* ===== verification/_CoqProject ===== *)
-Q . S2P
Prelude.v
PyStr.v
PyFloat.v
PyDec.v
PyPath.v
DecText.v
DecParse.v
PyVal.v
OrderErrors.v
Serialization.v
Identity.v
Store.v
StoreOpen.v
StoreInv.v
Journal.v
Validation.v
Policy.v
Rules.v
ClientAuth.v
RateLimit.v
Dispatch.v
Reads.v
JsonText.v
Controls.v
Prep.v
Paper.v
PaperOnce.v
PaperThm.v
PaperLimits.v
PaperRecovery.v
RealRequest.v
Real.v
RealOnce.v
RealScope.v
RealSys.v
RealThm.v
RealOutcome.v
RealRecovery.v
Base64.v
JsonParse.v
KlineCursor.v
Events.v
Snapshots.v
Queries.v
Supervisor.v
SupConfig.v
Settings.v
Prepare.v
Admission.v
TradeCall.v
Offload.v
Instruments.v
Capabilities.v
Health.v
Agent.v
DataEvidence.v
MarketData.v
Http.v
Connections.v
AccountReads.v
