(* ===== verification/Prelude.v ===== *)
(** Verification of moomoo-api-mcp: the order path of an MCP server for the
    moomoo (Futu) OpenD gateway.

    The program.  Tools call services; a mutating call passes validation
    (services/validation.py), the trading policy (services/trading_policy.py),
    instrument rules (services/instrument_rules.py), durable controls
    (services/trading_controls.py), quota reservation (services/rate_limit.py,
    services/broker_dispatch.py) and the execution journal
    (services/execution_store.py), and reaches the broker only after a durable
    dispatch marker; its permits were planned (services/admission.py) and waited
    for (tools/offload.py) before; services/paper_execution.py composes these into one paper
    order, services/real_execution.py and services/trade_service.py into one
    REAL order, with the gateway unlocked only around the write.  Reads go through
    services/trade_queries.py and services/query_snapshots.py, notifications
    through services/trade_events.py.  What an agent must be able to rely on is
    that no order is sent twice, that a refusal means nothing was sent, that an
    unknown outcome blocks until it is accounted for, that every configured limit
    holds exactly, and that pages and event reads skip and repeat nothing.

    The library, in dependency order (each file names its source):
    - Prelude, PyStr, PyFloat, PyDec, PyPath, DecText, DecParse, PyVal, JsonText: Python
      as the code uses it.  Exceptions are values ([result], and [SE], state with
      exceptions); strings are code points below 256; floats are binary64
      ([SpecFloat]); decimals are sign, coefficient and exponent with explicit
      precision; dictionaries are ordered association lists ([dict]).
    - OrderErrors, Serialization, Identity: the [not_sent] boundary, exact
      identifiers, operation tokens and canonical requests.
    - Store, StoreOpen: [ExecutionStore], one definition per method, over an
      explicit database [db]; an [io] argument says how SQLite, the clock and
      the file system behave in each call.  StoreInv, Journal: the journal as a
      step relation over any calls, faults, crashes and restarts, its invariant
      ([db_ok], [gated]) and the theorems it gives.
    - Validation, Policy, Rules: the gates of one request.
    - RateLimit, Dispatch: the limiter over an abstract bucket (pyrate_limiter's
      in-memory bucket: class [Bucket] with [BucketLaws], instance
      [list_bucket]) and the quota pools, bundles and mutation leases over it.
      Reads: broker reads under a deadline, as readers that take the actions of
      clients, timers and worker threads in any order ([read_step]).
    - Controls: [TradingControls], with its history relation [kstep].
    - ClientAuth: what an authenticated client may call and see.  Prep: the guard
      around one mutation (services/trade_preparation.py) over Controls.
    - Paper: [PaperExecution.execute], cut at its two locks into [front],
      [admission] and [dispatch].  PaperOnce: any number of threads between
      these phases, recovery's journal calls, exits and restarts ([sys_step]),
      simulated step by step by the journal machine of StoreInv (each broker
      call follows its own marker).  PaperThm, PaperLimits: the theorems.
    - PaperRecovery: one recovery check of a paper operation, the worker's pass
      ([checking], [each_due], [one_pass], shared with RealRecovery) and what may
      follow from it.
    - RealRequest, Real: the identity, account, facts and arguments of a REAL
      request, and [RealExecution.execute] with the four order methods, cut at
      its two locks into [real_front], [real_admission] and [real_dispatch]; the
      just-in-time lock nests in the last one.  [world] is the process state:
      journal, controls, halt and the log of what the gateway was asked.
      RealOnce: what each phase does to it.  RealScope: what a prepared write
      contains.  RealSys: threads, operators, reconnects (with the SDK's own
      replay of an unlock), recovery, exits and restarts ([real_step]), simulated by the journal machine.  RealThm,
      RealOutcome: the theorems.  RealRecovery: services/real_recovery.py.
    - Events: [TradeEventBuffer], its readers against an unbounded log
      ([ring_step], [watching]).
    - Base64, JsonParse: the standard library's decoders as KlineCursor
      (tools/kline_cursor.py and its tool) uses them.
    - Snapshots: [QuerySnapshots] as a cache shared by any calls ([cache_step])
      with a client following its cursors ([paging]).  Queries:
      services/trade_queries.py and services/query_contracts.py, with a client of
      a page tool ([following]) simulated by [paging].
    - Prepare: requests prepared for an approval, with their previews
      (services/trade_preparation.py), on a [desk]: the paper process, if any,
      and the REAL [world].  Admission: services/admission.py, the permits a call
      is planned to need.  TradeCall: the order methods as called, REAL through
      the decorator and SIMULATE through their paper branches.  Offload:
      [run_async] and [run_blocking], which plan a call, wait for its permits
      among other tasks, and run it on the desk as the dispatcher's world.
    - Instruments: services/instruments.py, the valuation facts of an order's
      codes from a fresh snapshot and the metadata cache ([in_service]), as the
      lookup the order methods are given ([adapter_lookup]).
    - Capabilities: services/trading_capabilities.py, the report of what could be
      traded, over the desk the mutations run on.  Health: bounded probes as a
      machine over their worker threads ([probe_step]), the health check, and
      the classification of quote denials.  Agent: agent_server.py, the report a
      failed call is given from its chain of exceptions, the boundary around
      every tool, and over Offload a mutating call from the client's arguments to
      the answer it is shown.
    - DataEvidence: services/data_evidence.py, the bounds and the coverage of
      market data.  MarketData: services/market_data_service.py and
      services/broker_data_reads.py over a log of SDK calls, with their tools
      inside Agent's boundary.  AccountReads: the account reads of
      services/trade_service.py over such a log.
    - Http: server.py, the bearer check in front of every request and the
      operator's routes over Controls, with the requests they had over time
      ([wstep]).  Connections: who holds the stores and the gateway connections
      from [get_services] to [close_services] ([pstep]), in server.py,
      services/trade_service.py and services/base_service.py; a constructor of the
      SDK may retry for ever, closing and setting up a context do not raise.
    - Supervisor: supervisor.py as a machine over a process table, a clock and
      the moves of the outside world ([running]).  SupConfig: the command lines
      and tunables it is built from.  Settings: settings.py.

    What the theorems show.  Journal, paper and REAL systems: at most one marker
    and one broker call per operation over all interleavings and restarts, replay
    without a second call, outcomes classified by the evidence, admission closed
    while anything is unaccounted for, fail-stop storage, recovery that decides
    only on checked evidence; for REAL writes also the account, the assessment
    and the charge behind each write, and that a gateway this server left unlocked
    stops new exposure (the SDK's replay of a lost unlock is the exception, stated).  Calls: a mutating tool call, planned, made to wait and recovered in
    any way, writes once and in the environment it names, and its answer owns up
    to the write however it fails; no report denies an order that went out; plans
    that write nothing, can always be reserved, are read by the planner as by the method,
    reach their journal, and cover what their execution reserves.  Preparation:
    one pending row for a request the caller may make, and an approved row that
    the guard accepts.  Controls: exact daily budgets, approvals spent
    once and asked for over HTTP behind a credential, pauses; each credential in its
    role.  Limits: no rolling window exceeded, reservations honoured,
    first come first served, one SDK call per permit.  Gates: sound and
    fail-closed assessment, with facts the gateway gave this lookup and metadata
    no older than its lifetime, exact estimates and grids, accepted values and
    dates, canonical prices, exact identifiers.  Reads: one account the client may
    read and no other asked for or shown, exact order lookup, pages that together are one broker answer, cursors
    bound to their query and read back exactly, event reads without silent gaps,
    request slots and worker threads conserved, nothing started for a read that
    was given up.  Market data: calls within the permits planned, answers called
    complete exactly when they are.  Reports: READY only when the gates of a
    write are open, writes allowed exactly when those gates allow them, connected
    only when the gateway answered, one probe thread a service.  Start: configurations that fit together; connections with
    one owner each, all closed whatever the gateway does.  Supervisor: one
    process of each kind, bounded restarts and starts of the gateway, shutdowns that end and leave no
    process behind.

    Specifications and refinement.  [broker_called_once] and [real_written_once]
    are proved by simulations of the two systems by the journal machine; the limiter is proved
    against the laws of its bucket; the digit test on prices, the decimal sums
    and the caps are proved equal to exact arithmetic.  The event ring is related to
    the unbounded log it stands for, a paged query to one broker answer.

    Bounds.  Loops over data are structural.  [digits] uses log2 n + 1 steps,
    enough since each step divides by ten; the shortest float representation
    tries the seventeen digit counts that always suffice.  Waiting loops are
    modelled one pass at a time, between the clock readings that bound them.  The
    JSON reader has the fuel 2 n + 2 for n characters, more than which changes
    nothing ([json_loads_fuel]).  A shutdown waits as many passes as poll
    intervals fit in its timeout, and two more, and reaps at most the children
    there are and will be ([passes], [budget]); [run_ends_clean] proves both
    enough.

    Not modelled: threads inside a lock (each critical section is one step),
    cancellation of a tool call while it waits for its permits, the
    SDK, the reading of HTTP requests, MCP and data frames (a frame is its
    columns and records), tool
    registration and schemas, the time stamps and fixed texts of reports, the
    storage probes of settings.py, the deployment scripts, and the rounding of clock sums in the
    supervisor, whose times are rationals.  The interpreter's limits on recursion and
    integer digits, and cursor texts in another encoding than UTF-8, are left
    out.  Code outside the repository appears as arguments: journal faults, SDK
    answers, session names, the bucket, unique identifiers.

    Order of the work: the journal and the paper path first, then the gates and
    limits they call, then recovery; the REAL path over the same journal
    theorems; client authorization, events, snapshots, candle cursors and trade
    queries; the supervisor, settings and read deadlines; order preparation,
    admission planning and whole tool calls over all of these; the instrument
    lookup; the reports, the tool boundary and the market data methods; the
    HTTP boundary and the life of the connections.  What is
    left is glue around code outside the repository: SQLite probes of storage
    paths, tool schemas, and scripts that deploy and check a gateway. *)

(** ** Shared vocabulary

    Python exceptions as values, the result and state-exception monads every
    component is written in, the automation and the list lemmas the components
    share. *)

From Stdlib Require Export ZArith Lia.
From stdpp Require Export base list strings gmap sets fin_maps sorting.

#[global] Open Scope string_scope.
#[global] Open Scope Z_scope.

(** ** Exceptions

    The exception classes the modelled code raises or catches.  The argument is
    the constant part of the message; interpolated values are left out. *)

Inductive exn : Type :=
  | ValueError (msg : string)
  | TypeError (msg : string)
  | KeyError (msg : string)
  | RuntimeError (msg : string)
  | AssertionError
  | OverflowError
  | InvalidOperation
  (* moomoo_mcp classes, with their Python base class *)
  | ExecutionStoreError (msg : string)        (* RuntimeError *)
  | ExecutionConflict (msg : string)          (* ValueError *)
  | TradingPolicyError (msg : string)         (* RuntimeError *)
  | TradingModeConfigError (msg : string)     (* ValueError *)
  | TradingControlError (msg : string)        (* RuntimeError *)
  | IdentityTokenValidationError (field constraint : string)  (* ValueError *)
  | ClientAuthorizationError (msg : string)   (* PermissionError *)
  | OrderNotSentError (msg : string) (admitted : bool)  (* RuntimeError *)
  | OrderOutcomeUnknownError (msg : string)   (* RuntimeError *)
  | OrderReceiptUnreadableError (msg : string) (* RuntimeError *)
  | ProviderRateLimitError (retry_after : Z)  (* RuntimeError *)
  | TradeQueryError (code operation msg : string) (* RuntimeError *)
  | RecoveryEvidenceError (msg : string)      (* ValueError *)
  | IdentifierSerializationError (msg : string) (* ValueError *)
  | CursorError (msg : string)                (* ValueError *)
  | InstrumentLookupError (msg : string)      (* RuntimeError *)
  | BrokerReadOverloadError (pending maximum : Z)       (* RuntimeError *)
  | BrokerReadTimeoutError (operation phase : string)  (* TimeoutError *)
  | GatewayLoginError (msg : string)          (* Exception *)
  | SupervisorConfigError (msg : string)      (* Exception *)
  | SqliteError (msg : string)                (* sqlite3.Error *)
  | BrokerError (msg : string).               (* any exception out of the SDK *)

#[export] Instance exn_eq_dec : EqDecision exn.
Proof. solve_decision. Defined.

(** [isinstance(exc, ValueError)] and [isinstance(exc, RuntimeError)]. *)
Definition is_value_error (e : exn) : bool :=
  match e with
  | ValueError _ | ExecutionConflict _ | TradingModeConfigError _
  | IdentityTokenValidationError _ _ | RecoveryEvidenceError _
  | IdentifierSerializationError _ | CursorError _ => true
  | _ => false
  end.

Definition is_runtime_error (e : exn) : bool :=
  match e with
  | RuntimeError _ | ExecutionStoreError _ | TradingPolicyError _
  | TradingControlError _ | OrderNotSentError _ _ | OrderOutcomeUnknownError _
  | OrderReceiptUnreadableError _ | ProviderRateLimitError _
  | TradeQueryError _ _ _ | InstrumentLookupError _ | BrokerReadOverloadError _ _ => true
  | _ => false
  end.

(** ** Results *)

Inductive result (A : Type) : Type :=
  | Ok (a : A)
  | Err (e : exn).
Arguments Ok {A} _.
Arguments Err {A} _.

Definition bind {A B} (r : result A) (f : A -> result B) : result B :=
  match r with Ok a => f a | Err e => Err e end.

Definition is_ok {A} (r : result A) : bool :=
  match r with Ok _ => true | Err _ => false end.

Declare Scope py_scope.
Delimit Scope py_scope with py.

Notation "x <- c ;; k" := (bind c (fun x => k))
  (at level 100, c at next level, right associativity) : py_scope.
Notation "'let!' p := c 'in' k" := (bind c (fun x => match x with p => k end))
  (at level 100, p pattern, c at level 200, k at level 200) : py_scope.
Notation "c ;;; k" := (bind c (fun _ => k))
  (at level 100, right associativity) : py_scope.

(** [if cond: raise e] *)
Definition refuse_if (cond : bool) (e : exn) : result unit :=
  if cond then Err e else Ok tt.

Fixpoint mapM {A B} (f : A -> result B) (l : list A) : result (list B) :=
  match l with
  | [] => Ok []
  | a :: l => bind (f a) (fun b => bind (mapM f l) (fun bs => Ok (b :: bs)))
  end.

Fixpoint iterM {A} (f : A -> result unit) (l : list A) : result unit :=
  match l with
  | [] => Ok tt
  | a :: l => bind (f a) (fun _ => iterM f l)
  end.

(** [[x for x in l if f(x)]] with a condition that may raise. *)
Fixpoint filterM {A} (f : A -> result bool) (l : list A) : result (list A) :=
  match l with
  | [] => Ok []
  | a :: l => bind (f a) (fun b => bind (filterM f l) (fun l => Ok (if b then a :: l else l)))
  end.

Lemma bind_ok {A B} (r : result A) (f : A -> result B) b :
  bind r f = Ok b <-> exists a, r = Ok a /\ f a = Ok b.
Proof. destruct r; naive_solver. Qed.

Lemma refuse_if_ok c e u : refuse_if c e = Ok u <-> c = false.
Proof. destruct c, u; naive_solver. Qed.

Lemma iterM_ok {A} (f : A -> result unit) l u :
  iterM f l = Ok u <-> Forall (fun a => f a = Ok tt) l.
Proof.
  induction l as [|a l IH]; simpl.
  - split; [constructor|by destruct u].
  - rewrite bind_ok, Forall_cons, <-IH. split; [|naive_solver].
    intros ([] & ? & ?); auto.
Qed.

Lemma mapM_ok_length {A B} (f : A -> result B) l bs :
  mapM f l = Ok bs -> length bs = length l.
Proof.
  revert bs; induction l as [|a l IH]; simpl; intros bs; [naive_solver|].
  rewrite bind_ok; intros (b & _ & H). apply bind_ok in H as (bs' & H & [= <-]).
  simpl. f_equal. by apply IH.
Qed.

Lemma filterM_elem {A} (f : A -> result bool) l l' a :
  filterM f l = Ok l' -> a ∈ l' -> a ∈ l /\ f a = Ok true.
Proof.
  revert l'. induction l as [|b l IH]; intros l' H Ha; simpl in H.
  - injection H as <-. by apply elem_of_nil in Ha.
  - apply bind_ok in H as (t & Ht & H). apply bind_ok in H as (l0 & Hl & H). destruct t; injection H as <-.
    + apply elem_of_cons in Ha as [->|Ha]; [split; [by left|done]|].
      destruct (IH _ Hl Ha). split; [by right|done].
    + destruct (IH _ Hl Ha). split; [by right|done].
Qed.

Lemma mapM_Forall2 {A B} (f : A -> result B) l bs :
  mapM f l = Ok bs -> Forall2 (fun a b => f a = Ok b) l bs.
Proof.
  revert bs; induction l as [|a l IH]; simpl; intros bs H; [injection H as <-; constructor|].
  apply bind_ok in H as (b & Hb & H). apply bind_ok in H as (bs' & H & [= <-]). constructor; auto.
Qed.

Lemma mapM_elem {A B} (f : A -> result B) l bs b :
  mapM f l = Ok bs -> b ∈ bs -> exists a, a ∈ l /\ f a = Ok b.
Proof.
  intros H Hb. apply mapM_Forall2 in H. apply list_elem_of_lookup in Hb as [i Hi].
  destruct (Forall2_lookup_r _ _ _ _ _ H Hi) as (a & Ha & Hf). exists a. split; [|done].
  by apply list_elem_of_lookup_2 in Ha.
Qed.

(** What a filter that did not raise kept, and why. *)
Lemma filterM_split {A} (f : A -> result bool) l l' :
  filterM f l = Ok l' ->
  exists keep, Forall (fun a => f a = Ok (keep a)) l /\ l' = List.filter keep l.
Proof.
  intros H. exists (fun a => match f a with Ok b => b | Err _ => false end).
  revert l' H. induction l as [|a l IH]; simpl; intros l' H; [by injection H as <-|].
  apply bind_ok in H as (b & Hb & H). apply bind_ok in H as (l0 & Hl & H). destruct (IH _ Hl) as [IH1 IH2].
  split; [by constructor; [rewrite Hb|]|]. rewrite Hb, <-IH2. by destruct b; injection H as <-.
Qed.

(** ** State and exceptions

    A Python method over mutable object state: an exception leaves the state
    as it was when it was raised. *)

Definition SE (S A : Type) : Type := S -> result A * S.

Definition se_ret {S A} (a : A) : SE S A := fun s => (Ok a, s).
Definition se_raise {S A} (e : exn) : SE S A := fun s => (Err e, s).
Definition se_bind {S A B} (c : SE S A) (f : A -> SE S B) : SE S B :=
  fun s => match c s with
           | (Ok a, s') => f a s'
           | (Err e, s') => (Err e, s')
           end.
Definition se_get {S} : SE S S := fun s => (Ok s, s).
Definition se_modify {S} (f : S -> S) : SE S unit := fun s => (Ok tt, f s).
Definition se_lift {S A} (r : result A) : SE S A := fun s => (r, s).
(** [try: c  except Exception as e: h e] *)
Definition se_try {S A} (c : SE S A) (h : exn -> SE S A) : SE S A :=
  fun s => match c s with
           | (Ok a, s') => (Ok a, s')
           | (Err e, s') => h e s'
           end.

Declare Scope se_scope.
Delimit Scope se_scope with se.
Notation "x <- c ;; k" := (se_bind c (fun x => k))
  (at level 100, c at next level, right associativity) : se_scope.
Notation "'do!' p := c 'in' k" := (se_bind c (fun x => match x with p => k end))
  (at level 100, p pattern, c at level 200, k at level 200) : se_scope.
Notation "c ;;; k" := (se_bind c (fun _ => k))
  (at level 100, right associativity) : se_scope.

Lemma se_bind_ok {S A B} (c : SE S A) (f : A -> SE S B) s b s' :
  se_bind c f s = (Ok b, s') ->
  exists a s1, c s = (Ok a, s1) /\ f a s1 = (Ok b, s').
Proof. unfold se_bind. destruct (c s) as [[]]; naive_solver. Qed.

(** *** Computations that relate their start to their end *)

Section preserving.
Context {S : Type} (R : relation S) {HR : PreOrder R}.

Definition preserves {A} (c : SE S A) : Prop := forall s r s', c s = (r, s') -> R s s'.

Lemma preserves_ret {A} (a : A) : preserves (se_ret a).
Proof. intros s ? ? [= <- <-]. reflexivity. Qed.
Lemma preserves_raise {A} e : preserves (A := A) (se_raise e).
Proof. intros s ? ? [= <- <-]. reflexivity. Qed.
Lemma preserves_get : preserves se_get.
Proof. intros s ? ? [= <- <-]. reflexivity. Qed.
Lemma preserves_lift {A} (r : result A) : preserves (se_lift r).
Proof. intros s ? ? [= <- <-]. reflexivity. Qed.
Lemma preserves_bind {A B} (c : SE S A) (f : A -> SE S B) :
  preserves c -> (forall a, preserves (f a)) -> preserves (se_bind c f).
Proof.
  intros Hc Hf s r s' H. unfold se_bind in H. destruct (c s) as [[a|e] s1] eqn:E.
  - transitivity s1; [by eapply Hc|by eapply Hf].
  - injection H as _ <-. by eapply Hc.
Qed.
Lemma preserves_try {A} (c : SE S A) h :
  preserves c -> (forall e, preserves (h e)) -> preserves (se_try c h).
Proof.
  intros Hc Hh s r s' H. unfold se_try in H. destruct (c s) as [[a|e] s1] eqn:E.
  - injection H as _ <-. by eapply Hc.
  - transitivity s1; [by eapply Hc|by eapply Hh].
Qed.
End preserving.

Create HintDb preserves.
#[export] Hint Extern 1 (preserves ?R (se_ret _)) => apply (preserves_ret R) : preserves.
#[export] Hint Extern 1 (preserves ?R (se_raise _)) => apply (preserves_raise R) : preserves.
#[export] Hint Extern 1 (preserves ?R se_get) => apply (preserves_get R) : preserves.
#[export] Hint Extern 1 (preserves ?R (se_lift _)) => apply (preserves_lift R) : preserves.

(** Goes through the binds and branches of a computation. *)
Ltac preserves :=
  repeat match goal with |- preserves ?R (se_bind _ _) => apply (preserves_bind R); [|intros ?] end;
  repeat match goal with |- preserves _ (match ?x with _ => _ end) => destruct x end;
  auto with preserves.

(** ** Automation *)

(** Peel the binds and guards of a successful computation into hypotheses. *)
Ltac ok_step :=
  match goal with
  | H : bind _ _ = Ok _ |- _ =>
      apply bind_ok in H; destruct H as (? & ? & ?)
  | H : refuse_if _ _ = Ok _ |- _ => apply refuse_if_ok in H
  | H : Ok _ = Ok _ |- _ => injection H; clear H; intros; subst
  | H : Err _ = Ok _ |- _ => discriminate H
  | H : Ok _ = Err _ |- _ => discriminate H
  end.
Ltac ok_inv := repeat ok_step.

(** Split on the test of the first [if] or [match] of the goal/a hypothesis. *)
Ltac case_test :=
  match goal with
  | |- context [if ?b then _ else _] => destruct b eqn:?
  | |- context [match ?x with _ => _ end] => destruct x eqn:?
  end.
Ltac case_test_in H :=
  match type of H with
  | context [if ?b then _ else _] => destruct b eqn:?
  | context [match ?x with _ => _ end] => destruct x eqn:?
  end.

(** Boolean connectives to propositions, everywhere. *)
Ltac bools :=
  repeat match goal with
  | H : (_ && _)%bool = true |- _ => apply andb_true_iff in H; destruct H
  | H : (_ || _)%bool = false |- _ => apply orb_false_iff in H; destruct H
  | H : negb _ = true |- _ => apply negb_true_iff in H
  | H : negb _ = false |- _ => apply negb_false_iff in H
  | H : bool_decide _ = true |- _ => apply bool_decide_eq_true in H
  | H : bool_decide _ = false |- _ => apply bool_decide_eq_false in H
  | H : (_ =? _) = true |- _ => apply Z.eqb_eq in H
  | H : (_ =? _) = false |- _ => apply Z.eqb_neq in H
  | H : (_ <=? _) = true |- _ => apply Z.leb_le in H
  | H : (_ <=? _) = false |- _ => apply Z.leb_gt in H
  | H : (_ <? _) = true |- _ => apply Z.ltb_lt in H
  | H : (_ <? _) = false |- _ => apply Z.ltb_ge in H
  end.

(** ** Sums over lists of integers *)

Fixpoint zsum (l : list Z) : Z :=
  match l with [] => 0 | x :: l => x + zsum l end.

Lemma zsum_app l k : zsum (l ++ k) = zsum l + zsum k.
Proof. induction l; simpl; lia. Qed.

Lemma zsum_nonneg l : Forall (fun x => 0 <= x) l -> 0 <= zsum l.
Proof. induction 1; simpl; lia. Qed.

Lemma zsum_perm l k : l ≡ₚ k -> zsum l = zsum k.
Proof. induction 1; simpl; lia. Qed.

(** A sum over the elements of a list, one of which is replaced. *)
Lemma zsum_insert {A} (f : A -> Z) l i x y :
  l !! i = Some x -> zsum (map f (<[i := y]> l)) = zsum (map f l) - f x + f y.
Proof.
  revert i. induction l as [|a l IH]; intros [|i] H; [done|done|injection H as ->; cbn; lia|].
  change (zsum (map f (<[S i:=y]> (a :: l)))) with (f a + zsum (map f (<[i:=y]> l))). rewrite (IH _ H). cbn. lia.
Qed.

(** ** Reachability by a step relation *)

Inductive star {A : Type} (R : A -> A -> Prop) : A -> A -> Prop :=
  | star_refl a : star R a a
  | star_snoc a b c : star R a b -> R b c -> star R a c.

Lemma star_invariant {A} (R : A -> A -> Prop) (I : A -> Prop) a b :
  (forall x y, I x -> R x y -> I y) -> I a -> star R a b -> I b.
Proof. intros Hstep HI; induction 1; eauto. Qed.

Lemma star_trans {A} (R : A -> A -> Prop) a b c :
  star R a b -> star R b c -> star R a c.
Proof. intros Hab Hbc; induction Hbc; eauto using star. Qed.

Create HintDb star.
#[export] Hint Constructors star : star.
#[export] Hint Resolve star_trans : star.
