(* ===== verification/PyStr.v ===== *)
(** Python [str] as a sequence of code points below 256 (Latin-1): the
    character classes and the string methods the modelled code calls, and the
    decimal digits of an integer ([str(int)] and [int(str)]). *)

From Stdlib Require Export Ascii.
From S2P Require Import Prelude.

#[global] Arguments String.append : simpl nomatch.

(** ** Characters *)

Definition code (c : ascii) : Z := Z.of_N (N_of_ascii c).
Definition chr (z : Z) : ascii := ascii_of_N (Z.to_N z).

Definition in_range (lo hi z : Z) : bool := (lo <=? z) && (z <=? hi).

(** [str.isspace] on one Latin-1 character. *)
Definition is_space (c : ascii) : bool :=
  let z := code c in
  in_range 9 13 z || in_range 28 32 z || (z =? 133) || (z =? 160).

(** [str.isprintable]: everything but controls, the non-ASCII spaces and the
    soft hyphen. *)
Definition is_printable (c : ascii) : bool :=
  let z := code c in
  in_range 32 126 z || (in_range 161 255 z && negb (z =? 173)).

(** [str.isdecimal]: decimal digits only; [str.isdigit]: superscripts too. *)
Definition is_decimal (c : ascii) : bool := in_range 48 57 (code c).
Definition is_digit (c : ascii) : bool :=
  let z := code c in
  in_range 48 57 z || (z =? 178) || (z =? 179) || (z =? 185).

Definition is_ascii (c : ascii) : bool := code c <? 128.

Definition is_alpha (c : ascii) : bool :=
  let z := code c in
  in_range 65 90 z || in_range 97 122 z || (z =? 170) || (z =? 181) || (z =? 186)
  || in_range 192 214 z || in_range 216 246 z || in_range 248 255 z.

(** Case mapping inside Latin-1.  The three letters whose upper case lies
    outside Latin-1 (or is two letters) are left alone: none of them maps to a
    string over A-Z that the code compares with, apart from sharp s, which maps
    to two letters. *)
Definition upper_char (c : ascii) : string :=
  let z := code c in
  if z =? 223 then "SS"
  else if in_range 97 122 z || in_range 224 246 z || in_range 248 254 z
       then String (chr (z - 32)) "" else String c "".
Definition lower_char (c : ascii) : ascii :=
  let z := code c in
  if in_range 65 90 z || in_range 192 214 z || in_range 216 222 z
  then chr (z + 32) else c.

(** ** Strings *)

Fixpoint str_forall (p : ascii -> bool) (s : string) : bool :=
  match s with "" => true | String c s => p c && str_forall p s end.

Definition nonempty (s : string) : bool := match s with "" => false | _ => true end.

Definition isascii (s : string) : bool := str_forall is_ascii s.
Definition isprintable (s : string) : bool := str_forall is_printable s.
Definition isdecimal (s : string) : bool := nonempty s && str_forall is_decimal s.
Definition isdigit (s : string) : bool := nonempty s && str_forall is_digit s.
Definition isalpha (s : string) : bool := nonempty s && str_forall is_alpha s.
Definition has_space (s : string) : bool := negb (str_forall (fun c => negb (is_space c)) s).

Definition len (s : string) : Z := Z.of_nat (String.length s).

Fixpoint upper (s : string) : string :=
  match s with "" => "" | String c s => upper_char c ++ upper s end.
Fixpoint lower (s : string) : string :=
  match s with "" => "" | String c s => String (lower_char c) (lower s) end.

Fixpoint lstrip (s : string) : string :=
  match s with
  | String c s' => if is_space c then lstrip s' else s
  | "" => ""
  end.
(** [rstrip] removes characters satisfying [p] from the right. *)
Fixpoint rstrip_if (p : ascii -> bool) (s : string) : string :=
  match s with
  | "" => ""
  | String c s => match rstrip_if p s with
                  | "" => if p c then "" else String c ""
                  | s' => String c s'
                  end
  end.
Definition rstrip := rstrip_if is_space.
Definition strip (s : string) : string := rstrip (lstrip s).

Definition mem (s : string) (l : list string) : bool := bool_decide (s ∈ l).

(** [s.partition(sep)] for a one-character separator: text before, whether the
    separator was found, text after. *)
Fixpoint partition (sep : ascii) (s : string) : string * bool * string :=
  match s with
  | "" => ("", false, "")
  | String c s' =>
      if Ascii.eqb c sep then ("", true, s')
      else let '(a, f, b) := partition sep s' in (String c a, f, b)
  end.

(** [s.split(sep)] for a one-character separator. *)
Fixpoint split (sep : ascii) (s : string) : list string :=
  match s with
  | "" => [""]
  | String c s' =>
      if Ascii.eqb c sep then "" :: split sep s'
      else match split sep s' with
           | p :: ps => String c p :: ps
           | [] => [String c ""]
           end
  end.

Definition startswith (p s : string) : bool := String.prefix p s.

Lemma mem_true s l : mem s l = true <-> s ∈ l.
Proof. apply bool_decide_eq_true. Qed.
Lemma mem_false s l : s ∉ l -> mem s l = false.
Proof. apply bool_decide_eq_false_2. Qed.

Lemma nonempty_true s : nonempty s = true <-> s <> "".
Proof. destruct s; naive_solver. Qed.

Lemma str_forall_app p s t : str_forall p (s ++ t) = str_forall p s && str_forall p t.
Proof. induction s as [|c s IH]; simpl; [done|]. by rewrite IH, andb_assoc. Qed.

Lemma str_forall_impl (p q : ascii -> bool) s :
  (forall c, p c = true -> q c = true) -> str_forall p s = true -> str_forall q s = true.
Proof.
  intros Hpq. induction s as [|c s IH]; simpl; [done|].
  rewrite !andb_true_iff. naive_solver.
Qed.

Lemma is_decimal_ascii c : is_decimal c = true -> is_ascii c = true.
Proof. unfold is_decimal, is_ascii, in_range. intros; bools. apply Z.ltb_lt. lia. Qed.

Lemma isdecimal_isascii s : isdecimal s = true -> isascii s = true.
Proof.
  unfold isdecimal, isascii. intros; bools.
  eapply (str_forall_impl is_decimal); eauto using is_decimal_ascii.
Qed.

Lemma split_nonempty sep s : split sep s <> [].
Proof. destruct s; simpl; [done|]. case_match; [done|]. by case_match. Qed.

Lemma partition_app_found sep a b :
  str_forall (fun c => negb (Ascii.eqb c sep)) a = true ->
  partition sep (a ++ String sep b) = (a, true, b).
Proof.
  induction a as [|c a IH]; simpl; [by rewrite Ascii.eqb_refl|].
  intros; bools. rewrite H. by rewrite IH.
Qed.

(** ** Decimal digits *)

Fixpoint digits_fuel (fuel : nat) (n : Z) : list Z :=
  match fuel with
  | O => []
  | S f => if n <? 10 then [n] else digits_fuel f (n / 10) ++ [n mod 10]
  end.
(** The decimal digits of a non-negative integer; [log2 n + 1] steps suffice,
    since every step at least halves [n]. *)
Definition digits (n : Z) : list Z := digits_fuel (S (Z.to_nat (Z.log2 n))) n.

Definition undigits (l : list Z) : Z := fold_left (fun a d => a * 10 + d) l 0.

Definition num_digits (n : Z) : Z := Z.of_nat (length (digits n)).

Definition digit_char (d : Z) : ascii := chr (48 + d).
Definition char_digit (c : ascii) : Z := code c - 48.

Fixpoint string_of (l : list ascii) : string :=
  match l with [] => "" | c :: l => String c (string_of l) end.
Fixpoint chars_of (s : string) : list ascii :=
  match s with "" => [] | String c s => c :: chars_of s end.

Definition str_nat (n : Z) : string := string_of (map digit_char (digits n)).
(** [str(z)] *)
Definition str_int (z : Z) : string :=
  if z <? 0 then String "-" (str_nat (- z)) else str_nat z.
(** [int(s)] for [s] accepted by [isdecimal]. *)
Definition int_of (s : string) : Z := undigits (map char_digit (chars_of s)).

Lemma undigits_snoc l d : undigits (l ++ [d]) = undigits l * 10 + d.
Proof. unfold undigits. by rewrite fold_left_app. Qed.

Lemma digits_fuel_spec fuel n :
  0 <= n -> n < 2 ^ Z.of_nat fuel ->
  let l := digits_fuel fuel n in
  (0 < fuel)%nat ->
  undigits l = n /\ Forall (fun d => 0 <= d < 10) l /\ l <> [].
Proof.
  revert n; induction fuel as [|f IH]; intros n Hn Hlt l Hf; [lia|].
  subst l; simpl. destruct (Z.ltb_spec n 10) as [Hs|Hs].
  - unfold undigits; simpl. split_and!; [lia| |done]. repeat constructor; lia.
  - rewrite Nat2Z.inj_succ, Z.pow_succ_r in Hlt by lia.
    assert (Hq : 0 <= n / 10) by (apply Z.div_pos; lia).
    assert (Hq2 : n / 10 < 2 ^ Z.of_nat f).
    { apply Z.div_lt_upper_bound; lia. }
    destruct f as [|f']; [simpl in Hlt; lia|].
    destruct (IH (n / 10) Hq Hq2 ltac:(lia)) as (Hv & Hd & Hne).
    rewrite undigits_snoc, Hv. split_and!.
    + pose proof (Z.div_mod n 10). lia.
    + apply Forall_app. split; [done|]. constructor; [|constructor].
      apply Z.mod_pos_bound. lia.
    + intros E. by apply app_eq_nil in E as [_ ?].
Qed.

Lemma digits_spec n :
  0 <= n ->
  undigits (digits n) = n /\ Forall (fun d => 0 <= d < 10) (digits n) /\ digits n <> [].
Proof.
  intros Hn. unfold digits. apply digits_fuel_spec; [done| |lia].
  rewrite Nat2Z.inj_succ, Z2Nat.id by apply Z.log2_nonneg.
  destruct (Z.eq_dec n 0) as [->|]; [simpl; lia|]. apply Z.log2_spec. lia.
Qed.

Lemma undigits_bound l :
  Forall (fun d => 0 <= d < 10) l -> 0 <= undigits l < 10 ^ Z.of_nat (length l).
Proof.
  induction l as [|d l IH] using rev_ind; [simpl; unfold undigits; simpl; lia|].
  rewrite Forall_app, Forall_singleton. intros [Hl Hd]. specialize (IH Hl).
  rewrite undigits_snoc, length_app, Nat2Z.inj_add. simpl (Z.of_nat (length [d])).
  rewrite Z.pow_add_r by lia. lia.
Qed.

Lemma digits_fuel_length fuel n k :
  0 <= n < 10 ^ Z.of_nat k -> (0 < k)%nat -> (length (digits_fuel fuel n) <= k)%nat.
Proof.
  revert n k; induction fuel as [|f IH]; intros n k Hn Hk; simpl; [lia|].
  destruct (Z.ltb_spec n 10); [simpl; lia|].
  rewrite length_app; simpl.
  destruct k as [|[|k]]; [lia|simpl in Hn; lia|].
  assert (length (digits_fuel f (n / 10)) <= S k)%nat; [|lia].
  apply IH; [|lia]. rewrite Nat2Z.inj_succ, Z.pow_succ_r in Hn by lia.
  split; [apply Z.div_pos; lia|]. apply Z.div_lt_upper_bound; lia.
Qed.

(** The digit count is the decimal length: [n] has at most [k] digits exactly
    when [n < 10 ^ k]. *)
Lemma num_digits_le n k : 0 <= n -> 1 <= k -> num_digits n <= k <-> n < 10 ^ k.
Proof.
  intros Hn Hk. unfold num_digits. split; intros H.
  - destruct (digits_spec n Hn) as (Hv & Hd & _).
    rewrite <-Hv. eapply Z.lt_le_trans; [by apply undigits_bound|].
    apply Z.pow_le_mono_r; lia.
  - unfold digits. rewrite <-(Z2Nat.id k) by lia. apply inj_le.
    apply digits_fuel_length; [rewrite Z2Nat.id by lia; lia|lia].
Qed.

Lemma num_digits_pos n : 0 <= n -> 1 <= num_digits n.
Proof.
  intros Hn. destruct (digits_spec n Hn) as (_ & _ & Hne).
  unfold num_digits. destruct (digits n); simpl; [done|lia].
Qed.

Lemma char_digit_char d : 0 <= d < 10 -> char_digit (digit_char d) = d.
Proof.
  intros H. unfold char_digit, digit_char, code, chr.
  rewrite N_ascii_embedding by lia. lia.
Qed.

Lemma digit_char_decimal d : 0 <= d < 10 -> is_decimal (digit_char d) = true.
Proof.
  intros H. pose proof (char_digit_char d H) as E. unfold char_digit in E.
  unfold is_decimal, in_range. apply andb_true_iff. rewrite !Z.leb_le. lia.
Qed.

Lemma chars_of_string l : chars_of (string_of l) = l.
Proof. induction l; simpl; congruence. Qed.

Lemma string_of_chars s : string_of (chars_of s) = s.
Proof. induction s; simpl; congruence. Qed.

Lemma str_forall_chars p s : str_forall p s = forallb p (chars_of s).
Proof. induction s; simpl; congruence. Qed.

Lemma int_of_str n : 0 <= n -> int_of (str_nat n) = n.
Proof.
  intros Hn. destruct (digits_spec n Hn) as (Hv & Hd & _).
  unfold int_of, str_nat. rewrite chars_of_string, map_map.
  rewrite <-Hv at 2. f_equal. clear Hv.
  induction Hd; simpl; [done|]. by rewrite char_digit_char, IHHd.
Qed.

Lemma str_nat_isdecimal n : 0 <= n -> isdecimal (str_nat n) = true.
Proof.
  intros Hn. destruct (digits_spec n Hn) as (_ & Hd & Hne).
  unfold isdecimal, str_nat. destruct (digits n) as [|d l]; [done|].
  simpl. inversion Hd; subst. rewrite digit_char_decimal by done. simpl.
  clear Hne H1 Hd. induction H2; simpl; [done|].
  by rewrite digit_char_decimal, IHForall.
Qed.

Lemma str_nat_inj n m : 0 <= n -> 0 <= m -> str_nat n = str_nat m -> n = m.
Proof. intros Hn Hm E. rewrite <-(int_of_str n), <-(int_of_str m) by done. by rewrite E. Qed.

Lemma int_of_nonneg s : isdecimal s = true -> 0 <= int_of s.
Proof.
  unfold isdecimal, int_of. intros; bools. apply undigits_bound.
  rewrite str_forall_chars in H0. clear H.
  induction (chars_of s) as [|c l IH]; simpl in *; [constructor|]. bools.
  constructor; [|auto]. unfold is_decimal, in_range in H. bools.
  unfold char_digit. lia.
Qed.

Create HintDb pystr.
#[export] Hint Resolve num_digits_pos int_of_nonneg str_nat_isdecimal
  isdecimal_isascii : pystr.

(** ** Prefixes and parts *)

Lemma prefix_app p s : String.prefix p (p ++ s) = true.
Proof. induction p as [|c p IH]; simpl; [by destruct s|]. by destruct (Ascii.ascii_dec c c). Qed.

Lemma substring_all s : String.substring 0 (String.length s) s = s.
Proof. induction s as [|c s IH]; simpl; [done|]. by rewrite IH. Qed.

Lemma length_app_str s t : String.length (s ++ t) = (String.length s + String.length t)%nat.
Proof. induction s; simpl; auto. Qed.
