(* ===== verification/PyFloat.v ===== *)
(** Python [float] as IEEE-754 binary64, through the axiom-free [SpecFloat]
    model: comparison, product, conversion from [int], and correctly rounded
    conversion from a decimal.  [nan] compares false with everything, which is
    what the limit checks of the program have to survive. *)

From Stdlib Require Import SpecFloat.
From S2P Require Import Prelude PyStr.

Abbreviation float := spec_float.

Definition f_prec : Z := 53.
Definition f_emax : Z := 1024.

Definition f_mul (x y : float) : float := SFmul f_prec f_emax x y.
Definition f_abs (x : float) : float := SFabs x.
Definition f_lt (x y : float) : bool := SFltb x y.
Definition f_le (x y : float) : bool := SFleb x y.
Definition f_gt (x y : float) : bool := SFltb y x.
Definition f_eq (x y : float) : bool := SFeqb x y.
Definition f_zero : float := S754_zero false.

Definition is_nan (x : float) : bool := match x with S754_nan => true | _ => false end.
(** [math.isfinite] *)
Definition is_finite (x : float) : bool :=
  match x with S754_zero _ | S754_finite _ _ _ => true | _ => false end.

(** [float(z)] for an [int], rounded to nearest even; out of range raises. *)
Definition f_round_Z (z : Z) : float := binary_normalize f_prec f_emax z 0 false.
Definition f_of_Z (z : Z) : result float :=
  let f := f_round_Z z in if is_finite f then Ok f else Err OverflowError.

(** A finite positive number, as [_require_positive_finite] and
    [normalize_quote] accept it. *)
Definition f_positive (x : float) : bool := is_finite x && f_lt f_zero x.

(** [max(a, *rest)] over numbers: the first of the greatest. *)
Definition f_max2 (x y : float) : float := if f_gt y x then y else x.
Definition f_max (x : float) (l : list float) : float := fold_left f_max2 l x.

(** Correctly rounded value of the decimal [c * 10 ^ s], [0 <= c]. *)
Definition f_of_decimal (c s : Z) : float :=
  if c =? 0 then f_zero
  else if 0 <=? s then f_round_Z (c * 10 ^ s)
  else
    let den := 10 ^ (- s) in
    let sh := Z.max 0 (64 + Z.log2 den - Z.log2 c) in
    let q := (c * 2 ^ sh) / den in
    let r := (c * 2 ^ sh) mod den in
    binary_round_aux f_prec f_emax false q (- sh) (new_location den r).

(** ** Parsing [float(text)] *)

Definition is_sign (c : ascii) : bool := Ascii.eqb c "+" || Ascii.eqb c "-".

(** Digits with single underscores between them; [None] when malformed. *)
Fixpoint parse_digits_us (prev : bool) (l : list ascii) : option (list ascii) :=
  match l with
  | [] => Some []
  | c :: l' =>
      if is_decimal c then c' ← parse_digits_us true l'; Some (c :: c')
      else if Ascii.eqb c "_" then
        match l' with
        | d :: _ => if prev && is_decimal d then parse_digits_us false l' else None
        | [] => None
        end
      else None
  end.

Definition split_sign (s : string) : bool * string :=
  match s with
  | String c s' => if is_sign c then (Ascii.eqb c "-", s') else (false, s)
  | "" => (false, s)
  end.

(** The number grammar shared by [float] and [Decimal]: a mantissa with at most
    one point and at least one digit, and an optional exponent.  Yields the
    coefficient and the power of ten. *)
Definition parse_number (digs : string -> option (list ascii)) (s : string) : option (Z * Z) :=
  let '(mant, has_e, ex) := partition "e" (lower s) in
  let '(ip, has_p, fp) := partition "." mant in
  di ← digs ip;
  df ← digs fp;
  if negb (nonempty (string_of di) || nonempty (string_of df)) then None
  else
    let coef := undigits (map char_digit (di ++ df)) in
    let shift := - Z.of_nat (length df) in
    if negb has_e then Some (coef, shift)
    else
      let '(neg, ed) := split_sign ex in
      de ← digs ed;
      if negb (nonempty (string_of de)) then None
      else let e := undigits (map char_digit de) in
           Some (coef, shift + (if neg then - e else e)).

Definition f_neg_if (b : bool) (x : float) : float := if b then SFopp x else x.

(** [float(text)]; [None] is [ValueError]. *)
Definition f_parse (text : string) : option float :=
  let '(neg, s) := split_sign (strip text) in
  let l := lower s in
  if mem l ["inf"; "infinity"] then Some (S754_infinity neg)
  else if bool_decide (l = "nan") then Some S754_nan
  else
    '(c, e) ← parse_number (fun t => parse_digits_us false (chars_of t)) s;
    Some (f_neg_if neg (f_of_decimal c e)).

Example f_parse_ex :
  map f_parse ["500"; " 2.5e1 "; "1_000"; "nan"; "-inf"; "1__0"; "."; "5e-324"] =
  [ Some (f_round_Z 500); Some (f_round_Z 25); Some (f_round_Z 1000); Some S754_nan;
    Some (S754_infinity true); None; None; Some (S754_finite false 1 (-1074)) ].
Proof. vm_compute. reflexivity. Qed.

(** ** Shortest decimal: [repr(float)] *)

(** Floor of the decimal logarithm of [m * 2 ^ e], for [0 < m]. *)
Definition f_log10 (m e : Z) : Z :=
  if 0 <=? e then num_digits (m * 2 ^ e) - 1
  else
    let den := 2 ^ (- e) in
    if den <=? m then num_digits (m / den) - 1
    else let j := num_digits (den / m) in
         if den <=? m * 10 ^ (j - 1) then 1 - j else - j.

(** [a * 10 ^ s] compared with [m * 2 ^ e], twice the distances compared. *)
Definition cmp_scaled (a s m e : Z) : comparison :=
  let k := Z.max 0 (Z.max (- s) (- e)) in
  (a * 10 ^ (s + k) * 2 ^ k ?= m * 2 ^ (e + k) * 10 ^ k).

Fixpoint shortest (fuel : nat) (k : Z) (f : float) (m e lg : Z) : Z * Z :=
  let s := lg - k + 1 in
  let lo := if 0 <=? s
            then (if 0 <=? e then (m * 2 ^ e) / 10 ^ s else m / (10 ^ s * 2 ^ (- e)))
            else (if 0 <=? e then m * 2 ^ e * 10 ^ (- s) else (m * 10 ^ (- s)) / 2 ^ (- e)) in
  let hi := lo + 1 in
  let ok_lo := f_eq (f_of_decimal lo s) f in
  let ok_hi := f_eq (f_of_decimal hi s) f in
  let near_lo := (* lo is at least as near as hi *)
    match cmp_scaled (2 * lo + 1) s (2 * m) e with
    | Gt => true | Eq => Z.even lo | Lt => false end in
  if ok_lo && (negb ok_hi || near_lo) then (lo, s)
  else if ok_hi then (hi, s)
  else match fuel with O => (lo, s) | S fuel => shortest fuel (k + 1) f m e lg end.

Fixpoint strip_zeros (fuel : nat) (c s : Z) : Z * Z :=
  match fuel with
  | O => (c, s)
  | S fuel => if (c mod 10 =? 0) && negb (c =? 0) then strip_zeros fuel (c / 10) (s + 1)
              else (c, s)
  end.

(** Coefficient and exponent of the digits [repr] prints for [m * 2 ^ e]:
    seventeen significant digits always identify a binary64. *)
Definition f_shortest (m : positive) (e : Z) : Z * Z :=
  let '(c, s) := shortest 17 1 (S754_finite false m e) (Z.pos m) e (f_log10 (Z.pos m) e) in
  strip_zeros 20 c s.

Definition f_lit (s : string) : float := match f_parse s with Some f => f | None => S754_nan end.

Definition f_shortest_of (f : float) : Z * Z :=
  match f with S754_finite _ m e => f_shortest m e | _ => (0, 0) end.

Example f_shortest_ex :
  map (fun s => f_shortest_of (f_lit s))
      ["0.1"; "1e22"; "25000"; "123456.789"; "5e-324"; "1.7976931348623157e308"; "0.3333333333333333"; "1e-7"]
  = [(1, -1); (1, 22); (25, 3); (123456789, -3); (5, -324); (17976931348623157, 292);
     (3333333333333333, -16); (1, -7)].
Proof. vm_compute. reflexivity. Qed.

(** ** Products of ordinary numbers are never [nan] *)

Lemma shr_1_nonneg mrs : 0 <= shr_m mrs -> 0 <= shr_m (shr_1 mrs).
Proof. destruct mrs as [[|[]|] r s]; simpl; lia. Qed.

Lemma iter_shr_nonneg p mrs : 0 <= shr_m mrs -> 0 <= shr_m (SpecFloat.iter_pos shr_1 p mrs).
Proof.
  revert mrs; induction p; intros mrs H; simpl; auto using shr_1_nonneg.
Qed.

Lemma shr_nonneg mrs e n : 0 <= shr_m mrs -> 0 <= shr_m (fst (shr mrs e n)).
Proof. unfold shr. destruct n; simpl; auto using iter_shr_nonneg. Qed.

Lemma shr_fexp_nonneg p em m e l : 0 <= m -> 0 <= shr_m (fst (shr_fexp p em m e l)).
Proof. intros H. unfold shr_fexp. apply shr_nonneg. destruct l as [|[]]; simpl; done. Qed.

Lemma round_nearest_even_nonneg m l : 0 <= m -> 0 <= round_nearest_even m l.
Proof. unfold round_nearest_even. destruct l as [|[]]; try case_match; lia. Qed.

Lemma binary_round_aux_not_nan p em sx m e l :
  0 <= m -> is_nan (binary_round_aux p em sx m e l) = false.
Proof.
  intros Hm. unfold binary_round_aux.
  pose proof (shr_fexp_nonneg p em m e l Hm) as H1.
  destruct (shr_fexp p em m e l) as [mrs1 e1]; simpl in H1.
  pose proof (round_nearest_even_nonneg (shr_m mrs1) (loc_of_shr_record mrs1) H1) as H2.
  pose proof (shr_fexp_nonneg p em _ e1 loc_Exact H2) as H3.
  destruct (shr_fexp p em _ e1 loc_Exact) as [mrs2 e2]; simpl in H3.
  destruct (shr_m mrs2); [done| |lia]. by case_match.
Qed.

(** The product of two numbers, neither [nan] and with no zero times infinity,
    is a number. *)
Lemma f_mul_not_nan x y :
  f_positive x = true -> f_positive y = true -> is_nan (f_mul x y) = false.
Proof.
  destruct x as [| | |[] mx ex], y as [| | |[] my ey]; try done; intros _ _.
  apply binary_round_aux_not_nan. lia.
Qed.

Lemma f_le_not_gt x y : is_nan x = false -> is_nan y = false -> f_gt x y = false -> f_le x y = true.
Proof.
  intros Hx Hy. unfold f_gt, f_le, SFltb, SFleb. unfold SFcompare.
  destruct x as [[]|[]| |[] mx ex], y as [[]|[]| |[] my ey]; simpl in *; try done;
  rewrite (Z.compare_antisym ex ey), ?(Pos.compare_antisym mx my);
  destruct (ex ?= ey); simpl; try done;
  fold (Pos.compare mx my); fold (Pos.compare my mx); rewrite ?(Pos.compare_antisym mx my); by destruct (mx ?= my)%positive.
Qed.

Lemma f_positive_not_nan x : f_positive x = true -> is_nan x = false.
Proof. by destruct x. Qed.

(** ** Numbers that are not negative: products stay so *)

Definition f_nonneg (x : float) : bool :=
  match x with
  | S754_zero s | S754_infinity s | S754_finite s _ _ => negb s
  | S754_nan => false
  end.

Lemma binary_round_aux_nonneg p em m e l :
  0 <= m -> f_nonneg (binary_round_aux p em false m e l) = true.
Proof.
  intros Hm. pose proof (binary_round_aux_not_nan p em false m e l Hm) as Hn.
  unfold binary_round_aux in *. repeat case_match; done.
Qed.

Lemma f_mul_nonneg x y :
  f_nonneg x = true -> f_nonneg y = true -> is_finite y = true ->
  (is_finite x = true \/ f_positive y = true) -> f_nonneg (f_mul x y) = true.
Proof.
  destruct x as [[]|[]| |[] mx ex], y as [[]|[]| |[] my ey]; try done;
    intros _ _ _ [H|H]; try done; apply binary_round_aux_nonneg; lia.
Qed.

Lemma f_round_Z_nonneg z : 0 <= z -> f_nonneg (f_round_Z z) = true.
Proof.
  unfold f_round_Z, binary_normalize. destruct z as [|p|p]; [done| |lia]. intros _.
  unfold binary_round. case_match. apply binary_round_aux_nonneg. lia.
Qed.

Lemma f_of_Z_nonneg z f : 0 <= z -> f_of_Z z = Ok f -> f_nonneg f = true /\ is_finite f = true.
Proof.
  unfold f_of_Z. intros Hz. case_match eqn:E; [|done]. intros [= <-].
  split; [by apply f_round_Z_nonneg|done].
Qed.

Lemma f_nonneg_not_nan x : f_nonneg x = true -> is_nan x = false.
Proof. by destruct x. Qed.

Lemma f_positive_nonneg x : f_positive x = true -> f_nonneg x = true /\ is_finite x = true.
Proof. by destruct x as [| | |[]]. Qed.

Lemma f_abs_nonneg x : is_nan x = false -> f_nonneg (f_abs x) = true.
Proof. by destruct x. Qed.

Lemma f_not_le_positive x : is_finite x = true -> f_le x f_zero = false -> f_positive x = true.
Proof. by destruct x as [[]| | |[]]. Qed.

Lemma f_max_positive x l :
  f_positive x = true -> Forall (fun y => f_positive y = true) l -> f_positive (f_max x l) = true.
Proof.
  intros Hx Hl. revert x Hx. induction Hl as [|y l Hy Hl IH]; intros x Hx; simpl; [done|].
  apply IH. unfold f_max2. by case_match.
Qed.

Create HintDb floats.
#[export] Hint Resolve f_nonneg_not_nan f_mul_nonneg f_max_positive f_abs_nonneg : floats.
