(* ===== verification/PyDec.v ===== *)
(** Python's [decimal.Decimal]: exact decimals with a sign, a coefficient and
    an exponent; comparison by value; arithmetic that rounds to the precision of
    the context; parsing, [format(d, 'f')] and [Decimal(str(float))].  Exponent
    limits of the context (beyond 10 ^ 999999) are not modelled. *)

From Stdlib Require Import SpecFloat.
From S2P Require Import Prelude PyStr PyFloat.

Record dec : Type := Dec { d_neg : bool; d_coef : Z; d_exp : Z }.

Inductive decimal : Type := DFin (d : dec) | DInf (neg : bool) | DNan.

#[export] Instance dec_eq_dec : EqDecision dec.
Proof. solve_decision. Defined.

Definition d_zero : dec := Dec false 0 0.
Definition d_of_Z (z : Z) : dec := Dec (z <? 0) (Z.abs z) 0.

Definition d_wf (d : dec) : Prop := 0 <= d_coef d.

Definition d_signed (d : dec) : Z := if d_neg d then - d_coef d else d_coef d.

(** The value of [d] in units of [10 ^ e], exact when [e <= d_exp d]. *)
Definition d_at (e : Z) (d : dec) : Z := d_signed d * 10 ^ (d_exp d - e).

(** Comparison by value, at the smaller exponent. *)
Definition d_compare (x y : dec) : comparison :=
  let e := Z.min (d_exp x) (d_exp y) in d_at e x ?= d_at e y.
Definition d_eqb (x y : dec) : bool := match d_compare x y with Eq => true | _ => false end.
Definition d_ltb (x y : dec) : bool := match d_compare x y with Lt => true | _ => false end.
Definition d_leb (x y : dec) : bool := match d_compare x y with Gt => false | _ => true end.
Definition d_gtb (x y : dec) : bool := d_ltb y x.

Definition d_abs (d : dec) : dec := Dec false (d_coef d) (d_exp d).

(** [len(d.as_tuple().digits)] and [d.adjusted()]. *)
Definition d_digits (d : dec) : Z := num_digits (d_coef d).
Definition d_adjusted (d : dec) : Z := d_exp d + d_digits d - 1.

(** ** Arithmetic in a context of precision [prec] (ROUND_HALF_EVEN) *)

Definition half_even (c p : Z) : Z :=
  let q := c / p in
  let r := c mod p in
  match 2 * r ?= p with
  | Lt => q
  | Gt => q + 1
  | Eq => if Z.even q then q else q + 1
  end.

Definition d_fix (prec : Z) (d : dec) : dec :=
  let drop := d_digits d - prec in
  if drop <=? 0 then d
  else
    let c := half_even (d_coef d) (10 ^ drop) in
    if num_digits c <=? prec then Dec (d_neg d) c (d_exp d + drop)
    else Dec (d_neg d) (c / 10) (d_exp d + drop + 1).

Definition d_make (z e : Z) : dec := Dec (z <? 0) (Z.abs z) e.

Definition d_add (prec : Z) (x y : dec) : dec :=
  let e := Z.min (d_exp x) (d_exp y) in
  d_fix prec (d_make (d_at e x + d_at e y) e).

Definition d_mul (prec : Z) (x y : dec) : dec :=
  d_fix prec (Dec (xorb (d_neg x) (d_neg y)) (d_coef x * d_coef y) (d_exp x + d_exp y)).

(** [sum(values, Decimal(0))] *)
Definition d_sum (prec : Z) (l : list dec) : dec := fold_left (d_add prec) l d_zero.

(** ** Text *)

Fixpoint zeros (n : nat) : list Z := match n with O => [] | S n => 0 :: zeros n end.

(** [format(d, 'f')]: positional notation, every digit of the coefficient. *)
Definition d_format (d : dec) : string :=
  let ds := digits (d_coef d) in
  let body :=
    if 0 <=? d_exp d then
      string_of (map digit_char (if d_coef d =? 0 then [0] else (ds ++ zeros (Z.to_nat (d_exp d)))%list))
    else
      let frac := Z.to_nat (- d_exp d) in
      let ds := (zeros (S frac - length ds) ++ ds)%list in
      let ip := firstn (length ds - frac) ds in
      string_of (map digit_char ip) ++ "." ++ string_of (map digit_char (skipn (length ds - frac) ds))
  in if d_neg d then "-" ++ body else body.

(** Characters of [s] other than underscores. *)
Definition drop_us (s : string) : string :=
  string_of (List.filter (fun c => negb (Ascii.eqb c "_")) (chars_of s)).

Definition parse_digits (s : string) : option (list ascii) :=
  if str_forall is_decimal s then Some (chars_of s) else None.

(** [Decimal(text)]; [None] is [decimal.InvalidOperation]. *)
Definition d_parse (text : string) : option decimal :=
  let '(neg, s) := split_sign (drop_us (strip text)) in
  let l := lower s in
  if mem l ["inf"; "infinity"] then Some (DInf neg)
  else if startswith "nan" l && str_forall is_decimal (String.substring 3 (String.length l) l)
       then Some DNan
  else if startswith "snan" l && str_forall is_decimal (String.substring 4 (String.length l) l)
       then Some DNan
  else '(c, e) ← parse_number parse_digits s; Some (DFin (Dec neg c e)).

Example d_parse_ex :
  map d_parse ["1.50"; "-2e3"; ".5"; "5."; "NaN"; "Infinity"; "1e"; "0x1"; ""] =
  [ Some (DFin (Dec false 150 (-2))); Some (DFin (Dec true 2 3)); Some (DFin (Dec false 5 (-1)));
    Some (DFin (Dec false 5 0)); Some DNan; Some (DInf false); None; None; None ].
Proof. vm_compute. reflexivity. Qed.

(** [Decimal(str(x))] for a float: [repr] prints positional notation, with a
    final [.0] on whole numbers, when the decimal point falls within sixteen
    digits, and scientific notation otherwise. *)
Definition d_of_float (f : float) : decimal :=
  match f with
  | S754_nan => DNan
  | S754_infinity s => DInf s
  | S754_zero s => DFin (Dec s 0 (-1))
  | S754_finite s m e =>
      let '(c, x) := f_shortest m e in
      let point := num_digits c + x in
      if (-4 <? point) && (point <=? 16) && (0 <=? x)
      then DFin (Dec s (c * 10 ^ (x + 1)) (-1))
      else DFin (Dec s c x)
  end.

Example d_of_float_ex :
  map (fun s => d_of_float (f_lit s)) ["500"; "0.25"; "1e22"; "1e-5"; "-3"; "0"] =
  [ DFin (Dec false 5000 (-1)); DFin (Dec false 25 (-2)); DFin (Dec false 1 22);
    DFin (Dec false 1 (-5)); DFin (Dec true 30 (-1)); DFin (Dec false 0 (-1)) ].
Proof. vm_compute. reflexivity. Qed.

(** ** Exactness *)

Lemma d_at_shift e e' d : e' <= e <= d_exp d -> d_at e' d = d_at e d * 10 ^ (e - e').
Proof.
  intros H. unfold d_at. rewrite <-Z.mul_assoc, <-Z.pow_add_r by lia. do 2 f_equal. lia.
Qed.

Lemma pow10_pos k : 0 <= k -> 0 < 10 ^ k.
Proof. intros. apply Z.pow_pos_nonneg; lia. Qed.

Lemma compare_scale a b k : 0 < k -> (a * k ?= b * k) = (a ?= b).
Proof.
  intros Hk. destruct (Z.compare_spec a b) as [->|H|H].
  - apply Z.compare_refl.
  - apply Z.compare_lt_iff. nia.
  - apply Z.compare_gt_iff. nia.
Qed.

(** Comparison may be taken at any common exponent. *)
Lemma d_compare_at e x y :
  e <= d_exp x -> e <= d_exp y -> d_compare x y = (d_at e x ?= d_at e y).
Proof.
  intros Hx Hy. unfold d_compare. set (m := Z.min _ _).
  rewrite (d_at_shift m e x), (d_at_shift m e y) by lia.
  symmetry. apply compare_scale, pow10_pos. lia.
Qed.

Lemma d_fix_id prec d : d_digits d <= prec -> d_fix prec d = d.
Proof. intros H. unfold d_fix. rewrite (proj2 (Z.leb_le _ _)); [done|lia]. Qed.

Lemma d_make_at z e e' : e' <= e -> d_at e' (d_make z e) = z * 10 ^ (e - e').
Proof.
  intros H. unfold d_at, d_signed, d_make; simpl. destruct (Z.ltb_spec z 0); f_equal; lia.
Qed.

(** A sum is exact when its digits fit the precision. *)
Lemma d_add_exact prec x y :
  let e := Z.min (d_exp x) (d_exp y) in
  1 <= prec -> Z.abs (d_at e x + d_at e y) < 10 ^ prec ->
  d_exp (d_add prec x y) = e /\ d_at e (d_add prec x y) = d_at e x + d_at e y.
Proof.
  intros e Hp Hb. unfold d_add. rewrite d_fix_id.
  - split; [done|]. by rewrite d_make_at, Z.sub_diag, Z.pow_0_r, Z.mul_1_r by lia.
  - unfold d_digits; simpl. fold e. apply num_digits_le; lia.
Qed.

Lemma d_wf_bound d : d_wf d -> d_coef d < 10 ^ d_digits d.
Proof.
  intros H. apply num_digits_le; [done|by apply num_digits_pos|]. unfold d_digits. lia.
Qed.

(** A product is exact when the precision holds the digits of both factors. *)
Lemma d_mul_exact prec x y :
  d_wf x -> d_wf y -> d_digits x + d_digits y <= prec ->
  d_mul prec x y
  = Dec (xorb (d_neg x) (d_neg y)) (d_coef x * d_coef y) (d_exp x + d_exp y).
Proof.
  intros Hx Hy Hp. unfold d_mul. apply d_fix_id. unfold d_digits; simpl.
  pose proof (num_digits_pos _ Hx). pose proof (num_digits_pos _ Hy).
  unfold d_digits in *. apply num_digits_le; [unfold d_wf in *; nia|lia|].
  eapply Z.lt_le_trans with (10 ^ num_digits (d_coef x) * 10 ^ num_digits (d_coef y)).
  - pose proof (d_wf_bound x Hx). pose proof (d_wf_bound y Hy).
    unfold d_digits, d_wf in *. apply Z.mul_lt_mono_nonneg; lia.
  - rewrite <-Z.pow_add_r by lia. apply Z.pow_le_mono_r; lia.
Qed.

(** Repeated addition is exact as long as every running total fits. *)
Lemma d_sum_from_exact prec e B l acc :
  1 <= prec -> Forall (fun d => e <= d_exp d /\ Z.abs (d_at e d) <= B) l ->
  e <= d_exp acc ->
  Z.abs (d_at e acc) + Z.of_nat (length l) * B < 10 ^ prec ->
  e <= d_exp (fold_left (d_add prec) l acc) /\
  d_at e (fold_left (d_add prec) l acc) = d_at e acc + zsum (map (d_at e) l).
Proof.
  intros Hp Hl. revert acc; induction Hl as [|d l [Hd HB] Hl IH]; intros acc Ha Hb; simpl; [lia|].
  change (length (d :: l)) with (S (length l)) in Hb. rewrite Nat2Z.inj_succ in Hb.
  set (m := Z.min (d_exp acc) (d_exp d)).
  assert (Hm : e <= m) by lia.
  assert (Hpw := pow10_pos (m - e) ltac:(lia)).
  assert (Hsum : Z.abs (d_at m acc + d_at m d) < 10 ^ prec).
  { rewrite (d_at_shift m e acc), (d_at_shift m e d) in * by lia.
    assert (0 <= Z.of_nat (length l) * B) by nia. nia. }
  destruct (d_add_exact prec acc d Hp Hsum) as [He Hv]. fold m in He, Hv.
  assert (Hadd : d_at e (d_add prec acc d) = d_at e acc + d_at e d).
  { rewrite (d_at_shift m e (d_add prec acc d)), Hv by lia.
    rewrite (d_at_shift m e acc), (d_at_shift m e d) by lia. lia. }
  destruct (IH (d_add prec acc d)) as [H1 H2]; [lia| |].
  - rewrite Hadd. lia.
  - split; [done|]. rewrite H2, Hadd. lia.
Qed.

Lemma d_ltb_at e x y : e <= d_exp x -> e <= d_exp y -> d_ltb x y = (d_at e x <? d_at e y).
Proof. intros. unfold d_ltb. by rewrite (d_compare_at e). Qed.

Lemma d_eqb_at e x y : e <= d_exp x -> e <= d_exp y -> d_eqb x y = (d_at e x =? d_at e y).
Proof.
  intros. unfold d_eqb. rewrite (d_compare_at e) by done.
  destruct (Z.compare_spec (d_at e x) (d_at e y)); symmetry;
    [apply Z.eqb_eq|apply Z.eqb_neq|apply Z.eqb_neq]; lia.
Qed.

Create HintDb decimals.
#[export] Hint Resolve pow10_pos d_wf_bound : decimals.

(** ** Parsed decimals are well formed *)

Lemma parse_digits_ok s l : parse_digits s = Some l -> Forall (fun c => is_decimal c = true) l.
Proof.
  unfold parse_digits. case_match; [|done]. intros [= <-].
  rewrite str_forall_chars in H. induction (chars_of s); simpl in *; [constructor|].
  bools. constructor; auto.
Qed.

Lemma undigits_chars_nonneg l :
  Forall (fun c => is_decimal c = true) l -> 0 <= undigits (map char_digit l).
Proof.
  intros Hl. apply undigits_bound. induction Hl as [|c l Hc Hl IH]; simpl; constructor; [|done].
  unfold is_decimal, in_range in Hc. bools. unfold char_digit. lia.
Qed.

Lemma parse_number_nonneg s c e : parse_number parse_digits s = Some (c, e) -> 0 <= c.
Proof.
  unfold parse_number. destruct (partition "e" (lower s)) as [[mant he] ex].
  destruct (partition "." mant) as [[ip hp] fp].
  destruct (parse_digits ip) as [di|] eqn:Ei; simpl; [|done].
  destruct (parse_digits fp) as [df|] eqn:Ef; simpl; [|done].
  case_match; [done|].
  assert (Hc : 0 <= undigits (map char_digit (di ++ df))).
  { apply undigits_chars_nonneg, Forall_app. eauto using parse_digits_ok. }
  case_match; [by intros [= <- _]|].
  destruct (split_sign ex) as [neg ed]. destruct (parse_digits ed); simpl; [|done].
  case_match; [done|]. by intros [= <- _].
Qed.

Lemma d_parse_wf t d : d_parse t = Some (DFin d) -> d_wf d.
Proof.
  unfold d_parse. destruct (split_sign _) as [neg s]. repeat case_match; try done.
  destruct (parse_number parse_digits s) as [[c e]|] eqn:E; simpl; [|done].
  intros [= <-]. unfold d_wf; simpl. by eapply parse_number_nonneg.
Qed.

(** A well-formed decimal above zero carries no minus sign. *)
Lemma d_gt_zero d : d_wf d -> d_gtb d d_zero = true -> d_neg d = false /\ 0 < d_coef d.
Proof.
  intros Hw. unfold d_gtb. rewrite (d_ltb_at (Z.min 0 (d_exp d))) by (simpl; lia).
  intros H%Z.ltb_lt. unfold d_wf in Hw. unfold d_at, d_signed in H; simpl in H.
  pose proof (pow10_pos (d_exp d - Z.min 0 (d_exp d)) ltac:(lia)).
  destruct (d_neg d); split; try done; nia.
Qed.

#[export] Hint Resolve d_parse_wf : decimals.
