(* ===== verification/PyPath.v ===== *)
(** [pathlib.PurePosixPath], as far as its text and its parent. *)

From S2P Require Import Prelude PyStr.

#[local] Open Scope list_scope.

(** The root of a path and the parts after it. *)
Definition path_root (s : string) : string :=
  match chars_of s with
  | [] => ""
  | c0 :: rest =>
      if negb (Ascii.eqb c0 "/") then ""
      else match rest with
           | c1 :: rest => if Ascii.eqb c1 "/" && negb (match rest with c2 :: _ => Ascii.eqb c2 "/" | [] => false end)
                           then "//" else "/"
           | [] => "/"
           end
  end.
Definition path_parts (s : string) : list string :=
  List.filter (fun p => nonempty p && negb (bool_decide (p = "."))) (split "/" s).

Definition path_text (root : string) (parts : list string) : string :=
  let s := (root ++ String.concat "/" parts)%string in if nonempty s then s else ".".

(** [str(Path(s))], [str(Path(s).parent)] and [str(Path(s) / tail)] for a
    relative [tail]. *)
Definition path_str (s : string) : string := path_text (path_root s) (path_parts s).
Definition path_parent (s : string) : string := path_text (path_root s) (removelast (path_parts s)).
Definition path_join (s : string) (tail : list string) : string := path_text (path_root s) (path_parts s ++ tail).

Example path_ex :
  map path_parent ["/opt/moomooOpenD/OpenD"; "OpenD"; "a//b/./c/"; "/"; "//srv/x"; ""]
  = ["/opt/moomooOpenD"; "."; "a/b"; "/"; "//srv"; "."]
  /\ path_join "/home/opend/" [".com"; "F3CNN"] = "/home/opend/.com/F3CNN".
Proof. by vm_compute. Qed.
