(* ===== verification/DecText.v ===== *)
(** Canonical decimal text.  Three places of the program give a number one
    spelling, [format(d, "f")] with the fraction's zeros removed: the price of a
    paper request, the numbers of a REAL request and those of a prepared
    request.  Here: two decimals get the same spelling exactly when they are the
    same number; and the spelling of names, [s.strip().upper()], is stable. *)

From S2P Require Import Prelude PyStr PyFloat PyDec.

(** [text.rstrip("0").rstrip(".") if "." in text else text] *)
Definition has_point (s : string) : bool :=
  negb (str_forall (fun c => negb (Ascii.eqb c ".")) s).
Definition trim_fraction (text : string) : string :=
  if has_point text
  then rstrip_if (fun c => Ascii.eqb c ".") (rstrip_if (fun c => Ascii.eqb c "0") text)
  else text.

(** The spelling of a non-negative price. *)
Definition price_text (d : dec) : string := trim_fraction (d_format d).
(** The spelling of any number: minus zero is zero. *)
Definition num_text (d : dec) : string :=
  let t := trim_fraction (d_format d) in if bool_decide (t = "-0") then "0" else t.

(** ** Digit lists *)

Definition digit_list (l : list Z) : Prop := Forall (fun d => 0 <= d < 10) l.

Lemma undigits_acc l a :
  fold_left (fun a d => a * 10 + d) l a = a * 10 ^ Z.of_nat (length l) + undigits l.
Proof.
  revert a; induction l as [|d l IH]; intros a; simpl; [unfold undigits; simpl; lia|].
  unfold undigits; simpl. rewrite (IH (a * 10 + d)), (IH (0 * 10 + d)).
  rewrite Nat2Z.inj_succ, Z.pow_succ_r by lia. lia.
Qed.

Lemma undigits_app l k : undigits (l ++ k) = undigits l * 10 ^ Z.of_nat (length k) + undigits k.
Proof. unfold undigits at 1. rewrite fold_left_app. apply undigits_acc. Qed.

Lemma undigits_zeros n : undigits (zeros n) = 0.
Proof.
  induction n as [|n IH]; [done|]. change (zeros (S n)) with ([0] ++ zeros n)%list.
  rewrite undigits_app, IH. unfold undigits at 1; simpl. lia.
Qed.

Lemma length_zeros n : length (zeros n) = n.
Proof. induction n; simpl; congruence. Qed.

Lemma digit_list_zeros n : digit_list (zeros n).
Proof. induction n; simpl; constructor; [lia|done]. Qed.

(** A digit list is determined by its length and its value. *)
Lemma undigits_inj l k :
  digit_list l -> digit_list k -> length l = length k -> undigits l = undigits k -> l = k.
Proof.
  revert k; induction l as [|d l IH] using rev_ind; intros k Hl Hk Hlen Hv.
  - destruct k; [done|simpl in Hlen; lia].
  - destruct k as [|e k _] using rev_ind; [rewrite length_app in Hlen; simpl in Hlen; lia|].
    unfold digit_list in *. rewrite Forall_app, Forall_singleton in Hl, Hk. destruct Hl, Hk.
    rewrite !undigits_snoc in Hv. rewrite !length_app in Hlen; simpl in Hlen.
    assert (undigits l = undigits k /\ d = e) as [Hu ->] by lia.
    f_equal. apply IH; auto. lia.
Qed.

Lemma digits_fuel_irrel f g n :
  0 <= n < 2 ^ Z.of_nat f -> n < 2 ^ Z.of_nat g -> (0 < f)%nat -> (0 < g)%nat ->
  digits_fuel f n = digits_fuel g n.
Proof.
  revert g n; induction f as [|f IH]; intros g n Hn Hg Hf0 Hg0; [lia|].
  destruct g as [|g]; [lia|]. simpl. destruct (Z.ltb_spec n 10) as [|Hlt]; [done|].
  rewrite Nat2Z.inj_succ, Z.pow_succ_r in Hn, Hg by lia.
  assert (0 <= n / 10) by (apply Z.div_pos; lia).
  assert (n / 10 < 2 ^ Z.of_nat f /\ n / 10 < 2 ^ Z.of_nat g) as []
    by (split; apply Z.div_lt_upper_bound; lia).
  f_equal. apply IH; [lia|lia| |].
  - destruct f; [simpl in *; lia|lia].
  - destruct g; [simpl in *; lia|lia].
Qed.

Lemma digits_small n : n < 10 -> digits n = [n].
Proof. intros H. unfold digits; simpl. by rewrite (proj2 (Z.ltb_lt _ _) H). Qed.

Lemma digits_step n : 10 <= n -> digits n = (digits (n / 10) ++ [n mod 10])%list.
Proof.
  intros Hn. unfold digits at 1. simpl. destruct (Z.ltb_spec n 10); [lia|].
  f_equal. unfold digits.
  assert (H0 : 1 <= n / 10) by (apply Z.div_le_lower_bound; lia).
  assert (Hd : n / 10 < n) by (apply Z.div_lt; lia).
  assert (Hlog : 1 <= Z.log2 n) by (apply Z.log2_le_pow2; lia).
  pose proof (Z.log2_spec n ltac:(lia)) as [_ Hup].
  pose proof (Z.log2_spec (n / 10) ltac:(lia)) as [_ Hup'].
  apply digits_fuel_irrel; rewrite ?Nat2Z.inj_succ, ?Z2Nat.id by (try apply Z.log2_nonneg; lia);
    try lia; try (by rewrite Nat2Z.inj_succ, Z2Nat.id by apply Z.log2_nonneg).
  split; [lia|]. apply Z.div_lt_upper_bound; [lia|].
  rewrite Z.pow_succ_r in Hup by lia. lia.
Qed.

(** No leading zero: [digits] is the only such list with its value. *)
Lemma digits_unique d l :
  digit_list (d :: l) -> d <> 0 -> digits (undigits (d :: l)) = d :: l.
Proof.
  intros Hl Hd. revert Hl. induction l as [|e l IH] using rev_ind; intros Hl.
  - unfold digit_list in Hl. rewrite Forall_singleton in Hl. unfold undigits; simpl.
    by rewrite digits_small by lia.
  - change (d :: l ++ [e])%list with ((d :: l) ++ [e])%list in *.
    unfold digit_list in *. rewrite Forall_app, Forall_singleton in Hl. destruct Hl as [Hl He].
    specialize (IH Hl). rewrite undigits_snoc.
    assert (1 <= undigits (d :: l)).
    { change (d :: l) with ([d] ++ l)%list. rewrite undigits_app. unfold undigits at 1; simpl.
      inversion Hl; subst. pose proof (undigits_bound l H2).
      pose proof (pow10_pos (Z.of_nat (length l)) ltac:(lia)). nia. }
    rewrite digits_step by lia. rewrite Z.div_add_l, Z.div_small, Z.add_0_r, IH by lia.
    by rewrite Z.add_comm, Z.mod_add, Z.mod_small by lia.
Qed.

Lemma digits_head n : 0 < n -> exists d l, digits n = d :: l /\ d <> 0.
Proof.
  induction n as [n IH] using (well_founded_induction (Z.lt_wf 0)). intros Hn.
  destruct (Z.ltb_spec n 10) as [Hs|Hs].
  - exists n, []. split; [|lia]. by apply digits_small.
  - assert (1 <= n / 10) by (apply Z.div_le_lower_bound; lia).
    assert (n / 10 < n) by (apply Z.div_lt; lia).
    destruct (IH (n / 10)) as (d & l & E & Hd); [lia|lia|].
    rewrite digits_step, E by lia. by exists d, (l ++ [n mod 10])%list.
Qed.

(** ** Integral and fractional digits of a magnitude *)

Definition whole (d : dec) : Z := d_coef d * 10 ^ Z.max 0 (d_exp d).
Definition frac_len (d : dec) : nat := Z.to_nat (- d_exp d).

Definition padded (d : dec) : list Z :=
  let ds := digits (d_coef d) in (zeros (S (frac_len d) - length ds) ++ ds)%list.
Definition int_part (d : dec) : list Z :=
  if 0 <=? d_exp d
  then if d_coef d =? 0 then [0] else (digits (d_coef d) ++ zeros (Z.to_nat (d_exp d)))%list
  else firstn (length (padded d) - frac_len d) (padded d).
Definition frac_part (d : dec) : list Z :=
  if 0 <=? d_exp d then [] else skipn (length (padded d) - frac_len d) (padded d).

Definition dstr (l : list Z) : string := string_of (map digit_char l).

Lemma d_format_parts d :
  d_format d = (if d_neg d then "-" else "") ++
               (if 0 <=? d_exp d then dstr (int_part d)
                else dstr (int_part d) ++ "." ++ dstr (frac_part d)).
Proof.
  unfold d_format, int_part, frac_part, padded, frac_len.
  destruct (0 <=? d_exp d), (d_neg d); simpl; done.
Qed.

Lemma padded_spec d :
  d_wf d -> undigits (padded d) = d_coef d /\ digit_list (padded d)
            /\ (S (frac_len d) <= length (padded d))%nat.
Proof.
  intros Hw. destruct (digits_spec _ Hw) as (Hv & Hd & _). unfold padded. split_and!.
  - rewrite undigits_app, undigits_zeros, Hv. lia.
  - apply Forall_app. split; [apply digit_list_zeros|done].
  - rewrite length_app, length_zeros. lia.
Qed.

Lemma parts_spec d :
  d_wf d ->
  digit_list (int_part d) /\ digit_list (frac_part d) /\ length (frac_part d) = frac_len d /\
  undigits (int_part d) * 10 ^ Z.of_nat (frac_len d) + undigits (frac_part d) = whole d.
Proof.
  intros Hw. destruct (padded_spec d Hw) as (Hv & Hd & Hl).
  destruct (digits_spec _ Hw) as (Hv' & Hd' & _).
  unfold int_part, frac_part, whole. destruct (Z.leb_spec 0 (d_exp d)) as [He|He].
  - assert (frac_len d = 0%nat) as -> by (unfold frac_len; lia).
    rewrite Z.max_r by lia. case_match eqn:Ec.
    + apply Z.eqb_eq in Ec. rewrite Ec. split_and!; try (repeat constructor; lia).
    + split_and!; try (done || by constructor); [apply Forall_app; split; [done|apply digit_list_zeros]|].
      rewrite undigits_app, undigits_zeros, length_zeros, Hv', Z2Nat.id by lia.
      change (undigits []) with 0. lia.
  - rewrite Z.max_l, Z.pow_0_r by lia.
    assert (Hd2 := Hd).
    rewrite <-(firstn_skipn (length (padded d) - frac_len d) (padded d)) in Hv, Hd.
    apply Forall_app in Hd as [Hd1 Hd3]. rewrite undigits_app, length_skipn in Hv.
    split_and!; try done; [rewrite length_skipn; lia|].
    replace (length (padded d) - (length (padded d) - frac_len d))%nat with (frac_len d) in Hv by lia.
    lia.
Qed.

Lemma whole_zero d : d_coef d = 0 -> whole d = 0.
Proof. unfold whole. intros ->. lia. Qed.

Lemma firstn_cons_exists {A} n (d : A) l : exists l', firstn (S n) (d :: l) = d :: l'.
Proof. simpl. eauto. Qed.

(** The printed integral part has no leading zeros: it is the digits of the
    magnitude rounded down. *)
Lemma int_part_digits d :
  d_wf d -> int_part d = digits (whole d / 10 ^ Z.of_nat (frac_len d)).
Proof.
  intros Hw. destruct (parts_spec d Hw) as (Hi & Hf & Hlf & Hv).
  assert (Hfb := undigits_bound _ Hf). rewrite Hlf in Hfb.
  assert (Hq : whole d / 10 ^ Z.of_nat (frac_len d) = undigits (int_part d)).
  { symmetry. apply Z.div_unique with (undigits (frac_part d)); lia. }
  rewrite Hq. clear Hq Hv Hfb Hlf Hf.
  assert (int_part d = [0] \/ exists e l, int_part d = e :: l /\ e <> 0) as [->|(e & l & E & He)].
  { unfold int_part in *. destruct (Z.eq_dec (d_coef d) 0) as [Ec|Ec].
    - left. destruct (0 <=? d_exp d); [by rewrite (proj2 (Z.eqb_eq _ _) Ec)|].
      unfold padded. rewrite Ec. change (digits 0) with [0]. simpl (length [0]).
      rewrite length_app, length_zeros. simpl (length [0]).
      replace (S (frac_len d) - 1 + 1 - frac_len d)%nat with 1%nat by lia.
      destruct (frac_len d) as [|f]; [done|]. simpl. done.
    - destruct (digits_head (d_coef d)) as (e & l & E & He); [unfold d_wf in Hw; lia|].
      destruct (Z.leb_spec 0 (d_exp d)).
      + right. rewrite (proj2 (Z.eqb_neq _ _) Ec), E. simpl. eauto.
      + unfold padded in *. rewrite E in *. set (n := length (e :: l)) in *.
        destruct (decide (S (frac_len d) <= n)%nat) as [Hn|Hn].
        * right. replace (S (frac_len d) - n)%nat with 0%nat by lia. simpl zeros. simpl app.
          fold n. replace (n - frac_len d)%nat with (S (n - frac_len d - 1)) by lia.
          simpl. eauto.
        * left. rewrite length_app, length_zeros. fold n.
          replace (S (frac_len d) - n + n - frac_len d)%nat with 1%nat by lia.
          destruct (S (frac_len d) - n)%nat eqn:En; [lia|]. done. }
  - done.
  - rewrite E in *. symmetry. by apply digits_unique.
Qed.

(** ** Trimming *)

Lemma str_app_nil s : s ++ "" = s.
Proof. induction s; simpl; congruence. Qed.

Lemma str_app_assoc a b c : (a ++ b) ++ c = a ++ (b ++ c).
Proof. induction a; simpl; congruence. Qed.

Lemma rstrip_if_app p a b :
  rstrip_if p (a ++ b) = if nonempty (rstrip_if p b) then a ++ rstrip_if p b else rstrip_if p a.
Proof.
  induction a as [|c a IH]; simpl; [by destruct (rstrip_if p b)|].
  rewrite IH. destruct (rstrip_if p b) as [|c' b'] eqn:E; simpl; [done|].
  destruct a; done.
Qed.

Lemma rstrip_if_none p s : str_forall (fun c => negb (p c)) s = true -> rstrip_if p s = s.
Proof.
  induction s as [|c s IH]; simpl; [done|]. intros; bools. rewrite IH by done.
  destruct s; [by rewrite H|done].
Qed.

Lemma rstrip_if_all p s : str_forall p s = true -> rstrip_if p s = "".
Proof. induction s as [|c s IH]; simpl; [done|]. intros; bools. by rewrite IH, H. Qed.

Lemma dstr_app a b : dstr (a ++ b) = dstr a ++ dstr b.
Proof. unfold dstr. induction a; simpl; congruence. Qed.

Lemma digit_char_not c d : 0 <= d < 10 -> code c < 48 -> Ascii.eqb (digit_char d) c = false.
Proof.
  intros Hd Hc. apply Ascii.eqb_neq. intros <-.
  pose proof (digit_char_decimal d Hd) as H. unfold is_decimal, in_range in H. bools. lia.
Qed.

Lemma dstr_no c l : digit_list l -> code c < 48 ->
  str_forall (fun x => negb (Ascii.eqb x c)) (dstr l) = true.
Proof. intros Hl Hc. unfold dstr. induction Hl; simpl; [done|]. by rewrite digit_char_not, IHHl. Qed.

Definition is_zero_char (c : ascii) : bool := Ascii.eqb c "0".
Definition trim0 (l : list Z) : string := rstrip_if is_zero_char (dstr l).

(** The trimmed fraction followed by zeros is the fraction. *)
Lemma trim0_split l : digit_list l ->
  exists l' n, l = (l' ++ zeros n)%list /\ trim0 l = dstr l'.
Proof.
  intros Hl. unfold trim0, dstr. induction Hl as [|d l Hd Hl (l' & n & E & Ht)]; simpl.
  - exists [], 0%nat. done.
  - rewrite Ht. destruct l' as [|e l']; simpl.
    + destruct (is_zero_char (digit_char d)) eqn:Ez.
      * exists [], (S n). simpl in E. subst l. split; [|done].
        apply Ascii.eqb_eq in Ez. f_equal.
        rewrite <-(char_digit_char d Hd). by rewrite Ez.
      * exists [d], n. simpl in *. subst l. done.
    + exists (d :: e :: l'), n. subst l. done.
Qed.

Lemma trim0_zeros l n : trim0 (l ++ zeros n) = trim0 l.
Proof.
  unfold trim0. rewrite dstr_app, rstrip_if_app, (rstrip_if_all _ (dstr (zeros n))); [done|].
  unfold dstr. induction n; simpl; [done|]. by rewrite IHn.
Qed.

(** The spelling: integral digits, then a point and the trimmed fraction unless
    that is empty. *)
Definition spell (d : dec) : string :=
  (if d_neg d then "-" else "") ++ dstr (int_part d)
  ++ (if nonempty (trim0 (frac_part d)) then "." ++ trim0 (frac_part d) else "").

Lemma trim0_digits l : digit_list l -> exists l', trim0 l = dstr l' /\ digit_list l'.
Proof.
  intros Hl. destruct (trim0_split l Hl) as (l' & n & E & Ht). exists l'.
  split; [done|]. subst l. by apply Forall_app in Hl as [].
Qed.

Lemma trim_fraction_spell d : d_wf d -> trim_fraction (d_format d) = spell d.
Proof.
  intros Hw. destruct (parts_spec d Hw) as (Hi & Hf & _).
  rewrite d_format_parts. unfold trim_fraction, has_point, spell.
  set (sg := if d_neg d then "-" else "").
  assert (Hsg : str_forall (fun c => negb (Ascii.eqb c ".")) sg = true) by (subst sg; by case_match).
  destruct (0 <=? d_exp d) eqn:He.
  - rewrite str_forall_app, Hsg, dstr_no by done. simpl.
    unfold frac_part. rewrite He. simpl. by rewrite str_app_nil.
  - rewrite !str_forall_app, Hsg, dstr_no by done. simpl.
    rewrite <-!str_app_assoc. set (pre := sg ++ dstr (int_part d)).
    assert (Hpre : str_forall (fun c => negb (Ascii.eqb c ".")) pre = true).
    { subst pre. by rewrite str_forall_app, Hsg, dstr_no. }
    change (String "." (dstr (frac_part d))) with ("." ++ dstr (frac_part d)).
    rewrite (rstrip_if_app _ pre), (rstrip_if_app _ ".").
    fold is_zero_char. fold (trim0 (frac_part d)).
    destruct (trim0_digits _ Hf) as (f' & -> & Hf').
    destruct (nonempty (dstr f')) eqn:Hn; simpl.
    + rewrite rstrip_if_app. change (String "." (dstr f')) with ("." ++ dstr f').
      rewrite rstrip_if_app, (rstrip_if_none _ (dstr f')) by by apply dstr_no.
      by rewrite Hn.
    + rewrite rstrip_if_app. simpl. rewrite str_app_nil. by apply rstrip_if_none.
Qed.

(** ** Same spelling, same number *)

Lemma dstr_inj a b : digit_list a -> digit_list b -> dstr a = dstr b -> a = b.
Proof.
  intros Ha. revert b; induction Ha as [|d a Hd Ha IH]; intros b Hb; destruct Hb as [|e b He Hb];
    simpl; try done. intros [= H1 H2]. f_equal; [|by apply IH].
  by rewrite <-(char_digit_char d), <-(char_digit_char e), H1.
Qed.

Lemma spell_inj_parts a b s t :
  str_forall (fun c => negb (Ascii.eqb c ".")) a = true ->
  str_forall (fun c => negb (Ascii.eqb c ".")) b = true ->
  a ++ (if nonempty s then "." ++ s else "") = b ++ (if nonempty t then "." ++ t else "") ->
  a = b /\ s = t.
Proof.
  revert b; induction a as [|c a IH]; intros b Ha Hb E; destruct b as [|c' b]; simpl in *.
  - split; [done|]. destruct s, t; simpl in *; congruence.
  - bools. destruct s; simpl in *; [done|]. injection E as <- E. done.
  - bools. destruct t; simpl in *; [done|]. injection E as -> E. done.
  - bools. injection E as -> E. destruct (IH b) as [-> ->]; done.
Qed.

(** Equal values: cross-multiplied magnitudes. *)
Definition same_magnitude (x y : dec) : Prop :=
  whole x * 10 ^ Z.of_nat (frac_len y) = whole y * 10 ^ Z.of_nat (frac_len x).

Lemma whole_at d e : e <= 0 -> e <= d_exp d ->
  d_coef d * 10 ^ (d_exp d - e) * 10 ^ Z.of_nat (frac_len d) = whole d * 10 ^ (- e).
Proof.
  intros He Hd. unfold whole, frac_len.
  rewrite <-!Z.mul_assoc, <-!Z.pow_add_r by lia. do 2 f_equal. lia.
Qed.

Lemma mul_pow_cancel a b k : 0 <= k -> a * 10 ^ k = b * 10 ^ k <-> a = b.
Proof. intros Hk. pose proof (pow10_pos k Hk). rewrite Z.mul_cancel_r by lia. done. Qed.

Lemma same_magnitude_coef x y :
  same_magnitude x y <->
  d_coef x * 10 ^ (d_exp x - Z.min (d_exp x) (d_exp y))
  = d_coef y * 10 ^ (d_exp y - Z.min (d_exp x) (d_exp y)).
Proof.
  set (m := Z.min (d_exp x) (d_exp y)). set (e := Z.min 0 m).
  pose proof (whole_at x e ltac:(lia) ltac:(lia)) as Hx.
  pose proof (whole_at y e ltac:(lia) ltac:(lia)) as Hy.
  replace (d_exp x - e) with (d_exp x - m + (m - e)) in Hx by lia.
  replace (d_exp y - e) with (d_exp y - m + (m - e)) in Hy by lia.
  rewrite Z.pow_add_r in Hx, Hy by lia. unfold same_magnitude.
  set (P := 10 ^ Z.of_nat (frac_len x)) in *. set (Q := 10 ^ Z.of_nat (frac_len y)) in *.
  set (S := 10 ^ (m - e)) in *.
  assert (0 < P /\ 0 < Q /\ 0 < S) as (? & ? & ?) by (repeat split; apply pow10_pos; lia).
  rewrite <-(mul_pow_cancel (whole x * Q) _ (- e)) by lia.
  rewrite <-(Z.mul_cancel_r (d_coef x * _) _ (S * P * Q)) by nia.
  split; intros; nia.
Qed.

Lemma same_magnitude_int x y : d_wf x -> d_wf y -> same_magnitude x y -> int_part x = int_part y.
Proof.
  intros Hx Hy H. rewrite !int_part_digits by done. f_equal.
  set (p := 10 ^ Z.of_nat (frac_len x)). set (q := 10 ^ Z.of_nat (frac_len y)).
  assert (0 < p /\ 0 < q) as [] by (split; apply pow10_pos; lia).
  unfold same_magnitude in H. fold p q in H.
  rewrite <-(Z.div_mul_cancel_r (whole x) p q), <-(Z.div_mul_cancel_r (whole y) q p) by lia.
  rewrite H. f_equal. lia.
Qed.

Lemma trim0_le x y :
  d_wf x -> d_wf y -> same_magnitude x y -> (frac_len x <= frac_len y)%nat ->
  trim0 (frac_part x) = trim0 (frac_part y).
Proof.
  intros Hx Hy H Hle.
  destruct (parts_spec x Hx) as (Hi & Hf & Hl & Hv), (parts_spec y Hy) as (Hi' & Hf' & Hl' & Hv').
  assert (frac_part y = frac_part x ++ zeros (frac_len y - frac_len x))%list as ->;
    [|by rewrite trim0_zeros].
  apply undigits_inj; [done|apply Forall_app; split; [done|apply digit_list_zeros]| |].
  { rewrite length_app, length_zeros. lia. }
  rewrite undigits_app, undigits_zeros, length_zeros.
  rewrite (same_magnitude_int x y) in Hv by done.
  unfold same_magnitude in H. rewrite <-Hv, <-Hv' in H.
  set (p := 10 ^ Z.of_nat (frac_len x)) in *.
  replace (10 ^ Z.of_nat (frac_len y)) with (p * 10 ^ Z.of_nat (frac_len y - frac_len x)) in *.
  - assert (0 < p) by (apply pow10_pos; lia). nia.
  - unfold p. rewrite <-Z.pow_add_r by lia. f_equal. lia.
Qed.

Lemma trim0_same x y :
  d_wf x -> d_wf y -> same_magnitude x y -> trim0 (frac_part x) = trim0 (frac_part y).
Proof.
  intros Hx Hy H. destruct (decide (frac_len x <= frac_len y)%nat); [by apply trim0_le|].
  symmetry. apply trim0_le; try done; lia.
Qed.

Lemma parts_same_magnitude x y :
  d_wf x -> d_wf y -> int_part x = int_part y ->
  trim0 (frac_part x) = trim0 (frac_part y) -> same_magnitude x y.
Proof.
  intros Hx Hy Hi Ht.
  destruct (parts_spec x Hx) as (_ & Hf & Hl & Hv), (parts_spec y Hy) as (_ & Hf' & Hl' & Hv').
  destruct (trim0_split _ Hf) as (a & n & Ea & Ta), (trim0_split _ Hf') as (b & m & Eb & Tb).
  rewrite Ta, Tb in Ht. rewrite Ea in Hf. rewrite Eb in Hf'.
  apply Forall_app in Hf as [Hfa _]. apply Forall_app in Hf' as [Hfb _].
  apply dstr_inj in Ht as <-; [|done..].
  rewrite Ea, length_app, length_zeros in Hl. rewrite Eb, length_app, length_zeros in Hl'.
  unfold same_magnitude. rewrite <-Hv, <-Hv', Ea, Eb, Hi, !undigits_app, !undigits_zeros, !length_zeros.
  rewrite <-Hl, <-Hl', !Nat2Z.inj_add, !Z.pow_add_r by lia. lia.
Qed.

Lemma d_eqb_pos x y :
  d_neg x = false -> d_neg y = false -> d_eqb x y = true <-> same_magnitude x y.
Proof.
  intros Hx Hy. rewrite same_magnitude_coef.
  rewrite (d_eqb_at (Z.min (d_exp x) (d_exp y))) by lia. rewrite Z.eqb_eq.
  unfold d_at, d_signed. by rewrite Hx, Hy.
Qed.

(** Two non-negative numbers are spelled alike exactly when they are equal. *)
Lemma price_text_eq x y :
  d_wf x -> d_wf y -> d_neg x = false -> d_neg y = false ->
  price_text x = price_text y <-> d_eqb x y = true.
Proof.
  intros Hx Hy Nx Ny. rewrite d_eqb_pos by done.
  destruct (parts_spec x Hx) as (Hi & _), (parts_spec y Hy) as (Hi' & _).
  unfold price_text. rewrite !trim_fraction_spell by done. unfold spell. rewrite Nx, Ny; simpl.
  split.
  - intros E. apply spell_inj_parts in E as [E1 E2]; [|by apply dstr_no..].
    apply dstr_inj in E1; [|done..]. by apply parts_same_magnitude.
  - intros E. by rewrite (same_magnitude_int x y), (trim0_same x y).
Qed.

(** ** Case and blanks *)

Lemma upper_char_space c :
  upper_char c <> "" /\ str_forall (fun d => bool_decide (is_space d = is_space c)) (upper_char c) = true
  /\ upper (upper_char c) = upper_char c.
Proof. destruct c as [[] [] [] [] [] [] [] []]; by vm_compute. Qed.

Lemma upper_app s t : upper (s ++ t) = (upper s ++ upper t)%string.
Proof. induction s as [|c s IH]; [done|]. cbn. rewrite IH. by rewrite str_app_assoc. Qed.

Lemma upper_idem s : upper (upper s) = upper s.
Proof. induction s as [|c s IH]; [done|]. cbn. rewrite upper_app, IH. by rewrite (proj2 (proj2 (upper_char_space c))). Qed.

Lemma upper_char_blank c : is_space c = true -> str_forall is_space (upper_char c) = true.
Proof.
  intros Hc. eapply str_forall_impl; [|apply (upper_char_space c)]. intros d Hd%bool_decide_eq_true. congruence.
Qed.
Lemma upper_char_solid c : is_space c = false -> str_forall (fun d => negb (is_space d)) (upper_char c) = true.
Proof.
  intros Hc. eapply str_forall_impl; [|apply (upper_char_space c)]. intros d Hd%bool_decide_eq_true. by rewrite Hd, Hc.
Qed.

Lemma lstrip_blank s t : str_forall is_space s = true -> lstrip (s ++ t) = lstrip t.
Proof. induction s as [|c s IH]; [done|]. cbn. intros [Hc Hs]%andb_true_iff. by rewrite Hc, IH. Qed.

Lemma strip_upper s : strip (upper s) = upper (strip s).
Proof.
  unfold strip. assert (E : lstrip (upper s) = upper (lstrip s)).
  { induction s as [|c s IH]; [done|]. cbn. destruct (is_space c) eqn:Ec.
    - by rewrite lstrip_blank by by apply upper_char_blank.
    - pose proof (upper_char_solid c Ec) as Hs. destruct (upper_char_space c) as [Hne _].
      cbn [upper]. destruct (upper_char c) as [|d u]; [done|]. cbn in *. apply andb_true_iff in Hs as [Hd _].
      apply negb_true_iff in Hd. by rewrite Hd. }
  rewrite E. generalize (lstrip s) as u. clear. intros u. unfold rstrip. induction u as [|c u IH]; [done|].
  cbn [upper]. rewrite rstrip_if_app, IH. cbn [rstrip_if]. destruct (rstrip_if is_space u) as [|d r].
  - cbn. destruct (is_space c) eqn:Ec; [by apply rstrip_if_all, upper_char_blank|].
    rewrite rstrip_if_none by (by apply upper_char_solid). cbn. by rewrite str_app_nil.
  - cbn. destruct (upper_char_space d) as [Hne _]. by destruct (upper_char d).
Qed.

Lemma rstrip_idem p s : rstrip_if p (rstrip_if p s) = rstrip_if p s.
Proof.
  induction s as [|c s IH]; [done|]. cbn. destruct (rstrip_if p s) as [|d r] eqn:E.
  - destruct (p c) eqn:Ec; [done|]. cbn. by rewrite Ec.
  - cbn [rstrip_if]. cbn [rstrip_if] in IH. by rewrite IH.
Qed.

Lemma strip_idem s : strip (strip s) = strip s.
Proof.
  unfold strip, rstrip. assert (E : lstrip (rstrip_if is_space (lstrip s)) = rstrip_if is_space (lstrip s)).
  { induction s as [|c s IH]; [done|]. cbn [lstrip]. destruct (is_space c) eqn:Ec; [done|].
    cbn. destruct (rstrip_if is_space s); cbn; by rewrite ?Ec; cbn; rewrite ?Ec. }
  rewrite E. apply rstrip_idem.
Qed.

(** [text.strip().upper()] twice is once. *)
Lemma upper_strip_idem s : upper (strip (upper (strip s))) = upper (strip s).
Proof. by rewrite strip_upper, strip_idem, upper_idem. Qed.
