(* ===== verification/DecParse.v ===== *)
(** Two facts about [Decimal(text)]: the decimal text of an integer is read
    back as that integer, and a text never has more significant digits than
    characters. *)

From S2P Require Import Prelude PyStr PyFloat PyDec DecText.

(** ** The text of an integer *)

Lemma decimal_range c : is_decimal c = true -> 48 <= code c <= 57.
Proof. unfold is_decimal, in_range. intros; bools; lia. Qed.

Lemma decimal_not_space c : is_decimal c = true -> is_space c = false.
Proof.
  intros H%decimal_range. unfold is_space, in_range.
  repeat (apply orb_false_iff; split); lia.
Qed.

Lemma decimal_not c d : is_decimal c = true -> is_decimal d = false -> Ascii.eqb c d = false.
Proof. intros H H'. apply Ascii.eqb_neq. intros ->. congruence. Qed.

Lemma decimal_lower c : is_decimal c = true -> lower_char c = c.
Proof.
  intros H%decimal_range. unfold lower_char, in_range. case_match; [|done].
  exfalso. repeat (apply orb_true_iff in H0 as [H0|H0] || bools); lia.
Qed.

Definition decimal_text (s : string) : Prop := str_forall is_decimal s = true.

Lemma decimal_text_cons c s : decimal_text (String c s) <-> is_decimal c = true /\ decimal_text s.
Proof. unfold decimal_text. simpl. apply andb_true_iff. Qed.

Lemma lower_decimal s : decimal_text s -> lower s = s.
Proof.
  induction s as [|c s IH]; [done|]. intros [Hc Hs]%decimal_text_cons.
  simpl. by rewrite decimal_lower, IH.
Qed.

Lemma strip_decimal s : decimal_text s -> strip s = s.
Proof.
  intros H. unfold strip, rstrip.
  assert (lstrip s = s) as ->.
  { destruct s as [|c s]; [done|]. apply decimal_text_cons in H as [Hc _].
    simpl. by rewrite decimal_not_space. }
  apply rstrip_if_none. eapply str_forall_impl; [|exact H].
  intros c Hc. by rewrite decimal_not_space.
Qed.

Lemma drop_us_decimal s : decimal_text s -> drop_us s = s.
Proof.
  unfold drop_us. induction s as [|c s IH]; [done|]. intros [Hc Hs]%decimal_text_cons.
  simpl. rewrite decimal_not by done. simpl. by rewrite IH.
Qed.

Lemma partition_decimal sep s : decimal_text s -> is_decimal sep = false -> partition sep s = (s, false, "").
Proof.
  intros Hs Hsep. induction s as [|c s IH]; [done|]. apply decimal_text_cons in Hs as [Hc Hs].
  simpl. by rewrite decimal_not, IH.
Qed.

Lemma parse_digits_decimal s : decimal_text s -> parse_digits s = Some (chars_of s).
Proof. intros H. unfold parse_digits. by rewrite H. Qed.

Lemma parse_number_decimal s :
  decimal_text s -> s <> "" -> parse_number parse_digits s = Some (int_of s, 0).
Proof.
  intros H Hne. unfold parse_number. rewrite lower_decimal, partition_decimal by done.
  rewrite partition_decimal by done. rewrite (parse_digits_decimal s H). cbn.
  rewrite string_of_chars. destruct s as [|c s]; [done|]. cbn [nonempty negb orb].
  unfold int_of. by rewrite app_nil_r.
Qed.

Lemma d_parse_decimal s : isdecimal s = true -> d_parse s = Some (DFin (Dec false (int_of s) 0)).
Proof.
  unfold isdecimal. intros [Hne Hs]%andb_true_iff. apply nonempty_true in Hne.
  unfold d_parse. rewrite strip_decimal, drop_us_decimal by done.
  assert (split_sign s = (false, s)) as ->.
  { destruct s as [|c s]; [done|]. apply decimal_text_cons in Hs as [Hc _].
    simpl. unfold is_sign. by rewrite !decimal_not. }
  cbv zeta. rewrite lower_decimal by done.
  assert (Hhead : forall c t, is_decimal c = false -> s <> String c t).
  { intros c t Hc ->. apply decimal_text_cons in Hs as [Hc' _]. congruence. }
  assert (Hpre : forall c t, is_decimal c = false -> startswith (String c t) s = false).
  { intros c t Hc. unfold startswith. destruct s as [|d s]; [done|].
    apply decimal_text_cons in Hs as [Hd _]. simpl. case_match; [|done]. congruence. }
  rewrite !Hpre by done. unfold mem. rewrite bool_decide_eq_false_2.
  - cbn [andb]. by rewrite parse_number_decimal.
  - rewrite !elem_of_cons, elem_of_nil. intros [?|[?|[]]]; by eapply (Hhead "i"%char).
Qed.

Lemma d_parse_int z : 0 <= z -> d_parse (str_int z) = Some (DFin (d_of_Z z)).
Proof.
  intros Hz. unfold str_int, d_of_Z. destruct (Z.ltb_spec z 0); [lia|].
  rewrite d_parse_decimal by (by apply str_nat_isdecimal).
  rewrite int_of_str by done. by rewrite Z.abs_eq.
Qed.

Lemma str_int_len z : 0 <= z -> len (str_int z) = num_digits z.
Proof.
  intros Hz. unfold str_int, str_nat, len, num_digits. destruct (Z.ltb_spec z 0); [lia|].
  f_equal. induction (digits z); [done|]. simpl. by f_equal.
Qed.

(** ** Digits and characters *)

Notation slen := String.length.

Lemma rstrip_if_len p s : (slen (rstrip_if p s) <= slen s)%nat.
Proof. induction s as [|c s IH]; simpl; [lia|]. destruct (rstrip_if p s); [destruct (p c)|]; simpl in *; lia. Qed.
Lemma lstrip_len s : (slen (lstrip s) <= slen s)%nat.
Proof. induction s as [|c s IH]; simpl; [lia|]. destruct (is_space c); simpl; lia. Qed.
Lemma strip_len s : (slen (strip s) <= slen s)%nat.
Proof. unfold strip, rstrip. pose proof (rstrip_if_len is_space (lstrip s)). pose proof (lstrip_len s). lia. Qed.
Lemma drop_us_len s : (slen (drop_us s) <= slen s)%nat.
Proof.
  unfold drop_us. induction s as [|c s IH]; simpl; [lia|]. destruct (negb _); simpl; lia.
Qed.
Lemma split_sign_len s : (slen (snd (split_sign s)) <= slen s)%nat.
Proof. destruct s as [|c s]; simpl; [lia|]. destruct (is_sign c); simpl; lia. Qed.
Lemma lower_len s : slen (lower s) = slen s.
Proof. induction s as [|c s IH]; simpl; congruence. Qed.
Lemma partition_len sep s a f b : partition sep s = (a, f, b) -> (slen a + slen b <= slen s)%nat.
Proof.
  revert a f b; induction s as [|c s IH]; intros a f b; simpl; [intros [= <- _ <-]; simpl; lia|].
  destruct (Ascii.eqb c sep); [intros [= <- _ <-]; simpl; lia|].
  destruct (partition sep s) as [[a' f'] b']. intros [= <- _ <-]. specialize (IH _ _ _ eq_refl). simpl. lia.
Qed.
Lemma parse_digits_len s l : parse_digits s = Some l -> length l = slen s.
Proof.
  unfold parse_digits. case_match; [|done]. intros [= <-]. clear H.
  induction s; simpl; congruence.
Qed.

Lemma parse_number_digits s c e :
  parse_number parse_digits s = Some (c, e) -> num_digits c <= Z.max 1 (len s).
Proof.
  unfold parse_number. intros H.
  destruct (partition "e" (lower s)) as [[mant he] ex] eqn:E1.
  destruct (partition "." mant) as [[ip hp] fp] eqn:E2.
  destruct (parse_digits ip) as [di|] eqn:Ei; simpl in H; [|done].
  destruct (parse_digits fp) as [df|] eqn:Ef; simpl in H; [|done].
  destruct (negb _); [done|].
  assert (Hc : c = undigits (map char_digit (di ++ df))).
  { destruct he; simpl in H; [|by simplify_eq]. destruct (split_sign ex) as [neg ed].
    destruct (parse_digits ed); simpl in H; [|done]. destruct (negb _); [done|]. by simplify_eq. }
  assert (Hd : Forall (fun d => 0 <= d < 10) (map char_digit (di ++ df))).
  { apply List.Forall_map, Forall_app. split.
    - eapply Forall_impl; [by eapply parse_digits_ok|]. intros x Hx%decimal_range. unfold char_digit. lia.
    - eapply Forall_impl; [by eapply parse_digits_ok|]. intros x Hx%decimal_range. unfold char_digit. lia. }
  pose proof (undigits_bound _ Hd) as [Hlo Hhi]. rewrite <-Hc in Hlo, Hhi.
  apply partition_len in E1, E2. apply parse_digits_len in Ei, Ef. rewrite lower_len in E1.
  rewrite length_map, length_app, Ei, Ef in Hhi.
  apply num_digits_le; [done|lia|]. eapply Z.lt_le_trans; [exact Hhi|].
  apply Z.pow_le_mono_r; unfold len; lia.
Qed.

Lemma d_parse_digits t d : d_parse t = Some (DFin d) -> d_digits d <= Z.max 1 (len t).
Proof.
  unfold d_parse. intros H. destruct (split_sign (drop_us (strip t))) as [neg s] eqn:E.
  pose proof (split_sign_len (drop_us (strip t))) as L. rewrite E in L. simpl in L.
  pose proof (drop_us_len (strip t)). pose proof (strip_len t).
  repeat (match type of H with (if ?b then _ else _) = _ => destruct b; [by simplify_eq|] end).
  destruct (parse_number parse_digits s) as [[c e]|] eqn:Ep; simpl in H; [|done]. simplify_eq.
  apply parse_number_digits in Ep. unfold d_digits; cbn [d_coef]. unfold len in *. lia.
Qed.
