(* ===== verification/PyVal.v ===== *)
(** Dynamic Python values as they cross the tool and storage boundaries:
    [None], [bool], [int], [float], [str], lists (tuples included) and dicts
    (association lists in insertion order, keys unique).  A text column holding
    JSON is modelled by the value it encodes; [json_dumps] says which values
    [json.dumps(..., allow_nan=False)] accepts. *)

From Stdlib Require Import SpecFloat.
From S2P Require Import Prelude PyStr PyFloat PyDec.

Inductive val : Type :=
  | VNone
  | VBool (b : bool)
  | VInt (z : Z)
  | VFloat (f : float)
  | VStr (s : string)
  | VList (l : list val)
  | VDict (d : list (string * val)).

Abbreviation dict := (list (string * val)).

Section val_induction.
Context (P : val -> Prop).
Context (HNone : P VNone) (HBool : forall b, P (VBool b)) (HInt : forall z, P (VInt z))
        (HFloat : forall f, P (VFloat f)) (HStr : forall s, P (VStr s))
        (HList : forall l, Forall P l -> P (VList l))
        (HDict : forall d, Forall (fun kv => P (snd kv)) d -> P (VDict d)).

Fixpoint val_ind' (v : val) : P v :=
  match v with
  | VNone => HNone
  | VBool b => HBool b
  | VInt z => HInt z
  | VFloat f => HFloat f
  | VStr s => HStr s
  | VList l =>
      HList l ((fix go l := match l return Forall P l with
                            | [] => @List.Forall_nil _ _
                            | v :: l => @List.Forall_cons _ P v l (val_ind' v) (go l)
                            end) l)
  | VDict d =>
      HDict d ((fix go d := match d return Forall (fun kv => P (snd kv)) d with
                            | [] => @List.Forall_nil _ _
                            | kv :: d => @List.Forall_cons _ (fun kv => P (snd kv)) kv d (val_ind' (snd kv)) (go d)
                            end) d)
  end.
End val_induction.

#[export] Instance spec_float_eq_dec : EqDecision spec_float.
Proof. solve_decision. Defined.

(** Structural equality: the equality of the JSON texts of two values. *)
Fixpoint val_eqb (v w : val) : bool :=
  match v, w with
  | VNone, VNone => true
  | VBool b, VBool c => Bool.eqb b c
  | VInt z, VInt y => z =? y
  | VFloat f, VFloat g => bool_decide (f = g)
  | VStr s, VStr t => bool_decide (s = t)
  | VList l, VList k =>
      (fix go l k := match l, k with
                     | [], [] => true
                     | a :: l, b :: k => val_eqb a b && go l k
                     | _, _ => false
                     end) l k
  | VDict d, VDict d' =>
      (fix go d d' := match d, d' with
                      | [], [] => true
                      | (s, a) :: d, (t, b) :: d' => bool_decide (s = t) && val_eqb a b && go d d'
                      | _, _ => false
                      end) d d'
  | _, _ => false
  end.

Lemma val_eqb_eq v w : val_eqb v w = true <-> v = w.
Proof.
  revert w; induction v as [| | | | |l IH|d IH] using val_ind'; intros w; destruct w; simpl;
    try (split; congruence).
  - rewrite Bool.eqb_true_iff. split; congruence.
  - rewrite Z.eqb_eq. split; congruence.
  - rewrite bool_decide_eq_true. split; congruence.
  - rewrite bool_decide_eq_true. split; congruence.
  - rename l0 into k. revert k; induction IH as [|a l Ha Hl IH]; intros [|b k]; try (split; congruence).
    rewrite andb_true_iff, Ha, IH. naive_solver.
  - rename d0 into d'. revert d'; induction IH as [|[s a] d Ha Hd IH]; intros [|[t b] d']; simpl in *;
      try (split; congruence).
    rewrite !andb_true_iff, bool_decide_eq_true, Ha, IH. naive_solver.
Qed.

#[export] Instance val_eq_dec : EqDecision val.
Proof.
  intros v w. destruct (val_eqb v w) eqn:E; [left|right].
  - by apply val_eqb_eq.
  - intros H%val_eqb_eq. congruence.
Defined.

(** ** Dicts *)

(** [d.get(k)] as an option ([d[k]] raises [KeyError] on [None]). *)
Fixpoint dget (k : string) (d : dict) : option val :=
  match d with
  | [] => None
  | (k', v) :: d => if bool_decide (k = k') then Some v else dget k d
  end.

(** [d.get(k)], [None] when absent. *)
Definition dget_none (k : string) (d : dict) : val := default VNone (dget k d).
Definition dget_or (k : string) (v : val) (d : dict) : val := default v (dget k d).
Definition ditem (k : string) (d : dict) : result val :=
  match dget k d with Some v => Ok v | None => Err (KeyError k) end.
Definition dhas (k : string) (d : dict) : bool :=
  match dget k d with Some _ => true | None => false end.
Definition dkeys (d : dict) : list string := map fst d.

(** [d[k] = v]: replaces in place, appends a new key. *)
Fixpoint dset (k : string) (v : val) (d : dict) : dict :=
  match d with
  | [] => [(k, v)]
  | (k', w) :: d => if bool_decide (k = k') then (k', v) :: d else (k', w) :: dset k v d
  end.
(** [d.pop(k, None)] *)
Definition dpop (k : string) (d : dict) : dict :=
  List.filter (fun kv => negb (bool_decide (k = fst kv))) d.

(** ** Numbers and equality *)

Definition is_none (v : val) : bool := match v with VNone => true | _ => false end.
Definition is_bool (v : val) : bool := match v with VBool _ => true | _ => false end.
Definition is_str (v : val) : bool := match v with VStr _ => true | _ => false end.

(** Numeric value of a bool, int or float as a float-like pair: an integer is
    [m * 2 ^ 0]. *)
Inductive pynum : Type := NumFin (m e : Z) | NumInf (neg : bool) | NumNan.

Definition num_of (v : val) : option pynum :=
  match v with
  | VBool b => Some (NumFin (Z.b2z b) 0)
  | VInt z => Some (NumFin z 0)
  | VFloat (S754_zero _) => Some (NumFin 0 0)
  | VFloat (S754_finite s m e) => Some (NumFin (if s then Z.neg m else Z.pos m) e)
  | VFloat (S754_infinity s) => Some (NumInf s)
  | VFloat S754_nan => Some NumNan
  | _ => None
  end.

Definition num_eqb (x y : pynum) : bool :=
  match x, y with
  | NumFin m e, NumFin m' e' =>
      let k := Z.min e e' in m * 2 ^ (e - k) =? m' * 2 ^ (e' - k)
  | NumInf s, NumInf s' => Bool.eqb s s'
  | _, _ => false
  end.

(** Python [==]: numbers by value across types, dicts regardless of order. *)
Fixpoint py_eqb (v w : val) : bool :=
  match num_of v, num_of w with
  | Some x, Some y => num_eqb x y
  | _, _ =>
    match v, w with
    | VNone, VNone => true
    | VStr s, VStr t => bool_decide (s = t)
    | VList l, VList k =>
        (fix go l k := match l, k with
                       | [], [] => true
                       | a :: l, b :: k => py_eqb a b && go l k
                       | _, _ => false
                       end) l k
    | VDict d, VDict d' =>
        Nat.eqb (length d) (length d') &&
        (fix go d := match d with
                     | [] => true
                     | (k, a) :: d => match dget k d' with
                                      | Some b => py_eqb a b && go d
                                      | None => false
                                      end
                     end) d
    | _, _ => false
    end
  end.

(** Truthiness. *)
Definition truthy (v : val) : bool :=
  match v with
  | VNone => false
  | VBool b => b
  | VInt z => negb (z =? 0)
  | VFloat (S754_zero _) => false
  | VFloat _ => true
  | VStr s => nonempty s
  | VList l => match l with [] => false | _ => true end
  | VDict d => match d with [] => false | _ => true end
  end.

(** [str(v)] for the scalars the code renders; [None] otherwise. *)
Definition str_scalar (v : val) : option string :=
  match v with
  | VStr s => Some s
  | VInt z => Some (str_int z)
  | VNone => Some "None"
  | VBool b => Some (if b then "True" else "False")
  | _ => None
  end.

(** [Decimal(str(v))] for a value; [None] is [InvalidOperation]. *)
Definition decimal_str (v : val) : option decimal :=
  match v with
  | VFloat f => Some (d_of_float f)
  | _ => t ← str_scalar v; d_parse t
  end.

(** ** JSON *)

Fixpoint json_finite (v : val) : bool :=
  match v with
  | VFloat f => is_finite f
  | VList l => forallb json_finite l
  | VDict d => (fix go d := match d with [] => true | (_, v) :: d => json_finite v && go d end) d
  | _ => true
  end.

(** [json.dumps(v, allow_nan=False)]: the encoded value, or [ValueError]. *)
Definition json_dumps (v : val) : result val :=
  if json_finite v then Ok v else Err (ValueError "Out of range float values are not JSON compliant").

Lemma json_dumps_ok v w : json_dumps v = Ok w -> w = v /\ json_finite v = true.
Proof. unfold json_dumps. case_match; naive_solver. Qed.

Lemma dget_dset_eq k v d : dget k (dset k v d) = Some v.
Proof.
  induction d as [|[k' w] d IH]; simpl; [by rewrite bool_decide_eq_true_2|].
  case_bool_decide; simpl; [by rewrite bool_decide_eq_true_2|].
  by rewrite bool_decide_eq_false_2.
Qed.

Lemma dget_dset_ne k k' v d : k <> k' -> dget k (dset k' v d) = dget k d.
Proof.
  intros Hne. induction d as [|[k'' w] d IH]; simpl.
  - by rewrite bool_decide_eq_false_2.
  - repeat case_bool_decide; simplify_eq/=; repeat case_bool_decide; done.
Qed.

Lemma dset_same k v d : dget k d = Some v -> dset k v d = d.
Proof.
  induction d as [|[k' w] d IH]; simpl; [done|]. case_bool_decide; [by intros [= ->]|]. intros Hk. by rewrite IH.
Qed.

Lemma ditem_dset_ne k k' v d : k <> k' -> ditem k (dset k' v d) = ditem k d.
Proof. intros H. unfold ditem. by rewrite dget_dset_ne. Qed.
Lemma dget_dpop_eq k d : dget k (dpop k d) = None.
Proof.
  induction d as [|[k' w] d IH]; simpl; [done|].
  destruct (bool_decide (k = k')) eqn:E; simpl; [done|]. by rewrite E.
Qed.

Lemma dget_dpop_ne k k' d : k <> k' -> dget k (dpop k' d) = dget k d.
Proof.
  intros Hne. induction d as [|[k'' w] d IH]; simpl; [done|].
  destruct (bool_decide (k' = k'')) eqn:E; simpl; [|by rewrite IH].
  apply bool_decide_eq_true in E as <-. by rewrite bool_decide_eq_false_2.
Qed.

Lemma num_eqb_refl m e : num_eqb (NumFin m e) (NumFin m e) = true.
Proof. simpl. apply Z.eqb_refl. Qed.

Create HintDb dicts.
#[export] Hint Resolve dget_dset_eq dget_dpop_eq dget_dset_ne dget_dpop_ne : dicts.
