(* ===== verification/OrderErrors.v ===== *)
(** services/order_errors.py: the three outcomes of an order mutation, and the
    boundary [not_sent] that turns every failure before the SDK write into
    "this invocation sent nothing". *)

From S2P Require Import Prelude.

Definition not_sent_message : string :=
  "was refused before any request was sent to the gateway, so no order was sent by this invocation.".

(** The exception that leaves a [not_sent] block when [e] was raised inside. *)
Definition not_sent_exn (admitted identity_lookup : bool) (e : exn) : exn :=
  match e with
  | OrderNotSentError m a => OrderNotSentError m (admitted || a)
  | OrderOutcomeUnknownError _ | OrderReceiptUnreadableError _ => e
  | ExecutionStoreError _ =>
      if identity_lookup then e else OrderNotSentError not_sent_message admitted
  | TypeError _ => OrderNotSentError not_sent_message admitted
  | _ => if is_value_error e || is_runtime_error e
         then OrderNotSentError not_sent_message admitted
         else e
  end.

Definition not_sent (admitted identity_lookup : bool) {A} (r : result A) : result A :=
  match r with
  | Ok a => Ok a
  | Err e => Err (not_sent_exn admitted identity_lookup e)
  end.

(** The same boundary around a stateful block. *)
Definition not_sent_se (admitted identity_lookup : bool) {S A} (c : SE S A) : SE S A :=
  fun s => let '(r, s') := c s in (not_sent admitted identity_lookup r, s').

Definition claims_sent (e : exn) : bool :=
  match e with
  | OrderOutcomeUnknownError _ | OrderReceiptUnreadableError _ => true
  | _ => false
  end.

Lemma not_sent_ok ad il {A} (r : result A) a : not_sent ad il r = Ok a <-> r = Ok a.
Proof. destruct r; naive_solver. Qed.

Lemma not_sent_claims ad il e : claims_sent (not_sent_exn ad il e) = claims_sent e.
Proof. destruct e; try done. by destruct il. Qed.

(** Wrapping an already wrapped failure changes nothing but the admission flag. *)
Lemma not_sent_idemp il e :
  not_sent_exn false il (not_sent_exn false il e) = not_sent_exn false il e.
Proof. destruct e; try done. by destruct il. Qed.

Lemma preserves_not_sent {S A} (R : relation S) ad il (c : SE S A) :
  preserves R c -> preserves R (not_sent_se ad il c).
Proof.
  intros Hc s r s' H. unfold not_sent_se in H. destruct (c s) as [r1 s1] eqn:E.
  injection H as _ <-. by eapply Hc.
Qed.
#[export] Hint Resolve preserves_not_sent : preserves.
