(* ===== verification/Serialization.v ===== *)
(** tools/serialization.py: identifiers leave the process as decimal strings,
    never as numbers a double would round. *)

From Stdlib Require Import SpecFloat.
From S2P Require Import Prelude PyStr PyFloat PyVal.

Definition IDENTIFIER_FIELDS : list string :=
  ["acc_id"; "position_id"; "combo_id"; "deal_id"; "order_id"].

(** [_serialize_identifier] *)
Definition serialize_identifier (v : val) : result val :=
  match v with
  | VNone => Ok VNone
  | VBool _ => Err (IdentifierSerializationError "has a boolean value")
  | VInt z => Ok (VStr (str_int z))
  | VStr s => Ok (VStr s)
  | VFloat f => if is_nan f then Ok VNone
                else Err (IdentifierSerializationError "has a floating-point value")
  | _ => Err (IdentifierSerializationError "has an unsupported value of type")
  end.

(** [serialize_identifiers]: dicts and lists recursively, values under an
    identifier key converted, everything else untouched. *)
Fixpoint serialize_identifiers (v : val) : result val :=
  match v with
  | VDict d =>
      bind ((fix go (d : dict) : result dict :=
               match d with
               | [] => Ok []
               | (k, w) :: d =>
                   bind (if mem k IDENTIFIER_FIELDS then serialize_identifier w
                         else serialize_identifiers w)
                        (fun w' => bind (go d) (fun d' => Ok ((k, w') :: d')))
               end) d) (fun d' => Ok (VDict d'))
  | VList l =>
      bind ((fix go (l : list val) : result (list val) :=
               match l with
               | [] => Ok []
               | w :: l => bind (serialize_identifiers w)
                             (fun w' => bind (go l) (fun l' => Ok (w' :: l')))
               end) l) (fun l' => Ok (VList l'))
  | _ => Ok v
  end.

(** No identifier in the value is a number: what the boundary promises. *)
Definition exact_id (v : val) : bool :=
  match v with VNone | VStr _ => true | _ => false end.

Fixpoint identifiers_exact (v : val) : bool :=
  match v with
  | VDict d =>
      (fix go (d : dict) : bool :=
         match d with
         | [] => true
         | (k, w) :: d =>
             (if mem k IDENTIFIER_FIELDS then exact_id w else identifiers_exact w) && go d
         end) d
  | VList l =>
      (fix go (l : list val) : bool :=
         match l with [] => true | w :: l => identifiers_exact w && go l end) l
  | _ => true
  end.

Lemma serialize_identifier_exact v w : serialize_identifier v = Ok w -> exact_id w = true.
Proof. destruct v; simpl; try naive_solver. case_match; naive_solver. Qed.

Lemma serialize_identifier_id v : exact_id v = true -> serialize_identifier v = Ok v.
Proof. by destruct v. Qed.

Lemma serialize_exact v w : serialize_identifiers v = Ok w -> identifiers_exact w = true.
Proof.
  revert w; induction v as [| | | | |l IH|d IH] using val_ind'; intros w Hw; simpl in Hw;
    try (by injection Hw as <-).
  - ok_inv. simpl. match goal with H : _ = Ok ?l' |- _ => revert l' H end.
    induction IH as [|a l Ha Hl IH]; intros l' H; ok_inv; [done|]. simpl.
    by rewrite (Ha _ ltac:(eassumption)), (IH _ ltac:(eassumption)).
  - ok_inv. simpl. match goal with H : _ = Ok ?l' |- _ => revert l' H end.
    induction IH as [|[k a] l Ha Hl IH]; intros l' H; ok_inv; [done|]. simpl in *.
    rewrite (IH _ ltac:(eassumption)). rewrite andb_true_r.
    case_match; eauto using serialize_identifier_exact.
Qed.

Lemma serialize_stable v : identifiers_exact v = true -> serialize_identifiers v = Ok v.
Proof.
  induction v as [| | | | |l IH|d IH] using val_ind'; simpl; try done; intros H.
  - match goal with |- bind ?r _ = _ => enough (r = Ok l) as -> end; [done|].
    induction IH as [|a l Ha Hl IH]; bools; [done|]. by rewrite Ha, IH.
  - match goal with |- bind ?r _ = _ => enough (r = Ok d) as -> end; [done|].
    induction IH as [|[k a] d Ha Hd IH]; bools; [done|]. simpl in *.
    case_match; [rewrite serialize_identifier_id by done|rewrite Ha by done]; simpl; by rewrite IH.
Qed.

(** Whatever structure a service returns, once it passes the boundary every
    identifier in it, at any depth, is a string or null; a second pass changes
    nothing. *)
Theorem serialize_identifiers_exact v w :
  serialize_identifiers v = Ok w ->
  identifiers_exact w = true /\ serialize_identifiers w = Ok w.
Proof. intros H%serialize_exact. split; [done|by apply serialize_stable]. Qed.

(** A 64-bit account identifier survives exactly, nested in a list of rows. *)
Theorem serialize_identifiers_exact_witness :
  let v := VList [VDict [("acc_id", VInt 3000000000000000001); ("qty", VInt 2)]] in
  let w := VList [VDict [("acc_id", VStr "3000000000000000001"); ("qty", VInt 2)]] in
  serialize_identifiers v = Ok w /\ identifiers_exact w = true /\ serialize_identifiers w = Ok w.
Proof.
  intros v w. split; [vm_compute; reflexivity|].
  apply (serialize_identifiers_exact v w). vm_compute. reflexivity.
Defined.
