(* ===== verification/Identity.v ===== *)
(** services/execution_identity.py: caller-owned operation tokens and the
    canonical form under which a retried request is recognised.  A canonical
    request is the JSON value its text encodes, with sorted keys. *)

From Stdlib Require Import SpecFloat.
From S2P Require Import Prelude PyStr PyFloat PyDec DecText PyVal.

Definition IDENTITY_TOKEN_MIN_LENGTH : Z := 1.
Definition IDENTITY_TOKEN_MAX_LENGTH : Z := 64.

(** [validate_identity_token]: the first violated constraint, in the order the
    code tests them. *)
Definition token_constraint (value : val) : option string :=
  match value with
  | VNone => Some "required"
  | VStr s =>
      if len s <? IDENTITY_TOKEN_MIN_LENGTH then Some "min_length"
      else if IDENTITY_TOKEN_MAX_LENGTH <? len s then Some "max_length"
      else if negb (nonempty (strip s)) then Some "nonblank"
      else if negb (isprintable s) then Some "printable"
      else None
  | _ => Some "strict_string"
  end.

Definition validate_identity_token (field : string) (value : val) : result string :=
  match token_constraint value, value with
  | Some c, _ => Err (IdentityTokenValidationError field c)
  | None, VStr s => Ok s
  | None, _ => Err AssertionError
  end.

(** [validate_token] *)
Definition validate_token (operation_id admission_epoch : val) : result unit :=
  (_ <- validate_identity_token "operation_id" operation_id ;;
   _ <- validate_identity_token "admission_epoch" admission_epoch ;;
   Ok tt)%py.

(** [decimal_price]: plain decimal text of at most 64 characters, positive. *)
Definition decimal_price (value : val) : result dec :=
  match value with
  | VStr s =>
      if negb ((1 <=? len s) && (len s <=? 64))
      then Err (ValueError "paper price must be a positive decimal string")
      else
        let parts := split "." s in
        if Nat.ltb 2 (length parts) || negb (forallb isdecimal parts)
        then Err (ValueError "paper price must be a positive decimal string")
        else match d_parse s with
             | Some (DFin d) => if d_gtb d d_zero then Ok d
                                else Err (ValueError "paper price must be positive")
             | _ => Err InvalidOperation
             end
  | _ => Err (ValueError "paper price must be a positive decimal string")
  end.

(** [_canonical]: prices to one spelling, containers recursively. *)
Fixpoint canonical (key : string) (v : val) : result val :=
  if bool_decide (key = "price")
  then bind (decimal_price v) (fun d => Ok (VStr (price_text d)))
  else match v with
       | VDict d =>
           bind ((fix go (d : dict) : result dict :=
                    match d with
                    | [] => Ok []
                    | (k, w) :: d => bind (canonical k w)
                                       (fun w' => bind (go d) (fun d' => Ok ((k, w') :: d')))
                    end) d) (fun d' => Ok (VDict d'))
       | VList l =>
           bind ((fix go (l : list val) : result (list val) :=
                    match l with
                    | [] => Ok []
                    | w :: l => bind (canonical "" w)
                                  (fun w' => bind (go l) (fun l' => Ok (w' :: l')))
                    end) l) (fun l' => Ok (VList l'))
       | _ => Ok v
       end.

(** [json.dumps(..., sort_keys=True)]: the keys of every object in code-point
    order. *)
Fixpoint str_leb (s t : string) : bool :=
  match s, t with
  | "", _ => true
  | _, "" => false
  | String a s, String b t =>
      if code a =? code b then str_leb s t else code a <? code b
  end.

Fixpoint insert_key (kv : string * val) (d : dict) : dict :=
  match d with
  | [] => [kv]
  | kv' :: d' => if str_leb (fst kv) (fst kv') then kv :: d else kv' :: insert_key kv d'
  end.
Definition sort_dict (d : dict) : dict := foldr insert_key [] d.

Fixpoint sort_keys (v : val) : val :=
  match v with
  | VDict d => VDict (sort_dict ((fix go (d : dict) : dict :=
                 match d with [] => [] | (k, w) :: d => (k, sort_keys w) :: go d end) d))
  | VList l => VList (map sort_keys l)
  | _ => v
  end.

(** [canonicalize_request] *)
Definition request_envelope (env account op_type : string) (params : val) : val :=
  sort_keys (VDict [("env", VStr env); ("account", VStr account);
                    ("op_type", VStr op_type); ("params", params)]).

Definition canonicalize_request (env : string) (account : Z) (op_type : string)
    (params : dict) : result val :=
  (p <- canonical "" (VDict params) ;;
   json_dumps (request_envelope env (str_int account) op_type p))%py.

(** ** [differing_fields] *)

Definition as_dict (v : val) : result dict :=
  match v with VDict d => Ok d | _ => Err (TypeError "not subscriptable") end.

Definition envelope_field_differs (l r : dict) (k : string) : result bool :=
  (a <- ditem k l ;; b <- ditem k r ;; Ok (negb (py_eqb a b)))%py.

Fixpoint insert_str (s : string) (l : list string) : list string :=
  match l with
  | [] => [s]
  | t :: l' => if bool_decide (s = t) then l
               else if str_leb s t then s :: l else t :: insert_str s l'
  end.
(** [sorted(set(...))] *)
Definition sorted_set (l : list string) : list string := foldr insert_str [] l.

Definition param_differs (l r : dict) (k : string) : bool :=
  match dget k l, dget k r with
  | Some a, Some b => negb (py_eqb a b)
  | _, _ => true
  end.

Definition differing_fields (stored proposed : val) : result (list string) :=
  (left <- as_dict stored ;; right <- as_dict proposed ;;
   e <- envelope_field_differs left right "env" ;;
   a <- envelope_field_differs left right "account" ;;
   o <- envelope_field_differs left right "op_type" ;;
   lp <- bind (ditem "params" left) as_dict ;;
   rp <- bind (ditem "params" right) as_dict ;;
   let keys := sorted_set (dkeys lp ++ dkeys rp)%list in
   Ok ((if e then ["env"] else []) ++ (if a then ["account"] else [])
       ++ (if o then ["op_type"] else []) ++ List.filter (param_differs lp rp) keys)%list)%py.

(** ** Lemmas *)

Lemma token_constraint_none v :
  token_constraint v = None <->
  exists s, v = VStr s /\ 1 <= len s <= 64 /\ strip s <> "" /\ isprintable s = true.
Proof.
  destruct v as [| | | |s| |]; simpl; try naive_solver.
  unfold IDENTITY_TOKEN_MIN_LENGTH, IDENTITY_TOKEN_MAX_LENGTH. split.
  - repeat case_match; try done; intros _; exists s; bools.
    repeat split; try done; try lia. by apply nonempty_true.
  - intros (s' & [= <-] & Hl & Hs%nonempty_true & Hp). rewrite Hs, Hp.
    destruct (Z.ltb_spec (len s) 1); [lia|]. destruct (Z.ltb_spec 64 (len s)); [lia|done].
Qed.

Lemma in_insert_str s t l : In s (insert_str t l) <-> s = t \/ In s l.
Proof.
  induction l as [|u l IH]; simpl; [naive_solver|].
  case_bool_decide; [naive_solver|]. case_match; simpl; naive_solver.
Qed.

Lemma in_sorted_set s l : In s (sorted_set l) <-> In s l.
Proof. induction l as [|t l IH]; simpl; [done|]. rewrite in_insert_str, IH. naive_solver. Qed.

Lemma dget_in k d v : dget k d = Some v -> In k (dkeys d).
Proof. induction d as [|[k' w] d IH]; simpl; [done|]. case_bool_decide; naive_solver. Qed.

Lemma dget_none_not_in k d : dget k d = None <-> ~ In k (dkeys d).
Proof.
  induction d as [|[k' w] d IH]; simpl; [naive_solver|]. case_bool_decide; naive_solver.
Qed.

(** Two canonical requests differ in nothing exactly when their three identity
    fields and all their parameters are equal Python values. *)
Definition same_params (lp rp : dict) : Prop :=
  forall k, match dget k lp, dget k rp with
            | Some a, Some b => py_eqb a b = true
            | None, None => True
            | _, _ => False
            end.

Lemma filter_nil {A} (f : A -> bool) l : List.filter f l = [] <-> forall x, In x l -> f x = false.
Proof.
  induction l as [|a l IH]; simpl; [naive_solver|].
  destruct (f a) eqn:E.
  - split; [done|]. intros H. rewrite (H a) in E by auto. done.
  - rewrite IH. split; intros H x; [intros [<-|Hx]; auto|auto].
Qed.

Lemma param_filter_nil lp rp :
  List.filter (param_differs lp rp) (sorted_set (dkeys lp ++ dkeys rp)%list) = []
  <-> same_params lp rp.
Proof.
  rewrite filter_nil. unfold same_params, param_differs. split.
  - intros H k. specialize (H k). rewrite in_sorted_set, in_app_iff in H.
    destruct (dget k lp) eqn:El, (dget k rp) eqn:Er; try done.
    + apply negb_false_iff, H. eauto using dget_in.
    + discriminate H; eauto using dget_in.
    + discriminate H; eauto using dget_in.
  - intros H k. rewrite in_sorted_set, in_app_iff. intros Hin. specialize (H k).
    destruct (dget k lp) eqn:El, (dget k rp) eqn:Er; try done.
    + by rewrite H.
    + rewrite dget_none_not_in in El, Er. naive_solver.
Qed.

Create HintDb identity.
#[export] Hint Resolve dget_in in_sorted_set : identity.

Lemma decimal_price_plain v d :
  decimal_price v = Ok d -> d_wf d /\ d_neg d = false /\ 0 < d_coef d.
Proof.
  unfold decimal_price. repeat case_match; try done. intros [= <-]. subst.
  assert (Hw : d_wf d1) by eauto with decimals.
  match goal with G : d_gtb _ _ = true |- _ => pose proof (d_gt_zero d1 Hw G) end. auto.
Qed.

Lemma canonical_price v d : decimal_price v = Ok d -> canonical "price" v = Ok (VStr (price_text d)).
Proof. intros H. destruct v; try done. unfold canonical. by rewrite H. Qed.

(** A retried price is the same request exactly when it is the same number:
    two accepted price strings, however spelled, canonicalise to the same text
    if and only if they denote equal decimals. *)
Theorem canonical_price_equal s t x y :
  decimal_price s = Ok x -> decimal_price t = Ok y ->
  canonical "price" s = canonical "price" t <-> d_eqb x y = true.
Proof.
  intros Hx Hy.
  destruct (decimal_price_plain _ _ Hx) as (Wx & Nx & _).
  destruct (decimal_price_plain _ _ Hy) as (Wy & Ny & _).
  rewrite <-price_text_eq by done.
  rewrite (canonical_price _ _ Hx), (canonical_price _ _ Hy). split; congruence.
Qed.

Theorem canonical_price_equal_witness :
  canonical "price" (VStr "00012.3400") = canonical "price" (VStr "12.34") /\
  canonical "price" (VStr "12.34") <> canonical "price" (VStr "12.341").
Proof.
  split.
  - apply (canonical_price_equal (VStr "00012.3400") (VStr "12.34")
             (Dec false 123400 (-4)) (Dec false 1234 (-2))); vm_compute; reflexivity.
  - intros H. apply (canonical_price_equal (VStr "12.34") (VStr "12.341")
             (Dec false 1234 (-2)) (Dec false 12341 (-3))) in H; [|vm_compute; reflexivity..].
    vm_compute in H. discriminate H.
Defined.

Lemma differing_fields_ok env1 env2 acc1 acc2 op1 op2 lp rp :
  differing_fields (VDict [("account", VStr acc1); ("env", VStr env1); ("op_type", VStr op1);
                           ("params", VDict lp)])
                   (VDict [("account", VStr acc2); ("env", VStr env2); ("op_type", VStr op2);
                           ("params", VDict rp)]) = Ok [] <->
  env1 = env2 /\ acc1 = acc2 /\ op1 = op2 /\ same_params lp rp.
Proof.
  rewrite <-param_filter_nil. unfold differing_fields, envelope_field_differs. simpl.
  set (rest := List.filter _ _).
  destruct (bool_decide_reflect (env1 = env2)), (bool_decide_reflect (acc1 = acc2)),
    (bool_decide_reflect (op1 = op2)); simpl;
    (split; [intros H; try discriminate H; injection H; auto|intros (? & ? & ? & E)]);
    try done; by rewrite E.
Qed.

Lemma request_envelope_eq env account op_type p :
  request_envelope env account op_type (VDict p) =
  VDict [("account", VStr account); ("env", VStr env); ("op_type", VStr op_type);
         ("params", sort_keys (VDict p))].
Proof. reflexivity. Qed.
