(* ===== verification/Store.v ===== *)
(** services/execution_store.py: the journal of execution records, one SQLite
    database per trading environment.

    Durable state is [db]; the process object is [store].  A transaction either
    commits its whole body or leaves the database as it was; an SQLite or OS
    error makes the store refuse everything until a restart ([s_failed]).  Where
    SQLite can fail, and the clock, are the [io] argument of each call.  The
    [fingerprint] column (a digest of [canonical], written and never read) is
    left out; times are integers of one unit. *)

From S2P Require Import Prelude PyStr PyFloat PyDec PyVal.

Definition SCHEMA_VERSION : Z := 3.
Definition ASSUMED_ABSENT : string := "ASSUMED_NOT_PLACED_AFTER_RETRIES".
Definition required_negative_checks : Z := 5.

Inductive op_state : Set :=
  | ADMITTED | DISPATCHING | ACKNOWLEDGED | UNKNOWN_OUTCOME | RECONCILED | REFUSED
  | TERMINAL_ACCOUNTED.
Inductive op_kind : Set := PLACE | PLACE_COMBO | MODIFY | CANCEL.

#[export] Instance op_state_eq_dec : EqDecision op_state.
Proof. solve_decision. Defined.
#[export] Instance op_kind_eq_dec : EqDecision op_kind.
Proof. solve_decision. Defined.

Definition kind_name (k : op_kind) : string :=
  match k with
  | PLACE => "PLACE" | PLACE_COMBO => "PLACE_COMBO" | MODIFY => "MODIFY" | CANCEL => "CANCEL"
  end.

(** ** Tables *)

(** The columns written once, at admission. *)
Record op_ident : Type := {
  operation_id : string; admission_epoch : string; account : string; kind : op_kind;
  canonical : val; request : val; order_tag : option string; created_at : Z; rowid : Z }.

Record oprow : Type := {
  ident : op_ident;
  state : op_state; disposition : string;
  merged_request : option val; receipt : option val;
  broker_order_id : option string; broker_status : option string;
  evidence : option val; error : option string;
  marker : bool; modification_observed : bool;
  recovery_disposition : option string; next_recovery_at : Z; updated_at : Z }.

Record check_row : Type := {
  c_operation_id : string; c_started_at : Z; c_completed_at : Z;
  c_outcome : string; c_details : val }.

Record audit_row : Type := {
  a_operation_id : string; a_operator_id : string; a_resolution : string; a_reason : val;
  a_evidence_reference : string; a_accounted_facts : val; a_recovery_epoch : string;
  a_observed_state : op_state; a_previous_state : op_state }.

Record db : Type := {
  user_version : Z;
  metadata : list string;
  epochs : list string;
  operations : gmap string oprow;
  review_requirements : gset (string * string);
  recovery_checks : list check_row;
  recovery_audit : list audit_row }.

(** What [_row] returns: the row with its latest accounted facts, whether a
    review is pending, and its recovery checks in order. *)
Record view : Type := {
  v_row : oprow; v_accounted_facts : option val; v_recovery_pending : bool;
  v_recovery_checks : list check_row }.

Record store : Type := {
  s_environment : string; s_epoch : string; s_reviewed : bool; s_closed : bool;
  s_failed : option string; s_db : db }.

(** ** Calls into the operating system *)

Inductive fault : Type :=
  | FaultOpen (msg : string)     (* connecting, a pragma or a statement fails *)
  | FaultCommit (msg : string).  (* the commit itself fails, and rolls back *)

Record io : Type := { io_fault : option fault; io_now : Z; io_writable : bool }.
Definition io_ok (now : Z) : io := {| io_fault := None; io_now := now; io_writable := true |}.

Definition set_db (d : db) (s : store) : store :=
  {| s_environment := s_environment s; s_epoch := s_epoch s; s_reviewed := s_reviewed s;
     s_closed := s_closed s; s_failed := s_failed s; s_db := d |}.
Definition set_failed (m : string) (s : store) : store :=
  {| s_environment := s_environment s; s_epoch := s_epoch s; s_reviewed := s_reviewed s;
     s_closed := s_closed s; s_failed := Some m; s_db := s_db s |}.
Definition set_reviewed (s : store) : store :=
  {| s_environment := s_environment s; s_epoch := s_epoch s; s_reviewed := true;
     s_closed := s_closed s; s_failed := s_failed s; s_db := s_db s |}.
Definition set_closed (s : store) : store :=
  {| s_environment := s_environment s; s_epoch := s_epoch s; s_reviewed := s_reviewed s;
     s_closed := true; s_failed := s_failed s; s_db := s_db s |}.

Definition storage_failed (msg : string) {A} : SE store A :=
  fun s => let m := "STORAGE_FAILED: " ++ msg in (Err (ExecutionStoreError m), set_failed m s).

(** [_connection]: the guards, then the body; [sqlite3.Error] and [OSError]
    fail the store, any other exception passes through.  The body returns the
    database it leaves committed. *)
Definition connection (i : io) {A} (body : store -> db -> result (A * db)) : SE store A :=
  fun s =>
    if s_closed s then (Err (ExecutionStoreError "Execution store is closed"), s)
    else match s_failed s with
    | Some m => (Err (ExecutionStoreError m), s)
    | None =>
        match io_fault i with
        | Some (FaultOpen m) => storage_failed m s
        | _ =>
            if negb (user_version (s_db s) =? SCHEMA_VERSION)
            then storage_failed "Journal schema changed during runtime" s
            else if negb (bool_decide (metadata (s_db s) = [s_environment s]))
            then storage_failed "Journal environment changed during runtime" s
            else match body s (s_db s) with
                 | Ok (a, d) => (Ok a, set_db d s)
                 | Err (SqliteError m) => storage_failed m s
                 | Err e => (Err e, s)
                 end
        end
    end.

(** [_transaction]: an exception in the body rolls back. *)
Definition transaction (i : io) {A} (body : store -> db -> result (A * db)) : SE store A :=
  connection i (fun s d =>
    match body s d with
    | Ok r => match io_fault i with
              | Some (FaultCommit m) => Err (SqliteError m)
              | _ => Ok r
              end
    | Err e => Err e
    end).

(** ** Queries *)

Definition last_facts (id : string) (l : list audit_row) : option val :=
  option_map a_accounted_facts (last (List.filter (fun a => bool_decide (a_operation_id a = id)) l)).

Definition checks_of (id : string) (d : db) : list check_row :=
  List.filter (fun c => bool_decide (c_operation_id c = id)) (recovery_checks d).

Definition pending (id : string) (d : db) : bool :=
  bool_decide (id ∈ set_map (D:=gset string) fst (review_requirements d)).

(** [_row] *)
Definition row_view (id : string) (d : db) : option view :=
  match operations d !! id with
  | None => None
  | Some r => Some {| v_row := r; v_accounted_facts := last_facts id (recovery_audit d);
                      v_recovery_pending := pending id d; v_recovery_checks := checks_of id d |}
  end.

(** Rows satisfying a condition, in rowid order. *)
Definition by_rowid (r r' : oprow) : Prop := rowid (ident r) <= rowid (ident r').
#[export] Instance by_rowid_dec r r' : Decision (by_rowid r r').
Proof. unfold by_rowid. apply _. Defined.

Definition select (p : oprow -> bool) (d : db) : list oprow :=
  merge_sort by_rowid (List.filter p (map snd (map_to_list (operations d)))).

Definition views (rows : list oprow) (d : db) : list view :=
  omap (fun r => row_view (operation_id (ident r)) d) rows.

(** [int(v)] for the identifiers the journal stores. *)
Definition int_of_val (v : val) : result Z :=
  match v with
  | VInt z => Ok z
  | VStr s => if isdecimal s then Ok (int_of s) else Err (ValueError "invalid literal for int()")
  | _ => Err (TypeError "int() argument")
  end.

Definition val_dict (v : val) : dict := match v with VDict d => d | _ => [] end.

(** ** Operations *)

(** [lookup] *)
Definition lookup (i : io) (id : string) : SE store (option view) :=
  connection i (fun _ d => Ok (row_view id d, d)).

(** [unobserved_modifications] *)
Definition unobserved_modifications (i : io) (acc : Z) (order_id : string) : SE store (list view) :=
  connection i (fun _ d =>
    let rows := select (fun r => bool_decide (account (ident r) = str_int acc)
                                 && bool_decide (kind (ident r) = MODIFY)
                                 && bool_decide (state r = ACKNOWLEDGED)
                                 && negb (modification_observed r)) d in
    (want <- int_of_val (VStr order_id) ;;
     hits <- mapM (fun v =>
               target <- bind (ditem "order_id" (val_dict (request (ident (v_row v))))) int_of_val ;;
               Ok (target =? want, v)) (views rows d) ;;
     Ok (map snd (List.filter fst hits), d))%py).

Definition is_placement (k : op_kind) : bool :=
  match k with PLACE | PLACE_COMBO => true | _ => false end.

Definition tag_used (tag : string) (d : db) : bool :=
  existsb (fun r => bool_decide (order_tag (ident r) = Some tag))
          (map snd (map_to_list (operations d))).

Definition with_operations (f : gmap string oprow -> gmap string oprow) (d : db) : db :=
  {| user_version := user_version d; metadata := metadata d; epochs := epochs d;
     operations := f (operations d); review_requirements := review_requirements d;
     recovery_checks := recovery_checks d; recovery_audit := recovery_audit d |}.
Definition with_requirements (f : gset (string * string) -> gset (string * string)) (d : db) : db :=
  {| user_version := user_version d; metadata := metadata d; epochs := epochs d;
     operations := operations d; review_requirements := f (review_requirements d);
     recovery_checks := recovery_checks d; recovery_audit := recovery_audit d |}.

(** [INSERT INTO operations]: the table's CHECK, foreign key and unique index. *)
Definition insert_operation (r : oprow) (d : db) : result db :=
  let k := ident r in
  if bool_decide (account k = "0") then Err (SqliteError "CHECK constraint failed: account != '0'")
  else if negb (mem (admission_epoch k) (epochs d)) then Err (SqliteError "FOREIGN KEY constraint failed")
  else if match order_tag k with Some t => tag_used t d | None => false end
  then Err (SqliteError "UNIQUE constraint failed: operations.order_tag")
  else match operations d !! operation_id k with
       | Some _ => Err (SqliteError "UNIQUE constraint failed: operations.operation_id")
       | None => Ok (with_operations <[operation_id k := r]> d)
       end.

Definition fresh_row (id epoch : string) (acc : Z) (k : op_kind) (canon req : val)
    (tag : string) (now n : Z) : oprow :=
  {| ident := {| operation_id := id; admission_epoch := epoch; account := str_int acc; kind := k;
                 canonical := canon; request := req;
                 order_tag := if is_placement k then Some tag else None;
                 created_at := now; rowid := n |};
     state := ADMITTED; disposition := "PENDING_CHECKS"; merged_request := None; receipt := None;
     broker_order_id := None; broker_status := None; evidence := None; error := None;
     marker := false; modification_observed := false; recovery_disposition := None;
     next_recovery_at := 0; updated_at := now |}.

(** [admit_]: an existing token returns its row; a new one needs the current
    epoch, a completed review and no outstanding requirement.  [tag] is the
    [uuid4] drawn for a placement. *)
Definition admit_ (i : io) (tag id epoch : string) (acc : Z) (k : op_kind) (canon : val)
    (req : dict) : SE store (view * bool) :=
  transaction i (fun s d =>
    match row_view id d with
    | Some v => Ok ((v, false), d)
    | None =>
        if negb (bool_decide (epoch = s_epoch s))
        then Err (ExecutionConflict "Unknown non-current-epoch token cannot be accounted for; do not refresh it")
        else if negb (s_reviewed s) || negb (bool_decide (review_requirements d = ∅))
        then Err (ExecutionConflict "Recovery review is outstanding or execution is blocked")
        else
          (body <- json_dumps (VDict req) ;;
           let r := fresh_row id epoch acc k canon body tag (io_now i)
                              (1 + Z.of_nat (size (operations d))) in
           d' <- insert_operation r d ;;
           match row_view id d' with
           | Some v => Ok ((v, true), d')
           | None => Err AssertionError
           end)%py
    end).

Definition row_dispatched (merged : val) (r : oprow) : oprow :=
  {| ident := ident r; state := DISPATCHING; disposition := "IN_FLIGHT";
     merged_request := Some merged; receipt := receipt r;
     broker_order_id := broker_order_id r; broker_status := broker_status r;
     evidence := evidence r; error := error r; marker := true;
     modification_observed := modification_observed r;
     recovery_disposition := recovery_disposition r;
     next_recovery_at := next_recovery_at r; updated_at := updated_at r |}.

(** [mark_dispatch]: only an operation still [ADMITTED] may be marked. *)
Definition mark_dispatch (i : io) (id : string) (merged : dict) : SE store unit :=
  transaction i (fun _ d =>
    (m <- json_dumps (VDict merged) ;;
     match operations d !! id with
     | Some r =>
         if bool_decide (state r = ADMITTED)
         then Ok (tt, with_operations <[id := row_dispatched m r]> d)
         else Err (ExecutionConflict "Operation is not awaiting dispatch")
     | None => Err (ExecutionConflict "Operation is not awaiting dispatch")
     end)%py).

(** [str(receipt[key]) if receipt and receipt.get(key) else None] *)
Definition receipt_text (key : string) (receipt : option dict) : option string :=
  match receipt with
  | Some d => match dget key d with
              | Some v => if truthy v then str_scalar v else None
              | None => None
              end
  | None => None
  end.

(** SQL [COALESCE] *)
Definition coalesce {A} (a b : option A) : option A := match a with Some _ => a | None => b end.

Definition row_outcome (st : op_state) (disp : string) (enc : option val)
    (receipt : option dict) (err : option string) (now : Z) (r : oprow) : oprow :=
  {| ident := ident r; state := st; disposition := disp; merged_request := merged_request r;
     Store.receipt := enc;
     broker_order_id := coalesce (receipt_text "order_id" receipt) (broker_order_id r);
     broker_status := coalesce (receipt_text "order_status" receipt) (broker_status r);
     evidence := evidence r; error := err; marker := marker r;
     modification_observed := modification_observed r;
     recovery_disposition := recovery_disposition r;
     next_recovery_at := next_recovery_at r; updated_at := now |}.

Definition row_observed (r : oprow) : oprow :=
  if bool_decide (kind (ident r) = MODIFY) && bool_decide (state r = ACKNOWLEDGED) then
  {| ident := ident r; state := state r; disposition := disposition r;
     merged_request := merged_request r; receipt := receipt r;
     broker_order_id := broker_order_id r; broker_status := broker_status r;
     evidence := evidence r; error := error r; marker := marker r;
     modification_observed := true; recovery_disposition := recovery_disposition r;
     next_recovery_at := next_recovery_at r; updated_at := updated_at r |}
  else r.

(** [INSERT OR IGNORE INTO review_requirements]: the foreign key still holds. *)
Definition require_review (id reason : string) (d : db) : result db :=
  match operations d !! id with
  | Some _ => Ok (with_requirements (fun q => {[(id, reason)]} ∪ q) d)
  | None => Err (SqliteError "FOREIGN KEY constraint failed")
  end.

Definition encode_opt (r : option dict) : result (option val) :=
  match r with
  | None => Ok None
  | Some d => bind (json_dumps (VDict d)) (fun v => Ok (Some v))
  end.

(** [outcome] *)
Definition outcome (i : io) (id : string) (st : op_state) (disp : string)
    (receipt : option dict) (err reason : option string) (observed : list string) : SE store unit :=
  match encode_opt receipt with
  | Err e => se_raise e
  | Ok enc =>
      transaction i (fun _ d =>
        let d1 := with_operations (alter (row_outcome st disp enc receipt err (io_now i)) id) d in
        (d2 <- match reason with
               | Some why => if nonempty why then require_review id why d1 else Ok d1
               | None => Ok d1
               end ;;
         Ok (tt, if bool_decide (st = ACKNOWLEDGED)
                 then with_operations (fun m => foldl (fun m k => alter row_observed k m) m observed) d2
                 else d2))%py)
  end.

(** Rows a startup review has to look at. *)
Definition needs_review (r : oprow) : bool :=
  (bool_decide (state r = ADMITTED) || bool_decide (state r = UNKNOWN_OUTCOME))
  && bool_decide (recovery_disposition r = None).

Definition require_where (p : oprow -> bool) (reason : string) (d : db) : db :=
  with_requirements
    (fun q => set_map (fun r : string => (r, reason))
                (dom (base.filter (fun kv : string * oprow => p kv.2 = true) (operations d))) ∪ q) d.

Definition startup_review : db -> db := require_where needs_review "STARTUP_REVIEW".

(** [block_late_order] *)
Definition block_late_order (i : io) (id : string) : SE store unit :=
  transaction i (fun _ d => (d' <- require_review id "LATE_ORDER_FOUND" d ;; Ok (tt, d'))%py).

Definition by_due (r r' : oprow) : Prop :=
  next_recovery_at r < next_recovery_at r' \/
  (next_recovery_at r = next_recovery_at r' /\
   created_at (ident r) <= created_at (ident r')).
#[export] Instance by_due_dec r r' : Decision (by_due r r').
Proof. unfold by_due. apply _. Defined.

(** [recovery_rows]: pending reviews and assumed placements that are due. *)
Definition recovery_due (due_at : Z) (d : db) (r : oprow) : bool :=
  (next_recovery_at r <=? due_at)
  && (pending (operation_id (ident r)) d
      || bool_decide (recovery_disposition r = Some ASSUMED_ABSENT)).

Definition recovery_rows (i : io) (due_at : Z) : SE store (list view) :=
  connection i (fun _ d => Ok (views (merge_sort by_due (select (recovery_due due_at d) d)) d, d)).

Definition count_outcome (o : string) (l : list check_row) : Z :=
  Z.of_nat (length (List.filter (fun c => bool_decide (c_outcome c = o)) l)).

Definition seen_before (l : list check_row) : bool :=
  existsb (fun c => match dget "correlated_order_seen" (val_dict (c_details c)) with
                    | Some v => truthy v | None => false end) l.

(** [row["order_tag"]] and the like as conditions: present and not empty. *)
Definition set_text (o : option string) : bool :=
  match o with Some s => nonempty s | None => false end.

Definition row_checked (ev : val) (next now : Z) (r : oprow) : oprow :=
  {| ident := ident r; state := state r; disposition := disposition r;
     merged_request := merged_request r; receipt := receipt r;
     broker_order_id := broker_order_id r; broker_status := broker_status r;
     evidence := Some ev; error := error r; marker := marker r;
     modification_observed := modification_observed r;
     recovery_disposition := recovery_disposition r;
     next_recovery_at := next; updated_at := now |}.

Definition row_resolved (st : op_state) (disp res : string) (rec : option dict)
    (oid ostatus : option string) (r : oprow) : oprow :=
  {| ident := ident r; state := st; disposition := disp; merged_request := merged_request r;
     Store.receipt := coalesce (option_map VDict rec) (receipt r);
     broker_order_id := coalesce oid (broker_order_id r);
     broker_status := coalesce ostatus (broker_status r);
     evidence := evidence r; error := error r; marker := marker r;
     modification_observed := bool_decide (kind (ident r) = MODIFY);
     recovery_disposition := Some res;
     next_recovery_at := next_recovery_at r; updated_at := updated_at r |}.

Definition nonempty_dict (d : option dict) : bool :=
  match d with Some (_ :: _) => true | _ => false end.

(** The resolution a recovery proposes, checked against the row it was computed
    from ([v]) and the checks recorded so far ([negatives] counts the one just
    inserted): the state and disposition it leads to. *)
Definition resolution_target (env res : string) (v : view) (negatives : Z)
    (rec facts : option dict) : result (op_state * string) :=
  let r := v_row v in
  if bool_decide (res = ASSUMED_ABSENT) then
    if negb (bool_decide (env = "SIMULATE"))
    then Err (ExecutionConflict "REAL recovery cannot assume absence")
    else if negb (bool_decide (kind (ident r) = PLACE))
            || negb (bool_decide (state r = ADMITTED) || bool_decide (state r = UNKNOWN_OUTCOME))
            || negb (set_text (order_tag (ident r)))
            || set_text (broker_order_id r)
            || seen_before (v_recovery_checks v)
            || (negatives <? required_negative_checks)
            || negb (bool_decide (recovery_disposition r = None))
    then Err (ExecutionConflict "Assumed absence requires five tagged placement negatives")
    else Ok (UNKNOWN_OUTCOME, "POSSIBLY_SENT")
  else if bool_decide (res = "NOT_DISPATCHED") then
    if negb (bool_decide (env = "REAL")) || negb (bool_decide (state r = ADMITTED)) || marker r
    then Err (ExecutionConflict "Not-dispatched recovery requires an unmarked REAL admission")
    else Ok (REFUSED, "NOT_SENT")
  else if mem res ["BROKER_CONFIRMED"; "CURRENT_STATE_ACCOUNTED"; "LATE_BROKER_ORDER_FOUND"; "TERMINAL_ACCOUNTED"] then
    if negb (nonempty_dict rec) || negb (nonempty_dict facts)
    then Err (ExecutionConflict "Broker recovery requires order and position evidence")
    else Ok (if bool_decide (res = "TERMINAL_ACCOUNTED") then TERMINAL_ACCOUNTED else RECONCILED,
             "BROKER_ACCOUNTED")
  else Err (ExecutionConflict "Unsupported recovery disposition").

(** [str(receipt[key]) if receipt else None] *)
Definition receipt_item (key : string) (rec : option dict) : result (option string) :=
  match rec with
  | Some ((_ :: _) as d) => (v <- ditem key d ;; Ok (Some (default "" (str_scalar v))))%py
  | _ => Ok None
  end.

Definition evidence_reference (v : view) (oid : option string) : string :=
  match oid with
  | Some o => "broker-order:" ++ o
  | None => match order_tag (ident (v_row v)) with
            | Some t => if nonempty t then "order-tag:" ++ t
                        else "operation:" ++ operation_id (ident (v_row v))
            | None => "operation:" ++ operation_id (ident (v_row v))
            end
  end.

Definition with_check (c : check_row) (d : db) : db :=
  {| user_version := user_version d; metadata := metadata d; epochs := epochs d;
     operations := operations d; review_requirements := review_requirements d;
     recovery_checks := recovery_checks d ++ [c]; recovery_audit := recovery_audit d |}.
Definition with_audit (a : audit_row) (d : db) : db :=
  {| user_version := user_version d; metadata := metadata d; epochs := epochs d;
     operations := operations d; review_requirements := review_requirements d;
     recovery_checks := recovery_checks d; recovery_audit := recovery_audit d ++ [a] |}.

(** [DELETE FROM review_requirements WHERE operation_id=?] *)
Definition drop_requirements (id : string) (d : db) : db :=
  with_requirements (fun q => base.filter (fun kr : string * string => kr.1 <> id) q) d.

(** [record_recovery]: the check, and with a resolution the audit entry, the
    new state and the release of the gate, in one transaction. *)
Definition record_recovery (i : io) (id : string) (observed : op_state) (started completed : Z)
    (out : string) (details : dict) (next : Z) (resolution : option string)
    (rec facts : option dict) : SE store unit :=
  transaction i (fun s d =>
    match row_view id d with
    | None => Err (ExecutionConflict "Recovery observed stale operation state")
    | Some v =>
        let r := v_row v in
        if negb (bool_decide (state r = observed))
        then Err (ExecutionConflict "Recovery observed stale operation state")
        else
          (enc <- json_dumps (VDict details) ;;
           let d1 := with_check {| c_operation_id := id; c_started_at := started;
                                   c_completed_at := completed; c_outcome := out;
                                   c_details := enc |} d in
           ev <- json_dumps (dget_or "orders" (VList []) details) ;;
           let d2 := with_operations (alter (row_checked ev next (io_now i)) id) d1 in
           match resolution with
           | None => Ok (tt, d2)
           | Some res =>
               let! (st, disp) :=
                 resolution_target (s_environment s) res v
                   (count_outcome "NOT_FOUND" (checks_of id d2)) rec facts in
               oid <- receipt_item "order_id" rec ;;
               facts_enc <- json_dumps (VDict (default [] facts)) ;;
               let a := {| a_operation_id := id; a_operator_id := "system"; a_resolution := res;
                           a_reason := dget_or "reason" (VStr out) details;
                           a_evidence_reference := evidence_reference v oid;
                           a_accounted_facts := facts_enc; a_recovery_epoch := s_epoch s;
                           a_observed_state := observed; a_previous_state := state r |} in
               rec_enc <- (if nonempty_dict rec then encode_opt rec else Ok None) ;;
               ostatus <- receipt_item "order_status" rec ;;
               let rec' := if nonempty_dict rec then rec else None in
               Ok (tt, drop_requirements id
                         (with_operations (alter (row_resolved st disp res rec' oid ostatus) id)
                            (with_audit a d2)))
           end)%py
    end).

(** ** Health *)

Inductive health_state : Set := REVIEW_PENDING | JOURNAL_BLOCKED | READY.
#[export] Instance health_state_eq_dec : EqDecision health_state.
Proof. solve_decision. Defined.

(** [recovery_context] *)
Record context : Type := {
  x_operation_id : string; x_trd_env : string; x_order_tag : option string;
  x_disposition : option string; x_pending : bool;
  x_broker_order_id : option string; x_broker_status : option string;
  x_accounted_facts : option val; x_successful_negative_checks : Z;
  x_required_negative_checks : option Z; x_assumed_absence_allowed : bool;
  x_last_check : option (Z * Z * string); x_next_check_at : option Z;
  x_original_operation_replay_allowed : bool; x_absence_proven : bool }.

Definition recovery_context (env : string) (v : view) : context :=
  let r := v_row v in
  let sim := bool_decide (env = "SIMULATE") in
  {| x_operation_id := operation_id (ident r); x_trd_env := env;
     x_order_tag := order_tag (ident r); x_disposition := recovery_disposition r;
     x_pending := v_recovery_pending v; x_broker_order_id := broker_order_id r;
     x_broker_status := broker_status r; x_accounted_facts := v_accounted_facts v;
     x_successful_negative_checks := count_outcome "NOT_FOUND" (v_recovery_checks v);
     x_required_negative_checks := if sim then Some required_negative_checks else None;
     x_assumed_absence_allowed := sim;
     x_last_check := option_map (fun c => (c_started_at c, c_completed_at c, c_outcome c))
                                (last (v_recovery_checks v));
     x_next_check_at := if v_recovery_pending v || bool_decide (recovery_disposition r = Some ASSUMED_ABSENT)
                        then Some (next_recovery_at r) else None;
     x_original_operation_replay_allowed := false; x_absence_proven := false |}.

Record health_report : Type := {
  h_state : health_state; h_in_flight : Z; h_awaiting_review : Z; h_blocking : Z;
  h_blocking_reasons : list string; h_pending_operation_ids : list string;
  h_recovery_updates : list context; h_review_outstanding : bool;
  h_storage_error : option exn }.

Definition str_le (a b : string) : Prop := String.leb a b = true.
#[export] Instance str_le_dec a b : Decision (str_le a b).
Proof. unfold str_le. apply _. Defined.
(** [sorted(set)] of strings *)
Definition sorted_strings (q : gset string) : list string := merge_sort str_le (elements q).

Definition by_updated (r r' : oprow) : Prop :=
  updated_at r' < updated_at r \/
  (updated_at r = updated_at r' /\ rowid (ident r') <= rowid (ident r)).
#[export] Instance by_updated_dec r r' : Decision (by_updated r r').
Proof. unfold by_updated. apply _. Defined.

Definition not_startup (kr : string * string) : Prop := kr.2 <> "STARTUP_REVIEW".
#[export] Instance not_startup_dec kr : Decision (not_startup kr).
Proof. unfold not_startup. apply _. Defined.

Definition report (s : store) (d : db) : health_report :=
  let reviews := review_requirements d in
  let blocks := base.filter not_startup reviews in
  let ids := sorted_strings (set_map fst reviews) in
  let recent := firstn 20 (merge_sort by_updated
                  (select (fun r => negb (bool_decide (recovery_disposition r = None))) d)) in
  let identifiers := (ids ++ List.filter (fun k => negb (mem k ids))
                              (map (fun r => operation_id (ident r)) recent))%list in
  let outstanding := negb (s_reviewed s) || negb (bool_decide (reviews = ∅)) in
  {| h_state := if negb (bool_decide (blocks = ∅)) then JOURNAL_BLOCKED
                else if outstanding then REVIEW_PENDING else READY;
     h_in_flight := Z.of_nat (length (select (fun r => bool_decide (state r = DISPATCHING)) d));
     h_awaiting_review := Z.of_nat (size (set_map (D:=gset string) fst
                            (base.filter (fun kr => ~ not_startup kr) reviews)));
     h_blocking := Z.of_nat (size (set_map (D:=gset string) fst blocks));
     h_blocking_reasons := sorted_strings (set_map snd blocks);
     h_pending_operation_ids := ids;
     h_recovery_updates := omap (fun k => option_map (recovery_context (s_environment s)) (row_view k d)) identifiers;
     h_review_outstanding := outstanding; h_storage_error := None |}.

Definition storage_blocked (s : store) (e : exn) : health_report :=
  {| h_state := JOURNAL_BLOCKED; h_in_flight := 0; h_awaiting_review := 0; h_blocking := 0;
     h_blocking_reasons := ["STORAGE_FAILED"]; h_pending_operation_ids := [];
     h_recovery_updates := []; h_review_outstanding := negb (s_reviewed s);
     h_storage_error := Some e |}.

(** [health]: never raises; an unwritable or failed journal reports itself
    blocked. *)
Definition health (i : io) : SE store health_report :=
  se_try
    (fun s =>
       if negb (io_writable i)
       then let m := "STORAGE_FAILED: journal file or directory is not writable" in
            (Err (ExecutionStoreError m), set_failed m s)
       else connection i (fun s d => Ok (report s d, d)) s)
    (fun e s => match e with
                | ExecutionStoreError _ => (Ok (storage_blocked s e), s)
                | _ => (Err e, s)
                end).

(** [require_ready] *)
Definition require_ready (i : io) : SE store unit :=
  (h <- health i ;;
   if bool_decide (h_state h = READY) then se_ret tt
   else se_raise (ExecutionConflict "automatic recovery or healthy storage restart is required"))%se.

(** [review] *)
Definition review (i i' : io) : SE store health_report :=
  (_ <- transaction i (fun _ d => Ok (tt, startup_review d)) ;;
   _ <- se_modify set_reviewed ;;
   health i')%se.

Definition close : SE store unit := se_modify set_closed.
