(* ===== verification/StoreOpen.v ===== *)
(** services/execution_store.py, [ExecutionStore.__init__]: taking the lock,
    creating or migrating the journal file, and the startup transaction that
    turns interrupted dispatches into reviews.  The file is [option db]: absent
    or its committed content. *)

From S2P Require Import Prelude PyStr PyFloat PyDec PyVal Store.

(** The operating system's side of one start. *)
Record open_io : Type := {
  oi_locked : bool;        (* another process holds execution.lock *)
  oi_integrity_ok : bool;  (* PRAGMA integrity_check *)
  oi_create_fault : option string;
  oi_migrate_fault : option string;
  oi_startup : io }.

Definition new_db (env : string) : db :=
  {| user_version := 2; metadata := [env]; epochs := []; operations := ∅;
     review_requirements := ∅; recovery_checks := []; recovery_audit := [] |}.

(** The columns version 3 adds, with their defaults; version 2 added
    [modification_observed]. *)
Definition row_migrated (from : Z) (r : oprow) : oprow :=
  {| ident := {| operation_id := operation_id (ident r); admission_epoch := admission_epoch (ident r);
                 account := account (ident r); kind := kind (ident r);
                 canonical := canonical (ident r); request := request (ident r);
                 order_tag := None; created_at := created_at (ident r); rowid := rowid (ident r) |};
     state := state r; disposition := disposition r; merged_request := merged_request r;
     receipt := receipt r; broker_order_id := broker_order_id r; broker_status := broker_status r;
     evidence := evidence r; error := error r; marker := marker r;
     modification_observed := if from =? 1 then false else modification_observed r;
     recovery_disposition := None; next_recovery_at := 0; updated_at := updated_at r |}.

Definition migrate (d : db) : db :=
  if user_version d <? SCHEMA_VERSION then
    {| user_version := 3; metadata := metadata d; epochs := epochs d;
       operations := row_migrated (user_version d) <$> operations d;
       review_requirements := review_requirements d; recovery_checks := [];
       recovery_audit := recovery_audit d |}
  else d.

Definition row_recovered (r : oprow) : oprow :=
  if bool_decide (state r = DISPATCHING) then
    {| ident := ident r; state := UNKNOWN_OUTCOME; disposition := "POSSIBLY_SENT";
       merged_request := merged_request r; receipt := receipt r;
       broker_order_id := broker_order_id r; broker_status := broker_status r;
       evidence := evidence r; error := Some "Recovered dispatch without durable outcome";
       marker := marker r; modification_observed := modification_observed r;
       recovery_disposition := recovery_disposition r;
       next_recovery_at := next_recovery_at r; updated_at := updated_at r |}
  else r.

Definition is_dispatching (r : oprow) : bool := bool_decide (state r = DISPATCHING).

(** The startup transaction. *)
Definition startup (epoch : string) (d : db) : result db :=
  if mem epoch (epochs d) then Err (SqliteError "UNIQUE constraint failed: epochs.epoch")
  else
    let d0 := {| user_version := user_version d; metadata := metadata d;
                 epochs := epoch :: epochs d; operations := operations d;
                 review_requirements := review_requirements d;
                 recovery_checks := recovery_checks d; recovery_audit := recovery_audit d |} in
    let d1 := require_where is_dispatching "RECOVERED_DISPATCH" d0 in
    let d2 := with_operations (fmap row_recovered) d1 in
    Ok (startup_review d2).

Definition supported (v : Z) : bool := (v =? 1) || (v =? 2) || (v =? SCHEMA_VERSION).

(** The probe of a private copy, and the checks on the real file. *)
Definition check_file (i : open_io) (env : string) (d : db) : result unit :=
  (_ <- refuse_if (supported (user_version d) && negb (bool_decide (metadata d = [env])))
          (ExecutionStoreError "Journal environment is not") ;;
   _ <- refuse_if (negb (supported (user_version d)))
          (ExecutionStoreError "Unsupported journal schema") ;;
   _ <- refuse_if (negb (oi_integrity_ok i)) (ExecutionStoreError "Journal integrity check failed") ;;
   refuse_if (negb (bool_decide (metadata d = [env])))
          (ExecutionStoreError "Journal environment is not"))%py.

(** [ExecutionStore(path, create=..., lock_wait_ms=..., environment=...)]: the
    object or the exception, and the file it leaves behind. *)
Definition open_store (i : open_io) (env epoch : string) (lock_wait_ms : Z) (create : bool)
    (file : option db) : result store * option db :=
  if negb (mem env ["SIMULATE"; "REAL"])
  then (Err (ValueError "journal environment must be SIMULATE or REAL"), file)
  else if negb (in_range 1 60000 lock_wait_ms)
  then (Err (ValueError "journal lock wait must be between 1 and 60000 milliseconds"), file)
  else if oi_locked i
  then (Err (ExecutionStoreError "Another process holds the execution store"), file)
  else match file, create with
  | None, false => (Err (ExecutionStoreError "Missing journal; explicit initialization required"), file)
  | _, _ =>
      match file, oi_create_fault i with
      | None, Some m => (Err (ExecutionStoreError m), file)
      | _, _ =>
          let d := default (new_db env) file in
          match check_file i env d with
          | Err e => (Err e, Some d)
          | Ok _ =>
              match oi_migrate_fault i with
              | Some m => (Err (ExecutionStoreError m), Some d)
              | None =>
                  let d1 := migrate d in
                  let s := {| s_environment := env; s_epoch := epoch; s_reviewed := false;
                              s_closed := false; s_failed := None; s_db := d1 |} in
                  match transaction (oi_startup i)
                          (fun s d => bind (startup (s_epoch s) d) (fun d' => Ok (tt, d'))) s with
                  | (Ok _, s') => (Ok s', Some (s_db s'))
                  | (Err e, s') => (Err e, Some (s_db s'))
                  end
              end
          end
      end
  end.
