(* ===== verification/StoreInv.v ===== *)
(** The journal as a state machine: processes come and go around one durable
    file, calling the store in any order, with any arguments and any storage
    fault.  Invariants of every reachable journal, and what they give: one
    dispatch per operation over all restarts, no admission while an earlier
    outcome is unaccounted for, assumed absence only after five negatives in
    SIMULATE, fail-stop storage. *)

From S2P Require Import Prelude PyStr PyFloat PyDec PyVal Store StoreOpen.

(** ** Calls and machine steps *)

Inductive call : Type :=
  | CLookup (i : io) (id : string)
  | CUnobserved (i : io) (acc : Z) (order_id : string)
  | CAdmit (i : io) (tag id epoch : string) (acc : Z) (k : op_kind) (canon : val) (req : dict)
  | CMark (i : io) (id : string) (merged : dict)
  | COutcome (i : io) (id : string) (st : op_state) (disp : string) (rec : option dict)
             (err reason : option string) (observed : list string)
  | CReview (i i' : io)
  | CRequireReady (i : io)
  | CRecoveryRows (i : io) (due : Z)
  | CBlockLate (i : io) (id : string)
  | CRecord (i : io) (id : string) (observed : op_state) (started completed : Z) (out : string)
            (details : dict) (next : Z) (resolution : option string) (rec facts : option dict)
  | CHealth (i : io)
  | CClose.

Definition ignore {A} (c : SE store A) : SE store unit := (_ <- c ;; se_ret tt)%se.

Definition run_call (c : call) : SE store unit :=
  match c with
  | CLookup i id => ignore (lookup i id)
  | CUnobserved i acc oid => ignore (unobserved_modifications i acc oid)
  | CAdmit i tag id epoch acc k canon req => ignore (admit_ i tag id epoch acc k canon req)
  | CMark i id merged => mark_dispatch i id merged
  | COutcome i id st disp rec err reason obs => outcome i id st disp rec err reason obs
  | CReview i i' => ignore (review i i')
  | CRequireReady i => require_ready i
  | CRecoveryRows i due => ignore (recovery_rows i due)
  | CBlockLate i id => block_late_order i id
  | CRecord i id obs st co out det next res rec facts =>
      record_recovery i id obs st co out det next res rec facts
  | CHealth i => ignore (health i)
  | CClose => close
  end.

(** The outcomes the executors store: never back to [ADMITTED] or
    [DISPATCHING], and an unknown outcome always with a review reason. *)
Definition well_used (c : call) : Prop :=
  match c with
  | COutcome _ _ st _ _ _ reason _ =>
      st ∈ [ACKNOWLEDGED; UNKNOWN_OUTCOME; REFUSED]
      /\ (st = UNKNOWN_OUTCOME -> set_text reason = true)
  | _ => True
  end.

Record machine : Type := {
  m_file : option db; m_proc : option store; m_dispatched : list (string * dict) (* ghost *) }.

Definition init (file : option db) : machine :=
  {| m_file := file; m_proc := None; m_dispatched := [] |}.

Inductive step (env : string) : machine -> machine -> Prop :=
  | step_start i epoch wait create file log s file' :
      open_store i env epoch wait create file = (Ok s, file') ->
      step env {| m_file := file; m_proc := None; m_dispatched := log |}
               {| m_file := file'; m_proc := Some s; m_dispatched := log |}
  | step_start_fails i epoch wait create file log e file' :
      open_store i env epoch wait create file = (Err e, file') ->
      step env {| m_file := file; m_proc := None; m_dispatched := log |}
               {| m_file := file'; m_proc := None; m_dispatched := log |}
  | step_exit s file log :
      step env {| m_file := file; m_proc := Some s; m_dispatched := log |}
               {| m_file := Some (s_db s); m_proc := None; m_dispatched := log |}
  | step_call c r s s' file log :
      well_used c -> run_call c s = (r, s') ->
      step env {| m_file := file; m_proc := Some s; m_dispatched := log |}
               {| m_file := Some (s_db s'); m_proc := Some s';
                  m_dispatched := match c, r with CMark _ id merged, Ok _ => (id, merged) :: log | _, _ => log end |}.

Abbreviation reachable env file m := (star (step env) (init file) m).

(** ** The invariant *)

Definition negatives (id : string) (d : db) : Z := count_outcome "NOT_FOUND" (checks_of id d).

Record row_ok (d : db) (k : string) (r : oprow) : Prop := {
  row_key : operation_id (ident r) = k;
  row_marker : state r = ADMITTED -> marker r = false;
  row_assumed : recovery_disposition r = Some ASSUMED_ABSENT ->
                metadata d = ["SIMULATE"] /\ required_negative_checks <= negatives k d }.

Definition tags_unique (m : gmap string oprow) : Prop :=
  forall k k' r r' t, m !! k = Some r -> m !! k' = Some r' ->
    order_tag (ident r) = Some t -> order_tag (ident r') = Some t -> k = k'.

Record db_ok (d : db) : Prop := {
  rows_ok : map_Forall (row_ok d) (operations d);
  tags_ok : tags_unique (operations d) }.

(** Rows nobody may forget: outcomes nobody knows, and unfinished operations of
    an earlier process. *)
Definition unsettled (epoch : string) (r : oprow) : Prop :=
  state r = UNKNOWN_OUTCOME \/
  (admission_epoch (ident r) <> epoch /\ (state r = ADMITTED \/ state r = DISPATCHING)).

Definition gated (epoch : string) (d : db) : Prop :=
  forall k r, operations d !! k = Some r -> unsettled epoch r ->
    recovery_disposition r <> None \/ exists why, (k, why) ∈ review_requirements d.

(** ** Generic lemmas *)

Lemma connection_cases i {A} (body : store -> db -> result (A * db)) s r s' :
  connection i body s = (r, s') ->
  (s' = s /\ is_ok r = false) \/ (exists m, s' = set_failed m s /\ is_ok r = false) \/
  (exists a d, r = Ok a /\ s' = set_db d s /\ body s (s_db s) = Ok (a, d)
     /\ s_closed s = false /\ s_failed s = None /\ metadata (s_db s) = [s_environment s]
     /\ user_version (s_db s) = SCHEMA_VERSION).
Proof.
  unfold connection, storage_failed. intros H.
  destruct (s_closed s) eqn:Hc; [by simplify_eq; left|].
  destruct (s_failed s) eqn:Hf; [by simplify_eq; left|].
  destruct (io_fault i) as [[m|m]|]; [by simplify_eq; right; left; eauto| |];
  (destruct (user_version (s_db s) =? SCHEMA_VERSION) eqn:Hv; simpl in H;
     [|by simplify_eq; right; left; eauto]);
  (case_bool_decide; simpl in H; [|by simplify_eq; right; left; eauto]);
  (destruct (body s (s_db s)) as [[a d]|e] eqn:Hb;
     [simplify_eq; right; right; exists a, d; bools; by split_and!|
      destruct e; simplify_eq; try (by left); by right; left; eauto]).
Qed.

Lemma transaction_cases i {A} (body : store -> db -> result (A * db)) s r s' :
  transaction i body s = (r, s') ->
  (s' = s /\ is_ok r = false) \/ (exists m, s' = set_failed m s /\ is_ok r = false) \/
  (exists a d, r = Ok a /\ s' = set_db d s /\ body s (s_db s) = Ok (a, d)
     /\ s_closed s = false /\ s_failed s = None /\ metadata (s_db s) = [s_environment s]
     /\ user_version (s_db s) = SCHEMA_VERSION).
Proof.
  intros H. apply connection_cases in H as [?|[?|(a & d & ? & ? & H & ?)]]; [by left|by right; left|].
  right; right. exists a, d. split; [done|]. split; [done|]. split; [|done].
  destruct (body s (s_db s)) as [x|e]; [|done]. by destruct (io_fault i) as [[]|].
Qed.

(** A store call leaves the database alone or commits what its body computed. *)
Definition commits {A} (c : SE store A) (P : store -> db -> Prop) : Prop :=
  forall s r s', c s = (r, s') ->
    s_epoch s' = s_epoch s /\ s_environment s' = s_environment s
    /\ (s_db s' = s_db s \/ P s (s_db s')).

Lemma connection_commits i {A} (body : store -> db -> result (A * db)) (P : store -> db -> Prop) :
  (forall s a d, metadata (s_db s) = [s_environment s] -> body s (s_db s) = Ok (a, d) ->
     d = s_db s \/ P s d) ->
  commits (connection i body) P.
Proof.
  intros HP s r s' H. apply connection_cases in H
    as [[-> _]|[(m & -> & _)|(a & d & _ & -> & Hb & _ & _ & Hm & _)]]; eauto 6.
Qed.

Lemma transaction_commits i {A} (body : store -> db -> result (A * db)) (P : store -> db -> Prop) :
  (forall s a d, metadata (s_db s) = [s_environment s] -> body s (s_db s) = Ok (a, d) ->
     d = s_db s \/ P s d) ->
  commits (transaction i body) P.
Proof.
  intros HP s r s' H. apply transaction_cases in H
    as [[-> _]|[(m & -> & _)|(a & d & _ & -> & Hb & _ & _ & Hm & _)]]; eauto 6.
Qed.

Lemma read_commits i {A} (f : db -> result (A * db)) P :
  (forall d a d', f d = Ok (a, d') -> d' = d) -> commits (connection i (fun _ d => f d)) P.
Proof. intros Hf. apply connection_commits. intros s a d _ H. left. eauto. Qed.

Lemma commits_ignore {A} (c : SE store A) P : commits c P -> commits (ignore c) P.
Proof.
  intros Hc s r s' H. unfold ignore, se_bind, se_ret in H.
  destruct (c s) as [[] s1] eqn:E; simplify_eq; by apply Hc in E.
Qed.

Lemma health_commits i P : commits (health i) P.
Proof.
  intros s r s' H. unfold health, se_try in H. destruct (io_writable i); simpl in H.
  - destruct (connection i _ s) as [[a|e] s1] eqn:E.
    + simplify_eq. eapply (read_commits i (fun d => Ok (report s d, d))); [naive_solver|].
      unfold connection in *. exact E.
    + assert (s' = s1) as -> by (by destruct e; simplify_eq).
      apply connection_cases in E as [[-> _]|[(m & -> & _)|(a & d & ? & _)]]; [by auto|by auto|done].
  - simplify_eq. simpl. auto.
Qed.

(** ** Preservation by the pieces of a transaction *)

Lemma row_ok_mono d d' k r :
  metadata d' = metadata d -> (forall id, negatives id d <= negatives id d') ->
  row_ok d k r -> row_ok d' k r.
Proof.
  intros Hm Hn [Hk Hmk Ha]. split; [done|done|]. intros H. destruct (Ha H) as [? ?].
  specialize (Hn k). rewrite Hm. split; [done|lia].
Qed.

(** Replacing rows by rows of the same identity that are still well formed. *)
Lemma update_ok d d' :
  metadata d' = metadata d -> (forall id, negatives id d <= negatives id d') ->
  db_ok d ->
  (forall k r', operations d' !! k = Some r' ->
     exists r, operations d !! k = Some r /\ ident r' = ident r
               /\ (row_ok d' k r -> row_ok d' k r')) ->
  db_ok d'.
Proof.
  intros Hm Hn [Hr Ht] Hu. split.
  - intros k r' Hk. destruct (Hu k r' Hk) as (r & Hk' & _ & Hok). apply Hok.
    eapply row_ok_mono; eauto.
  - intros k k' r r' t H H' E E'.
    destruct (Hu _ _ H) as (q & Hq & Eq & _), (Hu _ _ H') as (q' & Hq' & Eq' & _).
    rewrite Eq in E. rewrite Eq' in E'. eauto.
Qed.

Lemma alter_lookup (f : oprow -> oprow) id (m : gmap string oprow) k r' :
  alter f id m !! k = Some r' ->
  exists r, m !! k = Some r /\ ((k = id /\ r' = f r) \/ (k <> id /\ r' = r)).
Proof.
  rewrite lookup_alter. case_decide as E.
  - subst. destruct (m !! k) as [r|]; simpl; [|done]. intros [= <-]. eauto.
  - intros ->. eauto 6.
Qed.

Lemma alter_ok f id d d' :
  metadata d' = metadata d -> (forall id, negatives id d <= negatives id d') ->
  operations d' = alter f id (operations d) ->
  (forall r, operations d !! id = Some r ->
     ident (f r) = ident r /\ (row_ok d' id r -> row_ok d' id (f r))) ->
  db_ok d -> db_ok d'.
Proof.
  intros Hm Hn Ho Hf Hd. eapply update_ok; eauto. intros k r' Hk.
  rewrite Ho in Hk. apply alter_lookup in Hk as (r & Hk & [[-> ->]|[_ ->]]); exists r; [|by eauto].
  destruct (Hf r Hk). eauto.
Qed.

Lemma requirements_ok f d : db_ok d -> db_ok (with_requirements f d).
Proof. intros H. apply (update_ok d); [done|intros; apply Z.le_refl|done|]. simpl. eauto. Qed.

Lemma count_app o l k : count_outcome o (l ++ k) = count_outcome o l + count_outcome o k.
Proof. unfold count_outcome. rewrite List.filter_app, length_app. lia. Qed.

Lemma negatives_with_check id c d : negatives id d <= negatives id (with_check c d).
Proof.
  unfold negatives, checks_of, with_check; simpl. rewrite List.filter_app, count_app.
  assert (0 <= count_outcome "NOT_FOUND"
    (List.filter (fun c => bool_decide (c_operation_id c = id)) [c])); [|lia].
  unfold count_outcome. lia.
Qed.

Create HintDb journal.
#[export] Hint Resolve requirements_ok negatives_with_check : journal.

(** Marking, outcomes, observations: no field [row_ok] reads changes. *)
Lemma dispatched_ok d m id r : row_ok d id r -> row_ok d id (row_dispatched m r).
Proof. intros [? ? ?]. by split. Qed.

Lemma outcome_row_ok d id st disp enc rec err now r :
  st <> ADMITTED -> row_ok d id r -> row_ok d id (row_outcome st disp enc rec err now r).
Proof. intros Hs [? ? ?]. by split. Qed.

Lemma observed_ok d id r : row_ok d id r -> row_ok d id (row_observed r).
Proof. intros [? ? ?]. unfold row_observed. case_match; [|by split]. by split. Qed.

Lemma observed_ident r : ident (row_observed r) = ident r.
Proof. unfold row_observed. by case_match. Qed.

Lemma observed_all_lookup (l : list string) (m : gmap string oprow) k r' :
  foldl (fun m k => alter row_observed k m) m l !! k = Some r' ->
  exists r, m !! k = Some r /\ (r' = r \/ r' = row_observed r).
Proof.
  revert m; induction l as [|id l IH]; intros m; simpl; [eauto|].
  intros H. apply IH in H as (r1 & H1 & H2).
  apply alter_lookup in H1 as (r & Hr & [[-> ->]|[_ ->]]); exists r; (split; [done|]);
    destruct H2 as [->| ->]; auto.
  right. unfold row_observed. repeat (case_match; simpl in *); congruence.
Qed.

Lemma insert_ok r d d' :
  insert_operation r d = Ok d' -> state r = ADMITTED -> marker r = false ->
  recovery_disposition r = None -> db_ok d ->
  db_ok d' /\ operations d' = <[operation_id (ident r) := r]> (operations d)
  /\ operations d !! operation_id (ident r) = None
  /\ review_requirements d' = review_requirements d.
Proof.
  unfold insert_operation. intros H Hs Hmk Hd Hok.
  case_bool_decide; [done|]. case_match; [done|]. case_match eqn:Ht; [done|].
  case_match eqn:Hl; [done|]. simplify_eq. split; [|done]. simpl. destruct Hok as [Hr Hu]. split; simpl.
  - intros k r' Hk. apply lookup_insert_Some in Hk as [[<- <-]|[_ Hk]].
    + split; [done|done|]. by rewrite Hd.
    + destruct (Hr k r' Hk). by split.
  - assert (Hfresh : forall k q t, operations d !! k = Some q ->
              order_tag (ident r) = Some t -> order_tag (ident q) = Some t -> False).
    { intros k q t Hq E E'. rewrite E in Ht. unfold tag_used in Ht.
      apply not_true_iff_false in Ht. apply Ht, existsb_exists.
      exists q. split; [|by apply bool_decide_eq_true].
      apply list_elem_of_In, list_elem_of_fmap. exists (k, q). split; [done|].
      by apply elem_of_map_to_list. }
    intros k k' q q' t Hq Hq' E E'. simpl in *.
    apply lookup_insert_Some in Hq as [[<- <-]|[_ Hq]],
      Hq' as [[<- <-]|[_ Hq']]; eauto; exfalso; eauto.
Qed.

Lemma require_review_inv id why d d' :
  require_review id why d = Ok d' ->
  d' = with_requirements (fun q => {[(id, why)]} ∪ q) d /\ is_Some (operations d !! id).
Proof. unfold require_review. case_match; naive_solver. Qed.

(** ** What resolutions are allowed *)

Lemma resolution_target_assumed env v n rec facts st disp :
  resolution_target env ASSUMED_ABSENT v n rec facts = Ok (st, disp) ->
  env = "SIMULATE" /\ required_negative_checks <= n /\ kind (ident (v_row v)) = PLACE
  /\ set_text (order_tag (ident (v_row v))) = true /\ set_text (broker_order_id (v_row v)) = false
  /\ recovery_disposition (v_row v) = None /\ seen_before (v_recovery_checks v) = false
  /\ st = UNKNOWN_OUTCOME.
Proof.
  unfold resolution_target. rewrite bool_decide_eq_true_2 by done.
  case_bool_decide; [|done]. simpl. case_match eqn:E; [done|]. intros [= <- <-].
  bools. split_and!; try done; lia.
Qed.

Lemma resolution_target_state env res v n rec facts st disp :
  resolution_target env res v n rec facts = Ok (st, disp) ->
  st ∈ [UNKNOWN_OUTCOME; REFUSED; RECONCILED; TERMINAL_ACCOUNTED].
Proof.
  unfold resolution_target. repeat case_match; try done; intros [= <- <-]; set_solver.
Qed.

Lemma resolved_ok env d v n rec facts res st disp id rec' oid ost r :
  resolution_target env res v n rec facts = Ok (st, disp) ->
  metadata d = [env] -> n <= negatives id d ->
  row_ok d id r -> row_ok d id (row_resolved st disp res rec' oid ost r).
Proof.
  intros Ht Hm Hn [Hk _ _]. split; simpl; [done| |].
  - intros ->. apply resolution_target_state in Ht. set_solver.
  - intros [= ->]. apply resolution_target_assumed in Ht as (-> & ? & _). split; [done|lia].
Qed.

(** ** Every call preserves the invariant *)

Definition checked (i : io) (c : check_row) (ev : val) (next : Z) (id : string) (d : db) : db :=
  with_operations (alter (row_checked ev next (io_now i)) id) (with_check c d).

Definition resolved (i : io) (c : check_row) (ev : val) (next : Z) (id : string) (a : audit_row)
    (st : op_state) (disp res : string) (rec : option dict) (oid ost : option string) (d : db) : db :=
  drop_requirements id
    (with_operations (alter (row_resolved st disp res rec oid ost) id)
       (with_audit a (checked i c ev next id d))).

(** The two ways [record_recovery] commits. *)
Lemma record_cases i id obs started completed out details next res rec facts s r s' :
  record_recovery i id obs started completed out details next res rec facts s = (r, s') ->
  (s_db s' = s_db s /\ is_ok r = false) \/
  exists row c ev,
    operations (s_db s) !! id = Some row /\ state row = obs /\ c_operation_id c = id
    /\ c_outcome c = out /\ metadata (s_db s) = [s_environment s] /\ r = Ok tt /\
    ((res = None /\ s_db s' = checked i c ev next id (s_db s)) \/
     exists why v st disp a rec' oid ost,
       res = Some why /\ row_view id (s_db s) = Some v /\ v_row v = row /\
       resolution_target (s_environment s) why v
         (negatives id (checked i c ev next id (s_db s))) rec facts = Ok (st, disp) /\
       s_db s' = resolved i c ev next id a st disp why rec' oid ost (s_db s)).
Proof.
  intros H. apply transaction_cases in H
    as [[-> ?]|[(m & -> & ?)|([] & d & -> & -> & Hb & _ & _ & Hm & _)]]; [by left|by left|right].
  unfold row_view in Hb at 1. destruct (operations (s_db s) !! id) as [row|] eqn:Hrow; [|done].
  simpl in Hb. case_bool_decide as Hobs; [|done]. simpl in Hb.
  apply bind_ok in Hb as (enc & _ & Hb). apply bind_ok in Hb as (ev & _ & Hb).
  set (c := {| c_operation_id := id; c_details := enc |}) in Hb.
  exists row, c, ev. split_and!; try done.
  destruct res as [why|]; [right|left; split; [done|by injection Hb as <-]].
  apply bind_ok in Hb as ([st disp] & Ht & Hb).
  apply bind_ok in Hb as (oid & _ & Hb). apply bind_ok in Hb as (fe & _ & Hb).
  apply bind_ok in Hb as (re & _ & Hb). apply bind_ok in Hb as (ost & _ & Hb).
  injection Hb as <-.
  eexists why, _, st, disp, _, _, oid, ost.
  split_and!; [done| | |exact Ht|reflexivity]; [unfold row_view; by rewrite Hrow|done].
Qed.

Lemma checked_ok i c ev next id d : db_ok d -> db_ok (checked i c ev next id d).
Proof.
  apply alter_ok with (f := row_checked ev next (io_now i)) (id := id); try done.
  - intros k. apply negatives_with_check.
  - intros r _. split; [done|]. intros [? ? ?]. by split.
Qed.

Lemma resolved_db_ok i c ev next id a st disp why rec oid ost d env v rec0 facts :
  resolution_target env why v (negatives id (checked i c ev next id d)) rec0 facts = Ok (st, disp) ->
  metadata d = [env] -> db_ok d ->
  db_ok (resolved i c ev next id a st disp why rec oid ost d).
Proof.
  intros Ht Hm Hd. apply requirements_ok.
  apply alter_ok with (f := row_resolved st disp why rec oid ost) (id := id)
    (d := checked i c ev next id d); try done; [|by apply checked_ok].
  intros r _. split; [done|]. intros Hr. by eapply resolved_ok.
Qed.

Lemma run_call_ok c : well_used c -> commits (run_call c) (fun s d' => db_ok (s_db s) -> db_ok d').
Proof.
  destruct c; simpl; intros Hw; try apply commits_ignore.
  - apply read_commits. naive_solver.
  - apply read_commits. intros d a d' H. ok_inv. done.
  - apply transaction_commits. intros s [v b] d _ H.
    destruct (row_view id (s_db s)); [by left; simplify_eq|].
    do 2 (case_match; [done|]). apply bind_ok in H as (? & _ & H).
    apply bind_ok in H as (d1 & Hi & H). case_match; [|done]. simplify_eq. right.
    intros Hok. by apply (insert_ok _ _ _ Hi).
  - apply transaction_commits. intros s [] d _ H. apply bind_ok in H as (m & _ & H).
    destruct (operations (s_db s) !! id) as [r|] eqn:E; [|done]. case_bool_decide; [|done].
    simplify_eq. right. intros Hok.
    apply (update_ok (s_db s)); [done|intros; apply Z.le_refl|done|]. intros k q Hk.
    cbn in Hk. apply lookup_insert_Some in Hk as [[<- <-]|[_ Hk]]; [|by eauto].
    exists r. split_and!; [done|done|apply dispatched_ok].
  - destruct Hw as [Hst _]. unfold outcome. destruct (encode_opt rec) as [enc|e]; [|by intros ? ? ? [= <- <-]; auto].
    apply transaction_commits. intros s [] d _ H. apply bind_ok in H as (d2 & H2 & [= <-]).
    right. intros Hok.
    set (d1 := with_operations (alter (row_outcome st disp enc rec err (io_now i)) id) (s_db s)) in *.
    assert (Hok1 : db_ok d1).
    { apply (alter_ok (row_outcome st disp enc rec err (io_now i)) id (s_db s));
        [done|intros; apply Z.le_refl|done| |done].
      intros q _. split; [done|]. apply outcome_row_ok. set_solver. }
    assert (Hok2 : db_ok d2).
    { destruct reason as [why|]; [destruct (nonempty why)|]; simplify_eq; try done.
      apply require_review_inv in H2 as [-> _]. by apply requirements_ok. }
    case_bool_decide; [|done]. apply (update_ok d2); [done|intros; apply Z.le_refl|done|].
    simpl. intros k r' Hk. apply observed_all_lookup in Hk as (r & Hr & [->| ->]); exists r; [by eauto|].
    split_and!; [done|apply observed_ident|apply observed_ok].
  - intros s r s' H. unfold review, se_bind, se_modify in H.
    destruct (transaction i _ s) as [[[]|e] s1] eqn:E.
    + apply transaction_cases in E as [[-> ?]|[(m & -> & ?)|([] & d & _ & -> & [= <-] & _)]]; try done.
      apply health_commits with (P := fun _ _ => False) in H as (-> & -> & [->|[]]).
      split_and!; [done|done|]. right. simpl. apply requirements_ok.
    + simplify_eq. apply transaction_cases in E as [[-> ?]|[(m & -> & ?)|(a & d & ? & _)]]; auto; done.
  - intros s r s' H. unfold require_ready, se_bind in H.
    destruct (health i s) as [[h|e] s1] eqn:E; apply health_commits with (P := fun _ _ => False) in E;
      [case_bool_decide; unfold se_ret, se_raise in H|]; simplify_eq;
      destruct E as (? & ? & [?|[]]); auto.
  - apply read_commits. naive_solver.
  - apply transaction_commits. intros s [] d _ H. apply bind_ok in H as (d1 & Hr & [= <-]).
    apply require_review_inv in Hr as [-> _]. right. apply requirements_ok.
  - intros s r s' H. pose proof H as H'.
    assert (s_epoch s' = s_epoch s /\ s_environment s' = s_environment s) as [-> ->].
    { apply transaction_cases in H' as [[-> _]|[(m & -> & _)|(? & d & _ & -> & _)]]; auto. }
    split_and!; [done|done|].
    apply record_cases in H as [[-> _]|(row & c & ev & _ & _ & _ & _ & Hm & _ & Hcase)]; [by left|].
    right. intros Hok.
    destruct Hcase as [[_ ->]|(why & v & st & disp & a & rec' & oid & ost & _ & _ & _ & Ht & ->)].
    + by apply checked_ok.
    + by eapply resolved_db_ok.
  - apply health_commits.
  - intros s r s' [= <- <-]. auto.
Qed.

(** ** What a call keeps: rows, markers, and the gate *)

Record grows (epoch : string) (d' : db) (k : string) (r r' : oprow) : Prop := {
  grows_ident : ident r' = ident r;
  grows_marker : marker r = true -> marker r' = true /\ merged_request r' = merged_request r;
  grows_gate : unsettled epoch r' ->
    (unsettled epoch r /\ recovery_disposition r' = recovery_disposition r)
    \/ recovery_disposition r' <> None \/ exists why, (k, why) ∈ review_requirements d' }.

Record keeps (epoch : string) (d d' : db) : Prop := {
  keeps_rows : forall k r, operations d !! k = Some r ->
    exists r', operations d' !! k = Some r' /\ grows epoch d' k r r';
  keeps_new : forall k r', operations d' !! k = Some r' -> operations d !! k = None ->
    ~ unsettled epoch r';
  keeps_gates : forall k r' why, operations d' !! k = Some r' ->
    (k, why) ∈ review_requirements d ->
    (k, why) ∈ review_requirements d' \/ recovery_disposition r' <> None }.

Lemma keeps_gated epoch d d' : keeps epoch d d' -> gated epoch d -> gated epoch d'.
Proof.
  intros [Hr Hn Hg] G k r' Hk Hu. destruct (operations d !! k) as [r|] eqn:E; [|by destruct (Hn k r')].
  destruct (Hr k r E) as (q & Hq & [_ _ Gq]). simplify_eq.
  destruct (Gq Hu) as [[Hu' Eq]|[?|?]]; [|by left|by right].
  destruct (G k r E Hu') as [?|[why Hw]]; [left; congruence|].
  destruct (Hg k r' why Hk Hw); [right; eauto|by left].
Qed.

Lemma grows_same epoch d' k r : grows epoch d' k r r.
Proof. split; [done|done|auto]. Qed.

Lemma grows_settled epoch d' k r r' :
  ident r' = ident r -> (marker r = true -> marker r' = true /\ merged_request r' = merged_request r) ->
  (unsettled epoch r' -> unsettled epoch r) ->
  recovery_disposition r' = recovery_disposition r -> grows epoch d' k r r'.
Proof. intros ? ? ? ?. split; [done|done|auto]. Qed.

(** Rows changed in place, requirements only added. *)
Lemma keeps_update epoch d d' :
  review_requirements d ⊆ review_requirements d' ->
  dom (operations d') = dom (operations d) ->
  (forall k r r', operations d !! k = Some r -> operations d' !! k = Some r' ->
     grows epoch d' k r r') ->
  keeps epoch d d'.
Proof.
  intros Hs Hdom Hr. split.
  - intros k r Hk. assert (k ∈ dom (operations d')) as [r' Hr']%elem_of_dom; [|by eauto].
    rewrite Hdom. apply elem_of_dom. eauto.
  - intros k r' Hk Hnone. apply elem_of_dom_2 in Hk. rewrite Hdom in Hk.
    apply elem_of_dom in Hk as [? ?]. congruence.
  - intros k r' why _ Hw. left. set_solver.
Qed.

Lemma keeps_alter epoch f id d d' :
  review_requirements d ⊆ review_requirements d' ->
  operations d' = alter f id (operations d) ->
  (forall r, operations d !! id = Some r -> grows epoch d' id r (f r)) ->
  keeps epoch d d'.
Proof.
  intros Hs Ho Hf. apply keeps_update; [done|by rewrite Ho, dom_alter_L|].
  intros k r r' Hk Hk'. rewrite Ho in Hk'.
  apply alter_lookup in Hk' as (q & Hq & [[-> ->]|[_ ->]]); simplify_eq; [by apply Hf|apply grows_same].
Qed.

Lemma keeps_requirements epoch f d :
  (forall q, q ⊆ f q) -> keeps epoch d (with_requirements f d).
Proof.
  intros Hf. apply keeps_update; [apply Hf|done|]. simpl. intros k r r' H H'. simplify_eq.
  apply grows_same.
Qed.

Lemma dom_observed_all (l : list string) (m : gmap string oprow) :
  dom (foldl (fun m k => alter row_observed k m) m l) = dom m.
Proof. revert m; induction l as [|k l IH]; intros m; simpl; [done|]. by rewrite IH, dom_alter_L. Qed.

Lemma row_observed_fields r :
  state (row_observed r) = state r /\ marker (row_observed r) = marker r
  /\ merged_request (row_observed r) = merged_request r
  /\ recovery_disposition (row_observed r) = recovery_disposition r.
Proof. unfold row_observed. by case_match. Qed.

Lemma unsettled_observed epoch r : unsettled epoch (row_observed r) -> unsettled epoch r.
Proof.
  unfold unsettled. rewrite observed_ident. by destruct (row_observed_fields r) as (-> & _).
Qed.

Lemma grows_observed epoch d' k r r' : grows epoch d' k r r' -> grows epoch d' k r (row_observed r').
Proof.
  destruct (row_observed_fields r') as (Hs & Hm & Hq & Hr).
  intros [Hi Hk Hg]. split; [by rewrite observed_ident|by rewrite Hm, Hq|].
  rewrite Hr. intros H. by apply Hg, unsettled_observed.
Qed.

Lemma outcome_keeps epoch id st disp enc rec err now reason observed d d2 :
  st ∈ [ACKNOWLEDGED; UNKNOWN_OUTCOME; REFUSED] -> (st = UNKNOWN_OUTCOME -> set_text reason = true) ->
  let d1 := with_operations (alter (row_outcome st disp enc rec err now) id) d in
  match reason with
  | Some why => if nonempty why then require_review id why d1 else Ok d1
  | None => Ok d1
  end = Ok d2 ->
  keeps epoch d (if bool_decide (st = ACKNOWLEDGED)
                 then with_operations (fun m => foldl (fun m k => alter row_observed k m) m observed) d2
                 else d2).
Proof.
  intros Hst Hwhy d1 H2.
  assert (Ho : operations d2 = operations d1).
  { destruct reason as [why|]; [destruct (nonempty why)|]; simplify_eq; try done.
    by apply require_review_inv in H2 as [-> _]. }
  assert (Hq : review_requirements d ⊆ review_requirements d2).
  { destruct reason as [why|]; [destruct (nonempty why)|]; simplify_eq; try done.
    apply require_review_inv in H2 as [-> _]. set_solver. }
  assert (Hg : forall r, operations d !! id = Some r ->
            grows epoch d2 id r (row_outcome st disp enc rec err now r)).
  { intros r Hr. split; [done|done|]. simpl. intros [Hu|[_ Hu]]; [|exfalso; simpl in Hu; set_solver].
    simpl in Hu. right; right. specialize (Hwhy Hu). destruct reason as [why|]; [|done].
    simpl in Hwhy. rewrite Hwhy in H2. apply require_review_inv in H2 as [-> _].
    exists why. set_solver. }
  case_bool_decide.
  - apply keeps_update; [done|simpl; rewrite dom_observed_all, Ho; simpl; by rewrite dom_alter_L|].
    simpl. intros k r r' Hk Hk'. rewrite Ho in Hk'. unfold d1 in Hk'. simpl in Hk'.
    apply observed_all_lookup in Hk' as (q & Hq' & Hor).
    apply alter_lookup in Hq' as (r0 & Hr0 & Hc). rewrite Hk in Hr0. injection Hr0 as <-.
    assert (G : grows epoch d2 k r q).
    { destruct Hc as [[-> ->]|[_ ->]]; [by apply Hg|apply grows_same]. }
    assert (G' : grows epoch d2 k r r').
    { destruct Hor as [->| ->]; [done|by apply grows_observed]. }
    by destruct G'; split.
  - by apply (keeps_alter _ (row_outcome st disp enc rec err now) id).
Qed.

Lemma checked_keeps epoch i c ev next id d : keeps epoch d (checked i c ev next id d).
Proof.
  apply keeps_alter with (f := row_checked ev next (io_now i)) (id := id); [done|done|].
  intros r _. by apply grows_settled.
Qed.

Lemma resolved_keeps epoch i c ev next id a st disp why rec oid ost d :
  keeps epoch d (resolved i c ev next id a st disp why rec oid ost d).
Proof.
  assert (L : forall k, operations (resolved i c ev next id a st disp why rec oid ost d) !! k =
            (if decide (k = id)
             then option_map (fun r => row_resolved st disp why rec oid ost
                                (row_checked ev next (io_now i) r)) (operations d !! k)
             else operations d !! k)).
  { intros k. simpl. rewrite !lookup_alter.
    repeat case_decide; subst; try done. by destruct (_ !! _). }
  split.
  - intros k r Hk. rewrite L, Hk. case_decide.
    + eexists. split; [reflexivity|]. split; [done|done|by right; left].
    + exists r. split; [done|apply grows_same].
  - intros k r' Hk Hn. rewrite L, Hn in Hk. by case_decide.
  - intros k r' reason Hk Hw. rewrite L in Hk. case_decide.
    + right. destruct (_ !! _); simpl in Hk; [|done]. by simplify_eq.
    + left. simpl. apply elem_of_filter. by split.
Qed.

Lemma insert_keeps epoch r d d' :
  insert_operation r d = Ok d' -> admission_epoch (ident r) = epoch -> state r = ADMITTED ->
  marker r = false -> recovery_disposition r = None -> db_ok d -> keeps epoch d d'.
Proof.
  intros Hi He Hs Hm Hr Hok. destruct (insert_ok _ _ _ Hi Hs Hm Hr Hok) as (_ & Ho & Hn & Hq).
  split.
  - intros k q Hk. exists q. rewrite Ho, lookup_insert_ne by congruence. split; [done|apply grows_same].
  - intros k q Hk Hn'. rewrite Ho in Hk. apply lookup_insert_Some in Hk as [[<- <-]|[_ ?]]; [|congruence].
    unfold unsettled. rewrite Hs. naive_solver.
  - intros k q why _ Hw. left. by rewrite Hq.
Qed.

Lemma marked_keeps epoch id m r d :
  operations d !! id = Some r -> state r = ADMITTED -> marker r = false ->
  keeps epoch d (with_operations <[id := row_dispatched m r]> d).
Proof.
  intros Hr Hs Hmk. apply keeps_update; [done| |].
  - simpl. rewrite dom_insert_L. apply elem_of_dom_2 in Hr. set_solver.
  - simpl. intros k q q' Hq Hq'. apply lookup_insert_Some in Hq' as [[<- <-]|[_ Hq']]; simplify_eq;
      [|apply grows_same].
    apply grows_settled; [done|congruence| |done]. intros [Hu|[? _]]; [done|]. by right; auto.
Qed.

Lemma run_call_keeps c :
  well_used c ->
  commits (run_call c) (fun s d' => db_ok (s_db s) -> keeps (s_epoch s) (s_db s) d').
Proof.
  destruct c; simpl; intros Hw; try apply commits_ignore.
  - apply read_commits. naive_solver.
  - apply read_commits. intros d a d' H. ok_inv. done.
  - apply transaction_commits. intros s [v b] d _ H.
    destruct (row_view id (s_db s)); [by left; simplify_eq|].
    case_match eqn:He; [done|]. case_match; [done|]. bools. apply bind_ok in H as (? & _ & H).
    apply bind_ok in H as (d1 & Hi & H). case_match; [|done]. simplify_eq. right.
    by apply (insert_keeps _ _ _ _ Hi).
  - apply transaction_commits. intros s [] d _ H. apply bind_ok in H as (m & _ & H).
    destruct (operations (s_db s) !! id) as [r|] eqn:E; [|done]. case_bool_decide; [|done].
    simplify_eq. right. intros [Hrows _]. apply marked_keeps; [done|done|]. by apply (Hrows id r E).
  - destruct Hw as [Hst Hwhy]. unfold outcome.
    destruct (encode_opt rec) as [enc|e]; [|by intros ? ? ? [= <- <-]; auto].
    apply transaction_commits. intros s [] d _ H. apply bind_ok in H as (d2 & H2 & [= <-]).
    right. intros _. by eapply outcome_keeps.
  - intros s r s' H. unfold review, se_bind, se_modify in H.
    destruct (transaction i _ s) as [[[]|e] s1] eqn:E.
    + apply transaction_cases in E as [[-> ?]|[(m & -> & ?)|([] & d & _ & -> & [= <-] & _)]]; try done.
      apply health_commits with (P := fun _ _ => False) in H as (-> & -> & [->|[]]).
      split_and!; [done|done|]. right. intros _. apply keeps_requirements. set_solver.
    + simplify_eq. apply transaction_cases in E as [[-> ?]|[(m & -> & ?)|(a & d & ? & _)]]; auto; done.
  - intros s r s' H. unfold require_ready, se_bind in H.
    destruct (health i s) as [[h|e] s1] eqn:E; apply health_commits with (P := fun _ _ => False) in E;
      [case_bool_decide; unfold se_ret, se_raise in H|]; simplify_eq;
      destruct E as (? & ? & [?|[]]); auto.
  - apply read_commits. naive_solver.
  - apply transaction_commits. intros s [] d _ H. apply bind_ok in H as (d1 & Hr & [= <-]).
    apply require_review_inv in Hr as [-> _]. right. intros _. apply keeps_requirements. set_solver.
  - intros s r s' H. pose proof H as H'.
    assert (s_epoch s' = s_epoch s /\ s_environment s' = s_environment s) as [-> ->].
    { apply transaction_cases in H' as [[-> _]|[(m & -> & _)|(? & d & _ & -> & _)]]; auto. }
    split_and!; [done|done|].
    apply record_cases in H as [[-> _]|(row & c & ev & _ & _ & _ & _ & Hm & _ & Hcase)]; [by left|].
    right. intros _.
    destruct Hcase as [[_ ->]|(why & v & st & disp & a & rec' & oid & ost & _ & _ & _ & _ & ->)].
    + apply checked_keeps.
    + apply resolved_keeps.
  - apply health_commits.
  - intros s r s' [= <- <-]. auto.
Qed.
