(* ===== verification/Journal.v ===== *)
(** What the journal promises over any history of processes, calls and storage
    faults ([StoreInv.reachable]): the theorems of services/execution_store.py. *)

From S2P Require Import Prelude PyStr PyFloat PyDec PyVal Store StoreOpen StoreInv.

(** ** Startup *)

Lemma migrated_ok d : db_ok d -> db_ok (migrate d).
Proof.
  unfold migrate. case_match; [|done]. intros [Hr Hu]. split; simpl.
  - intros k r Hk. rewrite lookup_fmap in Hk. apply fmap_Some in Hk as (q & Hq & ->).
    destruct (Hr k q Hq). by split.
  - intros k k' r r' t Hk _ Ht. rewrite lookup_fmap in Hk. by apply fmap_Some in Hk as (q & _ & ->).
Qed.

Lemma recovered_fields r :
  ident (row_recovered r) = ident r /\ marker (row_recovered r) = marker r
  /\ merged_request (row_recovered r) = merged_request r
  /\ recovery_disposition (row_recovered r) = recovery_disposition r
  /\ state (row_recovered r) = (if bool_decide (state r = DISPATCHING) then UNKNOWN_OUTCOME else state r).
Proof. unfold row_recovered. by case_bool_decide. Qed.

Lemma startup_rows epoch d d' k :
  startup epoch d = Ok d' -> operations d' !! k = row_recovered <$> operations d !! k.
Proof. unfold startup. case_match; [done|]. intros [= <-]. simpl. by rewrite lookup_fmap. Qed.

Lemma startup_ok epoch d d' : startup epoch d = Ok d' -> db_ok d -> db_ok d'.
Proof.
  intros Hs. pose proof (startup_rows epoch d d') as L. revert Hs. unfold startup.
  case_match eqn:E; [done|]. intros Hs Hok.
  apply (update_ok d); [by injection Hs as <-|injection Hs as <-; intros; apply Z.le_refl|done|].
  intros k r' Hk. rewrite L in Hk by (unfold startup; by rewrite E).
  apply fmap_Some in Hk as (r & Hr & ->). exists r.
  destruct (recovered_fields r) as (Hi & Hm & _ & Hd & Hst). split_and!; [done|done|].
  intros [? Hmk ?]. split; [by rewrite Hi| |by rewrite Hd].
  rewrite Hst, Hm. by case_bool_decide.
Qed.

Lemma require_where_elem p why d k r :
  operations d !! k = Some r -> p r = true -> (k, why) ∈ review_requirements (require_where p why d).
Proof.
  intros Hr Hp. simpl. apply elem_of_union_l, elem_of_map. exists k. split; [done|].
  apply elem_of_dom. exists r. apply map_lookup_filter_Some. by split.
Qed.

Lemma require_where_mono p why d : review_requirements d ⊆ review_requirements (require_where p why d).
Proof. simpl. set_solver. Qed.

Lemma startup_gated epoch d d' : startup epoch d = Ok d' -> gated epoch d'.
Proof.
  intros Hs k r Hk Hu. pose proof (startup_rows epoch d d' k Hs) as L. rewrite Hk in L.
  symmetry in L. apply fmap_Some in L as (q & _ & ->). rename q into r.
  destruct (recovery_disposition (row_recovered r)) eqn:E; [by left|right]. exists "STARTUP_REVIEW".
  unfold startup in Hs. case_match; [done|]. injection Hs as <-.
  eapply require_where_elem; [exact Hk|]. unfold needs_review. rewrite E.
  destruct (recovered_fields r) as (_ & _ & _ & _ & Hst). unfold unsettled in Hu. rewrite Hst in Hu |- *.
  destruct (state r); simpl in *; naive_solver.
Qed.

(** The cases of a start. *)
Lemma open_store_cases i env epoch wait create file r file' :
  open_store i env epoch wait create file = (r, file') ->
  (is_ok r = false /\
     (file' = file \/ exists d, (d = default (new_db env) file) /\ (file' = Some d \/ file' = Some (migrate d))))
  \/ exists d s, d = default (new_db env) file /\ r = Ok s /\ file' = Some (s_db s)
       /\ s_epoch s = epoch /\ s_environment s = env /\ s_reviewed s = false /\ s_failed s = None
       /\ startup epoch (migrate d) = Ok (s_db s).
Proof.
  unfold open_store. intros H.
  repeat (case_match; [by simplify_eq; left; eauto|]).
  assert (H' : forall d,
    match check_file i env d with
    | Ok _ =>
        match oi_migrate_fault i with
        | Some m => (Err (ExecutionStoreError m), Some d)
        | None =>
            match transaction (oi_startup i)
              (fun s d => bind (startup (s_epoch s) d) (fun d' => Ok (tt, d')))
              {| s_environment := env; s_epoch := epoch; s_reviewed := false; s_closed := false;
                 s_failed := None; s_db := migrate d |} with
            | (Ok _, s') => (Ok s', Some (s_db s'))
            | (Err e, s') => (Err e, Some (s_db s'))
            end
        end
    | Err e => (Err e, Some d)
    end = (r, file') ->
    (is_ok r = false /\ (file' = Some d \/ file' = Some (migrate d)))
    \/ exists s, r = Ok s /\ file' = Some (s_db s) /\ s_epoch s = epoch /\ s_environment s = env
         /\ s_reviewed s = false /\ s_failed s = None /\ startup epoch (migrate d) = Ok (s_db s)).
  { clear H. intros d H. case_match; [|by simplify_eq; eauto].
    case_match; [by simplify_eq; eauto|].
    destruct (transaction _ _ _) as [[[]|e] s'] eqn:E; simplify_eq;
      apply transaction_cases in E
        as [[-> ?]|[(m & -> & ?)|([] & d' & ? & -> & Hb & _)]]; try done; eauto; simpl in *.
    apply bind_ok in Hb as (d1 & Hs & [= ->]). eauto 10. }
  destruct file as [d|], create; try (by simplify_eq; left; eauto);
    [| |destruct (oi_create_fault i); [by simplify_eq; left; eauto|]];
    apply H' in H as [[? Hf]|(s & Hs)]; [left; eauto|right; eauto 12|left; eauto|right; eauto 12
      |left; eauto|right; eauto 12].
Qed.

(** ** The invariant of reachable journals *)

Definition file_ok (file : option db) : Prop := match file with Some d => db_ok d | None => True end.

Definition marked_in (log : list (string * dict)) (file : option db) : Prop :=
  forall id args, (id, args) ∈ log ->
    exists d r, file = Some d /\ operations d !! id = Some r /\ marker r = true
                /\ merged_request r = Some (VDict args).

Record machine_ok (m : machine) : Prop := {
  mok_file : file_ok (m_file m);
  mok_proc : forall s, m_proc m = Some s ->
    m_file m = Some (s_db s) /\ gated (s_epoch s) (s_db s);
  mok_log : marked_in (m_dispatched m) (m_file m);
  mok_once : NoDup (m_dispatched m).*1 }.

Lemma new_db_ok env : db_ok (new_db env).
Proof. split; [apply map_Forall_empty|]. intros k k' r r' t H. simpl in H. by rewrite lookup_empty in H. Qed.

Lemma marked_migrate log d : marked_in log (Some d) -> marked_in log (Some (migrate d)).
Proof.
  intros H id args Hid. destruct (H id args Hid) as (? & r & [= <-] & Hr & Hm). exists (migrate d).
  unfold migrate. case_match; [|eauto]. eexists. split; [done|]. simpl. by rewrite lookup_fmap, Hr.
Qed.

Lemma marked_startup log epoch d d' :
  startup epoch d = Ok d' -> marked_in log (Some d) -> marked_in log (Some d').
Proof.
  intros Hs H id args Hid. destruct (H id args Hid) as (? & r & [= <-] & Hr & Hm & Ha).
  exists d', (row_recovered r).
  split; [done|]. rewrite (startup_rows _ _ _ id Hs), Hr. split; [done|].
  destruct (recovered_fields r) as (_ & -> & -> & _). done.
Qed.

Lemma marked_keeps_log log epoch d d' :
  keeps epoch d d' -> marked_in log (Some d) -> marked_in log (Some d').
Proof.
  intros [Hk _ _] H id args Hid. destruct (H id args Hid) as (? & r & [= <-] & Hr & Hm & Ha).
  destruct (Hk id r Hr) as (r' & Hr' & [_ G _]). destruct (G Hm) as [? Hq].
  exists d', r'. rewrite Hq. auto.
Qed.

Lemma marked_default log env file :
  marked_in log file -> marked_in log (Some (default (new_db env) file)).
Proof.
  intros H. destruct file; [done|]. intros id args Hid. by destruct (H id args Hid) as (? & ? & ? & _).
Qed.

Lemma default_ok env file : file_ok file -> db_ok (default (new_db env) file).
Proof. destruct file; [done|]. intros _. apply new_db_ok. Qed.

Lemma mark_ok_marker i id merged s s' :
  mark_dispatch i id merged s = (Ok tt, s') ->
  exists r, operations (s_db s) !! id = Some r /\ state r = ADMITTED
    /\ s_db s' = with_operations <[id := row_dispatched (VDict merged) r]> (s_db s).
Proof.
  intros H. apply transaction_cases in H as [[_ ?]|[(? & _ & ?)|([] & d & _ & -> & H & _)]]; try done.
  apply bind_ok in H as (m & Hj & H). apply json_dumps_ok in Hj as [-> _].
  case_match; [|done]. case_bool_decide; [|done].
  simplify_eq. eauto.
Qed.

Lemma step_ok env m m' : step env m m' -> machine_ok m -> machine_ok m'.
Proof.
  intros Hstep [Hf Hp Hl Hn]. destruct Hstep as [i ep wait create file log s file' Ho
    |i ep wait create file log e file' Ho|s file log|c r s s' file log Hw Hc]; simpl in *.
  - apply open_store_cases in Ho as [[? _]|(d & s0 & -> & [= <-] & -> & <- & _ & _ & _ & Hs)]; [done|].
    split; simpl; [|by intros ? [= <-]; eauto using startup_gated| |done].
    + eapply startup_ok, migrated_ok, default_ok; eauto.
    + by eapply marked_startup, marked_migrate, marked_default.
  - apply open_store_cases in Ho as [[_ Hor]|(d & s0 & _ & ? & _)]; [|done].
    split; simpl; [|done| |done].
    + destruct Hor as [->|(d & -> & [->| ->])]; [done|by apply default_ok|].
      by apply migrated_ok, default_ok.
    + destruct Hor as [->|(d & -> & [->| ->])]; [done|by apply marked_default|].
      by apply marked_migrate, marked_default.
  - destruct (Hp s eq_refl) as [-> _]. by split.
  - destruct (Hp s eq_refl) as [-> Hg].
    destruct (run_call_ok c Hw _ _ _ Hc) as (He & _ & Hok).
    destruct (run_call_keeps c Hw _ _ _ Hc) as (_ & _ & Hk).
    assert (Hk' : s_db s' = s_db s \/ keeps (s_epoch s) (s_db s) (s_db s')) by naive_solver.
    assert (Hl' : marked_in log (Some (s_db s'))).
    { destruct Hk' as [->|?]; [done|by eapply marked_keeps_log]. }
    split; simpl.
    + destruct Hok as [->|Hok]; [done|by apply Hok].
    + intros ? [= <-]. split; [done|]. rewrite He.
      destruct Hk' as [->|?]; [done|by eapply keeps_gated].
    + destruct c as [| | |i id merged| | | | | | | |], r as [[]|]; try done. simpl in Hc.
      apply mark_ok_marker in Hc as (r & Hr & Ha & Hd).
      intros id' args [[= -> ->]|Hid]%elem_of_cons; [|by apply Hl'].
      eexists _, _. split; [done|]. rewrite Hd. simpl. by rewrite lookup_insert_eq.
    + destruct c as [| | |i id merged| | | | | | | |], r as [[]|]; try done. simpl in Hc.
      apply mark_ok_marker in Hc as (r & Hr & Ha & Hd).
      cbn [fmap list_fmap fst]. apply NoDup_cons. split; [|done].
      intros ([id' args] & -> & Hin)%list_elem_of_fmap. simpl in *.
      destruct (Hl id' args Hin) as (? & q & [= <-] & Hq & Hmk & _). simplify_eq.
      destruct Hf as [Hrows _]. destruct (Hrows _ _ Hr) as [_ Hm _]. rewrite Hm in Hmk; done.
Qed.

Lemma reachable_ok env file m : file_ok file -> reachable env file m -> machine_ok m.
Proof.
  intros Hf. apply star_invariant; [|split; simpl; [done|done| |constructor]].
  - intros x y Hx Hs. by eapply step_ok.
  - intros id args Hid. by apply elem_of_nil in Hid.
Qed.

(** ** A concrete history, for the witnesses *)

Definition demo_start : open_io :=
  {| oi_locked := false; oi_integrity_ok := true; oi_create_fault := None;
     oi_migrate_fault := None; oi_startup := io_ok 1 |}.
Definition demo_request : dict := [("code", VStr "US.AAPL"); ("price", VInt 10)].
Definition demo_calls : list call :=
  [CReview (io_ok 2) (io_ok 2);
   CAdmit (io_ok 3) "tag-1" "op-1" "e1" 7 PLACE (VDict demo_request) demo_request;
   CMark (io_ok 4) "op-1" demo_request].

Definition demo_proc : store :=
  match open_store demo_start "SIMULATE" "e1" 5000 true None with
  | (Ok s, _) => s
  | _ => {| s_environment := ""; s_epoch := ""; s_reviewed := false; s_closed := true;
            s_failed := None; s_db := new_db "" |}
  end.

(** Its outcome stays unknown; five checks find nothing; it is assumed absent. *)
Definition not_found (next : Z) (res : option string) : call :=
  CRecord (io_ok next) "op-1" UNKNOWN_OUTCOME next next "NOT_FOUND"
    [("orders", VList []); ("correlated_order_seen", VBool false)] (next + 10) res None None.
Definition demo_recovery : list call :=
  [COutcome (io_ok 5) "op-1" UNKNOWN_OUTCOME "POSSIBLY_SENT" None (Some "timeout")
     (Some "UNKNOWN_OUTCOME") [];
   not_found 10 None; not_found 20 None; not_found 30 None; not_found 40 None;
   not_found 50 (Some ASSUMED_ABSENT)].

Definition after (m : machine) (c : call) : machine :=
  match m_proc m with
  | Some s => let (r, s') := run_call c s in
      {| m_file := Some (s_db s'); m_proc := Some s';
         m_dispatched := match c, r with CMark _ id merged, Ok _ => (id, merged) :: m_dispatched m
                                       | _, _ => m_dispatched m end |}
  | None => m
  end.

Definition demo_machine : machine :=
  foldl after {| m_file := Some (s_db demo_proc); m_proc := Some demo_proc; m_dispatched := [] |}
        demo_calls.

Lemma after_reachable env file m c :
  well_used c -> reachable env file m -> (forall s, m_proc m = Some s -> m_file m = Some (s_db s)) ->
  reachable env file (after m c) /\
  (forall s, m_proc (after m c) = Some s -> m_file (after m c) = Some (s_db s)).
Proof.
  intros Hw Hr Hp. unfold after. destruct (m_proc m) as [s|] eqn:E; [|by rewrite E].
  destruct (run_call c s) as [r s'] eqn:Hc. split; [|by intros ? [= <-]].
  eapply star_snoc; [exact Hr|]. destruct m as [f p l]; simpl in *. subst p. by constructor.
Qed.

Lemma afters_reachable env file cs m :
  Forall well_used cs -> reachable env file m ->
  (forall s, m_proc m = Some s -> m_file m = Some (s_db s)) ->
  reachable env file (foldl after m cs).
Proof.
  revert m; induction cs as [|c cs IH]; intros m Hw Hr Hp; simpl; [done|].
  apply Forall_cons in Hw as [Hc Hw]. destruct (after_reachable env file m c Hc Hr Hp); auto.
Qed.

Lemma demo_reachable : reachable "SIMULATE" None demo_machine.
Proof.
  apply afters_reachable; [by repeat constructor| |by intros ? [= <-]].
  eapply star_snoc; [apply star_refl|].
  apply step_start with (i := demo_start) (epoch := "e1") (wait := 5000) (create := true).
  by vm_compute.
Qed.

Definition demo_settled : machine := foldl after demo_machine demo_recovery.

Lemma demo_settled_reachable : reachable "SIMULATE" None demo_settled.
Proof.
  apply afters_reachable; [|apply demo_reachable|by intros ? [= <-]].
  repeat constructor; set_solver.
Qed.

Definition the_proc (m : machine) : store := default demo_proc (m_proc m).
Definition the_file (m : machine) : db := default (new_db "") (m_file m).

(** ** Theorems *)

(** C17 [mark_dispatch] succeeds at most once per operation identifier over the
    whole life of a journal: any interleaving of calls with any arguments and
    storage faults, and any number of crashes, restarts and migrations.  The
    executors call the broker only after it, so no order is sent twice.  What was
    marked stays in the journal, with the request it was marked with. *)
Theorem dispatch_at_most_once env file m :
  file_ok file -> reachable env file m ->
  NoDup (m_dispatched m).*1 /\
  forall id args, (id, args) ∈ m_dispatched m ->
    exists d r, m_file m = Some d /\ operations d !! id = Some r /\ marker r = true
                /\ merged_request r = Some (VDict args).
Proof. intros Hf Hr. destruct (reachable_ok env file m Hf Hr) as [_ _ Hl Hn]. by split. Qed.

Lemma dispatch_at_most_once_witness :
  m_dispatched demo_machine = [("op-1", demo_request)] /\ NoDup (m_dispatched demo_machine).*1.
Proof.
  split; [by vm_compute|].
  apply (dispatch_at_most_once "SIMULATE" None); [done|apply demo_reachable].
Defined.

Lemma admit_new i tag id epoch acc k canon req s v s' :
  admit_ i tag id epoch acc k canon req s = (Ok (v, true), s') ->
  epoch = s_epoch s /\ s_reviewed s = true /\ review_requirements (s_db s) = ∅
  /\ operations (s_db s) !! id = None.
Proof.
  intros H. apply transaction_cases in H as [[_ ?]|[(? & _ & ?)|([] & d & Heq & -> & H & _)]]; try done.
  injection Heq as <- <-. unfold row_view in H.
  destruct (operations (s_db s) !! id); [done|].
  case_match eqn:He; [done|]. case_match eqn:Hr; [done|]. by bools.
Qed.

(** C18 Nothing new is admitted while an earlier outcome is unaccounted for: in
    any reachable journal, when [admit_] creates an operation, every operation
    whose outcome is unknown, and every operation an earlier process left
    unfinished, has been given a recovery disposition. *)
Theorem unresolved_blocks_admission env file m s i tag id epoch acc k canon req v s' :
  file_ok file -> reachable env file m -> m_proc m = Some s ->
  admit_ i tag id epoch acc k canon req s = (Ok (v, true), s') ->
  forall id' r, operations (s_db s) !! id' = Some r -> unsettled (s_epoch s) r ->
    recovery_disposition r <> None.
Proof.
  intros Hf Hr Hs Ha id' r Hid Hu. apply admit_new in Ha as (_ & _ & Hq & _).
  destruct (reachable_ok env file m Hf Hr) as [_ Hp _ _]. destruct (Hp s Hs) as [_ Hg].
  destruct (Hg id' r Hid Hu) as [?|[why Hw]]; [done|]. rewrite Hq in Hw. set_solver.
Qed.

Lemma unresolved_blocks_admission_witness :
  let s := the_proc demo_settled in
  (exists v s', admit_ (io_ok 60) "tag-2" "op-2" "e1" 7 PLACE VNone demo_request s = (Ok (v, true), s'))
  /\ exists r, operations (s_db s) !! "op-1" = Some r /\ unsettled "e1" r
       /\ recovery_disposition r <> None.
Proof.
  split; [by vm_compute; eauto|]. eexists. split_and!; [by vm_compute|by left|].
  eapply (unresolved_blocks_admission "SIMULATE" None demo_settled (the_proc demo_settled) (io_ok 60)
    "tag-2" "op-2" "e1" 7 PLACE VNone demo_request) with (id' := "op-1");
    [done|apply demo_settled_reachable|by vm_compute|by vm_compute|by vm_compute|by left].
Defined.

(** An order is assumed not placed only in the SIMULATE journal and only
    after five recorded checks found nothing. *)
Theorem assumed_absence_evidence env file m d id r :
  file_ok file -> reachable env file m -> m_file m = Some d ->
  operations d !! id = Some r -> recovery_disposition r = Some ASSUMED_ABSENT ->
  metadata d = ["SIMULATE"] /\ required_negative_checks <= count_outcome "NOT_FOUND" (checks_of id d).
Proof.
  intros Hf Hr Hd Hid Ha. destruct (reachable_ok env file m Hf Hr) as [Hok _ _ _].
  rewrite Hd in Hok. simpl in Hok. destruct Hok as [Hrows _]. destruct (Hrows id r Hid) as [_ _ H]. by apply H.
Qed.

Lemma assumed_absence_evidence_witness :
  exists r, operations (the_file demo_settled) !! "op-1" = Some r
    /\ metadata (the_file demo_settled) = ["SIMULATE"]
    /\ required_negative_checks <= count_outcome "NOT_FOUND" (checks_of "op-1" (the_file demo_settled)).
Proof.
  eexists. split; [by vm_compute|].
  eapply (assumed_absence_evidence "SIMULATE" None demo_settled);
    [done|apply demo_settled_reachable|by vm_compute|by vm_compute|done].
Defined.

(** A broker order tag belongs to one operation: no two rows of a reachable
    journal carry the same tag. *)
Theorem order_tags_unique env file m d :
  file_ok file -> reachable env file m -> m_file m = Some d -> tags_unique (operations d).
Proof.
  intros Hf Hr Hd. destruct (reachable_ok env file m Hf Hr) as [Hok _ _ _].
  rewrite Hd in Hok. apply Hok.
Qed.

Lemma order_tags_unique_witness :
  exists d, m_file demo_machine = Some d /\ tags_unique (operations d).
Proof.
  eexists. split; [reflexivity|].
  eapply (order_tags_unique "SIMULATE" None demo_machine); [done|apply demo_reachable|reflexivity].
Defined.

(** ** Operations one by one *)

Lemma failed_connection i {A} (body : store -> db -> result (A * db)) s m :
  s_failed s = Some m ->
  exists e, connection i body s = (Err (ExecutionStoreError e), s).
Proof. intros Hf. unfold connection. rewrite Hf. destruct (s_closed s); eauto. Qed.

Lemma failed_health i s m :
  s_failed s = Some m ->
  exists e m', health i s = (Ok (storage_blocked s e), set_failed m' s)
               \/ health i s = (Ok (storage_blocked s e), s).
Proof.
  intros Hf. unfold health, se_try. destruct (io_writable i); simpl.
  - destruct (failed_connection i (fun s d => Ok (report s d, d)) s m Hf) as (e & ->).
    exists (ExecutionStoreError e), "". by right.
  - eexists _, _. left. reflexivity.
Qed.

(** Once failed, nothing changes any more and only [health] and [close] answer. *)
Definition answers_failed (c : call) : bool := match c with CHealth _ | CClose => true | _ => false end.

Lemma failed_call c s r s' :
  s_failed s <> None -> run_call c s = (r, s') ->
  s_db s' = s_db s /\ s_failed s' <> None /\ (is_ok r = true -> answers_failed c = true).
Proof.
  intros Hn Hc. destruct (s_failed s) as [m|] eqn:Hf; [|done].
  assert (Hn' : s_failed s <> None) by congruence.
  destruct c; simpl in Hc; unfold ignore, se_bind, se_ret, se_raise in Hc;
    unfold lookup, unobserved_modifications, admit_, mark_dispatch, review, outcome, recovery_rows,
      block_late_order, record_recovery, transaction, require_ready, se_bind in Hc;
    try match type of Hc with context [connection ?i ?b s] =>
      destruct (failed_connection i b s m Hf) as (e & He); rewrite He in Hc; by simplify_eq end.
  - destruct (encode_opt rec); [|by injection Hc as <- <-].
    match type of Hc with context [connection ?i ?b s] =>
      destruct (failed_connection i b s m Hf) as (e & He); rewrite He in Hc; by simplify_eq end.
  - destruct (failed_health i s m Hf) as (e & m' & [He|He]); rewrite He in Hc; simpl in Hc; injection Hc as <- <-;
      by split_and!.
  - destruct (failed_health i s m Hf) as (e & m' & [He|He]); rewrite He in Hc; simpl in Hc; injection Hc as <- <-;
      by split_and!.
  - by injection Hc as <- <-.
Qed.

(** The operating system's side of a call: the accesses of its first connection
    (a closing store has none). *)
Definition call_io (c : call) : option io :=
  match c with
  | CLookup i _ | CUnobserved i _ _ | CAdmit i _ _ _ _ _ _ _ | CMark i _ _ | COutcome i _ _ _ _ _ _ _
  | CReview i _ | CRequireReady i | CRecoveryRows i _ | CBlockLate i _ | CRecord i _ _ _ _ _ _ _ _ _ _
  | CHealth i => Some i
  | CClose => None
  end.
Definition reports (c : call) : bool := match c with CHealth _ | CRequireReady _ => true | _ => false end.
Definition commits_work (c : call) : bool :=
  match c with
  | CAdmit _ _ _ _ _ _ _ _ | CMark _ _ _ | COutcome _ _ _ _ _ _ _ _ | CReview _ _ | CBlockLate _ _
  | CRecord _ _ _ _ _ _ _ _ _ _ _ => true
  | _ => false
  end.
(** An outcome whose receipt has no JSON text is refused before any access. *)
Definition reaches_storage (c : call) : bool :=
  match c with COutcome _ _ _ _ rec _ _ _ => is_ok (encode_opt rec) | CClose => false | _ => true end.
Definition faultless (i : io) : io := {| io_fault := None; io_now := io_now i; io_writable := io_writable i |}.
Definition without_fault (c : call) : call :=
  match c with
  | CAdmit i tag id epoch acc k canon req => CAdmit (faultless i) tag id epoch acc k canon req
  | CMark i id merged => CMark (faultless i) id merged
  | COutcome i id st disp rec err reason obs => COutcome (faultless i) id st disp rec err reason obs
  | CReview i i' => CReview (faultless i) i'
  | CBlockLate i id => CBlockLate (faultless i) id
  | CRecord i id obs st co out det next res rec facts =>
      CRecord (faultless i) id obs st co out det next res rec facts
  | c => c
  end.

(** An SQLite or OS error meets the call: a connection, pragma or statement
    fails, the file is not the journal it was, or the commit fails of what would
    otherwise have been committed; a report also needs a writable file. *)
Definition meets_fault (c : call) (s : store) : Prop :=
  reaches_storage c = true /\ exists i, call_io c = Some i /\
  ((exists m, io_fault i = Some (FaultOpen m))
   \/ user_version (s_db s) <> SCHEMA_VERSION \/ metadata (s_db s) <> [s_environment s]
   \/ (exists m, io_fault i = Some (FaultCommit m)) /\ commits_work c = true
      /\ is_ok (fst (run_call (without_fault c) s)) = true
   \/ reports c = true /\ io_writable i = false).

(** A faulty connection fails the store. *)
Lemma faulty_connection i {A} (body : store -> db -> result (A * db)) s :
  s_closed s = false -> s_failed s = None ->
  (exists m, io_fault i = Some (FaultOpen m)) \/ user_version (s_db s) <> SCHEMA_VERSION
    \/ metadata (s_db s) <> [s_environment s] ->
  exists e m, connection i body s = (Err (ExecutionStoreError e), set_failed m s).
Proof.
  intros Hc Hf H. unfold connection. rewrite Hc, Hf.
  destruct (io_fault i) as [[m|m]|]; [by eexists _, _| |];
    (destruct H as [[? ?]|H]; [done|];
     destruct (user_version (s_db s) =? SCHEMA_VERSION) eqn:Ev; [|by eexists _, _]; apply Z.eqb_eq in Ev;
     simpl; destruct H as [?|H]; [done|]; rewrite bool_decide_eq_false_2 by done; by eexists _, _).
Qed.

(** So does a commit that fails. *)
Lemma faulty_commit i {A} (body : store -> db -> result (A * db)) s m :
  io_fault i = Some (FaultCommit m) -> is_ok (fst (transaction (faultless i) body s)) = true ->
  exists e m', transaction i body s = (Err (ExecutionStoreError e), set_failed m' s).
Proof.
  intros Hi Hok. destruct (transaction (faultless i) body s) as [r s'] eqn:E.
  apply transaction_cases in E as [[_ ?]|[(? & _ & ?)|(x & d & -> & _ & Hb & Hc & Hf & Hm & Hv)]]; simpl in *;
    [congruence..|].
  unfold transaction, connection; rewrite Hc, Hf, Hi, Hv, Hb, bool_decide_eq_true_2 by done; by eexists _, _.
Qed.

Fixpoint run_calls (cs : list call) (s : store) : list (result unit) * store :=
  match cs with
  | [] => ([], s)
  | c :: cs => let '(r, s1) := run_call c s in let '(rs, s2) := run_calls cs s1 in (r :: rs, s2)
  end.

Lemma failed_calls later s rs s' :
  s_failed s <> None -> run_calls later s = (rs, s') ->
  s_db s' = s_db s /\ s_failed s' <> None
  /\ Forall2 (fun c r => is_ok r = true -> answers_failed c = true) later rs.
Proof.
  revert s rs s'. induction later as [|c later IH]; intros s rs s' Hf; simpl; [by intros [= <- <-]|].
  destruct (run_call c s) as [r s1] eqn:E1. destruct (run_calls later s1) as [rs1 s2] eqn:E2. intros [= <- <-].
  apply failed_call in E1 as (D1 & F1 & R1); [|done]. apply IH in E2 as (D2 & F2 & R2); [|done].
  split_and!; [congruence|done|by constructor].
Qed.

Definition broken_connection (i : io) (s : store) : Prop :=
  (exists m, io_fault i = Some (FaultOpen m)) \/ user_version (s_db s) <> SCHEMA_VERSION
  \/ metadata (s_db s) <> [s_environment s].

Lemma faulty_transaction i {A} (body : store -> db -> result (A * db)) s :
  s_closed s = false -> s_failed s = None ->
  broken_connection i s
  \/ (exists m, io_fault i = Some (FaultCommit m)) /\ is_ok (fst (transaction (faultless i) body s)) = true ->
  exists e m, transaction i body s = (Err (ExecutionStoreError e), set_failed m s).
Proof. intros Hc Hf [H|[[m Hi] H]]; [by apply faulty_connection|by apply (faulty_commit i body s m)]. Qed.

Lemma faulty_health i s :
  s_closed s = false -> s_failed s = None -> broken_connection i s \/ io_writable i = false ->
  exists e m, health i s = (Ok (storage_blocked s e), set_failed m s).
Proof.
  intros Hc Hf H. unfold health, se_try. destruct (io_writable i); simpl; [|by eexists _, _].
  destruct H as [H|?]; [|done].
  destruct (faulty_connection i (fun s d => Ok (report s d, d)) s Hc Hf H) as (e & m & ->). by eexists _, _.
Qed.

Lemma failing_bind {A B} (c : SE store A) (f : A -> SE store B) s :
  (exists e m, c s = (Err e, set_failed m s)) -> exists e m, se_bind c f s = (Err e, set_failed m s).
Proof. intros (e & m & E). unfold se_bind. rewrite E. eauto. Qed.
Lemma bound_ok {A B} (c : SE store A) (f : A -> SE store B) s :
  is_ok (fst (se_bind c f s)) = true -> is_ok (fst (c s)) = true.
Proof. unfold se_bind. by destruct (c s) as [[] ?]. Qed.
Lemma faulty_work i {A} (body : store -> db -> result (A * db)) s :
  s_closed s = false -> s_failed s = None ->
  broken_connection i s
  \/ (exists m, io_fault i = Some (FaultCommit m)) /\ is_ok (fst (transaction (faultless i) body s)) = true ->
  exists e m, transaction i body s = (Err e, set_failed m s).
Proof. intros Hc Hf H. destruct (faulty_transaction i body s Hc Hf H) as (e & m & ->). eauto. Qed.
Lemma faulty_read i {A} (body : store -> db -> result (A * db)) s :
  s_closed s = false -> s_failed s = None -> broken_connection i s ->
  exists e m, connection i body s = (Err e, set_failed m s).
Proof. intros Hc Hf H. destruct (faulty_connection i body s Hc Hf H) as (e & m & ->). eauto. Qed.

(** The call that meets the fault fails the store itself. *)
Lemma faulted_call c s r s1 :
  s_closed s = false -> s_failed s = None -> meets_fault c s -> run_call c s = (r, s1) ->
  (is_ok r = true -> answers_failed c = true) /\ s_db s1 = s_db s /\ s_failed s1 <> None.
Proof.
  intros Hc Hf (Hreach & i & Hi & H) Hrun.
  assert (K : broken_connection i s
    \/ (commits_work c = true /\ (exists m, io_fault i = Some (FaultCommit m))
        /\ is_ok (fst (run_call (without_fault c) s)) = true)
    \/ (reports c = true /\ io_writable i = false)) by (unfold broken_connection; tauto). clear H.
  assert (D : (exists e m, run_call c s = (Err e, set_failed m s))
              \/ exists m, answers_failed c = true /\ run_call c s = (Ok tt, set_failed m s)).
  2: { destruct D as [(e & m & E)|(m & Ha & E)]; rewrite E in Hrun; injection Hrun as <- <-; by split_and!. }
  clear Hrun r s1.
  assert (Kr : commits_work c = false -> reports c = false -> broken_connection i s)
    by (intros H1 H2; destruct K as [?|[[? _]|[? _]]]; [done|congruence..]).
  assert (Kh : reports c = true -> commits_work c = false -> broken_connection i s \/ io_writable i = false)
    by (intros H1 H2; destruct K as [?|[[? _]|[_ ?]]]; [by left|congruence|by right]).
  assert (Kw : commits_work c = true -> reports c = false -> broken_connection i s
      \/ (exists m, io_fault i = Some (FaultCommit m)) /\ is_ok (fst (run_call (without_fault c) s)) = true)
    by (intros H1 H2; destruct K as [?|[[_ ?]|[? _]]]; [by left|by right|congruence]).
  destruct c; simpl in Hi; try discriminate Hi; injection Hi as ->; simpl in *;
    try specialize (Kr eq_refl eq_refl); try specialize (Kh eq_refl eq_refl); try specialize (Kw eq_refl eq_refl).
  - left. by apply failing_bind, faulty_read.
  - left. by apply failing_bind, faulty_read.
  - left. apply failing_bind, faulty_work; [done..|]. destruct Kw as [?|[? Hok]]; [by left|right].
    split; [done|]. by apply bound_ok in Hok.
  - left. by apply faulty_work.
  - left. unfold outcome in *. destruct (encode_opt rec); [|done]. by apply faulty_work.
  - left. apply failing_bind, failing_bind, faulty_work; [done..|]. destruct Kw as [?|[? Hok]]; [by left|right].
    split; [done|]. by apply bound_ok, bound_ok in Hok.
  - left. unfold require_ready, se_bind. destruct (faulty_health i s Hc Hf Kh) as (e & m & ->). simpl. eauto.
  - left. by apply failing_bind, faulty_read.
  - left. by apply faulty_work.
  - left. by apply faulty_work.
  - right. unfold ignore, se_bind. destruct (faulty_health i s Hc Hf Kh) as (e & m & ->). simpl. eauto.
Qed.

(** C32 Fail-stop storage.  When an SQLite or OS error meets a call of an open
    journal (a connection, pragma, statement or commit fails, the file is no
    longer this journal, or a report finds it not writable), that call refuses and
    commits nothing; and from then on, whatever calls follow in whatever order and
    whatever their own storage does, the journal never changes, the failure is
    never cleared and every call refuses.  Only [health], which then reports the
    journal blocked, and [close] answer; only a restart goes on. *)
Theorem storage_failure_is_final c s r s1 later rs s2 :
  s_closed s = false -> s_failed s = None -> meets_fault c s ->
  run_call c s = (r, s1) -> run_calls later s1 = (rs, s2) ->
  s_db s2 = s_db s /\ s_failed s2 <> None
  /\ Forall2 (fun c r => is_ok r = true -> answers_failed c = true) (c :: later) (r :: rs).
Proof.
  intros Hc Hf Hm Hrun Hlater. destruct (faulted_call c s r s1 Hc Hf Hm Hrun) as (R & D & F).
  apply failed_calls in Hlater as (D2 & F2 & R2); [|done]. split_and!; [congruence|done|by constructor].
Qed.

(** A review whose commit fails, on a disk that has recovered by the next call. *)
Lemma storage_failure_is_final_witness :
  let failing := CReview {| io_fault := Some (FaultCommit "disk I/O error"); io_now := 2; io_writable := true |} (io_ok 2) in
  let later := [CReview (io_ok 3) (io_ok 3); CHealth (io_ok 4); CRequireReady (io_ok 5)] in
  let '(r, s1) := run_call failing demo_proc in
  let '(rs, s2) := run_calls later s1 in
  s_db s2 = s_db demo_proc /\ map is_ok (r :: rs) = [false; false; true; false]
  /\ is_ok (fst (run_call (CReview (io_ok 3) (io_ok 3)) demo_proc)) = true.
Proof.
  intros failing later. destruct (run_call failing demo_proc) as [r s1] eqn:E1.
  destruct (run_calls later s1) as [rs s2] eqn:E2.
  assert (Hm : meets_fault failing demo_proc).
  { split; [reflexivity|]. eexists. split; [reflexivity|]. right. right. right. left.
    split; [eexists; reflexivity|]. split; [reflexivity|]. vm_compute. reflexivity. }
  destruct (storage_failure_is_final failing demo_proc r s1 later rs s2 eq_refl eq_refl Hm E1 E2) as (D & _ & _).
  split; [exact D|]. split; [|vm_compute; reflexivity].
  assert (Er : r = fst (run_call failing demo_proc)) by (rewrite E1; reflexivity).
  assert (Es : s1 = snd (run_call failing demo_proc)) by (rewrite E1; reflexivity).
  assert (Ers : rs = fst (run_calls later s1)) by (rewrite E2; reflexivity).
  rewrite Ers, Er, Es. vm_compute. reflexivity.
Defined.

(** The report of a failed store says so. *)
Example failed_report :
  let s := snd (run_call (CLookup {| io_fault := Some (FaultOpen "disk I/O error"); io_now := 2; io_writable := true |} "x")
                 demo_proc) in
  match fst (health (io_ok 3) s) with Ok h => h_blocking_reasons h | Err _ => [] end = ["STORAGE_FAILED"].
Proof. vm_compute. reflexivity. Qed.

(** After a start nothing is in flight: every operation found [DISPATCHING]
    has become an unknown outcome that blocks admission until it is recovered,
    every other operation is unchanged, and the process has not yet reviewed. *)
Theorem startup_recovers_dispatches i env epoch wait create d s file' id r :
  open_store i env epoch wait create (Some d) = (Ok s, file') ->
  operations (migrate d) !! id = Some r ->
  file' = Some (s_db s) /\ s_reviewed s = false /\
  (state r = DISPATCHING ->
     (id, "RECOVERED_DISPATCH") ∈ review_requirements (s_db s) /\
     exists q, operations (s_db s) !! id = Some q /\ ident q = ident r
       /\ state q = UNKNOWN_OUTCOME /\ disposition q = "POSSIBLY_SENT") /\
  (state r <> DISPATCHING -> operations (s_db s) !! id = Some r).
Proof.
  intros Ho Hr. apply open_store_cases in Ho as [[? _]|(d0 & s0 & -> & [= <-] & -> & _ & _ & -> & _ & Hs)]; [done|].
  pose proof (startup_rows _ _ _ id Hs) as L. simpl in Hs, L. rewrite Hr in L. simpl in L.
  split_and!; [done|done| |].
  - intros Hd. split.
    + unfold startup in Hs. case_match; [done|]. injection Hs as <-. apply require_where_mono.
      apply (require_where_elem is_dispatching _ {| operations := operations (migrate d) |} id r Hr).
      by apply bool_decide_eq_true.
    + eexists. split; [exact L|]. unfold row_recovered. by rewrite bool_decide_eq_true_2.
  - intros Hd. rewrite L. unfold row_recovered. by rewrite bool_decide_eq_false_2.
Qed.

Lemma startup_recovers_dispatches_witness :
  exists s file' r,
    open_store demo_start "SIMULATE" "e2" 5000 false (Some (the_file demo_machine)) = (Ok s, file')
    /\ operations (migrate (the_file demo_machine)) !! "op-1" = Some r
    /\ ("op-1", "RECOVERED_DISPATCH") ∈ review_requirements (s_db s).
Proof.
  eexists _, _, _. split_and!; [by vm_compute|by vm_compute|].
  eapply (startup_recovers_dispatches demo_start "SIMULATE" "e2" 5000 false (the_file demo_machine));
    by vm_compute.
Defined.

Lemma insert_operation_inv r d d' :
  insert_operation r d = Ok d' ->
  account (ident r) <> "0" /\ d' = with_operations <[operation_id (ident r) := r]> d.
Proof.
  unfold insert_operation. case_bool_decide; [done|].
  destruct (negb _); [done|]. destruct (match order_tag _ with Some _ => _ | None => _ end); [done|].
  destruct (operations d !! _); [done|]. by intros [= <-].
Qed.

(** [admit_] is idempotent on its token: an operation already in the journal
    is returned as it is, for any parameters, and nothing is written; a new one
    is written as [ADMITTED], unmarked, under the current epoch, with exactly the
    identity and request given. *)
Theorem admit_result i tag id epoch acc k canon req s v b s' :
  admit_ i tag id epoch acc k canon req s = (Ok (v, b), s') ->
  (b = false /\ row_view id (s_db s) = Some v /\ s_db s' = s_db s) \/
  (b = true /\ operations (s_db s) !! id = None /\ epoch = s_epoch s /\ s_reviewed s = true
   /\ acc <> 0
   /\ exists body n, json_dumps (VDict req) = Ok body
      /\ v_row v = fresh_row id epoch acc k canon body tag (io_now i) n
      /\ operations (s_db s') = <[id := v_row v]> (operations (s_db s))).
Proof.
  intros H. pose proof H as Hn. apply transaction_cases in H
    as [[_ ?]|[(? & _ & ?)|([] & d & Heq & -> & H & _)]]; try done.
  injection Heq as <- <-. destruct (row_view id (s_db s)) as [w|] eqn:Hw; [by left; simplify_eq|].
  right. case_match; [done|]. case_match; [done|]. apply bind_ok in H as (body & Hb & H).
  apply bind_ok in H as (d1 & Hi & H). case_match eqn:Hv; [|done]. simplify_eq.
  apply admit_new in Hn as (-> & Hrev & _ & Hnone). split_and!; try done.
  - intros ->. by apply insert_operation_inv in Hi as [? _].
  - apply insert_operation_inv in Hi as [_ Hd].
    subst d. unfold row_view in Hv. simpl in Hv. rewrite lookup_insert_eq in Hv. simplify_eq.
    exists body, (1 + Z.of_nat (size (operations (s_db s)))). done.
Qed.

Lemma admit_result_witness :
  let r := admit_ (io_ok 3) "tag-9" "op-1" "other" 8 CANCEL VNone [] (the_proc demo_machine) in
  exists v s', r = (Ok (v, false), s') /\ s_db s' = s_db (the_proc demo_machine).
Proof.
  eexists _, _. split; [by vm_compute|].
  destruct (admit_result (io_ok 3) "tag-9" "op-1" "other" 8 CANCEL VNone [] (the_proc demo_machine)
    _ false _ eq_refl) as [(_ & _ & H)|(H & _)]; [exact H|discriminate].
Defined.

(** Recovery is atomic and stale-proof: [record_recovery] either leaves the
    journal as it was, or finds the row still in the state it was computed from
    and appends exactly one check; with a resolution it also appends one audit
    entry, gives the row its disposition and lifts the requirements of that
    operation and of no other; rows of other operations never change. *)
Theorem record_recovery_result i id obs started completed out details next res rec facts s r s' :
  record_recovery i id obs started completed out details next res rec facts s = (r, s') ->
  (s_db s' = s_db s /\ is_ok r = false) \/
  exists row row' c, r = Ok tt
    /\ operations (s_db s) !! id = Some row /\ state row = obs
    /\ operations (s_db s') = <[id := row']> (operations (s_db s)) /\ ident row' = ident row
    /\ recovery_checks (s_db s') = (recovery_checks (s_db s) ++ [c])%list
    /\ c_operation_id c = id /\ c_outcome c = out
    /\ match res with
       | None => state row' = state row /\ recovery_disposition row' = recovery_disposition row
                 /\ review_requirements (s_db s') = review_requirements (s_db s)
                 /\ recovery_audit (s_db s') = recovery_audit (s_db s)
       | Some why => recovery_disposition row' = Some why
                 /\ (forall k reason, (k, reason) ∈ review_requirements (s_db s') <->
                       k <> id /\ (k, reason) ∈ review_requirements (s_db s))
                 /\ exists a, recovery_audit (s_db s') = (recovery_audit (s_db s) ++ [a])%list
       end.
Proof.
  intros H. apply record_cases in H
    as [?|(row & c & ev & Hrow & Hs & Hc & Ho & _ & -> & Hcase)]; [by left|right].
  assert (Ha : forall f, alter f id (operations (s_db s)) = <[id := f row]> (operations (s_db s))).
  { intros f. apply map_eq. intros k. rewrite lookup_alter. case_decide as E.
    - subst. by rewrite Hrow, lookup_insert_eq.
    - by rewrite lookup_insert_ne. }
  destruct Hcase as [[-> ->]|(why & v & st & disp & a & rec' & oid & ost & -> & _ & _ & _ & ->)].
  - exists row, (row_checked ev next (io_now i) row), c. split_and!; try done. apply Ha.
  - exists row, (row_resolved st disp why rec' oid ost (row_checked ev next (io_now i) row)), c.
    split_and!; try done.
    + simpl. rewrite Ha. rewrite alter_insert. by case_decide.
    + intros k reason. simpl. rewrite elem_of_filter. naive_solver.
    + exists a. done.
Qed.

Lemma record_recovery_result_witness :
  let s := the_proc (foldl after demo_machine (firstn 5 demo_recovery)) in
  let run := record_recovery (io_ok 50) "op-1" UNKNOWN_OUTCOME 50 50 "NOT_FOUND" [] 60
               (Some ASSUMED_ABSENT) None None s in
  is_ok (fst run) = true /\
  exists row', operations (s_db (snd run)) = <["op-1" := row']> (operations (s_db s))
    /\ recovery_disposition row' = Some ASSUMED_ABSENT.
Proof.
  set (s := the_proc _).
  set (run := record_recovery (io_ok 50) "op-1" UNKNOWN_OUTCOME 50 50 "NOT_FOUND" [] 60
               (Some ASSUMED_ABSENT) None None s).
  assert (Hok : is_ok run.1 = true) by (by vm_compute).
  split; [exact Hok|].
  destruct (record_recovery_result (io_ok 50) "op-1" UNKNOWN_OUTCOME 50 50 "NOT_FOUND" [] 60
    (Some ASSUMED_ABSENT) None None s run.1 run.2) as [[_ H]|(row & row' & c & H)].
  - exact (surjective_pairing run).
  - exact (False_ind _ (eq_true_false_abs _ Hok H)).
  - exists row'. destruct H as (_ & _ & _ & H & _ & _ & _ & _ & Hr & _). split; [exact H|exact Hr].
Defined.

(** [health] reports READY exactly when the process has reviewed and works:
    storage is writable and has not failed, and no operation requires review. *)
Theorem health_ready i s :
  (exists h s', health i s = (Ok h, s') /\ h_state h = READY) <->
  io_writable i = true /\ s_closed s = false /\ s_failed s = None
  /\ (forall m, io_fault i <> Some (FaultOpen m))
  /\ user_version (s_db s) = SCHEMA_VERSION /\ metadata (s_db s) = [s_environment s]
  /\ s_reviewed s = true /\ review_requirements (s_db s) = ∅.
Proof.
  assert (Hrep : h_state (report s (s_db s)) = READY <->
            s_reviewed s = true /\ review_requirements (s_db s) = ∅).
  { unfold report. simpl. split.
    - case_match; [done|]. case_match eqn:E; [done|]. intros _. by bools.
    - intros [-> ->]. by rewrite !bool_decide_eq_true_2. }
  unfold health, se_try. split.
  - intros (h & s' & H & Hh). destruct (io_writable i); simpl in H; [|by simplify_eq].
    destruct (connection i _ s) as [[a|e] s1] eqn:E; [|destruct e; by simplify_eq].
    pose proof E as E'. apply connection_cases in E' as [[_ ?]|[(? & _ & ?)|
      (? & d & Ha & -> & Hb & ? & ? & ? & ?)]]; try done. simplify_eq.
    apply Hrep in Hh as [? ?]. split_and!; try done.
    intros m Hm. unfold connection in E. rewrite Hm in E. by repeat case_match.
  - intros (-> & Hc & Hf & Hio & Hv & Hm & Hr). apply Hrep in Hr. simpl. unfold connection.
    rewrite Hc, Hf, Hv, Hm, Z.eqb_refl, bool_decide_eq_true_2 by done. simpl.
    destruct (io_fault i) as [[m|m]|]; [by destruct (Hio m)| |]; eauto.
Qed.
