(* ===== verification/Validation.v ===== *)
(** services/validation.py: dates, choices and the numeric checks every order
    passes before anything reaches the gateway. *)

From Stdlib Require Import SpecFloat.
From S2P Require Import Prelude PyStr PyFloat PyDec PyVal.

(** ** Dates *)

(** A proleptic Gregorian date, and its ordinal ([date.toordinal]). *)
Record date : Type := { year : Z; month : Z; day : Z }.

Definition leap (y : Z) : bool :=
  (y mod 4 =? 0) && (negb (y mod 100 =? 0) || (y mod 400 =? 0)).
Definition month_days (y m : Z) : Z :=
  if m =? 2 then (if leap y then 29 else 28)
  else if (m =? 4) || (m =? 6) || (m =? 9) || (m =? 11) then 30 else 31.
Fixpoint month_offset (y : Z) (m : nat) : Z :=
  match m with
  | O => 0
  | S m' => month_offset y m' + month_days y (Z.of_nat m)
  end.
Definition ordinal (d : date) : Z :=
  let y := year d - 1 in
  365 * y + y / 4 - y / 100 + y / 400
  + month_offset (year d) (Z.to_nat (month d - 1)) + day d.

Definition date_exists (d : date) : bool :=
  in_range 1 9999 (year d) && in_range 1 12 (month d)
  && in_range 1 (month_days (year d) (month d)) (day d).

(** [a < b] on dates: by year, then month, then day. *)
Definition date_ltb (a b : date) : bool :=
  (year a <? year b)
  || ((year a =? year b)
      && ((month a <? month b) || ((month a =? month b) && (day a <? day b)))).

(** The digits strptime's [%m] and [%d] accept: one or two, and for [%d] a
    space in place of the leading zero. *)
Definition field2 (spaced : bool) (s : string) : option Z :=
  match chars_of s with
  | [c] => if is_decimal c then Some (char_digit c) else None
  | [c; d] =>
      if is_decimal d then
        if is_decimal c then Some (char_digit c * 10 + char_digit d)
        else if spaced && Ascii.eqb c " " then Some (char_digit d) else None
      else None
  | _ => None
  end.

(** [datetime.strptime(s, "%Y-%m-%d").date()]; [None] is [ValueError]. *)
Definition strptime_date (s : string) : option date :=
  match split "-" s with
  | [y; m; d] =>
      if isdecimal y && (len y =? 4) then
        mm ← field2 false m; dd ← field2 true d;
        let r := {| year := int_of y; month := mm; day := dd |} in
        if date_exists r then Some r else None
      else None
  | _ => None
  end.

(** [parse_date] *)
Definition parse_date (value : val) : result date :=
  match value with
  | VStr s => match strptime_date (strip s) with
              | Some d => Ok d
              | None => Err (ValueError "must be a date in 'YYYY-MM-DD' format")
              end
  | _ => Err (ValueError "must be a 'YYYY-MM-DD' string")
  end.

Definition parse_optional_date (v : val) : result (option date) :=
  if is_none v then Ok None else bind (parse_date v) (fun d => Ok (Some d)).

(** [validate_date_range] *)
Definition validate_date_range (start stop : val) (max_span_days : option Z)
    : result (option date * option date) :=
  (a <- parse_optional_date start ;;
   b <- parse_optional_date stop ;;
   _ <- match a, b with
        | Some a, Some b =>
            _ <- refuse_if (date_ltb b a) (ValueError "the range is empty") ;;
            match max_span_days with
            | Some n => refuse_if (n <? ordinal b - ordinal a) (ValueError "The requested range spans")
            | None => Ok tt
            end
        | _, _ => Ok tt
        end ;;
   Ok (a, b))%py.

(** [validate_choice] *)
Definition validate_choice (value : val) (allowed : list string) : result string :=
  match value with
  | VStr s => let c := upper (strip s) in
              if mem c allowed then Ok c else Err (ValueError "must be one of")
  | _ => Err (ValueError "must be one of")
  end.

(** ** Order types *)

Definition FIXED_LIMIT_TYPES : list string :=
  ["NORMAL"; "ABSOLUTE_LIMIT"; "SPECIAL_LIMIT"; "SPECIAL_LIMIT_ALL"; "AUCTION_LIMIT";
   "STOP_LIMIT"; "LIMIT_IF_TOUCHED"].
Definition NO_FIXED_LIMIT_TYPES : list string :=
  ["MARKET"; "AUCTION"; "STOP"; "MARKET_IF_TOUCHED"; "TRAILING_STOP"; "TRAILING_STOP_LIMIT"].
Definition STOP_ORDER_TYPES : list string :=
  ["STOP"; "STOP_LIMIT"; "MARKET_IF_TOUCHED"; "LIMIT_IF_TOUCHED"].
Definition TRAILING_ORDER_TYPES : list string := ["TRAILING_STOP"; "TRAILING_STOP_LIMIT"].

(** [str(v).strip().upper()], compared with names only: the text of a float, a
    list or a dict is none of them and is left out. *)
Definition named (v : val) : string := upper (strip (default "" (str_scalar v))).

(** ** Numbers *)

(** [isinstance(v, (int, float))] and not a bool, as [float(v)]. *)
Definition as_float (v : val) (bad : exn) : result float :=
  match v with
  | VInt z => f_of_Z z
  | VFloat f => Ok f
  | _ => Err bad
  end.

(** [_finite_non_negative] *)
Definition _finite_non_negative (value : val) : result float :=
  (number <- as_float value (ValueError "must be a number") ;;
   _ <- refuse_if (negb (is_finite number)) (ValueError "must be a finite number") ;;
   _ <- refuse_if (f_lt number f_zero) (ValueError "must not be negative") ;;
   Ok number)%py.

Definition check_optional (v : val) : result (option float) :=
  if is_none v then Ok None else bind (_finite_non_negative v) (fun f => Ok (Some f)).

Definition check_qty (qty : val) : result unit :=
  match qty with
  | VNone => Ok tt
  | VInt z => refuse_if (z <=? 0) (ValueError "qty must be greater than 0")
  | _ => Err (ValueError "qty must be a positive integer")
  end.

Definition check_combo_price (v : val) : result unit :=
  if is_none v then Ok tt
  else bind (as_float v (ValueError "price must be a number"))
            (fun f => refuse_if (negb (is_finite f)) (ValueError "price must be a finite number")).

(** [validate_order_values] *)
Definition validate_order_values (order_type qty price aux_price trail_value trail_spread combo_price : val)
    : result unit :=
  (_ <- check_qty qty ;;
   checked_price <- check_optional price ;;
   _ <- check_optional aux_price ;;
   _ <- check_optional trail_value ;;
   _ <- check_optional trail_spread ;;
   _ <- check_combo_price combo_price ;;
   refuse_if (match checked_price with
              | Some p => mem (named order_type) FIXED_LIMIT_TYPES && f_le p f_zero
              | None => false
              end) (ValueError "is a limit order type and needs a price greater than 0"))%py.

(** [validate_required_order_fields] *)
Definition validate_required_order_fields (order_type aux_price trail_type trail_value : val) : result unit :=
  (_ <- refuse_if (mem (named order_type) STOP_ORDER_TYPES && is_none aux_price)
          (ValueError "aux_price is required for stop/if-touched order types") ;;
   refuse_if (mem (named order_type) TRAILING_ORDER_TYPES
              && (is_none trail_type || is_none trail_value))
     (ValueError "trail_type and trail_value are required for trailing stop order types"))%py.

(** [validate_single_order_request] *)
Definition validate_single_order_request (params : dict) : result unit :=
  (ot <- ditem "order_type" params ;;
   qty <- ditem "qty" params ;;
   price <- ditem "price" params ;;
   _ <- validate_order_values ot qty price (dget_none "aux_price" params)
          (dget_none "trail_value" params) (dget_none "trail_spread" params) VNone ;;
   validate_required_order_fields ot (dget_none "aux_price" params)
     (dget_none "trail_type" params) (dget_none "trail_value" params))%py.

(** One positive ASCII decimal order identifier. *)
Definition positive_order_id (v : val) : bool :=
  match v with
  | VStr s => isascii s && isdecimal s && (0 <? int_of s)
  | _ => false
  end.

(** [validate_real_request] *)
Definition validate_real_request (method : string) (params : dict) : result unit :=
  if bool_decide (method = "place_order") then
    (price <- ditem "price" params ;;
     _ <- refuse_if (is_str price) (ValueError "REAL price must be numeric") ;;
     validate_single_order_request params)%py
  else if bool_decide (method = "place_combo_order") then
    (ot <- ditem "order_type" params ;;
     qty <- ditem "qty" params ;;
     price <- ditem "price" params ;;
     validate_order_values ot qty VNone VNone VNone VNone price)%py
  else if mem method ["modify_order"; "cancel_order"] then
    (_ <- refuse_if (negb (positive_order_id (dget_none "order_id" params)))
            (ValueError "REAL mutation must name one positive decimal order ID") ;;
     if bool_decide (method = "modify_order") then
       op <- ditem "modify_order_op" params ;;
       _ <- refuse_if (negb (mem (named op) ["NORMAL"; "CANCEL"; "DISABLE"; "ENABLE"; "DELETE"]))
              (ValueError "Unsupported REAL modification operation") ;;
       validate_order_values (VStr "")
         (if mem (named op) ["NORMAL"; "ENABLE"] then dget_none "qty" params else VNone)
         (dget_none "price" params) VNone VNone VNone VNone
     else Ok tt)%py
  else Ok tt.

(** ** What an accepted order is *)

(** A value some order field may hold: absent, or a finite number not below
    zero ([nan] in particular is refused). *)
Definition good_number (v : val) : Prop :=
  v = VNone \/
  exists f, as_float v AssertionError = Ok f /\ is_finite f = true /\ f_lt f f_zero = false.

Definition good_combo_price (v : val) : Prop :=
  v = VNone \/ exists f, as_float v AssertionError = Ok f /\ is_finite f = true.

Definition good_qty (v : val) : Prop := v = VNone \/ exists z, v = VInt z /\ 0 < z.

Lemma as_float_exn v e e' f : as_float v e = Ok f <-> as_float v e' = Ok f.
Proof. by destruct v. Qed.

Lemma check_optional_ok v o :
  check_optional v = Ok o <->
  (v = VNone /\ o = None) \/
  exists f, o = Some f /\ as_float v AssertionError = Ok f /\ is_finite f = true /\ f_lt f f_zero = false.
Proof.
  unfold check_optional, _finite_non_negative. destruct (is_none v) eqn:E.
  - destruct v; try done. split; [intros [= <-]; by left|]. intros [[_ ->]|(f & _ & H & _)]; [done|discriminate].
  - split.
    + intros H. right. repeat ok_step. bools.
      exists x. rewrite (as_float_exn v _ (ValueError "must be a number")). eauto.
    + intros [[-> ->]|(f & -> & H & Hf & Hl)]; [done|].
      rewrite (as_float_exn v _ (ValueError "must be a number")) in H. rewrite H. simpl.
      by rewrite Hf, Hl.
Qed.

Lemma check_optional_good v : (exists o, check_optional v = Ok o) <-> good_number v.
Proof.
  unfold good_number. split.
  - intros (o & H). apply check_optional_ok in H as [[? _]|(f & _ & ?)]; eauto.
  - intros [->|(f & H)]; [by exists None|]. exists (Some f). apply check_optional_ok. eauto.
Qed.

Lemma check_qty_ok v : check_qty v = Ok tt <-> good_qty v.
Proof.
  unfold good_qty. destruct v; simpl; rewrite ?refuse_if_ok, ?Z.leb_gt;
    (split; [|by naive_solver]); intros; naive_solver.
Qed.

Lemma check_combo_price_ok v : check_combo_price v = Ok tt <-> good_combo_price v.
Proof.
  unfold check_combo_price, good_combo_price. destruct (is_none v) eqn:E.
  - destruct v; try done. split; auto.
  - rewrite bind_ok. split.
    + intros (f & H & Hf%refuse_if_ok). bools. right. exists f. split; [|done].
      by eapply as_float_exn.
    + intros [->|(f & H & Hf)]; [done|]. exists f. split; [by eapply as_float_exn|].
      apply refuse_if_ok. by rewrite Hf.
Qed.

Lemma f_not_le_zero f : is_finite f = true -> f_le f f_zero = negb (f_lt f_zero f).
Proof. by destruct f as [[]| | |[]]. Qed.

(** The numeric gate accepts exactly the orders whose quantity is a positive
    integer (no [bool]), whose prices, trigger and trails are finite and not
    negative, whose combo price is finite, and, for a limit order type with a
    price, whose price is above zero: no [nan] and no infinity gets past it. *)
Theorem order_values_accepted order_type qty price aux_price trail_value trail_spread combo_price :
  validate_order_values order_type qty price aux_price trail_value trail_spread combo_price = Ok tt <->
  good_qty qty /\ good_number price /\ good_number aux_price /\ good_number trail_value
  /\ good_number trail_spread /\ good_combo_price combo_price
  /\ (mem (named order_type) FIXED_LIMIT_TYPES = true ->
      forall f, as_float price AssertionError = Ok f -> f_lt f_zero f = true).
Proof.
  unfold validate_order_values. rewrite <-check_qty_ok, <-check_combo_price_ok, <-!check_optional_good.
  split.
  - intros H. apply bind_ok in H as ([] & Hq & H). apply bind_ok in H as (p & Hp & H).
    apply bind_ok in H as (a & Ha & H). apply bind_ok in H as (tv & Htv & H).
    apply bind_ok in H as (ts & Hts & H). apply bind_ok in H as ([] & Hc & H%refuse_if_ok).
    split_and!; eauto. intros Hm f Hf.
    apply check_optional_ok in Hp as [[-> ->]|(f' & -> & Hf' & Hfin & _)]; [done|].
    rewrite Hf in Hf'. injection Hf' as <-. rewrite Hm, f_not_le_zero in H by done. simpl in H. by bools.
  - intros (Hq & [p Hp] & [a Ha] & [tv Htv] & [ts Hts] & Hc & Hpos).
    rewrite Hq, Hp, Ha, Htv, Hts, Hc. simpl. apply refuse_if_ok.
    apply check_optional_ok in Hp as [[-> ->]|(f & -> & Hf & Hfin & _)]; [done|].
    destruct (mem _ _) eqn:Hm; [|done]. by rewrite f_not_le_zero, (Hpos eq_refl f Hf).
Qed.

(** ** Dates and their ordinals *)

Lemma month_days_pos y m : 28 <= month_days y m.
Proof. unfold month_days. repeat case_match; lia. Qed.

Lemma month_offset_next y m : 0 <= m ->
  month_offset y (Z.to_nat (m + 1)) = month_offset y (Z.to_nat m) + month_days y (m + 1).
Proof.
  intros H. replace (Z.to_nat (m + 1)) with (S (Z.to_nat m)) by lia. simpl.
  do 2 f_equal. lia.
Qed.

Lemma month_offset_mono y m k : 0 <= m -> 0 <= k ->
  month_offset y (Z.to_nat m) <= month_offset y (Z.to_nat (m + k)).
Proof.
  intros Hm Hk. revert Hk. apply (natlike_ind (fun k => _ <= month_offset y (Z.to_nat (m + k)))).
  - rewrite Z.add_0_r. lia.
  - intros j Hj IH. unfold Z.succ. rewrite Z.add_assoc, month_offset_next by lia.
    pose proof (month_days_pos y (m + j + 1)). lia.
Qed.

Lemma year_length y : month_offset y 12 = 365 + Z.b2z (leap y).
Proof. unfold month_offset, month_days; simpl. destruct (leap y); simpl; lia. Qed.

Lemma leap_count y :
  Z.b2z (leap y) = (y / 4 - (y - 1) / 4) - (y / 100 - (y - 1) / 100) + (y / 400 - (y - 1) / 400).
Proof.
  unfold leap. destruct (Z.eqb_spec (y mod 4) 0), (Z.eqb_spec (y mod 100) 0), (Z.eqb_spec (y mod 400) 0);
    simpl; Z.to_euclidean_division_equations; lia.
Qed.

(** Days before the year [y + 1]. *)
Definition days_through (y : Z) : Z := 365 * y + y / 4 - y / 100 + y / 400.

Lemma days_through_step y : days_through y = days_through (y - 1) + month_offset y 12.
Proof. rewrite year_length, leap_count. unfold days_through. lia. Qed.

Lemma days_through_mono y z : y <= z -> days_through y <= days_through z.
Proof. intros H. unfold days_through. Z.to_euclidean_division_equations; lia. Qed.

Lemma date_exists_ok d :
  date_exists d = true ->
  1 <= month d <= 12 /\ 1 <= day d <= month_days (year d) (month d).
Proof. unfold date_exists, in_range. intros; bools. lia. Qed.

(** Where a date falls in its year. *)
Lemma ordinal_in_year d :
  date_exists d = true -> days_through (year d - 1) < ordinal d <= days_through (year d).
Proof.
  intros H%date_exists_ok. rewrite (days_through_step (year d)).
  pose proof (month_offset_mono (year d) 0 (month d - 1) ltac:(lia) ltac:(lia)) as H0.
  pose proof (month_offset_mono (year d) (month d) (12 - month d) ltac:(lia) ltac:(lia)) as H12.
  pose proof (month_offset_next (year d) (month d - 1) ltac:(lia)) as Hn.
  replace (month d - 1 + 1) with (month d) in Hn by lia.
  replace (month d + (12 - month d)) with 12 in H12 by lia.
  replace (0 + (month d - 1)) with (month d - 1) in H0 by lia.
  change (Z.to_nat 12) with 12%nat in H12. change (month_offset (year d) (Z.to_nat 0)) with 0 in H0.
  unfold ordinal. fold (days_through (year d - 1)) in *. unfold days_through in *. lia.
Qed.

Lemma ordinal_lt a b :
  date_exists a = true -> date_exists b = true -> date_ltb a b = true -> ordinal a < ordinal b.
Proof.
  intros Ha Hb H. pose proof (ordinal_in_year a Ha). pose proof (ordinal_in_year b Hb).
  unfold date_ltb in H. apply orb_true_iff in H as [H|[Hy H]%andb_true_iff]; bools.
  - pose proof (days_through_mono (year a) (year b - 1) ltac:(lia)). lia.
  - apply date_exists_ok in Ha, Hb. apply orb_true_iff in H as [H|[Hm H]%andb_true_iff]; bools.
    + pose proof (month_offset_next (year a) (month a - 1) ltac:(lia)) as Hn.
      replace (month a - 1 + 1) with (month a) in Hn by lia.
      pose proof (month_offset_mono (year a) (month a) (month b - 1 - month a) ltac:(lia) ltac:(lia)) as Hm.
      replace (month a + (month b - 1 - month a)) with (month b - 1) in Hm by lia.
      unfold ordinal. rewrite <-Hy. lia.
    + unfold ordinal. rewrite <-Hy, <-Hm. lia.
Qed.

Lemma date_ltb_total a b : date_ltb a b = false -> date_ltb b a = true \/ a = b.
Proof.
  unfold date_ltb. intros H. bools. destruct a as [y m d], b as [y' m' d']; simpl in *.
  destruct (Z.eqb_spec y y') as [->|]; simpl in *.
  - bools. destruct (Z.eqb_spec m m') as [->|]; simpl in *; bools.
    + destruct (Z.eq_dec d d') as [->|]; [by right|left].
      rewrite Z.ltb_irrefl, !Z.eqb_refl, Z.ltb_irrefl. simpl. apply Z.ltb_lt. lia.
    + left. rewrite Z.eqb_refl, (proj2 (Z.ltb_lt m' m)) by lia. by rewrite orb_true_r.
  - left. by rewrite (proj2 (Z.ltb_lt y' y)) by lia.
Qed.

Lemma strptime_date_exists s d : strptime_date s = Some d -> date_exists d = true.
Proof.
  unfold strptime_date. repeat (case_match; try done).
  destruct (field2 false _); simpl; [|done]. destruct (field2 true _); simpl; [|done].
  case_match; [|done]. by intros [= <-].
Qed.

Lemma parse_optional_date_exists v o d :
  parse_optional_date v = Ok o -> o = Some d -> date_exists d = true.
Proof.
  unfold parse_optional_date, parse_date. case_match; [by intros [= <-]|].
  intros Hp ->. ok_inv. repeat case_match; try done. ok_inv. by eapply strptime_date_exists.
Qed.

(** A validated range is what the provider accepts: both ends are real
    calendar dates, start does not come after end in the calendar, and the span
    in days is between 0 and the limit; a longer range is refused, never cut. *)
Theorem date_range_bounded start stop max_span a b :
  validate_date_range start stop (Some max_span) = Ok (Some a, Some b) ->
  date_exists a = true /\ date_exists b = true /\ date_ltb b a = false
  /\ 0 <= ordinal b - ordinal a <= max_span.
Proof.
  unfold validate_date_range. intros H. apply bind_ok in H as (oa & Ha & H).
  apply bind_ok in H as (ob & Hb & H). apply bind_ok in H as ([] & Hc & [= -> ->]).
  apply bind_ok in Hc as ([] & Hlt%refuse_if_ok & Hs%refuse_if_ok). bools.
  pose proof (parse_optional_date_exists _ _ a Ha eq_refl) as Ea.
  pose proof (parse_optional_date_exists _ _ b Hb eq_refl) as Eb.
  split_and!; try done.
  destruct (date_ltb_total b a Hlt) as [H| ->]; [|lia].
  pose proof (ordinal_lt a b Ea Eb H). lia.
Qed.

Lemma date_range_bounded_witness :
  exists a b,
    validate_date_range (VStr "2024-02-01") (VStr "2024-3-1") (Some 30) = Ok (Some a, Some b)
    /\ ordinal b - ordinal a = 29 /\ 0 <= ordinal b - ordinal a <= 30.
Proof.
  eexists _, _. split_and!; [by vm_compute|by vm_compute| |];
    eapply (date_range_bounded (VStr "2024-02-01") (VStr "2024-3-1") 30); by vm_compute.
Defined.
