(* ===== verification/Policy.v ===== *)
(** services/trading_policy.py: the deployment's trading mode, its limits, and
    the pure assessment of one order against them. *)

From Stdlib Require Import SpecFloat.
From S2P Require Import Prelude PyStr PyFloat PyDec PyVal Validation.

Inductive TradingMode : Set := READ_ONLY | SIMULATE | REAL.
#[export] Instance mode_eq_dec : EqDecision TradingMode.
Proof. solve_decision. Defined.

Definition _WRITABLE_ENVIRONMENTS (m : TradingMode) : list string :=
  match m with
  | READ_ONLY => []
  | SIMULATE => ["SIMULATE"]
  | REAL => ["SIMULATE"; "REAL"]
  end.

Definition VERIFIED_MARKET_CURRENCIES : list (string * string) := [("US", "USD")].
Definition EQUITY_CLASSIFICATIONS : list string := ["STOCK"; "ETF"].
Definition OPTION_CLASSIFICATION : string := "DRVT".

(** [dict.get] on a table of strings. *)
Fixpoint sget {A} (k : string) (d : list (string * A)) : option A :=
  match d with
  | [] => None
  | (k', v) :: d => if bool_decide (k = k') then Some v else sget k d
  end.

(** ** Parsing limits *)

Definition config_error (msg : string) {A} : result A := Err (TradingModeConfigError msg).

(** [_require_positive_finite] *)
Definition _require_positive_finite (value : float) : result float :=
  if negb (is_finite value) || f_le value f_zero
  then config_error "must be a finite number greater than 0"
  else Ok value.

Definition currency_code (c : string) : bool := (len c =? 3) && isalpha c.

(** One pass of the loop of [_parse_notional_caps]. *)
Definition parse_cap_entry (caps : gmap string float) (chunk : string) : result (gmap string float) :=
  let entry := strip chunk in
  if negb (nonempty entry) then Ok caps
  else
    let '(cur, found, amount) := partition ":" entry in
    let currency := upper (strip cur) in
    if negb found then config_error "has no currency"
    else if negb (currency_code currency) then config_error "is not a three-letter currency code"
    else match caps !! currency with
    | Some _ => config_error "appears more than once"
    | None =>
        match f_parse (strip amount) with
        | None => config_error "is not a number"
        | Some parsed => bind (_require_positive_finite parsed) (fun v => Ok (<[currency := v]> caps))
        end
    end.

Fixpoint foldM {A B} (f : B -> A -> result B) (b : B) (l : list A) : result B :=
  match l with
  | [] => Ok b
  | a :: l => bind (f b a) (fun b' => foldM f b' l)
  end.

(** [_parse_notional_caps] *)
Definition _parse_notional_caps (raw : string) : result (gmap string float) :=
  (caps <- foldM parse_cap_entry ∅ (split "," raw) ;;
   _ <- refuse_if (bool_decide (caps = ∅)) (TradingModeConfigError "is set but holds no cap") ;;
   Ok caps)%py.

(** [int(entry)] for an entry [str.isdigit] accepts: a superscript digit is a
    digit and not a decimal, and [int] refuses it. *)
Definition int_digits (s : string) : result Z :=
  if isdecimal s then Ok (int_of s) else Err (ValueError "invalid literal for int() with base 10").

Definition parse_acc_entry (ids : gset Z) (chunk : string) : result (gset Z) :=
  let entry := strip chunk in
  if negb (nonempty entry) then Ok ids
  else if negb (isdigit entry) then config_error "is not a decimal account identifier"
  else bind (int_digits entry) (fun n => Ok ({[n]} ∪ ids)).

(** [_parse_real_acc_ids] *)
Definition _parse_real_acc_ids (raw : string) : result (gset Z) :=
  (ids <- foldM parse_acc_entry ∅ (split "," raw) ;;
   _ <- refuse_if (bool_decide (ids = ∅)) (TradingModeConfigError "is set but names no account") ;;
   Ok ids)%py.

(** [currency_for_code] *)
Definition currency_for_code (code : string) : option string :=
  let '(market, dot, _) := partition "." code in
  if negb (nonempty code) || negb dot then None
  else sget (upper (strip market)) VERIFIED_MARKET_CURRENCIES.

(** ** The facts of an order *)

Record InstrumentFacts : Type := {
  i_code : string; classification : option string; monetary_multiplier : option float;
  contract_size : option float; last_price : option float; bid_price : option float;
  ask_price : option float; i_currency : option string; lot_size : option float }.

Definition option_list {A} (o : option A) : list A := match o with Some a => [a] | None => [] end.

(** [market_reference] *)
Definition market_reference (i : InstrumentFacts) : option float :=
  match (option_list (last_price i) ++ option_list (bid_price i) ++ option_list (ask_price i))%list with
  | [] => None
  | x :: l => Some (f_max x l)
  end.

Record LegFacts : Type := { instrument : InstrumentFacts; qty_ratio : Z }.

Record OrderFacts : Type := {
  order_type : string; trd_side : string; qty : Z; legs : list LegFacts;
  price : option float; aux_price : option float; is_combo : bool }.

(** [largest_leg_qty] *)
Definition zmax (x : Z) (l : list Z) : Z := fold_left Z.max l x.
Definition largest_leg_qty (f : OrderFacts) : Z :=
  qty f * match map qty_ratio (legs f) with [] => 1 | r :: rs => zmax r rs end.

(** ** The policy *)

Record TradingPolicy : Type := {
  mode : TradingMode; max_order_qty : option float; max_order_notional : gmap string float;
  real_acc_ids : gset Z; symbol_allowlist : gset string;
  max_daily_notional : gmap string float; require_approval : bool }.

(** Validate and normalize a table of caps given in code ([ascii_only] for the
    daily table). *)
Definition check_cap (ascii_only : bool) (validated : gmap string float) (kv : string * float)
    : result (gmap string float) :=
  let code := upper (strip kv.1) in
  if negb (currency_code code) || (ascii_only && negb (isascii code))
  then config_error "invalid currency"
  else match validated !! code with
  | Some _ => config_error "A currency can have only one cap."
  | None => bind (_require_positive_finite kv.2) (fun v => Ok (<[code := v]> validated))
  end.

Definition symbol_ok (code : string) : bool :=
  let '(a, dot, b) := partition "." code in
  isascii code && dot && nonempty a && nonempty b && negb (has_space code).

(** [__post_init__] *)
Definition make_policy (m : TradingMode) (q : option float) (notional : gmap string float)
    (accs : gset Z) (symbols : gset string) (daily : gmap string float) (approval : bool)
    : result TradingPolicy :=
  (_ <- match q with Some q => bind (_require_positive_finite q) (fun _ => Ok tt) | None => Ok tt end ;;
   caps <- foldM (check_cap false) ∅ (map_to_list notional) ;;
   dcaps <- foldM (check_cap true) ∅ (map_to_list daily) ;;
   _ <- refuse_if (negb (forallb symbol_ok (elements symbols)))
          (TradingModeConfigError "use exact market codes") ;;
   Ok {| mode := m; max_order_qty := q; max_order_notional := caps; real_acc_ids := accs;
         symbol_allowlist := symbols; max_daily_notional := dcaps; require_approval := approval |})%py.

Definition environ := gmap string string.
Definition get_or (k dflt : string) (env : environ) : string := default dflt (env !! k).

Definition parse_mode (raw : option string) : result TradingMode :=
  match raw with
  | None => Ok READ_ONLY
  | Some r =>
      if negb (nonempty (strip r)) then Ok READ_ONLY
      else let c := upper (strip r) in
           if bool_decide (c = "READ_ONLY") then Ok READ_ONLY
           else if bool_decide (c = "SIMULATE") then Ok SIMULATE
           else if bool_decide (c = "REAL") then Ok REAL
           else config_error "which is not a trading mode"
  end.

Definition parse_qty_limit (raw : option string) : result (option float) :=
  match raw with
  | None => Ok None
  | Some r =>
      if negb (nonempty (strip r)) then Ok None
      else match f_parse (strip r) with
           | None => config_error "must be a positive number"
           | Some q => bind (_require_positive_finite q) (fun _ => Ok (Some q))
           end
  end.

(** [from_env] *)
Definition from_env (env : environ) : result TradingPolicy :=
  (m <- parse_mode (env !! "MOOMOO_TRADING_MODE") ;;
   q <- parse_qty_limit (env !! "MOOMOO_MAX_ORDER_QTY") ;;
   let raw0 := get_or "MOOMOO_MAX_ORDER_NOTIONAL_BY_CURRENCY" "" env in
   let raw1 := strip (if nonempty raw0 then raw0 else "USD:500") in
   let raw_by_currency := if nonempty raw1 then raw1 else "USD:500" in
   caps <- (if bool_decide (upper raw_by_currency = "NONE") then Ok ∅
            else _parse_notional_caps raw_by_currency) ;;
   let raw_acc_ids := strip (get_or "MOOMOO_REAL_ACC_IDS" "" env) in
   accs <- (if bool_decide (m = REAL)
            then _ <- refuse_if (negb (nonempty raw_acc_ids)) (TradingModeConfigError "is required") ;;
                 _parse_real_acc_ids raw_acc_ids
            else Ok ∅) ;;
   symbols <- match env !! "MOOMOO_SYMBOL_ALLOWLIST" with
              | Some raw =>
                  let parts := map strip (split "," raw) in
                  _ <- refuse_if (negb (forallb nonempty parts)) (TradingModeConfigError "must not be empty") ;;
                  Ok (list_to_set parts : gset string)
              | None => Ok ∅
              end ;;
   daily <- match env !! "MOOMOO_MAX_DAILY_NOTIONAL_BY_CURRENCY" with
            | Some raw => _parse_notional_caps raw
            | None => Ok ∅
            end ;;
   let approval := strip (get_or "MOOMOO_REQUIRE_TRADE_APPROVAL" "0" env) in
   _ <- refuse_if (negb (mem approval ["0"; "1"])) (TradingModeConfigError "must be 0 or 1") ;;
   make_policy m q caps accs symbols daily (bool_decide (approval = "1")))%py.

(** [check_write]; [trd_env] is compared after [strip] and [upper]. *)
Definition check_write (p : TradingPolicy) (trd_env : string) : result unit :=
  if mem (upper (strip trd_env)) (_WRITABLE_ENVIRONMENTS (mode p)) then Ok tt
  else Err (TradingPolicyError "is not permitted").

(** [check_unlock] *)
Definition check_unlock (p : TradingPolicy) : result unit :=
  if bool_decide (mode p = REAL) then Ok tt
  else Err (TradingPolicyError "only REAL mode may unlock trading").

(** ** Valuation *)

Definition rejected (msg : string) {A} : result A := Err (TradingPolicyError msg).

(** [_instrument_currency]: an empty currency counts as none. *)
Definition _instrument_currency (i : InstrumentFacts) : result string :=
  let fallback := currency_for_code (i_code i) in
  match (match i_currency i with Some c => if nonempty c then Some c else fallback | None => fallback end) with
  | Some c => Ok c
  | None => rejected "cannot establish the currency"
  end.

Definition f_one : float := f_round_Z 1.

(** [_monetary_multiplier] *)
Definition _monetary_multiplier (i : InstrumentFacts) : result float :=
  match classification i with
  | None => rejected "classification could not be established"
  | Some c =>
      if mem c EQUITY_CLASSIFICATIONS then Ok f_one
      else if bool_decide (c = OPTION_CLASSIFICATION) then
        match monetary_multiplier i with
        | None => rejected "no verified monetary multiplier"
        | Some m => Ok m
        end
      else rejected "which this server does not value"
  end.

(** [_require_market_reference] *)
Definition _require_market_reference (reference : option float) : result float :=
  match reference with Some r => Ok r | None => rejected "no usable market price" end.

Definition positive_candidates (l : list (option float)) : list float :=
  List.filter (fun x => f_gt x f_zero) (concat (map option_list l)).

(** [_reference_price]; [facts.legs[0]] on no legs is [IndexError], which the
    callers rule out. *)
Definition _reference_price (facts : OrderFacts) (i : InstrumentFacts) : result float :=
  let type := upper (strip (order_type facts)) in
  let side := upper (strip (trd_side facts)) in
  let reference := market_reference i in
  if mem type FIXED_LIMIT_TYPES then
    match price facts with
    | Some p =>
        if f_le p f_zero then rejected "its value is measured at its limit price"
        else if bool_decide (side = "BUY") then Ok p
        else bind (_require_market_reference reference) (fun m => Ok (f_max p [m]))
    | None => rejected "its value is measured at its limit price"
    end
  else if mem type NO_FIXED_LIMIT_TYPES then
    bind (_require_market_reference reference)
      (fun m => Ok (f_max m (positive_candidates [aux_price facts; price facts])))
  else rejected "is not classified as either a fixed-limit or a no-fixed-limit type".

(** [a * n] for a float and an int: the int is converted first. *)
Definition f_mul_Z (a : float) (n : Z) : result float :=
  bind (f_of_Z n) (fun m => Ok (f_mul a m)).

(** [_assess_single_leg] *)
Definition _assess_single_leg (facts : OrderFacts) : result (float * string) :=
  match legs facts with
  | [] => rejected "no instrument facts"
  | leg :: _ =>
      let i := instrument leg in
      (currency <- _instrument_currency i ;;
       multiplier <- _monetary_multiplier i ;;
       reference <- _reference_price facts i ;;
       total <- f_mul_Z reference (qty facts) ;;
       Ok (f_mul total multiplier, currency))%py
  end.

(** One leg of the loop of [_assess_combo_premium]. *)
Definition combo_leg (leg : LegFacts) : result (string * float * option float) :=
  let i := instrument leg in
  (_ <- refuse_if (negb (bool_decide (classification i = Some OPTION_CLASSIFICATION)))
          (TradingPolicyError "a combo priced as a package premium must be options only") ;;
   currency <- _instrument_currency i ;;
   multiplier <- _monetary_multiplier i ;;
   Ok (currency, multiplier, contract_size i))%py.

(** [len(set(values)) > 1] under an equality test. *)
Definition differ {A} (eqb : A -> A -> bool) (l : list A) : bool :=
  match l with [] => false | x :: l => existsb (fun y => negb (eqb x y)) l end.

Definition opt_f_eqb (x y : option float) : bool :=
  match x, y with
  | Some a, Some b => f_eq a b
  | None, None => true
  | _, _ => false
  end.

(** [_assess_combo_premium]: premium, currency, and the multiplier all legs share. *)
Definition _assess_combo_premium (facts : OrderFacts) : result (float * string) :=
  if negb (mem (upper (strip (order_type facts))) FIXED_LIMIT_TYPES)
  then rejected "has no fixed net limit price"
  else match legs facts with
  | [] => rejected "no instrument facts"
  | _ =>
      match price facts with
      | None => rejected "net price is required"
      | Some p =>
          (infos <- mapM combo_leg (legs facts) ;;
           _ <- refuse_if (differ (fun a b => bool_decide (a = b)) (map (fun x => x.1.1) infos))
                  (TradingPolicyError "more than one currency") ;;
           _ <- refuse_if (differ f_eq (map (fun x => x.1.2) infos))
                  (TradingPolicyError "differing monetary multipliers") ;;
           _ <- refuse_if (differ opt_f_eqb (map snd infos))
                  (TradingPolicyError "differing contract sizes") ;;
           match infos with
           | (currency, multiplier, _) :: _ =>
               total <- f_mul_Z (f_abs p) (qty facts) ;;
               Ok (f_mul total multiplier, currency)
           | [] => rejected "no instrument facts"
           end)%py
      end
  end.

Definition order_value (facts : OrderFacts) : result (float * string) :=
  if is_combo facts then _assess_combo_premium facts else _assess_single_leg facts.

(** [z > f] for an int and a float, exactly. *)
Definition Z_gt_float (z : Z) (f : float) : bool :=
  match f with
  | S754_nan => false
  | S754_infinity s => s
  | S754_zero _ => 0 <? z
  | S754_finite s m e =>
      let n := if s then Z.neg m else Z.pos m in
      let k := Z.min 0 e in n * 2 ^ (e - k) <? z * 2 ^ (- k)
  end.

Definition code_of (leg : LegFacts) : string := i_code (instrument leg).

(** [assess_order] *)
Definition assess_order (p : TradingPolicy) (facts : OrderFacts) : result unit :=
  (_ <- refuse_if (negb (bool_decide (symbol_allowlist p = ∅))
                   && negb (forallb (fun l => bool_decide (code_of l ∈ symbol_allowlist p)) (legs facts)))
          (TradingPolicyError "is outside the symbol allowlist") ;;
   _ <- refuse_if (match max_order_qty p with
                   | Some q => Z_gt_float (largest_leg_qty facts) q
                   | None => false
                   end) (TradingPolicyError "exceeds the configured maximum") ;;
   if bool_decide (max_order_notional p = ∅) then Ok tt
   else
     let! (value, currency) := order_value facts in
     match max_order_notional p !! currency with
     | None => rejected "has no configured cap"
     | Some cap => refuse_if (f_gt value cap) (TradingPolicyError "exceeds the configured maximum")
     end)%py.

(** ** Exact estimates *)

Definition decimal_digits (d : decimal) : Z := match d with DFin d => d_digits d | _ => 1 end.

(** A product of decimals: [nan] and infinities as Python multiplies them. *)
Definition decimal_mul (prec : Z) (x y : decimal) : result decimal :=
  match x, y with
  | DFin a, DFin b => Ok (DFin (d_mul prec a b))
  | DNan, _ | _, DNan => Ok DNan
  | DInf s, DInf s' => Ok (DInf (xorb s s'))
  | DInf s, DFin d | DFin d, DInf s =>
      if d_coef d =? 0 then Err InvalidOperation else Ok (DInf (xorb s (d_neg d)))
  end.

Definition decimal_abs (d : decimal) : decimal :=
  match d with DFin d => DFin (d_fix 28 (d_abs d)) | DInf _ => DInf false | DNan => DNan end.

Record estimate : Type := { amount : dec; e_currency : string }.

(** [estimate_order]: the amount is rendered with [format(value, "f")]. *)
Definition estimate_order (facts : OrderFacts) : result estimate :=
  match legs facts with
  | [] => if is_combo facts then rejected "no instrument facts" else Err (RuntimeError "IndexError")
  | leg :: _ =>
      let i := instrument leg in
      (let! (price, currency, multiplier) :=
         (if is_combo facts
          then let! (_, currency) := _assess_combo_premium facts in
               multiplier <- _monetary_multiplier i ;;
               match price facts with
               | Some p => Ok (decimal_abs (d_of_float p), currency, multiplier)
               | None => rejected "net price is required"
               end
          else currency <- _instrument_currency i ;;
               multiplier <- _monetary_multiplier i ;;
               reference <- _reference_price facts i ;;
               Ok (d_of_float reference, currency, multiplier)) in
       let quantity := d_of_Z (qty facts) in
       let mult := d_of_float multiplier in
       let prec := Z.max 28 (decimal_digits price + d_digits quantity + decimal_digits mult) in
       x <- decimal_mul prec price (DFin quantity) ;;
       value <- decimal_mul prec x mult ;;
       match value with
       | DFin v => if d_ltb v d_zero then rejected "valuation is invalid"
                   else Ok {| amount := v; e_currency := currency |}
       | _ => rejected "valuation is invalid"
       end)%py
  end.

(** ** A normalized policy and normalized facts *)

(** What [make_policy] guarantees of every limit, and [normalize_quote] of
    every quoted number. *)
Definition caps_ok (m : gmap string float) : Prop :=
  map_Forall (fun c f => currency_code c = true /\ f_positive f = true) m.

Record policy_ok (p : TradingPolicy) : Prop := {
  ok_qty : forall q, max_order_qty p = Some q -> f_positive q = true;
  ok_notional : caps_ok (max_order_notional p);
  ok_daily : caps_ok (max_daily_notional p);
  ok_symbols : forall c, c ∈ symbol_allowlist p -> symbol_ok c = true }.

Definition quote_ok (o : option float) : Prop := forall f, o = Some f -> f_positive f = true.

Definition instrument_ok (i : InstrumentFacts) : Prop :=
  quote_ok (monetary_multiplier i) /\ quote_ok (last_price i) /\ quote_ok (bid_price i)
  /\ quote_ok (ask_price i).

Record facts_ok (f : OrderFacts) : Prop := {
  ok_amount : 0 < qty f;
  ok_price : forall p, price f = Some p -> is_finite p = true;
  ok_aux : forall p, aux_price f = Some p -> is_finite p = true;
  ok_legs : Forall (fun l => instrument_ok (instrument l)) (legs f) }.

Lemma require_positive_ok f v : _require_positive_finite f = Ok v -> v = f /\ f_positive f = true.
Proof.
  unfold _require_positive_finite, config_error. case_match; [done|]. intros [= <-]. bools.
  split; [done|by apply f_not_le_positive].
Qed.

Lemma foldM_invariant {A B} (P : B -> Prop) (f : B -> A -> result B) l b b' :
  (forall b a b', P b -> f b a = Ok b' -> P b') -> P b -> foldM f b l = Ok b' -> P b'.
Proof.
  intros Hf. revert b; induction l as [|a l IH]; intros b Hb; simpl; [by intros [= <-]|].
  intros H. apply bind_ok in H as (b1 & H1 & H). eauto.
Qed.

Lemma caps_insert c f m : caps_ok m -> currency_code c = true -> f_positive f = true -> caps_ok (<[c := f]> m).
Proof. intros Hm Hc Hf. by apply map_Forall_insert_2. Qed.

Lemma parse_caps_ok raw caps : _parse_notional_caps raw = Ok caps -> caps_ok caps /\ caps <> ∅.
Proof.
  unfold _parse_notional_caps. intros H. apply bind_ok in H as (m & Hm & H).
  apply bind_ok in H as ([] & Hr%refuse_if_ok & [= <-]). bools. split; [|done].
  revert Hm. apply foldM_invariant; [|apply map_Forall_empty]. clear.
  intros m chunk m' Hm. unfold parse_cap_entry, config_error.
  case_match; [by intros [= <-]|]. destruct (partition _ _) as [[cur found] amount].
  case_match; [done|]. case_match eqn:Hc; [done|]. case_match; [done|]. case_match; [|done].
  intros H'. apply bind_ok in H' as (v & [-> Hv]%require_positive_ok & [= <-]). bools.
  by apply caps_insert.
Qed.

Lemma check_caps_ok b l m : foldM (check_cap b) ∅ l = Ok m -> caps_ok m.
Proof.
  apply foldM_invariant; [|apply map_Forall_empty]. clear.
  intros m kv m' Hm. unfold check_cap, config_error. case_match eqn:Hc; [done|]. case_match; [done|].
  intros H'. apply bind_ok in H' as (v & [-> Hv]%require_positive_ok & [= <-]). bools.
  by apply caps_insert.
Qed.

Lemma make_policy_ok m q n a s d r p :
  make_policy m q n a s d r = Ok p ->
  policy_ok p /\ mode p = m /\ real_acc_ids p = a /\ symbol_allowlist p = s /\ require_approval p = r.
Proof.
  unfold make_policy. intros H. apply bind_ok in H as ([] & Hq & H).
  apply bind_ok in H as (caps & Hc & H). apply bind_ok in H as (dcaps & Hd & H).
  apply bind_ok in H as ([] & Hs%refuse_if_ok & [= <-]). bools. split; [|done]. split; simpl.
  - intros x ->. by apply bind_ok in Hq as (v & [_ ?]%require_positive_ok & _).
  - by eapply check_caps_ok.
  - by eapply check_caps_ok.
  - intros c Hin. rewrite forallb_forall in Hs. apply Hs, list_elem_of_In, elem_of_elements, Hin.
Qed.

Lemma from_env_parts env p :
  from_env env = Ok p ->
  policy_ok p /\ parse_mode (env !! "MOOMOO_TRADING_MODE") = Ok (mode p) /\
  (if bool_decide (mode p = REAL) then real_acc_ids p <> ∅ else real_acc_ids p = ∅).
Proof.
  unfold from_env. intros H. apply bind_ok in H as (m & Hm & H). apply bind_ok in H as (q & _ & H).
  apply bind_ok in H as (caps & _ & H). apply bind_ok in H as (accs & Ha & H).
  apply bind_ok in H as (syms & _ & H). apply bind_ok in H as (daily & _ & H).
  apply bind_ok in H as ([] & _ & H). apply make_policy_ok in H as (Hok & -> & -> & _).
  split_and!; [done|done|]. case_bool_decide; [|by injection Ha as <-].
  apply bind_ok in Ha as ([] & _ & Ha). unfold _parse_real_acc_ids in Ha.
  apply bind_ok in Ha as (ids & _ & Ha). apply bind_ok in Ha as ([] & Hr%refuse_if_ok & [= <-]). by bools.
Qed.

(** A policy read from the environment is usable or refused: every limit is
    finite and above zero under a three-letter currency (no [nan] switches a cap
    off), allowlisted symbols are exact market codes, REAL mode names at least
    one account and any other mode none; and an environment without a mode gives
    a policy that permits no write at all. *)
Theorem from_env_safe env p :
  from_env env = Ok p ->
  policy_ok p /\ (mode p = REAL <-> real_acc_ids p <> ∅)
  /\ (env !! "MOOMOO_TRADING_MODE" = None -> forall e, is_ok (check_write p e) = false).
Proof.
  intros (Hok & Hm & Ha)%from_env_parts. split_and!; [done| |].
  - case_bool_decide; split; congruence.
  - intros Hn e. rewrite Hn in Hm. simpl in Hm. injection Hm as Hm.
    unfold check_write. by rewrite <-Hm.
Qed.

Definition demo_env : environ :=
  list_to_map [("MOOMOO_TRADING_MODE", " real "); ("MOOMOO_REAL_ACC_IDS", "281, 282");
               ("MOOMOO_MAX_ORDER_NOTIONAL_BY_CURRENCY", "USD:2500,HKD:1e4")].

Lemma from_env_safe_witness :
  exists p, from_env demo_env = Ok p /\ mode p = REAL /\ policy_ok p.
Proof.
  eexists. split_and!; [by vm_compute|done|].
  apply (from_env_safe demo_env). by vm_compute.
Defined.

(** The write gate by mode: READ_ONLY writes nowhere, SIMULATE only to the
    simulated environment, REAL to both, and an unknown environment is always
    refused; only REAL may unlock. *)
Theorem write_gate p e :
  (check_write p e = Ok tt <->
     (upper (strip e) = "SIMULATE" /\ mode p <> READ_ONLY)
     \/ (upper (strip e) = "REAL" /\ mode p = REAL))
  /\ (check_unlock p = Ok tt <-> mode p = REAL).
Proof.
  split; unfold check_write, check_unlock.
  - unfold mem, _WRITABLE_ENVIRONMENTS. destruct (mode p); case_bool_decide as H;
      rewrite ?elem_of_cons, ?elem_of_nil in H; naive_solver.
  - by case_bool_decide.
Qed.

(** ** The assessment *)

Lemma option_list_ok o : quote_ok o -> Forall (fun y => f_positive y = true) (option_list o).
Proof. intros H. destruct o; simpl; [|constructor]. constructor; [by apply H|constructor]. Qed.

Lemma market_reference_ok i r :
  instrument_ok i -> market_reference i = Some r -> f_positive r = true.
Proof.
  intros (_ & Hl & Hb & Ha). unfold market_reference.
  assert (Hall : Forall (fun y => f_positive y = true)
            (option_list (last_price i) ++ option_list (bid_price i) ++ option_list (ask_price i))).
  { rewrite !Forall_app. split_and!; by apply option_list_ok. }
  destruct (_ ++ _)%list as [|x l]; [done|]. intros [= <-].
  apply Forall_cons in Hall as [Hx Hl']. by apply f_max_positive.
Qed.

Lemma f_gt_zero_positive x : is_finite x = true -> f_gt x f_zero = true -> f_positive x = true.
Proof. by destruct x as [[]| | |[]]. Qed.

Lemma candidate_ok o :
  (forall p, o = Some p -> is_finite p = true) ->
  Forall (fun y => f_positive y = true) (List.filter (fun x => f_gt x f_zero) (option_list o)).
Proof.
  intros H. destruct o as [x|]; simpl; [|constructor].
  destruct (f_gt x f_zero) eqn:E; constructor; [|constructor]. apply f_gt_zero_positive; eauto.
Qed.

Lemma reference_price_ok facts i r :
  facts_ok facts -> instrument_ok i -> _reference_price facts i = Ok r -> f_positive r = true.
Proof.
  intros [_ Hp Ha _] Hi. unfold _reference_price, rejected, _require_market_reference.
  case_match; [|case_match; [|done]].
  - destruct (price facts) as [p|] eqn:E; [|done]. case_match eqn:Hle; [done|].
    assert (Hpos : f_positive p = true) by (apply f_not_le_positive; eauto).
    case_match; [by intros [= <-]|].
    destruct (market_reference i) eqn:Em; cbn [bind]; [|done]. intros [= <-].
    apply (f_max_positive p [_]); [done|]. constructor; [by eapply market_reference_ok|constructor].
  - destruct (market_reference i) eqn:Em; cbn [bind]; [|done]. intros [= <-].
    apply f_max_positive; [by eapply market_reference_ok|].
    unfold positive_candidates. simpl. rewrite !List.filter_app, app_nil_r.
    apply Forall_app. split; apply candidate_ok; eauto.
Qed.

Lemma f_one_positive : f_positive f_one = true.
Proof. by vm_compute. Qed.

Lemma multiplier_ok i m : instrument_ok i -> _monetary_multiplier i = Ok m -> f_positive m = true.
Proof.
  intros (Hm & _). unfold _monetary_multiplier, rejected. repeat case_match; try done; intros [= <-].
  - apply f_one_positive.
  - by apply Hm.
Qed.

Lemma value_nonneg x n m t :
  f_nonneg x = true -> is_finite x = true -> 0 < n -> f_positive m = true ->
  f_mul_Z x n = Ok t -> f_nonneg (f_mul t m) = true.
Proof.
  unfold f_mul_Z. intros Hx Hf Hn Hm H. apply bind_ok in H as (q & Hq & [= <-]).
  apply f_of_Z_nonneg in Hq as [Hq Hqf]; [|lia].
  destruct (f_positive_nonneg m Hm) as [Hm' Hmf].
  apply f_mul_nonneg; [|done|done|by right]. apply f_mul_nonneg; auto.
Qed.

Lemma combo_leg_multiplier l c m s : combo_leg l = Ok (c, m, s) -> _monetary_multiplier (instrument l) = Ok m.
Proof.
  unfold combo_leg. intros H. apply bind_ok in H as ([] & _ & H). apply bind_ok in H as (c' & _ & H).
  by apply bind_ok in H as (m' & ? & [= <- <- <-]).
Qed.

(** The value the caps are compared with is a number, never [nan]. *)
Lemma order_value_nonneg facts v c :
  facts_ok facts -> order_value facts = Ok (v, c) -> f_nonneg v = true.
Proof.
  intros Hf. pose proof Hf as [Hq Hp _ Hl]. unfold order_value. case_match.
  - unfold _assess_combo_premium, rejected. case_match; [done|].
    destruct (legs facts) as [|leg ls] eqn:El; [done|].
    destruct (price facts) as [p|] eqn:Ep; [|done]. intros H'.
    apply bind_ok in H' as (infos & Hi & H'). do 3 (apply bind_ok in H' as ([] & _ & H')).
    simpl in Hi. apply bind_ok in Hi as ([[c' m] s] & Hleg & Hi).
    apply bind_ok in Hi as (bs & _ & [= <-]). apply bind_ok in H' as (t & Ht & [= <- <-]).
    apply combo_leg_multiplier in Hleg. apply Forall_cons in Hl as [Hleg' _].
    specialize (Hp p eq_refl).
    eapply value_nonneg; [| |done|by eapply multiplier_ok|exact Ht]; by destruct p as [[]| | |[]].
  - unfold _assess_single_leg, rejected. destruct (legs facts) as [|leg ls] eqn:El; [done|].
    intros H'. apply Forall_cons in Hl as [Hleg _].
    apply bind_ok in H' as (cur & _ & H'). apply bind_ok in H' as (m & Hm & H').
    apply bind_ok in H' as (r & Hr & H'). apply bind_ok in H' as (t & Ht & [= <- <-]).
    apply reference_price_ok in Hr; [|done|done].
    destruct (f_positive_nonneg r Hr) as [Hr1 Hr2].
    eapply value_nonneg; [done|done|done|by eapply multiplier_ok|exact Ht].
Qed.

(** An assessed order is inside every configured limit: its symbols are
    allowlisted, its largest leg does not exceed the quantity limit, and, when any
    currency cap is set, its value was computed, its currency has a cap, and the
    value is at most the cap, which excludes [nan]. *)
Theorem assess_order_sound p facts :
  policy_ok p -> facts_ok facts -> assess_order p facts = Ok tt ->
  (symbol_allowlist p <> ∅ -> Forall (fun l => code_of l ∈ symbol_allowlist p) (legs facts))
  /\ (forall q, max_order_qty p = Some q -> Z_gt_float (largest_leg_qty facts) q = false)
  /\ (max_order_notional p <> ∅ ->
      exists v c cap, order_value facts = Ok (v, c) /\ max_order_notional p !! c = Some cap
        /\ f_le v cap = true).
Proof.
  intros Hp Hf H. unfold assess_order, rejected in H.
  apply bind_ok in H as ([] & Hs%refuse_if_ok & H). apply bind_ok in H as ([] & Hq%refuse_if_ok & H).
  split_and!.
  - intros Hne. apply andb_false_iff in Hs as [Hs|Hs]; [by bools|]. bools.
    rewrite forallb_forall in Hs. apply Forall_forall. intros l Hl%list_elem_of_In.
    by apply Hs, bool_decide_eq_true in Hl.
  - intros q E. by rewrite E in Hq.
  - intros Hne. rewrite bool_decide_eq_false_2 in H by done.
    apply bind_ok in H as ([v c] & Hv & H).
    destruct (max_order_notional p !! c) as [cap|] eqn:Hc; [|done].
    apply refuse_if_ok in H. exists v, c, cap. split_and!; try done.
    apply f_le_not_gt; [|apply f_positive_not_nan|done].
    + apply f_nonneg_not_nan. by eapply order_value_nonneg.
    + by destruct (ok_notional p Hp c cap Hc).
Qed.

Definition demo_instrument : InstrumentFacts :=
  {| i_code := "US.AAPL"; classification := Some "STOCK"; monetary_multiplier := None;
     contract_size := None; last_price := Some (f_lit "199.5"); bid_price := None;
     ask_price := Some (f_lit "199.6"); i_currency := None; lot_size := None |}.
Definition demo_order (side : string) : OrderFacts :=
  {| order_type := "NORMAL"; trd_side := side; qty := 12; price := Some (f_lit "200.25");
     legs := [{| instrument := demo_instrument; qty_ratio := 1 |}]; aux_price := None;
     is_combo := false |}.
Definition demo_policy : TradingPolicy :=
  match from_env demo_env with
  | Ok p => p
  | Err _ => {| mode := READ_ONLY; max_order_qty := None; max_order_notional := ∅; real_acc_ids := ∅;
                symbol_allowlist := ∅; max_daily_notional := ∅; require_approval := false |}
  end.

Lemma demo_policy_ok : policy_ok demo_policy.
Proof. apply (from_env_parts demo_env). by vm_compute. Qed.

Lemma quote_some_ok f : f_positive f = true -> quote_ok (Some f).
Proof. by intros H g [= <-]. Qed.
Lemma quote_none_ok : quote_ok None.
Proof. done. Qed.

Lemma demo_order_ok side : facts_ok (demo_order side).
Proof.
  split; [done| |done|].
  - intros p H. change (price (demo_order side)) with (Some (f_lit "200.25")) in H.
    apply (inj Some) in H as <-. by vm_compute.
  - apply Forall_singleton. split; [apply quote_none_ok|].
    split; [apply quote_some_ok; by vm_compute|].
    split; [apply quote_none_ok|apply quote_some_ok; by vm_compute].
Qed.

Lemma assess_order_sound_witness :
  assess_order demo_policy (demo_order "BUY") = Ok tt /\
  exists v c cap, order_value (demo_order "BUY") = Ok (v, c)
    /\ max_order_notional demo_policy !! c = Some cap /\ f_le v cap = true.
Proof.
  assert (H : assess_order demo_policy (demo_order "BUY") = Ok tt) by (by vm_compute).
  split; [exact H|].
  apply (assess_order_sound demo_policy (demo_order "BUY")); [apply demo_policy_ok|apply demo_order_ok|exact H|].
  intros E. apply (f_equal (fun m => m !! "USD")) in E. vm_compute in E. discriminate.
Defined.

(** What has to be established about an instrument before it can be valued. *)
Definition priceable (facts : OrderFacts) (i : InstrumentFacts) : Prop :=
  is_ok (_instrument_currency i) = true
  /\ (classification i = Some "STOCK" \/ classification i = Some "ETF"
      \/ (classification i = Some "DRVT" /\ monetary_multiplier i <> None))
  /\ ((exists p, price facts = Some p /\ mem (upper (strip (order_type facts))) FIXED_LIMIT_TYPES = true
                 /\ f_le p f_zero = false
                 /\ (upper (strip (trd_side facts)) = "BUY" \/ market_reference i <> None))
      \/ (mem (upper (strip (order_type facts))) NO_FIXED_LIMIT_TYPES = true /\ market_reference i <> None)).

(** The caps fail closed: while a currency cap is configured, a single-leg
    order passes only if its currency, its classification, its multiplier and the
    price reference its type and side need are all established. *)
Theorem cap_fails_closed p facts :
  max_order_notional p <> ∅ -> is_combo facts = false -> assess_order p facts = Ok tt ->
  exists leg rest, legs facts = leg :: rest /\ priceable facts (instrument leg).
Proof.
  intros Hne Hc H. unfold assess_order in H. do 2 (apply bind_ok in H as ([] & _ & H)).
  rewrite bool_decide_eq_false_2 in H by done. apply bind_ok in H as ([v c] & Hv & _).
  unfold order_value in Hv. rewrite Hc in Hv. unfold _assess_single_leg, rejected in Hv.
  destruct (legs facts) as [|leg rest]; [done|]. exists leg, rest. split; [done|].
  apply bind_ok in Hv as (cur & Hcur & Hv). apply bind_ok in Hv as (m & Hm & Hv).
  apply bind_ok in Hv as (r & Hr & _). unfold priceable. split_and!.
  - by rewrite Hcur.
  - unfold _monetary_multiplier, rejected in Hm. destruct (classification _) as [cl|]; [|done].
    destruct (mem cl EQUITY_CLASSIFICATIONS) eqn:E.
    + apply bool_decide_eq_true in E. unfold EQUITY_CLASSIFICATIONS in E.
      rewrite !elem_of_cons, elem_of_nil in E. naive_solver.
    + case_bool_decide; [|done]. subst. destruct (monetary_multiplier _); [|done]. right; right. by split.
  - unfold _reference_price, _require_market_reference, rejected in Hr.
    destruct (mem _ FIXED_LIMIT_TYPES) eqn:Ef.
    + left. destruct (price facts) as [pr|]; [|done]. destruct (f_le pr f_zero) eqn:El; [done|].
      exists pr. split_and!; try done. case_bool_decide; [by left|right]. by destruct (market_reference _).
    + right. destruct (mem _ NO_FIXED_LIMIT_TYPES); [|done]. split; [done|]. by destruct (market_reference _).
Qed.

Lemma cap_fails_closed_witness :
  exists leg rest, legs (demo_order "SELL") = leg :: rest
    /\ priceable (demo_order "SELL") (instrument leg).
Proof.
  apply (cap_fails_closed demo_policy (demo_order "SELL")); [|done|by vm_compute].
  intros E. apply (f_equal (fun m => m !! "USD")) in E. vm_compute in E. discriminate.
Defined.

(** ** Estimates *)


(** ** Estimates *)

Lemma scaled_nonneg m e s : 0 <= m ->
  0 <= (if 0 <=? s
        then (if 0 <=? e then (m * 2 ^ e) / 10 ^ s else m / (10 ^ s * 2 ^ (- e)))
        else (if 0 <=? e then m * 2 ^ e * 10 ^ (- s) else (m * 10 ^ (- s)) / 2 ^ (- e))).
Proof.
  intros Hm. destruct (Z.leb_spec 0 s), (Z.leb_spec 0 e);
    repeat first [apply Z.div_pos | apply Z.mul_nonneg_nonneg | apply Z.mul_pos_pos
                 | apply Z.pow_nonneg | apply Z.pow_pos_nonneg | lia].
Qed.

Lemma shortest_nonneg fuel k f m e lg : 0 <= m -> 0 <= fst (shortest fuel k f m e lg).
Proof.
  intros Hm. revert k. induction fuel as [|fuel IH]; intros k; cbn [shortest]; cbv zeta;
    pose proof (scaled_nonneg m e (lg - k + 1) Hm) as Hlo;
    set (lo := if 0 <=? lg - k + 1 then _ else _) in *; clearbody lo;
    repeat (match goal with |- 0 <= fst (if ?b then _ else _) => destruct b end;
            [cbn [fst]; lia|]); [cbn [fst]; lia|apply IH].
Qed.

Lemma strip_zeros_nonneg fuel c s : 0 <= c -> 0 <= fst (strip_zeros fuel c s).
Proof.
  revert c s; induction fuel as [|fuel IH]; intros c s Hc; simpl; [done|].
  case_match; [|done]. apply IH, Z.div_pos; lia.
Qed.

Lemma d_of_float_wf f d : d_of_float f = DFin d -> d_wf d.
Proof.
  destruct f as [|s| |s m e]; cbn [d_of_float]; [by intros [= <-]|done|done|].
  assert (Hc : 0 <= fst (f_shortest m e)).
  { unfold f_shortest. destruct (shortest _ _ _ _ _ _) as [c x] eqn:E.
    apply strip_zeros_nonneg. change c with (fst (c, x)). rewrite <-E. by apply shortest_nonneg. }
  destruct (f_shortest m e) as [c x]. cbn [fst] in Hc.
  destruct ((-4 <? num_digits c + x) && (num_digits c + x <=? 16) && (0 <=? x)) eqn:E;
    intros [= <-]; unfold d_wf; cbn [d_coef]; [|done].
  bools. apply Z.mul_nonneg_nonneg; [done|]. apply Z.pow_nonneg. lia.
Qed.

Lemma d_digits_mul x y s e : d_wf x -> d_wf y ->
  d_digits (Dec s (d_coef x * d_coef y) e) <= d_digits x + d_digits y.
Proof.
  intros Hx Hy. pose proof (d_wf_bound x Hx). pose proof (d_wf_bound y Hy).
  unfold d_digits, d_wf in *; cbn [d_coef].
  pose proof (num_digits_pos _ Hx). pose proof (num_digits_pos _ Hy).
  apply num_digits_le; [nia|lia|]. rewrite Z.pow_add_r by lia. apply Z.mul_lt_mono_nonneg; lia.
Qed.

Lemma d_mul_exact3 prec x y z :
  d_wf x -> d_wf y -> d_wf z -> d_digits x + d_digits y + d_digits z <= prec ->
  d_mul prec (d_mul prec x y) z
  = Dec (xorb (xorb (d_neg x) (d_neg y)) (d_neg z)) (d_coef x * d_coef y * d_coef z)
        (d_exp x + d_exp y + d_exp z).
Proof.
  intros Hx Hy Hz Hp.
  assert (1 <= d_digits z) by (apply num_digits_pos; exact Hz).
  rewrite (d_mul_exact prec x y) by (done || lia).
  apply d_mul_exact; [unfold d_wf in *; cbn [d_coef]; nia|done|].
  pose proof (d_digits_mul x y (xorb (d_neg x) (d_neg y)) (d_exp x + d_exp y) Hx Hy). lia.
Qed.

(** Estimates are exact: the amount reported for a single-leg order is the
    product of the decimal reference price, the quantity and the decimal
    multiplier, digit for digit, in the currency the assessment uses; the working
    precision always suffices. *)
Theorem estimate_exact facts leg rest e :
  is_combo facts = false -> legs facts = leg :: rest -> estimate_order facts = Ok e ->
  exists r m p q,
    _reference_price facts (instrument leg) = Ok r /\ _monetary_multiplier (instrument leg) = Ok m
    /\ _instrument_currency (instrument leg) = Ok (e_currency e)
    /\ d_of_float r = DFin p /\ d_of_float m = DFin q
    /\ d_coef (amount e) = d_coef p * Z.abs (qty facts) * d_coef q
    /\ d_exp (amount e) = d_exp p + d_exp q
    /\ d_ltb (amount e) d_zero = false.
Proof.
  intros Hc Hl H. unfold estimate_order in H. rewrite Hc, Hl in H.
  apply bind_ok in H as ([[price cur] mult] & Hparts & H).
  apply bind_ok in Hparts as (cur' & Hcur & Hparts). apply bind_ok in Hparts as (m & Hm & Hparts).
  apply bind_ok in Hparts as (r & Hr & [= <- <- <-]).
  apply bind_ok in H as (x & Hx & H). apply bind_ok in H as (v & Hv & H).
  destruct v as [v| |]; try done. destruct (d_ltb v d_zero) eqn:Hneg; [done|].
  injection H as <-. exists r, m.
  destruct (d_of_float r) as [p|s|] eqn:Ep; cbn [decimal_mul] in Hx;
    [|case_match; simplify_eq; by destruct (d_of_float m) as [d| |]; simpl in Hv; try case_match
     |simplify_eq; by destruct (d_of_float m)].
  injection Hx as <-.
  destruct (d_of_float m) as [q|s|] eqn:Eq; cbn [decimal_mul] in Hv; [|by case_match|done].
  injection Hv as <-. exists p, q.
  cbn [decimal_digits] in *.
  rewrite d_mul_exact3 in Hneg |- *;
    [|eauto using d_of_float_wf|unfold d_wf, d_of_Z; cbn [d_coef]; lia|eauto using d_of_float_wf|lia
     |eauto using d_of_float_wf|unfold d_wf, d_of_Z; cbn [d_coef]; lia|eauto using d_of_float_wf|lia].
  split_and!; try done; cbn; lia.
Qed.

Lemma estimate_exact_witness :
  exists e, estimate_order (demo_order "BUY") = Ok e
    /\ d_format (amount e) = "2403.000"
    /\ exists p q, d_coef (amount e) = d_coef p * 12 * d_coef q.
Proof.
  eexists. split_and!; [by vm_compute|by vm_compute|].
  edestruct (estimate_exact (demo_order "BUY") {| instrument := demo_instrument; qty_ratio := 1 |} [])
    as (r & m & p & q & _ & _ & _ & _ & _ & H & _); [done|done|by vm_compute|].
  exists p, q. exact H.
Defined.

(** A superscript digit passes [str.isdigit] and not [int]: the account list
    is refused, but with the bare [ValueError] of [int], which names no variable,
    and not with the promised configuration error. *)
Theorem real_acc_ids_superscript :
  let two := String (chr 178) "" in
  isdigit two = true /\
  _parse_real_acc_ids two = Err (ValueError "invalid literal for int() with base 10").
Proof. split; by vm_compute. Qed.
