(* ===== verification/Rules.v ===== *)
(** services/instrument_rules.py: the documented representation of quantities
    and prices, checked on the decimal digits without rounding, and the sessions
    an order may name. *)

From Stdlib Require Import SpecFloat.
From S2P Require Import Prelude PyStr PyFloat PyDec DecText PyVal Validation Policy.

Definition ORDER_CLASSIFICATIONS : list string := EQUITY_CLASSIFICATIONS ++ ["DRVT"].

(** What the callers pass as a price or a quantity: a plain value, or a
    [Decimal] already parsed. *)
Inductive number_arg : Type :=
  | Plain (v : val)
  | Dec_of (d : dec).

Definition bad_number {A} : result A := Err (ValueError "must be a finite number").

(** [_number] *)
Definition _number (value : number_arg) : result dec :=
  match value with
  | Dec_of d => Ok d
  | Plain (VStr _ as v) | Plain (VInt _ as v) | Plain (VFloat _ as v) =>
      match decimal_str v with Some (DFin d) => Ok d | _ => bad_number end
  | Plain _ => bad_number
  end.

(** [number == number.to_integral_value()] *)
Definition d_integral (d : dec) : bool :=
  (0 <=? d_exp d) || (d_coef d mod 10 ^ (- d_exp d) =? 0).
(** [int(number)], towards zero. *)
Definition d_to_int (d : dec) : Z :=
  let m := if 0 <=? d_exp d then d_coef d * 10 ^ d_exp d else d_coef d / 10 ^ (- d_exp d) in
  if d_neg d then - m else m.

Definition is_text (v : number_arg) : bool :=
  match v with Plain (VStr _) => true | _ => false end.

(** [whole_quantity] *)
Definition whole_quantity (value : number_arg) : result Z :=
  (_ <- refuse_if (is_text value) (ValueError "qty must be a positive whole number") ;;
   number <- _number value ;;
   _ <- refuse_if (negb (d_gtb number d_zero) || negb (d_integral number))
          (ValueError "qty must be a positive whole number") ;;
   Ok (d_to_int number))%py.

Record rules : Type := {
  r_code : string; r_classification : string; r_lot_size : option float;
  price_decimal_places : option Z; price_tick : option string }.

Definition d_one : dec := Dec false 1 0.

(** [instrument_rule_summary] *)
Definition instrument_rule_summary (i : InstrumentFacts) (price : option number_arg) : result rules :=
  match classification i with
  | None => Err (ValueError "instrument classification cannot be verified")
  | Some c =>
      if negb (mem c ORDER_CLASSIFICATIONS)
      then Err (ValueError "instrument classification cannot be verified")
      else
        let '(market0, separator, symbol) := partition "." (i_code i) in
        if negb separator || negb (nonempty symbol)
        then Err (ValueError "a market-prefixed code is required")
        else
          let market := upper market0 in
          let equity := mem c EQUITY_CLASSIFICATIONS in
          (pt <- (if bool_decide (market = "US") && equity then
                    match price with
                    | None => Ok (None, None)
                    | Some v =>
                        number <- _number v ;;
                        Ok (if d_ltb number d_one then (Some 4, Some "0.0001") else (Some 2, Some "0.01"))
                    end
                  else if bool_decide (market = "US") && bool_decide (c = "DRVT") then Ok (Some 2, None)
                  else if mem market ["SH"; "SZ"] && equity then Ok (Some 2, Some "0.01")
                  else Ok (Some 3, None)) ;;
           Ok {| r_code := i_code i; r_classification := c; r_lot_size := lot_size i;
                 price_decimal_places := fst pt; price_tick := snd pt |})%py
  end.

(** [any(digits[-n:])] for [0 < n] *)
Definition any_last (n : Z) (l : list Z) : bool :=
  existsb (fun d => negb (d =? 0)) (skipn (length l - Z.to_nat n) l).

(** The digit test on one price: digits beyond [places] decimal places. *)
Definition off_grid (places : Z) (number : dec) : bool :=
  let discarded_places := Z.max 0 (- places - d_exp number) in
  (0 <? discarded_places) && any_last discarded_places (digits (d_coef number)).

(** One pass of the loop over [price] and [aux_price]. *)
Definition check_price_field (i : InstrumentFacts) (is_price fixed_limit : bool)
    (value : option number_arg) : result unit :=
  match value with
  | None => Ok tt
  | Some v =>
      (number <- _number v ;;
       _ <- refuse_if (d_ltb number d_zero) (ValueError "must not be negative") ;;
       if d_eqb number d_zero
       then refuse_if (is_price && fixed_limit) (ValueError "limit price must be greater than zero")
       else
         field_rules <- instrument_rule_summary i (Some (Dec_of number)) ;;
         match price_decimal_places field_rules with
         | None => Ok tt
         | Some places => refuse_if (off_grid places number) (ValueError "must be a multiple of the documented price tick")
         end)%py
  end.

(** [validate_instrument_order] *)
Definition validate_instrument_order (i : InstrumentFacts) (qty : number_arg) (order_type : string)
    (price aux_price : option number_arg) : result rules :=
  let requested_type := upper (strip order_type) in
  let fixed := mem requested_type FIXED_LIMIT_TYPES in
  (_ <- refuse_if (negb fixed && negb (mem requested_type NO_FIXED_LIMIT_TYPES))
          (ValueError "is not a documented submission order type") ;;
   _ <- whole_quantity qty ;;
   rules <- instrument_rule_summary i price ;;
   _ <- check_price_field i true fixed price ;;
   _ <- check_price_field i false fixed aux_price ;;
   Ok rules)%py.

(** ** Sessions

    The session names belong to the SDK ([moomoo.Session]). *)

Class SessionNames : Type := {
  s_none : string; s_rth : string; s_eth : string; s_overnight : string; s_all : string }.

(** What the code relies on: the names are different from one another. *)
Class SessionLaws `{SessionNames} : Prop := {
  session_names_distinct : NoDup [s_none; s_rth; s_eth; s_overnight; s_all] }.

Section sessions.
Context `{SessionNames}.

Definition DOCUMENTED_SESSIONS : list string := [s_none; s_rth; s_eth; s_overnight; s_all].

Definition bad_session {A} : result A := Err (ValueError "session must be N/A, RTH, ETH, OVERNIGHT or ALL").

(** [normalize_order_session] *)
Definition normalize_order_session (session : val) (trd_env : string) : result string :=
  match session with
  | VStr s =>
      let selected0 := upper (strip s) in
      let selected := if bool_decide (selected0 = "NONE") then s_none else selected0 in
      if negb (mem selected DOCUMENTED_SESSIONS) then bad_session
      else if bool_decide (upper (strip trd_env) = "SIMULATE") then
        if negb (mem selected [s_none; s_rth])
        then Err (ValueError "Paper execution supports the RTH session only")
        else Ok s_rth
      else Ok selected
  | _ => bad_session
  end.

(** [validate_order_session] *)
Definition validate_order_session (code : string) (classification : option string)
    (order_type : string) (session : val) : result string :=
  (selected <- normalize_order_session session "REAL" ;;
   if bool_decide (selected = s_none) then Ok selected
   else
     _ <- refuse_if (negb (startswith "US." code)
                     || negb (match classification with
                              | Some c => mem c EQUITY_CLASSIFICATIONS | None => false end))
            (ValueError "Explicit sessions apply only to verified US stocks and ETFs") ;;
     _ <- refuse_if (negb (bool_decide (selected = s_rth))
                     && negb (bool_decide (upper (strip order_type) = "NORMAL")))
            (ValueError "sessions support NORMAL limit orders only") ;;
     Ok selected)%py.
End sessions.

(** ** Digits and divisibility *)

Lemma undigits_nonneg l : digit_list l -> 0 <= undigits l.
Proof. intros H. by destruct (undigits_bound l H). Qed.

Lemma any_zero l : digit_list l -> existsb (fun d => negb (d =? 0)) l = false <-> undigits l = 0.
Proof.
  intros Hl. induction Hl as [|d l Hd Hl IH]; [done|].
  change (d :: l) with ([d] ++ l)%list. rewrite undigits_app. cbn [existsb app].
  rewrite orb_false_iff, IH, negb_false_iff, Z.eqb_eq.
  pose proof (undigits_bound l Hl). unfold undigits at 2; simpl.
  pose proof (pow10_pos (Z.of_nat (length l)) ltac:(lia)). nia.
Qed.

Lemma digits_mod n k : 0 <= n -> 0 < k ->
  any_last k (digits n) = false <-> n mod 10 ^ k = 0.
Proof.
  intros Hn Hk. destruct (digits_spec n Hn) as (Hv & Hd & _). set (l := digits n) in *.
  unfold any_last. set (j := (length l - Z.to_nat k)%nat).
  assert (Hs : digit_list (firstn j l) /\ digit_list (skipn j l)).
  { apply Forall_app. by rewrite take_drop. }
  rewrite any_zero by apply Hs.
  rewrite <-(take_drop j l), undigits_app in Hv.
  assert (Hlen : length (skipn j l) = (length l - j)%nat) by apply length_drop.
  pose proof (undigits_bound _ (proj2 Hs)) as Hb.
  destruct (Nat.le_gt_cases (Z.to_nat k) (length l)) as [Hle|Hgt].
  - replace (Z.of_nat (length (skipn j l))) with k in * by lia.
    rewrite <-Hv, (Z.add_comm (_ * _)), Z.mod_add, Z.mod_small by lia. done.
  - assert (j = 0%nat) as Hj by lia. rewrite Hj in *. rewrite take_0, drop_0 in *.
    change (undigits []) with 0 in Hv. rewrite Z.mul_0_l, Z.add_0_l in Hv. rewrite Hv.
    assert (10 ^ Z.of_nat (length l) <= 10 ^ k) by (apply Z.pow_le_mono_r; lia).
    rewrite Z.mod_small by lia. done.
Qed.

(** [d] is a whole number of units of [10 ^ -places]. *)
Definition multiple_of (places : Z) (d : dec) : Prop :=
  let e := Z.min (d_exp d) (- places) in exists k, d_at e d = k * 10 ^ (- places - e).

Lemma signed_mod d k : 0 < k -> d_signed d mod k = 0 <-> d_coef d mod k = 0.
Proof.
  intros Hk. unfold d_signed. destruct (d_neg d); [|done].
  rewrite !Z.mod_divide by lia. apply Z.divide_opp_r.
Qed.

Lemma off_grid_multiple places d : d_wf d -> off_grid places d = false <-> multiple_of places d.
Proof.
  intros Hw. unfold off_grid, multiple_of, d_at.
  destruct (Z.le_gt_cases (- places) (d_exp d)) as [H|H].
  - rewrite Z.max_l, Z.min_r by lia. split; [|done]. intros _. exists (d_signed d * 10 ^ (d_exp d - - places)).
    rewrite Z.sub_diag. lia.
  - rewrite Z.max_r, Z.min_l, Z.sub_diag by lia. rewrite (proj2 (Z.ltb_lt _ _)) by lia.
    assert (Hp : 0 < 10 ^ (- places - d_exp d)) by (apply pow10_pos; lia).
    rewrite andb_true_l, digits_mod, <-signed_mod, Z.mod_divide by (done || lia).
    unfold Z.divide. split; intros [k Hk]; exists k; lia.
Qed.

(** The decimal places the documentation establishes for a price of [i]. *)
Definition documented_places (i : InstrumentFacts) (d : dec) : Z :=
  let market := upper (fst (fst (partition "." (i_code i)))) in
  let equity := match classification i with Some c => mem c EQUITY_CLASSIFICATIONS | None => false end in
  if bool_decide (market = "US") then
    if equity then (if d_ltb d d_one then 4 else 2)
    else 2
  else if mem market ["SH"; "SZ"] && equity then 2 else 3.

Lemma order_classification c : mem c ORDER_CLASSIFICATIONS = true ->
  mem c EQUITY_CLASSIFICATIONS = false -> c = "DRVT".
Proof.
  unfold mem, ORDER_CLASSIFICATIONS, EQUITY_CLASSIFICATIONS. intros; bools.
  rewrite elem_of_app, list_elem_of_singleton in H. naive_solver.
Qed.

Lemma summary_places i d r :
  instrument_rule_summary i (Some (Dec_of d)) = Ok r -> price_decimal_places r = Some (documented_places i d).
Proof.
  unfold instrument_rule_summary, documented_places.
  destruct (classification i) as [c|]; [|done]. case_match eqn:Hc; [done|]. bools.
  destruct (partition "." (i_code i)) as [[market sep] symbol]. cbn [fst snd]. case_match; [done|].
  destruct (mem c EQUITY_CLASSIFICATIONS) eqn:He.
  - case_bool_decide; cbn [andb _number bind].
    + destruct (d_ltb d d_one); by intros [= <-].
    + rewrite andb_true_r. destruct (mem _ ["SH"; "SZ"]); by intros [= <-].
  - rewrite (order_classification c Hc He), andb_false_r, andb_false_r, andb_true_r.
    case_bool_decide; by intros [= <-].
Qed.

Definition number_ok (v : number_arg) : Prop := match v with Dec_of d => d_wf d | _ => True end.

Lemma number_wf v d : number_ok v -> _number v = Ok d -> d_wf d.
Proof.
  unfold _number, bad_number. destruct v as [[]|d']; try done; intros Hv H;
    [| | |by injection H as <-]; unfold decimal_str, str_scalar in H; cbn in H;
    repeat case_match; simplify_eq; eauto using d_of_float_wf, d_parse_wf.
Qed.

(** A price field as the documentation wants it. *)
Definition price_on_grid (i : InstrumentFacts) (must_be_positive : bool) (v : option number_arg) : Prop :=
  forall a, v = Some a -> exists d, _number a = Ok d /\ d_ltb d d_zero = false
    /\ (must_be_positive = true -> d_eqb d d_zero = false)
    /\ (d_eqb d d_zero = false -> multiple_of (documented_places i d) d).

Lemma price_field_ok i is_price fixed v :
  (forall a, v = Some a -> number_ok a) -> check_price_field i is_price fixed v = Ok tt ->
  price_on_grid i (is_price && fixed) v.
Proof.
  intros Hv H a ->. unfold check_price_field in H. apply bind_ok in H as (d & Hd & H).
  apply bind_ok in H as ([] & Hn%refuse_if_ok & H). exists d. split_and!; [done|done| |].
  - intros E. destruct (d_eqb d d_zero); [|done]. apply refuse_if_ok in H. by rewrite E in H.
  - intros E. rewrite E in H. apply bind_ok in H as (r & Hr & H).
    apply summary_places in Hr. rewrite Hr in H. apply refuse_if_ok in H.
    apply off_grid_multiple; [|done]. eapply number_wf; eauto.
Qed.

Lemma whole_quantity_ok v n :
  number_ok v -> whole_quantity v = Ok n ->
  0 < n /\ exists d, _number v = Ok d /\ d_eqb d (d_of_Z n) = true.
Proof.
  intros Hv H. unfold whole_quantity in H. apply bind_ok in H as ([] & _ & H).
  apply bind_ok in H as (d & Hd & H). apply bind_ok in H as ([] & Hg%refuse_if_ok & [= <-]). bools.
  pose proof (number_wf v d Hv Hd) as Hw. destruct (d_gt_zero d Hw) as [Hs Hc]; [done|].
  assert (Hn : 0 < d_to_int d /\ d_at (Z.min 0 (d_exp d)) (d_of_Z (d_to_int d)) = d_at (Z.min 0 (d_exp d)) d).
  { unfold d_to_int, d_integral, d_at, d_signed, d_of_Z in *. rewrite Hs in *. cbn [d_exp d_neg d_coef].
    destruct (Z.leb_spec 0 (d_exp d)); cbn [orb] in *.
    - rewrite Z.min_l by lia. assert (0 < 10 ^ d_exp d) by (apply pow10_pos; lia).
      destruct (Z.ltb_spec (d_coef d * 10 ^ d_exp d) 0); [nia|]. rewrite Z.sub_0_r, Z.mul_1_r || idtac.
      split; [nia|]. rewrite Z.sub_0_r, Z.abs_eq by nia. rewrite Z.sub_0_r || idtac. simpl. nia.
    - rewrite Z.min_r by lia. bools. set (p := 10 ^ (- d_exp d)) in *.
      assert (0 < p) by (apply pow10_pos; lia).
      assert (Hdiv : d_coef d = p * (d_coef d / p)) by (apply Z.div_exact; lia).
      destruct (Z.ltb_spec (d_coef d / p) 0); [nia|]. split; [nia|].
      rewrite Z.sub_diag, Z.abs_eq by lia. replace (0 - d_exp d) with (- d_exp d) by lia. fold p. lia. }
  destruct Hn as [Hpos Hat]. split; [done|]. exists d. split; [done|].
  rewrite (d_eqb_at (Z.min 0 (d_exp d))) by (cbn; lia). apply Z.eqb_eq. by symmetry.
Qed.

(** An accepted order is representable: its quantity is a positive whole
    number; a limit price is above zero and no price is negative; and every
    non-zero price or trigger is an exact multiple of the documented step of its
    market, whatever its exponent or length: nothing was rounded to get there. *)
Theorem instrument_order_on_grid i qty order_type price aux_price r :
  number_ok qty -> (forall a, price = Some a -> number_ok a) ->
  (forall a, aux_price = Some a -> number_ok a) ->
  validate_instrument_order i qty order_type price aux_price = Ok r ->
  (exists n d, 0 < n /\ _number qty = Ok d /\ d_eqb d (d_of_Z n) = true)
  /\ price_on_grid i (mem (upper (strip order_type)) FIXED_LIMIT_TYPES) price
  /\ price_on_grid i false aux_price.
Proof.
  intros Hq Hp Ha H. unfold validate_instrument_order in H. apply bind_ok in H as ([] & _ & H).
  apply bind_ok in H as (n & Hn & H). apply bind_ok in H as (s & _ & H).
  apply bind_ok in H as ([] & H1 & H). apply bind_ok in H as ([] & H2 & _). split_and!.
  - apply whole_quantity_ok in Hn as [Hpos (d & Hd & He)]; [|done]. by exists n, d.
  - by apply price_field_ok in H1.
  - by apply price_field_ok in H2.
Qed.

Lemma instrument_order_on_grid_witness :
  exists d, _number (Plain (VStr "0.1234")) = Ok d /\ d_ltb d d_zero = false
    /\ (d_eqb d d_zero = false -> multiple_of (documented_places demo_instrument d) d).
Proof.
  edestruct (instrument_order_on_grid demo_instrument (Plain (VFloat (f_lit "12"))) "normal"
    (Some (Plain (VStr "0.1234"))) None) as (_ & H & _); [done|by intros ? [= <-]|done|by vm_compute|].
  destruct (H _ eq_refl) as (d & Hd & Hn & _ & Hm). exists d. split; [exact Hd|]. split; [exact Hn|exact Hm].
Defined.

(** The digit test is divisibility: a price is refused as off the grid exactly
    when it is not a whole number of steps, for any exponent. *)
Theorem off_grid_exact places d :
  d_wf d -> off_grid places d = true <-> ~ multiple_of places d.
Proof.
  intros Hw. rewrite <-off_grid_multiple by done. rewrite not_false_iff_true. done.
Qed.

Lemma off_grid_exact_witness : ~ multiple_of 2 (Dec false 100000000000000000000000000005 (-3)).
Proof. apply (off_grid_exact 2 (Dec false 100000000000000000000000000005 (-3))); [done|by vm_compute]. Defined.

(** Paper orders are regular-hours orders: for the simulated environment any
    accepted session is RTH, and a session normalized once stays what it is. *)
Theorem paper_session_is_rth `{SessionLaws} session trd_env r :
  normalize_order_session session trd_env = Ok r ->
  mem r DOCUMENTED_SESSIONS = true /\ (upper (strip trd_env) = "SIMULATE" -> r = s_rth).
Proof.
  unfold normalize_order_session, bad_session. destruct session; try done.
  cbv zeta. set (sel := if bool_decide (upper (strip s) = "NONE") then s_none else _).
  destruct (negb (mem sel DOCUMENTED_SESSIONS)) eqn:Hm; [done|]. bools.
  destruct (bool_decide (upper (strip trd_env) = "SIMULATE")) eqn:Hs; bools.
  - destruct (negb _); [done|]. intros [= <-]. split; [|done]. unfold mem. apply bool_decide_eq_true.
    unfold DOCUMENTED_SESSIONS. set_solver.
  - by intros [= <-].
Qed.

#[export] Instance sdk_sessions : SessionNames :=
  {| s_none := "N/A"; s_rth := "RTH"; s_eth := "ETH"; s_overnight := "OVERNIGHT"; s_all := "ALL" |}.
#[export] Instance sdk_session_laws : SessionLaws.
Proof. split. apply (bool_decide_unpack _). by vm_compute. Qed.

Lemma paper_session_is_rth_witness :
  normalize_order_session (VStr " none ") "SIMULATE" = Ok "RTH" /\ "RTH" = s_rth.
Proof.
  split; [by vm_compute|].
  apply (paper_session_is_rth (VStr " none ") "SIMULATE" "RTH"); by vm_compute.
Defined.
