(* ===== verification/ClientAuth.v ===== *)
(** client_authorization.py: what one authenticated client may do, on top of the
    server's own trading policy.  [None] for the grants is the trusted process
    or the legacy credential, which is not restricted; the context variable
    holding the current grants is the argument [g]. *)

From S2P Require Import Prelude PyStr PyVal Validation.

Definition CLIENT_PERMISSIONS : list string :=
  ["market_read"; "real_read"; "simulate_read"; "real_write"; "simulate_write"; "gateway_control"].

Record ClientGrants : Type := {
  g_permissions : list string; g_real : option (list Z); g_simulate : option (list Z) }.

Definition account_entry (v : val) : result Z :=
  match v with
  | VInt z => if z <=? 0 then Err (ValueError "Client account grants require positive exact IDs") else Ok z
  | _ => Err (ValueError "Client account grants require positive exact IDs")
  end.
Definition account_entries (l : option (list val)) : result (option (list Z)) :=
  match l with
  | None => Ok None
  | Some l => bind (mapM account_entry l) (fun l => Ok (Some l))
  end.

(** [ClientGrants.__post_init__] *)
Definition make_grants (permissions : list string) (real simulate : option (list val)) : result ClientGrants :=
  (_ <- refuse_if (negb (forallb (fun p => mem p CLIENT_PERMISSIONS) permissions))
          (ValueError "Client grants contain an unknown permission") ;;
   r <- account_entries real ;;
   s <- account_entries simulate ;;
   Ok {| g_permissions := permissions; g_real := r; g_simulate := s |})%py.

Definition auth_error {A} (msg : string) : result A := Err (ClientAuthorizationError msg).

(** [permission_allowed] and [check_permission] *)
Definition permission_allowed (g : option ClientGrants) (p : string) : bool :=
  match g with None => true | Some g => mem p (g_permissions g) end.
Definition check_permission (g : option ClientGrants) (p : string) : result unit :=
  if permission_allowed g p then Ok tt else auth_error "Client permission does not allow this operation".

Definition permission_for (environment : string) (write : bool) : string :=
  lower environment ++ (if write then "_write" else "_read").
Definition accounts_in (g : ClientGrants) (environment : string) : option (list Z) :=
  if bool_decide (environment = "REAL") then g_real g else g_simulate g.

(** The text of an account identifier is a decimal in the list. *)
Definition account_listed (acc_id : val) (accounts : option (list Z)) : bool :=
  match accounts with
  | None => true
  | Some l => match str_scalar acc_id with
              | Some s => isascii s && isdecimal s && bool_decide (int_of s ∈ l)
              | None => false
              end
  end.

(** [account_access_allowed] *)
Definition account_access_allowed (g : option ClientGrants) (trd_env acc_id : val) (write : bool) : bool :=
  match g with
  | None => true
  | Some c =>
      let environment := named trd_env in
      mem environment ["REAL"; "SIMULATE"]
      && mem (permission_for environment write) (g_permissions c)
      && account_listed acc_id (accounts_in c environment)
  end.

(** [check_account_access] *)
Definition check_account_access (g : option ClientGrants) (trd_env acc_id : val) (write : bool) : result unit :=
  if account_access_allowed g trd_env acc_id write then Ok tt
  else auth_error "Client permission does not allow this account".

(** [filter_readable_accounts] *)
Definition filter_readable_accounts (g : option ClientGrants) (accounts : list dict) : list dict :=
  List.filter (fun a => account_access_allowed g (dget_or "trd_env" (VStr "") a)
                          (dget_or "acc_id" (VStr "") a) false) accounts.

(** ** Tools *)

Definition MARKET_TOOLS : list string :=
  ["get_market_snapshot_evidence"; "get_instrument_facts"; "get_history_kl_quota"; "get_rehab";
   "get_corporate_actions_dividends"; "get_earnings_calendar"; "get_option_volatility";
   "get_stock_quote"; "get_historical_klines"; "get_historical_klines_page";
   "get_option_expiration_date"; "get_option_chain"; "get_market_snapshot"; "get_order_book";
   "get_market_state"; "get_trading_days"; "get_subscriptions"; "get_user_security_group";
   "get_user_security"; "get_margin_ratio"].
Definition ACCOUNT_TOOLS : list string :=
  ["get_account_summary"; "get_assets"; "get_positions"; "get_max_tradable"; "get_cash_flow";
   "get_trading_capabilities"; "get_trade_events"; "preview_order"; "preview_combo_order";
   "get_orders"; "get_deals"; "get_history_orders"; "get_history_deals"; "get_order";
   "get_order_fees"; "get_orders_page"; "get_deals_page"; "get_history_orders_page";
   "get_history_deals_page"; "get_execution"; "reconcile_execution"].
Definition MUTATION_TOOLS : list string :=
  ["place_order"; "place_combo_order"; "modify_order"; "cancel_order"].
Definition GATEWAY_TOOLS : list string := ["unlock_trade"; "lock_trade"; "unsubscribe_market_data"].

(** [tool_visible] *)
Definition tool_visible (g : option ClientGrants) (name : string) : bool :=
  match g with
  | None => true
  | Some _ =>
      if bool_decide (name = "check_health") then true
      else if mem name MARKET_TOOLS then permission_allowed g "market_read"
      else if mem name GATEWAY_TOOLS then permission_allowed g "gateway_control"
      else if mem name MUTATION_TOOLS || bool_decide (name = "prepare_trade_request")
      then permission_allowed g "real_write" || permission_allowed g "simulate_write"
      else if mem name ACCOUNT_TOOLS || mem name ["get_accounts"; "get_prepared_trade"]
      then permission_allowed g "real_read" || permission_allowed g "simulate_read"
      else false
  end.

(** [str(v) != "0"] *)
Definition names_account (v : val) : bool :=
  match str_scalar v with Some s => negb (bool_decide (s = "0")) | None => true end.

(** The scope of one request with its parameters. *)
Definition authorize_scope (g : option ClientGrants) (arguments : dict) (default_environment : val)
    (write : bool) : result unit :=
  let named_env := dget_or "trd_env" default_environment arguments in
  let environment := named (if truthy named_env then named_env else VStr "") in
  (_ <- refuse_if (negb (mem environment ["REAL"; "SIMULATE"]))
          (ClientAuthorizationError "Client request must name an allowed environment") ;;
   _ <- check_permission g (permission_for environment write) ;;
   let account := dget_or "acc_id" (VStr "0") arguments in
   if names_account account then check_account_access g (VStr environment) account write else Ok tt)%py.

(** [authorize_tool] *)
Definition authorize_tool (g : option ClientGrants) (name : string) (arguments : dict)
    (default_environment : val) : result unit :=
  match g with
  | None => Ok tt
  | Some _ =>
      if mem name MARKET_TOOLS then check_permission g "market_read"
      else if mem name GATEWAY_TOOLS then check_permission g "gateway_control"
      else if bool_decide (name = "get_accounts") then
        let environment := dget_none "trd_env" arguments in
        if is_none environment then
          if permission_allowed g "real_read" || permission_allowed g "simulate_read" then Ok tt
          else auth_error "Client cannot read trading accounts"
        else if negb (mem (named environment) ["REAL"; "SIMULATE"])
        then auth_error "Client request has no authorized scope"
        else check_permission g (permission_for (named environment) false)
      else if mem name ["check_health"; "get_prepared_trade"] then Ok tt
      else if bool_decide (name = "prepare_trade_request") then
        match dget_none "method" arguments with
        | VStr m =>
            if negb (mem m MUTATION_TOOLS) then auth_error "Client cannot prepare this operation"
            else match dget_none "parameters" arguments with
                 | VDict parameters => authorize_scope g parameters default_environment true
                 | _ => auth_error "Client request has no authorized scope"
                 end
        | VList _ | VDict _ => Err (TypeError "unhashable type")
        | _ => auth_error "Client cannot prepare this operation"
        end
      else if mem name MUTATION_TOOLS then authorize_scope g arguments default_environment true
      else if negb (mem name ACCOUNT_TOOLS) then auth_error "Client has no grant for this tool"
      else authorize_scope g arguments default_environment false
  end.

(** ** What a client sees of the journal *)

(** [visible_journal_health] *)
Definition visible_journal_health (g : option ClientGrants) (health : dict) (trd_env : string) : dict :=
  match g with
  | None => health
  | Some c =>
      let environment := upper (strip trd_env) in
      if negb (mem (permission_for environment false) (g_permissions c))
      then [("state", VStr "NOT_AUTHORIZED")]
      else match accounts_in c environment with
           | None => health
           | Some _ =>
               dset "details" (VStr "ACCOUNT_SCOPED_DETAILS_OMITTED")
                 (List.filter (fun kv => mem (fst kv) ["state"; "admission_epoch"; "blocking_reasons"]) health)
           end
  end.

(** [s.partition(sep)] and [s.rpartition(sep)] for a separator that occurs. *)
Fixpoint cut (sep s : string) : option (string * string) :=
  if String.prefix sep s then Some ("", String.substring (String.length sep) (String.length s) s)
  else match s with
       | "" => None
       | String c s => option_map (fun ab => (String c (fst ab), snd ab)) (cut sep s)
       end.
Fixpoint rcut (sep s : string) : option (string * string) :=
  match s with
  | "" => None
  | String c s' =>
      match rcut sep s' with
      | Some (a, b) => Some (String c a, b)
      | None => if String.prefix sep s then Some ("", String.substring (String.length sep) (String.length s) s)
                else None
      end
  end.
Definition contains (sub s : string) : bool :=
  match String.index 0 sub s with Some _ => true | None => false end.

Definition pending_marker : string := ": pending operations ".
Definition recovery_guidance : string := "; automatic recovery or healthy storage restart is required;".
Definition fallback_guidance : string :=
  ": automatic recovery or healthy storage restart is required; see check_health/get_execution. No order was sent".

(** [visible_journal_error] *)
Definition visible_journal_error (g : option ClientGrants) (error : option string) (trd_env : string)
    : option string :=
  match g, error with
  | Some c, Some e =>
      if negb (nonempty e) then error
      else
        let environment := upper (strip trd_env) in
        if bool_decide (accounts_in c environment = None)
           && mem (permission_for environment false) (g_permissions c) then error
        else match cut pending_marker e with
             | None => error
             | Some (prefix, details) =>
                 if negb (contains (environment ++ " execution ") prefix) then error
                 else match rcut recovery_guidance details with
                      | Some (_, following) =>
                          Some (prefix ++ ": " ++ String.substring 2 (String.length recovery_guidance) recovery_guidance
                                ++ following)
                      | None => Some (prefix ++ fallback_guidance)
                      end
             end
  | _, _ => error
  end.

(** ** Scope *)

Lemma authorize_scope_ok g arguments dflt write :
  authorize_scope (Some g) arguments dflt write = Ok tt ->
  exists environment,
    environment ∈ ["REAL"; "SIMULATE"]
    /\ (environment = named (dget_or "trd_env" dflt arguments))
    /\ permission_for environment write ∈ g_permissions g
    /\ (names_account (dget_or "acc_id" (VStr "0") arguments) = true ->
        account_listed (dget_or "acc_id" (VStr "0") arguments) (accounts_in g environment) = true).
Proof.
  unfold authorize_scope, check_permission, check_account_access. intros H.
  set (v := dget_or "trd_env" dflt arguments) in *. set (acc := dget_or "acc_id" _ arguments) in *.
  apply bind_ok in H as ([] & He & H). apply refuse_if_ok in He. apply negb_false_iff in He.
  assert (Hv : truthy v = true) by (destruct (truthy v); [done|by vm_compute in He]).
  rewrite Hv in *. apply bind_ok in H as ([] & Hp & H). simpl in Hp.
  destruct (mem (permission_for _ _) _) eqn:Em; [|done].
  exists (named v). split_and!; [by apply bool_decide_eq_true in He|done|by apply bool_decide_eq_true in Em|].
  intros Hn. rewrite Hn in H. destruct (account_access_allowed _ _ _ _) eqn:Ea; [|done].
  unfold account_access_allowed in Ea. bools.
  assert (Hnamed : named (VStr (named v)) = named v).
  { unfold mem in He. apply bool_decide_eq_true in He. set_unfold in He. by destruct He as [-> | [-> |[]]]. }
  by rewrite Hnamed in *.
Qed.

(** A restricted client's mutation stays inside its grant.  A mutating tool
    call, or the preparation of one, that is authorized names REAL or SIMULATE,
    the client holds the write permission of that environment, and an account it
    names is on the client's list for it; the automatic account is chosen later,
    under the same check. *)
Theorem authorized_mutation_in_scope g name arguments dflt :
  authorize_tool (Some g) name arguments dflt = Ok tt ->
  name ∈ MUTATION_TOOLS \/ name = "prepare_trade_request" ->
  exists params environment,
    (params = arguments \/ dget "parameters" arguments = Some (VDict params))
    /\ environment ∈ ["REAL"; "SIMULATE"] /\ environment = named (dget_or "trd_env" dflt params)
    /\ permission_for environment true ∈ g_permissions g
    /\ (names_account (dget_or "acc_id" (VStr "0") params) = true ->
        account_access_allowed (Some g) (VStr environment) (dget_or "acc_id" (VStr "0") params) true = true).
Proof.
  intros H Hname.
  assert (Hs : exists params, (params = arguments \/ dget "parameters" arguments = Some (VDict params))
               /\ authorize_scope (Some g) params dflt true = Ok tt).
  { destruct Hname as [Hm| ->].
    - exists arguments. split; [by left|]. unfold MUTATION_TOOLS in Hm. set_unfold in Hm.
      by destruct Hm as [-> |[-> |[-> |[-> |[]]]]].
    - cbn -[authorize_scope] in H. unfold dget_none in H.
      destruct (dget "method" arguments) as [[]|]; try done. simpl in H.
      destruct (mem s MUTATION_TOOLS); [|done].
      destruct (dget "parameters" arguments) as [[]|]; try done. eauto. }
  destruct Hs as (params & Hp & Hs). apply authorize_scope_ok in Hs as (env & He & Hn & Hperm & Hacc).
  exists params, env. split_and!; try done. intros Hna. unfold account_access_allowed.
  assert (Hnamed : named (VStr env) = env) by (set_unfold in He; by destruct He as [-> | [-> |[]]]).
  rewrite Hnamed, (Hacc Hna). apply andb_true_iff. split; [|done]. apply andb_true_iff.
  split; by apply bool_decide_eq_true_2.
Qed.

Definition demo_grants : ClientGrants :=
  {| g_permissions := ["market_read"; "simulate_read"; "simulate_write"];
     g_real := None; g_simulate := Some [7] |}.

Lemma authorized_mutation_in_scope_witness :
  "simulate_write" ∈ g_permissions demo_grants
  /\ authorize_tool (Some demo_grants) "cancel_order"
       [("order_id", VStr "5"); ("trd_env", VStr "SIMULATE"); ("acc_id", VStr "8")] VNone
     = auth_error "Client permission does not allow this account".
Proof.
  split; [|done].
  destruct (authorized_mutation_in_scope demo_grants "cancel_order"
    [("order_id", VStr "5"); ("trd_env", VStr " simulate "); ("acc_id", VStr "7")] VNone eq_refl)
    as (params & env & Hp & _ & He & Hperm & _); [left; set_solver|].
  destruct Hp as [-> |Hp]; [|done]. by subst env.
Defined.

(** ** Visibility *)

Lemma check_permission_ok g p : check_permission g p = Ok tt <-> permission_allowed g p = true.
Proof. unfold check_permission. by destruct (permission_allowed g p). Qed.

Lemma scope_visible g arguments dflt write :
  authorize_scope (Some g) arguments dflt write = Ok tt ->
  permission_allowed (Some g) (permission_for "REAL" write)
  || permission_allowed (Some g) (permission_for "SIMULATE" write) = true.
Proof.
  intros H. apply authorize_scope_ok in H as (env & He & _ & Hp & _). simpl.
  set_unfold in He. apply orb_true_iff. unfold mem.
  destruct He as [-> |[-> |[]]]; [left|right]; by apply bool_decide_eq_true_2.
Qed.

Lemma scope_callable g env write :
  env ∈ ["REAL"; "SIMULATE"] -> permission_allowed (Some g) (permission_for env write) = true ->
  authorize_scope (Some g) [("trd_env", VStr env)] VNone write = Ok tt.
Proof.
  intros He Hp. apply check_permission_ok in Hp.
  assert (E : authorize_scope (Some g) [("trd_env", VStr env)] VNone write
              = bind (check_permission (Some g) (permission_for env write)) (fun _ => Ok tt)).
  { set_unfold in He. by destruct He as [-> |[-> |[]]]. }
  by rewrite E, Hp.
Qed.

Lemma visible_callable g write :
  permission_allowed (Some g) (permission_for "REAL" write)
  || permission_allowed (Some g) (permission_for "SIMULATE" write) = true ->
  exists arguments, authorize_scope (Some g) arguments VNone write = Ok tt.
Proof.
  intros H. apply orb_true_iff in H as [H|H]; eexists; apply scope_callable; try exact H; set_solver.
Qed.

Lemma get_accounts_visible g :
  tool_visible (Some g) "get_accounts"
  = permission_allowed (Some g) "real_read" || permission_allowed (Some g) "simulate_read".
Proof. reflexivity. Qed.
Lemma get_accounts_authorized g arguments dflt :
  authorize_tool (Some g) "get_accounts" arguments dflt
  = (let environment := dget_none "trd_env" arguments in
     if is_none environment then
       if permission_allowed (Some g) "real_read" || permission_allowed (Some g) "simulate_read" then Ok tt
       else auth_error "Client cannot read trading accounts"
     else if negb (mem (named environment) ["REAL"; "SIMULATE"])
     then auth_error "Client request has no authorized scope"
     else check_permission (Some g) (permission_for (named environment) false)).
Proof. reflexivity. Qed.

(** A tool is listed exactly when it can be used: it is visible to a
    restricted client if and only if some arguments of it are authorized;
    get_prepared_trade apart, which is authorized by the intent it stores. *)
Theorem tool_visible_exact g name :
  name <> "get_prepared_trade" ->
  tool_visible (Some g) name = true <->
  exists arguments dflt, authorize_tool (Some g) name arguments dflt = Ok tt.
Proof.
  intros Hn.
  destruct (decide (name = "check_health")) as [->|N1]; [split; [by exists [], VNone|done]|].
  destruct (decide (name = "get_accounts")) as [->|N2].
  { rewrite get_accounts_visible. split.
    - intros H. exists [], VNone. by rewrite get_accounts_authorized, H.
    - intros (args & d & H). rewrite get_accounts_authorized in H. cbv zeta in H.
      destruct (is_none _); [by destruct (_ || _)|]. destruct (mem _ ["REAL"; "SIMULATE"]) eqn:E; [|done].
      apply check_permission_ok in H. apply mem_true in E. set_unfold in E.
      destruct E as [E|[E|[]]]; rewrite E in H; apply orb_true_iff; [by left|by right]. }
  destruct (decide (name = "prepare_trade_request")) as [->|N3].
  { split.
    - intros H. destruct (visible_callable g true H) as (params & Hp).
      exists [("method", VStr "place_order"); ("parameters", VDict params)], VNone. exact Hp.
    - intros (args & d & H). cbn -[authorize_scope] in H. unfold dget_none in H.
      destruct (dget "method" args) as [[]|]; try done. cbn -[authorize_scope] in H.
      destruct (mem s MUTATION_TOOLS); [|done].
      destruct (dget "parameters" args) as [[]|]; try done. by apply scope_visible in H. }
  unfold tool_visible, authorize_tool.
  rewrite (bool_decide_eq_false_2 _ N1), (bool_decide_eq_false_2 _ N2), (bool_decide_eq_false_2 _ N3).
  rewrite (mem_false name ["check_health"; "get_prepared_trade"]) by set_solver.
  rewrite (mem_false name ["get_accounts"; "get_prepared_trade"]) by set_solver.
  rewrite !orb_false_r.
  destruct (mem name MARKET_TOOLS).
  { rewrite <-check_permission_ok. split; [by exists [], VNone|by intros (_ & _ & ?)]. }
  destruct (mem name GATEWAY_TOOLS).
  { rewrite <-check_permission_ok. split; [by exists [], VNone|by intros (_ & _ & ?)]. }
  destruct (mem name MUTATION_TOOLS).
  { split; [intros H; destruct (visible_callable g true H); eauto|intros (args & d & H)].
    by apply scope_visible in H. }
  destruct (mem name ACCOUNT_TOOLS); simpl.
  { split; [intros H; destruct (visible_callable g false H); eauto|intros (args & d & H)].
    by apply scope_visible in H. }
  split; [done|by intros (? & ? & ?)].
Qed.

Lemma tool_visible_exact_witness :
  tool_visible (Some demo_grants) "place_order" = true
  /\ forall arguments dflt, authorize_tool (Some demo_grants) "lock_trade" arguments dflt <> Ok tt.
Proof.
  split; [done|]. intros arguments dflt H.
  assert (tool_visible (Some demo_grants) "lock_trade" = true); [|done].
  apply (tool_visible_exact demo_grants "lock_trade"); [done|eauto].
Defined.

(** ** Narrower grants *)

Definition accounts_within (a b : option (list Z)) : Prop :=
  match a, b with _, None => True | Some l, Some k => l ⊆ k | None, Some _ => False end.
Record narrower (g g' : ClientGrants) : Prop := {
  n_permissions : g_permissions g ⊆ g_permissions g';
  n_real : accounts_within (g_real g) (g_real g');
  n_simulate : accounts_within (g_simulate g) (g_simulate g') }.

Lemma narrower_access g g' env acc write :
  narrower g g' -> account_access_allowed (Some g) env acc write = true ->
  account_access_allowed (Some g') env acc write = true.
Proof.
  intros [Hp Hr Hs]. unfold account_access_allowed, mem. rewrite !andb_true_iff, !bool_decide_eq_true.
  intros [[He Hperm] Hl]. split_and!; [done|by apply Hp|]. revert Hl.
  assert (Ha : accounts_within (accounts_in g (named env)) (accounts_in g' (named env)))
    by (unfold accounts_in; by case_bool_decide).
  destruct (accounts_in g _) as [l|], (accounts_in g' _) as [k|]; try done. simpl in *.
  destruct (str_scalar acc); [|done]. rewrite !andb_true_iff, !bool_decide_eq_true. naive_solver.
Qed.

(** ** Withheld identifiers *)

Lemma prefix_needs_char c p s :
  str_forall (fun d => negb (Ascii.eqb d c)) s = true -> String.prefix p s = true ->
  str_forall (fun d => negb (Ascii.eqb d c)) p = true.
Proof.
  revert s; induction p as [|a p IH]; intros [|b s]; simpl; try done.
  intros Hs H. destruct (ascii_dec a b) as [->|]; [|done]. bools. rewrite H0. simpl. eauto.
Qed.

Lemma substring_beyond n m s : (String.length s <= n)%nat -> String.substring 0 n s = String.substring 0 (n + m) s.
Proof. revert n; induction s as [|c s IH]; intros [|n] H; simpl in *; try done; [by destruct m|lia|]. f_equal. apply IH. lia. Qed.

Lemma substring_drop p s n :
  (String.length s <= n)%nat -> String.substring (String.length p) n (p ++ s) = s.
Proof.
  intros H. induction p as [|c p IH]; simpl; [|by destruct n].
  rewrite <-(substring_all s) at 2. replace n with (String.length s + (n - String.length s))%nat by lia.
  symmetry. by apply substring_beyond.
Qed.

Lemma append_nil s : s ++ "" = s.
Proof. induction s as [|c s IH]; simpl; [done|]. by rewrite IH. Qed.

(** The first occurrence of a separator whose first character is not before it. *)
Lemma cut_first c sep p d :
  str_forall (fun a => negb (Ascii.eqb a c)) p = true ->
  cut (String c sep) (p ++ String c sep ++ d) = Some (p, d).
Proof.
  induction p as [|a p IH]; intros Hp.
  - change ("" ++ String c sep ++ d) with (String c sep ++ d).
    assert (E : forall x, cut (String c sep) x = if String.prefix (String c sep) x
      then Some ("", String.substring (String.length (String c sep)) (String.length x) x)
      else match x with "" => None | String c' x => option_map (fun ab => (String c' (fst ab), snd ab))
                                                      (cut (String c sep) x) end) by (by intros []).
    rewrite E, prefix_app. rewrite substring_drop; [done|]. rewrite length_app_str. lia.
  - simpl in Hp. bools. cbn [cut String.append String.prefix].
    destruct (ascii_dec c a) as [->|]; [by rewrite Ascii.eqb_refl in *|].
    specialize (IH H0). cbn [String.append] in IH |- *. by rewrite IH.
Qed.

Lemma rcut_app a sep s x : rcut sep s = Some x -> rcut sep (a ++ s) = Some (a ++ fst x, snd x).
Proof. induction a as [|c a IH]; intros H; simpl; [by destruct x|]. by rewrite IH. Qed.

Lemma rcut_none c sep s :
  str_forall (fun a => negb (Ascii.eqb a c)) s = true -> rcut (String c sep) s = None.
Proof.
  induction s as [|a s IH]; simpl; intros H; [done|]. bools. rewrite IH by done.
  destruct (ascii_dec c a) as [->|]; [by rewrite Ascii.eqb_refl in *|done].
Qed.

Lemma rcut_skip a c sep s : a <> c -> rcut (String c sep) s = None -> rcut (String c sep) (String a s) = None.
Proof. intros Ha H. cbn [rcut]. rewrite H. simpl. by destruct (ascii_dec c a) as [->|]. Qed.

(** The guidance text occurs last where it stands when nothing after it has a
    semicolon. *)
Lemma rcut_guidance x following :
  str_forall (fun a => negb (Ascii.eqb a ";")) following = true ->
  rcut recovery_guidance (x ++ recovery_guidance ++ following) = Some (x, following).
Proof.
  intros Hf.
  assert (E : rcut recovery_guidance (recovery_guidance ++ following) = Some ("", following)).
  { assert (N : rcut recovery_guidance (String ";" following) = None).
    { unfold recovery_guidance. cbn [rcut]. rewrite rcut_none by done.
      match goal with |- (if ?b then _ else _) = _ => destruct b eqn:Hp; [|done] end.
      simpl in Hp. by apply (prefix_needs_char ";") in Hp. }
    assert (T : rcut recovery_guidance (String.substring 1 100 recovery_guidance ++ following) = None).
    { simpl (String.substring 1 100 recovery_guidance). cbn [String.append].
      repeat (apply rcut_skip; [discriminate|]). exact N. }
    change (recovery_guidance ++ following)
      with (String ";" (String.substring 1 100 recovery_guidance ++ following)).
    cbn [rcut]. rewrite T.
    change (String ";" (String.substring 1 100 recovery_guidance ++ following))
      with (recovery_guidance ++ following).
    rewrite prefix_app, substring_drop; [done|]. rewrite length_app_str. lia. }
  rewrite (rcut_app x _ _ _ E). simpl. by rewrite append_nil.
Qed.

(** A client with its own account list never sees another account's pending
    operations in an error.  Whatever the identifiers in a journal error are, and
    even if they imitate the guidance text, the error shown is built only from
    the text before and after them. *)
Theorem pending_ids_withheld g env prefix ids following :
  accounts_in g (upper (strip env)) <> None ->
  contains (upper (strip env) ++ " execution ") prefix = true ->
  str_forall (fun a => negb (Ascii.eqb a ":")) prefix = true ->
  str_forall (fun a => negb (Ascii.eqb a ";")) following = true ->
  visible_journal_error (Some g)
    (Some (prefix ++ pending_marker ++ ids ++ recovery_guidance ++ following)) env
  = Some (prefix ++ ": automatic recovery or healthy storage restart is required;" ++ following).
Proof.
  intros Ha He Hp Hf. unfold visible_journal_error.
  rewrite (bool_decide_eq_false_2 _ Ha). simpl (false && _).
  assert (Hne : nonempty (prefix ++ pending_marker ++ ids ++ recovery_guidance ++ following) = true)
    by (by destruct prefix).
  rewrite Hne. unfold pending_marker. rewrite cut_first by done. rewrite He.
  by rewrite rcut_guidance.
Qed.

Lemma pending_ids_withheld_witness :
  visible_journal_error (Some demo_grants)
    (Some "SIMULATE execution JOURNAL_BLOCKED: pending operations op-a, op-b; automatic recovery or healthy storage restart is required; see check_health")
    "simulate"
  = Some "SIMULATE execution JOURNAL_BLOCKED: automatic recovery or healthy storage restart is required; see check_health".
Proof.
  apply (pending_ids_withheld demo_grants "simulate" "SIMULATE execution JOURNAL_BLOCKED" "op-a, op-b"
           " see check_health"); vm_compute; done.
Defined.
