(* ===== verification/RateLimit.v ===== *)
(** services/rate_limit.py: admission to one provider operation.  The rolling
    log is PyrateLimiter's [InMemoryBucket], here an interface with the laws its
    documentation states; everything else is this module's: reservations,
    pacing, the queue of waiters.  Clock readings are integers of a microsecond;
    the log counts milliseconds. *)

From S2P Require Import Prelude.

(** ** The bucket interface *)

(** An [InMemoryBucket([Rate(limit, interval)])]: [b_items] is its content,
    oldest first. *)
Class Bucket (B : Type) : Type := {
  b_new : Z -> Z -> B;                (* limit, interval *)
  b_put : Z -> B -> bool * B;
  b_leak : Z -> B -> B;
  b_count : B -> Z;
  b_peek : Z -> B -> option Z;        (* latest to earliest *)
  b_items : B -> list Z;
  b_limit : B -> Z;
  b_interval : B -> Z }.

Definition at_least (t : Z) (l : list Z) : list Z := List.filter (fun x => t <=? x) l.
Definition count (l : list Z) : Z := Z.of_nat (length l).

Class BucketLaws (B : Type) `{Bucket B} : Prop := {
  new_items limit interval : b_items (b_new limit interval) = [];
  new_rate limit interval :
    b_limit (b_new limit interval) = limit /\ b_interval (b_new limit interval) = interval;
  put_rate t b : b_limit (snd (b_put t b)) = b_limit b /\ b_interval (snd (b_put t b)) = b_interval b;
  leak_rate t b : b_limit (b_leak t b) = b_limit b /\ b_interval (b_leak t b) = b_interval b;
  put_accepts t b : count (at_least (t - b_interval b) (b_items b)) < b_limit b ->
    fst (b_put t b) = true /\ b_items (snd (b_put t b)) = (b_items b ++ [t])%list;
  put_refuses t b : b_limit b <= count (at_least (t - b_interval b) (b_items b)) ->
    fst (b_put t b) = false /\ b_items (snd (b_put t b)) = b_items b;
  leak_items t b : b_items (b_leak t b) = at_least (t - b_interval b) (b_items b);
  count_items b : b_count b = count (b_items b);
  peek_items k b : b_peek k b = if k <? 0 then None else (rev (b_items b)) !! Z.to_nat k }.

(** ** Policies *)

Record RateLimitPolicy : Type := {
  calls : Z; period : Z; safety_margin : Z; max_wait : Z; min_interval : Z }.

(** [__post_init__]: integers are finite. *)
Definition policy_valid (p : RateLimitPolicy) : result unit :=
  (_ <- refuse_if (calls p <? 1) (ValueError "calls must be positive") ;;
   _ <- refuse_if ((period p <? 0) || (safety_margin p <? 0) || (max_wait p <? 0) || (min_interval p <? 0))
          (ValueError "must be finite and non-negative") ;;
   refuse_if (period p =? 0) (ValueError "period_seconds must be positive"))%py.

Definition window (p : RateLimitPolicy) : Z := period p + safety_margin p.

(** [math.ceil(us / 1000)] and [math.floor(us / 1000)] *)
Definition ceil_ms (us : Z) : Z := - ((- us) / 1000).
Definition floor_ms (us : Z) : Z := us / 1000.

(** [max(1, math.ceil(retry_after))], in seconds. *)
Definition retry_seconds (us : Z) : Z := Z.max 1 (- ((- us) / 1000000)).

Section limiter.
Context {B : Type} `{Bucket B}.

(** Reservations are objects: [pending] maps the ones still holding permits to
    the permits left; any other reservation has none left. *)
Record limiter : Type := {
  l_policy : RateLimitPolicy; l_bucket : B; l_spacing : option B;
  l_pending : gmap Z Z; l_waiters : list Z; l_next : Z }.

(** [ProviderRequestLimiter.__init__] *)
Definition new_limiter (p : RateLimitPolicy) : limiter :=
  {| l_policy := p; l_bucket := b_new (calls p) (ceil_ms (window p));
     l_spacing := if min_interval p =? 0 then None else Some (b_new 1 (ceil_ms (min_interval p)));
     l_pending := ∅; l_waiters := []; l_next := 0 |}.

Definition with_buckets (b : B) (sp : option B) (s : limiter) : limiter :=
  {| l_policy := l_policy s; l_bucket := b; l_spacing := sp; l_pending := l_pending s;
     l_waiters := l_waiters s; l_next := l_next s |}.
Definition with_pending (m : gmap Z Z) (s : limiter) : limiter :=
  {| l_policy := l_policy s; l_bucket := l_bucket s; l_spacing := l_spacing s; l_pending := m;
     l_waiters := l_waiters s; l_next := l_next s |}.
Definition with_waiters (w : list Z) (s : limiter) : limiter :=
  {| l_policy := l_policy s; l_bucket := l_bucket s; l_spacing := l_spacing s;
     l_pending := l_pending s; l_waiters := w; l_next := l_next s |}.

(** [_prune] *)
Definition _prune (now : Z) (s : limiter) : limiter :=
  with_buckets (b_leak (floor_ms now) (l_bucket s)) (option_map (b_leak (floor_ms now)) (l_spacing s)) s.

Definition spacing_wait (b : B) (ts now : Z) : Z :=
  Z.max 1000 ((ts + b_interval b + 1) * 1000 - now).

(** [_retry_after] *)
Definition _retry_after (now : Z) (s : limiter) : Z :=
  match b_peek (b_count (l_bucket s) - 1) (l_bucket s) with
  | Some oldest => spacing_wait (l_bucket s) oldest now
  | None => window (l_policy s)
  end.

Definition permits (m : gmap Z Z) : Z := zsum (map snd (map_to_list m)).

(** [reservation.remaining] *)
Definition remaining (rid : Z) (s : limiter) : Z := default 0 (l_pending s !! rid).

Definition add_reservation (weight : Z) (s : limiter) : limiter :=
  {| l_policy := l_policy s; l_bucket := l_bucket s; l_spacing := l_spacing s;
     l_pending := <[l_next s := weight]> (l_pending s); l_waiters := l_waiters s;
     l_next := l_next s + 1 |}.

Definition try_admit (weight now : Z) : SE limiter (option Z * Z) := fun s =>
  if b_count (l_bucket s) + permits (l_pending s) + weight <=? calls (l_policy s)
  then (Ok (Some (l_next s), 0), add_reservation weight s)
  else (Ok (None, _retry_after now s), s).

(** Nobody is queued, or the caller is first. *)
Definition my_turn (ticket : option Z) (waiters : list Z) : bool :=
  match waiters with w :: _ => bool_decide (Some w = ticket) | [] => true end.

(** [_try_reserve]: the reservation, or the time to wait. *)
Definition _try_reserve (weight : Z) (ticket : option Z) (now : Z) : SE limiter (option Z * Z) :=
  fun s =>
    if (weight <? 1) || (calls (l_policy s) <? weight)
    then (Err (ValueError "Reservation weight must fit the operation budget"), s)
    else
      let s := _prune now s in
      if negb (my_turn ticket (l_waiters s)) then (Ok (None, _retry_after now s), s)
      else match l_spacing s with
      | None => try_admit weight now s
      | Some sp =>
          if negb (weight =? 1)
          then (Err (ValueError "Paced operations require single-call reservations"), s)
          else if negb (bool_decide (l_pending s = ∅)) then (Ok (None, window (l_policy s)), s)
          else match b_peek 0 sp with
               | Some previous => (Ok (None, spacing_wait sp previous now), s)
               | None => try_admit weight now s
               end
      end.

(** [reserve] *)
Definition reserve (weight now : Z) : SE limiter Z :=
  (do! (r, retry) := _try_reserve weight None now in
   match r with
   | Some rid => se_ret rid
   | None => se_raise (ProviderRateLimitError (retry_seconds retry))
   end)%se.

(** [_start] *)
Definition _start (rid now : Z) : SE limiter unit := fun s =>
  match l_pending s !! rid with
  | None => (Err (RuntimeError "Provider request reservation already released or used"), s)
  | Some held =>
      let s := _prune now s in
      let ts := floor_ms now in
      let '(ok, b) := b_put ts (l_bucket s) in
      let s1 := with_buckets b (l_spacing s) s in
      if negb ok then (Err (RuntimeError "Reserved provider capacity was not available"), s1)
      else
        let '(ok2, sp) := match l_spacing s1 with
                          | Some sp => let '(ok2, sp') := b_put ts sp in (ok2, Some sp')
                          | None => (true, None)
                          end in
        let s2 := with_buckets b sp s1 in
        if negb ok2 then (Err (RuntimeError "Reserved dispatch spacing was not available"), s2)
        else
          (Ok tt, with_pending (if held - 1 =? 0 then delete rid (l_pending s2)
                                else <[rid := held - 1]> (l_pending s2)) s2)
  end.

(** [_release] *)
Definition _release (rid : Z) : SE limiter unit := fun s =>
  (Ok tt, with_pending (delete rid (l_pending s)) s).

(** [acquire], cut at its awaits: joining the queue, one pass of the loop
    (clock readings [now], [now'] and [now'']), leaving the queue. *)
Definition join (ticket : Z) : SE limiter unit :=
  fun s => (Ok tt, with_waiters (l_waiters s ++ [ticket]) s).
Fixpoint remove_first (t : Z) (l : list Z) : list Z :=
  match l with
  | [] => []
  | x :: l => if x =? t then l else x :: remove_first t l
  end.
Definition leave (ticket : Z) : SE limiter unit :=
  fun s => (Ok tt, with_waiters (remove_first ticket (l_waiters s)) s).

(** [Ok (Some rid)]: admitted; [Ok None]: sleep and try again. *)
Definition acquire_pass (weight deadline ticket now now' now'' : Z) : SE limiter (option Z) :=
  fun s =>
    if deadline <? now then
      let s := _prune now' s in
      (Err (ProviderRateLimitError (retry_seconds (_retry_after now' s))), s)
    else
      match _try_reserve weight (Some ticket) now' s with
      | (Err e, s') => (Err e, s')
      | (Ok (Some rid, _), s') => (Ok (Some rid), s')
      | (Ok (None, retry), s') =>
          if deadline - now'' <=? 0 then (Err (ProviderRateLimitError (retry_seconds retry)), s')
          else (Ok None, s')
      end.
End limiter.
Arguments limiter B : clear implicits.

(** ** Sums of permits *)

Lemma permits_empty : permits ∅ = 0.
Proof. done. Qed.

Lemma permits_insert k v m : m !! k = None -> permits (<[k := v]> m) = v + permits m.
Proof.
  intros H. unfold permits. rewrite (zsum_perm _ (map snd ((k, v) :: map_to_list m))); [done|].
  by apply Permutation_map, map_to_list_insert.
Qed.

Lemma permits_delete k v m : m !! k = Some v -> permits m = v + permits (delete k m).
Proof.
  intros H. rewrite <-(insert_delete_id m k v H) at 1. apply permits_insert, lookup_delete_eq.
Qed.

Lemma permits_update k v w m : m !! k = Some v -> permits (<[k := w]> m) = permits m - v + w.
Proof.
  intros H. rewrite (permits_delete k v m H), <-insert_delete_eq, permits_insert by apply lookup_delete_eq. lia.
Qed.

Lemma permits_nonneg m : map_Forall (fun _ v => 1 <= v) m -> 0 <= permits m.
Proof.
  intros H. apply zsum_nonneg. apply Forall_map, Forall_forall. intros [k v] Hkv.
  apply elem_of_map_to_list in Hkv. specialize (H k v Hkv). simpl in *. lia.
Qed.

Lemma permits_at_least k v m : map_Forall (fun _ v => 1 <= v) m -> m !! k = Some v -> v <= permits m.
Proof.
  intros Hm H. rewrite (permits_delete k v m H).
  assert (0 <= permits (delete k m)); [|lia]. apply permits_nonneg. by apply map_Forall_delete.
Qed.

(** ** Windows of a log *)

Lemma starts_app l k : count (l ++ k) = count l + count k.
Proof. unfold count. rewrite length_app. lia. Qed.

Lemma count_nonneg l : 0 <= count l.
Proof. unfold count. lia. Qed.

Lemma at_least_app t l k : at_least t (l ++ k) = (at_least t l ++ at_least t k)%list.
Proof. apply List.filter_app. Qed.

Lemma at_least_le t l : count (at_least t l) <= count l.
Proof. unfold count, at_least. pose proof (List.filter_length_le (fun x => t <=? x) l). lia. Qed.

Lemma at_least_twice s t l : s <= t -> at_least t (at_least s l) = at_least t l.
Proof.
  intros Hst. induction l as [|x l IH]; simpl; [done|].
  destruct (Z.leb_spec s x), (Z.leb_spec t x); simpl; try lia;
    rewrite ?(proj2 (Z.leb_le t x)), ?(proj2 (Z.leb_gt t x)) by lia; congruence.
Qed.

Definition in_window (t w : Z) (l : list Z) : list Z :=
  List.filter (fun x => (t <=? x) && (x <=? t + w)) l.

(** No closed window of length [w] holds more than [limit] entries. *)
Definition window_bounded (limit w : Z) (l : list Z) : Prop :=
  forall t, count (in_window t w l) <= limit.

Lemma in_window_at_least t s w l : s <= t -> count (in_window t w l) <= count (at_least s l).
Proof.
  intros Hst. unfold count, in_window, at_least. induction l as [|x l IH]; [done|].
  cbn [List.filter].
  destruct (Z.leb_spec t x), (Z.leb_spec s x), (Z.leb_spec x (t + w)); cbn [andb length]; lia.
Qed.

Lemma window_push limit w l ts :
  window_bounded limit w l -> count (at_least (ts - w) l) < limit ->
  window_bounded limit w (l ++ [ts]).
Proof.
  intros Hw Hc t. specialize (Hw t).
  assert (Hsplit : in_window t w (l ++ [ts])
            = (in_window t w l ++ if (t <=? ts) && (ts <=? t + w) then [ts] else [])%list).
  { unfold in_window. by rewrite List.filter_app. }
  rewrite Hsplit, starts_app.
  destruct (Z.leb_spec t ts), (Z.leb_spec ts (t + w)); cbn [andb]; try (unfold count; simpl; unfold count in Hw; lia).
  pose proof (in_window_at_least t (ts - w) w l ltac:(lia)). change (count [ts]) with 1. lia.
Qed.

(** ** The invariant *)

Section invariant.
Context {B : Type} `{BucketLaws B}.

Definition fits (limit interval : Z) (b : B) : Prop := b_limit b = limit /\ b_interval b = interval.

Record lim_ok (s : limiter B) : Prop := {
  lok_policy : policy_valid (l_policy s) = Ok tt;
  lok_bucket : fits (calls (l_policy s)) (ceil_ms (window (l_policy s))) (l_bucket s);
  lok_spacing : forall sp, l_spacing s = Some sp ->
    fits 1 (ceil_ms (min_interval (l_policy s))) sp /\
    (l_pending s = ∅ \/ (b_items sp = [] /\ exists rid, l_pending s = {[rid := 1]}));
  lok_pending : map_Forall (fun _ v => 1 <= v) (l_pending s);
  lok_fresh : forall rid, is_Some (l_pending s !! rid) -> rid < l_next s;
  lok_capacity : count (b_items (l_bucket s)) + permits (l_pending s) <= calls (l_policy s) }.

Lemma prune_ok now s : lim_ok s -> lim_ok (_prune now s).
Proof.
  intros [Hp [Hl Hi] Hs Hpos Hf Hc]. split; simpl; try done.
  - unfold fits. by destruct (leak_rate (floor_ms now) (l_bucket s)) as [-> ->].
  - intros sp' E. destruct (l_spacing s) as [sp|] eqn:Esp; [|done]. simpl in E. injection E as <-.
    destruct (Hs sp eq_refl) as [[Hl' Hi'] Hor]. split.
    + unfold fits. by destruct (leak_rate (floor_ms now) sp) as [-> ->].
    + destruct Hor as [?|[E ?]]; [by left|right]. split; [|done]. by rewrite leak_items, E.
  - rewrite leak_items. pose proof (at_least_le (floor_ms now - b_interval (l_bucket s)) (b_items (l_bucket s))). lia.
Qed.

Lemma pruned_spacing now s sp : l_spacing (_prune now s) = Some sp ->
  exists sp0, l_spacing s = Some sp0 /\ sp = b_leak (floor_ms now) sp0.
Proof. simpl. destruct (l_spacing s); simpl; [|done]. intros [= <-]. eauto. Qed.

Lemma admit_ok weight now s r s' :
  lim_ok s -> 1 <= weight ->
  (forall sp, l_spacing s = Some sp -> weight = 1 /\ l_pending s = ∅ /\ b_items sp = []) ->
  try_admit weight now s = (r, s') -> lim_ok s'.
Proof.
  intros [Hp Hb Hs Hpos Hf Hc] Hw Hsp. unfold try_admit. case_match eqn:E; intros [= <- <-]; [|done].
  bools. rewrite count_items in E.
  assert (Hn : l_pending s !! l_next s = None).
  { destruct (l_pending s !! l_next s) eqn:En; [|done]. exfalso.
    pose proof (Hf (l_next s) ltac:(eauto)). lia. }
  split; simpl; try done.
  - intros sp Esp. destruct (Hs sp Esp) as [? _]. destruct (Hsp sp Esp) as (-> & -> & ?). split; [done|].
    right. split; [done|]. by exists (l_next s).
  - by apply map_Forall_insert_2.
  - intros rid [v Hv]. apply lookup_insert_Some in Hv as [[<- _]|[_ Hv]]; [lia|].
    pose proof (Hf rid ltac:(eauto)). lia.
  - rewrite permits_insert by done. lia.
Qed.

Lemma peek_none b : b_peek 0 b = None -> b_items b = [].
Proof.
  rewrite peek_items. simpl. intros Hn. destruct (rev (b_items b)) eqn:E; [|done].
  by apply (f_equal (@rev Z)) in E; rewrite rev_involutive in E.
Qed.

Lemma try_reserve_ok weight ticket now s r s' :
  lim_ok s -> _try_reserve weight ticket now s = (r, s') -> lim_ok s'.
Proof.
  intros Hs. unfold _try_reserve. case_match eqn:Ew; [by intros [= <- <-]|]. bools.
  assert (Hs' : lim_ok (_prune now s)) by by apply prune_ok.
  cbv zeta. destruct (negb (my_turn _ _)); [by intros [= <- <-]|].
  destruct (l_spacing (_prune now s)) as [sp|] eqn:Esp.
  - destruct (negb (weight =? 1)) eqn:E1; [by intros [= <- <-]|].
    destruct (negb (bool_decide _)) eqn:E2; [by intros [= <- <-]|].
    destruct (b_peek 0 sp) eqn:E3; [by intros [= <- <-]|]. bools. intros Ha.
    apply (admit_ok weight now (_prune now s) r s'); [exact Hs'|lia| |exact Ha].
    intros sp' E. rewrite Esp in E. injection E as <-. split_and!; [done|done|by apply peek_none].
  - intros Ha. apply (admit_ok weight now (_prune now s) r s'); [exact Hs'|lia| |exact Ha]. congruence.
Qed.

(** A held permit can always be spent: the log has room for it. *)
Lemma start_ok rid now s held :
  lim_ok s -> l_pending s !! rid = Some held ->
  exists s', _start rid now s = (Ok tt, s') /\ lim_ok s'
    /\ l_bucket s' = snd (b_put (floor_ms now) (l_bucket (_prune now s)))
    /\ l_spacing s' = option_map (fun sp => snd (b_put (floor_ms now) sp)) (l_spacing (_prune now s))
    /\ count (b_items (l_bucket (_prune now s))) < calls (l_policy s)
    /\ (forall sp, l_spacing (_prune now s) = Some sp -> b_items sp = [])
    /\ l_policy s' = l_policy s.
Proof.
  intros Hs Hr. pose proof (prune_ok now s Hs) as Hs'. unfold _start. rewrite Hr.
  cbv zeta. set (p := _prune now s) in *.
  assert (Hpend : l_pending p = l_pending s) by done.
  destruct Hs' as [Hp [Hl Hi] Hsp Hpos Hf Hc].
  pose proof (permits_at_least rid held (l_pending p) Hpos ltac:(by rewrite Hpend)) as Hheld.
  assert (1 <= held) by (apply (Hpos rid); by rewrite Hpend).
  change (l_policy p) with (l_policy s) in *.
  assert (Hroom : count (b_items (l_bucket p)) < calls (l_policy s)) by lia.
  destruct (put_accepts (floor_ms now) (l_bucket p)) as [Hok Hitems].
  { pose proof (at_least_le (floor_ms now - b_interval (l_bucket p)) (b_items (l_bucket p))).
    rewrite Hl. lia. }
  destruct (b_put (floor_ms now) (l_bucket p)) as [ok b'] eqn:Eput. cbn [fst snd] in Hok, Hitems. subst ok.
  pose proof (put_rate (floor_ms now) (l_bucket p)) as [Hrl Hri]. rewrite Eput in Hrl, Hri. cbn [fst snd] in Hrl, Hri.
  cbn [negb l_spacing with_buckets].
  assert (Hempty : forall sp, l_spacing p = Some sp -> b_items sp = [] /\ l_pending s = {[rid := 1]}).
  { intros sp E. destruct (Hsp sp E) as [_ [E'|[E' [rid' E'']]]]; rewrite Hpend in *.
    - rewrite E' in Hr. by rewrite lookup_empty in Hr.
    - split; [done|]. rewrite E''. rewrite E'' in Hr. apply lookup_singleton_Some in Hr as [-> _]. done. }
  set (m' := if held - 1 =? 0 then delete rid (l_pending p) else <[rid := held - 1]> (l_pending p)).
  assert (Hm' : permits m' = permits (l_pending p) - 1 /\ map_Forall (fun _ v => 1 <= v) m'
            /\ forall k, is_Some (m' !! k) -> is_Some (l_pending p !! k)).
  { unfold m'. destruct (Z.eqb_spec (held - 1) 0).
    - rewrite (permits_delete rid held (l_pending p)) by (by rewrite Hpend). split_and!; [lia|by apply map_Forall_delete|].
      intros k [v Hv]. apply lookup_delete_Some in Hv as [_ ?]. eauto.
    - rewrite (permits_update rid held) by (by rewrite Hpend). split_and!; [lia| |].
      + apply map_Forall_insert_2; [lia|done].
      + intros k [v Hv]. apply lookup_insert_Some in Hv as [[<- _]|[_ ?]]; [rewrite Hpend; eauto|eauto]. }
  destruct Hm' as (Hm1 & Hm2 & Hm3).
  assert (Hcap : count (b_items b') + permits m' <= calls (l_policy s)).
  { rewrite Hitems, starts_app, Hm1. change (count [floor_ms now]) with 1. lia. }
  assert (Hfit : fits (calls (l_policy s)) (ceil_ms (window (l_policy s))) b') by (split; congruence).
  destruct (l_spacing p) as [sp|] eqn:Esp.
  - destruct (Hempty sp eq_refl) as [Hsp0 Hone]. destruct (Hsp sp eq_refl) as [[Hsl Hsi] _].
    destruct (put_accepts (floor_ms now) sp) as [Hok2 Hitems2].
    { rewrite Hsp0, Hsl. done. }
    destruct (b_put (floor_ms now) sp) as [ok2 sp'] eqn:Eput2. cbn [fst snd] in Hok2, Hitems2. subst ok2.
    pose proof (put_rate (floor_ms now) sp) as [Hrl2 Hri2]. rewrite Eput2 in Hrl2, Hri2. cbn [fst snd] in Hrl2, Hri2.
    cbn [negb]. eexists. split; [reflexivity|]. split_and!; try done.
    + split; simpl; try done; [|by intros; apply Hf, Hm3].
      intros sp'' [= <-]. split; [split; congruence|]. left.
      assert (held = 1) as -> by (rewrite Hone, lookup_singleton_eq in Hr; congruence).
      apply map_eq. intros k. simpl. rewrite Hone. rewrite delete_singleton_eq. done.
    + simpl. by rewrite Eput2.
    + intros sp'' [= <-]. done.
  - cbn [negb]. eexists. split; [reflexivity|]. split_and!; try done.
    split; simpl; try done. by intros; apply Hf, Hm3.
Qed.

Lemma release_ok rid s r s' : lim_ok s -> _release rid s = (r, s') -> lim_ok s'.
Proof.
  intros [Hp Hb Hs Hpos Hf Hc] [= <- <-]. split; simpl; try done.
  - intros sp E. destruct (Hs sp E) as [? [->|[E' [rid' ->]]]]; (split; [done|]).
    + left. apply delete_empty.
    + destruct (decide (rid = rid')) as [->|]; [left; apply delete_singleton_eq|right].
      split; [done|]. exists rid'. by rewrite delete_singleton_ne.
  - by apply map_Forall_delete.
  - intros k [v Hv]. apply lookup_delete_Some in Hv as [_ ?]. eauto.
  - destruct (l_pending s !! rid) as [v|] eqn:E.
    + rewrite (permits_delete rid v) in Hc by done. pose proof (Hpos rid v E). simpl in *. lia.
    + by rewrite delete_id.
Qed.

Lemma new_ok p : policy_valid p = Ok tt -> lim_ok (new_limiter p).
Proof.
  intros Hp. pose proof Hp as Hp'. unfold policy_valid in Hp'.
  apply bind_ok in Hp' as ([] & Hc%refuse_if_ok & _). bools. split; simpl; try done.
  - exact (new_rate _ _).
  - case_match; [done|]. intros sp [= <-]. split; [exact (new_rate _ _)|by left].
  - intros rid [v Hv]. by rewrite lookup_empty in Hv.
  - rewrite new_items, permits_empty. unfold count; simpl. lia.
Qed.
End invariant.

(** ** A limiter over time

    Any interleaving of the operations by any callers, with a clock that does
    not run backwards; [m_log] records the starts (milliseconds). *)

Inductive lim_op : Type :=
  | OpTry (weight : Z) (ticket : option Z)
  | OpStart (rid : Z)
  | OpRelease (rid : Z)
  | OpJoin (ticket : Z)
  | OpLeave (ticket : Z).

Section machine.
Context {B : Type} `{BucketLaws B}.

Record lmachine : Type := { m_lim : limiter B; m_log : list Z; m_now : Z }.

Definition run_op (op : lim_op) (now : Z) : SE (limiter B) unit :=
  match op with
  | OpTry w t => (_ <- _try_reserve w t now ;; se_ret tt)%se
  | OpStart rid => _start rid now
  | OpRelease rid => _release rid
  | OpJoin t => join t
  | OpLeave t => leave t
  end.

Inductive lstep : lmachine -> lmachine -> Prop :=
  | lstep_op op now s s' log last r :
      last <= now -> run_op op now s = (r, s') ->
      lstep {| m_lim := s; m_log := log; m_now := last |}
            {| m_lim := s'; m_now := now;
               m_log := match op, r with OpStart _, Ok _ => (log ++ [floor_ms now])%list
                                       | _, _ => log end |}.

Definition lstart (p : RateLimitPolicy) (t0 : Z) : lmachine :=
  {| m_lim := new_limiter p; m_log := []; m_now := t0 |}.

(** The bucket holds the log from some point on that is old enough. *)
Definition tracks (b : B) (log : list Z) (now : Z) : Prop :=
  exists c, c <= floor_ms now - b_interval b /\ b_items b = at_least c log.

Record lm_ok (m : lmachine) : Prop := {
  lm_lim : lim_ok (m_lim m);
  lm_past : Forall (fun x => x <= floor_ms (m_now m)) (m_log m);
  lm_tracks : tracks (l_bucket (m_lim m)) (m_log m) (m_now m);
  lm_tracks_sp : forall sp, l_spacing (m_lim m) = Some sp -> tracks sp (m_log m) (m_now m);
  lm_window : window_bounded (calls (l_policy (m_lim m)))
                (ceil_ms (window (l_policy (m_lim m)))) (m_log m);
  lm_paced : l_spacing (m_lim m) <> None ->
    window_bounded 1 (ceil_ms (min_interval (l_policy (m_lim m)))) (m_log m) }.

Lemma floor_ms_mono a b : a <= b -> floor_ms a <= floor_ms b.
Proof. intros. unfold floor_ms. apply Z.div_le_mono; lia. Qed.

Lemma tracks_later b log a a' : a <= a' -> tracks b log a -> tracks b log a'.
Proof. intros Ha (c & Hc & Hi). exists c. split; [|done]. pose proof (floor_ms_mono a a' Ha). lia. Qed.

Lemma tracks_leak b log now : tracks b log now -> tracks (b_leak (floor_ms now) b) log now.
Proof.
  intros (c & Hc & Hi). exists (floor_ms now - b_interval b).
  destruct (leak_rate (floor_ms now) b) as [_ ->]. split; [lia|].
  by rewrite leak_items, Hi, at_least_twice.
Qed.

Lemma tracks_put b log now c :
  0 <= b_interval b -> tracks b log now ->
  count (b_items b) < b_limit b -> window_bounded (b_limit b) c log -> c = b_interval b ->
  tracks (snd (b_put (floor_ms now) b)) (log ++ [floor_ms now]) now
  /\ window_bounded (b_limit b) c (log ++ [floor_ms now]).
Proof.
  intros Hi (k & Hk & Hitems) Hroom Hw ->.
  assert (Hle : count (at_least (floor_ms now - b_interval b) log) <= count (b_items b)).
  { rewrite Hitems, <-(at_least_twice k (floor_ms now - b_interval b)) by done. apply at_least_le. }
  destruct (put_accepts (floor_ms now) b) as [_ Hp].
  { pose proof (at_least_le (floor_ms now - b_interval b) (b_items b)). lia. }
  split.
  - exists k. destruct (put_rate (floor_ms now) b) as [_ ->]. split; [done|].
    rewrite Hp, Hitems, at_least_app. f_equal. simpl. by rewrite (proj2 (Z.leb_le _ _)) by lia.
  - apply window_push; [done|lia].
Qed.

Lemma tracks_nil b t : b_items b = [] -> tracks b [] t.
Proof. intros Hb. exists (floor_ms t - b_interval b). by split; [lia|]. Qed.

Lemma interval_nonneg p : policy_valid p = Ok tt ->
  0 <= ceil_ms (window p) /\ 0 <= ceil_ms (min_interval p).
Proof.
  unfold policy_valid. intros Hp. apply bind_ok in Hp as ([] & _ & Hp).
  apply bind_ok in Hp as ([] & Hr%refuse_if_ok & _). bools. unfold ceil_ms, window.
  Z.to_euclidean_division_equations; lia.
Qed.

(** Operations other than a start: the buckets are as before, or leaked. *)
Lemma quiet_op op now s r s' :
  (forall rid, op <> OpStart rid) -> run_op op now s = (r, s') ->
  (l_bucket s' = l_bucket s \/ l_bucket s' = b_leak (floor_ms now) (l_bucket s))
  /\ (l_spacing s' = l_spacing s \/ l_spacing s' = option_map (b_leak (floor_ms now)) (l_spacing s))
  /\ l_policy s' = l_policy s.
Proof.
  intros Hop Hr. destruct op as [w t|rid|rid|t|t]; simpl in Hr; try (by injection Hr as <- <-; auto);
    [|by destruct (Hop rid)].
  unfold se_bind, se_ret in Hr. destruct (_try_reserve w t now s) as [q s1] eqn:E.
  assert (s1 = s') as -> by (destruct q; by injection Hr).
  clear Hr. revert E. unfold _try_reserve. case_match; [intros Heq; simplify_eq; auto|].
  cbv zeta. unfold try_admit.
  repeat case_match; intros Heq; simplify_eq; simpl; auto.
Qed.

Lemma quiet_ok s s' log last now :
  lm_ok {| m_lim := s; m_log := log; m_now := last |} -> last <= now ->
  (l_bucket s' = l_bucket s \/ l_bucket s' = b_leak (floor_ms now) (l_bucket s))
  /\ (l_spacing s' = l_spacing s \/ l_spacing s' = option_map (b_leak (floor_ms now)) (l_spacing s))
  /\ l_policy s' = l_policy s ->
  lim_ok s' -> lm_ok {| m_lim := s'; m_log := log; m_now := now |}.
Proof.
  intros [Hl Hpast Ht Hts Hw Hpc] Hle (Hb & Hsp & Hpol) Hs'. simpl in *. split; simpl; [done| | | | |].
  - eapply Forall_impl; [exact Hpast|]. intros x Hx. cbv beta in Hx.
    pose proof (floor_ms_mono last now Hle). lia.
  - destruct Hb as [->| ->]; [by eapply tracks_later|apply tracks_leak; by eapply tracks_later].
  - intros sp Esp. destruct Hsp as [Hsp|Hsp]; rewrite Hsp in Esp; [eapply tracks_later; eauto|].
    destruct (l_spacing s) eqn:E0; [|done]. simpl in Esp. injection Esp as <-.
    apply tracks_leak. eapply tracks_later; eauto.
  - by rewrite Hpol.
  - intros Hn. rewrite Hpol. apply Hpc. destruct Hsp as [<-|Hsp]; [done|].
    intros Hn'. rewrite Hn' in Hsp. done.
Qed.

Lemma lstep_ok m m' : lstep m m' -> lm_ok m -> lm_ok m'.
Proof.
  intros Hstep Hm. pose proof Hm as [Hl Hpast Ht Hts Hw Hpc].
  destruct Hstep as [op now s s' log last r Hle Hr].
  simpl in Hl, Hpast, Ht, Hts, Hw, Hpc.
  pose proof (interval_nonneg _ (lok_policy s Hl)) as [Hi1 Hi2].
  assert (Hpast' : Forall (fun x => x <= floor_ms now) log).
  { eapply Forall_impl; [exact Hpast|]. intros x Hx. cbv beta in Hx. pose proof (floor_ms_mono last now Hle). lia. }
  destruct op as [w t|rid|rid|t|t].
  2:{ simpl in Hr. destruct (l_pending s !! rid) as [held|] eqn:E.
      - destruct (start_ok rid now s held Hl E) as (s1 & E1 & Hs1 & Hb & Hsp & Hroom & Hempty & Hpol).
        rewrite Hr in E1. injection E1 as -> ->.
        pose proof (lok_bucket s Hl) as [Hbl Hbi].
        destruct (leak_rate (floor_ms now) (l_bucket s)) as [Hll Hli].
        destruct (tracks_put (l_bucket (_prune now s)) log now (ceil_ms (window (l_policy s)))) as [Hn1 Hn2].
        { simpl. congruence. }
        { simpl. apply tracks_leak. by eapply tracks_later. }
        { simpl in *. congruence || (rewrite Hll, Hbl; exact Hroom). }
        { simpl. rewrite Hll, Hbl. done. }
        { simpl. congruence. }
        split; simpl.
        + done.
        + apply Forall_app. split; [done|]. constructor; [lia|constructor].
        + by rewrite Hb.
        + intros sp Esp. rewrite Hsp in Esp. simpl in Esp.
          destruct (l_spacing s) as [sp0|] eqn:E0; [|done]. simpl in Esp. injection Esp as <-.
          destruct (lok_spacing s Hl sp0 E0) as [[Hl0 Hi0] _].
          destruct (leak_rate (floor_ms now) sp0) as [Hll0 Hli0].
          eapply (tracks_put (b_leak (floor_ms now) sp0) log now); [by rewrite Hli0, Hi0|
            apply tracks_leak; eapply tracks_later; eauto| | |reflexivity].
          * rewrite (Hempty (b_leak (floor_ms now) sp0)), Hll0, Hl0; [done|]. simpl. by rewrite E0.
          * rewrite Hll0, Hli0, Hl0, Hi0. by apply Hpc.
        + rewrite Hpol. simpl in Hn2. by rewrite Hll, Hbl in Hn2.
        + rewrite Hpol, Hsp. simpl. destruct (l_spacing s) as [sp0|] eqn:E0; [|done]. intros _.
          destruct (lok_spacing s Hl sp0 E0) as [[Hl0 Hi0] _].
          destruct (leak_rate (floor_ms now) sp0) as [Hll0 Hli0].
          destruct (tracks_put (b_leak (floor_ms now) sp0) log now (ceil_ms (min_interval (l_policy s)))) as [_ Hn];
            [by rewrite Hli0, Hi0|apply tracks_leak; eapply tracks_later; eauto| | |congruence|].
          * rewrite (Hempty (b_leak (floor_ms now) sp0)), Hll0, Hl0; [done|]. simpl. by rewrite E0.
          * rewrite Hll0, Hl0. by apply Hpc.
          * by rewrite Hll0, Hl0 in Hn.
      - unfold _start in Hr. rewrite E in Hr. injection Hr as <- <-. split; simpl; try done.
        + by eapply tracks_later.
        + intros sp Esp. eapply tracks_later; eauto. }
  all: eapply quiet_ok; [exact Hm|exact Hle|by eapply quiet_op; [|exact Hr]|].
  - simpl in Hr. unfold se_bind, se_ret in Hr. destruct (_try_reserve w t now s) as [q s1] eqn:E.
    assert (s1 = s') as -> by (destruct q; by injection Hr). by eapply try_reserve_ok.
  - by eapply release_ok.
  - injection Hr as <- <-. destruct Hl as [? ? ? ? ? ?]. by split.
  - injection Hr as <- <-. destruct Hl as [? ? ? ? ? ?]. by split.
Qed.

Lemma lreachable_ok p t0 m : policy_valid p = Ok tt -> star lstep (lstart p t0) m -> lm_ok m.
Proof.
  intros Hp. apply star_invariant; [intros x y Hx Hs; by eapply lstep_ok|].
  assert (Hn : forall l w, 0 <= l -> window_bounded l w []) by (intros l w Hl' t; done).
  pose proof (new_ok p Hp) as Hok. split; simpl; try done.
  - apply tracks_nil, new_items.
  - case_match; [done|]. intros sp [= <-]. apply tracks_nil, new_items.
  - apply Hn. pose proof (lok_capacity _ Hok) as Hc. simpl in Hc.
    rewrite permits_empty in Hc. pose proof (count_nonneg (b_items (b_new (calls p) (ceil_ms (window p))))). lia.
Qed.
Lemma lreachable_policy p t0 m : policy_valid p = Ok tt -> star lstep (lstart p t0) m -> l_policy (m_lim m) = p.
Proof.
  intros Hp Hm. cut (lm_ok m /\ l_policy (m_lim m) = p); [by intros [_ ?]|].
  revert Hm. apply (star_invariant lstep (fun m => lm_ok m /\ l_policy (m_lim m) = p));
    [|split; [eapply lreachable_ok; [exact Hp|constructor]|done]].
  intros x y [Hx Hpol] Hs. split; [by eapply lstep_ok|]. destruct Hx as [Hl _ _ _ _ _].
  destruct Hs as [op now s s' log last r Hle Hr]. simpl in *. subst p.
  destruct op as [w t|rid|rid|t|t];
    try (eapply quiet_op in Hr as (_ & _ & ?); [done|done]).
  simpl in Hr. destruct (l_pending s !! rid) as [held|] eqn:E.
  - destruct (start_ok rid now s held Hl E) as (s1 & E1 & _ & _ & _ & _ & _ & ?).
    rewrite Hr in E1. by injection E1 as -> ->.
  - unfold _start in Hr. rewrite E in Hr. by injection Hr as <- <-.
Qed.
End machine.
Arguments lmachine B : clear implicits.

(** ** Theorems *)

(** C33 The provider is never asked more often than its limit: over any
    interleaving of reservations, starts, releases and waiting callers, no closed
    window of the policy's length (safety margin included) holds more than
    [calls] starts; and where a minimum interval is configured, no window of that
    length holds two. *)
Theorem rolling_window_respected `{BucketLaws B} p t0 (m : lmachine B) :
  policy_valid p = Ok tt -> star lstep (lstart p t0) m ->
  window_bounded (calls p) (ceil_ms (window p)) (m_log m)
  /\ (l_spacing (m_lim m) <> None -> window_bounded 1 (ceil_ms (min_interval p)) (m_log m)).
Proof.
  intros Hp Hm. destruct (lreachable_ok p t0 m Hp Hm) as [_ _ _ _ Hw Hs].
  by rewrite (lreachable_policy p t0 m Hp Hm) in Hw, Hs.
Qed.

(** A reservation is worth what it says: in any reachable limiter a pending
    reservation can be started at any later clock reading, the start succeeds and
    uses one permit of it, and the "capacity was not available" failures cannot
    happen. *)
Theorem reserved_start_succeeds `{BucketLaws B} p t0 (m : lmachine B) rid held now :
  policy_valid p = Ok tt -> star lstep (lstart p t0) m -> l_pending (m_lim m) !! rid = Some held ->
  1 <= held /\ exists s', _start rid now (m_lim m) = (Ok tt, s') /\ remaining rid s' = held - 1.
Proof.
  intros Hp Hm Hr. pose proof (lm_lim _ (lreachable_ok p t0 m Hp Hm)) as Hl.
  destruct (start_ok rid now (m_lim m) held Hl Hr) as (s' & Hs & _).
  split; [by apply (lok_pending _ Hl rid)|]. exists s'. split; [done|].
  unfold _start in Hs. rewrite Hr in Hs. cbv zeta in Hs.
  destruct (b_put _ _) as [ok b]. destruct (negb ok); [done|].
  destruct (match l_spacing _ with Some _ => _ | None => _ end) as [ok2 sp]. destruct (negb ok2); [done|].
  injection Hs as <-. unfold remaining. simpl. destruct (Z.eqb_spec (held - 1) 0) as [E|E].
  - by rewrite lookup_delete_eq, E.
  - by rewrite lookup_insert_eq.
Qed.

(** Waiting callers are served in order: while the queue is not empty only its
    first ticket can be given a reservation; everybody else, synchronous callers
    included, is turned away without using capacity. *)
Theorem waiters_are_fifo `{Bucket B} weight ticket now (s s' : limiter B) rid wait first rest :
  l_waiters s = first :: rest -> _try_reserve weight ticket now s = (Ok (Some rid, wait), s') ->
  ticket = Some first.
Proof.
  intros Hw. unfold _try_reserve. case_match; [done|]. cbv zeta.
  destruct (my_turn ticket (l_waiters (_prune now s))) eqn:E; [|done]. intros _.
  simpl in E. rewrite Hw in E. simpl in E. by bools.
Qed.

(** ** A concrete bucket, for the witnesses *)

Record list_bucket : Type := { lb_limit : Z; lb_interval : Z; lb_items : list Z }.

#[export] Instance list_bucket_ops : Bucket list_bucket := {
  b_new limit interval := {| lb_limit := limit; lb_interval := interval; lb_items := [] |};
  b_put t b :=
    if count (at_least (t - lb_interval b) (lb_items b)) <? lb_limit b
    then (true, {| lb_limit := lb_limit b; lb_interval := lb_interval b; lb_items := lb_items b ++ [t] |})
    else (false, b);
  b_leak t b := {| lb_limit := lb_limit b; lb_interval := lb_interval b;
                   lb_items := at_least (t - lb_interval b) (lb_items b) |};
  b_count b := count (lb_items b);
  b_peek k b := if k <? 0 then None else rev (lb_items b) !! Z.to_nat k;
  b_items := lb_items; b_limit := lb_limit; b_interval := lb_interval }.

#[export] Instance list_bucket_laws : BucketLaws list_bucket.
Proof.
  split; try done; simpl; intros t b; [by case_match| |]; intros Hc.
  - by rewrite (proj2 (Z.ltb_lt _ _) Hc).
  - by rewrite (proj2 (Z.ltb_ge _ _) Hc).
Qed.

(** Two calls per second, at least 20 ms apart. *)
Definition demo_rate : RateLimitPolicy :=
  {| calls := 2; period := 1000000; safety_margin := 100000; max_wait := 5000000; min_interval := 20000 |}.
Definition demo_ops : list (lim_op * Z) :=
  [(OpTry 1 None, 0); (OpStart 0, 100); (OpTry 1 None, 5000); (OpTry 1 None, 30000);
   (OpStart 1, 30000); (OpTry 1 None, 60000); (OpTry 1 None, 1200000)].

Definition lnext (m : lmachine list_bucket) (o : lim_op * Z) : lmachine list_bucket :=
  let '(r, s') := run_op o.1 o.2 (m_lim m) in
  {| m_lim := s'; m_now := o.2;
     m_log := match o.1, r with OpStart _, Ok _ => (m_log m ++ [floor_ms o.2])%list | _, _ => m_log m end |}.
Definition demo_limiter : lmachine list_bucket := foldl lnext (lstart demo_rate 0) demo_ops.

Lemma lnext_reachable m0 m o : m_now m <= o.2 -> star lstep m0 m -> star lstep m0 (lnext m o).
Proof.
  intros Hle Hm. unfold lnext. destruct (run_op o.1 o.2 (m_lim m)) as [r s'] eqn:E.
  eapply star_snoc; [exact Hm|]. destruct m as [lim log now], o as [op t]. by econstructor.
Qed.

Lemma demo_limiter_reachable : star lstep (lstart demo_rate 0) demo_limiter.
Proof. unfold demo_limiter, demo_ops. simpl foldl. repeat (apply lnext_reachable; [by vm_compute|]). constructor. Qed.

Lemma rolling_window_respected_witness :
  m_log demo_limiter = [0; 30] /\ window_bounded 2 1100 (m_log demo_limiter)
  /\ window_bounded 1 20 (m_log demo_limiter).
Proof.
  split; [by vm_compute|]. split;
    apply (rolling_window_respected demo_rate 0 demo_limiter); try exact demo_limiter_reachable; by vm_compute.
Defined.

Lemma reserved_start_succeeds_witness :
  exists rid s', _start rid 1300000 (m_lim demo_limiter) = (Ok tt, s') /\ remaining rid s' = 0.
Proof.
  exists 2. apply (reserved_start_succeeds demo_rate 0 demo_limiter 2 1 1300000);
    [by vm_compute|exact demo_limiter_reachable|by vm_compute].
Defined.

Lemma waiters_are_fifo_witness :
  exists s', _try_reserve 1 (Some 7) 1300000
      (snd (join 7 (m_lim (foldl lnext (lstart demo_rate 0) (firstn 2 demo_ops))))) = (Ok (Some 1, 0), s')
    /\ Some 7 = Some 7.
Proof.
  eexists. split; [by vm_compute|].
  eapply (waiters_are_fifo 1 (Some 7) 1300000
    (snd (join 7 (m_lim (foldl lnext (lstart demo_rate 0) (firstn 2 demo_ops)))))); by vm_compute.
Defined.
