(* ===== verification/Dispatch.v ===== *)
(** services/broker_dispatch.py: which budget an SDK operation draws on, the
    bundles of permits reserved for a request, and the gate every SDK call goes
    through.  Budgets are [RateLimit.limiter]s over any bucket.  The gate is
    modelled for a caller outside a read scope; read scopes, their deadlines and
    their worker threads are Reads, waiting for a bundle is Offload. *)

From S2P Require Import Prelude PyStr PyFloat PyDec PyVal RateLimit.

(** ** Operation policies *)

Inductive scope : Set := Gateway | User | Account.
Inductive condition : Set := Always | Refresh | InitialPage.
#[export] Instance scope_eq_dec : EqDecision scope.
Proof. solve_decision. Defined.

Record OperationPolicy : Type := {
  op_calls : Z; op_scope : scope; op_group : string; op_condition : condition;
  op_min_interval : Z (* microseconds *) }.

Definition pol (calls : Z) (s : scope) : OperationPolicy :=
  {| op_calls := calls; op_scope := s; op_group := ""; op_condition := Always; op_min_interval := 0 |}.
Definition grouped (g : string) (interval : Z) (p : OperationPolicy) : OperationPolicy :=
  {| op_calls := op_calls p; op_scope := op_scope p; op_group := g;
     op_condition := op_condition p; op_min_interval := interval |}.
Definition when (c : condition) (p : OperationPolicy) : OperationPolicy :=
  {| op_calls := op_calls p; op_scope := op_scope p; op_group := op_group p;
     op_condition := c; op_min_interval := op_min_interval p |}.

Definition OPERATION_POLICIES : list (string * OperationPolicy) :=
  [("get_rehab", pol 60 Gateway);
   ("get_corporate_actions_dividends", pol 30 Gateway);
   ("get_earnings_calendar", pol 60 Gateway);
   ("get_option_volatility", pol 30 Gateway);
   ("accinfo_query", when Refresh (pol 10 Account));
   ("position_list_query", when Refresh (pol 10 Account));
   ("order_list_query", when Refresh (pol 10 Account));
   ("deal_list_query", when Refresh (pol 10 Account));
   ("history_order_list_query", pol 10 Account);
   ("history_deal_list_query", pol 10 Account);
   ("order_fee_query", pol 10 Account);
   ("acctradinginfo_query", grouped "max_tradable" 0 (pol 10 Account));
   ("comboorder_tradinginfo_query", grouped "max_tradable" 0 (pol 10 Account));
   ("get_margin_ratio", pol 10 User);
   ("get_acc_cash_flow", pol 20 Account);
   ("unlock_trade", pol 10 User);
   ("place_order", grouped "order_placement" 20000 (pol 15 Account));
   ("place_combo_order", grouped "order_placement" 20000 (pol 15 Account));
   ("modify_order", grouped "" 40000 (pol 20 Account));
   ("get_market_snapshot", pol 60 Gateway);
   ("request_history_kline", when InitialPage (pol 60 Gateway));
   ("get_option_expiration_date", pol 60 Gateway);
   ("get_option_chain", pol 10 Gateway);
   ("get_market_state", pol 10 Gateway);
   ("request_trading_days", pol 30 Gateway);
   ("get_user_security_group", pol 10 Gateway);
   ("get_user_security", pol 10 Gateway)].

Definition UNTIMED_OPERATIONS : list string :=
  ["get_history_kl_quota"; "get_acc_list"; "get_global_state"; "get_stock_basicinfo";
   "get_stock_quote"; "get_order_book"; "subscribe"; "unsubscribe"; "query_subscription"].

Fixpoint policy_in (op : string) (l : list (string * OperationPolicy)) : option OperationPolicy :=
  match l with
  | [] => None
  | (k, p) :: l => if bool_decide (op = k) then Some p else policy_in op l
  end.
(** [OPERATION_POLICIES[operation]] *)
Definition operation_policy (op : string) : result OperationPolicy :=
  match policy_in op OPERATION_POLICIES with Some p => Ok p | None => Err (KeyError op) end.

Record QuotaRequest : Type := { q_operation : string; q_account : option Z; q_weight : Z }.

Definition pool_key : Type := string * option Z.

(** [int(kwargs.get("acc_id", 0))] *)
Definition account_of (kwargs : dict) : result Z :=
  match dget_or "acc_id" (VInt 0) kwargs with
  | VInt z => Ok z
  | VBool b => Ok (Z.b2z b)
  | VStr s => if isdecimal (strip s) then Ok (int_of (strip s)) else Err (ValueError "invalid literal for int()")
  | _ => Err (TypeError "int() argument")
  end.

(** [request]: [None] when the operation draws on no budget. *)
Definition request (operation : string) (kwargs : dict) : result (option QuotaRequest) :=
  if mem operation UNTIMED_OPERATIONS then Ok None
  else
    (policy <- operation_policy operation ;;
     if match op_condition policy with
        | Refresh => negb (truthy (dget_or "refresh_cache" (VBool false) kwargs))
        | InitialPage => truthy (dget_none "page_req_key" kwargs)
        | Always => false
        end
     then Ok None
     else
       account <- (if bool_decide (op_scope policy = Account) then
                     a <- account_of kwargs ;;
                     _ <- refuse_if (a <=? 0) (ValueError "Resolve the broker account before quota admission") ;;
                     Ok (Some a)
                   else Ok None) ;;
       Ok (Some {| q_operation := operation; q_account := account; q_weight := 1 |}))%py.

(** [key] *)
Definition key (r : QuotaRequest) : result pool_key :=
  (policy <- operation_policy (q_operation r) ;;
   let account := bool_decide (op_scope policy = Account) in
   _ <- refuse_if (account && match q_account r with Some a => a <=? 0 | None => true end)
          (ValueError "Account-scoped quota requires a resolved account ID") ;;
   Ok (if nonempty (op_group policy) then op_group policy else q_operation r,
       if account then q_account r else None))%py.

(** A dict keyed by pools, in insertion order. *)
Fixpoint kget {A} (k : pool_key) (d : list (pool_key * A)) : option A :=
  match d with
  | [] => None
  | (k', v) :: d => if bool_decide (k = k') then Some v else kget k d
  end.
Fixpoint kset {A} (k : pool_key) (v : A) (d : list (pool_key * A)) : list (pool_key * A) :=
  match d with
  | [] => [(k, v)]
  | (k', w) :: d => if bool_decide (k = k') then (k', v) :: d else (k', w) :: kset k v d
  end.

Definition heavier (r : QuotaRequest) (o : option QuotaRequest) : QuotaRequest :=
  match o with
  | Some q => {| q_operation := q_operation r; q_account := q_account r;
                 q_weight := q_weight q + q_weight r |}
  | None => r
  end.

(** [_merged] *)
Fixpoint _merged_from (requests : list QuotaRequest) (acc : list (pool_key * QuotaRequest))
    : result (list (pool_key * QuotaRequest)) :=
  match requests with
  | [] => Ok acc
  | r :: rs => (k <- key r ;; _merged_from rs (kset k (heavier r (kget k acc)) acc))%py
  end.
Definition _merged (requests : list QuotaRequest) : result (list (pool_key * QuotaRequest)) :=
  _merged_from requests [].

(** ** The dispatcher *)

Section dispatcher.
Context {B : Type} `{Bucket B}.
(** The outside world of the SDK calls. *)
Context {W : Type}.

(** A reservation object: the pool whose limiter holds it, and its number. *)
Record slot : Type := { s_pool : pool_key; s_rid : Z }.

(** [_DispatchLease] *)
Record lease : Type := {
  le_slots : list (pool_key * slot); le_closed : bool; le_cancelled : bool;
  le_protected : list pool_key }.

Record disp : Type := {
  d_limiters : list (pool_key * limiter B);
  d_max_wait : Z;
  d_slots : option (list (pool_key * slot));  (* the context variable *)
  d_lease : option lease;
  d_world : W }.

Definition with_limiters (l : list (pool_key * limiter B)) (d : disp) : disp :=
  {| d_limiters := l; d_max_wait := d_max_wait d; d_slots := d_slots d; d_lease := d_lease d;
     d_world := d_world d |}.
Definition with_slots (s : option (list (pool_key * slot))) (d : disp) : disp :=
  {| d_limiters := d_limiters d; d_max_wait := d_max_wait d; d_slots := s; d_lease := d_lease d;
     d_world := d_world d |}.
Definition with_lease (l : option lease) (d : disp) : disp :=
  {| d_limiters := d_limiters d; d_max_wait := d_max_wait d; d_slots := d_slots d; d_lease := l;
     d_world := d_world d |}.
Definition with_world (w : W) (d : disp) : disp :=
  {| d_limiters := d_limiters d; d_max_wait := d_max_wait d; d_slots := d_slots d; d_lease := d_lease d;
     d_world := w |}.

(** The policy of the limiter created for an operation: thirty seconds. *)
Definition limiter_policy (p : OperationPolicy) (max_wait : Z) : RateLimitPolicy :=
  {| calls := op_calls p; period := 30000000; safety_margin := 100000; max_wait := max_wait;
     min_interval := op_min_interval p |}.

(** [limiter]: the pool of a request, created on first use. *)
Definition limiter_for (r : QuotaRequest) : SE disp (pool_key * limiter B) := fun d =>
  match key r with
  | Err e => (Err e, d)
  | Ok k =>
      match kget k (d_limiters d) with
      | Some l => (Ok (k, l), d)
      | None =>
          match operation_policy (q_operation r) with
          | Err e => (Err e, d)
          | Ok p =>
              let rp := limiter_policy p (d_max_wait d) in
              match policy_valid rp with
              | Err e => (Err e, d)
              | Ok _ => let l := new_limiter rp in
                        (Ok (k, l), with_limiters (kset k l (d_limiters d)) d)
              end
          end
      end
  end.

(** A limiter operation on one pool. *)
Definition on_pool {A} (k : pool_key) (c : SE (limiter B) A) : SE disp A := fun d =>
  match kget k (d_limiters d) with
  | None => (Err (KeyError (fst k)), d)
  | Some l => let '(r, l') := c l in (r, with_limiters (kset k l' (d_limiters d)) d)
  end.

Definition release_slot (s : slot) : SE disp unit := on_pool (s_pool s) (_release (s_rid s)).

Fixpoint release_all (l : list slot) : SE disp unit :=
  match l with
  | [] => se_ret tt
  | s :: l => (_ <- release_slot s ;; release_all l)%se
  end.

Definition slot_remaining (s : slot) (d : disp) : Z :=
  match kget (s_pool s) (d_limiters d) with
  | Some l => remaining (s_rid s) l
  | None => 0
  end.

(** The loop of [reserve]: borrow the slots the context holds, reserve what is
    missing at clock reading [now]; the reservations made are returned even
    when a later one fails, to be released. *)
Fixpoint reserve_slots (now : Z) (wanted : list (pool_key * QuotaRequest))
    (slots : list (pool_key * slot)) (owned : list slot)
    : SE disp (list (pool_key * slot) * list slot * option exn) :=
  match wanted with
  | [] => se_ret (slots, owned, None)
  | (k, r) :: rest => fun d =>
      if match kget k slots with
         | Some s => q_weight r <=? slot_remaining s d
         | None => false
         end
      then reserve_slots now rest slots owned d
      else
        match (do! (pool, l) := limiter_for r in
               rid <- on_pool pool (RateLimit.reserve (q_weight r) now) ;;
               se_ret {| s_pool := pool; s_rid := rid |})%se d with
        | (Ok s, d') => reserve_slots now rest (kset k s slots) (owned ++ [s])%list d'
        | (Err e, d') => (Ok (slots, owned, Some e), d')
        end
  end.

(** [with dispatcher.reserve(requests): body] *)
Definition reserve {A} (now : Z) (requests : list QuotaRequest) (body : SE disp A) : SE disp A := fun d =>
  match _merged requests with
  | Err e => (Err e, d)
  | Ok wanted =>
      match reserve_slots now wanted (default [] (d_slots d)) [] d with
      | (Ok (slots, owned, None), d1) =>
          let '(r, d2) := body (with_slots (Some slots) d1) in
          let '(_, d3) := release_all owned (with_slots (d_slots d) d2) in (r, d3)
      | (Ok (_, owned, Some e), d1) => let '(_, d2) := release_all owned d1 in (Err e, d2)
      | (Err e, d1) => (Err e, d1)
      end
  end.

Definition admission_cancelled : exn := RuntimeError "Broker dispatch admission was cancelled".

(** [_DispatchLease.begin], [.protect], [.unprotect], [.cancel_pending], [.finish] *)
Definition lease_begin (le : lease) : result unit :=
  refuse_if (le_closed le || le_cancelled le) admission_cancelled.
Definition set_protected (p : list pool_key) (le : lease) : lease :=
  {| le_slots := le_slots le; le_closed := le_closed le; le_cancelled := le_cancelled le; le_protected := p |}.
Definition lease_protect (keys : list pool_key) (le : lease) : result lease :=
  if le_cancelled le then Err admission_cancelled else Ok (set_protected (le_protected le ++ keys) le).
Definition protected (k : pool_key) (le : lease) : bool := bool_decide (k ∈ le_protected le).
Definition lease_unprotect (keys : list pool_key) (le : lease) : lease :=
  set_protected (List.filter (fun k => negb (bool_decide (k ∈ keys))) (le_protected le)) le.

Definition lease_finish : SE disp unit := fun d =>
  match d_lease d with
  | None => (Ok tt, d)
  | Some le =>
      release_all (map snd (le_slots le))
        (with_lease (Some {| le_slots := le_slots le; le_closed := true;
                             le_cancelled := le_cancelled le; le_protected := le_protected le |}) d)
  end.
Definition lease_cancel_pending : SE disp unit := fun d =>
  match d_lease d with
  | None => (Ok tt, d)
  | Some le =>
      release_all (map snd (List.filter (fun kv => negb (protected (fst kv) le)) (le_slots le)))
        (with_lease (Some {| le_slots := le_slots le; le_closed := le_closed le;
                             le_cancelled := true; le_protected := le_protected le |}) d)
  end.

(** [with dispatcher.protect_mutation(requests): body] *)
Definition protect_mutation {A} (requests : list QuotaRequest) (body : SE disp A) : SE disp A := fun d =>
  match mapM key requests with
  | Err e => (Err e, d)
  | Ok keys =>
      match d_lease d with
      | None => body d
      | Some le =>
          match lease_protect keys le with
          | Err e => (Err e, d)
          | Ok le' =>
              let '(r, d') := body (with_lease (Some le') d) in
              (r, with_lease (option_map (lease_unprotect keys) (d_lease d')) d')
          end
      end
  end.

(** [_DispatchLease.start] or [slot.start()] *)
Definition start_slot (now : Z) (k : option pool_key) (s : option slot) : SE disp unit := fun d =>
  if match d_lease d with
     | Some le => le_cancelled le && negb (match k with Some k => protected k le | None => false end)
     | None => false
     end
  then (Err admission_cancelled, d)
  else match s with
       | Some s => on_pool (s_pool s) (_start (s_rid s) now) d
       | None => (Ok tt, d)
       end.

(** [_invoke] outside a read scope. *)
Definition _invoke {A} (func : W -> result A * W) : SE disp A := fun d =>
  let '(r, w) := func (d_world d) in (r, with_world w d).

(** [call]: [now] is the clock of the reservation, [now'] of the start. *)
Definition call {A} (operation : string) (kwargs : dict) (now now' : Z)
    (func : W -> result A * W) : SE disp A := fun d =>
  match request operation kwargs with
  | Err e => (Err e, d)
  | Ok None => (_ <- start_slot now' None None ;; _invoke func)%se d
  | Ok (Some r) =>
      reserve now [r] (fun d =>
        match key r with
        | Err e => (Err e, d)
        | Ok k =>
            match kget k (default [] (d_slots d)) with
            | None => (Err (KeyError (fst k)), d)
            | Some s => (_ <- start_slot now' (Some k) (Some s) ;; _invoke func)%se d
            end
        end) d
  end.
End dispatcher.
Arguments disp B W : clear implicits.

(** ** Pools *)

#[export] Instance result_eq_dec A `{EqDecision A} : EqDecision (result A).
Proof. solve_decision. Defined.

Lemma kget_kset {A} k k' (v : A) d : kget k (kset k' v d) = if bool_decide (k = k') then Some v else kget k d.
Proof.
  induction d as [|[k1 w] d IH]; cbn [kset kget].
  - done.
  - destruct (bool_decide (k' = k1)) eqn:E1; cbn [kget].
    + apply bool_decide_eq_true in E1 as <-. by destruct (bool_decide (k = k')).
    + rewrite IH. apply bool_decide_eq_false in E1.
      destruct (bool_decide (k = k1)) eqn:E2, (bool_decide (k = k')) eqn:E3; bools; congruence.
Qed.

(** The weight asked of pool [k] by a list of requests. *)
Fixpoint asked (k : pool_key) (rs : list QuotaRequest) : Z :=
  match rs with
  | [] => 0
  | r :: rs => (if bool_decide (key r = Ok k) then q_weight r else 0) + asked k rs
  end.

Definition weight_at (k : pool_key) (l : list (pool_key * QuotaRequest)) : Z :=
  match kget k l with Some r => q_weight r | None => 0 end.

Lemma keys_kset {A} k (v : A) d : NoDup (map fst d) -> NoDup (map fst (kset k v d)) /\ (forall x, x ∈ map fst (kset k v d) -> x = k \/ x ∈ map fst d).
Proof.
  induction d as [|[k1 w] d IH]; simpl; intros Hd.
  - split; [apply NoDup_singleton|]. intros x Hx. apply list_elem_of_singleton in Hx. by left.
  - apply NoDup_cons in Hd as [Hk1 Hd]. destruct (IH Hd) as [IH1 IH2].
    destruct (bool_decide (k = k1)) eqn:E; simpl.
    + split; [by apply NoDup_cons|]. intros x Hx. by right.
    + apply bool_decide_eq_false in E. split.
      * apply NoDup_cons. split; [|done]. intros Hin. apply IH2 in Hin as [?|?]; congruence.
      * intros x Hx. apply elem_of_cons in Hx as [->|Hx]; [right; left|].
        destruct (IH2 x Hx); [by left|by right; right].
Qed.

Lemma merged_from_weights rs acc l :
  NoDup (map fst acc) -> _merged_from rs acc = Ok l ->
  NoDup (map fst l) /\ forall k, weight_at k l = weight_at k acc + asked k rs.
Proof.
  revert acc; induction rs as [|r rs IH]; intros acc Hacc; simpl.
  - intros [= <-]. split; [done|]. intros k. lia.
  - intros H. apply bind_ok in H as (k0 & Hk & H).
    apply IH in H as [Hn Hw]; [|by apply keys_kset]. split; [done|]. intros k. rewrite Hw, Hk.
    unfold weight_at. rewrite kget_kset. destruct (bool_decide (k = k0)) eqn:E.
    + apply bool_decide_eq_true in E as ->. rewrite (bool_decide_eq_true_2 (Ok k0 = Ok k0)) by done.
      unfold heavier. destruct (kget k0 acc); simpl; lia.
    + apply bool_decide_eq_false in E. rewrite (bool_decide_eq_false_2 (Ok k0 = Ok k)) by congruence. lia.
Qed.

(** A bundle asks every pool once, for the whole of what its requests need
    there: merging loses no permit and counts none twice. *)
Theorem merged_weights rs l :
  _merged rs = Ok l -> NoDup (map fst l) /\ forall k, weight_at k l = asked k rs.
Proof.
  intros H. apply merged_from_weights in H as [Hn Hw]; [|constructor]. split; [done|].
  intros k. rewrite Hw. done.
Qed.

Definition place_for (a : Z) (op : string) : QuotaRequest :=
  {| q_operation := op; q_account := Some a; q_weight := 1 |}.

Lemma merged_weights_witness :
  exists l, _merged [place_for 7 "place_order"; place_for 7 "place_combo_order"; place_for 8 "place_order"] = Ok l
    /\ NoDup (map fst l) /\ weight_at ("order_placement", Some 7) l = 2.
Proof.
  eexists. split; [by vm_compute|].
  destruct (merged_weights [place_for 7 "place_order"; place_for 7 "place_combo_order"; place_for 8 "place_order"] _ eq_refl)
    as [H1 H2].
  split; [exact H1|]. exact (H2 ("order_placement", Some 7)).
Defined.

(** ** The gate *)

Section gate.
Context {B : Type} `{BucketLaws B} {W : Type}.
Implicit Types d : disp B W.

Lemma on_pool_world {A} k (c : SE (limiter B) A) d r d' : on_pool k c d = (r, d') ->
  d_world d' = d_world d /\ d_slots d' = d_slots d /\ d_lease d' = d_lease d.
Proof. unfold on_pool. case_match; [|by intros [= <- <-]]. destruct (c l) as [x y]. by intros [= <- <-]. Qed.

Lemma release_all_world l d r d' : release_all l d = (r, d') -> d_world d' = d_world d.
Proof.
  revert d; induction l as [|s l IH]; intros d; simpl; [by intros [= <- <-]|].
  unfold se_bind. destruct (release_slot s d) as [[u|e] d1] eqn:E; apply on_pool_world in E as (E & _).
  - intros Hr. apply IH in Hr. congruence.
  - intros [= <- <-]. done.
Qed.

Lemma limiter_for_world r d x d' : limiter_for r d = (x, d') ->
  d_world d' = d_world d /\ d_slots d' = d_slots d /\ d_lease d' = d_lease d.
Proof. unfold limiter_for. repeat case_match; intros; by simplify_eq. Qed.

Lemma reserve_slots_world now wanted slots owned d x d' :
  reserve_slots now wanted slots owned d = (x, d') ->
  d_world d' = d_world d /\ d_slots d' = d_slots d /\ d_lease d' = d_lease d.
Proof.
  revert slots owned d; induction wanted as [|[k r] rest IH]; intros slots owned d; simpl; [by intros [= <- <-]|].
  case_match; [apply IH|]. unfold se_bind.
  destruct (limiter_for r d) as [[[pool l]|e] d1] eqn:E1; apply limiter_for_world in E1 as (? & ? & ?);
    [|intros; simplify_eq; by split_and!].
  destruct (on_pool pool _ d1) as [[rid|e] d2] eqn:E2; apply on_pool_world in E2 as (? & ? & ?).
  - intros Hr. apply IH in Hr as (? & ? & ?). split_and!; congruence.
  - intros; simplify_eq. split_and!; congruence.
Qed.

(** Nothing but its body touches the world inside [reserve]. *)
Lemma reserve_world {A} now rs (body : SE (disp B W) A) d r d' :
  reserve now rs body d = (r, d') ->
  (d_world d' = d_world d /\ is_ok r = false) \/
  exists d1 d2, d_world d1 = d_world d /\ d_lease d1 = d_lease d /\ body d1 = (r, d2)
    /\ d_world d' = d_world d2.
Proof.
  unfold reserve. case_match eqn:Em; [|intros [= <- <-]; by left].
  destruct (reserve_slots now _ _ _ d) as [[[[slots owned] [e|]]|e] d1] eqn:E;
    apply reserve_slots_world in E as (Hw & _ & Hl).
  - destruct (release_all owned d1) as [u d2] eqn:E2. apply release_all_world in E2.
    intros [= <- <-]. left. split; [congruence|done].
  - destruct (body _) as [x d2] eqn:Eb.
    destruct (release_all owned _) as [u d3] eqn:E3. apply release_all_world in E3.
    intros [= <- <-]. right. exists (with_slots (Some slots) d1), d2. by split_and!.
  - intros [= <- <-]. by left.
Qed.

Lemma start_slot_world now k s d r d' : start_slot now k s d = (r, d') -> d_world d' = d_world d.
Proof.
  unfold start_slot. case_match; [by intros [= <- <-]|].
  destruct s; [|by intros [= <- <-]]. intros Hr. by apply on_pool_world in Hr as [? _].
Qed.

(** A start that succeeded on a permit of this dispatcher. *)
Definition started (now : Z) (d : disp B W) : Prop :=
  exists k rid l l', kget k (d_limiters d) = Some l /\ _start rid now l = (Ok tt, l').

Lemma gate_once {A} now' k s (func : W -> result A * W) (d : disp B W) r d' :
  (_ <- start_slot now' k (Some s) ;; _invoke func)%se d = (r, d') ->
  (d_world d' = d_world d /\ is_ok r = false) \/
  (func (d_world d) = (r, d_world d') /\ started now' d).
Proof.
  unfold se_bind. destruct (start_slot now' k (Some s) d) as [[u|e] d1] eqn:E.
  - pose proof (start_slot_world _ _ _ _ _ _ E) as Hw. unfold _invoke.
    destruct (func (d_world d1)) as [x w] eqn:Ef. intros [= <- <-]. right. rewrite <-Hw. split; [done|].
    unfold start_slot in E. case_match; [done|]. unfold on_pool in E.
    destruct (kget (s_pool s) (d_limiters d)) as [l|] eqn:El; [|done].
    destruct (_start (s_rid s) now' l) as [[[]|e] l'] eqn:Es; [|done].
    by exists (s_pool s), (s_rid s), l, l'.
  - intros [= <- <-]. left. split; [by eapply start_slot_world|done].
Qed.
End gate.

(** The dispatcher calls the SDK at most once per request and never behind the
    budget's back: [call] either leaves the outside world alone and fails, or
    runs the SDK function exactly once, on the world as it was, and returns its
    answer; and for an operation with a published limit that run follows the
    successful start of a permit. *)
Theorem call_runs_once `{BucketLaws B} {W A} operation kwargs now now'
    (func : W -> result A * W) (d : disp B W) r d' :
  call operation kwargs now now' func d = (r, d') ->
  (d_world d' = d_world d /\ is_ok r = false) \/
  (func (d_world d) = (r, d_world d') /\
   (request operation kwargs <> Ok None -> exists d1 : disp B W, started now' d1)).
Proof.
  unfold call. destruct (request operation kwargs) as [[q|]|e] eqn:Eq.
  - intros Hr. apply reserve_world in Hr as [?|(d1 & d2 & Hw & _ & Hb & Hw2)]; [by left|].
    destruct (key q) as [k|]; [|injection Hb as <- <-; left; split; [congruence|done]].
    destruct (kget k _) as [s|]; [|injection Hb as <- <-; left; split; [congruence|done]].
    apply gate_once in Hb as [[? ?]|[Hf Hs]].
    + left. split; [congruence|done].
    + right. rewrite <-Hw, Hw2. split; [done|]. intros _. by exists d1.
  - unfold se_bind. destruct (start_slot now' None None d) as [[u|e] d1] eqn:E;
      pose proof (start_slot_world _ _ _ _ _ _ E) as Hw.
    + unfold _invoke. destruct (func (d_world d1)) as [x w] eqn:Ef. intros [= <- <-]. right.
      rewrite <-Hw. done.
    + intros [= <- <-]. by left.
  - intros [= <- <-]. by left.
Qed.

Definition demo_disp : disp list_bucket (list string) :=
  {| d_limiters := []; d_max_wait := 5000000; d_slots := None; d_lease := None; d_world := [] |}.
Definition demo_sdk (w : list string) : result string * list string := (Ok "receipt", w ++ ["sent"])%list.

Lemma call_runs_once_witness :
  let r := call "place_order" [("acc_id", VInt 7)] 0 0 demo_sdk demo_disp in
  fst r = Ok "receipt" /\ d_world (snd r) = ["sent"] /\ demo_sdk [] = (fst r, d_world (snd r)).
Proof.
  intros r. split; [by vm_compute|]. split; [by vm_compute|].
  destruct (call_runs_once "place_order" [("acc_id", VInt 7)] 0 0 demo_sdk demo_disp (fst r) (snd r))
    as [[H _]|[H _]]; [apply surjective_pairing| |exact H].
  apply (f_equal (@List.length string)) in H. vm_compute in H. discriminate.
Defined.

(** A permit already held is enough: when the context holds a pending permit
    for the operation's pool, in a limiter in good order, and admission was not
    cancelled for that pool, [call] reserves nothing and does run the SDK. *)
Theorem call_with_permit `{BucketLaws B} {W A} operation kwargs q k s l held now now'
    (func : W -> result A * W) (d : disp B W) slots :
  request operation kwargs = Ok (Some q) -> key q = Ok k ->
  d_slots d = Some slots -> kget k slots = Some s ->
  kget (s_pool s) (d_limiters d) = Some l -> lim_ok l -> l_pending l !! s_rid s = Some held ->
  (forall le, d_lease d = Some le -> le_cancelled le = true -> protected k le = true) ->
  exists d', call operation kwargs now now' func d = (fst (func (d_world d)), d')
    /\ d_world d' = snd (func (d_world d)).
Proof.
  intros Hreq Hk Hslots Hs Hl Hok Hp Hle. unfold call. rewrite Hreq. unfold reserve, _merged. simpl.
  rewrite Hk. cbn [bind heavier kget kset _merged_from].
  assert (Hw : q_weight q = 1).
  { unfold request in Hreq. case_match; [done|]. apply bind_ok in Hreq as (p & _ & Hreq).
    case_match; [done|]. by apply bind_ok in Hreq as (a & _ & [= <-]). }
  assert (Hheld : 1 <= held) by apply (lok_pending l Hok _ _ Hp).
  cbn [reserve_slots]. rewrite Hslots. cbn [from_option id]. rewrite Hs.
  unfold slot_remaining. rewrite Hl. unfold remaining. rewrite Hp. cbn [from_option id].
  rewrite Hw, (proj2 (Z.leb_le _ _)) by done. unfold se_ret. cbn [release_all].
  cbn [with_slots d_slots from_option id]. rewrite Hs. unfold se_bind, start_slot. cbn [d_lease with_slots].
  assert (Hc : match d_lease d with
               | Some le => le_cancelled le && negb (protected k le) | None => false end = false).
  { destruct (d_lease d) as [le|]; [|done]. destruct (le_cancelled le) eqn:E; [|done].
    by rewrite (Hle le eq_refl E). }
  rewrite Hc. unfold on_pool. cbn [d_limiters with_slots]. rewrite Hl.
  destruct (start_ok (s_rid s) now' l held Hok Hp) as (l' & -> & _).
  unfold _invoke. cbn [with_limiters with_slots d_world d_slots d_limiters d_lease].
  destruct (func (d_world d)) as [x w]. eexists. split; [reflexivity|]. done.
Qed.

Definition demo_held : disp list_bucket (list string) :=
  {| d_limiters := [(("order_placement", Some 7),
       snd (RateLimit.reserve 1 0 (new_limiter (limiter_policy (pol 15 Account) 0))))];
     d_max_wait := 0; d_slots := Some [(("order_placement", Some 7), {| s_pool := ("order_placement", Some 7); s_rid := 0 |})];
     d_lease := None; d_world := [] |}.

Lemma demo_held_ok : lim_ok (snd (RateLimit.reserve 1 0 (new_limiter (B := list_bucket) (limiter_policy (pol 15 Account) 0)))).
Proof.
  unfold RateLimit.reserve, se_bind.
  destruct (_try_reserve 1 None 0 _) as [x l] eqn:E.
  assert (Hok : lim_ok l) by (eapply try_reserve_ok; [|exact E]; by apply new_ok).
  destruct x as [[[rid|] t]|e]; exact Hok.
Qed.

Lemma call_with_permit_witness :
  exists d', call "place_order" [("acc_id", VInt 7)] 9 9 demo_sdk demo_held = (Ok "receipt", d')
    /\ d_world d' = ["sent"].
Proof.
  apply (call_with_permit "place_order" [("acc_id", VInt 7)] (place_for 7 "place_order")
    ("order_placement", Some 7) {| s_pool := ("order_placement", Some 7); s_rid := 0 |}
    (snd (RateLimit.reserve 1 0 (new_limiter (limiter_policy (pol 15 Account) 0)))) 1 9 9 demo_sdk demo_held
    [(("order_placement", Some 7), {| s_pool := ("order_placement", Some 7); s_rid := 0 |})]);
    [done|done|done|done|done|exact demo_held_ok|by vm_compute|done].
Defined.
