(* ===== verification/Reads.v ===== *)
(** services/broker_dispatch.py: broker reads.  One invocation is a [_ReadCall]
    with an end-to-end deadline; its blocking work runs on threads of its own,
    which a cancelled or expired invocation abandons but cannot stop.  The reads
    of a process are a list of readers that take the actions of the event loop,
    the worker threads, the timers and the clients in any order.  Clock
    readings are integers of a microsecond, to which the code rounds what it
    reports. *)

From S2P Require Import Prelude PyStr.

#[local] Open Scope list_scope.

(** ** One invocation *)

Definition READ_TIMEOUT_SECONDS : Z := 15.
Definition MAX_INFLIGHT_READS : Z := 8.
Definition MAX_PENDING_READS : Z := 32.

(** [_ReadCall] *)
Record read_call : Type := {
  rc_operation : string; rc_timeout : Z; rc_started : Z; rc_deadline : Z; rc_phase : string;
  rc_cancelled : bool; rc_finished : option Z; rc_durations : gmap string Z; rc_starts : gmap string Z;
  rc_sdk_started : Z; rc_sdk_completed : Z }.

(** [_ReadCall.__init__] *)
Definition new_read (operation : string) (timeout now : Z) : read_call :=
  {| rc_operation := operation; rc_timeout := timeout; rc_started := now; rc_deadline := now + timeout;
     rc_phase := "admission"; rc_cancelled := false; rc_finished := None; rc_durations := ∅; rc_starts := ∅;
     rc_sdk_started := 0; rc_sdk_completed := 0 |}.

(** [check] *)
Definition check (now : Z) (rc : read_call) : result unit :=
  if rc_cancelled rc then Err (RuntimeError "Read await was cancelled; dispatched SDK calls were not aborted")
  else if rc_deadline rc <=? now then Err (BrokerReadTimeoutError (rc_operation rc) (rc_phase rc))
  else Ok tt.

Definition with_cancelled (rc : read_call) : read_call :=
  {| rc_operation := rc_operation rc; rc_timeout := rc_timeout rc; rc_started := rc_started rc;
     rc_deadline := rc_deadline rc; rc_phase := rc_phase rc; rc_cancelled := true; rc_finished := rc_finished rc;
     rc_durations := rc_durations rc; rc_starts := rc_starts rc; rc_sdk_started := rc_sdk_started rc;
     rc_sdk_completed := rc_sdk_completed rc |}.
(** [finish] *)
Definition finish (now : Z) (rc : read_call) : read_call :=
  {| rc_operation := rc_operation rc; rc_timeout := rc_timeout rc; rc_started := rc_started rc;
     rc_deadline := rc_deadline rc; rc_phase := rc_phase rc; rc_cancelled := rc_cancelled rc; rc_finished := Some now;
     rc_durations := rc_durations rc; rc_starts := rc_starts rc; rc_sdk_started := rc_sdk_started rc;
     rc_sdk_completed := rc_sdk_completed rc |}.

Definition is_sdk (phase : string) : bool := bool_decide (phase = "sdk").

(** [measure]: entering a phase, with the phase to return to, and leaving it. *)
Definition measure_enter (phase : string) (now : Z) (rc : read_call) : string * read_call :=
  (rc_phase rc,
   {| rc_operation := rc_operation rc; rc_timeout := rc_timeout rc; rc_started := rc_started rc;
      rc_deadline := rc_deadline rc; rc_phase := phase; rc_cancelled := rc_cancelled rc; rc_finished := rc_finished rc;
      rc_durations := rc_durations rc; rc_starts := <[phase := now]> (rc_starts rc);
      rc_sdk_started := rc_sdk_started rc + Z.b2z (is_sdk phase); rc_sdk_completed := rc_sdk_completed rc |}).
Definition measure_exit (phase previous : string) (failed : bool) (now : Z) (rc : read_call) : result read_call :=
  match rc_starts rc !! phase with
  | None => Err (KeyError phase)
  | Some started =>
      Ok {| rc_operation := rc_operation rc; rc_timeout := rc_timeout rc; rc_started := rc_started rc;
            rc_deadline := rc_deadline rc;
            rc_phase := if negb (rc_cancelled rc) && negb failed then previous else rc_phase rc;
            rc_cancelled := rc_cancelled rc; rc_finished := rc_finished rc;
            rc_durations := <[phase := default 0 (rc_durations rc !! phase) + (now - started)]> (rc_durations rc);
            rc_starts := delete phase (rc_starts rc);
            rc_sdk_started := rc_sdk_started rc;
            rc_sdk_completed := rc_sdk_completed rc + Z.b2z (is_sdk phase) |}
  end.

Record read_timing : Type := {
  deadline_seconds : Z; admission_seconds : Z; quota_wait_seconds : Z; worker_queue_seconds : Z; sdk_seconds : Z;
  total_seconds : Z; sdk_calls_started : Z; sdk_calls_completed : Z; sdk_in_flight : bool }.

(** [timing] *)
Definition timing (clock : Z) (rc : read_call) : read_timing :=
  let now := default clock (rc_finished rc) in
  let spent phase := default 0 (rc_durations rc !! phase)
                     + match rc_starts rc !! phase with Some s => Z.max 0 (now - s) | None => 0 end in
  {| deadline_seconds := rc_timeout rc; admission_seconds := spent "admission"; quota_wait_seconds := spent "quota";
     worker_queue_seconds := spent "worker_queue"; sdk_seconds := spent "sdk";
     total_seconds := Z.max 0 (now - rc_started rc); sdk_calls_started := rc_sdk_started rc;
     sdk_calls_completed := rc_sdk_completed rc; sdk_in_flight := bool_decide (is_Some (rc_starts rc !! "sdk")) |}.

(** How a read scope ends: the result of its body, [None] when its await was
    cancelled, the last check, and whether the timer had fired
    ([read_deadline]). *)
Definition scope_result {A} (body : option (result A)) (now : Z) (expired : bool) (rc : read_call) : result A :=
  match body with
  | None => Err (if expired then BrokerReadTimeoutError (rc_operation rc) (rc_phase rc) else RuntimeError "cancelled")
  | Some (Err e) => Err e
  | Some (Ok v) => match check now rc with
            | Err e => Err e
            | Ok _ => if expired then Err (BrokerReadTimeoutError (rc_operation rc) (rc_phase rc)) else Ok v
            end
  end.

(** ** All of them *)

(** A worker thread of [read_worker]: not yet run; running the function; past
    the check before an SDK call, made at a time; in the call, with the phase
    to return to; over, with or without a value. *)
Inductive thread : Type :=
  | Fresh
  | Running
  | Checked (at_ : Z)
  | InSdk (previous : string)
  | Ended (ok : bool).

(** Where the awaiting side is: in the body of the scope, waiting for a worker
    slot, holding one, awaiting the thread, or unwinding with an error. *)
Inductive place : Type :=
  | Body
  | Queued (previous : string)
  | Slot
  | Awaiting
  | Failed.

Record reader : Type := {
  r_call : read_call; r_open : bool; r_expired : bool; r_place : place; r_thread : option thread }.

Inductive read_event : Set :=
  | Refused
  | Started (id : nat) (checked_at : Z)
  | Dropped (id : nat)
  | Answered (id : nat) (at_ : Z).

#[export] Instance read_event_eq_dec : EqDecision read_event.
Proof. solve_decision. Defined.

(** The dispatcher's counters, its readers by number, and the log, newest
    first. *)
Record reads : Type := {
  y_now : Z; y_pending : Z; y_workers : Z; y_readers : list reader; y_log : list read_event }.

Section reads.
Context (max_pending max_inflight timeout : Z).

Definition new_reads (now : Z) : reads :=
  {| y_now := now; y_pending := 0; y_workers := 0; y_readers := []; y_log := [] |}.

Definition with_reader (id : nat) (r : reader) (s : reads) : reads :=
  {| y_now := y_now s; y_pending := y_pending s; y_workers := y_workers s;
     y_readers := <[id := r]> (y_readers s); y_log := y_log s |}.
Definition with_counts (pending workers : Z) (s : reads) : reads :=
  {| y_now := y_now s; y_pending := y_pending s + pending; y_workers := y_workers s + workers;
     y_readers := y_readers s; y_log := y_log s |}.
Definition noted (e : read_event) (s : reads) : reads :=
  {| y_now := y_now s; y_pending := y_pending s; y_workers := y_workers s; y_readers := y_readers s; y_log := e :: y_log s |}.
Definition at_place (p : place) (r : reader) : reader :=
  {| r_call := r_call r; r_open := r_open r; r_expired := r_expired r; r_place := p; r_thread := r_thread r |}.
Definition on_call (rc : read_call) (r : reader) : reader :=
  {| r_call := rc; r_open := r_open r; r_expired := r_expired r; r_place := r_place r; r_thread := r_thread r |}.
Definition in_thread (t : option thread) (r : reader) : reader :=
  {| r_call := r_call r; r_open := r_open r; r_expired := r_expired r; r_place := r_place r; r_thread := t |}.

(** [cancel], noting the first time. *)
Definition cancel (id : nat) (r : reader) (s : reads) : reads :=
  let s := with_reader id (on_call (with_cancelled (r_call r)) r) s in
  if rc_cancelled (r_call r) then s else noted (Dropped id) s.

(** The thread is over: its slot is released by the thread itself. *)
Definition end_thread (id : nat) (ok : bool) (r : reader) (s : reads) : reads :=
  with_counts 0 (-1) (with_reader id (in_thread (Some (Ended ok)) r) s).
Definition passes (now : Z) (r : reader) : bool := is_ok (check now (r_call r)).

Inductive act : Type :=
  | Pass (dt : Z)
  | Enter (operation : string)
  | Queue (id : nat)
  | Poll (id : nat)
  | Launch (id : nat) (ok : bool)
  | Run (id : nat)
  | CheckSdk (id : nat)
  | StartSdk (id : nat)
  | ReturnSdk (id : nat) (ok : bool)
  | Return (id : nat) (ok : bool)
  | Collect (id : nat)
  | Expire (id : nat)
  | Abandon (id : nat)
  | Unwind (id : nat)
  | Close (id : nat).

(** [read_deadline], its entry: over the limit nothing is created. *)
Definition enter_read (operation : string) (s : reads) : reads :=
  if max_pending <=? y_pending s then noted Refused s
  else with_counts 1 0
         {| y_now := y_now s; y_pending := y_pending s; y_workers := y_workers s;
            y_readers := y_readers s ++ [{| r_call := new_read operation timeout (y_now s); r_open := true;
                                            r_expired := false; r_place := Body; r_thread := None |}];
            y_log := y_log s |}.

(** Leaving the wait, and unwinding from wherever the reader is. *)
Definition leave_queue (failed : bool) (previous : string) (now : Z) (r : reader) : reader :=
  match measure_exit "worker_queue" previous failed now (r_call r) with Ok rc => on_call rc r | Err _ => r end.
Definition unwound (now : Z) (r : reader) : reader :=
  at_place Failed (match r_place r with Queued previous => leave_queue true previous now r | _ => r end).

(** The passes of [read_worker] waiting for a slot. *)
Definition poll_slot (id : nat) (previous : string) (r : reader) (s : reads) : option reads :=
  let now := y_now s in
  if negb (passes now r) then Some (with_reader id (at_place Failed (leave_queue true previous now r)) s)
  else if y_workers s <? max_inflight
  then Some (with_counts 0 1 (with_reader id (at_place Slot (leave_queue false previous now r)) s))
  else Some s.

Definition closed_reader (now : Z) (rc : read_call) (r : reader) : reader :=
  {| r_call := finish now rc; r_open := false; r_expired := r_expired r; r_place := r_place r; r_thread := r_thread r |}.

(** [read_deadline], its exit. *)
Definition close_read (id : nat) (r : reader) (s : reads) : reads :=
  let now := y_now s in
  let body := match r_place r with Failed => None | _ => Some (Ok tt) end in
  let closed rc := with_counts (-1) 0 (with_reader id (closed_reader now rc r) s) in
  match scope_result body now (r_expired r) (r_call r) with
  | Ok _ => noted (Answered id now) (closed (r_call r))
  | Err _ => if rc_cancelled (r_call r) then closed (r_call r)
             else noted (Dropped id) (closed (with_cancelled (r_call r)))
  end.

Definition next_act (a : act) (s : reads) : option reads :=
  let now := y_now s in
  match a with
  | Pass dt => if 0 <=? dt then
                 Some {| y_now := now + dt; y_pending := y_pending s; y_workers := y_workers s;
                         y_readers := y_readers s; y_log := y_log s |}
               else None
  | Enter operation => Some (enter_read operation s)
  | Queue id =>
      r ← y_readers s !! id;
      match r_open r, r_place r, rc_cancelled (r_call r) with
      | true, Body, false =>
          let '(previous, rc) := measure_enter "worker_queue" now (r_call r) in
          Some (with_reader id (at_place (Queued previous) (on_call rc r)) s)
      | _, _, _ => None
      end
  | Poll id =>
      r ← y_readers s !! id;
      match r_place r with Queued previous => poll_slot id previous r s | _ => None end
  | Launch id ok =>
      r ← y_readers s !! id;
      match r_place r with
      | Slot => Some (if ok then with_reader id (at_place Awaiting (in_thread (Some Fresh) r)) s
                      else with_counts 0 (-1) (with_reader id (at_place Failed r) s))
      | _ => None
      end
  | Run id =>
      r ← y_readers s !! id;
      match r_thread r with
      | Some Fresh => Some (if passes now r then with_reader id (in_thread (Some Running) r) s
                            else end_thread id false r s)
      | _ => None
      end
  | CheckSdk id =>
      r ← y_readers s !! id;
      match r_thread r with
      | Some Running => Some (if passes now r then with_reader id (in_thread (Some (Checked now)) r) s
                              else end_thread id false r s)
      | _ => None
      end
  | StartSdk id =>
      r ← y_readers s !! id;
      match r_thread r with
      | Some (Checked t) =>
          let '(previous, rc) := measure_enter "sdk" now (r_call r) in
          Some (noted (Started id t) (with_reader id (in_thread (Some (InSdk previous)) (on_call rc r)) s))
      | _ => None
      end
  | ReturnSdk id ok =>
      r ← y_readers s !! id;
      match r_thread r with
      | Some (InSdk previous) =>
          match measure_exit "sdk" previous (negb ok) now (r_call r) with
          | Err _ => None
          | Ok rc => let r := on_call rc r in
                     Some (if ok && passes now r then with_reader id (in_thread (Some Running) r) s
                           else end_thread id false r s)
          end
      | _ => None
      end
  | Return id ok =>
      r ← y_readers s !! id;
      match r_thread r with
      | Some Running => Some (end_thread id (ok && passes now r) r s)
      | _ => None
      end
  | Collect id =>
      r ← y_readers s !! id;
      match r_place r, r_thread r with
      | Awaiting, Some (Ended ok) => Some (with_reader id (at_place (if ok then Body else Failed) (in_thread None r)) s)
      | _, _ => None
      end
  | Expire id =>
      r ← y_readers s !! id;
      if r_open r && (rc_deadline (r_call r) <=? now) then
        Some (cancel id {| r_call := r_call r; r_open := r_open r; r_expired := true; r_place := r_place r;
                           r_thread := r_thread r |} s)
      else None
  | Abandon id =>
      r ← y_readers s !! id;
      match r_open r, r_place r with
      | true, Slot | false, _ => None
      | true, _ => Some (cancel id (unwound now r) s)
      end
  | Unwind id =>
      r ← y_readers s !! id;
      match r_place r with
      | Slot => None
      | _ => if rc_cancelled (r_call r) && r_open r then Some (with_reader id (unwound now r) s) else None
      end
  | Close id =>
      r ← y_readers s !! id;
      match r_open r, r_place r with
      | true, Body | true, Failed => Some (close_read id r s)
      | _, _ => None
      end
  end.

Definition read_step (s s' : reads) : Prop := exists a, next_act a s = Some s'.

Fixpoint acts (l : list act) (s : reads) : option reads :=
  match l with [] => Some s | a :: l => s ← next_act a s; acts l s end.
End reads.

(** ** What holds of every reader *)

Definition about (id : nat) (e : read_event) : Prop :=
  match e with Refused => False | Started i _ | Dropped i | Answered i _ => i = id end.

(** The SDK calls of a read that started after it was dropped. *)
Fixpoint late (id : nat) (l : list read_event) : Z :=
  match l with
  | [] => 0
  | e :: l => late id l + (if bool_decide (Dropped id ∈ l)
                           then match e with Started i _ => Z.b2z (bool_decide (i = id)) | _ => 0 end else 0)
  end.

Definition is_checked (t : option thread) : Z := match t with Some (Checked _) => 1 | _ => 0 end.
Definition alive (t : option thread) : bool := match t with None | Some (Ended _) => false | _ => true end.
(** The worker slot a reader holds, itself or through its thread. *)
Definition holds (r : reader) : Z :=
  Z.b2z (match r_place r with Slot => true | _ => false end) + Z.b2z (alive (r_thread r)).

Definition waiting (p : place) : Prop := match p with Slot | Queued _ => True | _ => False end.

Record reader_ok (l : list read_event) (id : nat) (r : reader) : Prop := {
  o_thread : match r_place r with Body | Queued _ | Slot => r_thread r = None | _ => True end;
  o_slot : waiting (r_place r) -> r_open r = true;
  o_checked : forall t, r_thread r = Some (Checked t) -> t < rc_deadline (r_call r);
  o_dropped : rc_cancelled (r_call r) = true <-> Dropped id ∈ l;
  o_late : Dropped id ∈ l -> late id l + is_checked (r_thread r) <= 1;
  o_early : Dropped id ∉ l -> late id l = 0;
  o_answered : forall t, Answered id t ∈ l ->
    r_open r = false /\ Dropped id ∉ l /\ t < rc_deadline (r_call r);
  o_started : forall t, Started id t ∈ l -> t < rc_deadline (r_call r) }.

Record reads_ok (max_pending max_inflight : Z) (s : reads) : Prop := {
  k_pending : y_pending s = zsum (map (fun r => Z.b2z (r_open r)) (y_readers s));
  k_workers : y_workers s = zsum (map holds (y_readers s));
  k_most_pending : y_pending s <= max_pending;
  k_most_workers : y_workers s <= max_inflight;
  k_readers : forall id r, y_readers s !! id = Some r -> reader_ok (y_log s) id r;
  k_log : forall e id, e ∈ y_log s -> about id e -> (id < length (y_readers s))%nat }.

Lemma late_frame id j l e : about id e -> j <> id -> late j (e :: l) = late j l.
Proof.
  intros He Hj. cbn. case_bool_decide; [|lia]. destruct e; cbn in He; subst; try lia. rewrite bool_decide_false by done. cbn. lia.
Qed.

Lemma reader_ok_frame l id j r e : about id e -> j <> id -> reader_ok l j r -> reader_ok (e :: l) j r.
Proof.
  intros He Hj [? ? ? Hd Hl Hea Ha Hs].
  assert (Hin : forall x, about j x -> x ∈ e :: l <-> x ∈ l).
  { intros x Hx. rewrite elem_of_cons. split; [|by right]. intros [->|?]; [|done]. by destruct e; cbn in *; subst. }
  split; try done; rewrite ?(late_frame id j l e He Hj), ?(Hin (Dropped j) eq_refl); try done.
  - intros t. rewrite (Hin (Answered j t) eq_refl), (Hin (Dropped j) eq_refl). by apply Ha.
  - intros t. rewrite (Hin (Started j t) eq_refl). by apply Hs.
Qed.

(** One reader changed, and at most one event about it was noted. *)
Lemma reads_ok_update mp mi s s' id r r' evs :
  reads_ok mp mi s -> y_readers s !! id = Some r ->
  y_readers s' = <[id := r']> (y_readers s) -> y_log s' = evs ++ y_log s -> Forall (about id) evs ->
  y_pending s' = y_pending s - Z.b2z (r_open r) + Z.b2z (r_open r') ->
  y_workers s' = y_workers s - holds r + holds r' ->
  y_pending s' <= mp -> y_workers s' <= mi -> reader_ok (y_log s') id r' -> reads_ok mp mi s'.
Proof.
  intros [Hp Hw _ _ Hr Hl] Hid Er El Hevs Ep Ew Hmp Hmi Hok. pose proof (lookup_lt_Some _ _ _ Hid) as Hlt.
  split; try done.
  - rewrite Er, Ep, Hp. by rewrite (zsum_insert (fun r => Z.b2z (r_open r)) _ _ _ _ Hid).
  - rewrite Er, Ew, Hw. by rewrite (zsum_insert holds _ _ _ _ Hid).
  - intros j rj. rewrite Er. destruct (decide (j = id)) as [->|Hj].
    + rewrite list_lookup_insert_eq by done. by intros [= <-].
    + rewrite list_lookup_insert_ne by done. intros H%Hr. rewrite El. clear -Hevs Hj H.
      induction Hevs; [done|]. by eapply reader_ok_frame.
  - intros e j. rewrite El, Er, length_insert. intros [He|He]%elem_of_app Ha; [|by eapply Hl].
    rewrite Forall_forall in Hevs. apply Hevs in He. destruct e; cbn in *; subst; done.
Qed.

(** ** The ways a reader changes *)

(** What the deadline and the drop flag of a call survive. *)
Definition same_call (rc rc' : read_call) : Prop :=
  rc_deadline rc' = rc_deadline rc /\ rc_cancelled rc' = rc_cancelled rc.

Lemma leave_queue_same failed previous now r :
  same_call (r_call r) (r_call (leave_queue failed previous now r))
  /\ r_open (leave_queue failed previous now r) = r_open r /\ r_place (leave_queue failed previous now r) = r_place r
  /\ r_thread (leave_queue failed previous now r) = r_thread r.
Proof. unfold leave_queue, measure_exit. by destruct (rc_starts (r_call r) !! "worker_queue"). Qed.

Lemma unwound_same now r :
  same_call (r_call r) (r_call (unwound now r)) /\ r_open (unwound now r) = r_open r
  /\ r_place (unwound now r) = Failed /\ r_thread (unwound now r) = r_thread r.
Proof.
  unfold unwound. cbn. destruct (r_place r); try done.
  destruct (leave_queue_same true previous now r) as (? & ? & _ & ?). by split_and!.
Qed.

Lemma passes_ok now r : passes now r = true -> rc_cancelled (r_call r) = false /\ now < rc_deadline (r_call r).
Proof.
  unfold passes, check. destruct (rc_cancelled _); [done|]. destruct (_ <=? _) eqn:E; [done|].
  intros _. by apply Z.leb_gt in E.
Qed.

(** Nothing was noted: the reader may move, its thread may go anywhere but past
    the check of an SDK call. *)
Lemma reader_ok_move l id r r' :
  reader_ok l id r -> same_call (r_call r) (r_call r') ->
  match r_place r' with Body | Queued _ | Slot => r_thread r' = None | _ => True end ->
  (waiting (r_place r') -> r_open r' = true) -> (r_open r' = true -> r_open r = true) ->
  is_checked (r_thread r') = 0 \/ r_thread r' = r_thread r -> reader_ok l id r'.
Proof.
  intros [? ? Hck Hd Hl ? Ha Hs] [Ed Ec] Hp Ho Hopen Ht. split; rewrite ?Ec, ?Ed; try done.
  - intros t E. destruct Ht as [Ht|Ht]; [by rewrite E in Ht|]. rewrite Ht in E. by apply Hck.
  - intros Hin. specialize (Hl Hin). destruct Ht as [->| ->]; [|done]. destruct (r_thread r) as [[]|]; cbn in Hl; lia.
  - intros t Hin. destruct (Ha t Hin) as (Hc & ? & ?). split_and!; [|done..].
    destruct (r_open r'); [|done]. rewrite Hopen in Hc by done. done.
Qed.

Lemma holds_place r p : r_place r <> Slot -> p <> Slot -> holds (at_place p r) = holds r.
Proof. intros H1 H2. unfold holds. cbn. by destruct (r_place r), p. Qed.

(** Dropping a reader: nothing it has not checked for yet will start. *)
Lemma reader_ok_drop l id r r' :
  reader_ok l id r -> r_open r = true -> rc_cancelled (r_call r') = true -> rc_deadline (r_call r') = rc_deadline (r_call r) ->
  match r_place r' with Body | Queued _ | Slot => r_thread r' = None | _ => True end ->
  (waiting (r_place r') -> r_open r' = true) -> r_thread r' = r_thread r ->
  let l' := if rc_cancelled (r_call r) then l else Dropped id :: l in
  reader_ok l' id r'.
Proof.
  intros [? ? Hck Hd Hl He Ha Hs] Hopen Ec Ed Hp Ho Et. cbv zeta.
  assert (Hna : forall t, Answered id t ∉ l) by (intros t Hin; destruct (Ha t Hin); congruence).
  destruct (rc_cancelled (r_call r)) eqn:E.
  - assert (Hin : Dropped id ∈ l) by tauto.
    split; rewrite ?Ec, ?Ed; try done; [by rewrite Et..|]. intros t H. by destruct (Hna t).
  - assert (Hin : Dropped id ∉ l) by (intros H; apply Hd in H; congruence).
    split; rewrite ?Ec, ?Ed; try done.
    + by rewrite Et.
    + split; [intros _; by left|done].
    + intros _. rewrite Et. cbn. rewrite bool_decide_false, He by done. destruct (r_thread r) as [[]|]; cbn; lia.
    + intros H. destruct H. by left.
    + intros t [?|H]%elem_of_cons; [done|]. by destruct (Hna t).
    + intros t [?|H]%elem_of_cons; [done|]. by apply Hs.
Qed.

Lemma cancel_ok mp mi s id r0 r :
  reads_ok mp mi s -> y_readers s !! id = Some r0 -> r_open r0 = true -> r_open r = true ->
  same_call (r_call r0) (r_call r) -> holds r = holds r0 -> r_thread r = r_thread r0 ->
  match r_place r with Body | Queued _ | Slot => r_thread r = None | _ => True end ->
  reads_ok mp mi (cancel id r s).
Proof.
  intros Hok Hid Ho0 Ho [Ed Ec] Hh Ht Hp.
  pose proof (reader_ok_drop (y_log s) id r0 (on_call (with_cancelled (r_call r)) r) (k_readers _ _ _ Hok _ _ Hid)
    Ho0 eq_refl Ed Hp (fun _ => Ho) Ht) as Hr. cbv zeta in Hr.
  assert (Eh : holds (on_call (with_cancelled (r_call r)) r) = holds r) by done.
  pose proof (k_most_pending _ _ _ Hok). pose proof (k_most_workers _ _ _ Hok).
  unfold cancel. rewrite Ec. destruct (rc_cancelled (r_call r0)).
  - eapply (reads_ok_update _ _ s _ id r0 _ []); try done; cbn; rewrite ?Ho0, ?Ho, ?Eh, ?Hh; lia.
  - eapply (reads_ok_update _ _ s _ id r0 _ [Dropped id]); try done; cbn; rewrite ?Ho0, ?Ho, ?Eh, ?Hh; try lia.
    by repeat constructor.
Qed.

(** A step that notes nothing and frees or takes [delta] worker slots. *)
Lemma move_ok mp mi s s' id r r' :
  reads_ok mp mi s -> y_readers s !! id = Some r ->
  y_readers s' = <[id := r']> (y_readers s) -> y_log s' = y_log s -> y_pending s' = y_pending s ->
  y_workers s' = y_workers s - holds r + holds r' -> y_workers s' <= mi -> r_open r' = r_open r ->
  same_call (r_call r) (r_call r') ->
  match r_place r' with Body | Queued _ | Slot => r_thread r' = None | _ => True end ->
  (waiting (r_place r') -> r_open r' = true) -> is_checked (r_thread r') = 0 \/ r_thread r' = r_thread r -> reads_ok mp mi s'.
Proof.
  intros Hok Hid Er El Ep Ew Hw Ho Hsame Hp Hs Hc. pose proof (k_most_pending _ _ _ Hok).
  eapply (reads_ok_update _ _ s _ id r r' []); try done; rewrite ?Ho, ?El; [lia|lia|].
  eapply reader_ok_move; try done; [by apply Hok|congruence].
Qed.

Lemma end_thread_ok mp mi s id ok r0 r :
  reads_ok mp mi s -> y_readers s !! id = Some r0 -> r_open r = r_open r0 -> r_place r = r_place r0 ->
  same_call (r_call r0) (r_call r) -> alive (r_thread r0) = true -> reads_ok mp mi (end_thread id ok r s).
Proof.
  intros Hok Hid Ho Hp Hsame Ha. pose proof (k_most_workers _ _ _ Hok).
  pose proof (o_thread _ _ _ (k_readers _ _ _ Hok _ _ Hid)) as Ht.
  eapply (move_ok _ _ s _ id r0 (in_thread (Some (Ended ok)) r)); try done; cbn; rewrite ?Hp, ?Z.add_0_r; try done; try lia.
  - unfold holds. cbn. rewrite Hp, Ha. cbn. lia.
  - destruct (r_place r0); try done; by rewrite Ht in Ha.
  - intros E. destruct (r_place r0); try done; by rewrite Ht in Ha.
Qed.

(** ** The actions *)

Section actions.
Context (max_pending max_inflight timeout : Z).

Lemma enter_ok operation s :
  reads_ok max_pending max_inflight s -> reads_ok max_pending max_inflight (enter_read max_pending timeout operation s).
Proof.
  intros [Hp Hw Hmp Hmw Hr Hl]. unfold enter_read. destruct (max_pending <=? y_pending s) eqn:E.
  - split; cbn; try done.
    + intros id r H. specialize (Hr id r H). destruct Hr as [? ? ? Hd Hla Hea Ha Hs].
      assert (Hin : forall x, x <> Refused -> x ∈ Refused :: y_log s <-> x ∈ y_log s).
      { intros x Hx. rewrite elem_of_cons. split; [by intros [?|?]|by right]. }
      split; rewrite ?(Hin (Dropped id) ltac:(done)); try done.
      * intros H'. cbn. case_bool_decide; [|done]. specialize (Hla H'). lia.
      * intros H'. cbn. rewrite bool_decide_false by done. rewrite Hea by done. lia.
      * intros t. rewrite (Hin (Answered id t) ltac:(done)), (Hin (Dropped id) ltac:(done)). apply Ha.
      * intros t. rewrite (Hin (Started id t) ltac:(done)). apply Hs.
    + intros e id [->|H]%elem_of_cons Hab; [done|by eapply Hl].
  - apply Z.leb_gt in E. split; cbn; rewrite ?map_app, ?zsum_app, ?Hp, ?Hw; cbn; try lia.
    + replace (holds _) with 0 by done. lia.
    + intros id r [H|[Hge H]]%lookup_app_Some; [by apply Hr|].
      apply list_lookup_singleton_Some in H as [Hi <-].
      assert (Hnone : forall e, about id e -> e ∉ y_log s) by (intros e Ha H; specialize (Hl e id H Ha); lia).
      assert (Hlate : late id (y_log s) = 0).
      { clear -Hnone. induction (y_log s) as [|e l IH]; [done|]. cbn. rewrite IH by (intros e' He' ?; apply (Hnone e' He'); by right).
        rewrite bool_decide_false; [lia|]. intros H. apply (Hnone (Dropped id) eq_refl). by right. }
      split; cbn; try done.
      * split; [done|]. intros H. by destruct (Hnone (Dropped id) eq_refl).
      * intros H. by destruct (Hnone (Dropped id) eq_refl).
      * intros t H. by destruct (Hnone (Answered id t) eq_refl).
      * intros t H. by destruct (Hnone (Started id t) eq_refl).
    + intros e id He Ha. rewrite length_app. specialize (Hl e id He Ha). lia.
Qed.

Abbreviation ok := (reads_ok max_pending max_inflight).

(** Marking a reader expired, as every change of what the model alone keeps. *)
Lemma start_sdk_ok s id r t previous rc :
  ok s -> y_readers s !! id = Some r -> r_thread r = Some (Checked t) -> same_call (r_call r) rc ->
  ok (noted (Started id t) (with_reader id (in_thread (Some (InSdk previous)) (on_call rc r)) s)).
Proof.
  intros Hok Hid Et [Ed Ec]. pose proof (k_most_pending _ _ _ Hok). pose proof (k_most_workers _ _ _ Hok).
  pose proof (k_readers _ _ _ Hok _ _ Hid) as [Hp Hs Hck Hd Hl He Ha Hst].
  eapply (reads_ok_update _ _ s _ id r _ [Started id t]); try done; cbn; [by repeat constructor|lia|unfold holds; cbn; rewrite Et; cbn; lia|].
  assert (Hin : forall e, e <> Started id t -> e ∈ Started id t :: y_log s <-> e ∈ y_log s).
  { intros e Hne. rewrite elem_of_cons. split; [by intros [?|?]|by right]. }
  split; cbn; rewrite ?Ec, ?Ed, ?(Hin (Dropped id) ltac:(done)); try done.
  - destruct (r_place r); try done; congruence.
  - intros Hdr. cbn. rewrite bool_decide_true by done. rewrite bool_decide_true by done.
    specialize (Hl Hdr). rewrite Et in Hl. cbn in *. lia.
  - intros Hdr. cbn. rewrite bool_decide_false by done. rewrite (He Hdr). lia.
  - intros x. rewrite (Hin (Answered id x) ltac:(done)), (Hin (Dropped id) ltac:(done)). apply Ha.
  - intros x [[= ->]|H']%elem_of_cons; [by apply Hck|by apply Hst].
Qed.

Lemma closed_holds now rc r : holds (closed_reader now rc r) = holds r.
Proof. done. Qed.

Lemma close_ok s id r : ok s -> y_readers s !! id = Some r -> r_open r = true ->
  (r_place r = Body \/ r_place r = Failed) -> ok (close_read id r s).
Proof.
  intros Hok Hid Ho Hpl. pose proof (k_most_pending _ _ _ Hok). pose proof (k_most_workers _ _ _ Hok).
  pose proof (k_readers _ _ _ Hok _ _ Hid) as Hr. unfold close_read. cbv zeta.
  set (now := y_now s). set (closed := fun rc => with_counts (-1) 0 (with_reader id (closed_reader now rc r) s)).
  assert (Hpt : match r_place r with Body | Queued _ | Slot => r_thread r = None | _ => True end) by apply Hr.
  assert (Hns : waiting (r_place r) -> false = true) by (by destruct Hpl as [-> | ->]).
  assert (Hdrop : ok (if rc_cancelled (r_call r) then closed (r_call r) else noted (Dropped id) (closed (with_cancelled (r_call r))))).
  { pose proof (reader_ok_drop (y_log s) id r (closed_reader now (if rc_cancelled (r_call r) then r_call r else with_cancelled (r_call r)) r)
      Hr Ho ltac:(by cbn; destruct (rc_cancelled (r_call r)) eqn:E; cbn) ltac:(cbn; by destruct (rc_cancelled (r_call r))) Hpt Hns eq_refl) as Hr'.
    cbv zeta in Hr'. destruct (rc_cancelled (r_call r)).
    - eapply (reads_ok_update _ _ s _ id r (closed_reader now (r_call r) r) []); try done; cbn; rewrite ?closed_holds, ?Ho; cbn; lia.
    - eapply (reads_ok_update _ _ s _ id r (closed_reader now (with_cancelled (r_call r)) r) [Dropped id]); try done; cbn; rewrite ?closed_holds, ?Ho; cbn; try lia.
      by repeat constructor. }
  unfold scope_result. destruct Hpl as [E|E]; rewrite E; [|exact Hdrop].
  destruct (check now (r_call r)) as [[]|e] eqn:Ec; [|exact Hdrop]. destruct (r_expired r) eqn:Ex; [exact Hdrop|].
  assert (Hpass : passes now r = true) by (unfold passes; by rewrite Ec). apply passes_ok in Hpass as [Hc Hlt].
  eapply (reads_ok_update _ _ s _ id r (closed_reader now (r_call r) r) [Answered id now]); try done; cbn; rewrite ?closed_holds, ?Ho; cbn; try lia; [by repeat constructor|].
  rewrite E in Hpt. destruct Hr as [_ _ _ Hd Hl He Ha Hst].
  assert (Hnd : Dropped id ∉ y_log s) by (intros H'; apply Hd in H'; congruence).
  assert (Hin : forall e, e <> Answered id now -> e ∈ Answered id now :: y_log s <-> e ∈ y_log s).
  { intros e Hne. rewrite elem_of_cons. split; [by intros [?|?]|by right]. }
  split; cbn; rewrite ?(Hin (Dropped id) ltac:(done)), ?E; try done.
  - intros t. by rewrite Hpt.
  - intros _. rewrite bool_decide_false by done. rewrite (He Hnd). lia.
  - intros t. rewrite (Hin (Dropped id) ltac:(done)). intros [[= ->]|H']%elem_of_cons; [by split_and!|]. destruct (Ha t H') as (? & ? & ?). by split_and!.
  - intros t. rewrite (Hin (Started id t) ltac:(done)). apply Hst.
Qed.

Lemma measure_exit_same phase previous failed now rc rc' : measure_exit phase previous failed now rc = Ok rc' -> same_call rc rc'.
Proof. unfold measure_exit. destruct (_ !! _); [by intros [= <-]|done]. Qed.

Ltac moved s id r :=
  eapply (move_ok _ _ s _ id r); try done; try (by left); cbn; unfold holds; cbn;
  try (by left); try (by right);
  repeat match goal with
         | E : r_place _ = _ |- _ => rewrite E
         | E : r_thread _ = _ |- _ => rewrite E
         | E : r_open _ = _ |- _ => rewrite E
         end; cbn; try done; try lia.

Lemma reads_step_ok s s' : ok s -> read_step max_pending max_inflight timeout s s' -> ok s'.
Proof.
  intros Hok [a H]. pose proof (k_most_workers _ _ _ Hok) as Hmw. unfold next_act in H.
  destruct a as [dt|operation|id|id|id launched|id|id|id|id worked|id worked|id|id|id|id|id];
    [destruct (0 <=? dt); [|done]; injection H as <-; by destruct Hok|injection H as <-; by apply enter_ok|..];
    (destruct (y_readers s !! id) as [r|] eqn:Hid; [|done]); cbn [mbind option_bind] in H;
    pose proof (k_readers _ _ _ Hok _ _ Hid) as Hr; pose proof (o_thread _ _ _ Hr) as Hth;
    pose proof (o_slot _ _ _ Hr) as Hsl.
  - (* Queue *)
    destruct (r_open r) eqn:Ho; [|done]. destruct (r_place r) eqn:Ep; try done. destruct (rc_cancelled (r_call r)); [done|].
    injection H as <-. moved s id r.
  - (* Poll *)
    destruct (r_place r) as [|previous| | |] eqn:Ep; try done. unfold poll_slot in H.
    destruct (passes (y_now s) r); cbn [negb] in H; [destruct (y_workers s <? max_inflight) eqn:Ew|]; injection H as <-; [|done|].
    1: pose proof (leave_queue_same false previous (y_now s) r) as (Hs & Ho & Hp & Ht).
    2: pose proof (leave_queue_same true previous (y_now s) r) as (Hs & Ho & Hp & Ht).
    all: moved s id r.
  - (* Launch *)
    destruct (r_place r) eqn:Ep; try done. injection H as <-. destruct launched; moved s id r.
  - (* Run *)
    destruct (r_thread r) as [[]|] eqn:Et; try done. injection H as <-. destruct (passes (y_now s) r).
    + moved s id r; destruct (r_place r); try done; congruence.
    + apply (end_thread_ok _ _ s id false r r); try done. by rewrite Et.
  - (* CheckSdk *)
    destruct (r_thread r) as [[]|] eqn:Et; try done. injection H as <-. destruct (passes (y_now s) r) eqn:Epass.
    + apply passes_ok in Epass as [Hc Hlt]. destruct Hr as [? ? ? Hd Hl He Ha Hst]. pose proof (k_most_pending _ _ _ Hok).
      eapply (reads_ok_update _ _ s _ id r _ []); try done; cbn; [lia|unfold holds; cbn; rewrite Et; cbn; lia|].
      split; cbn; try done; [destruct (r_place r); try done; congruence|by intros t [= <-]|].
      intros Hin%Hd. congruence.
    + apply (end_thread_ok _ _ s id false r r); try done. by rewrite Et.
  - (* StartSdk *)
    destruct (r_thread r) as [[]|] eqn:Et; try done. injection H as <-. by apply start_sdk_ok.
  - (* ReturnSdk *)
    destruct (r_thread r) as [[]|] eqn:Et; try done. destruct (measure_exit _ _ _ _ _) as [rc|] eqn:Em; [|done].
    apply measure_exit_same in Em. injection H as <-. destruct (worked && _).
    + moved s id r; destruct (r_place r); try done; congruence.
    + apply (end_thread_ok _ _ s id false r); try done. by rewrite Et.
  - (* Return *)
    destruct (r_thread r) as [[]|] eqn:Et; try done. injection H as <-.
    apply (end_thread_ok _ _ s id _ r r); try done. by rewrite Et.
  - (* Collect *)
    destruct (r_place r) eqn:Ep; try done. destruct (r_thread r) as [[]|] eqn:Et; try done. injection H as <-.
    destruct ok; moved s id r.
  - (* Expire *)
    destruct (r_open r && _) eqn:E; [|done]. injection H as <-. apply andb_true_iff in E as [Ho _].
    by apply (cancel_ok _ _ s id r).
  - (* Abandon *)
    destruct (r_open r) eqn:Ho; [|done]. destruct (unwound_same (y_now s) r) as (Hs & Ho' & Hp & Ht).
    destruct (r_place r) eqn:Ep; try done; injection H as <-; apply (cancel_ok _ _ s id r); try done; try congruence;
      try (unfold holds; by rewrite Hp, Ht, Ep); by rewrite Hp.
  - (* Unwind *)
    destruct (unwound_same (y_now s) r) as (Hs & Ho' & Hp & Ht).
    destruct (r_place r) eqn:Ep; try done; (destruct (_ && _) eqn:E; [|done]); injection H as <-;
      eapply (move_ok _ _ s _ id r (unwound (y_now s) r)); try done; try (by right); try (by rewrite Hp);
      cbn; unfold holds; rewrite Hp, Ht, Ep; cbn; lia.
  - (* Close *)
    destruct (r_open r) eqn:Ho; [|done]. destruct (r_place r) eqn:Ep; try done; injection H as <-;
      apply close_ok; try done; [left|right]; done.
Qed.
End actions.

(** ** The theorems *)

Definition reads_reachable (mp mi timeout : Z) (s : reads) : Prop :=
  exists t0, star (read_step mp mi timeout) (new_reads t0) s.

Lemma reads_reachable_ok mp mi timeout s : 0 <= mp -> 0 <= mi -> reads_reachable mp mi timeout s -> reads_ok mp mi s.
Proof.
  intros Hp Hi (t0 & H). eapply star_invariant; [|  |exact H].
  - intros x y Hx Hy. by eapply reads_step_ok.
  - split; cbn; try done. intros e id []%elem_of_nil.
Qed.

(** C30 The read budgets hold and are never leaked.  Whatever the clients, timers
    and worker threads do, the open reads are exactly the requests counted as
    pending and stay within their limit, and the slots taken are exactly those
    of readers about to start a thread and of threads that have not ended,
    abandoned ones included, within the limit of workers. *)
Theorem read_budgets_conserved mp mi timeout s :
  0 <= mp -> 0 <= mi -> reads_reachable mp mi timeout s ->
  y_pending s = Z.of_nat (length (List.filter r_open (y_readers s))) /\ y_pending s <= mp
  /\ y_workers s = zsum (map holds (y_readers s)) /\ y_workers s <= mi
  /\ ((forall r, r ∈ y_readers s -> alive (r_thread r) = false /\ r_place r <> Slot) -> y_workers s = 0).
Proof.
  intros Hp Hi H. destruct (reads_reachable_ok _ _ _ _ Hp Hi H) as [Ep Ew ? ? _ _]. split_and!; try done.
  - rewrite Ep. clear. induction (y_readers s) as [|r l IH]; [done|]. cbn. rewrite IH. destruct (r_open r); cbn [length Z.b2z]; lia.
  - intros Hall. rewrite Ew. clear -Hall. induction (y_readers s) as [|r l IH]; [done|]. cbn.
    rewrite IH by (intros r' Hr'; apply Hall; by right). destruct (Hall r ltac:(by left)) as [Ha Hs].
    unfold holds. rewrite Ha. by destruct (r_place r).
Qed.

(** C31 A read that was given up stops by itself and never answers.  Every SDK call
    of a read was allowed by a check made before its deadline; once the read is
    dropped, by its client, its timer or an error, at most the one call already
    past its check still starts; and a caller is answered only before the
    deadline of a read that was not dropped, and will not be. *)
Theorem abandoned_reads_stop mp mi timeout s id r :
  0 <= mp -> 0 <= mi -> reads_reachable mp mi timeout s -> y_readers s !! id = Some r ->
  (forall t, Started id t ∈ y_log s -> t < rc_deadline (r_call r))
  /\ late id (y_log s) <= 1
  /\ (forall t, Answered id t ∈ y_log s -> t < rc_deadline (r_call r) /\ Dropped id ∉ y_log s /\ r_open r = false).
Proof.
  intros Hp Hi H Hr. destruct (k_readers _ _ _ (reads_reachable_ok _ _ _ _ Hp Hi H) _ _ Hr) as [_ _ _ _ Hl He Ha Hs].
  split_and!.
  - exact Hs.
  - destruct (decide (Dropped id ∈ y_log s)) as [Hd|Hd]; [|rewrite He by done; lia]. specialize (Hl Hd).
    destruct (r_thread r) as [[]|]; cbn in Hl; lia.
  - intros t Hin. destruct (Ha t Hin) as (? & ? & ?). by split_and!.
Qed.

(** ** Examples *)

(** A read whose client leaves while its thread is past the check: the call it
    was about to make still starts, the one after it does not, and the slot is
    given back by the thread. *)
Definition demo_acts : list act :=
  [Enter "get_orders"; Queue 0; Poll 0; Launch 0 true; Run 0; CheckSdk 0; StartSdk 0; Pass 5; ReturnSdk 0 true;
   CheckSdk 0; Abandon 0; Close 0; StartSdk 0; Enter "get_deals"; Queue 1; Poll 1; ReturnSdk 0 true; Poll 1].
Definition demo_reads : reads := default (new_reads 0) (acts 1 1 100 demo_acts (new_reads 0)).

Example reads_ex :
  y_log demo_reads = [Started 0 5; Dropped 0; Started 0 0] /\ late 0 (y_log demo_reads) = 1
  /\ (y_pending demo_reads, y_workers demo_reads, map r_open (y_readers demo_reads)) = (1, 1, [false; true]).
Proof. by vm_compute. Qed.

Lemma acts_reachable mp mi timeout l s s' :
  acts mp mi timeout l s = Some s' -> star (read_step mp mi timeout) s s'.
Proof.
  revert s s'. induction l as [|a l IH] using rev_ind; intros s s' H; [injection H as <-; constructor|].
  assert (Happ : acts mp mi timeout (l ++ [a]) s = acts mp mi timeout l s ≫= fun s => next_act mp mi timeout a s).
  { clear. revert s. induction l as [|b l IH]; intros s; [cbn; by destruct (next_act _ _ _ a s)|]. cbn.
    destruct (next_act _ _ _ b s); [apply IH|done]. }
  rewrite Happ in H. destruct (acts mp mi timeout l s) as [s1|] eqn:E; [|done]. cbn in H.
  eapply star_snoc; [by apply IH|]. by exists a.
Qed.

Lemma demo_reachable_reads : reads_reachable 1 1 100 demo_reads.
Proof. exists 0. eapply acts_reachable with demo_acts. vm_compute. reflexivity. Qed.

Lemma read_budgets_conserved_witness : y_pending demo_reads <= 1 /\ y_workers demo_reads <= 1.
Proof.
  destruct (read_budgets_conserved 1 1 100 demo_reads ltac:(lia) ltac:(lia) demo_reachable_reads) as (_ & H1 & _ & H2 & _).
  split; [exact H1|exact H2].
Defined.

Lemma abandoned_reads_stop_witness :
  exists r, y_readers demo_reads !! 0%nat = Some r /\ Dropped 0 ∈ y_log demo_reads /\ late 0 (y_log demo_reads) <= 1.
Proof.
  destruct (y_readers demo_reads !! 0%nat) as [r|] eqn:E; [|by vm_compute in E]. exists r. split; [done|].
  split; [by apply (bool_decide_unpack _); vm_compute|].
  exact (proj1 (proj2 (abandoned_reads_stop 1 1 100 demo_reads 0 r ltac:(lia) ltac:(lia) demo_reachable_reads E))).
Defined.
