(* ===== verification/JsonText.v ===== *)
(** The text [json.dumps] writes, for the places where its length is limited:
    [repr] of a float, string escapes with [ensure_ascii], and the two separator
    styles the program uses. *)

From Stdlib Require Import SpecFloat.
From S2P Require Import Prelude PyStr PyFloat PyDec PyVal.

Definition dot_digits (ds : list Z) (point : Z) : string :=
  let n := Z.to_nat point in
  string_of (map digit_char (firstn n ds)) ++ "." ++ string_of (map digit_char (skipn n ds)).

(** An exponent as [repr] writes it: a sign and at least two digits. *)
Definition exponent_text (e : Z) : string :=
  let s := str_nat (Z.abs e) in
  "e" ++ (if e <? 0 then "-" else "+") ++ (if Z.abs e <? 10 then "0" ++ s else s).

(** [repr(x)] *)
Definition f_repr (x : float) : string :=
  match x with
  | S754_nan => "nan"
  | S754_infinity s => if s then "-inf" else "inf"
  | S754_zero s => if s then "-0.0" else "0.0"
  | S754_finite s m e =>
      let '(c, k) := f_shortest m e in
      let ds := digits c in
      let point := num_digits c + k in
      (if s then "-" else "") ++
      (if (-4 <? point) && (point <=? 16) then
         if 0 <=? k then string_of (map digit_char ds) ++ string_of (map digit_char (zeros (Z.to_nat k))) ++ ".0"
         else if 0 <? point then dot_digits ds point
         else "0." ++ string_of (map digit_char (zeros (Z.to_nat (- point)))) ++ string_of (map digit_char ds)
       else (if 1 <? num_digits c then dot_digits ds 1 else string_of (map digit_char ds))
            ++ exponent_text (point - 1))
  end.

Example f_repr_ex :
  map (fun s => f_repr (f_lit s)) ["1"; "-2.5"; "0.001"; "0.00001"; "123456789012345678"; "1e16"; "1e15"; "0.5"]
  = ["1.0"; "-2.5"; "0.001"; "1e-05"; "1.2345678901234568e+17"; "1e+16"; "1000000000000000.0"; "0.5"].
Proof. vm_compute. reflexivity. Qed.

Definition hex_digit (z : Z) : ascii := if z <? 10 then chr (48 + z) else chr (87 + z).

Definition quote_mark : ascii := chr 34.
Definition backslash : ascii := chr 92.

Definition escape_char (c : ascii) : string :=
  let z := code c in
  if (z =? 34) || (z =? 92) then String backslash (String c "")
  else if z =? 10 then String backslash "n"
  else if z =? 13 then String backslash "r"
  else if z =? 9 then String backslash "t"
  else if z =? 8 then String backslash "b"
  else if z =? 12 then String backslash "f"
  else if in_range 32 126 z then String c ""
  else String backslash ("u00" ++ String (hex_digit (z / 16)) (String (hex_digit (z mod 16)) "")).

Fixpoint escape (s : string) : string :=
  match s with "" => "" | String c s => escape_char c ++ escape s end.
Definition json_string (s : string) : string :=
  String quote_mark (escape s ++ String quote_mark "").

(** [json.dumps(v)]: [sep] and [colon] are the separators. *)
Fixpoint json_text (sep colon : string) (v : val) : string :=
  match v with
  | VNone => "null"
  | VBool b => if b then "true" else "false"
  | VInt z => str_int z
  | VFloat f => f_repr f
  | VStr s => json_string s
  | VList l =>
      "[" ++ (fix go (l : list val) : string :=
                match l with
                | [] => ""
                | [v] => json_text sep colon v
                | v :: l => json_text sep colon v ++ sep ++ go l
                end) l ++ "]"
  | VDict d =>
      "{" ++ (fix go (d : dict) : string :=
                match d with
                | [] => ""
                | [(k, v)] => json_string k ++ colon ++ json_text sep colon v
                | (k, v) :: d => json_string k ++ colon ++ json_text sep colon v ++ sep ++ go d
                end) d ++ "}"
  end.

(** [separators=(",", ":")] and the default. *)
Definition json_compact : val -> string := json_text "," ":".
Definition json_default : val -> string := json_text ", " ": ".

(** ASCII text: its length in characters is its length in UTF-8 bytes. *)
Example json_default_ex :
  len (json_default (VDict [("a", VList [VInt 1; VNone]); ("b", VStr (String quote_mark "x"))])) = 28.
Proof. vm_compute. reflexivity. Qed.
