(* ===== verification/Controls.v ===== *)
(** services/trading_controls.py: operator approvals, the daily submission
    budget and the operator's pause, in one SQLite database per deployment.

    Amounts are decimals and their sums exact.  Clock readings are integers of a
    microsecond; a UTC day is its number since the epoch.  The [caps] and
    [require_approval] of each call come from the policy. *)

From Stdlib Require Import SpecFloat.
From S2P Require Import Prelude PyStr PyFloat PyDec DecText PyVal JsonText Identity Validation.
From S2P Require Import Policy Rules.

(** ** Exact sums *)

Definition int_digits_of (d : dec) : Z := Z.max (d_adjusted d + 1) 1.
Definition frac_digits_of (d : dec) : Z := Z.max (- d_exp d) 0.
Definition list_max (dflt : Z) (l : list Z) : Z :=
  match l with [] => dflt | x :: l => fold_left Z.max l x end.

Definition sum_precision (values : list dec) : Z :=
  Z.max 28 (list_max 1 (map int_digits_of values) + list_max 0 (map frac_digits_of values)
            + num_digits (Z.of_nat (length values)) + 1).

(** [_sum_exact] *)
Definition _sum_exact (values : list dec) : dec := d_sum (sum_precision values) values.

(** ** Canonical requests *)

Definition number_text (d : decimal) : result val :=
  match d with
  | DFin d => Ok (VDict [("number", VStr (num_text d))])
  | _ => Err (ValueError "Prepared request numbers must be finite")
  end.

(** [_number] *)
Fixpoint _number (v : val) : result val :=
  match v with
  | VInt z => number_text (DFin (d_of_Z z))
  | VFloat f => number_text (d_of_float f)
  | VDict d =>
      bind ((fix go (d : dict) : result dict :=
               match d with
               | [] => Ok []
               | (k, w) :: d => bind (_number w) (fun w' => bind (go d) (fun d' => Ok ((k, w') :: d')))
               end) d) (fun d' => Ok (VDict d'))
  | VList l =>
      bind ((fix go (l : list val) : result (list val) :=
               match l with
               | [] => Ok []
               | w :: l => bind (_number w) (fun w' => bind (go l) (fun l' => Ok (w' :: l')))
               end) l) (fun l' => Ok (VList l'))
  | _ => Ok v
  end.

Section controls.
Context `{SessionNames}.

(** [str(params["acc_id"])] as one exact decimal identifier. *)
Definition exact_account (v : val) : result string :=
  match str_scalar v with
  | Some s => if isascii s && isdecimal s then Ok (str_int (int_of s))
              else Err (ValueError "Prepared account must be an exact decimal identifier")
  | None => Err (ValueError "Prepared account must be an exact decimal identifier")
  end.

(** [{**d, **d'}] *)
Definition dupdate (d d' : dict) : dict := fold_left (fun d kv => dset (fst kv) (snd kv) d) d' d.

Definition on_key (k : string) (f : val -> result val) (d : dict) : result dict :=
  match dget k d with
  | Some v => bind (f v) (fun w => Ok (dset k w d))
  | None => Ok d
  end.

Definition is_text_of (s : string) (v : val) : bool :=
  match v with VStr t => bool_decide (t = s) | _ => false end.

(** A session that states no more than the default. *)
Definition default_session (params : dict) : bool :=
  let s := dget_none "session" params in
  is_none s || is_text_of "N/A" s || is_text_of "NONE" s
  || (is_text_of "SIMULATE" (dget_none "trd_env" params) && is_text_of "RTH" s).

(** [canonical_intent]: the value whose text is compared. *)
Definition canonical_intent (method : string) (parameters : dict) : result val :=
  (p1 <- on_key "modify_order_op" (fun v => Ok (VStr (named v))) (dpop "approval_id" parameters) ;;
   p2 <- on_key "acc_id" (fun v => bind (exact_account v) (fun s => Ok (VStr s))) p1 ;;
   p3 <- on_key "session" (fun v => bind (normalize_order_session v "REAL") (fun s => Ok (VStr s))) p2 ;;
   let params := if default_session p3 then dpop "session" p3 else p3 in
   n <- _number (VDict params) ;;
   encoded <- json_dumps (sort_keys (VDict [("method", VStr method); ("parameters", n)])) ;;
   _ <- refuse_if (65536 <? len (json_compact encoded)) (ValueError "Prepared request exceeds 64 KiB") ;;
   Ok encoded)%py.

Definition opt_float (o : option float) : val := match o with Some f => VFloat f | None => VNone end.

(** [contract_view] *)
Definition contract_view (facts : OrderFacts) : result val :=
  _number (VDict
    [("order_type", VStr (order_type facts)); ("trd_side", VStr (trd_side facts));
     ("qty", VInt (qty facts)); ("price", opt_float (price facts));
     ("aux_price", opt_float (aux_price facts)); ("is_combo", VBool (is_combo facts));
     ("legs", VList (map (fun l => VDict
        [("code", VStr (code_of l)); ("qty_ratio", VInt (qty_ratio l));
         ("monetary_multiplier", opt_float (monetary_multiplier (instrument l)))]) (legs facts)))]).

(** ** The database *)

Inductive decision : Set := PENDING | APPROVED | REJECTED | CONSUMED.
#[export] Instance decision_eq_dec : EqDecision decision.
Proof. solve_decision. Defined.

Record prepared : Type := {
  p_canonical : val; p_parameters : val; p_review : val; p_created_at : Z; p_expires_at : Z;
  p_status : decision; p_operator_id : option string; p_reason : option string;
  p_decided_at : option Z; p_consumed_at : option Z }.

Record charge : Type := {
  ch_environment : string; ch_account : string; ch_operation_id : string; ch_canonical : val;
  ch_day : Z; ch_currency : option string; ch_amount : dec; ch_approval_id : option string;
  ch_created_at : Z }.

Record pause : Type := { pa_paused : bool; pa_operator_id : string; pa_reason : string; pa_updated_at : Z }.

Record cdb : Type := {
  c_prepared : gmap string prepared; c_charges : list charge;
  c_pauses : gmap (string * string) pause }.

Record controls : Type := { k_closed : bool; k_failed : bool; k_db : cdb }.

Definition empty_cdb : cdb := {| c_prepared := ∅; c_charges := []; c_pauses := ∅ |}.

Definition with_prepared (f : gmap string prepared -> gmap string prepared) (d : cdb) : cdb :=
  {| c_prepared := f (c_prepared d); c_charges := c_charges d; c_pauses := c_pauses d |}.
Definition with_charge (c : charge) (d : cdb) : cdb :=
  {| c_prepared := c_prepared d; c_charges := c_charges d ++ [c]; c_pauses := c_pauses d |}.

Definition control_error {A} (msg : string) : result A := Err (TradingControlError msg).

(** [_transaction]: [broken] is an SQLite error anywhere inside, which fails
    the store; any other exception rolls back and passes. *)
Definition transaction (broken : bool) {A} (body : cdb -> result (A * cdb)) : SE controls A := fun s =>
  if k_closed s || k_failed s then (control_error "Trading controls storage is blocked", s)
  else if broken
  then (control_error "Trading controls storage is blocked",
        {| k_closed := k_closed s; k_failed := true; k_db := k_db s |})
  else match body (k_db s) with
       | Ok (a, d) => (Ok a, {| k_closed := k_closed s; k_failed := k_failed s; k_db := d |})
       | Err e => (Err e, s)
       end.

(** ** Pauses *)

(** [_pause_scope] *)
Definition _pause_scope (environment account : string) : result (string * string) :=
  let env := upper (strip environment) in
  if negb (mem env ["REAL"; "SIMULATE"]) then Err (ValueError "trd_env must be REAL or SIMULATE")
  else if negb (isascii account) || negb (isdecimal account)
  then Err (ValueError "acc_id must be an exact decimal identifier")
  else Ok (env, str_int (int_of account)).

Definition paused_at (env account : string) (d : cdb) : bool :=
  match c_pauses d !! (env, account) with Some p => pa_paused p | None => false end.

(** [pause_state(...)["paused"]] *)
Definition pause_state (broken : bool) (environment account : string) : SE controls bool :=
  (do! (env, acc) := se_lift (_pause_scope environment account) in
   transaction broken (fun d => Ok (paused_at env "0" d || paused_at env acc d, d)))%se.

(** [set_paused] *)
Definition set_paused (broken broken' : bool) (now : Z) (environment : string) (paused : bool)
    (operator_id reason account : string) : SE controls bool :=
  (do! (env, acc) := se_lift (_pause_scope environment account) in
   _ <- se_lift (refuse_if (negb (nonempty operator_id) || (128 <? len operator_id)
                            || negb (isprintable operator_id))
                   (ValueError "Operator identity is required and bounded")) ;;
   _ <- se_lift (refuse_if (negb (nonempty (strip reason)) || (2000 <? len reason) || negb (isprintable reason))
                   (ValueError "A bounded printable reason is required")) ;;
   _ <- transaction broken (fun d =>
          Ok (tt, {| c_prepared := c_prepared d; c_charges := c_charges d;
                     c_pauses := <[(env, acc) := {| pa_paused := paused; pa_operator_id := operator_id;
                                                    pa_reason := reason; pa_updated_at := now |}]>
                                   (c_pauses d) |})) ;;
   pause_state broken' env acc)%se.

(** [check_new_risk] *)
Definition check_new_risk (broken : bool) (environment account : string) : SE controls unit :=
  (p <- pause_state broken environment account ;;
   if p then se_raise (TradingControlError "exposure is paused by the operator") else se_ret tt)%se.

(** ** Approvals *)

Definition second : Z := 1000000.

(** [prepare]; [id] is the [uuid4] drawn. *)
Definition prepare (broken : bool) (now : Z) (id method : string) (parameters review : dict)
    (ttl_seconds : Z) : SE controls prepared :=
  (_ <- se_lift (refuse_if (negb (in_range 1 900 ttl_seconds))
                   (ValueError "Approval expiry must be between 1 and 900 seconds")) ;;
   canonical <- se_lift (canonical_intent method parameters) ;;
   payload <- se_lift (json_dumps (VDict (dupdate [("method", VStr method)] parameters))) ;;
   evidence <- se_lift (json_dumps (VDict review)) ;;
   _ <- se_lift (refuse_if (65536 <? len (json_default evidence)) (ValueError "Prepared review exceeds 64 KiB")) ;;
   transaction broken (fun d =>
     let row := {| p_canonical := canonical; p_parameters := payload; p_review := evidence;
                   p_created_at := now; p_expires_at := now + ttl_seconds * second;
                   p_status := PENDING; p_operator_id := None; p_reason := None;
                   p_decided_at := None; p_consumed_at := None |} in
     match c_prepared d !! id with
     | Some _ => Err (SqliteError "UNIQUE constraint failed: prepared.request_id")
     | None => Ok (row, with_prepared <[id := row]> d)
     end))%se.

(** [get]: an undecided or unused approval past its time shows as expired. *)
Inductive shown : Set := Shown (s : decision) | Expired.
Definition get (broken : bool) (now : Z) (id : string) : SE controls (prepared * shown) :=
  (row <- transaction broken (fun d =>
            match c_prepared d !! id with
            | Some r => Ok (r, d)
            | None => Err (ValueError "Prepared request does not exist")
            end) ;;
   se_ret (row, if (bool_decide (p_status row = PENDING) || bool_decide (p_status row = APPROVED))
                   && (p_expires_at row <=? now)
                then Expired else Shown (p_status row)))%se.

Definition decided (s : decision) (op reason : string) (now : Z) (r : prepared) : prepared :=
  {| p_canonical := p_canonical r; p_parameters := p_parameters r; p_review := p_review r;
     p_created_at := p_created_at r; p_expires_at := p_expires_at r; p_status := s;
     p_operator_id := Some op; p_reason := Some reason; p_decided_at := Some now;
     p_consumed_at := p_consumed_at r |}.

(** [decide]; the expiry is read at [now], the decision stamped at [now']. *)
Definition decide (broken : bool) (now now' : Z) (id choice operator_id reason : string)
    : SE controls prepared :=
  (status <- se_lift (if bool_decide (choice = "APPROVED") then Ok APPROVED
                      else if bool_decide (choice = "REJECTED") then Ok REJECTED
                      else Err (ValueError "Decision must be APPROVED or REJECTED")) ;;
   _ <- se_lift (refuse_if (negb (nonempty operator_id) || (128 <? len operator_id))
                   (ValueError "Operator identity is required and bounded")) ;;
   _ <- se_lift (refuse_if (negb (nonempty (strip reason)) || (2000 <? len reason))
                   (ValueError "A decision reason of at most 2000 characters is required")) ;;
   transaction broken (fun d =>
     match c_prepared d !! id with
     | None => Err (ValueError "Prepared request does not exist")
     | Some row =>
         if negb (bool_decide (p_status row = PENDING)) || (p_expires_at row <=? now)
         then control_error "Prepared decision is final or expired"
         else let row' := decided status operator_id reason now' row in
              Ok (row', with_prepared <[id := row']> d)
     end))%se.

(** [_approved] *)
Definition _approved (d : cdb) (now : Z) (approval_id : option string) (canonical : val)
    (contract : option val) (verify_contract : bool) : result (string * prepared) :=
  match approval_id with
  | None => control_error "A trusted operator approval is required"
  | Some id =>
      if negb (nonempty id) then control_error "A trusted operator approval is required"
      else match c_prepared d !! id with
      | None => control_error "Approval does not match the exact request"
      | Some row =>
          if negb (bool_decide (p_canonical row = canonical))
          then control_error "Approval does not match the exact request"
          else if negb (bool_decide (p_status row = APPROVED)) || (p_expires_at row <=? now)
          then control_error "Approval is missing, rejected, consumed or expired"
          else if verify_contract
                  && negb (py_eqb (match p_review row with VDict r => dget_none "contract" r | _ => VNone end)
                             (default VNone contract))
          then control_error "Approved target contract changed; prepare again"
          else Ok (id, row)
      end
  end.

(** [check_approval] *)
Definition check_approval (broken : bool) (now : Z) (method : string) (parameters : dict)
    (approval_id : option string) : SE controls unit :=
  transaction broken (fun d =>
    (canonical <- canonical_intent method parameters ;;
     _ <- _approved d now approval_id canonical None false ;;
     Ok (tt, d))%py).

(** ** The daily budget *)

Definition utc_day (now : Z) : Z := now / (86400 * second).

Definition same_operation (env acc op : string) (c : charge) : bool :=
  bool_decide (ch_environment c = env) && bool_decide (ch_account c = acc)
  && bool_decide (ch_operation_id c = op).
Definition on_day (day : Z) (env acc cur : string) (c : charge) : bool :=
  (ch_day c =? day) && bool_decide (ch_environment c = env) && bool_decide (ch_account c = acc)
  && bool_decide (ch_currency c = Some cur).

Definition amounts (p : charge -> bool) (d : cdb) : list dec :=
  map ch_amount (List.filter p (c_charges d)).

Definition consumed (now : Z) (r : prepared) : prepared :=
  {| p_canonical := p_canonical r; p_parameters := p_parameters r; p_review := p_review r;
     p_created_at := p_created_at r; p_expires_at := p_expires_at r; p_status := CONSUMED;
     p_operator_id := p_operator_id r; p_reason := p_reason r; p_decided_at := p_decided_at r;
     p_consumed_at := Some now |}.

(** [str(int(str(parameters["acc_id"])))] and the identity fields. *)
Definition text_item (k : string) (d : dict) : result string :=
  (v <- ditem k d ;; match v with VStr s => Ok s | _ => Err (TypeError "a string is required") end)%py.
Definition account_item (parameters : dict) : result string :=
  (v <- ditem "acc_id" parameters ;;
   match str_scalar v with
   | Some s => if isdecimal (strip s) then Ok (str_int (int_of (strip s)))
               else Err (ValueError "invalid literal for int() with base 10")
   | None => Err (ValueError "invalid literal for int() with base 10")
   end)%py.

(** The budget check of one charge. *)
Definition check_budget (caps : gmap string float) (d : cdb) (day : Z) (env acc : string)
    (currency : option string) (amount : dec) : result unit :=
  if negb (bool_decide (caps = ∅)) && d_gtb amount d_zero then
    match currency with
    | None => control_error "Daily budget currency cannot be established or is uncapped"
    | Some cur =>
        match caps !! cur with
        | None => control_error "Daily budget currency cannot be established or is uncapped"
        | Some cap =>
            let used := _sum_exact (amounts (on_day day env acc cur) d) in
            let charged := _sum_exact [used; amount] in
            match d_of_float cap with
            | DFin c => if d_gtb charged c then control_error "Daily submission budget exceeded" else Ok tt
            | DInf false => Ok tt
            | DInf true => control_error "Daily submission budget exceeded"
            | DNan => Err InvalidOperation
            end
        end
    end
  else Ok tt.

(** [consume] *)
Definition consume (broken : bool) (now now' : Z) (method : string) (parameters : dict)
    (approval_id : option string) (require_approval : bool) (currency : option string)
    (amount : decimal) (caps : gmap string float) (contract : option val) : SE controls unit :=
  (canonical <- se_lift (canonical_intent method parameters) ;;
   environment <- se_lift (text_item "trd_env" parameters) ;;
   account <- se_lift (account_item parameters) ;;
   operation <- se_lift (text_item "operation_id" parameters) ;;
   _ <- se_lift (refuse_if (negb (nonempty operation) || negb (truthy (dget_none "admission_epoch" parameters)))
                   (TradingControlError "Trading controls require durable operation identity")) ;;
   amount <- se_lift (match amount with
                      | DFin a => if d_ltb a d_zero then control_error "Daily budget valuation is invalid" else Ok a
                      | _ => control_error "Daily budget valuation is invalid"
                      end) ;;
   transaction broken (fun d =>
     let day := utc_day now in
     (_ <- match List.filter (same_operation environment account operation) (c_charges d) with
           | [] => Ok tt
           | c :: _ => if bool_decide (ch_canonical c = canonical)
                       then control_error "Trading control reservation is already consumed"
                       else control_error "Daily budget operation identity conflict"
           end ;;
      approved <- (if require_approval
                   then bind (_approved d now' approval_id canonical contract true) (fun x => Ok (Some x))
                   else Ok None) ;;
      _ <- check_budget caps d day environment account currency amount ;;
      let d1 := with_charge {| ch_environment := environment; ch_account := account;
                               ch_operation_id := operation; ch_canonical := canonical; ch_day := day;
                               ch_currency := currency; ch_amount := amount;
                               ch_approval_id := approval_id; ch_created_at := now |} d in
      Ok (tt, match approved with
              | Some (id, row) => with_prepared <[id := consumed now row]> d1
              | None => d1
              end))%py))%se.

(** [confirm_reservation] *)
Definition confirm_reservation (broken : bool) (now now' : Z) (method : string) (parameters : dict)
    (approval_id : option string) (require_approval : bool) (contract : option val) : SE controls unit :=
  (canonical <- se_lift (canonical_intent method parameters) ;;
   transaction broken (fun d =>
     (environment <- text_item "trd_env" parameters ;;
      account <- account_item parameters ;;
      operation <- text_item "operation_id" parameters ;;
      match List.filter (same_operation environment account operation) (c_charges d) with
      | [] => control_error "Trading control reservation is unavailable"
      | c :: _ =>
          if negb (bool_decide (ch_canonical c = canonical))
          then control_error "Trading control reservation is unavailable"
          else if negb (ch_day c =? utc_day now)
          then control_error "Daily reservation expired at the UTC day boundary"
          else if negb require_approval then Ok (tt, d)
          else match (id ← approval_id; c_prepared d !! id) with
               | None => control_error "Approval expired before broker dispatch"
               | Some row =>
                   if negb (bool_decide (p_canonical row = canonical))
                      || negb (bool_decide (p_status row = CONSUMED))
                      || negb (bool_decide (ch_approval_id c = approval_id))
                      || (p_expires_at row <=? now')
                   then control_error "Approval expired before broker dispatch"
                   else if negb (py_eqb (match p_review row with VDict r => dget_none "contract" r | _ => VNone end)
                                   (default VNone contract))
                   then control_error "Approved target contract changed; prepare again"
                   else Ok (tt, d)
               end
      end)%py))%se.

(** [usage]: the exact totals of one account's day, per currency. *)
Fixpoint sset {A} (k : string) (v : A) (d : list (string * A)) : list (string * A) :=
  match d with
  | [] => [(k, v)]
  | (k', w) :: d => if bool_decide (k = k') then (k', v) :: d else (k', w) :: sset k v d
  end.
Definition usage_step (totals : list (string * dec)) (c : charge) : list (string * dec) :=
  match ch_currency c with
  | Some cur =>
      if nonempty cur then
        let total := _sum_exact [default d_zero (sget cur totals); ch_amount c] in
        sset cur total totals
      else totals
  | None => totals
  end.
Definition usage (broken : bool) (now : Z) (environment account : string) : SE controls (list (string * dec)) :=
  transaction broken (fun d =>
    Ok (fold_left usage_step
          (List.filter (fun c => (ch_day c =? utc_day now) && bool_decide (ch_environment c = environment)
                                 && bool_decide (ch_account c = account)) (c_charges d)) [], d)).

Definition health (s : controls) : string := if k_closed s || k_failed s then "BLOCKED" else "READY".
Definition close : SE controls unit := fun s =>
  (Ok tt, {| k_closed := true; k_failed := k_failed s; k_db := k_db s |}).
End controls.

(** ** The sums are exact *)

Lemma fold_max_ge l x : x <= fold_left Z.max l x /\ Forall (fun y => y <= fold_left Z.max l x) l.
Proof.
  revert x; induction l as [|y l IH]; intros x; simpl; [split; [lia|constructor]|].
  destruct (IH (Z.max x y)) as [H1 H2]. split; [lia|]. constructor; [lia|done].
Qed.

Lemma list_max_ge dflt l : Forall (fun y => y <= list_max dflt l) l.
Proof. destruct l as [|x l]; simpl; [constructor|]. destruct (fold_max_ge l x). by constructor. Qed.

Lemma list_max_map {A} dflt (f : A -> Z) l : Forall (fun a => f a <= list_max dflt (map f l)) l.
Proof. apply (Forall_map f (fun y => y <= _)), list_max_ge. Qed.

Lemma d_bound d k : d_wf d -> d_adjusted d + 1 <= k -> 0 <= k ->
  forall e, e <= 0 -> e <= d_exp d -> Z.abs (d_at e d) < 10 ^ (k - e).
Proof.
  intros Hw Hk Hk0 e He Hed. pose proof (d_wf_bound d Hw) as Hb. pose proof (num_digits_pos _ Hw) as Hp.
  unfold d_adjusted, d_digits in *. unfold d_at.
  assert (Habs : Z.abs (d_signed d) = d_coef d).
  { unfold d_signed, d_wf in *. destruct (d_neg d); lia. }
  rewrite Z.abs_mul, Habs, (Z.abs_eq (10 ^ _)) by (apply Z.pow_nonneg; lia).
  eapply Z.lt_le_trans.
  - apply Z.mul_lt_mono_pos_r; [apply pow10_pos; lia|exact Hb].
  - rewrite <-Z.pow_add_r by lia. apply Z.pow_le_mono_r; lia.
Qed.

Lemma half_even_nonneg c p : 0 <= c -> 0 < p -> 0 <= half_even c p.
Proof.
  intros Hc Hp. unfold half_even. cbv zeta. assert (0 <= c / p) by (apply Z.div_pos; lia).
  destruct (_ ?= _); [|lia|lia]. destruct (Z.even _); lia.
Qed.

Lemma d_add_wf prec x y : d_wf (d_add prec x y).
Proof.
  unfold d_add, d_fix, d_make, d_wf. cbn [d_coef d_neg d_exp]. cbv zeta. set (z := _ + _).
  set (n := d_digits _). destruct (Z.leb_spec (n - prec) 0); cbn [d_coef]; [lia|].
  assert (0 <= half_even (Z.abs z) (10 ^ (n - prec))) by (apply half_even_nonneg; [lia|apply pow10_pos; lia]).
  destruct (_ <=? _); cbn [d_coef]; [done|]. apply Z.div_pos; lia.
Qed.

Lemma d_sum_wf l : d_wf (_sum_exact l).
Proof.
  unfold _sum_exact, d_sum. generalize (sum_precision l). intros p.
  assert (Hgen : forall l z, d_wf z -> d_wf (fold_left (d_add p) l z)); [|by apply Hgen].
  clear l. induction l as [|x l IH]; intros z Hz; simpl; [done|]. apply IH, d_add_wf.
Qed.

(** At any exponent that resolves all the values, the sum is the sum. *)
Lemma sum_exact_at e l :
  Forall d_wf l -> Forall (fun d => e <= d_exp d) l -> e <= 0 ->
  e <= d_exp (_sum_exact l) /\ d_at e (_sum_exact l) = zsum (map (d_at e) l).
Proof.
  intros Hw He He0. unfold _sum_exact, d_sum.
  set (ip := list_max 1 (map int_digits_of l)). set (fp := list_max 0 (map frac_digits_of l)).
  pose proof (list_max_map 1 int_digits_of l) as Hip. fold ip in Hip.
  pose proof (list_max_map 0 frac_digits_of l) as Hfp. fold fp in Hfp.
  assert (Hfe : e <= - fp /\ 0 <= fp).
  { unfold fp. destruct l as [|d l]; [simpl; lia|]. clear -He He0.
    assert (H : forall l x, e <= - x -> 0 <= x -> Forall (fun d => e <= d_exp d) l ->
              e <= - fold_left Z.max (map frac_digits_of l) x /\ 0 <= fold_left Z.max (map frac_digits_of l) x).
    { clear d l He. induction l as [|d l IH]; intros x Hx Hx0 Hl; simpl; [lia|].
      apply Forall_cons in Hl as [Hd Hl]. apply IH; unfold frac_digits_of; [lia|lia|done]. }
    apply Forall_cons in He as [Hd Hl]. simpl. apply H; unfold frac_digits_of; [lia|lia|done]. }
  assert (Hip1 : 1 <= ip).
  { unfold ip. destruct l as [|d l]; [simpl; lia|]. simpl.
    destruct (fold_max_ge (map int_digits_of l) (int_digits_of d)) as [H _]. unfold int_digits_of in *. lia. }
  set (n := Z.of_nat (length l)).
  assert (Hprec : ip + fp + num_digits n + 1 <= sum_precision l) by (unfold sum_precision; fold ip fp n; lia).
  assert (Hn : 1 <= num_digits n) by (apply num_digits_pos; lia).
  assert (Hn' : n < 10 ^ num_digits n) by (apply num_digits_le; lia).
  assert (Hall : Forall (fun d => - fp <= d_exp d /\ Z.abs (d_at (- fp) d) <= 10 ^ (ip + fp)) l).
  { rewrite Forall_forall in *. intros d Hd. specialize (Hip d Hd). specialize (Hfp d Hd).
    cbv beta in Hip, Hfp. unfold int_digits_of in Hip. unfold frac_digits_of in Hfp. split; [lia|].
    pose proof (d_bound d ip (Hw d Hd) ltac:(lia) ltac:(lia) (- fp) ltac:(lia) ltac:(lia)).
    replace (ip - - fp) with (ip + fp) in * by lia. lia. }
  destruct (d_sum_from_exact (sum_precision l) (- fp) (10 ^ (ip + fp)) l d_zero) as [H1 H2].
  - lia.
  - done.
  - simpl. lia.
  - change (d_at (- fp) d_zero) with 0. fold n.
    assert (10 ^ (num_digits n + (ip + fp)) <= 10 ^ sum_precision l) by (apply Z.pow_le_mono_r; lia).
    rewrite Z.pow_add_r in H by lia. pose proof (pow10_pos (ip + fp) ltac:(lia)). nia.
  - split; [lia|]. rewrite (d_at_shift (- fp) e), H2 by lia. change (d_at (- fp) d_zero) with 0. rewrite Z.add_0_l.
    clear -He Hfe Hall. clearbody fp ip. induction l as [|d l IH]; [done|]. simpl.
    apply Forall_cons in He as [Hd Hl], Hall as [[Hda _] Hall'].
    rewrite (d_at_shift (- fp) e d), Z.mul_add_distr_r, IH by (done || lia). done.
Qed.

(** [_sum_exact] is exact: whatever the number of values, their sizes and
    their scales, the working precision never rounds. *)
Theorem sum_exact_is_exact e l :
  Forall d_wf l -> Forall (fun d => e <= d_exp d) l -> e <= 0 ->
  d_at e (_sum_exact l) = zsum (map (d_at e) l).
Proof. intros Hw He He0. by apply sum_exact_at. Qed.

Lemma sum_exact_is_exact_witness :
  let l := [Dec false 99999999999999999999999999999 0; Dec false 1 (-30); Dec false 1 (-30)] in
  d_at (-30) (_sum_exact l) = 99999999999999999999999999999000000000000000000000000000000 + 2.
Proof.
  intros l. assert (E : zsum (map (d_at (-30)) l) = 99999999999999999999999999999000000000000000000000000000000 + 2) by (by vm_compute).
  rewrite <-E. apply (sum_exact_is_exact (-30) l); [repeat constructor; unfold d_wf; simpl; lia| |lia].
  repeat constructor; simpl; lia.
Defined.

(** ** The controls over time *)

Section over_time.
Context `{SessionNames}.

Inductive kcall : Type :=
  | KPrepare (broken : bool) (now : Z) (id method : string) (params review : dict) (ttl : Z)
  | KGet (broken : bool) (now : Z) (id : string)
  | KDecide (broken : bool) (now now' : Z) (id choice op reason : string)
  | KCheckApproval (broken : bool) (now : Z) (method : string) (params : dict) (approval : option string)
  | KConsume (broken : bool) (now now' : Z) (method : string) (params : dict) (approval : option string)
             (required : bool) (currency : option string) (amount : decimal) (contract : option val)
  | KConfirm (broken : bool) (now now' : Z) (method : string) (params : dict) (approval : option string)
             (required : bool) (contract : option val)
  | KUsage (broken : bool) (now : Z) (env acc : string)
  | KSetPaused (broken broken' : bool) (now : Z) (env : string) (paused : bool) (op reason acc : string)
  | KPauseState (broken : bool) (env acc : string)
  | KCheckRisk (broken : bool) (env acc : string)
  | KClose.

Definition is_consume (c : kcall) : bool :=
  match c with KConsume _ _ _ _ _ _ _ _ _ _ => true | _ => false end.

Definition done_with {A} (c : SE controls A) : SE controls unit := (_ <- c ;; se_ret tt)%se.

Definition run_kcall (caps : gmap string float) (c : kcall) : SE controls unit :=
  match c with
  | KPrepare b now id m p r ttl => done_with (prepare b now id m p r ttl)
  | KGet b now id => done_with (get b now id)
  | KDecide b now now' id ch op re => done_with (decide b now now' id ch op re)
  | KCheckApproval b now m p a => check_approval b now m p a
  | KConsume b now now' m p a req cur amt con => consume b now now' m p a req cur amt caps con
  | KConfirm b now now' m p a req con => confirm_reservation b now now' m p a req con
  | KUsage b now e a => done_with (usage b now e a)
  | KSetPaused b b' now e p op re acc => done_with (set_paused b b' now e p op re acc)
  | KPauseState b e a => done_with (pause_state b e a)
  | KCheckRisk b e a => check_new_risk b e a
  | KClose => close
  end.

(** Every [Decimal] has a coefficient that is not negative. *)
Definition decimals_ok (c : kcall) : Prop :=
  match c with KConsume _ _ _ _ _ _ _ _ (DFin a) _ => d_wf a | _ => True end.

Record kmachine : Type := { km_ctl : controls; km_used : list string (* ghost: approvals consumed *) }.

Definition kinit : kmachine :=
  {| km_ctl := {| k_closed := false; k_failed := false; k_db := empty_cdb |}; km_used := [] |}.

Inductive kstep (caps : gmap string float) : kmachine -> kmachine -> Prop :=
  | kstep_call c s s' r used :
      decimals_ok c -> run_kcall caps c s = (r, s') ->
      kstep caps {| km_ctl := s; km_used := used |}
        {| km_ctl := s';
           km_used := match c, r with
                      | KConsume _ _ _ _ _ (Some id) true _ _ _, Ok _ => id :: used
                      | _, _ => used end |}
  | kstep_restart s used :
      kstep caps {| km_ctl := s; km_used := used |}
        {| km_ctl := {| k_closed := false; k_failed := false; k_db := k_db s |}; km_used := used |}.

(** *** What a call does to the database *)

Lemma transaction_effect broken {A} (body : cdb -> result (A * cdb)) s r s' :
  transaction broken body s = (r, s') ->
  (k_db s' = k_db s /\ is_ok r = false) \/
  exists a, r = Ok a /\ body (k_db s) = Ok (a, k_db s').
Proof.
  unfold transaction, control_error. destruct (_ || _); [intros [= <- <-]; by left|].
  destruct broken; [intros [= <- <-]; by left|].
  destruct (body (k_db s)) as [[a d]|e]; intros [= <- <-]; [|by left].
  right. by exists a.
Qed.

Lemma transaction_read broken {A} (body : cdb -> result (A * cdb)) s r s' :
  (forall d a d', body d = Ok (a, d') -> d' = d) -> transaction broken body s = (r, s') -> k_db s' = k_db s.
Proof. intros Hf Hr. apply transaction_effect in Hr as [[? _]|(a & _ & Hb)]; eauto. Qed.

Lemma lift_bind {A B} (r : result A) (f : A -> SE controls B) s x s' :
  (a <- se_lift r ;; f a)%se s = (x, s') ->
  (exists a, r = Ok a /\ f a s = (x, s')) \/ (s' = s /\ is_ok x = false).
Proof. unfold se_bind, se_lift. destruct r; [left; eauto|intros [= <- <-]; by right]. Qed.

Lemma done_effect {A} (c : SE controls A) s r s' :
  done_with c s = (r, s') -> exists x, c s = (x, s') /\ is_ok x = is_ok r.
Proof.
  unfold done_with, se_bind, se_ret. destruct (c s) as [[a|e] s1]; intros [= <- <-]; eauto.
Qed.

Lemma approved_inv d now approval canonical con v id row :
  _approved d now approval canonical con v = Ok (id, row) ->
  approval = Some id /\ c_prepared d !! id = Some row /\ p_canonical row = canonical
  /\ p_status row = APPROVED /\ now < p_expires_at row
  /\ (v = true -> py_eqb (match p_review row with VDict r => dget_none "contract" r | _ => VNone end)
                    (default VNone con) = true).
Proof.
  unfold _approved, control_error. destruct approval as [id'|]; [|done].
  case_match; [done|]. destruct (c_prepared d !! id') as [row'|] eqn:E; [|done].
  case_match eqn:E1; [done|]. case_match eqn:E2; [done|]. case_match eqn:E3; [done|].
  intros [= <- <-]. bools. split_and!; try done.
  intros ->. simpl in E3. by bools.
Qed.

(** What a successful [consume] found and wrote. *)
Record consumption (caps : gmap string float) (params : dict) (approval : option string) (required : bool)
    (currency : option string) (amount : decimal) (d d' : cdb) : Prop := {
  co_parts : exists canonical a env acc op now,
    amount = DFin a /\ d_ltb a d_zero = false
    /\ text_item "trd_env" params = Ok env /\ account_item params = Ok acc
    /\ text_item "operation_id" params = Ok op
    /\ List.filter (same_operation env acc op) (c_charges d) = []
    /\ check_budget caps d (utc_day now) env acc currency a = Ok tt
    /\ c_charges d' = (c_charges d ++
         [{| ch_environment := env; ch_account := acc; ch_operation_id := op; ch_canonical := canonical;
             ch_day := utc_day now; ch_currency := currency; ch_amount := a;
             ch_approval_id := approval; ch_created_at := now |}])%list
    /\ if required
       then exists id row, approval = Some id /\ c_prepared d !! id = Some row
              /\ p_status row = APPROVED /\ p_canonical row = canonical
              /\ c_prepared d' = <[id := consumed now row]> (c_prepared d)
       else c_prepared d' = c_prepared d;
  co_pauses : c_pauses d' = c_pauses d }.

Lemma consume_effect broken now now' method params approval required currency amount caps con s r s' :
  consume broken now now' method params approval required currency amount caps con s = (r, s') ->
  (k_db s' = k_db s /\ is_ok r = false) \/
  (r = Ok tt /\ consumption caps params approval required currency amount (k_db s) (k_db s')).
Proof.
  unfold consume. intros Hr.
  apply lift_bind in Hr as [(canonical & _ & Hr)|[-> ?]]; [|by left].
  apply lift_bind in Hr as [(env & Henv & Hr)|[-> ?]]; [|by left].
  apply lift_bind in Hr as [(acc & Hacc & Hr)|[-> ?]]; [|by left].
  apply lift_bind in Hr as [(op & Hop & Hr)|[-> ?]]; [|by left].
  apply lift_bind in Hr as [([] & _ & Hr)|[-> ?]]; [|by left].
  apply lift_bind in Hr as [(a & Ha & Hr)|[-> ?]]; [|by left].
  apply transaction_effect in Hr as [?|([] & -> & Hb)]; [by left|right]. split; [done|].
  apply bind_ok in Hb as ([] & Hold & Hb). apply bind_ok in Hb as (approved & Happ & Hb).
  apply bind_ok in Hb as ([] & Hbud & Hb). split; [|by destruct approved as [[]|]; injection Hb as <-].
  exists canonical, a, env, acc, op, now.
  destruct amount as [x| |]; try done. destruct (d_ltb x d_zero) eqn:Hneg; [done|]. injection Ha as ->.
  split_and!; try done.
  - clear -Hold. destruct (List.filter _ _); [done|]. unfold control_error in Hold. by case_match.
  - destruct approved as [[id row]|]; by injection Hb as <-.
  - destruct required.
    + apply bind_ok in Happ as ([id row] & Hap & [= <-]).
      apply approved_inv in Hap as (-> & Hrow & Hcan & Hst & _). exists id, row.
      injection Hb as <-. by split_and!.
    + injection Happ as <-. by injection Hb as <-.
Qed.

(** The calls only an operator makes. *)
Definition operator_call (c : kcall) : bool :=
  match c with KDecide _ _ _ _ _ _ _ | KSetPaused _ _ _ _ _ _ _ _ => true | _ => false end.

(** A call other than a successful [consume]; decisions and pauses are an
    operator's. *)
Inductive other_effect (operator : bool) (d : cdb) : cdb -> Prop :=
  | eff_none : other_effect operator d d
  | eff_prepare id row : c_prepared d !! id = None -> p_status row = PENDING ->
      other_effect operator d (with_prepared <[id := row]> d)
  | eff_decide id row row' : operator = true -> c_prepared d !! id = Some row -> p_status row = PENDING ->
      p_status row' <> CONSUMED -> other_effect operator d (with_prepared <[id := row']> d)
  | eff_pause f : operator = true -> other_effect operator d {| c_prepared := c_prepared d; c_charges := c_charges d; c_pauses := f |}.

Lemma call_effect caps c s r s' :
  run_kcall caps c s = (r, s') ->
  other_effect (operator_call c) (k_db s) (k_db s') \/
  exists b now now' m p a req cur amt con,
    c = KConsume b now now' m p a req cur amt con /\ r = Ok tt
    /\ consumption caps p a req cur amt (k_db s) (k_db s').
Proof.
  assert (Hsame : forall b (s : controls), other_effect b (k_db s) (k_db s)) by constructor.
  destruct c; simpl; intros Hr; try (apply done_effect in Hr as (x & Hr & _)).
  - left. unfold prepare in Hr. do 5 (apply lift_bind in Hr as [(? & _ & Hr)|[-> _]]; [|done]).
    apply transaction_effect in Hr as [[-> _]|(a & _ & Hb)]; [done|]. case_match eqn:E; [done|].
    injection Hb as <- <-. by constructor.
  - left. unfold get, se_bind in Hr. destruct (transaction broken _ s) as [[a|e] s1] eqn:E;
      (apply transaction_read in E; [|intros d a' d' Hb; destruct (c_prepared d !! id); by simplify_eq]);
      injection Hr as <- <-; rewrite E; constructor.
  - left. unfold decide in Hr. do 3 (apply lift_bind in Hr as [(? & ? & Hr)|[-> _]]; [|done]).
    apply transaction_effect in Hr as [[-> _]|(a & _ & Hb)]; [done|].
    destruct (c_prepared (k_db s) !! id) as [row|] eqn:E; [|done]. case_match eqn:E1; [done|].
    injection Hb as <- <-. bools. eapply eff_decide; eauto. simpl. intros ->.
    repeat case_bool_decide; done.
  - left. apply transaction_effect in Hr as [[-> _]|(a & _ & Hb)]; [constructor|].
    apply bind_ok in Hb as (? & _ & Hb). apply bind_ok in Hb as (? & _ & [= _ <-]). constructor.
  - apply consume_effect in Hr as [[-> _]|[-> Hc]]; [left; constructor|right].
    by exists broken, now, now', method, params, approval, required, currency, amount, contract.
  - left. unfold confirm_reservation in Hr. apply lift_bind in Hr as [(? & _ & Hr)|[-> _]]; [|done].
    apply transaction_effect in Hr as [[-> _]|(a & _ & Hb)]; [constructor|].
    apply bind_ok in Hb as (? & _ & Hb). apply bind_ok in Hb as (? & _ & Hb).
    apply bind_ok in Hb as (? & _ & Hb). unfold control_error in Hb.
    assert (k_db s' = k_db s) as ->; [|constructor].
    repeat (case_match; try done); by injection Hb.
  - left. apply transaction_effect in Hr as [[-> _]|(a & _ & [= _ <-])]; constructor.
  - left. unfold set_paused in Hr. apply lift_bind in Hr as [([e a] & He & Hr)|[-> _]]; [|done].
    do 2 (apply lift_bind in Hr as [(? & _ & Hr)|[-> _]]; [|done]).
    unfold se_bind in Hr. destruct (transaction broken _ s) as [[u|ex] s1] eqn:E.
    + apply transaction_effect in E as [[_ ?]|([] & _ & [= Hd])]; [done|].
      assert (k_db s' = k_db s1) as ->; [|rewrite <-Hd; by constructor].
      unfold pause_state, se_lift, se_bind in Hr. destruct (_pause_scope e a) as [[e2 a2]|ex].
      * apply transaction_read in Hr; [done|intros d a' d' Hb; by simplify_eq].
      * by injection Hr as <- <-.
    + injection Hr as <- <-. by apply transaction_effect in E as [[-> _]|(a0 & ? & _)].
  - left. unfold pause_state in Hr. apply lift_bind in Hr as [([e a] & _ & Hr)|[-> _]]; [|done].
    apply transaction_effect in Hr as [[-> _]|(a0 & _ & [= _ <-])]; constructor.
  - left. unfold check_new_risk, se_bind in Hr. destruct (pause_state broken env acc s) as [[p|e] s1] eqn:E;
      (assert (k_db s1 = k_db s) as Hd;
       [unfold pause_state in E; apply lift_bind in E as [([e1 a1] & _ & E)|[-> _]]; [|done];
        apply transaction_read in E; [done|intros d a' d' Hb; by simplify_eq]|]).
    + assert (s' = s1) as -> by (destruct p; by injection Hr). rewrite Hd. constructor.
    + assert (s' = s1) as -> by (by injection Hr). rewrite Hd. constructor.
  - left. injection Hr as <- <-. constructor.
Qed.
End over_time.

Section budgets.
Context `{SessionNames}.
Context (caps : gmap string float) (Hcaps : caps_ok caps).

Definition amount_ok (a : dec) : Prop := d_wf a /\ d_ltb a d_zero = false.

(** The recorded amounts of one account, day and currency do not exceed [c],
    compared at any exponent that resolves them all. *)
Definition within (c : dec) (l : list dec) : Prop :=
  forall e, e <= 0 -> e <= d_exp c -> Forall (fun a => e <= d_exp a) l ->
    zsum (map (d_at e) l) <= d_at e c.

Record k_ok (d : cdb) (used : list string) : Prop := {
  kok_amounts : Forall (fun c => amount_ok (ch_amount c)) (c_charges d);
  kok_budget : caps <> ∅ -> forall day env acc cur cap c,
    caps !! cur = Some cap -> d_of_float cap = DFin c -> within c (amounts (on_day day env acc cur) d);
  kok_unique : forall env acc op, (length (List.filter (same_operation env acc op) (c_charges d)) <= 1)%nat;
  kok_used : forall id, id ∈ used -> exists r, c_prepared d !! id = Some r /\ p_status r = CONSUMED;
  kok_once : NoDup used }.

Lemma cap_nonneg cur cap c e : caps !! cur = Some cap -> d_of_float cap = DFin c -> 0 <= d_at e c.
Proof.
  intros Hc Hd. destruct (Hcaps cur cap Hc) as [_ Hp]. pose proof (d_of_float_wf _ _ Hd) as Hw.
  destruct cap as [| | |[] m ex]; try done. cbn [d_of_float] in Hd. destruct (f_shortest m ex) as [k x].
  assert (Hneg : d_neg c = false) by (case_match; by injection Hd as <-).
  unfold d_at, d_signed, d_wf in *. rewrite Hneg. apply Z.mul_nonneg_nonneg; [done|]. apply Z.pow_nonneg. lia.
Qed.

Lemma k_ok_init : k_ok empty_cdb [].
Proof.
  split; simpl; try done; try by constructor.
  - intros _ day env acc cur cap c Hc Hd e _ _ _. simpl. by eapply cap_nonneg.
  - intros id Hid. by apply elem_of_nil in Hid.
Qed.

Lemma k_ok_other b d d' used : other_effect b d d' -> k_ok d used -> k_ok d' used.
Proof.
  intros He [Ha Hb Hu Hc Ho]. destruct He as [|id row Hn Hs|id row row' _ Hr Hs Hs'|f _]; split; simpl; try done.
  - intros k Hk. destruct (Hc k Hk) as (r & Hr & Hst). exists r. split; [|done].
    by rewrite lookup_insert_ne by congruence.
  - intros k Hk. destruct (Hc k Hk) as (r & Hr' & Hst). exists r. split; [|done].
    rewrite lookup_insert_ne; [done|]. intros ->. congruence.
Qed.

Lemma nonneg_at a e : amount_ok a -> 0 <= d_at e a.
Proof.
  intros [Hw Hn]. unfold d_wf in Hw. rewrite (d_ltb_at (Z.min 0 (d_exp a))) in Hn by (simpl; lia).
  apply Z.ltb_ge in Hn. change (d_at (Z.min 0 (d_exp a)) d_zero) with 0 in Hn.
  unfold d_at in *. pose proof (Z.pow_nonneg 10 (d_exp a - e) ltac:(lia)).
  pose proof (pow10_pos (d_exp a - Z.min 0 (d_exp a)) ltac:(lia)). nia.
Qed.

(** The budget check admits a charge only if the new total stays within. *)
Lemma budget_check_within d day env acc cur a cap c :
  caps !! cur = Some cap -> d_of_float cap = DFin c ->
  Forall amount_ok (amounts (on_day day env acc cur) d) -> amount_ok a ->
  within c (amounts (on_day day env acc cur) d) ->
  check_budget caps d day env acc (Some cur) a = Ok tt ->
  within c (amounts (on_day day env acc cur) d ++ [a]).
Proof.
  intros Hc Hd Hl Ha Hin Hchk e He Hec Hall. apply Forall_app in Hall as [Hall Hea].
  apply Forall_cons in Hea as [Hea _]. rewrite map_app, zsum_app. cbn [map zsum]. rewrite Z.add_0_r.
  set (l := amounts _ _) in *. unfold check_budget, control_error in Hchk.
  rewrite (bool_decide_eq_false_2 (caps = ∅)) in Hchk by (intros ->; by rewrite lookup_empty in Hc).
  cbn [negb andb] in Hchk. destruct (d_gtb a d_zero) eqn:Egt.
  - rewrite Hc, Hd in Hchk. destruct (d_gtb _ c) eqn:Eover in Hchk; [done|]. clear Hchk.
    assert (Hlw : Forall d_wf l) by (eapply Forall_impl; [exact Hl|by intros x [? _]]).
    destruct (sum_exact_at e l Hlw Hall He) as [Hue Huv].
    unfold d_gtb in Eover. fold l in Eover.
    assert (Hused : d_wf (_sum_exact l)).
    { apply d_sum_wf. }
    destruct (sum_exact_at e [_sum_exact l; a]) as [Hte Htv];
      [apply Forall_cons; split; [exact Hused|apply Forall_singleton, Ha]
      |apply Forall_cons; split; [exact Hue|by apply Forall_singleton]|done|].
    rewrite (d_ltb_at e) in Eover by done. apply Z.ltb_ge in Eover.
    rewrite Htv in Eover. cbn [map zsum] in Eover. lia.
  - pose proof (Hin e He Hec Hall). pose proof (nonneg_at a e Ha).
    unfold d_gtb in Egt. rewrite (d_ltb_at e) in Egt by (simpl; lia). apply Z.ltb_ge in Egt.
    change (d_at e d_zero) with 0 in Egt. lia.
Qed.

Lemma k_ok_consume p a req cur amt d d' used :
  match amt with DFin x => d_wf x | _ => True end ->
  consumption caps p a req cur amt d d' -> k_ok d used ->
  k_ok d' (match a, req with Some id, true => id :: used | _, _ => used end).
Proof.
  intros Hamt [(canonical & x & env & acc & op & now & -> & Hneg & _ & _ & _ & Hnew & Hbud & Hch & Hprep) _]
    [Ha Hb Hu Hc Ho].
  assert (Hx : amount_ok x) by (by split). split.
  - rewrite Hch. apply Forall_app. split; [done|]. by constructor; [|constructor].
  - intros Hne day env' acc' cur' cap c Hcap Hd. unfold amounts. rewrite Hch, List.filter_app, map_app.
    cbn [List.filter]. destruct (on_day day env' acc' cur' _) eqn:Eon; cbn [map]; [|rewrite app_nil_r; by eapply Hb].
    unfold on_day in Eon. cbn [ch_day ch_environment ch_account ch_currency] in Eon. bools. subst.
    apply (budget_check_within d (utc_day now) env' acc' cur' x cap c Hcap Hd); [|done|by eapply Hb|done].
    apply Forall_map. rewrite Forall_forall in *. intros ch Hin. apply Ha.
    apply list_elem_of_In in Hin. apply filter_In in Hin as [Hin _]. by apply list_elem_of_In.
  - intros env' acc' op'. rewrite Hch, List.filter_app, length_app. cbn [List.filter].
    destruct (same_operation env' acc' op' _) eqn:E; cbn [length]; [|specialize (Hu env' acc' op'); lia].
    unfold same_operation in E. cbn [ch_environment ch_account ch_operation_id] in E. bools. subst.
    rewrite Hnew. simpl. lia.
  - destruct req; [|rewrite Hprep; by destruct a].
    destruct Hprep as (id & row & -> & Hrow & Hst & _ & Hp). rewrite Hp.
    intros k [->|Hk]%elem_of_cons.
    + exists (consumed now row). by rewrite lookup_insert_eq.
    + destruct (Hc k Hk) as (r & Hr & Hs). exists r. rewrite lookup_insert_ne by congruence. done.
  - destruct req; [|by destruct a].
    destruct Hprep as (id & row & -> & Hrow & Hst & _ & Hp). apply NoDup_cons. split; [|done].
    intros Hin. destruct (Hc id Hin) as (r & Hr & Hs). congruence.
Qed.

Lemma kstep_ok m m' : kstep caps m m' -> k_ok (k_db (km_ctl m)) (km_used m) ->
  k_ok (k_db (km_ctl m')) (km_used m').
Proof.
  intros Hs Hok. destruct Hs as [c s s' r used Hd Hr|s used]; simpl in *; [|done].
  destruct (is_consume c) eqn:Ec.
  - destruct c as [| | | |b now now' m p a req cur amt con| | | | | |]; try done. simpl in Hr, Hd.
    apply consume_effect in Hr as [[-> Hr]|[-> Hc]]; [|by eapply k_ok_consume].
    destruct r; [done|]. destruct a as [id|]; [|done]. by destruct req.
  - apply call_effect in Hr as [He|(b & now & now' & m & p & a & req & cur & amt & con & -> & _)]; [|done].
    pose proof (k_ok_other _ _ _ used He Hok) as Hok'. by destruct c.
Qed.

Lemma kreachable_ok m : star (kstep caps) kinit m -> k_ok (k_db (km_ctl m)) (km_used m).
Proof.
  apply (star_invariant (kstep caps) (fun m => k_ok (k_db (km_ctl m)) (km_used m)));
    [intros x y Hx Hs; by eapply kstep_ok|apply k_ok_init].
Qed.
End budgets.

(** ** Theorems *)

(** C19 The daily submission budget holds exactly, over any history of calls,
    storage errors, restarts and clock readings with the same caps: the charges
    recorded for one environment, account, UTC day and currency never sum to more
    than that currency's cap, with no rounding anywhere. *)
Theorem daily_budget_never_exceeded `{SessionNames} caps m day env acc cur cap c :
  caps_ok caps -> star (kstep caps) kinit m -> caps !! cur = Some cap -> d_of_float cap = DFin c ->
  within c (amounts (on_day day env acc cur) (k_db (km_ctl m))).
Proof.
  intros Hc Hm Hcap Hd. destruct (kreachable_ok caps Hc m Hm) as [_ Hb _ _ _].
  eapply Hb; eauto. intros ->. by rewrite lookup_empty in Hcap.
Qed.

(** C20 An approval is spent at most once, over restarts too: no prepared request
    authorizes two submissions; and no operation is charged twice. *)
Theorem approval_spent_once `{SessionNames} caps m :
  caps_ok caps -> star (kstep caps) kinit m ->
  NoDup (km_used m) /\
  forall env acc op, (length (List.filter (same_operation env acc op) (c_charges (k_db (km_ctl m)))) <= 1)%nat.
Proof. intros Hc Hm. by destruct (kreachable_ok caps Hc m Hm) as [_ _ Hu _ Ho]. Qed.

(** A submission that needs approval goes through only on an approval of that
    very request: the approval exists, was approved by an operator and not yet
    used, has not expired, was given for the same canonical request and the same
    reviewed contract; and it leaves the store consumed. *)
Theorem consume_requires_approval `{SessionNames} broken now now' method params approval currency amount caps con s s' :
  consume broken now now' method params approval true currency amount caps con s = (Ok tt, s') ->
  exists id row canonical,
    approval = Some id /\ canonical_intent method params = Ok canonical
    /\ c_prepared (k_db s) !! id = Some row /\ p_status row = APPROVED
    /\ p_canonical row = canonical /\ now' < p_expires_at row
    /\ py_eqb (match p_review row with VDict r => dget_none "contract" r | _ => VNone end)
              (default VNone con) = true
    /\ c_prepared (k_db s') !! id = Some (consumed now row).
Proof.
  unfold consume. intros Hr.
  apply lift_bind in Hr as [(canonical & Hcan & Hr)|[_ ?]]; [|done].
  do 5 (apply lift_bind in Hr as [(? & _ & Hr)|[_ ?]]; [|done]).
  apply transaction_effect in Hr as [[_ ?]|([] & _ & Hb)]; [done|].
  apply bind_ok in Hb as ([] & _ & Hb). apply bind_ok in Hb as (ap & Hap & Hb).
  apply bind_ok in Hap as ([id row] & Hap & [= <-]). apply bind_ok in Hb as ([] & _ & Hb).
  apply approved_inv in Hap as (-> & Hrow & Hc & Hst & Hexp & Hcon).
  exists id, row, canonical. split_and!; try done; [by apply Hcon|].
  injection Hb as <-. simpl. by rewrite lookup_insert_eq.
Qed.

Lemma transaction_open {A} (body : cdb -> result (A * cdb)) s :
  k_closed s = false -> k_failed s = false ->
  transaction false body s =
    match body (k_db s) with
    | Ok (a, d) => (Ok a, {| k_closed := false; k_failed := false; k_db := d |})
    | Err e => (Err e, s)
    end.
Proof. intros Hc Hf. unfold transaction. by rewrite Hc, Hf. Qed.

(** The operator's pause is a gate on new exposure: with storage working,
    [check_new_risk] passes exactly when neither the environment (account 0) nor
    the account is paused; and a pause just set is in force, for every account of
    the environment when set on account 0. *)
Theorem pause_blocks_new_risk `{SessionNames} env acc e a s :
  k_closed s = false -> k_failed s = false -> _pause_scope env acc = Ok (e, a) ->
  (fst (check_new_risk false env acc s) = Ok tt <->
     paused_at e "0" (k_db s) = false /\ paused_at e a (k_db s) = false)
  /\ (forall now op reason acc0 a0 r s',
        _pause_scope env acc0 = Ok (e, a0) -> a0 = "0" \/ a0 = a ->
        set_paused false false now env true op reason acc0 s = (Ok r, s') ->
        is_ok (fst (check_new_risk false env acc s')) = false).
Proof.
  intros Hc Hf Hs.
  assert (Hchk : forall s, k_closed s = false -> k_failed s = false ->
    fst (check_new_risk false env acc s) =
      if paused_at e "0" (k_db s) || paused_at e a (k_db s)
      then Err (TradingControlError "exposure is paused by the operator") else Ok tt).
  { intros t Ht Ht'. unfold check_new_risk, pause_state, se_bind, se_lift. rewrite Hs.
    unfold transaction. rewrite Ht, Ht'. simpl. by destruct (_ || _). }
  split.
  - rewrite Hchk by done. destruct (paused_at e "0" (k_db s)), (paused_at e a (k_db s)); simpl; naive_solver.
  - intros now op reason acc0 a0 r s' Hs0 Ha0 Hset.
    unfold set_paused in Hset. apply lift_bind in Hset as [(ea & Hs0' & Hset)|[_ ?]]; [|done].
    rewrite Hs0 in Hs0'. injection Hs0' as <-.
    do 2 (apply lift_bind in Hset as [(? & _ & Hset)|[_ ?]]; [|done]).
    unfold se_bind in Hset. rewrite transaction_open in Hset by done.
    unfold pause_state, se_bind, se_lift in Hset. destruct (_pause_scope e a0) as [[e1 a1]|]; [|done].
    rewrite transaction_open in Hset by done.
    injection Hset as _ <-. rewrite Hchk by done. unfold paused_at. cbn [k_db c_pauses].
    destruct Ha0 as [->| ->]; rewrite lookup_insert_eq; simpl; by rewrite ?orb_true_r.
Qed.

(** *** Witnesses *)

Definition demo_caps : gmap string float := {[ "USD" := f_lit "1000.5" ]}.
Definition demo_params (op : string) : dict :=
  [("trd_env", VStr "REAL"); ("acc_id", VStr "281"); ("operation_id", VStr op);
   ("admission_epoch", VStr "e1"); ("code", VStr "US.AAPL"); ("price", VFloat (f_lit "10.5"));
   ("session", VStr "N/A")].
Definition demo_kcalls : list kcall :=
  [KPrepare false 0 "r1" "place_order" (demo_params "op-1") [("contract", VNone)] 300;
   KDecide false 1 1 "r1" "APPROVED" "alice" "reviewed";
   KConsume false 2 2 "place_order" (demo_params "op-1") (Some "r1") true (Some "USD") (DFin (Dec false 10005 (-1))) None;
   KConsume false 3 3 "place_order" (demo_params "op-2") None false (Some "USD") (DFin (Dec false 1 (-2))) None].

Definition kafter (m : kmachine) (c : kcall) : kmachine :=
  let '(r, s') := run_kcall demo_caps c (km_ctl m) in
  {| km_ctl := s';
     km_used := match c, r with
                | KConsume _ _ _ _ _ (Some id) true _ _ _, Ok _ => id :: km_used m
                | _, _ => km_used m end |}.
Definition demo_controls (n : nat) : kmachine := foldl kafter kinit (firstn n demo_kcalls).

Lemma kafter_reachable m c : decimals_ok c -> star (kstep demo_caps) kinit m -> star (kstep demo_caps) kinit (kafter m c).
Proof.
  intros Hc Hm. unfold kafter. destruct (run_kcall demo_caps c (km_ctl m)) as [r s'] eqn:E.
  eapply star_snoc; [exact Hm|]. destruct m as [s used]. by constructor.
Qed.

Lemma demo_controls_reachable : star (kstep demo_caps) kinit (demo_controls 4).
Proof. unfold demo_controls, demo_kcalls. cbn [firstn foldl]. repeat (apply kafter_reachable; [done|]). constructor. Qed.

Lemma demo_caps_ok : caps_ok demo_caps.
Proof. apply map_Forall_singleton. by vm_compute. Qed.

Lemma daily_budget_never_exceeded_witness :
  amounts (on_day 0 "REAL" "281" "USD") (k_db (km_ctl (demo_controls 4))) = [Dec false 10005 (-1)]
  /\ within (Dec false 10005 (-1)) (amounts (on_day 0 "REAL" "281" "USD") (k_db (km_ctl (demo_controls 4)))).
Proof.
  split; [by vm_compute|].
  apply (daily_budget_never_exceeded demo_caps (demo_controls 4) 0 "REAL" "281" "USD" (f_lit "1000.5"));
    [exact demo_caps_ok|exact demo_controls_reachable|by vm_compute|by vm_compute].
Defined.

Lemma approval_spent_once_witness :
  km_used (demo_controls 4) = ["r1"] /\ NoDup (km_used (demo_controls 4)).
Proof.
  split; [by vm_compute|].
  apply (approval_spent_once demo_caps (demo_controls 4)); [exact demo_caps_ok|exact demo_controls_reachable].
Defined.

Lemma consume_requires_approval_witness :
  exists s', consume false 2 2 "place_order" (demo_params "op-1") (Some "r1") true (Some "USD")
      (DFin (Dec false 10005 (-1))) demo_caps None (km_ctl (demo_controls 2)) = (Ok tt, s')
    /\ exists id, Some "r1" = Some id.
Proof.
  eexists. split; [by vm_compute|].
  edestruct (consume_requires_approval false 2 2 "place_order" (demo_params "op-1") (Some "r1") (Some "USD")
    (DFin (Dec false 10005 (-1))) demo_caps None (km_ctl (demo_controls 2))) as (id & row & canonical & Hid & _);
    [by vm_compute|].
  exists id. exact Hid.
Defined.

Lemma pause_blocks_new_risk_witness :
  fst (check_new_risk false " real " "281" (km_ctl (demo_controls 1))) = Ok tt.
Proof.
  apply (pause_blocks_new_risk " real " "281" "REAL" "281" (km_ctl (demo_controls 1))); [done|done|done|by vm_compute].
Defined.
