(* ===== verification/Prep.v ===== *)
(** services/trade_preparation.py, the guard around one mutation: the outer
    request of a thread ([mutation_context]), its assessment, the charge and the
    spent approval before the gateway is unlocked ([check_dispatch_controls]) and
    their confirmation right before the broker call ([confirm_dispatch_controls]),
    over the operations of Controls. *)

From S2P Require Import Prelude PyStr PyFloat PyDec DecText PyVal Identity Validation Policy Rules.
From S2P Require Import JsonText Controls.

(** The operation of the current thread ([service._control_local.operation]). *)
Record control_op : Type := {
  co_method : string; co_parameters : dict; co_approval : option string;
  co_contract : option val; co_valuation : option estimate; co_reserved : option dict }.

(** [mutation_context]: an inner context keeps the outer operation. *)
Definition mutation_context (previous : option control_op) (method : string) (parameters : dict)
    (approval_id : option string) : option control_op :=
  match previous with
  | Some a => Some a
  | None => Some {| co_method := method; co_parameters := parameters; co_approval := approval_id;
                    co_contract := None; co_valuation := None; co_reserved := None |}
  end.

Definition with_assessment (contract : val) (valuation : option estimate) (a : control_op) : control_op :=
  {| co_method := co_method a; co_parameters := co_parameters a; co_approval := co_approval a;
     co_contract := Some contract;
     co_valuation := match valuation with Some _ => valuation | None => co_valuation a end;
     co_reserved := co_reserved a |}.
Definition with_reserved (parameters : dict) (a : control_op) : control_op :=
  {| co_method := co_method a; co_parameters := co_parameters a; co_approval := co_approval a;
     co_contract := co_contract a; co_valuation := co_valuation a; co_reserved := Some parameters |}.

(** [require_approval] or daily caps configured. *)
Definition controlled (p : TradingPolicy) : bool :=
  require_approval p || negb (bool_decide (max_daily_notional p = ∅)).

(** [str(v)] of a scalar; of a container no code here uses the text. *)
Definition py_str (v : val) : string :=
  match v with VFloat f => f_repr f | _ => default "" (str_scalar v) end.

Section prep.
Context `{SessionNames}.

(** [assess_control_facts] *)
Definition assess_control_facts (p : TradingPolicy) (active : option control_op) (facts : OrderFacts)
    : result (option control_op) :=
  (_ <- assess_order p facts ;;
   match active with
   | None => Ok None
   | Some a =>
       contract <- contract_view facts ;;
       if bool_decide (max_daily_notional p = ∅) then Ok (Some (with_assessment contract None a))
       else valuation <- estimate_order facts ;;
            Ok (Some (with_assessment contract (Some valuation) a))
   end)%py.

(** An [SE] over the controls, when the deployment has them. *)
Definition on_controls {A} (e : exn) (c : SE controls A) : SE (option controls) A := fun k =>
  match k with
  | None => (Err e, None)
  | Some k => let '(r, k) := c k in (r, Some k)
  end.

(** What one use of the control database meets: an SQLite error, and the two
    clock readings of the call. *)
Record control_io : Type := { ci_broken : bool; ci_now : Z; ci_now' : Z }.

(** Whether the operation adds or restores exposure. *)
Definition adds_exposure (a : control_op) (parameters : dict) : result bool :=
  if mem (co_method a) ["place_order"; "place_combo_order"] then Ok true
  else if bool_decide (co_method a = "modify_order")
  then bind (ditem "modify_order_op" parameters) (fun op => Ok (mem (named op) ["NORMAL"; "ENABLE"]))
  else Ok false.

Definition no_active {A} : result A :=
  Err (TradingControlError "Trading controls have no active prepared execution").

(** The parameters under which the operation is charged. *)
Definition charged_parameters (p : TradingPolicy) (a : control_op) (account : Z) (environment : string)
    : result dict :=
  (supplied <- ditem "acc_id" (co_parameters a) ;;
   _ <- refuse_if (require_approval p && negb (bool_decide (py_str supplied = str_int account)))
          (TradingControlError "Approved execution requires the explicit prepared account") ;;
   let parameters := dset "trd_env" (VStr environment)
                       (dset "acc_id" (VStr (str_int account)) (co_parameters a)) in
   exposing <- adds_exposure a parameters ;;
   _ <- refuse_if (negb (bool_decide (max_daily_notional p = ∅)) && exposing
                   && match co_valuation a with None => true | Some _ => false end)
          (TradingControlError "Daily budget requires a fresh full-order valuation") ;;
   Ok parameters)%py.

(** [check_dispatch_controls] *)
Definition check_dispatch_controls (p : TradingPolicy) (ci : control_io) (active : option control_op)
    (account : Z) (environment : string) : SE (option controls) (option control_op) := fun k =>
  if negb (controlled p) then (Ok active, k)
  else match k, active with
  | Some _, Some a =>
      (parameters <- se_lift (charged_parameters p a account environment) ;;
       _ <- on_controls AssertionError
              (consume (ci_broken ci) (ci_now ci) (ci_now' ci) (co_method a) parameters (co_approval a)
                 (require_approval p) (option_map e_currency (co_valuation a))
                 (DFin (match co_valuation a with Some v => amount v | None => d_zero end))
                 (max_daily_notional p) (co_contract a)) ;;
       se_ret (Some (with_reserved parameters a)))%se k
  | _, _ => (no_active, k)
  end.

(** [confirm_dispatch_controls] *)
Definition confirm_dispatch_controls (p : TradingPolicy) (ci : control_io) (active : option control_op)
    : SE (option controls) unit := fun k =>
  if negb (controlled p) then (Ok tt, k)
  else match k, active with
  | Some _, Some a =>
      match co_reserved a with
      | Some parameters =>
          on_controls AssertionError
            (confirm_reservation (ci_broken ci) (ci_now ci) (ci_now' ci) (co_method a) parameters
               (co_approval a) (require_approval p) (co_contract a)) k
      | None => (Err (TradingControlError "Trading controls have no committed reservation"), k)
      end
  | _, _ => (Err (TradingControlError "Trading controls have no committed reservation"), k)
  end.

(** ** What a confirmed operation has behind it *)

(** A committed charge for the operation, unrounded, of today; and, where
    approval is required, a spent and unexpired approval of the same request. *)
Definition reserved_by (p : TradingPolicy) (ci : control_io) (a : control_op) (parameters : dict)
    (d : cdb) : Prop :=
  exists canonical env acc op c,
    canonical_intent (co_method a) parameters = Ok canonical
    /\ text_item "trd_env" parameters = Ok env /\ account_item parameters = Ok acc
    /\ text_item "operation_id" parameters = Ok op
    /\ c ∈ c_charges d /\ same_operation env acc op c = true
    /\ ch_canonical c = canonical /\ ch_day c = utc_day (ci_now ci)
    /\ (require_approval p = true -> exists id row,
          co_approval a = Some id /\ ch_approval_id c = Some id /\ c_prepared d !! id = Some row
          /\ p_canonical row = canonical /\ p_status row = CONSUMED /\ ci_now' ci < p_expires_at row).

Lemma confirm_reserved p ci active k r k' :
  confirm_dispatch_controls p ci active (Some k) = (r, k') ->
  (exists k1, k' = Some k1 /\ k_db k1 = k_db k)
  /\ (r = Ok tt -> controlled p = true -> exists a parameters,
        active = Some a /\ co_reserved a = Some parameters /\ reserved_by p ci a parameters (k_db k)).
Proof.
  unfold confirm_dispatch_controls.
  destruct (controlled p) eqn:Ec; simpl; [|intros [= <- <-]; split; [by eauto|done]].
  destruct active as [a|]; [|intros [= <- <-]; split; [by eauto|done]].
  destruct (co_reserved a) as [params|] eqn:Er; [|intros [= <- <-]; split; [by eauto|done]].
  unfold on_controls. destruct (confirm_reservation _ _ _ _ _ _ _ _ k) as [r1 k1] eqn:E.
  intros [= <- <-]. unfold confirm_reservation in E.
  apply lift_bind in E as [(canonical & Hcan & E)|[-> ?]]; [|split; [eauto|intros ->; done]].
  pose proof E as E0. apply transaction_read in E0.
  2: { intros d [] d' Hb. repeat (apply bind_ok in Hb as (? & _ & Hb)). unfold control_error in Hb.
       repeat (case_match; try done); by injection Hb. }
  split; [eauto|]. intros -> _. exists a, params. split_and!; try done.
  apply transaction_effect in E as [[_ ?]|([] & _ & Hb)]; [done|].
  apply bind_ok in Hb as (env & He & Hb). apply bind_ok in Hb as (acc & Ha & Hb).
  apply bind_ok in Hb as (op & Ho & Hb). unfold control_error in Hb.
  destruct (List.filter _ _) as [|c l] eqn:Ef; [done|].
  assert (Hin : In c (List.filter (same_operation env acc op) (c_charges (k_db k)))) by (rewrite Ef; by left).
  apply filter_In in Hin as [Hin Hsame]. apply list_elem_of_In in Hin.
  destruct (negb (bool_decide (ch_canonical c = canonical))) eqn:E1; [done|].
  destruct (negb (ch_day c =? utc_day (ci_now ci))) eqn:E2; [done|]. bools.
  exists canonical, env, acc, op, c. split_and!; try done. intros Hreq. rewrite Hreq in Hb. simpl in Hb.
  destruct (co_approval a) as [id|]; [|done]. simpl in Hb.
  destruct (c_prepared (k_db k) !! id) as [row|] eqn:Erow; [|done].
  case_match eqn:E3; [done|]. bools. exists id, row. by split_and!.
Qed.

(** The charge and the approval are written by the same transaction; a refused
    operation is charged nothing. *)
Lemma check_charged p ci active acc env k r k' :
  check_dispatch_controls p ci active acc env (Some k) = (r, k') ->
  exists k1, k' = Some k1 /\
  match r with
  | Err _ => k_db k1 = k_db k
  | Ok a' => if controlled p
             then exists a parameters, active = Some a /\ charged_parameters p a acc env = Ok parameters
                  /\ a' = Some (with_reserved parameters a)
                  /\ consumption (max_daily_notional p) parameters (co_approval a) (require_approval p)
                       (option_map e_currency (co_valuation a))
                       (DFin (match co_valuation a with Some v => amount v | None => d_zero end))
                       (k_db k) (k_db k1)
             else a' = active /\ k_db k1 = k_db k
  end.
Proof.
  unfold check_dispatch_controls. destruct (controlled p) eqn:Ec; simpl; [|intros [= <- <-]; eauto].
  destruct active as [a|]; [|intros [= <- <-]; by exists k].
  unfold se_bind, se_lift. destruct (charged_parameters p a acc env) as [params|x] eqn:Ep;
    [|intros [= <- <-]; by exists k].
  unfold on_controls. destruct (consume _ _ _ _ _ _ _ _ _ _ _ k) as [r1 k1] eqn:E.
  apply consume_effect in E as [[Hk Hr]|[-> Hc]].
  - destruct r1; [done|]. intros [= <- <-]. eauto.
  - unfold se_ret. intros [= <- <-]. exists k1. split; [done|]. exists a, params. do 3 (split; [done|]). done.
Qed.
End prep.
