(* ===== verification/Paper.v ===== *)
(** services/paper_execution.py: one paper order from request to recorded
    outcome.

    [execute] takes two locks in turn; it is cut at them into [front] (checks
    and the first look at the journal), [admission] (under the admission lock)
    and [dispatch] (under the execution lock), which other threads' phases may
    separate.  What is outside this file and the modelled services reaches the
    phases as answers: the fault of each journal call ([i n] for the n-th),
    account and order queries, instrument facts, the controls, the permit
    dispatcher, and the broker's reply. *)

From Stdlib Require Import SpecFloat.
From S2P Require Import Prelude PyStr PyFloat PyDec DecText PyVal JsonText OrderErrors.
From S2P Require Import Serialization Identity Store Validation Policy Rules ClientAuth Prep.

Definition TERMINAL_BROKER : list string :=
  ["FILLED_ALL"; "CANCELLED_ALL"; "CANCELLED_PART"; "FAILED"; "DELETED"; "REJECTED"].

Definition is_str_eq (s : string) (v : val) : bool :=
  match v with VStr t => bool_decide (t = s) | _ => false end.
Definition str_in (l : list string) (v : val) : bool :=
  match v with VStr t => mem t l | _ => false end.

(** ** Parameters *)

(** [_whole] *)
Definition _whole (v : val) : result Z :=
  match v with
  | VInt z => if z <=? 0 then Err (ValueError "positive whole-share quantities only") else Ok z
  | _ => Err (ValueError "positive whole-share quantities only")
  end.

Definition if_present {A} (k : string) (f : val -> result A) (params : dict) : result unit :=
  match dget k params with Some v => bind (f v) (fun _ => Ok tt) | None => Ok tt end.

Definition zero_or_absent (k : string) (params : dict) : bool :=
  py_eqb (dget_or k (VInt 0) params) (VInt 0).

(** [params[k].startswith("US.")]; on a value without that method Python's
    [AttributeError], which nothing converts, is a [KeyError] here. *)
Definition us_code (v : val) : result bool :=
  match v with VStr s => Ok (startswith "US." s) | _ => Err (KeyError "startswith") end.

(** [_schema] *)
Definition _schema (k : op_kind) (params : dict) : result unit :=
  (_ <- if_present "price" decimal_price params ;;
   _ <- if_present "qty" _whole params ;;
   match k with
   | PLACE =>
       ot <- ditem "order_type" params ;;
       tif <- (if is_str_eq "NORMAL" ot then ditem "time_in_force" params else Ok VNone) ;;
       _ <- refuse_if (negb (is_str_eq "NORMAL" ot) || negb (is_str_eq "DAY" tif))
              (ValueError "Version 1 paper execution supports NORMAL limit DAY orders only") ;;
       code <- ditem "code" params ;;
       us <- us_code code ;;
       side <- (if us then ditem "trd_side" params else Ok VNone) ;;
       _ <- refuse_if (negb us || negb (str_in ["BUY"; "SELL"] side))
              (ValueError "Version 1 paper execution supports US stocks/ETFs and BUY/SELL only") ;;
       refuse_if (negb (zero_or_absent "adjust_limit" params)
                  || negb (forallb (fun k => is_none (dget_none k params))
                             ["aux_price"; "trail_type"; "trail_value"; "trail_spread"]))
         (ValueError "Price adjustment and trigger/trailing parameters are outside paper scope")
   | _ =>
       _ <- refuse_if (negb (positive_order_id (dget_none "order_id" params)))
              (ValueError "Paper mutation must name one positive decimal order ID") ;;
       refuse_if (bool_decide (k = MODIFY)
                  && ((negb (dhas "qty" params) && negb (dhas "price" params))
                      || negb (zero_or_absent "adjust_limit" params)))
         (ValueError "Paper modifications support only price and total quantity")
   end)%py.

(** [TradeService._exact_account_id(value, allow_zero=True)] *)
Definition _exact_account_id (v : val) : result Z :=
  let bad := Err (ValueError "acc_id must be an integer or decimal string.") in
  (parsed <- match v with
             | VInt z => Ok z
             | VStr s => if isdecimal (strip s) then Ok (int_of (strip s)) else bad
             | _ => bad
             end ;;
   _ <- refuse_if (parsed <? 0) (ValueError "acc_id must be a non-negative integer.") ;;
   Ok parsed)%py.

(** Whether [m * 2 ^ e] is an integer, and its integer part. *)
Definition f_whole (m : positive) (e : Z) : bool := (0 <=? e) || (Z.pos m mod 2 ^ (- e) =? 0).
Definition f_whole_value (m : positive) (e : Z) : Z :=
  if 0 <=? e then Z.pos m * 2 ^ e else Z.pos m / 2 ^ (- e).

(** [int(v)] *)
Definition py_int (v : val) : result Z :=
  match v with
  | VInt z => Ok z
  | VBool b => Ok (Z.b2z b)
  | VFloat (S754_zero _) => Ok 0
  | VFloat (S754_finite s m e) => Ok (if s then - f_whole_value m e else f_whole_value m e)
  | VFloat S754_nan => Err (ValueError "cannot convert float NaN to integer")
  | VFloat (S754_infinity _) => Err OverflowError
  | VStr s =>
      let '(neg, t) := split_sign (strip s) in
      match parse_digits_us false (chars_of t) with
      | Some (c :: l) => let z := undigits (map char_digit (c :: l)) in Ok (if neg then - z else z)
      | _ => Err (ValueError "invalid literal for int()")
      end
  | _ => Err (TypeError "int() argument")
  end.

Example py_int_ex :
  map py_int [VStr " -12 "; VStr "1_000"; VStr "1__0"; VStr ""; VFloat (f_lit "-2.5"); VBool true]
  = [Ok (-12); Ok 1000; Err (ValueError "invalid literal for int()");
     Err (ValueError "invalid literal for int()"); Ok (-2); Ok 1].
Proof. vm_compute. reflexivity. Qed.

(** [int(a["acc_id"])] *)
Definition account_number (a : dict) : result Z := bind (ditem "acc_id" a) py_int.

(** [s in (v or [])] for a list of strings or a text. *)
Definition listed (s : string) (v : val) : bool :=
  match v with
  | VList l => existsb (is_str_eq s) l
  | VStr t => match String.index 0 s t with Some _ => true | None => false end
  | _ => false
  end.

(** ** State *)

Inductive reply : Type :=
  | Stored (row : view) (updates : list context)
  | Unstored (id : string) (tag : option string) (st : op_state) (disposition : string)
             (durably_stored : bool) (receipt : option dict).

Record paper : Type := {
  y_store : store;
  y_late_failure : gmap string reply;
  y_late_identity : gmap string view;
  y_calls : list (string * dict) (* the broker calls made, newest first *) }.

Definition on_store {A} (c : SE store A) : SE paper A := fun y =>
  let '(r, s) := c (y_store y) in
  (r, {| y_store := s; y_late_failure := y_late_failure y; y_late_identity := y_late_identity y;
         y_calls := y_calls y |}).
Definition set_identity (f : gmap string view -> gmap string view) : SE paper unit := fun y =>
  (Ok tt, {| y_store := y_store y; y_late_failure := y_late_failure y;
             y_late_identity := f (y_late_identity y); y_calls := y_calls y |}).
Definition set_failure (id : string) (r : reply) : SE paper unit := fun y =>
  (Ok tt, {| y_store := y_store y; y_late_failure := <[id := r]> (y_late_failure y);
             y_late_identity := y_late_identity y; y_calls := y_calls y |}).
Definition log_call (id : string) (args : dict) : SE paper unit := fun y =>
  (Ok tt, {| y_store := y_store y; y_late_failure := y_late_failure y;
             y_late_identity := y_late_identity y; y_calls := (id, args) :: y_calls y |}).

Section paper.
Context `{SessionNames}.

(** The deployment and the caller: policy, allowlisted accounts, and the
    caller's grants. *)
Record setting : Type := {
  e_policy : TradingPolicy; e_allowlist : list Z; e_grants : option ClientGrants }.

(** [PaperExecution.ready] *)
Definition ready (i : io) : SE paper unit := fun y =>
  if bool_decide (y_late_failure y = ∅) then on_store (require_ready i) y
  else (Err (ExecutionStoreError "OUTCOME_NOT_STORED: paper execution blocked"), y).

(** [PaperExecution.health]: outcomes that could not be stored block it too. *)
Definition pending_outcome_health (h : health_report) (failed : gmap string reply) : health_report :=
  if bool_decide (failed = ∅) then h
  else {| h_state := JOURNAL_BLOCKED; h_in_flight := h_in_flight h;
          h_awaiting_review := h_awaiting_review h;
          h_blocking := Z.max (h_blocking h) (Z.of_nat (size failed));
          h_blocking_reasons := sorted_strings ({["OUTCOME_NOT_STORED"]} ∪ list_to_set (h_blocking_reasons h));
          h_pending_operation_ids := sorted_strings (dom failed ∪ list_to_set (h_pending_operation_ids h));
          h_recovery_updates := h_recovery_updates h; h_review_outstanding := h_review_outstanding h;
          h_storage_error := h_storage_error h |}.
Definition paper_health (i : io) : SE paper health_report :=
  (h <- on_store (health i) ;; y <- se_get ;; se_ret (pending_outcome_health h (y_late_failure y)))%se.

(** [result]; which updates the caller's grants hide is left out. *)
Definition result_of (i : io) (row : view) : SE paper reply :=
  (h <- paper_health i ;; se_ret (Stored row (h_recovery_updates h)))%se.

Definition row_id (v : view) : string := operation_id (ident (v_row v)).

(** [_retry]: the same request gets the recorded answer, another one a conflict. *)
Definition _retry (e : setting) (i : io) (row : view) (k : op_kind) (params : dict) (acc_id : val)
    : SE paper reply := fun y =>
  match (requested <- _exact_account_id acc_id ;;
         bound <- int_of_val (VStr (account (ident (v_row row)))) ;;
         _ <- check_account_access (e_grants e) (VStr "SIMULATE") (VInt bound) true ;;
         proposed <- canonicalize_request "SIMULATE" (if requested =? 0 then bound else requested)
                       (kind_name k) params ;;
         fields <- differing_fields (canonical (ident (v_row row))) proposed ;;
         refuse_if (negb (bool_decide (fields = [])))
           (ExecutionConflict "Operation ID conflict"))%py with
  | Err x => (Err x, y)
  | Ok _ => match y_late_failure y !! row_id row with
            | Some r => (Ok r, y)
            | None => result_of i row y
            end
  end.

(** ** Phase one *)

Record order_request : Type := {
  rq_kind : op_kind; rq_params : dict; rq_operation_id : val; rq_epoch : val; rq_acc_id : val }.

(** A phase answers the caller or hands over to the next one. *)
Inductive progress (A : Type) : Type := Answer (r : reply) | Next (a : A).
#[global] Arguments Answer {A} _.
#[global] Arguments Next {A} _.

(** The checks before any journal read; the parameters without the session. *)
Definition checked_request (e : setting) (q : order_request) : result (string * string * dict) :=
  (_ <- check_write (e_policy e) "SIMULATE" ;;
   _ <- validate_token (rq_operation_id q) (rq_epoch q) ;;
   let! (id, epoch) := match rq_operation_id q, rq_epoch q with
                       | VStr a, VStr b => Ok (a, b)
                       | _, _ => Err AssertionError
                       end in
   params <- (if bool_decide (rq_kind q = PLACE) then
                _ <- normalize_order_session (dget_or "session" (VStr "N/A") (rq_params q)) "SIMULATE" ;;
                Ok (dpop "session" (rq_params q))
              else Ok (rq_params q)) ;;
   _ <- _schema (rq_kind q) params ;;
   Ok (id, epoch, params))%py.

Definition front (e : setting) (i : nat -> io) (q : order_request)
    : SE paper (progress (string * string * dict)) := fun y =>
  match not_sent false false (checked_request e q) with
  | Err x => (Err x, y)
  | Ok (id, epoch, params) =>
      match y_late_failure y !! id with
      | Some _ =>
          match y_late_identity y !! id with
          | None => (Err (KeyError id), y)
          | Some row => (r <- _retry e (i 0%nat) row (rq_kind q) params (rq_acc_id q) ;; se_ret (Answer r))%se y
          end
      | None =>
          (row <- on_store (lookup (i 0%nat) id) ;;
           match row with
           | Some row => r <- _retry e (i 1%nat) row (rq_kind q) params (rq_acc_id q) ;; se_ret (Answer r)
           | None => se_ret (Next (id, epoch, params))
           end)%se y
      end
  end.

(** ** Phase two *)

(** One account of [get_accounts()] that may be used. *)
Definition eligible_account (e : setting) (a : dict) : result (option Z) :=
  if negb (is_str_eq "SIMULATE" (dget_none "trd_env" a)) then Ok None
  else (n <- account_number a ;;
        Ok (if bool_decide (n ∈ e_allowlist e) && listed "US" (dget_none "trdmarket_auth" a)
               && account_access_allowed (e_grants e) (VStr "SIMULATE") (dget_none "acc_id" a) true
            then Some n else None))%py.

(** [_account] *)
Definition _account (e : setting) (accounts : result (list dict)) (acc_id : val) : result Z :=
  (requested <- _exact_account_id acc_id ;;
   _ <- refuse_if (negb (requested =? 0) && negb (bool_decide (requested ∈ e_allowlist e)))
          (ValueError "Account is not on the simulated-account allowlist") ;;
   _ <- (if requested =? 0 then Ok tt else check_account_access (e_grants e) (VStr "SIMULATE") (VInt requested) true) ;;
   rows <- accounts ;;
   found <- mapM (eligible_account e) rows ;;
   let eligible := remove_dups (omap id found) in
   if negb (requested =? 0) then
     if bool_decide (requested ∈ eligible) then Ok requested
     else Err (ValueError "Allowlisted account could not be verified as a US simulated account")
   else match eligible with
        | [a] => Ok a
        | _ => Err (ValueError "Paper execution requires exactly one eligible account or an explicit acc_id")
        end)%py.

Record admission_answers : Type := {
  aa_accounts : result (list dict); aa_reserve : result unit; aa_tag : string (* uuid4 *) }.

Definition admitted : Type := string * Z * dict * view.

Definition admission (e : setting) (i : nat -> io) (w : admission_answers) (q : order_request)
    (id epoch : string) (params : dict) : SE paper (progress admitted) :=
  not_sent_se false true
    (row <- on_store (lookup (i 0%nat) id) ;;
     match row with
     | Some row => r <- _retry e (i 1%nat) row (rq_kind q) params (rq_acc_id q) ;; se_ret (Answer r)
     | None =>
         y <- se_get ;;
         _ <- se_lift (refuse_if (negb (bool_decide (epoch = s_epoch (y_store y))))
                (ExecutionConflict "Unknown non-current-epoch token cannot be accounted for; do not refresh it")) ;;
         _ <- ready (i 2%nat) ;;
         acc <- se_lift (_account e (aa_accounts w) (rq_acc_id q)) ;;
         canon <- se_lift (canonicalize_request "SIMULATE" acc (kind_name (rq_kind q)) params) ;;
         _ <- se_lift (aa_reserve w) ;;
         do! (row, created) := on_store (admit_ (i 3%nat) (aa_tag w) id epoch acc (rq_kind q) canon params) in
         if created then se_ret (Next (id, acc, params, row))
         else r <- _retry e (i 4%nat) row (rq_kind q) params (rq_acc_id q) ;; se_ret (Answer r)
     end)%se.

(** ** Phase three: preparation *)

(** What an SDK call answers: it raises, refuses ([ret != RET_OK]) or
    returns data. *)
Inductive answer (A : Type) : Type :=
  | Raised (e : exn)
  | RetError
  | RetOk (data : A).
#[global] Arguments Raised {A} _.
#[global] Arguments RetError {A}.
#[global] Arguments RetOk {A} _.

(** [TradeService._fetch_order]; the frame conversion may raise. *)
Definition _fetch_order (a : answer (result (list dict))) (order_id : string) : result dict :=
  match a with
  | Raised e => Err e
  | RetError => Err (ValueError "could not retrieve order")
  | RetOk frame =>
      (records <- frame ;;
       match List.filter (fun r => bool_decide (py_str (dget_none "order_id" r) = order_id)) records with
       | [] => Err (ValueError "order was not found")
       | [order] => Ok order
       | _ => Err (ValueError "broker returned ambiguous evidence for order")
       end)%py
  end.

Definition is_dfin (d : decimal) : bool := match d with DFin _ => true | _ => false end.

(** Equality of decimals that are both finite. *)
Definition finite_eq (x y : decimal) : bool :=
  match x, y with DFin a, DFin b => d_eqb a b | _, _ => false end.

(** [matches] of [_require_modification_visibility]: the broker shows the
    quantity and price the earlier modification asked for. *)
Definition modification_visible (order expected : dict) : result bool :=
  match decimal_str (dget_none "qty" order), decimal_str (dget_none "price" order) with
  | Some quantity, Some price =>
      if is_dfin quantity && is_dfin price then
        (q <- ditem "qty" expected ;;
         match decimal_str q with
         | None => Ok false
         | Some q =>
             if negb (finite_eq quantity q) then Ok false
             else p <- ditem "price" expected ;;
                  Ok (match decimal_str p with Some p => finite_eq price p | None => false end)
         end)%py
      else Ok false
  | _, _ => Ok false
  end.

(** [_require_modification_visibility] *)
Definition _require_modification_visibility (i : io) (acc : Z) (order : dict) : SE paper (list string) :=
  (order_id <- se_lift (ditem "order_id" order) ;;
   pending <- on_store (unobserved_modifications i acc (py_str order_id)) ;;
   _ <- se_lift (iterM (fun previous =>
          visible <- modification_visible order
                       (val_dict (default VNone (merged_request (v_row previous)))) ;;
          refuse_if (negb visible)
            (ValueError "Prior acknowledged paper modification is not yet observed"))%py pending) ;;
   se_ret (map row_id pending))%se.

Definition bad_quantity {A} : result A := Err (ValueError "Paper quantity must be a positive whole number").

(** The quantity check: an [int], or the whole float the SDK reports. *)
Definition paper_quantity (v : val) : result Z :=
  match v with
  | VInt z => (_ <- f_of_Z z ;; if z <=? 0 then bad_quantity else Ok z)%py
  | VFloat f =>
      if negb (is_finite f) || f_le f f_zero then bad_quantity
      else match f with
           | S754_finite _ m e => if f_whole m e then Ok (f_whole_value m e) else bad_quantity
           | _ => bad_quantity
           end
  | _ => bad_quantity
  end.

(** The USD cap, compared on the submitted decimals. *)
Definition usd_cap_check (cap : option float) (number : dec) (price qty : val) : result unit :=
  match cap with
  | None => Ok tt
  | Some cap =>
      match decimal_str qty, decimal_str (VFloat cap) with
      | Some (DFin q), Some (DFin c) =>
          let prec := Z.max 128 (len (py_str qty) + len (py_str price) + 2) in
          refuse_if (d_gtb (d_mul prec number q) c) (ValueError "Paper order exceeds the USD notional cap")
      | _, _ => Err InvalidOperation
      end
  end.

(** [float(number)] of a positive decimal. *)
Definition float_of_dec (d : dec) : float := f_neg_if (d_neg d) (f_of_decimal (d_coef d) (d_exp d)).

Record dispatch_answers : Type := {
  da_connected : bool;                       (* [trade_ctx is not None] *)
  da_order : answer (result (list dict));    (* order_list_query *)
  da_lookup : option (result (list InstrumentFacts));
  da_operation : option control_op;          (* the thread's controlled operation *)
  da_protect : result unit;                  (* protect_mutation *)
  da_new_risk : result unit;                 (* check_new_risk, if controls exist *)
  da_controls : result unit;                 (* _check_dispatch_controls *)
  da_confirm : result unit;                  (* _confirm_dispatch_controls *)
  da_still_connected : bool;                 (* the assertion after the marker *)
  (* the broker's reply: the readable first order ID, and the whole frame *)
  da_broker : answer (option string * result (list dict)) }.

Definition not_scope {A} (msg : string) : result A := Err (ValueError msg).

Definition cancel_request (order_id : val) (acc : Z) : dict :=
  [("modify_order_op", VStr "CANCEL"); ("order_id", order_id); ("qty", VInt 0); ("price", VInt 0);
   ("trd_env", VStr "SIMULATE"); ("acc_id", VInt acc)].
Definition place_request (code : string) (q : Z) (price side remark : val) (acc : Z) : dict :=
  [("code", VStr code); ("qty", VInt q); ("price", price); ("trd_side", side);
   ("order_type", VStr "NORMAL"); ("time_in_force", VStr "DAY"); ("session", VStr s_rth);
   ("adjust_limit", VInt 0); ("trd_env", VStr "SIMULATE"); ("acc_id", VInt acc); ("remark", remark)].
Definition modify_request (order_id : val) (q : Z) (price : val) (acc : Z) : dict :=
  [("modify_order_op", VStr "NORMAL"); ("order_id", order_id); ("qty", VInt q); ("price", price);
   ("adjust_limit", VInt 0); ("trd_env", VStr "SIMULATE"); ("acc_id", VInt acc)].

(** The instrument facts of [code], of a class paper orders may name. *)
Definition paper_instrument (lookup : option (result (list InstrumentFacts))) (code : string)
    : result InstrumentFacts :=
  match lookup with
  | None => not_scope "Instrument classification cannot be verified"
  | Some found =>
      (instruments <- found ;;
       match instruments with
       | [i] => if bool_decide (i_code i = code)
                   && match classification i with Some c => mem c ["STOCK"; "ETF"] | None => false end
                then Ok i
                else not_scope "Paper execution requires a verified US stock or ETF"
       | _ => not_scope "Paper execution requires a verified US stock or ETF"
       end)%py
  end.

(** [_prepare] once the order is known: PLACE passes its own parameters. *)
Definition prepared (e : setting) (w : dispatch_answers) (k : op_kind) (params order : dict)
    (acc : Z) : result dict :=
  let code := py_str (dget_or "code" (VStr "") order) in
  (_ <- refuse_if (negb (startswith "US." code) || negb (str_in ["BUY"; "SELL"] (dget_none "trd_side" order)))
          (ValueError "Target is outside US equity paper scope") ;;
   if bool_decide (k = CANCEL) then
     order_id <- ditem "order_id" params ;; Ok (cancel_request order_id acc)
   else
     inst <- paper_instrument (da_lookup w) code ;;
     let qty := dget_or "qty" (dget_none "qty" order) params in
     q <- paper_quantity qty ;;
     let price := dget_or "price" (VStr (py_str (dget_none "price" order))) params in
     number <- decimal_price price ;;
     _ <- validate_instrument_order inst (Plain qty) "NORMAL" (Some (Dec_of number)) None ;;
     _ <- usd_cap_check (max_order_notional (e_policy e) !! "USD") number price qty ;;
     side <- ditem "trd_side" order ;;
     _ <- assess_control_facts (e_policy e) (da_operation w)
            {| order_type := "NORMAL"; trd_side := py_str side; Policy.qty := q;
               legs := [{| instrument := inst; qty_ratio := 1 |}];
               Policy.price := Some (float_of_dec number); aux_price := None; is_combo := false |} ;;
     if bool_decide (k = PLACE) then
       own <- ditem "trd_side" params ;;
       Ok (place_request code q price own (dget_or "remark" (VStr "") params) acc)
     else
       order_id <- ditem "order_id" params ;; Ok (modify_request order_id q price acc))%py.

(** [_prepare]: the broker request, and the earlier modifications it saw. *)
Definition _prepare (e : setting) (i : io) (w : dispatch_answers) (k : op_kind) (params : dict)
    (acc : Z) : SE paper (dict * list string) :=
  (_ <- se_lift (refuse_if (negb (da_connected w)) (ValueError "Trade context not connected")) ;;
   do! (order, observed) :=
     (if bool_decide (k = PLACE) then se_ret (params, [])
      else
        wanted <- se_lift (ditem "order_id" params) ;;
        order <- se_lift (_fetch_order (da_order w) (py_str wanted)) ;;
        _ <- se_lift (refuse_if (negb (is_str_eq "DAY" (dget_none "time_in_force" order)
                                       && is_str_eq "NORMAL" (dget_none "order_type" order)
                                       && is_str_eq s_rth (dget_none "session" order)))
               (ValueError "Target order is outside verified DAY/regular-hours paper scope")) ;;
        if bool_decide (k = MODIFY) then
          _ <- se_lift (refuse_if (str_in TERMINAL_BROKER (dget_none "order_status" order))
                 (ValueError "Target order is terminal")) ;;
          seen <- _require_modification_visibility i acc order ;;
          se_ret (order, seen)
        else se_ret (order, [])) in
   merged <- se_lift (prepared e w k params order acc) ;;
   se_ret (merged, observed))%se.

(** ** Phase three: dispatch *)

(** The steps up to the durable marker. *)
Definition checked_and_marked (e : setting) (i : nat -> io) (w : dispatch_answers) (k : op_kind)
    (t : admitted) : SE paper (dict * list string) :=
  let '(id, acc, params, row) := t in
  (_ <- ready (i 0%nat) ;;
   do! (prep, observed) := _prepare e (i 1%nat) w k params acc in
   let merged := if bool_decide (k = PLACE)
                 then dset "remark" (match order_tag (ident (v_row row)) with
                                     | Some tag => VStr tag | None => VNone end) prep
                 else prep in
   _ <- se_lift (da_protect w) ;;
   _ <- se_lift (if bool_decide (k = CANCEL) then Ok tt else da_new_risk w) ;;
   _ <- se_lift (da_controls w) ;;
   _ <- se_lift (da_confirm w) ;;
   _ <- on_store (mark_dispatch (i 2%nat) id merged) ;;
   se_ret (merged, observed))%se.

(** Nothing was sent: the operation is refused and the failure raised again. *)
Definition refused (i : io) (id : string) (e : exn) : SE paper reply :=
  not_sent_se true false
    (_ <- on_store (outcome i id REFUSED "NOT_SENT" None (Some "No order was sent") None []) ;;
     _ <- set_identity (delete id) ;;
     se_raise e)%se.

(** [_finish]: whatever goes wrong while the outcome is stored, the caller
    gets the outcome, and execution is blocked. *)
Definition _finish (i : nat -> io) (id : string) (st : op_state) (disp : string)
    (receipt : option dict) (err reason : option string) (observed : list string)
    : SE paper reply := fun y =>
  match y_late_identity y !! id with
  | None => (Err (KeyError id), y)
  | Some row =>
      let late (committed : bool) : SE paper reply :=
        let r := Unstored id (order_tag (ident (v_row row))) st
                   (if committed then disp else "OBSERVED_NOT_STORED") committed receipt in
        (_ <- set_failure id r ;; se_ret r)%se in
      match on_store (outcome (i 0%nat) id st disp receipt err reason observed) y with
      | (Err _, y1) => late false y1
      | (Ok _, y1) =>
          se_try
            (row <- on_store (lookup (i 1%nat) id) ;;
             row <- se_lift (match row with Some row => Ok row | None => Err AssertionError end) ;;
             r <- result_of (i 2%nat) row ;;
             _ <- set_identity (delete id) ;;
             se_ret r)%se
            (fun _ => late true) y1
      end
  end.

(** [_first_record] *)
Definition _first_record (frame : result (list dict)) : result dict :=
  (records <- frame ;;
   match records with
   | r :: _ => Ok r
   | [] => Err (ValueError "the gateway acknowledged the request but returned no rows")
   end)%py.

Definition readable_receipt (frame : result (list dict)) : result dict :=
  (r <- _first_record frame ;;
   v <- serialize_identifiers (VDict r) ;;
   _ <- json_dumps v ;;
   Ok (val_dict v))%py.

(** The marker is committed: one broker call, then the outcome it left. *)
Definition sent (i : nat -> io) (w : dispatch_answers) (id : string) (merged : dict)
    (observed : list string) : SE paper reply :=
  let unknown := _finish i id UNKNOWN_OUTCOME "POSSIBLY_SENT" None
                   (Some "Outcome is unknown; may have been sent. Do not resend")
                   (Some "UNRESOLVED_OUTCOME") [] in
  if negb (da_still_connected w) then unknown
  else
    (_ <- log_call id merged ;;
     match da_broker w with
     | Raised _ | RetError => unknown
     | RetOk (first_id, frame) =>
         match readable_receipt frame with
         | Err _ =>
             let evidence := match first_id with Some o => [("order_id", VStr o)] | None => [] end in
             _finish i id ACKNOWLEDGED "ACKNOWLEDGED" (Some evidence)
               (Some "Gateway acknowledged; local conversion failure; do not resend")
               (Some "RECEIPT_UNREADABLE") observed
         | Ok receipt => _finish i id ACKNOWLEDGED "ACKNOWLEDGED" (Some receipt) None None observed
         end
     end)%se.

(** Everything under the execution lock. *)
Definition dispatch (e : setting) (i : nat -> io) (w : dispatch_answers) (k : op_kind)
    (t : admitted) : SE paper reply := fun y =>
  let '(id, _, _, row) := t in
  (_ <- set_identity <[id := row]> ;;
   fun y =>
     match checked_and_marked e i w k t y with
     | (Err x, y1) => refused (i 3%nat) id x y1
     | (Ok (merged, observed), y1) => sent (fun n => i (3 + n)%nat) w id merged observed y1
     end)%se y.

(** ** The whole operation *)

(** [execute]: the n-th journal call of phase p fails as [i p n] says. *)
Definition execute (e : setting) (i : nat -> nat -> io) (wa : admission_answers)
    (wd : dispatch_answers) (q : order_request) : SE paper reply :=
  (p <- front e (i 0%nat) q ;;
   match p with
   | Answer r => se_ret r
   | Next (id, epoch, params) =>
       a <- admission e (i 1%nat) wa q id epoch params ;;
       match a with
       | Answer r => se_ret r
       | Next t => dispatch e (i 2%nat) wd (rq_kind q) t
       end
   end)%se.
End paper.
