(* ===== verification/PaperOnce.v ===== *)
(** Paper execution as a concurrent system over the journal: threads between
    the phases of [Paper.execute], recovery's journal calls in between, process
    exits and restarts.  Every run of it is a run of the journal machine of
    StoreInv, in which each broker call follows its own durable marker. *)

From S2P Require Import Prelude PyStr PyFloat PyDec PyVal OrderErrors Serialization Identity.
From S2P Require Import Store StoreOpen StoreInv Journal Validation Policy Rules ClientAuth Prep Paper.

(** ** Runs of journal calls *)

Definition mark_of (c : call) (r : result unit) : list (string * dict) :=
  match c, r with CMark _ id merged, Ok _ => [(id, merged)] | _, _ => [] end.

Inductive runs : store -> list (string * dict) -> store -> Prop :=
  | runs_nil s : runs s [] s
  | runs_cons c s r s1 marks s' :
      well_used c -> run_call c s = (r, s1) -> runs s1 marks s' -> runs s (marks ++ mark_of c r) s'.

Lemma runs_one c s r s' : well_used c -> run_call c s = (r, s') -> runs s (mark_of c r) s'.
Proof. intros Hw Hc. apply (runs_cons c s r s' [] s'); [done|done|constructor]. Qed.

Lemma runs_trans s m1 s1 m2 s2 : runs s m1 s1 -> runs s1 m2 s2 -> runs s (m2 ++ m1) s2.
Proof.
  induction 1 as [|c s r s1 marks s' Hw Hc _ IH]; intros H; [by rewrite app_nil_r|].
  rewrite app_assoc. eapply runs_cons; eauto.
Qed.

Lemma runs_reachable env file m s marks s' :
  file_ok file -> reachable env file m -> m_proc m = Some s -> runs s marks s' ->
  reachable env file {| m_file := Some (s_db s'); m_proc := Some s';
                        m_dispatched := marks ++ m_dispatched m |}.
Proof.
  intros Hf Hm Hp Hr. revert m Hm Hp.
  induction Hr as [s|c s r s1 marks s' Hw Hc _ IH]; intros m Hm Hp.
  - destruct (mok_proc _ (reachable_ok _ _ _ Hf Hm) _ Hp) as [Hfile _].
    destruct m; simpl in *. by subst.
  - assert (H1 : reachable env file {| m_file := Some (s_db s1); m_proc := Some s1;
                    m_dispatched := mark_of c r ++ m_dispatched m |}).
    { eapply star_snoc; [exact Hm|]. destruct m as [f p l]; simpl in *. subst p.
      replace (mark_of c r ++ l)%list
        with (match c, r with CMark _ id merged, Ok _ => (id, merged) :: l | _, _ => l end)
        by (destruct c; try done; by destruct r).
      by constructor. }
    specialize (IH _ H1 eq_refl). simpl in IH. by rewrite app_assoc in IH.
Qed.

Lemma runs_ok s marks s' : runs s marks s' -> db_ok (s_db s) -> db_ok (s_db s').
Proof.
  induction 1 as [|c s r s1 marks s' Hw Hc _ IH]; [done|]. intros Hok. apply IH.
  destruct (run_call_ok c Hw _ _ _ Hc) as (_ & _ & [->|H]); auto.
Qed.

(** ** Computations that neither mark nor call the broker *)

Definition silent (y y' : paper) : Prop :=
  runs (y_store y) [] (y_store y') /\ y_calls y' = y_calls y.
#[export] Instance silent_preorder : PreOrder silent.
Proof.
  split; [by split; [constructor|]|]. intros x y z [R1 C1] [R2 C2].
  split; [exact (runs_trans _ _ _ _ _ R1 R2)|congruence].
Qed.
Abbreviation unmarked c := (preserves silent c).

Lemma unmarked_identity f : unmarked (set_identity f).
Proof. intros y ? ? [= <- <-]. split; [constructor|done]. Qed.
Lemma unmarked_failure id r : unmarked (set_failure id r).
Proof. intros y ? ? [= <- <-]. split; [constructor|done]. Qed.

Definition no_mark (k : call) : Prop := match k with CMark _ _ _ => False | _ => True end.

Lemma unmarked_store {A} (c : SE store A) k :
  well_used k -> no_mark k ->
  (forall s r s', c s = (r, s') -> exists r', run_call k s = (r', s')) -> unmarked (on_store c).
Proof.
  intros Hw Hk Hc y r y' H. unfold on_store in H. destruct (c (y_store y)) as [r1 s1] eqn:E.
  simplify_eq. split; [|done]. apply Hc in E as [r' E]. simpl.
  replace [] with (mark_of k r') by (by destruct k). by apply (runs_one k).
Qed.

Lemma ignored {S A} (c : SE S A) s r s' :
  c s = (r, s') -> exists r', (_ <- c ;; se_ret tt)%se s = (r', s').
Proof. intros E. unfold se_bind. rewrite E. destruct r; eexists; reflexivity. Qed.

#[export] Hint Resolve unmarked_identity unmarked_failure : preserves.

Lemma unmarked_lookup i id : unmarked (on_store (lookup i id)).
Proof. apply (unmarked_store _ (CLookup i id)); [done|done|apply ignored]. Qed.
Lemma unmarked_pending i acc oid : unmarked (on_store (unobserved_modifications i acc oid)).
Proof. apply (unmarked_store _ (CUnobserved i acc oid)); [done|done|apply ignored]. Qed.
Lemma unmarked_admit i tag id epoch acc k canon req :
  unmarked (on_store (admit_ i tag id epoch acc k canon req)).
Proof. apply (unmarked_store _ (CAdmit i tag id epoch acc k canon req)); [done|done|apply ignored]. Qed.
Lemma unmarked_health i : unmarked (on_store (health i)).
Proof. apply (unmarked_store _ (CHealth i)); [done|done|apply ignored]. Qed.
Lemma unmarked_require_ready i : unmarked (on_store (require_ready i)).
Proof. apply (unmarked_store _ (CRequireReady i)); [done|done|eauto]. Qed.
Lemma unmarked_outcome i id st disp rec err reason obs :
  st ∈ [ACKNOWLEDGED; UNKNOWN_OUTCOME; REFUSED] -> (st = UNKNOWN_OUTCOME -> set_text reason = true) ->
  unmarked (on_store (outcome i id st disp rec err reason obs)).
Proof. intros H1 H2. apply (unmarked_store _ (COutcome i id st disp rec err reason obs)); [done|done|eauto]. Qed.
#[export] Hint Resolve unmarked_lookup unmarked_pending unmarked_admit unmarked_health
  unmarked_require_ready : preserves.

Section phases.
Context `{SN : SessionNames}.

Lemma unmarked_ready i : unmarked (ready i).
Proof.
  intros y r y'. unfold ready. case_bool_decide; [apply unmarked_require_ready|].
  intros [= <- <-]. split; [constructor|done].
Qed.

Lemma unmarked_result i row : unmarked (result_of i row).
Proof. pose proof (unmarked_health i). unfold result_of, paper_health. repeat preserves. Qed.

Lemma unmarked_retry e i row k params acc : unmarked (_retry e i row k params acc).
Proof.
  intros y r y' Hy. unfold _retry in Hy. destruct (bind _ _) as [x|x].
  - destruct (y_late_failure y !! row_id row); [|by eapply unmarked_result].
    simplify_eq. split; [constructor|done].
  - simplify_eq. split; [constructor|done].
Qed.
Hint Resolve unmarked_ready unmarked_result unmarked_retry : preserves.

Lemma unmarked_front e i q : unmarked (front e i q).
Proof.
  intros y r y'. unfold front.
  destruct (not_sent _ _ _) as [[[id epoch] params]|x]; [|intros [= <- <-]; split; [constructor|done]].
  destruct (y_late_failure y !! id).
  - destruct (y_late_identity y !! id); [|intros [= <- <-]; split; [constructor|done]].
    revert y r y'. change (unmarked (r <- _retry e (i 0%nat) v (rq_kind q) params (rq_acc_id q) ;;
      se_ret (A := progress (string * string * dict)) (Answer r))%se). repeat preserves.
  - revert y r y'. match goal with |- forall y r y', ?c y = _ -> _ => change (unmarked c) end.
    repeat preserves.
Qed.

Lemma unmarked_admission e i w q id epoch params : unmarked (admission e i w q id epoch params).
Proof. unfold admission. apply preserves_not_sent. repeat preserves. Qed.

Lemma unmarked_prepare e i w k params acc : unmarked (_prepare e i w k params acc).
Proof. unfold _prepare, _require_modification_visibility. repeat preserves. Qed.

Hint Resolve unmarked_front unmarked_admission unmarked_prepare : preserves.

Lemma unmarked_refused i id e : unmarked (refused i id e).
Proof.
  unfold refused. apply preserves_not_sent. preserves.
  apply unmarked_outcome; [set_solver|done].
Qed.

Lemma unmarked_finish i id st disp rec err reason obs :
  st ∈ [ACKNOWLEDGED; UNKNOWN_OUTCOME; REFUSED] -> (st = UNKNOWN_OUTCOME -> set_text reason = true) ->
  unmarked (_finish i id st disp rec err reason obs).
Proof.
  intros Hst Hwhy y r y' H. unfold _finish in H.
  destruct (y_late_identity y !! id) as [row|]; [|simplify_eq; split; [constructor|done]].
  destruct (on_store _ y) as [[[]|x] y1] eqn:E; apply unmarked_outcome in E as [R1 C1]; try done.
  - eapply (preserves_try silent) in H as [R2 C2];
      [split; [exact (runs_trans _ _ _ _ _ R1 R2)|congruence]|repeat preserves|intros; repeat preserves].
  - apply (preserves_bind silent) in H as [R2 C2]; [|apply unmarked_failure|intros; auto with preserves].
    split; [exact (runs_trans _ _ _ _ _ R1 R2)|congruence].
Qed.

(** Up to the marker nothing is called; past it exactly this marker was written. *)
Definition marks {A} (c : SE paper A) (f : A -> list (string * dict)) : Prop :=
  forall y r y', c y = (r, y') ->
    y_calls y' = y_calls y /\
    runs (y_store y) (match r with Ok a => f a | Err _ => [] end) (y_store y').

Lemma marks_bind {A B} (c : SE paper A) (g : A -> SE paper B) f :
  unmarked c -> (forall a, marks (g a) f) -> marks (se_bind c g) f.
Proof.
  intros Hc Hg y r y' H. unfold se_bind in H. destruct (c y) as [[a|x] y1] eqn:E.
  - destruct (Hc _ _ _ E) as [R1 C1], (Hg a _ _ _ H) as [C2 R2]. split; [congruence|].
    pose proof (runs_trans _ _ _ _ _ R1 R2) as R. by rewrite app_nil_r in R.
  - simplify_eq. by destruct (Hc _ _ _ E).
Qed.

Lemma marks_mark i id merged (observed : list string) :
  marks (_ <- on_store (mark_dispatch i id merged) ;; se_ret (merged, observed))%se
        (fun a : dict * list string => [(id, a.1)]).
Proof.
  intros y r y' H. unfold se_bind, on_store in H.
  destruct (mark_dispatch i id merged (y_store y)) as [[[]|x] s1] eqn:E; injection H as <- <-;
    (split; [done|]); apply (runs_one (CMark i id merged)) in E; done.
Qed.

Lemma checked_and_marked_runs e i w k id acc params row :
  marks (checked_and_marked e i w k (id, acc, params, row)) (fun a => [(id, a.1)]).
Proof.
  unfold checked_and_marked.
  apply marks_bind; [auto with preserves|intros _].
  apply marks_bind; [auto with preserves|intros [prep observed]].
  do 4 (apply marks_bind; [solve [auto with preserves]|intros _]).
  apply marks_mark.
Qed.

(** The phases up to the marker leave the in-memory outcomes alone. *)
Definition same_late (y y' : paper) : Prop :=
  y_late_identity y' = y_late_identity y /\ y_late_failure y' = y_late_failure y.
#[export] Instance same_late_preorder : PreOrder same_late.
Proof. split; [done|]. intros x y z [] []. split; congruence. Qed.
Abbreviation steady c := (preserves same_late c).

Lemma steady_store {A} (c : SE store A) : steady (on_store c).
Proof. intros y r y' H. unfold on_store in H. destruct (c _). by simplify_eq. Qed.
Hint Resolve steady_store : preserves.
Lemma steady_ready i : steady (ready i).
Proof. intros y r y'. unfold ready. case_bool_decide; [apply steady_store|by intros [= <- <-]]. Qed.
Lemma steady_result i row : steady (result_of i row).
Proof.
  unfold result_of, paper_health. repeat preserves.
Qed.
Lemma steady_retry e i row k params acc : steady (_retry e i row k params acc).
Proof.
  intros y r y' Hy. unfold _retry in Hy. destruct (bind _ _) as [x|x]; [|by simplify_eq].
  destruct (y_late_failure y !! row_id row); [by simplify_eq|by eapply steady_result].
Qed.
Hint Resolve steady_ready steady_result steady_retry : preserves.

Lemma steady_checked e i w k t : steady (checked_and_marked e i w k t).
Proof.
  destruct t as [[[id acc] params] row].
  unfold checked_and_marked, _prepare, _require_modification_visibility. repeat preserves.
Qed.

Lemma steady_admission e i w q id epoch params : steady (admission e i w q id epoch params).
Proof.
  unfold admission, not_sent_se. intros y r y' H.
  destruct (se_bind _ _ y) as [r1 y1] eqn:E; simplify_eq. revert E.
  match goal with |- ?c y = _ -> _ => assert (Hc : steady c) by (repeat preserves); apply Hc end.
Qed.

Lemma steady_front e i q : steady (front e i q).
Proof.
  intros y r y' H. unfold front in H. destruct (not_sent _ _ _) as [[[id epoch] params]|x]; [|by injection H as _ <-].
  destruct (y_late_failure y !! id); [destruct (y_late_identity y !! id); [|by injection H as _ <-]|];
    revert H; match goal with |- ?c y = _ -> _ => assert (Hc : steady c) by (repeat preserves); apply Hc end.
Qed.

(** A row that [admit] creates is the operation's own. *)
Lemma admitted_fresh i tag id epoch acc k canon body s row s' :
  admit_ i tag id epoch acc k canon body s = (Ok (row, true), s') -> row_id row = id.
Proof.
  intros E. apply transaction_cases in E as [[_ ?]|[(? & _ & ?)|([] & d & Heq & -> & E & _)]]; try done.
  injection Heq as <- Ht. destruct (row_view id _) as [w0|] eqn:Hw; [by simplify_eq|].
  case_match; [done|]. case_match; [done|]. apply bind_ok in E as (? & ? & E).
  apply bind_ok in E as (d1 & Hi & E). case_match eqn:Hv; [|done]. simplify_eq.
  apply insert_operation_inv in Hi as [_ Hd]. unfold row_view in Hv. rewrite Hd in Hv. simpl in Hv.
  rewrite lookup_insert_eq in Hv. by simplify_eq.
Qed.

(** [_finish] answers whenever the operation is registered. *)
Lemma finish_answers i id st disp rec err reason obs y r y' row :
  _finish i id st disp rec err reason obs y = (r, y') -> y_late_identity y !! id = Some row ->
  is_ok r = true.
Proof.
  unfold _finish. intros H Hid. rewrite Hid in H.
  destruct (on_store _ y) as [[[]|x] y1]; [|unfold se_bind, set_failure, se_ret in H; by simplify_eq].
  unfold se_try in H. destruct (se_bind _ _ y1) as [[a|x] y2]; [by simplify_eq|].
  unfold se_bind, set_failure, se_ret in H; by simplify_eq.
Qed.

Lemma sent_answers i w id merged observed y r y' :
  sent i w id merged observed y = (r, y') -> forall row, y_late_identity y !! id = Some row -> is_ok r = true.
Proof.
  unfold sent. intros H row Hid. destruct (da_still_connected w); simpl in H; [|by eapply finish_answers].
  unfold se_bind, log_call in H.
  repeat (match type of H with context [match ?x with _ => _ end] => destruct x end);
    by eapply finish_answers in H.
Qed.

(** The broker call: at most one, for this operation. *)
Lemma sent_runs i w id merged observed y r y' :
  sent i w id merged observed y = (r, y') ->
  runs (y_store y) [] (y_store y') /\
  y_calls y' = (if da_still_connected w then (id, merged) :: y_calls y else y_calls y).
Proof.
  unfold sent. intros H.
  assert (Hf : forall st disp rec err reason obs y r y',
    st ∈ [ACKNOWLEDGED; UNKNOWN_OUTCOME; REFUSED] -> (st = UNKNOWN_OUTCOME -> set_text reason = true) ->
    _finish i id st disp rec err reason obs y = (r, y') ->
    runs (y_store y) [] (y_store y') /\ y_calls y' = y_calls y).
  { intros *. intros ? ?. by apply unmarked_finish. }
  destruct (da_still_connected w); simpl in H; [|by apply Hf in H; [|set_solver|done]].
  unfold se_bind, log_call in H.
  repeat (match type of H with context [match ?x with _ => _ end] => destruct x end);
    apply Hf in H; try done; set_solver.
Qed.

Lemma refused_raises i id x y r y' : refused i id x y = (r, y') -> is_ok r = false.
Proof.
  unfold refused, not_sent_se, se_bind, se_raise. intros H.
  destruct (on_store _ y) as [[[]|x1] y1]; simpl in H; by simplify_eq.
Qed.

Lemma dispatch_runs e i w k id acc params row y r y' :
  dispatch e i w k (id, acc, params, row) y = (r, y') ->
  exists marks, runs (y_store y) marks (y_store y') /\
    ((y_calls y' = y_calls y) \/
     exists args, marks = [(id, args)] /\ y_calls y' = (id, args) :: y_calls y /\ is_ok r = true).
Proof.
  unfold dispatch. intros H. unfold se_bind, set_identity in H.
  match type of H with context [checked_and_marked _ _ _ _ _ ?y] => set (y0 := y) in H end.
  destruct (checked_and_marked e i w k _ y0) as [[[merged observed]|x] y1] eqn:E.
  - pose proof (steady_checked e i w k (id, acc, params, row) _ _ _ E) as [S1 _].
    apply checked_and_marked_runs in E as [C1 R1].
    pose proof (sent_answers _ _ _ _ _ _ _ _ H) as Hok.
    apply sent_runs in H as [R2 C2]. eexists. split; [exact (runs_trans _ _ _ _ _ R1 R2)|].
    rewrite C2, C1. destruct (da_still_connected w); [right; exists merged|by left].
    split_and!; [done|done|]. eapply Hok. rewrite S1. simpl. by rewrite lookup_insert_eq.
  - apply checked_and_marked_runs in E as [C1 R1]. apply unmarked_refused in H as [R2 C2].
    eexists. split; [exact (runs_trans _ _ _ _ _ R1 R2)|]. left. by rewrite C2, C1.
Qed.

Lemma front_next e i q y id epoch params y' :
  front e i q y = (Ok (Next (id, epoch, params)), y') -> checked_request e q = Ok (id, epoch, params).
Proof.
  unfold front. intros H. destruct (not_sent _ _ _) as [[[id0 epoch0] params0]|x] eqn:E; [|done].
  apply not_sent_ok in E. unfold se_bind, se_ret in H.
  repeat (match type of H with context [match ?x with _ => _ end] => destruct x end); simplify_eq; done.
Qed.

Lemma checked_request_id e q id epoch params :
  checked_request e q = Ok (id, epoch, params) -> rq_operation_id q = VStr id.
Proof.
  unfold checked_request. intros H. apply bind_ok in H as (? & _ & H). apply bind_ok in H as (? & _ & H).
  apply bind_ok in H as ([id0 epoch0] & Hid & H). apply bind_ok in H as (p & _ & H).
  apply bind_ok in H as (? & _ & H). injection H as <- <- <-.
  destruct (rq_operation_id q), (rq_epoch q); simplify_eq; done.
Qed.

Lemma admission_next e i w q id epoch params y t y' :
  admission e i w q id epoch params y = (Ok (Next t), y') ->
  exists acc row, t = (id, acc, params, row).
Proof.
  unfold admission, not_sent_se. intros H. destruct (se_bind _ _ y) as [r1 y1] eqn:E.
  assert (r1 = Ok (Next t)) as -> by (by apply (not_sent_ok false true); injection H).
  apply se_bind_ok in E as ([row|] & y2 & _ & E).
  - apply se_bind_ok in E as (? & ? & _ & E). by unfold se_ret in E.
  - apply se_bind_ok in E as (? & ? & _ & E). do 2 (apply se_bind_ok in E as ([] & ? & _ & E)).
    apply se_bind_ok in E as (acc & ? & _ & E). apply se_bind_ok in E as (canon & ? & _ & E).
    apply se_bind_ok in E as ([] & ? & _ & E). apply se_bind_ok in E as ([row b] & ? & _ & E).
    destruct b; [injection E as <- _; eauto|].
    apply se_bind_ok in E as (? & ? & _ & E). by unfold se_ret in E.
Qed.
End phases.

(** ** The system *)

#[local] Open Scope list_scope.

Section system.
Context `{SN : SessionNames}.

(** A thread inside [execute], between two phases. *)
Inductive thread : Type :=
  | AtAdmission (q : order_request) (t : string * string * dict)
  | AtDispatch (q : order_request) (t : admitted).

(** The journal file, the running process with its threads, and the broker
    calls of earlier processes. *)
Record system : Type := {
  sys_file : option db; sys_proc : option (paper * list thread); sys_sent : list (string * dict) }.

Definition fresh_paper (s : store) : paper :=
  {| y_store := s; y_late_failure := ∅; y_late_identity := ∅; y_calls := [] |}.

(** What one step of the running process does to its state and threads. *)
Inductive live : paper * list thread -> paper * list thread -> Prop :=
  | live_front e i q y r y' ts :
      front e i q y = (r, y') ->
      live (y, ts) (y', match r with Ok (Next t) => AtAdmission q t :: ts | _ => ts end)
  | live_admission e i w q id epoch params y r y' ts1 ts2 :
      admission e i w q id epoch params y = (r, y') ->
      live (y, ts1 ++ AtAdmission q (id, epoch, params) :: ts2)
           (y', match r with Ok (Next t) => AtDispatch q t :: ts1 ++ ts2 | _ => ts1 ++ ts2 end)
  | live_dispatch e i w q t y r y' ts1 ts2 :
      dispatch e i w (rq_kind q) t y = (r, y') ->
      live (y, ts1 ++ AtDispatch q t :: ts2) (y', ts1 ++ ts2)
  | live_journal c r y y' ts :
      (* recovery, review and health: journal calls without a marker *)
      well_used c -> no_mark c -> on_store (run_call c) y = (r, y') ->
      live (y, ts) (y', ts).

Inductive sys_step : system -> system -> Prop :=
  | sys_live file p p' sent :
      live p p' ->
      sys_step {| sys_file := file; sys_proc := Some p; sys_sent := sent |}
               {| sys_file := file; sys_proc := Some p'; sys_sent := sent |}
  | sys_start i epoch wait create file s file' sent :
      open_store i "SIMULATE" epoch wait create file = (Ok s, file') ->
      sys_step {| sys_file := file; sys_proc := None; sys_sent := sent |}
               {| sys_file := file'; sys_proc := Some (fresh_paper s, []); sys_sent := sent |}
  | sys_start_fails i epoch wait create file x file' sent :
      open_store i "SIMULATE" epoch wait create file = (Err x, file') ->
      sys_step {| sys_file := file; sys_proc := None; sys_sent := sent |}
               {| sys_file := file'; sys_proc := None; sys_sent := sent |}
  | sys_exit file y ts sent :
      (* a clean stop, a crash or a kill *)
      sys_step {| sys_file := file; sys_proc := Some (y, ts); sys_sent := sent |}
               {| sys_file := Some (s_db (y_store y)); sys_proc := None;
                  sys_sent := y_calls y ++ sent |}.

Definition sys_init (file : option db) : system :=
  {| sys_file := file; sys_proc := None; sys_sent := [] |}.

Definition all_calls (x : system) : list (string * dict) :=
  match sys_proc x with Some (y, _) => y_calls y ++ sys_sent x | None => sys_sent x end.
Definition journal_of (x : system) : option db :=
  match sys_proc x with Some (y, _) => Some (s_db (y_store y)) | None => sys_file x end.

(** Each system state is a state of the journal machine whose markers include
    every broker call. *)
Definition simulated (file : option db) (x : system) : Prop :=
  exists m, reachable "SIMULATE" file m /\ m_file m = journal_of x
    /\ m_proc m = option_map (fun p => y_store (fst p)) (sys_proc x)
    /\ all_calls x `sublist_of` m_dispatched m.

Lemma live_runs p p' :
  live p p' -> exists marks calls,
    runs (y_store p.1) marks (y_store p'.1) /\ y_calls p'.1 = calls ++ y_calls p.1
    /\ calls `sublist_of` marks.
Proof.
  destruct 1 as [e i q y r y' ts H|e i w q id epoch params y r y' ts1 ts2 H
                |e i w q [[[id acc] params] row] y r y' ts1 ts2 H|c r y y' ts Hw Hn H]; simpl.
  - apply unmarked_front in H as [R C]. exists [], []. by rewrite C.
  - apply unmarked_admission in H as [R C]. exists [], []. by rewrite C.
  - apply dispatch_runs in H as (marks & R & [C|(args & -> & C & _)]).
    + exists marks, []. rewrite C. split_and!; [done|done|apply sublist_nil_l].
    + exists [(id, args)], [(id, args)]. by rewrite C.
  - apply (unmarked_store _ c Hw Hn) in H as [R C]; [|eauto]. exists [], []. by rewrite C.
Qed.

Lemma simulation file x x' :
  file_ok file -> simulated file x -> sys_step x x' -> simulated file x'.
Proof.
  intros Hf (m & Hm & Hfile & Hproc & Hsub). destruct 1 as [f p p' sent H
    |i epoch wait create f s f' sent H|i epoch wait create f e f' sent H|f y ts sent];
    unfold simulated, journal_of, all_calls in *; simpl in *.
  - destruct p as [y ts], p' as [y' ts'].
    apply live_runs in H as (marks & calls & R & C & S); simpl in *.
    eexists. split; [exact (runs_reachable _ _ _ _ _ _ Hf Hm Hproc R)|]. simpl. split_and!; [done|done|].
    rewrite C, <-app_assoc. by apply sublist_app.
  - exists {| m_file := f'; m_proc := Some s; m_dispatched := m_dispatched m |}. split_and!; simpl.
    + eapply star_snoc; [exact Hm|]. destruct m; simpl in *; subst. by eapply step_start.
    + apply open_store_cases in H as [[? _]|(d & s0 & _ & [= <-] & -> & _)]; done.
    + done.
    + done.
  - exists {| m_file := f'; m_proc := None; m_dispatched := m_dispatched m |}. split_and!; try done.
    eapply star_snoc; [exact Hm|]. destruct m; simpl in *; subst. by eapply step_start_fails.
  - exists {| m_file := Some (s_db (y_store y)); m_proc := None; m_dispatched := m_dispatched m |}.
    split_and!; try done.
    eapply star_snoc; [exact Hm|]. destruct m; simpl in *; subst. by constructor.
Qed.

Abbreviation sys_reachable file x := (star sys_step (sys_init file) x).

Lemma reachable_simulated file x : file_ok file -> sys_reachable file x -> simulated file x.
Proof.
  intros Hf. apply star_invariant.
  - intros a b Ha Hab. by eapply simulation.
  - exists (init file). by split_and!; [apply star_refl| | |].
Qed.
End system.
