(* ===== verification/PaperThm.v ===== *)
(** What paper execution promises: one broker call per operation over every
    interleaving and restart, exact replay of a known operation, an outcome for
    every broker answer, and no further order once an outcome could not be
    stored. *)

From S2P Require Import Prelude PyStr PyFloat PyDec PyVal JsonText OrderErrors Serialization.
From S2P Require Import Identity Store StoreOpen StoreInv Journal Validation Policy Rules ClientAuth Prep Paper.
From S2P Require Import PaperOnce.

#[local] Open Scope list_scope.

(** ** A concrete deployment *)

Definition demo_setting : setting :=
  {| e_policy := {| mode := SIMULATE; max_order_qty := None; max_order_notional := {["USD" := f_lit "1000"]};
                    real_acc_ids := ∅; symbol_allowlist := ∅; max_daily_notional := ∅;
                    require_approval := false |};
     e_allowlist := [7]; e_grants := None |}.

Definition demo_params : dict :=
  [("code", VStr "US.AAPL"); ("qty", VInt 5); ("price", VStr "187.50"); ("trd_side", VStr "BUY");
   ("order_type", VStr "NORMAL"); ("time_in_force", VStr "DAY")].
Definition place (id : string) : order_request :=
  {| rq_kind := PLACE; rq_params := demo_params; rq_operation_id := VStr id; rq_epoch := VStr "e1";
     rq_acc_id := VInt 7 |}.

Definition demo_admission : admission_answers :=
  {| aa_accounts := Ok [[("acc_id", VInt 7); ("trd_env", VStr "SIMULATE");
                         ("trdmarket_auth", VList [VStr "US"])]];
     aa_reserve := Ok tt; aa_tag := "tag-1" |}.

Definition demo_dispatch (broker : answer (option string * result (list dict))) : dispatch_answers :=
  {| da_connected := true; da_order := RetError; da_lookup := Some (Ok [
       {| i_code := "US.AAPL"; classification := Some "STOCK"; monetary_multiplier := Some f_one;
          contract_size := None; last_price := Some (f_lit "187"); bid_price := None; ask_price := None;
          i_currency := Some "USD"; lot_size := Some f_one |}]);
     da_operation := None; da_protect := Ok tt; da_new_risk := Ok tt; da_controls := Ok tt;
     da_confirm := Ok tt; da_still_connected := true; da_broker := broker |}.

Definition receipt_row : dict := [("order_id", VStr "991"); ("order_status", VStr "SUBMITTED")].
Definition acknowledged : answer (option string * result (list dict)) :=
  RetOk (Some "991", Ok [receipt_row]).

Definition calm : nat -> io := fun _ => io_ok 9.
Definition reviewed_store : store := snd (run_call (CReview (io_ok 2) (io_ok 2)) demo_proc).
Definition demo_paper : paper := fresh_paper reviewed_store.

Definition run_place (id : string) (b : answer (option string * result (list dict))) : SE paper reply :=
  execute demo_setting (fun _ => calm) demo_admission (demo_dispatch b) (place id).
Definition placed : paper := snd (run_place "op-1" acknowledged demo_paper).

Example placed_ok :
  fst (run_place "op-1" acknowledged demo_paper) <> Err AssertionError
  /\ map fst (y_calls placed) = ["op-1"]
  /\ map snd (y_calls placed) = [dset "remark" (VStr "tag-1")
        (place_request "US.AAPL" 5 (VStr "187.50") (VStr "BUY") (VStr "") 7)].
Proof. vm_compute. split_and!; done. Qed.

(** ** The system of threads, restarts and recovery *)

Definition the_next {A} (r : result (progress A)) (d : A) : A :=
  match r with Ok (Next a) => a | _ => d end.

(** One process: start, review, and one order through its three phases. *)
Definition demo_y0 : paper := fresh_paper demo_proc.
Definition demo_review : call := CReview (io_ok 2) (io_ok 2).
Definition demo_y1 : paper := snd (on_store (run_call demo_review) demo_y0).
Definition demo_front := front demo_setting calm (place "op-1") demo_y1.
Definition demo_admit :=
  admission demo_setting calm demo_admission (place "op-1") "op-1" "e1" demo_params (snd demo_front).
Definition demo_row : view :=
  {| v_row := fresh_row "" "" 0 PLACE VNone VNone "" 0 0; v_accounted_facts := None;
     v_recovery_pending := false; v_recovery_checks := [] |}.
Definition demo_thread : admitted := the_next (fst demo_admit) ("", 0, [], demo_row).
Definition demo_sent (b : answer (option string * result (list dict))) :=
  dispatch demo_setting calm (demo_dispatch b) PLACE demo_thread (snd demo_admit).

Definition at_dispatch : system :=
  {| sys_file := Some (s_db demo_proc); sys_proc := Some (snd demo_admit, [AtDispatch (place "op-1") demo_thread]);
     sys_sent := [] |}.
Definition after_dispatch (b : answer (option string * result (list dict))) : system :=
  {| sys_file := Some (s_db demo_proc); sys_proc := Some (snd (demo_sent b), []); sys_sent := [] |}.

Lemma at_dispatch_reachable : star sys_step (sys_init None) at_dispatch.
Proof.
  eapply star_snoc; [eapply star_snoc; [eapply star_snoc; [eapply star_snoc; [apply star_refl|]|]|]|].
  - by apply (sys_start demo_start "e1" 5000 true None demo_proc); vm_compute.
  - apply sys_live, (live_journal demo_review (fst (on_store (run_call demo_review) demo_y0)) demo_y0 demo_y1 []);
      [done|done|].
    exact (surjective_pairing _).
  - apply sys_live, (live_front demo_setting calm (place "op-1") demo_y1 (fst demo_front) (snd demo_front) []).
    exact (surjective_pairing _).
  - apply sys_live.
    apply (live_admission demo_setting calm demo_admission (place "op-1") "op-1" "e1" demo_params
             (snd demo_front) (fst demo_admit) (snd demo_admit) [] []).
    exact (surjective_pairing _).
Qed.

Lemma after_dispatch_reachable b : star sys_step (sys_init None) (after_dispatch b).
Proof.
  eapply star_snoc; [apply at_dispatch_reachable|].
  apply sys_live, (live_dispatch demo_setting calm (demo_dispatch b) (place "op-1") demo_thread
    (snd demo_admit) (fst (demo_sent b)) (snd (demo_sent b)) [] []).
  exact (surjective_pairing _).
Qed.

(** C7 One broker call per operation.  In every state the system can reach from
    a well-formed journal, over any interleaving of the phases of concurrent
    calls, recovery's journal calls, storage faults, crashes and restarts, no
    operation has reached the broker twice, and every request that reached it is
    the one its journal row was durably marked with. *)
Theorem broker_called_once `{SN : SessionNames} file x :
  file_ok file -> star sys_step (sys_init file) x ->
  NoDup (all_calls x).*1 /\
  forall id args, (id, args) ∈ all_calls x ->
    exists d r, journal_of x = Some d /\ operations d !! id = Some r /\ marker r = true
                /\ merged_request r = Some (VDict args).
Proof.
  intros Hf Hx. destruct (reachable_simulated file x Hf Hx) as (m & Hm & Hfile & _ & Hsub).
  destruct (reachable_ok _ _ _ Hf Hm) as [_ _ Hl Hn]. split.
  - eapply sublist_NoDup; [exact Hn|]. by apply fmap_sublist.
  - intros id args Hin. rewrite <-Hfile. apply Hl. by eapply elem_of_sublist.
Qed.

Lemma broker_called_once_witness :
  let x := after_dispatch acknowledged in
  (all_calls x).*1 = ["op-1"] /\ NoDup (all_calls x).*1.
Proof.
  split; [by vm_compute|].
  apply (broker_called_once None (after_dispatch acknowledged)); [done|apply after_dispatch_reachable].
Defined.

(** An invocation of [execute] makes at most one broker call, under its own
    operation identifier; when it raises, whatever the exception, it has made
    none. *)
Theorem execute_calls_once `{SN : SessionNames} e i wa wd q y :
  match execute e i wa wd q y with
  | (Ok _, y') =>
      y_calls y' = y_calls y \/
      exists id args, rq_operation_id q = VStr id /\ y_calls y' = (id, args) :: y_calls y
  | (Err _, y') => y_calls y' = y_calls y
  end.
Proof.
  unfold execute, se_bind, se_ret. destruct (front e (i 0%nat) q y) as [[[r|t]|x] y1] eqn:E1;
    pose proof (unmarked_front _ _ _ _ _ _ E1) as [_ C1]; [by left| |done].
  destruct t as [[id epoch] params]. apply front_next, checked_request_id in E1.
  destruct (admission e (i 1%nat) wa q id epoch params y1) as [[[r|t]|x] y2] eqn:E2;
    pose proof (unmarked_admission _ _ _ _ _ _ _ _ _ _ E2) as [_ C2]; [left; congruence| |congruence].
  apply admission_next in E2 as (acc & row & ->).
  destruct (dispatch e (i 2%nat) wd (rq_kind q) (id, acc, params, row) y2) as [r y3] eqn:E3.
  apply dispatch_runs in E3 as (marks & _ & [C3|(args & _ & C3 & Hr)]).
  - destruct r; [left|]; congruence.
  - destruct r; [|done]. right. exists id, args. split; [done|congruence].
Qed.

Lemma journal_ok `{SN : SessionNames} file x d :
  file_ok file -> star sys_step (sys_init file) x -> journal_of x = Some d -> db_ok d.
Proof.
  intros Hf Hx Hd. destruct (reachable_simulated file x Hf Hx) as (m & Hm & Hfile & _).
  pose proof (mok_file _ (reachable_ok _ _ _ Hf Hm)) as Hok. by rewrite Hfile, Hd in Hok.
Qed.

(** The process after the order was acknowledged. *)
Definition settled : paper := snd (demo_sent acknowledged).
Lemma settled_ok : db_ok (s_db (y_store settled)).
Proof. by eapply (journal_ok None (after_dispatch acknowledged)); [|apply after_dispatch_reachable|]. Qed.

(** ** Replay of a known operation *)

Section replay.
Context `{SN : SessionNames}.

(** Reads leave the journal's content alone. *)
Definition same_journal (y y' : paper) : Prop :=
  s_db (y_store y') = s_db (y_store y) /\ y_calls y' = y_calls y.
#[export] Instance same_journal_preorder : PreOrder same_journal.
Proof. split; [done|]. intros x y z [] []. split; congruence. Qed.
Abbreviation reading c := (preserves same_journal c).

Lemma reading_store {A} (c : SE store A) : commits c (fun _ _ => False) -> reading (on_store c).
Proof.
  intros Hc y r y' H. unfold on_store in H. destruct (c (y_store y)) as [r1 s1] eqn:E.
  simplify_eq. by apply Hc in E as (_ & _ & [?|[]]).
Qed.

Lemma reading_result i row : reading (result_of i row).
Proof.
  unfold result_of, paper_health.
  apply (preserves_bind same_journal); [apply (preserves_bind same_journal)|]; intros; repeat preserves.
  apply reading_store, health_commits.
Qed.

Lemma lookup_reads i id : commits (lookup i id) (fun _ _ => False).
Proof. apply read_commits. naive_solver. Qed.

Lemma lookup_ok i id s v s' : lookup i id s = (Ok v, s') -> v = row_view id (s_db s) /\ s_db s' = s_db s.
Proof.
  intros H. apply connection_cases in H as [[_ ?]|[(m & _ & ?)|(a & d & Ha & -> & Hb & _)]]; try done.
  by simplify_eq.
Qed.

(** What [_retry] answers. *)
Definition same_request (row : view) (k : op_kind) (params : dict) : Prop :=
  exists acc proposed, canonicalize_request "SIMULATE" acc (kind_name k) params = Ok proposed
    /\ differing_fields (canonical (ident (v_row row))) proposed = Ok [].

Lemma retry_ok e i row k params acc y r y' :
  _retry e i row k params acc y = (r, y') ->
  s_db (y_store y') = s_db (y_store y) /\ y_calls y' = y_calls y /\
  match r with
  | Ok rep => same_request row k params /\
      match y_late_failure y !! row_id row with
      | Some outcome => rep = outcome
      | None => exists ups, rep = Stored row ups
      end
  | Err _ => True
  end.
Proof.
  intros H. unfold _retry in H. destruct (bind _ _) as [[]|x] eqn:E; [|by simplify_eq].
  assert (Hs : same_request row k params).
  { apply bind_ok in E as (n & _ & E). apply bind_ok in E as (b & _ & E).
    apply bind_ok in E as ([] & _ & E). apply bind_ok in E as (p & Hp & E).
    apply bind_ok in E as (fields & Hf & E). apply refuse_if_ok in E. exists (if n =? 0 then b else n), p.
    split; [done|]. rewrite Hf. apply negb_false_iff, bool_decide_eq_true in E. congruence. }
  destruct (y_late_failure y !! row_id row) as [o|]; [by injection H as <- <-|].
  destruct (reading_result _ _ _ _ _ H) as [-> ->]. split_and!; [done|done|].
  destruct r as [rep|]; [|done]. split; [done|].
  unfold result_of in H. apply se_bind_ok in H as (h & ? & _ & H). injection H as <- _. eauto.
Qed.

(** *** The identities in flight *)

(** The identities a process keeps are only forgotten after the admission. *)
Definition forgets (y y' : paper) : Prop := y_late_identity y' ⊆ y_late_identity y.
#[export] Instance forgets_preorder : PreOrder forgets.
Proof. unfold forgets. split; [intros x; reflexivity|intros x y z A B; by etrans]. Qed.
Lemma store_forgets {A} (c : SE store A) : preserves forgets (on_store c).
Proof. intros y r y' H. apply steady_store in H as [H _]. unfold forgets. by rewrite H. Qed.
Lemma delete_forgets id : preserves forgets (set_identity (delete id)).
Proof. intros y r y' [= _ <-]. unfold forgets. simpl. apply delete_subseteq. Qed.
Lemma failure_forgets id r : preserves forgets (set_failure id r).
Proof. intros y r1 y1 [= _ <-]. unfold forgets. reflexivity. Qed.
Lemma call_forgets id args : preserves forgets (log_call id args).
Proof. intros y r1 y1 [= _ <-]. unfold forgets. reflexivity. Qed.
Hint Resolve store_forgets delete_forgets failure_forgets call_forgets : preserves.
Lemma result_forgets i row : preserves forgets (result_of i row).
Proof. unfold result_of, paper_health. repeat preserves. Qed.
Hint Resolve result_forgets : preserves.

Lemma finish_forgets i id st disp rec err reason obs : preserves forgets (_finish i id st disp rec err reason obs).
Proof.
  intros y r y' H. unfold _finish in H. destruct (y_late_identity y !! id) as [row|]; [|by injection H as _ <-].
  destruct (on_store _ y) as [[[]|x] y1] eqn:E; apply store_forgets in E; etrans; try exact E.
  - revert H. apply (preserves_try forgets); [repeat preserves|intros; repeat preserves].
  - revert H. match goal with |- ?c y1 = _ -> _ => assert (Hc : preserves forgets c) by (repeat preserves); apply Hc end.
Qed.
Lemma refused_forgets i id x : preserves forgets (refused i id x).
Proof. unfold refused. apply preserves_not_sent. repeat preserves. Qed.
Hint Resolve finish_forgets : preserves.
Lemma sent_forgets i w id merged observed : preserves forgets (sent i w id merged observed).
Proof. unfold sent. repeat preserves. Qed.

(** An admitted row is the operation's own. *)
Lemma admitted_own e i w q id epoch params y id' acc params' row y' :
  admission e i w q id epoch params y = (Ok (Next (id', acc, params', row)), y') -> row_id row = id'.
Proof.
  unfold admission, not_sent_se. intros H. destruct (se_bind _ _ y) as [r1 y1] eqn:E.
  assert (r1 = Ok (Next (id', acc, params', row))) as -> by (by apply (not_sent_ok false true); injection H).
  apply se_bind_ok in E as ([w0|] & y2 & _ & E).
  - apply se_bind_ok in E as (? & ? & _ & E). by unfold se_ret in E.
  - apply se_bind_ok in E as (? & ? & _ & E). do 2 (apply se_bind_ok in E as ([] & ? & _ & E)).
    apply se_bind_ok in E as (acc0 & ? & _ & E). apply se_bind_ok in E as (canon & ? & _ & E).
    apply se_bind_ok in E as ([] & ? & _ & E). apply se_bind_ok in E as ([v b] & ? & Ha & E).
    destruct b; [injection E as <- <- <- <- _|apply se_bind_ok in E as (? & ? & _ & E); by unfold se_ret in E].
    unfold on_store in Ha. destruct (admit_ _ _ _ _ _ _ _ _ _) as [r1 s7] eqn:E.
    injection Ha as -> _. by eapply admitted_fresh.
Qed.

(** Every identity kept in memory, and every row a thread carries, is filed
    under its own operation. *)
Definition own (p : paper * list thread) : Prop :=
  (forall id row, y_late_identity p.1 !! id = Some row -> row_id row = id)
  /\ forall q id acc params row, AtDispatch q (id, acc, params, row) ∈ p.2 -> row_id row = id.

Lemma live_own p p' : live p p' -> own p -> own p'.
Proof.
  destruct 1 as [e i q y r y' ts H|e i w q id epoch params y r y' ts1 ts2 H
                |e i w q [[[id acc] params] row] y r y' ts1 ts2 H|c r y y' ts Hw Hn H]; intros [Hi Ht]; split;
    cbn [fst snd] in *.
  - apply steady_front in H as [H _]. by rewrite H.
  - intros q' id acc params row Hin. apply (Ht q' id acc params row).
    destruct r as [[]|]; [|by apply elem_of_cons in Hin as [?|?]|]; done.
  - apply steady_admission in H as [H _]. by rewrite H.
  - intros q' id' acc params' row Hin.
    assert (Hts : forall t, t ∈ ts1 ++ ts2 -> t ∈ ts1 ++ AtAdmission q (id, epoch, params) :: ts2)
      by (intros t; rewrite !elem_of_app, elem_of_cons; tauto).
    destruct r as [[|[[[id0 acc0] params0] row0]]|]; [by eapply Ht, Hts| |by eapply Ht, Hts].
    apply elem_of_cons in Hin as [Hin|Hin]; [|by eapply Ht, Hts]. injection Hin as -> -> -> -> ->.
    by eapply admitted_own.
  - assert (Hrow : row_id row = id) by (eapply (Ht q id acc params); set_solver).
    unfold dispatch, se_bind, set_identity in H.
    match type of H with context [checked_and_marked _ _ _ _ _ ?y] => set (y0 := y) in H end.
    assert (Hf : forgets y0 y').
    { destruct (checked_and_marked e i w (rq_kind q) _ y0) as [[[merged observed]|x] y1] eqn:E;
        apply steady_checked in E as [E _]; (etrans; [unfold forgets; rewrite E; reflexivity|]).
      - by eapply sent_forgets.
      - by eapply refused_forgets. }
    intros id' row' Hl. apply (lookup_weaken _ _ _ _ Hl) in Hf. simpl in Hf.
    apply lookup_insert_Some in Hf as [[<- <-]|[_ Hf]]; [done|by apply Hi].
  - intros q' id' acc' params' row' Hin. apply (Ht q' id' acc' params' row').
    revert Hin. rewrite !elem_of_app, elem_of_cons. tauto.
  - apply steady_store in H as [H _]. by rewrite H.
  - done.
Qed.

Lemma reachable_own file x p : star sys_step (sys_init file) x -> sys_proc x = Some p -> own p.
Proof.
  intros Hx. revert p. revert Hx. apply (star_invariant _ (fun x => forall p, sys_proc x = Some p -> own p)); [|done].
  clear x. intros x x' Hs H p Hp. destruct H as [f p0 p' sent H|i epoch wait create f s f' sent H
    |i epoch wait create f x f' sent H|f y ts sent]; simpl in *; simplify_eq.
  - eapply live_own; [exact H|by apply Hs].
  - split; [intros id row; cbn; by rewrite lookup_empty|intros ????? Hin; by apply not_elem_of_nil in Hin].
Qed.
End replay.



(** ** Outcomes *)

(** What [outcome] leaves in the operation's row. *)
Lemma outcome_ok i id st disp rec err reason obs s s' :
  outcome i id st disp rec err reason obs s = (Ok tt, s') ->
  (forall v, row_view id (s_db s') = Some v ->
     state (v_row v) = st /\ disposition (v_row v) = disp /\ receipt (v_row v) = option_map VDict rec) /\
  (forall why, reason = Some why -> nonempty why = true -> (id, why) ∈ review_requirements (s_db s')).
Proof.
  unfold outcome. destruct (encode_opt rec) as [enc|e] eqn:Eenc; [|done]. intros H.
  assert (Henc : enc = option_map VDict rec).
  { destruct rec as [d|]; simpl in Eenc; [|by simplify_eq].
    apply bind_ok in Eenc as (w & Hw & [= <-]). by apply json_dumps_ok in Hw as [-> _]. }
  apply transaction_cases in H as [[_ ?]|[(m & _ & ?)|([] & d & _ & -> & Hb & _)]]; try done.
  apply bind_ok in Hb as (d2 & H2 & [= <-]). set (f := row_outcome st disp enc rec err (io_now i)) in *.
  assert (Hops : operations d2 = alter f id (operations (s_db s)) /\
    forall why, reason = Some why -> nonempty why = true -> (id, why) ∈ review_requirements d2).
  { destruct reason as [why|]; [destruct (nonempty why) eqn:Hw|]; simplify_eq; try (split; [done|by intros]).
    - apply require_review_inv in H2 as [-> _]. split; [done|]. intros ? [= <-] _. set_solver.
    - split; [done|]. intros ? [= <-]. congruence. }
  destruct Hops as [Hops Hreq]. split.
  - intros v Hv. unfold row_view in Hv.
    match type of Hv with match ?l with _ => _ end = _ => destruct l as [r|] eqn:El; [|done] end.
    injection Hv as <-. cbn [v_row].
    assert (Hr : exists q, r = f q \/ r = row_observed (f q)).
    { simpl in El. destruct (bool_decide (st = ACKNOWLEDGED)); simpl in El.
      - apply observed_all_lookup in El as (q & Hq & Hor). rewrite Hops in Hq.
        apply alter_lookup in Hq as (q0 & _ & [[_ ->]|[? _]]); [by exists q0|done].
      - rewrite Hops in El. apply alter_lookup in El as (q0 & _ & [[_ ->]|[? _]]); [exists q0; by left|done]. }
    destruct Hr as (q & [->| ->]); [by rewrite <-Henc|].
    unfold row_observed. rewrite <-Henc. by destruct (bool_decide _ && bool_decide _).
  - intros why ? ?. simpl. case_bool_decide; by apply Hreq.
Qed.

Section outcomes.
Context `{SN : SessionNames}.

(** What [_finish] has recorded when it answers with a stored row. *)
Lemma finish_stored i id st disp rec err reason obs y v ups y' :
  _finish i id st disp rec err reason obs y = (Ok (Stored v ups), y') ->
  state (v_row v) = st /\ disposition (v_row v) = disp /\ receipt (v_row v) = option_map VDict rec
  /\ row_view id (s_db (y_store y')) = Some v
  /\ (forall why, reason = Some why -> nonempty why = true ->
        (id, why) ∈ review_requirements (s_db (y_store y'))).
Proof.
  unfold _finish. intros H. destruct (y_late_identity y !! id) as [row|]; [|done].
  destruct (on_store _ y) as [[[]|x] y1] eqn:E1.
  2: { unfold se_bind, set_failure, se_ret in H. by simplify_eq. }
  unfold on_store in E1. destruct (outcome _ _ _ _ _ _ _ _ _) as [r1 s1] eqn:Eo. simplify_eq.
  apply outcome_ok in Eo as [Hv Hreq].
  unfold se_try in H. destruct (se_bind _ _ _) as [[a|x] y2] eqn:E2.
  2: { unfold se_bind, set_failure, se_ret in H. by simplify_eq. }
  injection H as -> ->.
  apply se_bind_ok in E2 as (ov & y3 & El & E2).
  destruct (reading_store _ (lookup_reads _ _) _ _ _ El) as [D1 _].
  unfold on_store in El. destruct (lookup _ _ _) as [rv s3] eqn:El'. simplify_eq.
  apply lookup_ok in El' as [-> _]. simpl in *.
  apply se_bind_ok in E2 as (w & y4 & Hw & E2). unfold se_lift in Hw.
  destruct (row_view id (s_db s1)) as [w'|] eqn:Ew; [|done]. injection Hw as -> <-.
  apply se_bind_ok in E2 as (r & y5 & Hr & E2). apply se_bind_ok in E2 as ([] & y6 & Hi & E2).
  injection Hi as <-. injection E2 as -> <-.
  pose proof (reading_result _ _ _ _ _ Hr) as [D2 _]. simpl in D2.
  unfold result_of in Hr. apply se_bind_ok in Hr as (h & y7 & _ & Hr). injection Hr as <- _ _.
  simpl. rewrite D2, D1. destruct (Hv w eq_refl) as (? & ? & ?). by split_and!.
Qed.
End outcomes.

(** C9 Past the marker every answer of the broker becomes the outcome it
    proves, in the journal.  A raised call or a refusal is an unknown outcome
    that has to be reviewed, never a refusal; an acknowledgement is recorded
    with its receipt, and one that cannot be read with the order identifier
    that could be read and a review requirement. *)
Theorem outcome_recorded `{SN : SessionNames} i w id merged observed y v ups y' :
  sent i w id merged observed y = (Ok (Stored v ups), y') -> da_still_connected w = true ->
  row_view id (s_db (y_store y')) = Some v /\
  match da_broker w with
  | Raised _ | RetError =>
      state (v_row v) = UNKNOWN_OUTCOME /\ disposition (v_row v) = "POSSIBLY_SENT"
      /\ (id, "UNRESOLVED_OUTCOME") ∈ review_requirements (s_db (y_store y'))
  | RetOk (first_id, frame) =>
      state (v_row v) = ACKNOWLEDGED /\
      match readable_receipt frame with
      | Ok rec => receipt (v_row v) = Some (VDict rec)
      | Err _ =>
          receipt (v_row v) = Some (VDict (match first_id with
                                           | Some o => [("order_id", VStr o)] | None => [] end))
          /\ (id, "RECEIPT_UNREADABLE") ∈ review_requirements (s_db (y_store y'))
      end
  end.
Proof.
  unfold sent. intros H Hc. rewrite Hc in H. simpl in H. unfold se_bind, log_call in H.
  destruct (da_broker w) as [x| |[first_id frame]]; [| |destruct (readable_receipt frame)];
    apply finish_stored in H as (Hs & Hd & Hr & Hv & Hq); eauto 10.
Qed.

Definition ready_to_send : paper := snd (checked_and_marked demo_setting calm
  (demo_dispatch (Raised (BrokerError "timeout"))) PLACE demo_thread
  (snd (set_identity <[("op-1") := demo_row]> (snd demo_admit)))).

Lemma outcome_recorded_witness :
  exists v ups y', sent calm (demo_dispatch (Raised (BrokerError "timeout"))) "op-1" [] [] ready_to_send
                   = (Ok (Stored v ups), y')
    /\ state (v_row v) = UNKNOWN_OUTCOME.
Proof.
  eexists _, _, _. split; [by vm_compute|].
  eapply (outcome_recorded calm (demo_dispatch (Raised (BrokerError "timeout"))) "op-1" [] [] ready_to_send);
    [by vm_compute|done].
Defined.

(** ** An outcome that could not be stored *)

Section late.
Context `{SN : SessionNames}.

Lemma finish_unstored i id st disp rec err reason obs y k tag s d b c y' :
  _finish i id st disp rec err reason obs y = (Ok (Unstored k tag s d b c), y') ->
  y_late_failure y' !! id = Some (Unstored k tag s d b c).
Proof.
  unfold _finish. intros H. destruct (y_late_identity y !! id) as [row|]; [|done].
  destruct (on_store _ y) as [[[]|x] y1] eqn:E1.
  2: { injection H as <- <- <- <- <- <- <-. simpl. by rewrite lookup_insert_eq. }
  unfold se_try in H. destruct (se_bind _ _ _) as [[a|x] y2] eqn:E2.
  2: { injection H as <- <- <- <- <- <- <-. simpl. by rewrite lookup_insert_eq. }
  injection H as -> ->.
  apply se_bind_ok in E2 as (ov & y3 & _ & E2). apply se_bind_ok in E2 as (w & y4 & _ & E2).
  apply se_bind_ok in E2 as (r & y5 & Hr & E2). apply se_bind_ok in E2 as ([] & y6 & _ & E2).
  injection E2 as -> _. unfold result_of in Hr. apply se_bind_ok in Hr as (h & y7 & _ & Hr). done.
Qed.

Lemma sent_unstored i w id merged obs y k tag s d b c y' :
  sent i w id merged obs y = (Ok (Unstored k tag s d b c), y') ->
  y_late_failure y' !! id = Some (Unstored k tag s d b c).
Proof.
  unfold sent. intros H. destruct (da_still_connected w); simpl in H; [|by eapply finish_unstored].
  unfold se_bind, log_call in H.
  repeat (match type of H with context [match ?x with _ => _ end] => destruct x end);
    by eapply finish_unstored in H.
Qed.

Lemma not_ready i y : y_late_failure y <> ∅ -> exists x, ready i y = (Err x, y).
Proof. intros H. unfold ready. rewrite bool_decide_eq_false_2 by done. eauto. Qed.

Lemma refused_steady i id x y r y' :
  refused i id x y = (r, y') -> y_late_failure y' = y_late_failure y.
Proof.
  unfold refused, not_sent_se, se_bind, set_identity, se_raise. intros H.
  destruct (on_store _ y) as [[[]|x1] y1] eqn:E; apply steady_store in E as [_ E]; by simplify_eq.
Qed.

(** While an outcome is not stored, no order leaves, and it stays so. *)
Lemma late_live p p' :
  live p p' -> y_late_failure p.1 <> ∅ ->
  y_calls p'.1 = y_calls p.1 /\ y_late_failure p'.1 = y_late_failure p.1.
Proof.
  destruct 1 as [e i q y r y' ts H|e i w q id epoch params y r y' ts1 ts2 H
                |e i w q [[[id acc] params] row] y r y' ts1 ts2 H|c r y y' ts Hw Hn H]; simpl; intros Hl.
  - split; [apply unmarked_front in H; by destruct H|]. unfold front in H.
    destruct (not_sent _ _ _) as [[[id epoch] params]|x]; [|by simplify_eq].
    destruct (y_late_failure y !! id); [destruct (y_late_identity y !! id)|].
    + apply (preserves_bind same_late) in H; [by destruct H|apply steady_retry|intros; auto with preserves].
    + by simplify_eq.
    + apply (preserves_bind same_late) in H; [by destruct H|apply steady_store|].
      intros [row|]; [|auto with preserves].
      apply (preserves_bind same_late); [apply steady_retry|intros; auto with preserves].
  - split; [apply unmarked_admission in H|apply steady_admission in H]; by destruct H.
  - unfold dispatch in H. unfold se_bind at 1, set_identity in H.
    match type of H with context [checked_and_marked _ _ _ _ _ ?y] => set (y0 := y) in H end.
    destruct (not_ready (i 0%nat) y0 Hl) as [x Hx].
    assert (E : checked_and_marked e i w (rq_kind q) (id, acc, params, row) y0 = (Err x, y0)).
    { unfold checked_and_marked. unfold se_bind at 1. by rewrite Hx. }
    rewrite E in H. pose proof (refused_steady _ _ _ _ _ _ H) as ->.
    apply unmarked_refused in H as [_ ->]. done.
  - split; [apply (unmarked_store _ c Hw Hn) in H; [|eauto]|apply steady_store in H]; by destruct H.
Qed.

Lemma late_live_star p p' :
  star live p p' -> y_late_failure p.1 <> ∅ ->
  y_calls p'.1 = y_calls p.1 /\ y_late_failure p'.1 = y_late_failure p.1.
Proof.
  induction 1 as [p|p p1 p' _ IH H]; intros Hl; [done|].
  destruct (IH Hl) as [C S]. destruct (late_live _ _ H) as [C' S']; [congruence|]. split; congruence.
Qed.
End late.

(** An outcome that could not be stored stops the process.  When a dispatch
    answers that its outcome was observed but not stored, nothing else this
    process does calls the broker, whatever its threads, callers and recovery do
    and however long it runs; only a restart, which recovers the dispatch from
    the journal, ends this. *)
Theorem unstored_outcome_stops `{SN : SessionNames} i w id merged obs y k tag s d b c y1 ts y2 ts2 :
  sent i w id merged obs y = (Ok (Unstored k tag s d b c), y1) ->
  star live (y1, ts) (y2, ts2) -> y_calls y2 = y_calls y1.
Proof.
  intros H Hrun. apply sent_unstored in H. apply (late_live_star _ _ Hrun).
  simpl. intros E. rewrite E, lookup_empty in H. done.
Qed.

Definition disk_full : nat -> io := fun _ =>
  {| io_fault := Some (FaultCommit "disk is full"); io_now := 9; io_writable := true |}.
Definition unstored : paper :=
  snd (sent disk_full (demo_dispatch acknowledged) "op-1" [] [] ready_to_send).

Lemma unstored_outcome_stops_witness :
  (exists d, fst (sent disk_full (demo_dispatch acknowledged) "op-1" [] [] ready_to_send)
             = Ok (Unstored "op-1" (Some "") ACKNOWLEDGED d false (Some receipt_row))) /\
  y_calls (snd (front demo_setting calm (place "op-2") unstored)) = y_calls unstored.
Proof.
  split; [by vm_compute; eauto|].
  eapply (unstored_outcome_stops disk_full (demo_dispatch acknowledged) "op-1" [] [] ready_to_send)
    with (ts := []); [by vm_compute|].
  eapply star_snoc; [apply star_refl|]. eapply live_front. apply surjective_pairing.
Defined.
