(* ===== verification/PaperLimits.v ===== *)
(** What a paper broker call may contain: the account, the environment, the
    quantity and price, and the exact monetary cap. *)

From Stdlib Require Import SpecFloat.
From S2P Require Import Prelude PyStr PyFloat PyDec DecText DecParse PyVal JsonText OrderErrors.
From S2P Require Import Serialization Identity Store StoreOpen StoreInv Journal Validation.
From S2P Require Import Policy Rules ClientAuth Prep Paper PaperOnce PaperThm.

(** ** Numbers *)

Lemma decimal_price_ok v d :
  decimal_price v = Ok d ->
  exists s, v = VStr s /\ d_wf d /\ d_digits d <= len s /\ d_neg d = false /\ 0 < d_coef d.
Proof.
  unfold decimal_price. destruct v as [| | | |s| |]; try done. intros H. exists s.
  case_match eqn:E1; [done|]. case_match eqn:E2; [done|].
  destruct (d_parse s) as [[x| |]|] eqn:Ep; try done. case_match eqn:E3; [|done]. injection H as ->.
  pose proof (d_parse_wf _ _ Ep) as Hw. pose proof (d_parse_digits _ _ Ep).
  apply d_gt_zero in E3 as [? ?]; [|done]. apply negb_false_iff, andb_true_iff in E1 as [? ?].
  split_and!; try done. lia.
Qed.

Lemma f_le_zero_pos f : is_finite f = true -> f_le f f_zero = false -> exists m e, f = S754_finite false m e.
Proof. destruct f as [| | |[] m e]; try done. eauto. Qed.

Lemma paper_quantity_pos v q : paper_quantity v = Ok q -> 0 < q.
Proof.
  unfold paper_quantity, bad_quantity. destruct v as [| |z|f| | |]; try done.
  - intros H. apply bind_ok in H as (f & _ & H). case_match eqn:E; [done|]. simplify_eq. lia.
  - destruct (is_finite f) eqn:Ef; simpl; [|done]. destruct (f_le f f_zero) eqn:El; [done|].
    destruct (f_le_zero_pos f Ef El) as (m & e & ->). unfold f_whole, f_whole_value.
    destruct (0 <=? e) eqn:Ee; simpl; intros H.
    + simplify_eq. apply Z.leb_le in Ee.
      assert (0 < 2 ^ e) by (by apply Z.pow_pos_nonneg). by apply Z.mul_pos_pos.
    + case_match eqn:Em; [|done]. simplify_eq. apply Z.eqb_eq in Em. apply Z.leb_gt in Ee.
      assert (0 < 2 ^ (- e)) by (apply Z.pow_pos_nonneg; lia).
      apply Z.div_str_pos. split; [done|]. revert H Em. generalize (2 ^ (- e)). intros k Hk Hm.
      destruct (Z.le_gt_cases k (Z.pos m)); [done|]. by rewrite Z.mod_small in Hm.
Qed.

Lemma paper_quantity_int z q : paper_quantity (VInt z) = Ok q -> z = q.
Proof. simpl. intros H. apply bind_ok in H as (f & _ & H). case_match; [done|]. by simplify_eq. Qed.

(** The cap comparison is exact: the working precision holds every product of a
    price the schema accepts and an integer quantity. *)
Lemma usd_cap_exact cap number price q c :
  usd_cap_check (Some cap) number price (VInt q) = Ok tt -> decimal_price price = Ok number -> 0 < q ->
  d_of_float cap = DFin c ->
  d_leb (Dec false (d_coef number * q) (d_exp number)) c = true.
Proof.
  intros H Hp Hq Hc. apply decimal_price_ok in Hp as (s & -> & Hw & Hd & Hn & _).
  unfold usd_cap_check in H. simpl in H. rewrite (d_parse_int q) in H by lia. rewrite Hc in H.
  apply refuse_if_ok in H. unfold d_gtb in H.
  assert (Hqd : d_digits (d_of_Z q) = num_digits q) by (unfold d_digits; simpl; by rewrite Z.abs_eq by lia).
  rewrite d_mul_exact in H.
  - simpl in H. rewrite Hn in H. replace (q <? 0) with false in H by lia. rewrite Z.abs_eq, Z.add_0_r in H by lia.
    simpl in H. unfold d_ltb, d_leb in *. rewrite (d_compare_at (Z.min (d_exp number) (d_exp c))) in * by (simpl; lia).
    rewrite Z.compare_antisym. by destruct (_ ?= _).
  - done.
  - unfold d_wf; simpl; lia.
  - rewrite Hqd. simpl. rewrite <-(str_int_len q) by lia.
    lia.
Qed.

(** ** What the phases establish *)

Section scope.
Context `{SN : SessionNames}.

(** The quantity and price of an order, checked against the policy. *)
Definition within_limits (e : setting) (params args : dict) : Prop :=
  exists q price number,
    dget "qty" args = Some (VInt q) /\ 0 < q /\ dget "price" args = Some price
    /\ decimal_price price = Ok number
    /\ (exists facts inst, assess_order (e_policy e) facts = Ok tt /\ Policy.qty facts = q
          /\ Policy.price facts = Some (float_of_dec number)
          /\ legs facts = [{| instrument := inst; qty_ratio := 1 |}] /\ startswith "US." (i_code inst) = true
          /\ (classification inst = Some "STOCK" \/ classification inst = Some "ETF"))
    /\ (forall cap c, dhas "qty" params = true -> max_order_notional (e_policy e) !! "USD" = Some cap ->
          d_of_float cap = DFin c -> d_leb (Dec false (d_coef number * q) (d_exp number)) c = true).

Lemma paper_instrument_ok l code inst :
  paper_instrument l code = Ok inst ->
  i_code inst = code /\ (classification inst = Some "STOCK" \/ classification inst = Some "ETF").
Proof.
  unfold paper_instrument, not_scope. destruct l as [f|]; [|done]. intros H.
  apply bind_ok in H as (found & _ & H). destruct found as [|i0 [|? ?]]; try done.
  case_match eqn:E; [|done]. simplify_eq. apply andb_true_iff in E as [Ec E]. split; [by bools|].
  destruct (classification inst) as [c|]; [|done]. unfold mem in E. bools. set_solver.
Qed.

Lemma prepared_ok e w k params order acc args :
  prepared e w k params order acc = Ok args ->
  if_present "qty" _whole params = Ok tt ->
  dget "trd_env" args = Some (VStr "SIMULATE") /\ dget "acc_id" args = Some (VInt acc) /\
  (k <> CANCEL -> within_limits e params args).
Proof.
  unfold prepared. intros H Hw. apply bind_ok in H as ([] & Hus%refuse_if_ok & H).
  apply orb_false_iff in Hus as [Hus%negb_false_iff _].
  case_bool_decide as Hk; [apply bind_ok in H as (oid & _ & [= <-]); done|].
  apply bind_ok in H as (inst & Hi & H). apply bind_ok in H as (q & Hq & H).
  apply bind_ok in H as (number & Hn & H). apply bind_ok in H as (rules & _ & H).
  apply bind_ok in H as ([] & Hcap & H). apply bind_ok in H as (side & _ & H).
  apply bind_ok in H as (op & Ha & H).
  apply bind_ok in Ha as ([] & Ha & _). apply paper_instrument_ok in Hi as [Hcode Hi].
  pose proof (paper_quantity_pos _ _ Hq) as Hpos.
  set (price := dget_or "price" _ params) in *.
  assert (Hl : forall args', dget "qty" args' = Some (VInt q) -> dget "price" args' = Some price ->
            within_limits e params args').
  { intros args' Hq' Hp'. exists q, price, number. split_and!; try done.
    - eexists _, inst. rewrite Hcode. split; [exact Ha|done].
    - intros cap c Hhas Hc Hf. rewrite Hc in Hcap.
      unfold if_present, dget_or, dhas in *. destruct (dget "qty" params) as [v|]; [|done]. cbn [default] in Hq, Hcap.
      apply bind_ok in Hw as (z & Hz & _). destruct v as [| |z'| | | |]; try done.
      apply paper_quantity_int in Hq as ->.
      eapply usd_cap_exact; [exact Hcap|exact Hn|done|done]. }
  case_bool_decide; [apply bind_ok in H as (own & _ & [= <-])|apply bind_ok in H as (oid & _ & [= <-])];
    (split; [done|split; [done|]]); intros _; by apply Hl.
Qed.

Lemma checked_request_schema e q id epoch params :
  checked_request e q = Ok (id, epoch, params) ->
  check_write (e_policy e) "SIMULATE" = Ok tt /\ if_present "qty" _whole params = Ok tt
  /\ dget "qty" params = dget "qty" (rq_params q).
Proof.
  unfold checked_request. intros H. apply bind_ok in H as ([] & Hc & H). apply bind_ok in H as ([] & _ & H).
  apply bind_ok in H as ([id0 epoch0] & _ & H). apply bind_ok in H as (p & Hp & H).
  apply bind_ok in H as (? & Hs & H). injection H as <- <- <-. split; [done|].
  apply bind_ok in Hs as (? & _ & Hs). apply bind_ok in Hs as ([] & Hw & _). split; [done|].
  case_bool_decide; [apply bind_ok in Hp as (? & _ & [= <-])|by simplify_eq].
  by rewrite dget_dpop_ne.
Qed.

(** [_account] answers only an account it may use. *)
Definition usable_account (e : setting) (accounts : result (list dict)) (n : Z) : Prop :=
  n ∈ e_allowlist e /\
  exists rows a, accounts = Ok rows /\ a ∈ rows /\ account_number a = Ok n
    /\ account_access_allowed (e_grants e) (VStr "SIMULATE") (dget_none "acc_id" a) true = true
    /\ dget "trd_env" a = Some (VStr "SIMULATE") /\ listed "US" (dget_none "trdmarket_auth" a) = true.

Lemma account_usable e accounts v n : _account e accounts v = Ok n -> usable_account e accounts n.
Proof.
  unfold _account. intros H. apply bind_ok in H as (req & _ & H). apply bind_ok in H as (? & _ & H).
  apply bind_ok in H as (? & _ & H). apply bind_ok in H as (rows & Hrows & H).
  apply bind_ok in H as (found & Hf & H).
  assert (Hn : n ∈ remove_dups (omap id found)).
  { destruct (negb (req =? 0)); [case_bool_decide; [|done]; by simplify_eq|].
    destruct (remove_dups (omap id found)) as [|a [|? ?]]; try done. simplify_eq. by left. }
  apply elem_of_remove_dups, list_elem_of_omap in Hn as (o & Ho & Hid). simpl in Hid.
  destruct o as [m|]; [|done]. unfold id in Hid. simplify_eq.
  destruct (mapM_elem _ _ _ _ Hf Ho) as (a & Ha & Hel). unfold eligible_account in Hel.
  destruct (is_str_eq "SIMULATE" (dget_none "trd_env" a)) eqn:Ee; simpl in Hel; [|done].
  apply bind_ok in Hel as (n' & Hn' & Hel). case_match eqn:E; [|done]. injection Hel as ->.
  apply andb_true_iff in E as [E Hacc]. apply andb_true_iff in E as [E Hus]. apply bool_decide_eq_true in E.
  split_and!; [done|]. exists rows, a. split_and!; try done.
  unfold is_str_eq, dget_none in Ee. destruct (dget "trd_env" a) as [[| | | |t| |]|]; simpl in Ee; try done.
  apply bool_decide_eq_true in Ee. by subst.
Qed.

Lemma admission_account e i w q id epoch params y t y' :
  admission e i w q id epoch params y = (Ok (Next t), y') ->
  exists acc row, t = (id, acc, params, row) /\ usable_account e (aa_accounts w) acc.
Proof.
  unfold admission, not_sent_se. intros H. destruct (se_bind _ _ y) as [r1 y1] eqn:E.
  assert (r1 = Ok (Next t)) as -> by (by apply (not_sent_ok false true); injection H).
  apply se_bind_ok in E as ([row|] & y2 & _ & E).
  - apply se_bind_ok in E as (? & ? & _ & E). by unfold se_ret in E.
  - apply se_bind_ok in E as (? & ? & _ & E). do 2 (apply se_bind_ok in E as ([] & ? & _ & E)).
    apply se_bind_ok in E as (acc & ? & Ha & E). injection Ha as Ha _. apply account_usable in Ha.
    apply se_bind_ok in E as (canon & ? & _ & E).
    apply se_bind_ok in E as ([] & ? & _ & E). apply se_bind_ok in E as ([row b] & ? & _ & E).
    destruct b; [injection E as <- _; eauto|].
    apply se_bind_ok in E as (? & ? & _ & E). by unfold se_ret in E.
Qed.

Lemma prepare_ok e i w k params acc y prep obs y' :
  _prepare e i w k params acc y = (Ok (prep, obs), y') ->
  exists order, prepared e w k params order acc = Ok prep.
Proof.
  unfold _prepare. intros H. apply se_bind_ok in H as ([] & ? & _ & H).
  apply se_bind_ok in H as ([order seen] & ? & _ & H). apply se_bind_ok in H as (m & ? & Hm & H).
  exists order. injection Hm as Hm _. by injection H as <- _ _.
Qed.

Lemma checked_and_marked_args e i w k id acc params row y args obs y' :
  checked_and_marked e i w k (id, acc, params, row) y = (Ok (args, obs), y') ->
  exists prep order, prepared e w k params order acc = Ok prep
    /\ forall key, key <> "remark" -> dget key args = dget key prep.
Proof.
  unfold checked_and_marked. intros H. apply se_bind_ok in H as ([] & ? & _ & H).
  apply se_bind_ok in H as ([prep seen] & ? & Hp & H). apply prepare_ok in Hp as [order Hp].
  do 5 (apply se_bind_ok in H as (? & ? & _ & H)). injection H as <- _ _.
  exists prep, order. split; [done|]. intros key Hkey. case_bool_decide; [|done].
  by rewrite dget_dset_ne.
Qed.

Lemma list_cons_ne {A} (a : A) l : l <> a :: l.
Proof. intros H. apply (f_equal length) in H. simpl in H. lia. Qed.

Lemma dispatch_args e i w k id acc params row y r y' args :
  dispatch e i w k (id, acc, params, row) y = (r, y') -> y_calls y' = (id, args) :: y_calls y ->
  exists prep order, prepared e w k params order acc = Ok prep
    /\ forall key, key <> "remark" -> dget key args = dget key prep.
Proof.
  unfold dispatch. intros H Hc. unfold se_bind at 1, set_identity in H.
  match type of H with context [checked_and_marked _ _ _ _ _ ?y] => set (y0 := y) in H end.
  destruct (checked_and_marked e i w k _ y0) as [[[merged observed]|x] y1] eqn:E.
  - pose proof (checked_and_marked_runs _ _ _ _ _ _ _ _ _ _ _ E) as [C1 _].
    apply sent_runs in H as [_ C2]. rewrite C2, C1 in Hc.
    destruct (da_still_connected w); [|by apply list_cons_ne in Hc].
    injection Hc as <-. by eapply checked_and_marked_args.
  - apply checked_and_marked_runs in E as [C1 _]. apply unmarked_refused in H as [_ C2].
    rewrite C2, C1 in Hc. by apply list_cons_ne in Hc.
Qed.
End scope.


