(* ===== verification/PaperRecovery.v ===== *)
(** services/paper_recovery.py: one recovery check of a paper operation.

    The broker's answers (current and historical orders, positions), the clock
    readings and the stop flag are arguments; what is decided from them, and the
    journal calls that record it, are the code's.  Times are integers of a
    microsecond; the date range of the history query is left out. *)

From S2P Require Import Prelude PyStr PyFloat PyDec DecText PyVal JsonText OrderErrors.
From S2P Require Import Serialization Identity Store StoreOpen StoreInv Journal Validation.
From S2P Require Import Policy Rules ClientAuth Prep Paper PaperOnce PaperThm.

Definition seconds (n : Z) : Z := n * 1000000.
Definition NEGATIVE_GAPS : list Z := [5; 5; 10; 20].
Definition MONITOR_INTERVAL : Z := 60.
Definition ACTIVE_BROKER : list string :=
  ["UNSUBMITTED"; "WAITING_SUBMIT"; "SUBMITTING"; "SUBMIT_FAILED"; "SUBMITTED"; "FILLED_PART";
   "CANCELLING_PART"; "CANCELLING_ALL"; "DISABLED"].

Definition evidence_error {A} (msg : string) : result A := Err (RecoveryEvidenceError msg).

(** [number] *)
Definition number (v : val) : result dec :=
  match v with
  | VBool _ | VNone => evidence_error "Missing or invalid numeric broker evidence"
  | _ => match decimal_str v with
         | Some (DFin d) => Ok d
         | Some _ => evidence_error "Nonfinite broker evidence"
         | None => evidence_error "Invalid numeric broker evidence"
         end
  end.

(** [str(d)] of a finite decimal. *)
Definition d_str (d : dec) : string :=
  let ds := digits (d_coef d) in
  let left := d_exp d + num_digits (d_coef d) in
  let point := if (d_exp d <=? 0) && (-6 <? left) then left else 1 in
  (if d_neg d then "-" else "") ++
  (if point <=? 0
   then "0." ++ string_of (map digit_char (zeros (Z.to_nat (- point)))) ++ string_of (map digit_char ds)
   else if num_digits (d_coef d) <=? point
        then string_of (map digit_char ds)
             ++ string_of (map digit_char (zeros (Z.to_nat (point - num_digits (d_coef d)))))
        else dot_digits ds point) ++
  (if left =? point then "" else "E" ++ (if left - point <? 0 then "-" else "+") ++ str_nat (Z.abs (left - point))).

Example d_str_ex :
  map d_str [Dec false 150 (-2); Dec true 5 (-3); Dec false 1 2; Dec false 123 5; Dec false 1 (-7);
             Dec false 0 (-2); Dec false 12 (-9)]
  = ["1.50"; "-0.005"; "1E+2"; "1.23E+7"; "1E-7"; "0.00"; "1.2E-8"].
Proof. vm_compute. reflexivity. Qed.

(** ** Evidence *)

Definition as_order (v : val) : result dict :=
  match v with VDict d => Ok d | _ => evidence_error "Malformed broker order" end.
Definition as_rows (v : val) : result (list val) :=
  match v with VList l => Ok l | _ => evidence_error "Order queries did not return complete lists" end.

(** [d.get("trd_env", "SIMULATE") != "SIMULATE" or str(d.get("acc_id", account)) != account] *)
Definition foreign (acc : string) (d : dict) : bool :=
  negb (is_str_eq "SIMULATE" (dget_or "trd_env" (VStr "SIMULATE") d))
  || negb (bool_decide (py_str (dget_or "acc_id" (VStr acc) d) = acc)).

Definition checked_order (acc : string) (v : val) : result dict :=
  (order <- as_order v ;;
   _ <- refuse_if (negb (positive_order_id (dget_none "order_id" order)))
          (RecoveryEvidenceError "Missing broker order identity") ;;
   _ <- refuse_if (foreign acc order) (RecoveryEvidenceError "Broker query account/environment mismatch") ;;
   Ok order)%py.

(** [_observations]; the account column holds [str(int)]. *)
Definition _observations (row : view) (current history : result val) : result (list dict) :=
  (c <- current ;;
   h <- history ;;
   c <- as_rows c ;;
   h <- as_rows h ;;
   observations <- bind (serialize_identifiers (VList (c ++ h))) as_rows ;;
   mapM (checked_order (account (ident (v_row row)))) observations)%py.

Definition order_id_of (order : dict) : string :=
  match dget_none "order_id" order with VStr s => s | _ => "" end.

Definition request_of (row : view) : dict := val_dict (request (ident (v_row row))).

(** The broker order ID to look for: the recorded one, or the mutation's target. *)
Definition target_of (row : view) : result (option string) :=
  if bool_decide (kind (ident (v_row row)) = PLACE) then Ok (broker_order_id (v_row row))
  else (t <- ditem "order_id" (request_of row) ;; Ok (if truthy t then Some (py_str t) else None))%py.

Definition tag_of (row : view) : option string := order_tag (ident (v_row row)).

Definition correlated (target tag : option string) (order : dict) : bool :=
  (set_text target && bool_decide (target = Some (order_id_of order)))
  || match tag with
     | Some t => nonempty t && is_str_eq t (dget_none "remark" order)
     | None => false
     end.

(** [_matches] *)
Definition _matches (row : view) (observations : list dict) : result (list dict) :=
  (target <- target_of row ;;
   Ok (List.filter (correlated target (tag_of row)) observations))%py.

(** The remark of a correlated order: absent or this tag, and this tag when
    only the tag identifies it. *)
Definition remark_disagrees (row : view) (order : dict) : bool :=
  match tag_of row with
  | Some t =>
      let remark := dget_none "remark" order in
      nonempty t &&
      (negb (is_none remark || is_str_eq "" remark || is_str_eq t remark)
       || (negb (set_text (broker_order_id (v_row row))) && negb (is_str_eq t remark)))
  | None => false
  end.

Definition field_disagrees (final order : dict) (k : string) : bool :=
  negb (py_eqb (dget_none k order) (dget_none k final)) || is_none (dget_none k final).

Definition number_agrees (final order : dict) (k : string) : result unit :=
  (x <- number (dget_none k order) ;;
   y <- number (dget_none k final) ;;
   refuse_if (negb (d_eqb x y)) (RecoveryEvidenceError "Broker observations disagree"))%py.

(** All observations of the order tell the same story. *)
Definition consistent (row : view) (final order : dict) : result unit :=
  (_ <- refuse_if (remark_disagrees row order)
          (RecoveryEvidenceError "Broker remark disagrees with persisted tag") ;;
   _ <- refuse_if (existsb (field_disagrees final order) ["order_status"; "code"; "trd_side"; "order_type"])
          (RecoveryEvidenceError "Broker observations disagree or lack required fields") ;;
   iterM (number_agrees final order) ["qty"; "price"; "dealt_qty"; "dealt_avg_price"])%py.

(** The summed position of the symbol. *)
Definition position_item (acc : string) (code : val) (v : val) : result dec :=
  match v with
  | VDict item =>
      (_ <- refuse_if (negb (py_eqb (dget_none "code" item) code))
              (RecoveryEvidenceError "Position query scope mismatch") ;;
       _ <- refuse_if (foreign acc item)
              (RecoveryEvidenceError "Position query account/environment mismatch") ;;
       number (dget_none "qty" item))%py
  | _ => evidence_error "Position query scope mismatch"
  end.

Definition current_position (acc : string) (code : val) (positions : result val) : result dec :=
  (p <- positions ;;
   items <- match p with VList l => Ok l | _ => evidence_error "Malformed position query" end ;;
   numbers <- mapM (position_item acc code) items ;;
   Ok (d_sum 28 numbers))%py.

Definition differs_from (k : string) (final request : dict) : result bool :=
  (a <- ditem k final ;; b <- ditem k request ;; Ok (negb (py_eqb a b)))%py.

Definition number_differs (d : dec) (k : string) (expected : dict) : result bool :=
  (e <- bind (ditem k expected) number ;; Ok (negb (d_eqb d e)))%py.

(** [a or b or ...] over checks that may raise. *)
Fixpoint any_of (l : list (unit -> result bool)) : result bool :=
  match l with
  | [] => Ok false
  | c :: l => (b <- c tt ;; if b then Ok true else any_of l)%py
  end.

(** The resolution the order's state supports; none for a live target that does
    not yet show the mutation. *)
Definition resolution_of (row : view) (final : dict) (qty price : dec) : result (option string) :=
  let r := v_row row in
  let expected := val_dict (default (request (ident r)) (merged_request r)) in
  let status := dget_none "order_status" final in
  if bool_decide (kind (ident r) = PLACE) then
    (bad <- any_of [fun _ => differs_from "code" final (request_of row);
                    fun _ => differs_from "trd_side" final (request_of row);
                    fun _ => number_differs qty "qty" expected;
                    fun _ => number_differs price "price" expected] ;;
     if bad then evidence_error "Correlated placement disagrees with request"
     else Ok (Some "BROKER_CONFIRMED"))%py
  else if str_in TERMINAL_BROKER status then Ok (Some "TERMINAL_ACCOUNTED")
  else if bool_decide (kind (ident r) = MODIFY) then
    (other <- any_of [fun _ => number_differs qty "qty" expected;
                      fun _ => number_differs price "price" expected] ;;
     Ok (if other then None else Some "CURRENT_STATE_ACCOUNTED"))%py
  else Ok None.

Definition status_and_fill_ok (final : dict) (qty price filled average : dec) : bool :=
  str_in (TERMINAL_BROKER ++ ACTIVE_BROKER) (dget_none "order_status" final)
  && d_gtb qty d_zero && d_integral qty && d_gtb price d_zero
  && negb (d_ltb filled d_zero) && negb (d_gtb filled qty) && negb (d_ltb average d_zero).

Definition in_paper_scope (final : dict) : bool :=
  startswith "US." (py_str (dget_none "code" final))
  && str_in ["BUY"; "SELL"] (dget_none "trd_side" final)
  && is_str_eq "NORMAL" (dget_none "order_type" final).

(** [_account]: the order, the facts and the resolution, or nothing yet. *)
Definition account_for (row : view) (matches : list dict) (positions : val -> result val)
    : result (option (dict * dict * string)) :=
  let r := v_row row in
  let acc := account (ident r) in
  match matches with
  | [] => evidence_error "Correlation identifies multiple broker orders"
  | final :: _ =>
      (_ <- refuse_if (negb (Nat.eqb (length (remove_dups (map order_id_of matches))) 1))
              (RecoveryEvidenceError "Correlation identifies multiple broker orders") ;;
       _ <- iterM (consistent row final) matches ;;
       _ <- refuse_if (set_text (broker_order_id r)
                       && negb (bool_decide (broker_order_id r = Some (order_id_of final))))
              (RecoveryEvidenceError "Tag disagrees with recorded broker identity") ;;
       qty <- number (dget_none "qty" final) ;;
       price <- number (dget_none "price" final) ;;
       filled <- number (dget_none "dealt_qty" final) ;;
       average <- number (dget_none "dealt_avg_price" final) ;;
       _ <- refuse_if (negb (status_and_fill_ok final qty price filled average))
              (RecoveryEvidenceError "Invalid broker status or fill evidence") ;;
       _ <- refuse_if (negb (in_paper_scope final))
              (RecoveryEvidenceError "Broker target outside paper scope") ;;
       resolution <- resolution_of row final qty price ;;
       match resolution with
       | None => Ok None
       | Some resolution =>
           let code := dget_none "code" final in
           let status := dget_none "order_status" final in
           position <- current_position acc code (positions code) ;;
           let facts :=
             [("code", code); ("acc_id", VStr acc); ("trd_env", VStr "SIMULATE"); ("broker_status", status);
              ("filled_quantity", VStr (d_str filled)); ("average_fill_price", VStr (d_str average));
              ("remaining_executable_quantity",
               VStr (if str_in TERMINAL_BROKER status then "0"
                     else d_str (d_add 28 qty (Dec (negb (d_neg filled)) (d_coef filled) (d_exp filled)))));
              ("current_symbol_position", VStr (d_str position));
              ("mutation_success_proven", VBool (bool_decide (kind (ident r) = PLACE)))] in
           Ok (Some (final, facts, resolution))
       end)%py
  end.

(** ** The check *)

Record check_answers : Type := {
  ca_due : Z; ca_started : Z; ca_completed : Z;      (* clock readings *)
  ca_current : result val; ca_history : result val;  (* get_orders, get_history_orders *)
  ca_positions : val -> result val;                  (* get_positions of a code *)
  ca_stopped : bool }.                               (* the stop event, after the queries *)

(** What one examination found, and what it asks the journal to record. *)
Record finding : Type := {
  f_outcome : string; f_details : dict; f_delay : Z;
  f_resolution : option string; f_receipt : option dict; f_facts : option dict }.

Definition found (out : string) (details : dict) (delay : Z) (res : option string)
    (rec facts : option dict) : finding :=
  {| f_outcome := out; f_details := dset "reason" (VStr out) details; f_delay := delay;
     f_resolution := res; f_receipt := rec; f_facts := facts |}.

(** [except Exception]: the reason is the exception's text, left out. *)
Definition failed (details : dict) : finding := found "ERROR" details 5 None None None.

Definition is_store_error (e : exn) : bool := match e with ExecutionStoreError _ => true | _ => false end.

(** A placement nothing has identified yet: absence may be counted. *)
Definition absence_countable (row : view) : bool :=
  let r := v_row row in
  bool_decide (kind (ident r) = PLACE) && set_text (tag_of row) && negb (set_text (broker_order_id r))
  && (bool_decide (state r = ADMITTED) || bool_decide (state r = UNKNOWN_OUTCOME))
  && negb (seen_before (v_recovery_checks row)).

(** No correlated order anywhere. *)
Definition nothing_found (row : view) (details : dict) : finding :=
  let late := bool_decide (recovery_disposition (v_row row) = Some ASSUMED_ABSENT) in
  if absence_countable row then
    let negatives := count_outcome "NOT_FOUND" (v_recovery_checks row) + 1 in
    if late then found "MONITOR_NOT_FOUND" details MONITOR_INTERVAL None None None
    else if 5 <=? negatives
    then found "NOT_FOUND" details MONITOR_INTERVAL (Some ASSUMED_ABSENT) None None
    else found "NOT_FOUND" details (nth (Z.to_nat (negatives - 1)) NEGATIVE_GAPS 0) None None None
  else found "IDENTITY_NOT_FOUND" details 5 None None None.

Section check.
Context `{SN : SessionNames}.

(** The [try] block: [ExecutionStoreError] passes, any other failure is the
    outcome [ERROR] with the details gathered so far. *)
Definition examine (i : io) (w : check_answers) (row : view) : SE paper finding := fun y =>
  let late := bool_decide (recovery_disposition (v_row row) = Some ASSUMED_ABSENT) in
  let caught (e : exn) (details : dict) (y : paper) : result finding * paper :=
    if is_store_error e then (Err e, y) else (Ok (failed details), y) in
  let d0 := [("orders", VList [])] in
  match bind (_observations row (ca_current w) (ca_history w)) (_matches row) with
  | Err e => caught e d0 y
  | Ok matches =>
      let d1 := dset "correlated_order_seen" (VBool (negb (bool_decide (matches = [])))) d0 in
      match matches with
      | [] => (Ok (nothing_found row d1), y)
      | _ =>
          match (if late then on_store (block_late_order i (row_id row)) else se_ret tt) y with
          | (Err e, y1) => caught e d1 y1
          | (Ok _, y1) =>
              let orders := VList (map VDict matches) in
              match json_dumps orders with
              | Err e => caught e d1 y1
              | Ok _ =>
                  let d2 := dset "orders" orders d1 in
                  match account_for row matches (ca_positions w) with
                  | Err e => caught e d2 y1
                  | Ok None => (Ok (found "TARGET_PENDING" d2 5 None None None), y1)
                  | Ok (Some (receipt, facts, resolution)) =>
                      (Ok (found "FOUND" d2 MONITOR_INTERVAL
                             (Some (if late then "LATE_BROKER_ORDER_FOUND" else resolution))
                             (Some receipt) (Some facts)), y1)
                  end
              end
          end
      end
  end.

(** The frame of a check: the row, whether it is due, the examination, its
    record, and the answer; real_recovery.py has the same frame. *)
Definition checking (answer : io -> view -> SE paper reply) (exam : io -> check_answers -> view -> SE paper finding)
    (i : nat -> io) (w : check_answers) (id : string) : SE paper reply :=
  (row <- on_store (lookup (i 0%nat) id) ;;
   row <- se_lift (match row with
                   | Some row => Ok row
                   | None => Err (ValueError "Operation is not owned by this journal")
                   end) ;;
   y <- se_get ;;
   _ <- se_lift (refuse_if (negb (bool_decide (y_late_failure y = ∅)))
          (ExecutionStoreError "OUTCOME_NOT_STORED: restart with healthy storage")) ;;
   due <- on_store (recovery_rows (i 1%nat) (ca_due w)) ;;
   if negb (existsb (fun item => bool_decide (row_id item = id)) due) then answer (i 2%nat) row
   else
     f <- exam (i 3%nat) w row ;;
     if ca_stopped w then answer (i 4%nat) row
     else
       _ <- on_store (record_recovery (i 5%nat) id (state (v_row row)) (ca_started w) (ca_completed w)
              (f_outcome f) (f_details f) (ca_completed w + seconds (f_delay f)) (f_resolution f)
              (f_receipt f) (f_facts f)) ;;
       again <- on_store (lookup (i 6%nat) id) ;;
       again <- se_lift (match again with Some r => Ok r | None => Err AssertionError end) ;;
       answer (i 7%nat) again)%se.

(** The worker's pass over the due operations in order; the stop flag before
    each is [stops]. *)
Fixpoint each_due (check_one : (nat -> io) -> check_answers -> string -> SE paper reply)
    (i : nat -> nat -> io) (w : nat -> check_answers) (stops : nat -> bool) (n : nat)
    (ids : list string) : SE paper unit :=
  match ids with
  | [] => se_ret tt
  | id :: ids =>
      if stops n then se_ret tt
      else (_ <- check_one (i (S n)) (w n) id ;; each_due check_one i w stops (S n) ids)%se
  end.
Definition one_pass (check_one : (nat -> io) -> check_answers -> string -> SE paper reply)
    (i : nat -> nat -> io) (now : Z) (w : nat -> check_answers) (stops : nat -> bool) : SE paper unit := fun y =>
  if bool_decide (y_late_failure y = ∅) then
    (rows <- on_store (recovery_rows (i 0%nat 0%nat) now) ;;
     each_due check_one i w stops 0 (map row_id rows))%se y
  else (Ok tt, y).

(** [PaperRecovery.check] and [run_once] *)
Definition check : (nat -> io) -> check_answers -> string -> SE paper reply := checking result_of examine.
Definition run_once := one_pass check.
End check.

(** ** Journal calls only *)

Section recovery.
Context `{SN : SessionNames}.

Lemma unmarked_block_late i id : unmarked (on_store (block_late_order i id)).
Proof. apply (unmarked_store _ (CBlockLate i id)); [done|done|eauto]. Qed.
Lemma unmarked_rows i due : unmarked (on_store (recovery_rows i due)).
Proof. apply (unmarked_store _ (CRecoveryRows i due)); [done|done|apply ignored]. Qed.
Lemma unmarked_record i id obs st co out det next res rec facts :
  unmarked (on_store (record_recovery i id obs st co out det next res rec facts)).
Proof. apply (unmarked_store _ (CRecord i id obs st co out det next res rec facts)); [done|done|eauto]. Qed.
Hint Resolve unmarked_block_late unmarked_rows unmarked_record unmarked_result : preserves.

(** What an examination may do to the journal: nothing, or block a late order. *)
Lemma examine_calls i w row y r y' :
  examine i w row y = (r, y') ->
  y' = y \/ exists r1, on_store (block_late_order i (row_id row)) y = (r1, y').
Proof.
  unfold examine. intros H.
  destruct (bind _ _) as [[|m ms]|e]; [by simplify_eq; left| |destruct (is_store_error e); simplify_eq; by left].
  set (late := bool_decide _) in H. destruct late.
  - right. destruct (on_store (block_late_order i (row_id row)) y) as [r1 y1] eqn:E. exists r1. f_equal.
    revert H. repeat case_match; intros; by simplify_eq.
  - left. cbn [se_ret] in H. revert H. unfold se_ret. repeat case_match; intros; by simplify_eq.
Qed.

Lemma unmarked_examine i w row : unmarked (examine i w row).
Proof.
  intros y r y' H. apply examine_calls in H as [->|[r1 H]]; [split; [constructor|done]|].
  by apply unmarked_block_late in H.
Qed.
Hint Resolve unmarked_examine : preserves.

Lemma unmarked_checking answer exam i w id :
  (forall j row, unmarked (answer j row)) -> (forall j a row, unmarked (exam j a row)) ->
  unmarked (checking answer exam i w id).
Proof. intros Ha He. unfold checking. repeat preserves. Qed.

Lemma unmarked_pass check_one i now w stops :
  (forall j a id, unmarked (check_one j a id)) -> unmarked (one_pass check_one i now w stops).
Proof.
  intros Hc y r y'. unfold one_pass. case_bool_decide; [|intros [= <- <-]; by split; [constructor|]].
  apply (preserves_bind silent); [apply unmarked_rows|]. intros rows. clear -Hc.
  generalize 0%nat as n. induction (map row_id rows) as [|id ids IH]; intros n; simpl; [auto with preserves|].
  destruct (stops n); [auto with preserves|]. apply (preserves_bind silent); auto.
Qed.

Lemma unmarked_check i w id : unmarked (check i w id).
Proof. apply unmarked_checking; auto with preserves. Qed.
End recovery.

(** ** What one check does to the journal *)

Section effects.
Context `{SN : SessionNames}.

Lemma block_late_same i id y r y' :
  on_store (block_late_order i id) y = (r, y') ->
  operations (s_db (y_store y')) = operations (s_db (y_store y))
  /\ recovery_checks (s_db (y_store y')) = recovery_checks (s_db (y_store y)).
Proof.
  unfold on_store. intros H. destruct (block_late_order i id (y_store y)) as [r1 s1] eqn:E. simplify_eq.
  apply transaction_cases in E as [[-> _]|[(m & -> & _)|([] & d & _ & -> & Hb & _)]]; [done|done|].
  apply bind_ok in Hb as (d1 & Hr & [= <-]). by apply require_review_inv in Hr as [-> _].
Qed.

Lemma examine_same i w row y r y' :
  examine i w row y = (r, y') ->
  operations (s_db (y_store y')) = operations (s_db (y_store y))
  /\ recovery_checks (s_db (y_store y')) = recovery_checks (s_db (y_store y)).
Proof. intros H. apply examine_calls in H as [->|[r1 H]]; [done|by eapply block_late_same]. Qed.

(** The evidence behind a finding. *)
Definition grounded (w : check_answers) (row : view) (f : finding) : Prop :=
  match f_resolution f with
  | None => True
  | Some why =>
      exists obs matches, _observations row (ca_current w) (ca_history w) = Ok obs
        /\ _matches row obs = Ok matches /\
        ((why = ASSUMED_ABSENT /\ matches = [] /\ absence_countable row = true
            /\ 5 <= count_outcome "NOT_FOUND" (v_recovery_checks row) + 1) \/
         exists receipt facts res,
           account_for row matches (ca_positions w) = Ok (Some (receipt, facts, res))
           /\ f_receipt f = Some receipt /\ f_facts f = Some facts
           /\ (why = res \/ why = "LATE_BROKER_ORDER_FOUND"))
  end.

(** A recorded negative rests on complete queries that show no such order. *)
Definition negative_grounded (w : check_answers) (row : view) (f : finding) : Prop :=
  f_outcome f = "NOT_FOUND" ->
  (exists obs, _observations row (ca_current w) (ca_history w) = Ok obs /\ _matches row obs = Ok [])
  /\ absence_countable row = true
  /\ (count_outcome "NOT_FOUND" (v_recovery_checks row) + 1 < 5 ->
      f_delay f = nth (Z.to_nat (count_outcome "NOT_FOUND" (v_recovery_checks row))) NEGATIVE_GAPS 0).

Lemma nothing_found_grounded w row d1 obs :
  _observations row (ca_current w) (ca_history w) = Ok obs -> _matches row obs = Ok [] ->
  grounded w row (nothing_found row d1) /\ negative_grounded w row (nothing_found row d1).
Proof.
  intros Ho Hm. unfold nothing_found, grounded, negative_grounded.
  destruct (absence_countable row) eqn:Ea; [|done].
  destruct (bool_decide _); [done|]. destruct (Z.leb_spec 5 (count_outcome "NOT_FOUND" (v_recovery_checks row) + 1)); simpl.
  - split; [|intros _; split_and!; [by eauto|done|intros; lia]]. exists obs, []. split_and!; try done. left. split_and!; try done.
  - split; [done|]. intros _. split_and!; [by eauto|done|]. intros _. by rewrite Z.add_simpl_r.
Qed.

Lemma examine_grounded i w row y f y' :
  examine i w row y = (Ok f, y') -> grounded w row f /\ negative_grounded w row f.
Proof.
  unfold examine. intros H.
  destruct (bind (_observations _ _ _) _) as [[|m ms]|e] eqn:Eb;
    [| |destruct (is_store_error e); simplify_eq; done];
    apply bind_ok in Eb as (obs & Ho & Hm).
  - simplify_eq. by eapply nothing_found_grounded.
  - match type of H with context [let (_, _) := ?c in _] => destruct c as [[u|e] y1] end;
      [|destruct (is_store_error e); by simplify_eq].
    destruct (json_dumps _); [|destruct (is_store_error e); by simplify_eq].
    destruct (account_for row (m :: ms) (ca_positions w)) as [[[[receipt facts] res]|]|e] eqn:Ea;
      [| |destruct (is_store_error e)]; simplify_eq; try done.
    split; [|done]. unfold grounded. cbn [f_resolution found]. exists obs, (m :: ms).
    split_and!; [done|done|]. right. exists receipt, facts, res. split_and!; try done.
    destruct (bool_decide _); auto.
Qed.

(** The rows a recovery pass takes up are due. *)
Lemma recovery_rows_due i due s l s' item :
  db_ok (s_db s) -> recovery_rows i due s = (Ok l, s') -> item ∈ l ->
  s_db s' = s_db s /\ operations (s_db s) !! row_id item = Some (v_row item)
  /\ recovery_due due (s_db s) (v_row item) = true.
Proof.
  intros Hok H Hin. apply connection_cases in H
    as [[_ ?]|[(m & _ & ?)|(a & d & Ha & -> & Hb & _)]]; try done.
  simplify_eq. split; [done|]. unfold views in Hin.
  apply list_elem_of_omap in Hin as (r & Hr & Hv).
  rewrite merge_sort_Permutation in Hr. unfold select in Hr. rewrite merge_sort_Permutation in Hr.
  apply list_elem_of_In, List.filter_In in Hr as [Hr Hdue].
  apply list_elem_of_In, list_elem_of_fmap in Hr as ([k q] & -> & Hk). simpl in *.
  apply elem_of_map_to_list in Hk. pose proof (rows_ok _ Hok k q Hk) as [Hkey _ _].
  rewrite Hkey in Hv. unfold row_view in Hv. rewrite Hk in Hv. simplify_eq. unfold row_id. simpl.
  by rewrite Hk.
Qed.

Lemma result_same i row y r y' : result_of i row y = (r, y') -> s_db (y_store y') = s_db (y_store y).
Proof. intros H. by destruct (reading_result _ _ _ _ _ H). Qed.

(** Either no row and no check changes, or the row was due and one record was
    written from what the examination found. *)
Definition rows_kept (y y' : paper) : Prop :=
  operations (s_db (y_store y')) = operations (s_db (y_store y))
  /\ recovery_checks (s_db (y_store y')) = recovery_checks (s_db (y_store y)).
#[local] Instance rows_kept_preorder : PreOrder rows_kept.
Proof. split; [by intros y|intros a b c [] []; split; congruence]. Qed.

Lemma rows_kept_db y y' : s_db (y_store y') = s_db (y_store y) -> rows_kept y y'.
Proof. intros H. unfold rows_kept. by rewrite H. Qed.

Lemma due_rows_kept i due y r y' :
  on_store (recovery_rows i due) y = (r, y') -> s_db (y_store y') = s_db (y_store y).
Proof.
  unfold on_store. destruct (recovery_rows _ _ _) as [r2 s2] eqn:E. intros H. simplify_eq.
  by apply connection_cases in E as [[-> _]|[(m & -> & _)|(a & d & Ha & -> & Hb & _)]]; simplify_eq.
Qed.

Lemma due_now i due y l y' v id :
  db_ok (s_db (y_store y)) -> on_store (recovery_rows i due) y = (Ok l, y') ->
  row_view id (s_db (y_store y)) = Some v ->
  existsb (fun item => bool_decide (row_id item = id)) l = true -> next_recovery_at (v_row v) <= due.
Proof.
  intros Hok H Hv Hex. unfold on_store in H. destruct (recovery_rows _ _ _) as [r2 s2] eqn:E. simplify_eq.
  apply existsb_exists in Hex as (item & Hin & Hid). apply bool_decide_eq_true in Hid.
  apply list_elem_of_In in Hin. destruct (recovery_rows_due _ _ _ _ _ _ Hok E Hin) as (_ & Hrow & Hdue).
  rewrite Hid in Hrow. unfold row_view in Hv. rewrite Hrow in Hv. simplify_eq. simpl.
  unfold recovery_due in Hdue. bools. lia.
Qed.

Lemma lookup_found i id y ov y' :
  on_store (lookup i id) y = (Ok ov, y') ->
  ov = row_view id (s_db (y_store y)) /\ s_db (y_store y') = s_db (y_store y).
Proof.
  intros H. split; [|by apply (reading_store _ (lookup_reads _ _)) in H as [-> _]].
  unfold on_store in H. destruct (lookup _ _ _) as [rv s1] eqn:E. simplify_eq. by apply lookup_ok in E as [-> _].
Qed.

Lemma checking_cases answer exam i w id y r y' :
  (forall j row y1 r1 y2, answer j row y1 = (r1, y2) -> s_db (y_store y2) = s_db (y_store y1)) ->
  (forall j a row y1 r1 y2, exam j a row y1 = (r1, y2) -> rows_kept y1 y2) ->
  db_ok (s_db (y_store y)) -> checking answer exam i w id y = (r, y') ->
  rows_kept y y' \/
  exists v f ya yb s1,
    row_view id (s_db (y_store y)) = Some v /\ next_recovery_at (v_row v) <= ca_due w
    /\ exam (i 3%nat) w v ya = (Ok f, yb) /\ rows_kept y yb
    /\ record_recovery (i 5%nat) id (state (v_row v)) (ca_started w) (ca_completed w) (f_outcome f)
         (f_details f) (ca_completed w + seconds (f_delay f)) (f_resolution f) (f_receipt f) (f_facts f)
         (y_store yb) = (Ok tt, s1)
    /\ s_db (y_store y') = s_db s1.
Proof.
  intros Hans Hexam Hok H. unfold checking in H. unfold se_bind at 1 in H.
  destruct (on_store (lookup (i 0%nat) id) y) as [[ov|e] y1] eqn:E1;
    pose proof (reading_store _ (lookup_reads _ _) _ _ _ E1) as [D1 _];
    [|simplify_eq; left; by apply rows_kept_db].
  apply lookup_found in E1 as [Hov _].
  unfold se_bind at 1, se_lift in H. destruct ov as [v|]; [|simplify_eq; left; by apply rows_kept_db].
  symmetry in Hov. unfold se_bind at 1, se_get in H. unfold se_bind at 1 in H.
  destruct (refuse_if _ _) as [u|e]; [|simplify_eq; left; by apply rows_kept_db].
  unfold se_bind at 1 in H. destruct (on_store (recovery_rows _ _) y1) as [[due|e] y2] eqn:E2;
    pose proof (due_rows_kept _ _ _ _ _ E2) as D2; [|simplify_eq; left; apply rows_kept_db; congruence].
  pose proof (due_now _ _ _ _ _ v id (eq_rect_r db_ok Hok D1) E2 ltac:(by rewrite D1)) as Hdue.
  assert (U2 : rows_kept y y2) by (apply rows_kept_db; congruence).
  destruct (existsb _ due) eqn:Ex; simpl in H; [|left; apply Hans in H; apply rows_kept_db; congruence].
  unfold se_bind at 1 in H. destruct (exam _ _ _ _) as [[f|e] y3] eqn:E3;
    pose proof (Hexam _ _ _ _ _ _ E3) as U3; [|simplify_eq; left; by transitivity y2].
  destruct (ca_stopped w);
    [left; apply Hans in H; transitivity y2; [done|transitivity y3; [done|by apply rows_kept_db]]|].
  unfold se_bind at 1 in H. unfold on_store at 1 in H.
  destruct (record_recovery _ _ _ _ _ _ _ _ _ _ _ _) as [[[]|e] s4] eqn:E4.
  2: { simplify_eq. apply record_cases in E4 as [[D4 _]|(row & c & ev & _ & _ & _ & _ & _ & ? & _)]; [|done].
       left. transitivity y2; [done|transitivity y3; [done|by apply rows_kept_db]]. }
  right. exists v, f, y2, y3, s4. split_and!; try done; [by apply Hdue|by transitivity y2|].
  unfold se_bind at 1 in H.
  destruct (on_store (lookup (i 6%nat) id) _) as [[ov|e] y5] eqn:E5;
    pose proof (reading_store _ (lookup_reads _ _) _ _ _ E5) as [D5 _]; [|by simplify_eq].
  unfold se_bind at 1, se_lift in H. destruct ov as [v'|]; [|by simplify_eq].
  apply Hans in H. by rewrite H, D5.
Qed.

Lemma check_cases i w id y r y' :
  db_ok (s_db (y_store y)) -> check i w id y = (r, y') ->
  rows_kept y y' \/
  exists v f yb s1,
    row_view id (s_db (y_store y)) = Some v /\ next_recovery_at (v_row v) <= ca_due w
    /\ grounded w v f /\ negative_grounded w v f
    /\ operations (s_db (y_store yb)) = operations (s_db (y_store y))
    /\ recovery_checks (s_db (y_store yb)) = recovery_checks (s_db (y_store y))
    /\ record_recovery (i 5%nat) id (state (v_row v)) (ca_started w) (ca_completed w) (f_outcome f)
         (f_details f) (ca_completed w + seconds (f_delay f)) (f_resolution f) (f_receipt f) (f_facts f)
         (y_store yb) = (Ok tt, s1)
    /\ s_db (y_store y') = s_db s1.
Proof.
  intros Hok H. apply (checking_cases result_of examine) in H
    as [?|(v & f & ya & yb & s1 & Hv & Hd & He & [Ho Hc] & Hr & Hs)]; [by left| | | |done].
  - right. exists v, f, yb, s1. apply examine_grounded in He as [??]. by split_and!.
  - intros j row y1 r1 y2. apply result_same.
  - intros j a row y1 r1 y2 E. by apply examine_same in E.
Qed.
End effects.

(** ** Theorems *)

Lemma negatives_eq id d d' : recovery_checks d' = recovery_checks d -> negatives id d' = negatives id d.
Proof. intros H. unfold negatives, checks_of. by rewrite H. Qed.

Lemma negatives_checked id i c ev next d :
  c_operation_id c = id ->
  negatives id (checked i c ev next id d)
  = negatives id d + (if bool_decide (c_outcome c = "NOT_FOUND") then 1 else 0).
Proof.
  intros Hc. unfold negatives, checks_of. cbn [recovery_checks checked with_operations with_check].
  rewrite List.filter_app, count_app. f_equal. cbn [List.filter]. rewrite bool_decide_eq_true_2 by done.
  unfold count_outcome. cbn [List.filter]. by destruct (bool_decide _).
Qed.

(** What a record does to the row: the next check, and the disposition. *)
Lemma record_row i id obs started completed out details next res rec facts s s1 r1 :
  record_recovery i id obs started completed out details next res rec facts s = (Ok tt, s1) ->
  operations (s_db s1) !! id = Some r1 ->
  next_recovery_at r1 = next
  /\ negatives id (s_db s1) = negatives id (s_db s) + (if bool_decide (out = "NOT_FOUND") then 1 else 0)
  /\ match res with
     | None => forall r, operations (s_db s) !! id = Some r -> recovery_disposition r1 = recovery_disposition r
     | Some why => recovery_disposition r1 = Some why
     end.
Proof.
  intros H Hr1. apply record_cases in H
    as [[_ ?]|(row & c & ev & Hrow & _ & Hcid & Hout & _ & _ & Hcase)]; [done|].
  destruct Hcase as [[-> Hdb]|(why & v & st & disp & a & rec' & oid & ost & -> & _ & _ & _ & Hdb)];
    rewrite Hdb in Hr1 |- *.
  - cbn in Hr1. rewrite lookup_alter_eq, Hrow in Hr1. injection Hr1 as <-.
    split_and!; [done|rewrite <-Hout; by apply negatives_checked|]. intros r Hr. by simplify_eq.
  - cbn in Hr1. rewrite !lookup_alter_eq, Hrow in Hr1. injection Hr1 as <-.
    split_and!; [done| |done]. rewrite <-Hout, <-(negatives_checked id i c ev next) by done.
    by apply negatives_eq.
Qed.

(** C15 Recovery decides only on evidence.  When a check gives an operation a
    disposition, either it is an assumed absence: both order queries were
    complete and well formed, showed no order with the tag or the identifier, of
    a tagged placement without broker identifier and never seen, and it is at
    least the fifth such check; or the observations identify one broker order
    that [account_for] accepted, together with the position. *)
Theorem recovery_decides_on_evidence `{SN : SessionNames} i w id y r y' row row' :
  db_ok (s_db (y_store y)) -> check i w id y = (r, y') ->
  operations (s_db (y_store y)) !! id = Some row -> operations (s_db (y_store y')) !! id = Some row' ->
  recovery_disposition row' <> recovery_disposition row ->
  exists v why obs matches, row_view id (s_db (y_store y)) = Some v
    /\ recovery_disposition row' = Some why
    /\ _observations v (ca_current w) (ca_history w) = Ok obs /\ _matches v obs = Ok matches /\
    ((why = ASSUMED_ABSENT /\ matches = [] /\ absence_countable v = true
        /\ 5 <= count_outcome "NOT_FOUND" (v_recovery_checks v) + 1) \/
     exists receipt facts res,
       account_for v matches (ca_positions w) = Ok (Some (receipt, facts, res))
       /\ (why = res \/ why = "LATE_BROKER_ORDER_FOUND")).
Proof.
  intros Hok H Hrow Hrow' Hne. apply check_cases in H
    as [[Ho _]|(v & f & yb & s1 & Hv & _ & Hg & _ & Ho & _ & Hrec & Hd)]; [| |done].
  { rewrite Ho, Hrow in Hrow'. by simplify_eq. }
  rewrite Hd in Hrow'. destruct (record_row _ _ _ _ _ _ _ _ _ _ _ _ _ _ Hrec Hrow') as (_ & _ & Hres).
  unfold grounded in Hg. destruct (f_resolution f) as [why|].
  - destruct Hg as (obs & matches & Hobs & Hm & Hg). exists v, why, obs, matches. split_and!; try done.
    destruct Hg as [?|(receipt & facts & res & ? & _ & _ & ?)]; [by left|right; eauto 6].
  - destruct Hne. apply Hres. by rewrite Ho.
Qed.

(** Negatives are spaced.  After a check has recorded the n-th negative of an
    operation (n below five), and as long as its row stays as that check left
    it, a check before the n-th gap has passed since its completion changes
    neither a row nor the list of checks: five negatives are never one
    broker hiccup seen five times. *)
Theorem negatives_are_spaced `{SN : SessionNames} i w id y r y1 i' w' y2 r' y3 n :
  db_ok (s_db (y_store y)) -> check i w id y = (r, y1) ->
  negatives id (s_db (y_store y)) = n -> negatives id (s_db (y_store y1)) = n + 1 -> n + 1 < 5 ->
  db_ok (s_db (y_store y2)) ->
  operations (s_db (y_store y2)) !! id = operations (s_db (y_store y1)) !! id ->
  ca_due w' < ca_completed w + seconds (nth (Z.to_nat n) NEGATIVE_GAPS 0) ->
  check i' w' id y2 = (r', y3) ->
  operations (s_db (y_store y3)) = operations (s_db (y_store y2))
  /\ recovery_checks (s_db (y_store y3)) = recovery_checks (s_db (y_store y2)).
Proof.
  intros Hok H Hn Hn1 Hlt Hok2 Hsame Hdue H'.
  apply check_cases in H'
    as [?|(v2 & f2 & yb2 & s2 & Hv2 & Hnext & _)]; [done|exfalso|done].
  apply check_cases in H
    as [[_ Hc]|(v & f & yb & s1 & Hv & _ & _ & Hneg & Ho & Hc & Hrec & Hd)]; [| |done].
  { apply (negatives_eq id) in Hc. lia. }
  unfold row_view in Hv2. rewrite Hsame, Hd in Hv2.
  destruct (operations (s_db s1) !! id) as [r1|] eqn:Hr1; [|done]. injection Hv2 as <-. cbn [v_row] in Hnext.
  destruct (record_row _ _ _ _ _ _ _ _ _ _ _ _ _ _ Hrec Hr1) as (Hat & Hcount & _).
  rewrite (negatives_eq id _ _ Hc), <-Hd, Hn1, Hn in Hcount. case_bool_decide as Hout; [|lia].
  destruct (Hneg Hout) as (_ & _ & Hdelay).
  assert (Hk : count_outcome "NOT_FOUND" (v_recovery_checks v) = n).
  { unfold row_view in Hv. destruct (operations _ !! id); [|done]. by injection Hv as <-. }
  rewrite Hk in Hdelay. rewrite Hdelay in Hat by done. lia.
Qed.

(** A placement without a recorded identifier is matched by its tag. *)
Lemma matched_by_tag row obs matches order :
  kind (ident (v_row row)) = PLACE -> _matches row obs = Ok matches -> order ∈ matches ->
  set_text (broker_order_id (v_row row)) = false ->
  exists t, tag_of row = Some t /\ dget "remark" order = Some (VStr t).
Proof.
  intros Hk Hm Hin Hs. unfold _matches, target_of in Hm. rewrite bool_decide_eq_true_2 in Hm by done.
  injection Hm as <-. apply list_elem_of_In, List.filter_In in Hin as [_ Hc].
  unfold correlated in Hc. rewrite Hs in Hc. simpl in Hc. destruct (tag_of row) as [t|]; [|done].
  exists t. split; [done|]. unfold is_str_eq, dget_none in Hc.
  destruct (dget "remark" order) as [[| | | |u| |]|]; simpl in Hc; bools; by subst.
Qed.

(** One identifier among the matches. *)
Lemma one_identity final ms :
  negb (Nat.eqb (length (remove_dups (map order_id_of (final :: ms)))) 1) = false ->
  forall order, order ∈ final :: ms -> order_id_of order = order_id_of final.
Proof.
  intros Hone order Ho. apply negb_false_iff, Nat.eqb_eq in Hone.
  destruct (remove_dups (map order_id_of (final :: ms))) as [|o [|? ?]] eqn:Er; try done.
  assert (Hall : forall k, k ∈ map order_id_of (final :: ms) -> k = o).
  { intros k Hk'. apply elem_of_remove_dups in Hk'. rewrite Er in Hk'. by apply list_elem_of_singleton in Hk'. }
  rewrite (Hall (order_id_of order)), (Hall (order_id_of final)); [done|by left|].
  by apply list_elem_of_fmap_2.
Qed.

(** A placement is confirmed only by an order that is the request.  When the
    observations of a placement are accounted for, they all carry one broker
    identifier, the order has the requested code and side, exactly the submitted
    quantity and price, a known status and a possible fill, and it is
    the recorded order or carries the operation's tag. *)
Theorem placement_confirmed_exactly row obs matches positions receipt facts res :
  _matches row obs = Ok matches -> kind (ident (v_row row)) = PLACE ->
  account_for row matches positions = Ok (Some (receipt, facts, res)) ->
  let expected := val_dict (default (request (ident (v_row row))) (merged_request (v_row row))) in
  res = "BROKER_CONFIRMED" /\ receipt ∈ obs
  /\ (forall order, order ∈ matches -> order_id_of order = order_id_of receipt)
  /\ (set_text (broker_order_id (v_row row)) = true -> broker_order_id (v_row row) = Some (order_id_of receipt))
  /\ (set_text (broker_order_id (v_row row)) = false ->
      exists t, tag_of row = Some t /\ dget "remark" receipt = Some (VStr t))
  /\ differs_from "code" receipt (request_of row) = Ok false
  /\ differs_from "trd_side" receipt (request_of row) = Ok false
  /\ (exists qty price, number (dget_none "qty" receipt) = Ok qty /\ number (dget_none "price" receipt) = Ok price
        /\ number_differs qty "qty" expected = Ok false /\ number_differs price "price" expected = Ok false
        /\ d_gtb qty d_zero = true /\ d_integral qty = true /\ d_gtb price d_zero = true).
Proof.
  intros Hm Hk H expected. unfold account_for in H. destruct matches as [|final ms]; [done|].
  apply bind_ok in H as ([] & Hone & H). apply refuse_if_ok in Hone.
  apply bind_ok in H as ([] & Hcons & H). apply iterM_ok in Hcons.
  apply bind_ok in H as ([] & Hid & H). apply refuse_if_ok in Hid.
  apply bind_ok in H as (qty & Hq & H). apply bind_ok in H as (price & Hp & H).
  apply bind_ok in H as (filled & _ & H). apply bind_ok in H as (average & _ & H).
  apply bind_ok in H as ([] & Hst & H). apply refuse_if_ok in Hst. apply negb_false_iff in Hst.
  apply bind_ok in H as ([] & _ & H). apply bind_ok in H as (resolution & Hres & H).
  destruct resolution as [why|]; [|done]. apply bind_ok in H as (position & _ & H).
  injection H as <- <- <-.
  unfold resolution_of in Hres. rewrite bool_decide_eq_true_2 in Hres by done.
  apply bind_ok in Hres as (bad & Hbad & Hres). destruct bad; [done|]. injection Hres as <-.
  cbn [any_of] in Hbad.
  apply bind_ok in Hbad as ([] & H1 & Hbad); [done|]. apply bind_ok in Hbad as ([] & H2 & Hbad); [done|].
  apply bind_ok in Hbad as ([] & H3 & Hbad); [done|]. apply bind_ok in Hbad as ([] & H4 & Hbad); [done|].
  assert (Hin : final ∈ obs).
  { unfold _matches in Hm. apply bind_ok in Hm as (t & _ & [= Hf]).
    assert (Hx : In final (List.filter (correlated t (tag_of row)) obs)) by (rewrite Hf; by left).
    apply List.filter_In in Hx as [Hx _]. by apply list_elem_of_In. }
  split_and!; try done.
  - by apply one_identity.
  - intros Hs. rewrite Hs in Hid. by apply negb_false_iff, bool_decide_eq_true in Hid.
  - intros Hs. apply (matched_by_tag row obs (final :: ms) final Hk Hm); [by left|done].
  - unfold status_and_fill_ok in Hst. bools. exists qty, price. by split_and!.
Qed.

(** ** A concrete recovery, for the witnesses *)

Definition timed_out : answer (option string * result (list dict)) := Raised (BrokerError "timeout").
Definition unknown : paper := snd (demo_sent timed_out).
Lemma unknown_ok : db_ok (s_db (y_store unknown)).
Proof. by eapply (journal_ok None (after_dispatch timed_out)); [|apply after_dispatch_reachable|]. Qed.

Definition broker_order : dict :=
  [("order_id", VStr "991"); ("remark", VStr "tag-1"); ("order_status", VStr "SUBMITTED");
   ("code", VStr "US.AAPL"); ("trd_side", VStr "BUY"); ("order_type", VStr "NORMAL");
   ("qty", VInt 5); ("price", VStr "187.50"); ("dealt_qty", VInt 0); ("dealt_avg_price", VInt 0)].
Definition asked_at (t : Z) (orders : list val) : check_answers :=
  {| ca_due := t; ca_started := t; ca_completed := t; ca_current := Ok (VList orders);
     ca_history := Ok (VList []); ca_positions := fun _ => Ok (VList []); ca_stopped := false |}.

Definition row_of (id : string) (y : paper) : view :=
  default demo_row (row_view id (s_db (y_store y))).

Lemma pass_never_sends_example :
  y_calls (snd (run_once (fun _ => calm) 50 (fun _ => asked_at 50 [VDict broker_order]) (fun _ => false) unknown))
  = y_calls unknown.
Proof. by vm_compute. Qed.

Definition confirmed : paper := snd (check calm (asked_at 50 [VDict broker_order]) "op-1" unknown).

Lemma recovery_decides_on_evidence_witness :
  exists row row', operations (s_db (y_store unknown)) !! "op-1" = Some row
    /\ operations (s_db (y_store confirmed)) !! "op-1" = Some row'
    /\ state row = UNKNOWN_OUTCOME /\ state row' = RECONCILED
    /\ exists why, recovery_disposition row' = Some why.
Proof.
  eexists _, _. split; [by vm_compute|]. split; [by vm_compute|]. split; [done|]. split; [done|].
  destruct (recovery_decides_on_evidence calm (asked_at 50 [VDict broker_order]) "op-1" unknown
    (fst (check calm (asked_at 50 [VDict broker_order]) "op-1" unknown)) confirmed
    (default (v_row demo_row) (operations (s_db (y_store unknown)) !! "op-1"))
    (default (v_row demo_row) (operations (s_db (y_store confirmed)) !! "op-1")) unknown_ok
    (surjective_pairing _)) as (v & why & obs & matches & _ & Hwhy & _);
    [by vm_compute|by vm_compute|by vm_compute|].
  exists why. exact Hwhy.
Defined.

Definition once_missing : paper := snd (check calm (asked_at 0 []) "op-1" unknown).
Lemma once_missing_ok : db_ok (s_db (y_store once_missing)).
Proof.
  destruct (check calm (asked_at 0 []) "op-1" unknown) as [r y'] eqn:E.
  assert (once_missing = y') as -> by (unfold once_missing; by rewrite E).
  apply unmarked_check in E as [R _]. exact (runs_ok _ _ _ R unknown_ok).
Qed.

Lemma negatives_are_spaced_witness :
  negatives "op-1" (s_db (y_store once_missing)) = 1 /\
  recovery_checks (s_db (y_store (snd (check calm (asked_at 4999999 []) "op-1" once_missing))))
  = recovery_checks (s_db (y_store once_missing)).
Proof.
  split; [by vm_compute|].
  apply (negatives_are_spaced calm (asked_at 0 []) "op-1" unknown
    (fst (check calm (asked_at 0 []) "op-1" unknown)) once_missing calm (asked_at 4999999 []) once_missing
    (fst (check calm (asked_at 4999999 []) "op-1" once_missing))
    (snd (check calm (asked_at 4999999 []) "op-1" once_missing)) 0);
    [exact unknown_ok|exact (surjective_pairing _)|by vm_compute|by vm_compute|done|exact once_missing_ok|done
    |by vm_compute|exact (surjective_pairing _)].
Defined.

Lemma placement_confirmed_exactly_witness :
  exists receipt facts,
    account_for (row_of "op-1" unknown) [broker_order] (fun _ => Ok (VList [])) = Ok (Some (receipt, facts, "BROKER_CONFIRMED"))
    /\ dget "remark" receipt = Some (VStr "tag-1")
    /\ exists t, tag_of (row_of "op-1" unknown) = Some t.
Proof.
  eexists _, _. split; [by vm_compute|]. split; [done|].
  destruct (placement_confirmed_exactly (row_of "op-1" unknown) [broker_order] [broker_order] (fun _ => Ok (VList []))
    broker_order
    (default [] (match account_for (row_of "op-1" unknown) [broker_order] (fun _ => Ok (VList [])) with
                 | Ok (Some (_, f, _)) => Some f | _ => None end)) "BROKER_CONFIRMED")
    as (_ & _ & _ & _ & H & _); [by vm_compute|by vm_compute|by vm_compute|].
  destruct (H (eq_refl _)) as (t & Ht & _). exists t. exact Ht.
Defined.
