(* ===== verification/RealRequest.v ===== *)
(** The REAL half of services/trade_service.py, as far as it is decided without
    touching the gateway lock: the identity of a REAL request
    (services/real_execution.py), the account it may target, the legs of a combo,
    the facts an order is assessed on, and the requests that place, modify and
    cancel.  SDK order-type and time-in-force constants are their own names. *)

From Stdlib Require Import SpecFloat.
From S2P Require Import Prelude PyStr PyFloat PyDec DecText PyVal JsonText OrderErrors Serialization.
From S2P Require Import Identity Store Validation Policy Rules ClientAuth Prep Paper.

(** ** Identity *)

Definition ROUTING : list string :=
  ["trd_env"; "acc_id"; "operation_id"; "admission_epoch"; "approval_id"].

Definition number_view (d : dec) : val := VDict [("number", VStr (num_text d))].

(** [_identity_value] *)
Fixpoint _identity_value (v : val) : result val :=
  match v with
  | VInt z => Ok (number_view (d_of_Z z))
  | VFloat f => match d_of_float f with
                | DFin d => Ok (number_view d)
                | _ => Err (ValueError "REAL request numbers must be finite")
                end
  | VDict d =>
      bind ((fix go (d : dict) : result dict :=
               match d with
               | [] => Ok []
               | (k, w) :: d => bind (_identity_value w) (fun w' => bind (go d) (fun d' => Ok ((k, w') :: d')))
               end) d) (fun d' => Ok (VDict d'))
  | VList l =>
      bind ((fix go (l : list val) : result (list val) :=
               match l with
               | [] => Ok []
               | w :: l => bind (_identity_value w) (fun w' => bind (go l) (fun l' => Ok (w' :: l')))
               end) l) (fun l' => Ok (VList l'))
  | _ => Ok v
  end.

Section requests.
Context `{SessionNames}.

(** [canonical_real_request]: a default session is no session. *)
Definition canonical_real_request (account : Z) (k : op_kind) (params : dict) : result val :=
  (params <- (if bool_decide (k = PLACE) then
                match dget "session" params with
                | Some s =>
                    selected <- normalize_order_session s "REAL" ;;
                    Ok (if bool_decide (selected = "N/A") then dpop "session" params
                        else dset "session" (VStr selected) params)
                | None => Ok params
                end
              else Ok params) ;;
   p <- _identity_value (VDict params) ;;
   json_dumps (request_envelope "REAL" (str_int account) (kind_name k) p))%py.

(** [str(params.get("modify_order_op", "")).strip().upper()] *)
Definition modify_op (params : dict) : string := named (dget_or "modify_order_op" (VStr "") params).

(** [_kind] *)
Definition _kind (method : string) (params : dict) : result op_kind :=
  if bool_decide (method = "place_order") then Ok PLACE
  else if bool_decide (method = "place_combo_order") then Ok PLACE_COMBO
  else if bool_decide (method = "cancel_order")
          || (bool_decide (method = "modify_order") && bool_decide (modify_op params = "CANCEL"))
  then Ok CANCEL
  else if bool_decide (method = "modify_order") then Ok MODIFY
  else Err (ValueError "Unsupported REAL mutation method").

(** [_original] *)
Definition _original (params : dict) : dict :=
  List.filter (fun kv => negb (mem (fst kv) ROUTING)) params.

Definition EXPOSING_MODIFY_OPS : list string := ["NORMAL"; "ENABLE"].
(** Whether the operation adds or restores exposure. *)
Definition exposing (k : op_kind) (params : dict) : bool :=
  match k with
  | PLACE | PLACE_COMBO => true
  | MODIFY => mem (modify_op params) EXPOSING_MODIFY_OPS
  | CANCEL => false
  end.

(** ** Markets and combo legs *)

(** [_get_market_from_code] *)
Definition market_of (code : string) : option string :=
  match split "." code with
  | m :: _ :: _ => Some (upper m)
  | _ => None
  end.
Definition _get_market_from_code (code : val) : result (option string) :=
  match code with
  | VStr s => Ok (market_of s)
  | v => if truthy v then Err (TypeError "argument is not iterable") else Ok None
  end.

Record combo_leg : Type := {
  cl_code : string; cl_side : string; cl_ratio : Z; cl_position : option Z }.

(** [str(leg.get(k) or "").strip()] *)
Definition leg_text (k : string) (leg : dict) : string :=
  let v := dget_none k leg in strip (if truthy v then py_str v else "").

(** One leg, checked. *)
Definition leg_of (leg : val) : result combo_leg :=
  match leg with
  | VDict d =>
      (let code := leg_text "code" d in
       _ <- refuse_if (negb (nonempty code)) (ValueError "Leg is missing a non-empty 'code'.") ;;
       let side := upper (leg_text "trd_side" d) in
       _ <- refuse_if (negb (mem side ["BUY"; "SELL"])) (ValueError "Invalid trd_side on leg") ;;
       ratio <- match dget "qty_ratio" d with
                | Some (VInt z) => if z <=? 0 then Err (ValueError "it must be a positive integer.") else Ok z
                | Some _ => Err (ValueError "Leg has a non-integer 'qty_ratio'")
                | None => Err (ValueError "Leg is missing 'qty_ratio'")
                end ;;
       position <- match dget_none "position_id" d with
                   | VNone => Ok None
                   | VInt z => Ok (Some z)
                   | VStr s => if isdigit (strip s) then bind (int_digits (strip s)) (fun z => Ok (Some z))
                               else Err (ValueError "Leg has a non-integer 'position_id'")
                   | _ => Err (ValueError "Leg has a non-integer 'position_id'")
                   end ;;
       Ok {| cl_code := code; cl_side := side; cl_ratio := ratio; cl_position := position |})%py
  | _ => Err (KeyError "get")
  end.

(** [_build_combo_legs] of a list *)
Definition leg_markets (legs : list combo_leg) : list string :=
  remove_dups (List.filter nonempty (omap (fun l => market_of (cl_code l)) legs)).
Definition _build_combo_legs (v : val) : result (list combo_leg) :=
  match v with
  | VList l =>
      (_ <- refuse_if (Nat.ltb (length l) 2) (ValueError "A combo order requires at least two legs.") ;;
       legs <- mapM leg_of l ;;
       _ <- refuse_if (Nat.ltb 1 (length (leg_markets legs)))
              (ValueError "All combo legs must belong to the same market") ;;
       Ok legs)%py
  | _ => Err (TypeError "object has no len()")
  end.

(** ** Accounts *)

(** [_allowlist_applies] *)
Definition _allowlist_applies (p : TradingPolicy) (trd_env : string) : bool :=
  bool_decide (trd_env = "REAL") && bool_decide (mode p = REAL).

(** [_check_real_allowlist] *)
Definition _check_real_allowlist (p : TradingPolicy) (acc : Z) : result unit :=
  (_ <- refuse_if (bool_decide (real_acc_ids p = ∅)) (ValueError "No REAL accounts are configured.") ;;
   refuse_if (bool_decide (acc ∉ real_acc_ids p)) (ValueError "this server may not trade it."))%py.

(** [a.get("market_auth") or a.get("trdmarket_auth") or []] *)
Definition market_auth (a : dict) : val :=
  if truthy (dget_none "market_auth" a) then dget_none "market_auth" a
  else if truthy (dget_none "trdmarket_auth" a) then dget_none "trdmarket_auth" a
  else VList [].

(** [_eligible_accounts] *)
Definition _eligible_accounts (p : TradingPolicy) (g : option ClientGrants) (accounts : result (list dict))
    (trd_env : string) (market : option string) : result (list dict) :=
  (rows <- match accounts with
           | Ok l => Ok l
           | Err _ => Err (ValueError "Could not retrieve the account list to resolve an account")
           end ;;
   let rows := List.filter (fun a => is_str_eq trd_env (dget_none "trd_env" a)) rows in
   let rows := match market with
               | Some m => if nonempty m
                           then List.filter (fun a => listed (upper (strip m)) (market_auth a)) rows
                           else rows
               | None => rows
               end in
   rows <- (if _allowlist_applies p trd_env
            then filterM (fun a => n <- py_int (dget_or "acc_id" (VInt 0) a) ;;
                                   Ok (bool_decide (n ∈ real_acc_ids p))) rows
            else Ok rows) ;;
   match g with
   | None => Ok rows
   | Some c => match accounts_in c trd_env with
               | None => Ok rows
               | Some ids => filterM (fun a => n <- account_number a ;; Ok (bool_decide (n ∈ ids))) rows
               end
   end)%py.

(** [_resolve_account] *)
Definition _resolve_account (p : TradingPolicy) (g : option ClientGrants) (accounts : result (list dict))
    (trd_env : string) (market : option string) (write : bool) (acc_id : Z) : result Z :=
  if negb (acc_id =? 0) then
    (_ <- (if _allowlist_applies p trd_env then _check_real_allowlist p acc_id else Ok tt) ;;
     _ <- check_account_access g (VStr trd_env) (VInt acc_id) write ;;
     Ok acc_id)%py
  else
    (eligible <- _eligible_accounts p g accounts trd_env market ;;
     match eligible with
     | [a] => selected <- account_number a ;;
              _ <- check_account_access g (VStr trd_env) (VInt selected) write ;;
              Ok selected
     | _ => Err (ValueError "accounts are eligible, so acc_id='0' does not identify one")
     end)%py.

(** ** Facts *)

Definition lookup_fn : Type := option (list string -> result (list InstrumentFacts)).

(** [_instrument_facts] *)
Definition _instrument_facts (lookup : lookup_fn) (codes : list string) : result (list InstrumentFacts) :=
  match lookup with
  | Some f => f codes
  | None => Err (ValueError "this service has no instrument lookup wired")
  end.

(** [float(v)] *)
Definition py_float (v : val) : result float :=
  match v with
  | VInt z => f_of_Z z
  | VBool b => f_of_Z (Z.b2z b)
  | VFloat f => Ok f
  | VStr s => match f_parse s with
              | Some f => Ok f
              | None => Err (ValueError "could not convert string to float")
              end
  | _ => Err (TypeError "float() argument must be a string or a real number")
  end.

(** An optional number as the facts carry it. *)
Definition opt_number (v : val) : result (option float) :=
  if is_none v then Ok None else bind (py_float v) (fun f => Ok (Some f)).
Definition opt_arg (v : val) : option number_arg := if is_none v then None else Some (Plain v).

(** [_single_leg_facts]; a code or a quantity of another type than the tools
    pass is refused by its own check. *)
Definition _single_leg_facts (lookup : lookup_fn) (code order_type : val) (side : string)
    (qty price aux_price session : val) : result OrderFacts :=
  (code <- match code with
           | VStr s => Ok s
           | _ => Err (ValueError "exact instrument classification is unavailable")
           end ;;
   found <- _instrument_facts lookup [code] ;;
   i <- match found with
        | [i] => if bool_decide (i_code i = code) then Ok i
                 else Err (ValueError "exact instrument classification is unavailable")
        | _ => Err (ValueError "exact instrument classification is unavailable")
        end ;;
   _ <- validate_instrument_order i (Plain qty) (py_str order_type) (opt_arg price) (opt_arg aux_price) ;;
   _ <- validate_order_session code (classification i) (py_str order_type) session ;;
   q <- match qty with VInt z => Ok z | _ => Err (ValueError "qty must be a positive whole number") end ;;
   price <- opt_number price ;;
   aux <- opt_number aux_price ;;
   Ok {| order_type := py_str order_type; trd_side := side; Policy.qty := q;
         legs := [{| instrument := i; qty_ratio := 1 |}];
         Policy.price := price; Policy.aux_price := aux; is_combo := false |})%py.

Definition unknown_instrument (code : string) : InstrumentFacts :=
  {| i_code := code; classification := None; monetary_multiplier := None; contract_size := None;
     last_price := None; bid_price := None; ask_price := None; i_currency := None; lot_size := None |}.

(** The last fact of a code: later ones replace earlier ones. *)
Definition fact_of (found : list InstrumentFacts) (code : string) : option InstrumentFacts :=
  List.find (fun i => bool_decide (i_code i = code)) (rev found).

(** [_combo_facts] *)
Definition _combo_facts (p : TradingPolicy) (lookup : lookup_fn) (combo : list combo_leg)
    (price : val) (qty : Z) (order_type : string) : result OrderFacts :=
  (leg_facts <-
     (if negb (bool_decide (max_order_notional p = ∅)) || negb (bool_decide (max_daily_notional p = ∅)) then
        found <- _instrument_facts lookup (map cl_code combo) ;;
        mapM (fun l => match fact_of found (cl_code l) with
                       | Some i => Ok {| instrument := i; qty_ratio := cl_ratio l |}
                       | None => Err (ValueError "no instrument facts for leg")
                       end) combo
      else Ok (map (fun l => {| instrument := unknown_instrument (cl_code l); qty_ratio := cl_ratio l |}) combo)) ;;
   price <- opt_number price ;;
   Ok {| order_type := order_type; trd_side := ""; Policy.qty := qty; legs := leg_facts;
         Policy.price := price; Policy.aux_price := None; is_combo := true |})%py.

(** A field of a broker row as a number, when it is one: booleans are not, and
    an integer no float can hold raises. *)
Definition field_number (v : val) : result (option float) :=
  match v with
  | VStr s => Ok (f_parse (strip s))
  | VInt z => bind (f_of_Z z) (fun f => Ok (Some f))
  | VFloat f => Ok (Some f)
  | _ => Ok None
  end.
Definition kept_number (p : float -> bool) (o : option float) : option float :=
  match o with Some f => if p f then Some f else None | None => None end.

(** [_optional_float] *)
Definition _optional_float (v : val) : result (option float) :=
  bind (field_number v) (fun o => Ok (kept_number is_finite o)).
Definition float_or_none (o : option float) : val := match o with Some f => VFloat f | None => VNone end.

(** ** What is sent

    One write of a method: what the journal records, what the SDK receives, and
    whether it can add exposure. *)
Record write : Type := {
  wr_operation : string; wr_account : Z; wr_adds_exposure : bool; wr_journal : dict; wr_sdk : dict }.

Definition field (k : string) (params : dict) : string * val := (k, dget_none k params).

Definition place_fields (params : dict) (acc : Z) : dict :=
  [field "code" params; field "price" params; field "qty" params; field "trd_side" params;
   field "order_type" params; ("time_in_force", dget_none "time_in_force" params);
   field "adjust_limit" params; field "aux_price" params; field "trail_type" params;
   field "trail_value" params; field "trail_spread" params; ("trd_env", VStr "REAL");
   ("acc_id", VInt acc); field "remark" params].
Definition place_write (params : dict) (acc : Z) (session : string) : write :=
  {| wr_operation := "place_order"; wr_account := acc; wr_adds_exposure := true;
     wr_journal := place_fields params acc
                   ++ (if bool_decide (session = s_none) then [] else [("session", VStr session)]);
     wr_sdk := place_fields params acc ++ [("session", VStr session)] |}.

Definition leg_view (l : combo_leg) : val :=
  VDict [("code", VStr (cl_code l)); ("trd_side", VStr (cl_side l)); ("qty_ratio", VInt (cl_ratio l));
         ("position_id", match cl_position l with Some z => VInt z | None => VNone end)].
Definition combo_fields (params : dict) (acc : Z) : dict :=
  [field "price" params; field "qty" params; field "order_type" params; field "time_in_force" params;
   ("trd_env", VStr "REAL"); ("acc_id", VInt acc); field "remark" params].
Definition combo_write (params : dict) (acc : Z) (combo : list combo_leg) : write :=
  {| wr_operation := "place_combo_order"; wr_account := acc; wr_adds_exposure := true;
     wr_journal := field "combo_legs" params :: combo_fields params acc;
     wr_sdk := ("combo_leg_list", VList (map leg_view combo)) :: combo_fields params acc |}.

Definition modify_fields (op : string) (order_id qty price adjust_limit : val) (acc : Z) : dict :=
  [("modify_order_op", VStr op); ("order_id", order_id); ("qty", qty); ("price", price);
   ("adjust_limit", adjust_limit); ("trd_env", VStr "REAL"); ("acc_id", VInt acc)].
Definition modify_write (op : string) (order_id qty price adjust_limit : val) (acc : Z) : write :=
  {| wr_operation := "modify_order"; wr_account := acc; wr_adds_exposure := mem op EXPOSING_MODIFY_OPS;
     wr_journal := modify_fields op order_id qty price adjust_limit acc;
     wr_sdk := modify_fields op order_id qty price adjust_limit acc |}.
End requests.
