(* ===== verification/Real.v ===== *)
(** services/real_execution.py and the REAL mutations of services/trade_service.py:
    one REAL order from request to recorded outcome, with the gateway unlocked
    only around the write.

    [execute] takes its two locks in turn and is cut at them, like paper
    execution: [real_front] (the lookup without a lock), [real_admission] (under
    the admission lock) and [real_dispatch] (under the execution lock, which the
    just-in-time lock nests in).  What is outside this repository reaches the
    phases as answers. *)

From Stdlib Require Import SpecFloat.
From S2P Require Import Prelude PyStr PyFloat PyDec DecText PyVal JsonText OrderErrors Serialization.
From S2P Require Import Identity Store Validation Policy Rules ClientAuth Controls Prep Store Paper.
From S2P Require Import RealRequest.

(** ** State *)

(** [_ExecutionState]: since when new exposure is halted, and the last error. *)
Record halt_state : Type := { halted_since : option Z; last_lock_error : option exn }.

(** [_ExecutionState.record_relock_failure] and [record_lock_result] *)
Definition record_relock_failure (now : Z) (error : exn) (h : halt_state) : halt_state :=
  {| halted_since := match halted_since h with None => Some now | s => s end;
     last_lock_error := Some error |}.
Definition record_lock_result (error : option exn) (h : halt_state) : bool * halt_state :=
  match error with
  | Some e => (false, {| halted_since := halted_since h; last_lock_error := Some e |})
  | None => (match halted_since h with Some _ => true | None => false end,
             {| halted_since := None; last_lock_error := None |})
  end.
Definition halted (h : halt_state) : bool := match halted_since h with Some _ => true | None => false end.

(** What the gateway was asked: this server's unlock and lock requests and the
    SDK's own replays of a cached unlock, with whether they were acknowledged, and
    the writes with whether they can add exposure. *)
Inductive sdk_event : Type :=
  | EUnlock (acknowledged : bool)
  | EReplay (acknowledged : bool)
  | ELock (acknowledged : bool)
  | EWrite (id : string) (args : dict) (exposing : bool).

(** [self._active.operation] of the thread that holds the execution lock. *)
Record active : Type := {
  ac_row : view; ac_marked : bool; ac_evidence : dict; ac_observed : list string }.

(** [RealExecution]'s own fields are those of [PaperExecution]: its journal, the
    outcomes it could not store and the identities in flight ([r_exec], whose
    call list stays empty: the writes are [r_sdk]'s).  [r_active] and
    [r_operation] belong to the thread inside the execution lock. *)
Record world : Type := {
  r_exec : paper; r_controls : option controls; r_halt : halt_state; r_sdk : list sdk_event;
  r_active : option active; r_operation : option control_op }.

Definition on_exec {A} (c : SE paper A) : SE world A := fun s =>
  let '(r, y) := c (r_exec s) in
  (r, {| r_exec := y; r_controls := r_controls s; r_halt := r_halt s; r_sdk := r_sdk s;
         r_active := r_active s; r_operation := r_operation s |}).
Definition with_controls {A} (c : SE (option controls) A) : SE world A := fun s =>
  let '(r, k) := c (r_controls s) in
  (r, {| r_exec := r_exec s; r_controls := k; r_halt := r_halt s; r_sdk := r_sdk s;
         r_active := r_active s; r_operation := r_operation s |}).
Definition set_halt (h : halt_state) : SE world unit := fun s =>
  (Ok tt, {| r_exec := r_exec s; r_controls := r_controls s; r_halt := h; r_sdk := r_sdk s;
             r_active := r_active s; r_operation := r_operation s |}).
Definition log_sdk (e : sdk_event) : SE world unit := fun s =>
  (Ok tt, {| r_exec := r_exec s; r_controls := r_controls s; r_halt := r_halt s; r_sdk := e :: r_sdk s;
             r_active := r_active s; r_operation := r_operation s |}).
Definition set_active (a : option active) : SE world unit := fun s =>
  (Ok tt, {| r_exec := r_exec s; r_controls := r_controls s; r_halt := r_halt s; r_sdk := r_sdk s;
             r_active := a; r_operation := r_operation s |}).
Definition set_operation (o : option control_op) : SE world unit := fun s =>
  (Ok tt, {| r_exec := r_exec s; r_controls := r_controls s; r_halt := r_halt s; r_sdk := r_sdk s;
             r_active := r_active s; r_operation := o |}).
Definition on_journal {A} (c : SE store A) : SE world A := on_exec (on_store c).

Section real.
Context `{SessionNames}.

(** The deployment and the caller. *)
Record deployment : Type := {
  d_policy : TradingPolicy; d_grants : option ClientGrants; d_credential : bool }.

(** ** Locking the gateway *)

(** [_lock_gateway] *)
Definition _lock_gateway (a : answer unit) : SE world unit :=
  (_ <- log_sdk (ELock (match a with RetOk _ => true | _ => false end)) ;;
   se_lift (match a with
            | RetOk _ => Ok tt
            | RetError => Err (RuntimeError "lock_trade failed")
            | Raised e => Err e
            end))%se.

(** [_unlock_gateway] *)
Definition _unlock_gateway (a : answer unit) : SE world unit :=
  (_ <- log_sdk (EUnlock (match a with RetOk _ => true | _ => false end)) ;;
   se_lift (match a with
            | RetOk _ => Ok tt
            | RetError => Err (RuntimeError "unlock_trade failed")
            | Raised e => Err e
            end))%se.

(** [lock_trade]: the only way out of a halt. *)
Definition lock_trade (connected : bool) (a : answer unit) : SE world bool := fun s =>
  if negb connected then (Err (RuntimeError "Trade context not connected"), s)
  else match _lock_gateway a s with
       | (Err e, s1) =>
           (_ <- set_halt (snd (record_lock_result (Some e) (r_halt s1))) ;; se_raise e)%se s1
       | (Ok _, s1) =>
           let '(cleared, h) := record_lock_result None (r_halt s1) in
           (_ <- set_halt h ;; se_ret cleared)%se s1
       end.

(** [_enforce_gateway_lock], on connect and reconnect: [free] tells whether the
    just-in-time lock could be taken; a refused lock is only logged. *)
Definition _locks_at_rest (e : deployment) : bool :=
  bool_decide (mode (d_policy e) = READ_ONLY)
  || (bool_decide (mode (d_policy e) = Policy.REAL) && d_credential e).
Definition _enforce_gateway_lock (e : deployment) (free : bool) (a : answer unit) : SE world unit := fun s =>
  if negb (_locks_at_rest e) || negb free then (Ok tt, s)
  else let '(_, s1) := _lock_gateway a s in (Ok tt, s1).

(** The wrapped [on_api_socket_reconnected] of [_watch_reconnects]: the SDK's own
    hook first, which may replay an unlock ([replay], whether that was
    acknowledged) and may raise ([returned]), and only then the lock at rest. *)
Definition on_api_socket_reconnected (e : deployment) (replay : option bool) (returned free : bool)
    (a : answer unit) : SE world unit :=
  (_ <- match replay with Some b => log_sdk (EReplay b) | None => se_ret tt end ;;
   _ <- se_lift (refuse_if (negb returned) (RuntimeError "reconnect failed")) ;;
   _enforce_gateway_lock e free a)%se.

(** [unlock_trade], the manual path of a deployment without a credential. *)
Definition unlock_trade (e : deployment) (has_password connected : bool) (a : answer unit) : SE world unit :=
  (_ <- se_lift (check_unlock (d_policy e)) ;;
   _ <- se_lift (refuse_if (d_credential e) (TradingPolicyError "unlock_trade is not permitted")) ;;
   _ <- se_lift (refuse_if (negb has_password) (ValueError "unlock_trade requires a password or password_md5.")) ;;
   _ <- se_lift (refuse_if (negb connected) (RuntimeError "Trade context not connected")) ;;
   _unlock_gateway a)%se.

(** [_check_execution_halt] of a REAL write *)
Definition _check_execution_halt : SE world unit := fun s =>
  (refuse_if (halted (r_halt s)) (TradingPolicyError "order execution is halted"), s).

(** ** Identity and replay *)

(** [result] *)
Definition real_result (row : view) : SE paper reply := fun y =>
  match y_late_failure y !! row_id row with
  | Some r => (Ok r, y)
  | None => (Ok (Stored row []), y)
  end.

(** [_retry] *)
Definition real_retry_row (e : deployment) (row : view) (k : op_kind) (params : dict) : SE paper reply := fun y =>
  match (_ <- check_account_access (d_grants e) (VStr "REAL") (VStr (account (ident (v_row row)))) true ;;
         account_ <- _exact_account_id (dget_or "acc_id" (VStr "0") params) ;;
         bound <- (if account_ =? 0 then int_of_val (VStr (account (ident (v_row row)))) else Ok account_) ;;
         proposed <- canonical_real_request bound k (_original params) ;;
         fields <- differing_fields (canonical (ident (v_row row))) proposed ;;
         refuse_if (negb (bool_decide (fields = []))) (ExecutionConflict "Operation ID conflict"))%py with
  | Err x => (Err x, y)
  | Ok _ => real_result row y
  end.

(** The checks of [retry] before any lookup. *)
Definition identified (e : deployment) (method : string) (params : dict) : result (string * op_kind) :=
  (_ <- check_write (d_policy e) "REAL" ;;
   _ <- validate_token (dget_none "operation_id" params) (dget_none "admission_epoch" params) ;;
   k <- _kind method params ;;
   _ <- canonical_real_request 1 k (_original params) ;;
   match dget_none "operation_id" params with
   | VStr id => Ok (id, k)
   | _ => Err AssertionError
   end)%py.

(** [retry] *)
Definition retry (e : deployment) (i : io) (method : string) (params : dict) : SE paper (option reply) := fun y =>
  match not_sent false false (identified e method params) with
  | Err x => (Err x, y)
  | Ok (id, k) =>
      (row <- (match y_late_failure y !! id with
               | Some _ => se_lift (match y_late_identity y !! id with
                                    | Some row => Ok (Some row)
                                    | None => Err (KeyError id)
                                    end)
               | None => on_store (lookup i id)
               end) ;;
       match row with
       | Some row => r <- real_retry_row e row k params ;; se_ret (Some r)
       | None => se_ret None
       end)%se y
  end.

(** ** Admission *)

Record real_answers : Type := {
  ra_connected : bool;                          (* [trade_ctx is not None] *)
  ra_accounts : result (list dict);             (* get_accounts *)
  ra_tag : string }.                            (* uuid4 *)

(** The market of a placement, from its code or its first leg. *)
Definition request_market (k : op_kind) (params : dict) : result (option string) :=
  match k with
  | PLACE => bind (ditem "code" params) _get_market_from_code
  | PLACE_COMBO =>
      (v <- ditem "combo_legs" params ;;
       combo <- _build_combo_legs v ;;
       match combo with
       | leg :: _ => Ok (market_of (cl_code leg))
       | [] => Err (RuntimeError "IndexError")
       end)%py
  | _ => Ok None
  end.

(** [preflight] after its own [retry] *)
Definition preflight (e : deployment) (i : io) (w : real_answers) (method : string) (k : op_kind)
    (params : dict) : SE world Z :=
  not_sent_se false false
    (_ <- se_lift (validate_real_request method params) ;;
     epoch <- se_lift (ditem "admission_epoch" params) ;;
     s <- se_get ;;
     _ <- se_lift (refuse_if (negb (is_str_eq (s_epoch (y_store (r_exec s))) epoch))
            (ExecutionConflict "Unknown non-current-epoch token cannot be accounted for; do not refresh it")) ;;
     _ <- on_exec (ready i) ;;
     _ <- se_lift (refuse_if (negb (ra_connected w)) (RuntimeError "Trade context not connected")) ;;
     _ <- (if exposing k params then _check_execution_halt else se_ret tt) ;;
     market <- se_lift (request_market k params) ;;
     requested <- se_lift (_exact_account_id (dget_or "acc_id" (VStr "0") params)) ;;
     se_lift (_resolve_account (d_policy e) (d_grants e) (ra_accounts w) "REAL" market true requested))%se.

(** Kind, account and row of an admitted operation *)
Definition real_admitted : Type := op_kind * Z * view.

(** The region under the admission lock. *)
Definition real_admission (e : deployment) (i : nat -> io) (w : real_answers) (method : string) (params : dict)
    : SE world (progress real_admitted) :=
  (existing <- on_exec (retry e (i 0%nat) method params) ;;
   match existing with
   | Some r => se_ret (Answer r)
   | None =>
       do! (id, k) := se_lift (identified e method params) in
       acc <- preflight e (i 1%nat) w method k params ;;
       canon <- se_lift (not_sent false false (canonical_real_request acc k (_original params))) ;;
       epoch <- se_lift (bind (ditem "admission_epoch" params) (fun v =>
                  match v with VStr s => Ok s | _ => Err AssertionError end)) ;;
       do! (row, created) := not_sent_se false false
         (on_journal (admit_ (i 2%nat) (ra_tag w) id epoch acc k canon (_original params))) in
       if created then se_ret (Next (k, acc, row))
       else r <- on_exec (real_retry_row e row k params) ;; se_ret (Answer r)
   end)%se.

(** The lookup before any lock. *)
Definition real_front (e : deployment) (i : io) (method : string) (params : dict)
    : SE world (progress unit) :=
  (existing <- on_exec (retry e i method params) ;;
   se_ret (match existing with Some r => Answer r | None => Next tt end))%se.

(** ** The write *)

Record write_answers : Type := {
  wa_connected : bool;                              (* [trade_ctx is not None] *)
  wa_accounts : result (list dict);                 (* get_accounts *)
  wa_order : answer (result (list dict));           (* order_list_query *)
  wa_lookup : lookup_fn;
  wa_risk_broken : bool;                            (* check_new_risk *)
  wa_reserve : result unit;                         (* quota reservation and lease *)
  wa_charge : control_io; wa_confirm : control_io;
  wa_unlock : option (answer unit);                 (* [None]: the context is gone *)
  (* the broker's reply: the readable first order ID, and the whole frame *)
  wa_broker : answer (option string * result (list dict));
  wa_lock : option (answer unit); wa_now : Z }.

(** [before_dispatch] *)
Definition before_dispatch (e : deployment) (i i' : io) (ci : control_io) (merged : dict) : SE world unit := fun s =>
  match r_active s with
  | None => (Err (OrderNotSentError "REAL mutation has no active durable admission" false), s)
  | Some a =>
      (_ <- not_sent_se true false
         (_ <- se_lift (refuse_if (ac_marked a)
                 (ExecutionConflict "REAL operation cannot dispatch more than once")) ;;
          _ <- on_exec (ready i) ;;
          _ <- se_lift (refuse_if (negb (is_str_eq "REAL" (dget_none "trd_env" merged))
                                   || negb (bool_decide (py_str (dget_none "acc_id" merged)
                                                         = account (ident (v_row (ac_row a))))))
                 (ExecutionConflict "Dispatch account/environment disagrees with admission")) ;;
          s <- se_get ;;
          _ <- with_controls (confirm_dispatch_controls (d_policy e) ci (r_operation s)) ;;
          on_journal (mark_dispatch i' (row_id (ac_row a)) merged)) ;;
       set_active (Some {| ac_row := ac_row a; ac_marked := true; ac_evidence := ac_evidence a;
                           ac_observed := ac_observed a |}))%se s
  end.

(** [observe_acknowledgement] *)
Definition observe_acknowledgement (first_id : option string) : SE world unit := fun s =>
  match r_active s, first_id with
  | Some a, Some o =>
      if positive_order_id (VStr o)
      then set_active (Some {| ac_row := ac_row a; ac_marked := ac_marked a;
                               ac_evidence := dset "order_id" (VStr o) (ac_evidence a);
                               ac_observed := ac_observed a |}) s
      else (Ok tt, s)
  | _, _ => (Ok tt, s)
  end.

(** [_relock_after_write]: the error, which halts new exposure. *)
Definition _relock_after_write (uses_jit : bool) (now : Z) (lock : option (answer unit))
    : SE world (option exn) := fun s =>
  if negb uses_jit then (Ok None, s)
  else
    let '(r, s1) := match lock with
                    | Some a => _lock_gateway a s
                    | None => (Err AssertionError, s)
                    end in
    match r with
    | Ok _ => (Ok None, s1)
    | Err x => (_ <- set_halt (record_relock_failure now x (r_halt s1)) ;; se_ret (Some x))%se s1
    end.

(** The same class of failure, saying also that the gateway stayed unlocked. *)
Definition also_unlocked (e : exn) : exn :=
  match e with
  | OrderNotSentError m _ => OrderNotSentError m false
  | e => e
  end.

(** The body between unlock and relock. *)
Definition write_body (e : deployment) (i i' : io) (w : write_answers) (id : string) (wr : write) : SE world dict :=
  (_ <- before_dispatch e i i' (wa_confirm w) (wr_journal wr) ;;
   _ <- log_sdk (EWrite id (wr_sdk wr) (wr_adds_exposure wr)) ;;
   match wa_broker w with
   | Raised _ | RetError => se_raise (OrderOutcomeUnknownError "may have been sent")
   | RetOk (first_id, frame) =>
       _ <- observe_acknowledgement first_id ;;
       match _first_record frame with
       | Ok receipt => se_ret receipt
       | Err _ => se_raise (OrderReceiptUnreadableError "its receipt could not be read")
       end
   end)%se.

(** [_dispatch_write] of a REAL write, under the just-in-time lock *)
Definition _dispatch_write (e : deployment) (i i' : io) (w : write_answers) (wr : write)
    : SE world (dict * option exn) := fun s =>
  match r_active s with
  | None => (Err (OrderNotSentError "REAL mutation has no active durable admission" false), s)
  | Some a =>
      (_ <- not_sent_se false false
         (if wr_adds_exposure wr then
            _ <- _check_execution_halt ;;
            s <- se_get ;;
            match r_controls s with
            | None => se_ret tt
            | Some _ => with_controls (on_controls AssertionError
                          (check_new_risk (wa_risk_broken w) "REAL" (str_int (wr_account wr))))
            end
          else se_ret tt) ;;
       _ <- se_lift (not_sent false false (wa_reserve w)) ;;
       _ <- not_sent_se false false
         (s <- se_get ;;
          op <- with_controls (check_dispatch_controls (d_policy e) (wa_charge w) (r_operation s)
                                 (wr_account wr) "REAL") ;;
          set_operation op) ;;
       _ <- (if d_credential e then fun s =>
               match wa_unlock w with
               | Some u => match _unlock_gateway u s with
                           | (Ok _, s1) => (Ok tt, s1)
                           | (Err _, s1) => (Err (OrderNotSentError not_sent_message false), s1)
                           end
               | None => (Err (OrderNotSentError not_sent_message false), s)
               end
             else se_ret tt) ;;
       fun s =>
         let '(r, s1) := write_body e i i' w (row_id (ac_row a)) wr s in
         (relock <- _relock_after_write (d_credential e) (wa_now w) (wa_lock w) ;;
          match r with
          | Ok receipt => se_ret (receipt, relock)
          | Err x => se_raise (match relock with None => x | Some _ => also_unlocked x end)
          end)%se s1)%se s
  end.

(** ** The methods *)

(** Whether the broker shows what an earlier modification asked for. *)
Definition shows (name : string) (order expected : dict) : bool :=
  if is_none (dget_none name expected) then true
  else match decimal_str (dget_none name order), decimal_str (dget_none name expected) with
       | Some x, Some y => finite_eq x y
       | _, _ => false
       end.

Definition observe_previous (id : string) : SE world unit := fun s =>
  match r_active s with
  | None => (Ok tt, s)
  | Some a => set_active (Some {| ac_row := ac_row a; ac_marked := ac_marked a; ac_evidence := ac_evidence a;
                                  ac_observed := ac_observed a ++ [id] |}) s
  end.

Fixpoint check_previous (order : dict) (pending : list view) : SE world unit :=
  match pending with
  | [] => se_ret tt
  | v :: pending =>
      (let expected := val_dict (default VNone (merged_request (v_row v))) in
       _ <- se_lift (refuse_if (negb (shows "qty" order expected && shows "price" order expected))
              (ValueError "Prior acknowledged REAL modification is not yet observed")) ;;
       _ <- observe_previous (row_id v) ;;
       check_previous order pending)%se
  end.

(** [validate_target] *)
Definition validate_target (i : io) (order : dict) : SE world unit := fun s =>
  match r_active s with
  | None => (Ok tt, s)
  | Some a =>
      let acc := account (ident (v_row (ac_row a))) in
      (_ <- se_lift (refuse_if (negb (is_str_eq "REAL" (dget_or "trd_env" (VStr "REAL") order))
                                || negb (bool_decide (py_str (dget_or "acc_id" (VStr acc) order) = acc)))
              (ValueError "Broker target account/environment disagrees with admission")) ;;
       n <- se_lift (int_of_val (VStr acc)) ;;
       order_id <- se_lift (ditem "order_id" order) ;;
       pending <- on_journal (unobserved_modifications i n (py_str order_id)) ;;
       check_previous order pending)%se s
  end.

(** [_assess_order]: the thread's operation remembers what was assessed. *)
Definition _assess_order (e : deployment) (facts : OrderFacts) : SE world unit :=
  (s <- se_get ;;
   op <- se_lift (assess_control_facts (d_policy e) (r_operation s) facts) ;;
   set_operation op)%se.

Definition connected (w : write_answers) : SE world unit :=
  se_lift (refuse_if (negb (wa_connected w)) (RuntimeError "Trade context not connected")).

Definition resolve (e : deployment) (w : write_answers) (market : option string) (acc : Z) : SE world Z :=
  se_lift (_resolve_account (d_policy e) (d_grants e) (wa_accounts w) "REAL" market true acc).

(** [place_order] up to the write *)
Definition prepare_place (e : deployment) (w : write_answers) (params : dict) (acc : Z) : SE world write :=
  (_ <- se_lift (check_write (d_policy e) "REAL") ;;
   _ <- se_lift (refuse_if (is_str (dget_none "price" params)) (ValueError "REAL price must be numeric")) ;;
   _ <- se_lift (validate_single_order_request params) ;;
   session <- se_lift (normalize_order_session (dget_or "session" (VStr s_none) params) "REAL") ;;
   tif <- se_lift (validate_choice (dget_or "time_in_force" (VStr "DAY") params) ["DAY"; "GTC"]) ;;
   _ <- connected w ;;
   _ <- _check_execution_halt ;;
   market <- se_lift (bind (ditem "code" params) _get_market_from_code) ;;
   acc <- resolve e w market acc ;;
   facts <- se_lift (_single_leg_facts (wa_lookup w) (dget_none "code" params) (dget_none "order_type" params)
              (py_str (dget_none "trd_side" params)) (dget_none "qty" params) (dget_none "price" params)
              (dget_none "aux_price" params) (VStr session)) ;;
   _ <- _assess_order e facts ;;
   se_ret (place_write (dset "time_in_force" (VStr tif) params) acc session))%se.

(** [place_combo_order] up to the write; a package quantity that is no integer,
    which the tools do not pass, is refused. *)
Definition prepare_combo (e : deployment) (w : write_answers) (params : dict) (acc : Z) : SE world write :=
  (_ <- se_lift (check_write (d_policy e) "REAL") ;;
   _ <- se_lift (validate_token (dget_none "operation_id" params) (dget_none "admission_epoch" params)) ;;
   _ <- se_lift (validate_order_values (dget_none "order_type" params) (dget_none "qty" params)
                   VNone VNone VNone VNone (dget_none "price" params)) ;;
   _ <- se_lift (refuse_if (negb (str_in ["NORMAL"; "MARKET"] (dget_none "order_type" params)))
                   (ValueError "Combo submissions support NORMAL and MARKET only")) ;;
   _ <- se_lift (refuse_if (negb (str_in ["DAY"; "GTC"] (dget_none "time_in_force" params)))
                   (ValueError "Combo submissions support DAY and GTC only")) ;;
   _ <- connected w ;;
   combo <- se_lift (_build_combo_legs (dget_none "combo_legs" params)) ;;
   _ <- _check_execution_halt ;;
   acc <- resolve e w (match combo with l :: _ => market_of (cl_code l) | [] => None end) acc ;;
   q <- se_lift (match dget_none "qty" params with
                 | VInt z => Ok z
                 | _ => Err (TypeError "unsupported operand") end) ;;
   facts <- se_lift (_combo_facts (d_policy e) (wa_lookup w) combo (dget_none "price" params) q
                       (py_str (dget_none "order_type" params))) ;;
   _ <- _assess_order e facts ;;
   se_ret (combo_write params acc combo))%se.

(** The existing order a modification adds exposure to, as it would become. *)
Definition prepare_exposing (e : deployment) (i : io) (w : write_answers) (params : dict) : SE world (val * val) :=
  (wanted <- se_lift (ditem "order_id" params) ;;
   existing <- se_lift (_fetch_order (wa_order w) (py_str wanted)) ;;
   _ <- validate_target i existing ;;
   let merge k := if is_none (dget_none k params) then dget_none k existing else dget_none k params in
   q <- se_lift (whole_quantity (Plain (merge "qty"))) ;;
   let kind := let v := dget_none "order_type" existing in py_str (if truthy v then v else VStr "NORMAL") in
   let side := let v := dget_none "trd_side" existing in py_str (if truthy v then v else VStr "") in
   o <- se_lift (_optional_float (dget_none "aux_price" existing)) ;;
   let aux := float_or_none o in
   _ <- se_lift (validate_order_values (VStr kind) (VInt q) (merge "price") aux VNone VNone VNone) ;;
   price <- se_lift (opt_number (merge "price")) ;;
   facts <- se_lift (_single_leg_facts (wa_lookup w) (VStr (py_str (dget_none "code" existing))) (VStr kind) side
              (VInt q) (match price with Some f => VFloat f | None => VNone end) aux (VStr s_none)) ;;
   _ <- _assess_order e facts ;;
   se_ret (merge "qty", merge "price"))%se.

(** [modify_order] up to the write *)
Definition prepare_modify (e : deployment) (i : io) (w : write_answers) (params : dict) (acc : Z) : SE world write :=
  (let op := modify_op params in
   let or_zero k := if is_none (dget_none k params) then VInt 0 else dget_none k params in
   _ <- se_lift (check_write (d_policy e) "REAL") ;;
   _ <- connected w ;;
   _ <- (if mem op EXPOSING_MODIFY_OPS then _check_execution_halt else se_ret tt) ;;
   acc <- resolve e w None acc ;;
   do! (qty, price) :=
     (if mem op EXPOSING_MODIFY_OPS then prepare_exposing e i w params
      else se_ret (or_zero "qty", or_zero "price")) in
   se_ret (modify_write op (dget_none "order_id" params) qty price
             (dget_or "adjust_limit" (VInt 0) params) acc))%se.

(** [cancel_order] up to the write *)
Definition prepare_cancel (e : deployment) (w : write_answers) (params : dict) (acc : Z) : SE world write :=
  (_ <- se_lift (check_write (d_policy e) "REAL") ;;
   _ <- connected w ;;
   acc <- resolve e w None acc ;;
   se_ret (modify_write "CANCEL" (dget_none "order_id" params) (VInt 0) (VInt 0) (VInt 0) acc))%se.

Definition prepare_write (e : deployment) (i : io) (w : write_answers) (method : string) (params : dict)
    (acc : Z) : SE world write :=
  not_sent_se false false
    (if bool_decide (method = "place_order") then prepare_place e w params acc
     else if bool_decide (method = "place_combo_order") then prepare_combo e w params acc
     else if bool_decide (method = "modify_order") then prepare_modify e i w params acc
     else prepare_cancel e w params acc).

(** [_with_routing] *)
Definition _with_routing (receipt : dict) (acc : Z) (relock : option exn) : dict :=
  let result := dset "trd_env" (VStr "REAL") (dset "acc_id" (VInt acc) receipt) in
  match relock with
  | None => result
  | Some _ => dset "execution_halted" (VBool true)
                (dset "gateway_relock_error" (VStr "lock_trade failed") result)
  end.

(** The method body that [execute] calls. *)
Definition real_call (e : deployment) (i : nat -> io) (w : write_answers) (method : string) (params : dict)
    (acc : Z) : SE world dict :=
  (wr <- prepare_write e (i 1%nat) w method params acc ;;
   do! (receipt, relock) := _dispatch_write e (i 2%nat) (i 3%nat) w wr in
   se_ret (_with_routing receipt (wr_account wr) relock))%se.

(** ** The outcome *)

(** [_finish] *)
Definition real_finish (i : nat -> io) (row : view) (st : op_state) (disp : string) (receipt : option dict)
    (err reason : option string) (observed : list string) : SE paper reply := fun y =>
  let id := row_id row in
  let late (committed : bool) : SE paper reply :=
    let r := Unstored id (order_tag (ident (v_row row))) st
               (if committed then disp else "OBSERVED_NOT_STORED") committed receipt in
    (_ <- set_failure id r ;; se_ret r)%se in
  match on_store (outcome (i 0%nat) id st disp receipt err reason observed) y with
  | (Err _, y1) => late false y1
  | (Ok _, y1) =>
      se_try
        (current <- on_store (lookup (i 1%nat) id) ;;
         current <- se_lift (match current with Some v => Ok v | None => Err AssertionError end) ;;
         r <- real_result current ;;
         _ <- set_identity (delete id) ;;
         se_ret r)%se
        (fun _ => late true) y1
  end.

(** The receipt as it is stored and answered. *)
Definition converted (receipt : dict) : result dict :=
  (v <- serialize_identifiers (VDict receipt) ;; _ <- json_dumps v ;; Ok (val_dict v))%py.

(** What [execute] does with the result of the call. *)
Definition real_settle (i : nat -> io) (row : view) (r : result dict) : SE world reply := fun s =>
  match r_active s with
  | None => (Err (KeyError "operation"), s)
  | Some a =>
      let finish := fun st disp receipt err reason =>
        on_exec (real_finish i row st disp receipt err reason (ac_observed a)) in
      match r, ac_marked a with
      | Err x, true =>
          let ack := match x with OrderReceiptUnreadableError _ => true | _ => false end in
          finish (if ack then ACKNOWLEDGED else UNKNOWN_OUTCOME)
            (if ack then "ACKNOWLEDGED" else "POSSIBLY_SENT")
            (match ac_evidence a with [] => None | d => Some d end) (Some "error")
            (Some (if ack then "RECEIPT_UNREADABLE" else "UNRESOLVED_OUTCOME")) s
      | Ok receipt, true =>
          match converted receipt with
          | Ok receipt => finish ACKNOWLEDGED "ACKNOWLEDGED" (Some receipt) None None s
          | Err _ => finish ACKNOWLEDGED "ACKNOWLEDGED" (Some (ac_evidence a))
                       (Some "Acknowledged receipt conversion failed; do not resend")
                       (Some "RECEIPT_UNREADABLE") s
          end
      | _, false =>
          (_ <- finish REFUSED "NOT_SENT" None (Some "error") None ;;
           se_raise (OrderNotSentError not_sent_message true))%se s
      end
  end.

(** [fixed]: the caller's parameters under the admitted account and tag. *)
Definition fixed_params (params : dict) (k : op_kind) (acc : Z) (row : view) : dict :=
  let fixed := dset "acc_id" (VInt acc) (dset "trd_env" (VStr "REAL") params) in
  if is_placement k
  then dset "remark" (match order_tag (ident (v_row row)) with Some t => VStr t | None => VNone end) fixed
  else fixed.

(** The region under the execution lock; [approval] is the outer request's. *)
Definition real_dispatch (e : deployment) (i : nat -> io) (w : write_answers) (method : string) (params : dict)
    (approval : option string) (t : real_admitted) : SE world reply := fun s =>
  let '(k, acc, row) := t in
  (_ <- set_operation (mutation_context None method params approval) ;;
   _ <- on_exec (set_identity <[row_id row := row]>) ;;
   _ <- set_active (Some {| ac_row := row; ac_marked := false; ac_evidence := []; ac_observed := [] |}) ;;
   fun s =>
     let '(r, s1) := (_ <- not_sent_se true false (on_exec (ready (i 0%nat))) ;;
                      real_call e i w method (fixed_params params k acc row) acc)%se s in
     let '(r, s2) := real_settle (fun n => i (4 + n)%nat) row r s1 in
     (_ <- set_active None ;; _ <- set_operation None ;; se_lift r)%se s2)%se s.

(** ** The whole operation *)

(** [execute]: the n-th journal call of phase p fails as [i p n] says. *)
Definition real_execute (e : deployment) (i : nat -> nat -> io) (wa : real_answers) (wd : write_answers)
    (method : string) (params : dict) (approval : option string) : SE world reply :=
  (p <- real_front e (i 0%nat 0%nat) method params ;;
   match p with
   | Answer r => se_ret r
   | Next _ =>
       a <- real_admission e (i 1%nat) wa method params ;;
       match a with
       | Answer r => se_ret r
       | Next t => real_dispatch e (i 2%nat) wd method params approval t
       end
   end)%se.

(** ** The decorator of the public methods *)

(** Their parameters after [self], with the defaults. *)
Definition order_defaults : list (string * option val) :=
  [("operation_id", Some VNone); ("admission_epoch", Some VNone); ("approval_id", Some VNone)].
Definition signature (method : string) : list (string * option val) :=
  if bool_decide (method = "place_order") then
    [("code", None); ("price", None); ("qty", None); ("trd_side", None);
     ("order_type", Some (VStr "NORMAL")); ("time_in_force", Some (VStr "DAY"));
     ("adjust_limit", Some (VInt 0)); ("aux_price", Some VNone); ("trail_type", Some VNone);
     ("trail_value", Some VNone); ("trail_spread", Some VNone); ("trd_env", None);
     ("acc_id", Some (VStr "0")); ("remark", Some (VStr ""))] ++ order_defaults
    ++ [("session", Some (VStr s_none))]
  else if bool_decide (method = "place_combo_order") then
    [("combo_legs", None); ("price", None); ("qty", None); ("order_type", Some (VStr "NORMAL"));
     ("time_in_force", Some (VStr "DAY")); ("trd_env", None); ("acc_id", Some (VStr "0"));
     ("remark", Some (VStr ""))] ++ order_defaults
  else if bool_decide (method = "modify_order") then
    [("order_id", None); ("modify_order_op", None); ("qty", Some VNone); ("price", Some VNone);
     ("adjust_limit", Some (VInt 0)); ("trd_env", None); ("acc_id", Some (VStr "0"))] ++ order_defaults
  else [("order_id", None); ("trd_env", None); ("acc_id", Some (VStr "0"))] ++ order_defaults.

(** [signature.bind(self, **kwargs)] with [apply_defaults] *)
Definition bind_arguments (parameters : list (string * option val)) (kwargs : dict) : result dict :=
  (_ <- refuse_if (negb (forallb (fun kv => mem (fst kv) (map fst parameters)) kwargs))
         (TypeError "got an unexpected keyword argument") ;;
   mapM (fun '(k, default) =>
           match dget k kwargs, default with
           | Some v, _ | None, Some v => Ok (k, v)
           | None, None => Err (TypeError "missing a required argument")
           end) parameters)%py.

(** [journal_real_mutation]: a REAL call is executed through the journal; for
    another environment the method itself is called with the arguments. *)
Definition journal_real_mutation (e : deployment) (configured : bool) (i : nat -> nat -> io) (wa : real_answers)
    (wd : write_answers) (method : string) (kwargs : dict) : SE world (progress dict) :=
  (bound <- se_lift (bind_arguments (signature method) kwargs) ;;
   let approval_id := match dget_none "approval_id" bound with VStr a => Some a | _ => None end in
   let params := dpop "approval_id" bound in
   if negb (bool_decide (named (dget_none "trd_env" params) = "REAL")) then se_ret (Next params)
   else
     _ <- not_sent_se false false
            (_ <- se_lift (check_write (d_policy e) "REAL") ;;
             se_lift (refuse_if (negb configured) (ValueError "Persistent REAL journal is not configured"))) ;;
     r <- real_execute e i wa wd method params approval_id ;;
     se_ret (Answer r))%se.
End real.
