(* ===== verification/RealOnce.v ===== *)
(** REAL execution as a concurrent system over the journal: what each phase of
    [real_execute] does to the journal, the gateway and the halt, and every run
    of threads, operators, recovery, exits and restarts as a run of the journal
    machine in which each write follows its own durable marker. *)

From S2P Require Import Prelude PyStr PyFloat PyDec PyVal OrderErrors Serialization Identity.
From S2P Require Import Validation Policy Rules ClientAuth Controls Prep.
From S2P Require Import Store StoreOpen StoreInv Journal Paper PaperOnce RealRequest Real.

#[local] Open Scope list_scope.

(** ** What the gateway was asked *)

Definition write_of (e : sdk_event) : option (string * dict) :=
  match e with EWrite id args _ => Some (id, args) | _ => None end.
Definition writes (s : world) : list (string * dict) := omap write_of (r_sdk s).

(** What may not change between an admission and its write. *)
Definition in_flight (s : world) : option (view * bool) :=
  option_map (fun a => (ac_row a, ac_marked a)) (r_active s).

(** No marker, no write, and the operation in flight is the same. *)
Definition quiet (s s' : world) : Prop :=
  silent (r_exec s) (r_exec s') /\ writes s' = writes s /\ in_flight s' = in_flight s.
#[export] Instance quiet_preorder : PreOrder quiet.
Proof.
  split; [by intros x; split_and!|].
  intros x y z (A & B & C) (A' & B' & C'). split_and!; [by etrans|congruence..].
Qed.

(** Nor is the gateway asked anything, nor does the halt change. *)
Definition same_gateway (s s' : world) : Prop := r_halt s' = r_halt s /\ r_sdk s' = r_sdk s.
#[export] Instance same_gateway_preorder : PreOrder same_gateway.
Proof. split; [done|]. intros x y z [A B] [A' B']. split; congruence. Qed.
Definition steady_halt (s s' : world) : Prop := quiet s s' /\ same_gateway s s'.
#[export] Instance steady_halt_preorder : PreOrder steady_halt.
Proof. split; [by intros x; split|]. intros x y z [A B] [A' B']. split; by etrans. Qed.

(** Nor do the controls change; the thread works on the same request. *)
Definition same_controls (s s' : world) : Prop := r_controls s' = r_controls s.
#[export] Instance same_controls_preorder : PreOrder same_controls.
Proof. split; [done|]. intros x y z A B. unfold same_controls in *. congruence. Qed.
Definition op_request (a : control_op) : string * dict * option string :=
  (co_method a, co_parameters a, co_approval a).
Definition keeps_request (s s' : world) : Prop := op_request <$> r_operation s' = op_request <$> r_operation s.
#[export] Instance keeps_request_preorder : PreOrder keeps_request.
Proof. split; [done|]. intros x y z A B. unfold keeps_request in *. congruence. Qed.

Lemma exec_same_controls {A} (c : SE paper A) : preserves same_controls (on_exec c).
Proof. intros s r s' H. unfold on_exec in H. destruct (c (r_exec s)). by injection H as _ <-. Qed.
Lemma exec_keeps_request {A} (c : SE paper A) : preserves keeps_request (on_exec c).
Proof. intros s r s' H. unfold on_exec in H. destruct (c (r_exec s)). by injection H as _ <-. Qed.
Lemma controls_keeps_request {A} (c : SE (option controls) A) : preserves keeps_request (with_controls c).
Proof. intros s r s' H. unfold with_controls in H. destruct (c (r_controls s)). by injection H as _ <-. Qed.
Lemma log_same_controls ev : preserves same_controls (log_sdk ev).
Proof. by intros s r s' [= _ <-]. Qed.
Lemma active_same_controls a : preserves same_controls (set_active a).
Proof. by intros s r s' [= _ <-]. Qed.
Lemma active_keeps_request a : preserves keeps_request (set_active a).
Proof. by intros s r s' [= _ <-]. Qed.
#[export] Hint Resolve exec_same_controls exec_keeps_request controls_keeps_request log_same_controls
  active_same_controls active_keeps_request : preserves.
#[export] Hint Extern 2 (preserves keeps_request (on_journal _)) => apply exec_keeps_request : preserves.

Lemma quiet_of {A} (c : SE world A) : preserves steady_halt c -> preserves quiet c.
Proof. intros Hc s r s' H. by apply Hc in H as [? _]. Qed.

Lemma exec_steady {A} (c : SE paper A) : unmarked c -> preserves steady_halt (on_exec c).
Proof.
  intros Hc s r s' H. unfold on_exec in H. destruct (c (r_exec s)) as [r1 y] eqn:E.
  injection H as _ <-. apply Hc in E. by split; [split_and!|].
Qed.
Lemma controls_steady {A} (c : SE (option controls) A) : preserves steady_halt (with_controls c).
Proof.
  intros s r s' H. unfold with_controls in H. destruct (c (r_controls s)) as [r1 k].
  injection H as _ <-. by split; [split_and!|].
Qed.
Lemma operation_steady o : preserves steady_halt (set_operation o).
Proof. intros s r s' [= _ <-]. by split; [split_and!|]. Qed.
Lemma halt_quiet h : preserves quiet (set_halt h).
Proof. intros s r s' [= _ <-]. by split_and!. Qed.
Lemma log_quiet ev : write_of ev = None -> preserves quiet (log_sdk ev).
Proof. intros Hev s r s' [= _ <-]. split_and!; try done. unfold writes. simpl. by rewrite Hev. Qed.
#[export] Hint Resolve exec_steady controls_steady operation_steady halt_quiet : preserves.
#[export] Hint Extern 2 (preserves quiet (log_sdk _)) => by apply log_quiet : preserves.
#[export] Hint Extern 2 (preserves steady_halt (on_journal _)) => apply exec_steady : preserves.

Section phases.
Context `{SN : SessionNames}.

(** ** The phases without a write *)

Lemma unmarked_real_result row : unmarked (real_result row).
Proof. intros y r y' H. unfold real_result in H. destruct (_ !! _); simplify_eq; by split; [constructor|]. Qed.
Hint Resolve unmarked_real_result unmarked_ready : preserves.

Lemma unmarked_real_retry e row k params : unmarked (real_retry_row e row k params).
Proof.
  intros y r y' H. unfold real_retry_row in H. destruct (bind _ _) as [x|x]; [by eapply unmarked_real_result|].
  simplify_eq. by split; [constructor|].
Qed.
Hint Resolve unmarked_real_retry : preserves.

Lemma unmarked_find_retry e i method params : unmarked (retry e i method params).
Proof.
  intros y r y'. unfold retry. destruct (not_sent _ _ _) as [[id k]|x]; [|intros [= <- <-]; by split; [constructor|]].
  destruct (y_late_failure y !! id); revert y r y';
    match goal with |- forall y r y', _ = _ -> _ => idtac end.
  all: intros y r y'; match goal with |- ?c y = _ -> _ => assert (Hc : unmarked c) by (repeat preserves); apply Hc end.
Qed.
Hint Resolve unmarked_find_retry : preserves.

Lemma lock_quiet a : preserves quiet (_lock_gateway a).
Proof. unfold _lock_gateway. preserves. Qed.
Lemma unlock_quiet a : preserves quiet (_unlock_gateway a).
Proof. unfold _unlock_gateway. preserves. Qed.
Lemma halt_check_steady : preserves steady_halt _check_execution_halt.
Proof. intros s r s' [= _ <-]. by split; [split_and!|]. Qed.
Hint Resolve lock_quiet unlock_quiet halt_check_steady : preserves.

Lemma preflight_steady e i w method k params : preserves steady_halt (preflight e i w method k params).
Proof. unfold preflight. apply preserves_not_sent. repeat preserves. Qed.
Hint Resolve preflight_steady : preserves.

Lemma admission_steady e i w method params : preserves steady_halt (real_admission e i w method params).
Proof. unfold real_admission. repeat preserves. Qed.
Lemma front_steady e i method params : preserves steady_halt (real_front e i method params).
Proof. unfold real_front. repeat preserves. Qed.

(** ** Up to the write *)

Lemma assess_steady e facts : preserves steady_halt (_assess_order e facts).
Proof. unfold _assess_order. preserves. Qed.
Lemma observe_steady id : preserves steady_halt (observe_previous id).
Proof.
  intros s r s' H. unfold observe_previous, set_active in H.
  destruct (r_active s) as [a|] eqn:E; injection H as _ <-; [|reflexivity].
  split; [split_and!|]; try done. unfold in_flight. by rewrite E.
Qed.
Hint Resolve assess_steady observe_steady : preserves.

Lemma check_previous_steady order pending : preserves steady_halt (check_previous order pending).
Proof. induction pending as [|v l IH]; simpl; repeat preserves. Qed.
Hint Resolve check_previous_steady unmarked_pending : preserves.

Lemma target_steady i order : preserves steady_halt (validate_target i order).
Proof.
  intros s r s' H. unfold validate_target in H. destruct (r_active s) as [a|]; [|injection H as _ <-; reflexivity].
  revert s r s' H. match goal with |- forall s r s', ?c s = _ -> _ => change (preserves steady_halt c) end.
  repeat preserves.
Qed.
Hint Resolve target_steady : preserves.

Lemma exposing_steady e i w params : preserves steady_halt (prepare_exposing e i w params).
Proof. unfold prepare_exposing. repeat preserves. Qed.
Hint Resolve exposing_steady : preserves.

Lemma prepare_write_steady e i w method params acc : preserves steady_halt (prepare_write e i w method params acc).
Proof.
  unfold prepare_write, prepare_place, prepare_combo, prepare_modify, prepare_cancel, connected, resolve.
  apply preserves_not_sent. repeat case_bool_decide; repeat preserves.
Qed.

(** The thread's own operation is assessed again and again, but stays that of its
    request. *)
Lemma assess_keeps_request e facts : preserves keeps_request (_assess_order e facts).
Proof.
  intros s r s' H. unfold _assess_order, se_bind, se_get, se_lift, set_operation in H.
  destruct (assess_control_facts _ _ _) as [op|x] eqn:E; injection H as _ <-; [|done].
  unfold assess_control_facts in E. apply bind_ok in E as ([] & _ & E). unfold keeps_request; simpl.
  destruct (r_operation s) as [a|]; [|by injection E as <-].
  apply bind_ok in E as (contract & _ & E). case_bool_decide; [by injection E as <-|].
  apply bind_ok in E as (v & _ & E). by injection E as <-.
Qed.
Lemma observe_keeps_request id : preserves keeps_request (observe_previous id).
Proof. intros s r s' H. unfold observe_previous, set_active in H. destruct (r_active s); by injection H as _ <-. Qed.
Lemma halt_check_keeps_request : preserves keeps_request _check_execution_halt.
Proof. by intros s r s' [= _ <-]. Qed.
Hint Resolve assess_keeps_request observe_keeps_request halt_check_keeps_request : preserves.

Lemma check_previous_keeps_request order pending : preserves keeps_request (check_previous order pending).
Proof. induction pending as [|v l IH]; simpl; repeat preserves. Qed.
Hint Resolve check_previous_keeps_request : preserves.
Lemma target_keeps_request i order : preserves keeps_request (validate_target i order).
Proof.
  intros s r s' H. unfold validate_target in H. destruct (r_active s) as [a|]; [|injection H as _ <-; reflexivity].
  revert s r s' H. match goal with |- forall s r s', ?c s = _ -> _ => change (preserves keeps_request c) end.
  repeat preserves.
Qed.
Hint Resolve target_keeps_request : preserves.
Lemma prepare_write_keeps_request e i w method params acc :
  preserves keeps_request (prepare_write e i w method params acc).
Proof.
  unfold prepare_write, prepare_place, prepare_combo, prepare_modify, prepare_exposing, prepare_cancel,
    connected, resolve.
  apply preserves_not_sent. repeat case_bool_decide; repeat preserves.
Qed.

(** ** The write *)

(** The operation in flight is [row], unmarked or marked. *)
Definition flying (row : view) (marked : bool) (s : world) : Prop := in_flight s = Some (row, marked).

Lemma flying_active row b s : flying row b s -> exists a, r_active s = Some a /\ ac_row a = row /\ ac_marked a = b.
Proof. unfold flying, in_flight. destruct (r_active s) as [a|]; [|done]. intros [= <- <-]. eauto. Qed.

Lemma flying_quiet row b s s' : quiet s s' -> flying row b s -> flying row b s'.
Proof. intros (_ & _ & H) Hf. unfold flying in *. congruence. Qed.

Lemma is_str_eq_true t v : is_str_eq t v = true <-> v = VStr t.
Proof. destruct v; simpl; try (split; [done|by intros]). rewrite bool_decide_eq_true. naive_solver. Qed.

(** The last gate only reads the controls. *)
Lemma confirm_keeps_db p ci active k r k' :
  confirm_dispatch_controls p ci active k = (r, k') -> k_db <$> k' = k_db <$> k.
Proof.
  destruct k as [k|]; intros H.
  - apply confirm_reserved in H as [(k1 & -> & Hk) _]. simpl. congruence.
  - unfold confirm_dispatch_controls in H. by destruct (controlled p); injection H as _ <-.
Qed.

(** What the last gate before the broker has established of a write. *)
Definition cleared (e : deployment) (ci : control_io) (row : view) (journal : dict)
    (op : option control_op) (k : option controls) : Prop :=
  dget "trd_env" journal = Some (VStr "REAL")
  /\ py_str (dget_none "acc_id" journal) = account (ident (v_row row))
  /\ exists k', confirm_dispatch_controls (d_policy e) ci op k = (Ok tt, k').

(** A failure leaves no trace when everything before it is steady. *)
Lemma steady_err_bind {A B} (c : SE world A) (f : A -> SE world B) :
  preserves steady_halt c ->
  (forall a x s s', f a s = (Err x, s') -> steady_halt s s') ->
  forall x s s', se_bind c f s = (Err x, s') -> steady_halt s s'.
Proof.
  intros Hc Hf x s s' H. unfold se_bind in H. destruct (c s) as [[a|y] s1] eqn:E.
  - etrans; [by eapply Hc|by eapply Hf].
  - injection H as -> <-. by eapply Hc.
Qed.

(** [before_dispatch] writes the one marker, or nothing. *)
Lemma before_dispatch_cases e i i' ci merged row s r s' :
  before_dispatch e i i' ci merged s = (r, s') -> flying row false s ->
  match r with
  | Ok _ => runs (y_store (r_exec s)) [(row_id row, merged)] (y_store (r_exec s'))
            /\ flying row true s' /\ same_gateway s s'
            /\ cleared e ci row merged (r_operation s) (r_controls s)
            /\ k_db <$> r_controls s' = k_db <$> r_controls s
  | Err _ => steady_halt s s'
  end.
Proof.
  intros H Hf. destruct (flying_active _ _ _ Hf) as (a & Ha & Hrow & Hm).
  unfold before_dispatch in H. rewrite Ha, Hm in H.
  match type of H with se_bind (not_sent_se _ _ ?body) _ _ = _ => set (c := body) in H end.
  unfold se_bind, not_sent_se in H. destruct (c s) as [r1 s1] eqn:E. unfold c in E. clear c.
  destruct r1 as [[]|x]; simpl in H.
  - injection H as <- <-. apply se_bind_ok in E as ([] & s2 & E0 & E). injection E0 as <-.
    apply se_bind_ok in E as ([] & s3 & E2 & E).
    pose proof (exec_steady _ (unmarked_ready i) _ _ _ E2) as [(R2 & W2 & F2) H2].
    assert (Hop : r_operation s3 = r_operation s /\ r_controls s3 = r_controls s).
    { unfold on_exec in E2. destruct (ready i (r_exec s)). by injection E2 as _ <-. }
    apply se_bind_ok in E as ([] & s4 & E3 & E). injection E3 as E3 <-. apply refuse_if_ok in E3.
    apply orb_false_iff in E3 as [G1 G2]. apply negb_false_iff, is_str_eq_true in G1.
    apply negb_false_iff, bool_decide_eq_true in G2.
    apply se_bind_ok in E as (s5 & s6 & E4 & E). injection E4 as <- <-.
    apply se_bind_ok in E as ([] & s7 & E5 & E).
    pose proof (controls_steady _ _ _ _ E5) as [(R5 & W5 & F5) H5].
    unfold on_journal, on_exec, on_store in E. destruct (mark_dispatch _ _ _ _) as [r8 s8] eqn:E8.
    injection E as -> <-. simpl. subst row.
    apply (runs_one (CMark i' (row_id (ac_row a)) merged)) in E8; [|done]. simpl in E8.
    split_and!.
    + destruct R2 as [R2 _], R5 as [R5 _].
      exact (runs_trans _ _ _ _ _ (runs_trans _ _ _ _ _ R2 R5) E8).
    + done.
    + destruct H2, H5. split; simpl; congruence.
    + split_and!; [|done|].
      * unfold dget_none in G1. by destruct (dget "trd_env" merged); simpl in G1; simplify_eq.
      * unfold with_controls in E5. destruct Hop as [Hop1 Hop2]. rewrite Hop1, Hop2 in E5.
        destruct (confirm_dispatch_controls _ _ _ _) as [r9 k9]. injection E5 as -> _. eauto.
    + unfold with_controls in E5. destruct Hop as [Hop1 Hop2]. rewrite Hop1, Hop2 in E5.
      destruct (confirm_dispatch_controls _ _ _ _) as [r9 k9] eqn:Ek. injection E5 as _ <-. simpl.
      by eapply confirm_keeps_db.
  - injection H as <- <-. clear Hf Ha. revert x s s1 E.
    apply (steady_err_bind (se_lift _)); [auto with preserves|intros []].
    apply (steady_err_bind (on_exec _)); [auto with preserves|intros []].
    apply (steady_err_bind (se_lift _)); [auto with preserves|intros []].
    apply (steady_err_bind se_get); [auto with preserves|intros s2].
    apply (steady_err_bind (with_controls _)); [auto with preserves|intros []].
    intros y s3 s4 E. unfold on_journal, on_exec, on_store in E.
    destruct (mark_dispatch _ _ _ _) as [r8 s8] eqn:E8. injection E as -> <-.
    apply (runs_one (CMark i' (row_id (ac_row a)) merged)) in E8; [|done].
    by split; [split_and!|].
Qed.

Lemma observed_ack_steady o : preserves steady_halt (observe_acknowledgement o).
Proof.
  intros s r s' H. unfold observe_acknowledgement in H.
  destruct (r_active s) as [a|] eqn:Ea; [|injection H as _ <-; reflexivity].
  destruct o as [o|]; [|injection H as _ <-; reflexivity].
  destruct (positive_order_id _); injection H as _ <-; [|reflexivity].
  split; [split_and!|]; try done. unfold in_flight. by rewrite Ea.
Qed.
Lemma observed_ack_controls o : preserves same_controls (observe_acknowledgement o).
Proof.
  intros s r s' H. unfold observe_acknowledgement, set_active in H.
  repeat case_match; by injection H as _ <-.
Qed.
Hint Resolve observed_ack_steady observed_ack_controls : preserves.

(** The marker and the write go together. *)
Definition sent_out (e : deployment) (w : write_answers) (row : view) (wr : write) (s s' : world) : Prop :=
  runs (y_store (r_exec s)) [(row_id row, wr_journal wr)] (y_store (r_exec s'))
  /\ r_sdk s' = EWrite (row_id row) (wr_sdk wr) (wr_adds_exposure wr) :: r_sdk s
  /\ flying row true s' /\ r_halt s' = r_halt s
  /\ cleared e (wa_confirm w) row (wr_journal wr) (r_operation s) (r_controls s)
  /\ k_db <$> r_controls s' = k_db <$> r_controls s.

Lemma write_body_cases e i i' w row wr s r s' :
  write_body e i i' w (row_id row) wr s = (r, s') -> flying row false s ->
  (is_ok r = false /\ steady_halt s s') \/ sent_out e w row wr s s'.
Proof.
  intros H Hf. unfold write_body in H. unfold se_bind at 1 in H.
  destruct (before_dispatch e i i' (wa_confirm w) (wr_journal wr) s) as [[[]|x] s1] eqn:E;
    apply before_dispatch_cases with (row := row) in E; [|done| |done].
  2: { injection H as <- <-. by left. }
  right. destruct E as (R & F & [Hh Hs] & C & K).
  unfold se_bind at 1, log_sdk in H.
  match type of H with ?c ?t = _ => set (s2 := t) in H; set (d := c) in H end.
  assert (Hd : preserves steady_halt d) by (unfold d; repeat preserves).
  assert (Hc : preserves same_controls d) by (unfold d; repeat preserves).
  pose proof (Hc _ _ _ H) as K2. unfold same_controls in K2.
  apply Hd in H as [(R2 & _ & F2) [H2 G2]]. destruct R2 as [R2 _]. split_and!.
  - exact (runs_trans _ _ _ _ _ R R2).
  - rewrite G2. unfold s2. simpl. by rewrite Hs.
  - unfold flying in *. rewrite F2. exact F.
  - rewrite H2. exact Hh.
  - done.
  - rewrite K2. exact K.
Qed.

(** The relock: it is attempted when the write unlocked, and halts when it fails. *)
Lemma relock_cases jit now lock s r s' :
  _relock_after_write jit now lock s = (r, s') ->
  quiet s s' /\ exists o, r = Ok o /\
  match jit, lock with
  | false, _ => o = None /\ s' = s
  | true, Some (RetOk _) => o = None /\ r_halt s' = r_halt s /\ r_sdk s' = ELock true :: r_sdk s
  | true, Some _ => halted (r_halt s') = true /\ r_sdk s' = ELock false :: r_sdk s
  | true, None => halted (r_halt s') = true /\ r_sdk s' = r_sdk s
  end.
Proof.
  assert (Hh : forall x h, halted (record_relock_failure now x h) = true) by (intros x [[t|] l]; done).
  unfold _relock_after_write. destruct jit; simpl; [|intros [= <- <-]; split; [done|by exists None]].
  assert (Hq : forall h ev, write_of ev = None -> quiet s
    {| r_exec := r_exec s; r_controls := r_controls s; r_halt := h; r_sdk := ev :: r_sdk s;
       r_active := r_active s; r_operation := r_operation s |}).
  { intros h ev Hev. split_and!; try done. unfold writes. simpl. by rewrite Hev. }
  destruct lock as [[x| |[]]|]; simpl; unfold se_bind, set_halt, se_ret; simpl; intros [= <- <-];
    (split; [first [by apply Hq|by split_and!]|]); eexists; (split; [done|]);
    first [by split; [apply Hh|]|done].
Qed.

Lemma relock_same_controls jit now lock : preserves same_controls (_relock_after_write jit now lock).
Proof.
  intros s r s' H. unfold _relock_after_write, _lock_gateway, log_sdk, set_halt, se_bind, se_lift, se_ret in H.
  destruct jit; [destruct lock as [[| |]|]|]; simpl in H; by injection H as _ <-.
Qed.
Hint Resolve relock_same_controls : preserves.

(** A steady step either ends the computation or hands over to the next. *)
Lemma steady_cases {A B} (c : SE world A) (f : A -> SE world B) s r s' :
  preserves steady_halt c -> se_bind c f s = (r, s') ->
  (is_ok r = false /\ steady_halt s s')
  \/ exists a s1, c s = (Ok a, s1) /\ steady_halt s s1 /\ f a s1 = (r, s').
Proof.
  intros Hc H. unfold se_bind in H. destruct (c s) as [[a|x] s1] eqn:E.
  - right. exists a, s1. split_and!; [done|by eapply Hc|done].
  - left. injection H as <- <-. split; [done|by eapply Hc].
Qed.

(** What a write that got through the lock has logged, and one that did not. *)
Definition unlocked (e : deployment) : list sdk_event := if d_credential e then [EUnlock true] else [].
Definition untouched (e : deployment) (s s' : world) : Prop :=
  quiet s s' /\ r_halt s' = r_halt s
  /\ (r_sdk s' = r_sdk s \/ d_credential e = true /\ r_sdk s' = EUnlock false :: r_sdk s).

Lemma steady_untouched e s s' : steady_halt s s' -> untouched e s s'.
Proof. intros (Q & Hh & Hs). split_and!; [done|done|by left]. Qed.
Lemma untouched_after e s s1 s2 : steady_halt s s1 -> untouched e s1 s2 -> untouched e s s2.
Proof.
  intros (Q & Hh & Hs) (Q2 & Hh2 & Hs2). split_and!; [by etrans|congruence|]. by rewrite <-Hs.
Qed.

Lemma guarded_unlock_cases {A} (e : deployment) w (f : unit -> SE world A) s r s' :
  se_bind (if d_credential e then fun s =>
               match wa_unlock w with
               | Some u => match _unlock_gateway u s with
                           | (Ok _, s1) => (Ok tt, s1)
                           | (Err _, s1) => (Err (OrderNotSentError not_sent_message false), s1)
                           end
               | None => (Err (OrderNotSentError not_sent_message false), s)
               end
             else se_ret tt) f s = (r, s') ->
  (is_ok r = false /\ untouched e s s') \/
  exists s1, quiet s s1 /\ r_halt s1 = r_halt s /\ r_sdk s1 = unlocked e ++ r_sdk s
    /\ r_operation s1 = r_operation s /\ f tt s1 = (r, s').
Proof.
  unfold se_bind, unlocked, untouched. destruct (d_credential e) eqn:Ec; [|intros H; right; by exists s].
  destruct (wa_unlock w) as [u|]; [|intros [= <- <-]; left; by split_and!; try left].
  assert (Q : forall b, quiet s (snd (log_sdk (EUnlock b) s)))
    by (intros b; by eapply (log_quiet (EUnlock b)); [|apply surjective_pairing]).
  unfold _unlock_gateway, se_bind. destruct u as [x| |[]]; simpl; intros H.
  - injection H as <- <-. left. split_and!; [done|exact (Q false)|done|by right].
  - injection H as <- <-. left. split_and!; [done|exact (Q false)|done|by right].
  - right. eexists. split_and!; [exact (Q true)|done|done|done|exact H].
Qed.

Lemma new_risk_ok e (s : world) w wr s1 :
  not_sent_se false false
    (if wr_adds_exposure wr then
       (_ <- _check_execution_halt ;;
        s <- se_get ;;
        match r_controls s with
        | None => se_ret tt
        | Some _ => with_controls (on_controls AssertionError
                      (check_new_risk (wa_risk_broken w) "REAL" (str_int (wr_account wr))))
        end)%se
     else se_ret tt) s = (Ok e, s1) ->
  wr_adds_exposure wr = true -> halted (r_halt s) = false.
Proof.
  intros H Hx. rewrite Hx in H. unfold not_sent_se in H. destruct (se_bind _ _ s) as [r1 s2] eqn:E.
  injection H as H <-. apply not_sent_ok in H as ->. apply se_bind_ok in E as ([] & s3 & E & _).
  unfold _check_execution_halt in E. injection E as E _. by apply refuse_if_ok in E.
Qed.

(** What the charge before the write leaves in the thread's operation: the
    parameters under which the request was charged for the write's account. *)
Definition charged_for (e : deployment) (wr : write) (s s' : world) : Prop :=
  controlled (d_policy e) = true -> exists a parameters,
    op_request <$> r_operation s = Some (op_request a)
    /\ charged_parameters (d_policy e) a (wr_account wr) "REAL" = Ok parameters
    /\ r_operation s' = Some (with_reserved parameters a).

Lemma charge_step e ci wr s s' :
  not_sent_se false false
    (s <- se_get ;;
     op <- with_controls (check_dispatch_controls (d_policy e) ci (r_operation s) (wr_account wr) "REAL") ;;
     set_operation op)%se s = (Ok tt, s') -> charged_for e wr s s'.
Proof.
  intros H Hc. unfold not_sent_se, se_bind, se_get, with_controls, set_operation in H.
  destruct (check_dispatch_controls _ _ _ _ _ _) as [r k] eqn:E. destruct r as [op|x]; simpl in H; [|].
  2: { injection H as H _. by destruct x. }
  injection H as <-. simpl. destruct (r_controls s) as [ctl|].
  - apply check_charged in E as (k1 & _ & E). rewrite Hc in E.
    destruct E as (a & parameters & Ha & Hp & -> & _). exists a, parameters. by rewrite Ha.
  - unfold check_dispatch_controls in E. by rewrite Hc in E.
Qed.

(** The last gate lets such an operation through only with its charge in place. *)
Lemma cleared_charge p ci a parameters k :
  controlled p = true -> (exists k', confirm_dispatch_controls p ci (Some (with_reserved parameters a)) k = (Ok tt, k')) ->
  exists ctl, k = Some ctl /\ reserved_by p ci a parameters (k_db ctl).
Proof.
  intros Hc [k' H]. destruct k as [ctl|].
  - apply confirm_reserved in H as [_ H]. destruct (H eq_refl Hc) as (a1 & p1 & [= <-] & [= <-] & Hr).
    by exists ctl.
  - unfold confirm_dispatch_controls in H. by rewrite Hc in H.
Qed.

(** A write is refused before the body, or its body and its relock both ran. *)
Lemma dispatch_write_stages e i i' w row wr s r s' :
  _dispatch_write e i i' w wr s = (r, s') -> flying row false s ->
  (is_ok r = false /\ untouched e s s') \/
  (exists s4 r5 s5 o, quiet s s4 /\ r_halt s4 = r_halt s /\ r_sdk s4 = unlocked e ++ r_sdk s
     /\ (wr_adds_exposure wr = true -> halted (r_halt s) = false) /\ charged_for e wr s s4
     /\ write_body e i i' w (row_id row) wr s4 = (r5, s5)
     /\ _relock_after_write (d_credential e) (wa_now w) (wa_lock w) s5 = (Ok o, s')
     /\ r = match r5 with
            | Ok receipt => Ok (receipt, o)
            | Err x => Err (match o with None => x | Some _ => also_unlocked x end)
            end).
Proof.
  intros H Hf. destruct (flying_active _ _ _ Hf) as (a & Ha & Hrow & _).
  unfold _dispatch_write in H. rewrite Ha, Hrow in H.
  apply steady_cases in H as [[? S]|([] & s1 & Hrisk & S1 & H)];
    [left; split; [done|by apply steady_untouched]| |apply preserves_not_sent; repeat preserves].
  pose proof (new_risk_ok _ _ _ _ _ Hrisk) as Hexp.
  assert (R1 : keeps_request s s1).
  { revert Hrisk. match goal with |- ?c _ = _ -> _ => assert (Hp : preserves keeps_request c) end;
      [apply preserves_not_sent; repeat preserves|apply Hp]. }
  clear Hrisk.
  apply steady_cases in H as [[? S]|([] & s2 & Hres & S2 & H)];
    [left; split; [done|apply steady_untouched; by etrans]| |auto with preserves].
  injection Hres as _ <-. assert (S : steady_halt s s1) by by etrans. clear S1 S2.
  apply steady_cases in H as [[? S2]|([] & s3 & Hch & S3 & H)];
    [left; split; [done|apply steady_untouched; by etrans]| |apply preserves_not_sent; repeat preserves].
  assert (S1 : steady_halt s s3) by by etrans. clear S S3. apply charge_step in Hch.
  apply guarded_unlock_cases in H as [[? U]|(s4 & Q & Hh & Hs & Ho & H)];
    [left; split; [done|by eapply untouched_after]|].
  right. destruct S1 as (Q1 & Hh1 & Hs1). destruct (write_body e i i' w (row_id row) wr s4) as [r5 s5] eqn:E5.
  unfold se_bind in H. destruct (_relock_after_write _ _ _ s5) as [r6 s6] eqn:E6.
  pose proof (relock_cases _ _ _ _ _ _ E6) as [_ (o & -> & _)].
  exists s4, r5, s5, o. assert (s' = s6) as -> by (destruct r5; by injection H as _ <-).
  split_and!; [by etrans|congruence|congruence|done| |done..|by destruct r5; injection H as <-].
  intros Hc. destruct (Hch Hc) as (a' & parameters & Hreq & Hp & Hop).
  exists a', parameters. split_and!; [by rewrite <-R1|done|congruence].
Qed.

(** One write through the gateway lock: it is refused without a trace, or its
    marker and its call are both there. *)
Lemma dispatch_write_cases e i i' w row wr s r s' :
  _dispatch_write e i i' w wr s = (r, s') -> flying row false s ->
  (is_ok r = false /\ quiet s s') \/
  (exists s1 s2, quiet s s1 /\ r_halt s1 = r_halt s /\ sent_out e w row wr s1 s2
     /\ quiet s2 s' /\ (wr_adds_exposure wr = true -> halted (r_halt s) = false)
     /\ charged_for e wr s s1 /\ same_controls s2 s').
Proof.
  intros H Hf. apply dispatch_write_stages with (row := row) in H
    as [[Hk [Q _]]|(s4 & r5 & s5 & o & Q & Hh & _ & Hx & Hch & E5 & E6 & Hr)]; [by left| |done].
  pose proof (relock_same_controls _ _ _ _ _ _ E6) as K6. apply relock_cases in E6 as [Q6 _].
  assert (Hk : is_ok r = is_ok r5) by (subst r; by destruct r5). clear Hr.
  apply write_body_cases with (row := row) in E5 as [[Hk5 [Q5 _]]|Hsent]; [| |by eapply flying_quiet].
  - left. split; [congruence|]. etrans; [exact Q|]. by etrans.
  - right. exists s4, s5. by split_and!.
Qed.

(** *** The lock *)

(** Whether the last acknowledged lock request left the gateway unlocked, and
    whether that request was the SDK's replay. *)
Fixpoint gateway_open (l : list sdk_event) : bool :=
  match l with
  | EUnlock true :: _ | EReplay true :: _ => true
  | ELock true :: _ => false
  | _ :: l => gateway_open l
  | [] => false
  end.
Fixpoint replayed (l : list sdk_event) : bool :=
  match l with
  | EReplay true :: _ => true
  | EUnlock true :: _ | ELock true :: _ => false
  | _ :: l => replayed l
  | [] => false
  end.
(** The SDK replayed only what it had cached: an unlock acknowledged since the
    last acknowledged lock. *)
Fixpoint cached_replays (l : list sdk_event) : bool :=
  match l with
  | EReplay true :: l => gateway_open l && cached_replays l
  | _ :: l => cached_replays l
  | [] => true
  end.

(** A gateway left unlocked has halted the execution, unless the SDK replayed an
    unlock it had no longer cached. *)
Definition sealed (s : world) : Prop :=
  gateway_open (r_sdk s) = true ->
  halted (r_halt s) = true \/ replayed (r_sdk s) = true /\ cached_replays (r_sdk s) = false.
(** A halted execution stays halted and adds no exposure. *)
Definition guards (s s' : world) : Prop :=
  halted (r_halt s) = true -> halted (r_halt s') = true
  /\ exists new, r_sdk s' = new ++ r_sdk s /\ forall id args, EWrite id args true ∉ new.
#[export] Instance guards_preorder : PreOrder guards.
Proof.
  split; [intros s Hs; split; [done|]; exists []; split; [done|intros ??; apply not_elem_of_nil]|].
  intros x y z H1 H2 Hx. destruct (H1 Hx) as [Hy (n1 & E1 & N1)]. destruct (H2 Hy) as [Hz (n2 & E2 & N2)].
  split; [done|]. exists (n2 ++ n1). rewrite E2, E1, app_assoc. split; [done|]. intros id args.
  rewrite elem_of_app. naive_solver.
Qed.

Lemma guards_by s s' new :
  r_sdk s' = new ++ r_sdk s -> (halted (r_halt s) = true -> halted (r_halt s') = true) ->
  (forall id args, EWrite id args true ∈ new -> halted (r_halt s) = false) -> guards s s'.
Proof.
  intros Hs Hh Hn Hx. split; [by apply Hh|]. exists new. split; [done|].
  intros id args Hin. specialize (Hn id args Hin). congruence.
Qed.
Lemma same_guards s s' : same_gateway s s' -> guards s s' /\ (sealed s -> sealed s').
Proof.
  intros [Hh Hs]. split.
  - apply (guards_by _ _ []); [done|congruence|]. intros ?? []%not_elem_of_nil.
  - unfold sealed. by rewrite Hh, Hs.
Qed.
Lemma untouched_guards e s s' : untouched e s s' -> guards s s' /\ (sealed s -> sealed s').
Proof.
  intros (_ & Hh & [Hs|[_ Hs]]); [by apply same_guards|]. split.
  - apply (guards_by _ _ [EUnlock false]); [done|congruence|]. intros ??. set_solver.
  - unfold sealed. by rewrite Hh, Hs.
Qed.

(** The relock guards, and behind a credential it leaves nothing unlocked. *)
Lemma relock_guards jit now lock s r s' :
  _relock_after_write jit now lock s = (r, s') ->
  (halted (r_halt s) = true -> halted (r_halt s') = true)
  /\ (exists new, r_sdk s' = new ++ r_sdk s /\ forall id args b, EWrite id args b ∉ new)
  /\ (jit = true -> sealed s').
Proof.
  intros H. apply relock_cases in H as [_ (o & _ & H)]. unfold sealed.
  assert (Hn : exists new, r_sdk s' = new ++ r_sdk s /\ forall id args b, EWrite id args b ∉ new).
  { destruct jit; [destruct lock as [[x| |x]|]|]; destruct H as [_ H]; [| |destruct H as [_ H]| |subst s'];
      first [exists []; split; [first [done|exact H]|intros ???; apply not_elem_of_nil]|
             by eexists [_]; split; [exact H|intros ???; set_solver]]. }
  split_and!; [|exact Hn|].
  - intros Hs. destruct jit; [destruct lock as [[x| |x]|]|]; destruct H as [H1 H2]; try done;
      [destruct H2 as [-> _]|subst s']; done.
  - intros ->. destruct lock as [[x| |x]|]; destruct H as [H1 H2];
      first [by left|by destruct H2 as [_ ->]].
Qed.

Lemma write_guards e i i' w row wr s r s' :
  _dispatch_write e i i' w wr s = (r, s') -> flying row false s ->
  guards s s' /\ (d_credential e = true -> sealed s -> sealed s').
Proof.
  intros H Hf. apply dispatch_write_stages with (row := row) in H
    as [[Hk U]|(s4 & r5 & s5 & o & Q & Hh & Hs & Hx & _ & E5 & E6 & Hr)]; [| |done].
  { apply untouched_guards in U as [? ?]. by split. }
  apply relock_guards in E6 as (H6 & (new & N6 & W6) & S6). split; [|intros Hc _; by apply S6].
  assert (Hun : forall id args b, EWrite id args b ∉ unlocked e)
    by (intros; unfold unlocked; destruct (d_credential e); set_solver).
  apply write_body_cases with (row := row) in E5 as [[_ [_ [Hh5 Hs5]]]|(_ & Hs5 & _ & Hh5 & _)];
    [| |by eapply flying_quiet].
  - apply (guards_by _ _ (new ++ unlocked e)).
    + by rewrite N6, Hs5, Hs, app_assoc.
    + intros. apply H6. congruence.
    + intros id args [Hin|Hin]%elem_of_app; [by apply W6 in Hin|by apply Hun in Hin].
  - apply (guards_by _ _ (new ++ EWrite (row_id row) (wr_sdk wr) (wr_adds_exposure wr) :: unlocked e)).
    + by rewrite N6, Hs5, Hs, <-app_assoc.
    + intros. apply H6. congruence.
    + intros id args [Hin|[Hin|Hin]%elem_of_cons]%elem_of_app; [by apply W6 in Hin| |by apply Hun in Hin].
      injection Hin as _ _ Hexp. by apply Hx.
Qed.

(** ** The outcome *)

Lemma real_finish_unmarked i row st disp rec err reason obs :
  st ∈ [ACKNOWLEDGED; UNKNOWN_OUTCOME; REFUSED] -> (st = UNKNOWN_OUTCOME -> set_text reason = true) ->
  unmarked (real_finish i row st disp rec err reason obs).
Proof.
  intros Hst Hwhy y r y' H. unfold real_finish in H.
  destruct (on_store _ y) as [[[]|x] y1] eqn:E; apply unmarked_outcome in E as [R1 C1]; try done.
  - eapply (preserves_try silent) in H as [R2 C2];
      [split; [exact (runs_trans _ _ _ _ _ R1 R2)|congruence]|repeat preserves|intros; repeat preserves].
  - apply (preserves_bind silent) in H as [R2 C2]; [|apply unmarked_failure|intros; auto with preserves].
    split; [exact (runs_trans _ _ _ _ _ R1 R2)|congruence].
Qed.

Lemma real_finish_ok i row st disp rec err reason obs y r y' :
  real_finish i row st disp rec err reason obs y = (r, y') -> is_ok r = true.
Proof.
  unfold real_finish. destruct (on_store _ y) as [[[]|x] y1]; [|by intros [= <- <-]].
  unfold se_try. destruct (se_bind _ _ y1) as [[a|x] y2]; by intros [= <- <-].
Qed.

Lemma exec_ok {A} (c : SE paper A) s r s' :
  on_exec c s = (r, s') -> exists y, c (r_exec s) = (r, y).
Proof. unfold on_exec. destruct (c (r_exec s)) as [r1 y]. intros [= <- _]. eauto. Qed.

Lemma settle_same_controls i row c : preserves same_controls (real_settle i row c).
Proof.
  intros s r s' H. unfold real_settle in H. destruct (r_active s) as [a|]; [|by injection H as _ <-].
  repeat case_match; match type of H with ?d s = _ =>
    assert (Hp : preserves same_controls d) by (repeat preserves); exact (Hp _ _ _ H) end.
Qed.

(** Settling writes no marker, and answers exactly when the operation was marked. *)
Lemma settle_cases i row b c s r s' :
  real_settle i row c s = (r, s') -> flying row b s -> (is_ok c = true -> b = true) ->
  steady_halt s s' /\ is_ok r = b.
Proof.
  intros H Hf Hb. destruct (flying_active _ _ _ Hf) as (a & Ha & _ & Hm).
  unfold real_settle in H. rewrite Ha, Hm in H.
  destruct b.
  - assert (F : forall st disp rec err reason,
      st ∈ [ACKNOWLEDGED; UNKNOWN_OUTCOME; REFUSED] -> (st = UNKNOWN_OUTCOME -> set_text reason = true) ->
      on_exec (real_finish i row st disp rec err reason (ac_observed a)) s = (r, s') ->
      steady_halt s s' /\ is_ok r = true).
    { intros * Hst Hwhy E. split; [by eapply exec_steady; [apply real_finish_unmarked|]|].
      apply exec_ok in E as [y E]. by eapply real_finish_ok. }
    destruct c as [receipt|x]; [destruct (converted receipt)|destruct x]; eapply F in H; try done; set_solver.
  - assert (Hc : is_ok c = false) by (destruct (is_ok c); [by specialize (Hb eq_refl)|done]).
    destruct c as [receipt|x]; [done|].
    unfold se_bind in H. destruct (on_exec _ s) as [r1 s1] eqn:E.
    assert (steady_halt s s1 /\ is_ok r1 = true) as [? Hr].
    { split; [eapply exec_steady; [apply real_finish_unmarked|exact E]; [set_solver|done]|].
      apply exec_ok in E as [y E]. by eapply real_finish_ok. }
    destruct r1; [|done]. injection H as <- <-. by split.
Qed.

(** ** The region under the execution lock *)

Lemma real_call_cases e i w method params acc row s r s' :
  real_call e i w method params acc s = (r, s') -> flying row false s ->
  (is_ok r = false /\ quiet s s') \/
  exists wr s0 s1 s2, prepare_write e (i 1%nat) w method params acc s = (Ok wr, s0)
    /\ quiet s s1 /\ r_halt s1 = r_halt s /\ sent_out e w row wr s1 s2 /\ quiet s2 s'
    /\ (wr_adds_exposure wr = true -> halted (r_halt s) = false)
    /\ charged_for e wr s s1 /\ same_controls s2 s'.
Proof.
  intros H Hf. unfold real_call in H.
  apply steady_cases in H as [[? [? _]]|(wr & s1 & E & S1 & H)]; [by left| |apply prepare_write_steady].
  pose proof (prepare_write_keeps_request _ _ _ _ _ _ _ _ _ E) as R1.
  unfold se_bind in H. destruct (_dispatch_write _ _ _ _ _ s1) as [r2 s2] eqn:E2.
  assert (s' = s2 /\ is_ok r = is_ok r2) as [-> Hr] by (destruct r2 as [[]|]; injection H as <- <-; done).
  apply dispatch_write_cases with (row := row) in E2 as [[Hk Q]|(s3 & s4 & S3 & Hh & Hs & Q & Hx & Hch & K)];
    [| |eapply flying_quiet; [apply S1|done]].
  - left. split; [congruence|]. etrans; [apply S1|done].
  - right. destruct S1 as [Q1 [H1 _]]. exists wr, s1, s3, s4. split_and!; try done.
    + by etrans.
    + congruence.
    + by rewrite <-H1.
    + intros Hc. destruct (Hch Hc) as (a & parameters & Hreq & Hp). exists a, parameters.
      by rewrite <-R1.
Qed.

Lemma flying_marked_ok row s1 s2 e w wr : sent_out e w row wr s1 s2 -> flying row true s2.
Proof. by intros (_ & _ & ? & _). Qed.


(** ** The region under the execution lock *)

(** The world in which the method body runs. *)
Definition launched (method : string) (params : dict) (approval : option string) (row : view) (s : world) : world :=
  {| r_exec := {| y_store := y_store (r_exec s); y_late_failure := y_late_failure (r_exec s);
                  y_late_identity := <[row_id row := row]> (y_late_identity (r_exec s));
                  y_calls := y_calls (r_exec s) |};
     r_controls := r_controls s; r_halt := r_halt s; r_sdk := r_sdk s;
     r_active := Some {| ac_row := row; ac_marked := false; ac_evidence := []; ac_observed := [] |};
     r_operation := mutation_context None method params approval |}.

Lemma launched_flying method params approval row s : flying row false (launched method params approval row s).
Proof. done. Qed.

(** A write [wr] of [row] that left this process: prepared from the admitted
    parameters, marked and sent with its exposure checked against the halt. *)
Definition departed (e : deployment) (w : write_answers) (method : string) (params : dict)
    (approval : option string) (k : op_kind) (acc : Z) (row : view) (wr : write) (s s0 s1 s2 : world) : Prop :=
  (exists i s0', prepare_write e i w method (fixed_params params k acc row) acc s0 = (Ok wr, s0'))
  /\ quiet s0 s1 /\ sent_out e w row wr s1 s2 /\ r_halt s1 = r_halt s
  /\ (wr_adds_exposure wr = true -> halted (r_halt s) = false)
  /\ charged_for e wr (launched method params approval row s) s1.

(** The region: the checked call in the launched world, its outcome, and the
    clean-up of the thread. *)
Lemma dispatch_stages e i w method params approval k acc row s r s' :
  real_dispatch e i w method params approval (k, acc, row) s = (r, s') ->
  exists r1 s1 s2,
    (_ <- not_sent_se true false (on_exec (ready (i 0%nat))) ;;
     real_call e i w method (fixed_params params k acc row) acc)%se (launched method params approval row s) = (r1, s1)
    /\ real_settle (fun n => i (4 + n)%nat) row r1 s1 = (r, s2)
    /\ r_exec s' = r_exec s2 /\ same_gateway s2 s' /\ same_controls s2 s'.
Proof.
  unfold real_dispatch, se_bind at 1, set_operation, se_bind at 1, on_exec at 1, set_identity,
    se_bind at 1, set_active. simpl. intros H.
  match type of H with context [se_bind (not_sent_se _ _ ?c) ?f ?t] =>
    change t with (launched method params approval row s) in H end.
  destruct (se_bind _ _ (launched method params approval row s)) as [r1 s1].
  destruct (real_settle _ row r1 s1) as [r2 s2] eqn:E2. exists r1, s1, s2. split; [done|].
  unfold se_bind, set_active, set_operation, se_lift in H. by injection H as <- <-.
Qed.

(** One pass under the execution lock: nothing was sent and the caller sees an
    error, or one marker with one write of this row, and the caller an answer. *)
Lemma real_dispatch_cases e i w method params approval k acc row s r s' :
  real_dispatch e i w method params approval (k, acc, row) s = (r, s') ->
  (is_ok r = false /\ runs (y_store (r_exec s)) [] (y_store (r_exec s')) /\ writes s' = writes s) \/
  (exists wr s0 s1 s2, is_ok r = true /\ steady_halt (launched method params approval row s) s0
    /\ departed e w method params approval k acc row wr s s0 s1 s2
    /\ runs (y_store (r_exec s2)) [] (y_store (r_exec s')) /\ writes s' = writes s2 /\ same_controls s2 s').
Proof.
  intros H. apply dispatch_stages in H as (r1 & s1 & s2 & E1 & E2 & -> & [_ G] & K).
  assert (writes s' = writes s2) as -> by (unfold writes; by rewrite G).
  change (y_store (r_exec s)) with (y_store (r_exec (launched method params approval row s))).
  change (writes s) with (writes (launched method params approval row s)).
  set (t := launched method params approval row s) in *.
  assert (Hf : flying row false t) by done.
  apply steady_cases in E1 as [[Hk [Q _]]|([] & s0 & Hready & S0 & E1)];
    [| |apply preserves_not_sent; auto with preserves].
  { left. eapply settle_cases in E2 as [[Q2 _] Hr]; [|by eapply flying_quiet|by rewrite Hk].
    split; [done|]. assert (Q3 : quiet t s2) by by etrans. destruct Q3 as ([? _] & ? & _). done. }
  apply real_call_cases with (row := row) in E1
    as [[Hk Q]|(wr & s0' & s3 & s4 & Hp & S3 & Hh & Hs & Q & Hx & Hch & K1)]; [| |eapply flying_quiet; [apply S0|done]].
  - left. assert (Q1 : quiet t s1) by (etrans; [apply S0|done]).
    eapply settle_cases in E2 as [[Q2 _] Hr]; [|by eapply flying_quiet|by rewrite Hk].
    split; [done|]. assert (Q3 : quiet t s2) by by etrans. destruct Q3 as ([? _] & ? & _). done.
  - right. pose proof (flying_marked_ok _ _ _ _ _ _ Hs) as Hm.
    pose proof (settle_same_controls _ _ _ _ _ _ E2) as K2.
    eapply settle_cases in E2 as [[Q2 _] Hr]; [|by eapply flying_quiet|done].
    destruct S0 as [Q0 [H0 G0]]. exists wr, s0, s3, s4. split_and!.
    + done.
    + by split.
    + split_and!; [eauto|done|done|rewrite Hh; exact H0|intros Ha; change (r_halt s) with (r_halt t); rewrite <-H0; by apply Hx|].
      intros Hc. destruct (Hch Hc) as (a & parameters & Hreq & Hrest). exists a, parameters. split; [|exact Hrest].
      rewrite <-Hreq. symmetry. revert Hready. apply (preserves_not_sent keeps_request). apply exec_keeps_request.
    + destruct Q as [[R _] _], Q2 as [[R2 _] _]. exact (runs_trans _ _ _ _ _ R R2).
    + destruct Q as (_ & R & _), Q2 as (_ & R2 & _). congruence.
    + by etrans; [exact K1|etrans; [exact K2|exact K]].
Qed.

(** The halt and the lock over the whole region. *)
Lemma dispatch_guards e i w method params approval t s r s' :
  real_dispatch e i w method params approval t s = (r, s') ->
  guards s s' /\ (d_credential e = true -> sealed s -> sealed s').
Proof.
  destruct t as [[k acc] row]. intros H. apply dispatch_stages in H as (r1 & s1 & s2 & E1 & E2 & _ & G2 & _).
  assert (Hst : same_gateway s (launched method params approval row s)) by done.
  set (t := launched method params approval row s) in *.
  assert (Hf : flying row false t) by done.
  assert (G1 : guards t s1 /\ (d_credential e = true -> sealed t -> sealed s1)
               /\ exists b, flying row b s1 /\ (is_ok r1 = true -> b = true)).
  { apply steady_cases in E1 as [[Hk [Q G]]|([] & s0 & _ & [Q0 G0] & E1)];
      [| |apply preserves_not_sent; auto with preserves].
    { apply same_guards in G as [? ?]. split_and!; [done..|]. exists false. rewrite Hk. split; [by eapply flying_quiet|done]. }
    assert (Hf0 : flying row false s0) by by eapply flying_quiet. apply same_guards in G0 as [G0 S0].
    pose proof (real_call_cases _ _ _ _ _ _ _ _ _ _ E1 Hf0) as Hc.
    assert (Hfl : exists b, flying row b s1 /\ (is_ok r1 = true -> b = true)).
    { destruct Hc as [[Hk Q]|(wr & s0' & s3 & s4 & _ & _ & _ & Hs & Q & _)].
      - exists false. rewrite Hk. split; [by eapply flying_quiet|done].
      - exists true. split; [eapply flying_quiet; [exact Q|by eapply flying_marked_ok]|done]. }
    clear Hc. unfold real_call in E1.
    apply steady_cases in E1 as [[_ [_ G]]|(wr & s3 & _ & [Q3 G3] & E1)]; [| |apply prepare_write_steady].
    { apply same_guards in G as [? ?]. split_and!; [by etrans|eauto|done]. }
    apply same_guards in G3 as [G3 S3]. unfold se_bind in E1.
    destruct (_dispatch_write _ _ _ _ _ s3) as [r4 s4] eqn:E4.
    assert (s1 = s4) as -> by (destruct r4 as [[]|]; by injection E1 as _ <-).
    apply write_guards with (row := row) in E4 as [G4 S4]; [|by eapply flying_quiet].
    split_and!; [by etrans; [|etrans]|eauto|done]. }
  destruct G1 as (G1 & S1 & b & Hb & Hrb).
  apply settle_cases with (b := b) in E2 as [[_ G3] _]; [|done|done].
  apply same_guards in Hst as [Gt St]. apply same_guards in G2 as [G2 S2]. apply same_guards in G3 as [G3 S3].
  split; [by etrans; [|etrans; [|etrans]]|eauto].
Qed.
End phases.
