(* ===== verification/RealScope.v ===== *)
(** What a REAL write may contain: an account of the allowlist and of the
    caller, the order that was assessed against the policy, and in the SDK's
    arguments what the journal's marker says. *)

From S2P Require Import Prelude PyStr PyFloat PyDec PyVal OrderErrors Serialization Identity.
From S2P Require Import Validation Policy Rules ClientAuth Controls Prep Store Paper PaperLimits.
From S2P Require Import RealRequest Real.

#[local] Open Scope list_scope.

(** ** The account *)

Lemma real_writer_mode p : check_write p "REAL" = Ok tt -> mode p = Policy.REAL.
Proof. unfold check_write. destruct (mode p); done. Qed.

(** The account a REAL write may name. *)
Definition real_account (e : deployment) (n : Z) : Prop :=
  n ∈ real_acc_ids (d_policy e)
  /\ check_account_access (d_grants e) (VStr "REAL") (VInt n) true = Ok tt.

Lemma resolved_account e accounts market acc n :
  mode (d_policy e) = Policy.REAL ->
  _resolve_account (d_policy e) (d_grants e) accounts "REAL" market true acc = Ok n ->
  real_account e n /\ (acc <> 0 -> n = acc).
Proof.
  intros Hm. unfold _resolve_account, _eligible_accounts.
  replace (_allowlist_applies (d_policy e) "REAL") with true
    by (unfold _allowlist_applies; by rewrite Hm).
  destruct (acc =? 0) eqn:Ea; simpl; intros H.
  - apply bind_ok in H as (rows & H & Hsel). apply bind_ok in H as (rows0 & _ & H).
    apply bind_ok in H as (rows1 & Hf & Hg).
    destruct rows as [|a [|? ?]]; try done.
    apply bind_ok in Hsel as (sel & Hn & Hsel). apply bind_ok in Hsel as ([] & Hacc & [= <-]).
    assert (Hin : a ∈ rows1).
    { destruct (d_grants e) as [c|]; [destruct (accounts_in c "REAL")|]; try (injection Hg as ->; by left).
      eapply filterM_elem in Hg as [? _]; [done|by left]. }
    apply (filterM_elem _ _ _ _ Hf) in Hin as [_ Hin].
    apply bind_ok in Hin as (n & Hn' & Hin). injection Hin as Hin. apply bool_decide_eq_true in Hin.
    assert (n = sel) as ->; [|split; [by split|intros ?; lia]].
    unfold account_number, ditem in Hn. unfold dget_or in Hn'.
    destruct (dget "acc_id" a); simpl in *; [congruence|done].
  - apply bind_ok in H as ([] & Hl & H). apply bind_ok in H as ([] & Hacc & [= <-]).
    unfold _check_real_allowlist in Hl. apply bind_ok in Hl as ([] & _ & Hl).
    apply refuse_if_ok in Hl. apply bool_decide_eq_false in Hl. split; [split; [|done]|done].
    by apply dec_stable.
Qed.

(** ** The arguments *)

Section scope.
Context `{SN : SessionNames}.

(** The SDK is given exactly what the marker records: each names what the other
    does, except the session [NONE], which is not recorded, and the legs of a
    combination, which reach the SDK as the objects built from the recorded ones. *)
Record agrees (journal sdk : dict) : Prop := {
  ag_given : forall k v, dget k journal = Some v -> k <> "combo_legs" -> dget k sdk = Some v;
  ag_recorded : forall k v, dget k sdk = Some v -> k <> "combo_leg_list" ->
    dget k journal = Some v \/ k = "session" /\ v = VStr s_none;
  ag_legs : forall v, dget "combo_leg_list" sdk = Some v -> exists legs combo,
    dget "combo_legs" journal = Some legs /\ _build_combo_legs legs = Ok combo /\ v = VList (map leg_view combo) }.

Lemma place_agrees params acc session :
  agrees (wr_journal (place_write params acc session)) (wr_sdk (place_write params acc session)).
Proof.
  split.
  - intros k v. simpl. case_bool_decide; simpl; repeat (case_bool_decide; [done|]); done.
  - intros k v. unfold wr_journal, wr_sdk, place_write.
    destruct (base.decide (session = s_none)) as [->|Es];
      [rewrite (bool_decide_true (s_none = s_none)) by done|rewrite (bool_decide_false (session = s_none)) by done]; simpl;
      repeat (case_bool_decide; [intros [= <-] _; first [by left|right; by split]|]); by intros [=].
  - intros v H. exfalso. revert H. by vm_compute.
Qed.

Lemma combo_agrees params acc combo :
  _build_combo_legs (dget_none "combo_legs" params) = Ok combo ->
  agrees (wr_journal (combo_write params acc combo)) (wr_sdk (combo_write params acc combo)).
Proof.
  intros Hb. split.
  - intros k v Hv Hk. assert (Hl : k <> "combo_leg_list") by (intros ->; by vm_compute in Hv).
    simpl in *. rewrite bool_decide_eq_false_2 in Hv by exact Hk. by rewrite bool_decide_eq_false_2 by exact Hl.
  - intros k v Hv Hk. assert (Hl : k <> "combo_legs") by (intros ->; by vm_compute in Hv). left.
    simpl in *. rewrite bool_decide_eq_false_2 in Hv by exact Hk. by rewrite bool_decide_eq_false_2 by exact Hl.
  - intros v [= <-]. exists (dget_none "combo_legs" params), combo. by split_and!.
Qed.

Lemma modify_agrees op order_id qty price adjust acc :
  agrees (wr_journal (modify_write op order_id qty price adjust acc)) (wr_sdk (modify_write op order_id qty price adjust acc)).
Proof. split; [done|by left|intros v H; exfalso; revert H; by vm_compute]. Qed.

(** ** What was assessed *)

(** The facts [assess_order] saw are those of the order that is sent. *)
Inductive facts_of (e : deployment) (w : write_answers) (sdk : dict) : string -> OrderFacts -> Prop :=
  | facts_place facts session :
      dget "session" sdk = Some (VStr session) ->
      _single_leg_facts (wa_lookup w) (dget_none "code" sdk) (dget_none "order_type" sdk)
        (py_str (dget_none "trd_side" sdk)) (dget_none "qty" sdk) (dget_none "price" sdk)
        (dget_none "aux_price" sdk) (VStr session) = Ok facts ->
      facts_of e w sdk "place_order" facts
  | facts_combo facts combo q :
      dget "combo_leg_list" sdk = Some (VList (map leg_view combo)) ->
      dget "qty" sdk = Some (VInt q) ->
      _combo_facts (d_policy e) (wa_lookup w) combo (dget_none "price" sdk) q
        (py_str (dget_none "order_type" sdk)) = Ok facts ->
      facts_of e w sdk "place_combo_order" facts
  | facts_modify facts order q price kind side aux :
      _fetch_order (wa_order w) (py_str (dget_none "order_id" sdk)) = Ok order ->
      whole_quantity (Plain (dget_none "qty" sdk)) = Ok q ->
      opt_number (dget_none "price" sdk) = Ok price ->
      _single_leg_facts (wa_lookup w) (VStr (py_str (dget_none "code" order))) kind side (VInt q)
        (match price with Some f => VFloat f | None => VNone end) aux (VStr s_none) = Ok facts ->
      facts_of e w sdk "modify_order" facts.

Lemma assess_ok e facts s r s' :
  _assess_order e facts s = (Ok r, s') -> assess_order (d_policy e) facts = Ok tt.
Proof.
  unfold _assess_order, assess_control_facts. intros H. apply se_bind_ok in H as (t & s1 & _ & H).
  apply se_bind_ok in H as (op & s2 & H & _). injection H as H _. by apply bind_ok in H as ([] & ? & _).
Qed.

(** A prepared write: for an account of the deployment and of the caller, with
    the SDK's arguments those of the marker, and assessed when it can add
    exposure. *)
Definition prepared_write (e : deployment) (w : write_answers) (wr : write) : Prop :=
  agrees (wr_journal wr) (wr_sdk wr)
  /\ dget "acc_id" (wr_journal wr) = Some (VInt (wr_account wr))
  /\ dget "trd_env" (wr_sdk wr) = Some (VStr "REAL")
  /\ mode (d_policy e) = Policy.REAL /\ real_account e (wr_account wr)
  /\ (wr_adds_exposure wr = true -> exists facts,
        assess_order (d_policy e) facts = Ok tt /\ facts_of e w (wr_sdk wr) (wr_operation wr) facts).

Lemma lifted {A} (r : result A) (s : world) a s' : se_lift r s = (Ok a, s') -> r = Ok a /\ s' = s.
Proof. by intros [= -> ->]. Qed.

Lemma resolve_ok e w market acc s n s' :
  resolve e w market acc s = (Ok n, s') -> mode (d_policy e) = Policy.REAL -> real_account e n.
Proof. intros H Hm. apply lifted in H as [H _]. by apply resolved_account in H as [? _]. Qed.

Lemma place_prepared e w params acc s wr s' :
  prepare_place e w params acc s = (Ok wr, s') -> prepared_write e w wr.
Proof.
  unfold prepare_place. intros H. apply se_bind_ok in H as ([] & s1 & Hc & H).
  apply lifted in Hc as [Hc _]. apply real_writer_mode in Hc.
  do 2 (apply se_bind_ok in H as ([] & ? & _ & H)).
  apply se_bind_ok in H as (session & s2 & _ & H). apply se_bind_ok in H as (tif & s3 & _ & H).
  do 2 (apply se_bind_ok in H as ([] & ? & _ & H)). apply se_bind_ok in H as (market & s4 & _ & H).
  apply se_bind_ok in H as (n & s5 & Hn & H). apply resolve_ok in Hn; [|done].
  apply se_bind_ok in H as (facts & s6 & Hf & H). apply lifted in Hf as [Hf _].
  apply se_bind_ok in H as ([] & s7 & Ha & H). apply assess_ok in Ha. injection H as <- _.
  split_and!; try done; [apply place_agrees|]. intros _. exists facts. split; [done|].
  apply (facts_place _ _ _ _ session); [done|]. unfold dget_none in *. simpl.
  unfold dget_none. by rewrite !dget_dset_ne.
Qed.

Lemma combo_prepared e w params acc s wr s' :
  prepare_combo e w params acc s = (Ok wr, s') -> prepared_write e w wr.
Proof.
  unfold prepare_combo. intros H. apply se_bind_ok in H as ([] & s1 & Hc & H).
  apply lifted in Hc as [Hc _]. apply real_writer_mode in Hc.
  apply se_bind_ok in H as (? & ? & _ & H).
  do 4 (apply se_bind_ok in H as ([] & ? & _ & H)).
  apply se_bind_ok in H as (combo & s3 & Hb & H). apply lifted in Hb as [Hb _].
  apply se_bind_ok in H as ([] & ? & _ & H).
  apply se_bind_ok in H as (n & s5 & Hn & H). apply resolve_ok in Hn; [|done].
  apply se_bind_ok in H as (q & s6 & Hq & H). apply lifted in Hq as [Hq _].
  apply se_bind_ok in H as (facts & s7 & Hf & H). apply lifted in Hf as [Hf _].
  apply se_bind_ok in H as ([] & s8 & Ha & H). apply assess_ok in Ha. injection H as <- _.
  split_and!; try done; [by apply combo_agrees|]. intros _. exists facts. split; [done|].
  apply (facts_combo _ _ _ _ combo q); [done| |done].
  change (Some (dget_none "qty" params) = Some (VInt q)).
  by destruct (dget_none "qty" params); simplify_eq.
Qed.

Lemma modify_prepared_as e w op order_id qty price adjust acc :
  mode (d_policy e) = Policy.REAL -> real_account e acc ->
  (mem op EXPOSING_MODIFY_OPS = true -> exists facts order q p kind side aux,
     assess_order (d_policy e) facts = Ok tt
     /\ _fetch_order (wa_order w) (py_str order_id) = Ok order
     /\ whole_quantity (Plain qty) = Ok q /\ opt_number price = Ok p
     /\ _single_leg_facts (wa_lookup w) (VStr (py_str (dget_none "code" order))) kind side (VInt q)
          (match p with Some f => VFloat f | None => VNone end) aux (VStr s_none) = Ok facts) ->
  prepared_write e w (modify_write op order_id qty price adjust acc).
Proof.
  intros Hm Ha Hf. split_and!; [apply modify_agrees|done..|]. intros Hx.
  destruct (Hf Hx) as (facts & order & q & p & kind & side & aux & Hs & Ho & Hq & Hp & Hl).
  exists facts. split; [done|]. by eapply (facts_modify _ _ _ _ order q p kind side aux).
Qed.

Lemma exposing_assessed e i w params s qty price s' :
  prepare_exposing e i w params s = (Ok (qty, price), s') -> exists facts order q p kind side aux,
     assess_order (d_policy e) facts = Ok tt
     /\ _fetch_order (wa_order w) (py_str (dget_none "order_id" params)) = Ok order
     /\ whole_quantity (Plain qty) = Ok q /\ opt_number price = Ok p
     /\ _single_leg_facts (wa_lookup w) (VStr (py_str (dget_none "code" order))) kind side (VInt q)
          (match p with Some f => VFloat f | None => VNone end) aux (VStr s_none) = Ok facts.
Proof.
  unfold prepare_exposing. intros H. apply se_bind_ok in H as (wanted & s1 & Hw & H).
  apply lifted in Hw as [Hw _]. apply se_bind_ok in H as (order & s2 & Ho & H). apply lifted in Ho as [Ho _].
  apply se_bind_ok in H as ([] & s3 & _ & H). apply se_bind_ok in H as (q & s4 & Hq & H).
  apply lifted in Hq as [Hq _]. do 2 (apply se_bind_ok in H as (? & ? & _ & H)).
  apply se_bind_ok in H as (p & s5 & Hp & H). apply lifted in Hp as [Hp _].
  apply se_bind_ok in H as (facts & s6 & Hf & H). apply lifted in Hf as [Hf _].
  apply se_bind_ok in H as ([] & s7 & Ha & H). apply assess_ok in Ha. injection H as <- <- _.
  assert (wanted = dget_none "order_id" params) as ->.
  { unfold ditem in Hw. unfold dget_none. by destruct (dget "order_id" params); simplify_eq. }
  eauto 20.
Qed.

Lemma modify_prepared e i w params acc s wr s' :
  prepare_modify e i w params acc s = (Ok wr, s') -> prepared_write e w wr.
Proof.
  unfold prepare_modify. intros H. apply se_bind_ok in H as ([] & s1 & Hc & H).
  apply lifted in Hc as [Hc _]. apply real_writer_mode in Hc.
  do 2 (apply se_bind_ok in H as ([] & ? & _ & H)).
  apply se_bind_ok in H as (n & s5 & Hn & H). apply resolve_ok in Hn; [|done].
  apply se_bind_ok in H as ([qty price] & s6 & Hq & H). injection H as <- _.
  apply modify_prepared_as; [done|done|]. intros Hx. rewrite Hx in Hq. by eapply exposing_assessed.
Qed.

Lemma cancel_prepared e w params acc s wr s' :
  prepare_cancel e w params acc s = (Ok wr, s') -> prepared_write e w wr.
Proof.
  unfold prepare_cancel. intros H. apply se_bind_ok in H as ([] & s1 & Hc & H).
  apply lifted in Hc as [Hc _]. apply real_writer_mode in Hc.
  apply se_bind_ok in H as ([] & ? & _ & H).
  apply se_bind_ok in H as (n & s5 & Hn & H). apply resolve_ok in Hn; [|done]. injection H as <- _.
  by apply modify_prepared_as.
Qed.

Lemma write_prepared e i w method params acc s wr s' :
  prepare_write e i w method params acc s = (Ok wr, s') -> prepared_write e w wr.
Proof.
  unfold prepare_write, not_sent_se. intros H.
  match type of H with (let '(_, _) := ?c in _) = _ => destruct c as [r s1] eqn:E end.
  injection H as H <-. apply not_sent_ok in H as ->. revert E. repeat case_bool_decide; intros E.
  - by eapply place_prepared.
  - by eapply combo_prepared.
  - by eapply modify_prepared.
  - by eapply cancel_prepared.
Qed.
End scope.
