(* ===== verification/RealSys.v ===== *)
(** The REAL process as a system: threads inside [execute], the operator's lock
    and unlock requests, the reconnects, changes of the control database,
    recovery's journal calls, exits and restarts; simulated by the journal
    machine. *)

From S2P Require Import Prelude PyStr PyFloat PyDec PyVal OrderErrors Serialization Identity.
From S2P Require Import Validation Policy Rules ClientAuth Controls Prep.
From S2P Require Import Store StoreOpen StoreInv Journal Paper PaperOnce RealRequest Real RealOnce RealScope.

#[local] Open Scope list_scope.

Section system.
Context `{SN : SessionNames}.

(** A thread inside [execute], between two phases; it carries its deployment's
    caller. *)
Inductive real_thread : Type :=
  | RealAtAdmission (e : deployment) (method : string) (params : dict) (approval : option string)
  | RealAtDispatch (e : deployment) (method : string) (params : dict) (approval : option string)
      (t : real_admitted).

Definition real_proc : Type := world * list real_thread.

(** Any change of the control database by its own users. *)
Definition other_controls (k : option controls) (s : world) : world :=
  {| r_exec := r_exec s; r_controls := k; r_halt := r_halt s; r_sdk := r_sdk s;
     r_active := r_active s; r_operation := r_operation s |}.

(** One step of the running process; [lifts] marks an acknowledged [lock_trade],
    [jit] that every caller's deployment holds the unlock credential. *)
Inductive real_live (jit : bool) : bool -> real_proc -> real_proc -> Prop :=
  | rl_front e i method params approval s r s' ts :
      d_credential e = jit -> real_front e i method params s = (r, s') ->
      real_live jit false (s, ts)
        (s', match r with Ok (Next _) => RealAtAdmission e method params approval :: ts | _ => ts end)
  | rl_admission e i w method params approval s r s' ts1 ts2 :
      d_credential e = jit -> real_admission e i w method params s = (r, s') ->
      real_live jit false (s, ts1 ++ RealAtAdmission e method params approval :: ts2)
        (s', match r with Ok (Next t) => RealAtDispatch e method params approval t :: ts1 ++ ts2
                        | _ => ts1 ++ ts2 end)
  | rl_dispatch e i w method params approval t s r s' ts1 ts2 :
      d_credential e = jit -> real_dispatch e i w method params approval t s = (r, s') ->
      real_live jit false (s, ts1 ++ RealAtDispatch e method params approval t :: ts2) (s', ts1 ++ ts2)
  | rl_journal c r s s' ts :
      well_used c -> no_mark c -> on_journal (run_call c) s = (r, s') ->
      real_live jit false (s, ts) (s', ts)
  | rl_controls k s ts : real_live jit false (s, ts) (other_controls k s, ts)
  | rl_lock connected a s r s' ts :
      lock_trade connected a s = (r, s') -> real_live jit (is_ok r) (s, ts) (s', ts)
  | rl_enforce e free a s r s' ts :
      d_credential e = jit -> _enforce_gateway_lock e free a s = (r, s') ->
      real_live jit false (s, ts) (s', ts)
  | rl_reconnect e replay returned free a s r s' ts :
      d_credential e = jit -> on_api_socket_reconnected e replay returned free a s = (r, s') ->
      real_live jit false (s, ts) (s', ts)
  | rl_unlock e has_password connected a s r s' ts :
      d_credential e = jit -> unlock_trade e has_password connected a s = (r, s') ->
      real_live jit false (s, ts) (s', ts).

(** The journal file, the running process, and the writes of earlier ones. *)
Record real_system : Type := {
  rs_file : option db; rs_proc : option real_proc; rs_sent : list (string * dict) }.

Definition fresh_world (s : store) (k : option controls) : world :=
  {| r_exec := fresh_paper s; r_controls := k;
     r_halt := {| halted_since := None; last_lock_error := None |}; r_sdk := [];
     r_active := None; r_operation := None |}.

Inductive real_step (jit : bool) : real_system -> real_system -> Prop :=
  | rs_live b file p p' sent :
      real_live jit b p p' ->
      real_step jit {| rs_file := file; rs_proc := Some p; rs_sent := sent |}
                    {| rs_file := file; rs_proc := Some p'; rs_sent := sent |}
  | rs_start i epoch wait create k file s file' sent :
      open_store i "REAL" epoch wait create file = (Ok s, file') ->
      real_step jit {| rs_file := file; rs_proc := None; rs_sent := sent |}
                    {| rs_file := file'; rs_proc := Some (fresh_world s k, []); rs_sent := sent |}
  | rs_start_fails i epoch wait create file x file' sent :
      open_store i "REAL" epoch wait create file = (Err x, file') ->
      real_step jit {| rs_file := file; rs_proc := None; rs_sent := sent |}
                    {| rs_file := file'; rs_proc := None; rs_sent := sent |}
  | rs_exit file s ts sent :
      (* a clean stop, a crash or a kill *)
      real_step jit {| rs_file := file; rs_proc := Some (s, ts); rs_sent := sent |}
                    {| rs_file := Some (s_db (y_store (r_exec s))); rs_proc := None;
                       rs_sent := writes s ++ sent |}.

Definition real_init (file : option db) : real_system :=
  {| rs_file := file; rs_proc := None; rs_sent := [] |}.
Definition all_writes (x : real_system) : list (string * dict) :=
  match rs_proc x with Some (s, _) => writes s ++ rs_sent x | None => rs_sent x end.
Definition real_journal (x : real_system) : option db :=
  match rs_proc x with Some (s, _) => Some (s_db (y_store (r_exec s))) | None => rs_file x end.

(** ** Steps without a write *)

Lemma lock_trade_quiet connected a : preserves quiet (lock_trade connected a).
Proof.
  intros s r s'. unfold lock_trade. destruct connected; cbn [negb]; [|by intros [= _ <-]].
  destruct (_lock_gateway a s) as [[[]|x] s1] eqn:E; apply lock_quiet in E.
  - destruct (record_lock_result None (r_halt s1)) as [b h]. unfold se_bind, set_halt, se_ret. intros [= _ <-].
    etrans; [exact E|exact (halt_quiet _ _ _ _ eq_refl)].
  - unfold se_bind, set_halt, se_raise. intros [= _ <-].
    etrans; [exact E|exact (halt_quiet _ _ _ _ eq_refl)].
Qed.
Lemma enforce_quiet e free a : preserves quiet (_enforce_gateway_lock e free a).
Proof.
  intros s r s'. unfold _enforce_gateway_lock. destruct (_ || _); [by intros [= _ <-]|].
  destruct (_lock_gateway a s) as [r1 s1] eqn:E. apply lock_quiet in E. by intros [= _ <-].
Qed.
Hint Resolve unlock_quiet enforce_quiet : preserves.
Lemma reconnect_quiet e replay returned free a : preserves quiet (on_api_socket_reconnected e replay returned free a).
Proof. unfold on_api_socket_reconnected. destruct replay; repeat preserves. Qed.
Lemma unlock_trade_quiet e p c a : preserves quiet (unlock_trade e p c a).
Proof. unfold unlock_trade. repeat preserves. Qed.

(** ** Simulation by the journal machine *)

(** Every write with its marker: the same operation, the arguments agreeing. *)
Definition of_marker (write marker : string * dict) : Prop :=
  write.1 = marker.1 /\ agrees marker.2 write.2.

Definition real_simulated (file : option db) (x : real_system) : Prop :=
  exists m calls, reachable "REAL" file m /\ m_file m = real_journal x
    /\ m_proc m = option_map (fun p => y_store (r_exec (fst p))) (rs_proc x)
    /\ Forall2 of_marker (all_writes x) calls /\ calls `sublist_of` m_dispatched m.

(** What one step wrote and marked. *)
Definition wrote (s s' : world) : Prop :=
  exists marks new calls, runs (y_store (r_exec s)) marks (y_store (r_exec s'))
    /\ writes s' = new ++ writes s /\ Forall2 of_marker new calls /\ calls `sublist_of` marks.

Lemma quiet_wrote s s' : quiet s s' -> wrote s s'.
Proof.
  intros ([R _] & W & _). exists [], [], []. split_and!; [done|by rewrite W|constructor|done].
Qed.

Lemma dispatch_wrote e i w method params approval t s r s' :
  real_dispatch e i w method params approval t s = (r, s') -> wrote s s'.
Proof.
  destruct t as [[k acc] row]. intros H.
  apply real_dispatch_cases in H as [(_ & R & W)|(wr & s0 & s1 & s2 & _ & [Q0 _] & D & R & W & _)].
  { exists [], [], []. split_and!; [done|by rewrite W|constructor|done]. }
  destruct D as ((j & s0' & Hp) & Q1 & (R2 & S2 & _) & _).
  apply write_prepared in Hp as (Ha & _).
  assert (Q : quiet (launched method params approval row s) s1) by by etrans.
  destruct Q as ([R1 _] & W1 & _).
  exists [(row_id row, wr_journal wr)], [(row_id row, wr_sdk wr)], [(row_id row, wr_journal wr)].
  split_and!; [| |constructor; [by split|constructor]|done].
  - pose proof (runs_trans _ _ _ _ _ (runs_trans _ _ _ _ _ R1 R2) R) as R3. exact R3.
  - rewrite W. unfold writes in *. rewrite S2. simpl. f_equal. exact W1.
Qed.

Lemma live_wrote jit b p p' : real_live jit b p p' -> wrote p.1 p'.1.
Proof.
  destruct 1 as [e i method params approval s r s' ts _ H|e i w method params approval s r s' ts1 ts2 _ H
    |e i w method params approval t s r s' ts1 ts2 _ H|c r s s' ts Hw Hn H|k s ts|connected a s r s' ts H
    |e free a s r s' ts _ H|e rp rt free a s r s' ts _ H|e pw connected a s r s' ts _ H]; simpl.
  - apply quiet_wrote. by apply front_steady in H as [? _].
  - apply quiet_wrote. by apply admission_steady in H as [? _].
  - by eapply dispatch_wrote.
  - apply quiet_wrote. apply exec_steady in H as [? _]; [done|]. apply (unmarked_store _ c); eauto.
  - apply quiet_wrote. by split_and!.
  - apply quiet_wrote. by eapply lock_trade_quiet.
  - apply quiet_wrote. by eapply enforce_quiet.
  - apply quiet_wrote. by eapply reconnect_quiet.
  - apply quiet_wrote. by eapply unlock_trade_quiet.
Qed.

Lemma real_simulation jit file x x' :
  file_ok file -> real_simulated file x -> real_step jit x x' -> real_simulated file x'.
Proof.
  intros Hf (m & calls & Hm & Hfile & Hproc & Hall & Hsub). destruct 1 as [b f p p' sent H
    |i epoch wait create k f s f' sent H|i epoch wait create f x f' sent H|f s ts sent];
    unfold real_simulated, real_journal, all_writes in *; simpl in *.
  - destruct p as [s ts], p' as [s' ts'].
    apply live_wrote in H as (marks & new & calls' & R & W & F & S); simpl in *.
    eexists _, (calls' ++ calls). split; [exact (runs_reachable _ _ _ _ _ _ Hf Hm Hproc R)|]. simpl.
    split_and!; [done|done| |by apply sublist_app].
    rewrite W, <-app_assoc. by apply Forall2_app.
  - exists {| m_file := f'; m_proc := Some s; m_dispatched := m_dispatched m |}, calls. split_and!; simpl.
    + eapply star_snoc; [exact Hm|]. destruct m; simpl in *; subst. by eapply step_start.
    + apply open_store_cases in H as [[? _]|(d & s0 & _ & [= <-] & -> & _)]; done.
    + done.
    + done.
    + done.
  - exists {| m_file := f'; m_proc := None; m_dispatched := m_dispatched m |}, calls. split_and!; try done.
    eapply star_snoc; [exact Hm|]. destruct m; simpl in *; subst. by eapply step_start_fails.
  - exists {| m_file := Some (s_db (y_store (r_exec s))); m_proc := None; m_dispatched := m_dispatched m |}, calls.
    split_and!; try done.
    eapply star_snoc; [exact Hm|]. destruct m; simpl in *; subst. by constructor.
Qed.

Lemma real_reachable_simulated jit file x :
  file_ok file -> star (real_step jit) (real_init file) x -> real_simulated file x.
Proof.
  intros Hf. apply star_invariant.
  - intros a b Ha Hab. by eapply real_simulation.
  - exists (init file), []. split_and!; [apply star_refl|done|done|constructor|done].
Qed.

(** ** The halt and the lock *)

Lemma lock_trade_guards connected a s r s' :
  lock_trade connected a s = (r, s') ->
  (is_ok r = false -> guards s s') /\ (sealed s -> sealed s').
Proof.
  unfold lock_trade. destruct connected; simpl.
  2: { intros [= <- <-]. by split; [|intros ?]. }
  unfold _lock_gateway, se_bind, log_sdk, se_lift, set_halt, se_raise, se_ret. simpl.
  assert (Hg : forall h, (halted (r_halt s) = true -> halted h = true) ->
    guards s {| r_exec := r_exec s; r_controls := r_controls s; r_halt := h; r_sdk := ELock false :: r_sdk s;
                r_active := r_active s; r_operation := r_operation s |}).
  { intros h Hh. apply (guards_by _ _ [ELock false]); [done|exact Hh|]. intros ??. set_solver. }
  destruct a as [x| |[]]; simpl; intros [= <- <-]; (split; [try done; intros _; by apply Hg|done]).
Qed.

Lemma enforce_guards e free a s r s' :
  _enforce_gateway_lock e free a s = (r, s') -> guards s s' /\ (sealed s -> sealed s').
Proof.
  unfold _enforce_gateway_lock. destruct (_ || _); [intros [= _ <-]; by split|].
  unfold _lock_gateway, se_bind, log_sdk, se_lift. intros [= _ <-]. split.
  - eapply (guards_by _ _ [_]); [done|done|]. intros ??. set_solver.
  - unfold sealed. simpl. by destruct a.
Qed.

(** A replay keeps what was unlocked accounted for. *)
Lemma replay_guards b s :
  let s' := snd (log_sdk (EReplay b) s) in guards s s' /\ (sealed s -> sealed s').
Proof.
  split.
  - apply (guards_by _ _ [EReplay b]); [done|done|]. intros ??. set_solver.
  - unfold sealed. destruct b; simpl; [|done]. intros H _.
    destruct (gateway_open (r_sdk s)); [|by right]. destruct (H eq_refl) as [?|[_ ->]]; [by left|by right].
Qed.
Lemma reconnect_guards e replay returned free a s r s' :
  on_api_socket_reconnected e replay returned free a s = (r, s') -> guards s s' /\ (sealed s -> sealed s').
Proof.
  unfold on_api_socket_reconnected, se_bind. intros H.
  assert (exists s1, guards s s1 /\ (sealed s -> sealed s1)
          /\ (s' = s1 \/ _enforce_gateway_lock e free a s1 = (r, s'))) as (s1 & G1 & S1 & H1).
  { exists (match replay with Some b => snd (log_sdk (EReplay b) s) | None => s end).
    split_and!; [destruct replay; [apply replay_guards|done]..|]. destruct replay, returned; simpl in H;
      first [by right|left; by injection H]. }
  destruct H1 as [->|H1]; [done|]. apply enforce_guards in H1 as [G2 S2]. split; [by etrans|eauto].
Qed.

Lemma unlock_trade_guards e p c a s r s' :
  unlock_trade e p c a s = (r, s') -> guards s s' /\ (d_credential e = true -> sealed s -> sealed s').
Proof.
  unfold unlock_trade, se_bind, se_lift, _unlock_gateway, log_sdk.
  destruct (check_unlock _); [|intros [= _ <-]; by split].
  destruct (d_credential e); simpl; [intros [= _ <-]; by split|].
  destruct p; simpl; [|intros [= _ <-]; by split]. destruct c; simpl; [|intros [= _ <-]; by split].
  intros [= _ <-]. split; [|done]. eapply (guards_by _ _ [_]); [done|done|]. intros ??. set_solver.
Qed.

(** Every step but an acknowledged [lock_trade] guards a halted execution, and
    with a credential every step leaves no unlocked gateway unhalted. *)
Lemma live_guards jit b p p' :
  real_live jit b p p' -> (b = false -> guards p.1 p'.1) /\ (jit = true -> sealed p.1 -> sealed p'.1).
Proof.
  destruct 1 as [e i method params approval s r s' ts Hj H|e i w method params approval s r s' ts1 ts2 Hj H
    |e i w method params approval t s r s' ts1 ts2 Hj H|c r s s' ts Hw Hn H|k s ts|connected a s r s' ts H
    |e free a s r s' ts Hj H|e rp rt free a s r s' ts Hj H|e pw connected a s r s' ts Hj H]; simpl.
  - apply front_steady in H as [_ G]. apply same_guards in G as [? ?]. by split.
  - apply admission_steady in H as [_ G]. apply same_guards in G as [? ?]. by split.
  - apply dispatch_guards in H as [? ?]. subst jit. by split.
  - apply exec_steady in H as [_ G]; [|apply (unmarked_store _ c); eauto]. apply same_guards in G as [? ?]. by split.
  - split; intros _; [|done]. by apply (same_guards s).
  - apply lock_trade_guards in H as [? ?]. by split.
  - apply enforce_guards in H as [? ?]. by split.
  - apply reconnect_guards in H as [? ?]. by split.
  - apply unlock_trade_guards in H as [? ?]. subst jit. by split.
Qed.
End system.
