(* ===== verification/RealThm.v ===== *)
(** What REAL execution promises: one write per operation over every
    interleaving and restart, a raised call has sent nothing, what is sent is
    what was assessed and charged, an outcome for every broker answer, and no
    new exposure once the gateway could not be locked again. *)

From S2P Require Import Prelude PyStr PyFloat PyDec PyVal JsonText OrderErrors Serialization.
From S2P Require Import Identity Store StoreOpen StoreInv Journal Validation Policy Rules ClientAuth.
From S2P Require Import Controls Prep Paper PaperOnce PaperThm RealRequest Real RealOnce RealScope RealSys.

#[local] Open Scope list_scope.

(** ** A concrete deployment *)

Definition demo_deployment : deployment :=
  {| d_policy := {| mode := Policy.REAL; max_order_qty := None;
                    max_order_notional := {["USD" := f_lit "1000"]};
                    real_acc_ids := {[7]}; symbol_allowlist := ∅; max_daily_notional := ∅;
                    require_approval := false |};
     d_grants := None; d_credential := true |}.

Definition real_call_of (id : string) : dict :=
  [("code", VStr "US.AAPL"); ("qty", VInt 5); ("price", VFloat (f_lit "187.5")); ("trd_side", VStr "BUY");
   ("acc_id", VStr "7"); ("trd_env", VStr "REAL");
   ("operation_id", VStr id); ("admission_epoch", VStr "e1")].

Definition demo_real_answers : real_answers :=
  {| ra_connected := true; ra_accounts := Ok []; ra_tag := "tag-1" |}.

Definition demo_ci : control_io := {| ci_broken := false; ci_now := 0; ci_now' := 0 |}.
Definition demo_write (broker : answer (option string * result (list dict))) (relock : answer unit)
    : write_answers :=
  {| wa_connected := true; wa_accounts := Ok []; wa_order := RetError;
     wa_lookup := Some (fun _ => Ok [
       {| i_code := "US.AAPL"; classification := Some "STOCK"; monetary_multiplier := Some f_one;
          contract_size := None; last_price := Some (f_lit "187"); bid_price := None; ask_price := None;
          i_currency := Some "USD"; lot_size := Some f_one |}]);
     wa_risk_broken := false; wa_reserve := Ok tt; wa_charge := demo_ci; wa_confirm := demo_ci;
     wa_unlock := Some (RetOk tt); wa_broker := broker; wa_lock := Some relock; wa_now := 9 |}.

Definition real_demo_proc : store :=
  match open_store demo_start "REAL" "e1" 5000 true None with
  | (Ok s, _) => s
  | _ => demo_proc
  end.
Definition real_world0 : world := fresh_world real_demo_proc None.
Definition real_world1 : world := snd (on_journal (run_call demo_review) real_world0).

Definition run_real (id : string) (b : answer (option string * result (list dict))) (relock : answer unit)
    : SE world (progress dict) :=
  journal_real_mutation demo_deployment true (fun _ => calm) demo_real_answers (demo_write b relock) "place_order"
    (real_call_of id).
Definition real_placed : world := snd (run_real "op-1" acknowledged (RetOk tt) real_world1).

Example real_placed_ok :
  is_ok (fst (run_real "op-1" acknowledged (RetOk tt) real_world1)) = true
  /\ r_sdk real_placed
     = [ELock true;
        EWrite "op-1"
          [("code", VStr "US.AAPL"); ("price", VFloat (f_lit "187.5")); ("qty", VInt 5);
           ("trd_side", VStr "BUY"); ("order_type", VStr "NORMAL"); ("time_in_force", VStr "DAY");
           ("adjust_limit", VInt 0); ("aux_price", VNone); ("trail_type", VNone); ("trail_value", VNone);
           ("trail_spread", VNone); ("trd_env", VStr "REAL"); ("acc_id", VInt 7);
           ("remark", VStr "tag-1"); ("session", VStr "N/A")] true;
        EUnlock true].
Proof. by vm_compute. Qed.

(** ** The system of threads, restarts and operators *)

Definition real_bound : dict := match bind_arguments (signature "place_order") (real_call_of "op-1") with
  | Ok d => dpop "approval_id" d | Err _ => [] end.
Abbreviation real_fronted := (real_front demo_deployment (io_ok 9) "place_order" real_bound real_world1).
Abbreviation real_admit :=
  (real_admission demo_deployment calm demo_real_answers "place_order" real_bound (snd real_fronted)).
Definition real_task : real_admitted := the_next (fst real_admit) (PLACE, 0, demo_row).
Definition real_sent (b : answer (option string * result (list dict))) (relock : answer unit) :=
  real_dispatch demo_deployment calm (demo_write b relock) "place_order" real_bound None real_task (snd real_admit).
Definition real_after (b : answer (option string * result (list dict))) (relock : answer unit) : real_system :=
  {| rs_file := Some (s_db real_demo_proc); rs_proc := Some (snd (real_sent b relock), []); rs_sent := [] |}.

Lemma real_thread_reachable :
  star (real_step true) (real_init None)
    {| rs_file := Some (s_db real_demo_proc);
       rs_proc := Some (snd real_admit, [RealAtDispatch demo_deployment "place_order" real_bound None real_task]);
       rs_sent := [] |}.
Proof.
  assert (L1 : real_live true false (real_world0, []) (real_world1, [])).
  { apply (rl_journal _ demo_review (fst (on_journal (run_call demo_review) real_world0))); [done|done|].
    exact (surjective_pairing _). }
  assert (L2 : real_live true false (real_world1, [])
                 (snd real_fronted, [RealAtAdmission demo_deployment "place_order" real_bound None])).
  { pose proof (rl_front true demo_deployment (io_ok 9) "place_order" real_bound None real_world1
      (fst real_fronted) (snd real_fronted) [] eq_refl (surjective_pairing real_fronted)) as L.
    assert (E : exists u, fst real_fronted = Ok (Next u)) by (by vm_compute; eauto).
    destruct E as [u E]. by rewrite E in L. }
  assert (L3 : real_live true false
                 (snd real_fronted, [RealAtAdmission demo_deployment "place_order" real_bound None])
                 (snd real_admit, [RealAtDispatch demo_deployment "place_order" real_bound None real_task])).
  { pose proof (rl_admission true demo_deployment calm demo_real_answers "place_order" real_bound None
      (snd real_fronted) (fst real_admit) (snd real_admit) [] [] eq_refl (surjective_pairing real_admit)) as L.
    assert (E : fst real_admit = Ok (Next real_task)) by (by vm_compute). by rewrite E in L. }
  eapply star_snoc; [eapply star_snoc; [eapply star_snoc; [eapply star_snoc; [apply star_refl|]|]|]|].
  - by apply (rs_start _ demo_start "e1" 5000 true None None real_demo_proc); vm_compute.
  - exact (rs_live _ _ _ _ _ _ L1).
  - exact (rs_live _ _ _ _ _ _ L2).
  - exact (rs_live _ _ _ _ _ _ L3).
Qed.

Lemma real_after_reachable b relock : star (real_step true) (real_init None) (real_after b relock).
Proof.
  eapply star_snoc; [apply real_thread_reachable|].
  pose proof (rl_dispatch true demo_deployment calm (demo_write b relock) "place_order" real_bound None real_task
    (snd real_admit) _ _ [] [] eq_refl (surjective_pairing _)) as L.
  exact (rs_live _ _ _ _ _ _ L).
Qed.

(** C1 One REAL write per operation.  In every state the REAL process can reach
    from a well-formed journal, over any interleaving of the phases of concurrent
    calls, recovery, the operator's lock and unlock requests, control changes,
    storage faults, crashes and restarts, no operation has been written to the
    gateway twice, and each write carries the arguments its journal row was
    durably marked with. *)
Theorem real_written_once `{SN : SessionNames} jit file x :
  file_ok file -> star (real_step jit) (real_init file) x ->
  NoDup (all_writes x).*1 /\
  forall id args, (id, args) ∈ all_writes x ->
    exists d r journal, real_journal x = Some d /\ operations d !! id = Some r /\ marker r = true
                        /\ merged_request r = Some (VDict journal) /\ agrees journal args.
Proof.
  intros Hf Hx. destruct (real_reachable_simulated jit file x Hf Hx) as (m & calls & Hm & Hfile & _ & Hall & Hsub).
  destruct (reachable_ok _ _ _ Hf Hm) as [_ _ Hl Hn]. split.
  - replace (all_writes x).*1 with calls.*1.
    + eapply sublist_NoDup; [exact Hn|]. by apply fmap_sublist.
    + clear -Hall. revert Hall. generalize (all_writes x). intros l Hall.
      induction Hall as [|[i1 a1] [i2 a2] l1 l2 [Hid _] _ IH]; [done|].
      cbn in Hid. subst i2. rewrite !fmap_cons. cbn [fst]. by rewrite IH.
  - intros id args Hin. apply list_elem_of_lookup in Hin as [n Hn1].
    destruct (Forall2_lookup_l _ _ _ _ _ Hall Hn1) as ([id' j] & Hj & Hid & Ha). simpl in Hid, Ha. subst id'.
    apply list_elem_of_lookup_2 in Hj. rewrite <-Hfile.
    destruct (Hl id j) as (d & r & Hd & Hr & Hmk & Hq); [by eapply elem_of_sublist|].
    by exists d, r, j.
Qed.

Lemma real_written_once_witness :
  let x := real_after acknowledged (RetOk tt) in
  (all_writes x).*1 = ["op-1"] /\ NoDup (all_writes x).*1.
Proof.
  split; [by vm_compute|].
  apply (real_written_once true None (real_after acknowledged (RetOk tt))); [done|apply real_after_reachable].
Defined.

(** ** One invocation *)

Section invocation.
Context `{SN : SessionNames}.

Lemma admitted_row e i w method params s k acc row s' :
  real_admission e i w method params s = (Ok (Next (k, acc, row)), s') ->
  exists id, identified e method params = Ok (id, k) /\ row_id row = id
    /\ account (ident (v_row row)) = str_int acc.
Proof.
  unfold real_admission. intros H. apply se_bind_ok in H as ([r|] & s1 & _ & H); [by injection H|].
  apply se_bind_ok in H as ([id k0] & s2 & Hid & H). apply lifted in Hid as [Hid _].
  apply se_bind_ok in H as (acc0 & s3 & _ & H). apply se_bind_ok in H as (canon & s4 & _ & H).
  apply se_bind_ok in H as (epoch & s5 & _ & H). apply se_bind_ok in H as ([v b] & s6 & Ha & H).
  destruct b; [injection H as <- <- <- _|apply se_bind_ok in H as (? & ? & _ & H); by injection H].
  exists id. split; [done|].
  unfold not_sent_se, on_journal, on_exec, on_store in Ha.
  destruct (admit_ _ _ _ _ _ _ _ _ _) as [r1 s7] eqn:E.
  injection Ha as Ha _. apply not_sent_ok in Ha as ->.
  apply transaction_cases in E as [[_ ?]|[(? & _ & ?)|([] & d & Heq & -> & E & _)]]; try done.
  injection Heq as <- <-. destruct (row_view id _) as [w0|] eqn:Hw; [done|].
  case_match; [done|]. case_match; [done|]. apply bind_ok in E as (body & Hb & E).
  apply bind_ok in E as (d1 & Hi & E). case_match eqn:Hv; [|done]. simplify_eq.
  apply insert_operation_inv in Hi as [_ Hd]. unfold row_view in Hv. rewrite Hd in Hv. simpl in Hv.
  rewrite lookup_insert_eq in Hv. by simplify_eq.
Qed.

Lemma identified_id e method params id k :
  identified e method params = Ok (id, k) -> dget_none "operation_id" params = VStr id.
Proof.
  unfold identified. intros H. do 2 (apply bind_ok in H as ([] & _ & H)). apply bind_ok in H as (k0 & _ & H).
  apply bind_ok in H as (c & _ & H). by destruct (dget_none "operation_id" params); simplify_eq.
Qed.

Lemma execute_writes e i wa wd method params approval s r s' :
  real_execute e i wa wd method params approval s = (r, s') ->
  writes s' = writes s \/
  exists id args, is_ok r = true /\ dget_none "operation_id" params = VStr id
    /\ writes s' = (id, args) :: writes s.
Proof.
  unfold real_execute. intros H.
  apply steady_cases in H as [[_ [(_ & W & _) _]]|(p & s1 & _ & [(_ & W1 & _) _] & H)];
    [by left| |apply front_steady].
  destruct p as [r0|_]; [injection H as _ <-; by left|].
  apply steady_cases in H as [[_ [(_ & W & _) _]]|(p & s2 & Ha & [(_ & W2 & _) _] & H)];
    [left; congruence| |apply admission_steady].
  destruct p as [r0|[[k acc] row]]; [injection H as _ <-; left; congruence|].
  apply admitted_row in Ha as (id & Hid & <- & _). apply identified_id in Hid.
  apply real_dispatch_cases in H as [(_ & _ & W)|(wr & s3 & s4 & s5 & Hr & [(_ & W3 & _) _] & D & _ & W & _)];
    [left; congruence|right].
  destruct D as (_ & (_ & W4 & _) & (_ & S5 & _) & _). exists (row_id row), (wr_sdk wr). split_and!; [done|done|].
  change (writes (launched method params approval row s2)) with (writes s2) in W3.
  rewrite W. unfold writes at 1. rewrite S5. simpl. f_equal. transitivity (writes s4); [done|congruence].
Qed.

(** A bound argument is the caller's, or the default of a parameter it left out. *)
Lemma bound_argument parameters kwargs d k v :
  bind_arguments parameters kwargs = Ok d -> dget k d = Some v ->
  dget k kwargs = Some v \/ (k, Some v) ∈ parameters.
Proof.
  unfold bind_arguments. intros H. apply bind_ok in H as ([] & _ & H). revert d H.
  induction parameters as [|[k' d'] l IH]; intros d H Hk; simpl in H; [by injection H as <-|].
  apply bind_ok in H as (kv & Hkv & H). apply bind_ok in H as (d0 & Hd & H). injection H as <-.
  assert (Hv : exists v', kv = (k', v') /\ (dget k' kwargs = Some v' \/ d' = Some v')).
  { destruct (dget k' kwargs) as [v'|]; [|destruct d' as [v'|]; [|done]]; injection Hkv as <-; eauto. }
  destruct Hv as (v' & -> & Hv). simpl in Hk. case_bool_decide as E.
  - subst k'. injection Hk as ->. destruct Hv as [?| ->]; [by left|right; by left].
  - destruct (IH d0 Hd Hk) as [?|?]; [by left|right; by right].
Qed.

Lemma operation_bound method kwargs d id :
  bind_arguments (signature method) kwargs = Ok d ->
  dget_none "operation_id" (dpop "approval_id" d) = VStr id -> dget "operation_id" kwargs = Some (VStr id).
Proof.
  intros H Hid. unfold dget_none in Hid. rewrite dget_dpop_ne in Hid by done.
  destruct (dget "operation_id" d) as [v|] eqn:Ev; simpl in Hid; [|done]. subst v.
  destruct (bound_argument _ _ _ _ _ H Ev) as [?|Hin]; [done|].
  unfold signature, order_defaults in Hin. repeat case_bool_decide; simpl in Hin;
    repeat (apply elem_of_cons in Hin as [Hin|Hin]; [done|]); by apply not_elem_of_nil in Hin.
Qed.
End invocation.

(** A call of a public REAL method writes to the gateway at most once, under
    its own operation identifier; when it raises, whatever the exception, it has
    written nothing. *)
Theorem real_mutation_writes_once `{SN : SessionNames} e configured i wa wd method kwargs s :
  match journal_real_mutation e configured i wa wd method kwargs s with
  | (Ok _, s') =>
      writes s' = writes s \/
      exists id args, dget "operation_id" kwargs = Some (VStr id) /\ writes s' = (id, args) :: writes s
  | (Err _, s') => writes s' = writes s
  end.
Proof.
  destruct (journal_real_mutation _ _ _ _ _ _ _ _) as [r s'] eqn:H. unfold journal_real_mutation in H.
  apply steady_cases in H as [[Hk [(_ & W & _) _]]|(bound & s1 & Hb & [(_ & W1 & _) _] & H)];
    [destruct r; [by left|done]| |auto with preserves].
  apply lifted in Hb as [Hb _].
  destruct (negb _); [injection H as <- <-; by left|].
  apply steady_cases in H as [[Hk [(_ & W & _) _]]|([] & s2 & _ & [(_ & W2 & _) _] & H)];
    [destruct r; [done|congruence]| |apply preserves_not_sent; repeat preserves].
  unfold se_bind in H. destruct (real_execute _ _ _ _ _ _ _ s2) as [r3 s3] eqn:E.
  assert (s' = s3 /\ is_ok r = is_ok r3) as [-> Hr] by (destruct r3; by injection H as <- <-).
  apply execute_writes in E as [W|(id & args & Hk & Hid & W)]; [destruct r; [left|]; congruence|].
  rewrite Hk in Hr. destruct r; [|done]. right. exists id, args. split; [|congruence].
  by eapply operation_bound.
Qed.

(** ** Scope *)

(** C3 What REAL execution sends is in scope.  When a pass under the execution
    lock wrote to the gateway, it wrote one request of the admitted operation: for
    the admitted account, which the deployment's allowlist contains and the
    caller's grants allow; in the REAL environment of a REAL policy; the request
    is the order that [assess_order] accepted if it can add exposure, and then the
    execution was not halted.  Where approval or a daily budget is configured, the
    control database of this process holds the operation's own charge, made for
    this request and account, of the day of the last check before the write, and
    where approval is required also the approval the caller named, spent and at
    that check not expired. *)
Theorem real_write_in_scope `{SN : SessionNames} e i w method params approval k acc row s r s' :
  real_dispatch e i w method params approval (k, acc, row) s = (r, s') -> writes s' <> writes s ->
  exists wr, writes s' = (row_id row, wr_sdk wr) :: writes s
    /\ dget "acc_id" (wr_sdk wr) = Some (VInt (wr_account wr))
    /\ str_int (wr_account wr) = account (ident (v_row row))
    /\ real_account e (wr_account wr)
    /\ dget "trd_env" (wr_sdk wr) = Some (VStr "REAL") /\ mode (d_policy e) = Policy.REAL
    /\ (wr_adds_exposure wr = true -> halted (r_halt s) = false /\ exists facts,
          assess_order (d_policy e) facts = Ok tt /\ facts_of e w (wr_sdk wr) (wr_operation wr) facts)
    /\ (controlled (d_policy e) = true -> exists ctl a parameters,
          r_controls s' = Some ctl
          /\ co_method a = method /\ co_parameters a = params /\ co_approval a = approval
          /\ charged_parameters (d_policy e) a (wr_account wr) "REAL" = Ok parameters
          /\ reserved_by (d_policy e) (wa_confirm w) a parameters (k_db ctl)).
Proof.
  intros H Hw. apply real_dispatch_cases in H
    as [(_ & _ & W)|(wr & s0 & s1 & s2 & _ & [(_ & W0 & _) _] & D & _ & W & K)]; [done|].
  destruct D as ((j & s0' & Hp) & (_ & W1 & _) & (_ & S2 & _ & _ & C & K2) & Hh & Hx & Hch).
  apply write_prepared in Hp as (Ha & Hacc & Henv & Hm & Hra & Hf).
  exists wr. split_and!; try done.
  - rewrite W. unfold writes at 1. rewrite S2. simpl. f_equal. transitivity (writes s1); [done|].
    by rewrite W1, W0.
  - by apply Ha.
  - destruct C as (_ & C & _). unfold dget_none in C. rewrite Hacc in C. exact C.
  - intros Hx'. split; [by apply Hx|by apply Hf].
  - intros Hc. destruct C as (_ & _ & C).
    destruct (Hch Hc) as (a & parameters & Hreq & Hcp & Hop).
    rewrite Hop in C. destruct (cleared_charge _ _ _ _ _ Hc C) as (ctl & Hk & Hr).
    injection Hreq as Hm1 Hp1 Ha1. rewrite Hk in K2. unfold same_controls in K.
    destruct (r_controls s2) as [ctl2|]; [|done]. injection K2 as K2. rewrite <-K2 in Hr.
    exists ctl2, a, parameters. split_and!; try done; try congruence.
Qed.

(** *** A concrete operation under a daily budget *)

Definition budget_deployment : deployment :=
  {| d_policy := {| mode := Policy.REAL; max_order_qty := None;
                    max_order_notional := {["USD" := f_lit "1000"]};
                    real_acc_ids := {[7]}; symbol_allowlist := ∅; max_daily_notional := {["USD" := f_lit "5000"]};
                    require_approval := false |};
     d_grants := None; d_credential := true |}.
Definition budget_world : world :=
  other_controls (Some {| k_closed := false; k_failed := false; k_db := empty_cdb |}) (snd real_admit).
Definition budget_sent : result reply * world :=
  real_dispatch budget_deployment calm (demo_write acknowledged (RetOk tt)) "place_order" real_bound None
    (real_task.1.1, real_task.1.2, real_task.2) budget_world.

Lemma real_write_in_scope_witness :
  exists wr, writes (snd budget_sent) = (row_id real_task.2, wr_sdk wr) :: writes budget_world
    /\ real_account budget_deployment (wr_account wr)
    /\ exists ctl a parameters, r_controls (snd budget_sent) = Some ctl
         /\ reserved_by (d_policy budget_deployment) demo_ci a parameters (k_db ctl).
Proof.
  destruct (real_write_in_scope budget_deployment calm (demo_write acknowledged (RetOk tt)) "place_order" real_bound
    None real_task.1.1 real_task.1.2 real_task.2 budget_world (fst budget_sent) (snd budget_sent))
    as (wr & W & _ & _ & Hr & _ & _ & _ & Hc).
  - exact (surjective_pairing budget_sent).
  - by vm_compute.
  - exists wr. split; [exact W|split; [exact Hr|]].
    destruct Hc as (ctl & a & parameters & Hk & _ & _ & _ & _ & Hres); [by vm_compute|].
    exists ctl, a, parameters. split; [exact Hk|exact Hres].
Defined.

(** The charge is there: the order's 937.50 on its operation. *)
Example budget_charged :
  option_map (fun ctl => map (fun c => (ch_operation_id c, ch_day c)) (c_charges (k_db ctl))) (r_controls (snd budget_sent))
  = Some [("op-1", 0)].
Proof. by vm_compute. Qed.
