(* ===== verification/RealOutcome.v ===== *)
(** What REAL execution records: every answer of the broker as the outcome it
    proves, and nothing more once an outcome could not be stored. *)

From S2P Require Import Prelude PyStr PyFloat PyDec PyVal JsonText OrderErrors Serialization.
From S2P Require Import Identity Store StoreOpen StoreInv Journal Validation Policy Rules ClientAuth.
From S2P Require Import Controls Prep Paper PaperOnce PaperThm RealRequest Real RealOnce RealScope RealSys RealThm.

#[local] Open Scope list_scope.

Section outcomes.
Context `{SN : SessionNames}.

(** ** What the call returns for each answer *)

Definition reply_of (w : write_answers) (a : active) (r : result dict) : Prop :=
  match wa_broker w with
  | Raised _ | RetError => exists m, r = Err (OrderOutcomeUnknownError m)
  | RetOk (first_id, frame) =>
      (forall o, first_id = Some o -> positive_order_id (VStr o) = true ->
         dget "order_id" (ac_evidence a) = Some (VStr o))
      /\ match _first_record frame with
         | Ok rec => r = Ok rec
         | Err _ => exists m, r = Err (OrderReceiptUnreadableError m)
         end
  end.

Lemma ready_late i y y' : ready i y = (Ok tt, y') -> y_late_failure y' = ∅.
Proof.
  unfold ready. case_bool_decide as E; [|done]. unfold on_store. destruct (require_ready i _) as [r1 s1].
  by intros [= _ <-].
Qed.

(** A marked operation left while every outcome was stored. *)
Lemma before_dispatch_late e i i' ci merged s s' :
  before_dispatch e i i' ci merged s = (Ok tt, s') -> y_late_failure (r_exec s') = ∅.
Proof.
  unfold before_dispatch. destruct (r_active s) as [a|]; [|done]. intros H.
  apply se_bind_ok in H as ([] & s1 & H & Ha).
  assert (r_exec s' = r_exec s1) as -> by (unfold set_active in Ha; by injection Ha as <-).
  unfold not_sent_se in H. match type of H with (let '(_, _) := ?c in _) = _ => destruct c as [r2 s2] eqn:E end.
  injection H as H <-. apply not_sent_ok in H as ->.
  apply se_bind_ok in E as ([] & s3 & _ & E). apply se_bind_ok in E as ([] & s4 & Hr & E).
  assert (Hl : y_late_failure (r_exec s4) = ∅).
  { unfold on_exec in Hr. destruct (ready i (r_exec s3)) as [r5 y5] eqn:E5. injection Hr as -> <-.
    by apply ready_late in E5. }
  apply se_bind_ok in E as ([] & s5 & H5 & E). injection H5 as _ <-.
  apply se_bind_ok in E as (s6 & s7 & H6 & E). injection H6 as <- <-.
  apply se_bind_ok in E as ([] & s8 & H8 & E).
  unfold with_controls in H8. destruct (confirm_dispatch_controls _ _ _ _). injection H8 as _ <-.
  unfold on_journal, on_exec, on_store in E. destruct (mark_dispatch _ _ _ _). by injection E as _ <-.
Qed.

Lemma write_body_answers e i i' w row wr s r s' :
  write_body e i i' w (row_id row) wr s = (r, s') -> flying row false s -> r_sdk s' <> r_sdk s ->
  exists a, r_active s' = Some a /\ ac_marked a = true /\ reply_of w a r /\ y_late_failure (r_exec s') = ∅.
Proof.
  intros H Hf Hw. unfold write_body in H. unfold se_bind at 1 in H.
  destruct (before_dispatch e i i' (wa_confirm w) (wr_journal wr) s) as [[[]|x] s1] eqn:E;
    [pose proof (before_dispatch_late _ _ _ _ _ _ _ E) as Hl|];
    apply before_dispatch_cases with (row := row) in E; [|done| |done].
  2: { injection H as <- <-. destruct E as (_ & _ & E). done. }
  destruct E as (_ & F & _). destruct (flying_active _ _ _ F) as (a & Ha & _ & Hm).
  unfold se_bind at 1, log_sdk in H. unfold reply_of.
  destruct (wa_broker w) as [x| |[first_id frame]];
    [injection H as <- <-; eauto 10|injection H as <- <-; eauto 10|].
  unfold se_bind, observe_acknowledgement, set_active, se_ret, se_raise in H. cbn [r_active] in H. rewrite Ha in H.
  destruct first_id as [o|].
  - destruct (positive_order_id (VStr o)) eqn:Eo; destruct (_first_record frame); injection H as <- <-;
      eexists; (split; [done|]); (split; [done|]); (split; [split|done]); eauto;
      intros o' [= <-] Ho; try congruence.
    all: simpl; apply dget_dset_eq.
  - destruct (_first_record frame); injection H as <- <-;
      eexists; (split; [done|]); (split; [done|]); (split; [split|done]); eauto; done.
Qed.

Lemma relock_active jit now lock s r s' :
  _relock_after_write jit now lock s = (r, s') -> r_active s' = r_active s /\ r_exec s' = r_exec s.
Proof.
  unfold _relock_after_write, _lock_gateway, se_bind, log_sdk, se_lift, set_halt, se_ret.
  destruct jit; simpl; [|by intros [= _ <-]].
  destruct lock as [[x| |[]]|]; simpl; by intros [= _ <-].
Qed.

Lemma dispatch_write_answers e i i' w row wr s r s' :
  _dispatch_write e i i' w wr s = (r, s') -> flying row false s -> writes s' <> writes s ->
  exists a r5, r_active s' = Some a /\ ac_marked a = true /\ reply_of w a r5
    /\ y_late_failure (r_exec s') = ∅ /\
    match r5 with Ok rec => exists relock, r = Ok (rec, relock) | Err x => r = Err x end.
Proof.
  intros H Hf Hw. apply dispatch_write_stages with (row := row) in H
    as [[_ [(_ & W & _) _]]|(s4 & r5 & s5 & o & Q & _ & _ & _ & _ & E5 & E6 & ->)]; [done| |done].
  destruct (relock_active _ _ _ _ _ _ E6) as [Hact Hexec]. apply relock_cases in E6 as [(_ & W6 & _) _].
  apply write_body_answers with (row := row) in E5 as (a & Ha & Hm & Hr & Hl); [|by eapply flying_quiet|].
  - exists a, r5. rewrite Hact, Hexec. split_and!; try done.
    destruct r5 as [rec|x]; [eauto|]. f_equal. unfold reply_of in Hr.
    destruct o; [|done]. destruct (wa_broker w) as [y| |[f0 frame]];
      [destruct Hr as [m [= ->]]|destruct Hr as [m [= ->]]|destruct Hr as [_ Hr]; destruct (_first_record frame)];
      try done. by destruct Hr as [m [= ->]].
  - intros E. apply Hw. destruct Q as (_ & W & _). rewrite W6. unfold writes at 1. rewrite E. exact W.
Qed.

(** ** What is stored *)

Lemma real_finish_stored i row st disp rec err reason obs y v ups y' :
  real_finish i row st disp rec err reason obs y = (Ok (Stored v ups), y') -> y_late_failure y = ∅ ->
  state (v_row v) = st /\ disposition (v_row v) = disp /\ receipt (v_row v) = option_map VDict rec
  /\ row_view (row_id row) (s_db (y_store y')) = Some v
  /\ (forall why, reason = Some why -> nonempty why = true ->
        (row_id row, why) ∈ review_requirements (s_db (y_store y'))).
Proof.
  unfold real_finish. intros H Hl.
  destruct (on_store _ y) as [[[]|x] y1] eqn:E1.
  2: { unfold se_bind, set_failure, se_ret in H. by simplify_eq. }
  unfold on_store in E1. destruct (outcome _ _ _ _ _ _ _ _ _) as [r1 s1] eqn:Eo. simplify_eq.
  apply outcome_ok in Eo as [Hv Hreq].
  unfold se_try in H. destruct (se_bind _ _ _) as [[a|x] y2] eqn:E2.
  2: { unfold se_bind, set_failure, se_ret in H. by simplify_eq. }
  injection H as -> ->.
  apply se_bind_ok in E2 as (ov & y3 & El & E2).
  destruct (reading_store _ (lookup_reads _ _) _ _ _ El) as [D1 _].
  unfold on_store in El. destruct (lookup _ _ _) as [rv s3] eqn:El'. simplify_eq.
  apply lookup_ok in El' as [-> _]. simpl in *.
  apply se_bind_ok in E2 as (w & y4 & Hw & E2). unfold se_lift in Hw.
  destruct (row_view (row_id row) (s_db s1)) as [w'|] eqn:Ew; [|done]. injection Hw as -> <-.
  apply se_bind_ok in E2 as (r & y5 & Hr & E2). apply se_bind_ok in E2 as ([] & y6 & Hi & E2).
  injection Hi as <-. injection E2 as -> <-.
  unfold real_result in Hr. simpl in Hr. rewrite Hl, lookup_empty in Hr. injection Hr as <- _ <-.
  simpl. rewrite D1. destruct (Hv w eq_refl) as (? & ? & ?). by split_and!.
Qed.

(** A pass that wrote to the gateway settles what the broker answered. *)
Lemma written_settles e i w method params approval k acc row s r s' :
  real_dispatch e i w method params approval (k, acc, row) s = (r, s') -> writes s' <> writes s ->
  exists r1 s1 s2 a r5, real_settle (fun n => i (4 + n)%nat) row r1 s1 = (r, s2) /\ r_exec s' = r_exec s2
    /\ r_active s1 = Some a /\ ac_marked a = true /\ y_late_failure (r_exec s1) = ∅ /\ reply_of w a r5
    /\ match r5 with
       | Ok record => exists n relock, r1 = Ok (_with_routing record n relock)
       | Err x => r1 = Err x
       end.
Proof.
  intros H Hw. apply dispatch_stages in H as (r1 & s1 & s2 & E1 & E2 & Hx & [_ G] & _).
  exists r1, s1, s2. change (writes s) with (writes (launched method params approval row s)) in Hw.
  set (t := launched method params approval row s) in *. assert (Hf : flying row false t) by done.
  (* settling writes nothing, whatever state the call left *)
  assert (Hs2 : forall b, flying row b s1 -> (is_ok r1 = true -> b = true) -> writes s1 <> writes t).
  { intros b Hb Hr E. apply Hw. rewrite <-E. apply (settle_cases _ _ b) in E2 as [[(_ & W & _) _] _]; [|done..].
    unfold writes in *. by rewrite G. }
  apply steady_cases in E1 as [[Hk [(_ & W & F) _]]|([] & s0 & _ & [Q0 _] & E1)];
    [| |apply preserves_not_sent, exec_steady, unmarked_ready].
  { destruct (Hs2 false); [by unfold flying; rewrite F|by rewrite Hk|done]. }
  apply steady_cases in E1 as [[Hk [Q _]]|(wr & s3 & _ & [Q3 _] & E1)]; [| |apply prepare_write_steady].
  { assert (Q1 : quiet t s1) by by etrans.
    destruct (Hs2 false); [by eapply flying_quiet|by rewrite Hk|by destruct Q1 as (_ & ? & _)]. }
  assert (Qt : quiet t s3) by by etrans. assert (Hf3 : flying row false s3) by by eapply flying_quiet.
  unfold se_bind in E1. destruct (_dispatch_write _ _ _ _ _ s3) as [r4 s4] eqn:E4.
  assert (s1 = s4) as -> by (destruct r4 as [[]|]; by injection E1 as _ <-).
  assert (Hs : writes s4 <> writes s3).
  { destruct (dispatch_write_cases _ _ _ _ _ _ _ _ _ E4 Hf3) as [[Hk Q]|(s5 & s6 & Q & _ & Hs & Q' & _)].
    - assert (Q1 : quiet t s4) by by etrans.
      destruct (Hs2 false); [by eapply flying_quiet|destruct r4; [done|]; by injection E1 as <-|by destruct Q1 as (_ & ? & _)].
    - destruct Hs as (_ & Hs & _), Q as (_ & W & _), Q' as (_ & W' & _). intros Es.
      assert (W6 : writes s6 = (row_id row, wr_sdk wr) :: writes s5) by (unfold writes at 1; by rewrite Hs).
      rewrite W', W6, W in Es. apply (f_equal length) in Es. simpl in Es. lia. }
  apply dispatch_write_answers with (row := row) in E4 as (a & r5 & Ha & Hm & Hr & Hl & Hr4); [|done..].
  exists a, r5. split_and!; try done.
  destruct r5 as [record|x]; [destruct Hr4 as [relock ->]; exists (wr_account wr), relock|subst r4]; by injection E1 as <-.
Qed.
End outcomes.

(** The evidence of an acknowledgement whose receipt could not be read. *)
Definition unreadable (first_id : option string) (id : string) (v : view) (d : db) : Prop :=
  (id, "RECEIPT_UNREADABLE") ∈ review_requirements d
  /\ forall o, first_id = Some o -> positive_order_id (VStr o) = true ->
       exists evidence, receipt (v_row v) = Some (VDict evidence) /\ dget "order_id" evidence = Some (VStr o).

(** C6 Past the marker every answer of the broker becomes the outcome it proves.
    A raised call or a refusal of a REAL write is an unknown outcome that has to
    be reviewed, never a refusal; an acknowledgement is recorded as such, with
    its receipt under the account it went to, and when the receipt cannot be read
    or stored, with the order identifier that could be read and a review
    requirement; whatever the relock did. *)
Theorem real_outcome_recorded `{SN : SessionNames} e i w method params approval k acc row s v ups s' :
  real_dispatch e i w method params approval (k, acc, row) s = (Ok (Stored v ups), s') -> writes s' <> writes s ->
  let d := s_db (y_store (r_exec s')) in
  row_view (row_id row) d = Some v /\
  match wa_broker w with
  | Raised _ | RetError =>
      state (v_row v) = UNKNOWN_OUTCOME /\ disposition (v_row v) = "POSSIBLY_SENT"
      /\ (row_id row, "UNRESOLVED_OUTCOME") ∈ review_requirements d
  | RetOk (first_id, frame) =>
      state (v_row v) = ACKNOWLEDGED /\ disposition (v_row v) = "ACKNOWLEDGED" /\
      match _first_record frame with
      | Ok record =>
          exists n relock, match converted (_with_routing record n relock) with
                           | Ok receipt_ => receipt (v_row v) = Some (VDict receipt_)
                           | Err _ => unreadable first_id (row_id row) v d
                           end
      | Err _ => unreadable first_id (row_id row) v d
      end
  end.
Proof.
  intros H Hw. apply written_settles in H as (r1 & s1 & s2 & a & r5 & E2 & -> & Ha & Hm & Hl & Hr & Hr1); [|done].
  unfold real_settle in E2. rewrite Ha, Hm in E2.
  assert (F : forall st disp rec err reason,
    on_exec (real_finish (fun n => i (4 + n)%nat) row st disp rec err reason (ac_observed a)) s1
      = (Ok (Stored v ups), s2) ->
    state (v_row v) = st /\ disposition (v_row v) = disp /\ receipt (v_row v) = option_map VDict rec
    /\ row_view (row_id row) (s_db (y_store (r_exec s2))) = Some v
    /\ (forall why, reason = Some why -> nonempty why = true ->
          (row_id row, why) ∈ review_requirements (s_db (y_store (r_exec s2))))).
  { intros * Ef. unfold on_exec in Ef. destruct (real_finish _ _ _ _ _ _ _ _ _) as [r6 y6] eqn:E6.
    injection Ef as -> <-. by apply real_finish_stored in E6. }
  unfold reply_of, unreadable in *.
  destruct (wa_broker w) as [x| |[first_id frame]].
  - destruct Hr as [m ->]. subst r1. apply F in E2 as (? & ? & _ & ? & Hq). eauto 10.
  - destruct Hr as [m ->]. subst r1. apply F in E2 as (? & ? & _ & ? & Hq). eauto 10.
  - destruct Hr as [Hev Hr]. destruct (_first_record frame) as [record|x].
    + subst r5. destruct Hr1 as (n & relock & ->).
      destruct (converted (_with_routing record n relock)) as [rc|x] eqn:Ec;
        apply F in E2 as (? & ? & Hrc & ? & Hq); (split_and!; [done..|]); exists n, relock; rewrite Ec;
        [done|split; [eauto|intros; eauto]].
    + destruct Hr as [m ->]. subst r1.
      apply F in E2 as (? & ? & Hrc & ? & Hq). split_and!; try done; [eauto|]. intros o Ho Hp.
      specialize (Hev o Ho Hp). destruct (ac_evidence a) eqn:Ee; [done|]. eauto.
Qed.

Lemma real_outcome_recorded_witness :
  let w := demo_write (Raised (BrokerError "timeout")) (RetOk tt) in
  exists v ups s', real_dispatch demo_deployment calm w "place_order" real_bound None
      (real_task.1.1, real_task.1.2, real_task.2) (snd real_admit) = (Ok (Stored v ups), s')
    /\ state (v_row v) = UNKNOWN_OUTCOME.
Proof.
  eexists _, _, _. split; [by vm_compute|].
  eapply (real_outcome_recorded demo_deployment calm (demo_write (Raised (BrokerError "timeout")) (RetOk tt))
    "place_order" real_bound None real_task.1.1 real_task.1.2 real_task.2 (snd real_admit));
    [by vm_compute|by vm_compute].
Defined.

(** ** The halt *)

Section halt.
Context `{SN : SessionNames}.

Lemma lock_result connected a s r s' :
  lock_trade connected a s = (r, s') ->
  if is_ok r then halted (r_halt s') = false /\ exists l, r_sdk s' = ELock true :: l
  else halted (r_halt s') = halted (r_halt s).
Proof.
  unfold lock_trade. destruct connected; simpl; [|by intros [= <- <-]].
  unfold _lock_gateway, se_bind, log_sdk, se_lift, set_halt, se_raise, se_ret. simpl.
  destruct a as [x| |[]]; simpl; intros [= <- <-]; [done..|]. split; [done|by eexists].
Qed.
End halt.

(** C4 A halt stops new exposure.  From a state in which execution is halted,
    whatever the threads, operators, reconnects and recovery of the process do,
    as long as no [lock_trade] was acknowledged the execution stays halted and
    no write that can add exposure reaches the gateway; and an acknowledged
    [lock_trade] lifts it, a failed one does not. *)
Theorem halt_stops_exposure `{SN : SessionNames} jit s ts s' ts' :
  star (real_live jit false) (s, ts) (s', ts') -> halted (r_halt s) = true ->
  halted (r_halt s') = true
  /\ (exists new, r_sdk s' = new ++ r_sdk s /\ forall id args, EWrite id args true ∉ new)
  /\ forall connected a r s2, lock_trade connected a s' = (r, s2) -> halted (r_halt s2) = negb (is_ok r).
Proof.
  intros Hrun Hh. assert (G : guards s s').
  { change s with (s, ts).1. change s' with (s', ts').1. revert Hrun.
    generalize (s, ts) (s', ts'). induction 1 as [p|p p1 p' _ IH H]; [done|].
    etrans; [exact IH|]. by eapply live_guards in H as [H _]; apply H. }
  destruct (G Hh) as [Hh' Hn]. split_and!; [done|done|]. intros connected a r s2 H.
  apply lock_result in H. destruct (is_ok r); simpl; [by destruct H|congruence].
Qed.

(** The write went out and the lock request after it failed. *)
Definition halted_world : world := snd (real_sent acknowledged RetError).

Lemma halt_stops_exposure_witness :
  halted (r_halt halted_world) = true
  /\ halted (r_halt (snd (real_front demo_deployment (io_ok 9) "place_order" real_bound halted_world))) = true.
Proof.
  assert (H : halted (r_halt halted_world) = true) by (by vm_compute). split; [exact H|].
  destruct (real_front demo_deployment (io_ok 9) "place_order" real_bound halted_world) as [r s'] eqn:E.
  pose proof (rl_front true demo_deployment (io_ok 9) "place_order" real_bound None halted_world r s' [] eq_refl E) as L.
  exact (proj1 (halt_stops_exposure true halted_world [] _ _ (star_snoc _ _ _ _ (star_refl _ _) L) H)).
Defined.


(** The relock failed; then the link dropped, the SDK replayed the unlock it still
    had cached, and the lock at rest was refused as well. *)
Definition reconnection : result unit * world :=
  on_api_socket_reconnected demo_deployment (Some true) true true RetError (snd (real_sent acknowledged RetError)).
Definition reconnected_world : world := snd reconnection.

Lemma reconnected_reachable :
  star (real_step true) (real_init None)
    {| rs_file := Some (s_db real_demo_proc); rs_proc := Some (reconnected_world, []); rs_sent := [] |}.
Proof.
  eapply star_snoc; [apply (real_after_reachable acknowledged RetError)|].
  apply rs_live with (b := false).
  apply (rl_reconnect true demo_deployment (Some true) true true RetError _ (fst reconnection));
    [reflexivity|exact (surjective_pairing reconnection)].
Qed.


(** The exception is real: after a replay of what is no longer cached the refused
    lock at rest is only logged. *)
Example stale_replay_ex :
  let s := snd (on_api_socket_reconnected demo_deployment (Some true) true true RetError real_placed) in
  gateway_open (r_sdk s) = true /\ halted (r_halt s) = false
  /\ replayed (r_sdk s) = true /\ cached_replays (r_sdk s) = false.
Proof. by vm_compute. Qed.
