(* ===== verification/RealRecovery.v ===== *)
(** services/real_recovery.py: one recovery check of a REAL operation.

    Broker answers, clock readings and the stop flag are arguments, as in
    PaperRecovery, whose evidence helpers and frame of a check this shares.  An
    unsuccessful search establishes nothing here. *)

From S2P Require Import Prelude PyStr PyFloat PyDec DecText PyVal JsonText OrderErrors.
From S2P Require Import Serialization Identity Store StoreOpen StoreInv Journal Validation.
From S2P Require Import Policy Rules ClientAuth Prep Paper PaperOnce PaperThm PaperRecovery.
From S2P Require Import Real RealOnce RealSys RealThm.

#[local] Open Scope list_scope.

Definition CHECK_INTERVAL : Z := 30.

(** ** Evidence *)

(** [d.get("trd_env", "REAL") != "REAL" or str(d.get("acc_id", account)) != account] *)
Definition real_foreign (acc : string) (d : dict) : bool :=
  negb (is_str_eq "REAL" (dget_or "trd_env" (VStr "REAL") d))
  || negb (bool_decide (py_str (dget_or "acc_id" (VStr acc) d) = acc)).

Definition real_checked_order (acc : string) (v : val) : result dict :=
  (order <- as_order v ;;
   _ <- refuse_if (negb (positive_order_id (dget_none "order_id" order)))
          (RecoveryEvidenceError "Missing broker order identity") ;;
   _ <- refuse_if (real_foreign acc order) (RecoveryEvidenceError "Broker query account/environment mismatch") ;;
   Ok order)%py.

(** [_observations] *)
Definition _observations (row : view) (current history : result val) : result (list dict) :=
  (c <- current ;;
   h <- history ;;
   c <- as_rows c ;;
   h <- as_rows h ;;
   observations <- bind (serialize_identifiers (VList (c ++ h))) as_rows ;;
   mapM (real_checked_order (account (ident (v_row row)))) observations)%py.

Definition is_placement (k : op_kind) : bool := bool_decide (k = PLACE) || bool_decide (k = PLACE_COMBO).
Definition is_combo (row : view) : bool := bool_decide (kind (ident (v_row row)) = PLACE_COMBO).

Definition target_of (row : view) : result (option string) :=
  if is_placement (kind (ident (v_row row))) then Ok (broker_order_id (v_row row))
  else (t <- ditem "order_id" (request_of row) ;; Ok (if truthy t then Some (py_str t) else None))%py.

(** [_matches] *)
Definition _matches (row : view) (observations : list dict) : result (list dict) :=
  (target <- target_of row ;;
   Ok (List.filter (correlated target (tag_of row)) observations))%py.

(** *** Combo legs *)

Record leg_identity : Type := {
  li_code : string; li_side : string; li_ratio : string; li_position_id : option string }.
#[export] Instance leg_identity_eq_dec : EqDecision leg_identity.
Proof. solve_decision. Defined.

Definition leg_position (v : val) : result (option string) :=
  match v with
  | VNone => Ok None
  | VInt z => Ok (Some (str_int z))
  | VStr s => if isdecimal (strip s) then Ok (Some (str_int (int_of (strip s))))
              else evidence_error "Invalid REAL combo position identity"
  | _ => evidence_error "Invalid REAL combo position identity"
  end.

Definition one_leg (leg : val) : result leg_identity :=
  let bad := RecoveryEvidenceError "Invalid REAL combo leg evidence" in
  (d <- match leg with VDict d => Ok d | _ => Err bad end ;;
   code <- match dget_none "code" d with
           | VStr c => if nonempty (strip c) then Ok (strip c) else Err bad
           | _ => Err bad
           end ;;
   ratio <- number (dget_none "qty_ratio" d) ;;
   side <- match dget_none "trd_side" d with
           | VStr s => if mem (upper (strip s)) ["BUY"; "SELL"] then Ok (upper (strip s)) else Err bad
           | _ => Err bad
           end ;;
   _ <- refuse_if (negb (d_gtb ratio d_zero) || negb (d_integral ratio)) bad ;;
   position <- leg_position (dget_none "position_id" d) ;;
   Ok {| li_code := code; li_side := side; li_ratio := str_int (d_to_int ratio);
         li_position_id := position |})%py.

(** [_leg_identity] *)
Definition _leg_identity (legs : val) : result (list leg_identity) :=
  match legs with
  | VList ((_ :: _) as l) => mapM one_leg l
  | _ => evidence_error "Missing REAL combo leg evidence"
  end.

(** [order.get("combo_legs", order.get("combo_leg_list"))] *)
Definition broker_legs (order : dict) : val := dget_or "combo_legs" (dget_none "combo_leg_list" order) order.

Definition legs_differ (x y : val) : result bool :=
  (a <- _leg_identity x ;; b <- _leg_identity y ;; Ok (negb (bool_decide (a = b))))%py.

(** *** Positions *)

Definition real_position (acc code : string) (v : val) : result dec :=
  match v with
  | VDict item =>
      (_ <- refuse_if (negb (is_str_eq code (dget_none "code" item)))
              (RecoveryEvidenceError "Position query scope mismatch") ;;
       _ <- refuse_if (real_foreign acc item)
              (RecoveryEvidenceError "Position query account/environment mismatch") ;;
       number (dget_none "qty" item))%py
  | _ => evidence_error "Position query scope mismatch"
  end.

(** The body of the loop for one code. *)
Definition position_of (acc : string) (positions : val -> result val) (code : string)
    : result (string * val) :=
  (p <- positions (VStr code) ;;
   items <- match p with VList l => Ok l | _ => evidence_error "Malformed position query" end ;;
   numbers <- mapM (real_position acc code) items ;;
   Ok (code, VStr (d_str (d_sum 28 numbers))))%py.

(** [dict.fromkeys(codes)]: the first of each. *)
Fixpoint fromkeys (l : list string) : list string :=
  match l with
  | [] => []
  | c :: l => c :: List.filter (fun d => negb (bool_decide (d = c))) (fromkeys l)
  end.

(** [_positions] *)
Definition _positions (acc : string) (positions : val -> result val) (codes : list string) : result dict :=
  mapM (position_of acc positions) (fromkeys codes).

(** ** Accounting *)

(** All observations of the order tell the same story. *)
Definition real_consistent (row : view) (final order : dict) : result unit :=
  let keys := if is_combo row then ["order_status"; "order_type"]
              else ["order_status"; "order_type"; "code"; "trd_side"] in
  (_ <- refuse_if (remark_disagrees row order)
          (RecoveryEvidenceError "Broker remark disagrees with persisted tag") ;;
   _ <- refuse_if (existsb (field_disagrees final order) keys)
          (RecoveryEvidenceError "Broker observations disagree or lack required fields") ;;
   _ <- iterM (number_agrees final order) ["qty"; "price"; "dealt_qty"; "dealt_avg_price"] ;;
   if is_combo row then
     bad <- legs_differ (broker_legs order) (broker_legs final) ;;
     refuse_if bad (RecoveryEvidenceError "Broker combo observations disagree")
   else Ok tt)%py.

Definition real_status_and_fill_ok (row : view) (final : dict) (qty filled average : dec) : bool :=
  str_in (TERMINAL_BROKER ++ ACTIVE_BROKER) (dget_none "order_status" final)
  && d_gtb qty d_zero && negb (d_ltb filled d_zero) && negb (d_gtb filled qty)
  && (is_combo row || negb (d_ltb average d_zero)).

Definition some_text (v : val) : bool := match v with VStr s => nonempty s | _ => false end.

Definition expected_of (row : view) : dict :=
  val_dict (default (request (ident (v_row row))) (merged_request (v_row row))).

(** One optional field of the request in every observation. *)
Definition field_observed (expected : dict) (matches : list dict) (name : string) : result unit :=
  match dget_none name expected with
  | VNone => Ok tt
  | value =>
      iterM (fun order =>
        match dget_none name order with
        | VNone => evidence_error "Missing broker evidence"
        | observed =>
            (same <- (if mem name ["aux_price"; "trail_value"; "trail_spread"]
                      then x <- number observed ;; y <- number value ;; Ok (d_eqb x y)
                      else Ok (py_eqb observed value)) ;;
             refuse_if (negb same) (RecoveryEvidenceError "Broker field disagrees with request"))%py
        end) matches
  end.

Definition PLACEMENT_FIELDS : list string :=
  ["time_in_force"; "session"; "aux_price"; "trail_type"; "trail_value"; "trail_spread"].

Definition refuse_when (b : result bool) (msg : string) : result unit :=
  (bad <- b ;; refuse_if bad (RecoveryEvidenceError msg))%py.

(** The branch of placements. *)
Definition placement_confirmed (row : view) (final : dict) (matches : list dict) (qty price : dec) : result unit :=
  let expected := expected_of row in
  (_ <- refuse_when (any_of [fun _ => number_differs qty "qty" expected;
                             fun _ => number_differs price "price" expected;
                             fun _ => differs_from "order_type" final expected])
          "Correlated placement disagrees with request" ;;
   _ <- (if is_combo row then Ok tt
         else refuse_when (any_of [fun _ => differs_from "code" final (request_of row);
                                   fun _ => differs_from "trd_side" final (request_of row)])
                "Correlated placement disagrees with request") ;;
   _ <- (if is_combo row
         then refuse_when (legs <- ditem "combo_legs" expected ;; legs_differ (broker_legs final) legs)
                "Correlated combo legs disagree with request"
         else Ok tt) ;;
   iterM (field_observed expected matches) PLACEMENT_FIELDS)%py.

(** The other branches: what a mutation's live target shows. *)
Definition patch_missing (expected final : dict) : result bool :=
  any_of (map (fun name (_ : unit) =>
    match dget_none name expected with
    | VNone => Ok false
    | value => (x <- number value ;; y <- number (dget_none name final) ;; Ok (negb (d_eqb x y)))%py
    end) ["qty"; "price"]).

Definition real_resolution (row : view) (final : dict) (matches : list dict) (qty price : dec)
    : result (option string) :=
  let r := v_row row in
  let status := dget_none "order_status" final in
  let mutation := upper (strip (py_str (dget_or "modify_order_op" (VStr "CANCEL") (request_of row)))) in
  if is_placement (kind (ident r)) then
    (_ <- placement_confirmed row final matches qty price ;; Ok (Some "BROKER_CONFIRMED"))%py
  else if str_in TERMINAL_BROKER status then Ok (Some "TERMINAL_ACCOUNTED")
  else if bool_decide (kind (ident r) = CANCEL) then Ok None
  else if bool_decide (mutation = "DISABLE") then
    Ok (if is_str_eq "DISABLED" status then Some "CURRENT_STATE_ACCOUNTED" else None)
  else if mem mutation ["NORMAL"; "ENABLE"] then
    if bool_decide (mutation = "ENABLE") && is_str_eq "DISABLED" status then Ok None
    else (missing <- patch_missing (expected_of row) final ;;
          Ok (if missing then None else Some "CURRENT_STATE_ACCOUNTED"))%py
  else Ok None.

(** [_account] *)
Definition _account (row : view) (matches : list dict) (positions : val -> result val)
    : result (option (dict * dict * string)) :=
  let r := v_row row in
  let acc := account (ident r) in
  match matches with
  | [] => evidence_error "Correlation identifies multiple broker orders"
  | final :: _ =>
      (_ <- refuse_if (negb (Nat.eqb (length (remove_dups (map order_id_of matches))) 1))
              (RecoveryEvidenceError "Correlation identifies multiple broker orders") ;;
       _ <- iterM (real_consistent row final) matches ;;
       _ <- refuse_if (set_text (broker_order_id r)
                       && negb (bool_decide (broker_order_id r = Some (order_id_of final))))
              (RecoveryEvidenceError "Tag disagrees with recorded broker identity") ;;
       qty <- number (dget_none "qty" final) ;;
       price <- number (dget_none "price" final) ;;
       filled <- number (dget_none "dealt_qty" final) ;;
       average <- number (dget_none "dealt_avg_price" final) ;;
       _ <- refuse_if (negb (real_status_and_fill_ok row final qty filled average))
              (RecoveryEvidenceError "Invalid broker status or fill evidence") ;;
       _ <- refuse_if (negb (is_combo row)
                       && (negb (some_text (dget_none "code" final)) || negb (some_text (dget_none "trd_side" final))))
              (RecoveryEvidenceError "Missing REAL instrument/side evidence") ;;
       resolution <- real_resolution row final matches qty price ;;
       match resolution with
       | None => Ok None
       | Some resolution =>
           let status := dget_none "order_status" final in
           codes <- (if is_combo row
                     then legs <- bind (ditem "combo_legs" (expected_of row)) _leg_identity ;; Ok (map li_code legs)
                     else Ok [py_str (dget_none "code" final)]) ;;
           current <- _positions acc positions codes ;;
           let facts :=
             [("acc_id", VStr acc); ("trd_env", VStr "REAL"); ("broker_status", status);
              ("filled_quantity", VStr (d_str filled)); ("average_fill_price", VStr (d_str average));
              ("remaining_executable_quantity",
               VStr (if str_in TERMINAL_BROKER status then "0"
                     else d_str (d_add 28 qty (Dec (negb (d_neg filled)) (d_coef filled) (d_exp filled)))));
              ("current_positions", VDict current);
              ("mutation_success_proven", VBool (is_placement (kind (ident r))))] in
           let facts :=
             if is_combo row then facts
             else facts ++ [("code", dget_none "code" final);
                            ("current_symbol_position",
                             dget_none (py_str (dget_none "code" final)) current)] in
           Ok (Some (final, facts, resolution))
       end)%py
  end.

(** ** The check *)

Definition unmarked_admission (row : view) : bool :=
  bool_decide (state (v_row row) = ADMITTED) && negb (marker (v_row row)).

Definition real_found (out : string) (details : dict) (res : option string) (rec facts : option dict) : finding :=
  found out details CHECK_INTERVAL res rec facts.

Section check.
Context `{SN : SessionNames}.

(** The examination: no query for an admission without a marker; otherwise
    [ExecutionStoreError] passes and any other failure is the outcome [ERROR]. *)
Definition examine (_ : io) (w : check_answers) (row : view) : SE paper finding := fun y =>
  let d0 := [("orders", VList [])] in
  let caught (e : exn) (details : dict) : result finding * paper :=
    if is_store_error e then (Err e, y) else (Ok (real_found "ERROR" details None None None), y) in
  if unmarked_admission row then
    (Ok {| f_outcome := "NOT_DISPATCHED";
           f_details := dset "reason" (VStr "Durable admission has no SDK dispatch marker") d0;
           f_delay := CHECK_INTERVAL; f_resolution := Some "NOT_DISPATCHED"; f_receipt := None;
           f_facts := None |}, y)
  else
    match bind (_observations row (ca_current w) (ca_history w)) (_matches row) with
    | Err e => caught e d0
    | Ok matches =>
        let d1 := dset "correlated_order_seen" (VBool (negb (bool_decide (matches = [])))) d0 in
        let orders := VList (map VDict matches) in
        match json_dumps orders with
        | Err e => caught e d1
        | Ok _ =>
            let d2 := dset "orders" orders d1 in
            if bool_decide (matches = []) then (Ok (real_found "NOT_FOUND" d2 None None None), y)
            else match _account row matches (ca_positions w) with
                 | Err e => caught e d2
                 | Ok None => (Ok (real_found "TARGET_PENDING" d2 None None None), y)
                 | Ok (Some (receipt, facts, resolution)) =>
                     (Ok (real_found "FOUND" d2 (Some resolution) (Some receipt) (Some facts)), y)
                 end
        end
    end.

(** [RealRecovery.check] and [run_once] *)
Definition check : (nat -> io) -> check_answers -> string -> SE paper reply :=
  checking (fun _ => real_result) examine.
Definition run_once := one_pass check.
End check.

(** ** Recovery never sends *)

Section recovery.
Context `{SN : SessionNames}.

(** An examination only reads. *)
Lemma examine_reads i w row y r y' : examine i w row y = (r, y') -> y' = y.
Proof.
  unfold examine. destruct (unmarked_admission row); [by intros [= _ <-]|]. intros H.
  destruct (bind _ _) as [matches|e]; [|destruct (is_store_error e); by simplify_eq].
  destruct (json_dumps _); [|destruct (is_store_error e); by simplify_eq].
  destruct (bool_decide _); [by simplify_eq|].
  destruct (_account _ _ _) as [[[[? ?] ?]|]|e]; [| |destruct (is_store_error e)]; by simplify_eq.
Qed.

Lemma unmarked_real_check i w id : unmarked (check i w id).
Proof.
  apply unmarked_checking; [intros _ row; apply unmarked_real_result|].
  intros j a row y r y' ->%examine_reads. split; [constructor|done].
Qed.
End recovery.

(** Recovery is read-only towards the broker.  A pass of either recovery
    worker, whatever it is answered and wherever the journal fails, makes no
    broker call and writes no dispatch marker: it only makes journal calls. *)
Theorem recovery_never_sends `{SN : SessionNames} i now w stops y :
  (let '(_, y') := run_once i now w stops y in y_calls y' = y_calls y /\ runs (y_store y) [] (y_store y'))
  /\ (let '(_, y') := PaperRecovery.run_once i now w stops y in
      y_calls y' = y_calls y /\ runs (y_store y) [] (y_store y')).
Proof.
  split.
  - destruct (run_once i now w stops y) as [r y'] eqn:H.
    by destruct (unmarked_pass check i now w stops (fun j a id => unmarked_real_check j a id) _ _ _ H).
  - destruct (PaperRecovery.run_once i now w stops y) as [r y'] eqn:H.
    by destruct (unmarked_pass _ i now w stops (fun j a id => unmarked_check j a id) _ _ _ H).
Qed.

(** ** What a check decides *)

(** The evidence behind a finding. *)
Definition real_grounded (w : check_answers) (row : view) (f : finding) : Prop :=
  match f_resolution f with
  | None => True
  | Some why =>
      (why = "NOT_DISPATCHED" /\ unmarked_admission row = true) \/
      exists obs matches receipt facts,
        _observations row (ca_current w) (ca_history w) = Ok obs /\ _matches row obs = Ok matches
        /\ _account row matches (ca_positions w) = Ok (Some (receipt, facts, why))
        /\ f_receipt f = Some receipt /\ f_facts f = Some facts
  end.

Lemma real_examine_grounded `{SN : SessionNames} i w row y f y' :
  examine i w row y = (Ok f, y') -> real_grounded w row f.
Proof.
  unfold examine, real_grounded. destruct (unmarked_admission row) eqn:Eu; [intros [= <- _]; by left|].
  intros H. destruct (bind _ _) as [matches|e] eqn:Eb; [|destruct (is_store_error e); by simplify_eq].
  apply bind_ok in Eb as (obs & Ho & Hm).
  destruct (json_dumps _); [|destruct (is_store_error e); by simplify_eq].
  destruct (bool_decide _); [by simplify_eq|].
  destruct (_account _ _ _) as [[[[receipt facts] res]|]|e] eqn:Ea;
    [| |destruct (is_store_error e)]; simplify_eq; try done.
  right. exists obs, matches, receipt, facts. by split_and!.
Qed.

(** The resolutions [_account] can give. *)
Definition ACCOUNTED : list string := ["BROKER_CONFIRMED"; "TERMINAL_ACCOUNTED"; "CURRENT_STATE_ACCOUNTED"].

Lemma real_resolution_accounted row final matches qty price res :
  real_resolution row final matches qty price = Ok (Some res) -> res ∈ ACCOUNTED.
Proof.
  unfold real_resolution. intros H.
  destruct (is_placement _); [apply bind_ok in H as ([] & _ & [= <-]); by left|].
  destruct (str_in _ _); [injection H as <-; right; by left|].
  destruct (bool_decide _); [done|]. destruct (bool_decide _).
  { destruct (is_str_eq _ _); [|done]. injection H as <-. right; right; by left. }
  destruct (mem _ _); [|done]. destruct (_ && _); [done|].
  apply bind_ok in H as (missing & _ & H). destruct missing; [done|]. injection H as <-. right; right; by left.
Qed.

(** Everything [_account] checked. *)
Lemma account_inv row matches positions receipt facts res :
  _account row matches positions = Ok (Some (receipt, facts, res)) ->
  exists ms qty price filled average, matches = receipt :: ms
    /\ (forall order, order ∈ matches -> order_id_of order = order_id_of receipt)
    /\ Forall (fun order => real_consistent row receipt order = Ok tt) matches
    /\ (set_text (broker_order_id (v_row row)) = true -> broker_order_id (v_row row) = Some (order_id_of receipt))
    /\ number (dget_none "qty" receipt) = Ok qty /\ number (dget_none "price" receipt) = Ok price
    /\ number (dget_none "dealt_qty" receipt) = Ok filled
    /\ real_status_and_fill_ok row receipt qty filled average = true
    /\ real_resolution row receipt matches qty price = Ok (Some res).
Proof.
  unfold _account. intros H. destruct matches as [|final ms]; [done|].
  apply bind_ok in H as ([] & Hone & H). apply refuse_if_ok in Hone.
  apply bind_ok in H as ([] & Hcons & H). apply iterM_ok in Hcons.
  apply bind_ok in H as ([] & Hid & H). apply refuse_if_ok in Hid.
  apply bind_ok in H as (qty & Hq & H). apply bind_ok in H as (price & Hp & H).
  apply bind_ok in H as (filled & Hf & H). apply bind_ok in H as (average & _ & H).
  apply bind_ok in H as ([] & Hst & H). apply refuse_if_ok in Hst. apply negb_false_iff in Hst.
  apply bind_ok in H as ([] & _ & H). apply bind_ok in H as (resolution & Hres & H).
  destruct resolution as [why|]; [|done]. apply bind_ok in H as (codes & _ & H).
  apply bind_ok in H as (current & _ & H).
  assert (final = receipt /\ why = res) as [-> ->] by (split; congruence).
  exists ms, qty, price, filled, average. split_and!; try done.
  - by apply one_identity.
  - intros Hs. rewrite Hs in Hid. by apply negb_false_iff, bool_decide_eq_true in Hid.
Qed.

Section decides.
Context `{SN : SessionNames}.

Lemma real_check_cases i w id y r y' :
  db_ok (s_db (y_store y)) -> check i w id y = (r, y') ->
  rows_kept y y' \/
  exists v f yb s1,
    row_view id (s_db (y_store y)) = Some v /\ real_grounded w v f /\ rows_kept y yb
    /\ record_recovery (i 5%nat) id (state (v_row v)) (ca_started w) (ca_completed w) (f_outcome f)
         (f_details f) (ca_completed w + seconds (f_delay f)) (f_resolution f) (f_receipt f) (f_facts f)
         (y_store yb) = (Ok tt, s1)
    /\ s_db (y_store y') = s_db s1.
Proof.
  intros Hok H. apply (checking_cases (fun _ => real_result) examine) in H
    as [?|(v & f & ya & yb & s1 & Hv & Hd & He & Hu & Hr & Hs)]; [by left| | | |done].
  - right. exists v, f, yb, s1. apply real_examine_grounded in He. by split_and!.
  - intros _ row y1 r1 y2. unfold real_result. destruct (_ !! _); by intros [= _ <-].
  - intros j a row y1 r1 y2 ->%examine_reads. by split.
Qed.

(** What a record with a resolution does to the row. *)
Lemma record_resolved i id obs started completed out details next why rec facts s s1 row r1 :
  record_recovery i id obs started completed out details next (Some why) rec facts s = (Ok tt, s1) ->
  operations (s_db s) !! id = Some row -> operations (s_db s1) !! id = Some r1 ->
  recovery_disposition r1 = Some why
  /\ exists v n d, v_row v = row /\ resolution_target (s_environment s) why v n rec facts = Ok (state r1, d).
Proof.
  intros H Hrow Hr1. apply record_cases in H
    as [[_ ?]|(row0 & c & ev & Hrow0 & _ & _ & _ & _ & _ & Hcase)]; [done|].
  destruct Hcase as [[? _]|(why0 & v & st & disp & a & rec' & oid & ost & [= <-] & _ & Hv & Ht & Hdb)]; [done|].
  assert (row0 = row) as -> by congruence. rewrite Hdb in Hr1. cbn in Hr1.
  rewrite !lookup_alter_eq, Hrow in Hr1. injection Hr1 as <-. split; [done|]. exists v, (negatives id (checked i c ev next id (s_db s))), disp. by split.
Qed.

(** C16 REAL recovery never concludes absence.  When a check gives a REAL
    operation a disposition, either the row was admitted and never marked, and is
    now refused; or complete, well-formed observations identify one
    broker order that [_account] accepted, and the row is reconciled or
    terminally accounted.  However often the broker shows nothing, the operation
    stays unaccounted for. *)
Theorem real_recovery_never_assumes_absence i w id y r y' row row' :
  db_ok (s_db (y_store y)) -> check i w id y = (r, y') ->
  operations (s_db (y_store y)) !! id = Some row -> operations (s_db (y_store y')) !! id = Some row' ->
  recovery_disposition row' <> recovery_disposition row ->
  (recovery_disposition row' = Some "NOT_DISPATCHED" /\ state row = ADMITTED /\ marker row = false
   /\ state row' = REFUSED) \/
  exists v obs receipt others facts why, row_view id (s_db (y_store y)) = Some v
    /\ _observations v (ca_current w) (ca_history w) = Ok obs /\ _matches v obs = Ok (receipt :: others)
    /\ _account v (receipt :: others) (ca_positions w) = Ok (Some (receipt, facts, why))
    /\ recovery_disposition row' = Some why /\ state row' ∈ [RECONCILED; TERMINAL_ACCOUNTED].
Proof.
  intros Hok H Hrow Hrow' Hne. apply real_check_cases in H
    as [[Ho _]|(v & f & yb & s1 & Hv & Hg & [Ho Hc] & Hrec & Hd)]; [| |done].
  { rewrite Ho, Hrow in Hrow'. by simplify_eq. }
  assert (Hvr : v_row v = row) by (unfold row_view in Hv; rewrite Hrow in Hv; by injection Hv as <-).
  rewrite Hd in Hrow'. unfold real_grounded in Hg. rewrite <-Ho in Hrow.
  destruct (f_resolution f) as [why|] eqn:Ef.
  2: { destruct Hne. destruct (record_row _ _ _ _ _ _ _ _ _ _ _ _ _ _ Hrec Hrow') as (_ & _ & Hres). by apply Hres. }
  destruct (record_resolved _ _ _ _ _ _ _ _ _ _ _ _ _ _ _ Hrec Hrow Hrow') as [Hwhy (v' & n & d & Hv' & Ht)].
  destruct Hg as [[-> Hu]|(obs & matches & receipt & facts & Hobs & Hm & Ha & Hr & Hf)].
  - left. unfold unmarked_admission in Hu. rewrite Hvr in Hu. bools. split_and!; try done.
    unfold resolution_target in Ht. rewrite bool_decide_eq_false_2, bool_decide_eq_true_2 in Ht by done.
    destruct (_ || _ || _); [done|]. by injection Ht as <- _.
  - right. pose proof Ha as Ha'. apply account_inv in Ha' as (ms & qty & price & filled & average & -> & Hinv).
    exists v, obs, receipt, ms, facts, why. split_and!; try done.
    destruct Hinv as (_ & _ & _ & _ & _ & _ & _ & Hres). apply real_resolution_accounted in Hres.
    unfold resolution_target in Ht. rewrite !bool_decide_eq_false_2 in Ht by (intros ->; unfold ACCOUNTED in Hres; set_solver).
    destruct (mem _ _); [|done]. destruct (_ || _); [done|]. injection Ht as <- _.
    destruct (bool_decide _); [right; left|left].
Qed.
End decides.

(** ** What a confirmed placement is *)

Lemma refuse_when_ok b msg : refuse_when b msg = Ok tt -> b = Ok false.
Proof. unfold refuse_when. intros H. apply bind_ok in H as (x & -> & H). by apply refuse_if_ok in H as ->. Qed.

(** No check of a chain that refused nothing was true. *)
Lemma any_of_none l : any_of l = Ok false -> Forall (fun c => c tt = Ok false) l.
Proof.
  induction l as [|c l IH]; simpl; intros H; [constructor|]. apply bind_ok in H as ([] & Hc & H); [done|].
  constructor; [done|by apply IH].
Qed.

(** The two values are the same field: numerically, or as values. *)
Definition same_field (name : string) (observed value : val) : Prop :=
  if mem name ["aux_price"; "trail_value"; "trail_spread"]
  then exists x y, number observed = Ok x /\ number value = Ok y /\ d_eqb x y = true
  else py_eqb observed value = true.

Lemma field_observed_ok expected matches name order :
  field_observed expected matches name = Ok tt -> dget_none name expected <> VNone -> order ∈ matches ->
  dget_none name order <> VNone /\ same_field name (dget_none name order) (dget_none name expected).
Proof.
  unfold field_observed, same_field. intros H Hv Hin.
  destruct (dget_none name expected) as [| | | | | |] eqn:Ev; [done|..];
    apply iterM_ok in H; rewrite Forall_forall in H; specialize (H order Hin);
    (destruct (dget_none name order) as [| | | | | |] eqn:Eo; [done|..]);
    (split; [done|]); apply bind_ok in H as (same & Hs & H); apply refuse_if_ok, negb_false_iff in H; subst same;
    (destruct (mem _ _); [|congruence]); apply bind_ok in Hs as (x & Hx & Hs); apply bind_ok in Hs as (y & Hy & Hs);
    exists x, y; (split_and!; [done|done|congruence]).
Qed.

(** The tag alone identified every match of a placement without an identifier. *)
Lemma real_matched_by_tag row obs matches order :
  is_placement (kind (ident (v_row row))) = true -> _matches row obs = Ok matches -> order ∈ matches ->
  order ∈ obs /\ (set_text (broker_order_id (v_row row)) = false ->
                  exists t, tag_of row = Some t /\ dget "remark" order = Some (VStr t)).
Proof.
  intros Hk Hm Hin. unfold _matches, target_of in Hm. rewrite Hk in Hm. injection Hm as <-.
  apply list_elem_of_In, List.filter_In in Hin as [Ho Hc]. split; [by apply list_elem_of_In|]. intros Hs.
  unfold correlated in Hc. rewrite Hs in Hc. simpl in Hc. destruct (tag_of row) as [t|]; [|done].
  exists t. split; [done|]. unfold is_str_eq, dget_none in Hc.
  destruct (dget "remark" order) as [[| | | |u| |]|]; simpl in Hc; bools; by subst.
Qed.

(** A REAL placement is confirmed only by an order that is the request.  When
    the observations of a placement, single-leg or combo, are accounted for, they
    all carry one broker identifier, which is the recorded one, or else all
    carry the operation's tag; the order has exactly the submitted
    quantity, price and type, the requested code and side, or leg by leg the
    requested legs; and each optional field of the request is shown by every
    observation with its value. *)
Theorem real_placement_confirmed_exactly row obs matches positions receipt facts res :
  _matches row obs = Ok matches -> is_placement (kind (ident (v_row row))) = true ->
  _account row matches positions = Ok (Some (receipt, facts, res)) ->
  let expected := expected_of row in
  res = "BROKER_CONFIRMED" /\ receipt ∈ obs
  /\ (forall order, order ∈ matches -> order_id_of order = order_id_of receipt)
  /\ (if set_text (broker_order_id (v_row row)) then broker_order_id (v_row row) = Some (order_id_of receipt)
      else forall order, order ∈ matches ->
             exists t, tag_of row = Some t /\ dget "remark" order = Some (VStr t))
  /\ (exists qty price, number (dget_none "qty" receipt) = Ok qty /\ number (dget_none "price" receipt) = Ok price
        /\ number_differs qty "qty" expected = Ok false /\ number_differs price "price" expected = Ok false
        /\ d_gtb qty d_zero = true)
  /\ differs_from "order_type" receipt expected = Ok false
  /\ (if is_combo row
      then exists legs ids, ditem "combo_legs" expected = Ok legs /\ _leg_identity legs = Ok ids
             /\ _leg_identity (broker_legs receipt) = Ok ids
      else differs_from "code" receipt (request_of row) = Ok false
           /\ differs_from "trd_side" receipt (request_of row) = Ok false)
  /\ forall name order, name ∈ PLACEMENT_FIELDS -> dget_none name expected <> VNone -> order ∈ matches ->
       dget_none name order <> VNone /\ same_field name (dget_none name order) (dget_none name expected).
Proof.
  intros Hm Hk H expected.
  apply account_inv in H as (ms & qty & price & filled & average & -> & Hone & _ & Hid & Hq & Hp & _ & Hst & Hres).
  unfold real_resolution in Hres. rewrite Hk in Hres. apply bind_ok in Hres as ([] & Hc & [= <-]).
  unfold placement_confirmed in Hc. apply bind_ok in Hc as ([] & Hnum & Hc).
  apply bind_ok in Hc as ([] & Hcode & Hc). apply bind_ok in Hc as ([] & Hlegs & Hf).
  apply refuse_when_ok, any_of_none in Hnum.
  apply Forall_cons in Hnum as [Hnq Hnum]. apply Forall_cons in Hnum as [Hnp Hnum].
  apply Forall_cons in Hnum as [Hty _]. apply iterM_ok in Hf. rewrite Forall_forall in Hf.
  split_and!; try done.
  - eapply real_matched_by_tag; [done|exact Hm|by left].
  - destruct (set_text _) eqn:Es; [by apply Hid|]. intros order Ho.
    by apply (real_matched_by_tag row obs (receipt :: ms) order Hk Hm Ho).
  - unfold real_status_and_fill_ok in Hst. bools. exists qty, price. by split_and!.
  - destruct (is_combo row).
    + apply refuse_when_ok in Hlegs. apply bind_ok in Hlegs as (legs & Hl & Hlegs).
      apply bind_ok in Hlegs as (a & Ha & Hlegs). apply bind_ok in Hlegs as (b & Hb & Hlegs).
      injection Hlegs as Heq. apply negb_false_iff, bool_decide_eq_true in Heq as ->. by exists legs, b.
    + apply refuse_when_ok, any_of_none in Hcode. apply Forall_cons in Hcode as [H1 Hcode].
      by apply Forall_cons in Hcode as [H2 _].
  - intros name order Hn Hv Ho. by apply (field_observed_ok expected (receipt :: ms) name order (Hf name Hn)).
Qed.

(** ** A concrete recovery, for the witnesses *)

Definition real_unknown : paper := r_exec (snd (real_sent timed_out (RetOk tt))).
Lemma real_unknown_ok : db_ok (s_db (y_store real_unknown)).
Proof.
  destruct (real_reachable_simulated true None (real_after timed_out (RetOk tt)) ltac:(done) (real_after_reachable _ _))
    as (m & calls & Hm & Hfile & _). destruct (reachable_ok "REAL" None _ ltac:(done) Hm) as [Hd _ _ _].
  rewrite Hfile in Hd. exact Hd.
Qed.

Definition real_broker_order : dict :=
  [("order_id", VStr "991"); ("remark", VStr "tag-1"); ("order_status", VStr "SUBMITTED");
   ("code", VStr "US.AAPL"); ("trd_side", VStr "BUY"); ("order_type", VStr "NORMAL");
   ("qty", VInt 5); ("price", VStr "187.50"); ("dealt_qty", VInt 0); ("dealt_avg_price", VInt 0);
   ("time_in_force", VStr "DAY"); ("session", VStr "N/A")].
Definition real_view : view := default demo_row (row_view "op-1" (s_db (y_store real_unknown))).
Definition real_check (orders : list val) : result reply * paper :=
  check calm (asked_at 50 orders) "op-1" real_unknown.
Definition real_row (y : paper) : oprow := default (v_row demo_row) (operations (s_db (y_store y)) !! "op-1").

Example real_absence_is_not_evidence :
  state (real_row (snd (real_check []))) = UNKNOWN_OUTCOME
  /\ recovery_disposition (real_row (snd (real_check []))) = None.
Proof. by vm_compute. Qed.

Lemma real_recovery_never_assumes_absence_witness :
  exists row', operations (s_db (y_store (snd (real_check [VDict real_broker_order])))) !! "op-1" = Some row'
    /\ state row' ∈ [RECONCILED; TERMINAL_ACCOUNTED].
Proof.
  exists (real_row (snd (real_check [VDict real_broker_order]))). split; [by vm_compute|].
  destruct (real_recovery_never_assumes_absence calm (asked_at 50 [VDict real_broker_order]) "op-1" real_unknown
    (fst (real_check [VDict real_broker_order])) (snd (real_check [VDict real_broker_order]))
    (real_row real_unknown) (real_row (snd (real_check [VDict real_broker_order]))) real_unknown_ok
    (surjective_pairing _)) as [(_ & Hs & _)|(v & obs & receipt & others & facts & why & _ & _ & _ & _ & _ & Hs)];
    [by vm_compute|by vm_compute|by vm_compute|by vm_compute in Hs|exact Hs].
Defined.

Lemma real_placement_confirmed_exactly_witness :
  exists receipt facts,
    _account real_view [real_broker_order] (fun _ => Ok (VList []))
    = Ok (Some (receipt, facts, "BROKER_CONFIRMED"))
    /\ dget_none "time_in_force" (expected_of real_view) = VStr "DAY"
    /\ same_field "time_in_force" (dget_none "time_in_force" receipt) (VStr "DAY").
Proof.
  destruct (_account real_view [real_broker_order] (fun _ => Ok (VList []))) as [[[[receipt facts] res]|]|e] eqn:E;
    [|by vm_compute in E|by vm_compute in E].
  destruct (real_placement_confirmed_exactly real_view [real_broker_order] [real_broker_order]
    (fun _ => Ok (VList [])) receipt facts res) as (Hres & Hin & _ & _ & _ & _ & _ & Hf);
    [by vm_compute|by vm_compute|exact E|].
  apply list_elem_of_singleton in Hin as ->. exists real_broker_order, facts. split; [by rewrite Hres|].
  split; [by vm_compute|]. refine (proj2 (Hf "time_in_force" real_broker_order _ _ _)); [by left|by vm_compute|by left].
Defined.
