(* ===== verification/Base64.v ===== *)
(** Python's [base64] on byte strings, as tools/kline_cursor.py uses it: a byte
    string is a [string] whose characters are the bytes. *)

From S2P Require Import Prelude PyStr.

(** The alphabet: [last] holds the last two characters. *)
Definition b64_char (url : bool) (v : Z) : ascii :=
  if v <? 26 then chr (65 + v)
  else if v <? 52 then chr (97 + (v - 26))
  else if v <? 62 then chr (48 + (v - 52))
  else if v =? 62 then (if url then "-" else "+")%char
  else (if url then "_" else "/")%char.

(** The standard alphabet read back. *)
Definition b64_value (c : ascii) : option Z :=
  let z := code c in
  if in_range 65 90 z then Some (z - 65)
  else if in_range 97 122 z then Some (z - 97 + 26)
  else if in_range 48 57 z then Some (z - 48 + 52)
  else if z =? 43 then Some 62
  else if z =? 47 then Some 63
  else None.

Definition pad : ascii := "=".

(** [b64encode], and [urlsafe_b64encode] with [url]. *)
Fixpoint b64encode (url : bool) (s : string) : string :=
  let ch := b64_char url in
  match s with
  | "" => ""
  | String a "" =>
      let x := code a in
      String (ch (x / 4)) (String (ch (x mod 4 * 16)) (String pad (String pad "")))
  | String a (String b "") =>
      let x := code a in let y := code b in
      String (ch (x / 4)) (String (ch (x mod 4 * 16 + y / 16)) (String (ch (y mod 16 * 4)) (String pad "")))
  | String a (String b (String c s)) =>
      let x := code a in let y := code b in let z := code c in
      String (ch (x / 4)) (String (ch (x mod 4 * 16 + y / 16)) (String (ch (y mod 16 * 4 + z / 64))
        (String (ch (z mod 64)) (b64encode url s))))
  end.

(** [binascii.a2b_base64]: the position in the group of four, the bits left over
    and the padding seen; other characters are skipped.  [None] is
    [binascii.Error]. *)
Fixpoint a2b (quad left pads : Z) (s : string) : option string :=
  match s with
  | "" => if quad =? 0 then Some "" else None
  | String c s =>
      if Ascii.eqb c pad then
        if (2 <=? quad) && (4 <=? quad + pads + 1) then Some ""
        else a2b quad left (if 2 <=? quad then pads + 1 else pads) s
      else match b64_value c with
           | None => a2b quad left pads s
           | Some v =>
               if quad =? 0 then a2b 1 v 0 s
               else if quad =? 1 then option_map (String (chr (left * 4 + v / 16))) (a2b 2 (v mod 16) 0 s)
               else if quad =? 2 then option_map (String (chr (left * 16 + v / 4))) (a2b 3 (v mod 4) 0 s)
               else option_map (String (chr (left * 64 + v))) (a2b 0 0 0 s)
           end
  end.

(** [s.translate] of the URL alphabet, and [urlsafe_b64decode]. *)
Fixpoint from_url (s : string) : string :=
  match s with
  | "" => ""
  | String c s => String (if Ascii.eqb c "-" then "+" else if Ascii.eqb c "_" then "/" else c)%char (from_url s)
  end.
Definition urlsafe_b64decode (s : string) : option string := a2b 0 0 0 (from_url s).

(** The pattern CPython 3.10 matches before a validating decode: alphabet
    characters and at most two padding characters at the end. *)
Fixpoint b64_only (s : string) : bool :=
  match s with
  | "" => true
  | String c s' =>
      match b64_value c with
      | Some _ => b64_only s'
      | None => bool_decide (s = "=") || bool_decide (s = "==")
      end
  end.

(** [b64decode(s, validate=True)] *)
Definition b64decode (s : string) : option string := if b64_only s then a2b 0 0 0 s else None.

Example b64_ex :
  map (b64encode false) [""; "f"; "fo"; "foo"; "foobar"] = [""; "Zg=="; "Zm8="; "Zm9v"; "Zm9vYmFy"]
  /\ map b64decode ["Zg=="; "Zg="; "Zm9v!"; "Zm9v"; "Z"] = [Some "f"; None; None; Some "foo"; None]
  /\ map urlsafe_b64decode ["Z m8="; "-_8="; "Zg==Zm9v"]
     = [Some "fo"; Some (String (chr 251) (String (chr 255) "")); Some "f"].
Proof. by vm_compute. Qed.

(** ** Round trips *)

Definition sextet (v : Z) : Prop := 0 <= v < 64.

(** A fact of every sextet, by cases. *)
Lemma sextet_cases (P : Z -> bool) : forallb P (map Z.of_nat (seq 0 64)) = true -> forall v, sextet v -> P v = true.
Proof.
  intros H v [? ?]. rewrite forallb_forall in H. apply H. apply in_map_iff. exists (Z.to_nat v).
  split; [lia|]. apply in_seq. lia.
Qed.

Lemma b64_value_char v : sextet v -> b64_value (b64_char false v) = Some v.
Proof.
  intros H. apply (sextet_cases (fun v => bool_decide (b64_value (b64_char false v) = Some v))) in H; [|done].
  by apply bool_decide_eq_true in H.
Qed.
Lemma b64_char_pad v : sextet v -> Ascii.eqb (b64_char false v) pad = false.
Proof. intros H. by apply (sextet_cases (fun v => negb (Ascii.eqb (b64_char false v) pad))), negb_true_iff in H. Qed.
Lemma from_url_char v : sextet v ->
  (if Ascii.eqb (b64_char true v) "-" then "+" else if Ascii.eqb (b64_char true v) "_" then "/"
   else b64_char true v)%char = b64_char false v.
Proof.
  intros H. apply (sextet_cases (fun v => bool_decide ((if Ascii.eqb (b64_char true v) "-" then "+"
    else if Ascii.eqb (b64_char true v) "_" then "/" else b64_char true v)%char = b64_char false v))) in H; [|done].
  by apply bool_decide_eq_true in H.
Qed.

Lemma code_range c : 0 <= code c < 256.
Proof. unfold code. pose proof (N_ascii_bounded c). lia. Qed.
Lemma chr_code c : chr (code c) = c.
Proof. unfold chr, code. by rewrite N2Z.id, ascii_N_embedding. Qed.

(** Recursion three bytes at a time. *)
Lemma triple_ind (P : string -> Prop) :
  P "" -> (forall a, P (String a "")) -> (forall a b, P (String a (String b ""))) ->
  (forall a b c s, P s -> P (String a (String b (String c s)))) -> forall s, P s.
Proof.
  intros H0 H1 H2 H3. fix IH 1. intros [|a [|b [|c s]]]; [exact H0|apply H1|apply H2|apply H3, IH].
Qed.

Ltac bits := unfold sextet; Z.to_euclidean_division_equations; lia.

(** One alphabet character of the input. *)
Lemma a2b_char quad left pads v s :
  sextet v ->
  a2b quad left pads (String (b64_char false v) s) =
    if quad =? 0 then a2b 1 v 0 s
    else if quad =? 1 then option_map (String (chr (left * 4 + v / 16))) (a2b 2 (v mod 16) 0 s)
    else if quad =? 2 then option_map (String (chr (left * 16 + v / 4))) (a2b 3 (v mod 4) 0 s)
    else option_map (String (chr (left * 64 + v))) (a2b 0 0 0 s).
Proof. intros H. cbn [a2b]. by rewrite b64_char_pad, b64_value_char. Qed.

Lemma chr_eq z c : z = code c -> chr z = c.
Proof. intros ->. apply chr_code. Qed.
Lemma a2b_two_pads left : a2b 2 left 0 (String pad (String pad "")) = Some "".
Proof. reflexivity. Qed.
Lemma a2b_one_pad left : a2b 3 left 0 (String pad "") = Some "".
Proof. reflexivity. Qed.

Lemma a2b_encode s : a2b 0 0 0 (b64encode false s) = Some s.
Proof.
  induction s as [|a|a b|a b c s IH] using triple_ind; [done|..];
    pose proof (code_range a); try pose proof (code_range b); try pose proof (code_range c); cbn [b64encode];
    repeat (rewrite a2b_char by bits; cbn [Z.eqb Pos.eqb]);
    rewrite ?a2b_two_pads, ?a2b_one_pad, ?IH; cbn [option_map];
    repeat (f_equal; []); repeat f_equal; apply chr_eq; bits.
Qed.

Lemma from_url_encode s : from_url (b64encode true s) = b64encode false s.
Proof.
  induction s as [|a|a b|a b c s IH] using triple_ind; [done|..];
    pose proof (code_range a); try pose proof (code_range b); try pose proof (code_range c);
    cbn [b64encode from_url]; rewrite !from_url_char by bits; [done|done|by rewrite IH].
Qed.

Lemma b64_only_encode s : b64_only (b64encode false s) = true.
Proof.
  induction s as [|a|a b|a b c s IH] using triple_ind; [done|..];
    pose proof (code_range a); try pose proof (code_range b); try pose proof (code_range c);
    cbn [b64encode b64_only]; rewrite !b64_value_char by bits; [done|done|exact IH].
Qed.

Lemma urlsafe_roundtrip s : urlsafe_b64decode (b64encode true s) = Some s.
Proof. unfold urlsafe_b64decode. by rewrite from_url_encode, a2b_encode. Qed.
Lemma b64_roundtrip s : b64decode (b64encode false s) = Some s.
Proof. unfold b64decode. by rewrite b64_only_encode, a2b_encode. Qed.

(** The text is ASCII, and not blank unless it is empty. *)
Lemma b64_char_ascii url v : sextet v -> is_ascii (b64_char url v) && negb (is_space (b64_char url v)) = true.
Proof. by apply (sextet_cases (fun v => is_ascii (b64_char url v) && negb (is_space (b64_char url v)))); destruct url. Qed.

Lemma b64_ascii url s : str_forall (fun c => is_ascii c && negb (is_space c)) (b64encode url s) = true.
Proof.
  induction s as [|a|a b|a b c s IH] using triple_ind; [done|..];
    pose proof (code_range a); try pose proof (code_range b); try pose proof (code_range c);
    cbn [b64encode str_forall]; rewrite !b64_char_ascii by bits; [done|done|exact IH].
Qed.
