(* ===== verification/JsonParse.v ===== *)
(** [json.loads], and that it reads back what [json.dumps] wrote.

    Strings are code points below 256: a text with another code point, raw or as
    an escape, has no representation and is refused here.  The interpreter's
    limits on recursion and on integer digits are not modelled. *)

From Stdlib Require Import SpecFloat.
From S2P Require Import Prelude PyStr PyFloat PyDec DecText DecParse PyVal JsonText.

(** ** Lexical parts *)

Definition is_ws (c : ascii) : bool :=
  let z := code c in (z =? 32) || (z =? 9) || (z =? 10) || (z =? 13).
Fixpoint skip_ws (s : string) : string :=
  match s with
  | String c s' => if is_ws c then skip_ws s' else s
  | "" => ""
  end.

Definition hex_value (c : ascii) : option Z :=
  let z := code c in
  if in_range 48 57 z then Some (z - 48)
  else if in_range 97 102 z then Some (z - 87)
  else if in_range 65 70 z then Some (z - 55)
  else None.

Definition simple_escape (c : ascii) : option ascii :=
  let z := code c in
  if (z =? 34) || (z =? 92) || (z =? 47) then Some c
  else if z =? 98 then Some (chr 8)
  else if z =? 102 then Some (chr 12)
  else if z =? 110 then Some (chr 10)
  else if z =? 114 then Some (chr 13)
  else if z =? 116 then Some (chr 9)
  else None.

Definition hex4 (a b c d : ascii) : option Z :=
  match hex_value a, hex_value b, hex_value c, hex_value d with
  | Some w, Some x, Some y, Some z => Some (((w * 16 + x) * 16 + y) * 16 + z)
  | _, _, _, _ => None
  end.

Definition cons_to (c : ascii) (r : option (string * string)) : option (string * string) :=
  match r with Some (s, rest) => Some (String c s, rest) | None => None end.

(** [scanstring], after the opening quote: the string and what follows it. *)
Fixpoint p_string (s : string) : option (string * string) :=
  match s with
  | "" => None
  | String c s1 =>
      if Ascii.eqb c quote_mark then Some ("", s1)
      else if Ascii.eqb c backslash then
        match s1 with
        | "" => None
        | String e s2 =>
            match simple_escape e with
            | Some c' => cons_to c' (p_string s2)
            | None =>
                match s2 with
                | String h1 (String h2 (String h3 (String h4 s3))) =>
                    if Ascii.eqb e "u" then
                      match hex4 h1 h2 h3 h4 with
                      | Some z => if z <? 256 then cons_to (chr z) (p_string s3) else None
                      | None => None
                      end
                    else None
                | _ => None
                end
            end
        end
      else if code c <? 32 then None
      else cons_to c (p_string s1)
  end.

(** The longest prefix of decimal digits. *)
Fixpoint span_digits (s : string) : string * string :=
  match s with
  | String c s' => if is_decimal c then let '(a, b) := span_digits s' in (String c a, b) else ("", s)
  | "" => ("", "")
  end.

(** The optional parts of a number: a fraction, and an exponent. *)
Definition p_fraction (s : string) : string * string :=
  match s with
  | String c s' =>
      if Ascii.eqb c "." then let '(ds, rest) := span_digits s' in
        if nonempty ds then (String c ds, rest) else ("", s)
      else ("", s)
  | "" => ("", "")
  end.
Definition p_exponent (s : string) : string * string :=
  match s with
  | String c s' =>
      if Ascii.eqb c "e" || Ascii.eqb c "E" then
        let '(sign, s'') := match s' with
                            | String d t => if Ascii.eqb d "+" || Ascii.eqb d "-" then (String d "", t) else ("", s')
                            | "" => ("", "") end in
        let '(ds, rest) := span_digits s'' in
        if nonempty ds then (String c (sign ++ ds), rest) else ("", s)
      else ("", s)
  | "" => ("", "")
  end.

(** The integer part: one zero, or digits that do not start with one. *)
Definition p_whole (s : string) : option (string * string) :=
  match span_digits s with
  | ("", _) => None
  | (String d ds, rest) => if Ascii.eqb d "0" then Some ("0", ds ++ rest) else Some (String d ds, rest)
  end.

Definition p_number (s : string) : option (val * string) :=
  let '(neg, s1) := match s with
                    | String c t => if Ascii.eqb c "-" then (true, t) else (false, s)
                    | "" => (false, "") end in
  '(ds, s2) ← p_whole s1;
  let '(frac, s3) := p_fraction s2 in
  let '(ex, rest) := p_exponent s3 in
  if nonempty frac || nonempty ex
  then f ← f_parse ((if neg then "-" else "") ++ ds ++ frac ++ ex); Some (VFloat f, rest)
  else Some (VInt (if neg then - int_of ds else int_of ds), rest).

(** A constant at the head of the text. *)
Definition literal (name : string) (v : val) (s : string) : option (val * string) :=
  if String.prefix name s
  then Some (v, String.substring (String.length name) (String.length s - String.length name) s) else None.

Definition or_else {A} (x y : option A) : option A := match x with Some a => Some a | None => y end.

Definition p_scalar (s : string) : option (val * string) :=
  or_else (literal "null" VNone s) (or_else (literal "true" (VBool true) s)
  (or_else (literal "false" (VBool false) s) (or_else (p_number s)
  (or_else (literal "NaN" (VFloat S754_nan) s) (or_else (literal "Infinity" (VFloat (S754_infinity false)) s)
           (literal "-Infinity" (VFloat (S754_infinity true)) s)))))).

(** ** Values

    [fuel] bounds the depth of calls; each consumes a character or is followed
    by one that does. *)
Fixpoint p_value (fuel : nat) (s : string) : option (val * string) :=
  match fuel with
  | O => None
  | S fuel =>
      match s with
      | String c s1 =>
          if Ascii.eqb c quote_mark then '(t, rest) ← p_string s1; Some (VStr t, rest)
          else if Ascii.eqb c "[" then
            match skip_ws s1 with
            | String d s2 => if Ascii.eqb d "]" then Some (VList [], s2) else p_items fuel [] (String d s2)
            | "" => None
            end
          else if Ascii.eqb c "{" then
            match skip_ws s1 with
            | String d s2 => if Ascii.eqb d "}" then Some (VDict [], s2) else p_members fuel [] (String d s2)
            | "" => None
            end
          else p_scalar s
      | "" => None
      end
  end
with p_items (fuel : nat) (acc : list val) (s : string) : option (val * string) :=
  match fuel with
  | O => None
  | S fuel =>
      '(v, rest) ← p_value fuel s;
      match skip_ws rest with
      | String c s1 =>
          if Ascii.eqb c "," then p_items fuel (acc ++ [v])%list (skip_ws s1)
          else if Ascii.eqb c "]" then Some (VList (acc ++ [v])%list, s1)
          else None
      | "" => None
      end
  end
with p_members (fuel : nat) (acc : dict) (s : string) : option (val * string) :=
  match fuel with
  | O => None
  | S fuel =>
      match s with
      | String q s1 =>
          if Ascii.eqb q quote_mark then
            '(k, rest) ← p_string s1;
            match skip_ws rest with
            | String c s2 =>
                if Ascii.eqb c ":" then
                  '(v, rest) ← p_value fuel (skip_ws s2);
                  match skip_ws rest with
                  | String c s3 =>
                      if Ascii.eqb c "," then p_members fuel (dset k v acc) (skip_ws s3)
                      else if Ascii.eqb c "}" then Some (VDict (dset k v acc), s3)
                      else None
                  | "" => None
                  end
                else None
            | "" => None
            end
          else None
      | "" => None
      end
  end.

(** [json.loads] of a text; [None] is [ValueError]. *)
Definition json_loads (s : string) : option val :=
  match p_value (2 * String.length s + 2) (skip_ws s) with
  | Some (v, rest) => if bool_decide (skip_ws rest = "") then Some v else None
  | None => None
  end.

(** [bytes.decode()] of UTF-8, for code points below 256. *)
Fixpoint utf8_text (s : string) : option string :=
  match s with
  | "" => Some ""
  | String a s1 =>
      if code a <? 128 then option_map (String a) (utf8_text s1)
      else match s1 with
           | String b s2 =>
               if in_range 194 195 (code a) && in_range 128 191 (code b)
               then option_map (String (chr ((code a - 192) * 64 + (code b - 128)))) (utf8_text s2)
               else None
           | "" => None
           end
  end.

Definition q1 (s : string) : string := String quote_mark (s ++ String quote_mark "").

Example json_loads_ex :
  map json_loads
    [" {} "; "[1, -20 ,3.5e1]"; ("{" ++ q1 "a" ++ ":null," ++ q1 "a" ++ " : true}")%string; "01"; "[1,]"; "-"; "1.";
     q1 (String backslash "u00e9" ++ String backslash "n")]
  = [Some (VDict []); Some (VList [VInt 1; VInt (-20); VFloat (f_lit "35")]); Some (VDict [("a", VBool true)]);
     None; None; None; None; Some (VStr (String (chr 233) (String (chr 10) "")))].
Proof. by vm_compute. Qed.

(** ** Reading back a written text *)

(** A text that ends a value: nothing, or the character after an item. *)
Definition stops (rest : string) : bool :=
  match rest with
  | "" => true
  | String c _ => Ascii.eqb c "," || Ascii.eqb c "]" || Ascii.eqb c "}"
  end.

Lemma p_string_escape s rest : p_string (escape s ++ String quote_mark rest) = Some (s, rest).
Proof.
  induction s as [|c s IH]; [done|]. cbn [escape]. rewrite str_app_assoc.
  assert (H : forall t, p_string (escape_char c ++ t) = cons_to c (p_string t)).
  { intros t. destruct c as [[] [] [] [] [] [] [] []]; reflexivity. }
  by rewrite H, IH.
Qed.

Lemma span_digits_app ds rest :
  str_forall is_decimal ds = true ->
  match rest with String c _ => is_decimal c = false | "" => True end ->
  span_digits (ds ++ rest) = (ds, rest).
Proof.
  intros Hd Hr. induction ds as [|c ds IH]; simpl in *.
  - destruct rest as [|c rest]; [done|]. simpl. by rewrite Hr.
  - apply andb_true_iff in Hd as [-> Hd]. by rewrite IH.
Qed.

(** What follows a number that [stops]: neither a digit nor a part of one. *)
Lemma stops_number rest :
  stops rest = true ->
  match rest with String c _ => is_decimal c = false | "" => True end
  /\ p_fraction rest = ("", rest) /\ p_exponent rest = ("", rest).
Proof.
  destruct rest as [|c rest]; [done|]. simpl. intros H.
  assert (c = "," \/ c = "]" \/ c = "}")%char as [->|[->| ->]]; [|done..].
  apply orb_true_iff in H as [H|H]; [apply orb_true_iff in H as [H|H]|]; apply Ascii.eqb_eq in H; auto.
Qed.

Lemma p_whole_nat n rest :
  0 <= n -> stops rest = true -> p_whole (str_nat n ++ rest) = Some (str_nat n, rest).
Proof.
  intros Hn Hr. apply stops_number in Hr as [Hr _]. unfold p_whole.
  pose proof (str_nat_isdecimal n Hn) as Hd. unfold isdecimal in Hd. apply andb_true_iff in Hd as [Hne Hd].
  rewrite span_digits_app by done. unfold str_nat.
  destruct (decide (n = 0)) as [->|Hz]; [by vm_compute|].
  destruct (digits_head n) as (d & l & Hh & Hd0); [lia|]. rewrite Hh. cbn [map string_of].
  destruct (Ascii.eqb (digit_char d) "0") eqn:E; [|done]. exfalso. apply Ascii.eqb_eq in E.
  assert (0 <= d < 10) as Hr10.
  { pose proof (digits_spec n Hn) as (_ & Hl & _). rewrite Hh in Hl. by inversion Hl. }
  apply (f_equal char_digit) in E. rewrite char_digit_char in E by done. by vm_compute in E.
Qed.

Lemma p_number_int z rest : stops rest = true -> p_number (str_int z ++ rest) = Some (VInt z, rest).
Proof.
  intros Hr. pose proof (stops_number _ Hr) as (_ & Hf & He). unfold p_number, str_int.
  destruct (Z.ltb_spec z 0).
  - cbn -[p_whole p_fraction p_exponent str_nat int_of f_parse].
    rewrite (p_whole_nat (- z)) by (done || lia). cbn -[p_fraction p_exponent int_of str_nat f_parse].
    rewrite Hf, He. cbn -[int_of str_nat]. rewrite int_of_str by lia. f_equal. f_equal. f_equal. lia.
  - destruct (str_nat z ++ rest) as [|c t] eqn:E.
    { exfalso. pose proof (p_whole_nat z rest ltac:(lia) Hr) as Hw. by rewrite E in Hw. }
    assert (Ascii.eqb c "-" = false) as ->.
    { pose proof (str_nat_isdecimal z ltac:(lia)) as Hd. destruct (str_nat z) as [|c' t']; [done|].
      cbn in E. injection E as -> _. cbn in Hd. apply andb_true_iff in Hd as [Hd _].
      by apply decimal_not. }
    rewrite <-E, (p_whole_nat z) by (done || lia). cbn -[p_fraction p_exponent int_of str_nat f_parse].
    rewrite Hf, He. cbn -[int_of str_nat]. by rewrite int_of_str by lia.
Qed.

Lemma substring_app a b : String.substring (String.length a) (String.length b) (a ++ b) = b.
Proof. induction a as [|c a IH]; simpl; [apply substring_all|done]. Qed.
Lemma literal_app name v rest : literal name v (name ++ rest) = Some (v, rest).
Proof.
  unfold literal. rewrite prefix_app, length_app_str, Nat.add_comm, Nat.add_sub. by rewrite substring_app.
Qed.
Lemma literal_head c d name v s : c <> d -> literal (String c name) v (String d s) = None.
Proof. intros H. unfold literal. cbn. by destruct (Ascii.ascii_dec c d). Qed.

(** The first character of an integer is none of a constant's. *)
Lemma str_int_head z : exists c t, str_int z = String c t /\ (is_decimal c = true \/ c = "-"%char).
Proof.
  unfold str_int. destruct (z <? 0) eqn:E; [eauto|].
  pose proof (str_nat_isdecimal z ltac:(lia)) as Hd. destruct (str_nat z) as [|c t]; [done|].
  exists c, t. split; [done|left]. cbn in Hd. by apply andb_true_iff in Hd as [Hd _].
Qed.

Lemma p_scalar_int z rest : stops rest = true -> p_scalar (str_int z ++ rest) = Some (VInt z, rest).
Proof.
  intros Hr. unfold p_scalar. rewrite (p_number_int z rest Hr). cbn [or_else].
  destruct (str_int_head z) as (c & t & -> & Hc). cbn [String.append].
  rewrite !literal_head; [done|..]; intros <-; by destruct Hc as [Hc|Hc].
Qed.

(** ** Values *)

(** No float, and no key twice. *)
Fixpoint plain (v : val) : bool :=
  match v with
  | VNone | VBool _ | VInt _ | VStr _ => true
  | VFloat _ => false
  | VList l => forallb plain l
  | VDict d => bool_decide (NoDup (map fst d)) && forallb (fun kv => plain (snd kv)) d
  end.

Fixpoint items_text (l : list val) : string :=
  match l with
  | [] => ""
  | [v] => json_compact v
  | v :: l => json_compact v ++ "," ++ items_text l
  end.
Fixpoint members_text (d : dict) : string :=
  match d with
  | [] => ""
  | [(k, v)] => json_string k ++ ":" ++ json_compact v
  | (k, v) :: d => json_string k ++ ":" ++ json_compact v ++ "," ++ members_text d
  end.

Lemma json_list l : json_compact (VList l) = "[" ++ items_text l ++ "]".
Proof. reflexivity. Qed.
Lemma json_dict d : json_compact (VDict d) = "{" ++ members_text d ++ "}".
Proof. reflexivity. Qed.

(** A written value starts with neither white space nor a closing bracket. *)
Definition opens (s : string) : Prop :=
  exists c t, s = String c t /\ is_ws c = false /\ Ascii.eqb c "]" = false.

Lemma opens_app s t : opens s -> opens (s ++ t).
Proof. intros (c & u & -> & H). exists c, (u ++ t). by split. Qed.
Lemma skip_opens s : opens s -> skip_ws s = s.
Proof. intros (c & t & -> & H & _). simpl. by rewrite H. Qed.

Lemma decimal_bracket c : is_decimal c = true \/ c = "-"%char ->
  is_ws c = false /\ Ascii.eqb c "]" = false /\ Ascii.eqb c quote_mark = false
  /\ Ascii.eqb c "[" = false /\ Ascii.eqb c "{" = false.
Proof.
  intros [H| ->]; [|done]. split_and!; [|by apply decimal_not..].
  apply decimal_range in H. unfold is_ws. repeat (apply orb_false_iff; split); lia.
Qed.

Lemma value_opens v : plain v = true -> opens (json_compact v).
Proof.
  destruct v as [|[]|z| |s|l|d]; try done; intros _.
  - by exists "n"%char, "ull".
  - by exists "t"%char, "rue".
  - by exists "f"%char, "alse".
  - destruct (str_int_head z) as (c & t & E & Hc). apply decimal_bracket in Hc as (? & ? & _).
    exists c, t. by split_and!.
  - by eexists _, _.
  - rewrite json_list. by eexists _, _.
  - rewrite json_dict. by eexists _, _.
Qed.

(** A value read back, with what follows it. *)
Definition reads (v : val) : Prop :=
  forall rest fuel, stops rest = true -> (2 * String.length (json_compact v) <= fuel)%nat ->
  p_value fuel (json_compact v ++ rest) = Some (v, rest).

Lemma items_opens v l : plain v = true -> opens (items_text (v :: l)).
Proof. intros H. destruct l; simpl; [by apply value_opens|]. apply opens_app. by apply value_opens. Qed.

Lemma items_cons v w l : items_text (v :: w :: l) = json_compact v ++ String "," (items_text (w :: l)).
Proof. reflexivity. Qed.

Lemma p_items_read l : forall v acc rest fuel,
  Forall reads (v :: l) -> forallb plain (v :: l) = true ->
  (2 * String.length (items_text (v :: l)) + 1 <= fuel)%nat ->
  p_items fuel acc (items_text (v :: l) ++ String "]" rest) = Some (VList (acc ++ v :: l)%list, rest).
Proof.
  induction l as [|w l IH]; intros v acc rest [|fuel] Hr Hp Hf; [lia| |lia|];
    apply Forall_cons in Hr as [Hv Hr]; cbn [p_items].
  - cbn [items_text] in *. rewrite Hv by (done || lia). done.
  - rewrite items_cons, length_app_str in Hf. cbn [String.length] in Hf.
    rewrite items_cons, str_app_assoc, Hv by (done || lia). cbn [mbind option_bind String.append].
    cbn [forallb] in Hp. apply andb_true_iff in Hp as [_ Hp].
    assert (Hw : opens (items_text (w :: l))) by (apply items_opens; by apply andb_true_iff in Hp as [Hp _]).
    change (skip_ws (String "," ?x)) with (String "," x). cbn [Ascii.eqb Bool.eqb].
    rewrite skip_opens by by apply opens_app. rewrite IH by (done || lia). by rewrite <-app_assoc.
Qed.

Lemma members_cons k v kv d :
  members_text ((k, v) :: kv :: d) = json_string k ++ String ":" (json_compact v ++ String "," (members_text (kv :: d))).
Proof. reflexivity. Qed.
Lemma members_opens kv d : opens (members_text (kv :: d)).
Proof. destruct kv as [k v], d; by eexists _, _. Qed.

Lemma dset_fresh k v d : k ∉ map fst d -> dset k v d = (d ++ [(k, v)])%list.
Proof.
  induction d as [|[k' w] d IH]; simpl; intros H; [done|]. apply not_elem_of_cons in H as [Hk H].
  rewrite bool_decide_eq_false_2 by done. by rewrite IH.
Qed.

(** One key and its value, up to what follows. *)
Lemma p_member fuel acc k v after :
  reads v -> plain v = true -> stops after = true -> (2 * String.length (json_compact v) <= fuel)%nat ->
  p_members (S fuel) acc (json_string k ++ String ":" (json_compact v ++ after))
  = match skip_ws after with
    | String c s3 =>
        if Ascii.eqb c "," then p_members fuel (dset k v acc) (skip_ws s3)
        else if Ascii.eqb c "}" then Some (VDict (dset k v acc), s3)
        else None
    | "" => None
    end.
Proof.
  intros Hv Hp Hs Hf. unfold json_string. cbn [String.append p_members].
  rewrite Ascii.eqb_refl, str_app_assoc. cbn [String.append]. rewrite p_string_escape.
  cbn [mbind option_bind]. change (skip_ws (String ":" ?x)) with (String ":" x). cbn [Ascii.eqb Bool.eqb].
  rewrite skip_opens by (apply opens_app; by apply value_opens). by rewrite Hv.
Qed.

Lemma p_members_read d : forall kv acc rest fuel,
  Forall (fun kv => reads (snd kv)) (kv :: d) -> forallb (fun kv => plain (snd kv)) (kv :: d) = true ->
  NoDup (map fst (acc ++ kv :: d)) ->
  (2 * String.length (members_text (kv :: d)) + 1 <= fuel)%nat ->
  p_members fuel acc (members_text (kv :: d) ++ String "}" rest) = Some (VDict (acc ++ kv :: d)%list, rest).
Proof.
  induction d as [|kw d IH]; intros [k v] acc rest [|fuel] Hr Hp Hn Hf; [lia| |lia|];
    apply Forall_cons in Hr as [Hv Hr]; cbn [forallb fst snd] in *; apply andb_true_iff in Hp as [Hpv Hp];
    assert (Hk : k ∉ map fst acc)
      by (rewrite map_app in Hn; apply NoDup_app in Hn as (_ & Hn & _);
          intros Hin; apply (Hn k Hin); simpl; left).
  - cbn [members_text] in *. rewrite !length_app_str in Hf. cbn [String.length String.append] in Hf.
    rewrite str_app_assoc. cbn [String.append]. rewrite p_member by (done || lia).
    change (skip_ws (String "}" ?x)) with (String "}" x). cbn [Ascii.eqb Bool.eqb]. by rewrite dset_fresh.
  - rewrite members_cons, length_app_str in Hf. cbn [String.length] in Hf. rewrite length_app_str in Hf.
    cbn [String.length] in Hf.
    rewrite members_cons, str_app_assoc. cbn [String.append]. rewrite str_app_assoc.
    rewrite p_member by (done || lia). cbn [String.append].
    change (skip_ws (String "," ?x)) with (String "," x). cbn [Ascii.eqb Bool.eqb].
    rewrite skip_opens by (apply opens_app, members_opens). rewrite dset_fresh by done.
    assert (Happ : (acc ++ (k, v) :: kw :: d = (acc ++ [(k, v)]) ++ kw :: d)%list) by (by rewrite <-app_assoc).
    rewrite IH; [by rewrite Happ|done|done|by rewrite <-Happ|lia].
Qed.

Lemma p_value_other fuel c s :
  Ascii.eqb c quote_mark = false -> Ascii.eqb c "[" = false -> Ascii.eqb c "{" = false ->
  p_value (S fuel) (String c s) = p_scalar (String c s).
Proof. intros H1 H2 H3. cbn [p_value]. by rewrite H1, H2, H3. Qed.

Lemma json_text_nonempty v : plain v = true -> (1 <= String.length (json_compact v))%nat.
Proof. intros (c & t & -> & _)%value_opens. simpl. lia. Qed.

Lemma Forall_reads {A} (f : A -> val) l :
  Forall (fun a => plain (f a) = true -> reads (f a)) l -> forallb (fun a => plain (f a)) l = true ->
  Forall (fun a => reads (f a)) l.
Proof.
  induction 1 as [|a l Ha _ IH]; intros Hp; [constructor|]. cbn [forallb] in Hp.
  apply andb_true_iff in Hp as [? ?]. constructor; auto.
Qed.

Lemma plain_reads v : plain v = true -> reads v.
Proof.
  induction v as [|b|z|f|s|l IH|d IH] using val_ind'; intros Hp rest [|fuel] Hs Hf;
    try (by exfalso; pose proof (json_text_nonempty _ Hp); lia).
  - change (json_compact VNone) with "null". cbn [String.append]. rewrite p_value_other by done.
    unfold p_scalar.
    pose proof (literal_app "null" VNone rest) as H. cbn [String.append] in H. by rewrite H.
  - destruct b; cbn [json_compact json_text String.append]; rewrite p_value_other by done; unfold p_scalar;
      rewrite literal_head by done; cbn [or_else].
    + pose proof (literal_app "true" (VBool true) rest) as H. cbn [String.append] in H. by rewrite H.
    + rewrite literal_head by done. cbn [or_else].
      pose proof (literal_app "false" (VBool false) rest) as H. cbn [String.append] in H. by rewrite H.
  - change (json_compact (VInt z)) with (str_int z). destruct (str_int_head z) as (c & t & E & Hc).
    apply decimal_bracket in Hc as (_ & _ & H1 & H2 & H3). rewrite <-(p_scalar_int z rest Hs), E.
    cbn [String.append]. by rewrite p_value_other.
  - done.
  - change (json_compact (VStr s)) with (json_string s). unfold json_string. cbn [String.append p_value].
    rewrite Ascii.eqb_refl, str_app_assoc. cbn [String.append]. by rewrite p_string_escape.
  - rewrite json_list, length_app_str in Hf. rewrite json_list. cbn [plain] in Hp.
    apply (Forall_reads (fun v => v)) in IH; [|done].
    rewrite length_app_str in Hf. cbn [String.length] in Hf. rewrite !str_app_assoc. cbn [String.append p_value].
    destruct l as [|v l]; [done|].
    assert (Hpv : plain v = true) by (cbn [forallb] in Hp; by apply andb_true_iff in Hp as [Hp _]).
    pose proof (items_opens v l Hpv) as Ho. change (Ascii.eqb "[" quote_mark) with false.
    change (Ascii.eqb "[" "[") with true. cbv iota.
    rewrite skip_opens by by apply opens_app.
    destruct (opens_app _ (String "]" rest) Ho) as (c & t & E & _ & Hb). rewrite E, Hb, <-E.
    by rewrite p_items_read by (done || lia).
  - rewrite json_dict, length_app_str in Hf. rewrite json_dict. cbn [plain] in Hp.
    apply andb_true_iff in Hp as [Hn Hp]. apply bool_decide_eq_true in Hn.
    apply (Forall_reads snd) in IH; [|done].
    rewrite length_app_str in Hf. cbn [String.length] in Hf. rewrite !str_app_assoc. cbn [String.append p_value].
    destruct d as [|kv d]; [done|]. pose proof (members_opens kv d) as Ho.
    change (Ascii.eqb "{" quote_mark) with false. change (Ascii.eqb "{" "[") with false.
    change (Ascii.eqb "{" "{") with true. cbv iota.
    rewrite skip_opens by by apply opens_app.
    destruct (opens_app _ (String "}" rest) Ho) as (c & t & E & _ & _). rewrite E.
    assert (Ascii.eqb c "}" = false) as ->.
    { destruct kv as [k v], d; cbn in E; injection E as <- _; done. }
    rewrite <-E. by rewrite p_members_read by (done || lia).
Qed.

(** Everything [json.dumps] writes without floats is read back. *)
Lemma json_roundtrip v : plain v = true -> json_loads (json_compact v) = Some v.
Proof.
  intros Hp. unfold json_loads. rewrite skip_opens by by apply value_opens.
  pose proof (plain_reads v Hp "" (2 * String.length (json_compact v) + 2)%nat eq_refl ltac:(lia)) as H.
  rewrite str_app_nil in H. rewrite H. done.
Qed.

(** The text is ASCII, so decoding its bytes changes nothing. *)
Lemma escape_ascii s : str_forall is_ascii (escape s) = true.
Proof.
  induction s as [|c s IH]; [done|]. cbn [escape]. rewrite str_forall_app, IH, andb_true_r.
  destruct c as [[] [] [] [] [] [] [] []]; reflexivity.
Qed.
Lemma json_string_ascii s : str_forall is_ascii (json_string s) = true.
Proof. unfold json_string. cbn [str_forall]. by rewrite str_forall_app, escape_ascii. Qed.

Lemma decimal_ascii s : str_forall is_decimal s = true -> str_forall is_ascii s = true.
Proof. apply str_forall_impl. apply is_decimal_ascii. Qed.

Lemma json_compact_ascii v : plain v = true -> str_forall is_ascii (json_compact v) = true.
Proof.
  induction v as [|b|z|f|s|l IH|d IH] using val_ind'; intros Hp; try done.
  - by destruct b.
  - change (json_compact (VInt z)) with (str_int z). unfold str_int.
    destruct (z <? 0) eqn:E; cbn [str_forall]; apply decimal_ascii.
    + pose proof (str_nat_isdecimal (- z) ltac:(lia)) as Hd. by apply andb_true_iff in Hd as [_ Hd].
    + pose proof (str_nat_isdecimal z ltac:(lia)) as Hd. by apply andb_true_iff in Hd as [_ Hd].
  - apply json_string_ascii.
  - rewrite json_list, !str_forall_app. cbn [plain] in Hp. apply andb_true_iff. split; [done|].
    apply andb_true_iff. split; [|done].
    induction IH as [|v l Hv _ IH]; [done|]. cbn [forallb] in Hp. apply andb_true_iff in Hp as [Hpv Hp].
    destruct l; [by apply Hv|]. rewrite items_cons, str_forall_app. cbn [str_forall].
    by rewrite Hv, IH.
  - rewrite json_dict, !str_forall_app. cbn [plain] in Hp. apply andb_true_iff in Hp as [_ Hp].
    apply andb_true_iff. split; [done|]. apply andb_true_iff. split; [|done].
    induction IH as [|[k v] d Hv _ IH]; [done|]. cbn [forallb snd] in Hp, Hv. apply andb_true_iff in Hp as [Hpv Hp].
    destruct d.
    + cbn [members_text]. rewrite !str_forall_app, json_string_ascii. cbn [str_forall]. by rewrite Hv.
    + rewrite members_cons, str_forall_app, json_string_ascii. cbn [str_forall andb].
      rewrite str_forall_app. cbn [str_forall]. by rewrite Hv, IH.
Qed.

Lemma utf8_ascii s : str_forall is_ascii s = true -> utf8_text s = Some s.
Proof.
  induction s as [|c s IH]; [done|]. cbn [str_forall utf8_text]. intros [Hc Hs]%andb_true_iff.
  unfold is_ascii in Hc. rewrite Hc, IH by done. done.
Qed.

(** ** The fuel is enough

    Every value takes at least one character, so that twice the length of the
    text always suffices, whatever the text. *)

Abbreviation slen := String.length.

Lemma skip_ws_len s : (slen (skip_ws s) <= slen s)%nat.
Proof. induction s as [|c s IH]; simpl; [lia|]. destruct (is_ws c); simpl; lia. Qed.

Lemma p_string_len s t rest : p_string s = Some (t, rest) -> (slen rest < slen s)%nat.
Proof.
  assert (H : forall n s t rest, (slen s <= n)%nat -> p_string s = Some (t, rest) -> (slen rest < slen s)%nat).
  2: { by apply (H (slen s)). }
  clear. induction n as [|n IH]; intros [|c s] t rest Hn H; simpl in Hn; try (done || lia). simpl in H.
  assert (Hc : forall u r, (slen u <= n)%nat -> cons_to r (p_string u) = Some (t, rest) -> (slen rest < slen u)%nat).
  { intros u r Hu E. unfold cons_to in E. destruct (p_string u) as [[u' r']|] eqn:Eu; [|done].
    injection E as _ <-. by apply (IH u u'). }
  destruct (Ascii.eqb c quote_mark); [injection H as _ <-; simpl; lia|].
  destruct (Ascii.eqb c backslash).
  - destruct s as [|e s2]; [done|]. simpl in Hn. destruct (simple_escape e) as [c'|].
    + apply Hc in H; simpl; lia.
    + destruct s2 as [|h1 [|h2 [|h3 [|h4 s3]]]]; try done. destruct (Ascii.eqb e "u"); [|done].
      destruct (hex4 h1 h2 h3 h4) as [z|]; [|done]. destruct (z <? 256); [|done]. simpl in Hn.
      apply Hc in H; simpl; lia.
  - destruct (code c <? 32); [done|]. apply Hc in H; simpl; lia.
Qed.

Lemma span_digits_len s a b : span_digits s = (a, b) -> slen s = (slen a + slen b)%nat.
Proof.
  revert a; induction s as [|c s IH]; simpl; intros a H; [by injection H as <- <-|].
  destruct (is_decimal c); [|by injection H as <- <-].
  destruct (span_digits s) as [a' b'] eqn:E. injection H as <- <-. simpl. by rewrite (IH a').
Qed.

Lemma p_fraction_len s a b : p_fraction s = (a, b) -> (slen b <= slen s)%nat.
Proof.
  destruct s as [|c s]; simpl; [by intros [= _ <-]|]. destruct (Ascii.eqb c "."); [|by intros [= _ <-]].
  destruct (span_digits s) as [d r] eqn:E. apply span_digits_len in E.
  destruct (nonempty d); intros [= _ <-]; simpl; lia.
Qed.
Lemma p_exponent_len s a b : p_exponent s = (a, b) -> (slen b <= slen s)%nat.
Proof.
  destruct s as [|c s]; simpl; [by intros [= _ <-]|]. destruct (_ || _); [|by intros [= _ <-]].
  assert (Hs : exists sign t, match s with String d t => if Ascii.eqb d "+" || Ascii.eqb d "-" then (String d "", t) else ("", s)
    | "" => ("", "") end = (sign, t) /\ (slen t <= slen s)%nat).
  { destruct s as [|d t]; [by exists "", ""|]. destruct (_ || _); eexists _, _; (split; [done|simpl; lia]). }
  destruct Hs as (sign & t & -> & Ht). destruct (span_digits t) as [d r] eqn:E. apply span_digits_len in E.
  destruct (nonempty d); intros [= _ <-]; simpl; lia.
Qed.

Lemma p_whole_len s a b : p_whole s = Some (a, b) -> (slen b < slen s)%nat.
Proof.
  unfold p_whole. destruct (span_digits s) as [[|d ds] rest] eqn:E; [done|]. apply span_digits_len in E.
  simpl in E. destruct (Ascii.eqb d "0"); intros [= _ <-]; rewrite ?length_app_str; lia.
Qed.

Lemma p_number_len s v rest : p_number s = Some (v, rest) -> (slen rest < slen s)%nat.
Proof.
  unfold p_number. intros H.
  assert (Hs : exists neg s1, match s with String c t => if Ascii.eqb c "-" then (true, t) else (false, s)
    | "" => (false, "") end = (neg, s1) /\ (slen s1 <= slen s)%nat).
  { destruct s as [|c t]; [by exists false, ""|]. destruct (Ascii.eqb c "-"); eexists _, _; (split; [done|simpl; lia]). }
  destruct Hs as (neg & s1 & E & Hs). rewrite E in H. destruct (p_whole s1) as [[ds s2]|] eqn:Ew; [|done].
  apply p_whole_len in Ew. cbn [mbind option_bind] in H.
  destruct (p_fraction s2) as [frac s3] eqn:Ef. apply p_fraction_len in Ef.
  destruct (p_exponent s3) as [ex s4] eqn:Ex. apply p_exponent_len in Ex.
  destruct (_ || _); [destruct (f_parse _); [|done]|]; injection H as _ <-; lia.
Qed.

Lemma literal_len c name v s w rest : literal (String c name) v s = Some (w, rest) -> (slen rest < slen s)%nat.
Proof.
  unfold literal. destruct (String.prefix (String c name) s) eqn:E; [|done]. intros [= _ <-].
  destruct s as [|d s]; [done|].
  assert (Hsub : forall n m t, (slen (String.substring n m t) <= m)%nat).
  { clear. intros n m t. revert n m. induction t as [|a t IH]; intros [|n] [|m]; simpl; try lia; [specialize (IH 0%nat m)|specialize (IH n 0%nat)|specialize (IH n (S m))]; lia. }
  eapply Nat.le_lt_trans; [apply Hsub|]. simpl. lia.
Qed.

Lemma p_scalar_len s v rest : p_scalar s = Some (v, rest) -> (slen rest < slen s)%nat.
Proof.
  unfold p_scalar, or_else. intros H.
  repeat match type of H with
  | match ?x with Some _ => _ | None => _ end = _ => destruct x as [[? ?]|] eqn:?
  end; simplify_eq; eauto using literal_len, p_number_len.
Qed.

(** Each reader leaves strictly less than it was given. *)
Definition shrinks {A} (p : string -> option (A * string)) : Prop :=
  forall s a rest, p s = Some (a, rest) -> (slen rest < slen s)%nat.

Lemma skip_cons s c t : skip_ws s = String c t -> (slen t < slen s)%nat.
Proof. intros H. pose proof (skip_ws_len s) as L. rewrite H in L. simpl in L. lia. Qed.

Lemma values_shrink fuel :
  shrinks (p_value fuel) /\ (forall acc, shrinks (p_items fuel acc)) /\ (forall acc, shrinks (p_members fuel acc)).
Proof.
  induction fuel as [|fuel (Hv & Hi & Hm)]; [by split_and!; intros ? ? ?|]. split_and!.
  - intros [|c s] v rest H; [done|]. cbn [p_value] in H.
    destruct (Ascii.eqb c quote_mark).
    { destruct (p_string s) as [[t r]|] eqn:E; [|done]. apply p_string_len in E. injection H as _ <-. simpl. lia. }
    destruct (Ascii.eqb c "[").
    { destruct (skip_ws s) as [|d s2] eqn:E; [done|]. apply skip_cons in E.
      destruct (Ascii.eqb d "]"); [injection H as _ <-; simpl; lia|]. apply Hi in H. simpl in *. lia. }
    destruct (Ascii.eqb c "{"); [|by apply p_scalar_len in H].
    destruct (skip_ws s) as [|d s2] eqn:E; [done|]. apply skip_cons in E.
    destruct (Ascii.eqb d "}"); [injection H as _ <-; simpl; lia|]. apply Hm in H. simpl in *. lia.
  - intros acc s v rest H. cbn [p_items] in H. destruct (p_value fuel s) as [[w r]|] eqn:E; [|done].
    apply Hv in E. cbn [mbind option_bind] in H. destruct (skip_ws r) as [|c s1] eqn:Er; [done|]. apply skip_cons in Er.
    destruct (Ascii.eqb c ","); [apply Hi in H; pose proof (skip_ws_len s1); lia|].
    destruct (Ascii.eqb c "]"); [injection H as _ <-; lia|done].
  - intros acc [|q s] v rest H; [done|]. cbn [p_members] in H. destruct (Ascii.eqb q quote_mark); [|done].
    destruct (p_string s) as [[k r]|] eqn:E; [|done]. apply p_string_len in E. cbn [mbind option_bind] in H.
    destruct (skip_ws r) as [|c s2] eqn:Er; [done|]. apply skip_cons in Er. destruct (Ascii.eqb c ":"); [|done].
    pose proof (skip_ws_len s2) as L2. destruct (p_value fuel (skip_ws s2)) as [[w r2]|] eqn:Ev; [|done].
    apply Hv in Ev. cbn [mbind option_bind] in H. destruct (skip_ws r2) as [|c3 s3] eqn:E3; [done|].
    apply skip_cons in E3. simpl.
    destruct (Ascii.eqb c3 ","); [apply Hm in H; pose proof (skip_ws_len s3); lia|].
    destruct (Ascii.eqb c3 "}"); [injection H as _ <-; lia|done].
Qed.

Lemma values_fuel fuel : forall more,
  (forall s, (2 * slen s < fuel)%nat -> p_value fuel s = p_value (fuel + more) s)
  /\ (forall acc s, (2 * slen s + 1 < fuel)%nat -> p_items fuel acc s = p_items (fuel + more) acc s)
  /\ (forall acc s, (2 * slen s + 1 < fuel)%nat -> p_members fuel acc s = p_members (fuel + more) acc s).
Proof.
  induction fuel as [|fuel IH]; intros more; [split_and!; intros; lia|]. destruct (IH more) as (Hv & Hi & Hm).
  destruct (values_shrink fuel) as (Sv & _ & _). rewrite Nat.add_succ_l. split_and!.
  - intros [|c s] Hf; [done|]. cbn [p_value slen] in *.
    destruct (Ascii.eqb c quote_mark); [done|].
    destruct (skip_ws s) as [|d s2] eqn:E; [done|]. pose proof (skip_ws_len s) as L. rewrite E in L. cbn [slen] in L.
    by rewrite (Hi [] (String d s2)), (Hm [] (String d s2)) by (simpl; lia).
  - intros acc s Hf. cbn [p_items]. rewrite <-(Hv s) by lia.
    destruct (p_value fuel s) as [[w r]|] eqn:E; [|done]. apply Sv in E. cbn [mbind option_bind].
    destruct (skip_ws r) as [|c s1] eqn:Er; [done|]. apply skip_cons in Er. destruct (Ascii.eqb c ","); [|done].
    apply Hi. pose proof (skip_ws_len s1). lia.
  - intros acc [|q s] Hf; [done|]. cbn [p_members slen] in *. destruct (Ascii.eqb q quote_mark); [|done].
    destruct (p_string s) as [[k r]|] eqn:E; [|done]. apply p_string_len in E. cbn [mbind option_bind].
    destruct (skip_ws r) as [|c s2] eqn:Er; [done|]. apply skip_cons in Er. destruct (Ascii.eqb c ":"); [|done].
    pose proof (skip_ws_len s2) as L2. rewrite <-(Hv (skip_ws s2)) by lia.
    destruct (p_value fuel (skip_ws s2)) as [[w r2]|] eqn:Ev; [|done]. apply Sv in Ev. cbn [mbind option_bind].
    destruct (skip_ws r2) as [|c3 s3] eqn:E3; [done|]. apply skip_cons in E3. destruct (Ascii.eqb c3 ","); [|done].
    apply Hm. pose proof (skip_ws_len s3). lia.
Qed.

(** More fuel changes nothing, on any text. *)
Lemma json_loads_fuel s fuel :
  (2 * slen s + 2 <= fuel)%nat -> p_value (2 * slen s + 2) (skip_ws s) = p_value fuel (skip_ws s).
Proof.
  intros H. destruct (values_fuel (2 * slen s + 2)%nat (fuel - (2 * slen s + 2))) as (Hv & _).
  rewrite Hv by (pose proof (skip_ws_len s); lia). f_equal. lia.
Qed.
