(* ===== verification/KlineCursor.v ===== *)
(** tools/kline_cursor.py, and the paginated candle tool over it: cursors that
    carry the provider's token, the query it belongs to and the date range the
    query resolved to.

    The cursor's text is base64 of JSON; decoding covers texts of code points
    below 256 in UTF-8 without a byte-order mark. *)

From Stdlib Require Import SpecFloat.
From S2P Require Import Prelude PyStr PyFloat PyDec DecText DecParse PyVal Identity Validation JsonText Base64 JsonParse.

#[local] Open Scope list_scope.

Definition CURSOR_VERSION : Z := 1.
Definition MAX_CURSOR_CHARS : Z := 8192.
Definition BOUND_FILTERS : list string := ["code"; "ktype"; "start"; "end"; "max_count"; "autype"].
Definition DEFAULT_RANGE_DAYS : nat := 365.

(** ** Date ranges *)

(** [d + timedelta(days=1)] and [d - timedelta(days=1)]; [None] is
    [OverflowError]. *)
Definition next_day (d : date) : option date :=
  if day d <? month_days (year d) (month d) then Some {| year := year d; month := month d; day := day d + 1 |}
  else if month d <? 12 then Some {| year := year d; month := month d + 1; day := 1 |}
  else if year d <? 9999 then Some {| year := year d + 1; month := 1; day := 1 |}
  else None.
Definition prev_day (d : date) : option date :=
  if 1 <? day d then Some {| year := year d; month := month d; day := day d - 1 |}
  else if 1 <? month d
       then Some {| year := year d; month := month d - 1; day := month_days (year d) (month d - 1) |}
  else if 1 <? year d then Some {| year := year d - 1; month := 12; day := 31 |}
  else None.

(** [d + timedelta(days=n)] and [d - timedelta(days=n)] *)
Fixpoint days_from (step : date -> option date) (n : nat) (d : date) : result date :=
  match n with
  | O => Ok d
  | S n => match step d with Some d => days_from step n d | None => Err OverflowError end
  end.

(** Digits with leading zeros. *)
Fixpoint zero_padded (n : nat) (s : string) : string :=
  match n with
  | O => s
  | S n => if (String.length s <=? n)%nat then String "0" (zero_padded n s) else s
  end.
Definition isoformat (d : date) : string :=
  (zero_padded 4 (str_nat (year d)) ++ "-" ++ zero_padded 2 (str_nat (month d)) ++ "-"
   ++ zero_padded 2 (str_nat (day d)))%string.

(** [resolve_date_range]; [today] is the clock's date. *)
Definition resolve_dates (start stop : val) (today : date) : result (date * date) :=
  (let! (parsed_start, parsed_end) := validate_date_range start stop None in
   match parsed_start, parsed_end with
   | Some a, Some b => Ok (a, b)
   | None, Some b => a <- days_from prev_day DEFAULT_RANGE_DAYS b ;; Ok (a, b)
   | Some a, None => b <- days_from next_day DEFAULT_RANGE_DAYS a ;; Ok (a, b)
   | None, None => a <- days_from prev_day DEFAULT_RANGE_DAYS today ;; Ok (a, today)
   end)%py.
Definition resolve_date_range (start stop : val) (today : date) : result (string * string) :=
  (let! (a, b) := resolve_dates start stop today in Ok (isoformat a, isoformat b))%py.

(** ** Cursors *)

Definition envelope (token : string) (query : dict) (resolved : string * string) : val :=
  VDict [("v", VInt CURSOR_VERSION);
         ("q", VDict (map (fun name => (name, dget_none name query)) BOUND_FILTERS));
         ("r", VDict [("start", VStr (fst resolved)); ("end", VStr (snd resolved))]);
         ("k", VStr (b64encode false token))].

(** [encode_cursor] *)
Definition encode_cursor (token : string) (query : dict) (resolved : string * string) : string :=
  b64encode true (json_compact (sort_keys (envelope token query resolved))).

(** The envelope of a cursor's text; [None] for any of the errors caught. *)
Definition cursor_envelope (cursor : string) : option val :=
  if isascii cursor then
    bytes ← urlsafe_b64decode cursor; text ← utf8_text bytes; json_loads text
  else None.

Definition mismatched (bound query : dict) : list string :=
  List.filter (fun name => negb (py_eqb (dget_none name bound) (dget_none name query))) BOUND_FILTERS.

(** [decode_cursor] *)
Definition decode_cursor (cursor : val) (query : dict) : result (string * (string * string)) :=
  (text <- match cursor with
           | VStr s => if nonempty (strip s) then Ok s
                       else Err (CursorError "cursor must be a non-empty string from a previous page.")
           | _ => Err (CursorError "cursor must be a non-empty string from a previous page.")
           end ;;
   _ <- refuse_if (MAX_CURSOR_CHARS <? len text) (CursorError "it was not produced by this server.") ;;
   decoded <- match cursor_envelope text with
              | Some v => Ok v
              | None => Err (CursorError "cursor is malformed.")
              end ;;
   d <- match decoded with
        | VDict d => Ok d
        | _ => Err (CursorError "cursor does not contain a continuation envelope.")
        end ;;
   _ <- refuse_if (negb (py_eqb (dget_none "v" d) (VInt CURSOR_VERSION)))
          (CursorError "Start the query again without a cursor.") ;;
   let! (bound, resolved) := match dget_none "q" d, dget_none "r" d with
                             | VDict q, VDict r => Ok (q, r)
                             | _, _ => Err (CursorError "cursor is missing its bound query.")
                             end in
   token <- match dget_none "k" d with
            | VStr t => Ok t
            | _ => Err (CursorError "cursor is missing its continuation token.")
            end ;;
   _ <- refuse_if (negb (bool_decide (mismatched bound query = [])))
          (CursorError "cursor belongs to a different query and cannot continue this one") ;;
   range <- match dget_none "start" resolved, dget_none "end" resolved with
            | VStr a, VStr b => Ok (a, b)
            | _, _ => Err (CursorError "cursor is missing its resolved date range.")
            end ;;
   match b64decode token with
   | Some t => Ok (t, range)
   | None => Err (CursorError "cursor's continuation token is not decodable.")
   end)%py.

(** ** The paginated tool *)

Section pages.
(** The SDK's interval and adjustment names, and what the service answers to a
    query, a date range and a token: the rows and the next token. *)
Context (KLINE_TYPES ADJUSTMENT_TYPES : list string).
Definition service : Type := dict -> string * string -> option string -> result (list val * option string).

(** [validate_candle_filters] *)
Definition validate_candle_filters (ktype autype : val) : result unit :=
  (_ <- validate_choice ktype KLINE_TYPES ;; _ <- validate_choice autype ADJUSTMENT_TYPES ;; Ok tt)%py.

Definition kline_query (params : dict) : dict := map (fun name => (name, dget_none name params)) BOUND_FILTERS.

(** [get_historical_klines_page] *)
Definition get_historical_klines_page (today : date) (serve : service) (params : dict) (cursor : val)
    : result (list val * option string) :=
  (_ <- validate_candle_filters (dget_none "ktype" params) (dget_none "autype" params) ;;
   let query := kline_query params in
   let! (page_req_key, resolved) :=
     (if is_none cursor
      then r <- resolve_date_range (dget_none "start" params) (dget_none "end" params) today ;; Ok (None, r)
      else let! (t, r) := decode_cursor cursor query in Ok (Some t, r)) in
   let! (rows, next_token) := serve query resolved page_req_key in
   Ok (rows, option_map (fun t => encode_cursor t query resolved) next_token))%py.
End pages.

(** ** The resolved range *)

Lemma next_day_ordinal d d' :
  date_exists d = true -> next_day d = Some d' -> date_exists d' = true /\ ordinal d' = ordinal d + 1.
Proof.
  intros He. pose proof (date_exists_ok d He) as [Hm Hd]. unfold date_exists, in_range in *. bools.
  unfold next_day. destruct (Z.ltb_spec (day d) (month_days (year d) (month d))).
  { intros [= <-]. unfold ordinal. simpl. split; [|lia]. repeat (apply andb_true_iff; split); lia. }
  destruct (Z.ltb_spec (month d) 12).
  { intros [= <-]. unfold ordinal. simpl. pose proof (month_days_pos (year d) (month d + 1)).
    pose proof (month_offset_next (year d) (month d - 1) ltac:(lia)) as Hn.
    replace (month d - 1 + 1) with (month d) in Hn by lia. replace (month d + 1 - 1) with (month d) by lia.
    split; [|lia]. repeat (apply andb_true_iff; split); lia. }
  destruct (Z.ltb_spec (year d) 9999); [|done].
  intros [= <-]. split; [unfold date_exists, in_range; simpl; pose proof (month_days_pos (year d + 1) 1);
    repeat (apply andb_true_iff; split); lia|].
  pose proof (days_through_step (year d)) as Hs. unfold ordinal. simpl.
  replace (year d + 1 - 1) with (year d) by lia. assert (month d = 12) as Hm12 by lia. rewrite Hm12 in *.
  pose proof (month_offset_next (year d) 11 ltac:(lia)) as Hn. change (11 + 1) with 12 in Hn.
  change (Z.to_nat 12) with 12%nat in Hn. change (12 - 1) with 11. unfold days_through in Hs. lia.
Qed.

Lemma prev_day_ordinal d d' :
  date_exists d = true -> prev_day d = Some d' -> date_exists d' = true /\ ordinal d' = ordinal d - 1.
Proof.
  intros He. pose proof (date_exists_ok d He) as [Hm Hd]. unfold date_exists, in_range in *. bools.
  unfold prev_day. destruct (Z.ltb_spec 1 (day d)).
  { intros [= <-]. unfold ordinal. simpl. split; [|lia]. repeat (apply andb_true_iff; split); lia. }
  destruct (Z.ltb_spec 1 (month d)).
  { intros [= <-]. unfold ordinal. simpl. pose proof (month_days_pos (year d) (month d - 1)).
    pose proof (month_offset_next (year d) (month d - 1 - 1) ltac:(lia)) as Hn.
    replace (month d - 1 - 1 + 1) with (month d - 1) in Hn by lia.
    split; [|lia]. repeat (apply andb_true_iff; split); lia. }
  destruct (Z.ltb_spec 1 (year d)); [|done].
  intros [= <-]. split; [unfold date_exists, in_range; simpl; change (month_days (year d - 1) 12) with 31;
    repeat (apply andb_true_iff; split); lia|].
  pose proof (days_through_step (year d - 1)) as Hs. unfold ordinal. cbn [year month day].
  assert (month d = 1) as -> by lia. change (Z.to_nat (1 - 1)) with 0%nat. change (12 - 1) with 11.
  pose proof (month_offset_next (year d - 1) 11 ltac:(lia)) as Hn. change (11 + 1) with 12 in Hn.
  change (Z.to_nat 12) with 12%nat in Hn. change (month_days (year d - 1) 12) with 31 in Hn.
  change (month_offset (year d) 0) with 0. unfold days_through in Hs. lia.
Qed.

Lemma days_from_ordinal step k n d d' :
  (forall d d', date_exists d = true -> step d = Some d' -> date_exists d' = true /\ ordinal d' = ordinal d + k) ->
  date_exists d = true -> days_from step n d = Ok d' ->
  date_exists d' = true /\ ordinal d' = ordinal d + Z.of_nat n * k.
Proof.
  intros Hs. revert d. induction n as [|n IH]; intros d Hd H; cbn [days_from] in H.
  - injection H as <-. split; [done|lia].
  - destruct (step d) as [e|] eqn:E; [|done]. destruct (Hs d e Hd E) as [He Ho].
    destruct (IH e He H) as [? ?]. split; [done|lia].
Qed.
Lemma days_forward n d d' :
  date_exists d = true -> days_from next_day n d = Ok d' -> date_exists d' = true /\ ordinal d' = ordinal d + Z.of_nat n.
Proof. intros Hd H. destruct (days_from_ordinal next_day 1 n d d' next_day_ordinal Hd H). split; [done|lia]. Qed.
Lemma days_back n d d' :
  date_exists d = true -> days_from prev_day n d = Ok d' -> date_exists d' = true /\ ordinal d' = ordinal d - Z.of_nat n.
Proof. intros Hd H. destruct (days_from_ordinal prev_day (-1) n d d' prev_day_ordinal Hd H). split; [done|lia]. Qed.

(** A resolved range is two dates of the calendar in order; an omitted bound is
    365 days from the other, or from today. *)
Lemma resolved_dates_span start stop today a b :
  date_exists today = true -> resolve_dates start stop today = Ok (a, b) ->
  date_exists a = true /\ date_exists b = true /\ ordinal a <= ordinal b
  /\ (is_none start = true \/ is_none stop = true -> ordinal b = ordinal a + Z.of_nat DEFAULT_RANGE_DAYS).
Proof.
  intros Ht H. unfold resolve_dates in H. apply bind_ok in H as ([oa ob] & Hv & H).
  unfold validate_date_range in Hv. apply bind_ok in Hv as (oa' & Ha & Hv). apply bind_ok in Hv as (ob' & Hb & Hv).
  apply bind_ok in Hv as ([] & Hc & [= <- <-]).
  assert (Hnone : forall v o, parse_optional_date v = Ok o -> is_none v = true -> o = None).
  { intros v o Hp Hn. unfold parse_optional_date in Hp. rewrite Hn in Hp. by injection Hp as <-. }
  destruct oa' as [x|], ob' as [y|].
  - injection H as -> ->. apply bind_ok in Hc as ([] & Hlt%refuse_if_ok & _).
    pose proof (parse_optional_date_exists _ _ a Ha eq_refl) as Ea.
    pose proof (parse_optional_date_exists _ _ b Hb eq_refl) as Eb. split_and!; try done.
    + destruct (date_ltb_total b a Hlt) as [H| ->]; [|lia]. pose proof (ordinal_lt a b Ea Eb H). lia.
    + by intros [Hn|Hn]; [apply (Hnone _ _ Ha) in Hn|apply (Hnone _ _ Hb) in Hn].
  - apply bind_ok in H as (e & He & [= -> ->]). pose proof (parse_optional_date_exists _ _ a Ha eq_refl) as Ea.
    destruct (days_forward _ _ _ Ea He) as [? ?]. split_and!; [done|done|lia|done].
  - apply bind_ok in H as (e & He & [= -> ->]). pose proof (parse_optional_date_exists _ _ b Hb eq_refl) as Eb.
    destruct (days_back _ _ _ Eb He) as [? ?]. split_and!; [done|done|lia|lia].
  - apply bind_ok in H as (e & He & [= -> ->]). destruct (days_back _ _ _ Ht He) as [? ?].
    split_and!; [done|done|lia|lia].
Qed.

Example resolved_ex :
  resolve_date_range VNone VNone {| year := 2025; month := 3; day := 1 |} = Ok ("2024-03-01", "2025-03-01")
  /\ resolve_date_range (VStr "2023-06-30") VNone {| year := 2025; month := 3; day := 1 |}
     = Ok ("2023-06-30", "2024-06-29")
  /\ resolve_date_range VNone (VStr "0001-06-30") {| year := 2025; month := 3; day := 1 |} = Err OverflowError.
Proof. by vm_compute. Qed.

(** ** Round trip *)

(** What a filter is: absent, a flag, an integer or a text. *)
Definition scalar (v : val) : bool :=
  match v with VNone | VBool _ | VInt _ | VStr _ => true | _ => false end.
Definition scalar_filters (query : dict) : Prop :=
  Forall (fun name => scalar (dget_none name query) = true) BOUND_FILTERS.

Lemma sort_scalar v : scalar v = true -> sort_keys v = v.
Proof. by destruct v. Qed.
Lemma plain_scalar v : scalar v = true -> plain v = true.
Proof. by destruct v. Qed.

Abbreviation filter query name := (dget_none name query).

(** The envelope as it is written: every key in order. *)
Definition written (token : string) (query : dict) (resolved : string * string) : val :=
  VDict [("k", VStr (b64encode false token));
         ("q", VDict (map (fun name => (name, dget_none name query))
                        ["autype"; "code"; "end"; "ktype"; "max_count"; "start"]));
         ("r", VDict [("end", VStr (snd resolved)); ("start", VStr (fst resolved))]);
         ("v", VInt CURSOR_VERSION)].

Lemma envelope_written token query resolved :
  scalar_filters query -> sort_keys (envelope token query resolved) = written token query resolved.
Proof.
  unfold scalar_filters, BOUND_FILTERS. rewrite !Forall_cons. intros (H1 & H2 & H3 & H4 & H5 & H6 & _).
  unfold envelope, written, BOUND_FILTERS. cbn [map sort_keys fst snd].
  rewrite !sort_scalar by done. reflexivity.
Qed.

Lemma written_plain token query resolved : scalar_filters query -> plain (written token query resolved) = true.
Proof.
  unfold scalar_filters, BOUND_FILTERS. rewrite !Forall_cons. intros (H1 & H2 & H3 & H4 & H5 & H6 & _).
  unfold written. cbn [plain map fst snd forallb]. rewrite !plain_scalar by done. reflexivity.
Qed.

Lemma cursor_envelope_encode token query resolved :
  scalar_filters query -> cursor_envelope (encode_cursor token query resolved) = Some (written token query resolved).
Proof.
  intros Hs. unfold cursor_envelope, encode_cursor. rewrite envelope_written by done.
  assert (Ha : isascii (b64encode true (json_compact (written token query resolved))) = true).
  { eapply str_forall_impl; [|apply b64_ascii]. intros c Hc. by apply andb_true_iff in Hc as [Hc _]. }
  rewrite Ha, urlsafe_roundtrip. cbn [mbind option_bind].
  rewrite utf8_ascii by (apply json_compact_ascii; by apply written_plain). cbn [mbind option_bind].
  apply json_roundtrip. by apply written_plain.
Qed.

Lemma strip_solid s : str_forall (fun c => negb (is_space c)) s = true -> strip s = s.
Proof.
  intros H. unfold strip, rstrip. assert (lstrip s = s) as ->.
  { destruct s as [|c s]; [done|]. cbn in *. apply andb_true_iff in H as [H _]. apply negb_true_iff in H. by rewrite H. }
  by apply rstrip_if_none.
Qed.

Lemma cursor_solid token query resolved :
  nonempty (strip (encode_cursor token query resolved)) = true.
Proof.
  rewrite strip_solid.
  - unfold encode_cursor. by destruct (json_compact _) as [|a [|b [|c t]]] eqn:E.
  - unfold encode_cursor. eapply str_forall_impl; [|apply b64_ascii].
    intros c Hc. by apply andb_true_iff in Hc as [_ Hc].
Qed.

(** Reading a cursor of this server for a query. *)
Lemma decode_encode token query resolved query' :
  scalar_filters query -> len (encode_cursor token query resolved) <= MAX_CURSOR_CHARS ->
  decode_cursor (VStr (encode_cursor token query resolved)) query'
  = if bool_decide (mismatched query query' = [])
    then Ok (token, resolved)
    else Err (CursorError "cursor belongs to a different query and cannot continue this one").
Proof.
  intros Hs Hl. unfold decode_cursor. rewrite cursor_solid. cbn [bind].
  rewrite (proj2 (Z.ltb_ge _ _)) by done. cbn [refuse_if bind].
  rewrite cursor_envelope_encode by done. unfold written. cbn [bind]. set (q := map _ _). set (d := [("k", _); _; _; _]).
  change (dget_none "v" d) with (VInt 1). change (py_eqb (VInt 1) (VInt CURSOR_VERSION)) with true.
  change (dget_none "q" d) with (VDict q). change (dget_none "k" d) with (VStr (b64encode false token)).
  change (dget_none "r" d) with (VDict [("end", VStr (snd resolved)); ("start", VStr (fst resolved))]).
  cbn [negb refuse_if bind].
  assert (mismatched q query' = mismatched query query') as -> by reflexivity.
  destruct (bool_decide _); [|done]. cbn [negb refuse_if bind].
  set (r := [("end", _); _]).
  change (dget_none "start" r) with (VStr (fst resolved)). change (dget_none "end" r) with (VStr (snd resolved)).
  cbn [bind]. rewrite b64_roundtrip. by destruct resolved.
Qed.

Lemma scalar_eq v : scalar v = true -> py_eqb v v = true.
Proof.
  destruct v as [|[]|z| |s| |]; try done; intros _; cbn; [|by apply bool_decide_eq_true].
  apply num_eqb_refl.
Qed.

Lemma mismatched_self query : scalar_filters query -> mismatched query query = [].
Proof.
  unfold mismatched, scalar_filters. induction 1 as [|name l Hn _ IH]; [done|]. cbn [List.filter].
  by rewrite scalar_eq, IH.
Qed.

(** C26 A cursor is for its query alone.  For a query whose filters are scalars
    (absent, flags, integers or texts), a cursor of at most MAX_CURSOR_CHARS
    characters that [encode_cursor] wrote [decode_cursor] reads back exactly, the provider's token byte for byte and
    the resolved range; given with any other filter it is refused. *)
Theorem cursor_roundtrip token query resolved :
  scalar_filters query -> len (encode_cursor token query resolved) <= MAX_CURSOR_CHARS ->
  decode_cursor (VStr (encode_cursor token query resolved)) query = Ok (token, resolved)
  /\ forall query' name, name ∈ BOUND_FILTERS -> py_eqb (dget_none name query) (dget_none name query') = false ->
     decode_cursor (VStr (encode_cursor token query resolved)) query'
     = Err (CursorError "cursor belongs to a different query and cannot continue this one").
Proof.
  intros Hs Hl. split.
  - rewrite decode_encode by done. by rewrite bool_decide_eq_true_2 by by apply mismatched_self.
  - intros query' name Hn Hd. rewrite decode_encode by done. rewrite bool_decide_eq_false_2; [done|].
    intros Hm. assert (Hin : In name (mismatched query query')).
    { apply List.filter_In. split; [by apply list_elem_of_In|]. by rewrite Hd. }
    by rewrite Hm in Hin.
Qed.

(** ** Traversals *)

Section traversal.
Context (KLINE_TYPES ADJUSTMENT_TYPES : list string) (params : dict).
Abbreviation page := (get_historical_klines_page KLINE_TYPES ADJUSTMENT_TYPES).
Abbreviation query := (kline_query params).

(** A client that passes each cursor to the next call: the cursor after n + 1
    pages.  The date and the service's answers may differ at each call. *)
Fixpoint traverse (day : nat -> date) (serve : nat -> service) (n : nat) : result (option string) :=
  match n with
  | O => bind (page (day 0%nat) (serve 0%nat) params VNone) (fun x => Ok (snd x))
  | S n => bind (traverse day serve n) (fun c =>
             match c with
             | Some c => bind (page (day (S n)) (serve (S n)) params (VStr c)) (fun x => Ok (snd x))
             | None => Err (CursorError "no further page")
             end)
  end.

(** The provider's own chain of pages for one date range: each answers the token
    of the one before. *)
Inductive chain (serve : nat -> service) (range : string * string) : nat -> string -> Prop :=
  | chain_first rows t : serve 0%nat query range None = Ok (rows, Some t) -> chain serve range 0 t
  | chain_next n rows t t' :
      chain serve range n t -> serve (S n) query range (Some t) = Ok (rows, Some t') ->
      chain serve range (S n) t'.

Lemma filter_query name : name ∈ BOUND_FILTERS -> dget_none name query = dget_none name params.
Proof.
  unfold BOUND_FILTERS. rewrite !elem_of_cons. intros H.
  repeat (destruct H as [->|H]; [reflexivity|]). by apply elem_of_nil in H.
Qed.
Lemma scalar_query : scalar_filters params -> scalar_filters query.
Proof.
  unfold scalar_filters. rewrite !Forall_forall. intros H name Hn. rewrite filter_query by done. by apply H.
Qed.

(** A page under a cursor of this query asks for its token and range. *)
Lemma page_continues today serve t range rows c :
  scalar_filters params -> page today serve params (VStr (encode_cursor t query range)) = Ok (rows, c) ->
  exists next, serve query range (Some t) = Ok (rows, next)
    /\ c = option_map (fun t => encode_cursor t query range) next.
Proof.
  intros Hs H. apply scalar_query in Hs. unfold get_historical_klines_page in H.
  apply bind_ok in H as ([] & _ & H). cbn [is_none] in H. apply bind_ok in H as ([req r] & Hd & H).
  apply bind_ok in Hd as ([t' r'] & Hd & [= <- <-]).
  assert (Hl : len (encode_cursor t query range) <= MAX_CURSOR_CHARS).
  { destruct (Z.leb_spec (len (encode_cursor t query range)) MAX_CURSOR_CHARS) as [|Hl]; [done|exfalso].
    unfold decode_cursor in Hd. rewrite cursor_solid in Hd. cbn [bind] in Hd.
    by rewrite (proj2 (Z.ltb_lt _ _)) in Hd. }
  rewrite (proj1 (cursor_roundtrip t query range Hs Hl)) in Hd. injection Hd as <- <-.
  apply bind_ok in H as ([rows' next] & Hserve & [= <- <-]). by exists next.
Qed.

(** A traversal reads one series.  Whatever the date of each call (across
    midnight, say) and whatever the service answers, the pages a client reads by
    passing cursors on are the provider's own chain for the query with the
    one date range resolved at the first call, and the next page continues that
    chain. *)
Theorem pages_share_range day serve n c :
  scalar_filters params -> traverse day serve n = Ok (Some c) ->
  exists range t, resolve_date_range (dget_none "start" params) (dget_none "end" params) (day 0%nat) = Ok range
    /\ chain serve range n t /\ c = encode_cursor t query range
    /\ forall today serve' rows c', page today serve' params (VStr c) = Ok (rows, c') ->
       exists next, serve' query range (Some t) = Ok (rows, next)
         /\ c' = option_map (fun t => encode_cursor t query range) next.
Proof.
  intros Hs. cut (traverse day serve n = Ok (Some c) ->
    exists range t, resolve_date_range (dget_none "start" params) (dget_none "end" params) (day 0%nat) = Ok range
      /\ chain serve range n t /\ c = encode_cursor t query range).
  { intros H Ht. destruct (H Ht) as (range & t & Hr & Hc & ->). exists range, t. split_and!; try done.
    intros. by eapply page_continues. }
  revert c. induction n as [|n IH]; intros c H; cbn [traverse] in H.
  - apply bind_ok in H as ([rows c'] & H & [= ->]). unfold get_historical_klines_page in H.
    apply bind_ok in H as ([] & _ & H). cbn [is_none] in H. apply bind_ok in H as ([req r] & Hd & H).
    apply bind_ok in Hd as (range & Hr & [= <- <-]). apply bind_ok in H as ([rows' [t|]] & Hserve & [= <- Hc]).
    exists range, t. split_and!; [done|by eapply chain_first|done].
  - apply bind_ok in H as ([c0|] & H0 & H); [|done]. apply bind_ok in H as ([rows c'] & H & [= ->]).
    destruct (IH c0 H0) as (range & t & Hr & Hc & ->).
    destruct (page_continues _ _ _ _ _ _ Hs H) as ([t'|] & Hserve & E); [|done].
    exists range, t'. split_and!; [done|by eapply chain_next|by injection E].
Qed.
End traversal.

(** *** A concrete traversal *)

Definition demo_params : dict :=
  [("code", VStr "US.AAPL"); ("ktype", VStr "K_DAY"); ("start", VNone); ("end", VNone); ("max_count", VInt 100);
   ("autype", VStr "QFQ")].
Definition midnight (n : nat) : date := {| year := 2025; month := 3; day := 1 + Z.of_nat n |}.
Definition demo_serve (n : nat) : service := fun _ _ token =>
  match n, token with
  | O, None => Ok ([VInt 1], Some "a token")
  | _, Some t => Ok ([VInt 2], Some (t ++ "+")%string)
  | _, None => Err (BrokerError "a token is expected")
  end.

Lemma demo_scalar : scalar_filters demo_params.
Proof. by repeat constructor. Qed.

Lemma cursor_roundtrip_witness :
  decode_cursor (VStr (encode_cursor "a token" demo_params ("2024-03-01", "2025-03-01"))) demo_params
  = Ok ("a token", ("2024-03-01", "2025-03-01")).
Proof. apply cursor_roundtrip; [exact demo_scalar|by vm_compute]. Defined.

Lemma pages_share_range_witness :
  exists c range t, traverse ["K_DAY"] ["QFQ"] demo_params midnight demo_serve 1 = Ok (Some c)
    /\ chain demo_params demo_serve range 1 t /\ t = "a token+" /\ range = ("2024-03-01", "2025-03-01").
Proof.
  destruct (traverse ["K_DAY"] ["QFQ"] demo_params midnight demo_serve 1) as [[c|]|x] eqn:E;
    [|by vm_compute in E|by vm_compute in E].
  destruct (pages_share_range ["K_DAY"] ["QFQ"] demo_params midnight demo_serve 1 c demo_scalar E)
    as (range & t & Hr & Hc & _ & _).
  exists c, range, t. split_and!; [done|done| |by vm_compute in Hr; injection Hr].
  inversion Hc as [|n rows t0 t1 H0 Hs]; subst. inversion H0 as [rows0 t2 Hs0|]; subst.
  injection Hs0 as _ <-. by injection Hs as _ <-.
Defined.
