(* ===== verification/Events.v ===== *)
(** services/trade_events.py: the bounded ring of broker callbacks and its
    readers.

    The specification is the unbounded log of everything the ring accepted; the
    ring keeps a window of it, and a reader that resumes where it stopped and was
    told of no gap has seen exactly its own events of that log. *)

From Stdlib Require Import SpecFloat.
From S2P Require Import Prelude PyStr PyFloat PyVal.

#[local] Open Scope list_scope.

Definition EVENT_FIELDS : list string :=
  ["order_id"; "deal_id"; "code"; "order_type"; "order_status"; "status"; "trd_side"; "qty"; "price";
   "dealt_qty"; "dealt_avg_price"; "create_time"; "updated_time"; "time_in_force"; "session"; "currency"].
Definition IDENTIFIERS : list string := ["order_id"; "deal_id"].

(** [exact_identifier] *)
Definition exact_identifier (value : val) : result string :=
  (text <- match value with
           | VInt z => Ok (str_int z)
           | VStr s => Ok s
           | _ => Err (ValueError "Callback identifiers must be exact integers or strings")
           end ;;
   if negb (isascii text) || negb (isdecimal text) || (int_of text <=? 0)
   then Err (ValueError "Callback identifiers must be positive decimal identifiers")
   else Ok text)%py.

(** [_scalar] *)
Definition _scalar (value : val) : val :=
  match value with
  | VNone | VBool _ | VInt _ => value
  | VFloat f => if is_finite f then value else VNone
  | VStr s => VStr (String.substring 0 256 s)
  | _ => VNone
  end.

Record event : Type := {
  e_sequence : Z; e_type : string; e_observed_at : string; e_acc_id : string; e_trd_env : string;
  e_data : dict }.

(** [TradeEventBuffer]; the oldest event first. *)
Record buffer : Type := {
  b_epoch : string; b_max : Z; b_retention : float; b_events : list (float * event);
  b_sequence : Z; b_accepting : bool; b_reconnects : Z }.

Definition with_events (l : list (float * event)) (b : buffer) : buffer :=
  {| b_epoch := b_epoch b; b_max := b_max b; b_retention := b_retention b; b_events := l;
     b_sequence := b_sequence b; b_accepting := b_accepting b; b_reconnects := b_reconnects b |}.
Definition with_accepting (a : bool) (b : buffer) : buffer :=
  {| b_epoch := b_epoch b; b_max := b_max b; b_retention := b_retention b; b_events := b_events b;
     b_sequence := b_sequence b; b_accepting := a; b_reconnects := b_reconnects b |}.

(** [__init__] *)
Definition new_buffer (epoch : string) (max_events : val) (retention : float) : result buffer :=
  match max_events with
  | VInt m =>
      if (m <? 1) || negb (is_finite retention) then Err (ValueError "Event bounds must be finite and positive")
      else if f_le retention f_zero then Err (ValueError "retention_seconds must be positive")
      else Ok {| b_epoch := epoch; b_max := m; b_retention := retention; b_events := []; b_sequence := 0;
                 b_accepting := true; b_reconnects := 0 |}
  | _ => Err (ValueError "max_events must be a positive integer")
  end.

Definition resume (b : buffer) : buffer := with_accepting true b.
Definition close (b : buffer) : buffer := with_events [] (with_accepting false b).
Definition mark_reconnect (b : buffer) : buffer :=
  {| b_epoch := b_epoch b; b_max := b_max b; b_retention := b_retention b; b_events := b_events b;
     b_sequence := b_sequence b; b_accepting := b_accepting b; b_reconnects := b_reconnects b + 1 |}.

(** [now - observed >= retention] *)
Definition expired (retention now observed : float) : bool := f_le retention (SFsub f_prec f_emax now observed).

(** [_expire] *)
Fixpoint unexpired (retention now : float) (l : list (float * event)) : list (float * event) :=
  match l with
  | (t, _) :: rest => if expired retention now t then unexpired retention now rest else l
  | [] => []
  end.
Definition _expire (now : float) (b : buffer) : buffer :=
  with_events (unexpired (b_retention b) now (b_events b)) b.

(** [deque(maxlen)].append *)
Definition push (m : Z) (x : float * event) (l : list (float * event)) : list (float * event) :=
  drop (length l + 1 - Z.to_nat m) (l ++ [x]).

(** The payload of one row; [None] when the row is skipped. *)
Definition payload_of (kind : string) (row : dict) : option dict :=
  match mapM (fun name => match dget name row with
                          | Some v => if mem name IDENTIFIERS
                                      then bind (exact_identifier v) (fun t => Ok [(name, VStr t)])
                                      else Ok [(name, _scalar v)]
                          | None => Ok []
                          end) EVENT_FIELDS with
  | Ok fields =>
      let payload := concat fields in
      if negb (dhas "order_id" payload) || (bool_decide (kind = "DEAL") && negb (dhas "deal_id" payload))
      then None else Some payload
  | Err _ => None
  end.

(** The environment of a row whose callback is kept. *)
Definition row_env (kind : string) (row : dict) : option string :=
  match dget "trd_env" row with
  | Some (VStr e) =>
      if negb (mem e ["REAL"; "SIMULATE"]) || (bool_decide (kind = "DEAL") && negb (bool_decide (e = "REAL")))
      then None else Some e
  | _ => None
  end.

(** One accepted row: the clock readings are the call's own. *)
Definition append_row (kind acc : string) (row : dict) (now : float) (at_ : string) (b : buffer) : buffer :=
  match row_env kind row, payload_of kind row with
  | Some e, Some payload =>
      if negb (b_accepting b) then b
      else
        let b := _expire now b in
        let ev := {| e_sequence := b_sequence b + 1; e_type := kind; e_observed_at := at_; e_acc_id := acc;
                     e_trd_env := e; e_data := payload |} in
        {| b_epoch := b_epoch b; b_max := b_max b; b_retention := b_retention b;
           b_events := push (b_max b) (now, ev) (b_events b); b_sequence := b_sequence b + 1;
           b_accepting := b_accepting b; b_reconnects := b_reconnects b |}
  | _, _ => b
  end.

(** [append]: the rows of one callback, in order. *)
Definition append (kind : string) (account : val) (rows : list dict) (clock : nat -> float * string)
    (b : buffer) : result unit * buffer :=
  match exact_identifier account with
  | Err e => (Err e, b)
  | Ok acc =>
      if negb (mem kind ["ORDER"; "DEAL"]) then (Err (ValueError "event_type must be ORDER or DEAL"), b)
      else (Ok tt, foldl (fun b ir => append_row kind acc ir.2 (clock ir.1).1 (clock ir.1).2 b) b
                     (imap (fun i row => (i, row)) rows))
  end.

(** [on_recv_rsp] of both handlers: [account] is the header's account, [None]
    when the attribute is missing; [rows] is [None] when the payload is no frame. *)
Definition on_recv_rsp (kind : string) (ret_ok : bool) (account : option val) (rows : option (list dict))
    (clock : nat -> float * string) (b : buffer) : result unit * buffer :=
  if negb ret_ok then (Ok tt, b)
  else match account, rows with
       | None, _ => (Ok tt, b)
       | Some _, None => (Err (RuntimeError "reported success but returned no DataFrame"), b)
       | Some acc, Some rows =>
           let '(r, b') := append kind acc rows clock b in
           (match r with Err e => if is_value_error e then Ok tt else Err e | Ok _ => Ok tt end, b')
       end.

Record page : Type := {
  pg_epoch : string; pg_events : list event; pg_next : Z; pg_has_more : bool; pg_oldest : Z; pg_latest : Z;
  pg_retention_gap : bool; pg_restart_gap : bool; pg_reconnects : Z }.

Definition matching (environment acc : string) (after : Z) (ev : event) : bool :=
  (after <? e_sequence ev) && bool_decide (e_trd_env ev = environment) && bool_decide (e_acc_id ev = acc).

(** The arguments of [read]; [bool] is no [int] here. *)
Definition bounded (lo hi : Z) (v : val) : option Z :=
  match v with VInt z => if (lo <=? z) && (z <=? hi) then Some z else None | _ => None end.
Definition at_least (lo : Z) (v : val) : option Z :=
  match v with VInt z => if lo <=? z then Some z else None | _ => None end.

(** [read] *)
Definition read (environment : string) (account after_sequence : val) (event_epoch : option string)
    (limit : val) (now : float) (b : buffer) : result page * buffer :=
  match (acc <- exact_identifier account ;;
         _ <- refuse_if (negb (mem environment ["REAL"; "SIMULATE"]))
                (ValueError "trd_env must be REAL or SIMULATE") ;;
         after <- match at_least 0 after_sequence with
                  | Some z => Ok z
                  | None => Err (ValueError "after_sequence must be a non-negative integer") end ;;
         n <- match bounded 1 200 limit with
              | Some z => Ok z
              | None => Err (ValueError "limit must be an integer from 1 to 200") end ;;
         _ <- refuse_if (negb (after =? 0) && bool_decide (event_epoch = None))
                (ValueError "event_epoch is required with after_sequence") ;;
         Ok (acc, after, n))%py with
  | Err e => (Err e, b)
  | Ok (acc, after, n) =>
      let b := _expire now b in
      let restarted := match event_epoch with Some e => negb (bool_decide (e = b_epoch b)) | None => false end in
      let after := if restarted then 0 else after in
      if b_sequence b <? after then (Err (ValueError "after_sequence is beyond this event buffer"), b)
      else
        let oldest := match b_events b with (_, ev) :: _ => e_sequence ev | [] => b_sequence b + 1 end in
        let selected := List.filter (matching environment acc after) (map snd (b_events b)) in
        let has_more := n <? Z.of_nat (length selected) in
        let shown := take (Z.to_nat n) selected in
        (Ok {| pg_epoch := b_epoch b; pg_events := shown;
               pg_next := if has_more then match last shown with Some ev => e_sequence ev | None => b_sequence b end
                          else b_sequence b;
               pg_has_more := has_more; pg_oldest := oldest; pg_latest := b_sequence b;
               pg_retention_gap := after <? oldest - 1; pg_restart_gap := restarted;
               pg_reconnects := b_reconnects b |}, b)
  end.

(** ** The ring against the log of everything it accepted *)

(** The events one row adds. *)
Definition accepted (kind acc : string) (row : dict) (at_ : string) (b : buffer) : list event :=
  match row_env kind row, payload_of kind row with
  | Some e, Some payload =>
      if b_accepting b
      then [{| e_sequence := b_sequence b + 1; e_type := kind; e_observed_at := at_; e_acc_id := acc;
               e_trd_env := e; e_data := payload |}]
      else []
  | _, _ => []
  end.

Definition ring : Type := buffer * list event.

(** One critical section of a running process. *)
Inductive ring_step : ring -> ring -> Prop :=
  | ring_append kind acc row now at_ b log :
      ring_step (b, log) (append_row kind acc row now at_ b, log ++ accepted kind acc row at_ b)
  | ring_resume b log : ring_step (b, log) (resume b, log)
  | ring_close b log : ring_step (b, log) (close b, log)
  | ring_reconnect b log : ring_step (b, log) (mark_reconnect b, log)
  | ring_read environment account after epoch limit now b log :
      ring_step (b, log) (snd (read environment account after epoch limit now b), log).

(** The n-th event carries n; the ring holds the newest ones. *)
Definition numbered (log : list event) : Prop :=
  forall i ev, log !! i = Some ev -> e_sequence ev = Z.of_nat i + 1.
Record ring_ok (b : buffer) (log : list event) : Prop := {
  ring_sequence : b_sequence b = Z.of_nat (length log);
  ring_numbered : numbered log;
  ring_window : exists k, map snd (b_events b) = drop k log;
  ring_bounded : Z.of_nat (length (b_events b)) <= b_max b;
  ring_max : 1 <= b_max b }.

Lemma unexpired_suffix r now l : exists k, unexpired r now l = drop k l.
Proof.
  induction l as [|[t ev] l [k IH]]; simpl; [by exists 0%nat|].
  destruct (expired r now t); [by exists (S k)|by exists 0%nat].
Qed.

(** A ring with fewer of the newest events is still one. *)
Lemma ring_ok_drop k b log : ring_ok b log -> ring_ok (with_events (drop k (b_events b)) b) log.
Proof.
  intros [Hs Hn [j Hw] Hb Hm]. split; simpl; [done|done| |rewrite length_drop; lia|done].
  exists (j + k)%nat. change (map snd (drop k (b_events b))) with (snd <$> drop k (b_events b)).
  rewrite fmap_drop. change (snd <$> b_events b) with (map snd (b_events b)). by rewrite Hw, drop_drop.
Qed.
Lemma ring_ok_expire now b log : ring_ok b log -> ring_ok (_expire now b) log.
Proof.
  intros H. unfold _expire. destruct (unexpired_suffix (b_retention b) now (b_events b)) as [k ->].
  by apply ring_ok_drop.
Qed.

Lemma numbered_snoc log ev : numbered log -> e_sequence ev = Z.of_nat (length log) + 1 -> numbered (log ++ [ev]).
Proof.
  intros Hn He i x Hx. apply lookup_app_Some in Hx as [Hx|[Hl Hx]]; [by apply Hn|].
  apply list_lookup_singleton_Some in Hx as [Hi <-]. lia.
Qed.

Lemma ring_ok_append kind acc row now at_ b log :
  ring_ok b log -> ring_ok (append_row kind acc row now at_ b) (log ++ accepted kind acc row at_ b).
Proof.
  intros H. unfold append_row, accepted.
  destruct (row_env kind row) as [e|]; [|by rewrite app_nil_r].
  destruct (payload_of kind row) as [payload|]; [|by rewrite app_nil_r].
  destruct (b_accepting b); simpl; [|by rewrite app_nil_r].
  apply (ring_ok_expire now) in H as [Hs Hn [k Hw] Hb Hm]. simpl in Hs.
  set (ev := {| e_sequence := _ |}). assert (Hlog : numbered (log ++ [ev])) by (apply numbered_snoc; [done|simpl; lia]).
  split; simpl in *; [rewrite length_app; simpl; lia|done| | |done].
  - set (l := unexpired (b_retention b) now (b_events b)) in *. unfold push.
    change (map snd ?x) with (snd <$> x). rewrite fmap_drop, fmap_app.
    change (snd <$> l) with (map snd l). rewrite Hw.
    exists (k `min` length log + (length l + 1 - Z.to_nat (b_max b)))%nat. rewrite <-drop_drop.
    f_equal. simpl. destruct (le_lt_dec k (length log)) as [Hk|Hk].
    + rewrite Nat.min_l by done. by rewrite drop_app_le.
    + rewrite Nat.min_r by lia. by rewrite drop_ge, drop_app_length by lia.
  - unfold push. rewrite length_drop, length_app. simpl. lia.
Qed.

Lemma read_buffer environment account after epoch limit now b :
  snd (read environment account after epoch limit now b) = b
  \/ snd (read environment account after epoch limit now b) = _expire now b.
Proof.
  unfold read. destruct (bind _ _) as [[[acc a] n]|x]; [|by left].
  destruct (_ <? _); simpl; by right.
Qed.

Lemma ring_ok_step x y : ring_step x y -> ring_ok x.1 x.2 -> ring_ok y.1 y.2.
Proof.
  destruct 1; simpl; intros H.
  - by apply ring_ok_append.
  - by destruct H.
  - destruct H as [Hs Hn _ Hb Hm]. split; simpl; try done; [|lia]. exists (length log). by rewrite drop_all.
  - by destruct H.
  - destruct (read_buffer environment account after epoch limit now b) as [->| ->]; [done|by apply ring_ok_expire].
Qed.

Lemma new_ring_ok epoch m r b : new_buffer epoch m r = Ok b -> ring_ok b [].
Proof.
  unfold new_buffer. destruct m as [| |m| | | |]; try done. destruct (_ || _) eqn:E; [done|].
  destruct (f_le _ _); [done|]. intros [= <-]. apply orb_false_iff in E as [E _].
  split; simpl; [done| |by exists 0%nat|lia|lia]. by intros i ev.
Qed.

(** ** Reading *)

Lemma filter_take_last {A} (f : A -> bool) (l : list A) n s x :
  take n (List.filter f l) = s ++ [x] ->
  exists j, l !! j = Some x /\ List.filter f (take (S j) l) = s ++ [x].
Proof.
  revert n s. induction l as [|a l IH]; intros n s H; simpl in H.
  { rewrite take_nil in H. by destruct s. }
  destruct (f a) eqn:E.
  - destruct n as [|n]; [by destruct s|]. simpl in H. destruct s as [|b s].
    + injection H as -> H. exists 0%nat. split; [done|]. simpl. by rewrite E.
    + injection H as -> H. destruct (IH n s H) as (j & Hj & Hf). exists (S j). split; [done|].
      simpl in *. rewrite E. by f_equal.
  - destruct (IH n s H) as (j & Hj & Hf). exists (S j). split; [done|]. simpl in *. by rewrite E.
Qed.

Lemma filter_none {A} (f : A -> bool) (l : list A) : (forall x, x ∈ l -> f x = false) -> List.filter f l = [].
Proof.
  induction l as [|a l IH]; intros H; simpl; [done|]. rewrite (H a) by left. apply IH. intros x Hx. apply H. by right.
Qed.
Lemma filter_same {A} (f g : A -> bool) (l : list A) :
  (forall x, x ∈ l -> f x = g x) -> List.filter f l = List.filter g l.
Proof.
  induction l as [|a l IH]; intros H; simpl; [done|]. rewrite (H a) by left.
  rewrite IH; [done|]. intros x Hx. apply H. by right.
Qed.

(** Skipping by sequence is skipping a prefix of the log. *)
Lemma matching_after env acc (a : nat) log :
  numbered log ->
  List.filter (matching env acc (Z.of_nat a)) log = List.filter (matching env acc 0) (drop a log).
Proof.
  intros Hn. rewrite <-(take_drop a log) at 1. rewrite List.filter_app. rewrite filter_none; simpl.
  - apply filter_same. intros x Hx. apply list_elem_of_lookup in Hx as [i Hi]. rewrite lookup_drop in Hi.
    apply Hn in Hi. unfold matching. replace (Z.of_nat a <? e_sequence x) with true by lia.
    by replace (0 <? e_sequence x) with true by lia.
  - intros x Hx. apply list_elem_of_lookup in Hx as [i Hi]. apply lookup_take_Some in Hi as [Hi Hl].
    apply Hn in Hi. unfold matching. replace (Z.of_nat a <? e_sequence x) with false by lia. done.
Qed.

(** The arguments [read] accepted. *)
Lemma read_ok env account after epoch limit now b pg b' :
  read env account after epoch limit now b = (Ok pg, b') ->
  exists acc a n, exact_identifier account = Ok acc /\ after = VInt a /\ 0 <= a /\ limit = VInt n /\ 1 <= n
    /\ b' = _expire now b /\ pg_restart_gap pg = match epoch with Some e => negb (bool_decide (e = b_epoch b))
                                                               | None => false end
    /\ let a := if pg_restart_gap pg then 0 else a in
       let selected := List.filter (matching env acc a) (map snd (b_events b')) in
       a <= b_sequence b /\ pg_latest pg = b_sequence b
       /\ pg_retention_gap pg
          = (a <? match b_events b' with (_, ev) :: _ => e_sequence ev | [] => b_sequence b + 1 end - 1)
       /\ pg_events pg = take (Z.to_nat n) selected
       /\ pg_has_more pg = (n <? Z.of_nat (length selected))
       /\ pg_next pg = if pg_has_more pg
                       then match last (pg_events pg) with Some ev => e_sequence ev | None => b_sequence b end
                       else b_sequence b.
Proof.
  unfold read. destruct (bind _ _) as [[[acc a] n]|x] eqn:E; [|done]. intros H.
  apply bind_ok in E as (acc0 & Hacc & E). apply bind_ok in E as ([] & _ & E).
  apply bind_ok in E as (a0 & Ha & E). apply bind_ok in E as (n0 & Hn & E).
  apply bind_ok in E as ([] & _ & E). injection E as -> -> ->.
  exists acc, a, n. split; [done|].
  assert (after = VInt a /\ 0 <= a) as [-> ?].
  { unfold at_least in Ha. destruct after; try done. destruct (0 <=? z) eqn:?; [|done]. injection Ha as ->. split; [done|lia]. }
  assert (limit = VInt n /\ 1 <= n) as [-> ?].
  { unfold bounded in Hn. destruct limit; try done. destruct (_ && _) eqn:?; [|done]. injection Hn as ->. split; [done|lia]. }
  do 4 (split; [done|]). cbv zeta in H.
  destruct (_ <? _) eqn:El in H; [done|]. injection H as <- <-. cbn [pg_restart_gap pg_latest pg_retention_gap
    pg_events pg_has_more pg_next]. split_and!; try done. simpl in El. lia.
Qed.

Lemma ring_head k b log :
  ring_ok b log -> map snd (b_events b) = drop k log ->
  match b_events b with (_, ev) :: _ => e_sequence ev | [] => b_sequence b + 1 end - 1
  = Z.of_nat (k `min` length log).
Proof.
  intros [Hs Hn _ _ _] Hw. destruct (b_events b) as [|[t ev] l] eqn:E.
  - assert (length (drop k log) = 0%nat) as Hl by (by rewrite <-Hw). rewrite length_drop in Hl. lia.
  - assert (Hk : log !! k = Some ev).
    { rewrite <-(Nat.add_0_r k), <-lookup_drop, <-Hw. done. }
    pose proof (lookup_lt_Some _ _ _ Hk). rewrite (Hn _ _ Hk). lia.
Qed.

(** What a page contains, in terms of the log. *)
Lemma page_of_log env account after epoch limit now b log pg b' :
  ring_ok b log -> read env account after epoch limit now b = (Ok pg, b') -> pg_retention_gap pg = false ->
  exists acc (a n : nat), exact_identifier account = Ok acc
    /\ (after = VInt (Z.of_nat a) \/ pg_restart_gap pg = true /\ a = 0%nat) /\ (0 < n)%nat /\ (a <= length log)%nat
    /\ let rest := List.filter (matching env acc 0) (drop a log) in
       pg_events pg = take n rest /\ pg_has_more pg = bool_decide (n < length rest)%nat
       /\ pg_next pg = match pg_has_more pg, last (pg_events pg) with
                       | true, Some ev => e_sequence ev
                       | _, _ => Z.of_nat (length log)
                       end.
Proof.
  intros Hok H Hgap. apply read_ok in H as (acc & a & n & Hacc & -> & Ha & -> & Hn & -> & Hr & H).
  cbv zeta in H. destruct H as (Hle & Hlat & Hg & Hev & Hmore & Hnext).
  apply (ring_ok_expire now) in Hok. pose proof Hok as [Hs Hnum [k Hw] _ _]. simpl in Hs.
  set (a' := if pg_restart_gap pg then 0 else a) in *. assert (0 <= a') by (unfold a'; destruct (pg_restart_gap pg); lia).
  pose proof (ring_head k _ _ Hok Hw) as Hhead. change (b_sequence (_expire now b)) with (b_sequence b) in Hhead.
  rewrite Hhead, Hgap in Hg. symmetry in Hg. apply Z.ltb_ge in Hg.
  assert (Hsel : List.filter (matching env acc a') (map snd (b_events (_expire now b)))
                 = List.filter (matching env acc 0) (drop (Z.to_nat a') log)).
  { rewrite Hw. rewrite <-matching_after by done. rewrite Z2Nat.id by done.
    rewrite <-(take_drop k log) at 2. rewrite List.filter_app, (filter_none _ (take k log)); [done|].
    intros x Hx. apply list_elem_of_lookup in Hx as [i Hi]. apply lookup_take_Some in Hi as [Hi Hl].
    pose proof (lookup_lt_Some _ _ _ Hi). apply Hnum in Hi. unfold matching.
    replace (a' <? e_sequence x) with false by lia. done. }
  rewrite Hsel in Hev, Hmore. exists acc, (Z.to_nat a'), (Z.to_nat n). cbv zeta. split_and!; try done; [|lia|lia| |].
  - unfold a'. destruct (pg_restart_gap pg); [by right|left]. by rewrite Z2Nat.id by lia.
  - rewrite Hmore. case_bool_decide; lia.
  - rewrite Hnext. destruct (pg_has_more pg); [|lia]. destruct (last (pg_events pg)); [done|lia].
Qed.

(** ** A reader that follows [next_sequence] *)

(** A reader of one account starts at zero, reads on from where it stopped, and
    was told of no gap; the ring moves on between its reads. *)
Inductive watching (env : string) (account : val) : ring -> Z -> list event -> Prop :=
  | watch_start b log : ring_ok b log -> watching env account (b, log) 0 []
  | watch_step x y cursor seen :
      watching env account x cursor seen -> ring_step x y -> watching env account y cursor seen
  | watch_read b log cursor seen epoch limit now pg b' :
      watching env account (b, log) cursor seen ->
      read env account (VInt cursor) epoch limit now b = (Ok pg, b') ->
      pg_retention_gap pg = false -> pg_restart_gap pg = false ->
      watching env account (b', log) (pg_next pg) (seen ++ pg_events pg).

(** C27 A reader misses nothing it was not told about.  Whatever the callbacks,
    closes, other readers and expiries in between, a reader that follows
    [next_sequence] and was told of no retention or restart gap has seen exactly
    the events of its account and environment that the buffer accepted up to its
    cursor, each once and in order. *)
Theorem reader_misses_nothing env account acc x cursor seen :
  watching env account x cursor seen -> exact_identifier account = Ok acc ->
  0 <= cursor <= Z.of_nat (length x.2)
  /\ seen = List.filter (matching env acc 0) (take (Z.to_nat cursor) x.2).
Proof.
  intros H Hacc.
  cut (ring_ok x.1 x.2 /\ exists c, cursor = Z.of_nat c /\ (c <= length x.2)%nat
       /\ seen = List.filter (matching env acc 0) (take c x.2)).
  { intros (_ & c & -> & Hc & ->). rewrite Nat2Z.id. split; [lia|done]. }
  induction H as [b log Hok|x y cursor seen H IH Hs|b log cursor seen epoch limit now pg b' H IH Hr Hg Hre].
  - split; [done|]. exists 0%nat. by split_and!; [|simpl; lia|].
  - destruct IH as (Hok & c & -> & Hc & ->). split; [by eapply ring_ok_step|]. exists c.
    assert (exists l, y.2 = x.2 ++ l) as [l ->].
    { destruct Hs; simpl; [eauto|..]; exists []; by rewrite app_nil_r. }
    rewrite length_app, take_app_le by done. split_and!; [done|lia|done].
  - destruct IH as (Hok & c & -> & Hc & ->). simpl in *. pose proof Hok as Hok2.
    destruct (page_of_log _ _ _ _ _ _ _ _ _ _ Hok Hr Hg)
      as (acc' & a & n & Hacc' & Ha & Hn & Hl & Hev & Hmore & Hnext).
    assert (acc' = acc) as -> by congruence. destruct Ha as [[= Ha]|[Ha _]]; [|congruence].
    apply Nat2Z.inj in Ha as <-.
    split. { assert (b' = snd (read env account (VInt (Z.of_nat c)) epoch limit now b)) as -> by (by rewrite Hr).
             destruct (read_buffer env account (VInt (Z.of_nat c)) epoch limit now b) as [->| ->];
               [done|by apply ring_ok_expire]. }
    assert (Hall : pg_next pg = Z.of_nat (length log) ->
      pg_events pg = List.filter (matching env acc 0) (drop c log) -> exists c', pg_next pg = Z.of_nat c'
      /\ (c' <= length log)%nat /\ List.filter (matching env acc 0) (take c log) ++ pg_events pg
         = List.filter (matching env acc 0) (take c' log)).
    { intros -> ->. exists (length log). split_and!; [done|done|]. rewrite <-List.filter_app, take_drop.
      by rewrite firstn_all. }
    rewrite Hmore in Hnext. case_bool_decide as Hb.
    2: { apply Hall; [done|]. rewrite Hev. apply firstn_all2. lia. }
    destruct (last (pg_events pg)) as [ev|] eqn:Hlast.
    + apply last_Some in Hlast as [s Hs]. rewrite Hev in Hs.
      destruct (filter_take_last _ _ _ _ _ Hs) as (j & Hj & Hf). rewrite lookup_drop in Hj.
      pose proof (lookup_lt_Some _ _ _ Hj). exists (c + S j)%nat. split_and!; [|lia|].
      * rewrite Hnext, (ring_numbered _ _ Hok2 _ _ Hj). lia.
      * rewrite Hev, Hs, <-Hf, <-List.filter_app. f_equal. by rewrite take_take_drop.
    + apply last_None in Hlast. exfalso. rewrite Hev in Hlast. apply (f_equal length) in Hlast.
      rewrite length_take in Hlast. simpl in Hlast. lia.
Qed.

(** *** A concrete ring *)

Definition demo_row (oid : string) : dict :=
  [("trd_env", VStr "REAL"); ("order_id", VStr oid); ("code", VStr "US.AAPL"); ("qty", VInt 5)].
Definition demo_ring : buffer :=
  match new_buffer "epoch-1" (VInt 2) (f_lit "900") with Ok b => b
  | Err _ => {| b_epoch := ""; b_max := 1; b_retention := f_zero; b_events := []; b_sequence := 0;
                b_accepting := false; b_reconnects := 0 |} end.
Definition ring_of (oids : list string) : ring :=
  foldl (fun x oid => (append_row "ORDER" "7" (demo_row oid) f_zero "t" x.1,
                       x.2 ++ accepted "ORDER" "7" (demo_row oid) "t" x.1)) (demo_ring, []) oids.

Example ring_overflow :
  let x := ring_of ["1"; "2"; "3"] in
  map (fun te => e_sequence te.2) (b_events x.1) = [2; 3]
  /\ (exists pg b, read "REAL" (VInt 7) (VInt 0) None (VInt 100) f_zero x.1 = (Ok pg, b)
      /\ pg_retention_gap pg = true /\ map e_sequence (pg_events pg) = [2; 3])
  /\ (exists pg b, read "REAL" (VInt 7) (VInt 1) (Some "epoch-1") (VInt 1) f_zero x.1 = (Ok pg, b)
      /\ pg_retention_gap pg = false /\ pg_has_more pg = true /\ pg_next pg = 2).
Proof. vm_compute. split_and!; eauto 10. Qed.

Lemma reader_misses_nothing_witness :
  exists pg b', read "REAL" (VInt 7) (VInt 0) None (VInt 1) f_zero (ring_of ["1"; "2"]).1 = (Ok pg, b')
    /\ pg_next pg = 1
    /\ [] ++ pg_events pg
       = List.filter (matching "REAL" "7" 0) (take (Z.to_nat (pg_next pg)) (ring_of ["1"; "2"]).2).
Proof.
  destruct (read "REAL" (VInt 7) (VInt 0) None (VInt 1) f_zero (ring_of ["1"; "2"]).1) as [[pg|x] b'] eqn:E;
    [|by vm_compute in E].
  exists pg, b'. split; [done|]. split; [by vm_compute in E; injection E as <- _|].
  refine (proj2 (reader_misses_nothing "REAL" (VInt 7) "7" (b', (ring_of ["1"; "2"]).2) (pg_next pg)
    ([] ++ pg_events pg) _ eq_refl)).
  eapply (watch_read "REAL" (VInt 7) (ring_of ["1"; "2"]).1 (ring_of ["1"; "2"]).2 0 [] None (VInt 1) f_zero);
    [|exact E|by vm_compute in E; injection E as <- _|by vm_compute in E; injection E as <- _].
  apply watch_start. change (ring_of ["1"; "2"]) with
    (append_row "ORDER" "7" (demo_row "2") f_zero "t" (ring_of ["1"]).1,
     (ring_of ["1"]).2 ++ accepted "ORDER" "7" (demo_row "2") "t" (ring_of ["1"]).1).
  do 2 (apply ring_ok_append). by eapply (new_ring_ok "epoch-1" (VInt 2) (f_lit "900")).
Defined.
