(* ===== verification/Snapshots.v ===== *)
(** services/query_snapshots.py: pages of one immutable broker answer, cut by
    cursors into a bounded process cache.

    The specification of a query is its list of rows; a client that follows the
    cursors it is given reads exactly that list, in a bounded number of pages,
    whatever else uses the cache, or is told that the snapshot is gone. *)

From Stdlib Require Import SpecFloat.
From S2P Require Import Prelude PyStr PyFloat PyDec DecText DecParse PyVal JsonText ClientAuth.

#[local] Open Scope list_scope.

Definition MAX_PAGE_SIZE : Z := 200.
Definition MAX_SNAPSHOT_ROWS : Z := 10000.
Definition MAX_SNAPSHOT_BYTES : Z := 4 * 1024 * 1024.
Definition MAX_CACHE_BYTES : Z := 16 * 1024 * 1024.
Definition MAX_SNAPSHOTS : Z := 16.
Definition SNAPSHOT_TTL_SECONDS : float := f_lit "120".

(** ** The size of a payload

    The length of [JSONEncoder]'s text, with the bytes each character takes. *)
Section width.
Context (width : ascii -> Z).
Fixpoint chars_width (s : string) : Z :=
  match s with "" => 0 | String c s => width c + chars_width s end.
Definition string_width (s : string) : Z := 2 + chars_width s.

Fixpoint json_width (v : val) : Z :=
  match v with
  | VNone => 4
  | VBool b => if b then 4 else 5
  | VInt z => len (str_int z)
  | VFloat f => len (f_repr f)
  | VStr s => string_width s
  | VList l =>
      2 + (fix go (l : list val) : Z :=
             match l with
             | [] => 0
             | [v] => json_width v
             | v :: l => json_width v + 2 + go l
             end) l
  | VDict d =>
      2 + (fix go (d : dict) : Z :=
             match d with
             | [] => 0
             | [(k, v)] => string_width k + 2 + json_width v
             | (k, v) :: d => string_width k + 2 + json_width v + 2 + go d
             end) d
  end.
End width.

(** UTF-8, with [ensure_ascii=False]. *)
Definition char_size (c : ascii) : Z :=
  let z := code c in
  if (z =? 34) || (z =? 92) || (z =? 10) || (z =? 13) || (z =? 9) || (z =? 8) || (z =? 12) then 2
  else if z <? 32 then 6
  else if z <? 128 then 1
  else 2.
Definition json_size (v : val) : Z := json_width char_size v.

(** ** The cache *)

(** [_Snapshot] *)
Record snapshot : Type := {
  sn_query : dict; sn_items : list val; sn_scope : dict; sn_fetched_at : string; sn_expires : float;
  sn_size : Z }.

(** [QuerySnapshots]: the oldest snapshot first, and the bytes they count. *)
Record cache : Type := { q_snapshots : list (string * snapshot); q_bytes : Z }.
Definition empty_cache : cache := {| q_snapshots := []; q_bytes := 0 |}.

Fixpoint find (key : string) (l : list (string * snapshot)) : option snapshot :=
  match l with
  | [] => None
  | (k, s) :: l => if bool_decide (key = k) then Some s else find key l
  end.

(** [validate_limit] *)
Definition validate_limit (limit : val) : result Z :=
  match limit with
  | VInt z => if (z <? 1) || (MAX_PAGE_SIZE <? z) then Err (ValueError "limit must be between 1 and 200") else Ok z
  | _ => Err (ValueError "limit must be an integer")
  end.

(** [_remove] of the entry at the head of [l]. *)
Definition expired_at (now : float) (s : snapshot) : bool := f_le (sn_expires s) now.

(** [_expire] *)
Definition _expire (now : float) (q : cache) : cache :=
  {| q_snapshots := List.filter (fun ks => negb (expired_at now ks.2)) (q_snapshots q);
     q_bytes := q_bytes q - foldr (fun ks n => sn_size ks.2 + n) 0
                              (List.filter (fun ks => expired_at now ks.2) (q_snapshots q)) |}.

(** The eviction loop of [create]. *)
Fixpoint evict (size bytes : Z) (l : list (string * snapshot)) : list (string * snapshot) * Z :=
  match l with
  | [] => ([], bytes)
  | (_, s) :: rest =>
      if (MAX_SNAPSHOTS <=? Z.of_nat (length l)) || (MAX_CACHE_BYTES <? bytes + size)
      then evict size (bytes - sn_size s) rest
      else (l, bytes)
  end.

(** [self._snapshots[key] = snapshot] *)
Fixpoint put (key : string) (s : snapshot) (l : list (string * snapshot)) : list (string * snapshot) :=
  match l with
  | [] => [(key, s)]
  | (k, s') :: l => if bool_decide (key = k) then (k, s) :: l else (k, s') :: put key s l
  end.

(** [QueryPage] *)
Record qpage : Type := {
  p_items : list val; p_next_cursor : option string; p_total_rows : Z; p_scope : dict; p_fetched_at : string }.

Definition cursor_text (key : string) (offset : Z) : string := (key ++ ":" ++ str_int offset)%string.

(** [_page] *)
Definition _page (g : option ClientGrants) (s : snapshot) (key : string) (offset limit : Z) : result qpage :=
  (_ <- check_account_access g (dget_none "trd_env" (sn_scope s)) (dget_none "acc_id" (sn_scope s)) false ;;
   let items := take (Z.to_nat limit) (drop (Z.to_nat offset) (sn_items s)) in
   let following := offset + Z.of_nat (length items) in
   let total := Z.of_nat (length (sn_items s)) in
   Ok {| p_items := items;
         p_next_cursor := if following <? total then Some (cursor_text key following) else None;
         p_total_rows := total; p_scope := sn_scope s; p_fetched_at := sn_fetched_at s |})%py.

(** The bytes of a payload, or why it is refused; which of two reasons an
    encoder meets first is left out. *)
Definition payload_size (items : list val) (query scope : dict) : result Z :=
  let payload := VDict [("items", VList items); ("query", VDict query); ("scope", VDict scope)] in
  (_ <- json_dumps payload ;;
   let size := json_size payload in
   _ <- refuse_if (Z.min MAX_SNAPSHOT_BYTES MAX_CACHE_BYTES <? size)
          (TradeQueryError "SNAPSHOT_LIMIT" "pagination" "response too large; narrow the query") ;;
   Ok size)%py.

(** [create]; [now] and [now'] are the two clock readings, [key] the token. *)
Definition create (g : option ClientGrants) (key : string) (now now' : float)
    (query : dict) (items : list val) (scope : dict) (fetched_at : string) : SE cache qpage := fun q =>
  match (limit <- bind (ditem "limit" query) validate_limit ;;
         _ <- refuse_if (MAX_SNAPSHOT_ROWS <? Z.of_nat (length items))
                (TradeQueryError "SNAPSHOT_LIMIT" "pagination" "too many rows; narrow the query") ;;
         size <- payload_size items query scope ;;
         Ok (limit, size))%py with
  | Err e => (Err e, q)
  | Ok (limit, size) =>
      let s := {| sn_query := query; sn_items := items; sn_scope := scope; sn_fetched_at := fetched_at;
                  sn_expires := SFadd f_prec f_emax now SNAPSHOT_TTL_SECONDS; sn_size := size |} in
      if Z.of_nat (length items) <=? limit then (_page g s key 0 limit, q)
      else
        let q := _expire now' q in
        let '(kept, bytes) := evict size (q_bytes q) (q_snapshots q) in
        (_page g s key 0 limit, {| q_snapshots := put key s kept; q_bytes := bytes + size |})
  end.

(** The key and the offset a cursor names. *)
Definition parse_cursor (cursor : string) : result (string * Z) :=
  let bad := Err (ValueError "cursor must be a server-issued continuation") in
  if 128 <? len cursor then bad
  else let '(key, separator, position) := partition ":"%char cursor in
       if negb separator || negb (isdecimal position) || (8 <? len position) then bad
       else Ok (key, int_of position).

(** [continue_page] of a string cursor *)
Definition continue_page (g : option ClientGrants) (now : float) (cursor : string) (query : dict)
    : SE cache qpage := fun q =>
  match (limit <- bind (ditem "limit" query) validate_limit ;;
         let! (key, offset) := parse_cursor cursor in
         Ok (limit, key, offset))%py with
  | Err e => (Err e, q)
  | Ok (limit, key, offset) =>
      let q := _expire now q in
      (match find key (q_snapshots q) with
       | None => Err (TradeQueryError "CURSOR_EXPIRED" "pagination" "snapshot expired or was evicted")
       | Some s =>
           if negb (py_eqb (VDict (sn_query s)) (VDict query))
           then Err (TradeQueryError "CURSOR_SCOPE" "pagination" "cursor belongs to another query")
           else if (offset <? limit) || (Z.of_nat (length (sn_items s)) <=? offset) || negb (offset mod limit =? 0)
           then Err (ValueError "cursor contains an invalid page position")
           else _page g s key offset limit
       end, q)
  end.

(** ** The cache over any history *)

Definition bytes_of (l : list (string * snapshot)) : Z := foldr (fun ks n => sn_size ks.2 + n) 0 l.

(** The alphabet of [token_urlsafe], as far as it matters here. *)
Definition token (key : string) : Prop :=
  str_forall (fun c => negb (Ascii.eqb c ":")) key = true /\ len key <= 119.

Definition snapshot_ok (s : snapshot) : Prop :=
  0 <= sn_size s <= MAX_SNAPSHOT_BYTES /\ Z.of_nat (length (sn_items s)) <= MAX_SNAPSHOT_ROWS
  /\ exists limit, bind (ditem "limit" (sn_query s)) validate_limit = Ok limit.

(** The bytes are those of the snapshots held, and all bounds hold; every key
    was issued once. *)
Record cache_ok (q : cache) (issued : list string) : Prop := {
  cok_bytes : q_bytes q = bytes_of (q_snapshots q);
  cok_total : q_bytes q <= MAX_CACHE_BYTES;
  cok_count : Z.of_nat (length (q_snapshots q)) <= MAX_SNAPSHOTS;
  cok_each : Forall (fun ks => snapshot_ok ks.2 /\ ks.1 ∈ issued) (q_snapshots q) }.

Definition cache_state : Type := cache * list string.

(** One call: a new query under a key never issued before, or a continuation. *)
Inductive cache_step : cache_state -> cache_state -> Prop :=
  | step_create g key now now' query items scope at_ q issued :
      token key -> key ∉ issued ->
      cache_step (q, issued) (snd (create g key now now' query items scope at_ q), key :: issued)
  | step_continue g now cursor query q issued :
      cache_step (q, issued) (snd (continue_page g now cursor query q), issued).

Lemma bytes_nonneg l (issued : list string) : Forall (fun ks => snapshot_ok ks.2 /\ ks.1 ∈ issued) l -> 0 <= bytes_of l.
Proof. induction 1 as [|ks l [[? _] _] _ IH]; simpl; [done|]. lia. Qed.

Lemma bytes_filter f l :
  bytes_of (List.filter (fun x => negb (f x)) l) = bytes_of l - bytes_of (List.filter f l).
Proof. induction l as [|x l IH]; simpl; [done|]. destruct (f x); simpl; lia. Qed.

Lemma Forall_filter {A} (P : A -> Prop) f l : Forall P l -> Forall P (List.filter f l).
Proof. induction 1 as [|x l Hx _ IH]; simpl; [done|]. destruct (f x); [by constructor|done]. Qed.

Lemma length_filter_le {A} f (l : list A) : (length (List.filter f l) <= length l)%nat.
Proof. induction l as [|x l IH]; simpl; [done|]. destruct (f x); simpl; lia. Qed.

Lemma expire_ok now q issued : cache_ok q issued -> cache_ok (_expire now q) issued.
Proof.
  intros [Hb Ht Hc He]. pose proof (Forall_filter _ (fun ks => expired_at now ks.2) _ He) as Hf.
  apply bytes_nonneg in Hf. split; simpl.
  - rewrite Hb. unfold bytes_of. symmetry. apply (bytes_filter (fun ks => expired_at now ks.2)).
  - unfold bytes_of in Hf. lia.
  - pose proof (length_filter_le (fun ks => negb (expired_at now ks.2)) (q_snapshots q)). lia.
  - by apply Forall_filter.
Qed.

Lemma evict_ok size bytes l kept left (issued : list string) :
  evict size bytes l = (kept, left) -> bytes = bytes_of l -> 0 <= size <= MAX_SNAPSHOT_BYTES ->
  Forall (fun ks => snapshot_ok ks.2 /\ ks.1 ∈ issued) l ->
  left = bytes_of kept /\ left + size <= MAX_CACHE_BYTES /\ Z.of_nat (length kept) < MAX_SNAPSHOTS
  /\ (exists n, kept = drop n l).
Proof.
  revert bytes. induction l as [|[k s] l IH]; intros bytes H Hb Hs Hf; simpl in H.
  - injection H as <- <-. subst bytes. simpl. split_and!; [done| |done|by exists 0%nat].
    unfold MAX_SNAPSHOT_BYTES, MAX_CACHE_BYTES in *. lia.
  - inversion Hf; subst. destruct (_ || _) eqn:E.
    + destruct (IH _ H) as (? & ? & ? & [n ?]); [simpl; lia|done|done|]. split_and!; [done..|by exists (S n)].
    + injection H as <- <-. apply orb_false_iff in E as [E1 E2]. split_and!; [done|simpl in *; lia| |by exists 0%nat].
      by apply Z.leb_gt in E1.
Qed.

Lemma put_new key s l (issued : list string) :
  Forall (fun ks : string * snapshot => snapshot_ok ks.2 /\ ks.1 ∈ issued) l -> key ∉ issued -> put key s l = l ++ [(key, s)].
Proof.
  intros Hf Hk. induction Hf as [|[k s'] l [_ Hin] _ IH]; simpl; [done|].
  rewrite bool_decide_eq_false_2 by (simpl in Hin; congruence). by rewrite IH.
Qed.

Lemma bytes_app l k : bytes_of (l ++ k) = bytes_of l + bytes_of k.
Proof. induction l as [|x l IH]; simpl; [done|]. rewrite IH. lia. Qed.

Lemma chars_width_nonneg w s : (forall c, 0 <= w c) -> 0 <= chars_width w s.
Proof. intros Hw. induction s as [|c s IH]; simpl; [done|]. specialize (Hw c). lia. Qed.

Lemma json_width_nonneg w v : (forall c, 0 <= w c) -> 0 <= json_width w v.
Proof.
  intros Hw. induction v as [|b|z|f|s|l IH|d IH] using val_ind'; simpl; try (unfold len; lia); [by destruct b| | |].
  - unfold string_width. pose proof (chars_width_nonneg w s Hw). lia.
  - match goal with |- 0 <= 2 + ?x => enough (0 <= x) by lia end.
    induction IH as [|v l Hv _ IH]; [done|]. destruct l; lia.
  - match goal with |- 0 <= 2 + ?x => enough (0 <= x) by lia end.
    induction IH as [|[k v] d Hv _ IH]; [done|]. pose proof (chars_width_nonneg w k Hw). unfold string_width in *.
    simpl in Hv. destruct d; lia.
Qed.

Lemma json_size_nonneg v : 0 <= json_size v.
Proof. apply json_width_nonneg. intros c. unfold char_size. repeat case_match; lia. Qed.

Lemma payload_size_ok items query scope size :
  payload_size items query scope = Ok size -> 0 <= size <= MAX_SNAPSHOT_BYTES.
Proof.
  unfold payload_size. set (v := VDict _). intros H. apply bind_ok in H as (w & _ & H).
  apply bind_ok in H as ([] & H & E). assert (size = json_size v) as -> by congruence. clear E.
  pose proof (json_size_nonneg v) as Hv. clearbody v.
  apply refuse_if_ok in H. unfold MAX_SNAPSHOT_BYTES, MAX_CACHE_BYTES in *. lia.
Qed.

(** What [create] did. *)
Lemma create_cases g key now now' query items scope at_ q issued r q' :
  create g key now now' query items scope at_ q = (r, q') -> cache_ok q issued -> key ∉ issued ->
  (is_ok r = false /\ q' = q) \/
  exists limit s, bind (ditem "limit" query) validate_limit = Ok limit /\ snapshot_ok s
    /\ sn_query s = query /\ sn_items s = items /\ sn_scope s = scope /\ sn_fetched_at s = at_
    /\ sn_expires s = SFadd f_prec f_emax now SNAPSHOT_TTL_SECONDS /\ r = _page g s key 0 limit
    /\ ((Z.of_nat (length items) <= limit /\ q' = q)
        \/ (limit < Z.of_nat (length items) /\ exists kept,
              q' = {| q_snapshots := kept ++ [(key, s)]; q_bytes := bytes_of kept + sn_size s |}
              /\ (exists n, kept = drop n (q_snapshots (_expire now' q)))
              /\ bytes_of kept + sn_size s <= MAX_CACHE_BYTES /\ Z.of_nat (length kept) < MAX_SNAPSHOTS)).
Proof.
  intros H Hok Hk. unfold create in H. destruct (bind _ _) as [[limit size]|x] eqn:E.
  2: { injection H as <- <-. by left. }
  right. apply bind_ok in E as (limit0 & Hl & E). apply bind_ok in E as ([] & Hrows & E).
  apply bind_ok in E as (size0 & Hsize & [= -> ->]). apply refuse_if_ok in Hrows.
  apply payload_size_ok in Hsize. set (s := {| sn_query := query |}) in *.
  exists limit, s. split; [done|]. split; [split; [done|split; [by apply Z.ltb_ge in Hrows|by exists limit]]|].
  do 5 (split; [done|]). destruct (_ <=? limit) eqn:Ele.
  - injection H as <- <-. split; [done|]. left. split; [lia|done].
  - destruct (evict _ _ _) as [kept left] eqn:Ee. injection H as <- <-. split; [done|]. right. split; [lia|].
    exists kept. apply (expire_ok now') in Hok. destruct Hok as [Hb _ _ He].
    destruct (evict_ok _ _ _ _ _ _ Ee Hb Hsize He) as (-> & ? & ? & [n Hn]).
    split_and!; [|by exists n|done|done]. f_equal. eapply put_new; [|exact Hk].
    rewrite Hn. by apply Forall_drop.
Qed.

Lemma cache_step_ok x y : cache_step x y -> cache_ok x.1 x.2 -> cache_ok y.1 y.2.
Proof.
  assert (Hmono : forall q issued key, cache_ok q issued -> cache_ok q (key :: issued)).
  { intros q issued key [Hb Ht Hc He]. split; try done. eapply Forall_impl; [exact He|].
    intros ks [? ?]. split; [done|by right]. }
  destruct 1 as [g key now now' query items scope at_ q issued Ht Hk|g now cursor query q issued]; simpl; intros Hok.
  - destruct (create _ _ _ _ _ _ _ _ q) as [r q'] eqn:E. simpl.
    apply create_cases with (issued := issued) in E as [[_ ->]|(limit & s & _ & Hs & _ & _ & _ & _ & _ & _ & E)];
      [by apply Hmono| |done|done].
    destruct E as [[_ ->]|(_ & kept & -> & [n Hn] & Htot & Hcount)]; [by apply Hmono|].
    pose proof (expire_ok now' _ _ Hok) as [Hb _ _ He]. split; simpl.
    + by rewrite bytes_app; simpl; rewrite Z.add_0_r.
    + done.
    + rewrite length_app. simpl. lia.
    + apply Forall_app. split; [|constructor; [|done]; split; [done|by left]].
      subst kept. apply Forall_drop. eapply Forall_impl; [exact He|]. intros ks [? ?]. split; [done|by right].
  - unfold continue_page. destruct (bind _ _) as [[[limit key] offset]|x]; simpl; [by apply expire_ok|done].
Qed.

(** ** Cursors *)

(** A cursor names its snapshot and its offset. *)
Lemma parse_cursor_text key n :
  token key -> 0 <= n <= MAX_SNAPSHOT_ROWS -> parse_cursor (cursor_text key n) = Ok (key, n).
Proof.
  intros [Hk Hl] [Hn Hm]. unfold parse_cursor, cursor_text.
  assert (Hs : str_int n = str_nat n) by (unfold str_int; by replace (n <? 0) with false by lia).
  assert (Hd : len (str_int n) <= 8).
  { rewrite str_int_len by done. apply num_digits_le; [done|done|]. unfold MAX_SNAPSHOT_ROWS in Hm. lia. }
  assert (Hlen : len (key ++ ":" ++ str_int n)%string = len key + 1 + len (str_int n)).
  { unfold len. rewrite length_app_str. simpl. lia. }
  rewrite Hlen. replace (128 <? _) with false by lia.
  change (":" ++ str_int n)%string with (String ":" (str_int n)). rewrite partition_app_found by done.
  replace (8 <? len (str_int n)) with false by lia. rewrite Hs, str_nat_isdecimal, int_of_str by done. done.
Qed.

Lemma page_ok g s key offset limit pg :
  _page g s key offset limit = Ok pg -> 0 <= offset ->
  let shown := take (Z.to_nat limit) (drop (Z.to_nat offset) (sn_items s)) in
  p_items pg = shown
  /\ p_next_cursor pg = if offset + Z.of_nat (length shown) <? Z.of_nat (length (sn_items s))
                        then Some (cursor_text key (offset + Z.of_nat (length shown))) else None.
Proof. unfold _page. intros H Ho. apply bind_ok in H as ([] & _ & [= <-]). done. Qed.

(** ** A client that follows the cursors *)

(** A query under [key]: its first page, then, with other calls in between, one
    page per cursor; [n] counts the pages and [seen] collects their rows. *)
Inductive paging (key : string) (query : dict) (items : list val)
    : cache_state -> nat -> option string -> list val -> Prop :=
  | page_first g now now' scope at_ q issued pg q' :
      cache_ok q issued -> token key -> key ∉ issued ->
      create g key now now' query items scope at_ q = (Ok pg, q') ->
      paging key query items (q', key :: issued) 1 (p_next_cursor pg) (p_items pg)
  | page_other x y n c seen :
      paging key query items x n c seen -> cache_step x y -> paging key query items y n c seen
  | page_next g now q issued n c seen pg q' :
      paging key query items (q, issued) n (Some c) seen ->
      continue_page g now c query q = (Ok pg, q') ->
      paging key query items (q', issued) (S n) (p_next_cursor pg) (seen ++ p_items pg).

(** What the cache still holds under a key is the query's own snapshot. *)
Definition kept_as (key : string) (query : dict) (items : list val) (q : cache) : Prop :=
  Forall (fun ks => ks.1 = key -> sn_query ks.2 = query /\ sn_items ks.2 = items) (q_snapshots q).

Lemma kept_expire key query items now q :
  kept_as key query items q -> kept_as key query items (_expire now q).
Proof. apply Forall_filter. Qed.

Lemma kept_step key query items x y :
  cache_step x y -> cache_ok x.1 x.2 -> key ∈ x.2 -> kept_as key query items x.1 -> kept_as key query items y.1.
Proof.
  destruct 1 as [g k now now' query' items' scope at_ q issued Ht Hk|g now cursor query' q issued]; simpl;
    intros Hok Hin H.
  - destruct (create _ _ _ _ _ _ _ _ q) as [r q'] eqn:E. simpl.
    apply create_cases with (issued := issued) in E as [[_ ->]|(limit & s & _ & _ & _ & _ & _ & _ & _ & _ & E)];
      [done| |done|done].
    destruct E as [[_ ->]|(_ & kept & -> & [n ->] & _)]; [done|].
    apply Forall_app. split; [apply Forall_drop, kept_expire, H|]. constructor; [|done].
    intros Heq. simpl in Heq. congruence.
  - unfold continue_page. destruct (bind _ _) as [[[limit k] offset]|x]; simpl; [by apply kept_expire|done].
Qed.

Lemma find_elem key l s : find key l = Some s -> (key, s) ∈ l.
Proof.
  induction l as [|[k s'] l IH]; simpl; [done|]. case_bool_decide; [intros [= ->]; subst; by left|].
  intros. right. by apply IH.
Qed.

(** Where a client stands after [n] pages. *)
Definition stands (key : string) (query : dict) (items : list val) (x : cache_state) (n : nat)
    (cursor : option string) (seen : list val) : Prop :=
  cache_ok x.1 x.2 /\ token key /\ key ∈ x.2 /\ kept_as key query items x.1
  /\ Z.of_nat (length items) <= MAX_SNAPSHOT_ROWS
  /\ exists limit : nat, (0 < limit)%nat
       /\ bind (ditem "limit" query) validate_limit = Ok (Z.of_nat limit)
       /\ seen = take (n * limit) items /\ (0 < n)%nat /\ ((n - 1) * limit < Nat.max 1 (length items))%nat
       /\ cursor = if (n * limit <? length items)%nat then Some (cursor_text key (Z.of_nat (n * limit))) else None.

Lemma validate_limit_ok v n : validate_limit v = Ok n -> 1 <= n <= MAX_PAGE_SIZE.
Proof. unfold validate_limit. destruct v; try done. destruct (_ || _) eqn:E; [done|]. intros [= <-]. lia. Qed.

Lemma paging_stands key query items x n c seen :
  paging key query items x n c seen -> stands key query items x n c seen.
Proof.
  induction 1 as [g now now' scope at_ q issued pg q' Hok Ht Hk H|x y n c seen _ IH Hs
    |g now q issued n c seen pg q' _ IH H].
  - pose proof (cache_step_ok _ _ (step_create g key now now' query items scope at_ q issued Ht Hk) Hok) as Hok'.
    pose proof H as Hc. rewrite Hc in Hok'. simpl in Hok'.
    apply create_cases with (issued := issued) in H
      as [[? _]|(limit & s & Hl & (_ & Hrows & _) & Hq & Hi & _ & _ & _ & Hr & E)]; [done| |done|done].
    split; [done|]. split; [done|]. split; [by left|]. subst query items. split.
    { unfold kept_as. destruct E as [[_ ->]|(_ & kept & -> & [j ->] & _)]; simpl.
      - eapply Forall_impl; [apply (cok_each _ _ Hok)|]. intros ks [_ Hin] Heq. simpl in *. congruence.
      - apply Forall_app. split; [|by constructor].
        apply Forall_drop. eapply Forall_impl; [apply (cok_each _ _ (expire_ok now' _ _ Hok))|].
        intros ks [_ Hin] Heq. simpl in *. congruence. }
    split; [done|]. pose proof Hl as Hv. apply bind_ok in Hv as (v & _ & Hv). apply validate_limit_ok in Hv.
    exists (Z.to_nat limit). rewrite Z2Nat.id by lia. symmetry in Hr.
    apply page_ok in Hr as [-> ->]; [|done]. simpl. rewrite drop_0, length_take, Nat.add_0_r.
    split_and!; [lia|done|done|lia|lia|].
    destruct (Nat.ltb_spec (Z.to_nat limit) (length (sn_items s))).
    + rewrite Nat.min_l by lia. rewrite (proj2 (Z.ltb_lt _ _)) by lia. done.
    + rewrite Nat.min_r by lia. rewrite (proj2 (Z.ltb_ge _ _)) by lia. done.
  - destruct IH as (Hok & Ht & Hk & Hkept & Hrest). split; [by eapply cache_step_ok|]. split; [done|].
    split; [destruct Hs; simpl in *; [by right|done]|]. split; [by eapply kept_step|done].
  - destruct IH as (Hok & Ht & Hk & Hkept & Hrows & limit & Hpos & Hl & -> & Hn & Hb & Hc).
    simpl in *. destruct (n * limit <? length items)%nat eqn:Elt; [|done]. injection Hc as ->.
    apply Nat.ltb_lt in Elt. unfold continue_page in H. rewrite Hl in H. cbn [bind] in H.
    rewrite parse_cursor_text in H by (try done; lia). cbn [bind] in H.
    match type of H with (?r, ?q1) = _ => set (r1 := r) in H; assert (Hr : r1 = Ok pg) by congruence;
      assert (q' = q1) as -> by congruence; unfold r1 in Hr end. clear H r1. rename Hr into H.
    destruct (find key _) as [s|] eqn:Ef; [|done]. apply find_elem in Ef.
    pose proof (kept_expire _ _ _ now _ Hkept) as Hkept'.
    unfold kept_as in Hkept'. rewrite Forall_forall in Hkept'. destruct (Hkept' _ Ef eq_refl) as [Hq Hi].
    simpl in Hq, Hi. destruct (negb (py_eqb _ _)); [done|]. destruct (_ || _) eqn:Eo; [done|].
    apply page_ok in H as [-> ->]; [|lia]. rewrite Hi, !Nat2Z.id.
    split; [by apply expire_ok|]. split; [done|]. split; [done|]. split; [by apply kept_expire|]. split; [done|].
    exists limit. split; [done|]. split; [done|]. split; [by rewrite take_take_drop; f_equal; lia|].
    split; [lia|]. split; [lia|]. rewrite length_take, length_drop.
    destruct (Nat.ltb_spec (S n * limit) (length items)).
    + rewrite Nat.min_l by lia. rewrite (proj2 (Z.ltb_lt _ _)) by lia. do 2 f_equal. lia.
    + rewrite Nat.min_r by lia. rewrite (proj2 (Z.ltb_ge _ _)) by lia. done.
Qed.

(** Following the cursors reads the broker's answer exactly.  A client that
    follows the cursors of its query, with any other queries, continuations,
    expiries and evictions in between, has after n pages read the first n pages
    of the rows its query returned, in order and once; when there is no further
    cursor it has read all of them, after no more pages than their number
    needs. *)
Theorem cursors_read_everything key query items x n cursor seen limit :
  paging key query items x n cursor seen ->
  bind (ditem "limit" query) validate_limit = Ok limit ->
  seen = take (n * Z.to_nat limit) items
  /\ (cursor = None -> seen = items)
  /\ (n = 1%nat \/ (Z.of_nat n - 1) * limit < Z.of_nat (length items)).
Proof.
  intros H Hl. apply paging_stands in H as (_ & _ & _ & _ & _ & l & Hpos & Hl' & -> & Hn & Hb & ->).
  assert (limit = Z.of_nat l) as -> by congruence. rewrite Nat2Z.id. split; [done|]. split.
  - destruct (Nat.ltb_spec (n * l) (length items)) as [?|Hge]; [done|]. intros _. by apply firstn_all2.
  - destruct (decide (n = 1%nat)); [by left|right]. nia.
Qed.

(** A cursor is refused only for a reason the client is told.  Continuing the
    same query at a cursor it was given succeeds, unless the snapshot has expired
    or was evicted, or the caller may not read the account of the snapshot. *)
Theorem issued_cursor_served key query items q issued n cursor seen g now :
  paging key query items (q, issued) n (Some cursor) seen -> py_eqb (VDict query) (VDict query) = true ->
  match fst (continue_page g now cursor query q) with
  | Ok pg => p_items pg <> []
  | Err (TradeQueryError code _ _) => code = "CURSOR_EXPIRED" /\ find key (q_snapshots (_expire now q)) = None
  | Err e => exists s, find key (q_snapshots (_expire now q)) = Some s
               /\ check_account_access g (dget_none "trd_env" (sn_scope s)) (dget_none "acc_id" (sn_scope s)) false
                  = Err e
  end.
Proof.
  intros H Heq. apply paging_stands in H as (_ & Ht & _ & Hkept & Hrows & l & Hpos & Hl & _ & Hn & _ & Hc).
  destruct (n * l <? length items)%nat eqn:Elt; [|done]. injection Hc as ->. apply Nat.ltb_lt in Elt.
  unfold continue_page. rewrite Hl. cbn [bind]. rewrite parse_cursor_text by (try done; lia). cbn [bind fst].
  destruct (find key _) as [s|] eqn:Ef; [|done]. pose proof (find_elem _ _ _ Ef) as Hin.
  pose proof (kept_expire _ _ _ now _ Hkept) as Hk. unfold kept_as in Hk. rewrite Forall_forall in Hk.
  destruct (Hk _ Hin eq_refl) as [Hq Hi]. cbn [snd] in Hq, Hi. rewrite Hq, Heq, Hi. cbn [negb].
  rewrite (proj2 (Z.ltb_ge _ _)) by nia. rewrite (proj2 (Z.leb_gt _ _)) by lia.
  replace (Z.of_nat (n * l) mod Z.of_nat l =? 0) with true
    by (rewrite Nat2Z.inj_mul, Z.mod_mul by lia; done). cbn [negb orb].
  unfold _page. destruct (check_account_access _ _ _ _) as [[]|e] eqn:Ea; cbn [bind].
  - cbn [p_items]. rewrite Hi, !Nat2Z.id. intros E. apply (f_equal length) in E.
    rewrite length_take, length_drop in E. simpl in E. lia.
  - assert (He : exists m, e = ClientAuthorizationError m).
    { unfold check_account_access in Ea. destruct (account_access_allowed _ _ _ _); [done|]. injection Ea as <-. eauto. }
    destruct He as [m ->]. eauto.
Qed.

(** *** A concrete query *)

Definition demo_query : dict := [("limit", VInt 2); ("method", VStr "get_orders_page"); ("acc_id", VStr "0")].
Definition demo_items : list val := map VInt [10; 20; 30; 40; 50].
Definition demo_scope : dict := [("trd_env", VStr "REAL"); ("acc_id", VStr "7")].
Definition demo_create := create None "key-1" f_zero f_zero demo_query demo_items demo_scope "t" empty_cache.
Definition demo_continue (k : nat) (q : cache) := continue_page None f_zero (cursor_text "key-1" (2 * Z.of_nat k)) demo_query q.
Definition demo_page (r : result qpage * cache) : qpage :=
  match fst r with Ok pg => pg | Err _ => {| p_items := []; p_next_cursor := None; p_total_rows := 0; p_scope := [];
                                            p_fetched_at := "" |} end.

Example demo_pages :
  map p_items [demo_page demo_create; demo_page (demo_continue 1 (snd demo_create)); demo_page (demo_continue 2 (snd demo_create))]
  = [[VInt 10; VInt 20]; [VInt 30; VInt 40]; [VInt 50]]
  /\ fst (continue_page (Some demo_grants) f_zero (cursor_text "key-1" 2) demo_query (snd demo_create))
     = Err (ClientAuthorizationError "Client permission does not allow this account")
  /\ fst (continue_page None (f_lit "121") (cursor_text "key-1" 2) demo_query (snd demo_create))
     = Err (TradeQueryError "CURSOR_EXPIRED" "pagination" "snapshot expired or was evicted").
Proof. by vm_compute. Qed.

Lemma demo_paging :
  paging "key-1" demo_query demo_items (snd demo_create, ["key-1"]) 1 (Some "key-1:2") [VInt 10; VInt 20].
Proof.
  change (Some "key-1:2") with (p_next_cursor (demo_page demo_create)).
  change [VInt 10; VInt 20] with (p_items (demo_page demo_create)).
  eapply (page_first _ _ _ None f_zero f_zero demo_scope "t" empty_cache []); [|done| |by vm_compute].
  - split; [done|done|done|constructor].
  - apply not_elem_of_nil.
Qed.

Lemma issued_cursor_served_witness :
  py_eqb (VDict demo_query) (VDict demo_query) = true
  /\ p_items (demo_page (continue_page None f_zero "key-1:2" demo_query (snd demo_create))) <> [].
Proof.
  split; [by vm_compute|].
  pose proof (issued_cursor_served "key-1" demo_query demo_items (snd demo_create) ["key-1"] 1 "key-1:2"
    [VInt 10; VInt 20] None f_zero demo_paging eq_refl) as T.
  unfold demo_page. destruct (fst (continue_page None f_zero "key-1:2" demo_query (snd demo_create))) as [pg|e] eqn:E;
    [exact T|by vm_compute in E].
Defined.
