(* ===== verification/Queries.v ===== *)
(** services/trade_queries.py and services/query_contracts.py: reads of orders,
    deals and fees with exact identifiers, and their pages over Snapshots.

    The SDK's answer to an operation and its parameters is an argument, as are
    the status names the SDK knows and the clock readings. *)

From Stdlib Require Import SpecFloat.
From S2P Require Import Prelude PyStr PyFloat PyDec DecText PyVal JsonText Validation ClientAuth Prep Paper.
From S2P Require Import KlineCursor Snapshots.

#[local] Open Scope list_scope.

(** ** query_contracts.py *)

Definition QUERY_IDENTIFIERS : list string := ["acc_id"; "order_id"; "deal_id"; "position_id"; "combo_id"].

(** [exact_identifier] *)
Definition exact_id (value : val) : result val :=
  match value with
  | VNone => Ok VNone
  | VBool _ => Err (TradeQueryError "INVALID_IDENTIFIER" "response" "is boolean")
  | VInt z => Ok (VStr (str_int z))
  | VStr s => Ok (VStr s)
  | VFloat f => if is_nan f then Ok VNone
                else Err (TradeQueryError "INVALID_IDENTIFIER" "response" "must be an exact string or integer")
  | _ => Err (TradeQueryError "INVALID_IDENTIFIER" "response" "must be an exact string or integer")
  end.

(** [plain_record] *)
Fixpoint plain_record (field : string) (value : val) : result val :=
  if mem field QUERY_IDENTIFIERS then exact_id value
  else match value with
       | VDict d =>
           bind ((fix go (d : dict) : result dict :=
                    match d with
                    | [] => Ok []
                    | (k, v) :: d => bind (plain_record k v) (fun v' => bind (go d) (fun d' => Ok ((k, v') :: d')))
                    end) d) (fun d' => Ok (VDict d'))
       | VList l =>
           bind ((fix go (l : list val) : result (list val) :=
                    match l with
                    | [] => Ok []
                    | v :: l => bind (plain_record "" v) (fun v' => bind (go l) (fun l' => Ok (v' :: l')))
                    end) l) (fun l' => Ok (VList l'))
       | VFloat f => Ok (if is_finite f then VFloat f else VNone)
       | _ => Ok value
       end.

(** [optional_number]: [float(value)] if it is a finite number. *)
Definition optional_number (value : val) : result val :=
  let finite (f : float) := if is_finite f then VFloat f else VNone in
  match value with
  | VInt z => bind (f_of_Z z) (fun f => Ok (finite f))
  | VFloat f => Ok (finite f)
  | VStr s => Ok (match f_parse s with Some f => finite f | None => VNone end)
  | _ => Ok VNone
  end.

(** [optional_text] *)
Definition optional_text (value : val) : val :=
  if is_none value || is_str_eq "N/A" value then VNone else VStr (py_str value).

Definition raw_of (record : dict) : result dict :=
  bind (plain_record "" (VDict record)) (fun v => match v with VDict d => Ok d | _ => Err AssertionError end).

(** [order_view] and [deal_view] *)
Definition order_view (record : dict) : result val :=
  (raw <- raw_of record ;;
   let get k := dget_none k raw in
   qty <- optional_number (get "qty") ;;
   price <- optional_number (get "price") ;;
   dealt_qty <- optional_number (get "dealt_qty") ;;
   dealt_avg_price <- optional_number (get "dealt_avg_price") ;;
   Ok (VDict [("order_id", get "order_id"); ("code", optional_text (get "code"));
              ("trd_side", optional_text (get "trd_side")); ("order_type", optional_text (get "order_type"));
              ("order_status", optional_text (get "order_status")); ("qty", qty); ("price", price);
              ("dealt_qty", dealt_qty); ("dealt_avg_price", dealt_avg_price); ("raw", VDict raw)]))%py.
Definition deal_view (record : dict) : result val :=
  (raw <- raw_of record ;;
   let get k := dget_none k raw in
   qty <- optional_number (get "qty") ;;
   price <- optional_number (get "price") ;;
   Ok (VDict [("deal_id", get "deal_id"); ("order_id", get "order_id"); ("code", optional_text (get "code"));
              ("trd_side", optional_text (get "trd_side")); ("qty", qty); ("price", price);
              ("raw", VDict raw)]))%py.

(** ** Validation *)

(** [require_real] *)
Definition require_real (trd_env : val) : result unit :=
  (e <- validate_choice trd_env ["REAL"; "SIMULATE"] ;;
   refuse_if (negb (bool_decide (e = "REAL")))
     (ValueError "Deal and fee queries are supported only for REAL accounts"))%py.

(** [validate_order_id] *)
Definition validate_order_id (order_id : val) : result string :=
  match order_id with
  | VStr s => if nonempty s && bool_decide (strip s = s) then Ok s
              else Err (ValueError "order_id must be a non-empty exact broker identifier string")
  | _ => Err (ValueError "order_id must be a non-empty exact broker identifier string")
  end.

(** [validate_fee_request] *)
Definition validate_fee_request (order_id_list trd_env : val) : result (list string) :=
  (_ <- require_real trd_env ;;
   l <- match order_id_list with
        | VList l => if (1 <=? Z.of_nat (length l)) && (Z.of_nat (length l) <=? 400) then Ok l
                     else Err (ValueError "order_id_list must contain between 1 and 400 identifiers")
        | _ => Err (ValueError "order_id_list must contain between 1 and 400 identifiers")
        end ;;
   mapM validate_order_id l)%py.

(** A history bound: a date, and the seconds of its day.  The printed form must
    be the text given, which [strftime] writes without padding before 1000; the
    reasons of a refusal are not told apart. *)
Definition stamp_of (value : val) : result (date * Z) :=
  let bad := Err (ValueError "must use the documented date format") in
  match value with
  | VStr s =>
      if negb ((len s =? 10) || (len s =? 19))
      then Err (ValueError "must be YYYY-MM-DD or YYYY-MM-DD HH:MM:SS")
      else
        match strptime_date (String.substring 0 10 s) with
        | None => bad
        | Some d =>
            if negb (bool_decide (isoformat d = String.substring 0 10 s) && (1000 <=? year d)) then bad
            else
              match chars_of (String.substring 10 9 s) with
              | [] => Ok (d, 0)
              | [sp; h1; h2; c1; m1; m2; c2; s1; s2] =>
                  let two a b := char_digit a * 10 + char_digit b in
                  if Ascii.eqb sp " " && Ascii.eqb c1 ":" && Ascii.eqb c2 ":"
                     && forallb is_decimal [h1; h2; m1; m2; s1; s2]
                     && (two h1 h2 <? 24) && (two m1 m2 <? 60) && (two s1 s2 <? 60)
                  then Ok (d, two h1 h2 * 3600 + two m1 m2 * 60 + two s1 s2)
                  else bad
              | _ => bad
              end
        end
  | _ => Err (ValueError "must be YYYY-MM-DD or YYYY-MM-DD HH:MM:SS")
  end.
Definition stamp_seconds (x : date * Z) : Z := ordinal (fst x) * 86400 + snd x.

(** [validate_lookup] *)
Definition validate_lookup (source order_id start stop : val) : result string :=
  (_ <- validate_order_id order_id ;;
   source <- validate_choice source ["CURRENT"; "HISTORY"] ;;
   if bool_decide (source = "CURRENT") then
     _ <- refuse_if (truthy start || truthy stop) (ValueError "start/end are available only for HISTORY lookup") ;;
     Ok source
   else
     _ <- refuse_if (negb (truthy start) || negb (truthy stop))
            (ValueError "HISTORY lookup requires explicit start and end dates") ;;
     a <- stamp_of start ;;
     b <- stamp_of stop ;;
     let days := (stamp_seconds b - stamp_seconds a) / 86400 in
     _ <- refuse_if ((stamp_seconds b <? stamp_seconds a) || (365 <? days))
            (ValueError "HISTORY lookup requires an ordered range of at most 366 days") ;;
     Ok source)%py.

Example stamp_ex :
  map (fun t => match stamp_of (VStr t) with Ok x => Some (snd x) | Err _ => None end)
    ["2024-02-29"; "2024-2-29"; "2024-02-29 23:59:59"; "2024-02-29 24:00:00"; "2023-02-29"; "2024-02-29T10:00:00"]
  = [Some 0; None; Some 86399; None; None; None].
Proof. by vm_compute. Qed.

(** ** Accounts *)

Definition VALID_TRADING_MARKETS : list string :=
  ["NONE"; "HK"; "US"; "CN"; "HKCC"; "SG"; "AU"; "JP"; "MY"; "CA"].

(** A filter that may be left out. *)
Definition optional_choice (value : option val) (allowed : list string) : result (option string) :=
  match value with
  | Some v => bind (validate_choice v allowed) (fun c => Ok (Some c))
  | None => Ok None
  end.

Definition market_authorized (market : string) (account : dict) : bool :=
  match dget_none "trdmarket_auth" account with VList l => existsb (is_str_eq market) l | _ => false end.

(** [get_accounts]; its response filters, and what the SDK's account list gave. *)
Definition get_accounts (g : option ClientGrants) (market trd_env : option val) (sdk_accounts : result (list dict))
    : result (list dict) :=
  (market <- optional_choice market VALID_TRADING_MARKETS ;;
   environment <- optional_choice trd_env ["REAL"; "SIMULATE"] ;;
   accounts <- sdk_accounts ;;
   let accounts := match market with
                   | None => accounts
                   | Some m => if bool_decide (m = "NONE") then accounts else List.filter (market_authorized m) accounts
                   end in
   let accounts := match environment with
                   | None => accounts
                   | Some e => List.filter (fun a => is_str_eq e (dget_none "trd_env" a)) accounts
                   end in
   Ok (filter_readable_accounts g accounts))%py.

(** [_exact_account_id(value, allow_zero=False)] *)
Definition positive_account_id (v : val) : result Z :=
  (z <- _exact_account_id v ;;
   _ <- refuse_if (z <? 1) (ValueError "acc_id must be a positive integer.") ;;
   Ok z)%py.

(** [resolve_read_account] *)
Definition resolve_read_account (g : option ClientGrants) (sdk_accounts : result (list dict)) (trd_env acc_id : val)
    : result (string * Z) :=
  (environment <- validate_choice trd_env ["REAL"; "SIMULATE"] ;;
   requested <- _exact_account_id acc_id ;;
   _ <- (if requested =? 0 then Ok tt else check_account_access g (VStr environment) (VInt requested) false) ;;
   accounts <- get_accounts g None None sdk_accounts ;;
   eligible <- mapM (fun a => positive_account_id (dget_none "acc_id" a))
                 (List.filter (fun a => is_str_eq environment (dget_none "trd_env" a)) accounts) ;;
   if requested =? 0 then
     match eligible with
     | [account] => Ok (environment, account)
     | [] => Err (ValueError "No account is available to resolve acc_id='0'.")
     | _ => Err (ValueError "acc_id='0' does not identify one")
     end
   else if bool_decide (requested ∈ eligible) then Ok (environment, requested)
   else Err (ValueError "Account is not available in the environment"))%py.

(** ** The service *)

Definition PAGE_OPERATIONS : list (string * string) :=
  [("get_orders_page", "order_list_query"); ("get_deals_page", "deal_list_query");
   ("get_history_orders_page", "history_order_list_query"); ("get_history_deals_page", "history_deal_list_query")].
Definition SDK_QUERY_OPERATIONS : list string := map snd PAGE_OPERATIONS ++ ["order_fee_query"].

(** What a dispatched SDK query comes back with: rows, no data, another payload
    than a frame, or an error code; or it raises. *)
Inductive query_reply : Type :=
  | Rows (rows : list dict)
  | NoData
  | NoFrame
  | QueryRefused.

(** The owner's context, when connected. *)
Definition sdk : Type := option (string -> dict -> result query_reply).

Section service.
Context (status_known : string -> bool).

(** [_convert_status_filter]; [OrderStatus.NONE] is the SDK's N/A. *)
Definition _convert_status_filter (v : val) : result val :=
  match v with
  | VNone => Ok (VList [])
  | VList l =>
      bind (mapM (fun x => match x with
                           | VStr s =>
                               let status := if bool_decide (upper s = "NONE") then "N/A" else upper s in
                               if status_known status then Ok (VStr status)
                               else Err (ValueError "Invalid order status")
                           | _ => Err (TypeError "a status name is a string")
                           end) l) (fun l' => Ok (VList l'))
  | _ => Err (TypeError "a status filter is a list")
  end.

(** [_records]; the rows are those left by [plain_combo_legs]. *)
Definition _records (k : sdk) (operation : string) (params : dict) (row_limit : option Z) : result (list dict) :=
  (_ <- refuse_if (negb (mem operation SDK_QUERY_OPERATIONS)) (ValueError "Unsupported trading query operation") ;;
   query <- match k with Some q => Ok q | None => Err (RuntimeError "Trade context not connected") end ;;
   answer <- query operation params ;;
   match answer with
   | QueryRefused => Err (TradeQueryError "BROKER_ERROR" operation "failed")
   | NoData => if mem operation ["order_list_query"; "history_order_list_query"] then Ok []
               else Err (TradeQueryError "INVALID_RESPONSE" operation "expected a DataFrame")
   | NoFrame => Err (TradeQueryError "INVALID_RESPONSE" operation "expected a DataFrame")
   | Rows rows =>
       _ <- refuse_if (match row_limit with Some n => n <? Z.of_nat (length rows) | None => false end)
              (TradeQueryError "SNAPSHOT_LIMIT" operation "too many returned rows; narrow the query") ;;
       Ok rows
   end)%py.

(** [get_orders], [get_deals], [get_history_orders] and [get_history_deals]. *)
Definition get_orders (g : option ClientGrants) (sdk_accounts : result (list dict)) (k : sdk)
    (code status_filter_list trd_env acc_id refresh_cache : val) : result (list dict) :=
  (let! (environment, account) := resolve_read_account g sdk_accounts trd_env acc_id in
   filter <- _convert_status_filter status_filter_list ;;
   _records k "order_list_query"
     [("code", code); ("status_filter_list", filter); ("trd_env", VStr environment); ("acc_id", VInt account);
      ("refresh_cache", refresh_cache)] None)%py.
Definition get_deals (g : option ClientGrants) (sdk_accounts : result (list dict)) (k : sdk)
    (code trd_env acc_id refresh_cache : val) : result (list dict) :=
  (_ <- require_real trd_env ;;
   let! (environment, account) := resolve_read_account g sdk_accounts trd_env acc_id in
   _records k "deal_list_query"
     [("code", code); ("trd_env", VStr environment); ("acc_id", VInt account); ("refresh_cache", refresh_cache)] None)%py.
Definition get_history_orders (g : option ClientGrants) (sdk_accounts : result (list dict)) (k : sdk)
    (code status_filter_list start stop trd_env acc_id : val) : result (list dict) :=
  (let! (environment, account) := resolve_read_account g sdk_accounts trd_env acc_id in
   filter <- _convert_status_filter status_filter_list ;;
   _records k "history_order_list_query"
     [("code", code); ("status_filter_list", filter); ("start", start); ("end", stop);
      ("trd_env", VStr environment); ("acc_id", VInt account)] None)%py.
Definition get_history_deals (g : option ClientGrants) (sdk_accounts : result (list dict)) (k : sdk)
    (code start stop trd_env acc_id : val) : result (list dict) :=
  (_ <- require_real trd_env ;;
   let! (environment, account) := resolve_read_account g sdk_accounts trd_env acc_id in
   _records k "history_deal_list_query"
     [("code", code); ("start", start); ("end", stop); ("trd_env", VStr environment); ("acc_id", VInt account)] None)%py.

(** [_scope] *)
Definition _scope (source trd_env : string) (acc_id : Z) (filters : dict) : dict :=
  [("source", VStr source); ("acc_id", VStr (str_int acc_id)); ("trd_env", VStr trd_env);
   ("filters", VDict filters);
   ("coverage", VStr (if bool_decide (source = "CURRENT_ORDERS")
                      then "Provider current orders: open orders and recently terminal orders"
                      else "Provider-returned rows within the requested account and filters; not proof of lifetime completeness"))].

(** The rows whose exact identifier is [order_id]. *)
Definition id_matches (order_id : string) (row : dict) : result bool :=
  bind (exact_id (dget_none "order_id" row)) (fun v => Ok (bool_decide (v = VStr order_id))).

Record order_answer : Type := { oa_order : option val; oa_scope : dict }.

(** [get_order]; [params] are its keyword arguments. *)
Definition get_order (g : option ClientGrants) (sdk_accounts : result (list dict)) (k : sdk)
    (source order_id code start stop trd_env acc_id refresh_cache : val) : result order_answer :=
  (source <- validate_lookup source order_id start stop ;;
   let! (environment, account) := resolve_read_account g sdk_accounts trd_env acc_id in
   wanted <- validate_order_id order_id ;;
   let params := [("code", code); ("trd_env", VStr environment); ("acc_id", VInt account)] in
   let current := bool_decide (source = "CURRENT") in
   let params := if current then params ++ [("order_id", order_id); ("refresh_cache", refresh_cache)]
                 else params ++ [("start", start); ("end", stop)] in
   let operation := if current then "order_list_query" else "history_order_list_query" in
   rows <- _records k operation params (Some MAX_SNAPSHOT_ROWS) ;;
   matches <- filterM (id_matches wanted) rows ;;
   _ <- refuse_if (1 <? Z.of_nat (length matches))
          (TradeQueryError "AMBIGUOUS_ORDER" operation "multiple exact matches") ;;
   order <- match matches with [] => Ok None | row :: _ => bind (order_view row) (fun v => Ok (Some v)) end ;;
   Ok {| oa_order := order;
         oa_scope := _scope (if current then "CURRENT_ORDERS" else "HISTORY_ORDERS") environment account
                       [("order_id", order_id); ("code", code); ("start", start); ("end", stop);
                        ("refresh_cache", if current then refresh_cache else VNone)] |})%py.

(** [check_fee_account]; [ca] tells the SDK's name of Moomoo CA. *)
Definition check_fee_account (g : option ClientGrants) (sdk_accounts : result (list dict)) (ca : string)
    (security_firm : val) (acc_id : Z) : result unit :=
  (accounts <- get_accounts g None None sdk_accounts ;;
   matching <- filterM (fun a => n <- positive_account_id (dget_none "acc_id" a) ;; Ok (n =? acc_id)) accounts ;;
   match matching with
   | [account] =>
       refuse_if (is_str_eq ca (dget_none "security_firm" account) || is_str_eq ca security_firm)
         (ValueError "Order fee queries are unavailable for Moomoo CA accounts")
   | _ => Err (ValueError "Fee account discovery is missing or ambiguous")
   end)%py.

Record fee : Type := { fee_order : string; fee_amount : val; fee_details : val }.

Definition fee_detail (detail : val) : result val :=
  match detail with
  | VList [name; amount] =>
      bind (optional_number amount) (fun a => Ok (VDict [("name", VStr (py_str name)); ("amount", a)]))
  | _ => Err (TradeQueryError "INVALID_RESPONSE" "order_fee_query" "invalid fee detail")
  end.

(** One row: its identifier was requested and not seen yet. *)
Definition fee_row (requested seen : list string) (row : dict) : result fee :=
  (id <- exact_id (dget_none "order_id" row) ;;
   id <- match id with
         | VStr s => if mem s requested then Ok s
                     else Err (TradeQueryError "INVALID_RESPONSE" "order_fee_query" "unexpected order identifier")
         | _ => Err (TradeQueryError "INVALID_RESPONSE" "order_fee_query" "unexpected order identifier")
         end ;;
   _ <- refuse_if (mem id seen) (TradeQueryError "INVALID_RESPONSE" "order_fee_query" "duplicate order identifier") ;;
   details <- match dget_none "fee_details" row with
              | VList l => bind (mapM fee_detail l) (fun l => Ok (VList l))
              | _ => Ok VNone
              end ;;
   amount <- optional_number (dget_none "fee_amount" row) ;;
   Ok {| fee_order := id; fee_amount := amount; fee_details := details |})%py.

Fixpoint fee_rows (requested seen : list string) (rows : list dict) : result (list fee) :=
  match rows with
  | [] => Ok []
  | row :: rows =>
      (f <- fee_row requested seen row ;;
       rest <- fee_rows requested (fee_order f :: seen) rows ;;
       Ok (f :: rest))%py
  end.

(** [get_order_fees] *)
Definition get_order_fees (g : option ClientGrants) (sdk_accounts : result (list dict)) (k : sdk) (ca : string)
    (security_firm order_id_list trd_env acc_id : val) : result (list fee) :=
  (requested <- validate_fee_request order_id_list trd_env ;;
   let! (environment, account) := resolve_read_account g sdk_accounts trd_env acc_id in
   _ <- check_fee_account g sdk_accounts ca security_firm account ;;
   rows <- _records k "order_fee_query"
             [("order_id_list", order_id_list); ("trd_env", VStr environment); ("acc_id", VInt account)] (Some 400) ;;
   fee_rows requested [] rows)%py.

(** ** Pages *)

Definition of_deals (method : string) : bool := mem method ["get_deals_page"; "get_history_deals_page"].
Definition of_history (method : string) : bool := mem method ["get_history_orders_page"; "get_history_deals_page"].
Definition without (keys : list string) (d : dict) : dict := List.filter (fun kv => negb (mem (fst kv) keys)) d.

(** The query a snapshot is bound to. *)
Definition bound_query (method environment : string) (account : Z) (params : dict) : dict :=
  dset "acc_id" (VStr (str_int account)) (dset "trd_env" (VStr environment)
    (dset "method" (VStr method) (without ["cursor"] params))).

Definition view_of (method : string) : dict -> result val := if of_deals method then deal_view else order_view.

Record page_answers : Type := {
  pa_accounts : result (list dict); pa_sdk : sdk;
  pa_key : string; pa_now : float; pa_now' : float; pa_fetched_at : string }.

(** The checks of [page] before a cursor is looked at. *)
Definition page_query (method : string) (params : dict) : result (string * string * dict) :=
  (operation <- match List.find (fun mo => bool_decide (fst mo = method)) PAGE_OPERATIONS with
                | Some (_, o) => Ok o
                | None => Err (KeyError method)
                end ;;
   _ <- bind (ditem "limit" params) validate_limit ;;
   environment <- bind (ditem "trd_env" params) (fun e => validate_choice e ["REAL"; "SIMULATE"]) ;;
   _ <- (if of_deals method then require_real (VStr environment) else Ok tt) ;;
   account <- bind (ditem "acc_id" params) _exact_account_id ;;
   Ok (operation, environment, bound_query method environment account params))%py.

(** The rows of a first page and what they answer. *)
Definition page_rows (g : option ClientGrants) (w : page_answers) (method operation environment : string)
    (params : dict) : result (list val * dict) :=
  (acc_id <- ditem "acc_id" params ;;
   let! (environment, account) := resolve_read_account g (pa_accounts w) (VStr environment) acc_id in
   let sdk_params := dset "acc_id" (VInt account) (dset "trd_env" (VStr environment)
                       (without ["limit"; "cursor"] params)) in
   sdk_params <- match dget "status_filter_list" sdk_params with
                 | Some v => bind (_convert_status_filter v) (fun l => Ok (dset "status_filter_list" l sdk_params))
                 | None => Ok sdk_params
                 end ;;
   rows <- _records (pa_sdk w) operation sdk_params (Some MAX_SNAPSHOT_ROWS) ;;
   views <- mapM (view_of method) rows ;;
   let source := ((if of_history method then "HISTORY" else "CURRENT")
                  ++ (if of_deals method then "_DEALS" else "_ORDERS"))%string in
   Ok (views, _scope source environment account (without ["acc_id"; "trd_env"; "limit"; "cursor"] params)))%py.

(** [page] *)
Definition page (g : option ClientGrants) (w : page_answers) (method : string) (params : dict) : SE cache qpage :=
  fun q =>
  match page_query method params with
  | Err e => (Err e, q)
  | Ok (operation, environment, query) =>
      match dget_none "cursor" params with
      | VNone =>
          match page_rows g w method operation environment params with
          | Err e => (Err e, q)
          | Ok (views, scope) => create g (pa_key w) (pa_now w) (pa_now' w) query views scope (pa_fetched_at w) q
          end
      | VStr cursor => continue_page g (pa_now w) cursor query q
      | _ => (Err (ValueError "cursor must be a server-issued continuation"), q)
      end
  end.
End service.

(** ** The account of a read *)

Lemma positive_account_ok v n : positive_account_id v = Ok n -> 1 <= n.
Proof.
  unfold positive_account_id. intros H. apply bind_ok in H as (z & _ & H). apply bind_ok in H as ([] & Hz & [= <-]).
  apply refuse_if_ok in Hz. lia.
Qed.

(** The rows a read may choose from. *)
Lemma readable_row g e rows row :
  row ∈ List.filter (fun a => is_str_eq e (dget_none "trd_env" a)) (filter_readable_accounts g rows)
  <-> row ∈ rows /\ is_str_eq e (dget_none "trd_env" row) = true
      /\ account_access_allowed g (VStr e) (dget_or "acc_id" (VStr "") row) false = true.
Proof.
  unfold filter_readable_accounts. rewrite !list_elem_of_In, !List.filter_In.
  assert (Heq : is_str_eq e (dget_none "trd_env" row) = true -> dget_or "trd_env" (VStr "") row = VStr e).
  { unfold is_str_eq, dget_none, dget_or. destruct (dget "trd_env" row) as [[| | | |t| |]|]; try done. cbn.
    intros H. apply bool_decide_eq_true in H. by subst t. }
  split.
  - intros [[? Hac] Hs]. rewrite (Heq Hs) in Hac. by split_and!.
  - intros (? & Hs & Hac). by rewrite (Heq Hs).
Qed.

(** A read is bound to one account the client may read.  The environment is
    one of the two, and the account is one the provider lists in it and the
    client's grant lets it read; an explicit identifier is used as it is, and
    zero only stands for the one readable account there is. *)
Theorem read_account_scope g sdk_accounts trd_env acc_id environment account :
  resolve_read_account g sdk_accounts trd_env acc_id = Ok (environment, account) ->
  environment ∈ ["REAL"; "SIMULATE"] /\ 1 <= account
  /\ (exists rows row, sdk_accounts = Ok rows /\ row ∈ rows
        /\ is_str_eq environment (dget_none "trd_env" row) = true
        /\ positive_account_id (dget_none "acc_id" row) = Ok account
        /\ account_access_allowed g (VStr environment) (dget_or "acc_id" (VStr "") row) false = true
        /\ (_exact_account_id acc_id = Ok 0 -> forall row', row' ∈ rows ->
              is_str_eq environment (dget_none "trd_env" row') = true ->
              account_access_allowed g (VStr environment) (dget_or "acc_id" (VStr "") row') false = true ->
              positive_account_id (dget_none "acc_id" row') = Ok account))
  /\ (_exact_account_id acc_id = Ok 0
      \/ _exact_account_id acc_id = Ok account
         /\ check_account_access g (VStr environment) (VInt account) false = Ok tt).
Proof.
  unfold resolve_read_account. intros H. apply bind_ok in H as (e & He & H).
  apply bind_ok in H as (requested & Hr & H). apply bind_ok in H as ([] & Hc & H).
  apply bind_ok in H as (accounts & Ha & H). apply bind_ok in H as (eligible & Hel & H).
  unfold get_accounts in Ha. cbn [optional_choice bind] in Ha. apply bind_ok in Ha as (rows & -> & [= <-]).
  assert (Henv : e ∈ ["REAL"; "SIMULATE"]).
  { unfold validate_choice in He. destruct trd_env; try done. destruct (mem _ _) eqn:E; [|done].
    injection He as <-. by apply mem_true in E. }
  assert (Hin : forall x, x ∈ eligible -> exists row, (row ∈ rows
      /\ is_str_eq e (dget_none "trd_env" row) = true
      /\ account_access_allowed g (VStr e) (dget_or "acc_id" (VStr "") row) false = true)
      /\ positive_account_id (dget_none "acc_id" row) = Ok x).
  { intros x Hx. destruct (mapM_elem _ _ _ _ Hel Hx) as (row & Hrow & Hid).
    exists row. split; [by apply readable_row|done]. }
  destruct (requested =? 0) eqn:E0.
  - apply Z.eqb_eq in E0. subst requested. destruct eligible as [|x [|? ?]]; try done. injection H as <- <-.
    destruct (Hin x) as (row & (? & ? & ?) & Hp); [by left|]. split; [done|].
    split; [by eapply positive_account_ok|]. split; [|by left]. exists rows, row. split_and!; try done.
    intros _ row' ? ? ?. assert (Hf : row' ∈ List.filter (fun a => is_str_eq e (dget_none "trd_env" a))
      (filter_readable_accounts g rows)) by by apply readable_row.
    apply list_elem_of_lookup in Hf as [i Hi]. apply mapM_Forall2 in Hel.
    destruct (Forall2_lookup_l _ _ _ _ _ Hel Hi) as (b & Hb & Hid).
    by apply list_lookup_singleton_Some in Hb as [_ <-].
  - case_bool_decide as Hx; [|done]. injection H as <- <-. destruct (Hin _ Hx) as (row & (? & ? & ?) & Hp).
    split; [done|]. split; [by eapply positive_account_ok|]. split; [|right; by split].
    exists rows, row. split_and!; try done. intros Hz. rewrite Hr in Hz. injection Hz as ->. done.
Qed.

(** ** One exact order *)

Definition named_by (order_id : string) (row : dict) : bool :=
  match exact_id (dget_none "order_id" row) with Ok v => bool_decide (v = VStr order_id) | Err _ => false end.

Lemma id_matches_named order_id row b : id_matches order_id row = Ok b -> b = named_by order_id row.
Proof. unfold id_matches, named_by. intros H. apply bind_ok in H as (v & -> & [= <-]). done. Qed.

Lemma matched_rows order_id rows l :
  filterM (id_matches order_id) rows = Ok l -> l = List.filter (named_by order_id) rows.
Proof.
  intros H. apply filterM_split in H as (keep & Hk & ->). induction Hk as [|row rows Hr _ IH]; simpl; [done|].
  apply id_matches_named in Hr. rewrite Hr, IH. by destruct (named_by order_id row).
Qed.

(** The identifier of a record survives into its view. *)
Lemma plain_record_dict d d' :
  plain_record "" (VDict d) = Ok (VDict d') -> forall k, match dget k d with
    | Some v => exists v', dget k d' = Some v' /\ plain_record k v = Ok v'
    | None => dget k d' = None end.
Proof.
  cbn [plain_record]. change (mem "" QUERY_IDENTIFIERS) with false. cbv iota. intros H k.
  apply bind_ok in H as (d0 & H & [= <-]). revert d0 H.
  induction d as [|[k0 v0] d IH]; intros d0 H; [by injection H as <-|].
  apply bind_ok in H as (v' & Hv & H). apply bind_ok in H as (d1 & Hd & [= <-]). cbn [dget].
  case_bool_decide as Hk; [subst k0; eauto|]. exact (IH _ Hd).
Qed.

Lemma view_identifier record v :
  order_view record = Ok v -> exists d, v = VDict d /\ exact_id (dget_none "order_id" record) = Ok (dget_none "order_id" d).
Proof.
  unfold order_view. intros H. apply bind_ok in H as (raw & Hraw & H).
  apply bind_ok in H as (qty & _ & H). apply bind_ok in H as (price & _ & H).
  apply bind_ok in H as (dq & _ & H). apply bind_ok in H as (da & _ & [= <-]). eexists. split; [done|].
  change (dget_none "order_id" (("order_id", dget_none "order_id" raw) :: _)) with (dget_none "order_id" raw).
  unfold raw_of in Hraw. apply bind_ok in Hraw as (w & Hw & Hraw). destruct w as [| | | | | |d]; try done.
  injection Hraw as ->. pose proof (plain_record_dict _ _ Hw "order_id") as Hk. unfold dget_none.
  destruct (dget "order_id" record) as [x|].
  - destruct Hk as (v' & -> & Hp). cbn [default]. destruct x; exact Hp.
  - by rewrite Hk.
Qed.

(** An order lookup is exact.  The one query is sent for the resolved account;
    an order is returned only when exactly one row of its answer has the
    identifier, it is that row's view and carries the identifier; when none is
    returned no row has it, and two such rows are an error. *)
Theorem get_order_exact g sdk_accounts k source order_id code start stop trd_env acc_id refresh r :
  get_order g sdk_accounts k source order_id code start stop trd_env acc_id refresh = Ok r ->
  exists wanted environment account operation params rows,
    order_id = VStr wanted /\ resolve_read_account g sdk_accounts trd_env acc_id = Ok (environment, account)
    /\ dget_none "trd_env" params = VStr environment /\ dget_none "acc_id" params = VInt account
    /\ dget_none "acc_id" (oa_scope r) = VStr (str_int account)
    /\ _records k operation params (Some MAX_SNAPSHOT_ROWS) = Ok rows
    /\ match oa_order r with
       | Some v => exists row, List.filter (named_by wanted) rows = [row] /\ order_view row = Ok v
                     /\ exists d, v = VDict d /\ dget_none "order_id" d = VStr wanted
       | None => List.filter (named_by wanted) rows = []
       end.
Proof.
  unfold get_order. intros H. apply bind_ok in H as (src & Hsrc & H).
  apply bind_ok in H as ([environment account] & Hacc & H). apply bind_ok in H as (wanted & Hw & H).
  apply bind_ok in H as (rows & Hrows & H). apply bind_ok in H as (matches & Hm & H).
  apply matched_rows in Hm as ->. apply bind_ok in H as ([] & Hone & H). apply refuse_if_ok in Hone.
  apply bind_ok in H as (order & Ho & [= <-]). cbn [oa_order oa_scope].
  assert (order_id = VStr wanted) as ->.
  { unfold validate_order_id in Hw. destruct order_id; try done. destruct (_ && _); [by injection Hw as ->|done]. }
  eexists wanted, environment, account, _, _, rows. split_and!; [done|done| | | |exact Hrows|].
  1-2: by destruct (bool_decide _).
  { reflexivity. }
  destruct (List.filter (named_by wanted) rows) as [|row [|? ?]] eqn:Ef; [by injection Ho as <-| |apply Z.ltb_ge in Hone; cbn [length] in Hone; lia].
  apply bind_ok in Ho as (v & Hv & [= <-]). exists row. split; [done|]. split; [done|].
  destruct (view_identifier _ _ Hv) as (d & -> & Hid). exists d. split; [done|].
  assert (Hin : In row (List.filter (named_by wanted) rows)) by (rewrite Ef; by left).
  apply List.filter_In in Hin as [_ Hn]. unfold named_by in Hn. rewrite Hid in Hn. by apply bool_decide_eq_true in Hn.
Qed.

(** ** Fees *)

Lemma fee_row_ok requested seen row f :
  fee_row requested seen row = Ok f ->
  fee_order f ∈ requested /\ fee_order f ∉ seen /\ exact_id (dget_none "order_id" row) = Ok (VStr (fee_order f)).
Proof.
  unfold fee_row. intros H. apply bind_ok in H as (v & Hv & H). apply bind_ok in H as (id & Hid & H).
  apply bind_ok in H as ([] & Hs & H). apply refuse_if_ok in Hs. apply bind_ok in H as (details & _ & H).
  apply bind_ok in H as (amount & _ & [= <-]). cbn [fee_order]. destruct v; try done.
  destruct (mem s requested) eqn:E; [|done]. injection Hid as ->. split_and!; [by apply mem_true| |done].
  intros Hin. by apply mem_true in Hin; congruence.
Qed.

(** Fees answer the orders asked for: one per row of the answer, each for an
    identifier that was requested, none twice. *)
Lemma fee_rows_exact requested seen rows fees :
  fee_rows requested seen rows = Ok fees ->
  Forall2 (fun row f => exact_id (dget_none "order_id" row) = Ok (VStr (fee_order f))) rows fees
  /\ Forall (fun f => fee_order f ∈ requested /\ fee_order f ∉ seen) fees /\ NoDup (map fee_order fees).
Proof.
  revert seen fees. induction rows as [|row rows IH]; intros seen fees H; cbn [fee_rows] in H.
  - injection H as <-. split_and!; constructor.
  - apply bind_ok in H as (f & Hf & H). apply bind_ok in H as (rest & Hr & [= <-]).
    destruct (fee_row_ok _ _ _ _ Hf) as (Hreq & Hseen & Hid). destruct (IH _ _ Hr) as (H2 & Hall & Hn).
    split_and!; [by constructor| |].
    + constructor; [done|]. eapply Forall_impl; [exact Hall|]. intros x [? Hx]. split; [done|].
      intros Hin. apply Hx. by right.
    + cbn [map]. constructor; [|done]. intros Hin. apply list_elem_of_fmap in Hin as (x & Hx & Hin).
      rewrite Forall_forall in Hall. destruct (Hall _ Hin) as [_ Hx']. apply Hx'. rewrite <-Hx. by left.
Qed.

(** ** Paged queries *)

Lemma dget_without keys k d : k ∉ keys -> dget k (without keys d) = dget k d.
Proof.
  intros Hk. induction d as [|[k' v] d IH]; [done|]. unfold without in *. cbn [List.filter fst].
  destruct (mem k' keys) eqn:E; cbn [negb dget]; case_bool_decide as Hkk; try done.
  subst k'. exfalso. apply Hk. by apply mem_true.
Qed.

Lemma without_dset k v d : without [k] (dset k v d) = without [k] d.
Proof.
  assert (Hk : negb (mem k [k]) = false) by (apply negb_false_iff, mem_true; by left).
  induction d as [|[k' w] d IH]; unfold without in *; cbn [dset]; [by cbn [List.filter fst]; rewrite Hk|].
  case_bool_decide as Hkk; cbn [List.filter fst]; [subst; by rewrite Hk|]. by rewrite IH.
Qed.

(** A cursor changes nothing of the query a call is bound to. *)
Lemma page_query_cursor method params c :
  page_query method (dset "cursor" (VStr c) params) = page_query method params.
Proof. unfold page_query, bound_query. rewrite !ditem_dset_ne, without_dset by done. reflexivity. Qed.

Lemma page_query_limit method params operation environment query :
  page_query method params = Ok (operation, environment, query) ->
  bind (ditem "limit" query) validate_limit = bind (ditem "limit" params) validate_limit.
Proof.
  unfold page_query. intros H. apply bind_ok in H as (o & _ & H). apply bind_ok in H as (l & _ & H).
  apply bind_ok in H as (e & _ & H). apply bind_ok in H as ([] & _ & H). apply bind_ok in H as (a & _ & [= _ _ <-]).
  unfold bound_query. rewrite !ditem_dset_ne by done. unfold ditem. by rewrite dget_without by set_solver.
Qed.

Section paged.
Context (status_known : string -> bool).

(** The one broker query behind a first page: for the resolved account, these
    rows. *)
Definition broker_answer (method : string) (params : dict) (rows : list dict) : Prop :=
  exists g w operation environment query account sdk_params,
    page_query method params = Ok (operation, environment, query)
    /\ resolve_read_account g (pa_accounts w) (VStr environment) (dget_none "acc_id" params) = Ok (environment, account)
    /\ dget_none "acc_id" sdk_params = VInt account /\ dget_none "trd_env" sdk_params = VStr environment
    /\ _records (pa_sdk w) operation sdk_params (Some MAX_SNAPSHOT_ROWS) = Ok rows.

(** A client of one paged query: its first page, then a page per cursor, each
    with its own grants, clock and broker, and other calls in between. *)
Inductive following (method : string) (params : dict)
    : cache_state -> nat -> option string -> list val -> Prop :=
  | follow_first g w q issued pg q' :
      cache_ok q issued -> token (pa_key w) -> pa_key w ∉ issued -> dget "cursor" params = None ->
      page status_known g w method params q = (Ok pg, q') ->
      following method params (q', pa_key w :: issued) 1 (p_next_cursor pg) (p_items pg)
  | follow_other x y n c seen :
      following method params x n c seen -> cache_step x y -> following method params y n c seen
  | follow_next g w q issued n c seen pg q' :
      following method params (q, issued) n (Some c) seen ->
      page status_known g w method (dset "cursor" (VStr c) params) q = (Ok pg, q') ->
      following method params (q', issued) (S n) (p_next_cursor pg) (seen ++ p_items pg).

Lemma resolve_environment g accounts e acc_id e' account :
  e = "REAL" \/ e = "SIMULATE" -> resolve_read_account g accounts (VStr e) acc_id = Ok (e', account) -> e' = e.
Proof.
  intros He H. unfold resolve_read_account in H. apply bind_ok in H as (e0 & He0 & H).
  assert (e0 = e) as -> by (destruct He as [-> | ->]; vm_compute in He0; congruence).
  apply bind_ok in H as (requested & _ & H). apply bind_ok in H as ([] & _ & H).
  apply bind_ok in H as (accounts' & _ & H). apply bind_ok in H as (eligible & _ & H).
  destruct (requested =? 0); [destruct eligible as [|? [|? ?]]; try done|case_bool_decide; [|done]]; by injection H.
Qed.

Lemma page_rows_answer g w method operation environment query params views scope :
  page_query method params = Ok (operation, environment, query) ->
  page_rows status_known g w method operation environment params = Ok (views, scope) ->
  exists rows, broker_answer method params rows /\ Forall2 (fun row v => view_of method row = Ok v) rows views.
Proof.
  intros Hq H. unfold page_rows in H. apply bind_ok in H as (acc_id & Ha & H).
  apply bind_ok in H as ([e account] & Hr & H). apply bind_ok in H as (sdk_params & Hs & H).
  apply bind_ok in H as (rows & Hrows & H). apply bind_ok in H as (vs & Hv & [= <- _]).
  assert (Hacc : dget_none "acc_id" params = acc_id).
  { unfold ditem in Ha. unfold dget_none. destruct (dget "acc_id" params); by simplify_eq. }
  assert (Henv : environment = "REAL" \/ environment = "SIMULATE").
  { unfold page_query in Hq. apply bind_ok in Hq as (o & _ & Hq). apply bind_ok in Hq as (l & _ & Hq).
    apply bind_ok in Hq as (e0 & He & Hq). apply bind_ok in Hq as ([] & _ & Hq).
    apply bind_ok in Hq as (a & _ & [= _ <- _]). apply bind_ok in He as (v & _ & He).
    unfold validate_choice in He. destruct v; try done. destruct (mem _ _) eqn:E; [|done]. injection He as <-.
    apply mem_true, elem_of_cons in E as [->|E]; [by left|]. apply list_elem_of_singleton in E as ->. by right. }
  pose proof (resolve_environment _ _ _ _ _ _ Henv Hr) as ->.
  exists rows. split; [|by apply mapM_Forall2].
  exists g, w, operation, environment, query, account, sdk_params. split_and!; [done|by rewrite Hacc| | |done].
  all: assert (Hk : forall k, k <> "status_filter_list" -> dget k sdk_params
         = dget k (dset "acc_id" (VInt account) (dset "trd_env" (VStr environment) (without ["limit"; "cursor"] params))))
    by (intros k Hne; destruct (dget "status_filter_list" _); [|by injection Hs as <-];
        apply bind_ok in Hs as (l & _ & [= <-]); by rewrite dget_dset_ne).
  - unfold dget_none. by rewrite Hk, dget_dset_eq by done.
  - unfold dget_none. by rewrite Hk, dget_dset_ne, dget_dset_eq by done.
Qed.

(** A client of a query is a client of its snapshot. *)
Lemma following_paging method params x n c seen :
  following method params x n c seen ->
  exists key rows views operation environment query, page_query method params = Ok (operation, environment, query)
    /\ broker_answer method params rows /\ Forall2 (fun row v => view_of method row = Ok v) rows views
    /\ paging key query views x n c seen.
Proof.
  induction 1 as [g w q issued pg q' Hok Ht Hk Hc H|x y n c seen _ IH Hs|g w q issued n c seen pg q' _ IH H].
  - unfold page in H. destruct (page_query method params) as [[[operation environment] query]|] eqn:Eq; [|done].
    unfold dget_none in H. rewrite Hc in H. cbn [default] in H.
    destruct (page_rows status_known g w method operation environment params) as [[views scope]|] eqn:Er; [|done].
    destruct (page_rows_answer _ _ _ _ _ _ _ _ _ Eq Er) as (rows & Hb & Hv).
    exists (pa_key w), rows, views, operation, environment, query. split_and!; [done|done|done|].
    by eapply page_first.
  - destruct IH as (key & rows & views & o & e & query & ? & ? & ? & Hp). exists key, rows, views, o, e, query.
    split_and!; [done..|]. by eapply page_other.
  - destruct IH as (key & rows & views & o & e & query & Hq & ? & ? & Hp). exists key, rows, views, o, e, query.
    split_and!; [done..|]. unfold page in H. rewrite page_query_cursor, Hq in H.
    unfold dget_none in H. rewrite dget_dset_eq in H. cbn [default] in H. eapply page_next; [exact Hp|exact H].
Qed.

(** C25 A paged query reads one broker answer.  A client that follows the cursors
    of a page tool, with other calls, expiries and evictions in between and
    whatever the broker would answer by now, has after n pages read the views of
    the first n pages of rows of one broker answer, for the account its first
    call resolved, in order and once; without a further cursor it has read
    all of them, in no more pages than their number needs. *)
Theorem query_pages_read_rows method params x n cursor seen limit :
  following method params x n cursor seen -> bind (ditem "limit" params) validate_limit = Ok limit ->
  exists rows views, broker_answer method params rows
    /\ Forall2 (fun row v => view_of method row = Ok v) rows views
    /\ seen = take (n * Z.to_nat limit) views
    /\ (cursor = None -> seen = views)
    /\ (n = 1%nat \/ (Z.of_nat n - 1) * limit < Z.of_nat (length rows)).
Proof.
  intros H Hl. destruct (following_paging _ _ _ _ _ _ H) as (key & rows & views & o & e & query & Hq & Hb & Hv & Hp).
  rewrite <-(page_query_limit _ _ _ _ _ Hq) in Hl. exists rows, views.
  destruct (cursors_read_everything _ _ _ _ _ _ _ _ Hp Hl) as (H1 & H2 & H3).
  by rewrite (Forall2_length _ _ _ Hv).
Qed.
End paged.

(** ** Examples *)

Definition demo_accounts : result (list dict) :=
  Ok [[("acc_id", VInt 7); ("trd_env", VStr "REAL"); ("trdmarket_auth", VList [VStr "HK"; VStr "US"])];
      [("acc_id", VInt 8); ("trd_env", VStr "SIMULATE")]].
Definition demo_order (id : val) (qty : Z) : dict := [("order_id", id); ("code", VStr "HK.00700"); ("qty", VInt qty)].
Definition demo_rows : list dict := [demo_order (VStr "A1") 100; demo_order (VInt 22) 200; demo_order (VStr "A3") 300].
Definition demo_sdk : sdk := Some (fun _ _ => Ok (Rows demo_rows)).
Definition demo_lookup (id : string) : result order_answer :=
  get_order None demo_accounts demo_sdk (VStr "current") (VStr id) (VStr "") (VStr "") (VStr "") (VStr "real") (VStr "0") (VBool false).
Definition demo_params : dict :=
  [("code", VStr ""); ("limit", VInt 2); ("trd_env", VStr "real"); ("acc_id", VStr "0"); ("status_filter_list", VNone)].
Definition demo_answers (key : string) (k : sdk) : page_answers :=
  {| pa_accounts := demo_accounts; pa_sdk := k; pa_key := key; pa_now := f_zero; pa_now' := f_zero; pa_fetched_at := "t" |}.
Definition demo_first := page (fun _ => false) None (demo_answers "key-1" demo_sdk) "get_orders_page" demo_params empty_cache.
(** The second page, when the broker no longer answers. *)
Definition demo_second := page (fun _ => false) None (demo_answers "key-2" None) "get_orders_page"
  (dset "cursor" (VStr "key-1:2") demo_params) (snd demo_first).

Example accounts_ex :
  map (fun m => match get_accounts None (Some (VStr m)) None demo_accounts with
                | Ok l => Some (length l) | Err _ => None end) ["us"; "CN"; "none"; "moon"]
  = [Some 1%nat; Some 0%nat; Some 2%nat; None].
Proof. by vm_compute. Qed.

Lemma read_account_scope_witness :
  resolve_read_account None demo_accounts (VStr " real ") (VStr "0") = Ok ("REAL", 7) /\ 1 <= 7.
Proof.
  split; [by vm_compute|].
  exact (proj1 (proj2 (read_account_scope None demo_accounts (VStr " real ") (VStr "0") "REAL" 7 eq_refl))).
Defined.

Lemma get_order_exact_witness :
  exists r r', demo_lookup "22" = Ok r /\ demo_lookup "23" = Ok r' /\ oa_order r' = None
    /\ exists wanted environment account operation params rows, VStr "22" = VStr wanted
        /\ resolve_read_account None demo_accounts (VStr "real") (VStr "0") = Ok (environment, account)
        /\ dget_none "trd_env" params = VStr environment /\ dget_none "acc_id" params = VInt account
        /\ dget_none "acc_id" (oa_scope r) = VStr (str_int account)
        /\ _records demo_sdk operation params (Some MAX_SNAPSHOT_ROWS) = Ok rows
        /\ match oa_order r with
           | Some v => exists row, List.filter (named_by wanted) rows = [row] /\ order_view row = Ok v
                         /\ exists d, v = VDict d /\ dget_none "order_id" d = VStr wanted
           | None => List.filter (named_by wanted) rows = []
           end.
Proof.
  destruct (demo_lookup "22") as [r|] eqn:E; [|by vm_compute in E].
  destruct (demo_lookup "23") as [r'|] eqn:E'; [|by vm_compute in E'].
  exists r, r'. split_and!; [done|done|by vm_compute in E'; injection E' as <-|].
  exact (get_order_exact _ _ _ _ _ _ _ _ _ _ _ _ E).
Defined.

Definition demo_page_of (r : result qpage * cache) : qpage :=
  match fst r with Ok pg => pg | Err _ => {| p_items := []; p_next_cursor := None; p_total_rows := 0; p_scope := [];
                                            p_fetched_at := "" |} end.

Lemma demo_following :
  following (fun _ => false) "get_orders_page" demo_params (snd demo_second, ["key-1"]) 2 None
    (p_items (demo_page_of demo_first) ++ p_items (demo_page_of demo_second)).
Proof.
  assert (E2 : demo_second = (Ok (demo_page_of demo_second), snd demo_second)) by (vm_compute; reflexivity).
  assert (F : following (fun _ => false) "get_orders_page" demo_params (snd demo_first, ["key-1"]) 1 (Some "key-1:2")
                (p_items (demo_page_of demo_first))).
  { assert (E1 : demo_first = (Ok (demo_page_of demo_first), snd demo_first)) by (vm_compute; reflexivity).
    assert (C1 : p_next_cursor (demo_page_of demo_first) = Some "key-1:2") by (vm_compute; reflexivity).
    rewrite <-C1.
    refine (follow_first _ _ demo_params None (demo_answers "key-1" demo_sdk) empty_cache [] _ _ _ _ _ eq_refl E1).
    - split; [done|done|done|constructor].
    - split; [reflexivity|vm_compute; discriminate].
    - apply not_elem_of_nil.
  }
  assert (C2 : p_next_cursor (demo_page_of demo_second) = None) by (vm_compute; reflexivity).
  rewrite <-C2. exact (follow_next _ _ _ None (demo_answers "key-2" None) _ _ _ _ _ _ _ F E2).
Qed.

Lemma query_pages_read_rows_witness :
  exists rows views, broker_answer "get_orders_page" demo_params rows
    /\ Forall2 (fun row v => view_of "get_orders_page" row = Ok v) rows views
    /\ p_items (demo_page_of demo_first) ++ p_items (demo_page_of demo_second) = views.
Proof.
  destruct (query_pages_read_rows _ _ _ _ _ _ _ 2 demo_following eq_refl) as (rows & views & Hb & Hv & _ & Hall & _).
  exists rows, views. split_and!; [exact Hb|exact Hv|exact (Hall eq_refl)].
Defined.
