(* ===== verification/Supervisor.v ===== *)
(** supervisor.py: the process that owns the gateway and the server.  The policy
    is a machine over the processes the supervisor can see; what the world does
    meanwhile (children exiting, orphans being reparented, time passing, a stop
    signal arriving) is a list of moves, one batch of which happens before each
    system call.  Clock readings are exact rationals: the rounding of their
    sums and differences is not modelled. *)

From Stdlib Require Import QArith Qround Lqa.
From S2P Require Import Prelude PyStr.

#[local] Open Scope Z_scope.
#[local] Open Scope list_scope.

Definition qlt (x y : Q) : bool := negb (Qle_bool y x).

Lemma qlt_true x y : qlt x y = true <-> (x < y)%Q.
Proof.
  unfold qlt. rewrite negb_true_iff. split; intros H.
  - apply Qnot_le_lt. intros Hle. apply Qle_bool_iff in Hle. congruence.
  - destruct (Qle_bool y x) eqn:E; [|done]. apply Qle_bool_iff in E. lra.
Qed.
Lemma qlt_false x y : qlt x y = false <-> (y <= x)%Q.
Proof. unfold qlt. rewrite negb_false_iff. apply Qle_bool_iff. Qed.

(** ** Children and the world *)

Definition GATEWAY : string := "opend".
Definition SERVER : string := "moomoo-mcp".
Definition EXIT_OK : Z := 0.
Definition EXIT_SERVER_EXITED : Z := 1.
Definition EXIT_GATEWAY_UNRECOVERABLE : Z := 2.
Definition EXIT_CONFIG : Z := 3.
Definition SIGKILL : Z := 9.
Definition SIGTERM : Z := 15.

Record ChildSpec : Type := { cs_name : string; cs_argv : list string; cs_cwd : option string }.

(** The arguments of [Supervisor.__init__]. *)
Record config : Type := {
  gateway : option ChildSpec; server : ChildSpec; max_gateway_restarts : Z;
  gateway_restart_window : Q; gateway_restart_backoff : Q; max_gateway_restart_backoff : Q;
  stop_timeout : Q; poll_interval : Q }.

(** What happens outside the supervisor. *)
Inductive move : Type :=
  | Exits (pid : Z)
  | Orphaned
  | Passes (dt : Q)
  | Arrives (signum : Z).

(** What the supervisor did, and when; [Lost] is the exit of a known child. *)
Inductive event : Type :=
  | Forked (name : string) (pid : Z) (at_ : Q)
  | Signalled (pid signum : Z) (at_ : Q)
  | Scheduled (at_ due : Q)
  | Lost (name : string) (pid : Z).

(** The supervisor's fields; its unreaped children, each with whether it has
    exited; the clock, the moves to come and the log. *)
Record sup : Type := {
  pids : list (string * Z); restarts : list Q; due : option Q; stop : option Z;
  procs : list (Z * bool); next_pid : Z; now : Q; moves : list (list move); log : list event }.

Definition with_world (p : list (Z * bool)) (n : Z) (t : Q) (m : list (list move)) (st : option Z) (s : sup) : sup :=
  {| pids := pids s; restarts := restarts s; due := due s; stop := st; procs := p; next_pid := n; now := t;
     moves := m; log := log s |}.
Definition with_procs (p : list (Z * bool)) (s : sup) : sup :=
  with_world p (next_pid s) (now s) (moves s) (stop s) s.
Definition with_pids (p : list (string * Z)) (s : sup) : sup :=
  {| pids := p; restarts := restarts s; due := due s; stop := stop s; procs := procs s; next_pid := next_pid s;
     now := now s; moves := moves s; log := log s |}.
Definition with_due (d : option Q) (s : sup) : sup :=
  {| pids := pids s; restarts := restarts s; due := d; stop := stop s; procs := procs s; next_pid := next_pid s;
     now := now s; moves := moves s; log := log s |}.
Definition with_restarts (r : list Q) (s : sup) : sup :=
  {| pids := pids s; restarts := r; due := due s; stop := stop s; procs := procs s; next_pid := next_pid s;
     now := now s; moves := moves s; log := log s |}.
Definition logged (e : event) (s : sup) : sup :=
  {| pids := pids s; restarts := restarts s; due := due s; stop := stop s; procs := procs s; next_pid := next_pid s;
     now := now s; moves := moves s; log := log s ++ [e] |}.

Definition exited (pid : Z) (l : list (Z * bool)) : list (Z * bool) :=
  map (fun pe => if fst pe =? pid then (fst pe, true) else pe) l.

(** A move; [Arrives] is [_on_stop_signal]. *)
Definition apply_move (s : sup) (m : move) : sup :=
  match m with
  | Exits pid => with_procs (exited pid (procs s)) s
  | Orphaned => with_world (procs s ++ [(next_pid s, false)]) (next_pid s + 1) (now s) (moves s) (stop s) s
  | Passes dt => with_world (procs s) (next_pid s) (if Qle_bool 0 dt then now s + dt else now s)%Q (moves s) (stop s) s
  | Arrives signum => with_world (procs s) (next_pid s) (now s) (moves s) (Some signum) s
  end.
Definition apply_batch (b : list move) (s : sup) : sup := fold_left apply_move b s.

(** The next batch happens. *)
Definition meanwhile (s : sup) : sup :=
  match moves s with
  | [] => s
  | b :: rest => apply_batch b (with_world (procs s) (next_pid s) (now s) rest (stop s) s)
  end.

(** ** System calls *)

Definition _monotonic (s : sup) : Q * sup := let s := meanwhile s in (now s, s).
Definition _sleep (d : Q) (s : sup) : sup := apply_move (meanwhile s) (Passes d).

(** [os.fork] and the bookkeeping of [_spawn]; the child's own code is not
    modelled: an [exec] that fails is a child that exits. *)
Definition keep_pid (name : string) (pid : Z) (l : list (string * Z)) : list (string * Z) :=
  if mem name (map fst l) then map (fun np => if bool_decide (fst np = name) then (name, pid) else np) l
  else l ++ [(name, pid)].
Definition _spawn (spec : ChildSpec) (s : sup) : sup :=
  let s := meanwhile s in
  let pid := next_pid s in
  let s := with_world (procs s ++ [(pid, false)]) (pid + 1) (now s) (moves s) (stop s) s in
  logged (Forked (cs_name spec) pid (now s)) (with_pids (keep_pid (cs_name spec) pid (pids s)) s).

(** [_signal]; a process that is gone is ignored, [SIGKILL] ends any other. *)
Definition _signal (pid signum : Z) (s : sup) : sup :=
  let s := meanwhile s in
  if bool_decide (pid ∈ map fst (procs s)) then
    logged (Signalled pid signum (now s))
      (if signum =? SIGKILL then with_procs (exited pid (procs s)) s else s)
  else s.

Inductive waited : Type := NoChildren | NotYet | Reaped (pid : Z).

Fixpoint reap_first (l : list (Z * bool)) : option (Z * list (Z * bool)) :=
  match l with
  | [] => None
  | (pid, true) :: l => Some (pid, l)
  | (pid, false) :: l => '(p, l') ← reap_first l; Some (p, (pid, false) :: l')
  end.

Definition take_exit (s : sup) : waited * sup :=
  match procs s with
  | [] => (NoChildren, s)
  | _ => match reap_first (procs s) with
         | Some (pid, l) => (Reaped pid, with_procs l s)
         | None => (NotYet, s)
         end
  end.

(** [os.waitpid(-1, os.WNOHANG)] *)
Definition waitpid_nohang (s : sup) : waited * sup := take_exit (meanwhile s).

(** [os.waitpid(-1, 0)]: [None] when nothing to come ends the wait. *)
Fixpoint block_on (ms : list (list move)) (s : sup) : option (waited * sup) :=
  match take_exit s, ms with
  | (NotYet, s), [] => None
  | (NotYet, s), _ :: ms => block_on ms (meanwhile s)
  | r, _ => Some r
  end.
Definition waitpid_block (s : sup) : option (waited * sup) :=
  let s := meanwhile s in block_on (moves s) s.

(** ** Shutting down *)

Definition forget_pid (pid : Z) (l : list (string * Z)) : list (string * Z) :=
  List.filter (fun np => negb (snd np =? pid)) l.

(** What [_collect] does with an answer. *)
Definition collected (r : waited * sup) : sup :=
  match r with
  | (NoChildren, s) => with_pids [] s
  | (NotYet, s) => s
  | (Reaped pid, s) => with_pids (forget_pid pid (pids s)) s
  end.

Definition no_pids (s : sup) : bool := match pids s with [] => true | _ => false end.

(** The wait until the deadline, and the one after the kills. *)
Fixpoint await_exits (fuel : nat) (poll deadline : Q) (s : sup) : option sup :=
  match fuel with
  | O => None
  | S fuel =>
      if no_pids s then Some s
      else
        let '(t, s) := _monotonic s in
        if qlt t deadline then
          let s := collected (waitpid_nohang s) in
          await_exits fuel poll deadline (if no_pids s then s else _sleep poll s)
        else Some s
  end.
Fixpoint drain (fuel : nat) (s : sup) : option sup :=
  match fuel with
  | O => None
  | S fuel => if no_pids s then Some s
              else match waitpid_block s with Some r => drain fuel (collected r) | None => None end
  end.

#[local] Arguments list_sum : simpl never.

(** The children there are and will be: what bounds the loops over them. *)
Definition orphans (b : list move) : nat :=
  length (List.filter (fun m => match m with Orphaned => true | _ => false end) b).
Definition budget (s : sup) : nat := (length (procs s) + list_sum (map orphans (moves s)))%nat.

(** Passes of the wait: each but the last sleeps. *)
Definition passes (c : config) : nat := S (S (Z.to_nat (Qceiling (stop_timeout c / poll_interval c)))).

Definition signal_all (signum : Z) (s : sup) : sup :=
  fold_left (fun s np => _signal (snd np) signum s) (pids s) s.

(** [shutdown]; [None] would be a shutdown that never ends. *)
Definition shutdown (c : config) (s : sup) : option sup :=
  let s := signal_all SIGTERM s in
  let '(t, s) := _monotonic s in
  s ← await_exits (passes c) (poll_interval c) (t + stop_timeout c)%Q s;
  let s := signal_all SIGKILL s in
  drain (S (budget s)) s.

(** ** The policy *)

Definition recent (window t : Q) (l : list Q) : list Q := List.filter (fun a => qlt (t - a)%Q window) l.
Definition qmin (x y : Q) : Q := if qlt y x then y else x.

(** [_on_gateway_exit] *)
Definition _on_gateway_exit (c : config) (s : sup) : option (option Z * sup) :=
  let '(t, s) := _monotonic s in
  let kept := recent (gateway_restart_window c) t (restarts s) in
  let s := with_restarts kept s in
  if max_gateway_restarts c <=? Z.of_nat (length kept) then
    s ← shutdown c s; Some (Some EXIT_GATEWAY_UNRECOVERABLE, s)
  else
    let delay := qmin (gateway_restart_backoff c * inject_Z (2 ^ Z.of_nat (length kept))) (max_gateway_restart_backoff c) in
    Some (None, logged (Scheduled t (t + delay)%Q)
                  (with_due (Some (t + delay)%Q) (with_restarts (kept ++ [t]) s))).

Definition name_of (pid : Z) (l : list (string * Z)) : option string :=
  option_map fst (List.find (fun np => snd np =? pid) l).
Definition drop_name (name : string) (l : list (string * Z)) : list (string * Z) :=
  List.filter (fun np => negb (bool_decide (fst np = name))) l.

(** [_reap] *)
Fixpoint reap_loop (fuel : nat) (c : config) (s : sup) : option (option Z * sup) :=
  match fuel with
  | O => None
  | S fuel =>
      match waitpid_nohang s with
      | (Reaped pid, s) =>
          match name_of pid (pids s) with
          | None => reap_loop fuel c s
          | Some name =>
              let s := logged (Lost name pid) (with_pids (drop_name name (pids s)) s) in
              if bool_decide (name = SERVER) then s ← shutdown c s; Some (Some EXIT_SERVER_EXITED, s)
              else
                '(code, s) ← _on_gateway_exit c s;
                match code with Some code => Some (Some code, s) | None => reap_loop fuel c s end
          end
      | (_, s) => Some (None, s)
      end
  end.
Definition _reap (c : config) (s : sup) : option (option Z * sup) := reap_loop (S (budget s)) c s.

(** [tick] *)
Definition tick (c : config) (s : sup) : option (option Z * sup) :=
  match stop s with
  | Some _ => s ← shutdown c s; Some (Some EXIT_OK, s)
  | None =>
      '(code, s) ← _reap c s;
      match code with
      | Some code => Some (Some code, s)
      | None =>
          match gateway c, due s with
          | Some spec, Some d =>
              let '(t, s) := _monotonic s in
              Some (None, if Qle_bool d t then _spawn spec (with_due None s) else s)
          | _, _ => Some (None, s)
          end
      end
  end.

(** [start] *)
Definition start (c : config) (s : sup) : sup :=
  let s := match gateway c with Some spec => _spawn spec s | None => s end in _spawn (server c) s.

(** A run: [start], then ticks with a sleep after each. *)
Definition new_sup (t : Q) (first_pid : Z) (ms : list (list move)) : sup :=
  {| pids := []; restarts := []; due := None; stop := None; procs := []; next_pid := first_pid; now := t;
     moves := ms; log := [] |}.
Inductive running (c : config) : sup -> Prop :=
  | run_start t first_pid ms : running c (start c (new_sup t first_pid ms))
  | run_on s s' : running c s -> tick c s = Some (None, s') -> running c (_sleep (poll_interval c) s').

(** [run], for a number of ticks. *)
Fixpoint run (n : nat) (c : config) (s : sup) : option (option Z * sup) :=
  match n with
  | O => Some (None, s)
  | S n =>
      '(code, s) ← tick c s;
      match code with
      | Some code => Some (Some code, s)
      | None => run n c (_sleep (poll_interval c) s)
      end
  end.

(** ** What the world does to the supervisor *)

Abbreviation children s := (map fst (procs s)).

(** Some system calls later: the bookkeeping is as it was, the clock has not
    gone back, and the log has only grown by events in [P]. *)
Record after (P : event -> Prop) (s s' : sup) : Prop := {
  a_restarts : restarts s' = restarts s;
  a_due : due s' = due s;
  a_now : (now s <= now s')%Q;
  a_next : next_pid s <= next_pid s';
  a_log : exists l, log s' = log s ++ l /\ Forall P l }.

(** And none of the children has been waited for. *)
Record later (P : event -> Prop) (s s' : sup) : Prop := {
  l_after : after P s s';
  l_pids : pids s' = pids s;
  l_procs : exists new, children s' = children s ++ new /\ NoDup new
              /\ Forall (fun p => next_pid s <= p < next_pid s') new;
  l_exited : forall p, (p, true) ∈ procs s -> (p, true) ∈ procs s' }.

#[export] Instance after_preorder P : PreOrder (after P).
Proof.
  split.
  - intros s. split; [done..|apply Qle_refl|done|]. exists []. by rewrite app_nil_r.
  - intros s1 s2 s3 [? ? ? ? (l & Hl & HP)] [? ? ? ? (l' & Hl' & HP')]. split; [congruence..|by eapply Qle_trans|lia|].
    exists (l ++ l'). rewrite Hl', Hl, app_assoc. split; [done|by apply Forall_app].
Qed.

#[export] Instance later_preorder P : PreOrder (later P).
Proof.
  split.
  - intros s. split; [reflexivity|done| |done]. exists []. rewrite app_nil_r. split_and!; [done|constructor..].
  - intros s1 s2 s3 [A1 P1 (n1 & E1 & D1 & F1) X1] [A2 P2 (n2 & E2 & D2 & F2) X2].
    split; [by etrans|congruence| |eauto]. exists (n1 ++ n2). rewrite E2, E1, app_assoc.
    rewrite !Forall_forall in *. destruct A1 as [_ _ _ N1 _], A2 as [_ _ _ N2 _]. split_and!; [done| |].
    + apply NoDup_app. split_and!; [done| |done]. intros p H1 H2. apply F1 in H1. apply F2 in H2. lia.
    + intros p [H|H]%elem_of_app; [apply F1 in H|apply F2 in H]; lia.
Qed.

Lemma later_impl (P R : event -> Prop) s s' : (forall e, P e -> R e) -> later P s s' -> later R s s'.
Proof.
  intros H [[? ? ? ? (l & Hl & HP)] ? ? ?]. do 2 (split; try done). exists l. split; [done|].
  eapply Forall_impl; [exact HP|exact H].
Qed.

Lemma exited_children pid l : map fst (exited pid l) = map fst l.
Proof. unfold exited. rewrite map_map. apply map_ext. intros [p e]. cbn. by destruct (p =? pid). Qed.

Lemma exited_mono pid p l : (p, true) ∈ l -> (p, true) ∈ exited pid l.
Proof.
  intros H. apply list_elem_of_fmap. exists (p, true). split; [|done]. cbn. by destruct (p =? pid).
Qed.

Lemma exited_here pid l : pid ∈ map fst l -> (pid, true) ∈ exited pid l.
Proof.
  intros ([p e] & -> & H)%list_elem_of_fmap. apply list_elem_of_fmap. exists (p, e). by rewrite Z.eqb_refl.
Qed.

Lemma same_later P s s' :
  restarts s' = restarts s -> due s' = due s -> log s' = log s -> pids s' = pids s -> children s' = children s ->
  next_pid s' = next_pid s -> (now s <= now s')%Q -> (forall p, (p, true) ∈ procs s -> (p, true) ∈ procs s') ->
  later P s s'.
Proof.
  intros E1 E2 E3 E4 E5 E6 ? ?. split; [split|done| |done]; [done|done|done|lia| |].
  - exists []. rewrite app_nil_r. by split.
  - exists []. rewrite app_nil_r, E5. split_and!; [done|constructor..].
Qed.

Lemma apply_move_later P s m : later P s (apply_move s m).
Proof.
  destruct m; cbn [apply_move].
  - apply same_later; try done; [apply exited_children|apply Qle_refl|intros p; apply exited_mono].
  - split; [split|done| |]; cbn; [done|done|apply Qle_refl|lia|exists []; by rewrite app_nil_r| |].
    + exists [next_pid s]. rewrite map_app. split_and!; [done|apply NoDup_singleton|by repeat constructor; cbn; lia].
    + intros p Hp. apply elem_of_app. by left.
  - apply same_later; try done. cbn. destruct (Qle_bool 0 dt) eqn:E; [apply Qle_bool_iff in E; lra|apply Qle_refl].
  - apply same_later; try done. apply Qle_refl.
Qed.

Lemma batch_later P b s : later P s (apply_batch b s).
Proof. revert s. induction b as [|m b IH]; intros s; [reflexivity|]. etrans; [apply (apply_move_later P s m)|apply IH]. Qed.

Lemma meanwhile_later P s : later P s (meanwhile s).
Proof.
  unfold meanwhile. destruct (moves s) as [|b rest]; [reflexivity|]. etrans; [|apply batch_later].
  apply same_later; try done. apply Qle_refl.
Qed.

Lemma batch_budget b s :
  length (procs (apply_batch b s)) = (length (procs s) + orphans b)%nat /\ moves (apply_batch b s) = moves s.
Proof.
  revert s. induction b as [|m b IH]; intros s; [by unfold orphans; cbn; rewrite Nat.add_0_r|].
  unfold apply_batch in *. cbn [fold_left]. destruct (IH (apply_move s m)) as [-> ->]. unfold orphans.
  destruct m; cbn; rewrite ?length_app; unfold exited; rewrite ?length_map; cbn; split; try done; lia.
Qed.

Lemma meanwhile_budget s : budget (meanwhile s) = budget s.
Proof.
  unfold meanwhile, budget. destruct (moves s) as [|b rest] eqn:E; [by rewrite E|].
  destruct (batch_budget b (with_world (procs s) (next_pid s) (now s) rest (stop s) s)) as [-> ->]. cbn. change (list_sum (orphans b :: map orphans rest)) with (orphans b + list_sum (map orphans rest))%nat. lia.
Qed.

(** Signals of one kind, sent between two times. *)
Definition timed (signum : Z) (lo hi : Q) (e : event) : Prop :=
  match e with Signalled _ g t => g = signum /\ (lo <= t <= hi)%Q | _ => False end.
Definition nothing (e : event) : Prop := False.

Lemma meanwhile_quiet s : later nothing s (meanwhile s).
Proof. apply meanwhile_later. Qed.

Lemma signal_later pid signum s lo hi :
  (lo <= now s)%Q -> (now (_signal pid signum s) <= hi)%Q -> later (timed signum lo hi) s (_signal pid signum s).
Proof.
  unfold _signal. pose proof (meanwhile_later (timed signum lo hi) s) as Hm. revert Hm.
  set (s1 := meanwhile s). clearbody s1. intros Hm Hlo Hhi.
  pose proof (a_now _ _ _ (l_after _ _ _ Hm)) as Hn. etrans; [exact Hm|].
  case_bool_decide; [|reflexivity].
  split; [split|..]; cbn; [by destruct (_ =? _)..|destruct (_ =? _); apply Qle_refl|by destruct (_ =? _)| |by destruct (_ =? _)| |].
  - exists [Signalled pid signum (now s1)]. split; [by destruct (_ =? _)|]. repeat constructor; [lra|].
    revert Hhi. cbn. by destruct (_ =? _).
  - exists []. rewrite app_nil_r. destruct (_ =? _); cbn; rewrite ?exited_children; split_and!; done || constructor.
  - intros p Hp. destruct (_ =? _); cbn; [by apply exited_mono|done].
Qed.

(** The same without the times. *)
Definition is_signal (e : event) : Prop := match e with Signalled _ _ _ => True | _ => False end.

Lemma timed_signal signum lo hi e : timed signum lo hi e -> is_signal e.
Proof. by destruct e. Qed.

Lemma one_signal pid signum s : later is_signal s (_signal pid signum s).
Proof.
  eapply later_impl; [exact (timed_signal signum (now s) (now (_signal pid signum s)))|].
  apply signal_later; apply Qle_refl.
Qed.

Lemma signal_budget pid signum s : budget (_signal pid signum s) = budget s.
Proof.
  unfold _signal. rewrite <-(meanwhile_budget s). case_bool_decide; [|done]. unfold budget. cbn.
  destruct (_ =? _); cbn; [|done]. unfold exited. by rewrite length_map.
Qed.

Lemma signal_list_later (l : list (string * Z)) signum s lo hi :
  let s' := fold_left (fun s np => _signal (snd np) signum s) l s in
  (lo <= now s)%Q -> (now s' <= hi)%Q -> later (timed signum lo hi) s s'.
Proof.
  cbv zeta. revert s. induction l as [|np l IH]; intros s Hlo Hhi; [reflexivity|]. cbn [fold_left] in *.
  pose proof (a_now _ _ _ (l_after _ _ _ (one_signal (snd np) signum s))) as H1.
  assert (H2 : (now (_signal (snd np) signum s) <= hi)%Q).
  { eapply Qle_trans; [|exact Hhi]. generalize (_signal (snd np) signum s) as s1. clear. induction l as [|np l IH]; intros s1;
      [apply Qle_refl|]. eapply Qle_trans; [|apply IH]. apply (l_after _ _ _ (one_signal (snd np) signum s1)). }
  etrans; [by apply signal_later|]. apply IH; [lra|done].
Qed.

Lemma kill_exits pid s : pid ∈ children s -> (pid, true) ∈ procs (_signal pid SIGKILL s).
Proof.
  intros H. unfold _signal. destruct (l_procs _ _ _ (meanwhile_quiet s)) as (new & E & _).
  rewrite bool_decide_true by (rewrite E; apply elem_of_app; by left). cbn. apply exited_here.
  rewrite E. apply elem_of_app. by left.
Qed.

Lemma kill_all_exits s :
  (forall n p, (n, p) ∈ pids s -> p ∈ children s) ->
  forall n p, (n, p) ∈ pids s -> (p, true) ∈ procs (signal_all SIGKILL s).
Proof.
  unfold signal_all. generalize (pids s) as l. intros l. revert s. induction l as [|[n0 p0] l IH]; intros s Hk n p Hin.
  { by apply elem_of_nil in Hin. }
  cbn [fold_left snd]. apply elem_of_cons in Hin as [[= -> ->]|Hin].
  - assert (He : (p0, true) ∈ procs (_signal p0 SIGKILL s)) by (eapply kill_exits, Hk; by left).
    revert He. generalize (_signal p0 SIGKILL s) as s1. clear. induction l as [|np l IH]; intros s1 He; [done|].
    cbn [fold_left]. apply IH. by apply (l_exited _ _ _ (one_signal (snd np) SIGKILL s1)).
  - apply IH with n; [|done]. intros n' p' Hin'.
    destruct (l_procs _ _ _ (one_signal p0 SIGKILL s)) as (new & -> & _). apply elem_of_app. left. apply (Hk n'). by right.
Qed.

(** ** The bookkeeping *)

(** Every name has one process, every known process is an unreaped child, and
    every unreaped child that was forked is known under its name. *)
Record tidy (s : sup) : Prop := {
  t_names : NoDup (map fst (pids s));
  t_pids : NoDup (map snd (pids s));
  t_children : NoDup (children s);
  t_fresh : forall p, p ∈ children s -> p < next_pid s;
  t_known : forall n p, (n, p) ∈ pids s -> p ∈ children s;
  t_forked : forall n p t, Forked n p t ∈ log s -> p < next_pid s /\ (p ∈ children s -> (n, p) ∈ pids s) }.

Definition not_fork (e : event) : Prop := match e with Forked _ _ _ => False | _ => True end.

Lemma later_tidy P s s' : (forall e, P e -> not_fork e) -> later P s s' -> tidy s -> tidy s'.
Proof.
  intros HP [[_ _ _ Hn (l & Hl & Hf)] Ep (new & Ec & Hd & Hr) _] [? ? ? ? ? ?]. rewrite Forall_forall in Hr.
  split; rewrite ?Ep, ?Ec; try done.
  - apply NoDup_app. split_and!; [done| |done]. intros p H1 H2. apply Hr in H2. specialize (t_fresh0 p H1). lia.
  - intros p [H|H]%elem_of_app; [specialize (t_fresh0 p H); lia|apply Hr in H; lia].
  - intros n p H. apply elem_of_app. left. by apply (t_known0 n).
  - intros n p t. rewrite Hl. intros [H|H]%elem_of_app.
    + destruct (t_forked0 n p t H) as [? Hk]. split; [lia|]. intros [Hc|Hc]%elem_of_app; [by apply Hk|].
      apply Hr in Hc. lia.
    + rewrite Forall_forall in Hf. by apply Hf, HP in H.
Qed.

Lemma elem_of_forget n p pid l : (n, p) ∈ forget_pid pid l <-> (n, p) ∈ l /\ p <> pid.
Proof.
  unfold forget_pid. rewrite !list_elem_of_In, List.filter_In. cbn. rewrite negb_true_iff, Z.eqb_neq. done.
Qed.

Lemma NoDup_map_filter {A B} (f : A -> B) (P : A -> bool) l : NoDup (map f l) -> NoDup (map f (List.filter P l)).
Proof.
  induction l as [|a l IH]; cbn; [done|]. intros [Hn Hd]%NoDup_cons. destruct (P a); cbn; [|by apply IH].
  apply NoDup_cons. split; [|by apply IH]. intros (b & E & Hb)%list_elem_of_fmap. apply Hn.
  apply list_elem_of_fmap. exists b. split; [done|]. apply list_elem_of_In, List.filter_In in Hb as [Hb _].
  by apply list_elem_of_In.
Qed.

Lemma reap_first_spec l pid l' :
  reap_first l = Some (pid, l') -> exists l1 l2, l = l1 ++ (pid, true) :: l2 /\ l' = l1 ++ l2.
Proof.
  revert l'. induction l as [|[p []] l IH]; intros l' H; cbn in H; [done|by simplify_eq; exists [], l'|].
  destruct (reap_first l) as [[q l0]|]; [|done]. cbn in H. injection H as -> <-.
  destruct (IH _ eq_refl) as (l1 & l2 & -> & ->). by exists ((p, false) :: l1), l2.
Qed.

Lemma reap_first_none l p : reap_first l = None -> (p, true) ∉ l.
Proof.
  induction l as [|[q []] l IH]; intros H; cbn in H; [apply not_elem_of_nil|done|].
  destruct (reap_first l) as [[]|]; [done|]. apply not_elem_of_cons. split; [done|by apply IH].
Qed.

Lemma take_exit_spec s :
  match take_exit s with
  | (NoChildren, s') => s' = s /\ procs s = []
  | (NotYet, s') => s' = s /\ forall p, (p, true) ∉ procs s
  | (Reaped pid, s') => exists l1 l2, procs s = l1 ++ (pid, true) :: l2 /\ s' = with_procs (l1 ++ l2) s
  end.
Proof.
  unfold take_exit. destruct (procs s) as [|pe l] eqn:E; [done|].
  destruct (reap_first (pe :: l)) as [[pid l']|] eqn:Er; [|split; [done|]; intros p; by apply reap_first_none].
  destruct (reap_first_spec _ _ _ Er) as (l1 & l2 & E' & ->). by exists l1, l2.
Qed.

(** A child that was waited for is forgotten. *)
Lemma reaped_tidy s pid l1 l2 :
  tidy s -> procs s = l1 ++ (pid, true) :: l2 -> tidy (with_pids (forget_pid pid (pids s)) (with_procs (l1 ++ l2) s)).
Proof.
  intros [? ? ? ? ? ?] E. cbn in *. rewrite E, map_app in *. cbn in *.
  assert (Hc : forall p, p ∈ map fst l1 ++ map fst l2 <-> p ∈ map fst l1 ++ pid :: map fst l2 /\ p <> pid).
  { apply NoDup_app in t_children0 as (_ & H1 & H2). apply NoDup_cons in H2 as [H2 _].
    intros p. rewrite !elem_of_app, elem_of_cons. split; [|naive_solver]. intros [H|H]; (split; [tauto|]); intros ->; [|done].
    apply (H1 pid H). by left. }
  split; cbn; rewrite ?map_app.
  - by apply NoDup_map_filter.
  - by apply NoDup_map_filter.
  - apply NoDup_app in t_children0 as (? & H1 & H2). apply NoDup_cons in H2 as [_ H2]. apply NoDup_app.
    split_and!; [done| |done]. intros p Hp Hp'. apply (H1 p Hp). by right.
  - intros p [Hp _]%Hc. by apply t_fresh0.
  - intros n p [Hp Hne]%elem_of_forget. apply Hc. split; [by eapply t_known0|done].
  - intros n p t Hf. destruct (t_forked0 n p t Hf) as [? Hk]. split; [done|]. intros [Hp Hne]%Hc.
    apply elem_of_forget. split; [by apply Hk|done].
Qed.

(** What waiting for a child leaves alone. *)
Lemma collected_after P s : after P s (collected (take_exit s)).
Proof.
  pose proof (take_exit_spec s) as H. destruct (take_exit s) as [[| |pid] s']; [destruct H as [-> _]..|destruct H as (l1 & l2 & _ & ->)];
    split; cbn; try done; try apply Qle_refl; exists []; by rewrite app_nil_r.
Qed.

Lemma collected_tidy s : tidy s -> tidy (collected (take_exit s)).
Proof.
  intros Ht. pose proof (take_exit_spec s) as H. destruct (take_exit s) as [[| |pid] s']; cbn [collected].
  - destruct H as [-> E]. destruct Ht. split; cbn; [apply NoDup_nil_2..|done|done| |].
    + intros n p []%elem_of_nil.
    + intros n p t Hf. destruct (t_forked0 n p t Hf) as [? _]. split; [done|]. rewrite E. intros []%elem_of_nil.
  - by destruct H as [-> _].
  - destruct H as (l1 & l2 & E & ->). exact (reaped_tidy s pid l1 l2 Ht E).
Qed.

Lemma collected_budget s : (budget (collected (take_exit s)) <= budget s)%nat.
Proof.
  pose proof (take_exit_spec s) as H. destruct (take_exit s) as [[| |pid] s']; [destruct H as [-> _]; done..|].
  destruct H as (l1 & l2 & E & ->). unfold budget. cbn. rewrite E, !length_app. cbn. lia.
Qed.

(** A child that has exited is what a wait finds. *)
Lemma exited_reaped s p :
  (p, true) ∈ procs s -> exists pid s', take_exit s = (Reaped pid, s') /\ (S (budget s') = budget s)%nat
    /\ forall q, (q, true) ∈ procs s -> q <> pid -> (q, true) ∈ procs s'.
Proof.
  intros Hp. pose proof (take_exit_spec s) as H. destruct (take_exit s) as [[| |pid] s'].
  - destruct H as [_ E]. rewrite E in Hp. by apply elem_of_nil in Hp.
  - destruct H as [_ H]. by apply H in Hp.
  - destruct H as (l1 & l2 & E & ->). exists pid, (with_procs (l1 ++ l2) s). split_and!; [done| |].
    + unfold budget. cbn. rewrite E, !length_app. cbn. lia.
    + intros q Hq Hne. cbn. rewrite E in Hq. rewrite elem_of_app, elem_of_cons in Hq. rewrite elem_of_app.
      destruct Hq as [?|[[= ->]|?]]; [by left|done|by right].
Qed.

Lemma no_pids_true s : no_pids s = true <-> pids s = [].
Proof. unfold no_pids. by destruct (pids s). Qed.

(** ** Shutting down ends *)

Lemma drain_ok fuel s :
  (budget s < fuel)%nat -> tidy s -> (forall n p, (n, p) ∈ pids s -> (p, true) ∈ procs s) ->
  exists s', drain fuel s = Some s' /\ tidy s' /\ pids s' = [] /\ after nothing s s'.
Proof.
  revert s. induction fuel as [|fuel IH]; intros s Hb Ht Hx; [lia|]. cbn [drain].
  destruct (no_pids s) eqn:En; [apply no_pids_true in En; by exists s|].
  pose proof (meanwhile_quiet s) as Hm. pose proof (meanwhile_budget s) as Hbm.
  unfold waitpid_block. cbv zeta. set (s1 := meanwhile s) in *. clearbody s1.
  assert (Ht1 : tidy s1) by (by eapply later_tidy; [|exact Hm|]; [intros ? []|]).
  assert (Hx1 : forall n p, (n, p) ∈ pids s1 -> (p, true) ∈ procs s1).
  { intros n p Hp. rewrite (l_pids _ _ _ Hm) in Hp. apply (l_exited _ _ _ Hm). by apply (Hx n). }
  assert (Hp : exists n p, (n, p) ∈ pids s1).
  { rewrite (l_pids _ _ _ Hm). unfold no_pids in En. destruct (pids s) as [|[n p] ?]; [done|]. exists n, p. by left. }
  destruct Hp as (n0 & p0 & Hp0).
  destruct (exited_reaped s1 p0 (Hx1 _ _ Hp0)) as (pid & s2 & E & Hb2 & Hx2).
  pose proof (collected_tidy s1 Ht1) as Ht2. pose proof (collected_after nothing s1) as Ha2. rewrite E in Ht2, Ha2.
  assert (Hblock : block_on (moves s1) s1 = Some (Reaped pid, s2)) by (destruct (moves s1); cbn; by rewrite E).
  rewrite Hblock.
  destruct (IH (collected (Reaped pid, s2))) as (s' & -> & ? & ? & Ha).
  - change (budget s2 < fuel)%nat. lia.
  - done.
  - intros n p. cbn [collected with_pids pids procs]. intros [Hin Hne]%elem_of_forget.
    assert (Hs : pids s2 = pids s1).
    { pose proof (take_exit_spec s1) as H. rewrite E in H. by destruct H as (? & ? & _ & ->). }
    rewrite Hs in Hin. by apply Hx2; [apply (Hx1 n)|].
  - exists s'. split_and!; [done..|]. etrans; [by apply Hm|]. by etrans.
Qed.

Lemma await_pass fuel poll deadline s :
  await_exits (S fuel) poll deadline s =
    if no_pids s then Some s
    else let '(t, s) := _monotonic s in
         if qlt t deadline then
           let s := collected (waitpid_nohang s) in
           await_exits fuel poll deadline (if no_pids s then s else _sleep poll s)
         else Some s.
Proof. reflexivity. Qed.

Lemma await_ok fuel poll deadline s :
  (0 < poll)%Q -> (deadline <= now s + inject_Z (Z.of_nat fuel) * poll)%Q -> tidy s ->
  exists s', await_exits (S fuel) poll deadline s = Some s' /\ tidy s' /\ after nothing s s'
    /\ (pids s' <> [] -> deadline <= now s')%Q.
Proof.
  intros Hpoll. revert s. induction fuel as [|fuel IH]; intros s Hd Ht; rewrite await_pass;
    (destruct (no_pids s) eqn:En; [apply no_pids_true in En; exists s; split_and!; [done..|by rewrite En]|]);
    unfold _monotonic; pose proof (meanwhile_quiet s) as Hm; set (s1 := meanwhile s) in *; clearbody s1;
    pose proof (a_now _ _ _ (l_after _ _ _ Hm)) as Hn;
    (assert (Ht1 : tidy s1) by (by eapply later_tidy; [|exact Hm|]; [intros ? []|]));
    (destruct (qlt (now s1) deadline) eqn:El; [|apply qlt_false in El; exists s1; by split_and!; [..|apply Hm|]]).
  - apply qlt_true in El. assert (inject_Z (Z.of_nat 0) * poll == 0)%Q by (cbn; ring). lra.
  - unfold waitpid_nohang. pose proof (meanwhile_quiet s1) as Hm1. set (s2 := meanwhile s1) in *. clearbody s2.
    assert (Ht2 : tidy s2) by (by eapply later_tidy; [|exact Hm1|]; [intros ? []|]).
    pose proof (collected_tidy s2 Ht2) as Ht3. pose proof (collected_after nothing s2) as Ha3.
    set (s3 := collected (take_exit s2)) in *. clearbody s3.
    assert (H13 : after nothing s s3) by (etrans; [apply Hm|]; etrans; [apply Hm1|done]).
    destruct (no_pids s3) eqn:En3.
    + apply no_pids_true in En3. exists s3. replace (await_exits (S fuel) poll deadline s3) with (Some s3).
      2: { by rewrite await_pass, (proj2 (no_pids_true s3) En3). }
      split_and!; [done..|by rewrite En3].
    + assert (Hs : later nothing s3 (_sleep poll s3)).
      { unfold _sleep. etrans; [apply meanwhile_quiet|apply apply_move_later]. }
      assert (Hns : (now s3 + poll <= now (_sleep poll s3))%Q).
      { unfold _sleep. cbn. pose proof (a_now _ _ _ (l_after _ _ _ (meanwhile_quiet s3))).
        rewrite (proj2 (Qle_bool_iff 0 poll)) by lra. lra. }
      destruct (IH (_sleep poll s3)) as (s' & E & ? & ? & ?).
      * pose proof (a_now _ _ _ H13). rewrite Nat2Z.inj_succ, <-Z.add_1_r, inject_Z_plus in Hd.
        change (inject_Z 1) with 1%Q in Hd. lra.
      * by eapply later_tidy; [|exact Hs|]; [intros ? []|].
      * exists s'. split_and!; [exact E|done| |done]. etrans; [done|]. etrans; [apply Hs|done].
Qed.

Lemma passes_enough c : (0 < poll_interval c)%Q ->
  (stop_timeout c <= inject_Z (Z.of_nat (pred (passes c))) * poll_interval c)%Q.
Proof.
  intros Hp. set (n := Qceiling (stop_timeout c / poll_interval c)).
  assert (H1 : (stop_timeout c <= inject_Z n * poll_interval c)%Q).
  { apply (Qmult_le_r _ _ (/ poll_interval c)); [by apply Qinv_lt_0_compat|].
    assert (E : (inject_Z n * poll_interval c * / poll_interval c == inject_Z n)%Q) by (field; lra).
    rewrite E. apply Qle_ceiling. }
  eapply Qle_trans; [exact H1|]. apply Qmult_le_compat_r; [|lra]. rewrite <-Zle_Qle. unfold passes. cbn [pred].
  fold n. lia.
Qed.

Lemma shutdown_ok c s :
  (0 < poll_interval c)%Q -> tidy s ->
  exists s' t, shutdown c s = Some s' /\ tidy s' /\ pids s' = [] /\ (now s <= t)%Q
    /\ after (fun e => timed SIGTERM (now s) t e \/ timed SIGKILL (t + stop_timeout c) (now s') e) s s'.
Proof.
  intros Hp Ht. unfold shutdown. set (s1 := signal_all SIGTERM s). unfold _monotonic.
  pose proof (meanwhile_quiet s1) as Hm. set (s2 := meanwhile s1) in *.
  pose proof (a_now _ _ _ (l_after _ _ _ Hm)) as Hn2.
  assert (H1 : later (timed SIGTERM (now s) (now s2)) s s1) by (apply signal_list_later; [apply Qle_refl|done]).
  assert (Ht2 : tidy s2).
  { eapply later_tidy; [|exact Hm|]; [intros ? []|]. eapply later_tidy; [|exact H1|done]. by intros []. }
  destruct (await_ok (pred (passes c)) (poll_interval c) (now s2 + stop_timeout c)%Q s2) as (s3 & E3 & Ht3 & Ha3 & Hd3);
    [done| |done|].
  { pose proof (passes_enough c Hp). lra. }
  change (S (pred (passes c))) with (passes c) in E3. rewrite E3. cbn [mbind option_bind].
  set (s4 := signal_all SIGKILL s3).
  assert (H4 : later is_signal s3 s4).
  { eapply later_impl; [exact (timed_signal SIGKILL (now s3) (now s4))|]. apply signal_list_later; apply Qle_refl. }
  assert (Ht4 : tidy s4) by (eapply later_tidy; [|exact H4|done]; by intros []).
  destruct (drain_ok (S (budget s4)) s4) as (s5 & -> & Ht5 & Hp5 & Ha5); [lia|done| |].
  { intros n p Hin. rewrite (l_pids _ _ _ H4) in Hin. apply (kill_all_exits s3) with n; [|done].
    intros n' p' Hin'. by apply (t_known _ Ht3 n'). }
  assert (H34 : after (timed SIGKILL (now s2 + stop_timeout c) (now s5)) s3 s4).
  { pose proof (a_now _ _ _ Ha5). destruct (pids s3) as [|np l] eqn:E.
    - unfold s4, signal_all. rewrite E. reflexivity.
    - apply signal_list_later; [by apply Hd3|done]. }
  exists s5, (now s2). split_and!; [done..| |].
  { pose proof (a_now _ _ _ (l_after _ _ _ H1)). lra. }
  assert (mono : forall (P R : event -> Prop) a b, (forall e, P e -> R e) -> after P a b -> after R a b).
  { intros P R a b HPR [? ? ? ? (l & ? & HF)]. split; try done. exists l. split; [done|]. eapply Forall_impl; [exact HF|exact HPR]. }
  etrans; [eapply mono, H1; by left|]. etrans; [eapply mono, Hm; by intros ? []|].
  etrans; [eapply mono, Ha3; by intros ? []|]. etrans; [eapply mono, H34; by right|]. eapply mono, Ha5. by intros ? [].
Qed.

(** ** Restarts are bounded *)

Definition scheduled (l : list event) : list Q :=
  omap (fun e => match e with Scheduled a _ => Some a | _ => None end) l.

(** The list the code keeps is what a window sees of all restarts there were,
    and none of them was one too many when it was made. *)
Record paced (c : config) (s : sup) : Prop := {
  p_kept : forall t, (now s <= t)%Q ->
    recent (gateway_restart_window c) t (scheduled (log s)) = recent (gateway_restart_window c) t (restarts s);
  p_bound : forall pre a post, scheduled (log s) = pre ++ a :: post ->
    Z.of_nat (length (recent (gateway_restart_window c) a (pre ++ [a]))) <= Z.max 0 (max_gateway_restarts c) }.

Definition not_scheduled (e : event) : Prop := match e with Scheduled _ _ => False | _ => True end.

Lemma scheduled_app l l' : scheduled (l ++ l') = scheduled l ++ scheduled l'.
Proof. apply omap_app. Qed.

Lemma scheduled_none l : Forall not_scheduled l -> scheduled l = [].
Proof. induction 1 as [|e l He _ IH]; [done|]. by destruct e. Qed.

Lemma after_paced P c s s' : (forall e, P e -> not_scheduled e) -> after P s s' -> paced c s -> paced c s'.
Proof.
  intros HP [Hr _ Hn _ (l & Hl & HF)] [Hk Hb].
  assert (E : scheduled (log s') = scheduled (log s)).
  { rewrite Hl, scheduled_app, (scheduled_none l), app_nil_r; [done|]. by eapply Forall_impl. }
  split; rewrite E; [|done]. intros t Ht. rewrite Hr. apply Hk. lra.
Qed.

Lemma recent_app w t l l' : recent w t (l ++ l') = recent w t l ++ recent w t l'.
Proof. apply List.filter_app. Qed.

Lemma recent_again w t t' l : (t <= t')%Q -> recent w t' (recent w t l) = recent w t' l.
Proof.
  intros Ht. unfold recent in *. induction l as [|a l IH]; [done|]. cbn [List.filter]. destruct (qlt (t' - a) w) eqn:E.
  - assert (qlt (t - a) w = true) as -> by (apply qlt_true; apply qlt_true in E; lra). cbn [List.filter]. by rewrite E, IH.
  - destruct (qlt (t - a) w); cbn [List.filter]; [rewrite E|]; exact IH.
Qed.

#[local] Arguments recent : simpl never.
#[local] Arguments scheduled : simpl never.

(** Signals of a shutdown. *)
Definition stopping (c : config) (s s' : sup) (t : Q) (e : event) : Prop :=
  timed SIGTERM (now s) t e \/ timed SIGKILL (t + stop_timeout c) (now s') e.

Lemma stopping_signal c s s' t e : stopping c s s' t e -> is_signal e.
Proof. by intros [H|H]; apply timed_signal in H. Qed.

Lemma gateway_exit_ok c s :
  (0 < poll_interval c)%Q -> tidy s -> paced c s ->
  (exists t s', _on_gateway_exit c s = Some (None, s') /\ tidy s' /\ paced c s' /\ pids s' = pids s
     /\ is_Some (due s') /\ (exists d, log s' = log s ++ [Scheduled t d]) /\ (now s <= now s')%Q
     /\ budget s' = budget s)
  \/ (exists t t' s0 s', _on_gateway_exit c s = Some (Some EXIT_GATEWAY_UNRECOVERABLE, s') /\ tidy s' /\ paced c s'
     /\ pids s' = [] /\ (now s <= t)%Q /\ log s0 = log s /\ (exists l, log s' = log s ++ l /\ Forall (stopping c s0 s' t') l)
     /\ max_gateway_restarts c <= Z.of_nat (length (recent (gateway_restart_window c) t (scheduled (log s))))).
Proof.
  intros Hpoll Ht Hp. unfold _on_gateway_exit, _monotonic. pose proof (meanwhile_quiet s) as Hm.
  pose proof (meanwhile_budget s) as Hbud. set (s1 := meanwhile s) in *. clearbody s1.
  assert (Ht1 : tidy s1) by (by eapply later_tidy; [|exact Hm|]; [intros ? []|]).
  assert (Hp1 : paced c s1) by (by eapply after_paced; [|apply Hm|]; [intros ? []|]).
  assert (El : log s1 = log s) by (destruct (a_log _ _ _ (l_after _ _ _ Hm)) as ([|? ?] & -> & HF);
                                   [by rewrite app_nil_r|by inversion HF]).
  pose proof (a_now _ _ _ (l_after _ _ _ Hm)) as Hn. pose proof (l_pids _ _ _ Hm) as Ep.
  set (w := gateway_restart_window c) in *. set (kept := recent w (now s1) (restarts s1)).
  assert (Hkept : recent w (now s1) (scheduled (log s1)) = kept) by (apply (p_kept _ _ Hp1), Qle_refl).
  assert (Ht2 : tidy (with_restarts kept s1)) by (destruct Ht1; by split).
  assert (Hp2 : paced c (with_restarts kept s1)).
  { destruct Hp1 as [Hk Hb]. split; [|exact Hb]. intros t Hle. cbn. fold w. unfold kept. rewrite recent_again by exact Hle.
    by apply Hk. }
  destruct (max_gateway_restarts c <=? Z.of_nat (length kept)) eqn:E.
  - right. apply Z.leb_le in E.
    destruct (shutdown_ok c (with_restarts kept s1) Hpoll Ht2) as (s' & t' & -> & Ht' & Hnone & Hle & Ha).
    cbn [mbind option_bind]. exists (now s1), t', (with_restarts kept s1), s'. split_and!; try done.
    + eapply after_paced; [|exact Ha|done]. intros e He. apply (stopping_signal c (with_restarts kept s1) s' t') in He. by destruct e.
    + rewrite <-El. destruct (a_log _ _ _ Ha) as (l & H1 & H2). by exists l.
    + rewrite <-El, Hkept. exact E.
  - left. apply Z.leb_gt in E. set (d := (now s1 + _)%Q). eexists (now s1), _. split; [done|]. split_and!; try done.
    + destruct Ht1. split; cbn; try done. intros n p t [H|H%list_elem_of_singleton]%elem_of_app; [by apply (t_forked0 n p t)|done].
    + destruct Hp2 as [Hk Hb]. split; cbn; rewrite scheduled_app; change (scheduled [Scheduled (now s1) d]) with [now s1].
      * intros t Hle. rewrite !recent_app. f_equal. by apply Hk.
      * intros pre a post Heq. induction post as [|b post _] using rev_ind.
        -- change (pre ++ [a]) with (pre ++ [a]) in Heq. apply app_inj_tail in Heq as [<- <-].
           rewrite recent_app, length_app. cbn [with_restarts now log] in *. fold w. rewrite Hkept.
           pose proof (List.filter_length_le (fun x => qlt (now s1 - x) w) [now s1]). cbn [length] in *. unfold recent in *. lia.
        -- rewrite app_comm_cons, app_assoc in Heq. apply app_inj_tail in Heq as [Heq _]. by eapply Hb.
    + exists d. cbn. by rewrite El.
Qed.

(** ** The policy over a run *)

Definition server_forks (l : list event) : list event :=
  List.filter (fun e => match e with Forked n _ _ => bool_decide (n = SERVER) | _ => false end) l.
(** No signal was sent and the server was not lost. *)
Definition calm (e : event) : Prop :=
  match e with Signalled _ _ _ => False | Lost n _ => n <> SERVER | _ => True end.

(** While a run goes on the one server that was started is still known, and a
    restart is due only when there is no gateway. *)
Record serving (s : sup) : Prop := {
  v_server : exists p t, (SERVER, p) ∈ pids s /\ server_forks (log s) = [Forked SERVER p t];
  v_calm : Forall calm (log s);
  v_names : forall n p, (n, p) ∈ pids s -> n = GATEWAY \/ n = SERVER;
  v_due : is_Some (due s) -> GATEWAY ∉ map fst (pids s) }.

(** No kill came before its timeout. *)
Definition patient (c : config) (l : list event) : Prop :=
  forall p a p' b, Signalled p SIGTERM a ∈ l -> Signalled p' SIGKILL b ∈ l -> (a + stop_timeout c <= b)%Q.

(** A run that is over, and why. *)
Record finished (c : config) (code : Z) (s : sup) : Prop := {
  f_tidy : tidy s;
  f_paced : paced c s;
  f_none : pids s = [];
  f_patient : patient c (log s);
  f_reason : code = EXIT_OK
    \/ code = EXIT_SERVER_EXITED /\ (exists p, Lost SERVER p ∈ log s)
    \/ code = EXIT_GATEWAY_UNRECOVERABLE /\ exists p t, Lost GATEWAY p ∈ log s
         /\ max_gateway_restarts c <= Z.of_nat (length (recent (gateway_restart_window c) t (scheduled (log s)))) }.

Lemma calm_patient c s s' t pre l :
  Forall (fun e => ~ is_signal e) pre -> Forall (stopping c s s' t) l -> patient c (pre ++ l).
Proof.
  rewrite !Forall_forall. intros Hpre Hl p a p' b H1 H2.
  assert (Hin : forall q g x, Signalled q g x ∈ pre ++ l -> stopping c s s' t (Signalled q g x)).
  { intros q g x [H|H]%elem_of_app; [by destruct (Hpre _ H)|by apply Hl]. }
  apply Hin in H1 as [[_ H1]|[H1 _]]; [|discriminate H1].
  apply Hin in H2 as [[H2 _]|[_ H2]]; [discriminate H2|]. lra.
Qed.

Lemma calm_signal e : calm e -> ~ is_signal e.
Proof. destruct e; cbn; tauto. Qed.

Lemma server_forks_app l l' : server_forks (l ++ l') = server_forks l ++ server_forks l'.
Proof. apply List.filter_app. Qed.

Lemma quiet_serving s s' : later nothing s s' -> serving s -> serving s'.
Proof.
  intros H [H1 H2 H3 H4]. destruct H as [[? Ed ? ? (l & El & Hl)] Ep ? ?].
  assert (l = []) as -> by (destruct l; [done|by inversion Hl]). rewrite app_nil_r in El.
  split; rewrite ?El, ?Ep, ?Ed; done.
Qed.

Lemma name_of_in pid l n : name_of pid l = Some n -> (n, pid) ∈ l.
Proof.
  unfold name_of. destruct (List.find _ l) as [[n' p']|] eqn:E; [|done]. intros [= ->].
  apply List.find_some in E as [H Hp]. cbn in Hp. apply Z.eqb_eq in Hp as ->. by apply list_elem_of_In.
Qed.

Lemma name_of_none pid l n : name_of pid l = None -> (n, pid) ∉ l.
Proof.
  unfold name_of. destruct (List.find _ l) eqn:E; [done|]. intros _ H. apply list_elem_of_In in H.
  apply (List.find_none _ _ E) in H. cbn in H. by apply Z.eqb_neq in H.
Qed.

Lemma pair_inj {A B} (l : list (A * B)) a b b' : NoDup (map fst l) -> (a, b) ∈ l -> (a, b') ∈ l -> b = b'.
Proof.
  induction l as [|[x y] l IH]; cbn; [intros _ []%elem_of_nil|]. intros [Hn Hd]%NoDup_cons.
  intros [E|H]%elem_of_cons [E'|H']%elem_of_cons; simplify_eq; [done| | |by apply IH].
  - destruct Hn. apply list_elem_of_fmap. by exists (x, b').
  - destruct Hn. apply list_elem_of_fmap. by exists (x, b).
Qed.

Lemma pair_inj_r {A B} (l : list (A * B)) a a' b : NoDup (map snd l) -> (a, b) ∈ l -> (a', b) ∈ l -> a = a'.
Proof.
  induction l as [|[x y] l IH]; cbn; [intros _ []%elem_of_nil|]. intros [Hn Hd]%NoDup_cons.
  intros [E|H]%elem_of_cons [E'|H']%elem_of_cons; simplify_eq; [done| | |by apply IH].
  - destruct Hn. apply list_elem_of_fmap. by exists (a', y).
  - destruct Hn. apply list_elem_of_fmap. by exists (a, y).
Qed.

Lemma filter_ext_in {A} (f g : A -> bool) l : (forall x, x ∈ l -> f x = g x) -> List.filter f l = List.filter g l.
Proof. intros H. apply List.filter_ext_in. intros x Hx. apply H. by apply list_elem_of_In. Qed.

(** Forgetting a name is forgetting its process. *)
Lemma drop_forget s pid n :
  tidy s -> (n, pid) ∈ pids s -> drop_name n (pids s) = forget_pid pid (pids s).
Proof.
  intros Ht Hin. apply filter_ext_in. intros [n' p'] H. cbn. f_equal. apply eq_iff_eq_true.
  rewrite bool_decide_eq_true, Z.eqb_eq. split; intros ->.
  - by apply (pair_inj _ n _ _ (t_names _ Ht)).
  - by apply (pair_inj_r _ _ _ pid (t_pids _ Ht)).
Qed.

Lemma forget_unknown s pid : name_of pid (pids s) = None -> forget_pid pid (pids s) = pids s.
Proof.
  intros H. unfold forget_pid. rewrite (filter_ext_in _ (fun _ => true)); [by rewrite List.filter_true|].
  intros [n p] Hin. cbn. apply negb_true_iff, Z.eqb_neq. intros ->. by apply (name_of_none _ _ n H).
Qed.

Lemma logged_tidy e s : not_fork e -> tidy s -> tidy (logged e s).
Proof.
  intros He [? ? ? ? ? Hf]. split; cbn; try done. intros n p t [H|H%list_elem_of_singleton]%elem_of_app; [by apply (Hf n p t)|].
  by subst e.
Qed.

Lemma logged_paced c e s : not_scheduled e -> paced c s -> paced c (logged e s).
Proof.
  intros He [Hk Hb]. assert (E : scheduled (log (logged e s)) = scheduled (log s)).
  { cbn. rewrite scheduled_app, (scheduled_none [e]), app_nil_r; [done|by constructor]. }
  split; rewrite E; done.
Qed.

Definition names_of (c : config) : Prop :=
  (forall g, gateway c = Some g -> cs_name g = GATEWAY) /\ cs_name (server c) = SERVER /\ (0 < poll_interval c)%Q.

(** The invariant of a run, and what a pass of the policy leads to. *)
Definition going (c : config) (s : sup) : Prop := tidy s /\ paced c s /\ serving s.
Definition leads_to (c : config) (r : option (option Z * sup)) : Prop :=
  match r with
  | Some (None, s') => going c s'
  | Some (Some code, s') => finished c code s'
  | None => False
  end.

Lemma quiet_going c s s' : later nothing s s' -> going c s -> going c s'.
Proof.
  intros H (? & ? & ?). split_and!.
  - by eapply later_tidy; [|exact H|]; [intros ? []|].
  - by eapply after_paced; [|apply H|]; [intros ? []|].
  - by eapply quiet_serving.
Qed.

Lemma sleep_quiet d s : later nothing s (_sleep d s).
Proof. unfold _sleep. etrans; [apply meanwhile_quiet|apply apply_move_later]. Qed.

(** A known child that was waited for is no longer known. *)
Lemma lost_known c s pid n l1 l2 :
  going c s -> procs s = l1 ++ (pid, true) :: l2 -> (n, pid) ∈ pids s ->
  let s' := logged (Lost n pid) (with_pids (drop_name n (pids s)) (with_procs (l1 ++ l2) s)) in
  tidy s' /\ paced c s' /\ (forall n' p', (n', p') ∈ pids s' <-> (n', p') ∈ pids s /\ p' <> pid).
Proof.
  intros (Ht & Hp & Hv) E Hin. cbv zeta. rewrite (drop_forget s pid n Ht Hin). split_and!.
  - apply logged_tidy; [done|]. by apply reaped_tidy.
  - apply logged_paced; [done|]. destruct Hp as [Hk Hb]. by split.
  - intros n' p'. apply elem_of_forget.
Qed.

Lemma stopped_finished c code s0 s1 t s s' l :
  Forall (fun e => ~ is_signal e) (log s) -> log s' = log s ++ l -> Forall (stopping c s0 s1 t) l ->
  tidy s' -> paced c s' -> pids s' = [] ->
  (code = EXIT_OK \/ code = EXIT_SERVER_EXITED /\ (exists p, Lost SERVER p ∈ log s)
   \/ code = EXIT_GATEWAY_UNRECOVERABLE /\ exists p t, Lost GATEWAY p ∈ log s
        /\ max_gateway_restarts c <= Z.of_nat (length (recent (gateway_restart_window c) t (scheduled (log s))))) ->
  finished c code s'.
Proof.
  intros Hc El Hl ? ? ? Hr. assert (Es : scheduled (log s') = scheduled (log s)).
  { rewrite El, scheduled_app, (scheduled_none l), app_nil_r; [done|]. eapply Forall_impl; [exact Hl|].
    intros e He. apply stopping_signal in He. by destruct e. }
  split; try done.
  - rewrite El. by eapply calm_patient.
  - rewrite Es, El. destruct Hr as [?|[[? (p & ?)]|(? & p & x & ? & ?)]]; [by left|right; left|right; right].
    + split; [done|]. exists p. apply elem_of_app. by left.
    + split; [done|]. exists p, x. split; [apply elem_of_app; by left|done].
Qed.

Lemma stop_now c code s :
  (0 < poll_interval c)%Q -> tidy s -> paced c s -> Forall (fun e => ~ is_signal e) (log s) ->
  (code = EXIT_OK \/ code = EXIT_SERVER_EXITED /\ (exists p, Lost SERVER p ∈ log s)) ->
  exists s', shutdown c s = Some s' /\ finished c code s'.
Proof.
  intros Hpoll Ht Hp Hc Hr. destruct (shutdown_ok c s Hpoll Ht) as (s' & t & E & Ht' & Hn & _ & Ha).
  exists s'. split; [done|]. destruct (a_log _ _ _ Ha) as (l & El & Hl).
  eapply stopped_finished; [exact Hc|exact El|exact Hl|done| |done|tauto].
  eapply after_paced; [|exact Ha|done]. intros e He. apply (stopping_signal c s s' t) in He. by destruct e.
Qed.

Lemma reap_loop_ok fuel c s :
  names_of c -> (budget s < fuel)%nat -> going c s -> leads_to c (reap_loop fuel c s).
Proof.
  intros Hc. revert s. induction fuel as [|fuel IH]; intros s Hb Hg; [lia|]. cbn [reap_loop].
  unfold waitpid_nohang. pose proof (meanwhile_budget s) as Hbm.
  pose proof (quiet_going c _ _ (meanwhile_quiet s) Hg) as Hg1. set (s1 := meanwhile s) in *. clearbody s1.
  pose proof (take_exit_spec s1) as Hx. destruct (take_exit s1) as [[| |pid] s2];
    [by destruct Hx as [-> _]..|]. destruct Hx as (l1 & l2 & E & ->).
  assert (Hb2 : (S (budget (with_procs (l1 ++ l2) s1)) = budget s1)%nat).
  { unfold budget. cbn. rewrite E, !length_app. cbn. lia. }
  change (pids (with_procs (l1 ++ l2) s1)) with (pids s1).
  destruct (name_of pid (pids s1)) as [n|] eqn:En.
  - apply name_of_in in En. destruct (lost_known c s1 pid n l1 l2 Hg1 E En) as (Ht2 & Hp2 & Hin2). cbv zeta.
    set (s2 := logged _ _) in *. destruct Hc as (Hcg & Hcs & Hpoll). destruct Hg1 as (Ht1 & Hp1 & [Hsrv Hcalm Hnames Hdue]).
    assert (Hsig : Forall (fun e => ~ is_signal e) (log s2)).
    { apply Forall_app. split; [|by constructor; [tauto|]]. eapply Forall_impl; [exact Hcalm|exact calm_signal]. }
    assert (Hlost : Lost n pid ∈ log s2) by (apply elem_of_app; right; by left).
    case_bool_decide as Hn.
    + subst n. destruct (stop_now c EXIT_SERVER_EXITED s2) as (s' & -> & Hf); try done. right. split; [done|]. by exists pid.
    + destruct (Hnames n pid En) as [->|?]; [|done].
      destruct (gateway_exit_ok c s2 Hpoll Ht2 Hp2) as [(t & s' & -> & Ht' & Hp' & Ep & Hd & (d & El) & _ & Hb')
        |(t & t' & s0 & s' & -> & Ht' & Hp' & Ep & _ & _ & (l & El & Hl) & Hmax)]; cbn [mbind option_bind].
      * apply IH; [rewrite Hb'; change (budget s2) with (budget (with_procs (l1 ++ l2) s1)); lia|]. split_and!; [done..|].
        split; rewrite ?El, ?Ep.
        -- destruct Hsrv as (p & x & Hin & Hf). exists p, x. split.
           ++ apply Hin2. split; [done|]. intros ->. by apply Hn, (pair_inj_r _ _ _ pid (t_pids _ Ht1)).
           ++ change (log s2) with (log s1 ++ [Lost GATEWAY pid]). by rewrite !server_forks_app, Hf.
        -- apply Forall_app. split; [|by repeat constructor]. apply Forall_app. split; [done|by repeat constructor].
        -- intros n p Hnp. apply Hin2 in Hnp as [Hnp _]. by eapply Hnames.
        -- intros _ ([n p] & En' & Hnp)%list_elem_of_fmap. cbn in En'. subst n. apply Hin2 in Hnp as [Hnp Hne].
           by apply Hne, (pair_inj _ GATEWAY _ _ (t_names _ Ht1)).
      * eapply stopped_finished; [exact Hsig|exact El|exact Hl|done..|]. right. right. split; [done|]. by exists pid, t.
  - apply IH; [lia|]. destruct Hg1 as (Ht1 & Hp1 & [Hsrv Hcalm Hnames Hdue]).
    split_and!; [|by destruct Hp1|by split].
    pose proof (reaped_tidy s1 pid l1 l2 Ht1 E) as H. rewrite (forget_unknown s1 pid En) in H. exact H.
Qed.

Lemma keep_new name pid l : name ∉ map fst l -> keep_pid name pid l = l ++ [(name, pid)].
Proof. intros H. unfold keep_pid. by rewrite (mem_false _ _ H). Qed.

Lemma spawn_tidy spec s :
  tidy s -> cs_name spec ∉ map fst (pids s) ->
  tidy (_spawn spec s) /\ (forall c, paced c s -> paced c (_spawn spec s))
  /\ exists s1, later nothing s s1 /\ pids (_spawn spec s) = pids s ++ [(cs_name spec, next_pid s1)]
       /\ log (_spawn spec s) = log s1 ++ [Forked (cs_name spec) (next_pid s1) (now s1)] /\ due (_spawn spec s) = due s1.
Proof.
  intros Ht Hn. unfold _spawn. pose proof (meanwhile_quiet s) as Hm. set (s1 := meanwhile s) in *. clearbody s1.
  assert (Ht1 : tidy s1) by (by eapply later_tidy; [|exact Hm|]; [intros ? []|]).
  assert (Ep : pids s1 = pids s) by apply (l_pids _ _ _ Hm). rewrite <-Ep in *. cbv zeta.
  change (pids (with_world _ _ _ _ _ s1)) with (pids s1). rewrite keep_new by done. split_and!.
  - destruct Ht1 as [? ? ? Hfresh Hk Hf]. assert (Hnew : next_pid s1 ∉ children s1) by (intros H%Hfresh; lia).
    split; cbn; rewrite ?map_app; cbn.
    + apply NoDup_app. split_and!; [done| |apply NoDup_singleton]. by intros x Hx ->%list_elem_of_singleton.
    + apply NoDup_app. split_and!; [done| |apply NoDup_singleton]. intros x Hx ->%list_elem_of_singleton.
      apply list_elem_of_fmap in Hx as ([n p] & Ex & Hx). cbn in Ex. subst p. by apply Hnew, (Hk n).
    + apply NoDup_app. split_and!; [done| |apply NoDup_singleton]. by intros x Hx ->%list_elem_of_singleton.
    + intros p [H%Hfresh| ->%list_elem_of_singleton]%elem_of_app; lia.
    + intros n p [H|H%list_elem_of_singleton]%elem_of_app; apply elem_of_app; [left; by eapply Hk|right].
      injection H as _ ->. by left.
    + intros n p t [H|H%list_elem_of_singleton]%elem_of_app.
      * destruct (Hf n p t H) as [? Hin]. split; [lia|]. intros [Hp| ->%list_elem_of_singleton]%elem_of_app; [|lia].
        apply elem_of_app. left. by apply Hin.
      * injection H as -> -> _. split; [lia|]. intros _. apply elem_of_app. right. by left.
  - intros c Hp. apply logged_paced; [done|]. assert (Hp1 : paced c s1) by (by eapply after_paced; [|apply Hm|]; [intros ? []|]).
    destruct Hp1 as [? ?]. by split.
  - exists s1. by split_and!.
Qed.

Lemma tick_ok c s : names_of c -> going c s -> leads_to c (tick c s).
Proof.
  intros Hc Hg. pose proof Hg as (Ht & Hp & Hv). unfold tick. destruct (stop s).
  { destruct (stop_now c EXIT_OK s) as (s' & -> & Hf); try done; [by destruct Hc as (_ & _ & ?)| |by left].
    eapply Forall_impl; [apply (v_calm _ Hv)|exact calm_signal]. }
  pose proof (reap_loop_ok (S (budget s)) c s Hc (Nat.lt_succ_diag_r _) Hg) as H. unfold _reap.
  destruct (reap_loop (S (budget s)) c s) as [[[code|] s1]|]; cbn [mbind option_bind leads_to] in *; [done| |done].
  destruct (gateway c) as [spec|] eqn:Eg; [|done]. destruct (due s1) as [d|] eqn:Ed; [|done]. unfold _monotonic.
  pose proof (quiet_going c _ _ (meanwhile_quiet s1) H) as H2.
  pose proof (a_due _ _ _ (l_after _ _ _ (meanwhile_quiet s1))) as Ed2. rewrite Ed in Ed2.
  set (s2 := meanwhile s1) in *. clearbody s2. cbn [leads_to]. destruct (Qle_bool d (now s2)); [|done].
  destruct H2 as (Ht2 & Hp2 & [(p & t & Hin & Hf) Hcalm Hnames Hdue]).
  destruct Hc as (Hcg & _ & _). specialize (Hcg _ Eg).
  assert (Hgone : GATEWAY ∉ map fst (pids s2)) by (by apply Hdue; rewrite Ed2).
  destruct (spawn_tidy spec (with_due None s2)) as (Ht3 & Hp3 & s3 & Hl3 & Ep3 & El3 & Ed3).
  { destruct Ht2. by split. }
  { by rewrite Hcg. }
  assert (El : log s3 = log s2).
  { destruct (a_log _ _ _ (l_after _ _ _ Hl3)) as ([|? ?] & -> & HF); [by rewrite app_nil_r|by inversion HF]. }
  split_and!; [done|apply Hp3; by destruct Hp2|].
  split; rewrite ?Ep3, ?El3, ?El, ?Ed3.
  - exists p, t. split; [apply elem_of_app; by left|]. rewrite server_forks_app, Hf. cbn. by rewrite Hcg.
  - apply Forall_app. split; [done|by repeat constructor].
  - intros n q [H'|H'%list_elem_of_singleton]%elem_of_app; [by eapply Hnames|]. injection H' as -> _. by left.
  - pose proof (a_due _ _ _ (l_after _ _ _ Hl3)) as ->. cbn. by intros [? ?].
Qed.

Lemma start_going c t first_pid ms : names_of c -> going c (start c (new_sup t first_pid ms)).
Proof.
  intros (Hcg & Hcs & _). unfold start. set (s0 := new_sup t first_pid ms).
  assert (H0 : tidy s0 /\ paced c s0).
  { split; [split; cbn; try apply NoDup_nil_2; intros; by apply not_elem_of_nil in H|].
    split; [done|]. intros pre a post H. by destruct pre. }
  assert (Hs : exists s, tidy s /\ paced c s /\ SERVER ∉ map fst (pids s) /\ server_forks (log s) = [] /\ Forall calm (log s)
                 /\ (forall n p, (n, p) ∈ pids s -> n = GATEWAY) /\ due s = None
                 /\ match gateway c with Some spec => _spawn spec s0 | None => s0 end = s).
  { destruct (gateway c) as [g|] eqn:Eg; [|exists s0; split_and!; try apply H0; try done; try apply not_elem_of_nil; try (by constructor);
      by intros ? ? ?%elem_of_nil].
    destruct (spawn_tidy g s0) as (Ht & Hp & s1 & Hl & Ep & El & Ed); [apply H0|apply not_elem_of_nil|].
    exists (_spawn g s0). rewrite Ep, El, Ed. cbn [pids s0 new_sup app map fst] in *. rewrite (Hcg _ eq_refl).
    assert (El1 : log s1 = []).
    { destruct (a_log _ _ _ (l_after _ _ _ Hl)) as ([|? ?] & -> & HF); [done|by inversion HF]. }
    rewrite El1. split_and!; try done; [apply Hp, H0|by intros ?%list_elem_of_singleton|by repeat constructor|
      by intros n p [= -> _]%list_elem_of_singleton|apply (a_due _ _ _ (l_after _ _ _ Hl))]. }
  destruct Hs as (s & Ht & Hp & Hn & Hf & Hcalm & Hnames & Hd & ->).
  destruct (spawn_tidy (server c) s) as (Ht' & Hp' & s1 & Hl & Ep & El & Ed); [done|by rewrite Hcs|].
  assert (El1 : log s1 = log s).
  { destruct (a_log _ _ _ (l_after _ _ _ Hl)) as ([|? ?] & -> & HF); [by rewrite app_nil_r|by inversion HF]. }
  rewrite Hcs, El1 in *. split_and!; [done|by apply Hp'|]. split; rewrite ?Ep, ?El, ?Ed.
  - exists (next_pid s1), (now s1). split; [apply elem_of_app; right; by left|]. by rewrite server_forks_app, Hf.
  - apply Forall_app. split; [done|by repeat constructor].
  - intros n p [H|H%list_elem_of_singleton]%elem_of_app; [left; by eapply Hnames|right; by injection H].
  - pose proof (a_due _ _ _ (l_after _ _ _ Hl)) as ->. rewrite Hd. by intros [? ?].
Qed.

Lemma running_going c s : names_of c -> running c s -> going c s.
Proof.
  intros Hc. induction 1 as [|s s' _ IH H]; [by apply start_going|].
  pose proof (tick_ok c s Hc IH) as Ht. rewrite H in Ht. by eapply quiet_going, Ht; apply sleep_quiet.
Qed.

(** ** The theorems *)

(** A run that ended with an exit code. *)
Definition ended (c : config) (code : Z) (s' : sup) : Prop :=
  exists s, running c s /\ tick c s = Some (Some code, s').

(** While the supervisor runs there is never a second gateway nor a second
    server: of the processes forked under one name at most one has not been
    reaped.  The one server it started is still its child, and no gateway exit
    so far had it signalled. *)
Theorem one_process_each c s :
  names_of c -> running c s ->
  (forall n p p' t t', Forked n p t ∈ log s -> Forked n p' t' ∈ log s ->
     p ∈ children s -> p' ∈ children s -> p = p')
  /\ (exists p t, p ∈ children s /\ server_forks (log s) = [Forked SERVER p t])
  /\ (forall p g t, Signalled p g t ∉ log s).
Proof.
  intros Hc Hr. destruct (running_going c s Hc Hr) as (Ht & _ & [(p & t & Hin & Hf) Hcalm _ _]). split_and!.
  - intros n p1 p2 t1 t2 H1 H2 C1 C2. eapply (pair_inj (pids s)); [apply Ht|by eapply t_forked|by eapply t_forked].
  - exists p, t. split; [by eapply t_known|done].
  - intros p' g x H. rewrite Forall_forall in Hcalm. by apply Hcalm in H.
Qed.

(** The restarts a window ending at [t] contains. *)
Definition restarts_in (window t : Q) (l : list event) : list Q :=
  List.filter (fun a => Qle_bool a t && qlt (t - a)%Q window) (scheduled l).

Lemma restarts_in_bound c s t :
  paced c s -> Z.of_nat (length (restarts_in (gateway_restart_window c) t (log s))) <= Z.max 0 (max_gateway_restarts c).
Proof.
  intros [_ Hb]. unfold restarts_in. revert Hb. generalize (scheduled (log s)) as l. intros l.
  set (w := gateway_restart_window c). induction l as [|a l IH] using rev_ind; intros Hb; [cbn; lia|].
  rewrite List.filter_app, length_app. cbn [List.filter].
  destruct (Qle_bool a t && qlt (t - a) w) eqn:E.
  - specialize (Hb l a [] eq_refl). fold w in Hb. unfold recent in Hb. rewrite List.filter_app, length_app in Hb.
    apply andb_true_iff in E as [E1 E2]. apply Qle_bool_iff in E1. apply qlt_true in E2.
    cbn [List.filter] in Hb. rewrite (proj2 (qlt_true (a - a) w)) in Hb by lra. cbn [length] in *.
    enough (length (List.filter (fun a0 => Qle_bool a0 t && qlt (t - a0) w) l)
            <= length (List.filter (fun a0 => qlt (a - a0) w) l))%nat by lia.
    clear -E1. induction l as [|x l IH]; [done|]. cbn [List.filter].
    destruct (Qle_bool x t && qlt (t - x) w) eqn:E; [|destruct (qlt (a - x) w); cbn [length]; lia].
    apply andb_true_iff in E as [_ E]. apply qlt_true in E. rewrite (proj2 (qlt_true (a - x) w)) by lra. cbn [length]. lia.
  - cbn [length]. rewrite Nat.add_0_r. apply IH. intros pre b post H. apply (Hb pre b (post ++ [a])). by rewrite H, <-app_assoc.
Qed.

(** *** Every start of the gateway but the first is one of those restarts *)

Definition is_gateway (n : string) : bool := bool_decide (n = GATEWAY).
Definition gateway_starts (l : list event) : list Q :=
  omap (fun e => match e with Forked n _ t => if is_gateway n then Some t else None | _ => None end) l.
(** The starts of the gateway a window ending at [t] contains. *)
Definition starts_in (window t : Q) (l : list event) : list Q :=
  List.filter (fun a => Qle_bool a t && qlt (t - a)%Q window) (gateway_starts l).

(** Between two starts of the gateway a restart was decided; [armed] tells
    whether the next start has its decision. *)
Fixpoint armed (b : bool) (l : list event) : bool :=
  match l with
  | [] => b
  | Forked n _ _ :: l => armed (if is_gateway n then false else b) l
  | Scheduled _ _ :: l => armed true l
  | _ :: l => armed b l
  end.
Fixpoint spaced (b : bool) (l : list event) : Prop :=
  match l with
  | [] => True
  | Forked n _ _ :: l => if is_gateway n then b = true /\ spaced false l else spaced b l
  | Scheduled _ _ :: l => spaced true l
  | _ :: l => spaced b l
  end.
Definition happened (e : event) : option Q :=
  match e with Forked _ _ t => Some t | Scheduled t _ => Some t | _ => None end.
Definition times (l : list event) : list Q := omap happened l.

Lemma armed_app b l l' : armed b (l ++ l') = armed (armed b l) l'.
Proof. revert b. induction l as [|[] l IH]; intros b; cbn; [done|apply IH..]. Qed.
Lemma spaced_app b l l' : spaced b (l ++ l') <-> spaced b l /\ spaced (armed b l) l'.
Proof.
  revert b. induction l as [|e l IH]; intros b; cbn; [tauto|]. destruct e; cbn; [|apply IH..].
  destruct (is_gateway name); rewrite IH; tauto.
Qed.
Lemma spaced_armed b l : spaced b l -> spaced true l.
Proof.
  revert b. induction l as [|e l IH]; intros b; cbn; [done|]. destruct e; [|by apply IH|by intros H|by apply IH].
  destruct (is_gateway name); [by intros [_ ?]|by apply IH].
Qed.

(** The log in its order, with nothing from the future. *)
Definition ordered (l : list event) (t : Q) : Prop :=
  StronglySorted Qle (times l) /\ Forall (fun a => a <= t)%Q (times l).

Lemma times_app l l' : times (l ++ l') = times l ++ times l'.
Proof. apply omap_app. Qed.

Section window.
Context (w t : Q).
Abbreviation inside a := (Qle_bool a t && qlt (t - a)%Q w).

Definition counted (e : event) : nat * nat :=
  match e with
  | Forked n _ a => ((if is_gateway n && inside a then 1 else 0)%nat, 0%nat)
  | Scheduled a _ => (0%nat, (if inside a then 1 else 0)%nat)
  | _ => (0%nat, 0%nat)
  end.
Lemma starts_cons e l :
  length (starts_in w t (e :: l)) = (fst (counted e) + length (starts_in w t l))%nat
  /\ length (restarts_in w t (e :: l)) = (snd (counted e) + length (restarts_in w t l))%nat.
Proof.
  unfold starts_in, restarts_in, gateway_starts, scheduled. destruct e as [n p a|p g a|a d|n p]; cbn; try done.
  - destruct (is_gateway n); cbn; [|done]. by destruct (inside a).
  - by destruct (inside a).
Qed.

Lemma late_starts l : Forall (fun a => t < a)%Q (times l) -> length (starts_in w t l) = 0%nat.
Proof.
  assert (Hout : forall a, (t < a)%Q -> inside a = false).
  { intros a Ha. destruct (Qle_bool a t) eqn:E; [|done]. apply Qle_bool_iff in E. lra. }
  induction l as [|e l IH]; [done|]. destruct (starts_cons e l) as [-> _]. unfold times in *.
  destruct e as [n p a|p g a|a d|n p]; cbn; [|exact IH| |exact IH]; intros [Ha Hl]%Forall_cons.
  - rewrite (Hout a Ha), andb_false_r. by apply IH.
  - by apply IH.
Qed.

(** Within the window each start but the first follows its decision. *)
Lemma window_starts b l :
  StronglySorted Qle (times l) -> spaced b l -> Forall (fun a => t - a < w)%Q (times l) ->
  (length (starts_in w t l) <= length (restarts_in w t l) + if b then 1 else 0)%nat.
Proof.
  revert b. induction l as [|e l IH]; intros b; [cbn; lia|]. destruct (starts_cons e l) as [-> ->].
  unfold times in *. destruct e as [n p a|p g a|a d|n p]; cbn [counted fst snd spaced]; [|by apply IH| |by apply IH].
  - intros [Hs Ha]%StronglySorted_inv Hsp [Hw Hl]%Forall_cons.
    destruct (is_gateway n); cbn [andb]; [|by apply IH]. destruct Hsp as [-> Hsp].
    specialize (IH false Hs Hsp Hl). cbv iota in *. destruct (inside a); lia.
  - intros [Hs Ha]%StronglySorted_inv Hsp [Hw Hl]%Forall_cons.
    rewrite (proj2 (qlt_true (t - a) w)) by exact Hw. rewrite andb_true_r.
    specialize (IH true Hs Hsp Hl). cbv iota in IH. destruct (Qle_bool a t) eqn:E; [destruct b; lia|].
    assert (Hlate : (t < a)%Q) by (apply Qnot_le_lt; intros H; apply Qle_bool_iff in H; congruence).
    rewrite (late_starts l); [lia|]. unfold times. eapply Forall_impl; [exact Ha|]. intros x Hx. cbn in Hx. lra.
Qed.

Lemma starts_after_restarts b l :
  StronglySorted Qle (times l) -> spaced b l -> (length (starts_in w t l) <= S (length (restarts_in w t l)))%nat.
Proof.
  revert b. induction l as [|e l IH]; intros b Hs Hsp; [cbn; lia|].
  destruct (happened e) as [a|] eqn:Ea.
  - assert (Hcons : times (e :: l) = a :: times l) by (unfold times; cbn; by rewrite Ea).
    destruct (qlt (t - a) w) eqn:Ew.
    + apply qlt_true in Ew. assert (Hall : Forall (fun a => t - a < w)%Q (times (e :: l))).
      { rewrite Hcons in *. apply StronglySorted_inv in Hs as [_ Hs]. constructor; [exact Ew|].
        eapply Forall_impl; [exact Hs|]. intros x Hx. cbn in Hx. lra. }
      pose proof (window_starts true (e :: l) Hs (spaced_armed _ _ Hsp) Hall) as Hc. cbv iota in Hc. lia.
    + rewrite Hcons in Hs. apply StronglySorted_inv in Hs as [Hs _]. destruct (starts_cons e l) as [-> ->].
      destruct e as [n p x|p g x|x d|n p]; cbn in Ea; simplify_eq; cbn [counted fst snd]; rewrite Ew, ?andb_false_r; cbn in Hsp.
      * destruct (is_gateway n); [destruct Hsp as [_ Hsp]|]; by eapply IH.
      * by eapply IH.
  - assert (Hcons : times (e :: l) = times l) by (unfold times; cbn; by rewrite Ea). rewrite Hcons in Hs.
    destruct (starts_cons e l) as [-> ->]. destruct e; cbn in Ea; simplify_eq; by eapply IH.
Qed.
End window.

(** The invariant of a run behind it. *)
Record forking (s : sup) : Prop := {
  k_ordered : ordered (log s) (now s);
  k_spaced : spaced true (log s);
  k_armed : is_Some (due s) -> armed true (log s) = true }.

Definition silent (e : event) : Prop := not_fork e /\ not_scheduled e.
Lemma signal_silent e : is_signal e -> silent e.
Proof. by destruct e. Qed.

Lemma silent_log l : Forall silent l -> times l = [] /\ (forall b, armed b l = b) /\ forall b, spaced b l.
Proof.
  unfold times. induction 1 as [|e l [H1 H2] _ (IH1 & IH2 & IH3)]; [done|]. destruct e; try done; cbn; by split_and!.
Qed.

Lemma after_forking P s s' : (forall e, P e -> silent e) -> after P s s' -> forking s -> forking s'.
Proof.
  intros HP [_ Ed Hn _ (l & El & Hl)] [[Ho Hf] Hs Ha].
  destruct (silent_log l) as (E1 & E2 & E3); [eapply Forall_impl; [exact Hl|exact HP]|].
  split; rewrite El.
  - split; rewrite times_app, E1, app_nil_r; [done|]. eapply Forall_impl; [exact Hf|]. cbn. intros a Hx. lra.
  - apply spaced_app. by split.
  - rewrite Ed, armed_app, E2. exact Ha.
Qed.

Lemma quiet_forking s s' : later nothing s s' -> forking s -> forking s'.
Proof. intros H. by eapply after_forking; [|apply H]; intros ? []. Qed.
Lemma meanwhile_forking s : forking s -> forking (meanwhile s).
Proof. apply quiet_forking, meanwhile_quiet. Qed.

(** Something the clock dates is logged at the end. *)
Lemma logged_ordered e s : (forall a, happened e = Some a -> a = now s) -> ordered (log s) (now s) -> ordered (log s ++ [e]) (now s).
Proof.
  intros He [Ho Hf]. unfold ordered. rewrite times_app. unfold times at 2 4. cbn.
  destruct (happened e) as [a|]; [|by rewrite app_nil_r]. rewrite (He a eq_refl). split.
  - clear He. induction Ho as [|x l Hs IH Hx]; cbn; [by repeat constructor|]. apply Forall_cons in Hf as [Hxn Hf].
    constructor; [by apply IH|]. apply Forall_app. split; [done|]. by constructor.
  - apply Forall_app. split; [done|]. constructor; [apply Qle_refl|constructor].
Qed.

Lemma await_after fuel poll deadline s s' : await_exits fuel poll deadline s = Some s' -> after nothing s s'.
Proof.
  revert s. induction fuel as [|fuel IH]; intros s; [done|]. rewrite await_pass. destruct (no_pids s); [by intros [= <-]|].
  unfold _monotonic. destruct (qlt _ _); [|intros [= <-]; apply meanwhile_quiet].
  intros H. apply IH in H. etrans; [apply (meanwhile_quiet s)|]. etrans; [apply (meanwhile_quiet (meanwhile s))|].
  etrans; [apply (collected_after nothing (meanwhile (meanwhile s)))|]. unfold waitpid_nohang in H.
  destruct (no_pids _) in H; [done|]. etrans; [apply sleep_quiet|exact H].
Qed.

Lemma block_after ms s r : block_on ms s = Some r -> after nothing s (collected r).
Proof.
  revert s. induction ms as [|m ms IH]; intros s; cbn; pose proof (collected_after nothing s) as Hc;
    destruct (take_exit s) as [[| |pid] s1] eqn:E; try (intros [= <-]; exact Hc).
  intros H. apply IH in H. etrans; [exact Hc|]. etrans; [apply (meanwhile_quiet s1)|exact H].
Qed.
Lemma drain_after fuel s s' : drain fuel s = Some s' -> after nothing s s'.
Proof.
  revert s. induction fuel as [|fuel IH]; intros s; [done|]. cbn [drain]. destruct (no_pids s); [by intros [= <-]|].
  unfold waitpid_block. destruct (block_on _ _) as [r|] eqn:E; [|done]. intros H. apply IH in H.
  etrans; [apply (meanwhile_quiet s)|]. etrans; [exact (block_after _ _ _ E)|exact H].
Qed.

Lemma shutdown_forking c s s' : shutdown c s = Some s' -> forking s -> forking s'.
Proof.
  unfold shutdown, _monotonic. intros H Hf.
  assert (Hall : forall g s, forking s -> forking (signal_all g s)).
  { intros g s0 H0. eapply after_forking; [exact signal_silent| |exact H0].
    apply l_after, (later_impl (timed g (now s0) (now (signal_all g s0)))); [intros e; apply timed_signal|].
    apply signal_list_later; apply Qle_refl. }
  destruct (await_exits _ _ _ _) as [s1|] eqn:E1; [|done]. cbn [mbind option_bind] in H. apply await_after in E1. apply drain_after in H.
  eapply after_forking; [|exact H|]; [by intros ? []|]. apply Hall.
  eapply after_forking; [|exact E1|]; [by intros ? []|]. by apply meanwhile_forking, Hall.
Qed.

Lemma gateway_exit_forking c s r s' : _on_gateway_exit c s = Some (r, s') -> forking s -> forking s'.
Proof.
  unfold _on_gateway_exit, _monotonic. intros H Hf. apply meanwhile_forking in Hf. set (s1 := meanwhile s) in *. clearbody s1.
  assert (Hr : forall k, forking (with_restarts k s1)) by (intros k; destruct Hf; by split).
  destruct (_ <=? _).
  - destruct (shutdown _ _) as [s2|] eqn:E; [|done]. injection H as _ <-. by eapply shutdown_forking.
  - injection H as _ <-. destruct Hf as [Ho Hs Ha]. split; cbn.
    + apply (logged_ordered _ s1); [by intros a [= <-]|exact Ho].
    + apply spaced_app. by split.
    + intros _. by rewrite armed_app.
Qed.

Lemma reap_forking fuel c s r s' : reap_loop fuel c s = Some (r, s') -> forking s -> forking s'.
Proof.
  revert s. induction fuel as [|fuel IH]; intros s; [done|]. cbn [reap_loop]. unfold waitpid_nohang.
  intros H Hf. apply meanwhile_forking in Hf. set (s1 := meanwhile s) in *. clearbody s1.
  pose proof (take_exit_spec s1) as Hx. destruct (take_exit s1) as [[| |pid] s2].
  1,2: destruct Hx as [-> _]; by injection H as _ <-. destruct Hx as (l1 & l2 & _ & ->).
  assert (Hw : forking (with_procs (l1 ++ l2) s1)) by (destruct Hf; by split).
  destruct (name_of _ _) as [n|]; [|by eapply IH].
  assert (Hl : forall q, forking (logged (Lost n pid) (with_pids q (with_procs (l1 ++ l2) s1)))).
  { intros q. eapply (after_forking silent _ _ (fun e H => H)); [|exact Hw].
    split; cbn; try done; [apply Qle_refl|]. exists [Lost n pid]. split; [done|]. by repeat constructor. }
  case_bool_decide.
  - destruct (shutdown _ _) as [s3|] eqn:E; [|done]. injection H as _ <-. by eapply shutdown_forking.
  - destruct (_on_gateway_exit _ _) as [[code s3]|] eqn:E; [|done]. cbn in H. apply gateway_exit_forking in E; [|done].
    destruct code; [by injection H as _ <-|by eapply IH].
Qed.

Lemma spawn_forking spec s :
  (cs_name spec = GATEWAY -> armed true (log s) = true /\ due s = None) -> forking s -> forking (_spawn spec s).
Proof.
  intros Hg Hf. unfold _spawn. pose proof (meanwhile_quiet s) as Hm.
  pose proof (a_due _ _ _ (l_after _ _ _ Hm)) as Ed.
  assert (El : log (meanwhile s) = log s) by (destruct (a_log _ _ _ (l_after _ _ _ Hm)) as ([|? ?] & -> & HF);
                                   [by rewrite app_nil_r|by inversion HF]).
  apply meanwhile_forking in Hf. rewrite <-El, <-Ed in Hg. set (s1 := meanwhile s) in *. clearbody s1.
  destruct Hf as [Ho Hs Ha]. split; cbn.
  - apply (logged_ordered _ s1); [by intros a [= <-]|exact Ho].
  - apply spaced_app. split; [exact Hs|]. cbn. unfold is_gateway. case_bool_decide as E; [|done].
    split; [by apply Hg|done].
  - intros Hd. rewrite armed_app. cbn. unfold is_gateway. case_bool_decide as E; [|by apply Ha].
    destruct (Hg E) as [_ Hn]. rewrite Hn in Hd. by destruct Hd.
Qed.

Lemma tick_forking c s r s' : tick c s = Some (r, s') -> forking s -> forking s'.
Proof.
  unfold tick, _reap. destruct (stop s).
  { destruct (shutdown c s) as [s1|] eqn:E; [|done]. intros [= _ <-]. by eapply shutdown_forking. }
  destruct (reap_loop _ c s) as [[code s1]|] eqn:E; [|done]. cbn [mbind option_bind]. intros H Hf.
  apply reap_forking in E; [|done]. destruct code; [by injection H as _ <-|].
  destruct (gateway c) as [spec|]; [|by injection H as _ <-]. destruct (due s1) as [d|] eqn:Ed; [|by injection H as _ <-].
  unfold _monotonic in H. injection H as _ <-. pose proof (a_due _ _ _ (l_after _ _ _ (meanwhile_quiet s1))) as Ed2.
  apply meanwhile_forking in E. set (s2 := meanwhile s1) in *. clearbody s2. destruct (Qle_bool _ _); [|done].
  destruct E as [Ho Hs Ha]. apply spawn_forking; [|split; [exact Ho|exact Hs|by intros [? ?]]]. intros _. split; [|done]. apply Ha. rewrite Ed2, Ed. by eexists.
Qed.

Lemma start_forking c t first_pid ms : names_of c -> forking (start c (new_sup t first_pid ms)).
Proof.
  intros (_ & Hs & _). unfold start.
  assert (H0 : forking (new_sup t first_pid ms)) by (split; [split; constructor|done|done]).
  apply spawn_forking; [by rewrite Hs|]. destruct (gateway c); [|done]. by apply spawn_forking.
Qed.

Lemma running_forking c s : names_of c -> running c s -> forking s.
Proof.
  intros Hc. induction 1 as [|s s' _ IH H]; [by apply start_forking|].
  apply tick_forking in H; [|done]. eapply quiet_forking; [apply sleep_quiet|done].
Qed.

(** C28 The gateway is not restarted without end.  Over any run, ended or not, no
    window of the configured length contains more restart decisions than the
    configured number, nor more starts of the gateway than that number and one:
    every process forked as the gateway counts, also the first. *)
Theorem restarts_bounded c s t :
  names_of c -> running c s \/ (exists code, ended c code s) ->
  Z.of_nat (length (restarts_in (gateway_restart_window c) t (log s))) <= Z.max 0 (max_gateway_restarts c)
  /\ Z.of_nat (length (starts_in (gateway_restart_window c) t (log s))) <= Z.max 0 (max_gateway_restarts c) + 1.
Proof.
  intros Hc Hr.
  assert (Hb : Z.of_nat (length (restarts_in (gateway_restart_window c) t (log s))) <= Z.max 0 (max_gateway_restarts c)).
  { apply restarts_in_bound. destruct Hr as [Hr|(code & s0 & Hr & H)]; [by apply (running_going c s Hc Hr)|].
    pose proof (tick_ok c s0 Hc (running_going c s0 Hc Hr)) as Hf. rewrite H in Hf. apply Hf. }
  split; [exact Hb|]. assert (Hf : forking s).
  { destruct Hr as [Hr|(code & s0 & Hr & H)]; [by eapply running_forking|].
    eapply tick_forking; [exact H|]. by eapply running_forking. }
  pose proof (starts_after_restarts (gateway_restart_window c) t true (log s) (proj1 (k_ordered _ Hf)) (k_spaced _ Hf)). lia.
Qed.

(** C29 A pass of the policy always ends, and when it ends the run nothing of
    ours is left: every process that was ever forked has been reaped, nothing
    was killed before the stop timeout had passed since the last [SIGTERM], and
    the code says why: a stop was asked for, the server was lost, or the
    gateway was lost with all its restarts of a window used up. *)
Theorem run_ends_clean c s :
  names_of c -> running c s ->
  exists code s', tick c s = Some (code, s')
    /\ match code with
       | None => True
       | Some code =>
           (forall n p t, Forked n p t ∈ log s' -> p ∉ children s') /\ pids s' = [] /\ patient c (log s')
           /\ (code = EXIT_OK
               \/ code = EXIT_SERVER_EXITED /\ (exists p, Lost SERVER p ∈ log s')
               \/ code = EXIT_GATEWAY_UNRECOVERABLE /\ exists p t, Lost GATEWAY p ∈ log s'
                    /\ max_gateway_restarts c
                       <= Z.of_nat (length (recent (gateway_restart_window c) t (scheduled (log s')))))
       end.
Proof.
  intros Hc Hr. pose proof (tick_ok c s Hc (running_going c s Hc Hr)) as H.
  destruct (tick c s) as [[[code|] s']|]; [|by exists None, s'|done].
  exists (Some code), s'. split; [done|]. destruct H as [Ht _ Hn Hp Hreason]. split_and!; [|done..].
  intros n p t Hf Hin. destruct (t_forked _ Ht n p t Hf) as [_ H]. apply H in Hin. rewrite Hn in Hin.
  by apply elem_of_nil in Hin.
Qed.

(** ** Examples *)

Definition demo_config : config :=
  {| gateway := Some {| cs_name := GATEWAY; cs_argv := ["/opt/OpenD"]; cs_cwd := Some "/opt" |};
     server := {| cs_name := SERVER; cs_argv := ["moomoo-api-mcp"]; cs_cwd := None |};
     max_gateway_restarts := 1; gateway_restart_window := 300; gateway_restart_backoff := 1;
     max_gateway_restart_backoff := 30; stop_timeout := 10; poll_interval := (1 # 10)%Q |}.

Lemma demo_names : names_of demo_config.
Proof. split_and!; [by intros g [= <-]|done|done]. Qed.

(** The gateway (7) exits, is restarted after a second as 9, an orphan comes by,
    and exits again; the server (8) ignores [SIGTERM]. *)
Definition demo_moves : list (list move) :=
  [[]; []; [Exits 7]; [Passes 2]; []; [Passes 1]; []; []; [Orphaned]; [Exits 10; Exits 9]].
Definition demo_start : sup := start demo_config (new_sup 0 7 demo_moves).
Definition demo_run : option (option Z * sup) := run 10 demo_config demo_start.
Definition demo_end : sup := match demo_run with Some (_, s) => s | None => demo_start end.

Example demo_restart :
  match run 2 demo_config demo_start with
  | Some (None, s) => (pids s, length (restarts_in 300 (now s) (log s)))
  | _ => ([], O)
  end = ([(SERVER, 8); (GATEWAY, 9)], 1%nat)
  /\ match demo_run with Some (code, s) => (code, children s) | None => (None, []) end
     = (Some EXIT_GATEWAY_UNRECOVERABLE, []).
Proof. by vm_compute. Qed.

(** The passes before the one that ends the run. *)
Lemma run_split n c s code s' :
  running c s -> run n c s = Some (Some code, s') -> exists s0, running c s0 /\ tick c s0 = Some (Some code, s').
Proof.
  revert s. induction n as [|n IH]; intros s Hr H; [done|]. cbn [run] in H.
  destruct (tick c s) as [[[code'|] s1]|] eqn:E; cbn [mbind option_bind] in H; [|by apply (IH _ (run_on c s s1 Hr E) H)|done].
  injection H as -> ->. by exists s.
Qed.

Lemma demo_ended : exists s0, running demo_config s0 /\ tick demo_config s0 = Some (Some EXIT_GATEWAY_UNRECOVERABLE, demo_end).
Proof. apply (run_split 10 _ demo_start); [apply run_start|]. vm_compute. reflexivity. Qed.

Lemma one_process_each_witness :
  names_of demo_config /\ exists p t, p ∈ children demo_start /\ server_forks (log demo_start) = [Forked SERVER p t].
Proof.
  split; [exact demo_names|].
  exact (proj1 (proj2 (one_process_each demo_config demo_start demo_names (run_start demo_config 0%Q 7 demo_moves)))).
Defined.

Lemma restarts_bounded_witness :
  names_of demo_config /\ length (gateway_starts (log demo_end)) = 2%nat
  /\ Z.of_nat (length (starts_in 300%Q 200%Q (log demo_end))) <= 2.
Proof.
  split; [exact demo_names|].
  split; [vm_compute; reflexivity|].
  exact (proj2 (restarts_bounded demo_config demo_end 200%Q demo_names (or_intror (ex_intro _ _ demo_ended)))).
Defined.

Lemma run_ends_clean_witness :
  exists s0 code s', running demo_config s0 /\ tick demo_config s0 = Some (Some code, s')
    /\ code = EXIT_GATEWAY_UNRECOVERABLE /\ pids s' = [] /\ patient demo_config (log s').
Proof.
  destruct demo_ended as (s0 & Hr & E). revert E. generalize demo_end as e. intros e E.
  exists s0, EXIT_GATEWAY_UNRECOVERABLE, e.
  destruct (run_ends_clean demo_config s0 demo_names Hr) as (code & s' & E' & H). rewrite E in E'.
  injection E' as <- <-. destruct H as (_ & Hn & Hp & _). by split_and!.
Defined.
