(* ===== verification/SupConfig.v ===== *)
(** supervisor.py: what the supervisor is started with.  The command lines of the
    two children, the decision whether a gateway can log in at all, and the
    tunables; [build_supervisor] yields the [Supervisor.config] of the machine. *)

From Stdlib Require Import SpecFloat QArith Lqa.
From S2P Require Import Prelude PyStr PyFloat PyDec PyVal PyPath Policy Paper Supervisor.

#[local] Open Scope Z_scope.
#[local] Open Scope list_scope.

(** ** Command lines *)

Definition DEFAULT_OPEND_BINARY : string := "/opt/moomooOpenD/OpenD".
Definition DEFAULT_OPEND_HOME : string := "/home/opend".
Definition GATEWAY_LISTEN_IP : string := "127.0.0.1".

Definition SENSITIVE_FLAGS : list string := ["-login_pwd_md5"; "-login_account"].

Definition redact (arg : string) : string :=
  let '(flag, separator, _) := partition "=" arg in
  if separator && mem flag SENSITIVE_FLAGS then flag ++ "=<redacted>" else arg.

(** [redacted] *)
Definition redacted (argv : list string) : string := String.concat " " (map redact argv).

(** What the file system answers: [_is_dir], and the entries [iterdir] finds. *)
Record file_system : Type := { is_dir : string -> bool; entries : string -> option (list string) }.

(** [has_remembered_token] *)
Definition has_remembered_token (fs : file_system) (home : string) : bool :=
  let data := [".com.moomoo.OpenD"] in
  if is_dir fs (path_join home (data ++ ["F3CNN"; "UserAccMap"])) then true
  else match entries fs (path_join home (data ++ ["F3CNN"; "ftnet"; "auth_acc_list"])) with
       | Some (_ :: _) => true
       | _ => false
       end.

Definition login_region (env : environ) : string :=
  let r := strip (get_or "MOOMOO_LOGIN_REGION" "sg" env) in if nonempty r then r else "sg".

(** [gateway_spec] *)
Definition gateway_spec (fs : file_system) (env : environ) : result ChildSpec :=
  let binary := get_or "OPEND_BINARY" DEFAULT_OPEND_BINARY env in
  let home := get_or "HOME" DEFAULT_OPEND_HOME env in
  let account := strip (get_or "MOOMOO_LOGIN_ACCOUNT" "" env) in
  let interactive := bool_decide (strip (get_or "OPEND_INTERACTIVE" "0" env) = "1") in
  let by_remember := bool_decide (strip (get_or "MOOMOO_LOGIN_BY_REMEMBER" "1" env) = "1") in
  let argv := [binary; ("-api_ip=" ++ GATEWAY_LISTEN_IP)%string; "-no_monitor=1"; "-lang=en";
               ("-login_region=" ++ login_region env)%string] in
  let spec extra := {| cs_name := GATEWAY; cs_argv := argv ++ extra; cs_cwd := Some (path_parent binary) |} in
  let account_arg := ("-login_account=" ++ account)%string in
  if interactive then Ok (spec (if nonempty account then [account_arg] else []))
  else if by_remember && nonempty account && has_remembered_token fs home
  then Ok (spec [account_arg; "-login_by_remember=1"])
  else if nonempty account then Err (GatewayLoginError "No usable headless login")
  else Err (GatewayLoginError "MOOMOO_LOGIN_ACCOUNT is empty").

(** [server_spec]; [executable] is [sys.executable]. *)
Definition server_spec (executable : string) (env : environ) : ChildSpec :=
  {| cs_name := SERVER;
     cs_argv := [get_or "MCP_SERVER_BINARY" (path_join (path_parent executable) ["moomoo-api-mcp"]) env];
     cs_cwd := None |}.

(** ** Tunables *)

(** [_duration] *)
Definition _duration (env : environ) (name : string) (dflt : float) : result float :=
  let raw := strip (get_or name "" env) in
  if negb (nonempty raw) then Ok dflt
  else match f_parse raw with
       | None => Err (SupervisorConfigError "is not a number")
       | Some value =>
           if negb (is_finite value) || f_le value f_zero
           then Err (SupervisorConfigError "must be a finite number greater than zero")
           else Ok value
       end.

(** [_count] *)
Definition _count (env : environ) (name : string) (dflt : Z) : result Z :=
  let raw := strip (get_or name "" env) in
  if negb (nonempty raw) then Ok dflt
  else match py_int (VStr raw) with
       | Err _ => Err (SupervisorConfigError "is not a whole number of attempts")
       | Ok value => if value <? 0 then Err (SupervisorConfigError "cannot be negative") else Ok value
       end.

(** The value of a finite float. *)
Definition q_of_float (f : float) : Q :=
  match f with
  | S754_finite s m e =>
      let z := if s then Z.neg m else Z.pos m in
      if 0 <=? e then inject_Z (z * 2 ^ e) else (z # Z.to_pos (2 ^ (- e)))%Q
  | _ => 0%Q
  end.

(** [build_supervisor]; [os] is the environment of the process, [env] the one
    given. *)
Definition build_supervisor (fs : file_system) (executable : string) (os env : environ) : result config :=
  (gateway <- match gateway_spec fs env with
              | Ok g => Ok (Some g)
              | Err (GatewayLoginError _) => Ok None
              | Err e => Err e
              end ;;
   max_restarts <- _count env "OPEND_MAX_RESTARTS" 5 ;;
   window <- _duration env "OPEND_RESTART_WINDOW_SECONDS" (f_round_Z 300) ;;
   timeout <- _duration env "SUPERVISOR_STOP_TIMEOUT_SECONDS" (f_round_Z 10) ;;
   Ok {| gateway := gateway; server := server_spec executable os; max_gateway_restarts := max_restarts;
         gateway_restart_window := q_of_float window; gateway_restart_backoff := 1; max_gateway_restart_backoff := 30;
         stop_timeout := q_of_float timeout; poll_interval := (1 # 10)%Q |})%py.

(** ** What they guarantee *)

Lemma f_le_zero_positive f : is_finite f = true -> f_le f f_zero = false -> (0 < q_of_float f)%Q.
Proof.
  destruct f as [[]| | |[] m e]; try done. intros _ _. unfold q_of_float.
  destruct (0 <=? e) eqn:E.
  - apply Z.leb_le in E. change 0%Q with (inject_Z 0). rewrite <-Zlt_Qlt. pose proof (Z.pow_pos_nonneg 2 e). lia.
  - unfold Qlt. cbn. lia.
Qed.

Lemma duration_positive env name dflt f :
  _duration env name dflt = Ok f -> (0 < q_of_float dflt)%Q -> (0 < q_of_float f)%Q.
Proof.
  unfold _duration. destruct (negb (nonempty _)); [by intros [= ->]|]. destruct (f_parse _) as [v|]; [|done].
  destruct (negb (is_finite v) || f_le v f_zero) eqn:E; [done|]. intros [= <-] _.
  apply orb_false_iff in E as [E1%negb_false_iff E2]. by apply f_le_zero_positive.
Qed.

Lemma attempts_nonneg env name dflt z : 0 <= dflt -> _count env name dflt = Ok z -> 0 <= z.
Proof.
  intros Hd. unfold _count. destruct (negb (nonempty _)); [by intros [= <-]|]. destruct (py_int _) as [v|]; [|done].
  destruct (v <? 0) eqn:E; [done|]. intros [= <-]. by apply Z.ltb_ge.
Qed.

(** The command line before the login arguments, and those. *)
Definition base_argv (env : environ) : list string :=
  [get_or "OPEND_BINARY" DEFAULT_OPEND_BINARY env; "-api_ip=127.0.0.1"; "-no_monitor=1"; "-lang=en";
   ("-login_region=" ++ login_region env)%string].

Lemma gateway_spec_ok fs env spec :
  gateway_spec fs env = Ok spec ->
  cs_name spec = GATEWAY
  /\ let account := strip (get_or "MOOMOO_LOGIN_ACCOUNT" "" env) in
     (strip (get_or "OPEND_INTERACTIVE" "0" env) = "1"
      /\ cs_argv spec = base_argv env ++ (if nonempty account then [("-login_account=" ++ account)%string] else []))
     \/ (strip (get_or "OPEND_INTERACTIVE" "0" env) <> "1" /\ strip (get_or "MOOMOO_LOGIN_BY_REMEMBER" "1" env) = "1"
         /\ nonempty account = true /\ has_remembered_token fs (get_or "HOME" DEFAULT_OPEND_HOME env) = true
         /\ cs_argv spec = base_argv env ++ [("-login_account=" ++ account)%string; "-login_by_remember=1"]).
Proof.
  unfold gateway_spec. cbv zeta. case_bool_decide as E1; [intros [= <-]; by split; [|left]|].
  destruct (bool_decide _ && _ && _) eqn:E2; [|by destruct (nonempty _)]. intros [= <-].
  apply andb_true_iff in E2 as [E2 E4]. apply andb_true_iff in E2 as [E2%bool_decide_eq_true E3].
  split; [done|]. right. by split_and!.
Qed.

Lemma gateway_spec_error fs env e : gateway_spec fs env = Err e -> exists msg, e = GatewayLoginError msg.
Proof. unfold gateway_spec. repeat case_match; intros [= <-]; eauto. Qed.

(** The configuration the supervisor runs under is one its policy can be run
    under, or the process refuses to start: the two children have their own
    names, the number of restarts is not negative, the window, the stop timeout
    and the poll interval are positive; a gateway that cannot log in is left
    out, which a login or a tunable being wrong never confuses. *)
Theorem built_supervisor_sound fs executable os env c :
  build_supervisor fs executable os env = Ok c ->
  names_of c /\ 0 <= max_gateway_restarts c /\ (0 < gateway_restart_window c)%Q /\ (0 < stop_timeout c)%Q
  /\ match gateway_spec fs env with Ok g => gateway c = Some g | Err _ => gateway c = None end.
Proof.
  unfold build_supervisor. intros H. apply bind_ok in H as (g & Hg & H). apply bind_ok in H as (n & Hn & H).
  apply bind_ok in H as (w & Hw & H). apply bind_ok in H as (t & Ht & [= <-]). cbn.
  apply attempts_nonneg in Hn; [|done]. apply duration_positive in Hw; [|done]. apply duration_positive in Ht; [|done].
  destruct (gateway_spec fs env) as [spec|e] eqn:Eg.
  - injection Hg as <-. destruct (gateway_spec_ok _ _ _ Eg) as (Hname & _). split_and!; try done. split; [by intros g' [= <-]|done].
  - destruct (gateway_spec_error _ _ _ Eg) as (msg & ->). injection Hg as <-. by split_and!.
Qed.

Lemma partition_account account : partition "=" ("-login_account=" ++ account)%string = ("-login_account", true, account).
Proof. exact (partition_app_found "=" "-login_account" account eq_refl). Qed.

Lemma redact_account account : redact ("-login_account=" ++ account)%string = "-login_account=<redacted>".
Proof. unfold redact. by rewrite partition_account. Qed.

(** The gateway is started on loopback, without a password, and only when it
    can log in: interactively, or for an account with a remembered token.  The
    line that reaches the log is the same whatever the account is. *)
Theorem gateway_started_safely fs env spec :
  gateway_spec fs env = Ok spec ->
  nth_error (cs_argv spec) 1 = Some "-api_ip=127.0.0.1"
  /\ (forall arg, arg ∈ tl (cs_argv spec) -> fst (fst (partition "=" arg)) <> "-login_pwd_md5")
  /\ (strip (get_or "OPEND_INTERACTIVE" "0" env) = "1"
      \/ nonempty (strip (get_or "MOOMOO_LOGIN_ACCOUNT" "" env)) = true
         /\ has_remembered_token fs (get_or "HOME" DEFAULT_OPEND_HOME env) = true)
  /\ forall account, nonempty (strip account) = true -> nonempty (strip (get_or "MOOMOO_LOGIN_ACCOUNT" "" env)) = true ->
       exists spec', gateway_spec fs (<["MOOMOO_LOGIN_ACCOUNT" := account]> env) = Ok spec'
         /\ redacted (cs_argv spec') = redacted (cs_argv spec).
Proof.
  intros H. destruct (gateway_spec_ok fs env spec H) as [_ Hc]. cbv zeta in Hc.
  set (account0 := strip (get_or "MOOMOO_LOGIN_ACCOUNT" "" env)) in *.
  assert (Hargv : exists extra, cs_argv spec = base_argv env ++ extra
            /\ forall arg, arg ∈ extra -> fst (fst (partition "=" arg)) <> "-login_pwd_md5").
  { assert (Ha : fst (fst (partition "=" ("-login_account=" ++ account0)%string)) <> "-login_pwd_md5")
      by (by rewrite partition_account).
    destruct Hc as [[_ ->]|(_ & _ & _ & _ & ->)]; eexists; (split; [done|]); intros arg; [destruct (nonempty account0)|];
      rewrite ?elem_of_cons, ?elem_of_nil; intros; destruct_or?; by subst. }
  destruct Hargv as (extra & Hargv & Hextra). split_and!.
  - by rewrite Hargv.
  - intros arg. rewrite Hargv. cbn [base_argv app tl]. rewrite !elem_of_cons. intros [->|[->|[->|[->|Hin]]]]; try discriminate.
    by apply Hextra.
  - destruct Hc as [[? _]|(_ & _ & ? & ? & _)]; [by left|by right].
  - intros account Hne Hne0. set (env' := <["MOOMOO_LOGIN_ACCOUNT":=account]> env).
    assert (Hsame : forall k d, k <> "MOOMOO_LOGIN_ACCOUNT" -> get_or k d env' = get_or k d env).
    { intros k d Hk. unfold get_or, env'. f_equal. by apply lookup_insert_ne. }
    assert (Hacc : get_or "MOOMOO_LOGIN_ACCOUNT" "" env' = account) by (unfold get_or; assert (env' !! "MOOMOO_LOGIN_ACCOUNT" = Some account) as -> by apply lookup_insert_eq; done).
    assert (Hreg : login_region env' = login_region env) by (unfold login_region; by rewrite Hsame).
    unfold gateway_spec. rewrite Hacc, Hreg, !Hsame by done. cbv zeta. rewrite Hne.
    destruct Hc as [[-> ->]|(Hi & -> & _ & -> & ->)].
    + rewrite bool_decide_true by done. eexists. split; [done|]. cbn [cs_argv]. unfold redacted. fold account0 in Hne0. rewrite Hne0, !map_app.
      cbn [map]. by rewrite !redact_account.
    + rewrite bool_decide_false by done. rewrite bool_decide_true by done. eexists. split; [done|].
      cbn [cs_argv]. unfold redacted. rewrite !map_app. cbn [map]. by rewrite !redact_account.
Qed.

(** ** Examples *)

Definition demo_fs : file_system :=
  {| is_dir := fun p => bool_decide (p = "/home/opend/.com.moomoo.OpenD/F3CNN/UserAccMap"); entries := fun _ => None |}.
Definition demo_environ : environ :=
  <["MOOMOO_LOGIN_ACCOUNT" := " 12345 "]> (<["OPEND_MAX_RESTARTS" := "3"]> ∅).
Definition demo_gateway : ChildSpec :=
  match gateway_spec demo_fs demo_environ with Ok g => g | Err _ => server_spec "" ∅ end.

Example gateway_ex :
  gateway_spec demo_fs demo_environ = Ok demo_gateway
  /\ redacted (cs_argv demo_gateway)
     = "/opt/moomooOpenD/OpenD -api_ip=127.0.0.1 -no_monitor=1 -lang=en -login_region=sg -login_account=<redacted> -login_by_remember=1"
  /\ cs_cwd demo_gateway = Some "/opt/moomooOpenD"
  /\ map (fun t => is_ok (_duration {["W" := t]} "W" f_zero)) ["1e3"; " "; "nan"; "-1"; "0"; "1_0"; "inf"; "x"]
     = [true; true; false; false; false; true; false; false].
Proof. by vm_compute. Qed.

Lemma built_supervisor_sound_witness :
  exists c, build_supervisor demo_fs "/usr/bin/python" ∅ demo_environ = Ok c /\ names_of c /\ max_gateway_restarts c = 3.
Proof.
  destruct (build_supervisor demo_fs "/usr/bin/python" ∅ demo_environ) as [c|] eqn:E; [|by vm_compute in E].
  exists c. split_and!; [done|exact (proj1 (built_supervisor_sound _ _ _ _ _ E))|].
  vm_compute in E. by injection E as <-.
Defined.

Lemma gateway_started_safely_witness :
  gateway_spec demo_fs demo_environ = Ok demo_gateway
  /\ nth_error (cs_argv demo_gateway) 1 = Some "-api_ip=127.0.0.1".
Proof.
  assert (E : gateway_spec demo_fs demo_environ = Ok demo_gateway) by (vm_compute; reflexivity).
  split; [exact E|exact (proj1 (gateway_started_safely _ _ _ E))].
Defined.
