(* ===== verification/Settings.v ===== *)
(** settings.py: the configuration of one server process, read once from its
    environment, and the refusal to serve a writing deployment that nothing
    authenticates.  The firms the SDK names and the file system's resolution of
    a path are arguments. *)

From S2P Require Import Prelude PyStr PyFloat PyVal PyPath Policy ClientAuth Queries.

#[local] Open Scope Z_scope.
#[local] Open Scope list_scope.

Definition DEFAULT_PORT : Z := 11111.
Definition VALID_REPORTING_CURRENCIES : list string :=
  ["HKD"; "USD"; "CNH"; "JPY"; "SGD"; "AUD"; "CAD"; "MYR"].
Definition VALID_TRANSPORTS : list string := ["streamable-http"].
Definition DEFAULT_RESTRICTED_PERMISSIONS : list string :=
  ["market_read"; "real_read"; "simulate_read"; "simulate_write"].

Record Settings : Type := {
  opend_host : string; opend_port : Z; policy : TradingPolicy; security_firm : option string; trading_market : string;
  trade_password : option string; trade_password_md5 : option string; transport : string; auth_token : string;
  allow_unauthenticated_http : bool; simulated_account_allowlist : gset Z; journal_path : option string;
  create_journal : bool; journal_lock_wait_ms : Z; allow_chatgpt_tunnel_host : bool;
  real_journal_path : option string; create_real_journal : bool; controls_path : option string; create_controls : bool;
  operator_auth_token : string; operator_id : string; reporting_currency : option string; observe_execution : bool;
  restricted_auth_token : string; restricted_grants : option ClientGrants }.

(** [has_trade_credential] and [locks_gateway_at_rest] *)
Definition has_trade_credential (s : Settings) : bool :=
  match trade_password s, trade_password_md5 s with None, None => false | _, _ => true end.
Definition locks_gateway_at_rest (s : Settings) : bool :=
  bool_decide (mode (policy s) = READ_ONLY) || (bool_decide (mode (policy s) = REAL) && has_trade_credential s).

(** [(env.get(k) or dflt).strip()], and the same or [None]. *)
Definition setting (k dflt : string) (env : environ) : string :=
  let v := get_or k "" env in strip (if nonempty v then v else dflt).
Definition setting_opt (k : string) (env : environ) : option string :=
  let v := setting k "" env in if nonempty v then Some v else None.

(** A flag that must be spelled 0 or 1. *)
Definition setting_flag (k : string) (env : environ) : result bool :=
  let v := setting k "0" env in
  if mem v ["0"; "1"] then Ok (bool_decide (v = "1")) else config_error "must be 0 or 1".

(** [_load_port] *)
Definition _load_port (env : environ) : result Z :=
  let raw := setting "MOOMOO_OPEND_PORT" "" env in
  if negb (nonempty raw) then Ok DEFAULT_PORT
  else if negb (isdigit raw) then config_error "must be a port number"
  else (port <- int_digits raw ;;
        if (1 <=? port) && (port <=? 65535) then Ok port else config_error "must be between 1 and 65535")%py.

(** A value of a list, case-insensitively, or what an empty one stands for. *)
Definition load_choice {A} (k : string) (valid : list string) (empty : A) (found : string -> A) (env : environ) : result A :=
  let raw := setting k "" env in
  if negb (nonempty raw) then Ok empty
  else if mem (upper raw) valid then Ok (found (upper raw)) else config_error "Valid values".

Section load.
(** [_valid_security_firms()] and [str(Path(p).resolve())]. *)
Context (_valid_security_firms : list string) (resolve : string -> string).

Definition _load_security_firm : environ -> result (option string) :=
  load_choice "MOOMOO_SECURITY_FIRM" _valid_security_firms None Some.
Definition _load_trading_market : environ -> result string :=
  load_choice "MOOMOO_TRADING_MARKET" VALID_TRADING_MARKETS "NONE" id.
Definition _load_reporting_currency : environ -> result (option string) :=
  load_choice "MOOMOO_REPORTING_CURRENCY" VALID_REPORTING_CURRENCIES None Some.

(** [_load_transport] *)
Definition _load_transport (env : environ) : result string :=
  let raw := lower (setting "MCP_TRANSPORT" "streamable-http" env) in
  if mem raw VALID_TRANSPORTS then Ok raw else config_error "Valid values".

(** [load_chatgpt_tunnel_host] *)
Definition load_chatgpt_tunnel_host (env : environ) : result bool :=
  let value := strip (get_or "MCP_ALLOW_CHATGPT_TUNNEL_HOST" "" env) in
  if mem value [""; "0"; "1"] then Ok (bool_decide (value = "1")) else config_error "must be 0 or 1".

(** A positive decimal account identifier. *)
Definition positive_id (item : string) : result Z :=
  if nonempty item && isascii item && isdecimal item && (0 <? int_of item) then Ok (int_of item)
  else config_error "must list positive decimal account IDs".

(** ** The stores *)

Record paper_settings : Type := {
  ps_allowlist : gset Z; ps_journal : option string; ps_create : bool; ps_wait : Z }.

Definition load_paper (writable observe : bool) (m : TradingMode) (env : environ) : result paper_settings :=
  if negb (writable || observe)
  then Ok {| ps_allowlist := ∅; ps_journal := None; ps_create := false; ps_wait := 5000 |}
  else
    (let raw_ids := setting "MOOMOO_SIMULATED_ACC_IDS" "" env in
     ids <- (if nonempty raw_ids then mapM (fun item => positive_id (strip item)) (split "," raw_ids) else Ok []) ;;
     let allowlist := list_to_set ids : gset Z in
     let journal := setting_opt "MOOMOO_JOURNAL_PATH" env in
     creation <- setting_flag "MOOMOO_CREATE_JOURNAL" env ;;
     let create := creation && writable in
     let raw_wait := setting "MOOMOO_JOURNAL_LOCK_WAIT_MS" "5000" env in
     _ <- refuse_if (negb (isascii raw_wait && isdecimal raw_wait && (1 <=? int_of raw_wait) && (int_of raw_wait <=? 60000)))
            (TradingModeConfigError "must be between 1 and 60000") ;;
     _ <- (if writable && (bool_decide (m = SIMULATE) || bool_decide (is_Some journal) || negb (bool_decide (allowlist = ∅)) || create)
           then _ <- refuse_if (bool_decide (allowlist = ∅)) (TradingModeConfigError "MOOMOO_SIMULATED_ACC_IDS is required") ;;
                _ <- refuse_if (bool_decide (journal = None)) (TradingModeConfigError "MOOMOO_JOURNAL_PATH is required") ;;
                market <- _load_trading_market env ;;
                refuse_if (negb (mem market ["US"; "NONE"])) (TradingModeConfigError "must be US or NONE")
           else Ok tt) ;;
     Ok {| ps_allowlist := allowlist; ps_journal := journal; ps_create := create; ps_wait := int_of raw_wait |})%py.

Record real_settings : Type := { rs_journal : option string; rs_create : bool }.

Definition load_real (observe : bool) (m : TradingMode) (journal_path : option string) (env : environ) : result real_settings :=
  let real := bool_decide (m = REAL) in
  if negb (real || observe) then Ok {| rs_journal := None; rs_create := false |}
  else
    (let real_journal := setting_opt "MOOMOO_REAL_JOURNAL_PATH" env in
     _ <- refuse_if (bool_decide (real_journal = None) && real) (TradingModeConfigError "MOOMOO_REAL_JOURNAL_PATH is required") ;;
     creation <- setting_flag "MOOMOO_CREATE_REAL_JOURNAL" env ;;
     _ <- match journal_path, real_journal with
          | Some j, Some r => refuse_if (bool_decide (path_parent (resolve j) = path_parent (resolve r)))
                                (TradingModeConfigError "must use distinct directories")
          | _, _ => Ok tt
          end ;;
     Ok {| rs_journal := real_journal; rs_create := creation && real |})%py.

(** Text fit for a token. *)
Definition token_text (s : string) : bool := isascii s && isprintable s && negb (has_space s).

Definition check_operator (token auth id : string) : result unit :=
  if negb (nonempty token) then Ok tt
  else
    (_ <- refuse_if (negb (nonempty auth)) (TradingModeConfigError "MCP_AUTH_TOKEN is required") ;;
     _ <- refuse_if (bool_decide (token = auth)) (TradingModeConfigError "must differ from MCP_AUTH_TOKEN") ;;
     _ <- refuse_if (negb (token_text token)) (TradingModeConfigError "MOOMOO_OPERATOR_AUTH_TOKEN is invalid") ;;
     refuse_if (negb (nonempty id) || (128 <? len id) || negb (isprintable id))
       (TradingModeConfigError "MOOMOO_OPERATOR_ID is required and bounded"))%py.

Record control_settings : Type := { ct_path : option string; ct_create : bool }.

Definition load_controls (writable observe : bool) (p : TradingPolicy) (operator_token : string)
    (journals : list (option string)) (env : environ) : result control_settings :=
  if negb (writable || observe || nonempty operator_token) then Ok {| ct_path := None; ct_create := false |}
  else
    (let path := setting_opt "MOOMOO_TRADING_CONTROLS_PATH" env in
     creation <- setting_flag "MOOMOO_CREATE_TRADING_CONTROLS" env ;;
     _ <- refuse_if ((require_approval p || negb (bool_decide (max_daily_notional p = ∅)) || nonempty operator_token)
                     && bool_decide (path = None))
            (TradingModeConfigError "MOOMOO_TRADING_CONTROLS_PATH is required") ;;
     _ <- refuse_if (writable && require_approval p && negb (nonempty operator_token))
            (TradingModeConfigError "MOOMOO_OPERATOR_AUTH_TOKEN is required for approvals") ;;
     _ <- match path with
          | Some c => iterM (fun j => match j with
                                      | Some j => refuse_if (bool_decide (resolve c = resolve j))
                                                    (TradingModeConfigError "must use distinct storage")
                                      | None => Ok tt
                                      end) journals
          | None => Ok tt
          end ;;
     Ok {| ct_path := path; ct_create := creation && writable |})%py.

(** One restricted account list. *)
Definition account_scope (name : string) (env : environ) : result (option (list val)) :=
  match env !! name with
  | None => Ok None
  | Some raw => bind (mapM (fun item => positive_id (strip item)) (split "," raw)) (fun l => Ok (Some (map VInt l)))
  end.

Definition load_restricted (token auth operator_token : string) (env : environ) : result (option ClientGrants) :=
  if negb (nonempty token) then Ok None
  else
    (_ <- refuse_if (negb (nonempty auth) || mem token [auth; operator_token] || negb (token_text token))
            (TradingModeConfigError "must be valid and distinct from other tokens") ;;
     let permissions := match env !! "MCP_RESTRICTED_PERMISSIONS" with
                        | Some raw => map strip (split "," raw)
                        | None => DEFAULT_RESTRICTED_PERMISSIONS
                        end in
     real <- account_scope "MCP_RESTRICTED_REAL_ACC_IDS" env ;;
     simulate <- account_scope "MCP_RESTRICTED_SIMULATE_ACC_IDS" env ;;
     match make_grants permissions real simulate with
     | Ok g => Ok (Some g)
     | Err (ValueError _) => config_error "MCP_RESTRICTED_PERMISSIONS"
     | Err e => Err e
     end)%py.

(** [load_settings] *)
Definition load_settings (env : environ) : result Settings :=
  (p <- from_env env ;;
   let password := setting_opt "MOOMOO_TRADE_PASSWORD" env in
   let password_md5 := if bool_decide (is_Some password) then None else setting_opt "MOOMOO_TRADE_PASSWORD_MD5" env in
   transport <- _load_transport env ;;
   let auth := setting "MCP_AUTH_TOKEN" "" env in
   let allow := bool_decide (setting "MCP_ALLOW_UNAUTHENTICATED_HTTP" "" env = "1") in
   observe <- setting_flag "MOOMOO_OBSERVE_EXECUTION" env ;;
   let writable := negb (bool_decide (mode p = READ_ONLY)) in
   paper <- load_paper writable observe (mode p) env ;;
   real <- load_real observe (mode p) (ps_journal paper) env ;;
   let operator_token := setting "MOOMOO_OPERATOR_AUTH_TOKEN" "" env in
   let operator := setting "MOOMOO_OPERATOR_ID" "" env in
   _ <- check_operator operator_token auth operator ;;
   controls <- load_controls writable observe p operator_token [ps_journal paper; rs_journal real] env ;;
   let restricted_token := setting "MCP_RESTRICTED_AUTH_TOKEN" "" env in
   grants <- load_restricted restricted_token auth operator_token env ;;
   port <- _load_port env ;;
   firm <- _load_security_firm env ;;
   market <- _load_trading_market env ;;
   tunnel <- load_chatgpt_tunnel_host env ;;
   currency <- _load_reporting_currency env ;;
   Ok {| opend_host := (let h := setting "MOOMOO_OPEND_HOST" "" env in if nonempty h then h else "127.0.0.1");
         opend_port := port; policy := p; security_firm := firm; trading_market := market;
         trade_password := password; trade_password_md5 := password_md5; transport := transport; auth_token := auth;
         allow_unauthenticated_http := allow; simulated_account_allowlist := ps_allowlist paper;
         journal_path := ps_journal paper; create_journal := ps_create paper; journal_lock_wait_ms := ps_wait paper;
         allow_chatgpt_tunnel_host := tunnel; real_journal_path := rs_journal real; create_real_journal := rs_create real;
         controls_path := ct_path controls; create_controls := ct_create controls;
         operator_auth_token := operator_token; operator_id := operator; reporting_currency := currency;
         observe_execution := observe; restricted_auth_token := restricted_token; restricted_grants := grants |})%py.
End load.

(** [check_transport_authentication] *)
Definition check_transport_authentication (s : Settings) : result unit :=
  if nonempty (auth_token s) then Ok tt
  else if allow_unauthenticated_http s && bool_decide (mode (policy s) = READ_ONLY) then Ok tt
  else config_error "MCP_AUTH_TOKEN is required".

(** ** What is accepted *)

Section sound.
Context (firms : list string) (resolve : string -> string).

Lemma positive_id_ok item n : positive_id item = Ok n -> 0 < n.
Proof. unfold positive_id. destruct (_ && _) eqn:E; [|done]. intros [= <-]. by bools. Qed.

Lemma setting_opt_some k env : setting_opt k env = None \/ is_Some (setting_opt k env).
Proof. destruct (setting_opt k env); eauto. Qed.

Lemma load_paper_ok writable observe m env p :
  load_paper writable observe m env = Ok p ->
  1 <= ps_wait p <= 60000 /\ (forall a, a ∈ ps_allowlist p -> 0 < a) /\ (ps_create p = true -> writable = true)
  /\ (writable = true -> m = SIMULATE \/ is_Some (ps_journal p) \/ ps_allowlist p <> ∅ ->
      is_Some (ps_journal p) /\ ps_allowlist p <> ∅
      /\ exists market, _load_trading_market env = Ok market /\ market ∈ ["US"; "NONE"]).
Proof.
  unfold load_paper. destruct (negb (writable || observe)) eqn:Ew.
  { intros [= <-]. cbn. split_and!; try done; try lia. intros ->. done. }
  intros H. apply bind_ok in H as (ids & Hids & H). apply bind_ok in H as (creation & _ & H).
  apply bind_ok in H as ([] & Hwait%refuse_if_ok & H). apply bind_ok in H as ([] & Hreq & [= <-]). cbn in *. bools.
  split_and!; try lia.
  - intros a Ha. apply elem_of_list_to_set in Ha. destruct (nonempty _); [|by injection Hids as <-; apply elem_of_nil in Ha].
    destruct (mapM_elem _ _ _ _ Hids Ha) as (item & _ & Hp). by eapply positive_id_ok.
  - intros Hc. by bools.
  - intros Hw Hany. rewrite Hw in Hreq. cbn [andb] in Hreq.
    destruct (_ || _) eqn:E in Hreq.
    + apply bind_ok in Hreq as ([] & Hq1%refuse_if_ok & Hreq). apply bind_ok in Hreq as ([] & Hq2%refuse_if_ok & Hreq).
      apply bind_ok in Hreq as (market & Hm & Hq3%refuse_if_ok). bools. split_and!; [|done|].
      * by destruct (setting_opt_some "MOOMOO_JOURNAL_PATH" env).
      * exists market. split; [done|]. by apply mem_true.
    + bools. tauto.
Qed.

Lemma load_real_ok observe m journal env r :
  load_real resolve observe m journal env = Ok r ->
  (m = REAL -> is_Some (rs_journal r)) /\ (rs_create r = true -> m = REAL)
  /\ (forall j k, journal = Some j -> rs_journal r = Some k -> path_parent (resolve j) <> path_parent (resolve k)).
Proof.
  unfold load_real. destruct (negb _) eqn:E; [intros [= <-]; cbn; bools; by split_and!|].
  intros H. apply bind_ok in H as ([] & Hq1%refuse_if_ok & H). apply bind_ok in H as (creation & _ & H).
  apply bind_ok in H as ([] & Hq2 & [= <-]). cbn. split_and!.
  - intros ->. rewrite andb_false_iff in Hq1. destruct Hq1 as [Hq1|Hq1]; [|done]. bools.
    by destruct (setting_opt_some "MOOMOO_REAL_JOURNAL_PATH" env).
  - intros Hc. by bools.
  - intros j k -> Hk. rewrite Hk in Hq2. apply refuse_if_ok in Hq2. by bools.
Qed.

Lemma check_operator_ok token auth id :
  check_operator token auth id = Ok tt -> token <> "" -> auth <> "" /\ token <> auth /\ id <> "".
Proof.
  unfold check_operator. intros H Hne. rewrite (proj2 (nonempty_true token)) in H by done. cbn [negb] in H.
  apply bind_ok in H as ([] & Hq1%refuse_if_ok & H). apply bind_ok in H as ([] & Hq2%refuse_if_ok & H).
  apply bind_ok in H as ([] & _ & Hq3%refuse_if_ok). bools. split_and!; [by apply nonempty_true|done|by apply nonempty_true].
Qed.

Lemma load_controls_ok writable observe p token journals env c :
  load_controls resolve writable observe p token journals env = Ok c ->
  (ct_create c = true -> writable = true)
  /\ (writable = true -> require_approval p = true -> token <> "" /\ is_Some (ct_path c))
  /\ (writable = true -> max_daily_notional p <> ∅ -> is_Some (ct_path c))
  /\ (forall path j, ct_path c = Some path -> Some j ∈ journals -> resolve path <> resolve j).
Proof.
  unfold load_controls. destruct (negb _) eqn:E; [intros [= <-]; cbn; bools; subst; by split_and!|].
  intros H. apply bind_ok in H as (creation & _ & H). apply bind_ok in H as ([] & Hq1%refuse_if_ok & H).
  apply bind_ok in H as ([] & Hq2%refuse_if_ok & H). apply bind_ok in H as ([] & Hq3 & [= <-]). cbn.
  assert (Hpath : setting_opt "MOOMOO_TRADING_CONTROLS_PATH" env = None ->
            require_approval p = false /\ max_daily_notional p = ∅).
  { intros Hn. rewrite Hn in Hq1. rewrite (bool_decide_true (@None string = None)), andb_true_r in Hq1 by done. bools. by split_and!. }
  destruct (setting_opt_some "MOOMOO_TRADING_CONTROLS_PATH" env) as [Hn|Hs].
  - destruct (Hpath Hn) as [Ha Hd]. rewrite Ha, Hd. split_and!; try done; [intros Hc; by bools|]. intros path j Hp. congruence.
  - split_and!; [intros Hc; by bools| |done|].
    + intros -> Ha. rewrite Ha in Hq2. cbn in Hq2. bools. split; [by apply nonempty_true|done].
    + intros path j Hp Hin. rewrite Hp in Hq3. apply iterM_ok in Hq3. rewrite Forall_forall in Hq3.
      specialize (Hq3 _ Hin). cbn in Hq3. apply refuse_if_ok in Hq3. by bools.
Qed.

Lemma load_restricted_ok token auth operator env g :
  load_restricted token auth operator env = Ok g ->
  (token = "" -> g = None) /\ (token <> "" -> auth <> "" /\ token <> auth /\ token <> operator /\ is_Some g).
Proof.
  unfold load_restricted. destruct (negb (nonempty token)) eqn:E.
  - intros [= <-]. bools. split; [done|]. intros Hne. by rewrite (proj2 (nonempty_true token) Hne) in E.
  - intros H. apply bind_ok in H as ([] & Hq1%refuse_if_ok & H). apply bind_ok in H as (r & _ & H). apply bind_ok in H as (s & _ & H).
    bools. split; [by intros ->|]. intros _.
    assert (token ∉ [auth; operator]) by (intros Hin; apply mem_true in Hin; congruence).
    destruct (make_grants _ _ _) as [x|[]]; try done. injection H as <-.
    split_and!; [by apply nonempty_true|set_solver|set_solver|done].
Qed.

Lemma load_port_ok env port : _load_port env = Ok port -> 1 <= port <= 65535.
Proof.
  unfold _load_port. destruct (negb (nonempty _)); [intros [= <-]; unfold DEFAULT_PORT; lia|].
  destruct (negb (isdigit _)); [done|]. intros H. apply bind_ok in H as (p & _ & H).
  destruct (_ && _) eqn:E; [|done]. injection H as <-. by bools.
Qed.

(** C23 A process only starts under a configuration its mode can be trusted with.
    REAL mode has a durable journal, paper mode one and an allowlist in a
    market it was verified for; the journals use different directories and the
    controls other storage; approvals have an operator, and approvals and daily
    budgets their durable controls; the operator's and the restricted client's
    tokens are set apart from the full one, which exists whenever they or the
    permission to write do; storage is created only where it will be
    written. *)
Theorem started_settings_sound env s :
  load_settings firms resolve env = Ok s -> check_transport_authentication s = Ok tt ->
  let writable := mode (policy s) <> READ_ONLY in
  policy_ok (policy s) /\ 1 <= opend_port s <= 65535 /\ 1 <= journal_lock_wait_ms s <= 60000
  /\ (forall a, a ∈ simulated_account_allowlist s -> 0 < a)
  /\ (mode (policy s) = REAL -> is_Some (real_journal_path s) /\ real_acc_ids (policy s) <> ∅)
  /\ (writable -> mode (policy s) = SIMULATE \/ is_Some (journal_path s) ->
      is_Some (journal_path s) /\ simulated_account_allowlist s <> ∅ /\ trading_market s ∈ ["US"; "NONE"])
  /\ (forall j r, journal_path s = Some j -> real_journal_path s = Some r -> path_parent (resolve j) <> path_parent (resolve r))
  /\ (forall c j, controls_path s = Some c -> journal_path s = Some j \/ real_journal_path s = Some j -> resolve c <> resolve j)
  /\ (writable -> require_approval (policy s) = true -> operator_auth_token s <> "" /\ is_Some (controls_path s))
  /\ (writable -> max_daily_notional (policy s) <> ∅ -> is_Some (controls_path s))
  /\ (operator_auth_token s <> "" -> auth_token s <> "" /\ operator_auth_token s <> auth_token s)
  /\ (restricted_auth_token s <> "" -> auth_token s <> "" /\ restricted_auth_token s <> auth_token s
        /\ restricted_auth_token s <> operator_auth_token s /\ is_Some (restricted_grants s))
  /\ (writable -> auth_token s <> "")
  /\ (create_journal s || create_controls s = true -> writable) /\ (create_real_journal s = true -> mode (policy s) = REAL).
Proof.
  intros H Hauth. unfold load_settings in H. apply bind_ok in H as (p & Hp & H). apply bind_ok in H as (tr & _ & H).
  apply bind_ok in H as (observe & _ & H). apply bind_ok in H as (paper & Hpaper & H). apply bind_ok in H as (real & Hreal & H).
  apply bind_ok in H as ([] & Hop & H). apply bind_ok in H as (controls & Hct & H). apply bind_ok in H as (grants & Hg & H).
  apply bind_ok in H as (port & Hport & H). apply bind_ok in H as (firm & _ & H). apply bind_ok in H as (market & Hm & H).
  apply bind_ok in H as (tunnel & _ & H). apply bind_ok in H as (currency & _ & [= <-]).
  apply load_paper_ok in Hpaper as (Hw & Hall & Hcj & Hpap). apply load_real_ok in Hreal as (Hr1 & Hr2 & Hr3).
  apply load_controls_ok in Hct as (Hc1 & Hc2 & Hc3 & Hc4). apply load_restricted_ok in Hg as (_ & Hg).
  pose proof (from_env_parts _ _ Hp) as (Hpol & _ & Haccs). apply load_port_ok in Hport.
  assert (Hwr : mode p <> READ_ONLY -> negb (bool_decide (mode p = READ_ONLY)) = true) by (intros ?; by rewrite bool_decide_false).
  cbn in *. split_and!; try done; try lia.
  - intros Hm'. rewrite bool_decide_true in Haccs by done. split; [by apply Hr1|done].
  - intros Hne Hany. destruct (Hpap (Hwr Hne)) as (? & ? & market' & Hm2 & Hin); [tauto|].
    rewrite Hm in Hm2. injection Hm2 as <-. by split_and!.
  - intros c j Hc Hj. apply Hc4; [done|]. destruct Hj as [-> | ->]; [by left|by right; left].
  - intros Hne. by apply Hc2, Hwr.
  - intros Hne. by apply Hc3, Hwr.
  - intros Hne. by destruct (check_operator_ok _ _ _ Hop Hne) as (? & ? & _).
  - intros Hne. unfold check_transport_authentication in Hauth. cbn in Hauth. destruct (nonempty _) eqn:E in Hauth.
    + by apply nonempty_true.
    + rewrite (bool_decide_false (mode p = READ_ONLY)), andb_false_r in Hauth by done. done.
  - intros Hc Hro. rewrite Hro in Hcj, Hc1. cbn in *. apply orb_true_iff in Hc as [Hc|Hc]; [by apply Hcj in Hc|by apply Hc1 in Hc].
Qed.
End sound.

(** ** Examples *)

Definition demo_start_env : environ :=
  list_to_map [("MOOMOO_TRADING_MODE", "REAL"); ("MOOMOO_REAL_ACC_IDS", "281"); ("MOOMOO_REAL_JOURNAL_PATH", "/real/j.db");
               ("MOOMOO_JOURNAL_PATH", "/paper/j.db"); ("MOOMOO_SIMULATED_ACC_IDS", "7, 8");
               ("MOOMOO_REQUIRE_TRADE_APPROVAL", "1"); ("MOOMOO_OPERATOR_AUTH_TOKEN", "op"); ("MOOMOO_OPERATOR_ID", "ann");
               ("MOOMOO_TRADING_CONTROLS_PATH", "/controls/c.db"); ("MCP_AUTH_TOKEN", "full")].
Definition demo_load : environ -> result Settings := load_settings ["FUTUINC"] id.

Example settings_ex :
  map (fun e => match demo_load (<[fst e := snd e]> demo_start_env) with Ok _ => None | Err e => Some e end)
    [("MOOMOO_OPEND_PORT", "65536"); ("MOOMOO_OPEND_PORT", String (chr 178) ""); ("MOOMOO_JOURNAL_PATH", "/real/k.db");
     ("MOOMOO_OPERATOR_AUTH_TOKEN", "full"); ("MOOMOO_TRADING_MARKET", "HK"); ("MCP_RESTRICTED_AUTH_TOKEN", "r")]
  = [Some (TradingModeConfigError "must be between 1 and 65535");
     Some (ValueError "invalid literal for int() with base 10");
     Some (TradingModeConfigError "must use distinct directories");
     Some (TradingModeConfigError "must differ from MCP_AUTH_TOKEN");
     Some (TradingModeConfigError "must be US or NONE"); None].
Proof. by vm_compute. Qed.

Lemma started_settings_sound_witness :
  exists s, demo_load demo_start_env = Ok s /\ mode (policy s) = REAL /\ is_Some (real_journal_path s) /\ is_Some (controls_path s).
Proof.
  destruct (demo_load demo_start_env) as [s|] eqn:E; [|by vm_compute in E].
  assert (Hm : mode (policy s) = REAL /\ require_approval (policy s) = true /\ check_transport_authentication s = Ok tt)
    by (vm_compute in E; injection E as <-; by split_and!).
  destruct Hm as (Hm & Hap & Hauth). exists s. split; [done|]. split; [done|].
  pose proof (started_settings_sound ["FUTUINC"] id demo_start_env s E Hauth) as T. cbv zeta in T.
  destruct T as (_ & _ & _ & _ & T1 & _ & _ & _ & T2 & _). rewrite Hm in T1, T2. split; [by apply T1|by apply T2].
Defined.
