(* ===== verification/Prepare.v ===== *)
(** services/trade_preparation.py: previews of an order, and the preparation of
    a request for an operator's approval; with the reads of
    services/trade_service.py that they use.  The state is that of the whole
    service: the paper journal, the REAL journal with the controls and the halt
    ([Real.world]).  SDK queries answer by [sv_query]. *)

From Stdlib Require Import SpecFloat.
From S2P Require Import Prelude PyStr PyFloat PyDec DecText DecParse PyVal JsonText OrderErrors Identity Store StoreInv.
From S2P Require Import Validation Policy Rules ClientAuth Controls Prep Paper RealRequest Real RealScope RealThm Queries.

(** ** The service *)

(** [TradeService] as configured, its caller, and what its reads answer. *)
Record service : Type := {
  sv_policy : TradingPolicy; sv_grants : option ClientGrants; sv_credential : bool;
  sv_allowlist : list Z;                                 (* simulated accounts *)
  sv_connected : bool;                                   (* [trade_ctx is not None] *)
  sv_sdk_accounts : result (list dict);                  (* the SDK's account list *)
  sv_lookup : lookup_fn;
  sv_query : string -> dict -> answer (result (list dict));
  sv_checked_at : string }.

Definition sv_accounts (v : service) : result (list dict) := get_accounts (sv_grants v) None None (sv_sdk_accounts v).
Definition sv_setting (v : service) : setting :=
  {| e_policy := sv_policy v; e_allowlist := sv_allowlist v; e_grants := sv_grants v |}.
Definition sv_deployment (v : service) : deployment :=
  {| d_policy := sv_policy v; d_grants := sv_grants v; d_credential := sv_credential v |}.

(** [service.paper] and [service.real], when configured; the controls are the
    world's. *)
Record desk : Type := { k_paper : option paper; k_real : bool; k_world : world }.

Definition on_world {A} (c : SE world A) : SE desk A := fun s =>
  let '(r, w) := c (k_world s) in (r, {| k_paper := k_paper s; k_real := k_real s; k_world := w |}).
Definition on_paper {A} (missing : exn) (c : SE paper A) : SE desk A := fun s =>
  match k_paper s with
  | None => (Err missing, s)
  | Some y => let '(r, y) := c y in (r, {| k_paper := Some y; k_real := k_real s; k_world := k_world s |})
  end.
Definition on_real {A} (missing : exn) (c : SE paper A) : SE desk A := fun s =>
  if k_real s then on_world (on_exec c) s else (Err missing, s).

Definition to_account (v : val) : result Z := py_int v.
Definition text_of (v : val) : result string :=
  match v with VStr s => Ok s | _ => Err (TypeError "a string is required") end.

Section prepare.
Context `{SN : SessionNames}.

(** ** Requests *)

Definition MUTATIONS : list string := ["place_order"; "place_combo_order"; "modify_order"; "cancel_order"].

(** [bound_parameters] *)
Definition bound_parameters (method : string) (parameters : dict) : result dict :=
  (_ <- refuse_if (negb (mem method MUTATIONS))
         (ValueError "Preparation supports individual trading mutations only") ;;
   _ <- refuse_if (dhas "approval_id" parameters)
         (ValueError "A new prepared request cannot supply approval_id") ;;
   bound <- bind_arguments (signature method) parameters ;;
   let r := dpop "approval_id" bound in
   env <- bind (ditem "trd_env" r) (fun v => Ok (named v)) ;;
   let r := dset "trd_env" (VStr env) r in
   r <- (if bool_decide (method = "modify_order")
         then op <- ditem "modify_order_op" r ;; Ok (dset "modify_order_op" (VStr (named op)) r)
         else Ok r) ;;
   if bool_decide (method = "place_order") then
     selected <- normalize_order_session (dget_or "session" (VStr s_none) r) env ;;
     Ok (dset "session" (VStr (if bool_decide (env = "REAL") then selected else s_none)) r)
   else Ok r)%py.

(** [_paper_parameters] *)
Definition PAPER_FIELDS : list string :=
  ["code"; "price"; "qty"; "trd_side"; "order_type"; "time_in_force"; "adjust_limit"; "aux_price"; "trail_type";
   "trail_value"; "trail_spread"; "remark"].
Definition given (params : dict) (k : string) : result dict :=
  bind (ditem k params) (fun v => Ok (if is_none v then [] else [(k, v)])).
Definition _paper_parameters (method : string) (params : dict) : result (op_kind * dict) :=
  if bool_decide (method = "place_order") then
    (_ <- normalize_order_session (dget_or "session" (VStr "N/A") params) "SIMULATE" ;;
     fields <- mapM (fun k => bind (ditem k params) (fun v => Ok (k, v))) PAPER_FIELDS ;;
     Ok (PLACE, fields))%py
  else
    (let operation := dget_or "modify_order_op" (VStr "CANCEL") params in
     _ <- refuse_if (negb (str_in ["NORMAL"; "CANCEL"] operation))
            (ValueError "Paper execution supports modifications and cancellations only") ;;
     order_id <- ditem "order_id" params ;;
     let r := [("order_id", order_id)] in
     if is_str_eq "NORMAL" operation then
       adjust <- ditem "adjust_limit" params ;;
       qty <- given params "qty" ;;
       price <- given params "price" ;;
       Ok (MODIFY, (r ++ [("adjust_limit", adjust)] ++ qty ++ price)%list)
     else
       _ <- (if bool_decide (method = "modify_order") then
               qty <- ditem "qty" params ;;
               price <- (if is_none qty then ditem "price" params else Ok qty) ;;
               adjust <- (if is_none price then ditem "adjust_limit" params else Ok (VInt 1)) ;;
               refuse_if (negb (py_eqb adjust (VInt 0)))
                 (ValueError "Paper cancellation does not accept a price or quantity patch")
             else Ok tt) ;;
       Ok (CANCEL, r))%py.

(** [_preparation_market] *)
Definition _preparation_market (method : string) (request : dict) : result (option string) :=
  if bool_decide (method = "place_order") then request_market PLACE request
  else if bool_decide (method = "place_combo_order") then request_market PLACE_COMBO request
  else Ok None.

(** ** Previews *)

(** [_single_facts] *)
Definition _single_facts (v : service) (parameters : dict) : result OrderFacts :=
  (price <- ditem "price" parameters ;;
   numeric <- py_float price ;;
   qty <- bind (ditem "qty" parameters) (fun q => whole_quantity (Plain q)) ;;
   _ <- validate_single_order_request (dset "price" (VFloat numeric) (dset "qty" (VInt qty) parameters)) ;;
   code <- ditem "code" parameters ;;
   order_type <- ditem "order_type" parameters ;;
   side <- ditem "trd_side" parameters ;;
   facts <- _single_leg_facts (sv_lookup v) code order_type (py_str side) (VInt qty) price
              (dget_none "aux_price" parameters) (dget_or "session" (VStr s_none) parameters) ;;
   _ <- refuse_if (negb (str_in ["BUY"; "SELL"] side)) (ValueError "trd_side must be BUY or SELL") ;;
   _ <- refuse_if (negb (str_in ["DAY"; "GTC"] (dget_or "time_in_force" (VStr "DAY") parameters)))
          (ValueError "Only DAY and GTC are supported for these stock orders") ;;
   _ <- assess_order (sv_policy v) facts ;;
   Ok facts)%py.

(** The constant part of [str(exc)]. *)
Definition exn_text (e : exn) : string :=
  match e with
  | ValueError m | RuntimeError m | TradingPolicyError m | TradingControlError m => m
  | _ => ""
  end.

(** The valuation of a preview, or why there is none. *)
Definition preview_valuation (facts : OrderFacts) : result (val * val) :=
  match estimate_order facts with
  | Ok e => Ok (VDict [("amount", VStr (d_format (amount e))); ("currency", VStr (e_currency e));
                       ("label", VStr "submission notional")], VNone)
  | Err x => if is_value_error x || is_runtime_error x then Ok (VNone, VStr (exn_text x)) else Err x
  end.

(** What an SDK query returned, or the error it is. *)
Definition first_row (a : answer (result (list dict))) (failed : exn) : result dict :=
  match a with
  | Raised e => Err e
  | RetError => Err failed
  | RetOk frame => bind frame (fun rows => Ok match rows with r :: _ => r | [] => [] end)
  end.

(** [get_max_tradable] *)
Definition get_max_tradable (v : service) (a : dict) : result dict :=
  (let! (trd_env, acc) := resolve_read_account (sv_grants v) (sv_sdk_accounts v)
                            (dget_or "trd_env" (VStr "SIMULATE") a) (dget_or "acc_id" (VStr "0") a) in
   selected <- normalize_order_session (dget_or "session" (VStr s_none) a) "REAL" ;;
   _ <- refuse_if (negb (sv_connected v)) (RuntimeError "Trade context not connected") ;;
   let order_id := dget_or "order_id" (VStr "") a in
   first_row (sv_query v "acctradinginfo_query"
                [field "order_type" a; field "code" a; field "price" a;
                 ("order_id", if truthy order_id then order_id else VNone);
                 ("adjust_limit", dget_or "adjust_limit" (VInt 0) a); ("trd_env", VStr trd_env);
                 ("acc_id", VInt acc); ("session", VStr selected)])
     (RuntimeError "acctradinginfo_query failed"))%py.

Definition rules_view (r : rules) : val :=
  let contracts := bool_decide (r_classification r = "DRVT") in
  VDict [("code", VStr (r_code r)); ("classification", VStr (r_classification r));
         ("quantity_unit", VStr (if contracts then "contracts" else "shares"));
         ("whole_quantity_required", VBool true); ("lot_size", opt_float (r_lot_size r));
         ("lot_size_meaning", VStr (if contracts then "deliverable_shares_per_contract" else "shares_per_lot"));
         ("price_decimal_places", match price_decimal_places r with Some z => VInt z | None => VNone end);
         ("price_tick", match price_tick r with Some t => VStr t | None => VNone end);
         ("tick_validation", VStr (match price_tick r with Some _ => "VERIFIED" | None => "UNKNOWN" end))].

Definition limitations : val :=
  VList [VStr "Read-only observations do not guarantee acceptance or fills.";
         VStr "Derivative margin fields are not a universal stock account-impact simulation.";
         VStr "Actual order fees are available after submission for supported REAL accounts."].

(** [single_preview] *)
Definition single_preview (v : service) (parameters : dict) : result dict :=
  (trd_env <- ditem "trd_env" parameters ;;
   let! (environment, account) := resolve_read_account (sv_grants v) (sv_sdk_accounts v) trd_env
                                    (dget_or "acc_id" (VStr "0") parameters) in
   let acc_id := VStr (str_int account) in
   let parameters := dset "acc_id" acc_id (dset "trd_env" (VStr environment) parameters) in
   session <- normalize_order_session (dget_or "session" (VStr s_none) parameters) environment ;;
   let parameters := dset "session" (VStr session) parameters in
   facts <- _single_facts v parameters ;;
   let! (valuation, valuation_error) := preview_valuation facts in
   price <- ditem "price" parameters ;;
   numeric <- py_float price ;;
   maximum <- get_max_tradable v
                [field "order_type" parameters; field "code" parameters; ("price", VFloat numeric);
                 ("adjust_limit", dget_or "adjust_limit" (VInt 0) parameters); ("trd_env", VStr environment);
                 ("acc_id", acc_id); ("session", VStr session)] ;;
   contract <- contract_view facts ;;
   i <- match legs facts with l :: _ => Ok (instrument l) | [] => Err (RuntimeError "IndexError") end ;;
   summary <- instrument_rule_summary i (opt_arg price) ;;
   let m := mode (sv_policy v) in
   Ok [("acc_id", acc_id); ("trd_env", VStr environment); ("intent", VDict parameters); ("contract", contract);
       ("instrument_rules", rules_view summary); ("valuation", valuation); ("valuation_error", valuation_error);
       ("maximum_quantities", VDict maximum);
       ("writes_allowed_by_mode",
        VBool (negb (bool_decide (m = READ_ONLY))
               && (bool_decide (environment = "SIMULATE") || bool_decide (m = Policy.REAL))));
       ("limitations", limitations)])%py.

(** [preview_combo_order] *)
Definition COMBO_PREVIEW_FIELDS : list string :=
  ["nlv_change"; "initial_margin_change"; "maintenance_margin_change"; "option_bp"; "max_withdraw_change";
   "bp_decrease"].
Definition _null_if_missing (x : val) : val :=
  match x with
  | VStr s => if bool_decide (strip s = "N/A") then VNone else x
  | VFloat S754_nan => VNone
  | _ => x
  end.
Definition preview_combo_order (v : service) (combo_legs price qty order_type trd_env acc_id : val) : result dict :=
  (_ <- refuse_if (negb (sv_connected v)) (RuntimeError "Trade context not connected") ;;
   combo <- _build_combo_legs combo_legs ;;
   requested <- to_account acc_id ;;
   account <- _resolve_account (sv_policy v) (sv_grants v) (sv_accounts v) (named trd_env)
                (match combo with l :: _ => market_of (cl_code l) | [] => None end) false requested ;;
   record <- first_row (sv_query v "comboorder_tradinginfo_query"
                          [("combo_leg_list", VList (map leg_view combo)); ("price", price); ("qty", qty);
                           ("order_type", order_type); ("trd_env", trd_env); ("acc_id", VInt account)])
               (RuntimeError "comboorder_tradinginfo_query failed") ;;
   Ok ([("checked_at", VStr (sv_checked_at v)); ("acc_id", VInt account); ("trd_env", trd_env)]
       ++ map (fun k => (k, _null_if_missing (dget_none k record))) COMBO_PREVIEW_FIELDS)%list)%py.

(** ** Preparation *)

(** The answers of one preparation: the fault of its journal read, the control
    database, the clock and the fresh identifier. *)
Record prepare_io : Type := { pi_lookup : io; pi_broken : bool; pi_now : Z; pi_id : string }.

(** [service.trading_controls] *)
Definition no_controls : exn := TradingControlError "Durable trading controls are not configured".
Definition controls_ready (s : desk) : bool :=
  match r_controls (k_world s) with Some k => bool_decide (health k = "READY") | None => false end.

(** The journal of an environment, when configured. *)
Definition executor (environment : string) (s : desk) : option paper :=
  if bool_decide (environment = "REAL") then if k_real s then Some (r_exec (k_world s)) else None
  else k_paper s.
Definition on_executor (environment : string) (missing : exn) {A} (c : SE paper A) : SE desk A :=
  if bool_decide (environment = "REAL") then on_real missing c else on_paper missing c.

(** [validate_preparation] *)
Definition validate_preparation (v : service) (i : io) (method : string) (request : dict) : SE desk unit :=
  (s <- se_get ;;
   _ <- se_lift (refuse_if (negb (controls_ready s))
          (TradingControlError "Durable trading controls are unavailable")) ;;
   environment <- se_lift (bind (ditem "trd_env" request) text_of) ;;
   _ <- se_lift (check_write (sv_policy v) environment) ;;
   _ <- se_lift (validate_token (dget_none "operation_id" request) (dget_none "admission_epoch" request)) ;;
   operation <- se_lift (bind (ditem "operation_id" request) text_of) ;;
   epoch <- se_lift (bind (ditem "admission_epoch" request) text_of) ;;
   let stale := TradingControlError "Preparation requires the current environment journal epoch" in
   _ <- se_lift (match executor environment s with
                 | Some y => refuse_if (negb (bool_decide (epoch = s_epoch (y_store y)))) stale
                 | None => Err stale
                 end) ;;
   row <- on_executor environment stale (on_store (lookup i operation)) ;;
   _ <- se_lift (refuse_if (match row with Some _ => true | None => false end)
          (TradingControlError "Operation is already admitted; inspect or retry its journal result")) ;;
   if bool_decide (environment = "REAL") then se_lift (validate_real_request method request)
   else do! (kind, paper_request) := se_lift (_paper_parameters method request) in
        se_lift (_schema kind paper_request))%se.

(** The target of a modification or cancellation; the thread that prepares has no
    admitted operation, so [validate_target] has nothing to compare. *)
Definition TARGET_FIELDS : list string :=
  ["order_id"; "code"; "trd_side"; "order_type"; "qty"; "price"; "order_status"].
Definition fetch_target (v : service) (environment : string) (account : Z) (order_id : val) : result dict :=
  (_ <- refuse_if (negb (sv_connected v)) AssertionError ;;
   _fetch_order (sv_query v "order_list_query"
                   [("order_id", order_id); ("trd_env", VStr environment); ("acc_id", VInt account);
                    ("refresh_cache", VBool true)]) (py_str order_id))%py.

(** The order a modification would make of its target. *)
Definition merged_order (request target : dict) : result dict :=
  (code <- ditem "code" target ;;
   side <- ditem "trd_side" target ;;
   order_type <- ditem "order_type" target ;;
   let merge k := bind (ditem k request) (fun w => if is_none w then ditem k target else Ok w) in
   qty <- merge "qty" ;;
   price <- merge "price" ;;
   aux <- _optional_float (dget_none "aux_price" target) ;;
   Ok (dupdate request [("code", code); ("trd_side", side); ("order_type", order_type); ("qty", qty);
                        ("price", price); ("aux_price", float_or_none aux)]))%py.

(** What an operator reviews. *)
Definition review_of (v : service) (method : string) (request : dict) : result dict :=
  (environment <- bind (ditem "trd_env" request) text_of ;;
   account <- bind (ditem "acc_id" request) to_account ;;
   if bool_decide (method = "place_order") then single_preview v request
   else if bool_decide (method = "place_combo_order") then
     _ <- refuse_if (negb (bool_decide (environment = "REAL"))) (TradingControlError "Paper combo execution is unsupported") ;;
     order_type <- ditem "order_type" request ;;
     _ <- refuse_if (negb (str_in ["NORMAL"; "MARKET"] order_type))
            (ValueError "Combo submissions support NORMAL and MARKET only") ;;
     tif <- ditem "time_in_force" request ;;
     _ <- refuse_if (negb (str_in ["DAY"; "GTC"] tif)) (ValueError "Combo submissions support DAY and GTC only") ;;
     combo <- bind (ditem "combo_legs" request) _build_combo_legs ;;
     price <- ditem "price" request ;;
     qty <- ditem "qty" request ;;
     q <- match qty with VInt z => Ok z | _ => Err (TypeError "unsupported operand") end ;;
     facts <- _combo_facts (sv_policy v) (sv_lookup v) combo price q (py_str order_type) ;;
     _ <- assess_order (sv_policy v) facts ;;
     contract <- contract_view facts ;;
     preview <- preview_combo_order v (dget_none "combo_legs" request) price qty order_type (VStr environment)
                  (dget_none "acc_id" request) ;;
     Ok [("contract", contract); ("preview", VDict preview)]
   else
     order_id <- ditem "order_id" request ;;
     target <- fetch_target v environment account order_id ;;
     let shown := [("target", VDict (map (fun k => (k, dget_none k target)) TARGET_FIELDS))] in
     exposing <- (if bool_decide (method = "modify_order")
                  then bind (ditem "modify_order_op" request) (fun op => Ok (str_in EXPOSING_MODIFY_OPS op))
                  else Ok false) ;;
     if exposing then
       effective <- merged_order request target ;;
       facts <- _single_facts v effective ;;
       contract <- contract_view facts ;;
       Ok (shown ++ [("contract", contract)])%list
     else Ok shown)%py.

(** [_prepare_review] *)
Definition _prepare_review (v : service) (i : prepare_io) (method : string) (request : dict) (ttl_seconds : Z)
    : SE desk Controls.prepared :=
  (review <- se_lift (review_of v method request) ;;
   on_world (with_controls (on_controls AssertionError
     (Controls.prepare (pi_broken i) (pi_now i) (pi_id i) method request review ttl_seconds))))%se.

(** The account a preparation names, one the request may write and read. *)
Definition prepared_account (v : service) (method : string) (request : dict) : result Z :=
  (environment <- bind (ditem "trd_env" request) text_of ;;
   market <- _preparation_market method request ;;
   requested <- bind (ditem "acc_id" request) to_account ;;
   account <- _resolve_account (sv_policy v) (sv_grants v) (sv_accounts v) environment market true requested ;;
   _ <- check_account_access (sv_grants v) (VStr environment) (VInt account) false ;;
   Ok account)%py.

(** [prepare_request] *)
Definition prepare_request (v : service) (i : prepare_io) (method : string) (parameters : dict) (ttl_seconds : Z)
    : SE desk Controls.prepared :=
  (s <- se_get ;;
   _ <- se_lift (match r_controls (k_world s) with Some _ => Ok tt | None => Err no_controls end) ;;
   request <- se_lift (bound_parameters method parameters) ;;
   _ <- validate_preparation v (pi_lookup i) method request ;;
   account <- se_lift (prepared_account v method request) ;;
   _prepare_review v i method (dset "acc_id" (VStr (str_int account)) request) ttl_seconds)%se.

(** [get_prepared_trade] *)
Definition get_prepared_trade (v : service) (broken : bool) (now : Z) (request_id : string) : SE desk (Controls.prepared * Controls.shown) :=
  (s <- se_get ;;
   _ <- se_lift (match r_controls (k_world s) with Some _ => Ok tt | None => Err (ValueError "Durable trading controls are not configured") end) ;;
   do! (row, st) := on_world (with_controls (on_controls AssertionError (Controls.get broken now request_id))) in
   parameters <- se_lift (match p_parameters row with VDict d => Ok d | _ => Err (TypeError "not a mapping") end) ;;
   environment <- se_lift (ditem "trd_env" parameters) ;;
   account <- se_lift (ditem "acc_id" parameters) ;;
   _ <- se_lift (check_account_access (sv_grants v) environment account false) ;;
   se_ret (row, st))%se.

(** ** What a preparation leaves behind *)

Lemma raised {A} (r : result A) (s : desk) a s' : se_lift r s = (Ok a, s') -> r = Ok a /\ s' = s.
Proof. by intros [= -> ->]. Qed.

(** A journal read that answers changes nothing at all. *)
Lemma lookup_same i id y ov y' :
  on_store (lookup i id) y = (Ok ov, y') -> y' = y /\ ov = row_view id (s_db (y_store y)).
Proof.
  unfold on_store. destruct (lookup i id (y_store y)) as [r s1] eqn:E. intros [= -> <-].
  apply connection_cases in E as [[_ ?]|[(m & _ & ?)|(a & d & Ha & -> & Hb & _)]]; try done.
  simplify_eq. destruct y as [[] ?]. by split.
Qed.

Lemma executor_lookup environment missing i id s ov s' :
  on_executor environment missing (on_store (lookup i id)) s = (Ok ov, s') ->
  s' = s /\ exists y, executor environment s = Some y /\ ov = row_view id (s_db (y_store y)).
Proof.
  unfold on_executor, executor. case_bool_decide.
  - unfold on_real. destruct (k_real s) eqn:Er; [|done]. unfold on_world, on_exec.
    destruct (on_store (lookup i id) (r_exec (k_world s))) as [r y] eqn:E. intros [= -> <-].
    apply lookup_same in E as [-> ->]. destruct s as [kp kr []]. cbn in *. split; [by rewrite Er|]. eauto.
  - unfold on_paper. destruct (k_paper s) as [y0|] eqn:Ep; [|done].
    destruct (on_store (lookup i id) y0) as [r y] eqn:E. intros [= -> <-].
    apply lookup_same in E as [-> ->]. destruct s as [kp kr kw]. cbn in *. rewrite Ep. split; [done|]. eauto.
Qed.

(** The desk with other controls. *)
Definition with_desk_controls (k : option controls) (s : desk) : desk :=
  {| k_paper := k_paper s; k_real := k_real s;
     k_world := {| r_exec := r_exec (k_world s); r_controls := k; r_halt := r_halt (k_world s);
                   r_sdk := r_sdk (k_world s); r_active := r_active (k_world s);
                   r_operation := r_operation (k_world s) |} |}.

Lemma prepare_effect broken now id method params review ttl k row k' :
  Controls.prepare broken now id method params review ttl k = (Ok row, k') ->
  1 <= ttl <= 900 /\ canonical_intent method params = Ok (p_canonical row)
  /\ p_parameters row = VDict (dupdate [("method", VStr method)] params) /\ p_review row = VDict review
  /\ p_status row = PENDING /\ p_expires_at row = now + ttl * second
  /\ c_prepared (k_db k) !! id = None /\ k_db k' = with_prepared <[id := row]> (k_db k).
Proof.
  unfold Controls.prepare. intros H.
  apply lift_bind in H as [([] & Ht & H)|[? ?]]; [|done]. apply lift_bind in H as [(c & Hc & H)|[? ?]]; [|done].
  apply lift_bind in H as [(pl & Hp & H)|[? ?]]; [|done]. apply lift_bind in H as [(ev & He & H)|[? ?]]; [|done].
  apply lift_bind in H as [([] & _ & H)|[? ?]]; [|done].
  apply transaction_effect in H as [[_ ?]|(a & [= <-] & Hb)]; [done|].
  apply json_dumps_ok in Hp as [-> _]. apply json_dumps_ok in He as [-> _].
  apply refuse_if_ok in Ht. apply negb_false_iff in Ht. unfold in_range in Ht. bools.
  destruct (c_prepared (k_db k) !! id) eqn:E; [done|]. injection Hb as <- <-. by split_and!.
Qed.

(** A bound request states its environment, and what a modification does. *)
Lemma bound_environment method parameters request :
  bound_parameters method parameters = Ok request ->
  (exists env, dget "trd_env" request = Some (VStr env))
  /\ (method = "modify_order" -> is_Some (dget "modify_order_op" request)) /\ mem method MUTATIONS = true.
Proof.
  unfold bound_parameters. intros H. apply bind_ok in H as ([] & Hm & H). apply refuse_if_ok, negb_false_iff in Hm.
  apply bind_ok in H as ([] & _ & H). apply bind_ok in H as (bound & _ & H). apply bind_ok in H as (env & _ & H).
  apply bind_ok in H as (r & Hr & H). destruct (bool_decide (method = "modify_order")) eqn:E.
  - apply bool_decide_eq_true in E. apply bind_ok in Hr as (op & Hop & [= <-]). subst method. injection H as <-.
    split_and!; [exists env|intros _|done].
    + rewrite dget_dset_ne by done. apply dget_dset_eq.
    + rewrite dget_dset_eq. by eexists.
  - apply bool_decide_eq_false in E. injection Hr as <-. split_and!; [|done|done]. exists env.
    destruct (bool_decide (method = "place_order")).
    + apply bind_ok in H as (sel & _ & [= <-]). rewrite dget_dset_ne by done. apply dget_dset_eq.
    + injection H as <-. apply dget_dset_eq.
Qed.

(** The journal knows nothing of the operation, and its epoch is the request's. *)
Definition unknown_to (environment : string) (request : dict) (s : desk) : Prop :=
  exists y op, executor environment s = Some y
    /\ dget "operation_id" request = Some (VStr op) /\ row_view op (s_db (y_store y)) = None
    /\ dget "admission_epoch" request = Some (VStr (s_epoch (y_store y)))
    /\ nonempty op = true /\ nonempty (s_epoch (y_store y)) = true.

Lemma ditem_text k request t : bind (ditem k request) text_of = Ok t -> dget k request = Some (VStr t).
Proof. unfold ditem, text_of. destruct (dget k request) as [[]|]; cbn; intros [=]; by subst. Qed.

Lemma token_text f v t : validate_identity_token f v = Ok t -> v = VStr t /\ nonempty t = true.
Proof.
  unfold validate_identity_token. destruct (token_constraint v) eqn:E; [done|].
  apply token_constraint_none in E as (t' & -> & _ & Ht & _). intros [= <-]. split; [done|].
  apply nonempty_true. by intros ->.
Qed.

Lemma tokens_text op epoch u :
  validate_token (VStr op) (VStr epoch) = Ok u -> nonempty op = true /\ nonempty epoch = true.
Proof.
  unfold validate_token. intros H. apply bind_ok in H as (a & Ha & H). apply bind_ok in H as (b & Hb & _).
  apply token_text in Ha as [[= ->] ?]. by apply token_text in Hb as [[= ->] ?].
Qed.

Lemma validated v i method request s s' u :
  validate_preparation v i method request s = (Ok u, s') ->
  s' = s /\ exists environment, dget "trd_env" request = Some (VStr environment)
    /\ check_write (sv_policy v) environment = Ok tt /\ unknown_to environment request s.
Proof.
  unfold validate_preparation. intros H. apply se_bind_ok in H as (s0 & s1 & [= <- <-] & H).
  apply se_bind_ok in H as ([] & s1 & H1 & H). apply raised in H1 as [_ ->].
  apply se_bind_ok in H as (env & s1 & H1 & H). apply raised in H1 as [Henv ->]. apply ditem_text in Henv.
  apply se_bind_ok in H as ([] & s1 & H1 & H). apply raised in H1 as [Hcw ->].
  apply se_bind_ok in H as ([] & s1 & H1 & H). apply raised in H1 as [Htok ->].
  apply se_bind_ok in H as (op & s1 & H1 & H). apply raised in H1 as [Hop ->]. apply ditem_text in Hop.
  apply se_bind_ok in H as (ep & s1 & H1 & H). apply raised in H1 as [Hep ->]. apply ditem_text in Hep.
  apply se_bind_ok in H as ([] & s1 & H1 & H). apply raised in H1 as [Hy ->].
  apply se_bind_ok in H as (row & s1 & H1 & H). apply executor_lookup in H1 as (-> & y & Ey & ->).
  rewrite Ey in Hy. apply refuse_if_ok, negb_false_iff, bool_decide_eq_true in Hy. subst ep.
  apply se_bind_ok in H as ([] & s1 & H1 & H). apply raised in H1 as [Hrow ->]. apply refuse_if_ok in Hrow.
  assert (Hs : s' = s).
  { case_bool_decide; [by apply raised in H as [_ ->]|]. apply se_bind_ok in H as ([kind pr] & s2 & H1 & H).
    apply raised in H1 as [_ ->]. by apply raised in H as [_ ->]. }
  unfold dget_none in Htok. rewrite Hop, Hep in Htok. apply tokens_text in Htok as [? ?].
  split; [done|]. exists env. split_and!; [done|done|]. exists y, op. split_and!; try done.
  by destruct (row_view op _).
Qed.

(** The account a request resolves to is one the caller may write, and in the
    REAL environment of a REAL deployment an allowlisted one. *)
Lemma resolve_access p g accounts env market write n acc :
  _resolve_account p g accounts env market write n = Ok acc ->
  check_account_access g (VStr env) (VInt acc) write = Ok tt.
Proof.
  unfold _resolve_account. destruct (n =? 0); cbn [negb].
  - intros H. apply bind_ok in H as (rows & _ & H). destruct rows as [|a [|? ?]]; try done.
    apply bind_ok in H as (sel & _ & H). by apply bind_ok in H as ([] & ? & [= <-]).
  - intros H. apply bind_ok in H as ([] & _ & H). by apply bind_ok in H as ([] & ? & [= <-]).
Qed.

Lemma account_prepared v method request env acc :
  dget "trd_env" request = Some (VStr env) -> check_write (sv_policy v) env = Ok tt ->
  prepared_account v method request = Ok acc ->
  check_account_access (sv_grants v) (VStr env) (VInt acc) true = Ok tt
  /\ check_account_access (sv_grants v) (VStr env) (VInt acc) false = Ok tt
  /\ (env = "REAL" -> acc ∈ real_acc_ids (sv_policy v)).
Proof.
  unfold prepared_account. intros He Hcw H. apply bind_ok in H as (env' & H1 & H). apply ditem_text in H1.
  rewrite He in H1. injection H1 as <-. apply bind_ok in H as (market & _ & H). apply bind_ok in H as (n & _ & H).
  apply bind_ok in H as (acc' & Hr & H). apply bind_ok in H as ([] & Hread & [= <-]).
  split_and!; [by eapply resolve_access|done|]. intros ->. apply real_writer_mode in Hcw.
  apply (resolved_account (sv_deployment v)) in Hr; [by apply Hr|done].
Qed.

Definition contract_of (row : Controls.prepared) : val :=
  match p_review row with VDict r => dget_none "contract" r | _ => VNone end.

Lemma prepare_steps v i method parameters ttl s row s' :
  prepare_request v i method parameters ttl s = (Ok row, s') ->
  exists bound env acc review k k',
    bound_parameters method parameters = Ok bound /\ dget "trd_env" bound = Some (VStr env)
    /\ check_write (sv_policy v) env = Ok tt /\ unknown_to env bound s /\ prepared_account v method bound = Ok acc
    /\ r_controls (k_world s) = Some k /\ s' = with_desk_controls (Some k') s
    /\ Controls.prepare (pi_broken i) (pi_now i) (pi_id i) method (dset "acc_id" (VStr (str_int acc)) bound) review ttl k
       = (Ok row, k').
Proof.
  unfold prepare_request. intros H. apply se_bind_ok in H as (s0 & s1 & [= <- <-] & H).
  apply se_bind_ok in H as ([] & s1 & H1 & H). apply raised in H1 as [Hk ->].
  apply se_bind_ok in H as (bound & s1 & H1 & H). apply raised in H1 as [Hb ->].
  apply se_bind_ok in H as (u & s1 & H1 & H). apply validated in H1 as (-> & env & He & Hcw & Hun).
  apply se_bind_ok in H as (acc & s1 & H1 & H). apply raised in H1 as [Hacc ->].
  unfold _prepare_review in H. apply se_bind_ok in H as (review & s1 & H1 & H). apply raised in H1 as [_ ->].
  unfold on_world, with_controls, on_controls in H. destruct (r_controls (k_world s)) as [k|]; [|done].
  destruct (Controls.prepare _ _ _ _ _ _ _ k) as [r k'] eqn:E. injection H as -> <-.
  by exists bound, env, acc, review, k, k'.
Qed.

(** C11 Preparing a request decides nothing but the one row it stores.  The row is
    pending, expires as asked and holds the canonical intent of the request as
    bound, with the account named; that account the caller may read and write,
    allowlisted when REAL; the environment is one the mode writes; its journal,
    in its current epoch, knows nothing of the operation.  Journals, halt and
    the gateway are as before, and nothing is charged. *)
Theorem prepared_request_sound v i method parameters ttl s row s' :
  prepare_request v i method parameters ttl s = (Ok row, s') ->
  exists bound env acc k k',
    bound_parameters method parameters = Ok bound /\ dget "trd_env" bound = Some (VStr env)
    /\ let request := dset "acc_id" (VStr (str_int acc)) bound in
       canonical_intent method request = Ok (p_canonical row)
       /\ p_parameters row = VDict (dupdate [("method", VStr method)] request)
       /\ p_status row = PENDING /\ p_expires_at row = pi_now i + ttl * second /\ 1 <= ttl <= 900
       /\ check_write (sv_policy v) env = Ok tt
       /\ check_account_access (sv_grants v) (VStr env) (VInt acc) true = Ok tt
       /\ check_account_access (sv_grants v) (VStr env) (VInt acc) false = Ok tt
       /\ (env = "REAL" -> acc ∈ real_acc_ids (sv_policy v))
       /\ unknown_to env bound s
       /\ r_controls (k_world s) = Some k /\ s' = with_desk_controls (Some k') s
       /\ c_prepared (k_db k) !! pi_id i = None /\ k_db k' = with_prepared <[pi_id i := row]> (k_db k).
Proof.
  intros H. apply prepare_steps in H as (bound & env & acc & review & k & k' & Hb & He & Hcw & Hun & Hacc & Hk & -> & E).
  apply (account_prepared _ _ _ env) in Hacc as (Hw & Hr & Hreal); [|done..].
  apply prepare_effect in E as (Ht & Hc & Hp & _ & Hst & Hx & Hn & Hdb).
  exists bound, env, acc, k, k'. cbv zeta. split_and!; try done; apply Ht.
Qed.

(** ** From the approval to the guard *)

Lemma exact_account_text n t : exact_account (VStr (str_int n)) = Ok t -> isdecimal (str_int n) = true.
Proof. unfold exact_account. cbn [str_scalar]. case_match eqn:E; [|done]. by apply andb_true_iff in E as [_ ?]. Qed.

Lemma intent_account method n request c :
  canonical_intent method (dset "acc_id" (VStr (str_int n)) request) = Ok c -> isdecimal (str_int n) = true.
Proof.
  unfold canonical_intent, on_key. rewrite dget_dpop_ne, dget_dset_ne by done. intros H.
  apply bind_ok in H as (p1 & H1 & H). apply bind_ok in H as (p2 & H2 & _).
  assert (Hd : dget "acc_id" p1 = Some (VStr (str_int n))).
  { destruct (dget "modify_order_op" request) as [w|].
    - apply bind_ok in H1 as (? & _ & [= <-]). rewrite dget_dset_ne by done.
      rewrite dget_dpop_ne by done. apply dget_dset_eq.
    - injection H1 as <-. rewrite dget_dpop_ne by done. apply dget_dset_eq. }
  rewrite Hd in H2. apply bind_ok in H2 as (w & H2 & _). apply bind_ok in H2 as (t & H2 & _).
  by eapply exact_account_text.
Qed.

Lemma bound_operation method parameters bound op :
  bound_parameters method parameters = Ok bound -> dget "operation_id" bound = Some (VStr op) ->
  dget "operation_id" parameters = Some (VStr op).
Proof.
  unfold bound_parameters. intros H Hop. apply bind_ok in H as ([] & _ & H). apply bind_ok in H as ([] & _ & H).
  apply bind_ok in H as (d & Hd & H). apply bind_ok in H as (env & _ & H). apply bind_ok in H as (r & Hr & H).
  assert (E1 : dget "operation_id" r = Some (VStr op)).
  { destruct (bool_decide (method = "place_order")); [|by injection H as ->].
    apply bind_ok in H as (? & _ & [= <-]). by rewrite dget_dset_ne in Hop by done. }
  apply (operation_bound method parameters d); [done|]. unfold dget_none.
  destruct (bool_decide (method = "modify_order")).
  - apply bind_ok in Hr as (? & _ & [= <-]). rewrite !dget_dset_ne in E1 by done. by rewrite E1.
  - injection Hr as <-. rewrite dget_dset_ne in E1 by done. by rewrite E1.
Qed.

(** The request as stored is the request as charged. *)
Lemma stored_charged p method bound env acc contract approval valuation :
  max_daily_notional p = ∅ \/ is_Some valuation -> dget "trd_env" bound = Some (VStr env) ->
  (method = "modify_order" -> is_Some (dget "modify_order_op" bound)) ->
  let request := dset "acc_id" (VStr (str_int acc)) bound in
  charged_parameters p {| co_method := method; co_parameters := request; co_approval := approval; co_contract := contract;
                          co_valuation := valuation; co_reserved := None |} acc env = Ok request.
Proof.
  intros Hcaps He Hop request. unfold charged_parameters. cbn [co_parameters].
  unfold ditem at 1. unfold request at 1. rewrite dget_dset_eq. cbn [bind]. change (py_str (VStr (str_int acc))) with (str_int acc).
  rewrite bool_decide_true by done. rewrite andb_false_r. cbn [refuse_if bind].
  assert (E1 : dset "acc_id" (VStr (str_int acc)) request = request) by (apply dset_same, dget_dset_eq).
  assert (E2 : dset "trd_env" (VStr env) request = request).
  { apply dset_same. unfold request. by rewrite dget_dset_ne. }
  rewrite E1, E2. unfold adds_exposure. cbn [co_method co_valuation].
  assert (Hx : exists b, (if mem method ["place_order"; "place_combo_order"] then Ok true
                          else if bool_decide (method = "modify_order")
                          then bind (ditem "modify_order_op" request) (fun op => Ok (mem (named op) ["NORMAL"; "ENABLE"]))
                          else Ok false) = Ok b).
  { destruct (mem method _); [by eexists|]. case_bool_decide as Em; [|by eexists].
    destruct (Hop Em) as [w Hw]. unfold ditem, request. rewrite dget_dset_ne by done. rewrite Hw. by eexists. }
  destruct Hx as [b ->]. cbn [bind]. destruct Hcaps as [->|[w ->]]; [by rewrite bool_decide_true|].
  by rewrite andb_false_r.
Qed.

Lemma account_item_text n request :
  isdecimal (str_int n) = true -> account_item (dset "acc_id" (VStr (str_int n)) request) = Ok (str_int (int_of (str_int n))).
Proof.
  intros Hd. unfold account_item, ditem. rewrite dget_dset_eq. cbn [bind str_scalar].
  rewrite strip_decimal by (by apply andb_true_iff in Hd as [_ ?]). by rewrite Hd.
Qed.

Lemma consume_accepts now now' method params id contract k row canonical env acc op currency amount caps :
  canonical_intent method params = Ok canonical -> text_item "trd_env" params = Ok env ->
  account_item params = Ok acc -> text_item "operation_id" params = Ok op -> nonempty op = true ->
  truthy (dget_none "admission_epoch" params) = true ->
  List.filter (same_operation env acc op) (c_charges (k_db k)) = [] -> health k = "READY" ->
  nonempty id = true -> c_prepared (k_db k) !! id = Some row -> p_canonical row = canonical ->
  p_status row = APPROVED -> now' < p_expires_at row -> py_eqb (contract_of row) (default VNone contract) = true ->
  d_ltb amount d_zero = false -> check_budget caps (k_db k) (utc_day now) env acc currency amount = Ok tt ->
  exists c k', consume false now now' method params (Some id) true currency (DFin amount) caps contract k = (Ok tt, k')
    /\ k_db k' = with_prepared <[id := consumed now row]> (with_charge c (k_db k))
    /\ ch_operation_id c = op /\ ch_canonical c = canonical /\ ch_amount c = amount.
Proof.
  intros Hc He Ha Ho Hop Hep Hf Hh Hid Hr Hcan Hst Hexp Hcon Hamt Hbud. unfold consume, se_bind, se_lift.
  rewrite Hc, He, Ha, Ho, Hop, Hep. unfold refuse_if at 1. cbn [negb orb].
  rewrite Hamt. cbv iota. unfold Controls.transaction, health in *.
  destruct (k_closed k || k_failed k); [done|]. rewrite Hf. unfold _approved. rewrite Hid, Hr. cbn [negb].
  rewrite (bool_decide_true (p_canonical row = canonical)), (bool_decide_true (p_status row = APPROVED)) by done.
  rewrite (proj2 (Z.leb_gt _ _)) by done. unfold contract_of in Hcon. rewrite Hcon. cbn [negb orb andb bind].
  rewrite Hbud. cbn [bind]. eexists _, _. do 2 (split; [reflexivity|]). by split_and!.
Qed.

(** C12 What was prepared and approved can be executed as it was prepared.  In a
    deployment that requires approvals, while the row is approved, unexpired and
    its contract is still the assessed one, and the controls work and never charged
    the operation before, the guard in front of the unlock accepts the stored
    request under its identifier wherever the day's budget admits its valuation
    (which a deployment with daily caps must have, and one without always admits):
    it spends the approval and charges the operation this amount. *)
Theorem approved_request_accepted v i method parameters ttl s row s' k row' ci contract valuation :
  let currency := option_map e_currency valuation in
  let charged := match valuation with Some w => amount w | None => d_zero end in
  prepare_request v i method parameters ttl s = (Ok row, s') ->
  require_approval (sv_policy v) = true -> nonempty (pi_id i) = true ->
  max_daily_notional (sv_policy v) = ∅ \/ is_Some valuation -> d_ltb charged d_zero = false ->
  c_prepared (k_db k) !! pi_id i = Some row' -> p_canonical row' = p_canonical row -> p_status row' = APPROVED ->
  py_eqb (contract_of row') (default VNone contract) = true ->
  health k = "READY" -> ci_broken ci = false -> ci_now' ci < p_expires_at row' ->
  (forall c, c ∈ c_charges (k_db k) -> dget "operation_id" parameters <> Some (VStr (ch_operation_id c))) ->
  exists request env acc account,
    p_parameters row = VDict (dupdate [("method", VStr method)] request)
    /\ account_item request = Ok account
    /\ (check_budget (max_daily_notional (sv_policy v)) (k_db k) (utc_day (ci_now ci)) env account currency charged
          = Ok tt -> exists a' k' c,
          check_dispatch_controls (sv_policy v) ci
            (Some {| co_method := method; co_parameters := request; co_approval := Some (pi_id i);
                     co_contract := contract; co_valuation := valuation; co_reserved := None |}) acc env (Some k)
          = (Ok (Some a'), Some k')
          /\ k_db k' = with_prepared <[pi_id i := consumed (ci_now ci) row']> (with_charge c (k_db k))
          /\ dget "operation_id" parameters = Some (VStr (ch_operation_id c))
          /\ ch_canonical c = p_canonical row /\ ch_amount c = charged).
Proof.
  intros currency charged H Hreq Hid Hcaps Hamt Hrow Hcan Hst Hcon Hready Hbr Hexp Hnew.
  apply prepare_steps in H as (bound & env & acc & review & k0 & k0' & Hb & He & _ & Hun & _ & _ & _ & E).
  apply prepare_effect in E as (_ & Hc & Hp & _). destruct (bound_environment _ _ _ Hb) as (_ & Hop & _).
  pose proof (intent_account _ _ _ _ Hc) as Hd. destruct Hun as (y & op & _ & Ho & _ & Hep & Hne & Hepn).
  pose proof (bound_operation _ _ _ _ Hb Ho) as Hpo.
  pose proof (stored_charged (sv_policy v) method bound env acc contract (Some (pi_id i)) valuation Hcaps He Hop) as Hch.
  cbv zeta in Hch. pose proof (account_item_text _ bound Hd) as Hacc.
  set (request := dset "acc_id" (VStr (str_int acc)) bound) in *.
  assert (Henv : text_item "trd_env" request = Ok env)
    by (unfold text_item, ditem, request; rewrite dget_dset_ne by done; by rewrite He).
  assert (Hopr : text_item "operation_id" request = Ok op)
    by (unfold text_item, ditem, request; rewrite dget_dset_ne by done; by rewrite Ho).
  assert (Hepr : truthy (dget_none "admission_epoch" request) = true)
    by (unfold dget_none, request; rewrite dget_dset_ne by done; rewrite Hep; exact Hepn).
  assert (Hfree : List.filter (same_operation env (str_int (int_of (str_int acc))) op) (c_charges (k_db k)) = []).
  { apply filter_nil. intros c Hin%list_elem_of_In. unfold same_operation. rewrite (bool_decide_false (_ = op)); [by rewrite andb_false_r|].
    intros Heq. apply (Hnew c Hin). by rewrite Heq. }
  exists request, env, acc, (str_int (int_of (str_int acc))). split_and!; [exact Hp|exact Hacc|]. intros Hbud.
  destruct (consume_accepts (ci_now ci) (ci_now' ci) method request (pi_id i) contract k row' (p_canonical row) env
              (str_int (int_of (str_int acc))) op currency charged (max_daily_notional (sv_policy v)))
    as (c & k' & Hcons & Hdb & Hco & Hcc & Hca); try done.
  eexists _, k', c. split_and!; [|exact Hdb|by rewrite Hco|done|done].
  unfold check_dispatch_controls, controlled. rewrite Hreq. cbn [negb orb]. unfold se_bind at 1, se_lift. rewrite Hch.
  cbn [co_method co_approval co_contract co_valuation]. unfold se_bind, on_controls.
  fold currency. fold charged. rewrite Hbr, Hcons. reflexivity.
Qed.
End prepare.

(** ** Examples *)

Definition prep_policy : TradingPolicy :=
  {| mode := Policy.REAL; real_acc_ids := {[7]}; max_order_notional := ∅; max_order_qty := None;
     symbol_allowlist := ∅; require_approval := true; max_daily_notional := ∅ |}.
Definition demo_service : service :=
  {| sv_policy := prep_policy; sv_grants := None; sv_credential := true; sv_allowlist := []; sv_connected := true;
     sv_sdk_accounts := Ok [[("acc_id", VInt 7); ("trd_env", VStr "REAL"); ("trdmarket_auth", VList [VStr "US"])]];
     sv_lookup := wa_lookup (demo_write RetError (RetOk tt));
     sv_query := fun op _ => RetOk (Ok (if bool_decide (op = "acctradinginfo_query")
                                       then [[("max_cash_buy", VInt 100)]] else []));
     sv_checked_at := "2026-01-02T00:00:00Z" |}.
Definition no_trades : controls := {| k_closed := false; k_failed := false; k_db := empty_cdb |}.
Definition demo_desk : desk :=
  with_desk_controls (Some no_trades) {| k_paper := None; k_real := true; k_world := real_world1 |}.
Definition demo_params (op : string) : dict :=
  dset "operation_id" (VStr op) (dset "acc_id" (VStr "0") (real_call_of "op-1")).
Definition demo_pi : prepare_io := {| pi_lookup := io_ok 1; pi_broken := false; pi_now := 0; pi_id := "r1" |}.
Definition demo_prep (op : string) : result Controls.prepared * desk :=
  prepare_request demo_service demo_pi "place_order" (demo_params op) 300 demo_desk.
(** The operator's decision a moment later. *)
Definition demo_approved (s : desk) : controls :=
  match r_controls (k_world s) with
  | Some k => snd (Controls.decide false 1 1 "r1" "APPROVED" "ann" "reviewed" k)
  | None => no_trades
  end.

Example prep_ex :
  match fst (demo_prep "op-1") with
  | Ok row => map (fun k => dget_none k (val_dict (p_review row))) ["acc_id"; "valuation"; "maximum_quantities"]
  | Err _ => []
  end
  = [VStr "7"; VDict [("amount", VStr "937.50"); ("currency", VStr "USD"); ("label", VStr "submission notional")];
     VDict [("max_cash_buy", VInt 100)]].
Proof. vm_compute. reflexivity. Qed.

Lemma prepared_request_sound_witness :
  exists row, fst (demo_prep "op-1") = Ok row /\ p_status row = PENDING /\ p_expires_at row = 300 * second.
Proof.
  destruct (demo_prep "op-1") as [[row|e] s'] eqn:E; [|by vm_compute in E]. exists row. split; [done|].
  destruct (prepared_request_sound demo_service demo_pi "place_order" (demo_params "op-1") 300 demo_desk row s' E)
    as (bound & env & acc & k & k' & _ & _ & T).
  cbv zeta in T. destruct T as (_ & _ & T1 & T2 & _). split; [exact T1|exact T2].
Defined.

(** The same deployment with a daily cap of 5000 USD. *)
Definition capped_policy : TradingPolicy :=
  {| mode := Policy.REAL; real_acc_ids := {[7]}; max_order_notional := {["USD" := f_lit "1000"]}; max_order_qty := None;
     symbol_allowlist := ∅; require_approval := true; max_daily_notional := {["USD" := f_lit "5000"]} |}.
Definition capped_service : service :=
  {| sv_policy := capped_policy; sv_grants := None; sv_credential := true; sv_allowlist := []; sv_connected := true;
     sv_sdk_accounts := sv_sdk_accounts demo_service; sv_lookup := sv_lookup demo_service;
     sv_query := sv_query demo_service; sv_checked_at := sv_checked_at demo_service |}.
Definition capped_prep : result Controls.prepared * desk :=
  prepare_request capped_service demo_pi "place_order" (demo_params "op-1") 300 demo_desk.
Definition demo_valuation : estimate := {| amount := Dec false 93750 (-2); e_currency := "USD" |}.

(** The prepared row, once approved, as the guard meets it. *)
Definition demo_met (r : result Controls.prepared * desk) (row' : Controls.prepared) : Prop :=
  let k := demo_approved (snd r) in
  match fst r with
  | Ok row => c_prepared (k_db k) !! "r1" = Some row' /\ p_canonical row' = p_canonical row
              /\ p_status row' = APPROVED /\ py_eqb (contract_of row') (contract_of row') = true
              /\ health k = "READY" /\ p_expires_at row' = 300 * second /\ c_charges (k_db k) = []
  | Err _ => False
  end.

Lemma demo_meets : exists row', demo_met capped_prep row'.
Proof. eexists. vm_compute. split; [reflexivity|]. by split_and!. Qed.

(** With nothing charged yet the budget admits the order for every account. *)
Lemma demo_admits k env acc :
  c_charges (k_db k) = [] ->
  check_budget (max_daily_notional capped_policy) (k_db k) 0 env acc (Some "USD") (amount demo_valuation) = Ok tt.
Proof. intros H. unfold check_budget, amounts, on_day. rewrite H. vm_compute. reflexivity. Qed.

Lemma approved_request_accepted_witness :
  exists row row' request env acc a' k',
    fst capped_prep = Ok row
    /\ check_dispatch_controls capped_policy {| ci_broken := false; ci_now := 2; ci_now' := 2 |}
         (Some {| co_method := "place_order"; co_parameters := request; co_approval := Some "r1";
                  co_contract := Some (contract_of row'); co_valuation := Some demo_valuation; co_reserved := None |})
         acc env (Some (demo_approved (snd capped_prep))) = (Ok (Some a'), Some k').
Proof.
  destruct demo_meets as (row' & Hm). destruct capped_prep as [[row|e] s'] eqn:E; [|destruct Hm].
  unfold demo_met in Hm. cbn [fst snd] in Hm. destruct Hm as (H1 & H2 & H3 & H4 & H5 & H6 & H7).
  destruct (approved_request_accepted capped_service demo_pi "place_order" (demo_params "op-1") 300 demo_desk row s'
              (demo_approved s') row' {| ci_broken := false; ci_now := 2; ci_now' := 2 |} (Some (contract_of row'))
              (Some demo_valuation) E eq_refl eq_refl (or_intror (ex_intro _ _ eq_refl)) eq_refl H1 H2 H3 H4 H5 eq_refl)
    as (request & env & acc & account & _ & _ & Hc).
  - rewrite H6. reflexivity.
  - rewrite H7. intros c Hin. apply elem_of_nil in Hin. destruct Hin.
  - destruct Hc as (a' & k' & c & Hc & _); [exact (demo_admits _ _ _ H7)|].
    exists row, row', request, env, acc, a', k'. split; [reflexivity|exact Hc].
Defined.
