(* ===== verification/Admission.v ===== *)
(** services/admission.py: the broker permits a tool call will need, planned
    before anything waits for them, and the recovery of a write whose permits
    never came.  Planning validates the call, reads the journals and resolves
    the account, but writes nothing; the plan is a bundle for [Dispatch]. *)

From S2P Require Import Prelude PyStr PyFloat PyDec DecText PyVal OrderErrors Identity Store Validation Policy Rules.
From S2P Require Import StoreInv ClientAuth RateLimit Dispatch Prep Paper PaperLimits RealRequest Real RealScope KlineCursor Snapshots Queries Prepare.

#[local] Open Scope list_scope.

(** [AdmissionPlan] *)
Record AdmissionPlan : Type := { pl_requests : list QuotaRequest; pl_write_operation : option string }.
Definition no_plan : AdmissionPlan := {| pl_requests := []; pl_write_operation := None |}.
Definition reads_only (l : list QuotaRequest) : AdmissionPlan := {| pl_requests := l; pl_write_operation := None |}.

Definition gateway_quota (operation : string) : QuotaRequest :=
  {| q_operation := operation; q_account := None; q_weight := 1 |}.
Definition account_quota (operation : string) (account : Z) : QuotaRequest :=
  {| q_operation := operation; q_account := Some account; q_weight := 1 |}.
Definition unlock_quota : QuotaRequest := {| q_operation := "unlock_trade"; q_account := None; q_weight := 2 |}.
Definition snapshot_quota : QuotaRequest := gateway_quota "get_market_snapshot".
Definition planned (r : option QuotaRequest) : list QuotaRequest := match r with Some r => [r] | None => [] end.

Definition lookup_in {A} (k : string) (l : list (string * A)) : option A :=
  option_map snd (List.find (fun kv => bool_decide (fst kv = k)) l).

(** ** Market data calls *)

Section market.
Context (KLINE_TYPES ADJUSTMENT_TYPES TRADING_DAY_MARKETS : list string).

(** [validate_codes] *)
Definition exact_code (v : val) : result string :=
  match v with
  | VStr code =>
      let '(market, separator, symbol) := partition "." code in
      if (80 <? len code) || negb (bool_decide (code = strip code)) || negb separator || negb (nonempty market)
         || negb (nonempty symbol) || has_space code
      then Err (ValueError "codes must be exact market-prefixed security strings") else Ok code
  | _ => Err (ValueError "codes must be exact market-prefixed security strings")
  end.
Definition validate_codes (codes : val) : result (list string) :=
  match codes with
  | VList l =>
      (_ <- refuse_if (negb (in_range 1 100 (Z.of_nat (length l))))
              (ValueError "codes must contain 1 to 100 exact security codes") ;;
       found <- mapM exact_code l ;;
       _ <- refuse_if (negb (bool_decide (NoDup found))) (ValueError "codes must not contain duplicates") ;;
       Ok found)%py
  | _ => Err (ValueError "codes must contain 1 to 100 exact security codes")
  end.

(** [validate_limit] of services/broker_data_reads.py *)
Definition validate_row_limit (limit : val) : result unit :=
  match limit with
  | VInt z => refuse_if (negb (in_range 1 1000 z)) (ValueError "limit must be an integer from 1 to 1000")
  | _ => Err (ValueError "limit must be an integer from 1 to 1000")
  end.

Definition MARKET_OPERATIONS : list (string * string) :=
  [("get_market_snapshot_evidence", "get_market_snapshot"); ("get_instrument_facts", "get_market_snapshot");
   ("get_rehab", "get_rehab"); ("get_corporate_actions_dividends", "get_corporate_actions_dividends");
   ("get_earnings_calendar", "get_earnings_calendar"); ("get_option_volatility", "get_option_volatility");
   ("get_historical_klines", "request_history_kline"); ("get_historical_klines_page", "request_history_kline");
   ("get_option_expiration_date", "get_option_expiration_date"); ("get_market_snapshot", "get_market_snapshot");
   ("get_market_state", "get_market_state"); ("get_trading_days", "request_trading_days");
   ("get_user_security_group", "get_user_security_group"); ("get_user_security", "get_user_security")].

(** [str(code or "").strip()] *)
Definition code_text (v : val) : string := strip (if truthy v then py_str v else "").

(** The checks of one operation. *)
Definition check_market_call (operation : string) (params : dict) : result unit :=
  if bool_decide (operation = "request_history_kline") then
    (ktype <- ditem "ktype" params ;; autype <- ditem "autype" params ;;
     KlineCursor.validate_candle_filters KLINE_TYPES ADJUSTMENT_TYPES ktype autype)%py
  else if bool_decide (operation = "get_option_expiration_date") then
    (code <- ditem "code" params ;;
     refuse_if (negb (nonempty (code_text code))) (ValueError "code must be a non-empty security code"))%py
  else if bool_decide (operation = "get_market_state") then
    (codes <- ditem "codes" params ;;
     _ <- refuse_if (negb (truthy codes)) (ValueError "codes must contain at least one security code.") ;;
     match codes with
     | VList l => refuse_if (negb (forallb (fun c => nonempty (code_text c)) l))
                    (ValueError "codes must not contain empty security codes.")
     | _ => Err (TypeError "a list of codes is required")
     end)%py
  else if bool_decide (operation = "request_trading_days") then
    (market <- ditem "market" params ;; _ <- validate_choice market TRADING_DAY_MARKETS ;;
     start <- ditem "start" params ;; stop <- ditem "end" params ;;
     _ <- validate_date_range start stop None ;; Ok tt)%py
  else Ok tt.

(** [prepare_market_call] *)
Definition prepare_market_call (connected : bool) (method : string) (params : dict) : result AdmissionPlan :=
  match lookup_in method MARKET_OPERATIONS with
  | None => Ok no_plan
  | Some operation =>
      (_ <- refuse_if (negb connected) (RuntimeError "Quote context not connected") ;;
       _ <- (if mem method ["get_market_snapshot_evidence"; "get_instrument_facts"]
             then bind (ditem "codes" params) (fun c => bind (validate_codes c) (fun _ => Ok tt)) else Ok tt) ;;
       _ <- (if mem method ["get_rehab"; "get_corporate_actions_dividends"; "get_earnings_calendar"; "get_option_volatility"]
             then bind (ditem "limit" params) validate_row_limit else Ok tt) ;;
       if bool_decide (method = "get_option_volatility")
       then Ok (reads_only [snapshot_quota; gateway_quota operation])
       else
         empty <- (if bool_decide (operation = "get_market_snapshot")
                   then bind (ditem "codes" params) (fun c => Ok (negb (truthy c))) else Ok false) ;;
         if empty then Ok no_plan
         else _ <- check_market_call operation params ;;
              r <- request operation params ;;
              Ok (reads_only (planned r)))%py
  end.
End market.

(** ** Trading calls *)

Section trade.
Context `{SN : SessionNames}.
(** The SDK's status names, the security firm that has no fee queries, and the
    configured firm. *)
Context (status_known : string -> bool) (ca : string) (security_firm : val).

Definition WRITES : list string := MUTATIONS.
(** The SDK operation a read draws on. *)
Definition read_operation (method : string) (params : dict) : option string :=
  lookup_in method
    [("get_assets", "accinfo_query"); ("get_positions", "position_list_query"); ("get_orders", "order_list_query");
     ("get_deals", "deal_list_query"); ("get_history_orders", "history_order_list_query");
     ("get_history_deals", "history_deal_list_query");
     ("get_order", if is_str_eq "HISTORY" (dget_none "source" params)
                   then "history_order_list_query" else "order_list_query");
     ("get_order_fees", "order_fee_query"); ("get_max_tradable", "acctradinginfo_query");
     ("get_cash_flow", "get_acc_cash_flow"); ("get_margin_ratio", "get_margin_ratio");
     ("preview_combo_order", "comboorder_tradinginfo_query"); ("unlock_trade", "unlock_trade");
     ("lock_trade", "unlock_trade")].

(** [bool(self.max_order_notional)] or daily caps: what needs an order's value. *)
Definition values_orders (p : TradingPolicy) : bool :=
  negb (bool_decide (max_order_notional p = ∅)) || negb (bool_decide (max_daily_notional p = ∅)).

(** [service._resolve_account(environment, market, acc_id)] *)
Definition resolve_write (v : service) (environment : string) (market : option string) (write : bool) (acc_id : val)
    : result Z :=
  bind (to_account acc_id)
    (_resolve_account (sv_policy v) (sv_grants v) (sv_accounts v) environment market write).
Definition resolve_read (v : service) (trd_env acc_id : val) : result (string * Z) :=
  resolve_read_account (sv_grants v) (sv_sdk_accounts v) trd_env acc_id.

(** *** Previews and preparations *)

(** The queries of a preview, or of a preparation's review. *)
Definition preview_requests (p : TradingPolicy) (method : string) (request : dict) (account : Z)
    : result (list QuotaRequest) :=
  if bool_decide (method = "place_order") then Ok [snapshot_quota; account_quota "acctradinginfo_query" account]
  else if bool_decide (method = "place_combo_order") then
    Ok ((if values_orders p then [snapshot_quota] else []) ++ [account_quota "comboorder_tradinginfo_query" account])
  else
    (exposing <- (if bool_decide (method = "modify_order")
                  then bind (ditem "modify_order_op" request) (fun op => Ok (str_in EXPOSING_MODIFY_OPS op))
                  else Ok false) ;;
     Ok (account_quota "order_list_query" account :: (if exposing then [snapshot_quota] else [])))%py.

(** The account of a preparation, fixed before the permits are waited for. *)
Definition preparation_account (v : service) (environment : string) (market : option string) (acc_id : val) : result Z :=
  if bool_decide (environment = "SIMULATE") then
    (account <- Paper._account (sv_setting v) (sv_accounts v) acc_id ;;
     _ <- check_account_access (sv_grants v) (VStr environment) (VInt account) false ;;
     Ok account)%py
  else
    (account <- resolve_write v environment market true acc_id ;;
     n <- to_account acc_id ;;
     if n =? 0 then _ <- check_account_access (sv_grants v) (VStr environment) (VInt account) false ;; Ok account
     else let! (_, account) := resolve_read v (VStr environment) acc_id in Ok account)%py.

Definition plan_preview (v : service) (params : dict) : SE desk (AdmissionPlan * dict) :=
  se_lift
    (trd_env <- ditem "trd_env" params ;;
     acc_id <- ditem "acc_id" params ;;
     let! (_, account) := resolve_read v trd_env acc_id in
     rs <- preview_requests (sv_policy v) "place_order" params account ;;
     Ok (reads_only rs, params))%py.

Definition plan_preparation (v : service) (i : io) (params : dict) : SE desk (AdmissionPlan * dict) :=
  (method <- se_lift (bind (ditem "method" params) text_of) ;;
   parameters <- se_lift (bind (ditem "parameters" params) (fun w =>
                   match w with VDict d => Ok d | _ => Err (TypeError "a mapping is required") end)) ;;
   request <- se_lift (bound_parameters method parameters) ;;
   environment <- se_lift (bind (ditem "trd_env" request) text_of) ;;
   _ <- validate_preparation v i method request ;;
   market <- se_lift (_preparation_market method request) ;;
   acc_id <- se_lift (ditem "acc_id" request) ;;
   account <- se_lift (preparation_account v environment market acc_id) ;;
   let request := dset "acc_id" (VStr (str_int account)) request in
   rs <- se_lift (preview_requests (sv_policy v) method request account) ;;
   se_ret (reads_only rs, dset "parameters" (VDict request) params))%se.

(** *** Pages *)

Definition plan_page (v : service) (method operation : string) (params : dict) : result (AdmissionPlan * dict) :=
  (_ <- bind (ditem "limit" params) Snapshots.validate_limit ;;
   trd_env <- ditem "trd_env" params ;;
   _ <- (if of_deals method then require_real trd_env else Ok tt) ;;
   if negb (is_none (dget_none "cursor" params)) then Ok (no_plan, params)
   else
     acc_id <- ditem "acc_id" params ;;
     let! (_, account) := resolve_read v trd_env acc_id in
     _ <- match dget "status_filter_list" params with
          | Some l => bind (_convert_status_filter status_known l) (fun _ => Ok tt)
          | None => Ok tt
          end ;;
     r <- request operation [("acc_id", VInt account);
                             ("refresh_cache", dget_or "refresh_cache" (VBool false) params)] ;;
     Ok (reads_only (planned r), params))%py.

(** *** Reads *)

(** The checks of a read before its account, and its parameters after them. *)
Definition check_read (v : service) (method : string) (params : dict) : result dict :=
  (_ <- (if mem method ["get_deals"; "get_history_deals"]
         then bind (ditem "trd_env" params) require_real else Ok tt) ;;
   params <- (if bool_decide (method = "get_order") then
                source <- ditem "source" params ;; order_id <- ditem "order_id" params ;;
                start <- ditem "start" params ;; stop <- ditem "end" params ;;
                source <- validate_lookup source order_id start stop ;;
                Ok (dset "source" (VStr source) params)
              else Ok params) ;;
   _ <- (if bool_decide (method = "get_order_fees") then
           ids <- ditem "order_id_list" params ;; trd_env <- ditem "trd_env" params ;;
           _ <- validate_fee_request ids trd_env ;; Ok tt
         else Ok tt) ;;
   Ok params)%py.

(** [unlock_trade], checked before it is queued. *)
Definition check_unlock_call (v : service) (method : string) (params : dict) : result unit :=
  if bool_decide (method = "unlock_trade") then
    (_ <- check_unlock (sv_policy v) ;;
     _ <- refuse_if (sv_credential v) (ValueError "Stored trade credentials require managed unlocking") ;;
     password <- ditem "password" params ;;
     md5 <- (if truthy password then Ok password else ditem "password_md5" params) ;;
     refuse_if (negb (truthy password) && negb (truthy md5))
       (ValueError "unlock_trade requires a password or password_md5"))%py
  else Ok tt.

(** The parameters with the account and environment the read will use. *)
Definition resolved_params (v : service) (operation : string) (params : dict) : result dict :=
  if bool_decide (operation = "comboorder_tradinginfo_query") then
    (combo <- bind (ditem "combo_legs" params) _build_combo_legs ;;
     trd_env <- ditem "trd_env" params ;;
     acc_id <- ditem "acc_id" params ;;
     account <- resolve_write v (named trd_env)
                  (match combo with l :: _ => market_of (cl_code l) | [] => None end) false acc_id ;;
     Ok (dset "acc_id" (VInt account) params))%py
  else if dhas "trd_env" params then
    (trd_env <- ditem "trd_env" params ;;
     acc_id <- ditem "acc_id" params ;;
     let! (environment, account) := resolve_read v trd_env acc_id in
     Ok (dset "acc_id" (VInt account) (dset "trd_env" (VStr environment) params)))%py
  else Ok params.

Definition plan_read (v : service) (method operation : string) (params : dict) : result (AdmissionPlan * dict) :=
  (_ <- check_unlock_call v method params ;;
   _ <- refuse_if (negb (sv_connected v)) (RuntimeError "Trade context not connected") ;;
   _ <- (if mem method ["get_orders"; "get_history_orders"]
         then bind (ditem "status_filter_list" params)
                (fun l => bind (_convert_status_filter status_known l) (fun _ => Ok tt))
         else Ok tt) ;;
   params <- resolved_params v operation params ;;
   _ <- (if bool_decide (method = "get_order_fees") then
           match dget "acc_id" params with
           | Some (VInt account) => check_fee_account (sv_grants v) (sv_sdk_accounts v) ca security_firm account
           | _ => Err AssertionError
           end
         else Ok tt) ;;
   r <- request operation params ;;
   Ok (reads_only (planned r), params))%py.

(** *** Writes *)

(** Where a planned write goes on: an operation a journal knows needs no permit,
    any other one has its requests and its account. *)
Definition write_plan (method : string) (l : list QuotaRequest) : AdmissionPlan :=
  {| pl_requests := l; pl_write_operation := Some method |}.
Definition stale_token : exn := ValueError "Unknown non-current-epoch token cannot be accounted for".

Definition check_epoch (y : paper) (params : dict) : result unit :=
  bind (ditem "admission_epoch" params) (fun e => refuse_if (negb (is_str_eq (s_epoch (y_store y)) e)) stale_token).

(** What a REAL write asks its account for, besides the write itself. *)
Definition exposes (method : string) (params : dict) : result bool :=
  if mem method ["place_order"; "place_combo_order"] then Ok true
  else if bool_decide (method = "modify_order")
  then bind (ditem "modify_order_op" params) (fun op => Ok (mem (named op) EXPOSING_MODIFY_OPS))
  else Ok false.
Definition sdk_write (method : string) : string :=
  if mem method ["place_order"; "place_combo_order"] then method else "modify_order".
Definition real_requests (v : service) (method : string) (exposing : bool) (account : Z) : list QuotaRequest :=
  (if exposing && (mem method ["place_order"; "modify_order"] || values_orders (sv_policy v)) then [snapshot_quota] else [])
  ++ (if bool_decide (method = "modify_order") && exposing then [account_quota "order_list_query" account] else [])
  ++ (if sv_credential v then [unlock_quota] else [])
  ++ [account_quota (sdk_write method) account].

Definition write_market (method : string) (params : dict) : result (option string) :=
  if bool_decide (method = "place_order") then request_market PLACE params
  else if bool_decide (method = "place_combo_order") then request_market PLACE_COMBO params
  else Ok None.

(** A REAL write. *)
Definition plan_real (v : service) (i : nat -> io) (method : string) (params : dict) : SE desk (AdmissionPlan * dict) :=
  let missing := ValueError "Persistent REAL journal is not configured" in
  (known <- on_real missing (Real.retry (sv_deployment v) (i 0%nat) method params) ;;
   match known with
   | Some _ => se_ret (write_plan method [], params)
   | None =>
       _ <- se_lift (validate_real_request method params) ;;
       s <- se_get ;;
       _ <- se_lift (check_epoch (r_exec (k_world s)) params) ;;
       _ <- on_real missing (ready (i 1%nat)) ;;
       _ <- se_lift (refuse_if (negb (sv_connected v)) (RuntimeError "Trade context not connected")) ;;
       exposing <- se_lift (exposes method params) ;;
       market <- se_lift (write_market method params) ;;
       _ <- (if exposing then on_world _check_execution_halt else se_ret tt) ;;
       acc_id <- se_lift (ditem "acc_id" params) ;;
       account <- se_lift (resolve_write v "REAL" market true acc_id) ;;
       se_ret (write_plan method (real_requests v method exposing account), dset "acc_id" (VInt account) params)
   end)%se.

Definition paper_requests (kind : op_kind) (method : string) (account : Z) : list QuotaRequest :=
  (match kind with CANCEL => [] | _ => [snapshot_quota] end)
  ++ (match kind with PLACE => [] | _ => [account_quota "order_list_query" account] end)
  ++ [account_quota (sdk_write method) account].

(** Whether the paper journal knows an operation; its own unstored outcomes count. *)
Definition paper_known (i : io) (operation : string) : SE paper bool := fun y =>
  match y_late_failure y !! operation with
  | Some _ => (Ok true, y)
  | None => (row <- on_store (lookup i operation) ;; se_ret (match row with Some _ => true | None => false end))%se y
  end.

(** A paper write. *)
Definition plan_paper (v : service) (i : nat -> io) (method : string) (params : dict) : SE desk (AdmissionPlan * dict) :=
  let missing := ValueError "Persistent paper journal is not configured" in
  (_ <- se_lift (refuse_if (bool_decide (method = "place_combo_order"))
          (ValueError "Combo orders are outside version 1 paper execution scope")) ;;
   s <- se_get ;;
   _ <- se_lift (match k_paper s with Some _ => Ok tt | None => Err missing end) ;;
   do! (kind, request) := se_lift (_paper_parameters method params) in
   operation_id <- se_lift (ditem "operation_id" params) ;;
   epoch <- se_lift (ditem "admission_epoch" params) ;;
   _ <- se_lift (validate_token operation_id epoch) ;;
   _ <- se_lift (_schema kind request) ;;
   operation <- se_lift (text_of operation_id) ;;
   known <- on_paper missing (paper_known (i 0%nat) operation) ;;
   if known then se_ret (write_plan method [], params)
   else
     s <- se_get ;;
     _ <- se_lift (match k_paper s with Some y => check_epoch y params | None => Err missing end) ;;
     _ <- on_paper missing (ready (i 1%nat)) ;;
     acc_id <- se_lift (ditem "acc_id" params) ;;
     account <- se_lift (Paper._account (sv_setting v) (sv_accounts v) acc_id) ;;
     se_ret (write_plan method (paper_requests kind method account), dset "acc_id" (VInt account) params))%se.

Definition plan_write (v : service) (i : nat -> io) (method : string) (params : dict) : SE desk (AdmissionPlan * dict) :=
  not_sent_se false true
    (trd_env <- se_lift (ditem "trd_env" params) ;;
     let environment := named trd_env in
     _ <- se_lift (check_write (sv_policy v) environment) ;;
     if bool_decide (environment = "REAL") then plan_real v i method params
     else if bool_decide (environment = "SIMULATE") then plan_paper v i method params
     else se_raise AssertionError)%se.

(** [prepare_trade_call]: the plan, and the parameters as the service will be
    called with them. *)
Definition prepare_trade_call (v : service) (i : nat -> io) (method : string) (params : dict)
    : SE desk (AdmissionPlan * dict) :=
  if bool_decide (method = "preview_order") then plan_preview v params
  else if bool_decide (method = "prepare_trade_request") then plan_preparation v (i 0%nat) params
  else match lookup_in method PAGE_OPERATIONS with
       | Some operation => se_lift (plan_page v method operation params)
       | None =>
           if mem method WRITES then plan_write v i method params
           else (params <- se_lift (check_read v method params) ;;
                 match read_operation method params with
                 | Some operation => se_lift (plan_read v method operation params)
                 | None => se_ret (no_plan, params)
                 end)%se
       end.

(** ** After the wait *)

(** [recover_paper_admission]: the permits never came; another call may have
    admitted the operation meanwhile. *)
Definition recover_admission (v : service) (i : nat -> io) (method : string) (params : dict) : SE desk (option reply) := fun s =>
  let environment := named (dget_or "trd_env" (VStr "") params) in
  if bool_decide (environment = "REAL") && k_real s then
    on_world (on_exec (Real.retry (sv_deployment v) (i 0%nat) method params)) s
  else
    match k_paper s with
    | None => (Ok None, s)
    | Some y =>
        if negb (bool_decide (environment = "SIMULATE")) then (Ok None, s)
        else
          not_sent_se false true
            (_ <- se_lift (check_write (sv_policy v) "SIMULATE") ;;
             do! (kind, request) := se_lift (_paper_parameters method params) in
             operation_id <- se_lift (ditem "operation_id" params) ;;
             epoch <- se_lift (ditem "admission_epoch" params) ;;
             _ <- se_lift (validate_token operation_id epoch) ;;
             _ <- se_lift (_schema kind request) ;;
             operation <- se_lift (text_of operation_id) ;;
             on_paper AssertionError (fun y =>
               (row <- (match y_late_failure y !! operation with
                        | Some _ => se_lift (match y_late_identity y !! operation with
                                             | Some row => Ok (Some row)
                                             | None => Err (KeyError operation)
                                             end)
                        | None => on_store (lookup (i 0%nat) operation)
                        end) ;;
                match row with
                | Some row =>
                    acc_id <- se_lift (ditem "acc_id" params) ;;
                    r <- Paper._retry (sv_setting v) (i 1%nat) row kind request acc_id ;; se_ret (Some r)
                | None => se_ret None
                end)%se y))%se s
    end.

(** ** Recovery calls *)

(** [prepare_paper_call], and [prepare_admission] of a REAL execution, which
    also needs no broker for a row that was never dispatched. *)
Definition recovery_requests (account : Z) : list QuotaRequest :=
  [account_quota "order_list_query" account; account_quota "history_order_list_query" account;
   account_quota "position_list_query" account].
Definition undispatched (row : view) : bool :=
  bool_decide (state (v_row row) = ADMITTED) && negb (marker (v_row row)).
Definition plan_reconcile (real : bool) (i : nat -> io) (now : Z) (operation : string) : SE paper AdmissionPlan :=
  (row <- on_store (lookup (i 0%nat) operation) ;;
   match row with
   | None => se_raise (ValueError "Operation is not owned by this journal")
   | Some row =>
       y <- se_get ;;
       if negb (bool_decide (y_late_failure y = ∅)) || (real && undispatched row) then se_ret no_plan
       else
         due <- on_store (recovery_rows (i 1%nat) now) ;;
         if negb (existsb (fun r => bool_decide (row_id r = row_id row)) due) then se_ret no_plan
         else account <- se_lift (int_of_val (VStr (account (ident (v_row row))))) ;;
              se_ret (reads_only (recovery_requests account))
   end)%se.
Definition prepare_recovery_call (real : bool) (i : nat -> io) (now : Z) (method operation : string) : SE paper AdmissionPlan :=
  if bool_decide (method = "reconcile") then plan_reconcile real i now operation else se_ret no_plan.

(** ** Plans and the dispatcher *)

Definition keyed (r : QuotaRequest) : Prop := is_ok (key r) = true.

Lemma account_keyed operation p account :
  operation_policy operation = Ok p -> 0 < account -> keyed (account_quota operation account).
Proof.
  intros Hp Ha. unfold keyed, key. cbn [q_operation q_account account_quota]. rewrite Hp. cbn [bind].
  rewrite (proj2 (Z.leb_gt _ _)), andb_false_r by done. done.
Qed.

Lemma request_keyed operation params r : request operation params = Ok (Some r) -> keyed r.
Proof.
  unfold request. destruct (mem operation UNTIMED_OPERATIONS); [done|]. intros H.
  apply bind_ok in H as (p & Hp & H). case_match; [done|].
  apply bind_ok in H as (a & Ha & [= <-]). unfold keyed, key. cbn [q_operation q_account]. rewrite Hp. cbn [bind].
  destruct (bool_decide (op_scope p = Account)); [|done].
  apply bind_ok in Ha as (n & _ & Ha). apply bind_ok in Ha as ([] & Hn & [= <-]).
  apply refuse_if_ok in Hn. by rewrite Hn.
Qed.

Lemma planned_keyed operation params r : request operation params = Ok r -> Forall keyed (planned r).
Proof. destruct r as [r|]; intros H; repeat constructor. by eapply request_keyed. Qed.

Lemma keyed_merged rs acc : Forall keyed rs -> exists l, _merged_from rs acc = Ok l.
Proof.
  intros H. revert acc. induction H as [|r rs Hr _ IH]; intros acc; cbn; [by eexists|]. unfold keyed in Hr.
  destruct (key r); [apply IH|done].
Qed.

(** Where the accounts of a plan come from. *)
Definition accounts_positive (v : service) : Prop :=
  (forall a, a ∈ real_acc_ids (sv_policy v) -> 0 < a) /\ (forall a, a ∈ sv_allowlist v -> 0 < a).

Lemma read_positive v trd_env acc_id env account :
  resolve_read v trd_env acc_id = Ok (env, account) -> 0 < account.
Proof.
  unfold resolve_read, resolve_read_account. intros H. apply bind_ok in H as (e & _ & H). apply bind_ok in H as (n & _ & H).
  apply bind_ok in H as ([] & _ & H). apply bind_ok in H as (rows & _ & H). apply bind_ok in H as (eligible & He & H).
  assert (Hall : forall x, x ∈ eligible -> 0 < x).
  { intros x Hx. destruct (mapM_elem _ _ _ _ He Hx) as (a & _ & Ha). unfold positive_account_id in Ha.
    apply bind_ok in Ha as (z & _ & Ha). apply bind_ok in Ha as ([] & Hz & [= <-]). apply refuse_if_ok in Hz. lia. }
  destruct (n =? 0).
  - destruct eligible as [|a [|? ?]]; try done. injection H as _ <-. apply Hall. by left.
  - case_bool_decide as Hin; [|done]. injection H as _ <-. by apply Hall.
Qed.

(** *** What a plan was made from *)

(** A journal whose connections are accepted. *)
Definition journal_works (y : paper) : Prop :=
  let s := y_store y in
  s_closed s = false /\ s_failed s = None /\ metadata (s_db s) = [s_environment s] /\ user_version (s_db s) = SCHEMA_VERSION.

Lemma lookup_none i id y y' :
  on_store (lookup i id) y = (Ok None, y') -> y' = y /\ row_view id (s_db (y_store y)) = None /\ journal_works y.
Proof.
  intros H. pose proof H as Hs. apply lookup_same in Hs as [-> Hr]. split_and!; [done|done|]. unfold on_store in H.
  destruct (lookup i id (y_store y)) as [r s1] eqn:E. injection H as -> _.
  by apply connection_cases in E as [[_ ?]|[(m & _ & ?)|(a & d & _ & _ & _ & Hw)]].
Qed.
Lemma lookup_works i id y :
  journal_works y -> io_fault i = None -> on_store (lookup i id) y = (Ok (row_view id (s_db (y_store y))), y).
Proof.
  intros (Hc & Hf & Hm & Hv) Hi. unfold on_store, lookup, connection. rewrite Hc, Hf, Hi, Hv, Hm.
  rewrite Z.eqb_refl, bool_decide_true by done. cbn [negb]. by destruct y as [[] ?].
Qed.

(** A journal that is ready was only read. *)
Lemma ready_same i y y' : ready i y = (Ok tt, y') -> y' = y /\ y_late_failure y = ∅.
Proof.
  unfold ready. case_bool_decide as E; [|done]. unfold on_store. destruct (require_ready i (y_store y)) as [r s1] eqn:Er.
  intros [= -> <-]. split; [|done]. unfold require_ready in Er. apply se_bind_ok in Er as (h & s2 & Hh & Hr).
  case_bool_decide as Hst; [|done]. injection Hr as <-. unfold health, se_try in Hh.
  destruct (if negb (io_writable i) then _ else _) as [[h0|x] s0] eqn:Eh.
  - injection Hh as <- <-. destruct (negb (io_writable i)); [done|].
    apply connection_cases in Eh as [[_ ?]|[(m & _ & ?)|(a & d & Ha & -> & Hb & _)]]; try done.
    simplify_eq. by destruct y as [[] ?].
  - destruct x; try done. by injection Hh as <- _.
Qed.

Lemma on_real_ok {A} missing (c : SE paper A) s a s' :
  on_real missing c s = (Ok a, s') ->
  exists y', c (r_exec (k_world s)) = (Ok a, y') /\ (y' = r_exec (k_world s) -> s' = s) /\ k_real s = true.
Proof.
  unfold on_real. destruct (k_real s) eqn:Er; [|done]. unfold on_world, on_exec.
  destruct (c (r_exec (k_world s))) as [r y] eqn:E. intros [= -> <-]. exists y. split_and!; [done| |done].
  intros ->. destruct s as [kp kr []]. cbn in *. by rewrite Er.
Qed.

Lemma on_paper_ok {A} missing (c : SE paper A) s a s' :
  on_paper missing c s = (Ok a, s') ->
  exists y y', k_paper s = Some y /\ c y = (Ok a, y') /\ (y' = y -> s' = s).
Proof.
  unfold on_paper. destruct (k_paper s) as [y|] eqn:Ep; [|done]. destruct (c y) as [r y'] eqn:E. intros [= -> <-].
  exists y, y'. split_and!; [done|done|]. intros ->. destruct s. cbn in *. by rewrite Ep.
Qed.

(** A REAL request nobody knows was only looked up. *)
Lemma retry_none e i method params y y' :
  Real.retry e i method params y = (Ok None, y') ->
  exists id k, identified e method params = Ok (id, k) /\ y' = y
    /\ (y_late_failure y = ∅ -> row_view id (s_db (y_store y)) = None /\ journal_works y).
Proof.
  unfold Real.retry. destruct (not_sent _ _ _) as [[id k]|x] eqn:E; [|done]. apply not_sent_ok in E. intros H.
  exists id, k. split; [done|]. apply se_bind_ok in H as (row & y1 & H1 & H). destruct row as [row|].
  - apply se_bind_ok in H as (r & y2 & _ & H). done.
  - injection H as <-. destruct (y_late_failure y !! id) eqn:El.
    + destruct (y_late_identity y !! id); [by injection H1|done].
    + apply lookup_none in H1 as [-> Hr]. by split.
Qed.

(** What a write was planned from: a journal that works, in the call's epoch,
    and knows nothing of the operation. *)
Definition fresh (environment operation : string) (params : dict) (s : desk) : Prop :=
  exists y, executor environment s = Some y /\ y_late_failure y = ∅
    /\ row_view operation (s_db (y_store y)) = None /\ journal_works y
    /\ dget "operation_id" params = Some (VStr operation)
    /\ dget "admission_epoch" params = Some (VStr (s_epoch (y_store y))).

Lemma dget_none_text k d t : dget_none k d = VStr t -> dget k d = Some (VStr t).
Proof. unfold dget_none. destruct (dget k d); cbn; congruence. Qed.

Lemma check_epoch_ok y params :
  check_epoch y params = Ok tt -> dget "admission_epoch" params = Some (VStr (s_epoch (y_store y))).
Proof.
  unfold check_epoch. intros H. apply bind_ok in H as (w & Hw & H). apply refuse_if_ok, negb_false_iff in H.
  unfold ditem in Hw. destruct (dget "admission_epoch" params); [|done]. injection Hw as ->.
  unfold is_str_eq in H. destruct w; try done. apply bool_decide_eq_true in H. by rewrite H.
Qed.

Lemma identified_operation e method params id k :
  identified e method params = Ok (id, k) -> dget "operation_id" params = Some (VStr id).
Proof.
  unfold identified. intros H. ok_inv. apply dget_none_text. by destruct (dget_none "operation_id" params); simplify_eq.
Qed.

Definition planned_real (v : service) (method : string) (params : dict) (s : desk) (plan : AdmissionPlan) (account : Z) : Prop :=
  exists exposing market acc_id operation,
    exposes method params = Ok exposing /\ (exposing = true -> halted (r_halt (k_world s)) = false)
    /\ resolve_write v "REAL" market true acc_id = Ok account
    /\ fresh "REAL" operation params s /\ plan = write_plan method (real_requests v method exposing account).

Lemma real_steps v i method params s plan params' s' :
  plan_real v i method params s = (Ok (plan, params'), s') ->
  (plan = write_plan method [] /\ params' = params) \/
  exists account, planned_real v method params s plan account /\ params' = dset "acc_id" (VInt account) params /\ s' = s.
Proof.
  unfold plan_real. intros H. apply se_bind_ok in H as (known & s1 & H1 & H).
  destruct known as [r|]; [left; by injection H as <- <- _|right].
  apply on_real_ok in H1 as (y1 & H1 & Hs1 & Hk). apply retry_none in H1 as (id & k & Hid & -> & Hrow).
  specialize (Hs1 eq_refl) as ->.
  apply se_bind_ok in H as ([] & s2 & H2 & H). apply raised in H2 as [_ ->].
  apply se_bind_ok in H as (s0 & s2 & [= <- <-] & H).
  apply se_bind_ok in H as ([] & s2 & H2 & H). apply raised in H2 as [Hep ->].
  apply se_bind_ok in H as ([] & s2 & H2 & H). apply on_real_ok in H2 as (y2 & H2 & Hs2 & _).
  apply ready_same in H2 as [-> Hlate]. specialize (Hs2 eq_refl) as ->.
  apply se_bind_ok in H as ([] & s2 & H2 & H). apply raised in H2 as [_ ->].
  apply se_bind_ok in H as (exposing & s2 & H2 & H). apply raised in H2 as [Hx ->].
  apply se_bind_ok in H as (market & s2 & H2 & H). apply raised in H2 as [_ ->].
  apply se_bind_ok in H as ([] & s2 & H2 & H).
  assert (Hh : s2 = s /\ (exposing = true -> halted (r_halt (k_world s)) = false)).
  { destruct exposing; [|by injection H2 as <-]. unfold on_world, _check_execution_halt in H2. injection H2 as H2 <-.
    apply refuse_if_ok in H2. split; [by destruct s|done]. }
  clear H2. destruct Hh as [-> Hh]. apply se_bind_ok in H as (acc_id & s2 & H2 & H). apply raised in H2 as [_ ->].
  apply se_bind_ok in H as (account & s2 & H2 & H). apply raised in H2 as [Hacc ->]. injection H as <- <- <-.
  exists account. split; [|done]. exists exposing, market, acc_id, id. split_and!; try done.
  destruct (Hrow Hlate) as [Hnone Hw].
  exists (r_exec (k_world s)). split_and!; [|done..|by eapply identified_operation|by apply check_epoch_ok].
  unfold executor. by rewrite bool_decide_true, Hk.
Qed.

Definition planned_paper (v : service) (method : string) (params : dict) (s : desk) (plan : AdmissionPlan) (account : Z) : Prop :=
  exists kind request acc_id operation,
    _paper_parameters method params = Ok (kind, request) /\ method <> "place_combo_order"
    /\ Paper._account (sv_setting v) (sv_accounts v) acc_id = Ok account /\ _schema kind request = Ok tt
    /\ validate_token (dget_none "operation_id" params) (dget_none "admission_epoch" params) = Ok tt
    /\ fresh "SIMULATE" operation params s /\ plan = write_plan method (paper_requests kind method account).

Lemma paper_steps v i method params s plan params' s' :
  plan_paper v i method params s = (Ok (plan, params'), s') ->
  (plan = write_plan method [] /\ params' = params) \/
  exists account, planned_paper v method params s plan account /\ params' = dset "acc_id" (VInt account) params /\ s' = s.
Proof.
  unfold plan_paper. intros H. apply se_bind_ok in H as ([] & s1 & H1 & H). apply raised in H1 as [Hc ->].
  apply refuse_if_ok, bool_decide_eq_false in Hc. apply se_bind_ok in H as (s0 & s1 & [= <- <-] & H).
  apply se_bind_ok in H as ([] & s1 & H1 & H). apply raised in H1 as [_ ->].
  apply se_bind_ok in H as ([kind request] & s1 & H1 & H). apply raised in H1 as [Hp ->].
  apply se_bind_ok in H as (op & s1 & H1 & H). apply raised in H1 as [Ho ->].
  apply se_bind_ok in H as (ep & s1 & H1 & H). apply raised in H1 as [Hepoch ->].
  apply se_bind_ok in H as ([] & s1 & H1 & H). apply raised in H1 as [Htok ->].
  apply se_bind_ok in H as ([] & s1 & H1 & H). apply raised in H1 as [Hsch ->].
  apply se_bind_ok in H as (id & s1 & H1 & H). apply raised in H1 as [Hid ->].
  assert (Hop : dget "operation_id" params = Some (VStr id)) by (apply ditem_text; by rewrite Ho).
  apply se_bind_ok in H as (known & s1 & H1 & H). destruct known; [left; by injection H as <- <- _|right].
  apply on_paper_ok in H1 as (y & y1 & Hy & H1 & Hs1).
  assert (Hrow : y1 = y /\ row_view id (s_db (y_store y)) = None /\ journal_works y).
  { unfold paper_known in H1. destruct (y_late_failure y !! id); [done|].
    apply se_bind_ok in H1 as (row & y2 & H2 & H1). destruct row; [done|]. injection H1 as <-. by apply lookup_none in H2. }
  destruct Hrow as (-> & Hrow & Hw). specialize (Hs1 eq_refl) as ->.
  apply se_bind_ok in H as (s0 & s2 & [= <- <-] & H). rewrite Hy in H.
  apply se_bind_ok in H as ([] & s2 & H2 & H). apply raised in H2 as [Hep ->].
  apply se_bind_ok in H as ([] & s2 & H2 & H). apply on_paper_ok in H2 as (y2 & y3 & Hy2 & H2 & Hs2).
  rewrite Hy in Hy2. injection Hy2 as <-. apply ready_same in H2 as [-> Hlate]. specialize (Hs2 eq_refl) as ->.
  apply se_bind_ok in H as (acc_id & s2 & H2 & H). apply raised in H2 as [_ ->].
  apply se_bind_ok in H as (account & s2 & H2 & H). apply raised in H2 as [Hacc ->]. injection H as <- <- <-.
  exists account. split; [|done]. exists kind, request, acc_id, id. split_and!; try done.
  { unfold dget_none, ditem in *. destruct (dget "operation_id" params), (dget "admission_epoch" params); by simplify_eq. }
  exists y. split_and!; [|done..|by apply check_epoch_ok]. unfold executor. rewrite bool_decide_false by done. done.
Qed.

Lemma write_steps v i method params s plan params' s' :
  plan_write v i method params s = (Ok (plan, params'), s') ->
  (plan = write_plan method [] /\ params' = params) \/
  exists environment account, params' = dset "acc_id" (VInt account) params /\ s' = s
    /\ named (dget_none "trd_env" params) = environment /\ check_write (sv_policy v) environment = Ok tt
    /\ (environment = "REAL" /\ planned_real v method params s plan account
        \/ environment = "SIMULATE" /\ planned_paper v method params s plan account).
Proof.
  unfold plan_write, not_sent_se. destruct (se_bind _ _ s) as [r s1] eqn:H. intros [= Hr <-]. apply not_sent_ok in Hr. subst r.
  apply se_bind_ok in H as (env & s2 & H1 & H). apply raised in H1 as [He ->].
  apply se_bind_ok in H as ([] & s2 & H1 & H). apply raised in H1 as [Hcw ->].
  assert (Hn : dget_none "trd_env" params = env).
  { unfold ditem in He. unfold dget_none. by destruct (dget "trd_env" params); simplify_eq. }
  rewrite Hn. destruct (bool_decide (named env = "REAL")) eqn:E1; [|destruct (bool_decide (named env = "SIMULATE")) eqn:E2; [|done]].
  - apply bool_decide_eq_true in E1. apply real_steps in H as [?|(acc & Hp & -> & ->)]; [by left|right].
    exists (named env), acc. split_and!; try done. by left.
  - apply bool_decide_eq_true in E2. apply paper_steps in H as [?|(acc & Hp & -> & ->)]; [by left|right].
    exists (named env), acc. split_and!; try done. by right.
Qed.

(** *** Plans that can be reserved *)

Definition reservable (plan : AdmissionPlan) : Prop := Forall keyed (pl_requests plan).

Lemma real_account_positive v n : accounts_positive v -> real_account (sv_deployment v) n -> 0 < n.
Proof. intros [Hr _] [Hin _]. by apply Hr. Qed.
Lemma paper_account_positive v acc_id n :
  accounts_positive v -> Paper._account (sv_setting v) (sv_accounts v) acc_id = Ok n -> 0 < n.
Proof. intros [_ Hs] H. apply account_usable in H as [Hin _]. by apply Hs. Qed.

Lemma write_resolved v market acc_id n :
  check_write (sv_policy v) "REAL" = Ok tt -> resolve_write v "REAL" market true acc_id = Ok n ->
  real_account (sv_deployment v) n.
Proof.
  intros Hcw H. apply real_writer_mode in Hcw. unfold resolve_write in H. apply bind_ok in H as (a & _ & H).
  by apply (resolved_account (sv_deployment v)) in H as [? _].
Qed.

(** The requests of a list, one by one. *)
Ltac keyed :=
  repeat first
    [ apply Forall_app; split
    | match goal with |- Forall _ (if ?b then _ else _) => destruct b end
    | match goal with |- Forall _ (match ?k with _ => _ end) => destruct k end
    | apply Forall_nil; exact I
    | apply Forall_cons; split
    | exact eq_refl
    | eapply account_keyed; [reflexivity|done] ].

Lemma write_keyed method account : 0 < account -> keyed (account_quota (sdk_write method) account).
Proof.
  intros Ha. unfold sdk_write, mem. case_bool_decide as E; [|keyed].
  apply elem_of_cons in E as [->|E]; [keyed|]. apply list_elem_of_singleton in E as ->. keyed.
Qed.

Lemma real_keyed v method exposing account : 0 < account -> Forall keyed (real_requests v method exposing account).
Proof. intros Ha. unfold real_requests. keyed. by apply write_keyed. Qed.
Lemma paper_keyed kind method account : 0 < account -> Forall keyed (paper_requests kind method account).
Proof. intros Ha. unfold paper_requests. keyed; by apply write_keyed. Qed.
Lemma preview_keyed p method request account l :
  0 < account -> preview_requests p method request account = Ok l -> Forall keyed l.
Proof.
  intros Ha. unfold preview_requests. case_bool_decide; [intros [= <-]; keyed|].
  case_bool_decide; [intros [= <-]; keyed|]. intros Hx. apply bind_ok in Hx as (x & _ & [= <-]). keyed.
Qed.

Lemma write_reservable v i method params s plan params' s' :
  accounts_positive v -> plan_write v i method params s = (Ok (plan, params'), s') -> reservable plan.
Proof.
  intros Hv H. apply write_steps in H as [[-> _]|(env & acc & _ & _ & _ & Hcw & [[-> H]|[-> H]])]; [constructor|..].
  - destruct H as (x & m & a & op & _ & _ & Hacc & _ & ->). apply real_keyed.
    eapply real_account_positive; [done|by eapply write_resolved].
  - destruct H as (k & r & a & op & _ & _ & Hacc & _ & _ & _ & ->). apply paper_keyed. by eapply paper_account_positive.
Qed.

(** The environment of a bound request is spelt as compared. *)
Lemma bound_spelling method parameters request env :
  bound_parameters method parameters = Ok request -> dget "trd_env" request = Some (VStr env) -> upper (strip env) = env.
Proof.
  unfold bound_parameters. intros H. apply bind_ok in H as ([] & _ & H). apply bind_ok in H as ([] & _ & H).
  apply bind_ok in H as (bound & _ & H). apply bind_ok in H as (e & He & H). apply bind_ok in H as (r & Hr & H).
  assert (Hs : upper (strip e) = e) by (apply bind_ok in He as (w & _ & [= <-]); apply upper_strip_idem).
  assert (Hd : dget "trd_env" r = Some (VStr e)).
  { destruct (bool_decide (method = "modify_order")); [apply bind_ok in Hr as (op & _ & [= <-])|injection Hr as <-];
      [rewrite dget_dset_ne by done|]; apply dget_dset_eq. }
  assert (Hq : dget "trd_env" request = Some (VStr e)).
  { destruct (bool_decide (method = "place_order")); [apply bind_ok in H as (sel & _ & [= <-])|injection H as <-];
      [rewrite dget_dset_ne by done|]; done. }
  rewrite Hq. by intros [= <-].
Qed.

Lemma writable_environment p env : check_write p env = Ok tt -> upper (strip env) = env -> env = "SIMULATE" \/ env = "REAL".
Proof.
  unfold check_write, mem. case_bool_decide as E; [|done]. intros _ Hs. rewrite Hs in E.
  destruct (mode p); cbn in E; set_solver.
Qed.

Lemma preparation_positive v env market acc_id n :
  accounts_positive v -> check_write (sv_policy v) env = Ok tt -> upper (strip env) = env ->
  preparation_account v env market acc_id = Ok n -> 0 < n.
Proof.
  intros Hv Hcw Hs. unfold preparation_account. destruct (writable_environment _ _ Hcw Hs) as [->| ->]; cbn -[resolve_read].
  - intros H. apply bind_ok in H as (a & Ha & H). apply bind_ok in H as ([] & _ & [= <-]). by eapply paper_account_positive.
  - intros H. apply bind_ok in H as (a & Ha & H). apply bind_ok in H as (m & _ & H). destruct (m =? 0).
    + apply bind_ok in H as ([] & _ & [= <-]). eapply real_account_positive; [done|by eapply write_resolved].
    + apply bind_ok in H as ([e b] & Hb & [= <-]). by eapply read_positive.
Qed.

Lemma preparation_reservable v i params s plan params' s' :
  accounts_positive v -> plan_preparation v i params s = (Ok (plan, params'), s') -> reservable plan.
Proof.
  intros Hv H. unfold plan_preparation in H. apply se_bind_ok in H as (method & s1 & H1 & H). apply raised in H1 as [_ ->].
  apply se_bind_ok in H as (parameters & s1 & H1 & H). apply raised in H1 as [_ ->].
  apply se_bind_ok in H as (request & s1 & H1 & H). apply raised in H1 as [Hb ->].
  apply se_bind_ok in H as (env & s1 & H1 & H). apply raised in H1 as [He ->]. apply ditem_text in He.
  pose proof (bound_spelling _ _ _ _ Hb He) as Hs.
  apply se_bind_ok in H as (u & s1 & H1 & H). apply validated in H1 as (-> & env' & He' & Hcw & _).
  rewrite He in He'. injection He' as <-.
  apply se_bind_ok in H as (market & s1 & H1 & H). apply raised in H1 as [_ ->].
  apply se_bind_ok in H as (acc_id & s1 & H1 & H). apply raised in H1 as [_ ->].
  apply se_bind_ok in H as (account & s1 & H1 & H). apply raised in H1 as [Hacc ->].
  apply se_bind_ok in H as (rs & s1 & H1 & H). apply raised in H1 as [Hrs ->]. injection H as <- _ _.
  eapply preview_keyed; [|exact Hrs]. by eapply preparation_positive.
Qed.

Lemma preview_reservable v params s plan params' s' :
  plan_preview v params s = (Ok (plan, params'), s') -> reservable plan.
Proof.
  unfold plan_preview. intros Hp. apply raised in Hp as [H _].
  apply bind_ok in H as (e & _ & H). apply bind_ok in H as (a & _ & H). apply bind_ok in H as ([env n] & Hn & H).
  apply bind_ok in H as (rs & Hrs & [= <- _]). eapply preview_keyed; [|exact Hrs]. by eapply read_positive.
Qed.

Lemma page_reservable v method operation params plan params' :
  plan_page v method operation params = Ok (plan, params') -> reservable plan.
Proof.
  unfold plan_page. intros H. do 3 (apply bind_ok in H as (? & _ & H)). case_match; [injection H as <- _; constructor|].
  apply bind_ok in H as (a & _ & H). apply bind_ok in H as ([env n] & _ & H). apply bind_ok in H as (u & _ & H).
  apply bind_ok in H as (r & Hr & [= <- _]). by eapply planned_keyed.
Qed.

Lemma reading_reservable v method operation params plan params' :
  plan_read v method operation params = Ok (plan, params') -> reservable plan.
Proof.
  unfold plan_read. intros H. do 3 (apply bind_ok in H as (? & _ & H)). apply bind_ok in H as (ps & _ & H).
  apply bind_ok in H as (u & _ & H). apply bind_ok in H as (r & Hr & [= <- _]). by eapply planned_keyed.
Qed.

Lemma trade_reservable v i method params s plan params' s' :
  accounts_positive v -> prepare_trade_call v i method params s = (Ok (plan, params'), s') -> reservable plan.
Proof.
  unfold prepare_trade_call. intros Hv. destruct (bool_decide (method = "preview_order")); [apply preview_reservable|].
  destruct (bool_decide (method = "prepare_trade_request")); [by apply preparation_reservable|].
  destruct (lookup_in method PAGE_OPERATIONS) as [op|].
  { intros H. apply raised in H as [H _]. by eapply page_reservable. }
  destruct (mem method WRITES); [by apply write_reservable|]. intros H.
  apply se_bind_ok in H as (ps & s1 & H1 & H). apply raised in H1 as [_ ->].
  destruct (read_operation method ps); [apply raised in H as [H _]; by eapply reading_reservable|].
  injection H as <- _ _. constructor.
Qed.

(** Every plan can be admitted: whatever a trading call asks permits for, once
    its parameters were accepted, the dispatcher can key all of them and merge
    them into one bundle, so that the call waits for permits and is never
    refused for a request that no budget has, or that names no account. *)
Theorem plans_reservable v i method params s plan params' s' :
  accounts_positive v -> prepare_trade_call v i method params s = (Ok (plan, params'), s') ->
  exists wanted, _merged (pl_requests plan) = Ok wanted
    /\ forall k, weight_at k wanted = asked k (pl_requests plan).
Proof.
  intros Hv H. apply trade_reservable in H; [|done].
  destruct (keyed_merged (pl_requests plan) [] H) as [l Hl]. exists l. split; [done|].
  intros k. apply merged_from_weights in Hl as [_ Hw]; [by rewrite Hw|constructor].
Qed.

(** C13 A planned write stays within what the write may do.  When a plan asks for
    permits, making it changed nothing; the environment is one the mode writes;
    its journal works, is of the call's epoch and knows nothing of the operation;
    the account, which the parameters now name, is an allowlisted one the caller
    may write; and a REAL write that adds exposure was not planned while
    execution was halted. *)
Theorem planned_write_in_scope v i method params s plan params' s' :
  plan_write v i method params s = (Ok (plan, params'), s') -> pl_requests plan <> [] ->
  s' = s /\ pl_write_operation plan = Some method
  /\ exists environment account operation,
       named (dget_none "trd_env" params) = environment /\ check_write (sv_policy v) environment = Ok tt
       /\ params' = dset "acc_id" (VInt account) params /\ fresh environment operation params s
       /\ (environment = "REAL" /\ real_account (sv_deployment v) account
             /\ (exposes method params = Ok true -> halted (r_halt (k_world s)) = false)
           \/ environment = "SIMULATE" /\ usable_account (sv_setting v) (sv_accounts v) account
             /\ method <> "place_combo_order").
Proof.
  intros H Hne. apply write_steps in H as [[-> _]|(env & acc & -> & -> & Hn & Hcw & [[-> H]|[-> H]])]; [done|..].
  - destruct H as (x & m & a & op & Hx & Hh & Hacc & Hf & ->). split_and!; [done..|].
    exists "REAL", acc, op. split_and!; try done. left. split_and!; [done|by eapply write_resolved|].
    rewrite Hx. intros [= ->]. by apply Hh.
  - destruct H as (k & r & a & op & _ & Hm & Hacc & _ & _ & Hf & ->). split_and!; [done..|].
    exists "SIMULATE", acc, op. split_and!; try done. right. split_and!; [done| |done]. by eapply account_usable.
Qed.

(** The bundle an execution reserves around its write: [_admit_write] of a REAL
    one, with the unlock and the relock of managed credentials, and
    [PaperExecution]'s own. *)
Definition write_requests (v : service) (real : bool) (method : string) (account : Z) : list QuotaRequest :=
  account_quota (sdk_write method) account :: (if real && sv_credential v then [unlock_quota] else []).

Lemma write_requests_keyed v real method account : 0 < account -> Forall keyed (write_requests v real method account).
Proof. intros Ha. unfold write_requests. keyed. by apply write_keyed. Qed.

(** ** Borrowing a planned permit *)

Lemma asked_app k l1 l2 : asked k (l1 ++ l2) = asked k l1 + asked k l2.
Proof. induction l1; cbn; lia. Qed.

Definition weighty (r : QuotaRequest) : Prop := 1 <= q_weight r.
Lemma asked_nonneg k l : Forall weighty l -> 0 <= asked k l.
Proof. induction 1; cbn; [lia|]. unfold weighty in *. case_bool_decide; lia. Qed.

(** A merged bundle has the keys of its requests only, with what they ask. *)
Lemma merged_entries rs l k r :
  Forall weighty rs -> _merged rs = Ok l -> (k, r) ∈ l -> q_weight r = asked k rs /\ 0 < asked k rs.
Proof.
  intros Hw H Hin. assert (Hin' : exists q, q ∈ rs /\ key q = Ok k).
  { unfold _merged in H. clear Hw. assert (Hk : forall acc, _merged_from rs acc = Ok l ->
      NoDup (map fst acc) -> k ∈ map fst l -> k ∈ map fst acc \/ exists q, q ∈ rs /\ key q = Ok k).
    { clear. induction rs as [|q rs IH]; intros acc H Hn Hin; cbn in H; [injection H as <-; by left|].
      apply bind_ok in H as (k0 & Hk & H). destruct (keys_kset k0 (heavier q (kget k0 acc)) acc Hn) as [Hn' Hsub].
      destruct (IH _ H Hn' Hin) as [Hm|(q' & ? & ?)]; [|right; exists q'; split; [by right|done]].
      destruct (Hsub _ Hm) as [->|?]; [|by left]. right. exists q. split; [left|done]. }
    destruct (Hk [] H) as [Hm|?]; [constructor| |by apply elem_of_nil in Hm|done].
    apply list_elem_of_In, in_map_iff. exists (k, r). split; [done|by apply list_elem_of_In]. }
  apply merged_from_weights in H as [Hn Hwt]; [|constructor]. specialize (Hwt k). cbn in Hwt.
  assert (Hr : weight_at k l = q_weight r).
  { clear -Hin Hn. unfold weight_at. induction l as [|[k1 r1] l IH]; [by apply elem_of_nil in Hin|]. cbn in *.
    apply NoDup_cons in Hn as [Hk Hn]. apply elem_of_cons in Hin as [[= -> ->]|Hin]; [by rewrite bool_decide_true|].
    rewrite bool_decide_false; [by apply IH|]. intros ->. apply Hk, list_elem_of_In, in_map_iff.
    exists (k1, r). split; [done|by apply list_elem_of_In]. }
  rewrite Hr in Hwt. split; [done|]. destruct Hin' as (q & Hq & Hkq). clear -Hw Hq Hkq.
  induction Hw as [|q' rs Hq' Hrs IH]; [by apply elem_of_nil in Hq|]. cbn. unfold weighty in Hq'.
  pose proof (asked_nonneg k _ Hrs). apply elem_of_cons in Hq as [->|Hq].
  - rewrite bool_decide_true by done. lia.
  - specialize (IH Hq). case_bool_decide; lia.
Qed.
End trade.

Section borrow.
Context `{SN : SessionNames} {B : Type} {BB : Bucket B} {W : Type}.
Implicit Types d : disp B W.

(** The context holds permits for everything a bundle asks for. *)
Definition holds (rs : list QuotaRequest) (slots : list (pool_key * slot)) (d : disp B W) : Prop :=
  forall k, 0 < asked k rs -> exists s, kget k slots = Some s /\ asked k rs <= slot_remaining s d.

Lemma reserve_slots_held now wanted slots owned d :
  (forall k r, (k, r) ∈ wanted -> exists s, kget k slots = Some s /\ q_weight r <= slot_remaining s d) ->
  reserve_slots now wanted slots owned d = (Ok (slots, owned, None), d).
Proof.
  induction wanted as [|[k r] rest IH]; intros Hw; [done|]. cbn [reserve_slots].
  destruct (Hw k r) as (s & -> & Hs); [by left|]. rewrite (proj2 (Z.leb_le _ _)) by done.
  apply IH. intros k' r' Hin. apply Hw. by right.
Qed.

Lemma reserve_borrows {A} now rs held slots (body : SE (disp B W) A) d :
  Forall keyed rs -> Forall weighty rs -> (forall k, asked k rs <= asked k held) ->
  d_slots d = Some slots -> holds held slots d ->
  reserve now rs body d = (fst (body d), with_slots (Some slots) (snd (body d))).
Proof.
  intros Hk Hw Hle Hs Hh. destruct (keyed_merged rs [] Hk) as [l Hl]. unfold reserve, _merged in *. rewrite Hl, Hs.
  cbn [from_option id]. rewrite reserve_slots_held.
  - assert (Hd : with_slots (Some slots) d = d) by (rewrite <-Hs; by destruct d). rewrite Hd.
    destruct (body d) as [r d2]. done.
  - intros k r Hin. destruct (merged_entries rs l k r Hw Hl Hin) as [-> Hpos].
    destruct (Hh k) as (s & Hs' & Hr); [specialize (Hle k); lia|]. exists s. split; [done|]. specialize (Hle k). lia.
Qed.

Lemma real_covers v method exposing account k :
  asked k (write_requests v true method account) <= asked k (real_requests v method exposing account).
Proof.
  unfold write_requests, real_requests. rewrite !asked_app. cbn [asked andb].
  assert (Hn : forall b (q : QuotaRequest), weighty q -> 0 <= asked k (if b : bool then [q] else [])).
  { intros b q Hq. apply asked_nonneg. destruct b; repeat constructor. done. }
  pose proof (Hn (exposing && (mem method ["place_order"; "modify_order"] || values_orders (sv_policy v))) snapshot_quota
    ltac:(done)).
  pose proof (Hn (bool_decide (method = "modify_order") && exposing) (account_quota "order_list_query" account) ltac:(done)).
  lia.
Qed.
Lemma paper_covers v kind method account k :
  asked k (write_requests v false method account) <= asked k (paper_requests kind method account).
Proof.
  unfold write_requests, paper_requests. rewrite !asked_app. cbn [asked andb].
  assert (Hn : forall l, Forall weighty l -> 0 <= asked k l) by (intros; by apply asked_nonneg).
  pose proof (Hn (match kind with CANCEL => [] | _ => [snapshot_quota] end) ltac:(destruct kind; by repeat constructor)).
  pose proof (Hn (match kind with PLACE => [] | _ => [account_quota "order_list_query" account] end)
                ltac:(destruct kind; by repeat constructor)).
  lia.
Qed.

Lemma request_alone rs q k : Forall weighty rs -> q ∈ rs -> asked k [q] <= asked k rs.
Proof.
  intros Hw Hq. induction Hw as [|r rs Hr Hrs IH]; [by apply elem_of_nil in Hq|]. cbn in *. unfold weighty in Hr.
  pose proof (asked_nonneg k _ Hrs). apply elem_of_cons in Hq as [->|Hq]; [lia|]. specialize (IH Hq).
  case_bool_decide; case_bool_decide; lia.
Qed.

Lemma real_weighty v method exposing account : Forall weighty (real_requests v method exposing account).
Proof.
  unfold real_requests. repeat (apply Forall_app; split);
    repeat match goal with |- Forall _ (if ?b then _ else _) => destruct b end; by repeat constructor.
Qed.
Lemma paper_weighty kind method account : Forall weighty (paper_requests kind method account).
Proof. unfold paper_requests. repeat (apply Forall_app; split); destruct kind; by repeat constructor. Qed.
Lemma write_weighty v real method account : Forall weighty (write_requests v real method account).
Proof. unfold write_requests. repeat constructor; try done. case_match; by repeat constructor. Qed.

(** A planned write needs nothing more while it executes.  Once the permits of
    its plan are held, the bundle its execution reserves around the write, with
    unlock and relock when the deployment manages the credentials, and every
    query the plan foresaw run on those permits: reserving them takes nothing
    from any budget, fails for none, and runs the body where it stands. *)
Theorem planned_write_covered {A} v i method params s plan params' s' slots d now rs (body : SE (disp B W) A) :
  accounts_positive v -> plan_write v i method params s = (Ok (plan, params'), s') -> pl_requests plan <> [] ->
  d_slots d = Some slots -> holds (pl_requests plan) slots d ->
  (exists account, dget "acc_id" params' = Some (VInt account)
     /\ rs = write_requests v (bool_decide (named (dget_none "trd_env" params) = "REAL")) method account)
  \/ (exists q, q ∈ pl_requests plan /\ rs = [q]) ->
  reserve now rs body d = (fst (body d), with_slots (Some slots) (snd (body d))).
Proof.
  intros Hv H Hne Hs Hh Hrs. pose proof (write_reservable _ _ _ _ _ _ _ _ Hv H) as Hk. unfold reservable in Hk.
  assert (Hq : forall q, Forall weighty (pl_requests plan) -> q ∈ pl_requests plan -> rs = [q] ->
            reserve now rs body d = (fst (body d), with_slots (Some slots) (snd (body d)))).
  { intros q Hw Hin ->. apply (reserve_borrows _ _ (pl_requests plan)); try done.
    - constructor; [|done]. rewrite Forall_forall in Hk. by apply Hk.
    - constructor; [|done]. rewrite Forall_forall in Hw. by apply Hw.
    - intros k. by apply request_alone. }
  apply write_steps in H as [[-> _]|(env & acc & -> & -> & Hn & Hcw & [[-> H]|[-> H]])]; [done|..].
  - destruct H as (x & m & a & op & _ & _ & Hacc & _ & ->). cbn [pl_requests write_plan] in *.
    destruct Hrs as [(n & Hn' & ->)|(q & Hin & ->)]; [|by apply (Hq q (real_weighty _ _ _ _))].
    rewrite dget_dset_eq in Hn'. injection Hn' as <-. rewrite Hn, bool_decide_true by done.
    apply (reserve_borrows _ _ (real_requests v method x acc)); [|apply write_weighty|apply real_covers|done|done].
    apply write_requests_keyed. eapply real_account_positive; [done|by eapply write_resolved].
  - destruct H as (kd & r & a & op & _ & _ & Hacc & _ & _ & _ & ->). cbn [pl_requests write_plan] in *.
    destruct Hrs as [(n & Hn' & ->)|(q & Hin & ->)]; [|by apply (Hq q (paper_weighty _ _ _))].
    rewrite dget_dset_eq in Hn'. injection Hn' as <-. rewrite Hn, bool_decide_false by done.
    apply (reserve_borrows _ _ (paper_requests kd method acc)); [|apply write_weighty|apply paper_covers|done|done].
    apply write_requests_keyed. by eapply paper_account_positive.
Qed.
End borrow.

(** ** Examples *)

Definition demo_ios (n : nat) : io := io_ok 1.
Definition no_status (s : string) : bool := false.
Definition demo_plan (method : string) (params : dict) : result (AdmissionPlan * dict) * desk :=
  prepare_trade_call no_status "CA" VNone demo_service demo_ios method params demo_desk.
(** The arguments of a call, defaults included. *)
Definition demo_call (op : string) : dict :=
  match bound_parameters "place_order" (demo_params op) with Ok d => d | Err _ => [] end.

Example plan_ex :
  match fst (demo_plan "place_order" (demo_call "op-1")) with
  | Ok (plan, params) => (pl_requests plan, dget "acc_id" params)
  | Err _ => ([], None)
  end
  = ([snapshot_quota; unlock_quota; account_quota "place_order" 7], Some (VInt 7)).
Proof. vm_compute. reflexivity. Qed.

(** A market read has no account and no journal to consult. *)
Example market_plan_ex :
  prepare_market_call ["K_DAY"] ["qfq"] ["US"] true "get_option_volatility" [("limit", VInt 10)]
  = Ok (reads_only [snapshot_quota; gateway_quota "get_option_volatility"]).
Proof. vm_compute. reflexivity. Qed.

Lemma demo_positive : accounts_positive demo_service.
Proof. split; intros a Ha; cbn in Ha; set_solver by lia. Qed.

Definition demo_planned : AdmissionPlan :=
  write_plan "place_order" [snapshot_quota; unlock_quota; account_quota "place_order" 7].
Definition demo_bound : dict := dset "acc_id" (VInt 7) (demo_call "op-1").
Lemma demo_write_planned :
  plan_write demo_service demo_ios "place_order" (demo_call "op-1") demo_desk = (Ok (demo_planned, demo_bound), demo_desk).
Proof. vm_compute. reflexivity. Qed.
Lemma demo_trade_planned :
  prepare_trade_call no_status "CA" VNone demo_service demo_ios "place_order" (demo_call "op-1") demo_desk
  = (Ok (demo_planned, demo_bound), demo_desk).
Proof. exact demo_write_planned. Qed.

Lemma plans_reservable_witness : exists wanted, _merged (pl_requests demo_planned) = Ok wanted.
Proof.
  destruct (plans_reservable no_status "CA" VNone demo_service demo_ios "place_order" (demo_call "op-1") demo_desk
              demo_planned demo_bound demo_desk demo_positive demo_trade_planned) as (wanted & Hw & _).
  exists wanted. exact Hw.
Defined.

Lemma planned_write_in_scope_witness :
  exists account, real_account (sv_deployment demo_service) account /\ halted (r_halt (k_world demo_desk)) = false.
Proof.
  destruct (planned_write_in_scope demo_service demo_ios "place_order" (demo_call "op-1") demo_desk demo_planned
              demo_bound demo_desk demo_write_planned)
    as (_ & _ & env & account & op & Henv & _ & _ & _ & T); [discriminate|].
  destruct T as [(He & Ha & Hh)|(He & _)]; [|rewrite He in Henv; vm_compute in Henv; discriminate Henv].
  exists account. split; [exact Ha|]. apply Hh. vm_compute. reflexivity.
Defined.

(** A dispatcher whose context holds the plan's permits. *)
Definition demo_holding : disp list_bucket (list string) :=
  match Dispatch.reserve 0 (pl_requests demo_planned) (fun d => (Ok d, d)) demo_disp with
  | (Ok d, _) => d
  | (Err _, d) => d
  end.
Definition demo_slots : list (pool_key * slot) := default [] (d_slots demo_holding).

Lemma demo_holds : holds (pl_requests demo_planned) demo_slots demo_holding.
Proof.
  intros k. cbn [asked demo_planned write_plan pl_requests].
  repeat case_bool_decide; try lia; intros _;
    repeat match goal with H : key _ = Ok _ |- _ => vm_compute in H end;
    repeat match goal with H : Ok _ = Ok _ |- _ => injection H as <- end;
    try done; eexists; (split; [vm_compute; reflexivity|vm_compute; discriminate]).
Qed.

Lemma planned_write_covered_witness :
  Dispatch.reserve 9 [account_quota "place_order" 7; unlock_quota] (fun d => (Ok (d_world d), d)) demo_holding
  = (Ok [], with_slots (Some demo_slots) demo_holding).
Proof.
  apply (planned_write_covered demo_service demo_ios "place_order" (demo_call "op-1") demo_desk demo_planned
           demo_bound demo_desk demo_slots demo_holding 9
           [account_quota "place_order" 7; unlock_quota] (fun d => (Ok (d_world d), d)) demo_positive demo_write_planned).
  - discriminate.
  - vm_compute. reflexivity.
  - exact demo_holds.
  - left. exists 7. split; vm_compute; reflexivity.
Defined.
