(* ===== verification/TradeCall.v ===== *)
(** The order methods of services/trade_service.py as a caller sees them: REAL
    calls go through the decorator, SIMULATE ones through the paper branch of
    each method and [_paper_execute]; any other environment is refused.  The
    planner of Admission reads such a call the same way, and a call that was
    planned gets to its journal. *)

From S2P Require Import Prelude PyStr PyFloat PyDec DecText DecParse PyVal OrderErrors Identity Store StoreInv Validation Policy Rules.
From S2P Require Import ClientAuth Prep Paper PaperOnce PaperThm PaperLimits RealRequest Real RealOnce RealScope RealThm Prepare Admission.

#[local] Open Scope list_scope.

Section calls.
Context `{SN : SessionNames}.

(** ** The paper branches *)

Definition keep (k : string) (args : dict) : result (string * val) := bind (ditem k args) (fun v => Ok (k, v)).

(** [place_order]: the session is checked and left out. *)
Definition paper_place (args : dict) : result (op_kind * dict) :=
  (session <- ditem "session" args ;;
   trd_env <- ditem "trd_env" args ;;
   _ <- not_sent false false (normalize_order_session session (named trd_env)) ;;
   params <- mapM (fun k => keep k args) PAPER_FIELDS ;;
   Ok (PLACE, params))%py.

(** [modify_order]: a price and quantity change, or a cancellation. *)
Definition paper_modify (p : TradingPolicy) (args : dict) : result (op_kind * dict) :=
  (op <- ditem "modify_order_op" args ;; qty <- ditem "qty" args ;; price <- ditem "price" args ;;
   adjust_limit <- ditem "adjust_limit" args ;; order_id <- ditem "order_id" args ;;
   _ <- not_sent false false
          (_ <- check_write p "SIMULATE" ;;
           _ <- refuse_if (negb (str_in ["NORMAL"; "CANCEL"] op))
                  (ValueError "Paper execution supports price/quantity modifications and individual cancellations only") ;;
           refuse_if (is_str_eq "CANCEL" op
                      && (negb (is_none qty) || negb (is_none price) || negb (py_eqb adjust_limit (VInt 0))))
             (ValueError "Paper cancellation does not accept a price or quantity patch")) ;;
   let params := [("order_id", order_id)] in
   let params := if is_str_eq "NORMAL" op
                 then params ++ [("adjust_limit", adjust_limit)]
                      ++ (if is_none qty then [] else [("qty", qty)]) ++ (if is_none price then [] else [("price", price)])
                 else params in
   Ok (if is_str_eq "CANCEL" op then CANCEL else MODIFY, params))%py.

(** [place_combo_order] has no paper form. *)
Definition paper_combo (p : TradingPolicy) (args : dict) : result (op_kind * dict) :=
  not_sent false false
    (trd_env <- ditem "trd_env" args ;;
     _ <- check_write p (named trd_env) ;;
     Err (ValueError "Combo orders are outside version 1 paper execution scope"))%py.

Definition paper_cancel (args : dict) : result (op_kind * dict) :=
  (order_id <- ditem "order_id" args ;; Ok (CANCEL, [("order_id", order_id)]))%py.

(** What a SIMULATE call hands to [_paper_execute]. *)
Definition paper_arguments (p : TradingPolicy) (method : string) (args : dict) : result (op_kind * dict) :=
  if bool_decide (method = "place_order") then paper_place args
  else if bool_decide (method = "modify_order") then paper_modify p args
  else if bool_decide (method = "place_combo_order") then paper_combo p args
  else paper_cancel args.

(** ** The call *)

(** The outside of a call: journal faults, the dispatcher's answer to the
    reservation, the tags, and the broker. *)
Record call_io : Type := {
  cl_journal : nat -> nat -> io; cl_connected : bool; cl_reserve : result unit; cl_tag : string;
  cl_paper : dispatch_answers; cl_real : write_answers }.

(** [_paper_execute] *)
Definition _paper_execute (v : service) (x : call_io) (q : order_request) : SE desk reply :=
  let missing := ValueError "Persistent paper journal is not configured; no unjournaled paper writes are permitted" in
  (_ <- not_sent_se false false
          (_ <- se_lift (check_write (sv_policy v) "SIMULATE") ;;
           s <- se_get ;;
           se_lift (match k_paper s with Some _ => Ok tt | None => Err missing end)) ;;
   on_paper missing (Paper.execute (sv_setting v) (cl_journal x)
     {| aa_accounts := sv_accounts v; aa_reserve := cl_reserve x; aa_tag := cl_tag x |} (cl_paper x) q))%se.

Definition paper_request (kind : op_kind) (params args : dict) : order_request :=
  {| rq_kind := kind; rq_params := params; rq_operation_id := dget_none "operation_id" args;
     rq_epoch := dget_none "admission_epoch" args; rq_acc_id := dget_or "acc_id" (VStr "0") args |}.

(** The body of a method, after the decorator: its REAL branch starts with the
    policy check, which refuses an environment that is neither. *)
Definition undecorated (v : service) (x : call_io) (method : string) (args : dict) : SE desk reply :=
  let environment := named (dget_none "trd_env" args) in
  if bool_decide (environment = "SIMULATE") then
    (do! (kind, params) := se_lift (paper_arguments (sv_policy v) method args) in
     _paper_execute v x (paper_request kind params args))%se
  else
    not_sent_se false false
      (_ <- se_lift (check_write (sv_policy v) environment) ;; se_raise AssertionError)%se.

Definition trading_call (v : service) (x : call_io) (method : string) (kwargs : dict) : SE desk reply :=
  (s <- se_get ;;
   p <- on_world (journal_real_mutation (sv_deployment v) (k_real s) (cl_journal x)
          {| ra_connected := cl_connected x; ra_accounts := sv_accounts v; ra_tag := cl_tag x |} (cl_real x) method kwargs) ;;
   match p with
   | Answer r => se_ret r
   | Next args => undecorated v x method args
   end)%se.

(** ** Arguments *)

Lemma bound_keys parameters kwargs d : bind_arguments parameters kwargs = Ok d -> map fst d = map fst parameters.
Proof.
  unfold bind_arguments. intros H. apply bind_ok in H as ([] & _ & H). revert d H.
  induction parameters as [|[k o] l IH]; intros d H; cbn in H; [by injection H as <-|].
  apply bind_ok in H as (kv & Hkv & H). apply bind_ok in H as (d0 & Hd & [= <-]). cbn. f_equal; [|by apply IH].
  destruct (dget k kwargs), o; by simplify_eq.
Qed.

Lemma dget_keys k d : is_Some (dget k d) <-> k ∈ map fst d.
Proof.
  induction d as [|[k' v] d IH]; cbn; [split; [by intros []|by intros ?%elem_of_nil]|].
  case_bool_decide as E; subst; split; intros H; try (by left); try (by eexists).
  - right. by apply IH.
  - apply elem_of_cons in H as [?|?]; [congruence|by apply IH].
Qed.

Lemma bound_has parameters kwargs d k :
  bind_arguments parameters kwargs = Ok d -> k ∈ map fst parameters -> exists v, dget k d = Some v.
Proof. intros H Hk. apply bound_keys in H. rewrite <- H in Hk. by apply dget_keys in Hk. Qed.

(** The arguments a method is called with: its parameters but the approval. *)
Definition arguments_of (method : string) (args : dict) : Prop :=
  forall k, is_Some (dget k args) <-> k ∈ map fst (signature method) /\ k <> "approval_id".

Lemma arguments_bound method kwargs d :
  bind_arguments (signature method) kwargs = Ok d -> arguments_of method (dpop "approval_id" d).
Proof.
  intros H k. apply bound_keys in H. rewrite <- H, <- dget_keys. destruct (decide (k = "approval_id")) as [->|Hne].
  - split; [|by intros []]. by rewrite dget_dpop_eq; intros [].
  - rewrite dget_dpop_ne by done. tauto.
Qed.

Lemma argument_of method args k :
  arguments_of method args -> k <> "approval_id" -> k ∈ map fst (signature method) -> exists v, dget k args = Some v.
Proof. intros Ha Hne Hk. by destruct (proj2 (Ha k) (conj Hk Hne)) as [v Hv]; exists v. Qed.

(** Two readings of a call: the same request, or a refusal each. *)
Definition same_reading {A} (r1 r2 : result A) : Prop :=
  match r1, r2 with
  | Ok a, Ok b => a = b
  | Err _, Err _ => True
  | _, _ => False
  end.

Lemma ditem_some k d v : dget k d = Some v -> ditem k d = Ok v.
Proof. unfold ditem. by intros ->. Qed.
Lemma dget_or_some k d v w : dget k d = Some v -> dget_or k w d = v.
Proof. unfold dget_or. by intros ->. Qed.

Lemma place_reading args :
  arguments_of "place_order" args -> named (dget_none "trd_env" args) = "SIMULATE" ->
  same_reading (paper_place args) (_paper_parameters "place_order" args).
Proof.
  intros Ha He. unfold paper_place, _paper_parameters. rewrite bool_decide_true by done.
  destruct (argument_of _ _ "session" Ha) as [se Hs]; [done|by compute; set_solver|].
  destruct (argument_of _ _ "trd_env" Ha) as [env Henv]; [done|by compute; set_solver|].
  unfold dget_none in He. rewrite Henv in He. cbn [from_option id] in He.
  rewrite (ditem_some _ _ _ Hs), (ditem_some _ _ _ Henv), (dget_or_some _ _ _ _ Hs). cbn [bind]. rewrite He.
  destruct (normalize_order_session se "SIMULATE"); [|done]. cbn [not_sent bind].
  change (fun k => keep k args) with (fun k => bind (ditem k args) (fun v => Ok (k, v))).
  by destruct (mapM _ PAPER_FIELDS).
Qed.

Lemma str_in_two op : str_in ["NORMAL"; "CANCEL"] op = is_str_eq "NORMAL" op || is_str_eq "CANCEL" op.
Proof. destruct op as [| | | |t| |]; cbn; try done. unfold mem. repeat case_bool_decide; set_solver. Qed.

Lemma modify_reading p args :
  check_write p "SIMULATE" = Ok tt -> arguments_of "modify_order" args ->
  same_reading (paper_modify p args) (_paper_parameters "modify_order" args).
Proof.
  intros Hcw Ha. unfold paper_modify, _paper_parameters. rewrite bool_decide_false by done.
  destruct (argument_of _ _ "modify_order_op" Ha) as [op Hop]; [done|by compute; set_solver|].
  destruct (argument_of _ _ "qty" Ha) as [qty Hqty]; [done|by compute; set_solver|].
  destruct (argument_of _ _ "price" Ha) as [price Hprice]; [done|by compute; set_solver|].
  destruct (argument_of _ _ "adjust_limit" Ha) as [adj Hadj]; [done|by compute; set_solver|].
  destruct (argument_of _ _ "order_id" Ha) as [oid Hoid]; [done|by compute; set_solver|].
  unfold given. rewrite (dget_or_some _ _ _ _ Hop), (ditem_some _ _ _ Hop), (ditem_some _ _ _ Hqty), (ditem_some _ _ _ Hprice),
    (ditem_some _ _ _ Hadj), (ditem_some _ _ _ Hoid). cbn [bind]. rewrite Hcw, str_in_two. cbn [bind].
  destruct (is_str_eq "NORMAL" op) eqn:En; cbn [negb orb refuse_if bind].
  - assert (is_str_eq "CANCEL" op = false) as ->.
    { destruct op; try done. cbn in *. bools. subst. by apply bool_decide_eq_false. }
    cbn [andb refuse_if not_sent bind]. done.
  - destruct (is_str_eq "CANCEL" op) eqn:Ec; cbn [negb andb refuse_if not_sent bind]; [|done].
    rewrite bool_decide_true by done. destruct (is_none qty) eqn:Eq; cbn [negb orb].
    + cbn [bind]. destruct (is_none price) eqn:Ep; cbn [negb orb bind]; [|done].
      by destruct (py_eqb adj (VInt 0)).
    + cbn [bind]. rewrite Eq. done.
Qed.

Lemma cancel_reading args :
  arguments_of "cancel_order" args -> same_reading (paper_cancel args) (_paper_parameters "cancel_order" args).
Proof.
  intros Ha. unfold paper_cancel, _paper_parameters. rewrite bool_decide_false by done.
  destruct (argument_of _ _ "order_id" Ha) as [oid Hoid]; [done|by compute; set_solver|].
  assert (Hop : dget "modify_order_op" args = None).
  { destruct (dget "modify_order_op" args) eqn:E; [|done].
    destruct (proj1 (Ha "modify_order_op")) as [Hin _]; [by eexists|]. compute in Hin. set_solver. }
  unfold dget_or. rewrite Hop, (ditem_some _ _ _ Hoid). done.
Qed.

(** The planner and the method read a SIMULATE call alike.  For the arguments a
    method is called with, in a mode that writes simulated accounts, the request
    that permits were planned for is the one the method hands to its journal,
    field by field, and the planner refuses exactly the calls the method would
    refuse before it. *)
Theorem planned_as_called p method args :
  mem method ["place_order"; "modify_order"; "cancel_order"] = true -> check_write p "SIMULATE" = Ok tt ->
  arguments_of method args -> named (dget_none "trd_env" args) = "SIMULATE" ->
  same_reading (paper_arguments p method args) (_paper_parameters method args).
Proof.
  unfold mem, paper_arguments. intros Hm%bool_decide_eq_true Hcw Ha He.
  repeat (apply elem_of_cons in Hm as [->|Hm]); [..|by apply elem_of_nil in Hm].
  - by apply place_reading.
  - by apply modify_reading.
  - by apply cancel_reading.
Qed.

(** ** One write, in one world *)

(** A bound call names the environment its caller named. *)
Lemma environment_bound method kwargs d :
  bind_arguments (signature method) kwargs = Ok d ->
  dget_none "trd_env" (dpop "approval_id" d) = dget_none "trd_env" kwargs.
Proof.
  intros H. unfold dget_none. rewrite dget_dpop_ne by done.
  destruct (bound_has _ _ _ "trd_env" H) as [w Hw]; [unfold signature, order_defaults; repeat case_bool_decide; cbn; set_solver|].
  rewrite Hw. destruct (bound_argument _ _ _ _ _ H Hw) as [->|Hin]; [done|].
  unfold signature, order_defaults in Hin. repeat case_bool_decide; simpl in Hin;
    repeat (apply elem_of_cons in Hin as [Hin|Hin]; [done|]); by apply not_elem_of_nil in Hin.
Qed.

(** What the decorator does with a call. *)
Lemma decorator_cases e configured i wa wd method kwargs w :
  (exists x, journal_real_mutation e configured i wa wd method kwargs w = (Err x, w))
  \/ (exists d, bind_arguments (signature method) kwargs = Ok d /\ named (dget_none "trd_env" kwargs) <> "REAL"
        /\ journal_real_mutation e configured i wa wd method kwargs w = (Ok (Next (dpop "approval_id" d)), w))
  \/ (named (dget_none "trd_env" kwargs) = "REAL"
      /\ forall a w', journal_real_mutation e configured i wa wd method kwargs w <> (Ok (Next a), w')).
Proof.
  destruct (journal_real_mutation e configured i wa wd method kwargs w) as [r w'] eqn:H.
  unfold journal_real_mutation in H. unfold se_bind at 1, se_lift at 1 in H.
  destruct (bind_arguments (signature method) kwargs) as [d|x] eqn:Hb; [|injection H as <- <-; left; by exists x].
  rewrite (environment_bound _ _ _ Hb) in H.
  destruct (bool_decide (named (dget_none "trd_env" kwargs) = "REAL")) eqn:E; cbn [negb] in H.
  - apply bool_decide_eq_true in E. right. right. split; [done|]. intros a w'' [= -> <-].
    apply se_bind_ok in H as (u & w1 & _ & H). by apply se_bind_ok in H as (r & w2 & _ & H).
  - apply bool_decide_eq_false in E. injection H as <- <-. right. left. by exists d.
Qed.

Definition one_call (kwargs : dict) (r : result reply) (before after : list (string * dict)) : Prop :=
  match r with
  | Ok _ => after = before \/ exists id args, dget "operation_id" kwargs = Some (VStr id) /\ after = (id, args) :: before
  | Err _ => after = before
  end.

Lemma undecorated_cases v x method kwargs d s r s' :
  bind_arguments (signature method) kwargs = Ok d -> named (dget_none "trd_env" kwargs) <> "REAL" ->
  undecorated v x method (dpop "approval_id" d) s = (r, s') ->
  (s' = s /\ is_ok r = false)
  \/ (k_world s' = k_world s /\ k_real s' = k_real s /\ named (dget_none "trd_env" kwargs) = "SIMULATE"
      /\ exists y y', k_paper s = Some y /\ k_paper s' = Some y' /\ one_call kwargs r (y_calls y) (y_calls y')).
Proof.
  intros Hb Hne. unfold undecorated. rewrite (environment_bound _ _ _ Hb).
  destruct (bool_decide (named (dget_none "trd_env" kwargs) = "SIMULATE")) eqn:E.
  - apply bool_decide_eq_true in E. unfold se_bind at 1, se_lift at 1.
    destruct (paper_arguments _ _ _) as [[kind params]|e]; [|intros [= <- <-]; by left].
    unfold _paper_execute. unfold se_bind at 1. destruct (not_sent_se _ _ _ s) as [[u|e] s1] eqn:En.
    + assert (s1 = s) as ->.
      { unfold not_sent_se in En. destruct (se_bind _ _ s) as [r0 s0] eqn:Ec. injection En as Er <-. apply not_sent_ok in Er.
        subst r0. apply se_bind_ok in Ec as ([] & s2 & H1 & Ec). apply raised in H1 as [_ ->].
        apply se_bind_ok in Ec as (s2 & s3 & [= <- <-] & Ec). by apply raised in Ec as [_ ->]. }
      unfold on_paper. destruct (k_paper s) as [y|] eqn:Ep; [|intros [= <- <-]; by left].
      match goal with |- context [Paper.execute ?e ?i ?wa ?wd ?q y] =>
        pose proof (execute_calls_once e i wa wd q y) as Hone;
        destruct (Paper.execute e i wa wd q y) as [r1 y1] eqn:Ex end.
      intros [= <- <-]. right. split_and!; [done..|]. exists y, y1. split_and!; [done..|]. unfold one_call.
      destruct r1 as [rep|e]; [|done]. destruct Hone as [?|(id & args & Hid & Hc)]; [by left|right].
      exists id, args. split; [|done]. cbn [rq_operation_id paper_request] in Hid. by eapply operation_bound.
    + intros [= <- <-]. left. split; [|done]. unfold not_sent_se in En. destruct (se_bind _ _ s) as [r0 s0] eqn:Ec.
      injection En as _ <-. unfold se_bind, se_lift, se_get in Ec.
      destruct (check_write _ _); [|by injection Ec as _ <-]. destruct (k_paper s); by injection Ec as _ <-.
  - apply bool_decide_eq_false in E. unfold not_sent_se, se_bind, se_lift.
    destruct (check_write _ _); intros [= <- <-]; by left.
Qed.

(** A trading call writes once, in the environment it names.  Whatever the
    arguments, the faults and the answers: a REAL call leaves the simulated
    executor alone and makes at most one gateway write, under its operation
    identifier and only when it returns; a SIMULATE call leaves journal, halt,
    controls and gateway of the REAL side alone and makes at most one simulated
    broker call, likewise; any other call is refused and changes nothing. *)
Theorem trading_call_writes_once v x method kwargs s :
  let '(r, s') := trading_call v x method kwargs s in
  let environment := named (dget_none "trd_env" kwargs) in
  (s' = s /\ is_ok r = false)
  \/ (environment = "REAL" /\ k_paper s' = k_paper s /\ k_real s' = k_real s
      /\ one_call kwargs r (writes (k_world s)) (writes (k_world s')))
  \/ (environment = "SIMULATE" /\ k_world s' = k_world s /\ k_real s' = k_real s
      /\ exists y y', k_paper s = Some y /\ k_paper s' = Some y' /\ one_call kwargs r (y_calls y) (y_calls y')).
Proof.
  destruct (trading_call v x method kwargs s) as [r s'] eqn:H. unfold trading_call, se_bind at 1, se_get in H.
  unfold se_bind at 1, on_world in H.
  match type of H with context [journal_real_mutation ?e ?c ?i ?wa ?wd ?m ?k ?w] =>
    pose proof (real_mutation_writes_once e c i wa wd m k w) as Hone;
    destruct (decorator_cases e c i wa wd m k w) as [(z & Hz)|[(d & Hb & Hne & Hz)|(Hr & Hz)]];
    [rewrite Hz in H|rewrite Hz in H|destruct (journal_real_mutation e c i wa wd m k w) as [[[rep|a]|z] w'] eqn:Ej;
      [| |]] end.
  - injection H as <- <-. left. by destruct s.
  - assert (Hs : {| k_paper := k_paper s; k_real := k_real s; k_world := k_world s |} = s) by (by destruct s).
    rewrite Hs in H. destruct (undecorated_cases _ _ _ _ _ _ _ _ Hb Hne H) as [?|(H1 & H2 & H3 & H4)]; [by left|].
    right. right. by split_and!.
  - injection H as <- <-. right. left. by split_and!.
  - by destruct (Hz a w').
  - injection H as <- <-. right. left. by split_and!.
Qed.

(** ** From the plan to the journal *)

(** An account a text names is the number it reads as. *)
Lemma parse_decimal_us prev l : forallb is_decimal l = true -> parse_digits_us prev l = Some l.
Proof. revert prev. induction l as [|c l IH]; intros prev H; [done|]. cbn in *. bools. rewrite H, IH; done. Qed.

Lemma listed_number v n l : account_listed v (Some l) = true -> py_int v = Ok n -> 0 <= n /\ n ∈ l.
Proof.
  unfold account_listed. destruct (str_scalar v) as [t|] eqn:Et; [|done]. intros H Hn. bools.
  assert (Ht : n = int_of t).
  { destruct v as [|b|z| |u| |]; try done; cbn in Et, Hn; injection Et as <-.
    - destruct b; by vm_compute in H1.
    - injection Hn as <-. unfold str_int in *. destruct (z <? 0) eqn:Ez; [by vm_compute in H1|].
      symmetry. apply int_of_str. lia.
    - pose proof H1 as Hd. unfold isdecimal in Hd. bools. rewrite strip_decimal in Hn by done.
      assert (Hs : split_sign u = (false, u)).
      { unfold split_sign. destruct u as [|c u]; [done|]. cbn in H3. bools.
        unfold is_sign. by rewrite !decimal_not. }
      rewrite Hs, parse_decimal_us in Hn by (by rewrite <- str_forall_chars).
      destruct u as [|c u]; [done|]. cbn [chars_of] in Hn. by injection Hn as <-. }
  subst n. split; [by apply int_of_nonneg|done].
Qed.

Lemma number_listed n l : 0 <= n -> n ∈ l -> account_listed (VInt n) (Some l) = true.
Proof.
  intros Hn Hin. unfold account_listed. cbn [str_scalar]. unfold str_int. rewrite (proj2 (Z.ltb_ge _ _)) by done.
  pose proof (str_nat_isdecimal n Hn) as Hd. rewrite (isdecimal_isascii _ Hd), Hd, int_of_str by done.
  by rewrite bool_decide_true.
Qed.

(** The account a plan resolved resolves to itself. *)
Lemma account_again e accounts acc_id n :
  0 < n -> Paper._account e accounts acc_id = Ok n -> Paper._account e accounts (VInt n) = Ok n.
Proof.
  intros Hn H. pose proof (account_usable _ _ _ _ H) as (Hin & rows0 & a & Hr & _ & Hnum & Hacc & _ & _).
  unfold Paper._account in *. apply bind_ok in H as (req & _ & H). apply bind_ok in H as ([] & _ & H).
  apply bind_ok in H as ([] & _ & H). apply bind_ok in H as (rows & Hrows & H). apply bind_ok in H as (found & Hf & H).
  assert (Hel : n ∈ remove_dups (omap id found)).
  { destruct (negb (req =? 0)); [case_bool_decide; [by simplify_eq|done]|].
    destruct (remove_dups (omap id found)) as [|b [|? ?]]; try done. simplify_eq. by left. }
  assert (Hl : account_access_allowed (e_grants e) (VStr "SIMULATE") (VInt n) true = true).
  { unfold account_access_allowed in *. destruct (e_grants e) as [g|]; [|done].
    apply andb_true_iff in Hacc as [-> Hl]. cbn [andb].
    destruct (accounts_in g _) as [l|]; [|done]. apply (listed_number _ n) in Hl as [? ?]; [by apply number_listed|].
    unfold account_number, ditem in Hnum. unfold dget_none. destruct (dget "acc_id" a); done. }
  unfold _exact_account_id. cbn [bind]. rewrite (proj2 (Z.ltb_ge n 0)) by lia. cbn [refuse_if bind].
  rewrite (proj2 (Z.eqb_neq n 0)) by lia. cbn [negb andb]. rewrite (bool_decide_true (n ∈ _)) by done. cbn [negb refuse_if bind].
  unfold check_account_access. rewrite Hl. cbn [bind]. rewrite Hrows. cbn [bind]. rewrite Hf. cbn [bind negb].
  by rewrite bool_decide_true.
Qed.

(** Naming the account changes no other argument. *)
Lemma arguments_named method args v : arguments_of method args -> arguments_of method (dset "acc_id" v args).
Proof.
  intros Ha k. destruct (decide (k = "acc_id")) as [->|Hne]; [|rewrite dget_dset_ne by done; apply Ha].
  rewrite dget_dset_eq. split; [intros _|by eexists]. split; [|done].
  unfold signature, order_defaults. repeat case_bool_decide; cbn; set_solver.
Qed.

Lemma parameters_named method args v : _paper_parameters method (dset "acc_id" v args) = _paper_parameters method args.
Proof.
  unfold _paper_parameters, dget_or, given, PAPER_FIELDS. cbn [mapM]. rewrite !ditem_dset_ne, !dget_dset_ne by done. done.
Qed.

Lemma default_session : s_none = "N/A" -> normalize_order_session (VStr "N/A") "SIMULATE" = Ok s_rth.
Proof.
  intros Hs. unfold normalize_order_session. change (upper (strip "N/A")) with "N/A". rewrite (bool_decide_false ("N/A" = _)) by done.
  unfold mem. rewrite (bool_decide_true ("N/A" ∈ _)) by (unfold DOCUMENTED_SESSIONS; rewrite Hs; left).
  rewrite (bool_decide_true (_ = "SIMULATE")) by done. rewrite (bool_decide_true ("N/A" ∈ _)) by (rewrite Hs; left). done.
Qed.

(** A request without a session is the journal's own. *)
Lemma dpop_absent k d : dget k d = None -> dpop k d = d.
Proof.
  unfold dpop. induction d as [|[k' v] d IH]; [done|]. cbn. destruct (bool_decide (k = k')); [done|]. intros H.
  cbn. by rewrite IH.
Qed.

Lemma paper_sessionless method args kind params :
  _paper_parameters method args = Ok (kind, params) -> dget "session" params = None.
Proof.
  unfold _paper_parameters. destruct (bool_decide (method = "place_order")).
  - intros H. apply bind_ok in H as (x & _ & H). apply bind_ok in H as (fields & Hf & [= _ <-]).
    destruct (dget "session" fields) eqn:E; [|done]. exfalso.
    assert (Hk : "session" ∈ map fst fields) by (apply dget_keys; by eexists).
    apply list_elem_of_In, in_map_iff in Hk as ([k w] & Hk & Hin). cbn in Hk. subst k.
    apply list_elem_of_In in Hin. destruct (mapM_elem _ _ _ _ Hf Hin) as (k & Hk & He).
    apply bind_ok in He as (u & _ & [= -> _]). unfold PAPER_FIELDS in Hk.
    repeat (apply elem_of_cons in Hk as [Hk|Hk]; [done|]). by apply elem_of_nil in Hk.
  - intros H. apply bind_ok in H as (x & _ & H). apply bind_ok in H as (oid & _ & H).
    destruct (is_str_eq "NORMAL" _).
    + apply bind_ok in H as (adj & _ & H). apply bind_ok in H as (q & Hq & H). apply bind_ok in H as (p & Hp & [= _ <-]).
      unfold given in Hq, Hp. apply bind_ok in Hq as (qv & _ & [= <-]). apply bind_ok in Hp as (pv & _ & [= <-]).
      by destruct (is_none qv), (is_none pv).
    + by apply bind_ok in H as (u & _ & [= _ <-]).
Qed.
(** What the journal's first phase needs of a call, and the phase passing it on. *)
Lemma front_passes e i q y op epoch :
  s_none = "N/A" -> check_write (e_policy e) "SIMULATE" = Ok tt ->
  rq_operation_id q = VStr op -> rq_epoch q = VStr epoch -> validate_token (VStr op) (VStr epoch) = Ok tt ->
  dget "session" (rq_params q) = None -> _schema (rq_kind q) (rq_params q) = Ok tt ->
  y_late_failure y = ∅ -> row_view op (s_db (y_store y)) = None -> journal_works y -> io_fault (i 0%nat) = None ->
  front e i q y = (Ok (Next (op, epoch, rq_params q)), y).
Proof.
  intros Hs Hcw Hop Hep Htok Hse Hsch Hlate Hrow Hw Hi.
  assert (Hc : checked_request e q = Ok (op, epoch, rq_params q)).
  { unfold checked_request. rewrite Hcw, Hop, Hep, Htok. cbn [bind].
    destruct (bool_decide (rq_kind q = PLACE)).
    - unfold dget_or. rewrite Hse. cbn [from_option id default]. rewrite (default_session Hs). cbn [bind].
      by rewrite (dpop_absent _ _ Hse), Hsch.
    - cbn [bind]. by rewrite Hsch. }
  unfold front. rewrite Hc. cbn [not_sent]. rewrite Hlate, lookup_empty. unfold se_bind.
  by rewrite (lookup_works _ _ _ Hw Hi), Hrow.
Qed.

(** A simulated write that was planned gets to its journal.  When permits were
    planned for a SIMULATE call, the method, called with the parameters the plan
    returned on the desk it left, hands the planned request to the journal; the
    journal's first phase, if it can read, passes it on to admission under the
    call's own operation and epoch; and the account resolved there is the one
    the permits were planned for. *)
Theorem planned_paper_reaches_journal v i method params s plan params' s' (x : nat -> io) :
  s_none = "N/A" -> accounts_positive v -> arguments_of method params -> mem method WRITES = true ->
  named (dget_none "trd_env" params) = "SIMULATE" ->
  plan_write v i method params s = (Ok (plan, params'), s') -> pl_requests plan <> [] -> io_fault (x 0%nat) = None ->
  exists kind request operation account y,
    plan = write_plan method (paper_requests kind method account) /\ k_paper s' = Some y
    /\ paper_arguments (sv_policy v) method params' = Ok (kind, request)
    /\ dget "operation_id" params = Some (VStr operation)
    /\ let q := paper_request kind request params' in
       front (sv_setting v) x q y = (Ok (Next (operation, s_epoch (y_store y), request)), y)
       /\ Paper._account (sv_setting v) (sv_accounts v) (rq_acc_id q) = Ok account.
Proof.
  intros Hs Hv Ha Hm He H Hne Hx. apply write_steps in H as [[-> _]|(env & acc & -> & -> & Hn & Hcw & [[-> H]|[-> H]])];
    [done|by rewrite He in Hn|].
  destruct H as (kind & request & acc_id & op & Hp & Hc & Hacc & Hsch & Htok & Hf & ->).
  destruct Hf as (y & Hy & Hlate & Hrow & Hw & Hop & Hep). unfold executor in Hy. rewrite bool_decide_false in Hy by done.
  pose proof (paper_account_positive _ _ _ Hv Hacc) as Hpos.
  assert (Hpa : paper_arguments (sv_policy v) method (dset "acc_id" (VInt acc) params) = Ok (kind, request)).
  { assert (Hr : same_reading (paper_arguments (sv_policy v) method (dset "acc_id" (VInt acc) params))
                   (_paper_parameters method (dset "acc_id" (VInt acc) params))).
    { unfold paper_arguments. unfold WRITES, MUTATIONS, mem in Hm. apply bool_decide_eq_true in Hm.
      repeat (apply elem_of_cons in Hm as [->|Hm]); [..|by apply elem_of_nil in Hm]; [|done| |].
      - apply place_reading; [by apply arguments_named|]. unfold dget_none. by rewrite dget_dset_ne.
      - apply modify_reading; [done|by apply arguments_named].
      - apply cancel_reading. by apply arguments_named. }
    rewrite parameters_named, Hp in Hr. unfold same_reading in Hr.
    destruct (paper_arguments _ _ _) as [a|]; [by rewrite Hr|done]. }
  exists kind, request, op, acc, y. split_and!; [done..|]. cbv zeta. split.
  - apply (front_passes _ _ (paper_request kind request (dset "acc_id" (VInt acc) params))); cbn; try done.
    + unfold dget_none. rewrite dget_dset_ne by done. by rewrite Hop.
    + unfold dget_none. rewrite dget_dset_ne by done. by rewrite Hep.
    + unfold dget_none in Htok. by rewrite Hop, Hep in Htok.
    + by eapply paper_sessionless.
  - cbn [rq_acc_id paper_request]. unfold dget_or. rewrite dget_dset_eq. by eapply account_again.
Qed.
End calls.

(** ** Examples *)

Definition paper_service : service :=
  {| sv_policy := e_policy demo_setting; sv_grants := None; sv_credential := false; sv_allowlist := [7]; sv_connected := true;
     sv_sdk_accounts := aa_accounts demo_admission; sv_lookup := wa_lookup (demo_write RetError (RetOk tt));
     sv_query := fun _ _ => RetError; sv_checked_at := "2026-01-02T00:00:00Z" |}.
Definition paper_desk : desk := {| k_paper := Some demo_paper; k_real := false; k_world := real_world1 |}.
Definition paper_kwargs (op : string) : dict :=
  [("code", VStr "US.AAPL"); ("price", VStr "187.50"); ("qty", VInt 5); ("trd_side", VStr "BUY");
   ("trd_env", VStr " simulate "); ("operation_id", VStr op); ("admission_epoch", VStr "e1")].
Definition calm_call (b : answer (option string * result (list dict))) : call_io :=
  {| cl_journal := fun _ => calm; cl_connected := true; cl_reserve := Ok tt; cl_tag := "tag-1";
     cl_paper := demo_dispatch b; cl_real := demo_write b (RetOk tt) |}.

(** One simulated order, and a misspelt environment. *)
Example trading_call_ex :
  let '(r, s) := trading_call paper_service (calm_call acknowledged) "place_order" (paper_kwargs "op-1") paper_desk in
  is_ok r = true /\ option_map (fun y => map fst (y_calls y)) (k_paper s) = Some ["op-1"] /\ writes (k_world s) = []
  /\ fst (trading_call paper_service (calm_call acknowledged) "place_order"
            (dset "trd_env" (VStr "PAPER") (paper_kwargs "op-1")) paper_desk)
     = not_sent false false (Err (TradingPolicyError "is not permitted")).
Proof. vm_compute. split_and!; done. Qed.

(** The arguments of the call, and its plan. *)
Definition paper_bound (op : string) : dict :=
  match bind_arguments (signature "place_order") (paper_kwargs op) with Ok d => dpop "approval_id" d | Err _ => [] end.
Lemma paper_bound_arguments op : arguments_of "place_order" (paper_bound op).
Proof. apply (arguments_bound "place_order" (paper_kwargs op)). reflexivity. Qed.

Lemma planned_as_called_witness :
  same_reading (paper_arguments (e_policy demo_setting) "place_order" (paper_bound "op-1"))
    (_paper_parameters "place_order" (paper_bound "op-1")).
Proof.
  apply (planned_as_called (e_policy demo_setting) "place_order" (paper_bound "op-1"));
    [reflexivity|reflexivity|apply paper_bound_arguments|reflexivity].
Defined.

Definition paper_plan : AdmissionPlan :=
  write_plan "place_order" [snapshot_quota; account_quota "place_order" 7].
Lemma paper_planned :
  plan_write paper_service demo_ios "place_order" (paper_bound "op-1") paper_desk
  = (Ok (paper_plan, dset "acc_id" (VInt 7) (paper_bound "op-1")), paper_desk).
Proof. vm_compute. reflexivity. Qed.
Lemma paper_positive : accounts_positive paper_service.
Proof. split; intros a Ha; cbn in Ha; set_solver by lia. Qed.

Lemma planned_paper_reaches_journal_witness :
  exists q y account, k_paper paper_desk = Some y
    /\ front (sv_setting paper_service) calm q y = (Ok (Next ("op-1", s_epoch (y_store y), rq_params q)), y)
    /\ Paper._account (sv_setting paper_service) (sv_accounts paper_service) (rq_acc_id q) = Ok account.
Proof.
  destruct (planned_paper_reaches_journal (SN := sdk_sessions) paper_service demo_ios "place_order" (paper_bound "op-1") paper_desk paper_plan
              (dset "acc_id" (VInt 7) (paper_bound "op-1")) paper_desk calm eq_refl paper_positive (paper_bound_arguments "op-1")
              eq_refl eq_refl paper_planned)
    as (kind & request & operation & account & y & _ & Hy & _ & Hop & T); [discriminate|reflexivity|].
  cbv zeta in T. destruct T as [T1 T2].
  exists (paper_request kind request (dset "acc_id" (VInt 7) (paper_bound "op-1"))), y, account.
  injection Hop as <-. split; [exact Hy|]. split; [exact T1|exact T2].
Defined.
