(* ===== verification/Offload.v ===== *)
(** tools/offload.py and [run_async] of services/broker_dispatch.py: a tool call
    that is not a broker read is planned, waits for its permits, and runs on a
    worker thread as a lease of those permits.  Other tasks move the budgets
    while it waits.  Cancellation of the waiting task is left out. *)

From S2P Require Import Prelude PyStr PyVal OrderErrors Identity Store Validation Policy Rules ClientAuth RateLimit Dispatch Prep.
From S2P Require Import Paper PaperOnce PaperThm RealRequest Real RealOnce RealThm Prepare Admission TradeCall.

#[local] Open Scope list_scope.

Section wait.
Context {B : Type} {BB : Bucket B} {W : Type}.
Implicit Types d : disp B W.

(** ** Waiting for permits *)

(** One pass of the waiting loop: its three clock readings, and what the other
    tasks do while it sleeps. *)
Record pass : Type := { ps_now : Z; ps_now' : Z; ps_now'' : Z; ps_others : disp B W -> disp B W }.

(** The loop of [acquire]; [Ok None] when the passes end before it does. *)
Fixpoint waiting (k : pool_key) (weight deadline ticket : Z) (passes : list pass) : SE (disp B W) (option Z) :=
  match passes with
  | [] => se_ret None
  | p :: passes =>
      (r <- on_pool k (acquire_pass weight deadline ticket (ps_now p) (ps_now' p) (ps_now'' p)) ;;
       match r with
       | Some rid => se_ret (Some rid)
       | None => _ <- se_modify (ps_others p) ;; waiting k weight deadline ticket passes
       end)%se
  end.

(** [acquire]: the ticket leaves the queue however the loop ends. *)
Definition acquire (r : QuotaRequest) (deadline ticket now : Z) (passes : list pass) : SE (disp B W) (option slot) :=
  (do! (k, l) := limiter_for r in
   if max_wait (l_policy l) =? 0 then
     rid <- on_pool k (RateLimit.reserve (q_weight r) now) ;; se_ret (Some {| s_pool := k; s_rid := rid |})
   else
     _ <- on_pool k (join ticket) ;;
     fun d =>
       match waiting k (q_weight r) deadline ticket passes d with
       | (Ok None, d1) => (Ok None, d1)
       | (Ok (Some rid), d1) =>
           (_ <- on_pool k (leave ticket) ;; se_ret (Some {| s_pool := k; s_rid := rid |}))%se d1
       | (Err e, d1) => let '(_, d2) := on_pool k (leave ticket) d1 in (Err e, d2)
       end)%se.

(** The permits of a bundle, one pool after the other: all of them, still
    waiting for one, or the ones there were when one failed. *)
Inductive grant : Type := Granted | Waiting | Refused (e : exn).

(** The queue ticket, the clock and the passes of the n-th wait. *)
Record waits : Type := { w_ticket : nat -> Z; w_now : nat -> Z; w_passes : nat -> list pass }.

Fixpoint acquire_all (x : waits) (deadline : Z) (n : nat) (wanted : list (pool_key * QuotaRequest))
    (slots : list (pool_key * slot)) : disp B W -> (list (pool_key * slot) * grant) * disp B W :=
  match wanted with
  | [] => fun d => ((slots, Granted), d)
  | (k, r) :: wanted => fun d =>
      match acquire r deadline (w_ticket x n) (w_now x n) (w_passes x n) d with
      | (Ok (Some s), d1) => acquire_all x deadline (S n) wanted (slots ++ [(k, s)]) d1
      | (Ok None, d1) => ((slots, Waiting), d1)
      | (Err e, d1) => ((slots, Refused e), d1)
      end
  end.

Definition new_lease (slots : list (pool_key * slot)) : lease :=
  {| le_slots := slots; le_closed := false; le_cancelled := false; le_protected := [] |}.

(** [run_async] outside a read scope; [start] is the clock when it is called. *)
Definition run_async {A} (x : waits) (start : Z) (requests : list QuotaRequest) (body : SE (disp B W) A)
    : SE (disp B W) (option A) := fun d =>
  match _merged requests with
  | Err e => (Err e, d)
  | Ok wanted =>
      match acquire_all x (start + d_max_wait d) 0 wanted [] d with
      | ((slots, Waiting), d1) => (Ok None, d1)
      | ((slots, Refused e), d1) => let '(_, d2) := release_all (map snd slots) d1 in (Err e, d2)
      | ((slots, Granted), d1) =>
          let '(r, d2) := body (with_lease (Some (new_lease slots)) (with_slots (Some slots) d1)) in
          let '(_, d3) := release_all (map snd slots) (with_lease (d_lease d1) (with_slots (d_slots d1) d2)) in
          (match r with Ok a => Ok (Some a) | Err e => Err e end, d3)
      end
  end.
End wait.

(** ** A mutating tool call *)

Section tool.
Context `{SN : SessionNames} {B : Type} {BB : Bucket B}.
Context (status_known : string -> bool) (ca : string) (security_firm : val).
Implicit Types d : disp B desk.

Definition on_desk {A} (c : SE desk A) : SE (disp B desk) A := _invoke c.

(** The dispatcher's answer to the reservation of a write, asked where the body
    of the call starts. *)
Definition reservation (v : service) (method : string) (params : dict) (now : Z) (d : disp B desk) : result unit :=
  match dget "acc_id" params with
  | Some (VInt account) =>
      fst (Dispatch.reserve now
             (write_requests v (bool_decide (named (dget_none "trd_env" params) = "REAL")) method account) (se_ret tt) d)
  | _ => Ok tt
  end.

Definition with_reserve (r : result unit) (x : call_io) : call_io :=
  {| cl_journal := cl_journal x; cl_connected := cl_connected x; cl_reserve := r; cl_tag := cl_tag x;
     cl_paper := cl_paper x;
     cl_real := {| wa_connected := wa_connected (cl_real x); wa_accounts := wa_accounts (cl_real x);
                   wa_order := wa_order (cl_real x); wa_lookup := wa_lookup (cl_real x);
                   wa_risk_broken := wa_risk_broken (cl_real x); wa_reserve := r;
                   wa_charge := wa_charge (cl_real x); wa_confirm := wa_confirm (cl_real x);
                   wa_unlock := wa_unlock (cl_real x); wa_broker := wa_broker (cl_real x);
                   wa_lock := wa_lock (cl_real x); wa_now := wa_now (cl_real x) |} |}.

(** The service's method, on the parameters the plan returned. *)
Definition service_call (v : service) (x : call_io) (now : Z) (method : string) (params : dict) : SE (disp B desk) reply :=
  fun d => on_desk (trading_call v (with_reserve (reservation v method params now d) x) method params) d.

(** [run_blocking] for a method that is not a broker read: [i] and [i'] say how
    the journal answers the planner and the recovery after a wait. *)
Definition run_blocking (v : service) (i i' : nat -> io) (x : call_io) (w : waits) (start now : Z) (method : string)
    (kwargs : dict) : SE (disp B desk) (option reply) :=
  (bound <- se_lift (bind_arguments (signature method) kwargs) ;;
   do! (plan, params) := on_desk (prepare_trade_call status_known ca security_firm v i method bound) in
   fun d =>
     match run_async w start (pl_requests plan) (service_call v x now method params) d with
     | (Err (ProviderRateLimitError after), d1) =>
         match pl_write_operation plan with
         | Some operation =>
             (r <- on_desk (recover_admission v i' method bound) ;;
              match r with
              | Some reply => se_ret (Some reply)
              | None => se_raise (OrderNotSentError operation false)
              end)%se d1
         | None => (Err (ProviderRateLimitError after), d1)
         end
     | (r, d1) => (r, d1)
     end)%se.
End tool.

(** ** The permits a wait ends with *)

Lemma try_reserve_grants {B} {BB : Bucket B} weight ticket now (l : limiter B) rid wait l' :
  _try_reserve weight ticket now l = (Ok (Some rid, wait), l') -> remaining rid l' = weight.
Proof.
  unfold _try_reserve, try_admit, remaining. intros H.
  repeat (case_match; try done); simplify_eq; unfold add_reservation; cbn [l_pending];
    apply (f_equal (default 0)), lookup_insert_eq || (rewrite lookup_insert_eq; reflexivity).
Qed.

Section grants.
Context {B : Type} {BB : Bucket B} {W : Type}.
(** What other tasks may do to the world meanwhile. *)
Context (other : relation W) {other_preorder : PreOrder other}.
Implicit Types d : disp B W.

(** Other tasks moved the world and the budgets, but none of these permits. *)
Definition keeps_slots (mine : list slot) (d d' : disp B W) : Prop :=
  other (d_world d) (d_world d') /\ d_slots d' = d_slots d /\ d_lease d' = d_lease d /\ d_max_wait d' = d_max_wait d
  /\ forall s, s ∈ mine -> slot_remaining s d' = slot_remaining s d.
#[export] Instance keeps_preorder mine : PreOrder (keeps_slots mine).
Proof.
  split; [intros d; by split_and!|]. intros a b c (? & ? & ? & ? & E1) (? & ? & ? & ? & E2).
  split_and!; try congruence; [by transitivity (d_world b)|]. intros s Hs. by rewrite E2, E1.
Qed.

(** What they do while this call sleeps. *)
Definition courteous (mine : list slot) (f : disp B W -> disp B W) : Prop := forall d, keeps_slots mine d (f d).

Lemma on_pool_keeps {A} mine k (c : SE (limiter B) A) d r d' :
  (forall s, s ∈ mine -> s_pool s <> k) -> on_pool k c d = (r, d') -> keeps_slots mine d d'.
Proof.
  intros Hk H. pose proof (on_pool_world _ _ _ _ _ H) as (Hw & ? & ?). unfold on_pool in H.
  destruct (kget k (d_limiters d)) as [l|] eqn:El; [|injection H as _ <-; reflexivity].
  destruct (c l) as [x l']. injection H as _ <-. split_and!; [by rewrite Hw|done..|]. intros s Hs. unfold slot_remaining.
  cbn [d_limiters with_limiters]. rewrite kget_kset, bool_decide_false by (by apply Hk). done.
Qed.

Lemma limiter_for_keeps mine r d x d' : limiter_for r d = (x, d') -> keeps_slots mine d d'.
Proof.
  intros H. pose proof (limiter_for_world _ _ _ _ H) as (Hw & ? & ?). unfold limiter_for in H.
  destruct (key r) as [k|]; [|injection H as _ <-; reflexivity].
  destruct (kget k (d_limiters d)) as [l|] eqn:El; [injection H as _ <-; reflexivity|].
  destruct (operation_policy (q_operation r)) as [p|]; [|injection H as _ <-; reflexivity].
  destruct (policy_valid _); [|injection H as _ <-; reflexivity]. injection H as _ <-.
  split_and!; [by rewrite Hw|done..|]. intros s _. unfold slot_remaining. cbn [d_limiters with_limiters]. rewrite kget_kset.
  case_bool_decide as E; [|done]. rewrite E, El. unfold remaining, new_limiter. cbn [l_pending]. by rewrite lookup_empty.
Qed.

Lemma limiter_for_key r d k l d' : limiter_for r d = (Ok (k, l), d') -> key r = Ok k.
Proof.
  unfold limiter_for. destruct (key r) as [k0|]; [|done]. destruct (kget k0 (d_limiters d)); [by intros [= -> _ _]|].
  destruct (operation_policy _); [|done]. destruct (policy_valid _); [|done]. by intros [= -> _ _].
Qed.

Lemma on_pool_ok {A} k (c : SE (limiter B) A) d a d' :
  on_pool k c d = (Ok a, d') -> exists l l', kget k (d_limiters d) = Some l /\ c l = (Ok a, l') /\ kget k (d_limiters d') = Some l'.
Proof.
  unfold on_pool. destruct (kget k (d_limiters d)) as [l|]; [|done]. destruct (c l) as [x l'] eqn:E. intros [= -> <-].
  exists l, l'. split_and!; try done. cbn. by rewrite kget_kset, bool_decide_true.
Qed.

Definition away (k : pool_key) (mine : list slot) : Prop := forall s, s ∈ mine -> s_pool s <> k.
Definition passes_ok (mine : list slot) (x : waits (B := B) (W := W)) : Prop :=
  forall n p, p ∈ w_passes x n -> courteous mine (ps_others p).

Lemma pass_grants weight deadline ticket now now' now'' (l : limiter B) rid l' :
  acquire_pass weight deadline ticket now now' now'' l = (Ok (Some rid), l') -> remaining rid l' = weight.
Proof.
  unfold acquire_pass. destruct (deadline <? now); [done|].
  destruct (_try_reserve weight (Some ticket) now' l) as [[[[r|] t]|e] l1] eqn:E; [|by destruct (_ <=? 0)|done].
  intros [= -> ->]. by eapply try_reserve_grants.
Qed.

Lemma waiting_keeps mine k weight deadline ticket ps d r d' :
  away k mine -> (forall p, p ∈ ps -> courteous mine (ps_others p)) ->
  waiting k weight deadline ticket ps d = (r, d') ->
  keeps_slots mine d d' /\ (forall rid, r = Ok (Some rid) -> slot_remaining {| s_pool := k; s_rid := rid |} d' = weight).
Proof.
  intros Hk. revert d. induction ps as [|p ps IH]; intros d Hp H; cbn in H; [injection H as <- <-; by split|].
  unfold se_bind in H. destruct (on_pool k _ d) as [[[rid|]|e] d1] eqn:E.
  - injection H as <- <-. split; [by eapply on_pool_keeps|]. intros rid' [= <-].
    apply on_pool_ok in E as (l & l' & _ & E & Hl). unfold slot_remaining. cbn. rewrite Hl. by eapply pass_grants.
  - unfold se_modify in H. destruct (IH (ps_others p d1)) as [Hk2 Hr]; [intros q Hq; apply Hp; by right|done|].
    split; [|done]. transitivity d1; [by eapply on_pool_keeps|]. transitivity (ps_others p d1); [|done]. apply Hp. by left.
  - injection H as <- <-. split; [by eapply on_pool_keeps|done].
Qed.

Lemma courteous_sub mine mine' f : (forall s, s ∈ mine -> s ∈ mine') -> courteous mine' f -> courteous mine f.
Proof. intros Hs Hc d. destruct (Hc d) as (? & ? & ? & ? & Hr). split_and!; try done. intros s Hin. by apply Hr, Hs. Qed.

Lemma acquire_keeps mine r deadline ticket now ps d a d' k :
  key r = Ok k -> away k mine -> (forall p, p ∈ ps -> courteous mine (ps_others p)) ->
  acquire r deadline ticket now ps d = (a, d') ->
  keeps_slots mine d d' /\ (forall s, a = Ok (Some s) -> s_pool s = k /\ slot_remaining s d' = q_weight r).
Proof.
  intros Hk Ha Hp. unfold acquire, se_bind. destruct (limiter_for r d) as [[[k' l]|e] d1] eqn:E1;
    pose proof (limiter_for_keeps mine _ _ _ _ E1) as K1; [|intros [= <- <-]; by split].
  apply limiter_for_key in E1. rewrite Hk in E1. injection E1 as <-. destruct (max_wait (l_policy l) =? 0).
  - destruct (on_pool k _ d1) as [[rid|e] d2] eqn:E2; pose proof (on_pool_keeps mine _ _ _ _ _ Ha E2) as K2;
      intros [= <- <-]; (split; [by transitivity d1|]); [|done].
    intros s [= <-]. split; [done|]. apply on_pool_ok in E2 as (l1 & l2 & _ & E2 & Hl). unfold slot_remaining. cbn. rewrite Hl.
    unfold RateLimit.reserve in E2. apply se_bind_ok in E2 as ([[rid'|] wait] & l3 & E2 & E3); [|done].
    injection E3 as <- <-. by eapply try_reserve_grants.
  - destruct (on_pool k (join ticket) d1) as [[u|e] d2] eqn:E2; pose proof (on_pool_keeps mine _ _ _ _ _ Ha E2) as K2;
      [|intros [= <- <-]; split; [by transitivity d1|done]].
    destruct (waiting k (q_weight r) deadline ticket ps d2) as [w d3] eqn:E3.
    destruct (waiting_keeps mine _ _ _ _ _ _ _ _ Ha Hp E3) as [K3 Hw].
    assert (K : keeps_slots mine d d3) by (transitivity d1; [done|]; by transitivity d2).
    destruct w as [[rid|]|e].
    + destruct (on_pool k (leave ticket) d3) as [[u4|e4] d4] eqn:E4; pose proof (on_pool_keeps mine _ _ _ _ _ Ha E4) as K4;
        intros [= <- <-]; (split; [by transitivity d3|]); [|done].
      intros s [= <-]. split; [done|]. rewrite <-(Hw rid eq_refl). unfold slot_remaining. cbn [s_pool s_rid].
      unfold on_pool in E4. destruct (kget k (d_limiters d3)) as [l4|]; [|done]. unfold leave in E4. injection E4 as <- <-.
      cbn [d_limiters with_limiters]. by rewrite kget_kset, bool_decide_true.
    + intros [= <- <-]. by split.
    + destruct (on_pool k (leave ticket) d3) as [u4 d4] eqn:E4. pose proof (on_pool_keeps mine _ _ _ _ _ Ha E4) as K4.
      intros [= <- <-]. split; [by transitivity d3|done].
Qed.

Lemma kget_in {A} k (a : A) l : NoDup (map fst l) -> (k, a) ∈ l -> kget k l = Some a.
Proof.
  induction l as [|[k1 a1] l IH]; intros Hn Hin; [by apply elem_of_nil in Hin|]. cbn in *.
  apply NoDup_cons in Hn as [Hk Hn]. apply elem_of_cons in Hin as [[= -> ->]|Hin]; [by rewrite bool_decide_true|].
  rewrite bool_decide_false; [by apply IH|]. intros ->. apply Hk, list_elem_of_In, in_map_iff.
  exists (k1, a). split; [done|by apply list_elem_of_In].
Qed.

(** Slots under their own keys. *)
Definition filed (slots : list (pool_key * slot)) : Prop :=
  NoDup (map fst slots) /\ forall k s, (k, s) ∈ slots -> s_pool s = k.

Lemma filed_away k slots : filed slots -> k ∉ map fst slots -> away k (map snd slots).
Proof.
  intros [_ Hf] Hk s Hs Heq. apply list_elem_of_In, in_map_iff in Hs as ([k' s'] & <- & Hin). apply list_elem_of_In in Hin.
  apply Hk. rewrite <- Heq. cbn. rewrite (Hf _ _ Hin). apply list_elem_of_In, in_map_iff.
  exists (k', s'). split; [done|by apply list_elem_of_In].
Qed.

Lemma acquire_all_grants x deadline n wanted got d slots g d' :
  (forall k r, (k, r) ∈ wanted -> key r = Ok k) -> filed got -> NoDup (map fst got ++ map fst wanted) ->
  passes_ok (map snd slots) x -> acquire_all x deadline n wanted got d = ((slots, g), d') ->
  (exists more, slots = got ++ more) /\ filed slots /\ keeps_slots (map snd got) d d'
  /\ (g = Granted -> forall k r, (k, r) ∈ wanted -> exists s, kget k slots = Some s /\ slot_remaining s d' = q_weight r).
Proof.
  revert n got d. induction wanted as [|[k r] wanted IH]; intros n got d Hkeys Hf Hn Hp H; cbn [acquire_all] in H.
  - injection H as <- <- <-. split; [by exists []; rewrite app_nil_r|]. split; [done|]. split; [reflexivity|].
    intros _ k r Hin. by apply elem_of_nil in Hin.
  - assert (Hk : k ∉ map fst got).
    { intros Hin. apply NoDup_app in Hn as (_ & Hd & _). apply (Hd k Hin). by left. }
    destruct (acquire r deadline _ _ _ d) as [a d1] eqn:E.
    assert (Hin : exists more, slots = got ++ more).
    { destruct a as [[s|]|e]; [|injection H as <- _ _; exists []; by rewrite app_nil_r..].
      clear -H. assert (Hpre : forall w m got d, acquire_all x deadline m w got d = ((slots, g), d') -> exists more, slots = got ++ more).
      { clear. induction w as [|[k r] w IH]; intros m got d H; cbn in H; [injection H as <- _ _; exists []; by rewrite app_nil_r|].
        destruct (acquire r deadline _ _ _ d) as [[[s|]|e] d1]; [|injection H as <- _ _; exists []; by rewrite app_nil_r..].
        apply IH in H as [more ->]. exists ((k, s) :: more). by rewrite <-app_assoc. }
      apply Hpre in H as [more ->]. exists ((k, s) :: more). by rewrite <-app_assoc. }
    assert (Hc : forall p, p ∈ w_passes x n -> courteous (map snd got) (ps_others p)).
    { intros p Hpp. destruct Hin as [more ->]. eapply courteous_sub; [|by eapply Hp].
      intros s Hs. rewrite map_app. apply elem_of_app. by left. }
    destruct (acquire_keeps (map snd got) r deadline _ _ _ d a d1 k (Hkeys k r ltac:(by left)) (filed_away _ _ Hf Hk) Hc E) as [K Hs].
    split; [done|]. destruct a as [[s|]|e]; [|injection H as <- <- <-; (split; [done|]; split; [done|done])..].
    destruct (Hs s eq_refl) as [Hpool Hrem].
    assert (Hf' : filed (got ++ [(k, s)])).
    { destruct Hf as [Hnd Hf]. split.
      - rewrite map_app. apply NoDup_app. split_and!; [done| |apply NoDup_singleton].
        intros y Hy Hy'. apply list_elem_of_singleton in Hy' as ->. done.
      - intros k' s' Hin'. apply elem_of_app in Hin' as [?|Hin']; [by apply Hf|].
        apply list_elem_of_singleton in Hin'. by injection Hin' as -> ->. }
    destruct (IH (S n) (got ++ [(k, s)]) d1) as ([more ->] & Hfs & K' & Hg); [by intros; apply Hkeys; right|done| |done|done|].
    { by rewrite map_app, <-app_assoc. }
    split; [done|]. split.
    { transitivity d1; [done|]. destruct K' as (? & ? & ? & ? & Kr). split_and!; try done.
      intros y Hy. apply Kr. rewrite map_app. apply elem_of_app. by left. }
    intros -> k' r' Hin'. apply elem_of_cons in Hin' as [[= -> ->]|Hin']; [|by apply Hg].
    exists s. split.
    + apply kget_in; [apply Hfs|]. apply elem_of_app. left. apply elem_of_app. right. by left.
    + destruct K' as (_ & _ & _ & _ & Kr). rewrite Kr; [done|]. rewrite map_app. apply elem_of_app. right. by left.
Qed.

(** A merged bundle files each request under its own pool. *)
Lemma merged_keys rs acc l :
  (forall k r, (k, r) ∈ acc -> key r = Ok k) -> _merged_from rs acc = Ok l -> forall k r, (k, r) ∈ l -> key r = Ok k.
Proof.
  revert acc. induction rs as [|q rs IH]; intros acc Hacc H; cbn in H; [injection H as <-; done|].
  apply bind_ok in H as (k0 & Hk & H). eapply IH; [|exact H]. clear -Hacc Hk. intros k r Hin.
  assert (Hq : key (heavier q (kget k0 acc)) = Ok k0) by (destruct (kget k0 acc); exact Hk).
  revert Hin. revert Hq. generalize (heavier q (kget k0 acc)). intros q' Hq'. induction acc as [|[k1 r1] acc IH]; cbn; intros Hin.
  - apply list_elem_of_singleton in Hin. by injection Hin as -> ->.
  - case_bool_decide as E.
    + apply elem_of_cons in Hin as [[= -> ->]|Hin]; [by subst k1|apply Hacc; by right].
    + apply elem_of_cons in Hin as [[= -> ->]|Hin]; [by apply Hacc; left|].
      apply IH; [|done]. intros; apply Hacc. by right.
Qed.

(** The permits a bundle was granted are the ones it asked for. *)
Lemma granted_holds x deadline rs wanted d slots d' :
  _merged rs = Ok wanted -> passes_ok (map snd slots) x ->
  acquire_all x deadline 0 wanted [] d = ((slots, Granted), d') -> holds rs slots d'.
Proof.
  intros Hm Hp H k Hpos. assert (Hkeys : forall k r, (k, r) ∈ wanted -> key r = Ok k).
  { apply (merged_keys rs []); [by intros ? ? ?%elem_of_nil|exact Hm]. }
  apply merged_from_weights in Hm as [Hn Hw]; [|constructor]. specialize (Hw k). cbn in Hw.
  apply acquire_all_grants in H as (_ & _ & _ & Hg); [|done|(split; [constructor|]; by intros ? ? ?%elem_of_nil)|done|done].
  unfold weight_at in Hw. destruct (kget k wanted) as [r|] eqn:E; [|cbn in Hw; lia].
  assert (Hin : (k, r) ∈ wanted).
  { clear -E. induction wanted as [|[k1 r1] l IH]; [done|]. cbn in E. case_bool_decide as Ek.
    - subst k1. injection E as ->. by left.
    - right. by apply IH. }
  destruct (Hg eq_refl k r Hin) as (s & Hs & Hr). exists s. split; [done|]. cbn in Hw. lia.
Qed.
(** Waiting leaves the world alone, and the body of the call runs at most once. *)
Lemma acquire_world r deadline ticket now (ps : list (pass (B := B) (W := W))) d a d' :
  (forall p, p ∈ ps -> courteous [] (ps_others p)) -> acquire r deadline ticket now ps d = (a, d') -> other (d_world d) (d_world d').
Proof.
  intros Hp H. destruct (key r) as [k|e] eqn:Ek.
  - destruct (acquire_keeps [] r deadline ticket now ps d a d' k Ek) as [(Hw & _) _]; try done.
    by intros s ?%elem_of_nil.
  - unfold acquire, limiter_for, se_bind in H. rewrite Ek in H. injection H as _ <-. reflexivity.
Qed.

Lemma acquire_all_world (x : waits (B := B) (W := W)) deadline n wanted got d y d' :
  passes_ok [] x -> acquire_all x deadline n wanted got d = (y, d') -> other (d_world d) (d_world d').
Proof.
  intros Hp. revert n got d. induction wanted as [|[k r] wanted IH]; intros n got d H; cbn in H;
    [injection H as _ <-; reflexivity|].
  destruct (acquire r deadline _ _ _ d) as [[[s|]|e] d1] eqn:E; apply acquire_world in E; try (intros; by eapply Hp);
    [|by injection H as _ <-..]. apply IH in H. by transitivity (d_world d1).
Qed.

Lemma run_async_cases {A} (x : waits (B := B) (W := W)) start rs (body : SE (disp B W) A) d r d' :
  passes_ok [] x -> run_async x start rs body d = (r, d') ->
  (other (d_world d) (d_world d') /\ forall a, r <> Ok (Some a))
  \/ exists d1 rb d2, other (d_world d) (d_world d1) /\ body d1 = (rb, d2) /\ d_world d' = d_world d2
       /\ r = match rb with Ok a => Ok (Some a) | Err e => Err e end.
Proof.
  intros Hp. unfold run_async. destruct (_merged rs) as [wanted|e]; [|intros [= <- <-]; left; split; [reflexivity|done]].
  destruct (acquire_all x _ 0 wanted [] d) as [[slots g] d1] eqn:E. apply acquire_all_world in E; [|done]. destruct g as [| |e].
  - destruct (body _) as [rb d2] eqn:Eb. destruct (release_all _ _) as [u d3] eqn:Er. apply release_all_world in Er.
    intros [= <- <-]. right. exists (with_lease (Some (new_lease slots)) (with_slots (Some slots) d1)), rb, d2. by split_and!.
  - intros [= <- <-]. left. by split.
  - destruct (release_all _ d1) as [u d2] eqn:Er. apply release_all_world in Er. intros [= <- <-]. left.
    split; [by rewrite Er|done].
Qed.
End grants.

(** ** Planning and recovery write nothing *)

Section tool_theorems.
Context `{SN : SessionNames} {B : Type} {BB : Bucket B}.
Context (status_known : string -> bool) (ca : string) (security_firm : val).
Implicit Types d : disp B desk.

(** What the brokers were sent. *)
Definition sent_calls (s : desk) : list (string * dict) * option (list (string * dict)) :=
  (writes (k_world s), option_map y_calls (k_paper s)).
Definition calls_kept (s s' : desk) : Prop := sent_calls s' = sent_calls s.
#[export] Instance calls_kept_preorder : PreOrder calls_kept.
Proof. split; [by intros s|]. intros a b c H1 H2. unfold calls_kept in *. congruence. Qed.

Lemma kept_on_real {A} missing (c : SE paper A) : unmarked c -> preserves calls_kept (on_real missing c).
Proof.
  intros Hc s r s'. unfold on_real, on_world, on_exec. destruct (k_real s); [|by intros [= <- <-]].
  destruct (c (r_exec (k_world s))) as [x y]. by intros [= <- <-].
Qed.
Lemma kept_on_paper {A} missing (c : SE paper A) : unmarked c -> preserves calls_kept (on_paper missing c).
Proof.
  intros Hc s r s'. unfold on_paper. destruct (k_paper s) as [y|] eqn:Ep; [|by intros [= <- <-]].
  destruct (c y) as [x y'] eqn:E. intros [= <- <-]. unfold calls_kept, sent_calls. cbn. rewrite Ep. cbn.
  apply Hc in E as [_ ->]. done.
Qed.
Lemma kept_not_sent {A} a b (c : SE desk A) : preserves calls_kept c -> preserves calls_kept (not_sent_se a b c).
Proof. intros Hc s r s' H. unfold not_sent_se in H. destruct (c s) as [x s1] eqn:E. injection H as _ <-. by eapply Hc. Qed.
Lemma kept_halt : preserves calls_kept (on_world _check_execution_halt).
Proof. intros s r s' [= <- <-]. by destruct s. Qed.
Lemma unmarked_known i id : unmarked (paper_known i id).
Proof.
  intros y r y'. unfold paper_known. destruct (y_late_failure y !! id); [by intros [= <- <-]|].
  match goal with |- ?c y = _ -> _ => assert (Hc : unmarked c) by (repeat preserves; apply preserves_ret); apply Hc end.
Qed.
Hint Resolve kept_halt unmarked_known unmarked_find_retry unmarked_ready : preserves.
Hint Resolve kept_on_real kept_on_paper kept_not_sent : preserves.
Hint Extern 1 (preserves _ (se_ret _)) => apply preserves_ret : preserves.
Hint Extern 1 (preserves _ (se_raise _)) => apply preserves_raise : preserves.

Lemma plan_write_kept v i method params : preserves calls_kept (plan_write v i method params).
Proof.
  unfold plan_write, plan_real, plan_paper. apply kept_not_sent. repeat preserves.
Qed.

Lemma kept_on_exec {A} (c : SE paper A) : preserves calls_kept (on_world (on_exec c)).
Proof. intros s r s'. unfold on_world, on_exec. destruct (c (r_exec (k_world s))). by intros [= <- <-]. Qed.
Hint Resolve unmarked_retry : preserves.

Lemma unmarked_recovered e i operation kind request acc_id :
  unmarked (fun y =>
    (row <- (match y_late_failure y !! operation with
             | Some _ => se_lift (match y_late_identity y !! operation with
                                  | Some row => Ok (Some row)
                                  | None => Err (KeyError operation)
                                  end)
             | None => on_store (lookup (i 0%nat) operation)
             end) ;;
     match row with
     | Some row => a <- se_lift acc_id ;; r <- Paper._retry e (i 1%nat) row kind request a ;; se_ret (Some r)
     | None => se_ret None
     end)%se y).
Proof.
  intros y r y' H. destruct (y_late_failure y !! operation); revert H;
    match goal with |- ?c y = _ -> _ => assert (Hc : unmarked c) by (repeat preserves); apply Hc end.
Qed.
Hint Resolve unmarked_recovered : preserves.

Lemma recover_kept v i method params : preserves calls_kept (recover_admission v i method params).
Proof.
  intros s r s' H. unfold recover_admission in H. destruct (_ && _); [by eapply kept_on_exec|].
  destruct (k_paper s); [|by injection H as _ <-]. destruct (negb _); [by injection H as _ <-|].
  revert H. match goal with |- ?c s = _ -> _ => assert (Hc : preserves calls_kept c); [|apply Hc] end.
  apply kept_not_sent. repeat preserves.
Qed.

(** ** One call *)

Lemma write_call v i method params s :
  mem method WRITES = true ->
  prepare_trade_call status_known ca security_firm v i method params s = plan_write v i method params s.
Proof.
  unfold mem. intros Hm%bool_decide_eq_true.
  repeat (apply elem_of_cons in Hm as [->|Hm]; [reflexivity|]). by apply elem_of_nil in Hm.
Qed.

Lemma plan_params v i method params s plan params' s' :
  plan_write v i method params s = (Ok (plan, params'), s') ->
  pl_write_operation plan = Some method /\ (params' = params \/ exists n, params' = dset "acc_id" (VInt n) params).
Proof.
  intros H. apply write_steps in H as [[-> ->]|(env & acc & -> & _ & _ & _ & [[_ H]|[_ H]])]; [by split; [|left]|..].
  - destruct H as (x & m & a & op & _ & _ & _ & _ & ->). split; [done|right]. by exists acc.
  - destruct H as (kd & r & a & op & _ & _ & _ & _ & _ & _ & ->). split; [done|right]. by exists acc.
Qed.

(** The calls a step made: at most one, of the operation and in the environment
    the arguments name, and none unless it returned. *)
Definition calls_once {A} (kwargs : dict) (r : result A) (s s' : desk) : Prop :=
  calls_kept s s' \/
  exists id args, is_ok r = true /\ dget "operation_id" kwargs = Some (VStr id) /\
    (named (dget_none "trd_env" kwargs) = "REAL" /\ writes (k_world s') = (id, args) :: writes (k_world s)
       /\ option_map y_calls (k_paper s') = option_map y_calls (k_paper s)
     \/ named (dget_none "trd_env" kwargs) = "SIMULATE" /\ writes (k_world s') = writes (k_world s)
       /\ exists y, option_map y_calls (k_paper s) = Some y /\ option_map y_calls (k_paper s') = Some ((id, args) :: y)).

Lemma trading_calls v x method kwargs s r s' :
  trading_call v x method kwargs s = (r, s') -> calls_once kwargs r s s'.
Proof.
  intros H. pose proof (trading_call_writes_once v x method kwargs s) as T. rewrite H in T. cbv zeta in T.
  destruct T as [[-> _]|[(He & Hp & _ & T)|(He & Hw & _ & y & y' & Hy & Hy' & T)]]; [by left|..].
  - destruct r as [rep|e]; cbn in T; [destruct T as [T|(id & args & Hid & T)]|];
      [left; unfold calls_kept, sent_calls; congruence| |left; unfold calls_kept, sent_calls; congruence].
    right. exists id, args. split_and!; [done|done|]. left. split_and!; congruence.
  - destruct r as [rep|e]; cbn in T; [destruct T as [T|(id & args & Hid & T)]|];
      [left; unfold calls_kept, sent_calls; rewrite Hy, Hy', Hw; cbn; congruence|
      |left; unfold calls_kept, sent_calls; rewrite Hy, Hy', Hw; cbn; congruence].
    right. exists id, args. split_and!; [done|done|]. right. split_and!; [done|congruence|].
    exists (y_calls y). rewrite Hy, Hy'. cbn. split; congruence.
Qed.

Lemma calls_once_after {A A'} kwargs (r : result A) (r' : result A') s0 s1 s2 :
  calls_kept s0 s1 -> calls_once kwargs r s1 s2 -> is_ok r' = is_ok r -> calls_once kwargs r' s0 s2.
Proof.
  unfold calls_once, calls_kept, sent_calls. intros [= Hw Hp] [[= H1 H2]|(id & args & Hr & Hid & H)] Hok.
  - left. congruence.
  - right. exists id, args. split_and!; [congruence|done|]. rewrite <- Hw, <- Hp. exact H.
Qed.

Lemma on_desk_ok {A} (c : SE desk A) d r d' : on_desk c d = (r, d') -> exists s', c (d_world d) = (r, s') /\ d_world d' = s'.
Proof. unfold on_desk, _invoke. destruct (c (d_world d)) as [x s] eqn:E. intros [= <- <-]. by exists s. Qed.

(** What the method is called with names what the tool was called with. *)
Lemma called_as method kwargs bound params' :
  bind_arguments (signature method) kwargs = Ok bound ->
  (params' = bound \/ exists n, params' = dset "acc_id" (VInt n) bound) ->
  named (dget_none "trd_env" params') = named (dget_none "trd_env" kwargs)
  /\ (forall id, dget "operation_id" params' = Some (VStr id) -> dget "operation_id" kwargs = Some (VStr id)).
Proof.
  intros Hb Hp. pose proof (environment_bound _ _ _ Hb) as He. unfold dget_none in He. rewrite dget_dpop_ne in He by done.
  assert (Hq : forall k, k <> "acc_id" -> dget k params' = dget k bound).
  { intros k Hk. destruct Hp as [->|[n ->]]; [done|by apply dget_dset_ne]. }
  split; [unfold dget_none; rewrite Hq by done; by rewrite He|]. intros id. rewrite Hq by done. intros Hid.
  eapply operation_bound; [exact Hb|]. unfold dget_none. rewrite dget_dpop_ne by done. by rewrite Hid.
Qed.

Lemma calls_once_as {A} params kwargs (r : result A) s s' :
  named (dget_none "trd_env" params) = named (dget_none "trd_env" kwargs) ->
  (forall id, dget "operation_id" params = Some (VStr id) -> dget "operation_id" kwargs = Some (VStr id)) ->
  calls_once params r s s' -> calls_once kwargs r s s'.
Proof.
  intros He Hid [?|(id & args & Hr & Ho & H)]; [by left|right]. exists id, args. split_and!; [done|by apply Hid|].
  by rewrite <- He.
Qed.

Lemma calls_once_err {A} kwargs (e : exn) s s' : calls_once kwargs (Err e : result A) s s' -> calls_kept s s'.
Proof. intros [?|(id & args & Hr & _)]; [done|discriminate Hr]. Qed.

(** A tool call writes once.  However it was planned, however long it waited
    for its permits and whatever other tasks did meanwhile, whatever the
    journals, the brokers and the gateway answer: apart from what the others did
    to the desk while it waited, a mutating tool call makes at most one broker
    call, of its own operation, in the environment it names and only when it
    returns a reply.  A call that is refused permits, that raises, or whose reply
    was recovered after the wait, has sent nothing; nor has one still waiting. *)
Theorem tool_call_writes_once other {HO : PreOrder other} v i i' x w start now method kwargs d r d' :
  mem method WRITES = true -> passes_ok other [] w ->
  run_blocking status_known ca security_firm v i i' x w start now method kwargs d = (r, d') ->
  exists s0 s1, calls_kept (d_world d) s0 /\ other s0 s1 /\ calls_once kwargs r s1 (d_world d')
    /\ (r = Ok None -> calls_kept s1 (d_world d')).
Proof.
  intros Hm Hp H. unfold run_blocking, se_bind at 1, se_lift in H.
  destruct (bind_arguments (signature method) kwargs) as [bound|e] eqn:Hb;
    [|injection H as _ <-; exists (d_world d), (d_world d); split_and!; [done|done|by left|done]].
  unfold se_bind at 1 in H. destruct (on_desk _ d) as [[[plan params']|e] d0] eqn:Ed;
    apply on_desk_ok in Ed as (s0 & Ed & Hd0); rewrite write_call in Ed by done;
    pose proof (plan_write_kept v i method bound _ _ _ Ed) as K0; subst s0;
    [|injection H as _ <-; exists (d_world d0), (d_world d0); split_and!; [done|done|by left|done]].
  apply plan_params in Ed as [Hop Hps]. destruct (called_as _ _ _ _ Hb Hps) as [He Hid].
  destruct (run_async w start _ _ d0) as [ra d1] eqn:Er.
  assert (Hc : exists s1, other (d_world d0) s1 /\ calls_once kwargs ra s1 (d_world d1) /\ (ra = Ok None -> calls_kept s1 (d_world d1))).
  { apply (run_async_cases other) in Er as [[Hw _]|(d2 & rb & d3 & Hw & Hbody & Hw3 & ->)]; [|..|done].
    { exists (d_world d1). split_and!; [done|by left|done]. }
    exists (d_world d2). split; [done|]. split; [|by destruct rb].
    unfold service_call in Hbody. apply on_desk_ok in Hbody as (s3 & Hcall & Hs3). apply trading_calls in Hcall.
    rewrite <- Hs3, <- Hw3 in Hcall. apply (calls_once_as params'); [done|done|].
    apply (calls_once_after params' rb _ _ (d_world d2)); [done|done|by destruct rb]. }
  destruct Hc as (s1 & Ho & Hc & Hw). exists (d_world d0), s1. split; [done|]. split; [done|].
  destruct ra as [a|e]; [by injection H as <- <-|]. destruct e; try (injection H as <- <-; by split).
  apply calls_once_err in Hc. rewrite Hop in H.
  assert (Hk : calls_kept s1 (d_world d')); [|by split; [left|]]. transitivity (d_world d1); [done|]. unfold se_bind in H.
  destruct (on_desk (recover_admission v i' method bound) d1) as [[[rep|]|e] d2] eqn:Erec;
    apply on_desk_ok in Erec as (s2 & Erec & Hs2); apply recover_kept in Erec; subst s2; by injection H as <- <-.
Qed.

(** C14 What was waited for is enough.  When the permits of a planned write have
    all been granted, whatever other tasks did to the budgets while it waited
    short of spending its permits, then where the method starts its own
    reservation of the write, unlock and relock included, is granted at once,
    and so is that of every query the plan foresaw: a planned write is never
    refused for the provider's limits after it was let through. *)
Theorem admitted_write_reserved other {HO : PreOrder other} v i method params s plan params' s' x deadline wanted d slots d' now :
  accounts_positive v -> plan_write v i method params s = (Ok (plan, params'), s') -> pl_requests plan <> [] ->
  _merged (pl_requests plan) = Ok wanted -> passes_ok other (map snd slots) x ->
  acquire_all x deadline 0 wanted [] d = ((slots, Granted), d') ->
  let d1 := with_lease (Some (new_lease slots)) (with_slots (Some slots) d') in
  reservation v method params' now d1 = Ok tt
  /\ forall q, q ∈ pl_requests plan -> fst (Dispatch.reserve now [q] (se_ret tt) d1) = Ok tt.
Proof.
  intros Hv H Hne Hm Hp Hg d1. pose proof (granted_holds other x _ _ _ _ _ _ Hm Hp Hg) as Hh.
  assert (Hh1 : holds (pl_requests plan) slots d1) by exact Hh. split.
  - pose proof H as Hs. apply write_steps in Hs as [[-> _]|(env & acc & -> & _ & _ & _ & _)]; [done|].
    unfold reservation. rewrite dget_dset_eq. unfold dget_none. rewrite dget_dset_ne by done.
    rewrite (planned_write_covered v i method params s plan (dset "acc_id" (VInt acc) params) s' slots d1 now _ (se_ret tt));
      try done.
    left. exists acc. rewrite dget_dset_eq. by split.
  - intros q Hq. rewrite (planned_write_covered v i method params s plan params' s' slots d1 now [q] (se_ret tt)); try done.
    right. by exists q.
Qed.
End tool_theorems.

(** ** Examples *)

(** One pass of each wait, nobody else about. *)
Definition quiet_waits : waits (B := list_bucket) (W := desk) :=
  {| w_ticket := Z.of_nat; w_now := fun _ => 0;
     w_passes := fun _ => [{| ps_now := 0; ps_now' := 0; ps_now'' := 0; ps_others := fun d => d |}] |}.
Definition paper_floor : disp list_bucket desk :=
  {| d_limiters := []; d_max_wait := 5000000; d_slots := None; d_lease := None; d_world := paper_desk |}.
Definition demo_tool (op : string) (d : disp list_bucket desk) : result (option reply) * disp list_bucket desk :=
  run_blocking no_status "CA" VNone paper_service demo_ios demo_ios (calm_call acknowledged) quiet_waits 0 0 "place_order"
    (paper_kwargs op) d.

(** An order, and the same one again: the second is answered from the journal. *)
Example tool_ex :
  let '(r1, d1) := demo_tool "op-1" paper_floor in
  let '(r2, d2) := demo_tool "op-1" d1 in
  is_ok r1 = true /\ is_ok r2 = true
  /\ option_map (fun y => map fst (y_calls y)) (k_paper (d_world d2)) = Some ["op-1"]
  /\ map (fun kl => permits (l_pending (snd kl))) (d_limiters d2) = [0; 0].
Proof. vm_compute. split_and!; done. Qed.

Lemma eq_preorder {A} : PreOrder (@eq A).
Proof. split; [done|]. by intros x y z -> ->. Qed.
Lemma quiet_passes other {HO : PreOrder other} mine : passes_ok other mine quiet_waits.
Proof. intros n p Hp. cbn in Hp. apply list_elem_of_singleton in Hp as ->. intros d. cbn. reflexivity. Qed.

Lemma tool_call_writes_once_witness :
  let '(r, d) := demo_tool "op-1" paper_floor in
  exists s0 s1, calls_kept paper_desk s0 /\ s0 = s1 /\ calls_once (paper_kwargs "op-1") r s1 (d_world d)
    /\ (r = Ok None -> calls_kept s1 (d_world d)).
Proof.
  destruct (demo_tool "op-1" paper_floor) as [r d] eqn:E.
  apply (tool_call_writes_once no_status "CA" VNone eq paper_service demo_ios demo_ios (calm_call acknowledged) quiet_waits 0 0
           "place_order" (paper_kwargs "op-1") paper_floor r d eq_refl (quiet_passes eq []) E).
Defined.

Definition paper_wanted : list (pool_key * QuotaRequest) :=
  [(("get_market_snapshot", None), snapshot_quota); (("order_placement", Some 7), account_quota "place_order" 7)].
Definition paper_granted : (list (pool_key * slot) * grant) * disp list_bucket desk :=
  acquire_all quiet_waits 5000000 0 paper_wanted [] paper_floor.

Lemma admitted_write_reserved_witness :
  reservation paper_service "place_order" (dset "acc_id" (VInt 7) (paper_bound "op-1")) 1
    (with_lease (Some (new_lease (fst (fst paper_granted)))) (with_slots (Some (fst (fst paper_granted))) (snd paper_granted)))
  = Ok tt.
Proof.
  assert (E : paper_granted = ((fst (fst paper_granted), Granted), snd paper_granted)) by (vm_compute; reflexivity).
  refine (proj1 (admitted_write_reserved eq (HO := eq_preorder) paper_service demo_ios "place_order" (paper_bound "op-1")
           paper_desk paper_plan (dset "acc_id" (VInt 7) (paper_bound "op-1")) paper_desk quiet_waits 5000000 paper_wanted
           paper_floor (fst (fst paper_granted)) (snd paper_granted) 1 paper_positive paper_planned _ eq_refl
           (quiet_passes eq _) E)).
  discriminate.
Defined.
