(* ===== verification/Instruments.v ===== *)
(** services/instruments.py: the valuation facts of the codes an order names,
    from a fresh snapshot and a cache of static metadata.  What the policy is
    proved under, that quotes are positive finite numbers, the adapter
    guarantees ([lookup_sound]).  Contexts are object identities; clock readings
    are integers of a microsecond. *)

From S2P Require Import Prelude PyStr PyFloat PyDec PyVal DecParse Policy Rules Controls Prep Paper RealRequest Admission.

#[local] Open Scope list_scope.

(** ** Ordered dictionaries *)

Fixpoint aget {A} (k : string) (d : list (string * A)) : option A :=
  match d with
  | [] => None
  | (k', v) :: d => if bool_decide (k = k') then Some v else aget k d
  end.
Definition adel {A} (k : string) (d : list (string * A)) : list (string * A) :=
  List.filter (fun kv => negb (bool_decide (k = fst kv))) d.
(** [move_to_end], and the assignment of a key followed by it. *)
Definition apush {A} (k : string) (v : A) (d : list (string * A)) : list (string * A) := adel k d ++ [(k, v)].
Definition move_to_end {A} (k : string) (d : list (string * A)) : list (string * A) :=
  match aget k d with Some v => apush k v d | None => d end.

(** [list(dict.fromkeys(codes))] *)
Definition first_uses (codes : list string) : list string :=
  fold_left (fun seen c => if mem c seen then seen else seen ++ [c]) codes [].

(** ** Answers of the gateway *)

(** The data of a successful answer: rows, nothing, or something without rows. *)
Inductive payload : Type := Rows (l : list dict) | NoData | NoRows.

Definition lookup_error {A} (msg : string) : result A := Err (InstrumentLookupError msg).

(** [_rows] *)
Definition _rows (a : answer payload) : result (list dict) :=
  match a with
  | Raised e => Err e
  | RetError => lookup_error "failed"
  | RetOk (Rows l) => Ok l
  | RetOk NoData => Ok []
  | RetOk NoRows => lookup_error "which carries no rows"
  end.

(** [normalize_quote] *)
Definition normalize_quote (v : val) : result (option float) :=
  bind (field_number v) (fun o => Ok (kept_number f_positive o)).

(** [_StaticFacts] *)
Record static : Type := {
  st_classification : string; st_lot_size : option float; st_expires_at : Z; st_raw : dict; st_observed_at : string }.

(** [InstrumentAdapter]: its limits, the context its metadata belongs to, and the
    metadata, least recently used first. *)
Record adapter : Type := {
  ad_ttl : Z; ad_capacity : Z; ad_context : option Z; ad_metadata : list (string * static) }.

Definition with_context (c : option Z) (s : adapter) : adapter :=
  {| ad_ttl := ad_ttl s; ad_capacity := ad_capacity s; ad_context := c; ad_metadata := ad_metadata s |}.
Definition with_metadata (m : list (string * static)) (s : adapter) : adapter :=
  {| ad_ttl := ad_ttl s; ad_capacity := ad_capacity s; ad_context := ad_context s; ad_metadata := m |}.

(** [__init__]: the arguments are finite numbers. *)
Definition new_adapter (metadata_ttl metadata_capacity : Z) : result adapter :=
  (_ <- refuse_if (metadata_ttl <? 0) (ValueError "metadata_ttl must be a finite non-negative number") ;;
   _ <- refuse_if (metadata_capacity <? 1) (ValueError "metadata_capacity must be positive") ;;
   Ok {| ad_ttl := metadata_ttl; ad_capacity := metadata_capacity; ad_context := None; ad_metadata := [] |})%py.

(** The outside of one lookup: the connected context, whether the weak reference
    still resolves and can be made, the answers, and the clock: at the start of
    the cache's turn and at the row that gave a code its facts. *)
Record quotes : Type := {
  qa_context : option Z; qa_alive : bool; qa_weak : bool;
  qa_snapshot : answer payload; qa_basic : string -> list string -> answer payload;
  qa_now : Z; qa_clock : string -> Z; qa_time : string }.

(** ** The gateway's answers, read *)

(** [_snapshots]; [strict] refuses duplicate and unexpected codes. *)
Definition row_code (row : dict) : string := py_str (dget_none "code" row).
Definition by_code (rows : list dict) : list (string * dict) := fold_left (fun d row => sset (row_code row) row d) rows [].
Definition _snapshots (q : quotes) (codes : list string) (strict : bool) : result (list (string * dict)) :=
  (rows <- _rows (qa_snapshot q) ;;
   let returned := map row_code rows in
   _ <- refuse_if (strict && (negb (bool_decide (NoDup returned)) || negb (forallb (fun c => mem c codes) returned)))
          (InstrumentLookupError "Snapshot has duplicate/unexpected codes") ;;
   Ok (by_code rows))%py.

(** The codes of each market, in the order markets are first named. *)
Fixpoint add_to_group (market code : string) (groups : list (string * list string)) : list (string * list string) :=
  match groups with
  | [] => [(market, [code])]
  | (m, l) :: groups => if bool_decide (market = m) then (m, l ++ [code]) :: groups else (m, l) :: add_to_group market code groups
  end.
Fixpoint by_market (codes : list string) (groups : list (string * list string)) : result (list (string * list string)) :=
  match codes with
  | [] => Ok groups
  | code :: codes =>
      let '(market, _, rest) := partition "." code in
      if nonempty rest then by_market codes (add_to_group (upper (strip market)) code groups)
      else lookup_error "carries no market prefix, so its classification cannot be requested"
  end.

(** One row of a group's answer. *)
Definition classified (q : quotes) (ttl : Z) (group : list string) (found : list (string * static)) (row : dict)
    : result (list (string * static)) :=
  let code := row_code row in
  match dget_none "stock_type" row with
  | VStr reported =>
      if mem code group && nonempty (strip reported) then
        (lot <- normalize_quote (dget_none "lot_size" row) ;;
         Ok (sset code {| st_classification := upper (strip reported); st_lot_size := lot;
                          st_expires_at := qa_clock q code + ttl; st_raw := row; st_observed_at := qa_time q |} found))%py
      else Ok found
  | _ => Ok found
  end.
Definition classify_group (q : quotes) (ttl : Z) (found : list (string * static)) (g : string * list string)
    : result (list (string * static)) :=
  (rows <- _rows (qa_basic q (fst g) (snd g)) ;; foldM (classified q ttl (snd g)) found rows)%py.

(** [_classifications] *)
Definition _classifications (q : quotes) (ttl : Z) (codes : list string) : result (list (string * static)) :=
  (groups <- by_market codes [] ;; foldM (classify_group q ttl) [] groups)%py.

(** ** The cache *)

(** Metadata of another context, or of one that is gone, is dropped. *)
Definition enter_context (ctx : Z) (q : quotes) : SE adapter bool := fun s =>
  let previous := if qa_alive q then ad_context s else None in
  if bool_decide (previous = Some ctx) then (Ok true, s)
  else (Ok (qa_weak q), with_context (if qa_weak q then Some ctx else None) (with_metadata [] s)).

Definition expire (now : Z) (m : list (string * static)) : list (string * static) :=
  List.filter (fun kv => negb (st_expires_at (snd kv) <=? now)) m.
Definition cached (codes : list string) (m : list (string * static)) : list (string * static) :=
  omap (fun c => option_map (fun st => (c, st)) (aget c m)) codes.
Definition remember (capacity : Z) (fresh m : list (string * static)) : list (string * static) :=
  let m := fold_left (fun m kv => apush (fst kv) (snd kv) m) fresh m in
  drop (length m - Z.to_nat capacity) m.

(** The metadata after a lookup that asked for what was missing. *)
Definition kept (cacheable : bool) (fresh : list (string * static)) (s : adapter) : adapter :=
  if cacheable && (0 <? ad_ttl s) then with_metadata (remember (ad_capacity s) fresh (ad_metadata s)) s else s.

(** [_static_facts] *)
Definition _static_facts (ctx : Z) (q : quotes) (codes : list string) : SE adapter (list (string * static)) :=
  (cacheable <- enter_context ctx q ;;
   _ <- se_modify (fun s => with_metadata (expire (qa_now q) (ad_metadata s)) s) ;;
   s <- se_get ;;
   let found := cached codes (ad_metadata s) in
   _ <- se_modify (fun s => with_metadata (fold_left (fun m kv => move_to_end (fst kv) m) found (ad_metadata s)) s) ;;
   match List.filter (fun c => negb (mem c (map fst found))) codes with
   | [] => se_ret found
   | missing =>
       fresh <- se_lift (_classifications q (ad_ttl s) missing) ;;
       _ <- se_modify (kept cacheable fresh) ;;
       se_ret (fold_left (fun d kv => sset (fst kv) (snd kv) d) fresh found)
   end)%se.

(** ** Facts *)

(** [_monetary_multiplier] *)
Definition monetary_multiplier_of (classification : string) (snapshot : dict) : result (option float) :=
  if negb (bool_decide (classification = OPTION_CLASSIFICATION)) then
    Ok (if mem classification ["STOCK"; "ETF"] then Some f_one else None)
  else
    (m <- normalize_quote (dget_none "option_contract_multiplier" snapshot) ;;
     match m with Some _ => Ok m | None => lookup_error "one contract cannot be converted into money" end)%py.

(** [_facts] *)
Definition facts_of_code (code : string) (metadata : static) (snapshot : dict) : result InstrumentFacts :=
  (multiplier <- monetary_multiplier_of (st_classification metadata) snapshot ;;
   size <- normalize_quote (dget_none "option_contract_size" snapshot) ;;
   last <- normalize_quote (dget_none "last_price" snapshot) ;;
   bid <- normalize_quote (dget_none "bid_price" snapshot) ;;
   ask <- normalize_quote (dget_none "ask_price" snapshot) ;;
   Ok {| i_code := code; classification := Some (st_classification metadata); monetary_multiplier := multiplier;
         contract_size := size; last_price := last; bid_price := bid; ask_price := ask; i_currency := None;
         lot_size := st_lot_size metadata |})%py.

Definition facts_for (snapshots : list (string * dict)) (found : list (string * static)) (code : string)
    : result InstrumentFacts :=
  match aget code snapshots with
  | None => lookup_error "so its price is unknown"
  | Some snapshot =>
      match aget code found with
      | None => lookup_error "so its security classification is unknown and it cannot be valued"
      | Some metadata => facts_of_code code metadata snapshot
      end
  end.

(** [__call__] *)
Definition lookup_instruments (q : quotes) (codes : list string) : SE adapter (list InstrumentFacts) :=
  (let wanted := first_uses codes in
   match wanted with
   | [] => se_raise (InstrumentLookupError "no instrument codes were supplied")
   | _ =>
       match qa_context q with
       | None => se_raise (InstrumentLookupError "the quote connection is not available")
       | Some ctx =>
           snapshots <- se_lift (_snapshots q wanted false) ;;
           found <- _static_facts ctx q wanted ;;
           se_lift (mapM (facts_for snapshots found) wanted)
       end
   end)%se.

(** ** Reference facts *)

Definition FACT_FIELDS : list (string * string) :=
  [("is_option", "option_valid"); ("option_type", "option_type"); ("underlying", "stock_owner"); ("expiry", "strike_time");
   ("strike", "option_strike_price"); ("classification", "stock_type"); ("lot_size", "lot_size"); ("currency", "currency");
   ("exercise_style", "option_area_type"); ("settlement_mode", "option_settlement_mode");
   ("settlement_cutoff", "settlement_cutoff"); ("deliverable_size", "option_contract_size");
   ("deliverable_description", "deliverable_description"); ("monetary_multiplier", "option_contract_multiplier");
   ("standard_status", "option_standard_type")].

(** A value one source reports, if it is one. *)
Definition observed_value (name : string) (v : val) : result (option val) :=
  let unset := match v with
               | VFloat f => negb (is_finite f)
               | VNone => true
               | VStr t => mem t [""; "N/A"]
               | _ => false
               end in
  if unset then Ok None
  else if mem name ["lot_size"; "deliverable_size"; "monetary_multiplier"]
  then bind (normalize_quote v) (fun o => Ok (option_map VFloat o))
  else Ok (Some v).

Record observation : Type := { ob_method : string; ob_value : val; ob_at : val }.
Definition observe (name key : string) (sources : list (string * dict * val)) : result (list observation) :=
  (found <- mapM (fun '(method, record, at_) =>
              v <- observed_value name (dget_none key record) ;;
              Ok (option_map (fun v => {| ob_method := method; ob_value := v; ob_at := at_ |}) v)) sources ;;
   Ok (omap id found))%py.

Inductive fact_state : Type := KNOWN | UNKNOWN | CONFLICT.
Record fact : Type := { ft_state : fact_state; ft_value : val; ft_evidence : list observation }.
Definition fact_from (l : list observation) : fact :=
  match l with
  | [] => {| ft_state := UNKNOWN; ft_value := VNone; ft_evidence := [] |}
  | o :: rest =>
      if existsb (fun o' => negb (py_eqb (ob_value o') (ob_value o))) rest
      then {| ft_state := CONFLICT; ft_value := VNone; ft_evidence := l |}
      else {| ft_state := KNOWN; ft_value := ob_value o; ft_evidence := l |}
  end.

(** The entry of one code; the time and cache stamps of the response are left
    out. *)
Record reference : Type := {
  rf_code : string; rf_facts : list (string * fact); rf_snapshot_present : bool; rf_reference_present : bool }.
Definition reference_of (received : string) (snapshots : list (string * dict)) (found : list (string * static)) (code : string)
    : result reference :=
  let metadata := aget code found in
  let sources := [("get_stock_basicinfo", match metadata with Some m => st_raw m | None => [] end,
                   match metadata with Some m => VStr (st_observed_at m) | None => VNone end);
                  ("get_market_snapshot", default [] (aget code snapshots), VStr received)] in
  (facts <- mapM (fun '(name, key) => l <- observe name key sources ;; Ok (name, fact_from l)) FACT_FIELDS ;;
   Ok {| rf_code := code; rf_facts := facts;
         rf_snapshot_present := match aget code snapshots with Some _ => true | None => false end;
         rf_reference_present := match metadata with Some _ => true | None => false end |})%py.

(** [read_facts]: what it checks before it calls the gateway, and the rest. *)
Definition facts_asked (q : quotes) (codes : val) : result (list string * Z) :=
  (codes <- validate_codes codes ;;
   match qa_context q with
   | None => Err (InstrumentLookupError "Quote context not connected")
   | Some ctx => Ok (codes, ctx)
   end)%py.
Definition read_facts (q : quotes) (received : string) (codes : val) : SE adapter (list reference) :=
  (asked <- se_lift (facts_asked q codes) ;;
   let '(codes, ctx) := asked in
   snapshots <- se_lift (_snapshots q codes true) ;;
   found <- _static_facts ctx q codes ;;
   se_lift (mapM (reference_of received snapshots found) codes))%se.

(** ** Quotes *)

Lemma normalize_positive v o : normalize_quote v = Ok o -> quote_ok o.
Proof.
  unfold normalize_quote. intros H. apply bind_ok in H as (n & _ & [= <-]). intros f. unfold kept_number.
  destruct n as [g|]; [|done]. destruct (f_positive g) eqn:E; [by intros [= <-]|done].
Qed.

Lemma one_positive : quote_ok (Some f_one).
Proof. by intros f [= <-]. Qed.

(** What its metadata and its row of the snapshot say of the money of a code:
    an option has the premium multiplier of the row, whatever its contract size. *)
Definition money_ok (row : dict) (i : InstrumentFacts) : Prop :=
  match classification i with
  | Some c => if bool_decide (c = OPTION_CLASSIFICATION)
              then is_Some (monetary_multiplier i)
                   /\ normalize_quote (dget_none "option_contract_multiplier" row) = Ok (monetary_multiplier i)
              else monetary_multiplier i = if mem c ["STOCK"; "ETF"] then Some f_one else None
  | None => False
  end.

Lemma code_facts_sound code st snapshot i :
  facts_of_code code st snapshot = Ok i ->
  i_code i = code /\ classification i = Some (st_classification st) /\ lot_size i = st_lot_size st /\ instrument_ok i /\ money_ok snapshot i
  /\ normalize_quote (dget_none "last_price" snapshot) = Ok (last_price i)
  /\ normalize_quote (dget_none "bid_price" snapshot) = Ok (bid_price i)
  /\ normalize_quote (dget_none "ask_price" snapshot) = Ok (ask_price i).
Proof.
  unfold facts_of_code. intros H. apply bind_ok in H as (m & Hm & H). apply bind_ok in H as (size & _ & H).
  apply bind_ok in H as (last & Hl & H). apply bind_ok in H as (bid & Hb & H). apply bind_ok in H as (ask & Ha & [= <-]).
  cbn. assert (Hq : quote_ok m /\ money_ok snapshot {| i_code := code; classification := Some (st_classification st);
    monetary_multiplier := m; contract_size := size; last_price := last; bid_price := bid; ask_price := ask;
    i_currency := None; lot_size := st_lot_size st |}).
  { unfold monetary_multiplier_of in Hm. unfold money_ok. cbn.
    destruct (bool_decide (st_classification st = OPTION_CLASSIFICATION)); cbn [negb] in Hm.
    - apply bind_ok in Hm as (o & Ho & Hm). pose proof (normalize_positive _ _ Ho) as Hpos. destruct o; [|done]. injection Hm as <-. by split_and!.
    - injection Hm as <-. split; [|done]. destruct (mem _ _); [apply one_positive|done]. }
  destruct Hq as [Hq1 Hq2]. split_and!; try done. unfold instrument_ok. cbn.
  split_and!; [exact Hq1|by eapply normalize_positive..].
Qed.

(** ** Dictionaries *)

Lemma aget_in {A} k (v : A) d : aget k d = Some v -> (k, v) ∈ d.
Proof.
  induction d as [|[k' w] d IH]; cbn; [done|]. case_bool_decide as E; [intros [= ->]; subst; by left|]. intros H. right. by apply IH.
Qed.
Lemma aget_sset {A} k k' (v : A) d : aget k (sset k' v d) = if bool_decide (k = k') then Some v else aget k d.
Proof.
  induction d as [|[k1 w] d IH]; cbn [sset aget]; [done|]. destruct (bool_decide (k' = k1)) eqn:E1; cbn [aget].
  - apply bool_decide_eq_true in E1 as <-. by destruct (bool_decide (k = k')).
  - rewrite IH. apply bool_decide_eq_false in E1.
    destruct (bool_decide (k = k1)) eqn:E2, (bool_decide (k = k')) eqn:E3; bools; congruence.
Qed.
Lemma sset_in {A} k (v : A) d x : x ∈ sset k v d -> x = (k, v) \/ x ∈ d.
Proof.
  induction d as [|[k1 w] d IH]; cbn; intros H; [left; by apply list_elem_of_singleton in H|].
  case_bool_decide as E.
  - subst. apply elem_of_cons in H as [->|H]; [by left|right; by right].
  - apply elem_of_cons in H as [->|H]; [right; by left|]. destruct (IH H) as [?|?]; [by left|right; by right].
Qed.
Lemma adel_in {A} k (d : list (string * A)) x : x ∈ adel k d -> x ∈ d /\ fst x <> k.
Proof.
  unfold adel. intros H%list_elem_of_In. apply filter_In in H as [H E]. split; [by apply list_elem_of_In|].
  apply negb_true_iff, bool_decide_eq_false in E. congruence.
Qed.
Lemma apush_in {A} k (v : A) d x : x ∈ apush k v d -> x = (k, v) \/ x ∈ d.
Proof. unfold apush. intros [H|H]%elem_of_app; [right; by apply adel_in in H as [? _]|left; by apply list_elem_of_singleton in H]. Qed.

Definition keys_once {A} (d : list (string * A)) : Prop := NoDup (map fst d).
Lemma filter_keys {A} (p : string * A -> bool) d : keys_once d -> keys_once (List.filter p d).
Proof.
  unfold keys_once. induction d as [|kv d IH]; cbn; [done|]. intros [Hn Hd]%NoDup_cons. destruct (p kv); cbn; [|by apply IH].
  apply NoDup_cons. split; [|by apply IH]. intros Hin. apply Hn. apply list_elem_of_In, in_map_iff in Hin as (y & <- & Hy).
  apply filter_In in Hy as [Hy _]. by apply list_elem_of_In, in_map.
Qed.
Lemma apush_keys {A} k (v : A) d : keys_once d -> keys_once (apush k v d).
Proof.
  intros H. unfold keys_once, apush. rewrite map_app. apply NoDup_app. split_and!; [by apply filter_keys| |apply NoDup_singleton].
  intros x Hx Hx'. apply list_elem_of_singleton in Hx' as ->. apply list_elem_of_In, in_map_iff in Hx as (y & Hy & Hin).
  apply list_elem_of_In, adel_in in Hin as [_ Hne]. done.
Qed.
Lemma drop_keys {A} n (d : list (string * A)) : keys_once d -> keys_once (drop n d).
Proof.
  unfold keys_once. rewrite <- skipn_map. intros H. revert n. induction (map fst d) as [|x l IH]; intros [|n]; cbn; try done.
  apply IH. by apply NoDup_cons in H as [_ ?].
Qed.

(** ** What a lookup answers *)

Lemma first_uses_from codes seen x :
  x ∈ fold_left (fun seen c => if mem c seen then seen else seen ++ [c]) codes seen <-> x ∈ seen \/ x ∈ codes.
Proof.
  revert seen. induction codes as [|c codes IH]; intros seen; cbn; [set_solver|]. rewrite IH. unfold mem.
  case_bool_decide; set_solver.
Qed.
Lemma first_uses_nodup codes seen :
  NoDup seen -> NoDup (fold_left (fun seen c => if mem c seen then seen else seen ++ [c]) codes seen).
Proof.
  revert seen. induction codes as [|c codes IH]; intros seen Hn; cbn; [done|]. apply IH. unfold mem.
  case_bool_decide as E; [done|]. apply NoDup_app. split_and!; [done|set_solver|apply NoDup_singleton].
Qed.

(** The facts an order is valued with are usable, complete and its own.  A
    lookup that answers, answers once for each code named, in order: with the
    quotes of a row this very call's snapshot has for that code, with the
    classification some reported row has, and with quotes and multipliers that
    are positive finite numbers or absent; the multiplier of a stock or ETF is
    one, that of an option is the row's own, and nothing else has any. *)
Theorem lookup_sound q codes s facts s' :
  lookup_instruments q codes s = (Ok facts, s') ->
  map i_code facts = first_uses codes /\ NoDup (map i_code facts)
  /\ Forall (fun i => instrument_ok i /\
       exists rows row, _rows (qa_snapshot q) = Ok rows /\ row ∈ rows /\ row_code row = i_code i /\ money_ok row i
         /\ normalize_quote (dget_none "last_price" row) = Ok (last_price i)
         /\ normalize_quote (dget_none "bid_price" row) = Ok (bid_price i)
         /\ normalize_quote (dget_none "ask_price" row) = Ok (ask_price i)) facts.
Proof.
  unfold lookup_instruments. assert (Hnd : NoDup (first_uses codes)) by (apply first_uses_nodup; constructor).
  destruct (first_uses codes) as [|c0 w0] eqn:Ew; [done|]. rewrite <- Ew in *. clear Ew. destruct (qa_context q) as [ctx|]; [|done].
  intros H. apply se_bind_ok in H as (snaps & s1 & H1 & H). injection H1 as H1 _.
  apply se_bind_ok in H as (found & s2 & _ & H). injection H as H _.
  unfold _snapshots in H1. apply bind_ok in H1 as (rows & Hr & H1). apply bind_ok in H1 as (u & _ & [= <-]).
  assert (Hby : forall l d c row, aget c (fold_left (fun d row => sset (row_code row) row d) l d) = Some row ->
            (row ∈ l /\ row_code row = c) \/ aget c d = Some row).
  { induction l as [|r l IH]; intros d c row Hg; cbn in Hg; [by right|].
    destruct (IH _ _ _ Hg) as [[? ?]|Hd]; [left; split; [by right|done]|]. rewrite aget_sset in Hd.
    case_bool_decide as E; [injection Hd as <-; left; split; [by left|done]|by right]. }
  assert (Hc : Forall2 (fun c i => i_code i = c /\ instrument_ok i /\
       exists rows row, _rows (qa_snapshot q) = Ok rows /\ row ∈ rows /\ row_code row = i_code i /\ money_ok row i
         /\ normalize_quote (dget_none "last_price" row) = Ok (last_price i)
         /\ normalize_quote (dget_none "bid_price" row) = Ok (bid_price i)
         /\ normalize_quote (dget_none "ask_price" row) = Ok (ask_price i)) (first_uses codes) facts).
  { apply mapM_Forall2 in H. eapply Forall2_impl; [exact H|]. intros c i Hi. cbn in Hi. unfold facts_for in Hi.
    destruct (aget c (by_code rows)) as [row|] eqn:Eg; [|done]. destruct (aget c found) as [st|]; [|done].
    apply code_facts_sound in Hi as (Hcode & _ & _ & Hok & Hm & Hl & Hb & Ha). unfold by_code in Eg.
    destruct (Hby _ _ _ _ Eg) as [[Hin Hrc]|?]; [|done]. split_and!; try done. exists rows, row. rewrite Hcode. by split_and!. }
  assert (Hmap : map i_code facts = first_uses codes).
  { clear -Hc. induction Hc as [|c i l l' [Hi _] _ IH]; [done|]. cbn. by rewrite Hi, IH. }
  split_and!; [done|by rewrite Hmap|]. clear -Hc. induction Hc as [|c i l l' (_ & ? & ?) _ IH]; [constructor|].
  constructor; [by split_and!|done].
Qed.

(** ** The cache over its history *)

(** What a lookup was told of a code, the way it is kept. *)
Definition told (q : quotes) (ttl : Z) (code : string) (st : static) : Prop :=
  exists market group rows row reported,
    _rows (qa_basic q market group) = Ok rows /\ row ∈ rows /\ row_code row = code /\ code ∈ group
    /\ dget_none "stock_type" row = VStr reported /\ st_classification st = upper (strip reported)
    /\ normalize_quote (dget_none "lot_size" row) = Ok (st_lot_size st) /\ st_raw st = row
    /\ st_expires_at st = qa_clock q code + ttl.

(** What was kept of an earlier lookup on the connection [c]. *)
Definition remembered (h : list quotes) (ttl : Z) (c : option Z) (kv : string * static) : Prop :=
  exists ctx q, c = Some ctx /\ q ∈ h /\ qa_context q = Some ctx /\ told q ttl (fst kv) (snd kv).

(** The metadata a cache may hold after the lookups [h]. *)
Record adapter_ok (h : list quotes) (s : adapter) : Prop := {
  aok_capacity : 1 <= ad_capacity s;
  aok_keys : keys_once (ad_metadata s);
  aok_size : Z.of_nat (length (ad_metadata s)) <= ad_capacity s;
  aok_told : Forall (remembered h (ad_ttl s) (ad_context s)) (ad_metadata s) }.

Lemma foldM_in {A C} (P : C -> Prop) (f : C -> A -> result C) l b b' :
  (forall b a b', a ∈ l -> P b -> f b a = Ok b' -> P b') -> P b -> foldM f b l = Ok b' -> P b'.
Proof.
  revert b. induction l as [|a l IH]; intros b Hf Hb H; cbn in H; [by injection H as <-|].
  apply bind_ok in H as (b1 & H1 & H). eapply (IH b1); [|eapply Hf; [by left|exact Hb|exact H1]|exact H].
  intros; eapply Hf; [by right|done|done].
Qed.

Lemma classifications_told q ttl codes found :
  _classifications q ttl codes = Ok found -> Forall (fun kv => told q ttl (fst kv) (snd kv)) found.
Proof.
  unfold _classifications. intros H. apply bind_ok in H as (groups & _ & H).
  apply (foldM_in (Forall (fun kv => told q ttl (fst kv) (snd kv)))) in H; [done| |constructor].
  intros b [market group] b' _ Hb Hg. unfold classify_group in Hg. apply bind_ok in Hg as (rows & Hr & Hg). cbn [fst snd] in *.
  eapply foldM_in; [|exact Hb|exact Hg]. clear Hb Hg. intros d row d' Hin Hd Hc. unfold classified in Hc.
  destruct (dget_none "stock_type" row) as [| | | |reported| |] eqn:Es; try (by injection Hc as <-).
  destruct (mem (row_code row) group && nonempty (strip reported)) eqn:E; [|by injection Hc as <-].
  apply bind_ok in Hc as (lot & Hl & [= <-]). apply andb_true_iff in E as [E _]. unfold mem in E. apply bool_decide_eq_true in E.
  rewrite Forall_forall in Hd |- *. intros kv Hkv. apply sset_in in Hkv as [->|Hkv]; [|by apply Hd].
  exists market, group, rows, row, reported. by split_and!.
Qed.

Lemma told_later (h h' : list quotes) ttl c kv : remembered h ttl c kv -> remembered (h ++ h') ttl c kv.
Proof. intros (ctx & q & -> & Hin & Hc & Ht). exists ctx, q. split_and!; [done|apply elem_of_app; by left|done..]. Qed.

Lemma adel_shorter {A} k (v : A) d : aget k d = Some v -> (length (adel k d) < length d)%nat.
Proof.
  induction d as [|[k' w] d IH]; cbn; [done|]. destruct (bool_decide (k = k')) eqn:E; cbn.
  - intros _. assert (H : (length (adel k d) <= length d)%nat) by apply List.filter_length_le. unfold adel in H. lia.
  - intros H. apply IH in H. unfold adel in H. lia.
Qed.

(** Entries and size after moving keys to the end. *)
Definition shrinks (m m' : list (string * static)) : Prop :=
  (keys_once m -> keys_once m') /\ (length m' <= length m)%nat /\ forall x, x ∈ m' -> x ∈ m.
Lemma shrinks_move k m : shrinks m (move_to_end k m).
Proof.
  unfold move_to_end. destruct (aget k m) as [v|] eqn:E; [|by split_and!]. split_and!; [apply apush_keys| |].
  - unfold apush. rewrite length_app. cbn. apply adel_shorter in E. lia.
  - intros x Hx. apply apush_in in Hx as [->|Hx]; [by apply aget_in|done].
Qed.
Lemma shrinks_moves (found : list (string * static)) m :
  shrinks m (fold_left (fun m kv => move_to_end (fst kv) m) found m).
Proof.
  revert m. induction found as [|kv found IH]; intros m; cbn; [by split_and!|].
  destruct (IH (move_to_end (fst kv) m)) as (Ha & Hb & Hc). destruct (shrinks_move (fst kv) m) as (Hx & Hy & Hz).
  split_and!; [by auto|lia|by auto].
Qed.
Lemma shrinks_expire now m : shrinks m (expire now m).
Proof.
  split_and!; [by apply filter_keys|apply List.filter_length_le|].
  intros x Hx%list_elem_of_In. apply filter_In in Hx as [Hx _]. by apply list_elem_of_In.
Qed.

Lemma shrunk_ok h s m : adapter_ok h s -> shrinks (ad_metadata s) m -> adapter_ok h (with_metadata m s).
Proof.
  intros [Hc Hk Hs Ht] (Ha & Hb & Hin). split; cbn; [done|by apply Ha|lia|].
  rewrite Forall_forall in Ht |- *. intros x Hx. by apply Ht, Hin.
Qed.

Lemma remember_ok capacity fresh m :
  1 <= capacity -> keys_once m ->
  keys_once (remember capacity fresh m) /\ Z.of_nat (length (remember capacity fresh m)) <= capacity
  /\ forall x, x ∈ remember capacity fresh m -> x ∈ m \/ x ∈ fresh.
Proof.
  intros Hc Hk. unfold remember.
  assert (H : keys_once (fold_left (fun m kv => apush (fst kv) (snd kv) m) fresh m)
              /\ forall x, x ∈ fold_left (fun m kv => apush (fst kv) (snd kv) m) fresh m -> x ∈ m \/ x ∈ fresh).
  { revert m Hk. induction fresh as [|[k v] fresh IH]; intros m Hk; cbn; [split; [done|by left]|].
    destruct (IH (apush k v m)) as [H1 H2]; [by apply apush_keys|]. split; [done|]. intros x Hx.
    apply H2 in Hx as [Hx|Hx]; [|right; by right]. apply apush_in in Hx as [->|Hx]; [right; by left|by left]. }
  destruct H as [H1 H2]. set (l := fold_left _ fresh m) in *. split_and!; [by apply drop_keys| |].
  - rewrite length_drop. lia.
  - intros x Hx. apply H2. apply list_elem_of_lookup_1 in Hx as (j & Hj). rewrite lookup_drop in Hj. by eapply list_elem_of_lookup_2.
Qed.

Lemma enter_context_ok h ctx q s b s1 :
  adapter_ok h s -> enter_context ctx q s = (Ok b, s1) ->
  adapter_ok h s1 /\ ad_ttl s1 = ad_ttl s /\ ad_capacity s1 = ad_capacity s
  /\ Forall (remembered h (ad_ttl s) (Some ctx)) (ad_metadata s1) /\ (b = true -> ad_context s1 = Some ctx).
Proof.
  intros [Hc Hk Hs Ht]. unfold enter_context. destruct (qa_alive q); case_bool_decide as E; intros [= <- <-]; try done.
  - rewrite E in Ht. split_and!; try done. by split; rewrite ?E.
  - split_and!; cbn; try done; [|by intros ->]. split; cbn; [done|constructor|lia|constructor].
  - split_and!; cbn; try done; [|by intros ->]. split; cbn; [done|constructor|lia|constructor].
Qed.

(** What a lookup relies on: told now, or told before on this connection and
    not expired. *)
Definition served (h : list quotes) (q : quotes) (ttl : Z) (kv : string * static) : Prop :=
  told q ttl (fst kv) (snd kv)
  \/ exists q0, q0 ∈ h /\ qa_context q0 = qa_context q /\ told q0 ttl (fst kv) (snd kv) /\ qa_now q < st_expires_at (snd kv).

Lemma kept_ok h q ctx b s fresh :
  adapter_ok h s -> qa_context q = Some ctx -> (b = true -> ad_context s = Some ctx) ->
  Forall (fun kv => told q (ad_ttl s) (fst kv) (snd kv)) fresh ->
  adapter_ok (h ++ [q]) (kept b fresh s) /\ ad_ttl (kept b fresh s) = ad_ttl s.
Proof.
  intros [Hc Hk Hs Ht] Hq Hb Hf. assert (Hlater : Forall (remembered (h ++ [q]) (ad_ttl s) (ad_context s)) (ad_metadata s)).
  { eapply Forall_impl; [exact Ht|]. intros kv. apply told_later. }
  unfold kept. destruct b; cbn [andb]; [destruct (0 <? ad_ttl s)|]; try (split; [by split|done]).
  destruct (remember_ok (ad_capacity s) fresh (ad_metadata s) Hc Hk) as (H1 & H2 & H3). split; [|done]. split; cbn; [done..|].
  rewrite Forall_forall in Hlater, Hf |- *. intros kv [Hin|Hin]%H3; [by apply Hlater|]. exists ctx, q.
  split_and!; [by apply Hb|apply elem_of_app; right; by left|done|by apply Hf].
Qed.

Lemma adapter_later h h' s : adapter_ok h s -> adapter_ok (h ++ h') s.
Proof. intros [Hc Hk Hs Ht]. split; try done. eapply Forall_impl; [exact Ht|]. intros kv. apply told_later. Qed.

Lemma cached_in codes m kv : kv ∈ cached codes m -> kv ∈ m.
Proof.
  unfold cached. intros (c & _ & Hc)%list_elem_of_omap. unfold option_map in Hc. destruct (aget c m) as [st|] eqn:E; [|done].
  injection Hc as <-. by apply aget_in.
Qed.
Lemma updated_in (fresh found : list (string * static)) kv :
  kv ∈ fold_left (fun d x => sset (fst x) (snd x) d) fresh found -> kv ∈ fresh \/ kv ∈ found.
Proof.
  revert found. induction fresh as [|[k v] fresh IH]; intros found H; cbn in H; [by right|].
  apply IH in H as [H|H]; [left; by right|]. apply sset_in in H as [->|H]; [left; by left|by right].
Qed.
Lemma expire_fresh now m kv : kv ∈ expire now m -> kv ∈ m /\ now < st_expires_at (snd kv).
Proof.
  intros H%list_elem_of_In. apply filter_In in H as [H E]. apply negb_true_iff, Z.leb_gt in E. by split; [apply list_elem_of_In|].
Qed.

Lemma static_facts_ok h ctx q codes s r s' :
  qa_context q = Some ctx -> adapter_ok h s -> _static_facts ctx q codes s = (r, s') ->
  adapter_ok (h ++ [q]) s' /\ ad_ttl s' = ad_ttl s /\ forall found, r = Ok found -> Forall (served h q (ad_ttl s)) found.
Proof.
  intros Hq Hs. unfold _static_facts, se_bind. destruct (enter_context ctx q s) as [[b|e] s1] eqn:E1;
    [|unfold enter_context in E1; by destruct (bool_decide _)].
  apply enter_context_ok with (h := h) in E1 as (H1 & T1 & C1 & F1 & B1); [|done].
  unfold se_modify, se_get. set (s2 := with_metadata (expire (qa_now q) (ad_metadata s1)) s1).
  assert (H2 : adapter_ok h s2) by (apply shrunk_ok; [done|apply shrinks_expire]).
  set (found := cached codes (ad_metadata s2)).
  set (s3 := with_metadata (fold_left (fun m kv => move_to_end (fst kv) m) found (ad_metadata s2)) s2).
  assert (H3 : adapter_ok h s3) by (apply shrunk_ok; [done|apply shrinks_moves]).
  assert (Hfound : Forall (served h q (ad_ttl s)) found).
  { rewrite Forall_forall in F1 |- *. intros kv [Hin He]%cached_in%expire_fresh. right.
    destruct (F1 _ Hin) as (c & q0 & [= <-] & Hh & Hc & Ht). exists q0. split_and!; try done. by rewrite Hc. }
  destruct (List.filter _ codes) as [|c0 cs]; unfold se_ret, se_lift.
  - intros [= <- <-]. split_and!; [by apply adapter_later|done|by intros ? [= <-]].
  - destruct (_classifications q (ad_ttl s2) (c0 :: cs)) as [fresh|e] eqn:Ef; intros [= <- <-];
      [|split_and!; [by apply adapter_later|done|done]].
    apply classifications_told in Ef. destruct (kept_ok h q ctx b s3 fresh H3 Hq B1 Ef) as [Hk Ht].
    split_and!; [exact Hk|by rewrite <- T1; exact Ht|]. intros ? [= <-]. rewrite Forall_forall in Hfound, Ef |- *.
    intros kv [Hin|Hin]%updated_in; [left; rewrite <- T1; by apply Ef|by apply Hfound].
Qed.

(** ** The adapter over its history *)

Inductive asked : Type := Value (codes : list string) | Facts (received : string) (codes : val).

Definition answered (q : quotes) (a : asked) (s : adapter) : adapter :=
  match a with
  | Value codes => snd (lookup_instruments q codes s)
  | Facts received codes => snd (read_facts q received codes s)
  end.

(** An adapter in service: its state after the lookups [h]. *)
Inductive in_service (ttl capacity : Z) : list quotes -> adapter -> Prop :=
| Wired s : new_adapter ttl capacity = Ok s -> in_service ttl capacity [] s
| Answered h s q a : in_service ttl capacity h s -> in_service ttl capacity (h ++ [q]) (answered q a s).

Lemma lookup_state h q codes s r s' :
  adapter_ok h s -> lookup_instruments q codes s = (r, s') ->
  adapter_ok (h ++ [q]) s' /\ ad_ttl s' = ad_ttl s
  /\ forall facts, r = Ok facts -> exists snapshots found,
       mapM (facts_for snapshots found) (first_uses codes) = Ok facts /\ Forall (served h q (ad_ttl s)) found.
Proof.
  intros Hs. unfold lookup_instruments, se_raise. destruct (first_uses codes) as [|c0 w0] eqn:Ew;
    [intros [= <- <-]; split_and!; [by apply adapter_later|done|done]|]. rewrite <- Ew. clear Ew.
  destruct (qa_context q) as [ctx|] eqn:Eq; [|intros [= <- <-]; split_and!; [by apply adapter_later|done|done]].
  unfold se_bind, se_lift. destruct (_snapshots q (first_uses codes) false) as [snaps|e];
    [|intros [= <- <-]; split_and!; [by apply adapter_later|done|done]].
  destruct (_static_facts ctx q (first_uses codes) s) as [[found|e] s1] eqn:E1; intros [= <- <-];
    destruct (static_facts_ok h ctx q _ s _ _ Eq Hs E1) as (H1 & H2 & H3); split_and!; try done.
  intros facts Hf. exists snaps, found. split; [done|by apply H3].
Qed.

Lemma read_state h q received codes s r s' :
  adapter_ok h s -> read_facts q received codes s = (r, s') -> adapter_ok (h ++ [q]) s' /\ ad_ttl s' = ad_ttl s.
Proof.
  intros Hs. unfold read_facts, facts_asked, se_bind, se_lift.
  destruct (validate_codes codes) as [cs|e]; cbn [bind]; [|intros [= <- <-]; split; [by apply adapter_later|done]].
  destruct (qa_context q) as [ctx|] eqn:Eq; [|intros [= <- <-]; split; [by apply adapter_later|done]].
  destruct (_snapshots q cs true) as [snaps|e]; [|intros [= <- <-]; split; [by apply adapter_later|done]].
  destruct (_static_facts ctx q cs s) as [[found|e] s1] eqn:E1; intros [= <- <-];
    by destruct (static_facts_ok h ctx q _ s _ _ Eq Hs E1) as (H1 & H2 & _).
Qed.

(** No lookup changes the adapter's limits. *)
Definition same_limits (s s' : adapter) : Prop := ad_ttl s' = ad_ttl s /\ ad_capacity s' = ad_capacity s.
#[export] Instance same_limits_preorder : PreOrder same_limits.
Proof. split; [by intros s|]. intros s1 s2 s3 [] []. split; congruence. Qed.

Lemma modify_limits f : (forall s, same_limits s (f s)) -> preserves same_limits (se_modify f).
Proof. intros Hf s r s' [= _ <-]. apply Hf. Qed.
Lemma kept_limits b fresh s : same_limits s (kept b fresh s).
Proof. unfold kept. by destruct (_ && _). Qed.
Lemma static_limits ctx q codes : preserves same_limits (_static_facts ctx q codes).
Proof.
  unfold _static_facts. repeat (apply preserves_bind; [apply _| |intros ?]); auto with preserves;
    try (apply modify_limits; by intros s).
  - intros s r s'. unfold enter_context. by destruct (bool_decide _); intros [= <- <-].
  - destruct (List.filter _ _); preserves. apply modify_limits, kept_limits.
Qed.
#[local] Hint Resolve static_limits : preserves.
Lemma lookup_limits q codes : preserves same_limits (lookup_instruments q codes).
Proof. unfold lookup_instruments. destruct (first_uses codes), (qa_context q); preserves. Qed.
Lemma read_limits q received codes : preserves same_limits (read_facts q received codes).
Proof. unfold read_facts. apply preserves_bind; [apply _|auto with preserves|intros [cs ctx]]. preserves. Qed.

Lemma service_ok ttl capacity h s : in_service ttl capacity h s -> adapter_ok h s /\ ad_ttl s = ttl /\ ad_capacity s = capacity.
Proof.
  intros Hrun. induction Hrun as [s Hs|h s q a _ (Hok & <- & <-)].
  - unfold new_adapter, refuse_if in Hs. destruct (ttl <? 0); [done|]. destruct (capacity <? 1) eqn:Ec; [done|].
    injection Hs as <-. split_and!; [|done..]. split; cbn; [lia|constructor|lia|constructor].
  - destruct a as [codes|received codes]; cbn [answered].
    + destruct (lookup_instruments q codes s) as [r s1] eqn:E. apply (lookup_state h) in E as H; [|done].
      apply lookup_limits in E as [? ?]. cbn. by destruct H.
    + destruct (read_facts q received codes s) as [r s1] eqn:E. apply (read_state h) in E as H; [|done].
      apply read_limits in E as [? ?]. cbn. by destruct H.
Qed.

Lemma code_facts_static snapshots found code i :
  facts_for snapshots found code = Ok i ->
  exists st, (code, st) ∈ found /\ i_code i = code /\ classification i = Some (st_classification st) /\ lot_size i = st_lot_size st.
Proof.
  unfold facts_for. destruct (aget code snapshots); [|done]. destruct (aget code found) as [st|] eqn:E; [|done].
  intros (? & ? & ? & _)%code_facts_sound. exists st. by split_and!; [apply aget_in|..].
Qed.

(** Metadata is only what the gateway said, recently and on this connection.
    However the adapter has been used since it was wired, it holds one entry a
    code and never more than its capacity, each something a lookup on the
    connection it is for was told; and the classification and lot size of every
    instrument it values were told by this lookup, or by an earlier one on the
    very connection in use, whose answer is younger than the metadata's lifetime. *)
Theorem metadata_told ttl capacity h s q codes facts :
  in_service ttl capacity h s -> fst (lookup_instruments q codes s) = Ok facts ->
  keys_once (ad_metadata s) /\ Z.of_nat (length (ad_metadata s)) <= capacity
  /\ Forall (remembered h ttl (ad_context s)) (ad_metadata s)
  /\ Forall (fun i => exists q0 st,
        (q0 = q \/ q0 ∈ h /\ qa_context q0 = qa_context q /\ qa_now q < qa_clock q0 (i_code i) + ttl)
        /\ told q0 ttl (i_code i) st /\ classification i = Some (st_classification st) /\ lot_size i = st_lot_size st) facts.
Proof.
  intros (Hok & <- & <-)%service_ok Hl. destruct (lookup_instruments q codes s) as [r s1] eqn:E. cbn in Hl. subst r.
  destruct (lookup_state h q codes s _ _ Hok E) as (_ & _ & H). destruct (H _ eq_refl) as (snaps & found & Hm & Hf).
  destruct Hok as [? ? ? ?]. split_and!; try done. apply mapM_Forall2 in Hm. eapply Forall2_Forall_r; [exact Hm|].
  rewrite Forall_forall in Hf. apply Forall_forall. intros c _ i Hi. apply code_facts_static in Hi as (st & Hin & -> & Hcl & Hlot).
  destruct (Hf _ Hin) as [Ht|(q0 & Hh & Hq & Ht & Hexp)].
  - exists q, st. split_and!; [by left|done..].
  - exists q0, st. split_and!; try done. right. split_and!; try done. destruct Ht as (?&?&?&?&?&?&?&?&?&?&?&?&?& He). cbn in *. lia.
Qed.

(** ** Orders valued by the adapter *)

(** The lookup the trade service is given. *)
Definition adapter_lookup (q : quotes) (s : adapter) : lookup_fn := Some (fun codes => fst (lookup_instruments q codes s)).

(** A price given as text is finite as a float. *)
Definition finite_text (v : val) : Prop :=
  match v with VStr t => forall f, f_parse t = Some f -> is_finite f = true | _ => True end.

Lemma d_parse_negative t d : d_parse (String "-" t) = Some (DFin d) -> d_neg d = true.
Proof.
  unfold d_parse. assert (strip (String "-" t) = String "-" (rstrip t)) as ->.
  { change (strip (String "-" t)) with (rstrip_if is_space (String "-" t)). unfold rstrip. cbn [rstrip_if].
    by destruct (rstrip_if is_space t). }
  assert (drop_us (String "-" (rstrip t)) = String "-" (drop_us (rstrip t))) as -> by (unfold drop_us; by cbn). cbn [split_sign].
  change (is_sign "-") with true. cbn iota. change (Ascii.eqb "-" "-") with true.
  repeat case_match; try done. destruct (parse_number _ _) as [[c e]|]; [|done]. cbn. by intros [= <-].
Qed.

Lemma whole_int z n : whole_quantity (Plain (VInt z)) = Ok n -> 0 < z.
Proof.
  unfold whole_quantity. intros H. apply bind_ok in H as ([] & _ & H). apply bind_ok in H as (d & Hd & H).
  apply bind_ok in H as ([] & Hg%refuse_if_ok & _). apply orb_false_iff in Hg as [Hg%negb_false_iff _].
  pose proof (number_wf (Plain (VInt z)) d I Hd) as Hw. apply (d_gt_zero d Hw) in Hg as [Hneg Hc].
  unfold _number, decimal_str in Hd. cbn in Hd. destruct (d_parse (str_int z)) as [[d'| |]|] eqn:E; try done. injection Hd as ->.
  destruct (Z.lt_trichotomy z 0) as [Hz|[->|Hz]]; [| |done].
  - unfold str_int in E. destruct (Z.ltb_spec z 0); [|lia]. apply d_parse_negative in E. congruence.
  - rewrite d_parse_int in E by done. injection E as <-. by cbn in Hc.
Qed.

Lemma opt_number_finite i is_price fixed v o :
  finite_text v -> check_price_field i is_price fixed (opt_arg v) = Ok tt -> opt_number v = Ok o ->
  forall f, o = Some f -> is_finite f = true.
Proof.
  unfold opt_number, opt_arg. intros Ht Hc Ho f ->. destruct v as [|b|z|g|t| |]; cbn in *; try done.
  - apply bind_ok in Ho as (g & Hg & [= ->]). unfold f_of_Z in Hg. destruct (is_finite _) eqn:E; [by injection Hg as <-|done].
  - injection Ho as ->. by destruct f.
  - destruct (f_parse t) as [g|] eqn:E; [|done]. injection Ho as ->. by apply Ht.
Qed.

(** What is valued is usable. *)
Lemma single_leg_ok `{SN : SessionNames} f code order_type side qty price aux session facts :
  (forall codes l, f codes = Ok l -> Forall instrument_ok l) -> finite_text price -> finite_text aux ->
  _single_leg_facts (Some f) code order_type side qty price aux session = Ok facts ->
  facts_ok facts /\ exists c i, code = VStr c /\ f [c] = Ok [i] /\ i_code i = c /\ legs facts = [{| instrument := i; qty_ratio := 1 |}].
Proof.
  intros Hf Hp Ha H. unfold _single_leg_facts, _instrument_facts in H. apply bind_ok in H as (c & Hc & H).
  apply bind_ok in H as (found & Hl & H). apply bind_ok in H as (i & Hi & H). apply bind_ok in H as (r & Hv & H).
  apply bind_ok in H as (? & _ & H). apply bind_ok in H as (n & Hn & H). apply bind_ok in H as (pr & Hpr & H).
  apply bind_ok in H as (au & Hau & [= <-]). destruct code; try done. injection Hc as ->.
  destruct found as [|i' [|]]; try done. case_bool_decide as Hcode; [|done]. injection Hi as ->. destruct qty; try done. injection Hn as ->.
  unfold validate_instrument_order in Hv. apply bind_ok in Hv as ([] & _ & Hv). apply bind_ok in Hv as (w & Hw & Hv).
  apply bind_ok in Hv as (? & _ & Hv). apply bind_ok in Hv as ([] & H1 & Hv). apply bind_ok in Hv as ([] & H2 & _).
  split; [|by exists c, i]. split; cbn; [by eapply whole_int|exact (opt_number_finite _ _ _ _ _ Hp H1 Hpr)|exact (opt_number_finite _ _ _ _ _ Ha H2 Hau)|].
  apply Forall_singleton. cbn. apply Hf in Hl. exact (Forall_inv Hl).
Qed.

(** C34 An order valued by the adapter is inside every limit, at this lookup's
    prices.  When a single-leg order that was valued with the adapter passes the
    policy, its one leg carries the quotes of a row for its code in the snapshot
    this very lookup was given, with the multiplier its classification asks for
    (for an option the row's own premium multiplier, never its contract size);
    its code is on the symbol list, its quantity is within the limit, and when a
    currency is capped its value was computed, is in a capped currency and does
    not exceed the cap; nothing is assumed of what the gateway answers. *)
Theorem valued_order_within_limits `{SN : SessionNames} p q s code order_type side qty price aux session facts :
  policy_ok p -> finite_text price -> finite_text aux ->
  _single_leg_facts (adapter_lookup q s) code order_type side qty price aux session = Ok facts ->
  assess_order p facts = Ok tt ->
  (exists c i rows row, code = VStr c /\ i_code i = c /\ legs facts = [{| instrument := i; qty_ratio := 1 |}]
     /\ _rows (qa_snapshot q) = Ok rows /\ row ∈ rows /\ row_code row = c /\ money_ok row i
     /\ normalize_quote (dget_none "last_price" row) = Ok (last_price i)
     /\ normalize_quote (dget_none "bid_price" row) = Ok (bid_price i)
     /\ normalize_quote (dget_none "ask_price" row) = Ok (ask_price i))
  /\ (symbol_allowlist p <> ∅ -> Forall (fun l => code_of l ∈ symbol_allowlist p) (legs facts))
  /\ (forall n, max_order_qty p = Some n -> Z_gt_float (largest_leg_qty facts) n = false)
  /\ (max_order_notional p <> ∅ ->
      exists v c cap, order_value facts = Ok (v, c) /\ max_order_notional p !! c = Some cap /\ f_le v cap = true).
Proof.
  intros Hp Hpr Ha Hs Has. apply single_leg_ok in Hs as (Hok & c & i & -> & Hi & Hc & Hl); [|  |done..].
  - split; [|by apply assess_order_sound]. cbn in Hi. destruct (lookup_instruments q [c] s) as [r s'] eqn:E. cbn in Hi. subst r.
    destruct (lookup_sound q [c] s _ _ E) as (_ & _ & H). apply Forall_singleton in H as (_ & rows & row & Hr & Hin & Hrc & Hm & Hl' & Hb & Ha').
    exists c, i, rows, row. rewrite Hrc. by split_and!.
  - intros codes l Hl. destruct (lookup_instruments q codes s) as [r s'] eqn:E. cbn in Hl. subst r.
    destruct (lookup_sound q codes s _ _ E) as (_ & _ & H). eapply Forall_impl; [exact H|]. by intros ? [? _].
Qed.

(** ** Examples *)

Definition demo_basic : dict := [("code", VStr "US.AAPL"); ("stock_type", VStr " stock "); ("lot_size", VInt 1)].
Definition demo_snapshot : dict :=
  [("code", VStr "US.AAPL"); ("last_price", VFloat (f_lit "199.5")); ("bid_price", VStr "N/A");
   ("ask_price", VFloat (f_lit "199.6")); ("option_contract_size", VFloat (f_lit "0"))].
(** The first lookup on a connection, and one whose metadata call fails. *)
Definition demo_first : quotes :=
  {| qa_context := Some 7; qa_alive := false; qa_weak := true; qa_snapshot := RetOk (Rows [demo_snapshot]);
     qa_basic := fun _ _ => RetOk (Rows [demo_basic]); qa_now := 0; qa_clock := fun _ => 5; qa_time := "t0" |}.
Definition demo_later (now : Z) : quotes :=
  {| qa_context := Some 7; qa_alive := true; qa_weak := true; qa_snapshot := RetOk (Rows [demo_snapshot]);
     qa_basic := fun _ _ => RetError; qa_now := now; qa_clock := fun _ => now; qa_time := "t1" |}.
Definition demo_wired : adapter := {| ad_ttl := 300; ad_capacity := 2; ad_context := None; ad_metadata := [] |}.
Definition demo_aapl : InstrumentFacts :=
  {| i_code := "US.AAPL"; classification := Some "STOCK"; monetary_multiplier := Some f_one; contract_size := None;
     last_price := Some (f_lit "199.5"); bid_price := None; ask_price := Some (f_lit "199.6"); i_currency := None;
     lot_size := Some f_one |}.
Definition demo_used : adapter := answered demo_first (Value ["US.AAPL"]) demo_wired.

Example lookup_demo : fst (lookup_instruments demo_first ["US.AAPL"; "US.AAPL"] demo_wired) = Ok [demo_aapl].
Proof. vm_compute. reflexivity. Qed.
Example cache_demo :
  fst (lookup_instruments (demo_later 304) ["US.AAPL"] demo_used) = Ok [demo_aapl]
  /\ fst (lookup_instruments (demo_later 305) ["US.AAPL"] demo_used) = Err (InstrumentLookupError "failed").
Proof. vm_compute. done. Qed.
Example facts_demo :
  match fst (read_facts (demo_later 304) "t2" (VList [VStr "US.AAPL"]) demo_used) with
  | Ok [r] => map (fun f => (fst f, ft_state (snd f), ft_value (snd f)))
                (List.filter (fun f => negb (bool_decide (ft_value (snd f) = VNone))) (rf_facts r))
  | _ => []
  end = [("classification", KNOWN, VStr " stock "); ("lot_size", KNOWN, VFloat f_one)].
Proof. vm_compute. reflexivity. Qed.

Lemma demo_in_service : in_service 300 2 [demo_first] demo_used.
Proof. apply (Answered 300 2 [] demo_wired demo_first (Value ["US.AAPL"])). apply Wired. done. Qed.
Lemma demo_cached : fst (lookup_instruments (demo_later 304) ["US.AAPL"] demo_used) = Ok [demo_aapl].
Proof. vm_compute. reflexivity. Qed.

Lemma metadata_told_witness : keys_once (ad_metadata demo_used) /\ ad_metadata demo_used <> [].
Proof.
  split; [|by vm_compute].
  refine (proj1 (metadata_told 300 2 [demo_first] demo_used (demo_later 304) ["US.AAPL"] [demo_aapl] _ _)).
  - apply demo_in_service.
  - apply demo_cached.
Defined.

Definition demo_facts : OrderFacts :=
  {| order_type := "NORMAL"; trd_side := "BUY"; qty := 10; legs := [{| instrument := demo_aapl; qty_ratio := 1 |}];
     price := Some (f_lit "20.25"); aux_price := None; is_combo := false |}.
Lemma demo_valued :
  _single_leg_facts (adapter_lookup (demo_later 304) demo_used) (VStr "US.AAPL") (VStr "NORMAL") "BUY" (VInt 10)
    (VFloat (f_lit "20.25")) VNone (VStr "N/A") = Ok demo_facts.
Proof. vm_compute. reflexivity. Qed.
Lemma demo_assessed : assess_order demo_policy demo_facts = Ok tt.
Proof. vm_compute. reflexivity. Qed.

Lemma demo_capped : max_order_notional demo_policy <> ∅.
Proof. apply (bool_decide_unpack _). by vm_compute. Qed.

Lemma valued_order_within_limits_witness :
  exists v c cap, order_value demo_facts = Ok (v, c) /\ max_order_notional demo_policy !! c = Some cap /\ f_le v cap = true.
Proof.
  refine (proj2 (proj2 (proj2 (valued_order_within_limits (SN := sdk_sessions) demo_policy (demo_later 304) demo_used
    (VStr "US.AAPL") (VStr "NORMAL") "BUY" (VInt 10) (VFloat (f_lit "20.25")) VNone (VStr "N/A") demo_facts _ _ _ _ _))) demo_capped).
  - apply demo_policy_ok.
  - exact I.
  - exact I.
  - apply demo_valued.
  - apply demo_assessed.
Defined.
