(* ===== verification/Capabilities.v ===== *)
(** services/trading_capabilities.py: what a client is told it could trade, as
    three layers: documented support, the deployment's policy and the present
    readiness.  The report reads the desk the mutations run on, so it is held
    against their gates: [writes_exact], [ready_is_open].  Echoed limits, fixed
    texts and time stamps are left out. *)

From S2P Require Import Prelude PyStr PyVal DecText DecParse OrderErrors Store StoreInv Validation Policy Rules ClientAuth.
From S2P Require Import Controls Prep Paper RealRequest Real RealScope RealThm RealOnce Queries Prepare.

#[local] Open Scope list_scope.

(** ** Documented support *)

Definition US_TYPES : list string :=
  ["NORMAL"; "MARKET"; "STOP"; "STOP_LIMIT"; "MARKET_IF_TOUCHED"; "LIMIT_IF_TOUCHED"; "TRAILING_STOP"; "TRAILING_STOP_LIMIT"].
Definition LIMIT_TYPES : list string := ["NORMAL"; "STOP_LIMIT"; "LIMIT_IF_TOUCHED"; "TRAILING_STOP_LIMIT"].
Definition HK_TYPES : list string :=
  US_TYPES ++ ["ABSOLUTE_LIMIT"; "AUCTION"; "AUCTION_LIMIT"; "SPECIAL_LIMIT"; "SPECIAL_LIMIT_ALL"].

(** [v in {...}] for a set of strings: a list or a dictionary cannot be looked up. *)
Definition in_set (l : list string) (v : val) : result bool :=
  match v with
  | VList _ | VDict _ => Err (TypeError "unhashable type")
  | _ => Ok (str_in l v)
  end.

Definition one_of (l : list string) (c : option string) : bool := match c with Some c => mem c l | None => false end.

(** [_documented_types] *)
Definition _documented_types (market : string) (classification : option string) (environment : string) (account : dict)
    : result (option (list string)) :=
  if negb (one_of ["STOCK"; "ETF"; "DRVT"] classification) then Ok None
  else
    let drvt := bool_decide (classification = Some "DRVT") in
    if bool_decide (environment = "SIMULATE") then
      if negb (mem market ["US"; "HK"; "CN"]) || (drvt && negb (mem market ["US"; "HK"])) then Ok None
      else (fits <- in_set [if drvt then "OPTION" else "STOCK"; "STOCK_AND_OPTION"] (dget_none "sim_acc_type" account) ;;
            Ok (if fits then Some ["NORMAL"; "MARKET"] else None))%py
    else if bool_decide (market = "US") then Ok (Some US_TYPES)
    else if bool_decide (market = "HK") then Ok (Some (if drvt then LIMIT_TYPES else HK_TYPES))
    else if bool_decide (market = "HKCC") && one_of ["STOCK"; "ETF"] classification then Ok (Some LIMIT_TYPES)
    else Ok None.

(** ** The report *)

Record capabilities : Type := {
  cp_code : string; cp_classification : option string; cp_env : string; cp_account : option Z;
  (* supported *)
  cp_placement : option bool; cp_types : option (list string); cp_sessions : option (list string); cp_fees : option bool;
  (* allowed *)
  cp_writes : bool; cp_client_writes : bool; cp_allowlisted : option bool; cp_policy_reasons : list string;
  (* ready *)
  cp_state : string; cp_reasons : list string; cp_journal : string; cp_halted : bool; cp_unlock : string;
  cp_controls_required : bool; cp_controls : string; cp_paused : bool;
  cp_evidence_errors : list string }.

(** What the layers gather: why not, what is unknown, which evidence failed. *)
Record gathered : Type := { ga_reasons : list string; ga_unknown : list string; ga_errors : list string }.

Definition when (b : bool) (s : string) : list string := if b then [s] else [].

(** ** The account *)

Section inspect.
Context `{SN : SessionNames}.

(** The candidates of the requested account, or those a write could use; when a
    write could use none, those that exist, to explain the refusal. *)
Definition candidates (v : service) (paper : bool) (environment market : string) (requested : Z) : result (list dict) :=
  let readable := get_accounts (sv_grants v) None (Some (VStr environment)) (sv_sdk_accounts v) in
  if negb (requested =? 0) then
    (rows <- readable ;;
     filterM (fun a => n <- positive_account_id (dget_none "acc_id" a) ;; Ok (n =? requested)) rows)%py
  else
    (rows <- _eligible_accounts (sv_policy v) (sv_grants v) (get_accounts None None None (sv_sdk_accounts v))
               environment (Some market) ;;
     rows <- (if bool_decide (environment = "SIMULATE") && paper
              then filterM (fun a => n <- positive_account_id (dget_none "acc_id" a) ;;
                                     Ok (bool_decide (n ∈ sv_allowlist v))) rows
              else Ok rows) ;;
     rows <- match rows with [] => readable | _ => Ok rows end ;;
     Ok (List.filter (fun a => account_access_allowed (sv_grants v) (VStr environment) (dget_or "acc_id" (VStr "") a) false)
           rows))%py.

(** The account, why there is none, and whether discovery failed. *)
Definition discovered (r : result (list dict)) : option dict * gathered :=
  match r with
  | Ok [a] => (Some a, {| ga_reasons := []; ga_unknown := []; ga_errors := [] |})
  | Ok [] => (None, {| ga_reasons := ["ACCOUNT_UNAVAILABLE"]; ga_unknown := []; ga_errors := [] |})
  | Ok _ => (None, {| ga_reasons := ["ACCOUNT_AMBIGUOUS"]; ga_unknown := []; ga_errors := [] |})
  | Err _ => (None, {| ga_reasons := ["ACCOUNT_DISCOVERY_UNAVAILABLE"]; ga_unknown := []; ga_errors := ["account"] |})
  end.

(** The classification the lookup gives for exactly this code. *)
Definition classified_as (lookup : lookup_fn) (code : string) : option string * gathered :=
  let unknown errors := {| ga_reasons := []; ga_unknown := ["INSTRUMENT_CLASSIFICATION_UNKNOWN"]; ga_errors := errors |} in
  match lookup with
  | None => (None, unknown [])
  | Some f =>
      match f [code] with
      | Err _ => (None, unknown ["instrument"])
      | Ok facts =>
          match List.filter (fun i => bool_decide (i_code i = code)) facts with
          | [i] => match classification i with
                   | Some c => (Some c, {| ga_reasons := []; ga_unknown := []; ga_errors := [] |})
                   | None => (None, unknown [])
                   end
          | _ => (None, unknown [])
          end
      end
  end.

(** Whether the account may trade the market, and whether it is active. *)
Definition authorization_of (market : string) (account : option dict) : option bool :=
  match account with
  | Some a => match default (dget_none "market_auth" a) (dget "trdmarket_auth" a) with
              | VList l => Some (existsb (is_str_eq market) l)
              | _ => None
              end
  | None => None
  end.
Definition active_of (account : option dict) : result (option bool) :=
  match account with
  | Some a => (known <- in_set ["ACTIVE"; "DISABLED"] (dget_none "acc_status" a) ;;
               Ok (if known then Some (is_str_eq "ACTIVE" (dget_none "acc_status" a)) else None))%py
  | None => Ok None
  end.

Definition sessions_of (market environment : string) (classification : option string) (account : option dict)
    : option (list string) :=
  if bool_decide (market = "US") && one_of ["STOCK"; "ETF"] classification then
    Some ("RTH" :: (if bool_decide (environment = "REAL") then ["ETH"; "OVERNIGHT"; "ALL"]
                    else match account with
                         | Some a => when (is_str_eq "STOCK_AND_OPTION" (dget_none "sim_acc_type" a)) "ETH"
                         | None => []
                         end))
  else None.

(** Whether the gateway reports fees for the account's firm. *)
Definition fees_of (environment : string) (account : option dict) : option bool :=
  let firm := match account with Some a => dget_none "security_firm" a | None => VNone end in
  if bool_decide (environment = "SIMULATE") || is_str_eq "FUTUCA" firm then Some false
  else if truthy firm && negb (is_str_eq "N/A" firm) then Some true else None.

(** ** Deployment policy *)

Definition mode_allows (p : TradingPolicy) (environment : string) : bool :=
  bool_decide (mode p = Policy.REAL) || (bool_decide (mode p = Policy.SIMULATE) && bool_decide (environment = "SIMULATE")).
Definition allowlisted (v : service) (paper : bool) (environment : string) (account : Z) : bool :=
  if bool_decide (environment = "REAL") then bool_decide (account ∈ real_acc_ids (sv_policy v))
  else paper && bool_decide (account ∈ sv_allowlist v).
Definition executor_scope (environment market : string) (classification : option string) : bool :=
  negb (bool_decide (environment = "SIMULATE")) || (bool_decide (market = "US") && one_of ["STOCK"; "ETF"] classification).
Definition symbol_refused (p : TradingPolicy) (code : string) : bool :=
  negb (bool_decide (symbol_allowlist p = ∅)) && bool_decide (code ∉ symbol_allowlist p).
Definition client_may_write (g : option ClientGrants) (environment : string) (account : option Z) : bool :=
  permission_allowed g (lower environment ++ "_write")%string
  && match account with
     | None => true
     | Some a => account_access_allowed g (VStr environment) (VInt a) true
     end.

(** Whether the deployment and the client may write, the allowlisting of the
    account, and the reasons of a refusal. *)
Definition policy_layer (v : service) (paper : bool) (environment market code : string) (classification : option string)
    (account : option Z) : bool * bool * option bool * list string :=
  let p := sv_policy v in
  let listed := option_map (allowlisted v paper environment) account in
  let scope := executor_scope environment market classification in
  let client := client_may_write (sv_grants v) environment account in
  (mode_allows p environment && bool_decide (listed = Some true) && scope && client && negb (symbol_refused p code),
   client, listed,
   when (negb (mode_allows p environment)) "TRADING_MODE_DISALLOWS_WRITE"
   ++ when (bool_decide (listed = Some false)) "ACCOUNT_NOT_ALLOWLISTED"
   ++ when (symbol_refused p code) "SYMBOL_NOT_ALLOWLISTED"
   ++ when (negb scope) "OUTSIDE_PAPER_EXECUTOR_SCOPE"
   ++ when (negb client) "CLIENT_WRITE_NOT_AUTHORIZED").

(** ** Present readiness *)

Definition state_name (h : health_state) : string :=
  match h with REVIEW_PENDING => "REVIEW_PENDING" | JOURNAL_BLOCKED => "JOURNAL_BLOCKED" | READY => "READY" end.

(** The journal of the environment, and whether its probe failed. *)
Definition executor_health (environment : string) (i : io) : SE desk health_report :=
  if bool_decide (environment = "SIMULATE") then on_paper AssertionError (paper_health i)
  else on_real AssertionError (paper_health i).
Definition has_executor (environment : string) (s : desk) : bool :=
  if bool_decide (environment = "SIMULATE") then match k_paper s with Some _ => true | None => false end else k_real s.
Definition journal_probe (environment : string) (i : io) : SE desk (string * bool) := fun s =>
  if has_executor environment s
  then se_try (h <- executor_health environment i ;; se_ret (state_name (h_state h), false))%se
              (fun _ => se_ret ("UNKNOWN", true)) s
  else (Ok ("DISABLED", false), s).

(** The controls: their state, whether the account is paused, and whether the
    probe failed. *)
Definition controls_probe (broken : bool) (environment account : string) : SE controls (string * bool * bool) :=
  se_try (s <- se_get ;; paused <- pause_state broken environment account ;; se_ret (Controls.health s, paused, false))%se
         (fun _ => se_ret ("UNKNOWN", false, true)).
Definition controls_layer (broken required : bool) (environment account : string)
    : SE (option controls) (string * bool * bool * list string) := fun k =>
  match k with
  | None => (Ok ("DISABLED", false, false, when required "TRADING_CONTROLS_UNAVAILABLE"), None)
  | Some _ =>
      (do! (state, paused, failed) := on_controls AssertionError (controls_probe broken environment account) in
       se_ret (state, paused, failed, when (negb (bool_decide (state = "READY"))) ("TRADING_CONTROLS_" ++ state)%string
                                      ++ when paused "OPERATOR_PAUSED"))%se k
  end.

Definition ready_state (blocked unknown : list string) : string :=
  match blocked with _ :: _ => "BLOCKED" | [] => match unknown with _ :: _ => "UNKNOWN" | [] => "READY" end end.

(** A market-prefixed code, as requested and normalized. *)
Definition security_code (code : val) : result (string * string) :=
  match code with
  | VStr c =>
      if negb (nonempty (strip c)) then Err (ValueError "code must be a non-empty market-prefixed security code")
      else let '(market, separator, symbol) := partition "." (strip c) in
           if negb separator || negb (nonempty market) || negb (nonempty symbol)
           then Err (ValueError "code must have a market prefix, for example US.AAPL")
           else Ok (upper market, upper market ++ "." ++ symbol)%string
  | _ => Err (ValueError "code must be a non-empty market-prefixed security code")
  end.

(** What the report is made from before the executors are asked. *)
Record evidence : Type := {
  ev_env : string; ev_market : string; ev_code : string; ev_row : option dict; ev_account : option Z;
  ev_classification : option string; ev_active : option bool; ev_types : option (list string);
  ev_found : gathered; ev_looked : gathered }.
Definition evidence_of (v : service) (paper : bool) (code trd_env acc_id : val) : result evidence :=
  (environment <- validate_choice trd_env ["REAL"; "SIMULATE"] ;;
   named_code <- security_code code ;;
   let '(market, code) := named_code in
   requested <- _exact_account_id acc_id ;;
   let '(account, found) := discovered (candidates v paper environment market requested) in
   resolved <- match account with
               | Some a => bind (positive_account_id (dget_none "acc_id" a)) (fun n => Ok (Some n))
               | None => Ok (if requested =? 0 then None else Some requested)
               end ;;
   let '(classification, looked) := classified_as (sv_lookup v) code in
   active <- active_of account ;;
   types <- _documented_types market classification environment (default [] account) ;;
   Ok {| ev_env := environment; ev_market := market; ev_code := code; ev_row := account; ev_account := resolved;
         ev_classification := classification; ev_active := active; ev_types := types; ev_found := found;
         ev_looked := looked |})%py.

Definition controls_required (p : TradingPolicy) : bool :=
  require_approval p || negb (bool_decide (max_daily_notional p = ∅)).

(** The report on the evidence and the three probes. *)
Definition report_on (v : service) (paper halt : bool) (e : evidence) (journal : string * bool)
    (controls : string * bool * bool * list string) : capabilities :=
  let '(writes, client, listed, policy_reasons) :=
    policy_layer v paper (ev_env e) (ev_market e) (ev_code e) (ev_classification e) (ev_account e) in
  let '(state, paused, controls_failed, control_reasons) := controls in
  let real := bool_decide (ev_env e = "REAL") in
  let authorized := authorization_of (ev_market e) (ev_row e) in
  let blocked := ga_reasons (ev_found e)
                 ++ when (bool_decide (authorized = Some false)) "MARKET_NOT_AUTHORIZED"
                 ++ when (bool_decide (ev_active e = Some false)) "ACCOUNT_DISABLED"
                 ++ when (negb (bool_decide (fst journal = "READY"))) ("EXECUTION_JOURNAL_" ++ fst journal)%string
                 ++ when halt "EXECUTION_HALTED" ++ control_reasons ++ policy_reasons in
  let unknown := ga_unknown (ev_looked e)
                 ++ when (bool_decide (authorized = None)) "MARKET_AUTHORIZATION_UNKNOWN"
                 ++ when (bool_decide (ev_active e = None)) "ACCOUNT_STATUS_UNKNOWN"
                 ++ when (bool_decide (ev_types e = None)) "PRODUCT_SUPPORT_UNKNOWN"
                 ++ when (real && negb (sv_credential v)) "GATEWAY_UNLOCK_NOT_OBSERVED" in
  {| cp_code := ev_code e; cp_classification := ev_classification e; cp_env := ev_env e; cp_account := ev_account e;
     cp_placement := if bool_decide (authorized = Some false) || bool_decide (ev_active e = Some false) then Some false
                     else if negb (bool_decide (ev_types e = None)) && bool_decide (authorized = Some true)
                             && bool_decide (ev_active e = Some true) then Some true else None;
     cp_types := ev_types e; cp_sessions := sessions_of (ev_market e) (ev_env e) (ev_classification e) (ev_row e);
     cp_fees := fees_of (ev_env e) (ev_row e);
     cp_writes := writes; cp_client_writes := client; cp_allowlisted := listed; cp_policy_reasons := policy_reasons;
     cp_state := ready_state blocked unknown; cp_reasons := blocked ++ unknown; cp_journal := fst journal;
     cp_halted := halt;
     cp_unlock := if negb real then "NOT_REQUIRED" else if sv_credential v then "JUST_IN_TIME" else "OPERATOR_MANAGED";
     cp_controls_required := controls_required (sv_policy v); cp_controls := state; cp_paused := paused;
     cp_evidence_errors := ga_errors (ev_found e) ++ ga_errors (ev_looked e) ++ when (snd journal) "journal"
                           ++ when controls_failed "controls" |}.

(** [str(resolved_id or "0")] *)
Definition pause_account (account : option Z) : string := str_int (default 0 account).

(** [inspect_trading_capabilities] *)
Definition inspect_trading_capabilities (v : service) (i : io) (broken : bool) (code trd_env acc_id : val)
    : SE desk capabilities :=
  (s <- se_get ;;
   let paper := has_executor "SIMULATE" s in
   e <- se_lift (evidence_of v paper code trd_env acc_id) ;;
   journal <- journal_probe (ev_env e) i ;;
   let halt := bool_decide (ev_env e = "REAL") && halted (r_halt (k_world s)) in
   controls <- on_world (with_controls (controls_layer broken (controls_required (sv_policy v)) (ev_env e)
                                          (pause_account (ev_account e)))) ;;
   se_ret (report_on v paper halt e journal controls))%se.
End inspect.

(** ** What the layers say *)

Lemma when_nil b s : when b s = [] <-> b = false.
Proof. by destruct b. Qed.

Lemma app_nils {A} (l l' : list A) : l ++ l' = [] <-> l = [] /\ l' = [].
Proof. destruct l; naive_solver. Qed.

Lemma ready_nils blocked unknown : ready_state blocked unknown = "READY" <-> blocked = [] /\ unknown = [].
Proof. destruct blocked; [destruct unknown|]; naive_solver. Qed.

Section facts.
Context `{SN : SessionNames}.

Lemma evidence_env v paper code trd_env acc_id e :
  evidence_of v paper code trd_env acc_id = Ok e -> ev_env e = "REAL" \/ ev_env e = "SIMULATE".
Proof.
  unfold evidence_of. intros H. apply bind_ok in H as (env & He & H). apply bind_ok in H as ([m c] & _ & H).
  apply bind_ok in H as (n & _ & H). destruct (discovered _) as [a f]. apply bind_ok in H as (? & _ & H).
  destruct (classified_as _ _) as [cl lk]. apply bind_ok in H as (? & _ & H). apply bind_ok in H as (? & _ & [= <-]). cbn.
  unfold validate_choice, mem in He. destruct trd_env; try done. case_bool_decide as Hm; [|done]. injection He as <-.
  apply elem_of_cons in Hm as [->|Hm]; [by left|right; by apply list_elem_of_singleton in Hm].
Qed.

(** Every gate a write passes for account [a], as its own definition states it. *)
Definition open_to (v : service) (paper : bool) (env market code : string) (classification : option string) (a : Z) : Prop :=
  check_write (sv_policy v) env = Ok tt
  /\ check_account_access (sv_grants v) (VStr env) (VInt a) true = Ok tt
  /\ (env = "REAL" -> _check_real_allowlist (sv_policy v) a = Ok tt)
  /\ (env = "SIMULATE" -> paper = true /\ a ∈ sv_allowlist v /\ market = "US"
                          /\ (classification = Some "STOCK" \/ classification = Some "ETF"))
  /\ (symbol_allowlist (sv_policy v) <> ∅ -> code ∈ symbol_allowlist (sv_policy v)).

Lemma mode_allows_write p env : env = "REAL" \/ env = "SIMULATE" -> mode_allows p env = true <-> check_write p env = Ok tt.
Proof. unfold mode_allows, check_write. intros [-> | ->]; destruct (mode p); by vm_compute. Qed.

Lemma allowlisted_real v paper a : allowlisted v paper "REAL" a = true <-> _check_real_allowlist (sv_policy v) a = Ok tt.
Proof.
  unfold allowlisted, _check_real_allowlist, refuse_if. rewrite (bool_decide_eq_true_2 ("REAL" = "REAL")) by done.
  destruct (base.decide (a ∈ real_acc_ids (sv_policy v))) as [E|E].
  - rewrite (bool_decide_eq_true_2 (a ∈ _)), (bool_decide_eq_false_2 (real_acc_ids _ = ∅)),
      (bool_decide_eq_false_2 (a ∉ _)) by set_solver. done.
  - rewrite (bool_decide_eq_false_2 (a ∈ _)), (bool_decide_eq_true_2 (a ∉ _)) by done. by case_bool_decide.
Qed.

Lemma client_write_exact g env a :
  env = "REAL" \/ env = "SIMULATE" ->
  client_may_write g env (Some a) = true <-> check_account_access g (VStr env) (VInt a) true = Ok tt.
Proof.
  intros Henv. unfold client_may_write, check_account_access.
  assert (H : account_access_allowed g (VStr env) (VInt a) true = true -> permission_allowed g (lower env ++ "_write") = true).
  { destruct g as [c|]; [|done]. unfold account_access_allowed, permission_allowed. intros H.
    apply andb_true_iff in H as [H _]. apply andb_true_iff in H as [_ H]. destruct Henv as [-> | ->]; exact H. }
  destruct (account_access_allowed _ _ _ _); [rewrite H by done; done|rewrite andb_false_r; done].
Qed.

Lemma policy_layer_exact v paper env market code cl account writes client listed reasons :
  env = "REAL" \/ env = "SIMULATE" ->
  policy_layer v paper env market code cl account = (writes, client, listed, reasons) ->
  (writes = true <-> exists a, account = Some a /\ open_to v paper env market code cl a)
  /\ (reasons = [] -> account <> None -> writes = true).
Proof.
  intros Henv. unfold policy_layer. intros [= <- <- <- <-]. split.
  - rewrite !andb_true_iff, negb_true_iff, mode_allows_write by done. unfold symbol_refused. rewrite andb_false_iff, negb_false_iff, !bool_decide_eq_true, bool_decide_eq_false.
    destruct account as [a|]; [|split; [intros [[[[_ ?] _] _] _]; done|intros (? & ? & _); done]]. cbn [option_map].
    rewrite client_write_exact by done. unfold open_to, executor_scope. split.
    + intros [[[[Hm Hl] Hs] Hc] Hy]. exists a. split; [done|]. injection Hl as Hl. split_and!; [done|done|..].
      * intros ->. by apply (allowlisted_real v paper).
      * intros ->. unfold allowlisted in Hl. cbn in Hs, Hl. apply andb_true_iff in Hl as [Hp Hl%bool_decide_eq_true].
        apply andb_true_iff in Hs as [Hs%bool_decide_eq_true Hk]. split_and!; try done. unfold one_of, mem in Hk. destruct cl as [c|]; [|done].
        apply bool_decide_eq_true in Hk. apply elem_of_cons in Hk as [->|Hk]; [by left|right; by apply list_elem_of_singleton in Hk as ->].
      * intros Hne. destruct Hy as [?|Hy]; [done|]. by destruct (base.decide (code ∈ symbol_allowlist (sv_policy v))).
    + intros (a' & [= <-] & Hm & Hc & Hr & Hs & Hy). split_and!; try done.
      * f_equal. destruct Henv as [-> | ->]; [by apply allowlisted_real, Hr|]. unfold allowlisted. cbn. destruct (Hs eq_refl) as (-> & ? & _).
        by apply bool_decide_eq_true.
      * destruct Henv as [-> | ->]; [done|]. cbn. destruct (Hs eq_refl) as (_ & _ & -> & [-> | ->]); done.
      * destruct (base.decide (symbol_allowlist (sv_policy v) = ∅)); [by left|right]. intros Hn. by apply Hn, Hy.
  - rewrite !app_nils, !when_nil, !negb_false_iff. intros (-> & Hl & -> & -> & ->) Ha. destruct account as [a|]; [|done].
    cbn [option_map] in *. apply bool_decide_eq_false in Hl. by destruct (allowlisted _ _ _ _).
Qed.
End facts.

(** ** What the probes say *)

Lemma report_ready i s h s' : Store.health i s = (Ok h, s') -> h_state h = READY -> s' = s /\ require_ready i s = (Ok tt, s).
Proof.
  intros H Hr. assert (s' = s) as ->.
  { unfold Store.health, se_try in H. destruct (io_writable i); cbn [negb] in H;
      [|unfold storage_blocked in H; by injection H as <- _].
    destruct (connection i _ s) as [[h0|x] s1] eqn:E.
    - injection H as -> ->. unfold connection in E. destruct (s_closed s); [done|]. destruct (s_failed s); [done|].
      destruct (io_fault i) as [[]|]; try done; repeat (destruct (negb _); [done|]); injection E as <- <-; by destruct s.
    - destruct x; try done. unfold storage_blocked in H. by injection H as <- _. }
  split; [done|]. unfold require_ready, se_bind. rewrite H. by rewrite bool_decide_eq_true_2.
Qed.

Lemma paper_report_ready i y h y' : paper_health i y = (Ok h, y') -> h_state h = READY -> y' = y /\ ready i y = (Ok tt, y).
Proof.
  unfold paper_health. intros H Hr. apply se_bind_ok in H as (h0 & y1 & H0 & H). apply se_bind_ok in H as (y2 & y3 & [= <- <-] & [= <- <-]).
  unfold pending_outcome_health in Hr. case_bool_decide as Hf; [|done]. unfold on_store in H0.
  destruct (Store.health i (y_store y)) as [r s] eqn:E. injection H0 as -> <-. apply report_ready in E as [-> Eq]; [|done].
  cbn in Hf. split; [by destruct y|]. unfold ready. rewrite bool_decide_eq_true_2 by done. unfold on_store. rewrite Eq. by destruct y.
Qed.

(** What the executors require before a mutation. *)
Definition executor_ready (environment : string) (i : io) : SE desk unit :=
  if bool_decide (environment = "SIMULATE") then on_paper AssertionError (ready i) else on_real AssertionError (ready i).

Lemma journal_ready env i s failed s' :
  journal_probe env i s = (Ok ("READY", failed), s') -> s' = s /\ executor_ready env i s = (Ok tt, s).
Proof.
  unfold journal_probe. destruct (has_executor env s); [|done]. unfold se_try, se_bind.
  destruct (executor_health env i s) as [[h|x] s1] eqn:E; [|done]. intros [= Hn _ <-].
  assert (Hr : h_state h = READY) by (by destruct (h_state h)). unfold executor_health in E. unfold executor_ready.
  case_bool_decide.
  - unfold on_paper in *. destruct s as [[y|] kr w]; cbn in *; [|done]. destruct (paper_health i y) as [r y'] eqn:Ey. injection E as -> <-.
    by apply paper_report_ready in Ey as [-> ->].
  - unfold on_real, on_world, on_exec in *. destruct (k_real s) eqn:Ek; [|done]. destruct (paper_health i (r_exec (k_world s))) as [r y'] eqn:Ey.
    injection E as -> <-. apply paper_report_ready in Ey as [-> ->]; [|done]. destruct s as [kp kr []]. by cbn in *; subst.
Qed.

Lemma controls_clear broken required env acct k state paused failed k' :
  controls_layer broken required env acct k = (Ok (state, paused, failed, []), k') ->
  k' = k /\ (required = true -> k <> None) /\ forall c, k = Some c -> check_new_risk broken env acct c = (Ok tt, c).
Proof.
  unfold controls_layer. destruct k as [c|]; [|intros [= <- <- <- Hw <-]; split_and!; [done|intros ->; done|done]].
  unfold se_bind. cbn [on_controls]. unfold controls_probe, se_try, se_bind, se_get.
  destruct (pause_state broken env acct c) as [[p|x] c1] eqn:E.
  - intros H. unfold se_ret in H. injection H as <- <- <- Hw <-. apply app_nils in Hw as [Hs Hp]. apply when_nil in Hp as ->.
    assert (c1 = c) as ->.
    { unfold pause_state, se_bind, se_lift, transaction in E. destruct (_pause_scope env acct) as [[e1 a1]|]; [|done].
      destruct (k_closed c || k_failed c); [done|]. destruct broken; [done|]. injection E as _ <-. by destruct c. }
    split_and!; [done|done|]. intros ? [= <-]. unfold check_new_risk, se_bind. by rewrite E.
  - intros H. unfold se_ret in H. injection H as <- <- <- Hw <-. done.
Qed.

(** ** What is reported *)

Section reported.
Context `{SN : SessionNames}.
Implicit Types (rows : list dict) (a : dict).

(** A row the SDK listed for the environment. *)
Definition listed_for (v : service) (env : string) (a : dict) : Prop :=
  exists rows, sv_sdk_accounts v = Ok rows /\ a ∈ rows /\ is_str_eq env (dget_none "trd_env" a) = true.

Lemma filter_in {A} (f : A -> bool) l (x : A) : x ∈ List.filter f l -> x ∈ l /\ f x = true.
Proof. intros H%list_elem_of_In. apply filter_In in H as [? ?]. split; [by apply list_elem_of_In|done]. Qed.

Lemma readable_listed v env rows a :
  env = "REAL" \/ env = "SIMULATE" ->
  get_accounts (sv_grants v) None (Some (VStr env)) (sv_sdk_accounts v) = Ok rows -> a ∈ rows -> listed_for v env a.
Proof.
  intros Henv H Ha. unfold get_accounts in H. apply bind_ok in H as (? & [= <-] & H).
  assert (He : optional_choice (Some (VStr env)) ["REAL"; "SIMULATE"] = Ok (Some env)) by (by destruct Henv as [-> | ->]).
  rewrite He in H. apply bind_ok in H as (? & [= <-] & H). apply bind_ok in H as (l & Hl & [= <-]).
  unfold filter_readable_accounts in Ha. apply filter_in in Ha as [Ha _]. apply filter_in in Ha as [Ha Ht]. by exists l.
Qed.

Lemma eligible_listed v env m rows a :
  _eligible_accounts (sv_policy v) (sv_grants v) (get_accounts None None None (sv_sdk_accounts v)) env m = Ok rows ->
  a ∈ rows -> listed_for v env a.
Proof.
  intros H Ha. unfold _eligible_accounts in H. apply bind_ok in H as (l & Hl & H). apply bind_ok in H as (l2 & H2 & H).
  destruct (get_accounts None None None _) as [l0|] eqn:E; [|done]. injection Hl as ->.
  unfold get_accounts in E. apply bind_ok in E as (? & [= <-] & E). apply bind_ok in E as (? & [= <-] & E).
  apply bind_ok in E as (l0 & El & [= <-]).
  assert (Ha2 : a ∈ l2).
  { destruct (sv_grants v) as [c|]; [|by injection H as <-]. destruct (accounts_in c env); [|by injection H as <-].
    by apply (filterM_elem _ _ _ _ H) in Ha as [? _]. }
  assert (Hf : a ∈ List.filter (fun a => is_str_eq env (dget_none "trd_env" a)) (filter_readable_accounts None l0)).
  { assert (Hm : forall k, a ∈ match m with Some m => if nonempty m then List.filter (fun a => listed (upper (strip m)) (market_auth a)) k else k
                          | None => k end -> a ∈ k).
    { intros k Hk. destruct m as [m|]; [|done]. destruct (nonempty m); [|done]. by apply filter_in in Hk as [? _]. }
    apply Hm. destruct (_allowlist_applies _ _); [by apply (filterM_elem _ _ _ _ H2) in Ha2 as [? _]|by injection H2 as ->]. }
  apply filter_in in Hf as [Hf Ht]. unfold filter_readable_accounts in Hf. apply filter_in in Hf as [Hf _]. by exists l0.
Qed.

Lemma candidates_listed v paper env market n rows a :
  env = "REAL" \/ env = "SIMULATE" -> candidates v paper env market n = Ok rows -> a ∈ rows -> listed_for v env a.
Proof.
  intros Henv H Ha. unfold candidates in H. destruct (negb (n =? 0)).
  - apply bind_ok in H as (l & Hl & H). apply (filterM_elem _ _ _ _ H) in Ha as [Ha _]. by eapply readable_listed.
  - apply bind_ok in H as (l & Hl & H). apply bind_ok in H as (l2 & H2 & H). apply bind_ok in H as (l3 & H3 & [= <-]).
    apply filter_in in Ha as [Ha _]. destruct l2 as [|b l2]; [by eapply readable_listed|]. injection H3 as <-.
    eapply eligible_listed; [exact Hl|]. destruct (_ && _); [by apply (filterM_elem _ _ _ _ H2) in Ha as [? _]|by injection H2 as ->].
Qed.

Lemma discovered_one v paper env market n a found :
  env = "REAL" \/ env = "SIMULATE" -> discovered (candidates v paper env market n) = (Some a, found) -> listed_for v env a.
Proof.
  intros Henv. destruct (candidates v paper env market n) as [[|b [|? ?]]|] eqn:E; try done. intros [= <- _].
  eapply candidates_listed; [done|exact E|by left].
Qed.
Lemma discovered_none r found : discovered r = (None, found) -> ga_reasons found <> [].
Proof. by destruct r as [[|? [|? ?]]|]; intros [= <-]. Qed.
Lemma classified_none lookup code looked : classified_as lookup code = (None, looked) -> ga_unknown looked <> [].
Proof.
  unfold classified_as. destruct lookup as [f|]; [|by intros [= <-]]. destruct (f [code]) as [l|]; [|by intros [= <-]].
  destruct (List.filter _ l) as [|i [|? ?]]; try by intros [= <-]. destruct (classification i); by intros [= <-].
Qed.

(** The evidence behind a report, and the account it rests on. *)
Lemma evidence_account v paper code trd_env acc_id e :
  evidence_of v paper code trd_env acc_id = Ok e ->
  (ev_row e = None -> ga_reasons (ev_found e) <> [])
  /\ (forall a, ev_row e = Some a -> listed_for v (ev_env e) a
       /\ exists n, ev_account e = Some n /\ positive_account_id (dget_none "acc_id" a) = Ok n)
  /\ (ev_classification e = None -> ga_unknown (ev_looked e) <> []) /\ active_of (ev_row e) = Ok (ev_active e).
Proof.
  intros He. pose proof (evidence_env _ _ _ _ _ _ He) as Henv. unfold evidence_of in He.
  apply bind_ok in He as (env & _ & He). apply bind_ok in He as ([m c] & _ & He). apply bind_ok in He as (n & _ & He).
  destruct (discovered _) as [row f] eqn:Ed. apply bind_ok in He as (acc & Ha & He).
  destruct (classified_as _ _) as [cl lk] eqn:Ec. apply bind_ok in He as (act & Hact & He). apply bind_ok in He as (ty & Hty & [= <-]).
  cbn in *. split_and!; [intros ->; by eapply discovered_none| |intros ->; by eapply classified_none|done].
  intros a ->. split; [by eapply discovered_one|]. apply bind_ok in Ha as (k & Hk & [= <-]). by exists k.
Qed.
End reported.

Section theorems.
Context `{SN : SessionNames}.

(** A finished inspection, taken apart. *)
Lemma inspected v i broken code trd_env acc_id s r s' :
  inspect_trading_capabilities v i broken code trd_env acc_id s = (Ok r, s') ->
  exists e journal s1 controls k,
    evidence_of v (has_executor "SIMULATE" s) code trd_env acc_id = Ok e
    /\ journal_probe (ev_env e) i s = (Ok journal, s1)
    /\ controls_layer broken (controls_required (sv_policy v)) (ev_env e) (pause_account (ev_account e)) (r_controls (k_world s1))
       = (Ok controls, k)
    /\ s' = with_desk_controls k s1
    /\ r = report_on v (has_executor "SIMULATE" s) (bool_decide (ev_env e = "REAL") && halted (r_halt (k_world s))) e journal controls.
Proof.
  intros H. unfold inspect_trading_capabilities in H. apply se_bind_ok in H as (? & ? & [= <- <-] & H).
  apply se_bind_ok in H as (e & ? & [= He <-] & H). apply se_bind_ok in H as (journal & s1 & Hj & H).
  apply se_bind_ok in H as (controls & s2 & Hc & H). injection H as <- <-. unfold on_world, with_controls in Hc.
  destruct (controls_layer _ _ _ _ _) as [c k] eqn:Ec. injection Hc as -> <-. exists e, journal, s1, controls, k. by split_and!.
Qed.

(** C37 The report says that writes are allowed exactly when they are.  In any
    state of the desk the inspection that answers reports [writes] if and only if
    one account is named or found for which the trading mode, the client's grant,
    the account's allowlist, the symbol list and the executor's scope would each
    let a write pass. *)
Theorem writes_exact v i broken code trd_env acc_id s r s' :
  inspect_trading_capabilities v i broken code trd_env acc_id s = (Ok r, s') ->
  exists market symbol, cp_code r = (market ++ "." ++ symbol)%string
    /\ (cp_writes r = true <-> exists a, cp_account r = Some a
          /\ open_to v (has_executor "SIMULATE" s) (cp_env r) market (cp_code r) (cp_classification r) a).
Proof.
  intros (e & journal & s1 & [[[cs cp] cf] cr] & k & He & _ & _ & _ & ->)%inspected.
  pose proof (evidence_env _ _ _ _ _ _ He) as Henv.
  assert (Hcode : exists symbol, ev_code e = (ev_market e ++ "." ++ symbol)%string).
  { unfold evidence_of in He. apply bind_ok in He as (env & _ & He). apply bind_ok in He as ([m c] & Hs & He).
    apply bind_ok in He as (n & _ & He). destruct (discovered _) as [row f]. apply bind_ok in He as (? & _ & He).
    destruct (classified_as _ _). apply bind_ok in He as (? & _ & He). apply bind_ok in He as (? & _ & [= <-]). cbn.
    unfold security_code in Hs. destruct code; try done. destruct (negb _); [done|]. destruct (partition _ _) as [[mk sp] sy].
    destruct (_ || _); [done|]. injection Hs as <- <-. by exists sy. }
  destruct Hcode as (symbol & Hcode). unfold report_on. destruct (policy_layer _ _ _ _ _ _ _) as [[[w c] l] pr] eqn:Ep.
  exists (ev_market e), symbol. cbn. split; [exact Hcode|]. by apply (policy_layer_exact _ _ _ _ _ _ _ _ _ _ _ Henv) in Ep as [Hw _].
Qed.

(** C36 A report of readiness is not optimistic.  When the inspection answers
    READY it has changed nothing, and on the very desk it leaves a write for the
    reported account would find every gate open: the SDK lists the account for
    the environment, active and authorized for the market, the policy and the
    grant let it write, the executor's journal is ready, execution is not halted,
    the controls the policy needs are there and do not pause the account, and the
    instrument is classified and of a documented type. *)
Theorem ready_is_open v i broken code trd_env acc_id s r s' :
  inspect_trading_capabilities v i broken code trd_env acc_id s = (Ok r, s') -> cp_state r = "READY" ->
  s' = s /\ cp_writes r = true /\ cp_types r <> None /\ exists a row market,
    cp_account r = Some a /\ listed_for v (cp_env r) row /\ positive_account_id (dget_none "acc_id" row) = Ok a
    /\ authorization_of market (Some row) = Some true /\ active_of (Some row) = Ok (Some true)
    /\ open_to v (has_executor "SIMULATE" s) (cp_env r) market (cp_code r) (cp_classification r) a
    /\ executor_ready (cp_env r) i s = (Ok tt, s)
    /\ (cp_env r = "REAL" -> sv_credential v = true /\ _check_execution_halt (k_world s) = (Ok tt, k_world s))
    /\ (controls_required (sv_policy v) = true -> r_controls (k_world s) <> None)
    /\ (forall c, r_controls (k_world s) = Some c -> check_new_risk broken (cp_env r) (str_int a) c = (Ok tt, c)).
Proof.
  intros (e & [j jf] & s1 & [[[cs cp] cf] cr] & k & He & Hj & Hc & -> & ->)%inspected. unfold report_on.
  pose proof (evidence_env _ _ _ _ _ _ He) as Henv. destruct (evidence_account _ _ _ _ _ _ He) as (Hnone & Hsome & Hcl & Hact).
  destruct (policy_layer _ _ _ _ _ _ _) as [[[w cw] l] pr] eqn:Ep. cbn [cp_state fst snd]. intros [Hb Hu]%ready_nils.
  apply app_nils in Hb as [Hb1 Hb]. apply app_nils in Hb as [Hb2%when_nil Hb]. apply app_nils in Hb as [Hb3%when_nil Hb].
  apply app_nils in Hb as [Hb4%when_nil Hb]. apply app_nils in Hb as [Hb5%when_nil Hb]. apply app_nils in Hb as [-> ->].
  apply app_nils in Hu as [_ Hu]. apply app_nils in Hu as [Hu1%when_nil Hu]. apply app_nils in Hu as [Hu2%when_nil Hu].
  apply app_nils in Hu as [Hu3%when_nil Hu4%when_nil]. apply negb_false_iff, bool_decide_eq_true in Hb4. cbn in Hb4. subst j.
  apply journal_ready in Hj as [-> Hj]. apply controls_clear in Hc as (-> & Hreq & Hrisk).
  destruct (ev_row e) as [row|] eqn:Erow; [|by apply Hnone in Hb1]. destruct (Hsome row eq_refl) as (Hl & a & Ha & Hpos).
  apply (policy_layer_exact _ _ _ _ _ _ _ _ _ _ _ Henv) in Ep as [Hw Hall].
  assert (Hwt : w = true) by (apply Hall; [done|by rewrite Ha]). destruct (proj1 Hw Hwt) as (a' & Ha' & Hopen).
  rewrite Ha in Ha'. injection Ha' as <-. apply bool_decide_eq_false in Hb2, Hb3, Hu1, Hu2, Hu3.
  split; [by destruct s as [? ? []]|]. split; [exact Hwt|]. split; [exact Hu3|]. exists a, row, (ev_market e). cbn [cp_account cp_env cp_code cp_classification].
  split_and!; try done.
  - destruct (authorization_of (ev_market e) (Some row)) as [[]|]; done.
  - rewrite Hact. destruct (ev_active e) as [[]|]; done.
  - intros E. rewrite (bool_decide_eq_true_2 _ E) in Hb5, Hu4. cbn [andb] in Hb5, Hu4. split; [by apply negb_false_iff|]. unfold _check_execution_halt. by rewrite Hb5.
  - intros c Hk. rewrite Ha in Hrisk. by apply Hrisk.
Qed.
End theorems.

(** ** Examples *)

Definition demo_inspector (status : string) : service :=
  {| sv_policy := prep_policy; sv_grants := None; sv_credential := true; sv_allowlist := []; sv_connected := true;
     sv_sdk_accounts := Ok [[("acc_id", VInt 7); ("trd_env", VStr "REAL"); ("trdmarket_auth", VList [VStr "US"]);
                             ("acc_status", VStr status); ("security_firm", VStr "FUTUINC")]];
     sv_lookup := sv_lookup demo_service; sv_query := sv_query demo_service; sv_checked_at := "" |}.
Definition demo_inspection (status code : string) (s : desk) : result capabilities * desk :=
  inspect_trading_capabilities (demo_inspector status) (io_ok 1) false (VStr code) (VStr "real") (VStr "0") s.

Example inspect_ready :
  match fst (demo_inspection "ACTIVE" " us.AAPL " demo_desk) with
  | Ok r => Some (cp_code r, cp_state r, cp_reasons r, cp_writes r, cp_sessions r, cp_fees r)
  | Err _ => None
  end = Some ("US.AAPL", "READY", [], true, Some ["RTH"; "ETH"; "OVERNIGHT"; "ALL"], Some true).
Proof. vm_compute. reflexivity. Qed.
(** Without controls, for a disabled account. *)
Example inspect_blocked :
  match fst (demo_inspection "DISABLED" "US.AAPL" {| k_paper := None; k_real := true; k_world := real_world1 |}) with
  | Ok r => Some (cp_state r, cp_reasons r, cp_placement r)
  | Err _ => None
  end = Some ("BLOCKED", ["ACCOUNT_DISABLED"; "TRADING_CONTROLS_UNAVAILABLE"], Some false).
Proof. vm_compute. reflexivity. Qed.

Lemma demo_inspected : exists r s', demo_inspection "ACTIVE" "US.AAPL" demo_desk = (Ok r, s') /\ cp_state r = "READY".
Proof.
  destruct (demo_inspection "ACTIVE" "US.AAPL" demo_desk) as [[r|e] s'] eqn:E.
  - exists r, s'. split; [done|]. change (match @Ok capabilities r with Ok r => cp_state r | Err _ => "" end = "READY").
    replace (@Ok capabilities r) with (fst (demo_inspection "ACTIVE" "US.AAPL" demo_desk)) by (by rewrite E). vm_compute. reflexivity.
  - apply (f_equal (fun x => match fst x with Ok _ => true | Err _ => false end)) in E. by vm_compute in E.
Qed.

Lemma writes_exact_witness : exists r s' market symbol,
  demo_inspection "ACTIVE" "US.AAPL" demo_desk = (Ok r, s') /\ cp_code r = (market ++ "." ++ symbol)%string.
Proof.
  destruct demo_inspected as (r & s' & E & _).
  destruct (writes_exact (demo_inspector "ACTIVE") (io_ok 1) false (VStr "US.AAPL") (VStr "real") (VStr "0") demo_desk r s' E)
    as (market & symbol & Hc & _).
  exists r, s', market, symbol. split; [exact E|exact Hc].
Defined.

Lemma ready_is_open_witness : exists r s', demo_inspection "ACTIVE" "US.AAPL" demo_desk = (Ok r, s') /\ s' = demo_desk /\ cp_writes r = true.
Proof.
  destruct demo_inspected as (r & s' & E & Hr).
  destruct (ready_is_open (demo_inspector "ACTIVE") (io_ok 1) false (VStr "US.AAPL") (VStr "real") (VStr "0") demo_desk r s' E Hr)
    as (Hs & Hw & _).
  exists r, s'. split; [exact E|]. split; [exact Hs|exact Hw].
Defined.
