(* ===== verification/Health.v ===== *)
(** services/health.py, services/base_service.py and services/quote_errors.py:
    what the server reports of its connections, and the classification of what
    the provider refuses.  A probe is a state machine over the worker threads it
    started ([probe_step]); a health check starts one probe a connection and
    reports what they found ([check_sound], [one_worker]).  Texts are code points
    below 256, so markers outside them cannot occur; the ellipsis of a shortened
    text is a flag.  Observation times and the deadline are not modelled: a wait
    ends at an arbitrary step. *)

From Stdlib Require Import Relations.
From S2P Require Import Prelude PyStr PyVal Store Prep ClientAuth Paper Policy Real.

#[local] Open Scope list_scope.

(** ** Diagnostics *)

Definition SHORT : Z := 200.

(** [text.split()] *)
Fixpoint words_from (word : string) (s : string) : list string :=
  match s with
  | "" => if nonempty word then [word] else []
  | String c s => if is_space c then (if nonempty word then word :: words_from "" s else words_from "" s)
                  else words_from (word ++ String c "")%string s
  end.
Definition words (s : string) : list string := words_from "" s.
Definition flat (s : string) : string := String.concat " " (words s).

(** A text, and whether it was cut short. *)
Record text : Type := { t_text : string; t_cut : bool }.

(** [sanitize_error] of a text *)
Definition sanitize_error (s : string) : text :=
  let s := flat s in
  if SHORT <? len s then {| t_text := String.substring 0 (Z.to_nat (SHORT - 1)) s; t_cut := true |}
  else {| t_text := s; t_cut := false |}.

Definition has (part s : string) : bool := match String.index 0 part s with Some _ => true | None => false end.

(** [classify_failure] *)
Definition classify_failure (message : string) : string :=
  if existsb (fun m => has m (lower message)) ["permission"; "not authorized"; "unauthorized"; "no right"]
  then "permission" else "gateway_error".

(** What a probe found: its status, why it failed, and what else was observed. *)
Record probe_result : Type := { pr_status : string; pr_reason : option string; pr_error : option text; pr_fields : dict }.

(** [failure] *)
Definition failure (status error : string) (reason : option string) : probe_result :=
  let message := sanitize_error error in
  {| pr_status := status; pr_reason := Some (default (classify_failure (t_text message)) reason);
     pr_error := Some message; pr_fields := [] |}.

(** [aggregate_status] *)
Definition aggregate_status (results : list probe_result) : string :=
  let succeeded := List.filter (fun r => bool_decide (pr_status r = "ok")) results in
  if Nat.eqb (length succeeded) (length results) then "connected"
  else match succeeded with [] => "disconnected" | _ => "degraded" end.

(** ** Bounded probes *)

Section probe.
Context {R : Type}.

(** A worker thread, from its start to the result its future carries. *)
Inductive worker : Type := Running | Finished (r : result R).

Record probe : Type := { pb_inflight : option nat; pb_workers : list worker }.
Definition new_probe : probe := {| pb_inflight := None; pb_workers := [] |}.

Definition running (f : nat) (p : probe) : bool := match pb_workers p !! f with Some Running => true | _ => false end.

(** [submit]: the future to wait for, and whether it is a new worker's. *)
Definition submit (p : probe) : nat * probe :=
  let start := (length (pb_workers p), {| pb_inflight := Some (length (pb_workers p)); pb_workers := pb_workers p ++ [Running] |}) in
  match pb_inflight p with
  | Some f => if running f p then (f, p) else start
  | None => start
  end.

Definition _release (f : nat) (p : probe) : probe :=
  if bool_decide (pb_inflight p = Some f) then {| pb_inflight := None; pb_workers := pb_workers p |} else p.

(** The worker's thread ends. *)
Definition finish (f : nat) (r : result R) (p : probe) : probe :=
  {| pb_inflight := pb_inflight p; pb_workers := <[f := Finished r]> (pb_workers p) |}.

Inductive collected : Type := Found (r : R) | Broke (e : exn) | TimedOut.

(** [collect], once its wait is over; [is_timeout] tells which exceptions the
    interpreter takes for the wait's own. *)
Definition collect (is_timeout : exn -> bool) (f : nat) (p : probe) : collected * probe :=
  match pb_workers p !! f with
  | Some (Finished (Ok r)) => (Found r, _release f p)
  | Some (Finished (Err e)) => if is_timeout e then (TimedOut, p) else (Broke e, _release f p)
  | _ => (TimedOut, p)
  end.

(** [close] *)
Definition close_probe (p : probe) : probe := {| pb_inflight := None; pb_workers := pb_workers p |}.

(** What clients and workers do to a probe that is in service, in any order;
    [probed] are the results its callable can give. *)
Inductive probe_step (probed : result R -> Prop) : probe -> probe -> Prop :=
| Submitted p : probe_step probed p (snd (submit p))
| Ended p f r : running f p = true -> probed r -> probe_step probed p (finish f r p)
| Collected p is_timeout f : probe_step probed p (snd (collect is_timeout f p)).

Definition in_use (probed : result R -> Prop) : probe -> Prop := clos_refl_trans_n1 _ (probe_step probed) new_probe.

(** ** One worker at a time *)

Record probe_ok (probed : result R -> Prop) (p : probe) : Prop := {
  pbk_one : forall f, running f p = true -> pb_inflight p = Some f;
  pbk_results : forall f r, pb_workers p !! f = Some (Finished r) -> probed r }.

Lemma release_workers f p : pb_workers (_release f p) = pb_workers p.
Proof. unfold _release. by case_bool_decide. Qed.

Lemma running_lt f p : running f p = true -> (f < length (pb_workers p))%nat.
Proof. unfold running. destruct (pb_workers p !! f) eqn:E; [|done]. intros _. by eapply lookup_lt_Some. Qed.

Lemma started_ok probed p :
  probe_ok probed p -> (forall f, running f p = false) ->
  probe_ok probed {| pb_inflight := Some (length (pb_workers p)); pb_workers := pb_workers p ++ [Running] |}.
Proof.
  intros [H1 H2] Hnone. split; cbn.
  - intros f Hf. destruct (base.decide (f = length (pb_workers p))) as [->|Hne]; [done|]. exfalso. specialize (Hnone f).
    unfold running in *. cbn in Hf. rewrite lookup_app in Hf. destruct (pb_workers p !! f) eqn:E; [congruence|].
    apply lookup_ge_None in E. destruct (f - length (pb_workers p))%nat as [|n] eqn:En; [lia|by destruct n].
  - intros f r Hf. apply lookup_app_Some in Hf as [Hf|[_ Hf]]; [by eapply H2|]. by apply list_lookup_singleton_Some in Hf as [_ ?].
Qed.

Lemma probe_step_ok probed p p' : probe_ok probed p -> probe_step probed p p' -> probe_ok probed p'.
Proof.
  intros Hok Hs. pose proof Hok as [H1 H2]. destruct Hs as [p|p f r Hr Hp|p is_timeout f].
  - unfold submit. destruct (pb_inflight p) as [f|] eqn:E.
    + destruct (running f p) eqn:Er; [done|]. apply started_ok; [done|]. intros g. destruct (running g p) eqn:Eg; [|done].
      apply H1 in Eg as Ei. congruence.
    + apply started_ok; [done|]. intros g. destruct (running g p) eqn:Eg; [|done]. apply H1 in Eg as Ei. congruence.
  - apply running_lt in Hr as Hlt. split; cbn.
    + intros g Hg. apply H1. unfold running in *. cbn in Hg. destruct (base.decide (f = g)) as [->|Hne];
        [by rewrite list_lookup_insert_eq in Hg|by rewrite list_lookup_insert_ne in Hg].
    + intros g r' Hg. destruct (base.decide (f = g)) as [->|Hne]; [rewrite list_lookup_insert_eq in Hg by done; by simplify_eq|].
      rewrite list_lookup_insert_ne in Hg by done. by eapply H2.
  - assert (Hrel : (exists r, pb_workers p !! f = Some (Finished r)) -> probe_ok probed (_release f p)).
    { intros [r Hr]. split; [|by rewrite release_workers]. intros g Hg. unfold running in Hg. rewrite release_workers in Hg.
      apply H1 in Hg as Hi. unfold _release. rewrite Hi, bool_decide_eq_false_2; [done|]. intros [= ->]. by rewrite Hr in Hg. }
    unfold collect. destruct (pb_workers p !! f) as [[|[r|e]]|] eqn:E; cbn; [done|apply Hrel; by eexists| |done].
    destruct (is_timeout e); [done|apply Hrel; by eexists].
Qed.

Lemma in_use_ok probed p : in_use probed p -> probe_ok probed p.
Proof.
  unfold in_use. intros H. induction H as [|p p' Hs _ IH]; [|by eapply probe_step_ok].
  split; [intros [|f] H|intros [|f] r H]; done.
Qed.
End probe.
Arguments worker : clear implicits.
Arguments probe : clear implicits.
Arguments collected : clear implicits.

(** ** Connections *)

(** What the gateway answered: nothing but an exception, a refusal with its
    message, or data. *)
Inductive response : Type := Threw (e : exn) | Refused (message : string) | Answered (data : val).

(** [_is_logged_in] *)
Definition _is_logged_in (v : val) : bool := match v with VStr s => bool_decide (strip s = "1") | _ => truthy v end.

Definition ok_result (fields : dict) : probe_result := {| pr_status := "ok"; pr_reason := None; pr_error := None; pr_fields := fields |}.

(** [probe_quote] and [probe_trade]: [a] is what the SDK call gave, [None]
    without a context. *)
Definition probe_quote (a : option response) : result probe_result :=
  match a with
  | None => Ok (failure "unavailable" "Quote context not initialized" (Some "not_initialized"))
  | Some (Threw e) => Err e
  | Some (Refused m) => Ok (failure "error" m None)
  | Some (Answered data) =>
      Ok (ok_result (match data with
                     | VDict d =>
                         (let version := dget_none "server_ver" d in
                          if truthy version then [("gateway_version", VStr (py_str version))] else [])
                         ++ (if dhas "qot_logined" d then [("logged_in", VBool (_is_logged_in (dget_none "qot_logined" d)))] else [])
                     | _ => []
                     end))
  end.
Definition py_len (v : val) : Z :=
  match v with VList l => Z.of_nat (length l) | VDict d => Z.of_nat (length d) | VStr s => len s | _ => 0 end.
Definition probe_trade (a : option response) : result probe_result :=
  match a with
  | None => Ok (failure "unavailable" "Trade context not initialized" (Some "not_initialized"))
  | Some (Threw e) => Err e
  | Some (Refused m) => Ok (failure "error" m None)
  | Some (Answered data) => Ok (ok_result [("account_count", VInt (py_len data))])
  end.

(** What a collected future is reported as. *)
Definition reported (name : string) (exn_text : exn -> string) (c : collected probe_result) : probe_result :=
  match c with
  | Found r => r
  | Broke e => failure "error" (exn_text e) None
  | TimedOut => failure "timeout" (name ++ " probe exceeded the 5s health deadline")%string (Some "timeout")
  end.

(** The whole health check of [HealthCheck.result], of the trade service when
    there is one: its mode, halt and lock observation. *)
Record trade_view : Type := { tv_mode : TradingMode; tv_market : string; tv_halt : halt_state; tv_lock : string }.
Record health_check : Type := {
  hc_status : string; hc_quote : probe_result; hc_trade : probe_result; hc_mode : option TradingMode;
  hc_market : option string; hc_version : val; hc_lock : string; hc_halted : bool; hc_since : option Z }.
Definition health_result (quote trade : probe_result) (t : option trade_view) : health_check :=
  {| hc_status := aggregate_status [quote; trade]; hc_quote := quote; hc_trade := trade; hc_mode := option_map tv_mode t;
     hc_market := option_map tv_market t; hc_version := dget_none "gateway_version" (pr_fields quote);
     hc_lock := match t with Some t => tv_lock t | None => "not_applicable" end;
     hc_halted := match t with Some t => halted (tv_halt t) | None => false end;
     hc_since := match t with Some t => halted_since (tv_halt t) | None => None end |}.
Definition no_trade_service : probe_result := failure "unavailable" "Trade service not configured" (Some "not_initialized").

(** ** The tool *)

(** A failed probe as a dictionary, without the ellipsis of a shortened text. *)
Definition failure_dict (r : probe_result) : dict :=
  [("status", VStr (pr_status r)); ("reason", VStr (default "" (pr_reason r)));
   ("error", VStr (match pr_error r with Some t => t_text t | None => "" end))].

(** The journals as [collect_journal_health] and its REAL twin report them. *)
Definition journal_report (exn_text : exn -> string) (name : string) (c : collected dict) : dict :=
  let d := match c with
           | Found d => d
           | Broke e => failure_dict (failure "error" (exn_text e) None)
           | TimedOut => failure_dict (failure "timeout" (name ++ " probe exceeded the 5s health deadline") (Some "timeout"))
           end in
  if dhas "state" d then d else [("state", VStr "JOURNAL_BLOCKED"); ("storage_error", VDict d)].

Definition client_authorization_status (g : option ClientGrants) : bool * list string :=
  match g with
  | Some c => (true, sorted_strings (list_to_set (g_permissions c)))
  | None => (false, sorted_strings (list_to_set CLIENT_PERMISSIONS))
  end.

(** The report of [check_health], as the client sees it. *)
Record health_view : Type := {
  hv_check : health_check; hv_scope : option string; hv_journal : dict; hv_real_journal : dict;
  hv_authorization : bool * list string }.
Definition with_trade (r : probe_result) (h : health_check) : health_check :=
  {| hc_status := hc_status h; hc_quote := hc_quote h; hc_trade := r; hc_mode := hc_mode h; hc_market := hc_market h;
     hc_version := hc_version h; hc_lock := hc_lock h; hc_halted := hc_halted h; hc_since := hc_since h |}.
Definition reads_accounts (g : option ClientGrants) : bool := permission_allowed g "real_read" || permission_allowed g "simulate_read".
Definition not_authorized : dict := [("state", VStr "NOT_AUTHORIZED")].

Definition check_health (g : option ClientGrants) (quote trade : probe_result) (t : trade_view) (journal real_journal : dict)
    : health_view :=
  if reads_accounts g then
    let h := health_result quote trade (Some t) in
    {| hv_check := match g with
                   | None => h
                   | Some _ => with_trade {| pr_status := pr_status trade; pr_reason := pr_reason trade; pr_error := pr_error trade;
                                             pr_fields := List.filter (fun kv => negb (bool_decide (fst kv = "account_count"))) (pr_fields trade) |} h
                   end;
       hv_scope := None; hv_journal := visible_journal_health g journal "SIMULATE";
       hv_real_journal := visible_journal_health g real_journal "REAL"; hv_authorization := client_authorization_status g |}
  else
    {| hv_check := with_trade {| pr_status := "not_probed"; pr_reason := Some "client_scope"; pr_error := None; pr_fields := [] |}
                     (health_result quote no_trade_service None);
       hv_scope := Some "MARKET_DATA_ONLY"; hv_journal := not_authorized; hv_real_journal := not_authorized;
       hv_authorization := client_authorization_status g |}.

(** ** Quote denials *)

Fixpoint casefold (s : string) : string :=
  match s with
  | "" => ""
  | String c s => (if code c =? 223 then "ss" else String (lower_char c) "") ++ casefold s
  end.

(** [QuotePermissionDeniedError] *)
Record denial : Type := {
  qd_operation : string; qd_message : text; qd_requested : list string; qd_denied : list string }.
(** The one symbol the provider names. *)
Definition denied_symbol (message : string) : string :=
  match cut "no permission to get quotes for " (casefold message) with
  | Some (_, remainder) => match words remainder with
                           | w :: _ => rstrip_if (fun c => mem (String c "") ["."; ","; ";"; ":"]) w
                           | [] => ""
                           end
  | None => ""
  end.
Definition denial_of (operation message : string) (codes : list string) : denial :=
  {| qd_operation := operation; qd_message := sanitize_error message; qd_requested := codes;
     qd_denied := List.filter (fun c => bool_decide (casefold c = denied_symbol message)) codes |}.

(** [raise_quote_error]: a denial, or the failure of the operation. *)
Definition DENIALS : list string :=
  ["no permission to get quotes"; "no quote permission"; "quote permission denied"; "quotation permission denied"].
Definition raise_quote_error (operation : string) (message : val) (codes : list string) : denial + exn :=
  let failed := inr (RuntimeError (operation ++ " failed: " ++ py_str message)) in
  match message with
  | VStr m => if existsb (fun marker => has marker (flat (casefold m))) DENIALS then inl (denial_of operation m codes) else failed
  | _ => failed
  end.

Example denial_demo :
  match raise_quote_error "get_stock_quote" (VStr ("No permi" ++ String (chr 223) "ion to get quotes for us.aapl.")) ["US.AAPL"; "US.MSFT"] with
  | inl d => qd_denied d = ["US.AAPL"]
  | inr _ => False
  end
  /\ raise_quote_error "get_stock_quote" (VStr "timeout") ["US.AAPL"] = inr (RuntimeError "get_stock_quote failed: timeout").
Proof. vm_compute. done. Qed.

(** ** What the report says *)

Lemma connected_both a b : aggregate_status [a; b] = "connected" <-> pr_status a = "ok" /\ pr_status b = "ok".
Proof.
  unfold aggregate_status. cbn. destruct (bool_decide (pr_status a = "ok")) eqn:E1, (bool_decide (pr_status b = "ok")) eqn:E2; cbn;
    bools; naive_solver.
Qed.
Lemma disconnected_neither a b : aggregate_status [a; b] = "disconnected" <-> pr_status a <> "ok" /\ pr_status b <> "ok".
Proof.
  unfold aggregate_status. cbn. destruct (bool_decide (pr_status a = "ok")) eqn:E1, (bool_decide (pr_status b = "ok")) eqn:E2; cbn;
    bools; naive_solver.
Qed.

Lemma quote_ok_answered a r : probe_quote a = Ok r -> pr_status r = "ok" -> exists d, a = Some (Answered d).
Proof. destruct a as [[e|m|d]|]; intros [= <-]; try done. by exists d. Qed.
Lemma trade_ok_answered a r : probe_trade a = Ok r -> pr_status r = "ok" -> exists d, a = Some (Answered d).
Proof. destruct a as [[e|m|d]|]; intros [= <-]; try done. by exists d. Qed.

(** A result reported ok is the one the awaited worker finished with. *)
Lemma reported_ok name tx probed is_timeout f (p : probe probe_result) :
  in_use probed p -> pr_status (reported name tx (fst (collect is_timeout f p))) = "ok" ->
  exists r, pb_workers p !! f = Some (Finished (Ok r)) /\ probed (Ok r) /\ pr_status r = "ok".
Proof.
  intros Hp%in_use_ok. destruct Hp as [_ Hres]. unfold collect. destruct (pb_workers p !! f) as [[|[r|e]]|] eqn:E; cbn; [done| | |done].
  - intros H. exists r. split_and!; [done|by eapply Hres|done].
  - by destruct (is_timeout e).
Qed.

Lemma one_worker {R} (probed : result R -> Prop) p f g : in_use probed p -> running f p = true -> running g p = true -> f = g.
Proof. intros [H _]%in_use_ok Hf Hg. apply H in Hf, Hg. congruence. Qed.

(** A connected report was earned.  However health checks of any clients and
    the workers of their probes interleave, no service ever has two probe threads
    running; the check a client is shown says [connected] only when the workers it
    waited for finished with what the gateway itself answered on both connections,
    and [disconnected] exactly when neither did; a client without account reads is
    told that trading was not probed and nothing of the journals, and a restricted
    client never sees the number of the gateway's accounts. *)
Theorem check_sound (quote_answers trade_answers : option response -> Prop) quotes trades is_timeout fq ft tx g t j rj :
  in_use (fun r => exists a, quote_answers a /\ r = probe_quote a) quotes ->
  in_use (fun r => exists a, trade_answers a /\ r = probe_trade a) trades ->
  let quote := reported "quote" tx (fst (collect is_timeout fq quotes)) in
  let trade := reported "trade" tx (fst (collect is_timeout ft trades)) in
  let shown := hv_check (check_health g quote trade t j rj) in
  (forall f f', running f quotes = true -> running f' quotes = true -> f = f')
  /\ (forall f f', running f trades = true -> running f' trades = true -> f = f')
  /\ (hc_status shown = "connected" ->
      reads_accounts g = true
      /\ (exists d, quote_answers (Some (Answered d)) /\ pb_workers quotes !! fq = Some (Finished (probe_quote (Some (Answered d)))))
      /\ (exists d, trade_answers (Some (Answered d)) /\ pb_workers trades !! ft = Some (Finished (probe_trade (Some (Answered d))))))
  /\ (hc_status shown = "disconnected" <-> pr_status quote <> "ok" /\ (reads_accounts g = true -> pr_status trade <> "ok"))
  /\ (g <> None -> dget "account_count" (pr_fields (hc_trade shown)) = None)
  /\ (reads_accounts g = false -> pr_status (hc_trade shown) = "not_probed"
      /\ hv_journal (check_health g quote trade t j rj) = not_authorized
      /\ hv_real_journal (check_health g quote trade t j rj) = not_authorized).
Proof.
  intros Hq Ht quote trade shown. subst shown.
  assert (Hst : hc_status (hv_check (check_health g quote trade t j rj))
                = aggregate_status [quote; if reads_accounts g then trade else no_trade_service]).
  { unfold check_health. by destruct (reads_accounts g), g. }
  split; [intros f f'; by apply (one_worker _ _ _ _ Hq)|]. split; [intros f f'; by apply (one_worker _ _ _ _ Ht)|].
  split; [|split; [|split]].
  - rewrite Hst, connected_both. intros [H1 H2]. destruct (reads_accounts g); [|done]. split; [done|].
    destruct (reported_ok _ _ _ _ _ _ Hq H1) as (r & Hr & (a & Ha & Hra) & Hok).
    destruct (reported_ok _ _ _ _ _ _ Ht H2) as (r' & Hr' & (a' & Ha' & Hra') & Hok').
    destruct (quote_ok_answered _ _ (eq_sym Hra) Hok) as [d ->]. destruct (trade_ok_answered _ _ (eq_sym Hra') Hok') as [d' ->].
    split; [exists d|exists d']; by rewrite <- ?Hra, <- ?Hra'.
  - rewrite Hst, disconnected_neither. destruct (reads_accounts g); naive_solver.
  - intros Hg. unfold check_health. destruct (reads_accounts g); [|done]. destruct g as [c|]; [|done]. cbn.
    induction (pr_fields trade) as [|[k v] d IH]; [done|]. cbn. destruct (bool_decide (k = "account_count")) eqn:E; cbn; [done|].
    bools. rewrite bool_decide_eq_false_2 by congruence. exact IH.
  - intros Hr. unfold check_health. by rewrite Hr.
Qed.

(** A check: both probes answered, one of a client that reads accounts. *)
Definition answered {R} (r : result R) : probe R := finish 0 r (snd (submit new_probe)).
Lemma answered_in_use {R} (probed : result R -> Prop) r : probed r -> in_use probed (answered r).
Proof. intros Hr. eapply Relation_Operators.rtn1_trans; [by apply Ended|]. eapply Relation_Operators.rtn1_trans; [apply Submitted|]. apply rtn1_refl. Qed.

Definition gateway_up : option response := Some (Answered (VDict [("server_ver", VStr "905"); ("qot_logined", VBool true)])).
Definition gateway_down : option response := Some (Refused "No right to query").
Definition one_account : option response := Some (Answered (VList [VDict []])).
Definition demo_view : trade_view :=
  {| tv_mode := Policy.SIMULATE; tv_market := "US"; tv_halt := {| halted_since := None; last_lock_error := None |}; tv_lock := "not_applicable" |}.
Definition demo_reader : ClientGrants :=
  {| g_permissions := ["simulate_read"]; g_real := None; g_simulate := None |}.
Definition demo_health (g : option ClientGrants) (quote trade : option response) : health_view :=
  let found name a := reported name (fun _ => "") (fst (collect (fun _ => false) 0%nat (answered a))) in
  check_health g (found "quote" (probe_quote quote)) (found "trade" (probe_trade trade)) demo_view
    [("state", VStr "READY")] [("state", VStr "DISABLED")].

Example health_ex :
  map (fun h => (hc_status (hv_check h), pr_status (hc_trade (hv_check h)), pr_fields (hc_trade (hv_check h))))
    [demo_health None gateway_up one_account; demo_health (Some demo_reader) gateway_up one_account;
     demo_health None gateway_down one_account]
  = [("connected", "ok", [("account_count", VInt 1)]); ("connected", "ok", []); ("degraded", "ok", [("account_count", VInt 1)])]
  /\ pr_reason (hc_quote (hv_check (demo_health None gateway_down one_account))) = Some "permission".
Proof. vm_compute. done. Qed.

Lemma check_sound_witness :
  exists d, pb_workers (answered (probe_quote gateway_up)) !! 0%nat = Some (Finished (probe_quote (Some (Answered d)))).
Proof.
  destruct (check_sound (eq gateway_up) (eq one_account) (answered (probe_quote gateway_up)) (answered (probe_trade one_account))
              (fun _ => false) 0 0 (fun _ => "") (Some demo_reader) demo_view [("state", VStr "READY")] [("state", VStr "DISABLED")]
              (answered_in_use _ _ (ex_intro _ gateway_up (conj eq_refl eq_refl)))
              (answered_in_use _ _ (ex_intro _ one_account (conj eq_refl eq_refl)))) as (_ & _ & H & _).
  destruct (H eq_refl) as (_ & (d & _ & Hd) & _). exists d. exact Hd.
Defined.
