(* ===== verification/Agent.v ===== *)
(** agent_server.py: what a client is told when a tool call fails, from the
    chain of exceptions behind it, and the boundary around every tool.  Over
    [Offload.run_blocking] it is the whole of a mutating call: what the answer
    says of the order is held against what was sent ([agent_call_writes_once]).
    Guidance texts are left out; schema validation and the exceptions an
    exception was raised from are arguments. *)

From Stdlib Require Import ZArith.
From S2P Require Import Prelude PyStr PyVal OrderErrors Serialization Store StoreInv ClientAuth Prep Paper PaperThm Dispatch Health Prepare Admission TradeCall Offload.
From S2P Require Import Rules RateLimit.

#[local] Open Scope list_scope.

(** ** Exceptions, as the boundary tells them apart *)

(** One complaint of schema validation: the path, the kind of complaint, and the
    token field of a typed error inside. *)
Record issue : Type := { is_path : list string; is_type : string; is_token : option (string * string) }.

Inductive cause : Type :=
  | Known (e : exn)
  | Denied (d : denial)                               (* QuotePermissionDeniedError, RuntimeError *)
  | BadShape (msg : string)                           (* SDKResponseError, RuntimeError *)
  | Invalid (title : string) (issues : list issue)    (* pydantic.ValidationError, ValueError *)
  | Unreachable (msg : string)                        (* ConnectionError *)
  | Other (msg : string).                             (* any other exception *)

(** [str(exc)]: the message an exception was raised with; [composed] gives the
    texts that classes put together from facts the model leaves out. *)
Class Texts := composed : exn -> string.
Definition said {TX : Texts} (e : exn) : string :=
  match e with
  | ValueError m | TypeError m | KeyError m | RuntimeError m | ExecutionStoreError m | ExecutionConflict m
  | TradingPolicyError m | TradingModeConfigError m | TradingControlError m | ClientAuthorizationError m
  | OrderNotSentError m _ | OrderOutcomeUnknownError m | OrderReceiptUnreadableError m
  | RecoveryEvidenceError m | IdentifierSerializationError m | CursorError m | InstrumentLookupError m
  | GatewayLoginError m | SupervisorConfigError m | SqliteError m | BrokerError m => m
  | TradeQueryError query_code operation m => operation ++ ": " ++ query_code ++ ": " ++ m
  | e => composed e
  end.
Definition cause_text {TX : Texts} (c : cause) : string :=
  match c with
  | Known e => said e
  | Denied d => (qd_operation d ++ " failed: " ++ t_text (qd_message d))%string
  | BadShape m | Unreachable m | Other m => m
  | Invalid _ _ => ""
  end.
Definition runtime_error (c : cause) : bool :=
  match c with Known e => is_runtime_error e | Denied _ | BadShape _ => true | _ => false end.

(** ** What a client is told *)

Record payload : Type := {
  p_code : string; p_message : text; p_retryable : bool;
  p_phase : option string; p_recorded : option bool;   (* validation_phase, journal_record_created *)
  p_mutation : option string; p_detail : option text; p_retry_after : option Z;
  p_fields : list string; p_denied : list string }.

Definition plain (s : string) : text := {| t_text := s; t_cut := false |}.
Definition told (code : string) (message : text) : payload :=
  {| p_code := code; p_message := message; p_retryable := false; p_phase := None;
     p_recorded := None; p_mutation := None; p_detail := None; p_retry_after := None; p_fields := []; p_denied := [] |}.
Definition with_evidence (phase : string) (recorded : option bool) (mutation : option string) (p : payload) : payload :=
  {| p_code := p_code p; p_message := p_message p; p_retryable := p_retryable p;
     p_phase := Some phase; p_recorded := recorded; p_mutation := mutation; p_detail := p_detail p;
     p_retry_after := p_retry_after p; p_fields := p_fields p; p_denied := p_denied p |}.
Definition with_fields (fields : list string) (p : payload) : payload :=
  {| p_code := p_code p; p_message := p_message p; p_retryable := p_retryable p;
     p_phase := p_phase p; p_recorded := p_recorded p; p_mutation := p_mutation p; p_detail := p_detail p;
     p_retry_after := p_retry_after p; p_fields := fields; p_denied := p_denied p |}.
Definition with_detail (t : text) (p : payload) : payload :=
  {| p_code := p_code p; p_message := p_message p; p_retryable := p_retryable p;
     p_phase := p_phase p; p_recorded := p_recorded p; p_mutation := p_mutation p; p_detail := Some t;
     p_retry_after := p_retry_after p; p_fields := p_fields p; p_denied := p_denied p |}.
Definition with_retry (retryable : bool) (after : Z) (p : payload) : payload :=
  {| p_code := p_code p; p_message := p_message p; p_retryable := retryable;
     p_phase := p_phase p; p_recorded := p_recorded p; p_mutation := p_mutation p; p_detail := p_detail p;
     p_retry_after := Some after; p_fields := p_fields p; p_denied := p_denied p |}.

(** A registered tool: its name, the title of its argument model, its
    annotations, and the default of its [trd_env] parameter. *)
Record tool : Type := {
  tl_name : string; tl_model : string; tl_consequential : bool; tl_read_only : bool; tl_environment : val }.

Definition QUOTE_TOOLS : list string :=
  ["get_stock_quote"; "get_market_snapshot"; "get_order_book"; "get_historical_klines"; "get_historical_klines_page";
   "get_option_chain"; "get_option_expiration_date"].

(** [_execution_evidence] with the outcome of the mutation, and
    [uncertain_mutation]. *)
Definition uncertain_mutation (p : payload) : payload := with_evidence "UNKNOWN" None (Some "UNKNOWN") p.

(** The token field an issue is about. *)
Definition TOKEN_ISSUES : list string := ["missing"; "string_type"; "string_too_short"; "string_too_long"].
Definition issue_field (i : issue) : option string :=
  match is_token i with
  | Some (field, _) => Some field
  | None => match last (is_path i) with
            | Some f => if mem f ["operation_id"; "admission_epoch"] && mem (is_type i) TOKEN_ISSUES then Some f else None
            | None => None
            end
  end.
(** [_input_validation_evidence]; [fields] name the tokens to correct. *)
Definition _input_validation_evidence (fields : list string) (p : payload) : payload :=
  with_fields (remove_dups fields) (with_evidence "INPUT_VALIDATION" (Some false) (Some "NOT_SENT") p).

(** The first cause that settles what became of an order, and the first that
    says it was not sent. *)
Definition outcome_cause (causes : list cause) : option exn :=
  head (omap (fun c => match c with Known e => if claims_sent e then Some e else None | _ => None end) causes).
Definition unsent_cause (causes : list cause) : option (string * bool) :=
  head (omap (fun c => match c with Known (OrderNotSentError m admitted) => Some (m, admitted) | _ => None end) causes).
Definition token_cause (causes : list cause) : option string :=
  head (omap (fun c => match c with Known (IdentityTokenValidationError field _) => Some field | _ => None end) causes).

(** [quote_permission_result] *)
Definition quote_permission_result (d : denial) : payload :=
  {| p_code := "QUOTE_PERMISSION_DENIED"; p_message := plain "OpenD denied quote permission for this request.";
     p_retryable := false; p_phase := None; p_recorded := None; p_mutation := None;
     p_detail := Some (qd_message d); p_retry_after := None; p_fields := []; p_denied := qd_denied d |}.

Definition not_connected (s : string) : bool := mem s ["Quote context not connected"; "Trade context not connected"].

(** The report of a failed validation. *)
Definition invalid_result (t : tool) (input_validation : bool) (title : string) (issues : list issue) : payload :=
  let fields := omap issue_field issues in
  if input_validation && bool_decide (title = tl_model t)
  then _input_validation_evidence fields (told "INVALID_ARGUMENT" (plain "Tool arguments do not match the schema."))
  else
    let p := with_fields fields (told "INVALID_RESPONSE"
               (plain "The tool returned data that does not match its response schema.")) in
    if tl_consequential t then uncertain_mutation p else p.

(** The causes a consequential tool does not reach: reads that were refused or
    failed.  First those that only their text or their base class tells. *)
Definition unavailable : payload := told "CONNECTION_UNAVAILABLE" (plain "The gateway connection is unavailable.").
Definition is_cursor (c : cause) : bool := match c with Known (CursorError _) => true | _ => false end.
Definition value_error (c : cause) : bool := match c with Known e => is_value_error e | _ => false end.
Definition failed_read {TX : Texts} (t : tool) (c : cause) : payload :=
  let name := tl_name t in
  let lowered := casefold (cause_text c) in
  if not_connected (cause_text c) then unavailable
  else if is_cursor c then told "INVALID_CURSOR" (plain "The cursor is invalid for this query.")
  else if value_error c then
    if startswith "Deal and fee queries are supported only for REAL accounts" (cause_text c)
    then told "UNSUPPORTED_OPERATION" (plain "This query is unavailable in the selected environment.")
    else let p := told "INVALID_ARGUMENT" (plain "The tool rejected an argument or selected scope.") in
         if bool_decide (name = "unlock_trade") then p else with_detail (sanitize_error (cause_text c)) p
  else if mem name QUOTE_TOOLS
          && (has "subscription quota" lowered
              && existsb (fun w => has w lowered) ["exceeded"; "insufficient"; "not enough"])
  then told "SUBSCRIPTION_CAPACITY_EXCEEDED" (plain "Market-data subscription capacity is exhausted.")
  else if mem name QUOTE_TOOLS && has "unknown stock" lowered
  then told "SYMBOL_UNAVAILABLE" (plain "This provider could not resolve the requested instrument.")
  else told "TOOL_EXECUTION_FAILED" (plain "The tool could not complete this request.").

Definition read_result {TX : Texts} (t : tool) (c : cause) : payload :=
  match c with
  | Known (BrokerReadOverloadError _ _) => told "READ_OVERLOADED" (plain (cause_text c))
  | Known (BrokerReadTimeoutError _ _) => told "READ_DEADLINE_EXCEEDED" (plain (cause_text c))
  | Known (ProviderRateLimitError after) =>
      with_retry (tl_read_only t || mem (tl_name t) QUOTE_TOOLS) after
        (told "RATE_LIMITED" (plain "The provider request budget is temporarily exhausted."))
  | Unreachable _ => unavailable
  | _ => failed_read t c
  end.

(** A refusal of the journal. *)
Definition blocked (t : tool) (code message : string) : payload :=
  with_evidence "UNKNOWN" None (if tl_consequential t then Some "UNKNOWN" else None) (told code (plain message)).

(** The report of the cause nearest to the tool, and whether it is final: the
    others get the text of a runtime error. *)
Definition problem_result {TX : Texts} (t : tool) (input_validation : bool) (c : cause) : payload * bool :=
  let consequential := tl_consequential t in
  match c with
  | Known (ClientAuthorizationError _) =>
      (told "CLIENT_PERMISSION_DENIED"
         (plain "The authenticated client is not authorized for this operation or account."), true)
  | Invalid title issues => (invalid_result t input_validation title issues, false)
  | Known (IdentifierSerializationError _) | BadShape _ =>
      let p := told "INVALID_RESPONSE" (plain "The provider response is unusable.") in
      (if consequential then uncertain_mutation p else p, false)
  | Known (TradeQueryError code _ _) => (told code (sanitize_error (cause_text c)), false)
  | Known (ExecutionConflict _) =>
      (blocked t "EXECUTION_CONFLICT" "The operation conflicts with its recorded identity.", false)
  | Known (ExecutionStoreError _) =>
      (blocked t "EXECUTION_JOURNAL_BLOCKED" "Execution journal access is blocked.", false)
  | Known (TradingControlError m) => (told "TRADING_CONTROLS_BLOCKED" (sanitize_error m), false)
  | Known (TradingPolicyError m) => (told "TRADING_POLICY_REFUSED" (sanitize_error m), false)
  | _ =>
      if consequential then
        (uncertain_mutation
           (told (if bool_decide (tl_name t = "unlock_trade") then "MUTATION_OUTCOME_UNKNOWN" else "ORDER_OUTCOME_UNKNOWN")
              (plain "The mutation failed without a verified outcome.")), false)
      else match c with
           | Denied d => (quote_permission_result d, true)
           | Known (IdentityTokenValidationError field _) =>
               (_input_validation_evidence [field]
                  (told "INVALID_ARGUMENT" (plain "An execution identity token violates its input contract.")), false)
           | _ => (read_result t c, false)
           end
  end.

(** [tool_error_result]: [causes] is the chain of the tool's error, the nearest
    first. *)
Definition tool_error_result {TX : Texts} (t : tool) (input_validation : bool) (message : string) (causes : list cause) : payload :=
  match outcome_cause causes with
  | Some e =>
      let acknowledged := match e with OrderReceiptUnreadableError _ => true | _ => false end in
      with_evidence (if acknowledged then "ACKNOWLEDGED" else "DISPATCHED") None
        (Some (if acknowledged then "ACKNOWLEDGED" else "UNKNOWN"))
        (told (if acknowledged then "ORDER_RECEIPT_UNREADABLE" else "ORDER_OUTCOME_UNKNOWN") (sanitize_error (said e)))
  | None =>
      match unsent_cause causes with
      | Some (m, admitted) =>
          let p := with_evidence (if admitted then "ADMITTED" else "PRE_DISPATCH") (if admitted then Some true else None)
                     (Some "NOT_SENT") (told "ORDER_NOT_SENT" (sanitize_error m)) in
          match token_cause causes with
          | Some field => if admitted then p else _input_validation_evidence [field] p
          | None => p
          end
      | None =>
          let problem := match causes with c :: _ => c | [] => Other message end in
          let '(p, final) := problem_result t input_validation problem in
          if negb final && runtime_error problem && negb (bool_decide (tl_name t = "unlock_trade"))
          then with_detail (sanitize_error (cause_text problem)) p else p
      end
  end.

(** ** The boundary around every tool *)

Inductive shown : Type := Success (v : val) | Failure (p : payload) | Escaped (e : exn).

Definition unknown_tool : payload := told "UNKNOWN_TOOL" (plain "This tool is not available.").

(** [_call_tool_with_errors]: [validate] is the argument model of a tool, and
    [body] what the tool and the conversion of its answer give: a value, nothing
    yet, or the chain of what was raised. *)
Definition _call_tool_with_errors {TX : Texts} {S} (g : option ClientGrants) (tools : string -> option tool)
    (validate : tool -> dict -> dict + list issue) (body : tool -> dict -> S -> option (val + list cause) * S)
    (name : string) (arguments : dict) (s : S) : option shown * S :=
  match tools name with
  | None => (Some (Failure unknown_tool), s)
  | Some t =>
      match authorize_tool g name arguments (tl_environment t) with
      | Err (ClientAuthorizationError _) =>
          (Some (Failure (told "CLIENT_PERMISSION_DENIED"
             (plain "The authenticated client is not authorized for this operation or account."))), s)
      | Err e => (Some (Escaped e), s)
      | Ok _ =>
          match validate t arguments with
          | inr issues =>
              (Some (Failure (tool_error_result t true "Tool arguments do not match the schema." [Invalid (tl_model t) issues])), s)
          | inl parsed =>
              let '(r, s) := body t parsed s in
              (match r with
               | None => None
               | Some (inl v) => Some (Success v)
               | Some (inr causes) => Some (Failure (tool_error_result t false "" causes))
               end, s)
          end
      end
  end.

(** The trading tools: the service's call off the event loop, exact identifiers
    and the answer's model. [reply_of] is the JSON of a reply, [chained] what an
    exception was raised from. *)
Section trading.
Context `{SN : SessionNames} {B : Type} {BB : Bucket B}.
Context (status_known : string -> bool) (ca : string) (security_firm : val).
Context (reply_of : reply -> val) (convert : val -> val + string * list issue) (chained : exn -> list cause).

Definition order_tool (v : service) (i i' : nat -> io) (x : call_io) (w : waits) (start now : Z) (t : tool) (kwargs : dict)
    : disp B desk -> option (val + list cause) * disp B desk := fun d =>
  match run_blocking status_known ca security_firm v i i' x w start now (tl_name t) kwargs d with
  | (Err e, d) => (Some (inr (Known e :: chained e)), d)
  | (Ok None, d) => (None, d)
  | (Ok (Some r), d) =>
      (Some (match serialize_identifiers (reply_of r) with
             | Err e => inr [Known e]
             | Ok v => match convert v with
                       | inl v => inl v
                       | inr (title, issues) => inr [Invalid title issues]
                       end
             end), d)
  end.
End trading.

(** ** What a report can say *)

Lemma head_omap {A C} (f : A -> option C) l c : head (omap f l) = Some c -> exists a, a ∈ l /\ f a = Some c.
Proof.
  intros H. destruct (omap f l) as [|c' l'] eqn:E; [done|]. injection H as ->.
  assert (Hc : c ∈ omap f l) by (rewrite E; by left). by apply list_elem_of_omap in Hc.
Qed.
Lemma head_omap_none {A C} (f : A -> option C) l a : head (omap f l) = None -> a ∈ l -> f a = None.
Proof.
  intros H Ha. destruct (f a) as [c|] eqn:E; [|done]. assert (Hc : c ∈ omap f l) by (apply list_elem_of_omap; eauto).
  destruct (omap f l); [by apply elem_of_nil in Hc|done].
Qed.

Lemma outcome_claims causes e : outcome_cause causes = Some e -> Known e ∈ causes /\ claims_sent e = true.
Proof.
  intros (c & Hc & He)%head_omap. destruct c as [e'| | | | |]; try done. destruct (claims_sent e') eqn:E; [|done]. by injection He as <-.
Qed.

(** Takes the branches of a report apart without evaluating its conditions. *)
Ltac branches := repeat match goal with |- context [if ?b then _ else _] => destruct b end.

Lemma failed_read_plain {TX : Texts} t c : p_mutation (failed_read t c) = None /\ p_retryable (failed_read t c) = false.
Proof. unfold failed_read. branches; done. Qed.

Lemma read_result_plain {TX : Texts} t c :
  p_mutation (read_result t c) = None
  /\ (p_retryable (read_result t c) = true -> tl_read_only t || mem (tl_name t) QUOTE_TOOLS = true).
Proof.
  pose proof (failed_read_plain t c) as [Hm Hr].
  destruct c as [e| | | | |]; [destruct e|..]; cbn [read_result]; try done; by rewrite Hr.
Qed.

(** The refusals whose report names no outcome of a mutation. *)
Definition refusal (c : cause) : bool :=
  match c with
  | Known (ClientAuthorizationError _ | TradeQueryError _ _ _ | TradingControlError _ | TradingPolicyError _) => true
  | _ => false
  end.
(** Failures found before the tool's code could run. *)
Definition input_failure (t : tool) (iv : bool) (c : cause) : bool :=
  match c with
  | Invalid title _ => iv && bool_decide (title = tl_model t)
  | Known (IdentityTokenValidationError _ _) => negb (tl_consequential t)
  | _ => false
  end.

(** What a report says of a mutation, and whether it invites a repetition. *)
Record report_ok (t : tool) (iv : bool) (c : cause) (p : payload) : Prop := {
  ro_unsent : p_mutation p = Some "NOT_SENT" -> input_failure t iv c = true;
  ro_unknown : tl_consequential t = true -> p_mutation p = None -> refusal c = true;
  ro_words : forall m, p_mutation p = Some m -> m = "NOT_SENT" \/ m = "UNKNOWN";
  ro_recorded : p_recorded p <> Some true;
  ro_retry : p_retryable p = true -> tl_consequential t = false /\ tl_read_only t || mem (tl_name t) QUOTE_TOOLS = true }.

Ltac report_ok := split; cbn; try done; try naive_solver.

Lemma invalid_report_ok t iv title issues : report_ok t iv (Invalid title issues) (invalid_result t iv title issues).
Proof.
  unfold invalid_result. destruct (iv && bool_decide (title = tl_model t)) eqn:E; [report_ok|].
  destruct (tl_consequential t) eqn:Et; report_ok; congruence.
Qed.

Lemma read_report_ok {TX : Texts} t iv c : tl_consequential t = false -> p_recorded (read_result t c) = None -> report_ok t iv c (read_result t c).
Proof. intros Ht Hr. destruct (read_result_plain t c) as [Hm Hp]. split; rewrite ?Hm, ?Hr; try done; [congruence|by split; [|apply Hp]]. Qed.
Lemma read_recorded {TX : Texts} t c : p_recorded (read_result t c) = None.
Proof.
  assert (H : p_recorded (failed_read t c) = None) by (unfold failed_read; branches; done).
  destruct c as [e| | | | |]; [destruct e|..]; cbn [read_result]; done.
Qed.

Lemma problem_report_ok {TX : Texts} t iv c :
  (forall e, c = Known e -> claims_sent e = false) -> report_ok t iv c (fst (problem_result t iv c)).
Proof.
  intros Hc. destruct (tl_consequential t) eqn:Et.
  - destruct c as [e| | |title issues| |]; [destruct e|..]; cbn [problem_result fst]; rewrite ?Et; cbn [fst];
      try apply invalid_report_ok; unfold blocked; rewrite ?Et; by report_ok.
  - pose proof (read_report_ok t iv c Et (read_recorded t c)) as Hr.
    destruct c as [e| | |title issues| |]; [destruct e|..]; cbn [problem_result fst] in *; rewrite ?Et; cbn [fst];
      try apply invalid_report_ok; try exact Hr; unfold blocked; rewrite ?Et; report_ok; by rewrite Et.
Qed.

(** The text of a runtime error changes nothing else. *)
Lemma detail_report_ok t iv c x p : report_ok t iv c p -> report_ok t iv c (with_detail x p).
Proof. intros [H1 H2 H3 H4 H5]. by split. Qed.

Lemma outcome_none causes e : outcome_cause causes = None -> Known e ∈ causes -> claims_sent e = false.
Proof. intros H Hin. pose proof (head_omap_none _ _ _ H Hin) as He. cbn in He. by destruct (claims_sent e). Qed.

(** C35 A report never denies an order.  Whatever chain of exceptions a tool's
    error carries: when any of them says the order went out or was acknowledged,
    the report says so; it says that nothing was sent only when the order
    boundary said it, or when the arguments were refused before the tool ran;
    that a journal record exists only when the boundary said so; of a
    consequential tool it is silent about the outcome only for a refusal of a
    gate; and only a read or a quote tool is ever offered for a retry. *)
Theorem report_sound {TX : Texts} t iv message causes :
  let p := tool_error_result t iv message causes in
  (forall e, Known e ∈ causes -> claims_sent e = true -> p_mutation p = Some "UNKNOWN" \/ p_mutation p = Some "ACKNOWLEDGED")
  /\ (p_mutation p = Some "NOT_SENT" ->
      (exists m admitted, Known (OrderNotSentError m admitted) ∈ causes) \/ exists c, head causes = Some c /\ input_failure t iv c = true)
  /\ (p_recorded p = Some true -> exists m, Known (OrderNotSentError m true) ∈ causes)
  /\ (tl_consequential t = true -> causes <> [] -> p_mutation p = None -> exists c, head causes = Some c /\ refusal c = true)
  /\ (p_retryable p = true -> tl_consequential t = false /\ tl_read_only t || mem (tl_name t) QUOTE_TOOLS = true).
Proof.
  unfold tool_error_result. destruct (outcome_cause causes) as [e|] eqn:Eo.
  { destruct e; cbn; split_and!; try done; intros _ _ _; by (left + right). }
  assert (Hno : forall e, Known e ∈ causes -> claims_sent e = true -> False).
  { intros e Hin He. by rewrite (outcome_none _ _ Eo Hin) in He. }
  destruct (unsent_cause causes) as [[m admitted]|] eqn:Eu.
  { apply head_omap in Eu as (c & Hin & Hc). destruct c as [e| | | | |]; try done. destruct e; try done. injection Hc as -> ->.
    assert (Hl : exists m a, Known (OrderNotSentError m a) ∈ causes) by by exists m, admitted.
    destruct (token_cause causes), admitted; cbn; split_and!; try done; try (intros; exfalso; by eapply Hno); try (intros; by left);
      intros _; by exists m. }
  set (c := match causes with c :: _ => c | [] => Other message end).
  assert (Hr : report_ok t iv c (fst (problem_result t iv c))).
  { apply problem_report_ok. intros e Hc. destruct causes as [|c0 l]; [done|]. subst c. cbn in Hc. subst c0.
    eapply outcome_none; [exact Eo|by left]. }
  destruct (problem_result t iv c) as [p final] eqn:Ep. cbn [fst] in Hr.
  assert (Hq : report_ok t iv c (if negb final && runtime_error c && negb (bool_decide (tl_name t = "unlock_trade"))
                                 then with_detail (sanitize_error (cause_text c)) p else p)).
  { destruct (_ && _); [by apply detail_report_ok|done]. }
  destruct Hq as [H1 H2 _ H4 H5]. split_and!; try done.
  - intros e Hin He. exfalso. by eapply Hno.
  - intros Hm. right. apply H1 in Hm. destruct causes as [|c0 l]; [done|]. by exists c0.
  - intros Ht Hne Hm. apply H2 in Hm; [|done]. destruct causes as [|c0 l]; [done|]. by exists c0.
Qed.

(** ** A whole mutating call *)

Section agent_theorems.
Context `{SN : SessionNames} {B : Type} {BB : Bucket B}.
Context (status_known : string -> bool) (ca : string) (security_firm : val).
Context (reply_of : reply -> val) (convert : val -> val + string * list issue) (chained : exn -> list cause).

Lemma serialize_identifier_error v e : serialize_identifier v = Err e -> exists m, e = IdentifierSerializationError m.
Proof. unfold serialize_identifier. destruct v; try done; repeat case_match; intros [= <-]; by eexists. Qed.
Lemma serialize_error v e : serialize_identifiers v = Err e -> exists m, e = IdentifierSerializationError m.
Proof.
  revert e. induction v as [| | | | |l IH|d IH] using val_ind'; intros e H; try done; cbn [serialize_identifiers] in H.
  - match type of H with bind ?r _ = _ => destruct r eqn:E; [done|]; injection H as -> end.
    revert e E. induction IH as [|a l Ha _ IHl]; intros e E; [done|].
    destruct (serialize_identifiers a) as [w|x] eqn:Ew; [|cbn in E; injection E as ->; by apply Ha]. cbn [bind] in E.
    match type of E with bind ?r _ = _ => destruct r eqn:El; [done|]; injection E as -> end. by apply IHl.
  - match type of H with bind ?r _ = _ => destruct r eqn:E; [done|]; injection H as -> end.
    revert e E. induction IH as [|[k a] l Ha _ IHl]; intros e E; [done|]. cbn in Ha.
    destruct (if mem k IDENTIFIER_FIELDS then serialize_identifier a else serialize_identifiers a) as [w|x] eqn:Ew.
    + cbn [bind] in E. match type of E with bind ?r _ = _ => destruct r eqn:El; [done|]; injection E as -> end. by apply IHl.
    + cbn in E. injection E as ->. destruct (mem k IDENTIFIER_FIELDS); [by eapply serialize_identifier_error|by apply Ha].
Qed.

(** An answer that does not deny that the order went out. *)
Definition owns_up (a : option shown) : Prop :=
  match a with
  | Some (Success _) => True
  | Some (Failure p) => p_mutation p = Some "UNKNOWN" /\ p_retryable p = false
  | _ => False
  end.

(** Failures after the call returned leave the outcome open. *)
Lemma late_failure_open {TX : Texts} t c :
  tl_consequential t = true ->
  match c with Known (IdentifierSerializationError _) | Invalid _ _ => True | _ => False end ->
  owns_up (Some (Failure (tool_error_result t false "" [c]))).
Proof.
  intros Ht. destruct c as [e| | |title issues| |]; try done; [destruct e; try done|]; intros _;
    unfold tool_error_result; cbn; unfold invalid_result; cbn; rewrite Ht; cbn; try done.
Qed.

(** C2 A mutating call writes once and its answer owns up to it.  However the
    call was planned, however long it waited and whatever other tasks did
    meanwhile, whatever the journals, the brokers and the gateway answer and
    however the answer's conversion fails: apart from what the others did to the
    desk while it waited, the call makes at most one broker call, of its own
    operation and in the environment it names; and if it made one, the client is
    shown the reply or an error that says the outcome is unknown and is not to be
    retried.  A refusal that says or implies that nothing was sent is true. *)
Theorem agent_call_writes_once {TX : Texts} other {HO : PreOrder other} g tools validate v i i' x w start now name arguments t d a d' :
  mem name WRITES = true -> tools name = Some t -> tl_name t = name -> tl_consequential t = true -> passes_ok other [] w ->
  _call_tool_with_errors g tools validate
    (order_tool status_known ca security_firm reply_of convert chained v i i' x w start now) name arguments d = (a, d') ->
  exists s0 s1, calls_kept (d_world d) s0 /\ other s0 s1
    /\ (calls_kept s1 (d_world d')
        \/ exists kwargs r, validate t arguments = inl kwargs /\ calls_once kwargs (Ok r : result reply) s1 (d_world d') /\ owns_up a).
Proof.
  intros Hm Ht Hn Hc Hp H. assert (Hsame : forall b, (b, d) = (a, d') -> exists s0 s1, calls_kept (d_world d) s0 /\ other s0 s1
    /\ (calls_kept s1 (d_world d') \/ exists kwargs r, validate t arguments = inl kwargs
          /\ calls_once kwargs (Ok r : result reply) s1 (d_world d') /\ owns_up a)).
  { intros b [= _ <-]. exists (d_world d), (d_world d). split_and!; [done|done|by left]. }
  unfold _call_tool_with_errors in H. rewrite Ht in H.
  destruct (authorize_tool g name arguments (tl_environment t)) as [u|e]; [|destruct e; by apply Hsame in H].
  destruct (validate t arguments) as [kwargs|issues] eqn:Ev; [|by apply Hsame in H]. clear Hsame.
  unfold order_tool in H. rewrite Hn in H.
  destruct (run_blocking status_known ca security_firm v i i' x w start now name kwargs d) as [r d1] eqn:Er.
  destruct (tool_call_writes_once status_known ca security_firm other v i i' x w start now name kwargs d r d1 Hm Hp Er)
    as (s0 & s1 & Hk & Ho & Hcalls & Hwait).
  destruct r as [[rep|]|e].
  - exists s0, s1. split; [done|]. split; [done|].
    set (answer := match serialize_identifiers (reply_of rep) with Err e => inr [Known e] | Ok v => _ end) in H.
    injection H as <- <-. right. exists kwargs, rep. split; [done|]. split; [by destruct Hcalls as [?|Hcalls]; [left|right]|].
    subst answer. destruct (serialize_identifiers (reply_of rep)) as [u'|e] eqn:Es.
    + destruct (convert u') as [|[title issues]]; [done|]. by apply late_failure_open.
    + apply serialize_error in Es as (m & ->). by apply late_failure_open.
  - injection H as <- <-. exists s0, s1. split_and!; [done|done|]. left. by apply Hwait.
  - injection H as <- <-. exists s0, s1. split_and!; [done|done|]. left. by apply calls_once_err in Hcalls.
Qed.
End agent_theorems.

(** ** Examples *)

#[local] Instance plain_texts : Texts := fun _ => "".
Definition place_tool : tool :=
  {| tl_name := "place_order"; tl_model := "place_orderArguments"; tl_consequential := true; tl_read_only := false;
     tl_environment := VStr "SIMULATE" |}.
Definition demo_tools (name : string) : option tool := if bool_decide (name = "place_order") then Some place_tool else None.
(** An argument model that knows the fields of an order. *)
Definition order_arguments (t : tool) (a : dict) : dict + list issue :=
  match dget "code" a with
  | Some _ => inl a
  | None => inr [{| is_path := ["code"]; is_type := "missing"; is_token := None |};
                 {| is_path := ["operation_id"]; is_type := "string_too_long"; is_token := None |}]
  end.
(** The order under way, its answer shown with the given conversion. *)
Definition demo_call (convert : val -> val + string * list issue) (arguments : dict) : option shown * disp list_bucket desk :=
  _call_tool_with_errors None demo_tools order_arguments
    (order_tool no_status "CA" VNone (fun _ => VNone) convert (fun _ => []) paper_service demo_ios demo_ios
       (calm_call acknowledged) quiet_waits 0 0)
    "place_order" arguments paper_floor.
Definition bad_reply (v : val) : val + string * list issue := inr ("place_orderOutput", []).

(** The same order three times: shown; refused before the tool ran; and placed
    with an answer its own model rejects, which is not a failed order. *)
Example agent_ex :
  option_map (fun y => map fst (y_calls y)) (k_paper (d_world (snd (demo_call inl (paper_kwargs "op-1"))))) = Some ["op-1"]
  /\ fst (demo_call inl (paper_kwargs "op-1")) = Some (Success VNone)
  /\ match fst (demo_call inl []) with
     | Some (Failure p) => p_mutation p = Some "NOT_SENT" /\ p_recorded p = Some false /\ p_fields p = ["operation_id"]
     | _ => False
     end
  /\ match demo_call bad_reply (paper_kwargs "op-1") with
     | (Some (Failure p), d) => p_mutation p = Some "UNKNOWN" /\ p_code p = "INVALID_RESPONSE"
         /\ option_map (fun y => map fst (y_calls y)) (k_paper (d_world d)) = Some ["op-1"]
     | _ => False
     end.
Proof. vm_compute. split_and!; done. Qed.

(** Causes nearer to the tool do not hide what the order boundary said. *)
Example report_ex :
  let report := tool_error_result place_tool true "" in
  let rejected := Invalid "place_orderArguments" [] in
  let sent := Known (OrderOutcomeUnknownError "Order outcome unknown") in
  (p_mutation (report [rejected]), p_mutation (report [rejected; sent]),
   p_mutation (report [Known (OrderNotSentError "no" true)]), p_recorded (report [Known (OrderNotSentError "no" true)]),
   p_mutation (report [Known (RuntimeError "lost")]), p_mutation (report [Known (TradingControlError "no approval")]))
  = (Some "NOT_SENT", Some "UNKNOWN", Some "NOT_SENT", Some true, Some "UNKNOWN", None).
Proof. vm_compute. reflexivity. Qed.

Lemma report_sound_witness :
  let p := tool_error_result place_tool true ""
             [Invalid "place_orderArguments" []; Known (OrderOutcomeUnknownError "Order outcome unknown")] in
  p_mutation p = Some "UNKNOWN" \/ p_mutation p = Some "ACKNOWLEDGED".
Proof.
  refine (proj1 (report_sound place_tool true ""
            [Invalid "place_orderArguments" []; Known (OrderOutcomeUnknownError "Order outcome unknown")])
            (OrderOutcomeUnknownError "Order outcome unknown") _ eq_refl).
  right. left.
Defined.

Lemma agent_call_writes_once_witness :
  let '(a, d) := demo_call bad_reply (paper_kwargs "op-1") in
  exists s0 s1, calls_kept paper_desk s0 /\ s0 = s1
    /\ (calls_kept s1 (d_world d)
        \/ exists kwargs r, order_arguments place_tool (paper_kwargs "op-1") = inl kwargs
             /\ calls_once kwargs (Ok r : result reply) s1 (d_world d) /\ owns_up a).
Proof.
  destruct (demo_call bad_reply (paper_kwargs "op-1")) as [a d] eqn:E.
  apply (agent_call_writes_once no_status "CA" VNone (fun _ => VNone) bad_reply (fun _ => []) eq (HO := eq_preorder) None demo_tools
           order_arguments paper_service demo_ios demo_ios (calm_call acknowledged) quiet_waits 0 0 "place_order"
           (paper_kwargs "op-1") place_tool paper_floor a d eq_refl eq_refl eq_refl eq_refl (quiet_passes eq []) E).
Defined.
