(* ===== verification/DataEvidence.v ===== *)
(** services/data_evidence.py: the bounds on market data handed to a client, and
    the coverage report that goes with it.  What [complete_response] says is held
    against the rows ([evidence_ok]).  Versions, times and fixed texts of the
    envelope are left out; the texts of lists and dictionaries are an argument. *)

From S2P Require Import Prelude PyStr PyVal Prep Snapshots Queries Instruments.

#[local] Open Scope list_scope.

Definition MAX_DATA_ROWS : Z := 2000.
Definition MAX_DATA_BYTES : Z := 2 * 1024 * 1024.

(** The bytes of a character, with [ensure_ascii]. *)
Definition ascii_width (c : ascii) : Z :=
  let z := code c in
  if (z =? 34) || (z =? 92) || (z =? 10) || (z =? 13) || (z =? 9) || (z =? 8) || (z =? 12) then 2
  else if (32 <=? z) && (z <? 127) then 1
  else 6.

(** [bounded_rows] *)
Definition bounded_rows (rows : list dict) (maximum : Z) : result (list dict) :=
  (_ <- refuse_if (maximum <? Z.of_nat (length rows)) (TradeQueryError "SNAPSHOT_LIMIT" "market_data" "narrow the query") ;;
   plain <- mapM raw_of rows ;;
   _ <- refuse_if (MAX_DATA_BYTES <? json_width ascii_width (VList (map VDict plain)))
          (TradeQueryError "SNAPSHOT_LIMIT" "market_data" "response too large") ;;
   Ok plain)%py.

(** [DataEvidence], the coverage included. *)
Record data_evidence : Type := {
  ev_method : string; ev_scope : dict;
  ev_requested : list string; ev_returned : list string; ev_missing : list string;
  ev_complete : bool; ev_truncated : bool; ev_total : Z;
  ev_errors : list (string * string); ev_data : list dict }.

Section evidence.
Context (container_text : val -> string).

Definition text_of (v : val) : string := match v with VList _ | VDict _ => container_text v | _ => py_str v end.

(** The identifier of a row, if it has one. *)
Definition identifier (key : string) (row : dict) : option string :=
  let v := dget_none key row in if is_none v then None else Some (text_of v).

Definition caused (reason : string) (missing : list string) : list (string * string) :=
  map (fun code => (code, reason)) (first_uses missing).

(** [evidence] *)
Definition evidence (method : string) (rows : list dict) (requested : list string) (key : string) (scope : dict) (limit : Z)
    : result data_evidence :=
  (rows <- bounded_rows rows MAX_DATA_ROWS ;;
   let returned := omap (identifier key) rows in
   let unexpected := match requested with [] => false | _ => existsb (fun c => negb (mem c requested)) returned end in
   _ <- refuse_if (negb (bool_decide (NoDup returned)) || unexpected)
          (TradeQueryError "INVALID_RESPONSE" method "duplicate/unexpected rows") ;;
   let missing := List.filter (fun c => negb (mem c returned)) requested in
   let total := Z.of_nat (length rows) in
   Ok {| ev_method := method; ev_scope := scope; ev_requested := requested;
         ev_returned := take (Z.to_nat limit) returned; ev_missing := missing;
         ev_complete := match missing with [] => total <=? limit | _ => false end;
         ev_truncated := limit <? total; ev_total := total;
         ev_errors := caused "NOT_RETURNED_CAUSE_UNKNOWN" missing; ev_data := take (Z.to_nat limit) rows |})%py.

(** ** What the coverage says *)

Lemma mem_spec c l : mem c l = true <-> c ∈ l.
Proof. unfold mem. by rewrite bool_decide_eq_true. Qed.

Lemma filter_elem {A} (f : A -> bool) l (a : A) : a ∈ List.filter f l <-> a ∈ l /\ f a = true.
Proof. rewrite !list_elem_of_In. apply filter_In. Qed.

Lemma bounded_rows_ok rows maximum plain :
  bounded_rows rows maximum = Ok plain ->
  Forall2 (fun row p => raw_of row = Ok p) rows plain /\ Z.of_nat (length plain) <= maximum
  /\ json_width ascii_width (VList (map VDict plain)) <= MAX_DATA_BYTES.
Proof.
  unfold bounded_rows. intros H. apply bind_ok in H as ([] & Hn & H). apply bind_ok in H as (p & Hp & H).
  apply bind_ok in H as ([] & Hs & [= <-]). apply refuse_if_ok in Hn, Hs. split; [by apply mapM_Forall2|].
  rewrite (mapM_ok_length _ _ _ Hp). lia.
Qed.

(** Of the rows [plain]: those handed over are the first of them; they carry each
    identifier once and none that was not asked for; an identifier is missing
    when no row carries it; and the response is called complete exactly when
    nothing was cut and each requested identifier is on a row handed over. *)
Record covers (plain : list dict) (requested : list string) (key : string) (limit : Z) (ev : data_evidence) : Prop := {
  cv_data : ev_data ev = take (Z.to_nat limit) plain;
  cv_total : ev_total ev = Z.of_nat (length plain) /\ Z.of_nat (length (ev_data ev)) <= limit;
  cv_once : NoDup (omap (identifier key) plain);
  cv_asked : requested <> [] -> forall c, c ∈ omap (identifier key) plain -> c ∈ requested;
  cv_missing : forall c, c ∈ ev_missing ev <-> c ∈ requested /\ c ∉ omap (identifier key) plain;
  cv_errors : forall c, c ∈ map fst (ev_errors ev) <-> c ∈ ev_missing ev;
  cv_truncated : ev_truncated ev = true <-> ev_data ev <> plain;
  cv_complete : ev_complete ev = true <->
                ev_truncated ev = false /\ forall c, c ∈ requested -> exists row, row ∈ ev_data ev /\ identifier key row = Some c }.

Lemma first_uses_elem l c : c ∈ first_uses l <-> c ∈ l.
Proof. unfold first_uses. rewrite first_uses_from. set_solver. Qed.

Lemma caused_missing reason l c : c ∈ map fst (caused reason l) <-> c ∈ l.
Proof. unfold caused. rewrite map_map, map_id. apply first_uses_elem. Qed.

Lemma take_cut {A} (l : list A) limit : 0 <= limit -> (limit <? Z.of_nat (length l)) = true <-> take (Z.to_nat limit) l <> l.
Proof.
  intros Hl. rewrite Z.ltb_lt. split.
  - intros H E. apply (f_equal length) in E. rewrite length_take in E. lia.
  - intros H. destruct (Z_lt_ge_dec limit (Z.of_nat (length l))) as [|Hge]; [done|]. exfalso. apply H, take_ge. lia.
Qed.

Lemma evidence_ok method rows requested key scope limit ev :
  0 <= limit -> evidence method rows requested key scope limit = Ok ev ->
  exists plain, Forall2 (fun row p => raw_of row = Ok p) rows plain /\ Z.of_nat (length plain) <= MAX_DATA_ROWS
    /\ json_width ascii_width (VList (map VDict plain)) <= MAX_DATA_BYTES /\ covers plain requested key limit ev.
Proof.
  intros Hl H. unfold evidence in H. apply bind_ok in H as (plain & Hp & H). apply bind_ok in H as ([] & Hu & [= <-]).
  apply bounded_rows_ok in Hp as (Hp & Hn & Hs). apply refuse_if_ok in Hu. apply orb_false_iff in Hu as [Hd Hu].
  apply negb_false_iff, bool_decide_eq_true in Hd. exists plain. do 3 (split; [done|]).
  assert (Hm : forall c, c ∈ List.filter (fun c => negb (mem c (omap (identifier key) plain))) requested
                         <-> c ∈ requested /\ c ∉ omap (identifier key) plain).
  { intros c. rewrite filter_elem, negb_true_iff, <- (mem_spec c (omap _ _)), not_true_iff_false. done. }
  split; cbn.
  - done.
  - split; [done|]. rewrite length_take. lia.
  - done.
  - intros Hne c Hc. destruct requested as [|r l]; [done|]. apply mem_spec. destruct (mem c (r :: l)) eqn:E; [done|]. exfalso.
    assert (Hx : existsb (fun c => negb (mem c (r :: l))) (omap (identifier key) plain) = true); [|congruence].
    apply existsb_exists. exists c. rewrite E. split; [by apply list_elem_of_In|done].
  - exact Hm.
  - intros c. apply caused_missing.
  - by apply take_cut.
  - destruct (Z.leb_spec (Z.of_nat (length plain)) limit) as [Hle|Hgt].
    + rewrite (take_ge plain), (proj2 (Z.ltb_ge limit _)) by lia. split.
      * intros Hc. split; [done|]. intros c Hr. destruct (List.filter _ requested) as [|m l] eqn:E; [|done].
        assert (Hin : c ∈ omap (identifier key) plain).
        { apply mem_spec. destruct (mem c (omap (identifier key) plain)) eqn:Em; [done|]. exfalso.
          assert (Hf : c ∈ @nil string); [|by apply elem_of_nil in Hf]. rewrite <- E. apply filter_elem. by rewrite Em. }
        apply list_elem_of_omap in Hin as (row & ? & ?). by exists row.
      * intros [_ Hc]. destruct (List.filter _ requested) as [|m l] eqn:E; [done|]. exfalso.
        assert (Hf : m ∈ m :: l) by by left. apply Hm in Hf as [Hr Hno]. apply Hno.
        destruct (Hc m Hr) as (row & ? & ?). apply list_elem_of_omap. by exists row.
    + split; [intros Hc; by destruct (List.filter _ requested)|]. intros [Ht _]. apply Z.ltb_ge in Ht. lia.
Qed.
End evidence.

(** A row without its identifier takes no place in [ev_returned]: when rows are
    cut, it can name one that is not handed over. *)
Example evidence_ex :
  let rows := [[("event_id", VNone)]; [("event_id", VStr "A")]] in
  match evidence (fun _ => "") "get_earnings_calendar" rows [] "event_id" [] 1 with
  | Ok e => (ev_returned e, ev_data e, ev_complete e) = (["A"], [[("event_id", VNone)]], false)
  | Err _ => False
  end
  /\ is_ok (evidence (fun _ => "") "get_market_snapshot" [[("code", VStr "US.A")]; [("code", VStr "US.A")]] [] "code" [] 2000) = false.
Proof. vm_compute. done. Qed.
