(* ===== verification/MarketData.v ===== *)
(** services/market_data_service.py and services/broker_data_reads.py: what the
    market data tools ask the gateway for, and what they make of its answers.
    Every SDK call is logged, so what a method asks is held against the permits
    planned for it ([reads_within_plan]) and its answer against the gateway's
    ([market_tool_told], [market_evidence_exact]).

    The answer to each call, given those before it, is an argument, as are the SDK's names, enumerations and signatures.  Data frames are their
    columns and records. *)

From S2P Require Import Prelude PyStr PyVal OrderErrors Validation ClientAuth RateLimit Dispatch Prep Paper KlineCursor Queries Snapshots.
From S2P Require Import Prepare Admission Offload Instruments Health Agent DataEvidence.

#[local] Open Scope list_scope.

(** ** Calls of the SDK *)

Inductive sdk_data : Type := Frame (columns : list string) (records : list dict) | Tuple (l : list val) | Plain (v : val).

(** A call that raised, its permit refused or the SDK failing; an answer that is
    no pair, with what taking it apart raises; a refusal with its message; data. *)
Inductive sdk_answer : Type := Burst (e : exn) | Misshapen (e : exn) | Declined (message : val) | Gave (d : sdk_data).

(** The calls put to the dispatcher, oldest first, and the instrument adapter. *)
Record market : Type := { m_calls : list (string * dict); m_adapter : adapter }.
Definition logged (call : string * dict) (s : market) : market :=
  {| m_calls := m_calls s ++ [call]; m_adapter := m_adapter s |}.

(** What a method does: a value or the exception it raises. *)
Definition MD (A : Type) : Type := market -> (A + cause) * market.
Definition md_ret {A} (a : A) : MD A := fun s => (inl a, s).
Definition md_give {A} (r : A + cause) : MD A := fun s => (r, s).
Definition md_lift {A} (r : result A) : MD A := fun s => (match r with Ok a => inl a | Err e => inr (Known e) end, s).
Definition md_bind {A B} (m : MD A) (k : A -> MD B) : MD B := fun s =>
  match m s with (inl a, s) => k a s | (inr c, s) => (inr c, s) end.
Definition md_refuse_if (b : bool) (e : exn) : MD unit := md_lift (refuse_if b e).

Declare Scope md_scope.
Delimit Scope md_scope with md.
Notation "x <- c ;; k" := (md_bind c (fun x => k)) (at level 100, c at next level, right associativity) : md_scope.
Notation "c ;;; k" := (md_bind c (fun _ => k)) (at level 100, right associativity) : md_scope.

(** [as_frame(operation, data).to_dict("records")], [as_dict] and [as_list] *)
Definition bad_shape {A} (operation : string) : A + cause := inr (BadShape (operation ++ " reported success but returned another shape")).
Definition as_frame (operation : string) (d : sdk_data) : list dict + cause :=
  match d with Frame _ rows => inl rows | _ => bad_shape operation end.
Definition as_dict (operation : string) (d : sdk_data) : dict + cause :=
  match d with Plain (VDict d) => inl d | _ => bad_shape operation end.
Definition as_list (operation : string) (d : sdk_data) : list val + cause :=
  match d with Plain (VList l) => inl l | _ => bad_shape operation end.

(** [frame_records] *)
Definition frame_records (operation : string) (d : sdk_data) : list dict + cause :=
  match d with
  | Frame columns rows =>
      if MAX_DATA_ROWS <? Z.of_nat (length rows) then inr (Known (TradeQueryError "SNAPSHOT_LIMIT" operation "narrow the query"))
      else match rows, columns with
           | _ :: _, [] => inr (Known (TradeQueryError "INVALID_RESPONSE" operation "rows have no fields"))
           | _, _ => inl rows
           end
  | _ => bad_shape operation
  end.

(** The texts of a list of codes. *)
Definition code_list (codes : val) : list string :=
  match codes with VList l => omap (fun v => match v with VStr s => Some s | _ => None end) l | _ => [] end.

(** Data, or the exception of an answer that is none: [raise_quote_error] tells
    denials apart. *)
Definition quote_reply (operation : string) (codes : list string) (a : sdk_answer) : sdk_data + cause :=
  match a with
  | Gave d => inl d
  | Declined m => match raise_quote_error operation m codes with inl d => inr (Denied d) | inr e => inr (Known e) end
  | Burst e | Misshapen e => inr (Known e)
  end.
Definition plain_reply (operation : string) (a : sdk_answer) : sdk_data + cause :=
  match a with
  | Gave d => inl d
  | Declined m => inr (Known (RuntimeError (operation ++ " failed: " ++ py_str m)))
  | Burst e | Misshapen e => inr (Known e)
  end.

(** What a method returns. *)
Inductive market_reply : Type :=
  | Nothing | Records (rows : list dict) | Items (l : list val) | Mapping (d : dict) | Page (rows : list dict) (next : val)
  | Evidence (e : data_evidence).

Section service.
(** The gateway, what the adapter is told, and the SDK: attributes, the methods
    it has, the names and numbers of its enumerations and the parameters of the
    option chain. *)
Context (gateway : list (string * dict) -> string -> dict -> sdk_answer) (page_key : list (string * dict) -> dict -> val).
Context (q : quotes) (received : string) (stamps : reference -> dict) (container_text : val -> string).
Context (sdk_name : string -> string -> val) (callable : string -> bool) (period_number : string -> option Z).
Context (KLINE_TYPES ADJUSTMENT_TYPES TRADING_DAY_MARKETS SUBSCRIPTION_TYPES chain_parameters filter_parameters : list string).

Definition connected : bool := match qa_context q with Some _ => true | None => false end.
Definition require_context : MD unit := md_refuse_if (negb connected) (RuntimeError "Quote context not connected").

(** [dispatcher.call] *)
Definition ask (operation : string) (params : dict) : MD sdk_answer := fun s =>
  (inl (gateway (m_calls s) operation params), logged (operation, params) s).

Definition quoted (operation : string) (codes : list string) (params : dict) : MD sdk_data :=
  (a <- ask operation params ;; md_give (quote_reply operation codes a))%md.
Definition queried (operation : string) (params : dict) : MD sdk_data :=
  (a <- ask operation params ;; md_give (plain_reply operation a))%md.
Definition quoted_records (operation : string) (codes : list string) (params : dict) : MD market_reply :=
  (d <- quoted operation codes params ;; rows <- md_give (as_frame operation d) ;; md_ret (Records rows))%md.
Definition queried_records (operation : string) (params : dict) : MD market_reply :=
  (d <- queried operation params ;; rows <- md_give (as_frame operation d) ;; md_ret (Records rows))%md.

(** ** services/market_data_service.py *)

Definition subscribe (codes : val) (sub_types : list val) : MD unit :=
  (require_context ;;;
   quoted "subscribe" (code_list codes)
     [("codes", codes); ("sub_types", VList sub_types); ("subscribe_push", VBool false)] ;;; md_ret tt)%md.

Definition get_subscriptions : MD market_reply :=
  (require_context ;;;
   d <- queried "query_subscription" [("is_all_conn", VBool false)] ;;
   md_ret (Mapping (match d with Plain (VDict d) => d | _ => [] end)))%md.

(** [[str(code or "").strip() for code in codes]], all of them nonempty *)
Definition cleaned_codes (codes : val) : MD (list val) :=
  (md_refuse_if (negb (truthy codes)) (ValueError "codes must contain at least one security code.") ;;;
   match codes with
   | VList l =>
       md_refuse_if (negb (forallb (fun c => nonempty (code_text c)) l)) (ValueError "codes must not contain empty security codes.") ;;;
       md_ret (map (fun c => VStr (code_text c)) l)
   | _ => md_lift (Err (TypeError "a list of codes is required"))
   end)%md.

Definition unsubscribe (codes sub_types : val) : MD market_reply :=
  (require_context ;;;
   cleaned <- cleaned_codes codes ;;
   match sub_types with
   | VList ((_ :: _) as l) =>
       types <- md_lift (mapM (fun v => validate_choice v SUBSCRIPTION_TYPES) l) ;;
       queried "unsubscribe" [("code_list", VList cleaned); ("subtype_list", VList (map VStr types))] ;;; md_ret Nothing
   | _ => md_lift (Err (ValueError "sub_types must contain at least one subscription type"))
   end)%md.

Definition get_stock_quote (codes : val) : MD market_reply :=
  (require_context ;;;
   subscribe codes [sdk_name "SubType" "QUOTE"] ;;;
   quoted_records "get_stock_quote" (code_list codes) [("codes", codes)])%md.

(** [validate_candle_filters] *)
Definition validate_candle_filters (ktype autype : val) : MD (val * val) :=
  (interval <- md_lift (validate_choice ktype KLINE_TYPES) ;;
   adjustment <- md_lift (validate_choice autype ADJUSTMENT_TYPES) ;;
   md_ret (sdk_name "KLType" interval, sdk_name "AuType" adjustment))%md.

Definition history_params (code start stop ktype autype max_count : val) : dict :=
  [("code", code); ("start", start); ("end", stop); ("ktype", ktype); ("autype", autype); ("max_count", max_count)].

Definition get_historical_klines (code ktype start stop max_count autype : val) : MD market_reply :=
  (require_context ;;;
   filters <- validate_candle_filters ktype autype ;;
   quoted_records "request_history_kline" (code_list (VList [code]))
     (history_params code start stop (fst filters) (snd filters) max_count))%md.

Definition get_historical_klines_page (code ktype start stop max_count autype page_req_key : val) : MD market_reply :=
  (require_context ;;;
   filters <- validate_candle_filters ktype autype ;;
   let params := history_params code start stop (fst filters) (snd filters) max_count ++ [("page_req_key", page_req_key)] in
   d <- quoted "request_history_kline" (code_list (VList [code])) params ;;
   rows <- md_give (match d with Plain VNone => inl [] | _ => as_frame "request_history_kline" d end) ;;
   fun s => (inl (Page rows (page_key (m_calls s) params)), s))%md.

Definition get_option_expiration_date (code : val) : MD market_reply :=
  (require_context ;;;
   let underlying := code_text code in
   md_refuse_if (negb (nonempty underlying)) (ValueError "code must be a non-empty security code") ;;;
   quoted_records "get_option_expiration_date" [underlying] [("code", VStr underlying)])%md.

(** [_validate_option_chain] *)
Definition _validate_option_chain (code start stop option_type : val) : MD (string * string) :=
  (require_context ;;;
   let underlying := code_text code in
   md_refuse_if (negb (nonempty underlying)) (ValueError "code must be a non-empty security code") ;;;
   md_lift (validate_date_range start stop (Some 29)) ;;;
   normalized <- md_lift (validate_choice option_type ["ALL"; "CALL"; "PUT"]) ;;
   md_ret (underlying, normalized))%md.

(** [_option_filters]: [data_filter] holds the fields that were set. *)
Definition _option_filters (condition : val) (data_filter : option dict) : MD dict :=
  (normalized <- md_lift (validate_choice condition ["ALL"; "WITHIN"; "OUTSIDE"]) ;;
   let values := default [] data_filter in
   let supplied := (if bool_decide (normalized = "ALL") then [] else [("option_cond_type", sdk_name "OptionCondType" normalized)])
                   ++ match values with [] => [] | _ => [("data_filter", VDict values)] end in
   md_refuse_if (negb (forallb (fun kv => mem (fst kv) filter_parameters) values))
     (RuntimeError "Installed SDK does not support requested option filters") ;;;
   md_refuse_if (negb (forallb (fun kv => mem (fst kv) chain_parameters) supplied))
     (RuntimeError "Installed SDK does not support requested chain parameters") ;;;
   md_ret supplied)%md.

(** [_query_option_chain] *)
Definition _query_option_chain (underlying : string) (start stop : val) (normalized : string) (filters : dict) : MD market_reply :=
  (require_context ;;;
   d <- quoted "get_option_chain" [underlying]
          ([("code", VStr underlying); ("start", start); ("end", stop); ("option_type", sdk_name "OptionType" normalized)] ++ filters) ;;
   rows <- md_give (as_frame "get_option_chain" d) ;;
   rows <- md_lift (bounded_rows rows MAX_DATA_ROWS) ;;
   md_ret (Records rows))%md.

(** [get_option_chain]; [get_option_chain_async] runs the query after waiting for
    the permit of [async_plan]. *)
Definition get_option_chain (code start stop option_type condition : val) (data_filter : option dict) : MD market_reply :=
  (chain <- _validate_option_chain code start stop option_type ;;
   filters <- _option_filters condition data_filter ;;
   _query_option_chain (fst chain) start stop (snd chain) filters)%md.
Definition async_plan : list QuotaRequest := [gateway_quota "get_option_chain"].

Definition get_market_snapshot (codes : val) : MD market_reply :=
  (require_context ;;;
   if negb (truthy codes) then md_ret (Records [])
   else quoted_records "get_market_snapshot" (code_list codes) [("codes", codes)])%md.

Definition get_order_book (code num : val) : MD market_reply :=
  (require_context ;;;
   subscribe (VList [code]) [sdk_name "SubType" "ORDER_BOOK"] ;;;
   d <- quoted "get_order_book" (code_list (VList [code])) [("code", code); ("num", num)] ;;
   book <- md_give (as_dict "get_order_book" d) ;;
   md_ret (Mapping book))%md.

Definition get_market_state (codes : val) : MD market_reply :=
  (require_context ;;;
   cleaned <- cleaned_codes codes ;;
   queried_records "get_market_state" [("code_list", VList cleaned)])%md.

Definition get_trading_days (day_market start stop : val) : MD market_reply :=
  (require_context ;;;
   normalized <- md_lift (validate_choice day_market TRADING_DAY_MARKETS) ;;
   md_lift (validate_date_range start stop None) ;;;
   d <- queried "request_trading_days" [("market", VStr normalized); ("start", start); ("end", stop)] ;;
   match d with
   | Frame _ _ => md_lift (Err (ValueError "The truth value of a DataFrame is ambiguous."))
   | Tuple l => if match l with [] => true | _ => false end then md_ret (Items []) else md_give (bad_shape "request_trading_days")
   | Plain v => if negb (truthy v) then md_ret (Items [])
                else days <- md_give (as_list "request_trading_days" d) ;; md_ret (Items days)
   end)%md.

Definition get_user_security_group (group_type : val) : MD market_reply :=
  (require_context ;;;
   let kind := if py_eqb group_type (VInt 1) then "CUSTOM" else if py_eqb group_type (VInt 2) then "SYSTEM" else "ALL" in
   queried_records "get_user_security_group" [("group_type", sdk_name "UserSecurityGroupType" kind)])%md.

Definition get_user_security (group_name : val) : MD market_reply :=
  (require_context ;;; queried_records "get_user_security" [("group_name", group_name)])%md.

(** ** services/broker_data_reads.py *)

Definition BROKER_READ_OPERATIONS : list string :=
  ["get_market_snapshot"; "get_history_kl_quota"; "get_rehab"; "get_corporate_actions_dividends"; "get_earnings_calendar";
   "get_option_volatility"].

(** [_read] *)
Definition _read (operation : string) (params : dict) : MD sdk_data :=
  (md_refuse_if (negb (mem operation BROKER_READ_OPERATIONS)) (ValueError "Broker read operation is not in the closed inventory") ;;;
   require_context ;;;
   md_refuse_if (negb (callable operation)) (TradeQueryError "CAPABILITY_UNAVAILABLE" operation "SDK method absent") ;;;
   a <- ask operation params ;;
   match a with
   | Misshapen _ => md_lift (Err (TradeQueryError "INVALID_RESPONSE" operation "expected SDK pair"))
   | _ => md_give (quote_reply operation
                     (code_list (default (VList [dget_or "code" (VStr "") params]) (dget "code_list" params))) a)
   end)%md.

Definition exact_codes (codes : val) : MD (list string) := md_lift (validate_codes codes).
Definition one_code (code : val) : MD unit := (exact_codes (VList [code]) ;;; md_ret tt)%md.

(** [get_market_snapshot_evidence] *)
Definition get_market_snapshot_evidence (codes : val) : MD market_reply :=
  (wanted <- exact_codes codes ;;
   d <- _read "get_market_snapshot" [("code_list", codes)] ;;
   rows <- md_give (frame_records "get_market_snapshot" d) ;;
   e <- md_lift (evidence container_text "get_market_snapshot" rows wanted "code" [] MAX_DATA_ROWS) ;;
   md_ret (Evidence e))%md.

(** [instrument_adapter.read_facts]: once its own checks pass, the first thing
    it does is ask the gateway for a snapshot; the metadata reads it may add
    draw on no budget and are not logged. *)
Definition read_reference (codes : val) : MD (list reference) := fun s =>
  let '(r, a) := read_facts q received codes (m_adapter s) in
  let s := {| m_calls := m_calls s; m_adapter := a |} in
  (match r with Ok l => inl l | Err e => inr (Known e) end,
   match facts_asked q codes with
   | Ok (names, _) => logged ("get_market_snapshot", [("code_list", VList (map VStr names))]) s
   | Err _ => s
   end).

(** An entry of the facts as its row. *)
Definition state_text (f : fact_state) : string :=
  match f with KNOWN => "KNOWN" | UNKNOWN => "UNKNOWN" | CONFLICT => "CONFLICT" end.
Definition fact_row (f : fact) : val :=
  VDict [("state", VStr (state_text (ft_state f))); ("value", ft_value f);
         ("evidence", VList (map (fun o => VDict [("source_method", VStr (ob_method o)); ("value", ob_value o);
                                                  ("observed_at", ob_at o)]) (ft_evidence f)))].
Definition reference_row (r : reference) : dict :=
  [("code", VStr (rf_code r)); ("facts", VDict (map (fun '(name, f) => (name, fact_row f)) (rf_facts r)));
   ("snapshot_present", VBool (rf_snapshot_present r)); ("reference_present", VBool (rf_reference_present r))] ++ stamps r.

Definition half_known (r : reference) : bool := negb (rf_snapshot_present r) || negb (rf_reference_present r).

(** [get_instrument_facts] *)
Definition with_missing (reason : string) (missing : list string) (e : data_evidence) : data_evidence :=
  {| ev_method := ev_method e; ev_scope := ev_scope e; ev_requested := ev_requested e; ev_returned := ev_returned e;
     ev_missing := missing; ev_complete := match missing with [] => true | _ => false end; ev_truncated := ev_truncated e;
     ev_total := ev_total e; ev_errors := caused reason missing; ev_data := ev_data e |}.
Definition get_instrument_facts (codes : val) : MD market_reply :=
  (wanted <- exact_codes codes ;;
   facts <- read_reference codes ;;
   e <- md_lift (evidence container_text "get_stock_basicinfo+get_market_snapshot" (map reference_row facts) wanted "code" []
                   MAX_DATA_ROWS) ;;
   md_ret (Evidence (with_missing "INCOMPLETE_FACT_SOURCES" (map rf_code (List.filter half_known facts)) e)))%md.

(** [get_history_kl_quota] *)
Definition quota_value (v : val) : bool := match v with VNone => true | VInt z => 0 <=? z | _ => false end.
Definition get_history_kl_quota : MD market_reply :=
  (d <- _read "get_history_kl_quota" [("get_detail", VBool false)] ;;
   match d with
   | Tuple [used; remaining; _] =>
       md_refuse_if (negb (quota_value used && quota_value remaining))
         (TradeQueryError "INVALID_RESPONSE" "get_history_kl_quota" "invalid quota") ;;;
       e <- md_lift (evidence container_text "get_history_kl_quota" [[("used_quota", used); ("remain_quota", remaining)]] [] "code"
                       [("details_requested", VBool false)] MAX_DATA_ROWS) ;;
       md_ret (Evidence e)
   | _ => md_lift (Err (TradeQueryError "INVALID_RESPONSE" "get_history_kl_quota" "expected quota tuple"))
   end)%md.

(** A read of one code, or of a market, cut at a limit. *)
Definition row_limit (limit : val) : MD Z := (md_lift (validate_row_limit limit) ;;; md_ret (match limit with VInt z => z | _ => 0 end))%md.
Definition cut_evidence (operation : string) (rows : list dict) (key : string) (scope : dict) (limit : Z) : MD market_reply :=
  (e <- md_lift (evidence container_text operation rows [] key (scope ++ [("limit", VInt limit)]) limit) ;; md_ret (Evidence e))%md.

Definition get_rehab (code limit : val) : MD market_reply :=
  (n <- row_limit limit ;; one_code code ;;;
   d <- _read "get_rehab" [("code", code)] ;;
   rows <- md_give (frame_records "get_rehab" d) ;;
   cut_evidence "get_rehab" rows "ex_div_date" [("code", code)] n)%md.

Fixpoint dicts (l : list val) : option (list dict) :=
  match l with [] => Some [] | VDict d :: l => option_map (cons d) (dicts l) | _ => None end.
Definition get_corporate_actions_dividends (code limit : val) : MD market_reply :=
  (n <- row_limit limit ;; one_code code ;;;
   d <- _read "get_corporate_actions_dividends" [("code", code)] ;;
   answered <- md_give (as_dict "get_corporate_actions_dividends" d) ;;
   match match dget_none "dividend_list" answered with VList l => dicts l | _ => None end with
   | Some rows => cut_evidence "get_corporate_actions_dividends" rows "event_id" [("code", code)] n
   | None => md_lift (Err (TradeQueryError "INVALID_RESPONSE" "get_corporate_actions_dividends" "dividend_list absent or invalid"))
   end)%md.

Definition get_earnings_calendar (day_market start stop limit : val) : MD market_reply :=
  (n <- row_limit limit ;;
   named <- md_lift (validate_choice day_market ["US"; "HK"; "SH"; "SZ"; "SG"; "JP"; "AU"; "CA"]) ;;
   md_refuse_if (negb (truthy start) || negb (truthy stop)) (ValueError "earnings calendar requires explicit start/end dates") ;;;
   md_lift (validate_date_range start stop (Some 7)) ;;;
   d <- _read "get_earnings_calendar" [("market", VStr named); ("begin_date", start); ("end_date", stop)] ;;
   rows <- md_give (frame_records "get_earnings_calendar" d) ;;
   cut_evidence "get_earnings_calendar" rows "event_id" [("market", VStr named); ("start", start); ("end", stop)] n)%md.

Definition enum_name (period : string) : string :=
  match period with "WEEK" => "Week" | "MONTH" => "Month" | "QUARTER" => "Quarter" | "HALF_YEAR" => "HalfYear" | _ => "Year" end.
Definition fact_value (name : string) (r : reference) : val := match aget name (rf_facts r) with Some f => ft_value f | None => VNone end.
Definition verified_option (r : reference) : bool :=
  is_str_eq "DRVT" (fact_value "classification" r) && match fact_value "is_option" r with VBool true => true | _ => false end.
Definition get_option_volatility (code period hv_days limit : val) : MD market_reply :=
  (one_code code ;;;
   n <- row_limit limit ;;
   named <- md_lift (validate_choice period ["WEEK"; "MONTH"; "QUARTER"; "HALF_YEAR"; "YEAR"]) ;;
   md_refuse_if (negb match hv_days with VInt z => in_range 5 250 z | _ => false end)
     (ValueError "hv_days must be an integer from 5 to 250") ;;;
   match period_number ("OptionVolatilityTimePeriodType_" ++ enum_name named)%string with
   | None => md_lift (Err (TradeQueryError "CAPABILITY_UNAVAILABLE" "get_option_volatility" "SDK period enum absent"))
   | Some number =>
       facts <- read_reference (VList [code]) ;;
       md_refuse_if (negb match facts with r :: _ => verified_option r | [] => false end)
         (ValueError "volatility requires a provider-verified option contract code") ;;;
       d <- _read "get_option_volatility" [("code", code); ("query_time_period", VInt number); ("hv_time_period", hv_days)] ;;
       rows <- md_give (frame_records "get_option_volatility" d) ;;
       cut_evidence "get_option_volatility" rows "timestamp" [("code", code); ("period", VStr named); ("hv_days", hv_days)] n
   end)%md.

(** ** A method as it is called *)

Definition market_call (method : string) (params : dict) : MD market_reply :=
  let arg name := dget_none name params in
  if bool_decide (method = "subscribe") then
    (subscribe (arg "codes") (match arg "sub_types" with VList l => l | _ => [] end) ;;; md_ret Nothing)%md
  else if bool_decide (method = "get_subscriptions") then get_subscriptions
  else if bool_decide (method = "unsubscribe") then unsubscribe (arg "codes") (arg "sub_types")
  else if bool_decide (method = "get_stock_quote") then get_stock_quote (arg "codes")
  else if bool_decide (method = "get_order_book") then get_order_book (arg "code") (arg "num")
  else if bool_decide (method = "get_historical_klines") then
    get_historical_klines (arg "code") (arg "ktype") (arg "start") (arg "end") (arg "max_count") (arg "autype")
  else if bool_decide (method = "get_historical_klines_page") then
    get_historical_klines_page (arg "code") (arg "ktype") (arg "start") (arg "end") (arg "max_count") (arg "autype") (arg "page_req_key")
  else if bool_decide (method = "get_option_expiration_date") then get_option_expiration_date (arg "code")
  else if bool_decide (method = "get_option_chain") then
    get_option_chain (arg "code") (arg "start") (arg "end") (arg "option_type") (arg "option_cond_type")
      (match arg "data_filter" with VDict d => Some d | _ => None end)
  else if bool_decide (method = "get_market_snapshot") then get_market_snapshot (arg "codes")
  else if bool_decide (method = "get_market_state") then get_market_state (arg "codes")
  else if bool_decide (method = "get_trading_days") then get_trading_days (arg "market") (arg "start") (arg "end")
  else if bool_decide (method = "get_user_security_group") then get_user_security_group (arg "group_type")
  else if bool_decide (method = "get_user_security") then get_user_security (arg "group_name")
  else if bool_decide (method = "get_market_snapshot_evidence") then get_market_snapshot_evidence (arg "codes")
  else if bool_decide (method = "get_instrument_facts") then get_instrument_facts (arg "codes")
  else if bool_decide (method = "get_history_kl_quota") then get_history_kl_quota
  else if bool_decide (method = "get_rehab") then get_rehab (arg "code") (arg "limit")
  else if bool_decide (method = "get_corporate_actions_dividends") then
    get_corporate_actions_dividends (arg "code") (arg "limit")
  else if bool_decide (method = "get_earnings_calendar") then
    get_earnings_calendar (arg "market") (arg "start") (arg "end") (arg "limit")
  else if bool_decide (method = "get_option_volatility") then
    get_option_volatility (arg "code") (arg "period") (arg "hv_days") (arg "limit")
  else md_lift (Err (KeyError method)).

(** The permits asked for before it runs. *)
Definition market_plan (method : string) (params : dict) : result (list QuotaRequest) :=
  if bool_decide (method = "get_option_chain") then Ok async_plan
  else bind (prepare_market_call KLINE_TYPES ADJUSTMENT_TYPES TRADING_DAY_MARKETS connected method params)
         (fun p => Ok (pl_requests p)).
End service.

(** ** What a method asks for *)

Definition permits (calls : list (string * dict)) : list QuotaRequest :=
  flat_map (fun c => match request (fst c) (snd c) with Ok r => planned r | Err _ => [] end) calls.

(** The permits of the calls a method makes are the first of [l], and all of them
    when it returns. *)
Definition asks {A} (m : MD A) (l : list QuotaRequest) : Prop :=
  forall s r s', m s = (r, s') -> exists calls, m_calls s' = m_calls s ++ calls
    /\ permits calls `prefix_of` l /\ (forall a, r = inl a -> permits calls = l).

Lemma permits_app l l' : permits (l ++ l') = permits l ++ permits l'.
Proof. apply flat_map_app. Qed.

Lemma asks_give {A} (r : A + cause) : asks (md_give r) [].
Proof. intros s r' s' [= <- <-]. exists []. by rewrite app_nil_r. Qed.
Lemma asks_lift {A} (r : result A) : asks (md_lift r) [].
Proof. intros s r' s' [= <- <-]. exists []. by rewrite app_nil_r. Qed.
Lemma asks_ret {A} (a : A) : asks (md_ret a) [].
Proof. intros s r' s' [= <- <-]. exists []. by rewrite app_nil_r. Qed.
Lemma asks_raise {A} (e : exn) l : asks (md_lift (Err e : result A)) l.
Proof. intros s r' s' [= <- <-]. exists []. rewrite app_nil_r. split_and!; [done|apply prefix_nil|done]. Qed.
Lemma asks_refuse b e : asks (md_refuse_if b e) [].
Proof. apply asks_lift. Qed.
Lemma asks_bind {A B} (m : MD A) (k : A -> MD B) l l' :
  asks m l -> (forall a, asks (k a) l') -> asks (md_bind m k) (l ++ l').
Proof.
  intros Hm Hk s r s' H. unfold md_bind in H. destruct (m s) as [[a|c] s1] eqn:E.
  - destruct (Hm _ _ _ E) as (c1 & Hc1 & _ & Hp1). destruct (Hk _ _ _ _ H) as (c2 & Hc2 & Hp2 & Hr).
    exists (c1 ++ c2). rewrite Hc2, Hc1, app_assoc, permits_app, (Hp1 a) by done. split_and!; [done|destruct Hp2 as [k2 ->]; exists k2; by rewrite app_assoc|].
    intros b Hb. by rewrite (Hr b Hb).
  - injection H as <- <-. destruct (Hm _ _ _ E) as (c1 & Hc1 & Hp1 & _). exists c1. split_and!; [done| |done].
    destruct Hp1 as [k1 ->]. exists (k1 ++ l'). by rewrite app_assoc.
Qed.
Lemma asks_then {A B} (m : MD A) (k : A -> MD B) l : asks m [] -> (forall a, asks (k a) l) -> asks (md_bind m k) l.
Proof. intros Hm Hk. by apply (asks_bind m k [] l). Qed.
Lemma asks_last {A B} (m : MD A) (k : A -> MD B) l : asks m l -> (forall a, asks (k a) []) -> asks (md_bind m k) l.
Proof. intros Hm Hk. rewrite <- (app_nil_r l). by apply asks_bind. Qed.

Section permits.
Context (gateway : list (string * dict) -> string -> dict -> sdk_answer) (page_key : list (string * dict) -> dict -> val).
Context (q : quotes) (received : string) (stamps : reference -> dict) (container_text : val -> string).
Context (sdk_name : string -> string -> val) (callable : string -> bool) (period_number : string -> option Z).
Context (KLINE_TYPES ADJUSTMENT_TYPES TRADING_DAY_MARKETS SUBSCRIPTION_TYPES chain_parameters filter_parameters : list string).

Lemma asks_ask operation params r l :
  request operation params = Ok r -> l = planned r -> asks (ask gateway operation params) l.
Proof.
  intros Hr -> s a s' [= <- <-]. exists [(operation, params)]. cbn. rewrite Hr, app_nil_r. done.
Qed.
Lemma asks_quoted operation codes params r l :
  request operation params = Ok r -> l = planned r -> asks (quoted gateway operation codes params) l.
Proof. intros Hr Hl. apply asks_last; [by eapply asks_ask|intros a; apply asks_give]. Qed.
Lemma asks_queried operation params r l :
  request operation params = Ok r -> l = planned r -> asks (queried gateway operation params) l.
Proof. intros Hr Hl. apply asks_last; [by eapply asks_ask|intros a; apply asks_give]. Qed.
Lemma asks_page rows (f : list (string * dict) -> val) : asks (fun s => (inl (Page rows (f (m_calls s))), s)) [].
Proof. intros s r' s' [= <- <-]. exists []. by rewrite app_nil_r. Qed.
Lemma asks_reference codes : asks (read_reference q received codes) [snapshot_quota].
Proof.
  intros s r s' H. unfold read_reference in H.
  assert (Hr : is_ok (fst (read_facts q received codes (m_adapter s))) = true -> is_ok (facts_asked q codes) = true).
  { unfold read_facts, se_bind, se_lift. by destruct (facts_asked q codes). }
  destruct (read_facts q received codes (m_adapter s)) as [res a]. destruct (facts_asked q codes) as [[names ctx]|x].
  - injection H as <- <-. exists [("get_market_snapshot", [("code_list", VList (map VStr names))])]. by split_and!.
  - injection H as <- <-. exists []. split_and!; [by rewrite app_nil_r|apply prefix_nil|]. intros l Hl.
    destruct res; [by specialize (Hr eq_refl)|done].
Qed.

(** A method's checks ask for nothing, its call for its own permit. *)
Ltac permit :=
  lazymatch goal with
  | |- asks (md_give _) _ => apply asks_give
  | |- asks (md_ret _) _ => apply asks_ret
  | |- asks (md_lift (Err _)) _ => apply asks_raise
  | |- asks (md_lift _) _ => apply asks_lift
  | |- asks (md_refuse_if _ _) _ => apply asks_refuse
  | |- asks (require_context _) _ => apply asks_refuse
  | |- asks (quoted _ _ _ _) _ => eapply asks_quoted; reflexivity
  | |- asks (queried _ _ _) _ => eapply asks_queried; reflexivity
  | |- asks (ask _ _ _) _ => eapply asks_ask; reflexivity
  | |- asks (read_reference _ _ _) _ => apply asks_reference
  | |- asks (md_bind _ _) _ => first [apply asks_then; [permit|intros; permit] | apply asks_last; [permit|intros; permit]]
  | |- asks (match ?x with _ => _ end) _ => destruct x; permit
  end.

(** What was planned for a method with a budget. *)
Lemma plan_request connected method operation params p :
  lookup_in method MARKET_OPERATIONS = Some operation -> method <> "get_option_volatility" ->
  prepare_market_call KLINE_TYPES ADJUSTMENT_TYPES TRADING_DAY_MARKETS connected method params = Ok p ->
  (operation = "get_market_snapshot" /\ truthy (dget_none "codes" params) = false /\ pl_requests p = [])
  \/ (exists r, request operation params = Ok r /\ pl_requests p = planned r
       /\ (operation = "get_market_snapshot" -> truthy (dget_none "codes" params) = true)).
Proof.
  intros Hl Hm. unfold prepare_market_call. rewrite Hl, (bool_decide_eq_false_2 (method = _)) by done. intros H.
  apply bind_ok in H as ([] & _ & H). apply bind_ok in H as ([] & _ & H). apply bind_ok in H as ([] & _ & H).
  apply bind_ok in H as (empty & He & H). destruct (bool_decide (operation = "get_market_snapshot")) eqn:Eo.
  - apply bool_decide_eq_true in Eo. apply bind_ok in He as (codes & Hc & [= <-]).
    assert (dget_none "codes" params = codes) as ->.
    { unfold ditem in Hc. unfold dget_none. destruct (dget "codes" params); [by injection Hc as ->|done]. }
    destruct (truthy codes) eqn:Et; cbn [negb] in H.
    + right. apply bind_ok in H as ([] & _ & H). apply bind_ok in H as (r & Hr & [= <-]). by exists r.
    + left. by injection H as <-.
  - apply bool_decide_eq_false in Eo. injection He as <-. right. apply bind_ok in H as ([] & _ & H).
    apply bind_ok in H as (r & Hr & [= <-]). by exists r.
Qed.

Lemma exact_codes_some codes l : validate_codes codes = Ok l -> truthy codes = true.
Proof.
  unfold validate_codes. destruct codes as [| | | | |[|v l']|]; done.
Qed.

Lemma ditem_none k params v : ditem k params = Ok v -> dget_none k params = v.
Proof. unfold ditem, dget_none. destruct (dget k params); [by intros [= ->]|done]. Qed.

Lemma plan_codes connected method operation params p :
  lookup_in method MARKET_OPERATIONS = Some operation -> mem method ["get_market_snapshot_evidence"; "get_instrument_facts"] = true ->
  prepare_market_call KLINE_TYPES ADJUSTMENT_TYPES TRADING_DAY_MARKETS connected method params = Ok p ->
  truthy (dget_none "codes" params) = true.
Proof.
  intros Hl Hm. unfold prepare_market_call. rewrite Hl, Hm. intros H. apply bind_ok in H as ([] & _ & H).
  apply bind_ok in H as ([] & Hc & _). apply bind_ok in Hc as (codes & Hc & Hv). apply ditem_none in Hc as ->.
  apply bind_ok in Hv as (l & Hv & _). by eapply exact_codes_some.
Qed.

Lemma asks_volatility code period hv_days limit :
  asks (get_option_volatility gateway q received container_text callable period_number code period hv_days limit)
    [snapshot_quota; gateway_quota "get_option_volatility"].
Proof.
  unfold get_option_volatility, one_code, exact_codes, row_limit, cut_evidence, _read.
  do 4 (apply asks_then; [permit|intros]). destruct (period_number _) as [n|]; [|apply asks_raise].
  apply (asks_bind _ _ [snapshot_quota]); [permit|intros]. permit.
Qed.

Lemma asks_snapshot_evidence codes :
  asks (get_market_snapshot_evidence gateway q container_text callable codes) [snapshot_quota].
Proof. unfold get_market_snapshot_evidence, exact_codes, _read. permit. Qed.
Lemma asks_facts codes : asks (get_instrument_facts q received stamps container_text codes) [snapshot_quota].
Proof. unfold get_instrument_facts, exact_codes. permit. Qed.

(** The rest of the methods. *)
Ltac methods :=
  unfold get_subscriptions, unsubscribe, get_stock_quote, get_order_book, get_market_state, get_option_chain, _validate_option_chain,
    _option_filters, _query_option_chain, subscribe, cleaned_codes, get_historical_klines, validate_candle_filters, get_option_expiration_date,
    get_market_snapshot, get_trading_days, get_user_security_group, get_user_security, quoted_records, queried_records, get_rehab,
    get_corporate_actions_dividends, get_earnings_calendar, get_history_kl_quota, one_code, exact_codes, row_limit, cut_evidence, _read.

Lemma request_page params :
  request "request_history_kline" params
  = Ok (if truthy (dget_none "page_req_key" params) then None else Some (gateway_quota "request_history_kline")).
Proof.
  unfold request. replace (mem _ _) with false by reflexivity.
  replace (operation_policy _) with (Ok (Dispatch.when InitialPage (pol 60 Gateway)) : result OperationPolicy) by reflexivity.
  cbn [bind op_condition op_scope Dispatch.when pol]. by destruct (truthy _).
Qed.

Lemma asks_page_of params :
  asks (get_historical_klines_page gateway page_key q sdk_name KLINE_TYPES ADJUSTMENT_TYPES (dget_none "code" params)
          (dget_none "ktype" params) (dget_none "start" params) (dget_none "end" params) (dget_none "max_count" params)
          (dget_none "autype" params) (dget_none "page_req_key" params))
    (planned (if truthy (dget_none "page_req_key" params) then None else Some (gateway_quota "request_history_kline"))).
Proof.
  unfold get_historical_klines_page, validate_candle_filters. apply asks_then; [permit|intros _]. apply asks_then; [permit|intros filters].
  apply asks_last; [|intros d; apply asks_then; [permit|intros rows; exact (asks_page rows (fun calls => page_key calls _))]].
  eapply asks_quoted; [apply request_page|done].
Qed.

(** The one permit planned for a method of the gateway's. *)
Ltac gateway_plan operation :=
  match goal with Hp : prepare_market_call _ _ _ _ _ _ = Ok _ |- _ =>
    apply (plan_request _ _ operation) in Hp as [(? & _)|(r & Hr & -> & _)]; [done| |done|done]
  end.

Lemma plan_volatility connected params p :
  prepare_market_call KLINE_TYPES ADJUSTMENT_TYPES TRADING_DAY_MARKETS connected "get_option_volatility" params = Ok p ->
  pl_requests p = [snapshot_quota; gateway_quota "get_option_volatility"].
Proof.
  intros H. unfold prepare_market_call in H. cbn [lookup_in] in H.
  replace (lookup_in "get_option_volatility" MARKET_OPERATIONS) with (Some "get_option_volatility") in H by reflexivity.
  apply bind_ok in H as ([] & _ & H). apply bind_ok in H as ([] & _ & H). apply bind_ok in H as ([] & _ & H). by injection H as <-.
Qed.

Ltac snapshot_plan :=
  lazymatch goal with Hp : prepare_market_call _ _ _ _ ?method _ = Ok _ |- _ =>
    assert (Hc := plan_codes _ method "get_market_snapshot" _ _ eq_refl eq_refl Hp);
    apply (plan_request _ _ "get_market_snapshot") in Hp as [(_ & Ht & _)|(r & Hr & -> & _)]; [congruence| |done|done];
    injection Hr as <-
  end.

Lemma asks_planned method params plan :
  (method = "get_historical_klines" -> dget_none "page_req_key" params = VNone) ->
  market_plan q KLINE_TYPES ADJUSTMENT_TYPES TRADING_DAY_MARKETS method params = Ok plan ->
  asks (market_call gateway page_key q received stamps container_text sdk_name callable period_number KLINE_TYPES ADJUSTMENT_TYPES
          TRADING_DAY_MARKETS SUBSCRIPTION_TYPES chain_parameters filter_parameters method params) plan.
Proof.
  intros Hk Hp. unfold market_plan in Hp. unfold market_call.
  repeat match goal with |- asks (if bool_decide (method = ?name) then _ else _) _ =>
    let E := fresh "E" in destruct (bool_decide (method = name)) eqn:E; [apply bool_decide_eq_true in E; subst method|clear E] end.
  all: try (apply bind_ok in Hp as (p & Hp & [= <-])).
  all: try (change (Ok no_plan = Ok p) in Hp; injection Hp as <-; cbn [pl_requests no_plan]).
  - methods. permit.
  - methods. permit.
  - methods. permit.
  - methods. permit.
  - methods. permit.
  - gateway_plan "request_history_kline". methods. rewrite request_page, Hk in Hr by done. injection Hr as <-. cbn [truthy]. permit.
  - gateway_plan "request_history_kline". rewrite request_page in Hr. injection Hr as <-. apply asks_page_of.
  - gateway_plan "get_option_expiration_date". methods. injection Hr as <-. permit.
  - injection Hp as <-. methods. permit.
  - apply (plan_request _ _ "get_market_snapshot") in Hp; [|done|done]. unfold get_market_snapshot. apply asks_then; [permit|intros _].
    destruct Hp as [(_ & Ht & ->)|(r & Hr & -> & Ht)]; rewrite Ht by done; cbn [negb]; [permit|].
    injection Hr as <-. methods. permit.
  - gateway_plan "get_market_state". methods. injection Hr as <-. permit.
  - gateway_plan "request_trading_days". methods. injection Hr as <-. permit.
  - gateway_plan "get_user_security_group". methods. injection Hr as <-. permit.
  - gateway_plan "get_user_security". methods. injection Hr as <-. permit.
  - snapshot_plan. apply asks_snapshot_evidence.
  - snapshot_plan. apply asks_facts.
  - methods. permit.
  - gateway_plan "get_rehab". methods. injection Hr as <-. permit.
  - gateway_plan "get_corporate_actions_dividends". methods. injection Hr as <-. permit.
  - gateway_plan "get_earnings_calendar". methods. injection Hr as <-. permit.
  - rewrite (plan_volatility _ _ _ Hp). apply asks_volatility.
  - apply asks_raise.
Qed.
End permits.

(** ** What a method makes of the answers *)

Section answers.
Context (gateway : list (string * dict) -> string -> dict -> sdk_answer).

(** Every one of the calls was answered with data. *)
Fixpoint all_gave (before calls : list (string * dict)) : Prop :=
  match calls with
  | [] => True
  | c :: l => (exists d, gateway before (fst c) (snd c) = Gave d) /\ all_gave (before ++ [c]) l
  end.

(** The exception an answer without data becomes. *)
Definition becomes (operation : string) (a : sdk_answer) (c : cause) : Prop :=
  match a with
  | Gave _ => False
  | Declined _ => exists codes, quote_reply operation codes a = inr c
  | Burst e => c = Known e
  | Misshapen _ => exists e, c = Known e
  end.

(** A method returns only on data, and an answer without data is its last call
    and its exception. *)
Definition heeds {A} (m : MD A) : Prop :=
  forall s r s', m s = (r, s') -> exists calls, m_calls s' = m_calls s ++ calls
    /\ match r with
       | inl _ => all_gave (m_calls s) calls
       | inr c => all_gave (m_calls s) calls
                  \/ exists front operation params, calls = front ++ [(operation, params)] /\ all_gave (m_calls s) front
                       /\ becomes operation (gateway (m_calls s ++ front) operation params) c
       end.

Lemma all_gave_app before l l' : all_gave before (l ++ l') <-> all_gave before l /\ all_gave (before ++ l) l'.
Proof.
  revert before. induction l as [|c l IH]; intros before; cbn; [by rewrite app_nil_r; naive_solver|].
  rewrite IH, <- app_assoc. naive_solver.
Qed.

Lemma heeds_give {A} (r : A + cause) : heeds (md_give r).
Proof. intros s r' s' [= <- <-]. exists []. rewrite app_nil_r. destruct r; split; [done|done|done|by left]. Qed.
Lemma heeds_lift {A} (r : result A) : heeds (md_lift r).
Proof. intros s r' s' [= <- <-]. exists []. rewrite app_nil_r. destruct r; split; [done|done|done|by left]. Qed.
Lemma heeds_ret {A} (a : A) : heeds (md_ret a).
Proof. apply (heeds_give (inl a)). Qed.
Lemma heeds_bind {A B} (m : MD A) (k : A -> MD B) : heeds m -> (forall a, heeds (k a)) -> heeds (md_bind m k).
Proof.
  intros Hm Hk s r s' H. unfold md_bind in H. destruct (m s) as [[a|c] s1] eqn:E.
  - destruct (Hm _ _ _ E) as (c1 & Hc1 & Hg). destruct (Hk _ _ _ _ H) as (c2 & Hc2 & Hr). rewrite Hc1 in Hc2, Hr.
    exists (c1 ++ c2). rewrite Hc2, app_assoc. split; [done|]. destruct r as [b|c].
    + by apply all_gave_app.
    + destruct Hr as [Hr|(front & op & params & -> & Hf & Hb)]; [left; by apply all_gave_app|right].
      exists (c1 ++ front), op, params. rewrite <- !app_assoc in *. split_and!; [done|by apply all_gave_app|done].
  - injection H as <- <-. by apply (Hm _ _ _ E).
Qed.
Lemma heeds_quoted operation codes params : heeds (quoted gateway operation codes params).
Proof.
  intros s r s' [= <- <-]. exists [(operation, params)]. split; [done|].
  set (a := gateway (m_calls s) operation params). assert (Ha : gateway (m_calls s) operation params = a) by done.
  destruct a as [e|e|m|d]; cbn [quote_reply].
  3: destruct (raise_quote_error operation m codes) as [d|e] eqn:Em.
  all: try (right; exists [], operation, params; rewrite app_nil_r, Ha; split_and!; [done|done|]; cbn).
  - done.
  - by exists e.
  - exists codes. by rewrite Em.
  - exists codes. by rewrite Em.
  - split; [by exists d|done].
Qed.
Lemma heeds_read q callable operation params : heeds (_read gateway q callable operation params).
Proof.
  apply heeds_bind; [apply heeds_lift|intros _]. apply heeds_bind; [apply heeds_lift|intros _]. apply heeds_bind; [apply heeds_lift|intros _].
  set (codes := code_list _). intros s r s' H. unfold md_bind, ask in H. destruct (gateway _ _ _) as [e|e|m|d] eqn:E.
  2: { injection H as <- <-. exists [(operation, params)]. split; [done|]. right. exists [], operation, params.
       rewrite app_nil_r, E. split_and!; [done|done|by eexists]. }
  all: apply (heeds_quoted operation codes params); rewrite <- H; unfold quoted, md_bind, ask; by rewrite E.
Qed.
End answers.

(** ** Tools *)

(** The tools that are one method whose every call tells denials apart. *)
Definition QUOTED_METHODS : list string :=
  ["get_stock_quote"; "get_order_book"; "get_historical_klines"; "get_option_expiration_date";
   "get_market_snapshot"; "get_market_snapshot_evidence"; "get_history_kl_quota"; "get_rehab";
   "get_corporate_actions_dividends"; "get_earnings_calendar"].

(** A message that denies quote rights. *)
Definition denies (message : val) : bool :=
  match message with VStr m => existsb (fun marker => has marker (flat (casefold m))) DENIALS | _ => false end.

Lemma denies_denied operation m codes :
  denies m = true -> exists d, raise_quote_error operation m codes = inl d /\ qd_requested d = codes.
Proof. unfold denies, raise_quote_error. destruct m as [| | | |s| |]; try done. intros ->. by eexists. Qed.
Lemma denies_not operation m codes :
  denies m = false -> raise_quote_error operation m codes = inr (RuntimeError (operation ++ " failed: " ++ py_str m)).
Proof. unfold denies, raise_quote_error. destruct m as [| | | |s| |]; try done. by intros ->. Qed.

Lemma md_bind_inl {A B} (m : MD A) (k : A -> MD B) s b s' :
  md_bind m k s = (inl b, s') -> exists a s1, m s = (inl a, s1) /\ k a s1 = (inl b, s').
Proof. unfold md_bind. destruct (m s) as [[a|c] s1]; [|done]. intros H. by exists a, s1. Qed.
Lemma lift_inl {A} (r : result A) s a s' : md_lift r s = (inl a, s') -> r = Ok a /\ s' = s.
Proof. unfold md_lift. destruct r; [|done]. by intros [= -> ->]. Qed.
Lemma read_inl gateway q callable operation params s d s' :
  _read gateway q callable operation params s = (inl d, s') ->
  gateway (m_calls s) operation params = Gave d /\ s' = logged (operation, params) s.
Proof.
  unfold _read. intros H. do 3 (apply md_bind_inl in H as ([] & ? & Hx & H); apply lift_inl in Hx as [_ ->]).
  apply md_bind_inl in H as (a & s1 & [= <- <-] & H). destruct (gateway _ _ _) as [e|e|m|d']; cbn in H; try done.
  - by destruct (raise_quote_error _ _ _).
  - by injection H as -> <-.
Qed.

Lemma exact_codes_any codes wanted : validate_codes codes = Ok wanted -> wanted <> [].
Proof.
  unfold validate_codes. destruct codes as [| | | | |[|v l]|]; try done. intros H -> . apply bind_ok in H as ([] & _ & H).
  apply bind_ok in H as (l' & Hl & H). apply bind_ok in H as ([] & _ & [= ->]). by apply mapM_ok_length in Hl.
Qed.
Lemma reference_code received snapshots found code r : reference_of received snapshots found code = Ok r -> rf_code r = code.
Proof. unfold reference_of. intros H. by apply bind_ok in H as (facts & _ & [= <-]). Qed.
Lemma read_facts_codes q received codes a facts a' :
  read_facts q received codes a = (Ok facts, a') -> exists wanted, validate_codes codes = Ok wanted /\ map rf_code facts = wanted.
Proof.
  unfold read_facts. intros H. apply se_bind_ok in H as ([wanted ctx] & s1 & Hw & H). unfold se_lift in Hw. injection Hw as Hw <-.
  unfold facts_asked in Hw. apply bind_ok in Hw as (names & Hw & Hc). destruct (qa_context q); [|done]. injection Hc as -> _. apply se_bind_ok in H as (snaps & s2 & _ & H). apply se_bind_ok in H as (found & s3 & _ & H).
  unfold se_lift in H. injection H as H <-. exists wanted. split; [done|]. apply mapM_Forall2 in H. clear Hw.
  induction H as [|c r l l' Hr _ IH]; [done|]. cbn. f_equal; [by apply reference_code in Hr|exact IH].
Qed.

Section tools.
Context {TX : Texts}.
Context (gateway : list (string * dict) -> string -> dict -> sdk_answer) (page_key : list (string * dict) -> dict -> val).
Context (q : quotes) (received : string) (stamps : reference -> dict) (container_text : val -> string).
Context (sdk_name : string -> string -> val) (callable : string -> bool) (period_number : string -> option Z).
Context (KLINE_TYPES ADJUSTMENT_TYPES TRADING_DAY_MARKETS SUBSCRIPTION_TYPES chain_parameters filter_parameters : list string).

Definition method_call : string -> dict -> MD market_reply :=
  market_call gateway page_key q received stamps container_text sdk_name callable period_number KLINE_TYPES ADJUSTMENT_TYPES
    TRADING_DAY_MARKETS SUBSCRIPTION_TYPES chain_parameters filter_parameters.

(** A market data tool, once its permits are granted: the method, and the model
    its answer is checked against. *)
Definition market_tool (convert : market_reply -> val + string * list issue) (t : tool) (kwargs : dict)
    : market -> option (val + list cause) * market := fun s =>
  match method_call (tl_name t) kwargs s with
  | (inl r, s) => (Some (match convert r with inl v => inl v | inr (title, issues) => inr [Invalid title issues] end), s)
  | (inr c, s) => (Some (inr [c]), s)
  end.

Ltac heed :=
  lazymatch goal with
  | |- heeds _ (md_give _) => apply heeds_give
  | |- heeds _ (md_ret _) => apply heeds_ret
  | |- heeds _ (md_lift _) => apply heeds_lift
  | |- heeds _ (md_refuse_if _ _) => apply heeds_lift
  | |- heeds _ (require_context _) => apply heeds_lift
  | |- heeds _ (quoted _ _ _ _) => apply heeds_quoted
  | |- heeds _ (_read _ _ _ _ _) => apply heeds_read
  | |- heeds _ (md_bind _ _) => apply heeds_bind; [heed|intros; heed]
  | |- heeds _ (match ?x with _ => _ end) => destruct x; heed
  end.

Ltac pick := repeat match goal with |- context [if ?b then _ else _] =>
  lazymatch b with bool_decide (?x = ?y :> string) => let v := eval vm_compute in b in change b with v; cbv iota end end.

Lemma quoted_heeds method params : mem method QUOTED_METHODS = true -> heeds gateway (method_call method params).
Proof.
  intros Hm. unfold mem in Hm. apply bool_decide_eq_true in Hm. unfold QUOTED_METHODS in Hm.
  repeat (apply elem_of_cons in Hm as [->|Hm]; [unfold method_call, market_call; pick; clear|]); [..|by apply elem_of_nil in Hm].
  all: unfold get_stock_quote, get_order_book, get_historical_klines, get_option_expiration_date, get_option_chain, get_market_snapshot,
    get_market_snapshot_evidence, get_history_kl_quota, get_rehab, get_corporate_actions_dividends, get_earnings_calendar, subscribe,
    validate_candle_filters, _validate_option_chain, _option_filters, _query_option_chain, quoted_records, one_code, exact_codes,
    row_limit, cut_evidence; heed.
Qed.

(** What a refusal is reported as. *)
Lemma declined_report t operation m c :
  tl_consequential t = false -> becomes operation (Declined m) c ->
  let p := tool_error_result t false "" [c] in
  p_retryable p = false /\ p_mutation p = None /\ (denies m = true -> p_code p = "QUOTE_PERMISSION_DENIED").
Proof.
  intros Ht (codes & Hc). cbn in Hc. destruct (denies m) eqn:Em.
  - destruct (denies_denied operation m codes Em) as (d & Hd & _). rewrite Hd in Hc. injection Hc as <-.
    unfold tool_error_result. cbn. by rewrite Ht.
  - rewrite denies_not in Hc by done. injection Hc as <-.
    set (e := RuntimeError _). unfold tool_error_result. cbn [outcome_cause unsent_cause]. cbn. rewrite Ht.
    pose proof (failed_read_plain t (Known e)) as [Hm Hr]. cbn. destruct (negb _); cbn; by rewrite Hm, Hr.
Qed.

(** C40 Reads stay within their permits.  Whatever the gateway answers, the permits
    that the calls of a planned market data method need are, in order, among
    those planned for it, so no call inside it waits for a budget that was not
    reserved; and when the method returns, they are exactly those. *)
Theorem reads_within_plan method params plan s r s' :
  (method = "get_historical_klines" -> dget_none "page_req_key" params = VNone) ->
  market_plan q KLINE_TYPES ADJUSTMENT_TYPES TRADING_DAY_MARKETS method params = Ok plan ->
  method_call method params s = (r, s') ->
  exists calls, m_calls s' = m_calls s ++ calls
    /\ permits calls `prefix_of` plan /\ (forall a, r = inl a -> permits calls = plan).
Proof.
  intros Hk Hp H.
  by apply (asks_planned gateway page_key q received stamps container_text sdk_name callable period_number _ _ _ _ _ _ _ _ _ Hk Hp _ _ _ H).
Qed.

(** A tool tells what the gateway told.  A quote tool's success rests on calls
    that were all answered with data; a call that was refused is its last, and
    the client is shown an error that invites no repetition and claims no
    mutation, which for a message that denies quote rights is
    QUOTE_PERMISSION_DENIED. *)
Theorem market_tool_told g tools validate convert name t arguments s a s' :
  tools name = Some t -> tl_name t = name -> tl_consequential t = false -> mem name QUOTED_METHODS = true ->
  _call_tool_with_errors g tools validate (market_tool convert) name arguments s = (a, s') ->
  exists calls, m_calls s' = m_calls s ++ calls
    /\ (forall v, a = Some (Success v) -> all_gave gateway (m_calls s) calls)
    /\ (forall front operation params back message,
          calls = front ++ (operation, params) :: back ->
          gateway (m_calls s ++ front) operation params = Declined message ->
          back = [] /\ all_gave gateway (m_calls s) front
          /\ exists p, a = Some (Failure p) /\ p_retryable p = false /\ p_mutation p = None
               /\ (denies message = true -> p_code p = "QUOTE_PERMISSION_DENIED")).
Proof.
  intros Ht Hn Hc Hm H.
  assert (Hnone : forall b, (forall v, b <> Some (Success v)) -> (b, s) = (a, s') -> exists calls, m_calls s' = m_calls s ++ calls
    /\ (forall v, a = Some (Success v) -> all_gave gateway (m_calls s) calls)
    /\ (forall front operation params back message, calls = front ++ (operation, params) :: back ->
          gateway (m_calls s ++ front) operation params = Declined message ->
          back = [] /\ all_gave gateway (m_calls s) front
          /\ exists p, a = Some (Failure p) /\ p_retryable p = false /\ p_mutation p = None
               /\ (denies message = true -> p_code p = "QUOTE_PERMISSION_DENIED"))).
  { intros b Hb [= <- <-]. exists []. rewrite app_nil_r. split_and!; [done|by intros v Hv; apply Hb in Hv|].
    intros front ? ? ? ? Hl. by destruct front. }
  unfold _call_tool_with_errors in H. rewrite Ht in H.
  destruct (authorize_tool g name arguments (tl_environment t)) as [u|e]; [|destruct e; by apply Hnone in H].
  destruct (validate t arguments) as [kwargs|issues]; [|by apply Hnone in H]. clear Hnone.
  unfold market_tool in H. rewrite Hn in H. destruct (method_call name kwargs s) as [r s1] eqn:E.
  destruct (quoted_heeds name kwargs Hm _ _ _ E) as (calls & Hcalls & Hr). destruct r as [v|c].
  - injection H as <- <-. exists calls. split; [done|]. split; [done|]. intros front op params back m -> Hg. exfalso.
    apply all_gave_app in Hr as [_ [[d Hd] _]]. cbn in Hd. congruence.
  - injection H as <- <-. exists calls. split; [done|]. split; [done|]. intros front op params back m Hl Hg.
    destruct Hr as [Hr|(front' & op' & params' & Hl' & Hf & Hb)].
    { rewrite Hl in Hr. apply all_gave_app in Hr as [_ [[d Hd] _]]. cbn in Hd. congruence. }
    assert (Hback : back = []).
    { destruct back as [|x l _] using rev_ind; [done|]. exfalso. rewrite Hl in Hl'. rewrite app_comm_cons, app_assoc in Hl'.
      apply app_inj_tail in Hl' as [<- _]. apply all_gave_app in Hf as [_ [[d Hd] _]]. cbn in Hd. congruence. }
    subst back. rewrite Hl in Hl'. apply app_inj_tail in Hl' as [-> [= -> ->]]. split; [done|]. split; [done|].
    rewrite Hg in Hb. destruct (declined_report t op' m c Hc Hb) as (H1 & H2 & H3). by eexists.
Qed.
End tools.

Section evidence_theorem.
Context (gateway : list (string * dict) -> string -> dict -> sdk_answer) (q : quotes) (received : string).
Context (stamps : reference -> dict) (container_text : val -> string) (callable : string -> bool).

(** What is called complete is complete.  A snapshot of exact codes makes the one
    call for them and hands over the gateway's rows, one a code and none
    unasked, and calls the response complete exactly when each code has its
    row; the reference facts are called complete exactly when both sources
    were present for each code, and name those that lacked one. *)
Theorem market_evidence_exact codes s e s' :
  (get_market_snapshot_evidence gateway q container_text callable codes s = (inl (Evidence e), s') ->
   exists wanted columns rows, validate_codes codes = Ok wanted
     /\ m_calls s' = m_calls s ++ [("get_market_snapshot", [("code_list", codes)])]
     /\ gateway (m_calls s) "get_market_snapshot" [("code_list", codes)] = Gave (Frame columns rows)
     /\ Forall2 (fun row p => raw_of row = Ok p) rows (ev_data e)
     /\ NoDup (omap (identifier container_text "code") (ev_data e))
     /\ (forall c, c ∈ omap (identifier container_text "code") (ev_data e) -> c ∈ wanted)
     /\ (ev_complete e = true <-> forall c, c ∈ wanted -> exists row, row ∈ ev_data e /\ identifier container_text "code" row = Some c))
  /\ (get_instrument_facts q received stamps container_text codes s = (inl (Evidence e), s') ->
      exists wanted facts, validate_codes codes = Ok wanted /\ fst (read_facts q received codes (m_adapter s)) = Ok facts
        /\ map rf_code facts = wanted
        /\ (forall c, c ∈ ev_missing e <-> exists r, r ∈ facts /\ rf_code r = c /\ half_known r = true)
        /\ (ev_complete e = true <-> forall r, r ∈ facts -> rf_snapshot_present r = true /\ rf_reference_present r = true)).
Proof.
  split.
  - intros H. unfold get_market_snapshot_evidence in H. apply md_bind_inl in H as (wanted & s1 & Hw & H).
    apply lift_inl in Hw as [Hw ->]. apply md_bind_inl in H as (d & s2 & Hd & H). apply md_bind_inl in H as (rows & s3 & Hr & H).
    injection Hr as Hr <-. apply md_bind_inl in H as (e' & s4 & He & [= -> <-]). apply lift_inl in He as [He ->].
    apply read_inl in Hd as (Hd & ->). 
    assert (Hf : exists columns, d = Frame columns rows /\ Z.of_nat (length rows) <= MAX_DATA_ROWS).
    { destruct d as [columns rows'| |]; try done. cbn in Hr. destruct (_ <? _) eqn:El; [done|].
      assert (rows' = rows) as -> by (destruct rows', columns; congruence). exists columns. split; [done|lia]. }
    destruct Hf as (columns & -> & Hlen). apply evidence_ok in He as (plain & Hp & Hn & _ & Hcov); [|done].
    destruct Hcov as [Hdata _ Honce Hasked Hmiss _ Htr Hcomp].
    assert (Hall : ev_data e = plain) by (rewrite Hdata; apply take_ge; lia).
    assert (Htrf : ev_truncated e = false) by (destruct (ev_truncated e); [|done]; by apply Htr in Hall).
    rewrite Hall in *. exists wanted, columns, rows. split_and!; try done.
    + intros c Hc. apply Hasked; [|done]. intros ->. by apply exact_codes_any in Hw.
    + rewrite Hcomp, Htrf. naive_solver.
  - intros H. unfold get_instrument_facts in H. apply md_bind_inl in H as (wanted & s1 & Hw & H).
    apply lift_inl in Hw as [Hw ->]. apply md_bind_inl in H as (facts & s2 & Hf & H). unfold read_reference in Hf.
    destruct (read_facts q received codes (m_adapter s)) as [[l|x] a] eqn:E; [|done]. injection Hf as -> _.
    apply md_bind_inl in H as (e' & s3 & _ & [= <- _]). destruct (read_facts_codes _ _ _ _ _ _ E) as (w & Hw' & Hc).
    assert (w = wanted) as -> by congruence. exists wanted, facts. cbn [ev_missing ev_complete with_missing].
    assert (Hm : forall c, c ∈ map rf_code (List.filter half_known facts) <-> exists r, r ∈ facts /\ rf_code r = c /\ half_known r = true).
    { intros c. rewrite list_elem_of_fmap. setoid_rewrite filter_elem. naive_solver. }
    split_and!; try done. split.
    + intros Hnone r Hr. destruct (List.filter half_known facts) as [|x l] eqn:Ef; [|done].
      destruct (half_known r) eqn:Eh; [|unfold half_known in Eh; by destruct (rf_snapshot_present r), (rf_reference_present r)].
      assert (Hx : r ∈ @nil reference) by (rewrite <- Ef; by apply filter_elem). by apply elem_of_nil in Hx.
    + intros Hall. destruct (List.filter half_known facts) as [|x l] eqn:Ef; [done|]. exfalso.
      assert (Hx : x ∈ List.filter half_known facts) by (rewrite Ef; by left). apply filter_elem in Hx as [Hx Hh].
      destruct (Hall x Hx) as [H1 H2]. unfold half_known in Hh. by rewrite H1, H2 in Hh.
Qed.
End evidence_theorem.

(** ** Examples *)

(** A gateway that knows one share and denies its quotes. *)
Definition demo_gateway (before : list (string * dict)) (operation : string) (params : dict) : sdk_answer :=
  if bool_decide (operation = "get_stock_quote") then Declined (VStr "No permission to get quotes for us.aapl. Please buy it.")
  else if bool_decide (operation = "get_market_snapshot") then Gave (Frame ["code"; "last_price"] [[("code", VStr "US.AAPL")]])
  else Gave (Frame ["market_state"] [[("market_state", VStr "CLOSED")]]).
Definition demo_market : market := {| m_calls := []; m_adapter := demo_wired |}.
Definition demo_call_of : string -> dict -> MD market_reply :=
  method_call demo_gateway (fun _ _ => VNone) demo_first "" (fun _ => []) (fun _ => "") (fun _ name => VStr name) (fun _ => true)
    (fun _ => None) ["K_DAY"] ["QFQ"] ["US"] ["QUOTE"] [] [].
Definition two_codes : dict := [("codes", VList [VStr "US.AAPL"; VStr "US.MSFT"])].

Example market_ex :
  match demo_call_of "get_market_snapshot_evidence" two_codes demo_market with
  | (inl (Evidence e), s) => (ev_returned e, ev_missing e, ev_complete e) = (["US.AAPL"], ["US.MSFT"], false) /\ length (m_calls s) = 1%nat
  | _ => False
  end
  /\ match demo_call_of "get_stock_quote" two_codes demo_market with
     | (inr (Denied d), s) => qd_denied d = ["US.AAPL"] /\ map fst (m_calls s) = ["subscribe"; "get_stock_quote"]
     | _ => False
     end
  /\ map fst (m_calls (snd (demo_call_of "get_market_state" [("codes", VList [VStr " "])] demo_market))) = [].
Proof. vm_compute. done. Qed.

Definition state_calls : list (string * dict) := m_calls (snd (demo_call_of "get_market_state" two_codes demo_market)).
Lemma reads_within_plan_witness :
  exists calls, state_calls = [] ++ calls
    /\ permits calls `prefix_of` [gateway_quota "get_market_state"]
    /\ (forall a, fst (demo_call_of "get_market_state" two_codes demo_market) = inl a -> permits calls = [gateway_quota "get_market_state"]).
Proof.
  exact (reads_within_plan demo_gateway (fun _ _ => VNone) demo_first "" (fun _ => []) (fun _ => "") (fun _ name => VStr name)
           (fun _ => true) (fun _ => None) ["K_DAY"] ["QFQ"] ["US"] ["QUOTE"] [] [] "get_market_state" two_codes
           [gateway_quota "get_market_state"] demo_market (fst (demo_call_of "get_market_state" two_codes demo_market))
           (snd (demo_call_of "get_market_state" two_codes demo_market))
           (fun H => match Bool.diff_true_false (eq_trans (eq_sym (bool_decide_eq_true_2 _ H)) eq_refl) with end) eq_refl
           (surjective_pairing _)).
Defined.

Definition quote_tool : tool :=
  {| tl_name := "get_stock_quote"; tl_model := "get_stock_quoteArguments"; tl_consequential := false; tl_read_only := false;
     tl_environment := VNone |}.
Definition quote_tools (name : string) : option tool := if bool_decide (name = "get_stock_quote") then Some quote_tool else None.
Definition quote_shown : option shown * market :=
  _call_tool_with_errors (TX := fun _ => "") None quote_tools (fun _ a => inl a)
    (market_tool demo_gateway (fun _ _ => VNone) demo_first "" (fun _ => []) (fun _ => "") (fun _ name => VStr name) (fun _ => true)
       (fun _ => None) ["K_DAY"] ["QFQ"] ["US"] ["QUOTE"] [] [] (fun _ => inl VNone))
    "get_stock_quote" two_codes demo_market.

Lemma market_tool_told_witness : exists calls, m_calls (snd quote_shown) = [] ++ calls
  /\ (forall v, fst quote_shown = Some (Success v) -> all_gave demo_gateway [] calls).
Proof.
  destruct (market_tool_told (TX := fun _ => "") demo_gateway (fun _ _ => VNone) demo_first "" (fun _ => []) (fun _ => "")
    (fun _ name => VStr name) (fun _ => true) (fun _ => None) ["K_DAY"] ["QFQ"] ["US"] ["QUOTE"] [] [] None quote_tools
    (fun _ a => inl a) (fun _ => inl VNone) "get_stock_quote" quote_tool two_codes demo_market (fst quote_shown) (snd quote_shown)
    eq_refl eq_refl eq_refl eq_refl (surjective_pairing _)) as (calls & Hc & Hs & _).
  exists calls. split; [exact Hc|exact Hs].
Defined.

Definition snapshot_shown : (market_reply + cause) * market :=
  get_market_snapshot_evidence demo_gateway demo_first (fun _ => "") (fun _ => true) (VList [VStr "US.AAPL"]) demo_market.
Definition snapshot_evidence : data_evidence :=
  match fst snapshot_shown with inl (Evidence e) => e | _ => {| ev_method := ""; ev_scope := []; ev_requested := [];
    ev_returned := []; ev_missing := []; ev_complete := false; ev_truncated := false; ev_total := 0; ev_errors := []; ev_data := [] |} end.
Lemma market_evidence_exact_witness : exists wanted columns rows, validate_codes (VList [VStr "US.AAPL"]) = Ok wanted
  /\ demo_gateway [] "get_market_snapshot" [("code_list", VList [VStr "US.AAPL"])] = Gave (Frame columns rows)
  /\ (ev_complete snapshot_evidence = true <->
      forall c, c ∈ wanted -> exists row, row ∈ ev_data snapshot_evidence /\ identifier (fun _ => "") "code" row = Some c).
Proof.
  destruct (proj1 (market_evidence_exact demo_gateway demo_first "" (fun _ => []) (fun _ => "") (fun _ => true) (VList [VStr "US.AAPL"])
    demo_market snapshot_evidence (snd snapshot_shown)) eq_refl) as (wanted & columns & rows & Hw & _ & Hg & _ & _ & _ & Hc).
  exists wanted, columns, rows. split; [exact Hw|]. split; [exact Hg|exact Hc].
Defined.
