(* ===== verification/Http.v ===== *)
(** server.py: who a request comes from, and what an operator may do over HTTP.
    [dispatch] is the bearer check in front of every route, [operator_approval]
    and [operator_pause] are the operator's routes over Controls, and
    [tool_request] is a tool call behind the check, inside Agent's boundary.

    Reading a request is the framework's: its headers, the two paths it is known
    by, the sizes of its body's chunks and the text they decode to are the
    request.  The host check of the MCP library is an argument. *)

From S2P Require Import Prelude PyStr PyFloat PyDec PyVal DecText ClientAuth JsonParse Policy Rules Prep Controls Settings Agent.

#[local] Open Scope list_scope.

(** ** Requests and answers *)

(** What the router makes of the path and the method. *)
Inductive routed : Type := Approval (request_id : string) | Execution (trd_env : string) | Elsewhere.
(** [rq_url] is the path [request.url] gives. *)
Record request : Type := {
  rq_method : string; rq_url : string; rq_routed : routed; rq_authorization : list string;
  rq_account : option string; rq_chunks : list Z; rq_text : option string }.

Inductive response : Type :=
  | Status (code : Z)
  | Reviewed (row : prepared) (shows : Controls.shown)
  | Resolved (row : prepared)
  | PauseState (paused : bool)
  | Framework                     (* the router's or the host check's own answer *)
  | Crashed (e : exn).

(** ** The application *)

Record app : Type := {
  ap_token : string; ap_operator_token : string; ap_operator_id : string; ap_restricted_token : string;
  ap_grants : ClientGrants; ap_operator_routes : bool }.

Definition default_grants : ClientGrants :=
  {| g_permissions := DEFAULT_RESTRICTED_PERMISSIONS; g_real := None; g_simulate := None |}.

(** [create_streamable_http_app] *)
Definition create_streamable_http_app (auth_token operator_auth_token operator_id restricted_auth_token : string)
    (restricted_grants : option ClientGrants) : result app :=
  let token := strip auth_token in
  (_ <- refuse_if (nonempty restricted_auth_token
                   && (negb (nonempty token) || mem restricted_auth_token [token; operator_auth_token]
                       || negb (token_text restricted_auth_token)))
          (TradingModeConfigError "Restricted client authentication requires a distinct ASCII credential") ;;
   _ <- refuse_if (nonempty operator_auth_token
                   && (negb (nonempty token) || bool_decide (operator_auth_token = token) || negb (nonempty (strip operator_id))
                       || negb (token_text operator_auth_token) || (128 <? len operator_id) || negb (isprintable operator_id)))
          (TradingModeConfigError "Operator approvals require distinct authenticated credentials and identity") ;;
   Ok {| ap_token := token; ap_operator_token := operator_auth_token; ap_operator_id := operator_id;
         ap_restricted_token := restricted_auth_token; ap_grants := default default_grants restricted_grants;
         ap_operator_routes := nonempty operator_auth_token |})%py.

(** The application [main] serves. *)
Definition served_app (s : Settings) : result app :=
  create_streamable_http_app (auth_token s) (operator_auth_token s) (operator_id s) (restricted_auth_token s) (restricted_grants s).

(** ** BearerAuthMiddleware *)

(** The token of the one header there is. *)
Definition bearer (headers : list string) : option string :=
  match headers with
  | [h] => if startswith "Bearer " h && isascii h then Some (strip (String.substring 7 (String.length h - 7) h)) else None
  | _ => None
  end.

(** [hmac.compare_digest] of two texts *)
Definition compare_digest (a b : string) : result bool :=
  if isascii a && isascii b then Ok (bool_decide (a = b)) else Err (TypeError "comparing strings with non-ASCII characters").

Definition operator_path (url : string) : bool := startswith "/operator/" url.

(** [BearerAuthMiddleware.dispatch]: whose grants the request runs under, if
    anyone's; without a token there is no such check. *)
Definition dispatch (a : app) (url : string) (headers : list string) : result (option (option ClientGrants)) :=
  if negb (nonempty (ap_token a)) then Ok (Some None)
  else match bearer headers with
       | None => Ok None
       | Some token =>
           let expected := if operator_path url then ap_operator_token a else ap_token a in
           full <- (if nonempty expected then compare_digest token expected else Ok false) ;;
           if full then Ok (Some None)
           else
             restricted <- (if negb (operator_path url) && nonempty (ap_restricted_token a)
                            then compare_digest token (ap_restricted_token a) else Ok false) ;;
             Ok (if restricted then Some (Some (ap_grants a)) else None)
       end%py.

(** ** The operator's routes *)

(** Whether the body's reader gives up. *)
Fixpoint too_large (read : Z) (chunks : list Z) : bool :=
  match chunks with [] => false | n :: l => (8192 <? read + n) || too_large (read + n) l end.

(** [json.loads(body)] *)
Definition body_value (rq : request) : result val :=
  match rq_text rq with
  | None => Err (ValueError "codec can't decode")
  | Some text => match json_loads text with Some v => Ok v | None => Err (ValueError "Expecting value") end
  end.

Definition keys_within (l : list string) (d : dict) : bool := forallb (fun kv => mem (fst kv) l) d.

(** The decision of a body: exactly its two strings. *)
Definition decision_of (rq : request) : result (string * string) :=
  (payload <- body_value rq ;;
   match payload with
   | VDict d =>
       match dget "decision" d, dget "reason" d with
       | Some (VStr decision), Some (VStr reason) =>
           if keys_within ["decision"; "reason"] d then Ok (decision, reason)
           else Err (ValueError "Supply exactly decision and reason strings")
       | _, _ => Err (ValueError "Supply exactly decision and reason strings")
       end
   | _ => Err (ValueError "Supply exactly decision and reason strings")
   end)%py.

(** The pause of a body: whether, why and for which account. *)
Definition pause_of (rq : request) : result (bool * string * string) :=
  (payload <- body_value rq ;;
   match payload with
   | VDict d =>
       match dget_none "paused" d, dget_none "reason" d, dget_or "acc_id" (VStr "0") d with
       | VBool paused, VStr reason, VStr account =>
           if keys_within ["paused"; "reason"; "acc_id"] d then Ok (paused, reason, account)
           else Err (ValueError "Supply paused, reason, and optional acc_id")
       | _, _, _ => Err (ValueError "Supply paused, reason, and optional acc_id")
       end
   | _ => Err (ValueError "Supply paused, reason, and optional acc_id")
   end)%py.

(** The storage and the clock of one request. *)
Record control_io : Type := { ci_broken : bool; ci_broken' : bool; ci_now : Z; ci_now' : Z }.

(** [except (ValueError, TradingControlError)] *)
Definition answered_by (c : SE controls response) : SE controls response :=
  se_try c (fun e => se_ret (if is_value_error e || match e with TradingControlError _ => true | _ => false end
                             then Status 409 else Crashed e)).

(** [operator_approval] *)
Definition operator_approval (a : app) (i : control_io) (rq : request) (request_id : string) : SE controls response :=
  answered_by
    (if bool_decide (rq_method rq = "GET") then
       (p <- Controls.get (ci_broken i) (ci_now i) request_id ;; se_ret (Reviewed (fst p) (snd p)))%se
     else if too_large 0 (rq_chunks rq) then se_ret (Status 413)
     else
       (d <- se_lift (decision_of rq) ;;
        row <- decide (ci_broken i) (ci_now i) (ci_now' i) request_id (fst d) (ap_operator_id a) (snd d) ;;
        se_ret (Resolved row))%se).

(** [operator_pause]; [set_execution_paused] under the locks of the dispatch
    paths. *)
Definition operator_pause (a : app) (i : control_io) (rq : request) (trd_env : string) : SE controls response :=
  answered_by
    (if bool_decide (rq_method rq = "GET") then
       (p <- pause_state (ci_broken i) trd_env (default "0" (rq_account rq)) ;; se_ret (PauseState p))%se
     else if too_large 0 (rq_chunks rq) then se_ret (Status 413)
     else
       (p <- se_lift (pause_of rq) ;;
        let '(paused, reason, account) := p in
        r <- set_paused (ci_broken i) (ci_broken' i) (ci_now i) trd_env paused (ap_operator_id a) reason account ;;
        se_ret (PauseState r))%se).

(** A request to the operator's routes, from the bearer check to the answer. *)
Definition operator_request (host_ok : request -> bool) (a : app) (i : control_io) (rq : request) : SE (option controls) response :=
  fun k =>
  match dispatch a (rq_url rq) (rq_authorization rq) with
  | Err e => (Ok (Crashed e), k)
  | Ok None => (Ok (Status 401), k)
  | Ok (Some _) =>
      if negb (ap_operator_routes a) then (Ok Framework, k)
      else
        let on handler : SE (option controls) response := fun k =>
          if negb (host_ok rq) then (Ok Framework, k)
          else match k with
               | None => (Ok (Status 503), None)
               | Some c => let '(r, c) := handler c in (r, Some c)
               end in
        match rq_routed rq with
        | Approval id => on (operator_approval a i rq id) k
        | Execution env => on (operator_pause a i rq env) k
        | Elsewhere => (Ok Framework, k)
        end
  end.

(** ** Tool calls *)

(** A tool call, from the bearer check to the answer: [None] without a
    credential. *)
Definition tool_request {TX : Texts} {S} (a : app) (tools : string -> option tool) (validate : tool -> dict -> dict + list issue)
    (body : option ClientGrants -> tool -> dict -> S -> option (val + list cause) * S)
    (rq : request) (name : string) (arguments : dict) (s : S) : result (option (option Agent.shown)) * S :=
  match dispatch a (rq_url rq) (rq_authorization rq) with
  | Err e => (Err e, s)
  | Ok None => (Ok None, s)
  | Ok (Some g) => let '(shows, s) := _call_tool_with_errors g tools validate (body g) name arguments s in (Ok (Some shows), s)
  end.

(** ** Who a request comes from *)

Lemma dispatch_some a url headers g :
  dispatch a url headers = Ok (Some g) -> ap_token a <> "" ->
  exists t, bearer headers = Some t /\ t <> ""
    /\ ((g = None /\ t = (if operator_path url then ap_operator_token a else ap_token a))
        \/ (operator_path url = false /\ t = ap_restricted_token a /\ t <> ap_token a /\ g = Some (ap_grants a))).
Proof.
  intros H Hne. unfold dispatch in H. rewrite (proj2 (nonempty_true (ap_token a)) Hne) in H. cbn [negb] in H.
  destruct (bearer headers) as [t|]; [|done]. exists t. split; [done|].
  apply bind_ok in H as (full & Hf & H). unfold compare_digest in *.
  destruct (nonempty (if operator_path url then ap_operator_token a else ap_token a)) eqn:En.
  - apply nonempty_true in En. destruct (_ && _); [|done]. injection Hf as <-. case_bool_decide as Ht.
    + injection H as <-. subst t. split; [done|by left].
    + destruct (negb (operator_path url) && nonempty (ap_restricted_token a)) eqn:Er; [|by injection H].
      apply andb_true_iff in Er as [Hu Hr]. apply negb_true_iff in Hu. apply nonempty_true in Hr. rewrite Hu in Ht.
      destruct (_ && _); [|done]. cbn in H. case_bool_decide as Ht2; [|done]. injection H as <-. subst t. split; [done|]. by right.
  - injection Hf as <-. destruct (operator_path url) eqn:Hu; [done|]. by rewrite (proj2 (nonempty_true (ap_token a)) Hne) in En.
Qed.

(** What was checked of an application's tokens. *)
Lemma created_ok auth op id restr grants a :
  create_streamable_http_app auth op id restr grants = Ok a ->
  (ap_operator_token a <> "" -> ap_token a <> "" /\ ap_operator_token a <> ap_token a)
  /\ (ap_restricted_token a <> "" -> ap_token a <> "" /\ ap_restricted_token a <> ap_token a
      /\ ap_restricted_token a <> ap_operator_token a)
  /\ ap_operator_routes a = nonempty (ap_operator_token a).
Proof.
  unfold create_streamable_http_app. intros H. apply bind_ok in H as ([] & H1 & H). apply bind_ok in H as ([] & H2 & [= <-]).
  apply refuse_if_ok in H1, H2. cbn. split_and!; [..|done].
  - intros Hne. rewrite (proj2 (nonempty_true op) Hne) in H2. cbn in H2. repeat apply orb_false_iff in H2 as [H2 ?].
    bools. split; [by apply nonempty_true|done].
  - intros Hne. rewrite (proj2 (nonempty_true restr) Hne) in H1. cbn in H1. apply orb_false_iff in H1 as [H1 _].
    apply orb_false_iff in H1 as [H1 Hm]. assert (restr ∉ [strip auth; op]) by (intros Hin; apply mem_true in Hin; congruence).
    bools. split_and!; [by apply nonempty_true|set_solver|set_solver].
Qed.

Lemma created_same auth op id restr grants a :
  create_streamable_http_app auth op id restr grants = Ok a ->
  ap_operator_token a = op /\ ap_operator_id a = id /\ ap_restricted_token a = restr
  /\ ap_grants a = default default_grants grants.
Proof.
  unfold create_streamable_http_app. intros H. apply bind_ok in H as ([] & _ & H). by apply bind_ok in H as ([] & _ & [= <-]).
Qed.

Lemma setting_stripped k dflt env : strip (setting k dflt env) = setting k dflt env.
Proof. unfold setting. apply strip_idem. Qed.

(** Settings that were loaded make an application. *)
Lemma main_app_ok firms resolve env s :
  load_settings firms resolve env = Ok s -> exists a, served_app s = Ok a /\ ap_token a = auth_token s.
Proof.
  intros H. unfold load_settings in H. apply bind_ok in H as (p & _ & H). apply bind_ok in H as (tr & _ & H).
  apply bind_ok in H as (observe & _ & H). apply bind_ok in H as (paper & _ & H). apply bind_ok in H as (real & _ & H).
  apply bind_ok in H as ([] & Hop & H). apply bind_ok in H as (controls & _ & H). apply bind_ok in H as (grants & Hg & H).
  apply bind_ok in H as (port & _ & H). apply bind_ok in H as (firm & _ & H). apply bind_ok in H as (market & _ & H).
  apply bind_ok in H as (tunnel & _ & H). apply bind_ok in H as (currency & _ & [= <-]).
  unfold served_app, create_streamable_http_app. cbn [auth_token operator_auth_token operator_id restricted_auth_token restricted_grants].
  rewrite !setting_stripped. unfold load_restricted in Hg. unfold check_operator in Hop.
  set (auth := setting "MCP_AUTH_TOKEN" "" env) in *. set (op := setting "MOOMOO_OPERATOR_AUTH_TOKEN" "" env) in *.
  set (restr := setting "MCP_RESTRICTED_AUTH_TOKEN" "" env) in *. set (id := setting "MOOMOO_OPERATOR_ID" "" env) in *.
  assert (H1 : nonempty restr && (negb (nonempty auth) || mem restr [auth; op] || negb (token_text restr)) = false).
  { destruct (nonempty restr); [|done]. cbn [negb andb] in *. apply bind_ok in Hg as ([] & Hg & _). by apply refuse_if_ok in Hg. }
  assert (H2 : nonempty op && (negb (nonempty auth) || bool_decide (op = auth) || negb (nonempty id)
                               || negb (token_text op) || (128 <? len id) || negb (isprintable id)) = false).
  { destruct (nonempty op); [|done]. cbn [negb andb] in *. apply bind_ok in Hop as ([] & H1'%refuse_if_ok & Hop).
    apply bind_ok in Hop as ([] & H2'%refuse_if_ok & Hop). apply bind_ok in Hop as ([] & H3'%refuse_if_ok & Hop).
    apply refuse_if_ok in Hop. by rewrite H1', H2', H3', <- !orb_assoc in *. }
  rewrite H1, H2. cbn. by eexists.
Qed.

(** C22 One credential, one role.  The settings a process starts with always make an
    application.  A request is handed on only if its single Authorization header
    bears a token that is not empty: on an operator's path the operator's own,
    which no agent holds; elsewhere the full token, or the restricted one, which
    is never the full or the operator's and whose request runs under exactly the
    restricted grants.  Only a read-only process can be without this check. *)
Theorem one_credential_one_role firms resolve env s :
  load_settings firms resolve env = Ok s -> check_transport_authentication s = Ok tt ->
  exists a, served_app s = Ok a
    /\ (mode (policy s) <> READ_ONLY -> ap_token a <> "")
    /\ forall url headers g, ap_token a <> "" -> dispatch a url headers = Ok (Some g) ->
        exists t, bearer headers = Some t /\ t <> ""
          /\ (operator_path url = true -> t = ap_operator_token a /\ t <> ap_token a /\ t <> ap_restricted_token a)
          /\ (operator_path url = false -> g = None -> t = ap_token a)
          /\ (t = ap_restricted_token a -> g = Some (ap_grants a) /\ operator_path url = false)
          /\ (forall c, g = Some c -> t = ap_restricted_token a /\ c = ap_grants a).
Proof.
  intros Hs Ht. destruct (main_app_ok _ _ _ _ Hs) as (a & Ha & Htok). exists a. split; [done|]. split.
  - intros Hm. rewrite Htok. unfold check_transport_authentication in Ht. destruct (nonempty (auth_token s)) eqn:E;
      [by apply nonempty_true|]. by rewrite (bool_decide_eq_false_2 (mode (policy s) = READ_ONLY)), andb_false_r in Ht.
  - intros url headers g Hne Hd. destruct (created_ok _ _ _ _ _ _ Ha) as (Hop & Hre & _).
    destruct (dispatch_some _ _ _ _ Hd Hne) as (t & Hb & Htn & Hc). exists t. split; [done|]. split; [done|].
    destruct Hc as [[-> Hc]|(Hu & Hc & Hna & ->)].
    + destruct (operator_path url) eqn:Hu; split_and!; try done.
      * intros _. subst t. destruct (Hop Htn). split_and!; [done|done|]. intros E. rewrite E in Htn. by destruct (Hre Htn) as (_ & _ & Hx).
      * intros E. exfalso. rewrite E in Htn. destruct (Hre Htn) as (_ & _ & Hx). congruence.
      * intros E. exfalso. rewrite E in Htn. destruct (Hre Htn) as (_ & Hx & _). congruence.
    + rewrite Hu. split_and!; try done. by intros c [= <-].
Qed.

(** ** What an operator's request does *)

Lemma decide_db b now now' id choice op reason s r s' :
  decide b now now' id choice op reason s = (r, s') ->
  k_db s' = k_db s \/
  exists row st, (st = APPROVED /\ choice = "APPROVED" \/ st = REJECTED /\ choice = "REJECTED")
    /\ c_prepared (k_db s) !! id = Some row /\ p_status row = PENDING
    /\ k_db s' = with_prepared <[id := decided st op reason now' row]> (k_db s).
Proof.
  unfold decide. intros Hr. apply lift_bind in Hr as [(st & Hst & Hr)|[-> _]]; [|by left].
  do 2 (apply lift_bind in Hr as [(? & _ & Hr)|[-> _]]; [|by left]).
  apply transaction_effect in Hr as [[-> _]|(a & _ & Hb)]; [by left|].
  destruct (c_prepared (k_db s) !! id) as [row|] eqn:E; [|done]. case_match eqn:E1; [done|].
  injection Hb as _ Hb. right. exists row, st. bools. split_and!; try done. repeat case_bool_decide; naive_solver.
Qed.

Lemma pause_state_db b env acc s r s' : pause_state b env acc s = (r, s') -> k_db s' = k_db s.
Proof.
  unfold pause_state. intros Hr. apply lift_bind in Hr as [([e a] & _ & Hr)|[-> _]]; [|done].
  apply transaction_read in Hr; [done|]. intros d x d' H. by simplify_eq.
Qed.

Lemma get_db b now id s r s' : Controls.get b now id s = (r, s') -> k_db s' = k_db s.
Proof.
  unfold Controls.get, se_bind. destruct (transaction b _ s) as [[a|e] s1] eqn:E; intros [= <- <-];
    (apply transaction_read in E; [done|intros d a' d' Hb; destruct (c_prepared d !! id); by simplify_eq]).
Qed.

Lemma set_paused_db b b' now env paused op reason acc s r s' :
  set_paused b b' now env paused op reason acc s = (r, s') ->
  k_db s' = k_db s \/
  exists e a, _pause_scope env acc = Ok (e, a)
    /\ k_db s' = {| c_prepared := c_prepared (k_db s); c_charges := c_charges (k_db s);
                    c_pauses := <[(e, a) := {| pa_paused := paused; pa_operator_id := op; pa_reason := reason; pa_updated_at := now |}]>
                                  (c_pauses (k_db s)) |}.
Proof.
  unfold set_paused. intros Hr. apply lift_bind in Hr as [([e a] & He & Hr)|[-> _]]; [|by left].
  do 2 (apply lift_bind in Hr as [(? & _ & Hr)|[-> _]]; [|by left]). unfold se_bind in Hr.
  destruct (transaction b _ s) as [[u|ex] s1] eqn:E.
  - apply transaction_effect in E as [[_ ?]|([] & _ & [= Hd])]; [done|]. right. exists e, a. split; [done|].
    apply pause_state_db in Hr. by rewrite Hr, <-Hd.
  - injection Hr as _ <-. left. by apply transaction_effect in E as [[-> _]|(a0 & ? & _)].
Qed.

Lemma answered_db (c : SE controls response) s r s' :
  answered_by c s = (r, s') -> exists r', c s = (r', s').
Proof. unfold answered_by, se_try. destruct (c s) as [[x|e] s1]; intros [= _ <-]; eauto. Qed.

Lemma bind_db {A B} (c : SE controls A) (f : A -> SE controls B) s r s' :
  (x <- c ;; f x)%se s = (r, s') ->
  (exists x s1, c s = (Ok x, s1) /\ f x s1 = (r, s')) \/ (exists e, c s = (Err e, s')).
Proof. unfold se_bind. destruct (c s) as [[x|e] s1]; [left; eauto|intros [= _ <-]; right; eauto]. Qed.

(** ** A process over time *)

Section over_time.
Context `{SessionNames}.
Context (host_ok : request -> bool) (a : app) (caps : gmap string float).

(** The controls, and the requests the operator's routes have had. *)
Record world : Type := { w_controls : controls; w_log : list request }.

Definition winit : world :=
  {| w_controls := {| k_closed := false; k_failed := false; k_db := empty_cdb |}; w_log := [] |}.

(** A call of the trading paths: neither of an operator's two, and every
    submission under the policy that requires approval. *)
Definition client_call (c : kcall) : bool :=
  negb (operator_call c) && match c with KConsume _ _ _ _ _ _ required _ _ _ => required | _ => true end.

Inductive wstep : world -> world -> Prop :=
  | w_request i rq c c' r log :
      operator_request host_ok a i rq (Some c) = (r, Some c') ->
      wstep {| w_controls := c; w_log := log |} {| w_controls := c'; w_log := rq :: log |}
  | w_client call c c' r log :
      client_call call = true -> run_kcall caps call c = (r, c') ->
      wstep {| w_controls := c; w_log := log |} {| w_controls := c'; w_log := log |}
  | w_restart c log :
      wstep {| w_controls := c; w_log := log |}
        {| w_controls := {| k_closed := false; k_failed := false; k_db := k_db c |}; w_log := log |}.

(** The request was not a mere look and came with the credential of its path: the
    operator's where [request.url] shows the operator's prefix; where it does not,
    although the route is the operator's, the full or the restricted client's. *)
Definition operators (rq : request) : Prop :=
  rq_method rq <> "GET" /\ exists t, bearer (rq_authorization rq) = Some t /\ t <> ""
    /\ if operator_path (rq_url rq) then t = ap_operator_token a else t = ap_token a \/ t = ap_restricted_token a.

(** The request that made a row what it is. *)
Definition decided_by (id : string) (row : prepared) (rq : request) : Prop :=
  operators rq /\ rq_routed rq = Approval id /\ exists choice reason,
    decision_of rq = Ok (choice, reason) /\ p_operator_id row = Some (ap_operator_id a) /\ p_reason row = Some reason
    /\ (p_status row = APPROVED \/ p_status row = CONSUMED -> choice = "APPROVED")
    /\ (p_status row = REJECTED -> choice = "REJECTED").

(** The request that made a pause what it is. *)
Definition paused_by (e acc : string) (p : pause) (rq : request) : Prop :=
  operators rq /\ exists env account,
    rq_routed rq = Execution env /\ pause_of rq = Ok (pa_paused p, pa_reason p, account)
    /\ _pause_scope env account = Ok (e, acc) /\ pa_operator_id p = ap_operator_id a.

(** The charge rests on a consumed approval of its very request. *)
Definition covered (rows : gmap string prepared) (ch : charge) : Prop :=
  exists id row, ch_approval_id ch = Some id /\ rows !! id = Some row /\ p_status row = CONSUMED
    /\ p_canonical row = ch_canonical ch.

Record stood_behind (d : cdb) (log : list request) : Prop := {
  sb_rows : forall id row, c_prepared d !! id = Some row ->
    p_status row = PENDING \/ exists rq, rq ∈ log /\ decided_by id row rq;
  sb_pauses : forall e acc p, c_pauses d !! (e, acc) = Some p -> exists rq, rq ∈ log /\ paused_by e acc p rq;
  sb_charges : Forall (covered (c_prepared d)) (c_charges d) }.

Lemma stood_more d log rq : stood_behind d log -> stood_behind d (rq :: log).
Proof.
  intros [Hr Hp Hc]. split; [| |done].
  - intros id row Hrow. destruct (Hr id row Hrow) as [?|(q & Hq & ?)]; [by left|right]. exists q. split; [by right|done].
  - intros e acc p Hrow. destruct (Hp e acc p Hrow) as (q & Hq & ?). exists q. split; [by right|done].
Qed.

(** A row's replacement, when no charge rests on what it was. *)
Lemma covered_row rows id row' l :
  (forall row, rows !! id = Some row -> p_status row <> CONSUMED) ->
  Forall (covered rows) l -> Forall (covered (<[id := row']> rows)) l.
Proof.
  intros Hn Hl. eapply Forall_impl; [exact Hl|]. intros ch (k & row & Hk & Hr & Hs & Hc). exists k, row. split_and!; try done.
  rewrite lookup_insert_ne; [done|]. intros ->. by destruct (Hn _ Hr).
Qed.

(** What a request of the operator's routes leaves. *)
Lemma operator_request_db i rq c r c' :
  (ap_operator_routes a = true -> ap_token a <> "") ->
  operator_request host_ok a i rq (Some c) = (r, Some c') ->
  k_db c' = k_db c \/
  (operators rq /\
   ((exists id choice reason row st, rq_routed rq = Approval id /\ decision_of rq = Ok (choice, reason)
       /\ (st = APPROVED /\ choice = "APPROVED" \/ st = REJECTED /\ choice = "REJECTED")
       /\ c_prepared (k_db c) !! id = Some row /\ p_status row = PENDING
       /\ k_db c' = with_prepared <[id := decided st (ap_operator_id a) reason (ci_now' i) row]> (k_db c))
    \/ (exists env paused reason account e acc, rq_routed rq = Execution env /\ pause_of rq = Ok (paused, reason, account)
       /\ _pause_scope env account = Ok (e, acc)
       /\ k_db c' = {| c_prepared := c_prepared (k_db c); c_charges := c_charges (k_db c);
                       c_pauses := <[(e, acc) := {| pa_paused := paused; pa_operator_id := ap_operator_id a;
                                                    pa_reason := reason; pa_updated_at := ci_now i |}]> (c_pauses (k_db c)) |}))).
Proof.
  intros Hne. unfold operator_request.
  destruct (dispatch a (rq_url rq) (rq_authorization rq)) as [[g|]|e] eqn:Hd; [|intros [= _ <-]; by left..].
  destruct (ap_operator_routes a); cbn [negb]; [specialize (Hne eq_refl)|intros [= _ <-]; by left].
  assert (Htok : rq_method rq <> "GET" -> operators rq).
  { intros Hm. split; [exact Hm|]. destruct (dispatch_some _ _ _ _ Hd Hne) as (t & Hb & Hn & Ht). exists t.
    split_and!; [done|done|]. destruct Ht as [[_ Ht]|(Hu & Ht & _)].
    - destruct (operator_path (rq_url rq)); [exact Ht|by left].
    - rewrite Hu. by right. }
  destruct (rq_routed rq) as [id|env|] eqn:Hr; [..|intros [= _ <-]; by left];
    (destruct (host_ok rq); cbn [negb]; [|intros [= _ <-]; by left]);
    [destruct (operator_approval a i rq id c) as [x c1] eqn:E|destruct (operator_pause a i rq env c) as [x c1] eqn:E];
    intros [= _ <-].
  - unfold operator_approval in E. apply answered_db in E as (x1 & E). case_bool_decide as Hm.
    + apply bind_db in E as [(p & c2 & E1 & E2)|(? & E)]; [injection E2 as _ <-|]; left; by eapply get_db.
    + destruct (too_large 0 (rq_chunks rq)); [injection E as _ <-; by left|].
      apply lift_bind in E as [([choice reason] & Hdec & E)|[-> _]]; [|by left]. cbn [fst snd] in E.
      apply bind_db in E as [(p & c2 & E1 & E2)|(? & E)]; [injection E2 as _ <-; rename E1 into E|];
        (apply decide_db in E as [?|(row & st & Hst & Hrow & Hp & Hk)]; [by left|]);
        right; (split; [by apply Htok|]); left; by exists id, choice, reason, row, st.
  - unfold operator_pause in E. apply answered_db in E as (x1 & E). case_bool_decide as Hm.
    + apply bind_db in E as [(p & c2 & E1 & E2)|(? & E)]; [injection E2 as _ <-|]; left; by eapply pause_state_db.
    + destruct (too_large 0 (rq_chunks rq)); [injection E as _ <-; by left|].
      apply lift_bind in E as [([[paused reason] account] & Hdec & E)|[-> _]]; [|by left].
      apply bind_db in E as [(p & c2 & E1 & E2)|(? & E)]; [injection E2 as _ <-; rename E1 into E|];
        (apply set_paused_db in E as [?|(e & acc & He & Hk)]; [by left|]);
        right; (split; [by apply Htok|]); right; by exists env, paused, reason, account, e, acc.
Qed.

Lemma stood_init : stood_behind empty_cdb [].
Proof. split; cbn; [intros *; by rewrite lookup_empty..|constructor]. Qed.

(** A row that becomes what a request asked. *)
Lemma stood_decided d log id row choice reason st now rq :
  stood_behind d log -> operators rq -> rq_routed rq = Approval id -> decision_of rq = Ok (choice, reason) ->
  (st = APPROVED /\ choice = "APPROVED" \/ st = REJECTED /\ choice = "REJECTED") ->
  c_prepared d !! id = Some row -> p_status row = PENDING ->
  stood_behind (with_prepared <[id := decided st (ap_operator_id a) reason now row]> d) (rq :: log).
Proof.
  intros Hs Ho Hr Hd Hst Hrow Hp. destruct (stood_more d log rq Hs) as [Hrows Hpauses Hch]. split; cbn; [|done|].
  - intros k x. destruct (decide_rel eq k id) as [->|Hk].
    + rewrite lookup_insert_eq. intros [= <-]. right. exists rq. split; [by left|]. split_and!; try done.
      exists choice, reason. cbn. naive_solver.
    + rewrite lookup_insert_ne by done. apply Hrows.
  - apply covered_row; [|done]. intros x Hx. congruence.
Qed.

Lemma stood_paused d log e acc env paused reason account now rq :
  stood_behind d log -> operators rq -> rq_routed rq = Execution env -> pause_of rq = Ok (paused, reason, account) ->
  _pause_scope env account = Ok (e, acc) ->
  stood_behind {| c_prepared := c_prepared d; c_charges := c_charges d;
                  c_pauses := <[(e, acc) := {| pa_paused := paused; pa_operator_id := ap_operator_id a;
                                               pa_reason := reason; pa_updated_at := now |}]> (c_pauses d) |} (rq :: log).
Proof.
  intros Hs Ho Hr Hd He. destruct (stood_more d log rq Hs) as [Hrows Hpauses Hch]. split; cbn; [done| |done].
  intros e' acc' p. destruct (decide_rel eq (e', acc') (e, acc)) as [[= -> ->]|Hk].
  - rewrite lookup_insert_eq. intros [= <-]. exists rq. split; [by left|]. split; [done|]. by exists env, account.
  - rewrite lookup_insert_ne by done. apply Hpauses.
Qed.

(** The trading paths leave what the operator decided. *)
Lemma stood_prepared d log id row :
  stood_behind d log -> c_prepared d !! id = None -> p_status row = PENDING ->
  stood_behind (with_prepared <[id := row]> d) log.
Proof.
  intros [Hrows Hpauses Hch] Hn Hp. split; cbn; [|done|].
  - intros k x. destruct (decide_rel eq k id) as [->|Hk]; [rewrite lookup_insert_eq; intros [= <-]; by left|].
    rewrite lookup_insert_ne by done. apply Hrows.
  - apply covered_row; [|done]. intros x Hx. congruence.
Qed.

Lemma stood_consumed p approval cur amt d d' log :
  stood_behind d log -> consumption caps p approval true cur amt d d' -> stood_behind d' log.
Proof.
  intros [Hrows Hpauses Hch] [(canonical & x & env & acc & op & now & _ & _ & _ & _ & _ & _ & _ & Hc & id & row & -> & Hrow & Hst & Hcan & Hp) Hpa].
  split; [|by rewrite Hpa|].
  - intros k y. rewrite Hp. destruct (decide_rel eq k id) as [->|Hk]; [|rewrite lookup_insert_ne by done; apply Hrows].
    rewrite lookup_insert_eq. intros [= <-]. right. destruct (Hrows _ _ Hrow) as [?|(rq & Hin & Ho & Hr & ch & re & Hd & Hop & Hre & Hap & Hrj)];
      [congruence|]. exists rq. split; [done|]. split_and!; try done. exists ch, re. split_and!; try done. intros _. apply Hap. by left.
  - rewrite Hc, Hp. apply Forall_app. split; [apply covered_row; [|done]; intros y Hy; congruence|].
    apply Forall_singleton. exists id, (consumed now row). by rewrite lookup_insert_eq.
Qed.

Lemma wstep_stood w w' :
  (ap_operator_routes a = true -> ap_token a <> "") -> wstep w w' -> stood_behind (k_db (w_controls w)) (w_log w) ->
  stood_behind (k_db (w_controls w')) (w_log w').
Proof.
  intros Hne Hw Hs. destruct Hw as [i rq c c' r log E|call c c' r log Hc E|c log]; cbn in *; [..|done].
  - apply operator_request_db in E as [->|(Ho & [(id & ch & re & row & st & Hr & Hd & Hst & Hrow & Hp & ->)
      |(env & p & re & ac & e & acc & Hr & Hd & He & ->)])]; [by apply stood_more| | |done..].
    + by eapply stood_decided.
    + by eapply stood_paused.
  - unfold client_call in Hc. apply andb_true_iff in Hc as [Hop Hreq]. apply negb_true_iff in Hop.
    apply call_effect in E as [E|(b & now & now' & m & p & ap & req & cur & amt & con & -> & _ & E)].
    + rewrite Hop in E. destruct E as [|id row Hn Hp| |]; [done|by apply stood_prepared|done..].
    + cbn in Hreq. subst req. by eapply stood_consumed.
Qed.

Lemma wreachable_stood w : (ap_operator_routes a = true -> ap_token a <> "") -> star wstep winit w -> stood_behind (k_db (w_controls w)) (w_log w).
Proof.
  intros Hne. apply (star_invariant wstep (fun w => stood_behind (k_db (w_controls w)) (w_log w))); [|apply stood_init].
  intros x y Hx Hy. by eapply wstep_stood.
Qed.
End over_time.

(** A request [rq] whose path, as [request.url] gives it, was an operator's bore
    the operator's own token, which is no client's; any other bore a client's. *)
Definition vouched_by (op token restr : string) (rq : request) : Prop :=
  exists t, bearer (rq_authorization rq) = Some t /\ t <> ""
    /\ (operator_path (rq_url rq) = true -> t = op /\ op <> token /\ (restr = "" \/ op <> restr))
    /\ (operator_path (rq_url rq) = false -> t = token \/ t = restr).

(** C21 No exposure without an approving request behind a credential.  Whatever
    calls the trading paths make where the policy requires approval, whatever
    requests the operator's routes get, and over restarts: every charge rests on
    an approval of its very request, and that approval is in the log of requests as
    one routed to that approval, with the decision APPROVED and the reason and the
    operator recorded; every pause or resumption in force was likewise asked for by
    such a request.  Whose token that request bore follows the path that
    [request.url] gives, the one the middleware checks: the operator's, which no
    agent's credential equals, where this path has the operator's prefix.  The
    framework builds it from the Host header, so where it has not, although the
    request was routed to the operator's route, a client's token was enough. *)
Theorem exposure_needs_operator `{SessionNames} auth op id restr grants a host_ok caps w :
  create_streamable_http_app auth op id restr grants = Ok a -> star (wstep host_ok a caps) winit w ->
  let d := k_db (w_controls w) in
  (forall ch, ch ∈ c_charges d -> exists i row rq reason,
     ch_approval_id ch = Some i /\ c_prepared d !! i = Some row /\ p_canonical row = ch_canonical ch
     /\ p_operator_id row = Some id /\ p_reason row = Some reason
     /\ rq ∈ w_log w /\ rq_method rq <> "GET" /\ vouched_by op (ap_token a) restr rq
     /\ rq_routed rq = Approval i /\ decision_of rq = Ok ("APPROVED", reason))
  /\ (forall e acc p, c_pauses d !! (e, acc) = Some p -> exists rq env account,
     pa_operator_id p = id /\ rq ∈ w_log w /\ rq_method rq <> "GET" /\ vouched_by op (ap_token a) restr rq
     /\ rq_routed rq = Execution env /\ _pause_scope env account = Ok (e, acc)
     /\ pause_of rq = Ok (pa_paused p, pa_reason p, account)).
Proof.
  intros Ha Hw d. destruct (created_ok _ _ _ _ _ _ Ha) as (Hop & Hre & Hroutes).
  destruct (created_same _ _ _ _ _ _ Ha) as (Eo & Ei & Er & _).
  destruct (wreachable_stood host_ok a caps w) as [Hrows Hpauses Hch]; [|done|].
  { rewrite Hroutes. intros Hn%nonempty_true. by destruct (Hop Hn). }
  assert (Hv : forall rq, operators a rq -> rq_method rq <> "GET" /\ vouched_by op (ap_token a) restr rq).
  { intros rq (Hm & t & Hb & Hn & Ht). split; [done|]. exists t. rewrite <-Eo, <-Er.
    split_and!; [done|done|intros Hu; rewrite Hu in Ht|intros Hu; by rewrite Hu in Ht].
    subst t. destruct (Hop Hn) as [_ Hx]. split_and!; [done|done|].
    destruct (decide_rel eq (ap_restricted_token a) "") as [?|Hne]; [by left|right]. destruct (Hre Hne) as (_ & _ & Hy). congruence. }
  split.
  - intros ch Hin. rewrite Forall_forall in Hch. destruct (Hch ch Hin) as (i & row & Hi & Hrow & Hst & Hcan).
    destruct (Hrows i row Hrow) as [?|(rq & Hlog & Ho & Hr & choice & reason & Hd & Hid & Hwhy & Hap & _)]; [congruence|].
    assert (choice = "APPROVED") as -> by (apply Hap; by right). destruct (Hv rq Ho). exists i, row, rq, reason.
    by rewrite <-Ei.
  - intros e acc p Hp. destruct (Hpauses e acc p Hp) as (rq & Hlog & Ho & env & account & Hr & Hd & He & Hid).
    destruct (Hv rq Ho). exists rq, env, account. by rewrite <-Ei.
Qed.

(** A tool call runs only behind a credential, and the restricted one brings its
    grants into the call: without a credential nothing is touched. *)
Theorem tool_request_role {TX : Texts} {S} auth op id restr grants a tools validate
    (body : option ClientGrants -> tool -> dict -> S -> option (val + list cause) * S) rq name arguments s r s' :
  create_streamable_http_app auth op id restr grants = Ok a -> ap_token a <> "" ->
  tool_request a tools validate body rq name arguments s = (r, s') ->
  (s' = s /\ forall shows, r <> Ok (Some shows))
  \/ exists g shows, r = Ok (Some shows) /\ _call_tool_with_errors g tools validate (body g) name arguments s = (shows, s')
       /\ (bearer (rq_authorization rq) = Some restr -> g = Some (default default_grants grants)).
Proof.
  intros Ha Hne. unfold tool_request. destruct (dispatch a (rq_url rq) (rq_authorization rq)) as [[g|]|e] eqn:Hd;
    [|intros [= <- <-]; by left..].
  destruct (_call_tool_with_errors g tools validate (body g) name arguments s) as [shows s1] eqn:Ec. intros [= <- <-].
  right. exists g, shows. split_and!; [done..|]. destruct (created_ok _ _ _ _ _ _ Ha) as (Hop & Hre & _).
  destruct (created_same _ _ _ _ _ _ Ha) as (_ & _ & Er & Eg).
  destruct (dispatch_some _ _ _ _ Hd Hne) as (t & Hb & Htn & [[-> Ht]|(_ & Ht & _ & ->)]); [|by rewrite Eg].
  rewrite Hb, <-Er. intros [= Hx]. rewrite Hx in Htn. destruct (Hre Htn) as (_ & Hy & Hz).
  destruct (operator_path (rq_url rq)); congruence.
Qed.

(** ** Examples *)

Definition demo_settings : result Settings := demo_load (<["MCP_RESTRICTED_AUTH_TOKEN" := "restr"]> demo_start_env).
Definition demo_app : app :=
  {| ap_token := "full"; ap_operator_token := "op"; ap_operator_id := "ann"; ap_restricted_token := "restr";
     ap_grants := default default_grants (match demo_settings with Ok s => restricted_grants s | Err _ => None end);
     ap_operator_routes := true |}.
Definition demo_body : string :=
  "{" ++ q1 "decision" ++ ": " ++ q1 "APPROVED" ++ ", " ++ q1 "reason" ++ ": " ++ q1 "reviewed" ++ "}".
Definition demo_request (header : string) : request :=
  {| rq_method := "POST"; rq_url := "/operator/approvals/r1"; rq_routed := Approval "r1"; rq_authorization := [header];
     rq_account := None; rq_chunks := [40]; rq_text := Some demo_body |}.
Definition demo_io : control_io := {| ci_broken := false; ci_broken' := false; ci_now := 1; ci_now' := 1 |}.
Definition demo_answer (rq : request) : response :=
  match fst (operator_request (fun _ => true) demo_app demo_io rq (Some (km_ctl (demo_controls 1)))) with
  | Ok x => x
  | Err e => Crashed e
  end.

Example demo_served : match demo_settings with Ok s => served_app s | Err e => Err e end = Ok demo_app.
Proof. by vm_compute. Qed.

(** Only the operator's credential opens the route; a second header, a larger
    body, another field and a decision that is not a text do not. *)
Example http_ex :
  map (fun rq => match demo_answer rq with Status c => c | Resolved _ => 200 | _ => 0 end)
    [demo_request "Bearer full"; demo_request "Bearer restr"; demo_request "Bearer "; demo_request "bearer op";
     demo_request "Bearer op";
     {| rq_method := "POST"; rq_url := "/operator/approvals/r1"; rq_routed := Approval "r1";
        rq_authorization := ["Bearer op"; "Bearer op"]; rq_account := None; rq_chunks := [40]; rq_text := Some demo_body |};
     {| rq_method := "POST"; rq_url := "/operator/approvals/r1"; rq_routed := Approval "r1";
        rq_authorization := ["Bearer op"]; rq_account := None; rq_chunks := [8000; 193]; rq_text := Some demo_body |};
     {| rq_method := "POST"; rq_url := "/operator/approvals/r1"; rq_routed := Approval "r1";
        rq_authorization := ["Bearer op"]; rq_account := None; rq_chunks := [8000; 192]; rq_text := Some "{}" |}]
  = [401; 401; 401; 401; 200; 401; 413; 409].
Proof. by vm_compute. Qed.

Example dispatch_ex :
  map (fun p => dispatch demo_app (fst p) [snd p])
    [("/mcp", "Bearer full"); ("/mcp", "Bearer  restr "); ("/mcp", "Bearer op"); ("/operator/x", "Bearer op")]
  = [Ok (Some None); Ok (Some (Some (ap_grants demo_app))); Ok None; Ok (Some None)].
Proof. by vm_compute. Qed.

Lemma one_credential_one_role_witness :
  exists s a, demo_settings = Ok s /\ served_app s = Ok a /\ ap_token a <> "".
Proof.
  destruct demo_settings as [s|] eqn:E; [|by vm_compute in E].
  assert (Hm : mode (policy s) <> READ_ONLY /\ check_transport_authentication s = Ok tt)
    by (vm_compute in E; injection E as <-; by split_and!).
  destruct Hm as (Hm & Hauth).
  destruct (one_credential_one_role ["FUTUINC"] id _ s E Hauth) as (a & Ha & Hne & _).
  exists s, a. split_and!; [done|exact Ha|by apply Hne].
Defined.

(** An order is prepared, approved over HTTP and charged. *)
Definition demo_order : kcall :=
  KConsume false 2 2 "place_order" (demo_params "op-1") (Some "r1") true (Some "USD") (DFin (Dec false 10005 (-1))) None.
Definition demo_world (n : nat) : world :=
  let c1 := snd (run_kcall demo_caps (KPrepare false 0 "r1" "place_order" (demo_params "op-1") [("contract", VNone)] 300)
                   (w_controls winit)) in
  let c2 := default c1 (snd (operator_request (fun _ => true) demo_app demo_io (demo_request "Bearer op") (Some c1))) in
  let c3 := snd (run_kcall demo_caps demo_order c2) in
  match n with
  | 0%nat => winit
  | 1%nat => {| w_controls := c1; w_log := [] |}
  | 2%nat => {| w_controls := c2; w_log := [demo_request "Bearer op"] |}
  | _ => {| w_controls := c3; w_log := [demo_request "Bearer op"] |}
  end.

Lemma demo_world_reachable : star (wstep (fun _ => true) demo_app demo_caps) winit (demo_world 3).
Proof.
  apply star_snoc with (demo_world 2); [apply star_snoc with (demo_world 1); [apply star_snoc with winit; [constructor|]|]|].
  - eapply (w_client _ _ _ (KPrepare false 0 "r1" "place_order" (demo_params "op-1") [("contract", VNone)] 300)); [done|].
    apply surjective_pairing.
  - eapply (w_request _ _ _ demo_io (demo_request "Bearer op")). by vm_compute.
  - eapply (w_client _ _ _ demo_order); [done|]. apply surjective_pairing.
Qed.

Lemma exposure_needs_operator_witness :
  exists ch i rq, c_charges (k_db (w_controls (demo_world 3))) = [ch] /\ ch_approval_id ch = Some i
    /\ rq ∈ w_log (demo_world 3) /\ rq_routed rq = Approval i /\ bearer (rq_authorization rq) = Some "op".
Proof.
  destruct (exposure_needs_operator "full" "op" "ann" "restr" (Some (ap_grants demo_app)) demo_app (fun _ => true) demo_caps
              (demo_world 3) ltac:(by vm_compute) demo_world_reachable) as (T & _).
  destruct (c_charges (k_db (w_controls (demo_world 3)))) as [|ch [|]] eqn:E; [by vm_compute in E| |by vm_compute in E].
  destruct (T ch ltac:(by left)) as (i & row & rq & reason & Hi & _ & _ & _ & _ & Hlog & _ & Hv & Hr & _).
  assert (Hu : rq = demo_request "Bearer op").
  { assert (E1 : w_log (demo_world 3) = [demo_request "Bearer op"]) by reflexivity. rewrite E1 in Hlog.
    by apply list_elem_of_singleton in Hlog. }
  destruct Hv as (t & Hb & _ & Hop & _). assert (Hp : operator_path (rq_url rq) = true) by (rewrite Hu; reflexivity).
  destruct (Hop Hp) as (-> & _ & _).
  exists ch, i, rq. exact (conj eq_refl (conj Hi (conj Hlog (conj Hr Hb)))).
Defined.

(** A Host header such as [localhost:1/x?] gives [request.url] the path [/x] while
    the router still sees the operator's route: the clients' credentials then
    decide, the operator's does not. *)
Example forged_host_ex :
  let forged header := {| rq_method := "POST"; rq_url := "/x"; rq_routed := Approval "r1"; rq_authorization := [header];
                          rq_account := None; rq_chunks := [40]; rq_text := Some demo_body |} in
  map (fun rq => match demo_answer rq with Status c => c | Resolved _ => 200 | _ => 0 end)
    [forged "Bearer full"; forged "Bearer restr"; forged "Bearer op"] = [200; 200; 401].
Proof. by vm_compute. Qed.
