(* ===== verification/Connections.v ===== *)
(** server.py, services/base_service.py, services/trade_service.py: who holds the
    process's stores and gateway connections.

    A process is the resources open in it, the services built so far, what the
    module holds and the threads at work: connection workers and closers.  Their
    steps interleave with [get_services], [close_services] and [main] in any
    order ([pstep]); what a constructor answers is an argument.  A build holds the
    lock of the module while workers run on; releasing what a failed one opened is
    a closer like any other.  The SDK's constructor retries for as long as OpenD is
    down: a step may also be that it has still not answered.  Closing a resource
    neither raises nor blocks, and setting the new context's query timeout and
    wrapping its reconnect hook, which only store a value, do not raise: that is
    assumed of the SDK.  Recovery and probe threads hold no resource of their own. *)

From stdpp Require Import list.
From S2P Require Import Prelude.

#[local] Open Scope list_scope.

(** ** The process *)

(** A resource is a number; [sv_future] is the worker of [_connect_future]. *)
Record service : Type := {
  sv_paper : option nat; sv_real : option nat; sv_controls : option nat; sv_quote : option nat;
  sv_trade : option nat; sv_closed : bool; sv_future : option nat }.

Inductive thread : Type :=
  | Connecting (w i : nat)                  (* in the SDK's constructor *)
  | Connected (w i ctx : nat)               (* it returned this context *)
  | Enforcing (w i : nat)                   (* published; locking at rest *)
  | Closing (w : option nat) (rs : list nat) (next : option nat).   (* closing these, then a service *)

Record process : Type := {
  p_open : list nat; p_next : nat; p_instances : list service;
  p_services : option nat; p_prepared : option (option nat * option nat);
  p_building : option nat; p_threads : list thread }.

Definition pinit : process :=
  {| p_open := []; p_next := 0; p_instances := []; p_services := None; p_prepared := None;
     p_building := None; p_threads := [] |}.

Definition with_open l p : process :=
  {| p_open := l; p_next := p_next p; p_instances := p_instances p; p_services := p_services p;
     p_prepared := p_prepared p; p_building := p_building p; p_threads := p_threads p |}.
Definition with_instances l p : process :=
  {| p_open := p_open p; p_next := p_next p; p_instances := l; p_services := p_services p;
     p_prepared := p_prepared p; p_building := p_building p; p_threads := p_threads p |}.
Definition with_held s pr b p : process :=
  {| p_open := p_open p; p_next := p_next p; p_instances := p_instances p; p_services := s;
     p_prepared := pr; p_building := b; p_threads := p_threads p |}.
Definition with_threads l p : process :=
  {| p_open := p_open p; p_next := p_next p; p_instances := p_instances p; p_services := p_services p;
     p_prepared := p_prepared p; p_building := p_building p; p_threads := l |}.

(** The constructor of a resource. *)
Definition open_resource : SE process nat := fun p =>
  (Ok (p_next p),
   {| p_open := p_next p :: p_open p; p_next := S (p_next p); p_instances := p_instances p; p_services := p_services p;
      p_prepared := p_prepared p; p_building := p_building p; p_threads := p_threads p |}).
Definition opened (answer : result unit) : SE process (option nat) :=
  (_ <- se_lift answer ;; r <- open_resource ;; se_ret (Some r))%se.
Definition opened_if (wanted : bool) (answer : result unit) : SE process (option nat) :=
  if wanted then opened answer else se_ret None.
(** [close] *)
Definition release (r : nat) : SE process unit := se_modify (fun p => with_open (filter (fun x => x <> r) (p_open p)) p).
Definition close_resource (r : option nat) : SE process unit := match r with Some r => release r | None => se_ret tt end.

(** ** Building the services *)

Record config : Type := { cf_journal : bool; cf_real_journal : bool; cf_controls : bool }.
(** What each constructor answers. *)
Record build_io : Type := {
  bi_settings : result unit; bi_paper : result unit; bi_real : result unit; bi_controls : result unit;
  bi_moomoo : result unit; bi_trade : result unit; bi_quote : result unit }.

(** [_open_execution_stores] *)
Definition _open_execution_stores (c : config) (io : build_io) : SE process (option nat * option nat) :=
  (paper <- opened_if (cf_journal c) (bi_paper io) ;;
   real <- se_try (opened_if (cf_real_journal c) (bi_real io)) (fun e => close_resource paper ;;; se_raise e) ;;
   se_ret (paper, real))%se.

Definition worker_of (t : thread) : option nat :=
  match t with Connecting w _ | Connected w _ _ | Enforcing w _ => Some w | Closing w _ _ => w end.
Definition future_done (p : process) (w : nat) : bool :=
  forallb (fun t => negb (bool_decide (worker_of t = Some w))) (p_threads p).

(** [TradeService.connect]: joins the worker in flight or starts one. *)
Definition connect (i : nat) : SE process unit := fun p =>
  match p_instances p !! i with
  | None => (Ok tt, p)
  | Some sv =>
      let join := match sv_future sv with Some w => negb (future_done p w) | None => false end in
      let w := p_next p in
      (Ok tt,
       {| p_open := p_open p; p_next := if join then w else S w;
          p_instances := <[i := {| sv_paper := sv_paper sv; sv_real := sv_real sv; sv_controls := sv_controls sv;
                                   sv_quote := sv_quote sv; sv_trade := sv_trade sv; sv_closed := false;
                                   sv_future := if join then sv_future sv else Some w |}]> (p_instances p);
          p_services := p_services p; p_prepared := p_prepared p; p_building := p_building p;
          p_threads := if join then p_threads p else p_threads p ++ [Connecting w i] |})
  end.

(** [MoomooService.connect]: a failure is logged. *)
Definition connect_quote (answer : result unit) : SE process (option nat) :=
  se_try (opened answer) (fun _ => se_ret None).

Definition add_service (paper real controls quote : option nat) : SE process nat := fun p =>
  (Ok (length (p_instances p)),
   with_instances (p_instances p ++ [{| sv_paper := paper; sv_real := real; sv_controls := controls; sv_quote := quote;
                                        sv_trade := None; sv_closed := false; sv_future := None |}]) p).

(** [_build_services], until both connections are on their way. *)
Definition start_services (c : config) (io : build_io) : SE process nat :=
  (p <- se_get ;;
   _ <- se_modify (fun p => with_held (p_services p) None (p_building p) p) ;;
   stores <- (match p_prepared p with
              | Some stores => se_ret stores
              | None => _ <- se_lift (bi_settings io) ;; _open_execution_stores c io
              end) ;;
   let close_stores := close_resource (fst stores) ;;; close_resource (snd stores) in
   controls <- se_try (opened_if (cf_controls c) (bi_controls io)) (fun e => close_stores ;;; se_raise e) ;;
   _ <- se_try (se_lift (bi_moomoo io)) (fun e => close_stores ;;; close_resource controls ;;; se_raise e) ;;
   _ <- se_try (se_lift (bi_trade io)) (fun e => close_stores ;;; close_resource controls ;;; se_raise e) ;;
   quote <- connect_quote (bi_quote io) ;;
   i <- add_service (fst stores) (snd stores) controls quote ;;
   _ <- connect i ;;
   se_ret i)%se.

(** [get_services], as far as [start_services] goes. *)
Definition get_services (c : config) (io : build_io) : SE process unit :=
  (p <- se_get ;;
   match p_services p with
   | Some _ => se_ret tt
   | None => i <- start_services c io ;; se_modify (fun p => with_held (p_services p) (p_prepared p) (Some i) p)
   end)%se.

(** [main]'s part before the transport. *)
Definition main_prepare (c : config) (io : build_io) : SE process unit :=
  (p <- se_get ;;
   match p_services p, p_prepared p, cf_journal c || cf_real_journal c with
   | None, None, true =>
       stores <- _open_execution_stores c io ;;
       se_modify (fun p => with_held (p_services p) (Some stores) (p_building p) p)
   | _, _, _ => se_ret tt
   end)%se.

Definition option_list {A} (o : option A) : list A := match o with Some x => [x] | None => [] end.
Definition stores_list (o : option (option nat * option nat)) : list nat :=
  match o with Some (paper, real) => option_list paper ++ option_list real | None => [] end.

(** The build's [return], its last [except], and [close_services]. *)
Definition built (i : nat) (p : process) : process := with_held (Some i) (p_prepared p) None p.
Definition build_failed (i : nat) (p : process) : process :=
  with_held (p_services p) (p_prepared p) None (with_threads (p_threads p ++ [Closing None [] (Some i)]) p).
Definition close_services (p : process) : process :=
  with_held None None (p_building p)
    (with_threads (p_threads p ++ [Closing None (stores_list (p_prepared p)) (p_services p)]) p).

(** ** Threads *)

(** What [TradeService.close] and [MoomooService.close] close, in order. *)
Definition resources (sv : service) : list nat :=
  option_list (sv_trade sv) ++ option_list (sv_paper sv) ++ option_list (sv_real sv) ++ option_list (sv_controls sv)
  ++ option_list (sv_quote sv).

(** [TradeService.close] under [_connect_lock] *)
Definition shut (i : nat) : SE process (list nat) := fun p =>
  match p_instances p !! i with
  | None => (Ok [], p)
  | Some sv =>
      (Ok (resources sv),
       with_instances (<[i := {| sv_paper := sv_paper sv; sv_real := sv_real sv; sv_controls := sv_controls sv;
                                 sv_quote := sv_quote sv; sv_trade := None; sv_closed := true; sv_future := None |}]>
                         (p_instances p)) p)
  end.

(** [_open_trade_context] under [_connect_lock]: whether the context is to be
    closed. *)
Definition publish (i ctx : nat) : SE process bool := fun p =>
  match p_instances p !! i with
  | None => (Ok true, p)
  | Some sv =>
      if sv_closed sv then (Ok true, p)
      else (Ok false,
            with_instances (<[i := {| sv_paper := sv_paper sv; sv_real := sv_real sv; sv_controls := sv_controls sv;
                                      sv_quote := sv_quote sv; sv_trade := Some ctx; sv_closed := false;
                                      sv_future := sv_future sv |}]> (p_instances p)) p)
  end.

(** What the SDK does of a call: it may go on retrying. *)
Inductive sdk_answer : Set := Answers | Raises | Retries.

(** The next step of a thread, and what it is then; [a] is what the SDK does of
    the constructor, the handlers' registration or the lock request. *)
Definition run_thread (a : sdk_answer) (t : thread) : SE process (option thread) :=
  (match t with
   | Connecting w i =>
       match a with
       | Answers => ctx <- open_resource ;; se_ret (Some (Connected w i ctx))
       | Raises => se_ret None
       | Retries => se_ret (Some t)
       end
   | Connected w i ctx =>
       match a with
       | Answers =>
           should_close <- publish i ctx ;;
           se_ret (Some (if should_close then Closing (Some w) [ctx] None else Enforcing w i))
       | Raises => se_ret (Some (Closing (Some w) [ctx] None))
       | Retries => se_ret (Some t)
       end
   | Enforcing _ _ => match a with Retries => se_ret (Some t) | _ => se_ret None end
   | Closing w (r :: rs) next => release r ;;; se_ret (Some (Closing w rs next))
   | Closing w [] (Some i) => rs <- shut i ;; se_ret (Some (Closing w rs None))
   | Closing _ [] None => se_ret None
   end)%se.

(** ** The process over time *)

Inductive tstep : process -> process -> Prop :=
  | t_run l1 t l2 a p t' p' :
      p_threads p = l1 ++ t :: l2 -> run_thread a t (with_threads (l1 ++ l2) p) = (Ok t', p') ->
      tstep p (with_threads (l1 ++ option_list t' ++ l2) p').

Inductive pstep (c : config) : process -> process -> Prop :=
  | ps_main io p r p' : p_building p = None -> main_prepare c io p = (r, p') -> pstep c p p'
  | ps_get io p r p' : p_building p = None -> get_services c io p = (r, p') -> pstep c p p'
  | ps_built p i : p_building p = Some i -> pstep c p (built i p)
  | ps_failed p i : p_building p = Some i -> pstep c p (build_failed i p)
  | ps_close p : p_building p = None -> pstep c p (close_services p)
  | ps_thread p p' : tstep p p' -> pstep c p p'.

(** ** Who holds what *)

Definition held (sv : service) : list nat := if sv_closed sv then [] else resources sv.
Definition thread_held (t : thread) : list nat :=
  match t with Connected _ _ ctx => [ctx] | Closing _ rs _ => rs | _ => [] end.
(** The services a thread is to close, and those it may publish a context to. *)
Definition thread_refs (t : thread) : list nat := match t with Closing _ _ next => option_list next | _ => [] end.
Definition thread_pending (t : thread) : list nat := match t with Connecting _ i | Connected _ i _ => [i] | _ => [] end.

Definition owned (p : process) : list nat :=
  stores_list (p_prepared p) ++ flat_map held (p_instances p) ++ flat_map thread_held (p_threads p).
Definition refs (p : process) : list nat :=
  option_list (p_services p) ++ option_list (p_building p) ++ flat_map thread_refs (p_threads p).
Definition pending (p : process) : list nat := flat_map thread_pending (p_threads p).

Definition alive (p : process) (i : nat) : Prop := exists sv, p_instances p !! i = Some sv /\ sv_closed sv = false.

(** Everything open is held once, with [ex], [rf] and [pd] in the hands of the
    running step; every service that is not closed has one that will close it,
    and at most one worker, before which it has no context. *)
Record inv (p : process) (ex rf pd : list nat) : Prop := {
  i_perm : owned p ++ ex ≡ₚ p_open p;
  i_nodup : NoDup (p_open p);
  i_fresh : Forall (fun r => (r < p_next p)%nat) (p_open p);
  i_refs_nodup : NoDup (refs p ++ rf);
  i_refs : forall i, i ∈ refs p ++ rf <-> alive p i;
  i_pending_nodup : NoDup (pending p ++ pd);
  i_pending : forall i, i ∈ pending p ++ pd -> exists sv, p_instances p !! i = Some sv /\ sv_trade sv = None }.

Lemma inv_init : inv pinit [] [] [].
Proof.
  split; unfold owned, refs, pending, alive; cbn; try done; try constructor; try by intros ?%elem_of_nil.
  - by intros (? & ? & ?).
  - intros i ?%elem_of_nil. done.
Qed.

(** Lists that hold the same, by counting. *)
Lemma count_cons (x y : nat) l : count_occ Nat.eq_dec (x :: l) y = (count_occ Nat.eq_dec [x] y + count_occ Nat.eq_dec l y)%nat.
Proof. cbn. destruct (Nat.eq_dec x y); lia. Qed.

Ltac perm :=
  unfold owned, refs, pending in *; cbn [p_open p_next p_instances p_services p_prepared p_building p_threads
    with_open with_instances with_held with_threads thread_held thread_refs thread_pending option_list stores_list] in *;
  apply (Permutation_count_occ Nat.eq_dec); let y := fresh "y" in intros y;
  repeat match goal with H : _ ≡ₚ _ |- _ => rewrite (Permutation_count_occ Nat.eq_dec) in H; specialize (H y) end;
  repeat (rewrite ?flat_map_app, ?count_occ_app in *; cbn [flat_map app thread_held thread_refs thread_pending option_list] in * );
  repeat match goal with
  | |- context [count_occ _ (?x :: ?l) ?y] => tryif constr_eq l (@nil nat) then fail else rewrite (count_cons x y l)
  | H : context [count_occ _ (?x :: ?l) ?y] |- _ => tryif constr_eq l (@nil nat) then fail else rewrite (count_cons x y l) in H
  end; rewrite ?count_occ_app in *; cbn [count_occ] in *; lia.

(** Only the order of what the step holds may change. *)
Lemma inv_perm p ex ex' rf rf' pd pd' :
  inv p ex rf pd -> ex ≡ₚ ex' -> rf ≡ₚ rf' -> pd ≡ₚ pd' -> inv p ex' rf' pd'.
Proof.
  intros [H1 H2 H3 H4 H5 H6 H7] He Hr Hp. split; try done.
  - by rewrite <-He.
  - by rewrite <-Hr.
  - intros i. rewrite <-Hr. apply H5.
  - by rewrite <-Hp.
  - intros i. rewrite <-Hp. apply H7.
Qed.

(** A step that changes who holds what, but nothing else. *)
Lemma inv_moved p p' ex ex' rf rf' pd pd' :
  inv p ex rf pd -> p_open p' = p_open p -> p_next p' = p_next p -> p_instances p' = p_instances p ->
  owned p' ++ ex' ≡ₚ owned p ++ ex -> refs p' ++ rf' ≡ₚ refs p ++ rf -> pending p' ++ pd' ≡ₚ pending p ++ pd ->
  inv p' ex' rf' pd'.
Proof.
  intros [H1 H2 H3 H4 H5 H6 H7] Ho Hn Hi He Hr Hp. split.
  - by rewrite He, Ho.
  - by rewrite Ho.
  - by rewrite Ho, Hn.
  - by rewrite Hr.
  - intros i. unfold alive. rewrite Hr, Hi. apply H5.
  - by rewrite Hp.
  - intros i. rewrite Hp, Hi. apply H7.
Qed.

Lemma inv_open p ex rf pd r p' : inv p ex rf pd -> open_resource p = (Ok r, p') -> inv p' (r :: ex) rf pd.
Proof.
  intros [H1 H2 H3 H4 H5 H6 H7] [= <- <-]. split; cbn; try done.
  - unfold owned in *. cbn. rewrite <-H1. symmetry. apply Permutation_middle.
  - apply NoDup_cons. split; [|done]. intros Hin. rewrite Forall_forall in H3. specialize (H3 _ Hin). lia.
  - constructor; [lia|]. eapply Forall_impl; [exact H3|]. cbn. lia.
Qed.

Lemma filter_out (r : nat) (l : list nat) : r ∉ l -> filter (fun x => x <> r) l = l.
Proof.
  induction l as [|y l IH]; intros Hn; [done|]. apply not_elem_of_cons in Hn as [? Hn].
  rewrite filter_cons_True by congruence. by rewrite IH.
Qed.

Lemma inv_release p ex rf pd r x p' : inv p (r :: ex) rf pd -> release r p = (x, p') -> inv p' ex rf pd.
Proof.
  intros [H1 H2 H3 H4 H5 H6 H7] [= <- <-]. split; cbn; try done.
  - change (owned p ++ ex ≡ₚ filter (fun x => x <> r) (p_open p)).
    assert (Hp : r :: (owned p ++ ex) ≡ₚ p_open p) by (rewrite <-H1; perm).
    rewrite <-Hp in H2. apply NoDup_cons in H2 as [Hd _]. rewrite <-Hp, filter_cons_False by naive_solver.
    by rewrite filter_out.
  - by apply NoDup_filter.
  - rewrite Forall_forall in *. intros y Hy. apply H3. by apply list_elem_of_filter in Hy as [_ ?].
Qed.

Lemma inv_take p l1 t l2 ex rf pd :
  p_threads p = l1 ++ t :: l2 -> inv p ex rf pd ->
  inv (with_threads (l1 ++ l2) p) (thread_held t ++ ex) (thread_refs t ++ rf) (thread_pending t ++ pd).
Proof.
  intros Ht H. eapply inv_moved; [exact H|done..| | |]; unfold owned, refs, pending; cbn; rewrite Ht; perm.
Qed.

Lemma inv_put p l1 t l2 ex rf pd :
  p_threads p = l1 ++ l2 -> inv p (thread_held t ++ ex) (thread_refs t ++ rf) (thread_pending t ++ pd) ->
  inv (with_threads (l1 ++ t :: l2) p) ex rf pd.
Proof.
  intros Ht H. eapply inv_moved; [exact H|done..| | |]; unfold owned, refs, pending; cbn; rewrite Ht; perm.
Qed.

(** ** What each step does to it *)

(** A computation that leaves the process accounted for, whether it returns or
    raises. *)
Definition accounts {A} (c : SE process A) (ex rf pd : list nat) (post : A -> list nat * list nat * list nat)
    (raised : list nat) : Prop :=
  forall p r p', inv p ex rf pd -> c p = (r, p') ->
    match r with
    | Ok a => let '(ex', rf', pd') := post a in inv p' ex' rf' pd'
    | Err _ => inv p' raised rf pd
    end.

Lemma accounts_bind {A B} (c : SE process A) (f : A -> SE process B) ex rf pd mid post raised :
  accounts c ex rf pd mid raised ->
  (forall a, let '(ex', rf', pd') := mid a in rf' = rf /\ pd' = pd /\ accounts (f a) ex' rf pd post raised) ->
  accounts (x <- c ;; f x)%se ex rf pd post raised.
Proof.
  intros Hc Hf p r p' Hi. unfold se_bind. destruct (c p) as [[a|e] p1] eqn:E; [|intros [= <- <-]; by apply (Hc p _ p1 Hi E)].
  specialize (Hc p _ p1 Hi E). cbn in Hc. specialize (Hf a). destruct (mid a) as [[ex' rf'] pd'].
  destruct Hf as (-> & -> & Hf). by apply Hf.
Qed.

Lemma accounts_try {A} (c : SE process A) h ex rf pd post mid raised :
  accounts c ex rf pd post mid -> (forall e, accounts (h e) mid rf pd post raised) ->
  accounts (se_try c h) ex rf pd post raised.
Proof.
  intros Hc Hh p r p' Hi. unfold se_try. destruct (c p) as [[a|e] p1] eqn:E.
  - intros [= <- <-]. by apply (Hc p _ p1 Hi E).
  - apply (Hh e p1). by apply (Hc p _ p1 Hi E).
Qed.

Lemma accounts_ret {A} (a : A) ex ex' rf pd post raised :
  post a = (ex', rf, pd) -> ex ≡ₚ ex' -> accounts (se_ret a) ex rf pd post raised.
Proof. intros Hp He p r p' Hi [= <- <-]. rewrite Hp. by eapply inv_perm. Qed.

Lemma accounts_raise {A} e ex rf pd post : accounts (A := A) (se_raise e) ex rf pd post ex.
Proof. by intros p r p' Hi [= <- <-]. Qed.

Lemma accounts_lift (r : result unit) ex rf pd : accounts (se_lift r) ex rf pd (fun _ => (ex, rf, pd)) ex.
Proof. intros p x p' Hi [= <- <-]. by destruct r. Qed.

Lemma accounts_opened answer ex rf pd :
  accounts (opened answer) ex rf pd (fun r => (option_list r ++ ex, rf, pd)) ex.
Proof.
  intros p r p' Hi. unfold opened, se_lift, se_bind, se_ret. destruct answer; [|by intros [= <- <-]].
  destruct (open_resource p) as [[x|] p1] eqn:E; [|done]. intros [= <- <-]. by eapply inv_open.
Qed.

Lemma accounts_opened_if b answer ex rf pd :
  accounts (opened_if b answer) ex rf pd (fun r => (option_list r ++ ex, rf, pd)) ex.
Proof. destruct b; [apply accounts_opened|by eapply accounts_ret]. Qed.

Lemma accounts_close r ex rf pd raised :
  accounts (close_resource r) (option_list r ++ ex) rf pd (fun _ => (ex, rf, pd)) raised.
Proof.
  destruct r as [r|]; [|eapply accounts_ret; [done|reflexivity]]. intros p x p' Hi H. pose proof (inv_release _ _ _ _ _ _ _ Hi H) as Hq. by injection H as <- _.
Qed.

(** Closing and raising again. *)
Lemma accounts_reraise {A B} (c : SE process A) e ex ex' rf pd (post : B -> _) :
  accounts c ex rf pd (fun _ => (ex', rf, pd)) ex' -> accounts (c ;;; se_raise e)%se ex rf pd post ex'.
Proof. intros Hc. eapply accounts_bind; [exact Hc|]. intros ?. split_and!; [done..|apply accounts_raise]. Qed.

Lemma accounts_close2 r1 r2 ex rf pd raised :
  accounts (close_resource r1 ;;; close_resource r2)%se (option_list r1 ++ option_list r2 ++ ex) rf pd (fun _ => (ex, rf, pd)) raised.
Proof. eapply accounts_bind; [apply accounts_close|]. intros ?. split_and!; [done..|apply accounts_close]. Qed.

Lemma accounts_perm {A} (c : SE process A) ex0 ex rf pd post raised :
  accounts c ex rf pd post raised -> ex0 ≡ₚ ex -> accounts c ex0 rf pd post raised.
Proof. intros Hc He p r p' Hi. apply Hc. by eapply inv_perm. Qed.

Lemma accounts_stores c io ex rf pd :
  accounts (_open_execution_stores c io) ex rf pd (fun s => (stores_list (Some s) ++ ex, rf, pd)) ex.
Proof.
  eapply accounts_bind; [apply accounts_opened_if|]. intros paper. split_and!; [done..|].
  eapply accounts_bind; [eapply accounts_try; [apply accounts_opened_if|]|].
  - intros e. apply accounts_reraise, accounts_close.
  - intros real. split_and!; [done..|]. eapply accounts_ret; [done|]. cbn. perm.
Qed.

(** A service more, with its worker. *)
Lemma inv_added p p' sv w ex rf pd :
  inv p (resources sv ++ ex) rf pd -> sv_closed sv = false -> sv_trade sv = None ->
  p_open p' = p_open p -> p_next p' = S (p_next p) -> p_instances p' = p_instances p ++ [sv] ->
  p_services p' = p_services p -> p_prepared p' = p_prepared p -> p_building p' = p_building p ->
  p_threads p' = p_threads p ++ [Connecting w (length (p_instances p))] ->
  inv p' ex (length (p_instances p) :: rf) pd.
Proof.
  intros [H1 H2 H3 H4 H5 H6 H7] Hc Ht E1 E2 E3 E4 E5 E6 E7. set (n := length (p_instances p)) in *.
  assert (Hn : forall j sv, p_instances p !! j = Some sv -> (j < n)%nat) by (intros j x Hj; by apply lookup_lt_Some in Hj).
  assert (Hlook : forall j x, p_instances p' !! j = Some x <-> p_instances p !! j = Some x \/ j = n /\ x = sv).
  { intros j x. rewrite E3. destruct (decide (j < n)%nat) as [Hj|Hj].
    - rewrite lookup_app_l by done. split; [by left|]. intros [?|[-> _]]; [done|lia].
    - rewrite lookup_app_r by (unfold n in *; lia). fold n. rewrite list_lookup_singleton_Some. apply Nat.nlt_ge in Hj. split; [|by intros [?%Hn|[-> <-]]; [lia|split; [lia|]]].
      intros [? <-]. right. split; [lia|done]. }
  assert (Hr : refs p' ++ n :: rf ≡ₚ n :: (refs p ++ rf)) by (unfold refs; rewrite E4, E6, E7; perm).
  assert (Hp : pending p' ++ pd ≡ₚ n :: (pending p ++ pd)) by (unfold pending; rewrite E7; perm).
  assert (Ho : owned p' ++ ex ≡ₚ owned p ++ resources sv ++ ex)
    by (unfold owned; rewrite E3, E5, E7; assert (Hh : held sv ≡ₚ resources sv) by (unfold held; by rewrite Hc); perm).
  split.
  - by rewrite Ho, E1.
  - by rewrite E1.
  - rewrite E1, E2. eapply Forall_impl; [exact H3|]. cbn. lia.
  - rewrite Hr. apply NoDup_cons. split; [|done]. intros (x & Hx%Hn & _)%H5. lia.
  - intros i. rewrite Hr, elem_of_cons, H5. unfold alive. setoid_rewrite Hlook. naive_solver.
  - rewrite Hp. apply NoDup_cons. split; [|done]. intros (x & Hx%Hn & _)%H7. lia.
  - intros i. rewrite Hp, elem_of_cons. setoid_rewrite Hlook. intros [->|Hi]; [by exists sv; auto|].
    destruct (H7 i Hi) as (x & ? & ?). eauto.
Qed.

Lemma accounts_added paper real controls quote ex rf pd raised :
  accounts (i <- add_service paper real controls quote ;; _ <- connect i ;; se_ret i)%se
    (option_list quote ++ option_list controls ++ stores_list (Some (paper, real)) ++ ex) rf pd
    (fun i => (ex, i :: rf, pd)) raised.
Proof.
  intros p r p' Hi. unfold add_service, connect, se_bind, se_ret. cbn [p_instances with_instances].
  rewrite list_lookup_middle by done. cbn [sv_future]. intros [= <- <-].
  set (sv := Build_service _ _ _ _ _ _ _).
  eapply (inv_added p _ sv); try done; [eapply inv_perm; [exact Hi| |done..]; unfold resources; cbn; perm|].
  cbn [p_instances with_instances]. by rewrite insert_app_r_alt, Nat.sub_diag by lia.
Qed.

(** Whatever a build meets, what it opened is a service's or released. *)
Lemma start_services_inv c io p r p' :
  inv p [] [] [] -> start_services c io p = (r, p') ->
  match r with Ok i => inv p' [] [i] [] | Err _ => inv p' [] [] [] end.
Proof.
  intros Hi. unfold start_services, se_get, se_modify. unfold se_bind at 1 2.
  assert (Hi0 : inv (with_held (p_services p) None (p_building p) p) (stores_list (p_prepared p) ++ []) [] [])
    by (eapply inv_moved; [exact Hi|done..| | |]; perm).
  revert Hi0. generalize (with_held (p_services p) None (p_building p) p). intros p0 Hi0 Hrun.
  match type of Hrun with ?c p0 = _ => assert (Ha : accounts c (stores_list (p_prepared p) ++ []) [] [] (fun i => ([], [i], [])) []);
    [|specialize (Ha p0 r p' Hi0 Hrun); by destruct r] end.
  eapply accounts_bind.
  - instantiate (1 := fun s => (stores_list (Some s) ++ [], [], [])).
    destruct (p_prepared p) as [stores|]; [eapply accounts_ret; done|].
    eapply accounts_bind; [apply accounts_lift|]. intros ?. split_and!; [done..|]. apply accounts_stores.
  - intros [paper real]. split_and!; [done..|]. cbn [fst snd].
    assert (Hcs : forall raised, accounts (close_resource paper ;;; close_resource real)%se
      (stores_list (Some (paper, real)) ++ []) [] [] (fun _ => ([], [], [])) raised).
    { intros raised. eapply accounts_perm; [apply accounts_close2|]. cbn. perm. }
    eapply accounts_bind; [eapply accounts_try; [apply accounts_opened_if|intros e; by apply accounts_reraise]|].
    intros controls. split_and!; [done..|].
    assert (Hre : forall e A post, accounts (A := A)
      ((close_resource paper ;;; close_resource real) ;;; close_resource controls ;;; se_raise e)%se
      (option_list controls ++ stores_list (Some (paper, real)) ++ []) [] [] post []).
    { intros e A post. eapply accounts_perm with (ex := option_list paper ++ option_list real ++ option_list controls ++ []); [|cbn; perm].
      eapply accounts_bind; [apply accounts_close2|]. intros ?. split_and!; [done..|]. apply accounts_reraise, accounts_close. }
    eapply accounts_bind; [eapply accounts_try; [apply accounts_lift|intros e; apply Hre]|]. intros ?. split_and!; [done..|].
    eapply accounts_bind; [eapply accounts_try; [apply accounts_lift|intros e; apply Hre]|]. intros ?. split_and!; [done..|].
    eapply accounts_bind; [eapply accounts_try; [apply accounts_opened|intros e; eapply accounts_ret; [|reflexivity]]|].
    + done.
    + intros quote. split_and!; [done..|]. apply accounts_added.
Qed.

Lemma flat_map_insert {A B} (f : A -> list B) l i x y :
  l !! i = Some x -> exists k, flat_map f l ≡ₚ f x ++ k /\ flat_map f (<[i := y]> l) ≡ₚ f y ++ k.
Proof.
  intros Hx. exists (flat_map f (take i l ++ drop (S i) l)). split.
  - rewrite <-(take_drop_middle l i x Hx) at 1. rewrite !flat_map_app. cbn. apply Permutation_app_swap_app.
  - rewrite insert_take_drop by (by eapply lookup_lt_Some). rewrite !flat_map_app. cbn. apply Permutation_app_swap_app.
Qed.

(** A service closed hands over what it has. *)
Lemma shut_inv i p ex rf pd rs p' :
  inv p ex (i :: rf) pd -> shut i p = (Ok rs, p') -> inv p' (rs ++ ex) rf pd.
Proof.
  intros [H1 H2 H3 H4 H5 H6 H7]. destruct (proj1 (H5 i)) as (sv & Hsv & Hc); [set_solver|]. unfold shut. rewrite Hsv.
  set (sv' := Build_service _ _ _ _ _ _ _). intros [= <- <-].
  assert (Hr : refs p ++ i :: rf ≡ₚ i :: (refs p ++ rf)) by perm.
  assert (Hd : i ∉ refs p ++ rf) by (rewrite Hr in H4; by apply NoDup_cons in H4 as [? _]).
  assert (Hlt := lookup_lt_Some _ _ _ Hsv). split; cbn [p_open p_next with_instances]; try done.
  - destruct (flat_map_insert held _ i sv sv' Hsv) as (k & Hk & Hk'). assert (Hh : held sv ≡ₚ resources sv) by (unfold held; by rewrite Hc).
    assert (Hh' : held sv' ≡ₚ []) by done. etransitivity; [|exact H1]. clear H1 Hr. perm.
  - rewrite Hr in H4. by apply NoDup_cons in H4 as [_ ?].
  - intros j. unfold alive. cbn [p_instances with_instances]. change (refs (with_instances _ p)) with (refs p).
    destruct (decide (j = i)) as [->|Hj].
    + rewrite list_lookup_insert_eq by done. split; [done|]. by intros (x & [= <-] & ?).
    + rewrite list_lookup_insert_ne by done. rewrite <-(H5 j), Hr. set_solver.
  - intros j Hj. cbn [p_instances with_instances]. destruct (decide (j = i)) as [->|Hn].
    + rewrite list_lookup_insert_eq by done. by exists sv'.
    + rewrite list_lookup_insert_ne by done. by apply H7.
Qed.

(** A worker that is not to publish any more. *)
Lemma inv_drop p ex rf i pd : inv p ex rf (i :: pd) -> inv p ex rf pd.
Proof.
  intros [H1 H2 H3 H4 H5 H6 H7]. assert (Hp : pending p ++ i :: pd ≡ₚ i :: (pending p ++ pd)) by perm.
  rewrite Hp in H6. apply NoDup_cons in H6 as [_ H6]. split; try done. intros j Hj. apply H7. rewrite Hp. by right.
Qed.

(** A context is published, or the worker keeps it to close it. *)
Lemma publish_inv i ctx p ex rf pd b p' :
  inv p (ctx :: ex) rf (i :: pd) -> publish i ctx p = (Ok b, p') -> inv p' (if b then ctx :: ex else ex) rf pd.
Proof.
  intros Hi. pose proof (inv_drop _ _ _ _ _ Hi) as Hi'.
  unfold publish. destruct (p_instances p !! i) as [sv|] eqn:Hsv; [|by intros [= <- <-]].
  destruct (sv_closed sv) eqn:Hc; intros [= <- <-]; [done|]. set (sv' := Build_service _ _ _ _ _ _ _).
  destruct Hi as [_ _ _ _ _ H6 H7], Hi' as [H1 H2 H3 H4 H5 H6' H7'].
  destruct (H7 i) as (x & Hx & Ht); [set_solver|]. rewrite Hsv in Hx. injection Hx as <-.
  assert (Hp : pending p ++ i :: pd ≡ₚ i :: (pending p ++ pd)) by perm.
  assert (Hd : i ∉ pending p ++ pd) by (rewrite Hp in H6; by apply NoDup_cons in H6 as [? _]).
  assert (Hlt := lookup_lt_Some _ _ _ Hsv). split; cbn [p_open p_next with_instances]; try done.
  - destruct (flat_map_insert held _ i sv sv' Hsv) as (k & Hk & Hk').
    assert (Hh : held sv' ≡ₚ ctx :: held sv) by (unfold held, resources; rewrite Hc; cbn; by rewrite Ht).
    etransitivity; [|exact H1]. clear H1 Hp. perm.
  - intros j. unfold alive. cbn [p_instances with_instances]. change (refs (with_instances _ p)) with (refs p).
    destruct (decide (j = i)) as [->|Hj].
    + rewrite list_lookup_insert_eq by done. rewrite H5. unfold alive. rewrite Hsv. naive_solver.
    + rewrite list_lookup_insert_ne by done. apply H5.
  - intros j Hj. cbn [p_instances with_instances]. change (pending (with_instances _ p)) with (pending p) in Hj.
    rewrite list_lookup_insert_ne by set_solver. by apply H7'.
Qed.

Lemma run_thread_threads a t p r p' : run_thread a t p = (r, p') -> p_threads p' = p_threads p /\ is_ok r = true.
Proof.
  unfold run_thread, shut, publish, release, open_resource, se_bind, se_ret, se_modify.
  repeat case_match; intros Hx; simplify_eq; done.
Qed.

Definition option_thread_inv (p : process) (t : option thread) : Prop :=
  match t with
  | Some t => inv p (thread_held t) (thread_refs t) (thread_pending t)
  | None => inv p [] [] []
  end.

Lemma run_thread_inv a t p t' p' :
  inv p (thread_held t) (thread_refs t) (thread_pending t) -> run_thread a t p = (Ok t', p') -> option_thread_inv p' t'.
Proof.
  destruct t as [w i|w i ctx|w i|w [|r rs] [i|]]; cbn [thread_held thread_refs thread_pending option_list run_thread]; intros Hi.
  - destruct a; [|intros [= <- <-]; by eapply inv_drop|by intros [= <- <-]].
    intros H. apply se_bind_ok in H as (ctx & p1 & H1 & [= <- <-]). by eapply inv_open.
  - destruct a; [|intros [= <- <-]; by eapply inv_drop|by intros [= <- <-]].
    intros H. apply se_bind_ok in H as (b & p1 & H1 & [= <- <-]).
    eapply publish_inv in H1; [|exact Hi]. by destruct b.
  - by destruct a; intros [= <- <-].
  - intros H. apply se_bind_ok in H as (rs & p1 & H1 & [= <- <-]). eapply shut_inv in H1; [|exact Hi].
    by rewrite app_nil_r in H1.
  - by intros [= <- <-].
  - intros H. apply se_bind_ok in H as (x & p1 & H1 & [= <- <-]). by eapply inv_release.
  - intros H. apply se_bind_ok in H as (x & p1 & H1 & [= <- <-]). by eapply inv_release.
Qed.

Lemma tstep_inv p p' : inv p [] [] [] -> tstep p p' -> inv p' [] [] [].
Proof.
  intros Hi Ht. destruct Ht as [l1 t l2 a p t' p' Hl Hr]. apply (inv_take p l1 t l2) in Hi; [|done]. rewrite !app_nil_r in Hi.
  destruct (run_thread_threads _ _ _ _ _ Hr) as [Hth _]. apply run_thread_inv in Hr; [|done]. cbn in Hth.
  destruct t' as [t'|]; cbn in *.
  - apply inv_put; [done|]. by rewrite !app_nil_r.
  - eapply inv_moved; [exact Hr|done..| | |]; unfold owned, refs, pending; cbn; by rewrite Hth.
Qed.

(** What the module holds changes only where the code assigns it. *)
Definition same_module (p p' : process) : Prop := p_services p' = p_services p /\ p_building p' = p_building p.
Definition same_held (p p' : process) : Prop := same_module p p' /\ p_prepared p' = p_prepared p.

#[local] Instance same_module_preorder : PreOrder same_module.
Proof. split; [by intros p|]. intros p q r [] []. split; congruence. Qed.
#[local] Instance same_held_preorder : PreOrder same_held.
Proof. split; [by intros p|]. intros p q r [[] ?] [[] ?]. split; [split|]; congruence. Qed.

Ltac keeps :=
  repeat match goal with
  | |- preserves ?R (se_bind _ _) => apply (preserves_bind R); [|intros ?]
  | |- preserves ?R (se_try _ _) => apply (preserves_try R); [|intros ?]
  end; auto with preserves.

Lemma held_opened answer : preserves same_held (opened answer).
Proof. intros p r p'. unfold opened, se_bind, se_lift. destruct answer; by intros [= <- <-]. Qed.
Lemma held_opened_if b answer : preserves same_held (opened_if b answer).
Proof. destruct b; [apply held_opened|apply preserves_ret, _]. Qed.
Lemma held_close r : preserves same_held (close_resource r).
Proof. intros p x p'. destruct r; by intros [= <- <-]. Qed.
#[local] Hint Resolve held_opened held_opened_if held_close : preserves.

Lemma held_stores c io : preserves same_held (_open_execution_stores c io).
Proof. unfold _open_execution_stores. keeps. Qed.
#[local] Hint Resolve held_stores : preserves.

Lemma module_of_held {A} (c : SE process A) : preserves same_held c -> preserves same_module c.
Proof. intros Hc p r p' H. by destruct (Hc p r p' H). Qed.
#[local] Hint Resolve module_of_held : preserves.

Lemma module_start c io : preserves same_module (start_services c io).
Proof.
  assert (Hc : forall i, preserves same_module (connect i)) by (intros i p r p'; unfold connect; case_match; by intros [= <- <-]).
  assert (Ha : forall a b c d, preserves same_module (add_service a b c d)) by (intros * p r p' [= <- <-]; done).
  unfold start_services, connect_quote. keeps; [by intros p r p' [= <- <-]|]. case_match; keeps.
Qed.

(** ** The theorems *)

Lemma main_prepare_inv c io p r p' : inv p [] [] [] -> main_prepare c io p = (r, p') -> inv p' [] [] [].
Proof.
  intros Hi. unfold main_prepare, se_get. unfold se_bind at 1.
  destruct (p_services p) eqn:Es; [by intros [= <- <-]|]. destruct (p_prepared p) eqn:Ep; [by intros [= <- <-]|].
  destruct (_ || _); [|by intros [= <- <-]]. unfold se_bind. destruct (_open_execution_stores c io p) as [[s|e] p1] eqn:E;
    pose proof (accounts_stores c io [] [] [] _ _ _ Hi E) as Hi1; intros [= <- <-]; [|done].
  destruct (held_stores c io _ _ _ E) as [_ Hp]. rewrite Ep in Hp.
  eapply inv_moved; [exact Hi1|done..| | |]; unfold owned; cbn; rewrite ?Hp; perm.
Qed.

Lemma get_services_inv c io p r p' :
  p_building p = None -> inv p [] [] [] -> get_services c io p = (r, p') -> inv p' [] [] [].
Proof.
  intros Hb Hi. unfold get_services, se_get. unfold se_bind at 1. destruct (p_services p) eqn:Es; [by intros [= <- <-]|].
  unfold se_bind. destruct (start_services c io p) as [[i|e] p1] eqn:E;
    pose proof (start_services_inv c io _ _ _ Hi E) as Hi1; intros [= <- <-]; [|done].
  destruct (module_start c io _ _ _ E) as [Hs Hbu]. rewrite Hb in Hbu.
  eapply inv_moved; [exact Hi1|done..| | |]; unfold refs; cbn; rewrite ?Hbu; perm.
Qed.

Lemma run_thread_module a t p r p' : run_thread a t p = (r, p') -> same_held p p'.
Proof.
  unfold run_thread, shut, publish, release, open_resource, se_bind, se_ret, se_modify.
  repeat case_match; intros Hx; simplify_eq; done.
Qed.

(** No services are published while others are built. *)
Definition sound (p : process) : Prop := inv p [] [] [] /\ (p_building p = None \/ p_services p = None).

Lemma pstep_sound c p p' : sound p -> pstep c p p' -> sound p'.
Proof.
  intros [Hi Hone] Hs. destruct Hs as [io p r p' Hb E|io p r p' Hb E|p i Hb|p i Hb|p Hb|p p' Ht].
  - split; [by eapply main_prepare_inv|]. left. revert E. unfold main_prepare, se_get, se_bind.
    destruct (p_services p); [by intros [= <- <-]|]. destruct (p_prepared p); [by intros [= <- <-]|].
    destruct (_ || _); [|by intros [= <- <-]]. destruct (_open_execution_stores c io p) as [[s|e] p1] eqn:E;
      destruct (held_stores c io _ _ _ E) as [[_ Hbu] _]; intros [= <- <-]; cbn; congruence.
  - split; [by eapply get_services_inv|]. revert E. unfold get_services, se_get, se_bind.
    destruct (p_services p) eqn:Es; [intros [= <- <-]; by left|]. destruct (start_services c io p) as [[s|e] p1] eqn:E;
      destruct (module_start c io _ _ _ E) as [Hs Hbu]; intros [= <- <-]; [right|left]; cbn; congruence.
  - split; [|by left]. destruct Hone as [?|Hn]; [congruence|].
    eapply inv_moved; [exact Hi|done..| | |]; unfold refs, owned; cbn; rewrite ?Hb, ?Hn; perm.
  - split; [|by left]. eapply inv_moved; [exact Hi|done..| | |]; unfold refs, owned; cbn; rewrite ?Hb; perm.
  - split; [|by left]. eapply inv_moved; [exact Hi|done..| | |]; unfold refs, owned; cbn; rewrite ?Hb; destruct (p_services p); cbn; perm.
  - split; [by eapply tstep_inv|]. destruct Ht as [l1 t l2 a p t' p' Hl Hr].
    destruct (run_thread_module _ _ _ _ _ Hr) as [[Hs Hb] _]. cbn in *. by rewrite Hs, Hb.
Qed.

Lemma reachable_sound c p : star (pstep c) pinit p -> sound p.
Proof.
  apply (star_invariant (pstep c) sound); [intros x y; apply pstep_sound|]. split; [apply inv_init|by left].
Qed.

(** *** Closing *)

Definition is_closing (t : thread) : bool := match t with Closing _ _ _ => true | _ => false end.

(** The steps of the closers themselves, and how many they have left. *)
Inductive cstep : process -> process -> Prop :=
  | c_run l1 t l2 a p t' p' :
      is_closing t = true -> p_threads p = l1 ++ t :: l2 ->
      run_thread a t (with_threads (l1 ++ l2) p) = (Ok t', p') ->
      cstep p (with_threads (l1 ++ option_list t' ++ l2) p').
Definition work (t : thread) : nat :=
  match t with
  | Closing _ rs next => length rs + match next with Some _ => 7 | None => 1 end
  | _ => 0
  end.
Definition closing_left (p : process) : nat := sum_list_with work (p_threads p).

Lemma cstep_tstep p p' : cstep p p' -> tstep p p'.
Proof. intros [l1 t l2 a q t' q' _ Hl Hr]. by eapply t_run. Qed.

Lemma resources_length sv : (length (resources sv) <= 5)%nat.
Proof. unfold resources. rewrite !length_app. destruct sv as [[] [] [] [] []]; cbn; lia. Qed.

Lemma closing_work a t p t' p' :
  is_closing t = true -> run_thread a t p = (Ok t', p') -> (S (sum_list_with work (option_list t')) <= work t)%nat.
Proof.
  destruct t as [w i|w i ctx|w i|w [|r rs] [i|]]; try done; intros _; cbn [run_thread]; intros H.
  - apply se_bind_ok in H as (rs & p1 & H1 & [= <- <-]). unfold shut in H1. destruct (p_instances p !! i) as [sv|].
    + injection H1 as <- <-. pose proof (resources_length sv). cbn. lia.
    + injection H1 as <- <-. cbn. lia.
  - injection H as <- <-. cbn. lia.
  - apply se_bind_ok in H as (x & p1 & H1 & [= <- <-]). cbn. lia.
  - apply se_bind_ok in H as (x & p1 & H1 & [= <- <-]). cbn. lia.
Qed.

Lemma cstep_work p p' : cstep p p' -> (S (closing_left p') <= closing_left p)%nat.
Proof.
  intros [l1 t l2 a q t' q' Hc Hl Hr]. pose proof (closing_work _ _ _ _ _ Hc Hr). unfold closing_left. cbn. rewrite Hl.
  rewrite !sum_list_with_app. cbn. rewrite ?sum_list_with_app. lia.
Qed.

(** A closer never waits for anybody. *)
Lemma closer_moves p : (exists t, t ∈ p_threads p /\ is_closing t = true) -> exists p', cstep p p'.
Proof.
  intros (t & (l1 & l2 & Hl)%list_elem_of_split & Hc).
  destruct (run_thread Retries t (with_threads (l1 ++ l2) p)) as [[t'|e] q] eqn:Er.
  - eexists. by apply (c_run l1 t l2 Retries p t' q).
  - by destruct (run_thread_threads _ _ _ _ _ Er).
Qed.

(** Once nothing is published and no closer is left, every service is closed and
    what is open is in the hands of workers that have not found that out yet. *)
Lemma closed_left p :
  inv p [] [] [] -> p_services p = None -> p_building p = None -> p_prepared p = None ->
  (forall t, t ∈ p_threads p -> is_closing t = false) ->
  (forall sv, sv ∈ p_instances p -> sv_closed sv = true) /\ p_open p ≡ₚ flat_map thread_held (p_threads p).
Proof.
  intros [H1 _ _ _ H5 _ _] Es Eb Ep Et. rewrite app_nil_r in H1.
  assert (Href : flat_map thread_refs (p_threads p) = []).
  { clear -Et. induction (p_threads p) as [|t l IH]; [done|]. cbn.
    rewrite IH by (intros t' Ht'; apply Et; by right). assert (Ht := Et t ltac:(by left)). by destruct t. }
  assert (Hall : forall i sv, p_instances p !! i = Some sv -> sv_closed sv = true).
  { intros i sv Hsv. destruct (sv_closed sv) eqn:Hc; [done|]. exfalso. assert (Hin : i ∈ refs p ++ []) by (apply H5; by exists sv).
    unfold refs in Hin. rewrite Es, Eb, Href in Hin. by apply elem_of_nil in Hin. }
  assert (Hheld : flat_map held (p_instances p) = []).
  { clear -Hall. induction (p_instances p) as [|sv l IH]; [done|]. cbn. unfold held at 1. rewrite (Hall 0%nat sv) by done.
    apply IH. intros i. apply (Hall (S i)). }
  split.
  - intros sv [i Hi]%list_elem_of_lookup. by eapply Hall.
  - rewrite <-H1. unfold owned. by rewrite Ep, Hheld.
Qed.

Lemma nothing_left p :
  inv p [] [] [] -> p_services p = None -> p_building p = None -> p_prepared p = None -> p_threads p = [] -> p_open p = [].
Proof.
  intros Hi Es Eb Ep Et. destruct (closed_left p Hi Es Eb Ep) as [_ H]; [intros t; rewrite Et; by intros ?%elem_of_nil|].
  rewrite Et in H. by apply Permutation_nil_r in H.
Qed.

(** C38 Every connection has one owner.  Over any interleaving of get_services,
    close_services, the preparation of main, builds that fail anywhere and
    connection workers that finish at any time: nothing is open twice or closed
    twice, everything open is either held by the module, by a service that is not
    closed or by a thread that will close it, the published services keep what
    they were given, and once nothing is published and no thread is left nothing
    is open. *)
Theorem connections_owned_once c p :
  star (pstep c) pinit p ->
  NoDup (p_open p)
  /\ owned p ≡ₚ p_open p
  /\ (forall i, p_services p = Some i -> exists sv, p_instances p !! i = Some sv /\ sv_closed sv = false
        /\ (forall r, r ∈ resources sv -> r ∈ p_open p)
        /\ (forall w rs next, Closing w rs next ∈ p_threads p -> (forall r, r ∈ resources sv -> r ∉ rs) /\ next <> Some i))
  /\ (p_services p = None -> p_building p = None -> p_prepared p = None -> p_threads p = [] -> p_open p = []).
Proof.
  intros Hs. pose proof (proj1 (reachable_sound c p Hs)) as Hi0. destruct (reachable_sound c p Hs) as [[H1 H2 H3 H4 H5 H6 H7] Hone]. rewrite app_nil_r in H1, H4.
  split_and!; [done|done| |].
  - intros i Hi. destruct (proj1 (H5 i)) as (sv & Hsv & Hc); [unfold refs; rewrite Hi; set_solver|]. exists sv.
    destruct (flat_map_insert held _ i sv sv Hsv) as (k & Hk & _). assert (Hh : held sv = resources sv) by (unfold held; by rewrite Hc).
    split_and!; [done..| |].
    + intros r Hr. rewrite <-H1. unfold owned. rewrite Hk, Hh. set_solver.
    + intros w rs next (l1 & l2 & Hl)%list_elem_of_split. split.
      * intros r Hr Hin. assert (Hd : NoDup (owned p)) by (by rewrite H1). unfold owned in Hd.
        rewrite Hk, Hh, Hl, flat_map_app in Hd. cbn in Hd. apply NoDup_app in Hd as (_ & _ & Hd).
        rewrite <-app_assoc in Hd. apply NoDup_app in Hd as (_ & Hd & _). apply (Hd r Hr). set_solver.
      * intros ->. unfold refs in H4. rewrite Hi, Hl, flat_map_app in H4. cbn in H4. apply NoDup_cons in H4 as [H4 _]. set_solver.
  - by apply nothing_left.
Qed.

(** C39 Closing does not wait for the gateway.  After close_services, however the
    threads are scheduled and however long the SDK's constructor goes on retrying:
    as long as a closer is left one can move, needing nobody else, and the closers
    have a bounded number of steps in all; and whenever no closer is left every
    service is closed and everything that is still open is a context that a
    connection worker has just got from the SDK.  No such worker publishes it: its
    next step hands it to a closer.  So once the workers that are left are all
    still in the constructor, every store and connection of the process is
    closed. *)
Theorem close_releases_everything c p p' :
  star (pstep c) pinit p -> p_building p = None -> star tstep (close_services p) p' ->
  ((exists t, t ∈ p_threads p' /\ is_closing t = true) -> exists p'', cstep p' p'')
  /\ (forall n p'', nsteps cstep n p' p'' -> (n + closing_left p'' <= closing_left p')%nat)
  /\ ((forall t, t ∈ p_threads p' -> is_closing t = false) ->
       (forall sv, sv ∈ p_instances p' -> sv_closed sv = true)
       /\ (forall r, r ∈ p_open p' -> exists w i, Connected w i r ∈ p_threads p')
       /\ (forall w i ctx a q t, Connected w i ctx ∈ p_threads p' -> a <> Retries ->
             fst (run_thread a (Connected w i ctx) (with_threads q p')) = Ok t -> t = Some (Closing (Some w) [ctx] None))
       /\ ((forall t, t ∈ p_threads p' -> exists w i, t = Connecting w i) -> p_open p' = [])).
Proof.
  intros Hs Hb Hn. assert (Hheld : same_held (close_services p) p').
  { revert Hn. apply (star_invariant tstep (same_held (close_services p))); [|reflexivity].
    intros x y Hx Hxy. etransitivity; [exact Hx|]. destruct Hxy as [l1 t l2 a q t' q' Hl Hr].
    by apply run_thread_module in Hr. }
  assert (Hsound : sound p').
  { assert (Hq : sound (close_services p)) by (eapply pstep_sound; [by eapply reachable_sound|by apply (ps_close c)]).
    revert Hn. apply (star_invariant tstep sound); [|done]. intros x y Hx Hxy. by apply (pstep_sound c x y Hx), ps_thread. }
  split_and!; [apply closer_moves| |].
  - intros n p'' H. clear -H. induction H as [x|n x y z Hxy _ IH]; [done|]. apply cstep_work in Hxy. lia.
  - intros Et. destruct Hheld as [[Es Eb] Ep].
    destruct (closed_left p' (proj1 Hsound)) as [Hall Hopen]; [done|by rewrite Eb|done|done|].
    split_and!; [exact Hall| | |].
    + intros r Hr. rewrite Hopen in Hr. apply list_elem_of_In, in_flat_map in Hr as (t & Ht & Hr).
      apply list_elem_of_In in Ht. specialize (Et t Ht). destruct t as [| w i ctx| |]; cbn in Hr; [done| |done|done].
      destruct Hr as [->|[]]. by exists w, i.
    + intros w i ctx a q t Ht Ha. cbn [run_thread]. destruct a; [|by intros [= <-]|done].
      unfold se_bind, publish. cbn [p_instances with_threads]. destruct (p_instances p' !! i) as [sv|] eqn:Hsv; [|by intros [= <-]].
      rewrite (Hall sv) by (by eapply list_elem_of_lookup_2). by intros [= <-].
    + intros Hc. assert (E : flat_map thread_held (p_threads p') = []).
      { clear -Hc. induction (p_threads p') as [|t l IH]; [done|]. cbn. destruct (Hc t ltac:(by left)) as (w & i & ->).
        cbn. apply IH. intros t' Ht'. apply Hc. by right. }
      rewrite E in Hopen. by apply Permutation_nil_r in Hopen.
Qed.

(** ** Examples *)

Definition run_nth (k : nat) (ok : sdk_answer) (p : process) : process :=
  match p_threads p !! k with
  | None => p
  | Some t =>
      let l1 := take k (p_threads p) in let l2 := drop (S k) (p_threads p) in
      match run_thread ok t (with_threads (l1 ++ l2) p) with
      | (Ok t', q) => with_threads (l1 ++ option_list t' ++ l2) q
      | (Err _, _) => p
      end
  end.

Lemma run_nth_tstep k ok p t : p_threads p !! k = Some t -> tstep p (run_nth k ok p).
Proof.
  intros Hk. unfold run_nth. rewrite Hk. destruct (run_thread ok t _) as [[t'|e] q] eqn:E.
  - eapply t_run; [|exact E]. by rewrite take_drop_middle.
  - by destruct (run_thread_threads _ _ _ _ _ E).
Qed.

Lemma iter_star k ok p n :
  forallb (fun m => match p_threads (Nat.iter m (run_nth k ok) p) !! k with Some _ => true | None => false end) (seq 0 n) = true ->
  star tstep p (Nat.iter n (run_nth k ok) p).
Proof.
  induction n as [|n IH]; [intros _; constructor|]. rewrite seq_S, forallb_app. intros [H1 H2]%andb_true_iff.
  eapply star_snoc; [by apply IH|]. cbn in H2. case_match eqn:E; [by eapply run_nth_tstep|done].
Qed.

Definition demo_config : config := {| cf_journal := true; cf_real_journal := true; cf_controls := true |}.
Definition demo_answers (trade : result unit) : build_io :=
  {| bi_settings := Ok tt; bi_paper := Ok tt; bi_real := Ok tt; bi_controls := Ok tt; bi_moomoo := Ok tt; bi_trade := trade;
     bi_quote := Ok tt |}.
Definition demo_prepared : process := snd (main_prepare demo_config (demo_answers (Ok tt)) pinit).
Definition demo_built : process := built 0 (snd (get_services demo_config (demo_answers (Ok tt)) demo_prepared)).
Definition demo_closed : process := close_services demo_built.

(** The stores of [main], the controls and the quote connection; the trade
    constructor is still retrying. *)
Example built_ex : p_open demo_built = [3; 2; 1; 0]%nat /\ p_threads demo_built = [Connecting 4 0] /\ p_services demo_built = Some 0%nat.
Proof. by vm_compute. Qed.

(** A build that fails late leaves nothing open. *)
Example failed_build_ex :
  let '(r, p) := get_services demo_config (demo_answers (Err (ValueError "market"))) demo_prepared in
  (is_ok r, p_open p, p_prepared p) = (false, [], None).
Proof. by vm_compute. Qed.

(** The worker's constructor answers after the services were closed: it closes
    what it got. *)
Example late_connection_ex :
  let p := Nat.iter 6 (run_nth 1 Answers) demo_closed in
  let q := run_nth 0 Answers (run_nth 0 Answers p) in
  (p_open p, p_threads p) = ([], [Connecting 4 0]) /\ (p_open q, p_threads q) = ([5]%nat, [Closing (Some 4) [5] None])%nat
  /\ p_open (Nat.iter 2 (run_nth 0 Answers) q) = [].
Proof. by vm_compute. Qed.

(** On its own a trade service that is closed and connected again starts a second
    worker while the first is still at it; both publish, and nothing closes the
    context that was published first. *)
Example reconnected_ex :
  let p := snd ((i <- add_service None None None None ;; _ <- connect i ;; _ <- shut i ;; connect i)%se pinit) in
  let q := run_nth 1 Answers (run_nth 0 Answers (run_nth 1 Answers (run_nth 0 Answers p))) in
  p_threads p = [Connecting 0 0; Connecting 1 0]%nat
  /\ p_threads q = [Enforcing 0 0; Enforcing 1 0]%nat /\ map sv_trade (p_instances q) = [Some 3%nat]
  /\ p_open q = [3; 2]%nat /\ owned q = [3]%nat.
Proof. by vm_compute. Qed.

Lemma demo_built_reachable : star (pstep demo_config) pinit demo_built.
Proof.
  eapply star_snoc with (b := snd (get_services demo_config (demo_answers (Ok tt)) demo_prepared)); [|by apply ps_built].
  eapply star_snoc with (b := demo_prepared); [|by eapply (ps_get _ (demo_answers (Ok tt))); [|apply surjective_pairing]].
  eapply star_snoc with (b := pinit); [constructor|by eapply (ps_main _ (demo_answers (Ok tt))); [|apply surjective_pairing]].
Qed.

Lemma connections_owned_once_witness :
  p_services demo_built = Some 0%nat /\ exists sv, p_instances demo_built !! 0%nat = Some sv /\ forall r, r ∈ resources sv -> r ∈ p_open demo_built.
Proof.
  split; [done|]. destruct (connections_owned_once demo_config demo_built demo_built_reachable) as (_ & _ & T & _).
  destruct (T 0%nat ltac:(done)) as (sv & Hsv & _ & Hr & _). exists sv. split; [exact Hsv|exact Hr].
Defined.

(** OpenD is down all along: the worker still retries, and everything is closed. *)
Lemma close_releases_everything_witness :
  p_open demo_closed = [3; 2; 1; 0]%nat
  /\ exists p', star tstep demo_closed p' /\ p_threads p' = [Connecting 4 0]%nat /\ p_open p' = [].
Proof.
  split; [reflexivity|]. set (p' := Nat.iter 6 (run_nth 1 Retries) (run_nth 0 Retries demo_closed)).
  assert (Hn : star tstep demo_closed p').
  { eapply (star_trans tstep _ (run_nth 0 Retries demo_closed)).
    - eapply star_snoc; [constructor|]. eapply (run_nth_tstep 0 Retries). vm_compute. reflexivity.
    - apply (iter_star 1 Retries (run_nth 0 Retries demo_closed) 6). vm_compute. reflexivity. }
  assert (Et : p_threads p' = [Connecting 4 0]%nat) by (vm_compute; reflexivity).
  exists p'. split; [exact Hn|]. split; [exact Et|].
  destruct (close_releases_everything demo_config demo_built p' demo_built_reachable eq_refl Hn) as (_ & _ & T).
  destruct T as (_ & _ & _ & T).
  - intros t Ht. rewrite Et in Ht. apply list_elem_of_singleton in Ht. subst t. reflexivity.
  - apply T. intros t Ht. rewrite Et in Ht. apply list_elem_of_singleton in Ht. subst t. exists 4%nat, 0%nat. reflexivity.
Defined.
