(* ===== verification/AccountReads.v ===== *)
(** services/trade_service.py: the account reads (account list, summary, assets,
    positions, capacity, margin ratios, cash flow), over a log of SDK calls as in
    MarketData.

    The gateway's answers, the SDK's names and the attributes of its market
    enumeration are arguments.  A client's grants are those of its request. *)

From S2P Require Import Prelude PyStr PyVal Validation Rules ClientAuth Paper Queries Agent MarketData.

#[local] Open Scope list_scope.

(** ** The methods *)

(** A read, with its arguments. *)
Inductive account_call : Type :=
  | GetAccounts (market trd_env : option val)
  | GetAccountSummary (trd_env acc_id : val) (currency : option string)
  | GetAssets (trd_env acc_id refresh_cache : val) (currency : option string)
  | GetPositions (trd_env acc_id code : val) (market : string) (pl_ratio_min pl_ratio_max refresh_cache show_option_strategy_view : val)
  | GetMaxTradable (trd_env acc_id order_type code price : val) (order_id : string) (adjust_limit session : val)
  | GetMarginRatio (code_list : val)
  | GetCashFlow (trd_env acc_id clearing_date : val).

Section reads.
Context `{SN : SessionNames}.
Context (gateway : list (string * dict) -> string -> dict -> sdk_answer) (sdk_name : string -> string -> val).
(** [getattr(TrdMarket, name)], and the service: its context, its reporting
    currency and the client's grants. *)
Context (trd_market : string -> option val) (connected : bool) (reporting_currency : option string) (g : option ClientGrants).

Definition require_trade : MD unit := md_refuse_if (negb connected) (RuntimeError "Trade context not connected").

(** The rows of [get_acc_list]. *)
Definition account_list : MD (list dict) :=
  (require_trade ;;; d <- queried gateway "get_acc_list" [] ;; md_give (as_frame "get_acc_list" d))%md.

(** [get_accounts] *)
Definition get_accounts (market trd_env : option val) : MD (list dict) :=
  (md_lift (optional_choice market VALID_TRADING_MARKETS) ;;;
   md_lift (optional_choice trd_env ["REAL"; "SIMULATE"]) ;;;
   rows <- account_list ;;
   md_lift (Queries.get_accounts g market trd_env (Ok rows)))%md.

(** [resolve_read_account] *)
Definition resolve_read_account (trd_env acc_id : val) : MD (string * Z) :=
  (environment <- md_lift (validate_choice trd_env ["REAL"; "SIMULATE"]) ;;
   requested <- md_lift (_exact_account_id acc_id) ;;
   md_lift (if requested =? 0 then Ok tt else check_account_access g (VStr environment) (VInt requested) false) ;;;
   rows <- account_list ;;
   md_lift (Queries.resolve_read_account g (Ok rows) trd_env acc_id))%md.

Definition first_record (rows : list dict) : dict := match rows with r :: _ => r | [] => [] end.
Definition scope (trd_env : string) (acc_id : Z) : dict := [("trd_env", VStr trd_env); ("acc_id", VInt acc_id)].

(** [_query_assets] *)
Definition currency_field (currency : option string) : dict :=
  match (match currency with None => reporting_currency | c => c end) with
  | Some c => if nonempty (upper (strip c)) then [("currency", VStr (upper (strip c)))] else []
  | None => []
  end.
Definition _query_assets (trd_env : string) (acc_id : Z) (refresh_cache : val) (currency : option string) : MD dict :=
  (require_trade ;;;
   d <- queried gateway "accinfo_query" (scope trd_env acc_id ++ [("refresh_cache", refresh_cache)] ++ currency_field currency) ;;
   rows <- md_give (as_frame "accinfo_query" d) ;;
   md_ret (first_record rows))%md.

(** [_query_positions] *)
Definition position_market (market : string) : val :=
  if negb (nonempty market) then sdk_name "TrdMarket" "NONE"
  else if mem (upper market) ["US"; "HK"; "CN"; "HKCC"; "SG"; "JP"] then sdk_name "TrdMarket" (upper market)
  else default (sdk_name "TrdMarket" "NONE") (trd_market (upper market)).
Definition _query_positions (trd_env : string) (acc_id : Z) (code : val) (market : string)
    (pl_ratio_min pl_ratio_max refresh_cache show_option_strategy_view : val) : MD (list dict) :=
  (require_trade ;;;
   d <- queried gateway "position_list_query"
          ([("code", code); ("position_market", position_market market); ("pl_ratio_min", pl_ratio_min); ("pl_ratio_max", pl_ratio_max)]
           ++ scope trd_env acc_id ++ [("refresh_cache", refresh_cache); ("show_option_strategy_view", show_option_strategy_view)]) ;;
   md_give (as_frame "position_list_query" d))%md.

(** [get_account_summary] *)
Definition get_account_summary (trd_env acc_id : val) (currency : option string) : MD dict :=
  (a <- resolve_read_account trd_env acc_id ;;
   assets <- _query_assets (fst a) (snd a) (VBool false) currency ;;
   positions <- _query_positions (fst a) (snd a) (VStr "") "" VNone VNone (VBool false) (VBool false) ;;
   md_ret [("assets", VDict assets); ("positions", VList (map VDict positions))])%md.

Definition get_assets (trd_env acc_id refresh_cache : val) (currency : option string) : MD dict :=
  (a <- resolve_read_account trd_env acc_id ;; _query_assets (fst a) (snd a) refresh_cache currency)%md.

Definition get_positions (trd_env acc_id code : val) (market : string)
    (pl_ratio_min pl_ratio_max refresh_cache show_option_strategy_view : val) : MD (list dict) :=
  (a <- resolve_read_account trd_env acc_id ;;
   _query_positions (fst a) (snd a) code market pl_ratio_min pl_ratio_max refresh_cache show_option_strategy_view)%md.

(** [get_max_tradable] *)
Definition get_max_tradable (trd_env acc_id order_type code price : val) (order_id : string) (adjust_limit session : val) : MD dict :=
  (a <- resolve_read_account trd_env acc_id ;;
   selected <- md_lift (normalize_order_session session "REAL") ;;
   require_trade ;;;
   d <- queried gateway "acctradinginfo_query"
          ([("order_type", order_type); ("code", code); ("price", price);
            ("order_id", if nonempty order_id then VStr order_id else VNone); ("adjust_limit", adjust_limit)]
           ++ scope (fst a) (snd a) ++ [("session", VStr selected)]) ;;
   rows <- md_give (as_frame "acctradinginfo_query" d) ;;
   md_ret (first_record rows))%md.

Definition get_margin_ratio (code_list : val) : MD (list dict) :=
  (require_trade ;;;
   d <- queried gateway "get_margin_ratio" [("code_list", code_list)] ;;
   md_give (as_frame "get_margin_ratio" d))%md.

Definition get_cash_flow (trd_env acc_id clearing_date : val) : MD (list dict) :=
  (a <- resolve_read_account trd_env acc_id ;;
   require_trade ;;;
   d <- queried gateway "get_acc_cash_flow" ([("clearing_date", clearing_date)] ++ scope (fst a) (snd a)) ;;
   md_give (as_frame "get_acc_cash_flow" d))%md.

Definition records (m : MD (list dict)) : MD market_reply := (l <- m ;; md_ret (Records l))%md.
Definition mapping (m : MD dict) : MD market_reply := (d <- m ;; md_ret (Mapping d))%md.

(** The tools of tools/account.py. *)
Definition account_read (c : account_call) : MD market_reply :=
  match c with
  | GetAccounts m e => records (get_accounts m e)
  | GetAccountSummary e a c => mapping (get_account_summary e a c)
  | GetAssets e a r c => mapping (get_assets e a r c)
  | GetPositions e a code m lo hi r v => records (get_positions e a code m lo hi r v)
  | GetMaxTradable e a o code p id l s => mapping (get_max_tradable e a o code p id l s)
  | GetMarginRatio l => records (get_margin_ratio l)
  | GetCashFlow e a d => records (get_cash_flow e a d)
  end.

(** The account a call asks for, if it is about one. *)
Definition account_of (c : account_call) : option (val * val) :=
  match c with
  | GetAccountSummary e a _ | GetAssets e a _ _ | GetPositions e a _ _ _ _ _ _ | GetMaxTradable e a _ _ _ _ _ _ | GetCashFlow e a _ => Some (e, a)
  | GetAccounts _ _ | GetMarginRatio _ => None
  end.

(** ** What is asked *)

(** The calls a computation adds are all of one kind. *)
Definition adds {A} (P : string * dict -> Prop) (m : MD A) : Prop := forall s r s',
  m s = (r, s') -> exists calls, m_calls s' = m_calls s ++ calls /\ Forall P calls.

Lemma adds_give {A} P (r : A + cause) : adds P (md_give r).
Proof. intros s x s' [= <- <-]. exists []. by rewrite app_nil_r. Qed.
Lemma adds_lift {A} P (r : result A) : adds P (md_lift r).
Proof. intros s x s' [= <- <-]. exists []. by rewrite app_nil_r. Qed.
Lemma adds_ret {A} P (a : A) : adds P (md_ret a).
Proof. apply (adds_give P (inl a)). Qed.
Lemma adds_bind {A B} P (m : MD A) (k : A -> MD B) : adds P m -> (forall a, adds P (k a)) -> adds P (md_bind m k).
Proof.
  intros Hm Hk s r s' H. unfold md_bind in H. destruct (m s) as [[a|c] s1] eqn:E; destruct (Hm _ _ _ E) as (c1 & H1 & F1).
  - destruct (Hk a _ _ _ H) as (c2 & H2 & F2). exists (c1 ++ c2). rewrite H2, H1, app_assoc. by split; [|apply Forall_app].
  - injection H as _ <-. by exists c1.
Qed.
Lemma adds_queried P operation params : P (operation, params) -> adds P (queried gateway operation params).
Proof.
  intros HP s r s' H. unfold queried, ask, md_bind, md_give in H. injection H as _ <-.
  exists [(operation, params)]. split; [done|]. by constructor.
Qed.

(** A call for one account. *)
Definition names (e : string) (a : Z) (call : string * dict) : Prop :=
  dget_none "trd_env" (snd call) = VStr e /\ dget_none "acc_id" (snd call) = VInt a.

Ltac adding :=
  repeat first [apply adds_queried; by split | apply adds_bind; [|intros ?] | apply adds_give | apply adds_lift | apply adds_ret].

Lemma assets_named e a refresh currency : adds (names e a) (_query_assets e a refresh currency).
Proof. unfold _query_assets, require_trade, md_refuse_if. adding. Qed.
Lemma positions_named e a code market lo hi refresh view : adds (names e a) (_query_positions e a code market lo hi refresh view).
Proof. unfold _query_positions, require_trade, md_refuse_if. adding. Qed.

(** Finding the account asks for the account list once, and what it finds is what
    Queries makes of that list. *)
Lemma resolved_from trd_env acc_id s r s' :
  resolve_read_account trd_env acc_id s = (r, s') ->
  (m_calls s' = m_calls s \/ m_calls s' = m_calls s ++ [("get_acc_list", [])])
  /\ forall x, r = inl x -> m_calls s' = m_calls s ++ [("get_acc_list", [])]
       /\ exists d rows, gateway (m_calls s) "get_acc_list" [] = Gave d /\ as_frame "get_acc_list" d = inl rows
            /\ Queries.resolve_read_account g (Ok rows) trd_env acc_id = Ok x.
Proof.
  unfold resolve_read_account, account_list, queried, ask, require_trade, md_refuse_if, md_lift, md_give. unfold md_bind.
  destruct (validate_choice _ _); [|intros [= <- <-]; by split; [left|]].
  destruct (_exact_account_id acc_id) as [z|]; [|intros [= <- <-]; by split; [left|]].
  destruct (if z =? 0 then _ else _) as [|e]; [|intros [= <- <-]; by split; [left|]].
  destruct (refuse_if _ _); [|intros [= <- <-]; by split; [left|]].
  destruct (gateway (m_calls s) "get_acc_list" []) as [e|e|m|d] eqn:Eg; cbn [plain_reply];
    try (intros [= <- <-]; by split; [right|]).
  destruct (as_frame "get_acc_list" d) as [rows|e] eqn:Ed; [|intros [= <- <-]; by split; [right|]].
  destruct (Queries.resolve_read_account g (Ok rows) trd_env acc_id) as [x|e] eqn:Er; intros [= <- <-]; (split; [by right|]); [|done].
  intros y [= <-]. split; [done|]. by exists d, rows.
Qed.

(** What follows once an account is found. *)
Lemma account_then {A} trd_env acc_id (k : string * Z -> MD A) s r s' :
  (forall e a, adds (names e a) (k (e, a))) ->
  md_bind (resolve_read_account trd_env acc_id) k s = (r, s') ->
  exists calls, m_calls s' = m_calls s ++ calls
  /\ (calls = [] \/ calls = [("get_acc_list", [])]
      \/ exists d rows e a rest, calls = ("get_acc_list", []) :: rest
           /\ gateway (m_calls s) "get_acc_list" [] = Gave d /\ as_frame "get_acc_list" d = inl rows
           /\ Queries.resolve_read_account g (Ok rows) trd_env acc_id = Ok (e, a) /\ Forall (names e a) rest).
Proof.
  intros Hk H. unfold md_bind in H. destruct (resolve_read_account trd_env acc_id s) as [[[e a]|c] s1] eqn:E;
    destruct (resolved_from _ _ _ _ _ E) as [Hc Hx].
  - destruct (Hx _ eq_refl) as (Hs & d & rows & Hg & Hf & Hq). destruct (Hk e a _ _ _ H) as (rest & Hr & Hn).
    exists (("get_acc_list", []) :: rest). rewrite Hr, Hs, <-app_assoc. split; [done|]. right. right. by exists d, rows, e, a, rest.
  - injection H as _ <-. destruct Hc as [Hc|Hc]; [exists []|exists [("get_acc_list", [])]]; rewrite Hc, ?app_nil_r; (split; [done|]); [by left|by right; left].
Qed.

Lemma md_bind_assoc {A B C} (m : MD A) (k : A -> MD B) (h : B -> MD C) s :
  md_bind (md_bind m k) h s = md_bind m (fun a => md_bind (k a) h) s.
Proof. unfold md_bind. by destruct (m s) as [[a|c] s1]. Qed.

Lemma account_read_asks c trd_env acc_id s r s' :
  account_of c = Some (trd_env, acc_id) -> account_read c s = (r, s') ->
  exists calls, m_calls s' = m_calls s ++ calls
  /\ (calls = [] \/ calls = [("get_acc_list", [])]
      \/ exists d rows e a rest, calls = ("get_acc_list", []) :: rest
           /\ gateway (m_calls s) "get_acc_list" [] = Gave d /\ as_frame "get_acc_list" d = inl rows
           /\ Queries.resolve_read_account g (Ok rows) trd_env acc_id = Ok (e, a) /\ Forall (names e a) rest).
Proof.
  intros Hc H. destruct c; simplify_eq/=; unfold mapping, records, get_account_summary, get_assets, get_positions, get_max_tradable,
    get_cash_flow, require_trade, md_refuse_if in H; rewrite md_bind_assoc in H; (eapply account_then; [|exact H]); intros e a; cbn [fst snd];
    repeat first [apply assets_named | apply positions_named | apply adds_queried; by split | apply adds_bind; [|intros ?]
                 | apply adds_give | apply adds_lift | apply adds_ret].
Qed.

(** The calls of the reads that are about no account. *)
Definition unscoped (call : string * dict) : Prop := call = ("get_acc_list", []) \/ fst call = "get_margin_ratio".

Lemma unscoped_asks c : account_of c = None -> adds unscoped (account_read c).
Proof.
  intros Hc. destruct c; simplify_eq/=; unfold records, get_accounts, account_list, get_margin_ratio, require_trade, md_refuse_if;
    repeat first [apply adds_queried; (by left) || (by right) | apply adds_bind; [|intros ?] | apply adds_give | apply adds_lift | apply adds_ret].
Qed.

(** The accounts a client is shown. *)
Lemma accounts_readable market trd_env s rows s' :
  account_read (GetAccounts market trd_env) s = (inl (Records rows), s') ->
  Forall (fun row => account_access_allowed g (dget_or "trd_env" (VStr "") row) (dget_or "acc_id" (VStr "") row) false = true) rows.
Proof.
  cbn [account_read]. unfold records, get_accounts, md_lift. unfold md_bind.
  destruct (optional_choice market _); [|done]. destruct (optional_choice trd_env _); [|done].
  destruct (account_list s) as [[l|x] s1]; [|done]. destruct (Queries.get_accounts g market trd_env (Ok l)) as [l'|x] eqn:E; [|done].
  intros [= <- <-]. unfold Queries.get_accounts in E. repeat (apply bind_ok in E as (? & _ & E)). injection E as <-.
  apply Forall_forall. intros row Hrow. unfold filter_readable_accounts in Hrow.
  apply list_elem_of_In, List.filter_In in Hrow as [_ ?]. done.
Qed.

Lemma resolved_environment rows trd_env acc_id e a :
  Queries.resolve_read_account g (Ok rows) trd_env acc_id = Ok (e, a) -> validate_choice trd_env ["REAL"; "SIMULATE"] = Ok e.
Proof.
  unfold Queries.resolve_read_account. intros Hr. apply bind_ok in Hr as (e' & -> & Hr). repeat (apply bind_ok in Hr as (? & _ & Hr)).
  repeat case_match; by simplify_eq.
Qed.

(** C24 Account reads stay with one account the client may read.  Whatever the
    gateway answers, a read that is about an account asks for the account list
    and then, at most, for one account in the environment it names: one the list
    holds in that environment and the client's grants let it read, the very one
    an explicit identifier names, and for zero the only readable one there is.
    Other reads name no account, and a client is shown no account it may not
    read. *)
Theorem account_reads_in_scope c s r s' :
  account_read c s = (r, s') ->
  exists calls, m_calls s' = m_calls s ++ calls
  /\ match account_of c with
     | None => Forall unscoped calls
     | Some (trd_env, acc_id) =>
         calls = [] \/ calls = [("get_acc_list", [])]
         \/ exists d rows row e a rest, calls = ("get_acc_list", []) :: rest /\ Forall (names e a) rest
              /\ gateway (m_calls s) "get_acc_list" [] = Gave d /\ as_frame "get_acc_list" d = inl rows
              /\ validate_choice trd_env ["REAL"; "SIMULATE"] = Ok e
              /\ row ∈ rows /\ is_str_eq e (dget_none "trd_env" row) = true /\ positive_account_id (dget_none "acc_id" row) = Ok a
              /\ account_access_allowed g (VStr e) (dget_or "acc_id" (VStr "") row) false = true
              /\ (_exact_account_id acc_id = Ok a /\ check_account_access g (VStr e) (VInt a) false = Ok tt
                  \/ _exact_account_id acc_id = Ok 0
                     /\ forall row', row' ∈ rows -> is_str_eq e (dget_none "trd_env" row') = true ->
                          account_access_allowed g (VStr e) (dget_or "acc_id" (VStr "") row') false = true ->
                          positive_account_id (dget_none "acc_id" row') = Ok a)
     end
  /\ (forall market trd_env rows, c = GetAccounts market trd_env -> r = inl (Records rows) ->
        Forall (fun row => account_access_allowed g (dget_or "trd_env" (VStr "") row) (dget_or "acc_id" (VStr "") row) false = true) rows).
Proof.
  intros H. assert (Hshown : forall market trd_env rows, c = GetAccounts market trd_env -> r = inl (Records rows) ->
    Forall (fun row => account_access_allowed g (dget_or "trd_env" (VStr "") row) (dget_or "acc_id" (VStr "") row) false = true) rows).
  { intros market trd_env rows -> ->. by eapply accounts_readable. }
  destruct (account_of c) as [[trd_env acc_id]|] eqn:Hc.
  - destruct (account_read_asks _ _ _ _ _ _ Hc H) as (calls & Hs & Hk). exists calls. split_and!; [done| |done].
    destruct Hk as [?|[?|(d & rows & e & a & rest & Hrest & Hg & Hf & Hr & Hn)]]; [by left|by right; left|right; right].
    destruct (read_account_scope _ _ _ _ _ _ Hr) as (_ & _ & (rows' & row & [= <-] & Hin & He & Ha & Hal & Hzero) & Hid).
    exists d, rows, row, e, a, rest. split_and!; try done.
    + by eapply resolved_environment.
    + destruct Hid as [Hz|[Hz Hck]]; [right; split; [done|by apply Hzero]|by left].
  - destruct (unscoped_asks c Hc _ _ _ H) as (calls & Hs & Hk). by exists calls.
Qed.

(** A computation that returns only on data. *)
Definition told {A} (m : MD A) : Prop := forall s x s', m s = (inl x, s') ->
  exists calls, m_calls s' = m_calls s ++ calls /\ all_gave gateway (m_calls s) calls.

Lemma told_give {A} (r : A + cause) : told (md_give r).
Proof. intros s x s' [= _ <-]. exists []. by rewrite app_nil_r. Qed.
Lemma told_lift {A} (r : result A) : told (md_lift r).
Proof. intros s x s' [= _ <-]. exists []. by rewrite app_nil_r. Qed.
Lemma told_bind {A B} (m : MD A) (k : A -> MD B) : told m -> (forall a, told (k a)) -> told (md_bind m k).
Proof.
  intros Hm Hk s x s' H. unfold md_bind in H. destruct (m s) as [[a|c] s1] eqn:E; [|done].
  destruct (Hm _ _ _ E) as (c1 & H1 & G1). destruct (Hk a _ _ _ H) as (c2 & H2 & G2). rewrite H1 in H2, G2.
  exists (c1 ++ c2). rewrite H2, app_assoc. split; [done|]. by apply all_gave_app.
Qed.
Lemma told_queried operation params : told (queried gateway operation params).
Proof.
  intros s x s' H. unfold queried, ask, md_bind, md_give in H. destruct (gateway (m_calls s) operation params) as [e|e|m|d] eqn:E; try done.
  injection H as _ <-. exists [(operation, params)]. split; [done|]. split; [by exists d|done].
Qed.

(** No success on a refused call: an account read returns only when every call
    it made was answered with data. *)
Theorem account_answers_told c s reply s' :
  account_read c s = (inl reply, s') ->
  exists calls, m_calls s' = m_calls s ++ calls /\ all_gave gateway (m_calls s) calls.
Proof.
  assert (Ht : told (account_read c)); [|by apply Ht].
  destruct c; cbn [account_read]; unfold mapping, records, get_accounts, get_account_summary, get_assets, get_positions, get_max_tradable,
    get_cash_flow, get_margin_ratio, resolve_read_account, account_list, _query_assets, _query_positions, require_trade, md_refuse_if;
    repeat first [apply told_queried | apply told_bind; [|intros ?] | apply told_lift | apply (told_give (inl _)) | apply told_give].
Qed.
End reads.

(** ** Examples *)

(** A gateway with two REAL accounts, of which the client may read the first. *)
Definition demo_account_gateway (before : list (string * dict)) (operation : string) (params : dict) : sdk_answer :=
  if bool_decide (operation = "get_acc_list") then
    Gave (Frame ["acc_id"; "trd_env"] [[("acc_id", VInt 281); ("trd_env", VStr "REAL")]; [("acc_id", VInt 282); ("trd_env", VStr "REAL")]])
  else if bool_decide (operation = "get_acc_cash_flow") then Declined (VStr "clearing_date required")
  else Gave (Frame ["code"] [[("code", VStr "US.AAPL"); ("acc_id", dget_none "acc_id" params)]]).
Definition demo_reader : ClientGrants := {| g_permissions := ["real_read"]; g_real := Some [281]; g_simulate := None |}.
Definition demo_read (c : account_call) : (market_reply + cause) * market :=
  account_read demo_account_gateway (fun _ name => VStr name) (fun _ => None) true (Some "usd") (Some demo_reader) c demo_market.
Definition demo_summary : account_call := GetAccountSummary (VStr "real") (VStr "0") None.

Example account_reads_ex :
  map (fun c => (match fst (demo_read c) with inl _ => true | inr _ => false end, map fst (m_calls (snd (demo_read c)))))
    [demo_summary; GetAssets (VStr "REAL") (VStr "282") (VBool false) None; GetAssets (VStr "SIMULATE") (VStr "0") (VBool false) None;
     GetCashFlow (VStr "REAL") (VStr "281") (VStr ""); GetMarginRatio (VList [VStr "US.AAPL"])]
  = [(true, ["get_acc_list"; "accinfo_query"; "position_list_query"]); (false, []); (false, ["get_acc_list"]);
     (false, ["get_acc_list"; "get_acc_cash_flow"]); (true, ["get_margin_ratio"])]
  /\ match fst (demo_read (GetAccounts None None)) with inl (Records rows) => length rows = 1%nat | _ => False end
  /\ map (fun c => dget_none "currency" (snd c)) (m_calls (snd (demo_read demo_summary))) = [VNone; VStr "USD"; VNone].
Proof. by vm_compute. Qed.

Lemma account_reads_in_scope_witness :
  exists calls, m_calls (snd (demo_read demo_summary)) = calls /\ length calls = 3%nat
    /\ exists e a rest, calls = ("get_acc_list", []) :: rest /\ Forall (names e a) rest.
Proof.
  destruct (account_reads_in_scope demo_account_gateway (fun _ name => VStr name) (fun _ => None) true (Some "usd") (Some demo_reader)
    demo_summary demo_market (fst (demo_read demo_summary)) (snd (demo_read demo_summary)) (surjective_pairing _)) as (calls & Hc & Hk & _).
  assert (Hl : length calls = 3%nat) by (assert (Hx : length (m_calls (snd (demo_read demo_summary))) = 3%nat) by (by vm_compute);
    rewrite Hc in Hx; exact Hx).
  exists calls. split; [exact Hc|]. split; [exact Hl|]. cbn [account_of demo_summary] in Hk.
  destruct Hk as [->|[->|(d & rows & row & e & a & rest & Hr & Hn & _)]]; [discriminate Hl|discriminate Hl|].
  exists e, a, rest. split; [exact Hr|exact Hn].
Defined.
